(* ===== verification/_CoqProject ===== *)
-Q . S2P
Prelude.v
NandCfg.v
Fifo.v
Kernel.v
SysMeta.v
PpaCmd.v
WriteCache.v
WritePath.v
WriteAlloc.v
WriteInv.v
WriteBio.v
WriteSystem.v
WriteTrace.v
Requeue.v
SysFlush.v
BootBlk.v
Mcp.v
PowerCycle.v
Backend.v
Driver.v
FwCfg.v
FwQueue.v
FwRbTree.v
FwBlocks.v
FwPages.v
FwCkpt.v
FwWrite.v
FwSched.v
FwNvme.v
FwFlow.v
FwAdmin.v
FwTyped.v
PbAddr.v
PbRl.v
PbState.v
PbMap.v
PbRb.v
PbRing.v
PbCache.v
PbLine.v
PbWrite.v
PbAlloc.v
PbPage.v
PbProto.v
PbGc.v
LnArea.v
LnMap.v
PbInit.v
