(* ===== verification/Prelude.v ===== *)
(** * sdssd: a verification development of three flash translation layers

    The repository holds prototypes of a flash translation layer (FTL) for NVMe SSDs.
    The driver under src/Host-Base/drivers/fscftl runs the FTL in the Linux kernel, on
    top of an open-channel device; the firmware under src/FW-Base is to run it on the
    controller; and the driver is built in the tree of the host, next to Linux's own FTL
    for such devices, pblk (src/Host-Base/drivers/lightnvm).  This development models the
    three, operation by operation, and proves what they guarantee, and where they do not.
    The programs share no code; the files of the firmware begin with [Fw], those of pblk
    with [Pb], and they share this file with those of the driver ([Fifo] also serves the
    firmware).

    ** The program and the files that model it

    - Geometry and addresses (hwcfg/, utils/, fscftl.h): [NandCfg].  A flash address is a
      32-bit word with bit fields for channel, sector, plane, LUN, page and block.
    - Index-linked FIFOs, the [struct fsc_fifo] of writecache/wcb-mngr.h that both the
      block pool and the LUN buffers use: [Fifo], with a class [Linked] for what can be
      linked and a representation predicate [fifo_rep].
    - What the driver uses of the kernel: [Kernel] (allocation with an oracle and a set of
      live objects, ownership [owns], the class [BioList] of bio lists) and the
      environment [kenv] of [PpaCmd].
    - System tables (systbl/): [SysMeta].  Bad block words, block states, the free pool,
      valid page counts, and the zones of the logical address space.
    - PPA commands (core.c, datapath/ppa-ops.c): [PpaCmd].  DMA address lists, building
      and submitting commands, erase and raw read.
    - Write cache (writecache/): [WriteCache].  The LUN buffers, their FIFOs, their base
      addresses, and the allocation of their memory.
    - Write path (datapath/bio-wr.c): [WritePath] holds the definitions, [WriteAlloc] the
      reservation of slots, [WriteInv] the invariant of the cache, [WriteBio] a whole bio,
      [WriteSystem] the threads as a step relation, [WriteTrace] concrete runs, and
      [Requeue] the bios that have to wait (with namespace.c).
    - System tables into the cache (build_recovery/power-cycle.c): [SysFlush].
    - Boot block (bootblk/): [BootBlk].  First start (build_recovery/mcp.c): [Mcp].  Later
      starts and stops (build_recovery/power-cycle.c): [PowerCycle].
    - User commands (backend/be-cdev.c): [Backend].
    - Start and stop of the whole (fscftl-init.c, namespace.c, hwcfg/regrw.c): [Driver],
      with a class [Resource] for what the components promise to it.
    - This file: faulting computations, machine integers and bit fields, loops.

    A bio enters by [fscftl_make_rq]; [process_write_bio] reserves slots in the partial LUN
    buffer, copies the data and updates the mapping; the copy that fills a buffer queues it;
    [submit_write_backend] sends its eight lines to the device, and the completion of the
    last one ([wrppa_lun_completion]) makes the buffer empty again and wakes the thread
    that takes up waiting bios.  Before that, [fscftl_module_init] brings up the tables,
    the boot block, the cache and the disk.

    ** The firmware

    The firmware is unfinished: it does not compile, and calls functions it does not have.
    What it does define is modelled as it is written; a name without a definition is a
    parameter, and a syntax slip is read in the one way that makes sense (each file says
    where).
    - Geometry, addresses, numbering of dies (config/cfg.h, include/utils.h,
      main/legacy.c): [FwCfg].
    - Containers: pointer-linked queues (lib/queue.h) [FwQueue], the red-black tree
      (lib/rb-tree.c) [FwRbTree], index-linked lists and the free list of blocks
      (include/list.h, ftl/rblock_mgmt.c) [FwBlocks].
    - Bad blocks, page types, parity and log dies (ftl/badblock_mgmt.c, ftl/sys_tbl.c,
      error-handle/raif.c): [FwPages]; first pages, log page buffers and the assignment of
      addresses (ftl/write_insertion.c, datapath/host_write.c): [FwWrite]; checkpoints
      (ckpt/): [FwCkpt].
    - Tasks and events (xos/, main/main.c): [FwSched].
    - NVMe commands: views of an entry, commands on queues, namespaces, Format (admin/,
      include/nvme_spec.h) [FwNvme]; the flow of a host command through pending queues and
      ports (datapath/) [FwFlow]; admin commands and the firmware's own data movement
      [FwAdmin]; both as the steps of a transition system, and the widths of the bit
      fields of the messages (include/msg_fmt.h) [FwTyped].

    A command arrives by [hdc_host_cmd_task]: an admin command is handled at once
    ([handle_nvme_admin_command]), a read or write goes through the pending queue to its
    flow ([write_datapath_hdc], [read_datapath_hdc]); the hardware answers by
    [phif_cmd_response_to_hdc] and [phif_rwdma_response_to_hdc].

    ** pblk

    The data is written to a ring in memory first, and from there to lines: sets of one
    block of every LUN.  A translation map says for every logical sector whether it is in
    the ring, in a line, or nowhere.
    - Addresses (include/linux/lightnvm.h, pblk.h): [PbAddr].  The rate limiter and the
      switch of the collector (pblk-rl.c): [PbRl].
    - State of an instance, with what is asked of the kernel (class [Kops]): [PbState].
    - The map and the valid sectors of lines (pblk-core.c, pblk-map.c): [PbMap], with the
      invariant [acct_inv] between map, bitmaps, counters, lists and references.
    - The ring (pblk-rb.c): [PbRb]; its invariant [ring_inv] and that every operation keeps
      it: [PbRing]; the interleavings of writers, write thread and completions, and the
      ring as a queue: [PbProto].
    - Writes to the ring and reads (pblk-cache.c, pblk-read.c): [PbCache].
    - Lines (pblk-core.c): [PbLine].  Sectors for a request, the write thread, completion
      and recovery of failed writes (pblk-map.c, pblk-write.c, pblk-recovery.c): [PbWrite],
      with [PbAlloc] for the pages that an open line gives out and [PbPage] for a page that
      becomes the addresses of entries of the ring.
    - The garbage collector (pblk-gc.c): [PbGc].  Making an instance and releasing it
      (pblk-init.c): [PbInit].

    - Below pblk, the core of LightNVM (core.c): [LnMap], the sub-device that a target gets
      of a device, with its addresses; [LnArea], ranges of the logical address space.

    A write ([pblk_write_to_cache]) waits for the limiter, takes room in the ring at [mem],
    copies its sectors and points the map at them.  The write thread ([pblk_submit_write])
    takes entries at [subm], gives them sectors of the open line, and sends them with the
    erase of a block of the next line; the completion ([pblk_end_io_write]) advances
    [sync]; when a writer needs the entry again, [pblk_rb_update_l2p] points the map at the
    device.  A line whose valid sectors are few is taken by the collector, which reads them
    and writes them to the ring again.

    ** How the code is represented

    State is passed explicitly ([ftl] for the write path, [pstate] for DMA memory and the
    heap, [sysmeta] for the tables, [driver] for the whole); a computation is of type
    [res]: a [BUG_ON] that holds, an access outside an array, a [NULL] dereference, a
    release of what is not allocated, and an endless wait are faults.  Integers keep their
    width ([u16], [u32], [s32]) where the code computes with them.  Arrays are finite maps
    whose keys are checked.  Threads are interleaved at the granularity of their lock
    sections and of one slot copy ([wstep] of [WriteSystem], [rstep] of [Requeue]).
    The kernel, the device and user memory are parameters: an allocation oracle, a
    function from commands and the memory they see to a status, and the order of
    completions.

    ** What the theorems show

    - The write path: the invariant of the cache under every interleaving, what a submitted
      buffer holds, what a bio does, that every reachable state can go on and can drain,
      and when a buffer is released ([reachable_cache_ok], [submitted_lun_complete],
      [process_write_bio_spec], [reachable_no_fault], [reachable_can_drain],
      [lun_done_on_last_line], [alloc_wcb_core_terminates], [resubmit_in_order]).
    - The tables: the pool refines a queue, base addresses do not repeat, marks are found
      again ([free_list_fifo], [baddr_sequence_no_reuse], [mark_bbt_tbl_query]).
    - Start, stop and boot block: what a first start leaves, what a later one does, the
      round trip of the bad block table ([module_init_ready], [manufactory_init_spec],
      [try_recovery_systbl_spec], [bbt_flush_recover]).
    - Commands: what reaches the device, and that nothing leaks ([user_cmd_runs],
      [ersppa_sync_spec], [write_cache_alloc_ok]).
    - The firmware: the life of a read or write ([io_lifecycle]), the two flows agree and
      end ([flows_agree_and_terminate]), commands on queues ([queue_commands_status]),
      address assignment and checkpoints ([assign_ppa_spec], [apply_ckpt_spec],
      [monitor_period]), the tree and the free list refine their specifications
      ([rb_insert_refines], [fw_free_list_fifo]), dies and log pages ([lastn_good_die_spec],
      [log_index_injective]), the widths of all that is sent ([messages_typed]), events
      ([event_runs_ready_once]); and
      that it is not yet fit for use: no command to an initialised controller reaches the
      hardware ([io_never_served]), no task ever runs ([firmware_runs_nothing]), chunks
      are miscounted ([chunk_completions]), the tree is never balanced
      ([ascending_keys_degenerate]), a second waiting command is lost
      ([second_busy_command_lost]).
    - pblk: the accounts of the lines are right after any sequence of updates
      ([map_accounting]); under every interleaving the ring is a queue that loses and
      reorders nothing ([write_buffer_is_queue]); a page given out for entries of the ring
      keeps its invariant ([map_page_keeps_ring]); completions that come out of order take
      effect in order ([complete_write_in_order]); a read returns what was written last
      ([read_returns_content]); the collector asks for every valid sector of a victim once,
      and takes victims only from its lists ([gc_requests_cover_victim],
      [gc_run_takes_victims]); addresses survive their conversions ([line_addr_roundtrip],
      [dev_addr_roundtrip]), also those of a target on a part of a device
      ([sub_device_addresses]); areas are taken first fit ([get_area_first_fit]); the limiter splits
      the ring as its state says ([rates_split_budget]); and a new instance satisfies the
      invariants these theorems start from, whatever blocks are bad
      ([fresh_instance_ready]).
    - Errors of the code, as theorems about its model: a lost mapping update, a lost
      wake-up, writes over the boot block, memory released while in use, unchecked
      lengths, and clean-ups that leak or fault; in pblk, a line put back that is on no
      list ([put_line_back_unlists]), a line freed with valid data when its metadata is bad
      ([bad_emeta_frees_line]), a request of one sector that the collector does not move
      ([single_sector_not_moved]); in the core, a map written behind its end
      ([straddling_range_overflows]); in the set up of pblk, failures that are not reported
      ([lines_init_failure_unreported]) or leave memory behind ([init_failure_leaks]).

    ** Fuel and bounds

    [ALLOC_FUEL] of [WritePath] exceeds the number of rounds the allocation loop can make
    ([alloc_wcb_core_terminates]); [resubmit_wr_bios_list] ends when its fuel exceeds the
    length of the list; the loop over a system table ends when its fuel exceeds the number
    of pages, if the cache does not stay full ([flush_ftl_internal_systbl_spec]); the
    clean-up loop [free_lun_mem] has as much fuel as there are buffers.  In the firmware,
    the descent in the tree has the size of the heap ([rb_fuel]), the flows need more fuel
    than the pending queues hold entries ([flows_agree_and_terminate]), and the assignment
    of addresses more than the addresses it passes ([assign_ppa_spec]).  In pblk, the loop
    of the collector over a victim has one round more than the victim has valid sectors
    ([gc_requests_cover_victim]), the search for the sizes of the metadata ends within a line
    ([line_meta_ok]), and a retry of a read as many as its caller allows; a wait
    for another thread is [F_FUEL], so the step is taken when the wait is over.  No theorem
    rests on a run that returns because fuel ran out: that is the fault [F_FUEL].

    ** Not modelled

    - src/Host-Base/drivers/nvme and include are Linux kernel code kept in the tree; what
      the driver uses of them is a parameter.  Of drivers/lightnvm, the rest of core.c
      (registration of devices and targets, ioctls), rrpc.c (an older FTL that pblk
      replaces) and pblk-sysfs.c (printing) are not modelled, nor are [pblk_submit_rec], the
      marking of grown bad blocks and reading back the start metadata of a line, the start
      and stop of pblk's threads and timers, and [pblk_exit].
    - Time stamps, statistics, trace output and the printing helpers: no other code depends
      on them.  The read-retry tables of hwcfg/ are data no modelled code reads.
    - [fscftl_requeue_workfn] is [resubmit_wr_bios_list] on a work queue that only the
      simulated completion [fscftl_yirq_workfn] uses.
    - Of src/FW-Base: power-cycle/, bootblock/, fif/, recycle/ and the saving and restoring
      of ckpt/ are calls of functions that the repository does not have, and empty bodies;
      include/nvme_spec.h and include/msg_fmt.h only as far as the code reads them;
      [wdp_update_ftl_log] writes through a pointer that is never set; main/verify_main.c
      tests the containers.
*)

From stdpp Require Export base tactics option list numbers list_numbers gmap.
From Stdlib Require Export ZArith Lia.

#[global] Open Scope Z_scope.
#[global] Set Default Goal Selector "!".
#[global] Set Default Proof Using "Type".

(** ** Faulting computations *)

(** What the C code does when it leaves its defined behaviour: a failed [BUG_ON],
    an access outside an array, a dereference of [NULL], or a model loop
    whose fuel ran out. *)
Inductive fault : Type :=
  | F_BUG
  | F_OOB
  | F_NULL
  | F_FUEL.

Inductive res (A : Type) : Type :=
  | Ok (a : A)
  | Fault (f : fault).

Arguments Ok {A} a.
Arguments Fault {A} f.

#[global] Instance fault_eq_dec : EqDecision fault.
Proof. solve_decision. Defined.

#[global] Instance res_ret : MRet res := λ A a, Ok a.
#[global] Instance res_bind : MBind res := λ A B f m,
  match m with Ok a => f a | Fault e => Fault e end.

(** [BUG_ON(c)]: the kernel stops when [c] holds. *)
Definition BUG_ON (P : Prop) `{Decision P} : res unit :=
  if decide P then Fault F_BUG else Ok tt.

(** Dereference of a pointer that may be [NULL]. *)
Definition deref {A} (o : option A) : res A :=
  match o with Some a => Ok a | None => Fault F_NULL end.

(** Access to an element of an array: present keys are the valid indices. *)
Definition aread {A} (m : gmap Z A) (i : Z) : res A :=
  match m !! i with Some a => Ok a | None => Fault F_OOB end.

(** Zero-initialised (or pattern-initialised) array of [n] words: keys that were
    never written hold the initial value [d]. *)
Definition wread (n d : Z) (m : gmap Z Z) (i : Z) : res Z :=
  if decide (0 ≤ i < n) then Ok (default d (m !! i)) else Fault F_OOB.

Definition wwrite (n : Z) (m : gmap Z Z) (i v : Z) : res (gmap Z Z) :=
  if decide (0 ≤ i < n) then Ok (<[i:=v]> m) else Fault F_OOB.

(** A counted loop: the body runs on each element in order. *)
Fixpoint mfor {A S} (l : list A) (f : A → S → res S) (s : S) : res S :=
  match l with
  | [] => Ok s
  | a :: l' => s' ← f a s; mfor l' f s'
  end.

(** ** Machine integers *)

Definition u8 (z : Z) : Z := z mod 2 ^ 8.
Definition u16 (z : Z) : Z := z mod 2 ^ 16.
Definition u32 (z : Z) : Z := z mod 2 ^ 32.
Definition u64 (z : Z) : Z := z mod 2 ^ 64.

#[global] Arguments u8 : simpl never.
#[global] Arguments u16 : simpl never.
#[global] Arguments u32 : simpl never.
#[global] Arguments u64 : simpl never.

(** Two's complement reading of a 32-bit pattern, for C [int]. *)
Definition s32 (z : Z) : Z :=
  let m := z mod 2 ^ 32 in if decide (m < 2 ^ 31) then m else m - 2 ^ 32.

(** A C bit field of [w] bits that starts at bit [lo] of a word. *)
Definition get_bits (lo w x : Z) : Z := Z.land (Z.shiftr x lo) (Z.ones w).

Definition set_bits (lo w v x : Z) : Z :=
  Z.lor (Z.ldiff x (Z.shiftl (Z.ones w) lo)) (Z.shiftl (Z.land v (Z.ones w)) lo).

(** ** Automation *)

Create HintDb ftl.
Create Rewrite HintDb ftl.
Create HintDb cfg.

(** Take the successful prefix of a monadic run apart. *)
Lemma bind_Ok {A B} (m : res A) (f : A → res B) (b : B) :
  m ≫= f = Ok b ↔ ∃ a, m = Ok a ∧ f a = Ok b.
Proof.
  destruct m; cbn; split.
  - eauto.
  - by intros (? & [= ->] & ?).
  - done.
  - by intros (? & ? & ?).
Qed.

Lemma bind_Ok_l {A B} (a : A) (f : A → res B) : Ok a ≫= f = f a.
Proof. done. Qed.

Lemma bind_ext {A B} (m : res A) (f g : A → res B) : (∀ a, f a = g a) → m ≫= f = m ≫= g.
Proof. intros Hfg. destruct m; cbn; [apply Hfg|done]. Qed.

Lemma BUG_ON_Ok (P : Prop) `{Decision P} u : BUG_ON P = Ok u ↔ ¬ P.
Proof. unfold BUG_ON. destruct u. case_decide; naive_solver. Qed.

Lemma BUG_ON_pass (P : Prop) `{Decision P} : ¬ P → BUG_ON P = Ok tt.
Proof. intros. by apply BUG_ON_Ok. Qed.

Lemma aread_Ok {A} (m : gmap Z A) i a : aread m i = Ok a ↔ m !! i = Some a.
Proof. unfold aread. destruct (m !! i); naive_solver. Qed.

Lemma aread_Some {A} (m : gmap Z A) i a : m !! i = Some a → aread m i = Ok a.
Proof. by rewrite aread_Ok. Qed.

Lemma aread_None {A} (m : gmap Z A) i : m !! i = None → aread m i = Fault F_OOB.
Proof. unfold aread. by intros ->. Qed.

Lemma deref_Ok {A} (o : option A) a : deref o = Ok a ↔ o = Some a.
Proof. destruct o; cbn; naive_solver. Qed.

Lemma wread_in n d m i : 0 ≤ i < n → wread n d m i = Ok (default d (m !! i)).
Proof. intros. unfold wread. by rewrite decide_True. Qed.

Lemma wwrite_in n m i v : 0 ≤ i < n → wwrite n m i v = Ok (<[i:=v]> m).
Proof. intros. unfold wwrite. by rewrite decide_True. Qed.

Ltac inv_ok_step :=
  match goal with
  | H : mbind _ _ = Ok _ |- _ =>
      let a := fresh "r" in let E := fresh "Er" in
      apply bind_Ok in H as (a & E & H)
  | H : BUG_ON _ = Ok _ |- _ => apply BUG_ON_Ok in H
  | H : aread _ _ = Ok _ |- _ => apply aread_Ok in H
  | H : deref _ = Ok _ |- _ => apply deref_Ok in H
  | H : Ok _ = Ok _ |- _ => injection H as H
  | H : mret _ = Ok _ |- _ => injection H as H
  | H : Fault _ = Ok _ |- _ => discriminate H
  | H : (_, _) = (_, _) |- _ => injection H as H
  | x : (_ * _)%type |- _ => destruct x
  end; simplify_eq/=.
Ltac inv_ok := repeat inv_ok_step.

(** Membership in concatenations, from the hypothesis [H] only. *)
Ltac list_mem H :=
  clear -H;
  repeat first [rewrite elem_of_app in H | rewrite list_elem_of_singleton in H |
                rewrite elem_of_cons in H];
  repeat first [rewrite elem_of_app | rewrite list_elem_of_singleton | rewrite elem_of_cons];
  tauto.

(** ** Loops *)

Lemma mfor_app {A S} (l1 l2 : list A) (f : A → S → res S) s :
  mfor (l1 ++ l2) f s = s' ← mfor l1 f s; mfor l2 f s'.
Proof.
  revert s. induction l1 as [|a l1 IH]; intros s; cbn; [done|].
  destruct (f a s); cbn; [apply IH | done].
Qed.

(** Invariant rule: an invariant that also tracks the elements already visited. *)
Lemma mfor_inv {A S} (I : list A → S → Prop) (f : A → S → res S) l s :
  I [] s →
  (∀ done a todo s, l = done ++ a :: todo → I done s →
     ∃ s', f a s = Ok s' ∧ I (done ++ [a]) s') →
  ∃ s', mfor l f s = Ok s' ∧ I l s'.
Proof.
  intros H0 Hstep.
  assert (∀ todo done s, l = done ++ todo → I done s →
            ∃ s', mfor todo f s = Ok s' ∧ I l s') as Haux.
  { induction todo as [|a todo IH]; intros dn s1 -> HI; cbn.
    - rewrite app_nil_r in *. eauto.
    - destruct (Hstep dn a todo s1 eq_refl HI) as (s2 & -> & HI2). cbn.
      destruct (IH (dn ++ [a]) s2) as (s3 & -> & HI3); [|done|].
      { by rewrite <-app_assoc. }
      eauto. }
  by apply (Haux l [] s).
Qed.

(** ** Bit fields *)

Lemma ones_testbit w i :
  0 ≤ w → 0 ≤ i → Z.testbit (Z.ones w) i = bool_decide (i < w).
Proof.
  intros. case_bool_decide.
  - apply Z.ones_spec_low. lia.
  - apply Z.ones_spec_high. lia.
Qed.

Lemma get_bits_testbit lo w x i :
  0 ≤ lo → 0 ≤ w → 0 ≤ i →
  Z.testbit (get_bits lo w x) i = bool_decide (i < w) && Z.testbit x (i + lo).
Proof.
  intros. unfold get_bits.
  rewrite Z.land_spec, Z.shiftr_spec, ones_testbit by lia. by rewrite andb_comm.
Qed.

Lemma set_bits_testbit lo w v x i :
  0 ≤ lo → 0 ≤ w → 0 ≤ i →
  Z.testbit (set_bits lo w v x) i =
    if bool_decide (lo ≤ i < lo + w) then Z.testbit v (i - lo) else Z.testbit x i.
Proof.
  intros. unfold set_bits.
  rewrite Z.lor_spec, Z.ldiff_spec, !Z.shiftl_spec by lia.
  destruct (decide (lo ≤ i)).
  - rewrite Z.land_spec, !ones_testbit by lia.
    repeat case_bool_decide; try lia;
      destruct (Z.testbit x i), (Z.testbit v (i - lo)); done.
  - rewrite !(Z.testbit_neg_r _ (i - lo)) by lia.
    case_bool_decide; [lia|]. by destruct (Z.testbit x i).
Qed.

Lemma get_set_bits_eq lo w v x :
  0 ≤ lo → 0 ≤ w → get_bits lo w (set_bits lo w v x) = v mod 2 ^ w.
Proof.
  intros. rewrite <-Z.land_ones by lia. apply Z.bits_inj'. intros i ?.
  rewrite get_bits_testbit, Z.land_spec, ones_testbit, set_bits_testbit by lia.
  replace (i + lo - lo) with i by lia.
  repeat case_bool_decide; try lia; by destruct (Z.testbit v i).
Qed.

Lemma get_set_bits_ne lo w lo' w' v x :
  0 ≤ lo → 0 ≤ w → 0 ≤ lo' → 0 ≤ w' → lo + w ≤ lo' ∨ lo' + w' ≤ lo →
  get_bits lo w (set_bits lo' w' v x) = get_bits lo w x.
Proof.
  intros. apply Z.bits_inj'. intros i ?.
  rewrite !get_bits_testbit, set_bits_testbit by lia.
  repeat case_bool_decide; try lia; done.
Qed.

Lemma set_set_bits lo w v v' x :
  0 ≤ lo → 0 ≤ w → set_bits lo w v (set_bits lo w v' x) = set_bits lo w v x.
Proof.
  intros. apply Z.bits_inj'. intros i Hi. rewrite !set_bits_testbit by lia.
  by case_bool_decide.
Qed.

Lemma get_bits_div lo w x : 0 ≤ lo → 0 ≤ w → get_bits lo w x = (x / 2 ^ lo) mod 2 ^ w.
Proof. intros. unfold get_bits. by rewrite Z.land_ones, Z.shiftr_div_pow2 by lia. Qed.

Lemma get_bits_range lo w x : 0 ≤ lo → 0 ≤ w → 0 ≤ get_bits lo w x < 2 ^ w.
Proof. intros. rewrite get_bits_div by lia. apply Z.mod_pos_bound. lia. Qed.

Lemma get_bits_0 lo w : 0 ≤ w → get_bits lo w 0 = 0.
Proof. intros. unfold get_bits. by rewrite Z.shiftr_0_l, Z.land_0_l. Qed.

(** A word is below [2^n] exactly when its bits from [n] on are zero. *)
Lemma testbit_bound x n :
  0 ≤ n → 0 ≤ x → (∀ i, n ≤ i → Z.testbit x i = false) → x < 2 ^ n.
Proof.
  intros Hn Hx Hb. destruct (decide (x = 0)) as [->|Hx0]; [lia|].
  apply Z.log2_lt_pow2; [lia|].
  destruct (decide (n ≤ Z.log2 x)) as [Hl|]; [|lia].
  specialize (Hb _ Hl). rewrite Z.bit_log2 in Hb by lia. done.
Qed.

Lemma testbit_high x n i : 0 ≤ x < 2 ^ n → n ≤ i → Z.testbit x i = false.
Proof.
  intros Hx Hi. destruct (decide (x = 0)) as [->|]; [apply Z.testbit_0_l|].
  apply Z.bits_above_log2; [lia|]. apply Z.lt_le_trans with n; [|done].
  apply Z.log2_lt_pow2; lia.
Qed.

Lemma set_bits_bound lo w v x n :
  0 ≤ lo → 0 ≤ w → lo + w ≤ n → 0 ≤ x < 2 ^ n → 0 ≤ set_bits lo w v x < 2 ^ n.
Proof.
  intros. assert (0 ≤ set_bits lo w v x).
  { unfold set_bits. apply Z.lor_nonneg. split.
    - apply Z.ldiff_nonneg. lia.
    - apply Z.shiftl_nonneg. apply Z.land_nonneg. right. rewrite Z.ones_equiv. lia. }
  split; [done|]. apply testbit_bound; [lia|done|]. intros i Hi.
  rewrite set_bits_testbit by lia. case_bool_decide; [lia|].
  by apply testbit_high with n.
Qed.

(** Two words of [n] bits that agree on a partition of their bits are equal;
    a word is rebuilt from a low part and the rest. *)
Lemma word_split x n : 0 ≤ n → x = get_bits 0 n x + 2 ^ n * (x / 2 ^ n).
Proof.
  intros. rewrite get_bits_div by lia. rewrite Z.pow_0_r, Z.div_1_r.
  rewrite Z.add_comm. apply Z.div_mod. lia.
Qed.

(** ** Small facts on words *)

Lemma u32_small z : 0 ≤ z < 2 ^ 32 → u32 z = z.
Proof. apply Z.mod_small. Qed.

Lemma s32_small z : 0 ≤ z < 2 ^ 31 → s32 z = z.
Proof. intros. unfold s32. rewrite Z.mod_small by lia. by rewrite decide_True by lia. Qed.

Lemma u16_small z : 0 ≤ z < 2 ^ 16 → u16 z = z.
Proof. apply Z.mod_small. Qed.

Lemma u8_small z : 0 ≤ z < 2 ^ 8 → u8 z = z.
Proof. apply Z.mod_small. Qed.

Lemma u64_small z : 0 ≤ z < 2 ^ 64 → u64 z = z.
Proof. apply Z.mod_small. Qed.

#[export] Hint Rewrite u32_small u16_small u8_small u64_small using lia : ftl.

(** ** Lists without repetition inside a bounded range *)

Lemma NoDup_range_length (l : list Z) (n : Z) :
  NoDup l → (∀ x, x ∈ l → 0 ≤ x < n) → Z.of_nat (length l) ≤ Z.max 0 n.
Proof.
  intros Hnd Hr.
  assert (length l ≤ length (seqZ 0 n))%nat as Hle.
  { apply submseteq_length, NoDup_submseteq; [done|].
    intros x Hx. apply elem_of_seqZ. specialize (Hr x Hx). lia. }
  rewrite length_seqZ in Hle. lia.
Qed.

(* filters that agree on a list *)
Lemma filter_same_in {A} (P Q : A → Prop) `{∀ x, Decision (P x), ∀ x, Decision (Q x)} (l : list A) :
  (∀ x, x ∈ l → P x ↔ Q x) → filter P l = filter Q l.
Proof.
  induction l as [|x l IH]; intros Hpq; [done|]. rewrite !filter_cons, IH by (intros; apply Hpq; by right).
  apply decide_ext, Hpq. by left.
Qed.

Lemma filter_all_in {A} (P : A → Prop) `{∀ x, Decision (P x)} (l : list A) : Forall P l → filter P l = l.
Proof. induction 1 as [|x l Hx _ IH]; [done|]. by rewrite filter_cons, decide_True, IH. Qed.

Lemma seqZ_snoc i : 0 ≤ i → seqZ 0 (i + 1) = seqZ 0 i ++ [i].
Proof. intros. rewrite (seqZ_app 0 i 1) by lia. done. Qed.
