(* ===== verification/NandCfg.v ===== *)
(** * Flash geometry and the physical page address

    [hwcfg/cfg/cfg_2TB_MCL95B.h] (the configuration [flash_cfg.h] selects),
    [hwcfg/cfg/flash_cfg.h], the bit macros of [utils/utils.h] and the opcodes
    and access flags of [fscftl.h] and [include/linux/lightnvm.h].

    A [geo_ppa] is the 32-bit word of [struct physical_address]; its [nand] and
    [cache] views are bit fields of that word. *)

From S2P Require Import Prelude.

#[local] Open Scope Z_scope.

(** ** Constants *)

Definition CAPACITY : Z := Z.shiftl 1 41.
Definition CH_BITS : Z := 4.
Definition EP_BITS : Z := 2.
Definition PL_BITS : Z := 1.
Definition LN_BITS : Z := 3.
Definition PG_BITS : Z := 9.
Definition BL_BITS : Z := 10.
Definition CFG_NAND_EP_NUM : Z := Z.shiftl 1 EP_BITS.
Definition CFG_NAND_CHANNEL_NUM : Z := 16.
Definition CFG_NAND_LUN_NUM : Z := 8.
Definition CFG_NAND_BLOCK_NUM : Z := 128.
Definition CFG_NAND_PAGE_NUM : Z := 512.
Definition CFG_NAND_PLANE_NUM : Z := 2.
Definition CFG_NAND_PAGE_SIZE : Z := 16384.
Definition CFG_NAND_EP_SIZE : Z := 4096.
Definition CFG_DRIVE_EP_NUM : Z := CFG_NAND_PAGE_SIZE / CFG_NAND_EP_SIZE.
Definition CFG_DRIVE_LINE_NUM : Z := CFG_NAND_PLANE_NUM * CFG_DRIVE_EP_NUM.

Definition SEC_PER_PPA : Z := 8.
Definition EXP_PPA_SIZE : Z := 4096.
Definition MAX_PPA_PER_CMD : Z := 64.
Definition NAND_RAW_SIZE : Z := 304.
Definition NAND_META_SIZE : Z := 16.

(** The kernel's page size on the platforms the driver targets. *)
Definition PAGE_SIZE : Z := 4096.

#[export] Hint Unfold CAPACITY CH_BITS EP_BITS PL_BITS LN_BITS PG_BITS BL_BITS
  CFG_NAND_EP_NUM CFG_NAND_CHANNEL_NUM CFG_NAND_LUN_NUM CFG_NAND_BLOCK_NUM
  CFG_NAND_PAGE_NUM CFG_NAND_PLANE_NUM CFG_NAND_PAGE_SIZE CFG_NAND_EP_SIZE
  CFG_DRIVE_EP_NUM CFG_DRIVE_LINE_NUM SEC_PER_PPA EXP_PPA_SIZE
  MAX_PPA_PER_CMD NAND_RAW_SIZE NAND_META_SIZE PAGE_SIZE : cfg.

(** The opcodes of the PPA command set ([fscftl.h]) and of LightNVM. *)
Definition NVM_OP_ESPPA : Z := 0x90.
Definition NVM_OP_WRPPA : Z := 0x91.
Definition NVM_OP_RDPPA : Z := 0x92.
Definition NVM_OP_WRRAW : Z := 0x95.
Definition NVM_OP_RDRAW : Z := 0x96.
Definition NVM_OP_ERASE : Z := 0x90.

Definition NVM_IO_SNGL_ACCESS : Z := 0x0.
Definition NVM_IO_DUAL_ACCESS : Z := 0x1.
Definition NVM_IO_QUAD_ACCESS : Z := 0x2.
Definition NVM_IO_SCRAMBLE_ENABLE : Z := 0x200.

#[global] Arguments NVM_OP_ESPPA : simpl never.
#[global] Arguments NVM_OP_WRPPA : simpl never.
#[global] Arguments NVM_OP_RDPPA : simpl never.
#[global] Arguments NVM_OP_WRRAW : simpl never.
#[global] Arguments NVM_OP_RDRAW : simpl never.
#[global] Arguments NVM_OP_ERASE : simpl never.
#[global] Arguments NVM_IO_SNGL_ACCESS : simpl never.
#[global] Arguments NVM_IO_DUAL_ACCESS : simpl never.
#[global] Arguments NVM_IO_QUAD_ACCESS : simpl never.
#[global] Arguments NVM_IO_SCRAMBLE_ENABLE : simpl never.

(** ** Bit macros of [utils.h] *)

Definition BIT_TEST (f bitnum : Z) : bool :=
  negb (bool_decide (Z.land f (Z.shiftl 1 bitnum) = 0)).
Definition BIT_SET (f bitnum : Z) : Z := Z.lor f (Z.shiftl 1 bitnum).
Definition BIT_CLEAR (f bitnum : Z) : Z := Z.ldiff f (Z.shiftl 1 bitnum).
Definition BIT2MASK (width : Z) : Z := u64 (Z.shiftl 1 width - 1).

(** The [for_each_*] loop headers: the sequence of values of the loop variable. *)
Definition for_each_ch : list Z := seqZ 0 CFG_NAND_CHANNEL_NUM.
Definition for_each_sec : list Z := seqZ 0 CFG_NAND_EP_NUM.
Definition for_each_pl : list Z := seqZ 0 CFG_NAND_PLANE_NUM.
Definition for_each_lun : list Z := seqZ 0 CFG_NAND_LUN_NUM.
Definition for_each_blk : list Z := seqZ 0 CFG_NAND_BLOCK_NUM.
Definition for_each_blk_reverse : list Z := reverse (seqZ 0 CFG_NAND_BLOCK_NUM).

(** ** [struct physical_address] *)

(** The word; its views are the functions below. *)
Notation geo_ppa := Z (only parsing).

Definition nand_ch (p : geo_ppa) : Z := get_bits 0 4 p.
Definition nand_sec (p : geo_ppa) : Z := get_bits 4 2 p.
Definition nand_pl (p : geo_ppa) : Z := get_bits 6 1 p.
Definition nand_lun (p : geo_ppa) : Z := get_bits 7 3 p.
Definition nand_pg (p : geo_ppa) : Z := get_bits 10 9 p.
Definition nand_blk (p : geo_ppa) : Z := get_bits 19 12 p.
Definition nand_resved (p : geo_ppa) : Z := get_bits 31 1 p.

Definition set_nand_ch (v : Z) (p : geo_ppa) : geo_ppa := set_bits 0 4 v p.
Definition set_nand_sec (v : Z) (p : geo_ppa) : geo_ppa := set_bits 4 2 v p.
Definition set_nand_pl (v : Z) (p : geo_ppa) : geo_ppa := set_bits 6 1 v p.
Definition set_nand_lun (v : Z) (p : geo_ppa) : geo_ppa := set_bits 7 3 v p.
Definition set_nand_pg (v : Z) (p : geo_ppa) : geo_ppa := set_bits 10 9 v p.
Definition set_nand_blk (v : Z) (p : geo_ppa) : geo_ppa := set_bits 19 12 v p.

Definition cache_in_cache (p : geo_ppa) : Z := get_bits 31 1 p.
Definition set_cache_in_cache (v : Z) (p : geo_ppa) : geo_ppa := set_bits 31 1 v p.

(** ** [flash_cfg.h] *)

(** [INCRE_BOUNDED(n, bits, carry)]: the incremented counter and the carry.
    The macro compares after the increment of [n] at its own width. *)
Definition INCRE_BOUNDED (wrap : Z → Z) (n bits : Z) : Z * bool :=
  let n' := wrap (n + 1) in
  if decide (n' = Z.shiftl 1 bits) then (0, true) else (n', false).

Definition IF_CARRY_THEN_INCRE_BOUNDED
    (wrap : Z → Z) (carry : bool) (n bits : Z) : Z * bool :=
  if carry then INCRE_BOUNDED wrap n bits else (n, carry).

(** Regions of an address, in the order of the C parameters:
    [(ch, sec, pl, lun, pg, blk)]. *)
Definition get_ppa_each_region (p : geo_ppa) : Z * Z * Z * Z * Z * Z :=
  (u8 (nand_ch p), u8 (nand_sec p), u8 (nand_pl p), u8 (nand_lun p),
   u16 (nand_pg p), u16 (nand_blk p)).

Definition set_ppa_nand_addr (ch sec pl lun pg blk : Z) : geo_ppa :=
  let p := 0 in
  let p := set_nand_ch (u8 ch) p in
  let p := set_nand_sec (u8 sec) p in
  let p := set_nand_pl (u8 pl) p in
  let p := set_nand_lun (u8 lun) p in
  let p := set_nand_pg (u16 pg) p in
  set_nand_blk (u16 blk) p.

(** ** Lemmas *)

(** Unfold the configuration and call [lia]. *)
Ltac cfg_lia := autounfold with cfg in *; cbn in *; lia.

Create HintDb ppa_fields.
#[export] Hint Unfold nand_ch nand_sec nand_pl nand_lun nand_pg nand_blk
  nand_resved set_nand_ch set_nand_sec set_nand_pl set_nand_lun set_nand_pg
  set_nand_blk cache_in_cache set_cache_in_cache : ppa_fields.

(** Read a field through a tower of field assignments. *)
Ltac ppa_field :=
  autounfold with ppa_fields;
  repeat first
    [ rewrite get_set_bits_ne by lia
    | rewrite get_set_bits_eq by lia
    | rewrite get_bits_0 by lia ].

Definition geo_fields_ok (ch sec pl lun pg blk : Z) : Prop :=
  0 ≤ ch < 16 ∧ 0 ≤ sec < 4 ∧ 0 ≤ pl < 2 ∧ 0 ≤ lun < 8 ∧ 0 ≤ pg < 512 ∧
  0 ≤ blk < 4096.

Lemma set_ppa_nand_addr_bound ch sec pl lun pg blk :
  0 ≤ set_ppa_nand_addr ch sec pl lun pg blk < 2 ^ 31.
Proof.
  unfold set_ppa_nand_addr. cbv zeta. autounfold with ppa_fields.
  repeat (apply set_bits_bound; [lia..|]). lia.
Qed.

Lemma set_ppa_nand_addr_fields ch sec pl lun pg blk :
  geo_fields_ok ch sec pl lun pg blk →
  let p := set_ppa_nand_addr ch sec pl lun pg blk in
  nand_ch p = ch ∧ nand_sec p = sec ∧ nand_pl p = pl ∧ nand_lun p = lun ∧
  nand_pg p = pg ∧ nand_blk p = blk.
Proof.
  intros (?&?&?&?&?&?). unfold set_ppa_nand_addr, u8, u16. cbn zeta.
  rewrite !Z.mod_small by lia.
  repeat split; ppa_field; apply Z.mod_small; lia.
Qed.

(** The nand view covers the 31 low bits: an address is the sum of its fields. *)
Lemma nand_fields_sum p :
  0 ≤ p < 2 ^ 31 →
  p = nand_ch p + 2 ^ 4 * nand_sec p + 2 ^ 6 * nand_pl p + 2 ^ 7 * nand_lun p +
      2 ^ 10 * nand_pg p + 2 ^ 19 * nand_blk p.
Proof.
  intros. autounfold with ppa_fields. rewrite !get_bits_div by lia.
  change (2 ^ 0) with 1. rewrite Z.div_1_r.
  Z.to_euclidean_division_equations. lia.
Qed.

(** Adding an offset below one LUN stripe to a stripe-aligned address only
    touches the channel, sector and plane fields. *)
Lemma stripe_offset_fields base off :
  0 ≤ base < 2 ^ 31 → nand_ch base = 0 → nand_sec base = 0 → nand_pl base = 0 →
  0 ≤ off < 128 →
  nand_ch (base + off) = off mod 16 ∧
  nand_sec (base + off) = (off / 16) mod 4 ∧
  nand_pl (base + off) = off / 64 ∧
  nand_lun (base + off) = nand_lun base ∧
  nand_pg (base + off) = nand_pg base ∧
  nand_blk (base + off) = nand_blk base.
Proof.
  autounfold with ppa_fields. rewrite !get_bits_div by lia.
  change (2 ^ 0) with 1. rewrite !Z.div_1_r. intros.
  Z.to_euclidean_division_equations. lia.
Qed.

(** Marking an address as cached leaves its nand fields unchanged. *)
Lemma in_cache_fields p :
  let q := set_cache_in_cache 1 p in
  nand_ch q = nand_ch p ∧ nand_sec q = nand_sec p ∧ nand_pl q = nand_pl p ∧
  nand_lun q = nand_lun p ∧ nand_pg q = nand_pg p ∧ nand_blk q = nand_blk p ∧
  cache_in_cache q = 1.
Proof. cbn zeta. repeat split; ppa_field; done. Qed.

(** ** Bit macros *)

Lemma BIT_TEST_testbit f i : 0 ≤ i → BIT_TEST f i = Z.testbit f i.
Proof.
  intros Hi. unfold BIT_TEST.
  assert (Z.land f (Z.shiftl 1 i) = if Z.testbit f i then Z.shiftl 1 i else 0) as ->.
  { apply Z.bits_inj'. intros j Hj.
    rewrite Z.land_spec, Z.shiftl_1_l, Z.pow2_bits_eqb by lia.
    destruct (Z.eqb_spec i j) as [->|].
    - destruct (Z.testbit f j) eqn:E; cbn.
      + rewrite Z.pow2_bits_true by lia. done.
      + by rewrite Z.testbit_0_l.
    - rewrite andb_false_r. destruct (Z.testbit f i).
      + rewrite Z.pow2_bits_false by lia. done.
      + by rewrite Z.testbit_0_l. }
  rewrite Z.shiftl_1_l.
  destruct (Z.testbit f i); case_bool_decide; try done.
  assert (0 < 2 ^ i) by lia. lia.
Qed.

Lemma BIT_SET_testbit f i j :
  0 ≤ i → 0 ≤ j → Z.testbit (BIT_SET f i) j = bool_decide (i = j) || Z.testbit f j.
Proof.
  intros. unfold BIT_SET. rewrite Z.lor_spec, Z.shiftl_1_l, Z.pow2_bits_eqb by lia.
  destruct (Z.eqb_spec i j); case_bool_decide; try lia; by destruct (Z.testbit f j).
Qed.

Lemma BIT_CLEAR_testbit f i j :
  0 ≤ i → 0 ≤ j →
  Z.testbit (BIT_CLEAR f i) j = negb (bool_decide (i = j)) && Z.testbit f j.
Proof.
  intros. unfold BIT_CLEAR. rewrite Z.ldiff_spec, Z.shiftl_1_l, Z.pow2_bits_eqb by lia.
  destruct (Z.eqb_spec i j); case_bool_decide; try lia; by destruct (Z.testbit f j).
Qed.

Lemma BIT_SET_bound f i n :
  0 ≤ i < n → 0 ≤ f < 2 ^ n → 0 ≤ BIT_SET f i < 2 ^ n.
Proof.
  intros. assert (0 ≤ BIT_SET f i).
  { unfold BIT_SET. apply Z.lor_nonneg. split; [lia|]. apply Z.shiftl_nonneg. lia. }
  split; [done|]. apply testbit_bound; [lia|done|]. intros j ?.
  rewrite BIT_SET_testbit by lia. case_bool_decide; [lia|].
  by apply testbit_high with n.
Qed.
