(* ===== verification/Fifo.v ===== *)
(** * Index-linked FIFOs

    The driver links records of an array into FIFOs through [u32] indices stored
    in the records: [push_lun_entity_to_fifo]/[pull_lun_entity_from_fifo] of
    [writecache/wcb-mngr.c] for LUN buffers and [push_blk_to_pool]/
    [pull_blk_from_pool] of [systbl/sys-meta.c] for raid blocks ("TODO: unify use
    one interface").  This file holds that one interface: a class of linkable
    records, the algorithm over it, the representation predicate relating the
    linked records to a list, and the refinement of the algorithm against the
    abstract queue [l ++ [i]] / [tail l].  The components prove their own routines
    equal to this algorithm and inherit its theorems. *)

From S2P Require Import Prelude.

#[local] Open Scope Z_scope.

(** The end-of-list mark of the code. *)
Definition NIL : Z := 0xffff.

(** [struct fsc_fifo] *)
Record fsc_fifo : Type := mk_fifo { fhead : Z; ftail : Z; fsize : Z }.

#[global] Instance fsc_fifo_eq_dec : EqDecision fsc_fifo.
Proof. solve_decision. Defined.

(** [fsc_fifo_init] *)
Definition fsc_fifo_init : fsc_fifo := mk_fifo NIL NIL 0.

(** Records that carry a [next] and a [prev] link. *)
Class Linked (T : Type) : Type := {
  lk_next : T → Z;
  lk_prev : T → Z;
  lk_set : Z → Z → T → T;
  lk_next_set : ∀ n p e, lk_next (lk_set n p e) = n;
  lk_prev_set : ∀ n p e, lk_prev (lk_set n p e) = p;
  lk_set_set : ∀ n p n' p' e, lk_set n p (lk_set n' p' e) = lk_set n p e;
  lk_set_id : ∀ e, lk_set (lk_next e) (lk_prev e) e = e;
}.

(** ** The algorithm *)

Section algorithm.
Context `{Linked T}.

(** Push record [i] at the tail. *)
Definition link_push (f : fsc_fifo) (m : gmap Z T) (i : Z) : res (fsc_fifo * gmap Z T) :=
  e ← aread m i;
  if decide (ftail f = NIL) then
    Ok (mk_fifo i i (u32 (fsize f + 1)), <[i := lk_set NIL NIL e]> m)
  else
    let m1 := <[i := lk_set (ftail f) NIL e]> m in
    o ← aread m1 (ftail f);
    Ok (mk_fifo (fhead f) i (u32 (fsize f + 1)),
        <[ftail f := lk_set (lk_next o) i o]> m1).

(** Pull the record at the head; [None] when the FIFO is empty. *)
Definition link_pull (f : fsc_fifo) (m : gmap Z T) : res (option Z * fsc_fifo * gmap Z T) :=
  if decide (fhead f = NIL) then Ok (None, f, m) else
  e ← aread m (fhead f);
  if decide (fhead f = ftail f) then
    Ok (Some (fhead f), mk_fifo NIL NIL (u32 (fsize f - 1)),
        <[fhead f := lk_set NIL NIL e]> m)
  else
    nh ← aread m (lk_prev e);
    let m1 := <[lk_prev e := lk_set NIL (lk_prev nh) nh]> m in
    e1 ← aread m1 (fhead f);
    Ok (Some (fhead f), mk_fifo (lk_prev e) (ftail f) (u32 (fsize f - 1)),
        <[fhead f := lk_set NIL NIL e1]> m1).
End algorithm.

(** ** Representation *)

Section representation.
Context `{Linked T}.
Implicit Types (m : gmap Z T) (l : list Z) (f : fsc_fifo).

Definition links m i : option (Z * Z) := (λ e, (lk_next e, lk_prev e)) <$> m !! i.

(** [chain m n l]: the records of [l], from head to tail, are linked: [next]
    leads towards the head, [prev] towards the tail, [n] precedes the first. *)
Fixpoint chain m (n : Z) l : Prop :=
  match l with
  | [] => True
  | a :: l' => links m a = Some (n, List.hd NIL l') ∧ chain m a l'
  end.

Record fifo_rep m f l : Prop := {
  rep_head : fhead f = List.hd NIL l;
  rep_tail : ftail f = List.last l NIL;
  rep_size : fsize f = Z.of_nat (length l);
  rep_nodup : NoDup l;
  rep_range : ∀ i, i ∈ l → 0 ≤ i < NIL;
  rep_chain : chain m NIL l;
}.

(** Only links changed between the two tables. *)
Definition links_only m m' : Prop :=
  ∀ i, match m !! i, m' !! i with
       | Some e, Some e' => ∃ n p, e' = lk_set n p e
       | None, None => True
       | _, _ => False
       end.

Lemma links_insert_eq m i n p e : links (<[i := lk_set n p e]> m) i = Some (n, p).
Proof.
  unfold links. rewrite lookup_insert_eq. cbn.
  by rewrite lk_next_set, lk_prev_set.
Qed.

Lemma links_insert_ne m i j e : i ≠ j → links (<[i := e]> m) j = links m j.
Proof. intros. unfold links. by rewrite lookup_insert_ne. Qed.

Lemma chain_frame m m' n l :
  (∀ i, i ∈ l → links m' i = links m i) → chain m n l → chain m' n l.
Proof.
  revert n. induction l as [|a l IH]; intros n Heq; cbn; [done|].
  intros [Ha Hc]. split.
  - rewrite Heq by set_solver. done.
  - apply IH; [|done]. set_solver.
Qed.

Lemma chain_lookup m n l i : chain m n l → i ∈ l → is_Some (m !! i).
Proof.
  revert n. induction l as [|a l IH]; intros n; cbn; [set_solver|].
  intros [Ha Hc] [->|Hi]%elem_of_cons; [|eauto].
  unfold links in Ha. destruct (m !! a); [eauto|done].
Qed.

(** Appending a record to a non-empty chain. *)
Lemma chain_snoc m n l t i o :
  i ∉ l ++ [t] → NoDup (l ++ [t]) →
  m !! t = Some o → links m i = Some (t, NIL) →
  chain m n (l ++ [t]) →
  chain (<[t := lk_set (lk_next o) i o]> m) n (l ++ [t; i]).
Proof.
  intros Hi Hnd Ht Hl. revert n. induction l as [|a l IH]; intros n; cbn.
  - intros [Hla _]. repeat split.
    + rewrite links_insert_eq. unfold links in Hla. rewrite Ht in Hla. by simplify_eq/=.
    + rewrite links_insert_ne by set_solver. done.
  - intros [Hla Hc]. cbn in Hnd. apply NoDup_cons in Hnd as [Ha Hnd]. split.
    + rewrite links_insert_ne by set_solver. rewrite Hla. by destruct l.
    + apply IH; set_solver.
Qed.

Lemma links_only_refl m : links_only m m.
Proof.
  intros i. destruct (m !! i) as [e|]; [|done].
  exists (lk_next e), (lk_prev e). by rewrite lk_set_id.
Qed.

Lemma links_only_insert m m' i n p e :
  links_only m m' → m' !! i = Some e → links_only m (<[i := lk_set n p e]> m').
Proof.
  intros Hm Hi j. destruct (decide (i = j)) as [->|Hne].
  - specialize (Hm j). rewrite Hi in Hm. rewrite lookup_insert_eq.
    destruct (m !! j); [|done]. destruct Hm as (? & ? & ->).
    rewrite lk_set_set. eauto.
  - rewrite lookup_insert_ne by done. apply Hm.
Qed.

Lemma links_only_trans m1 m2 m3 : links_only m1 m2 → links_only m2 m3 → links_only m1 m3.
Proof.
  intros H12 H23 i. specialize (H12 i). specialize (H23 i).
  destruct (m1 !! i), (m2 !! i), (m3 !! i); try done.
  destruct H12 as (?&?&->), H23 as (?&?&->). rewrite lk_set_set. eauto.
Qed.

Lemma links_only_Some m m' i e :
  links_only m m' → m !! i = Some e → ∃ n p, m' !! i = Some (lk_set n p e).
Proof.
  intros Hm Hi. specialize (Hm i). rewrite Hi in Hm.
  destruct (m' !! i); [|done]. destruct Hm as (?&?&->). eauto.
Qed.

(** Another FIFO on the same table, over other records, is untouched. *)
Lemma fifo_rep_frame m m' f l :
  (∀ i, i ∈ l → links m' i = links m i) → fifo_rep m f l → fifo_rep m' f l.
Proof.
  intros Hf []. constructor; try done. by apply chain_frame with m.
Qed.

Lemma fifo_rep_empty m : fifo_rep m fsc_fifo_init [].
Proof. constructor; cbn; try done; [constructor|set_solver]. Qed.

Lemma fifo_rep_length m f l : fifo_rep m f l → 0 ≤ fsize f ≤ NIL.
Proof.
  intros []. rewrite rep_size0.
  pose proof (NoDup_range_length l NIL rep_nodup0 rep_range0). unfold NIL in *. lia.
Qed.
End representation.

(** ** Refinement *)

Section refinement.
Context `{Linked T}.
Implicit Types (m : gmap Z T) (l : list Z) (f : fsc_fifo).

Lemma tail_NIL m f l : fifo_rep m f l → ftail f = NIL ↔ l = [].
Proof.
  intros []. rewrite rep_tail0. split; [|by intros ->].
  destruct l as [|a l _] using rev_ind; [done|]. rewrite List.last_last.
  intros ->. assert (0 ≤ NIL < NIL) by (apply rep_range0; set_solver). lia.
Qed.

Lemma head_NIL m f l : fifo_rep m f l → fhead f = NIL ↔ l = [].
Proof.
  intros []. rewrite rep_head0. split; [|by intros ->].
  destruct l as [|a l]; [done|]. cbn.
  intros ->. assert (0 ≤ NIL < NIL) by (apply rep_range0; set_solver). lia.
Qed.

(** Push refines appending at the back. *)
Lemma link_push_spec m f l i :
  fifo_rep m f l → i ∉ l → 0 ≤ i < NIL → is_Some (m !! i) →
  ∃ f' m', link_push f m i = Ok (f', m') ∧ fifo_rep m' f' (l ++ [i]) ∧
    links_only m m' ∧ (∀ j, j ∉ l ++ [i] → m' !! j = m !! j).
Proof.
  intros Hrep Hi Hir [e He]. pose proof (fifo_rep_length _ _ _ Hrep) as Hlen.
  unfold link_push. rewrite (aread_Some _ _ _ He). cbn.
  pose proof (tail_NIL _ _ _ Hrep) as Ht. destruct Hrep.
  assert (u32 (fsize f + 1) = Z.of_nat (length (l ++ [i]))) as Hsz.
  { unfold NIL in *. rewrite u32_small by lia. rewrite length_app. cbn. lia. }
  destruct l as [|t l _] using rev_ind.
  - rewrite decide_True by (by apply Ht). do 2 eexists. repeat split; cbn; try done.
    + apply NoDup_singleton.
    + set_solver.
    + set_solver.
    + by rewrite links_insert_eq.
    + by apply links_only_insert; [apply links_only_refl|].
    + intros j ?. rewrite lookup_insert_ne; [done|set_solver].
  - rewrite decide_False by (rewrite Ht; by destruct l).
    rewrite rep_tail0, List.last_last in *.
    destruct (chain_lookup _ _ _ t rep_chain0) as [o Ho]; [set_solver|].
    rewrite (aread_Some _ t o) by (rewrite lookup_insert_ne by set_solver; done). cbn. do 2 eexists. split; [done|]. split; [|split].
    + constructor; cbn; try done.
      * rewrite rep_head0. by destruct l.
      * by rewrite List.last_last.
      * apply NoDup_app; split; [done|]. split; [set_solver|apply NoDup_singleton].
      * set_solver.
      * rewrite <-app_assoc. cbn.
        apply chain_snoc; try done.
        -- rewrite lookup_insert_ne by set_solver. done.
        -- by rewrite links_insert_eq.
        -- apply chain_frame with m; [|done]. intros j Hj.
           rewrite links_insert_ne; [done|set_solver].
    + apply links_only_insert.
      * by apply links_only_insert; [apply links_only_refl|].
      * rewrite lookup_insert_ne by set_solver. done.
    + intros j ?. rewrite !lookup_insert_ne by set_solver. done.
Qed.

Lemma link_pull_empty m f : fifo_rep m f [] → link_pull f m = Ok (None, f, m).
Proof.
  intros Hrep. unfold link_pull. rewrite decide_True; [done|].
  by apply (head_NIL m f [] Hrep).
Qed.

(** Pull refines taking the first element. *)
Lemma link_pull_spec m f i l :
  fifo_rep m f (i :: l) →
  ∃ f' m', link_pull f m = Ok (Some i, f', m') ∧ fifo_rep m' f' l ∧
    links_only m m' ∧ (∀ j, j ∉ i :: l → m' !! j = m !! j).
Proof.
  intros Hrep. pose proof (fifo_rep_length _ _ _ Hrep) as Hlen.
  unfold link_pull. rewrite decide_False by (by rewrite (head_NIL m f _ Hrep)).
  destruct Hrep. cbn in *. destruct rep_chain0 as [Hli Hc].
  apply NoDup_cons in rep_nodup0 as [Hil Hnd].
  assert (u32 (fsize f - 1) = Z.of_nat (length l)) as Hsz.
  { unfold NIL in *. rewrite u32_small; lia. }
  destruct (m !! i) as [e|] eqn:He; unfold links in Hli; rewrite He in Hli; [|done].
  injection Hli as Hn Hp. rewrite rep_head0, rep_tail0.
  rewrite (aread_Some _ _ _ He). cbn.
  destruct l as [|b l].
  - rewrite decide_True by done. do 2 eexists. split; [done|]. split; [|split].
    + constructor; cbn; try done. set_solver.
    + by apply links_only_insert; [apply links_only_refl|].
    + intros j ?. rewrite lookup_insert_ne; [done|set_solver].
  - rewrite decide_False.
    2:{ intros Heq. apply Hil. rewrite Heq. destruct (exists_last (l:=b :: l)) as (l' & x & ->); [done|].
        rewrite List.last_last. set_solver. }
    cbn in *. destruct Hc as [Hlb Hc]. rewrite Hp.
    destruct (m !! b) as [nh|] eqn:Hb; unfold links in Hlb; rewrite Hb in Hlb; [|done].
    rewrite (aread_Some _ _ _ Hb). cbn.
    rewrite (aread_Some _ i e) by (rewrite lookup_insert_ne by set_solver; done). cbn.
    do 2 eexists. split; [done|]. split; [|split].
    + constructor; cbn; try done.
      * set_solver.
      * injection Hlb as Hnb Hpb. split.
        -- rewrite links_insert_ne by set_solver. rewrite links_insert_eq. congruence.
        -- apply NoDup_cons in Hnd as [Hbl Hnd].
           apply chain_frame with m; [|done]. intros j Hj.
           rewrite !links_insert_ne; [done|set_solver..].
    + apply links_only_insert.
      * by apply links_only_insert; [apply links_only_refl|].
      * rewrite lookup_insert_ne by set_solver. done.
    + intros j ?. rewrite !lookup_insert_ne by set_solver. done.
Qed.
End refinement.
