(* ===== verification/Kernel.v ===== *)
(** * Kernel services the driver calls

    The kernel is not part of the repository: its allocators and its bio lists
    are parameters of the model.  Every allocation asks the oracle [alloc_ok]
    whether it succeeds; the live objects are tracked by name, so that a leak or
    a double release is visible.  [BioList] states what the driver relies on of
    [struct bio_list] (documented as a singly linked FIFO with head insertion);
    Rocq lists are an instance. *)

From S2P Require Import Prelude.
From stdpp Require Export strings.

#[local] Open Scope Z_scope.

(** ** Error codes *)

Definition ENOMEM : Z := 12.
Definition EFAULT : Z := 14.
Definition EINVAL : Z := 22.
Definition ENODEV : Z := 19.
Definition ENOTTY : Z := 25.

(** ** Allocation *)

(** An allocated object: what it is for, and which element of a family. *)
Definition obj : Type := string * Z.

Record kheap : Type := mk_kheap {
  k_calls : nat;       (** allocations asked for so far *)
  k_live : gset obj;   (** objects allocated and not released *)
}.

Section alloc.
(** The outcome of the [n]-th allocation. *)
Context (alloc_ok : nat → bool).

(** [kzalloc], [vzalloc], [dma_alloc_coherent], ...: whether it succeeded. *)
Definition kalloc (o : obj) (h : kheap) : bool * kheap :=
  let ok := alloc_ok (k_calls h) in
  (ok, mk_kheap (S (k_calls h)) (if ok then {[o]} ∪ k_live h else k_live h)).
End alloc.

(** [kfree], [vfree], [dma_free_coherent], ...: releasing what is not live is a fault. *)
Definition kfree (o : obj) (h : kheap) : res kheap :=
  if decide (o ∈ k_live h) then Ok (mk_kheap (k_calls h) (k_live h ∖ {[o]}))
  else Fault F_BUG.

Lemma kfree_live o h :
  o ∈ k_live h → kfree o h = Ok (mk_kheap (k_calls h) (k_live h ∖ {[o]})).
Proof. intros. unfold kfree. by rewrite decide_True. Qed.

(** *** Ownership *)

(** The heap holds [os] (each once) besides [L]. *)
Record owns (h : kheap) (os : list obj) (L : gset obj) : Prop := {
  ow_live : k_live h = list_to_set os ∪ L;
  ow_nodup : NoDup os;
  ow_fresh : ∀ o, o ∈ os → o ∉ L;
}.

Lemma owns_nil h : owns h [] (k_live h).
Proof. constructor; [set_solver|by apply NoDup_nil|intros o Ho; by apply not_elem_of_nil in Ho]. Qed.

Lemma owns_done h L : owns h [] L → k_live h = L.
Proof. intros [-> _ _]. set_solver. Qed.

Lemma owns_perm h os os' L : os ≡ₚ os' → owns h os L → owns h os' L.
Proof.
  intros Hp [H1 H2 H3]. constructor.
  - rewrite H1. f_equal. by rewrite Hp.
  - by rewrite <-Hp.
  - intros o Ho. apply H3. by rewrite Hp.
Qed.

Lemma owns_alloc h h' os L o :
  owns h os L → o ∉ k_live h → k_live h' = {[o]} ∪ k_live h → owns h' (o :: os) L.
Proof.
  intros [H1 H2 H3] Ho Hl. rewrite H1 in Ho, Hl.
  apply not_elem_of_union in Ho as [Ho1 Ho2]. rewrite elem_of_list_to_set in Ho1. constructor.
  - rewrite Hl. cbn. by rewrite (assoc_L (∪)).
  - by apply NoDup_cons.
  - intros o' [->|Hin]%elem_of_cons; [done|by apply H3].
Qed.

Lemma ow_in h os L : owns h os L → ∀ o, o ∈ os → o ∈ k_live h.
Proof. intros [-> _ _] o Ho. apply elem_of_union. left. by apply elem_of_list_to_set. Qed.

Lemma owns_grow h h' os o L : owns h os L → owns h' (o :: os) L → k_live h ⊆ k_live h'.
Proof. intros [-> _ _] [-> _ _]. cbn. set_solver. Qed.

Lemma owns_free h os L o :
  owns h (o :: os) L → ∃ h', kfree o h = Ok h' ∧ k_calls h' = k_calls h ∧ owns h' os L.
Proof.
  intros [H1 H2 H3]. apply NoDup_cons in H2 as [Hn H2]. rewrite kfree_live.
  - eexists. split; [done|]. split; [done|]. constructor; cbn [k_live]; [|done|].
    + rewrite H1. cbn [list_to_set]. assert (o ∉ L) by (apply H3; by left).
      apply set_eq. intros x. rewrite elem_of_difference, !elem_of_union, elem_of_singleton.
      destruct (decide (x = o)) as [->|]; [|tauto]. rewrite elem_of_list_to_set. tauto.
    + intros o' Ho. apply H3. by right.
  - rewrite H1. cbn. set_solver.
Qed.

(** *** Objects named by their allocation *)

(** [kmalloc]: the new object, named by what it is for and by the call that made it. *)
Definition kmalloc (alloc_ok : nat → bool) (what : string) (h : kheap) : option obj * kheap :=
  let o := (what, Z.of_nat (k_calls h)) in
  let '(ok, h) := kalloc alloc_ok o h in
  (if ok : bool then Some o else None, h).

(** No object is named by a call that is still to come. *)
Definition named (h : kheap) : Prop := ∀ o, o ∈ k_live h → o.2 < Z.of_nat (k_calls h).

Lemma kmalloc_spec alloc_ok what h os L r h' :
  kmalloc alloc_ok what h = (r, h') → named h → owns h os L →
  named h' ∧ owns h' (match r with Some o => o :: os | None => os end) L ∧
  match r with Some o => o.1 = what | None => alloc_ok (k_calls h) = false end.
Proof.
  intros [= <- <-] Hn Ho. destruct (alloc_ok (k_calls h)); cbn.
  - split; [|split; [|done]].
    + intros o [->%elem_of_singleton|Hin]%elem_of_union; cbn; [lia|]. specialize (Hn o Hin). lia.
    + eapply owns_alloc; [done| |done]. intros Hin%Hn. cbn in Hin. lia.
  - split; [|split; [|done]].
    + intros o Hin%Hn. cbn. lia.
    + destruct Ho. by constructor.
Qed.

Lemma kfree_named o h h' : kfree o h = Ok h' → named h → named h'.
Proof.
  unfold kfree. case_decide; [|done]. intros [= <-] Hn o' Hin. apply Hn. set_solver.
Qed.

(** ** bio lists *)

Class BioList (A BL : Type) : Type := {
  bl_to_list : BL → list A;
  bio_list_init : BL;
  bio_list_empty : BL → bool;
  bio_list_add : BL → A → BL;
  bio_list_add_head : BL → A → BL;
  bio_list_pop : BL → option A * BL;
  bl_init : bl_to_list bio_list_init = [];
  bl_empty : ∀ b, bio_list_empty b = true ↔ bl_to_list b = [];
  bl_add : ∀ b x, bl_to_list (bio_list_add b x) = bl_to_list b ++ [x];
  bl_add_head : ∀ b x, bl_to_list (bio_list_add_head b x) = x :: bl_to_list b;
  bl_pop_nil : ∀ b, bl_to_list b = [] → (bio_list_pop b).1 = None;
  bl_pop_cons : ∀ b x l, bl_to_list b = x :: l →
    (bio_list_pop b).1 = Some x ∧ bl_to_list (bio_list_pop b).2 = l;
}.

#[global, refine] Instance list_bio_list (A : Type) : BioList A (list A) := {|
  bl_to_list := id;
  bio_list_init := [];
  bio_list_empty := λ b, match b with [] => true | _ => false end;
  bio_list_add := λ b x, b ++ [x];
  bio_list_add_head := λ b x, x :: b;
  bio_list_pop := λ b, match b with [] => (None, []) | x :: l => (Some x, l) end;
|}.
Proof.
  - done.
  - by intros [|??].
  - done.
  - done.
  - intros b Hb. cbn in Hb. by subst.
  - intros b x l Hb. cbn in Hb. by subst.
Defined.
