(* ===== verification/SysMeta.v ===== *)
(** * System tables: block information, free pool, valid page counts, L2P

    [systbl/sys-meta.c] and [systbl/sys-meta.h].  A pointer to an element of
    [bmitbl] is its index; [get_bmi_item] checks it. *)

From S2P Require Import Prelude NandCfg Fifo Kernel.

#[local] Open Scope Z_scope.

(** ** Capacity and the LBA zones *)

Definition DIV_ROUND_UP (n d : Z) : Z := (n + d - 1) / d.

Definition USER_CAPACITY : Z := CAPACITY * 8 / 11.
Definition MAX_USER_LBA : Z := USER_CAPACITY / CFG_NAND_EP_SIZE - 1.

(** [sizeof(struct bmi_item)]: two [u32], two [u16], three [u16[8]], two [u16],
    [atomic_t], two [u32], without padding. *)
Definition sizeof_bmi_item : Z := 4 + 4 + 2 + 2 + 3 * (2 * CFG_NAND_LUN_NUM) + 2 + 2 + 4 + 4 + 4.

Definition BMITBL_SEC_NUM : Z := DIV_ROUND_UP (CFG_NAND_BLOCK_NUM * sizeof_bmi_item) EXP_PPA_SIZE.
Definition BMITBL_SIZE : Z := BMITBL_SEC_NUM * EXP_PPA_SIZE.
Definition VPCTBL_SEC_NUM : Z := DIV_ROUND_UP (CFG_NAND_BLOCK_NUM * 4) EXP_PPA_SIZE.
Definition VPCTBL_SIZE : Z := VPCTBL_SEC_NUM * EXP_PPA_SIZE.
Definition USR_FTLTBL_SEC_NUM : Z := DIV_ROUND_UP (MAX_USER_LBA * 4) EXP_PPA_SIZE.
Definition USR_FTLTBL_SIZE : Z := USR_FTLTBL_SEC_NUM * EXP_PPA_SIZE.
Definition L1TBL_NOALIGN_SIZE : Z :=
  (USR_FTLTBL_SEC_NUM + VPCTBL_SEC_NUM + BMITBL_SEC_NUM) * 4.
Definition L1TBL_SEC_NUM : Z := DIV_ROUND_UP L1TBL_NOALIGN_SIZE EXP_PPA_SIZE.
Definition L1TBL_SIZE : Z := L1TBL_SEC_NUM * EXP_PPA_SIZE.

Definition EXTEND_LBA_BASE : Z := MAX_USER_LBA + 1.
Definition EXTEND_LBA_UFTL : Z := EXTEND_LBA_BASE.
Definition EXTEND_LBA_BMITBL : Z := EXTEND_LBA_UFTL + USR_FTLTBL_SEC_NUM.
Definition EXTEND_LBA_VPCTBL : Z := EXTEND_LBA_BMITBL + BMITBL_SEC_NUM.
Definition EXTEND_LBA_L1TBL : Z := EXTEND_LBA_VPCTBL + VPCTBL_SEC_NUM.
Definition EXTEND_LBA_RSVD0 : Z := EXTEND_LBA_L1TBL + L1TBL_SEC_NUM.

Definition INVALID_PAGE : Z := 0xffffffff.
Definition XOR1DX_PAGE : Z := 0xfffffffa.

(** ** Data *)

Inductive PPA_TYPE : Type :=
  | USR_DATA | DUMMY_DATA | BAD_BLK | XOR_PARITY | FIRST_LOG | FTL_LOG.

Inductive raidblk_status : Type :=
  | RAID_BLK_FREE | RAID_BLK_OPEN | RAID_BLK_CLOSED | RAID_BLK_TOGC | RAID_BLK_GCING.

#[global] Instance raidblk_status_eq_dec : EqDecision raidblk_status.
Proof. solve_decision. Defined.

Record sys_status_tbl : Type := mk_statetbl {
  free_blk_pool : fsc_fifo;
  closed_blk_pool : fsc_fifo;
  gc_blk_pool : fsc_fifo;
}.

(** Arrays of [u16] per LUN are zero where no key is present. *)
Record bmi_item : Type := mk_bmi {
  sequence : Z;
  pecycle : Z;
  blknum : Z;
  flag_bitmap : Z;
  bbt : gmap Z Z;
  write_err : gmap Z Z;
  read_uecc : gmap Z Z;
  rdcount : Z;
  bmstate : raidblk_status;
  cmpl_lun : Z;
  bprev : Z;
  bnext : Z;
}.

Definition bmi_set_bbt (b : gmap Z Z) (e : bmi_item) : bmi_item :=
  mk_bmi (sequence e) (pecycle e) (blknum e) (flag_bitmap e) b (write_err e)
    (read_uecc e) (rdcount e) (bmstate e) (cmpl_lun e) (bprev e) (bnext e).
Definition bmi_set_bmstate (s : raidblk_status) (e : bmi_item) : bmi_item :=
  mk_bmi (sequence e) (pecycle e) (blknum e) (flag_bitmap e) (bbt e) (write_err e)
    (read_uecc e) (rdcount e) s (cmpl_lun e) (bprev e) (bnext e).
Definition bmi_set_prev (p : Z) (e : bmi_item) : bmi_item :=
  mk_bmi (sequence e) (pecycle e) (blknum e) (flag_bitmap e) (bbt e) (write_err e)
    (read_uecc e) (rdcount e) (bmstate e) (cmpl_lun e) p (bnext e).
Definition bmi_set_next (n : Z) (e : bmi_item) : bmi_item :=
  mk_bmi (sequence e) (pecycle e) (blknum e) (flag_bitmap e) (bbt e) (write_err e)
    (read_uecc e) (rdcount e) (bmstate e) (cmpl_lun e) (bprev e) n.

#[global, refine] Instance bmi_linked : Linked bmi_item := {|
  lk_next := bnext;
  lk_prev := bprev;
  lk_set := λ n p e, bmi_set_next n (bmi_set_prev p e);
|}.
Proof. all: by intros; try match goal with e : bmi_item |- _ => destruct e end. Defined.

(** The globals [statetbl], [bmitbl] and [vpctbl]. *)
Record sysmeta : Type := mk_sysmeta {
  statetbl : sys_status_tbl;
  bmitbl : gmap Z bmi_item;
  vpctbl : gmap Z Z;
}.

Definition set_free_blk_pool (f : fsc_fifo) (s : sysmeta) : sysmeta :=
  mk_sysmeta (mk_statetbl f (closed_blk_pool (statetbl s)) (gc_blk_pool (statetbl s)))
    (bmitbl s) (vpctbl s).
Definition set_bmitbl (t : gmap Z bmi_item) (s : sysmeta) : sysmeta :=
  mk_sysmeta (statetbl s) t (vpctbl s).
Definition set_vpctbl (v : gmap Z Z) (s : sysmeta) : sysmeta :=
  mk_sysmeta (statetbl s) (bmitbl s) v.

(** ** Operations *)

(** [get_bmi_item(u16 blk)]: the checked index. *)
Definition get_bmi_item (blk : Z) : res Z :=
  _ ← BUG_ON (CFG_NAND_BLOCK_NUM ≤ u16 blk);
  Ok (u16 blk).

(** [GOODB] = 0 and [BADB] = 1 as the C [bool] parameter. *)
Definition BADB : bool := true.
Definition GOODB : bool := false.

Definition mark_bbt_tbl (blk lun ch : Z) (status : bool) (t : gmap Z bmi_item)
    : res (gmap Z bmi_item) :=
  p ← get_bmi_item blk;
  bmi ← aread t p;
  old ← wread CFG_NAND_LUN_NUM 0 (bbt bmi) lun;
  b ← wwrite CFG_NAND_LUN_NUM (bbt bmi) lun
        (if status then u16 (BIT_SET old ch) else u16 (BIT_CLEAR old ch));
  Ok (<[p := bmi_set_bbt b bmi]> t).

Definition is_ppa_badblock (p : geo_ppa) (t : gmap Z bmi_item) : res bool :=
  i ← get_bmi_item (nand_blk p);
  bmi ← aread t i;
  b ← wread CFG_NAND_LUN_NUM 0 (bbt bmi) (nand_lun p);
  Ok (BIT_TEST b (nand_ch p)).

Definition is_ppa_firstpage (p : geo_ppa) : bool :=
  bool_decide (nand_sec p = 0) && bool_decide (nand_pl p = 0) &&
  bool_decide (nand_lun p = 0) && bool_decide (nand_pg p = 0).

Definition sys_get_ppa_type (_ : geo_ppa) : PPA_TYPE := USR_DATA.

(** The pools: the FIFO is returned beside the table. *)
Definition pull_blk_from_pool (fifo : fsc_fifo) (t : gmap Z bmi_item)
    : res (Z * fsc_fifo * gmap Z bmi_item) :=
  let old_head := fhead fifo in
  if decide (old_head = 0xffff) then Ok (0xffff, fifo, t) else
  bmi ← get_bmi_item old_head;
  '(fifo, t) ←
    (if decide (fhead fifo = ftail fifo) then Ok (mk_fifo 0xffff 0xffff (fsize fifo), t)
     else
       e ← aread t bmi;
       nhbmi ← get_bmi_item (bprev e);
       nh ← aread t nhbmi;
       let t := <[nhbmi := bmi_set_next 0xffff nh]> t in
       e ← aread t bmi;
       Ok (mk_fifo (bprev e) (ftail fifo) (fsize fifo), t));
  let fifo := mk_fifo (fhead fifo) (ftail fifo) (u32 (fsize fifo - 1)) in
  e ← aread t bmi;
  let t := <[bmi := bmi_set_next 0xffff (bmi_set_prev 0xffff e)]> t in
  Ok (old_head, fifo, t).

Definition push_blk_to_pool (fifo : fsc_fifo) (blk : Z) (t : gmap Z bmi_item)
    : res (fsc_fifo * gmap Z bmi_item) :=
  let old_tail := ftail fifo in
  bmi ← get_bmi_item blk;
  '(fifo, t) ←
    (if decide (old_tail = 0xffff) then
       e ← aread t bmi;
       Ok (mk_fifo blk blk (fsize fifo),
           <[bmi := bmi_set_prev 0xffff (bmi_set_next 0xffff e)]> t)
     else
       e ← aread t bmi;
       let t := <[bmi := bmi_set_prev 0xffff (bmi_set_next old_tail e)]> t in
       ntbmi ← get_bmi_item old_tail;
       nt ← aread t ntbmi;
       Ok (mk_fifo (fhead fifo) blk (fsize fifo), <[ntbmi := bmi_set_prev blk nt]> t));
  Ok (mk_fifo (fhead fifo) (ftail fifo) (u32 (fsize fifo + 1)), t).

Definition get_blk_from_free_list (s : sysmeta) : res (Z * sysmeta) :=
  '(blk, f, t) ← pull_blk_from_pool (free_blk_pool (statetbl s)) (bmitbl s);
  let s := set_bmitbl t (set_free_blk_pool f s) in
  if decide (blk = 0xffff) then Ok (0, s) else
  bmi ← get_bmi_item blk;
  e ← aread (bmitbl s) bmi;
  Ok (blk, set_bmitbl (<[bmi := bmi_set_bmstate RAID_BLK_OPEN e]> (bmitbl s)) s).

Definition insert_blk_to_free_list (blk : Z) (s : sysmeta) : res sysmeta :=
  bmi ← get_bmi_item blk;
  '(f, t) ← push_blk_to_pool (free_blk_pool (statetbl s)) blk (bmitbl s);
  let s := set_bmitbl t (set_free_blk_pool f s) in
  e ← aread (bmitbl s) bmi;
  Ok (set_bmitbl (<[bmi := bmi_set_bmstate RAID_BLK_FREE e]> (bmitbl s)) s).

Definition vpc_dec (p : geo_ppa) (s : sysmeta) : res sysmeta :=
  _ ← BUG_ON (CFG_NAND_BLOCK_NUM ≤ nand_blk p);
  v ← wread (VPCTBL_SIZE / 4) 0 (vpctbl s) (nand_blk p);
  w ← wwrite (VPCTBL_SIZE / 4) (vpctbl s) (nand_blk p) (u32 (v - 1));
  Ok (set_vpctbl w s).

Definition vpc_inc (p : geo_ppa) (s : sysmeta) : res sysmeta :=
  _ ← BUG_ON (CFG_NAND_BLOCK_NUM ≤ nand_blk p);
  v ← wread (VPCTBL_SIZE / 4) 0 (vpctbl s) (nand_blk p);
  w ← wwrite (VPCTBL_SIZE / 4) (vpctbl s) (nand_blk p) (u32 (v + 1));
  Ok (set_vpctbl w s).

(** ** Initialisation *)

Section init.
Context (alloc_ok : nat → bool).

(** The table (or [NULL]), the return code and the heap. *)
Definition statetbl_init (h : kheap) : Z * option sys_status_tbl * kheap :=
  let '(ok, h) := kalloc alloc_ok ("statetbl", 0) h in
  if ok then (0, Some (mk_statetbl fsc_fifo_init fsc_fifo_init fsc_fifo_init), h)
  else (- ENOMEM, None, h).

Definition bmi_zero (blk : Z) : bmi_item :=
  mk_bmi 0 0 (u16 blk) 0 ∅ ∅ ∅ 0 RAID_BLK_FREE 0 0xffff 0xffff.

Definition bmitbl_init (h : kheap) : Z * option (gmap Z bmi_item) * kheap :=
  let '(ok, h) := kalloc alloc_ok ("bmitbl", 0) h in
  if ok then
    (0, Some (foldl (λ t blk, <[blk := bmi_zero blk]> t) ∅
                (seqZ 0 CFG_NAND_BLOCK_NUM)), h)
  else (- ENOMEM, None, h).

Definition vpctbl_init (h : kheap) : Z * option (gmap Z Z) * kheap :=
  let '(ok, h) := kalloc alloc_ok ("vpctbl", 0) h in
  if ok then (0, Some ∅, h) else (- ENOMEM, None, h).

(** [l2ptbl] is filled with [0xff] bytes: every entry reads [INVALID_PAGE]
    until it is written. *)
Definition l2ptbl_init (h : kheap) : res (Z * option (gmap Z Z) * kheap) :=
  let '(ok, h) := kalloc alloc_ok ("l2ptbl", 0) h in
  if ok then
    let '(ok1, h) := kalloc alloc_ok ("l2pl1tbl", 0) h in
    if ok1 then Ok (0, Some ∅, h)
    else h ← kfree ("l2ptbl", 0) h; Ok (- ENOMEM, None, h)
  else Ok (- ENOMEM, None, h).
End init.

Definition statetbl_exit (h : kheap) : res kheap := kfree ("statetbl", 0) h.
Definition bmitbl_exit (h : kheap) : res kheap := kfree ("bmitbl", 0) h.
Definition vpctbl_exit (h : kheap) : res kheap := kfree ("vpctbl", 0) h.
Definition l2ptbl_exit (h : kheap) : res kheap :=
  h ← kfree ("l2ptbl", 0) h; kfree ("l2pl1tbl", 0) h.

(** ** The pools are index-linked FIFOs *)

Definition blk_ok (blk : Z) : Prop := 0 ≤ blk < CFG_NAND_BLOCK_NUM.

Lemma get_bmi_item_in blk : blk_ok blk → get_bmi_item blk = Ok blk.
Proof.
  unfold blk_ok. intros. unfold get_bmi_item.
  rewrite u16_small by cfg_lia. by rewrite BUG_ON_pass by lia.
Qed.

Lemma push_blk_to_pool_link f blk t :
  blk_ok blk → ftail f = NIL ∨ blk_ok (ftail f) →
  push_blk_to_pool f blk t = link_push f t blk.
Proof.
  intros Hb Ht. unfold push_blk_to_pool, link_push.
  rewrite (get_bmi_item_in blk) by done. cbn. change 0xffff with NIL.
  destruct (t !! blk) as [e|] eqn:He.
  - rewrite !(aread_Some _ _ _ He). cbn. case_decide; cbn; [done|].
    rewrite (get_bmi_item_in (ftail f)) by naive_solver. cbn.
    by destruct (aread _ (ftail f)).
  - rewrite !(aread_None _ _ He). by case_decide.
Qed.

Lemma pull_blk_from_pool_link f t :
  fhead f = NIL ∨ blk_ok (fhead f) →
  (∀ e, t !! fhead f = Some e → fhead f ≠ ftail f → blk_ok (bprev e) ∧ bprev e ≠ fhead f) →
  pull_blk_from_pool f t =
    '(o, f', t') ← link_pull f t; Ok (default NIL o, f', t').
Proof.
  intros Hh Hp. unfold pull_blk_from_pool, link_pull. change 0xffff with NIL.
  case_decide as Hn; [done|]. rewrite (get_bmi_item_in (fhead f)) by naive_solver. cbn.
  destruct (t !! fhead f) as [e|] eqn:He.
  - rewrite !(aread_Some _ _ _ He). cbn. case_decide; cbn.
    + by rewrite (aread_Some _ _ _ He).
    + destruct (Hp e) as [? Hne]; [done..|]. rewrite (get_bmi_item_in (bprev e)) by done. cbn.
      destruct (t !! bprev e) as [nh|] eqn:Hnh.
      * rewrite !(aread_Some _ _ _ Hnh). cbn.
        rewrite !(aread_Some _ (fhead f) e) by (by rewrite lookup_insert_ne). cbn.
        by rewrite !(aread_Some _ (fhead f) e) by (by rewrite lookup_insert_ne).
      * by rewrite !(aread_None _ _ Hnh).
  - rewrite !(aread_None _ _ He). by case_decide; cbn; rewrite ?(aread_None _ _ He).
Qed.

(** [pool_rep t f l]: the pool [f] links exactly the blocks of [l], in order. *)
Definition pool_rep (t : gmap Z bmi_item) (f : fsc_fifo) (l : list Z) : Prop :=
  fifo_rep t f l ∧ Forall blk_ok l.

Lemma push_blk_to_pool_spec t f l blk :
  pool_rep t f l → blk_ok blk → blk ∉ l → is_Some (t !! blk) →
  ∃ f' t', push_blk_to_pool f blk t = Ok (f', t') ∧ pool_rep t' f' (l ++ [blk]) ∧
    links_only t t' ∧ (∀ j, j ∉ l ++ [blk] → t' !! j = t !! j).
Proof.
  intros [Hrep Hl] Hb Hn Hs. rewrite push_blk_to_pool_link; [|done|].
  - unfold blk_ok in Hb. destruct (link_push_spec _ _ _ blk Hrep) as (f' & t' & -> & ? & ? & ?);
      [done| |done|].
    { unfold NIL. cfg_lia. }
    do 2 eexists. split; [done|]. split; [|done]. split; [done|].
    apply Forall_app. by rewrite Forall_singleton.
  - rewrite (rep_tail _ _ _ Hrep). destruct l as [|a l _] using rev_ind; [by left|right].
    rewrite List.last_last. rewrite Forall_app, Forall_singleton in Hl. naive_solver.
Qed.

Lemma pull_blk_from_pool_nil t f :
  pool_rep t f [] → pull_blk_from_pool f t = Ok (NIL, f, t).
Proof.
  intros [Hrep _]. rewrite pull_blk_from_pool_link.
  - by rewrite (link_pull_empty _ _ Hrep).
  - left. by apply (head_NIL _ _ _ Hrep).
  - intros e _ Hne. exfalso. apply Hne.
    by rewrite (rep_head _ _ _ Hrep), (rep_tail _ _ _ Hrep).
Qed.

Lemma pull_blk_from_pool_cons t f b l :
  pool_rep t f (b :: l) →
  ∃ f' t', pull_blk_from_pool f t = Ok (b, f', t') ∧ pool_rep t' f' l ∧
    links_only t t' ∧ (∀ j, j ∉ b :: l → t' !! j = t !! j).
Proof.
  intros [Hrep Hl]. apply Forall_cons in Hl as [Hb Hl].
  rewrite pull_blk_from_pool_link.
  - destruct (link_pull_spec _ _ _ _ Hrep) as (f' & t' & -> & ? & ? & ?).
    cbn. do 2 eexists. done.
  - right. by rewrite (rep_head _ _ _ Hrep).
  - rewrite (rep_head _ _ _ Hrep), (rep_tail _ _ _ Hrep). cbn. intros e He Hne.
    destruct (rep_chain _ _ _ Hrep) as [Hlk Hc]. unfold links in Hlk. rewrite He in Hlk.
    pose proof (rep_nodup _ _ _ Hrep) as Hnd. destruct l as [|c l]; [done|].
    injection Hlk as _ ->. cbn. apply NoDup_cons in Hnd as [Hnd _].
    split; [by apply Forall_cons in Hl as [? _]|set_solver].
Qed.

(** ** The free list *)

(** The tables as the driver keeps them: every block has its record, the free
    pool links the blocks [l], which are in state [FREE]. *)
Record sys_inv (s : sysmeta) (l : list Z) : Prop := {
  sys_pool : pool_rep (bmitbl s) (free_blk_pool (statetbl s)) l;
  sys_dom : ∀ i, blk_ok i → ∃ e, bmitbl s !! i = Some e ∧ blknum e = i;
  sys_free : ∀ i e, i ∈ l → bmitbl s !! i = Some e → bmstate e = RAID_BLK_FREE;
}.

Lemma links_only_bmi t t' i e' :
  links_only t t' → t' !! i = Some e' →
  ∃ e, t !! i = Some e ∧ blknum e' = blknum e ∧ bbt e' = bbt e ∧ bmstate e' = bmstate e.
Proof.
  intros Hl Hi. specialize (Hl i). rewrite Hi in Hl. destruct (t !! i) as [e|]; [|done].
  destruct Hl as (n & p & ->). by exists e.
Qed.

Lemma links_bmstate t i s e j :
  t !! i = Some e → links (<[i := bmi_set_bmstate s e]> t) j = links t j.
Proof.
  intros He. unfold links. destruct (decide (i = j)) as [->|].
  - by rewrite lookup_insert_eq, He.
  - by rewrite lookup_insert_ne.
Qed.

Lemma pool_rep_bmstate t i s e f l :
  t !! i = Some e → pool_rep t f l → pool_rep (<[i := bmi_set_bmstate s e]> t) f l.
Proof.
  intros He [Hrep Hl]. split; [|done].
  apply fifo_rep_frame with t; [|done]. intros. by apply links_bmstate.
Qed.

Lemma insert_blk_to_free_list_spec s l blk :
  sys_inv s l → blk_ok blk → blk ∉ l →
  ∃ s', insert_blk_to_free_list blk s = Ok s' ∧ sys_inv s' (l ++ [blk]) ∧
    vpctbl s' = vpctbl s ∧
    (∀ j e', bmitbl s' !! j = Some e' → ∃ e, bmitbl s !! j = Some e ∧ bbt e' = bbt e).
Proof.
  intros [Hp Hd Hf] Hb Hn. unfold insert_blk_to_free_list.
  rewrite (get_bmi_item_in blk) by done. cbn. destruct (Hd blk Hb) as (e0 & He0 & _).
  destruct (push_blk_to_pool_spec _ _ _ blk Hp) as (f' & t' & -> & Hp' & Hlo & Hj); [done..| |].
  { by exists e0. }
  cbn. destruct (links_only_Some _ _ _ _ Hlo He0) as (n & p & He1).
  rewrite (aread_Some _ _ _ He1). cbn. eexists. split; [done|]. split; [|split; [done|]].
  - constructor; cbn.
    + by apply pool_rep_bmstate.
    + intros i Hi. destruct (decide (blk = i)) as [->|].
      * rewrite lookup_insert_eq. destruct (Hd i Hi) as (e & ? & ?). simplify_eq.
        by eexists.
      * rewrite lookup_insert_ne by done. destruct (Hd i Hi) as (e & Hie & ?).
        destruct (links_only_Some _ _ _ _ Hlo Hie) as (? & ? & ->). by eexists.
    + intros i e Hi. destruct (decide (blk = i)) as [->|].
      * rewrite lookup_insert_eq. by intros [= <-].
      * rewrite lookup_insert_ne by done. intros Hie.
        destruct (links_only_bmi _ _ _ _ Hlo Hie) as (e1 & He & _ & _ & ->).
        apply (Hf i); [set_solver|done].
  - intros j e'. cbn. destruct (decide (blk = j)) as [->|].
    + rewrite lookup_insert_eq. intros [= <-]. by eexists.
    + rewrite lookup_insert_ne by done. intros Hj'.
      destruct (links_only_bmi _ _ _ _ Hlo Hj') as (e & ? & _ & ? & _). by exists e.
Qed.

Lemma get_blk_from_free_list_nil s :
  sys_inv s [] → get_blk_from_free_list s = Ok (0, s).
Proof.
  intros [Hp _ _]. unfold get_blk_from_free_list.
  rewrite pull_blk_from_pool_nil by done. cbn. by destruct s as [[] ? ?].
Qed.

Lemma get_blk_from_free_list_cons s b l :
  sys_inv s (b :: l) →
  ∃ s', get_blk_from_free_list s = Ok (b, s') ∧ sys_inv s' l ∧
    vpctbl s' = vpctbl s ∧ (∃ e, bmitbl s' !! b = Some e ∧ bmstate e = RAID_BLK_OPEN).
Proof.
  intros [Hp Hd Hf]. unfold get_blk_from_free_list.
  assert (blk_ok b) as Hb by (by destruct Hp as [_ [? _]%Forall_cons]).
  pose proof (rep_nodup _ _ _ (proj1 Hp)) as [Hnb Hnd]%NoDup_cons.
  destruct (pull_blk_from_pool_cons _ _ _ _ Hp) as (f' & t' & -> & Hp' & Hlo & Hj). cbn.
  rewrite decide_False by (unfold blk_ok in Hb; cfg_lia).
  rewrite get_bmi_item_in by done. cbn. destruct (Hd b Hb) as (e0 & He0 & ?).
  destruct (links_only_Some _ _ _ _ Hlo He0) as (n & p & He1).
  rewrite (aread_Some _ _ _ He1). cbn. eexists. split; [done|]. split; [|split; [done|]].
  - constructor; cbn.
    + by apply pool_rep_bmstate.
    + intros i Hi. destruct (decide (b = i)) as [->|].
      * rewrite lookup_insert_eq. by eexists.
      * rewrite lookup_insert_ne by done. destruct (Hd i Hi) as (e & Hie & ?).
        destruct (links_only_Some _ _ _ _ Hlo Hie) as (? & ? & ->). by eexists.
    + intros i e Hi. rewrite lookup_insert_ne by set_solver. intros Hie.
      destruct (links_only_bmi _ _ _ _ Hlo Hie) as (e1 & He & _ & _ & ->).
      apply (Hf i); [set_solver|done].
  - eexists. cbn. by rewrite lookup_insert_eq.
Qed.

(** ** Properties *)

(** Take [n] blocks from the free list, in order. *)
Fixpoint get_blks (n : nat) (s : sysmeta) : res (list Z * sysmeta) :=
  match n with
  | O => Ok ([], s)
  | S n => '(b, s) ← get_blk_from_free_list s;
           '(bs, s) ← get_blks n s; Ok (b :: bs, s)
  end.

Lemma insert_blks_inv s l bs :
  sys_inv s l → NoDup (l ++ bs) → Forall blk_ok bs →
  ∃ s', mfor bs insert_blk_to_free_list s = Ok s' ∧ sys_inv s' (l ++ bs) ∧
    vpctbl s' = vpctbl s.
Proof.
  revert s l. induction bs as [|b bs IH]; intros s l Hs Hnd Hok; cbn.
  - rewrite app_nil_r. eauto.
  - apply Forall_cons in Hok as [Hb Hok].
    destruct (insert_blk_to_free_list_spec s l b Hs Hb) as (s1 & -> & Hs1 & Hv & _).
    { apply NoDup_app in Hnd as (_ & Hd & _). intros Hin. by apply (Hd b); [|left]. }
    cbn. destruct (IH s1 (l ++ [b])) as (s2 & -> & Hs2 & Hv2); [done| |done|].
    { by rewrite <-app_assoc. }
    rewrite <-app_assoc in Hs2. exists s2. split_and!; [done..|congruence].
Qed.

Lemma get_blks_inv s bs l :
  sys_inv s (bs ++ l) →
  ∃ s', get_blks (length bs) s = Ok (bs, s') ∧ sys_inv s' l ∧ vpctbl s' = vpctbl s.
Proof.
  revert s. induction bs as [|b bs IH]; intros s Hs; cbn; [eauto|].
  destruct (get_blk_from_free_list_cons s b (bs ++ l) Hs) as (s1 & -> & Hs1 & Hv & _).
  cbn. destruct (IH s1 Hs1) as (s2 & -> & Hs2 & Hv2). cbn.
  exists s2. split_and!; [done..|congruence].
Qed.

Lemma sys_inv_nodup s l : sys_inv s l → NoDup l.
Proof. intros [[Hr _] _ _]. by apply (rep_nodup _ _ _ Hr). Qed.

(** C22: the free block pool is a first-in first-out queue over the linked block
    records: blocks inserted after those already free come out after them, in the
    order of insertion, each once, and the pool is then empty; no valid page
    count changes. *)
Theorem free_list_fifo s l bs :
  sys_inv s l → NoDup (l ++ bs) → Forall blk_ok bs →
  ∃ s1 s2, mfor bs insert_blk_to_free_list s = Ok s1 ∧
    get_blks (length (l ++ bs)) s1 = Ok (l ++ bs, s2) ∧
    sys_inv s2 [] ∧ vpctbl s2 = vpctbl s.
Proof.
  intros Hs Hnd Hok.
  destruct (insert_blks_inv s l bs Hs Hnd Hok) as (s1 & H1 & Hs1 & Hv1).
  destruct (get_blks_inv s1 (l ++ bs) []) as (s2 & H2 & Hs2 & Hv2).
  { by rewrite app_nil_r. }
  exists s1, s2. split_and!; [done..|congruence].
Qed.

(** A freshly initialised set of tables. *)
Definition fresh_bmitbl : gmap Z bmi_item :=
  foldl (λ t blk, <[blk := bmi_zero blk]> t) ∅ (seqZ 0 CFG_NAND_BLOCK_NUM).

Definition fresh_sysmeta : sysmeta :=
  mk_sysmeta (mk_statetbl fsc_fifo_init fsc_fifo_init fsc_fifo_init) fresh_bmitbl ∅.

Lemma foldl_insert_lookup {A} (g : Z → A) (l : list Z) (t : gmap Z A) i :
  foldl (λ t k, <[k := g k]> t) t l !! i =
    if decide (i ∈ l) then Some (g i) else t !! i.
Proof.
  revert t. induction l as [|k l IH]; intros t; cbn.
  - rewrite decide_False by set_solver. done.
  - rewrite IH. destruct (decide (i ∈ l)).
    + rewrite decide_True by set_solver. done.
    + destruct (decide (k = i)) as [->|].
      * rewrite lookup_insert_eq, decide_True by set_solver. done.
      * rewrite lookup_insert_ne, decide_False by set_solver. done.
Qed.

Lemma fresh_bmitbl_lookup i : blk_ok i → fresh_bmitbl !! i = Some (bmi_zero i).
Proof.
  intros Hi. unfold fresh_bmitbl. rewrite foldl_insert_lookup.
  rewrite decide_True; [done|]. apply elem_of_seqZ. unfold blk_ok in Hi. lia.
Qed.

Lemma fresh_sysmeta_inv : sys_inv fresh_sysmeta [].
Proof.
  constructor.
  - split; [apply fifo_rep_empty|constructor].
  - intros i Hi. exists (bmi_zero i). cbn. rewrite fresh_bmitbl_lookup by done.
    split; [done|]. cbn. unfold blk_ok in Hi. rewrite u16_small by cfg_lia. done.
  - set_solver.
Qed.

Lemma free_list_fifo_witness :
  ∃ s1 s2, mfor [5; 3; 9] insert_blk_to_free_list fresh_sysmeta = Ok s1 ∧
    get_blks (length ([] ++ [5; 3; 9])) s1 = Ok ([] ++ [5; 3; 9], s2) ∧
    sys_inv s2 [] ∧ vpctbl s2 = vpctbl fresh_sysmeta.
Proof.
  apply (free_list_fifo fresh_sysmeta [] [5; 3; 9]).
  - exact fresh_sysmeta_inv.
  - cbn. repeat constructor; set_solver.
  - repeat constructor; cbn; lia.
Defined.

(** when the pool is empty, the allocator still hands out a block: block 0,
    the block reserved for the boot pages; the tables do not change, so every
    later allocation returns block 0 again. *)
Lemma free_list_exhausted_gives_boot_block s n :
  sys_inv s [] → get_blks n s = Ok (replicate n 0, s).
Proof.
  intros Hs. induction n as [|n IH]; cbn; [done|].
  rewrite get_blk_from_free_list_nil by done. cbn. by rewrite IH.
Qed.

Lemma free_list_exhausted_gives_boot_block_witness :
  get_blks 2 fresh_sysmeta = Ok (replicate 2 0, fresh_sysmeta).
Proof. apply free_list_exhausted_gives_boot_block. exact fresh_sysmeta_inv. Defined.

Lemma mark_bbt_tbl_run t e blk lun ch st :
  t !! blk = Some e → blk_ok blk → 0 ≤ lun < CFG_NAND_LUN_NUM →
  mark_bbt_tbl blk lun ch st t =
    Ok (<[blk := bmi_set_bbt
          (<[lun := u16 ((if st then BIT_SET else BIT_CLEAR)
                           (default 0 (bbt e !! lun)) ch)]> (bbt e)) e]> t).
Proof.
  intros He Hb Hl. unfold mark_bbt_tbl. rewrite (get_bmi_item_in blk) by done. cbn.
  rewrite (aread_Some _ _ _ He). cbn. rewrite wread_in by done. cbn.
  rewrite wwrite_in by done. cbn. by destruct st.
Qed.

Lemma is_ppa_badblock_run p t e :
  t !! nand_blk p = Some e → blk_ok (nand_blk p) →
  is_ppa_badblock p t = Ok (Z.testbit (default 0 (bbt e !! nand_lun p)) (nand_ch p)).
Proof.
  intros He Hb. unfold is_ppa_badblock. rewrite (get_bmi_item_in (nand_blk p)) by done. cbn.
  rewrite (aread_Some _ _ _ He). cbn.
  pose proof (get_bits_range 7 3 p ltac:(lia) ltac:(lia)).
  pose proof (get_bits_range 0 4 p ltac:(lia) ltac:(lia)).
  rewrite wread_in by (unfold nand_lun; cfg_lia). cbn.
  by rewrite BIT_TEST_testbit by (unfold nand_ch; lia).
Qed.

Lemma u16_testbit z i : 0 ≤ i < 16 → Z.testbit (u16 z) i = Z.testbit z i.
Proof. intros. unfold u16. rewrite Z.mod_pow2_bits_low by lia. done. Qed.

Lemma mark_bit_testbit (st : bool) z i j :
  0 ≤ i → 0 ≤ j →
  Z.testbit ((if st then BIT_SET else BIT_CLEAR) z i) j =
    if decide (j = i) then st else Z.testbit z j.
Proof.
  intros. destruct st; rewrite ?BIT_SET_testbit, ?BIT_CLEAR_testbit by lia;
    case_decide as Hd.
  - by rewrite bool_decide_eq_true_2.
  - by rewrite bool_decide_eq_false_2.
  - by rewrite bool_decide_eq_true_2.
  - by rewrite bool_decide_eq_false_2.
Qed.

(** marking a (block, lun, channel) as bad or good is what a later bad-block
    query of any address in it answers, and the answer for every address in
    another (block, lun, channel) is unchanged. *)
Lemma mark_bbt_tbl_query t blk lun ch st p :
  (∀ i, blk_ok i → is_Some (t !! i)) →
  blk_ok blk → 0 ≤ lun < CFG_NAND_LUN_NUM → 0 ≤ ch < CFG_NAND_CHANNEL_NUM →
  blk_ok (nand_blk p) →
  ∃ t', mark_bbt_tbl blk lun ch st t = Ok t' ∧
    is_ppa_badblock p t' =
      if decide (nand_blk p = blk ∧ nand_lun p = lun ∧ nand_ch p = ch)
      then Ok st else is_ppa_badblock p t.
Proof.
  intros Hd Hb Hl Hc Hp. destruct (Hd blk Hb) as [e He].
  rewrite (mark_bbt_tbl_run _ e) by done. eexists. split; [done|].
  pose proof (get_bits_range 0 4 p ltac:(lia) ltac:(lia)) as Hch. fold (nand_ch p) in Hch.
  destruct (Hd _ Hp) as [ep Hep]. rewrite (is_ppa_badblock_run p t ep) by done.
  destruct (decide (nand_blk p = blk)) as [<-|Hne].
  - assert (ep = e) as -> by congruence. erewrite is_ppa_badblock_run; [|apply lookup_insert_eq|done].
    cbn. destruct (decide (nand_lun p = lun)) as [<-|].
    + rewrite lookup_insert_eq. cbn. rewrite u16_testbit by lia.
      rewrite mark_bit_testbit by lia. destruct (decide (nand_ch p = ch)) as [Hcc|Hcc].
      * by rewrite decide_True.
      * by rewrite decide_False by (by intros (_ & _ & ?)).
    + rewrite lookup_insert_ne by done. by rewrite decide_False by (by intros (_ & ? & _)).
  - erewrite is_ppa_badblock_run; [|by rewrite lookup_insert_ne|done].
    by rewrite decide_False by (by intros (? & _)).
Qed.

Lemma mark_bbt_tbl_query_witness :
  ∃ t', mark_bbt_tbl 7 2 5 BADB fresh_bmitbl = Ok t' ∧
    is_ppa_badblock (set_ppa_nand_addr 5 1 1 2 77 7) t' = Ok true.
Proof.
  destruct (mark_bbt_tbl_query fresh_bmitbl 7 2 5 BADB (set_ppa_nand_addr 5 1 1 2 77 7))
    as (t' & H1 & H2).
  - intros i Hi. rewrite fresh_bmitbl_lookup by done. by eexists.
  - unfold blk_ok. cfg_lia.
  - cfg_lia.
  - cfg_lia.
  - split; vm_compute; [discriminate|reflexivity].
  - exists t'. split; [exact H1|]. rewrite H2. vm_compute. reflexivity.
Defined.

(** the logical address space is laid out without overlap: user addresses
    below [EXTEND_LBA_BASE], then the L2P, block-information, valid-count and
    first-level tables, then nothing up to the special page marks; every user
    address has an entry in the L2P table, and all of it fits in 32 bits. *)
Lemma lba_zones_wf :
  0 < MAX_USER_LBA < EXTEND_LBA_UFTL ∧
  EXTEND_LBA_UFTL < EXTEND_LBA_BMITBL < EXTEND_LBA_VPCTBL ∧
  EXTEND_LBA_VPCTBL < EXTEND_LBA_L1TBL < EXTEND_LBA_RSVD0 ∧
  EXTEND_LBA_RSVD0 ≤ XOR1DX_PAGE ∧
  (∀ lba, 0 ≤ lba ≤ MAX_USER_LBA → 4 * lba + 4 ≤ USR_FTLTBL_SIZE) ∧
  (∀ blk, blk_ok blk → 4 * blk + 4 ≤ VPCTBL_SIZE ∧
                       sizeof_bmi_item * (blk + 1) ≤ BMITBL_SIZE).
Proof.
  assert (4 * (MAX_USER_LBA + 1) ≤ USR_FTLTBL_SIZE) as H1 by (vm_compute; discriminate).
  assert (4 * CFG_NAND_BLOCK_NUM ≤ VPCTBL_SIZE) as H2 by (vm_compute; discriminate).
  assert (sizeof_bmi_item * CFG_NAND_BLOCK_NUM ≤ BMITBL_SIZE) as H3
    by (vm_compute; discriminate).
  assert (0 < sizeof_bmi_item) as H4 by (vm_compute; reflexivity).
  do 4 (split; [vm_compute; intuition discriminate|]). split.
  - intros lba Hl. lia.
  - intros blk [_ Hb]. split; [lia|nia].
Qed.
