(* ===== verification/PpaCmd.v ===== *)
(** * PPA commands and their submission

    [core.c], the command and request structures of [fscftl.h], and
    [datapath/ppa-ops.c].  The block layer and the device are parameters: a
    [kenv] answers whether an allocation, a request allocation or a buffer mapping
    succeeds and at which bus address memory lands; the device is a function from
    a command and the DMA memory it points to, to a status and a payload. *)

From S2P Require Import Prelude NandCfg Kernel.

#[local] Open Scope Z_scope.

(** ** Structures *)

(** [enum] of command types of [fscftl.h] *)
Inductive cmd_type : Type :=
  | FSCFTL_HOST_WRITE | FSCFTL_HOST_READ | FSCFTL_GC_WRITE | FSCFTL_GC_READ
  | FSCFTL_METAPG_WRITE | FSCFTL_METAPG_READ | FSCFTL_BBTPG_WRITE | FSCFTL_BBTPG_READ.

#[global] Instance cmd_type_eq_dec : EqDecision cmd_type.
Proof. solve_decision. Defined.

Record nvme_ppa_command : Type := mk_ppa_command {
  c_opcode : Z;
  c_flags : Z;
  c_command_id : Z;
  c_nsid : Z;
  c_rsvd2 : Z;
  c_metadata : Z;
  c_prp1 : Z;
  c_prp2 : Z;
  c_ppalist : Z;
  c_nlb : Z;
  c_control : Z;
  c_dsmgmt : Z;
  c_resv : Z;
}.

#[global] Instance nvme_ppa_command_eq_dec : EqDecision nvme_ppa_command.
Proof. solve_decision. Defined.

(** A zeroed command with the fields the driver fills in. *)
Definition ppa_command (opcode nsid metadata ppalist nlb control : Z) : nvme_ppa_command :=
  mk_ppa_command opcode 0 0 nsid 0 metadata 0 0 ppalist nlb control 0 0.

(** The context stored behind the command.  [ctx] is a LUN buffer index; pool
    pages are named by their id. *)
Record nvme_ppa_iod : Type := mk_ppa_iod {
  iod_ctx : option Z;
  iod_vaddr_data : Z;
  iod_vaddr_meta : option Z;
  iod_vaddr_ppalist : option Z;
  iod_idx : Z;
  iod_cmdtype : option cmd_type;
}.

(** [struct nvm_rq]; [rq_addr] is the union of [ppa_addr] and [dma_ppa_list]. *)
Record nvm_rq : Type := mk_rq {
  rq_bio : option (Z * Z);      (** [bi_size] and priority of the data bio *)
  rq_addr : Z;
  rq_ppa_list : option Z;
  rq_dma_meta_list : Z;
  rq_opcode : Z;
  rq_nr_ppas : Z;
  rq_flags : Z;
  rq_ppa_status : Z;
  rq_error : Z;
}.

(** A block layer request as the driver fills it in. *)
Record request : Type := mk_request {
  req_id : Z;
  req_cmd : nvme_ppa_command;
  req_cmd_obj : Z;
  req_ioprio : Z;
  req_data_len : Z;
}.

(** ** The environment *)

Record kenv : Type := mk_kenv {
  alloc_ok : nat → bool;   (** the [n]-th allocation succeeds *)
  req_err : nat → Z;       (** [nvme_alloc_request]: 0 or [PTR_ERR] *)
  map_err : nat → Z;       (** [blk_rq_map_kern]: 0 or an error *)
  dma_addr : nat → Z;      (** bus address of the [n]-th allocation *)
  virt_addr : nat → Z;     (** kernel address of the [n]-th allocation *)
}.

(** DMA pool pages by id, each [PAGE_SIZE / 8] words of [u64], zero by default. *)
Record pstate : Type := mk_pstate {
  p_heap : kheap;
  p_pool : gmap Z (gmap Z Z);
}.

Definition POOL_WORDS : Z := PAGE_SIZE / 8.

Section core.
Context (E : kenv).

(** *** The DMA pool *)

Definition nvm_exdev_setup_pool (h : kheap) : Z * kheap :=
  let '(ok, h) := kalloc (alloc_ok E) ("dmapoll", 0) h in
  (if ok then 0 else - ENOMEM, h).

Definition nvm_exdev_release_pool (h : kheap) : res kheap := kfree ("dmapoll", 0) h.

(** The page is cleared before the caller can test the pointer. *)
Definition dma_pool_page_zalloc (s : pstate) : res (Z * Z * pstate) :=
  let n := k_calls (p_heap s) in
  let id := Z.of_nat n in
  let '(ok, h) := kalloc (alloc_ok E) ("dmapage", id) (p_heap s) in
  if ok then Ok (id, dma_addr E n, mk_pstate h (<[id := ∅]> (p_pool s)))
  else Fault F_NULL.

Definition dma_pool_page_free (id : Z) (s : pstate) : res pstate :=
  h ← kfree ("dmapage", id) (p_heap s);
  Ok (mk_pstate h (delete id (p_pool s))).

(** [ppalist[i] = v] *)
Definition pool_write (id i v : Z) (s : pstate) : res pstate :=
  page ← aread (p_pool s) id;
  page ← wwrite POOL_WORDS page i v;
  Ok (mk_pstate (p_heap s) (<[id := page]> (p_pool s))).

(** *** Requests of the LightNVM kind *)

Definition set_rqd_nand_ppalist (rqd : nvm_rq) (ppas : list Z) (nr_ppas : Z) (s : pstate)
    : res (Z * nvm_rq * pstate) :=
  let rqd := mk_rq (rq_bio rqd) (rq_addr rqd) (rq_ppa_list rqd) (rq_dma_meta_list rqd)
               (rq_opcode rqd) (u16 nr_ppas) (rq_flags rqd) (rq_ppa_status rqd)
               (rq_error rqd) in
  if decide (nr_ppas = 1) then
    p ← match ppas !! 0%nat with Some p => Ok p | None => Fault F_OOB end;
    Ok (0, mk_rq (rq_bio rqd) p (rq_ppa_list rqd) (rq_dma_meta_list rqd) (rq_opcode rqd)
             (rq_nr_ppas rqd) (rq_flags rqd) (rq_ppa_status rqd) (rq_error rqd), s)
  else
    '(id, dma, s) ← dma_pool_page_zalloc s;
    s ← mfor (seqZ 0 nr_ppas) (λ i s,
          p ← match ppas !! Z.to_nat i with Some p => Ok p | None => Fault F_OOB end;
          pool_write id i p s) s;
    Ok (0, mk_rq (rq_bio rqd) dma (Some id) (rq_dma_meta_list rqd) (rq_opcode rqd)
             (rq_nr_ppas rqd) (rq_flags rqd) (rq_ppa_status rqd) (rq_error rqd), s).

Definition free_rqd_nand_ppalist (rqd : nvm_rq) (s : pstate) : res pstate :=
  match rq_ppa_list rqd with
  | None => Ok s
  | Some id => dma_pool_page_free id s
  end.

Definition nvm_rqd_to_ppacmd (rqd : nvm_rq) (instance : Z) : nvme_ppa_command :=
  ppa_command (u8 (rq_opcode rqd)) (u32 instance) (u64 (rq_dma_meta_list rqd))
    (u64 (rq_addr rqd)) (u16 (rq_nr_ppas rqd - 1)) (u16 (rq_flags rqd)).

(** [IOPRIO_PRIO_VALUE(IOPRIO_CLASS_BE, IOPRIO_NORM)] *)
Definition IOPRIO_BE_NORM : Z := Z.lor (Z.shiftl 2 13) 4.

(** [nvme_alloc_request]: a live request object or an error. *)
Definition nvme_alloc_request (h : kheap) : Z * Z * kheap :=
  let n := k_calls h in
  let e := req_err E n in
  let id := Z.of_nat n in
  if decide (e = 0) then
    (0, id, mk_kheap (S n) ({[("request", id)]} ∪ k_live h))
  else (e, id, mk_kheap (S n) (k_live h)).

Definition blk_mq_free_request (id : Z) (h : kheap) : res kheap := kfree ("request", id) h.

Definition nvm_submit_ppa (instance : Z) (rqd : nvm_rq) (h : kheap)
    : res (Z * option request * kheap) :=
  let cmd := Z.of_nat (k_calls h) in
  let '(ok, h) := kalloc (alloc_ok E) ("ppacmd", cmd) h in
  if negb ok then Ok (- ENOMEM, None, h) else
  let '(e, id, h) := nvme_alloc_request h in
  if decide (e ≠ 0) then
    h ← kfree ("ppacmd", cmd) h;
    Ok (- ENOMEM, None, h)
  else
    let '(prio, len) := match rq_bio rqd with
                        | Some (sz, prio) => (prio, sz)
                        | None => (IOPRIO_BE_NORM, 0)
                        end in
    Ok (0, Some (mk_request id (nvm_rqd_to_ppacmd rqd instance) cmd prio len), h).

(** Completion of such a request; the callback of [rqd] is the caller's. *)
Definition nvm_ppa_end_io (rq : request) (rqd : nvm_rq) (result error : Z) (h : kheap)
    : res (nvm_rq * kheap) :=
  let rqd := mk_rq (rq_bio rqd) (rq_addr rqd) (rq_ppa_list rqd) (rq_dma_meta_list rqd)
               (rq_opcode rqd) (rq_nr_ppas rqd) (rq_flags rqd) (u64 result) error in
  h ← kfree ("ppacmd", req_cmd_obj rq) h;
  h ← blk_mq_free_request (req_id rq) h;
  Ok (rqd, h).

Section sync.
(** The device: the result word and error it completes a command with. *)
Context (dev : nvme_ppa_command → gmap Z (gmap Z Z) → Z * Z).

(** [nvm_ersppa_sync]: the return code and the commands the device executed, each
    with the DMA memory it saw. *)
Definition nvm_ersppa_sync (instance : Z) (ppas : list Z) (nr_ppas : Z) (s : pstate)
    : res (Z * list (nvme_ppa_command * gmap Z (gmap Z Z)) * pstate) :=
  let rqd := mk_rq None 0 None 0 NVM_OP_ERASE 0 NVM_IO_SNGL_ACCESS 0 0 in
  '(ret, rqd, s) ← set_rqd_nand_ppalist rqd ppas nr_ppas s;
  if decide (ret ≠ 0) then Ok (ret, [], s) else
  '(ret, rq, h) ← nvm_submit_ppa instance rqd (p_heap s);
  let s := mk_pstate h (p_pool s) in
  '(trace, rqd, s) ←
    match rq with
    | None => Ok ([], rqd, s)
    | Some rq =>
        let '(result, error) := dev (req_cmd rq) (p_pool s) in
        '(rqd, h) ← nvm_ppa_end_io rq rqd result error (p_heap s);
        Ok ([(req_cmd rq, p_pool s)], rqd, mk_pstate h (p_pool s))
    end;
  s ← free_rqd_nand_ppalist rqd s;
  Ok (ret, trace, s).

(** [nvm_rdpparaw_sync]: [dma_meta] is the mapping of [metabuf]; the status of
    [nvme_submit_sync_cmd] is not looked at. *)
Definition nvm_rdpparaw_sync (ns_id : Z) (ppa : list Z) (nr_ppas ctrl dma_meta : Z)
    (s : pstate) : res (Z * list (nvme_ppa_command * gmap Z (gmap Z Z)) * pstate) :=
  '(list, addr, s) ←
    (if decide (nr_ppas = 1) then
       p ← match ppa !! 0%nat with Some p => Ok p | None => Fault F_OOB end;
       Ok (None, p, s)
     else
       '(id, dma, s) ← dma_pool_page_zalloc s;
       s ← mfor (seqZ 0 nr_ppas) (λ i s,
             p ← match ppa !! Z.to_nat i with Some p => Ok p | None => Fault F_OOB end;
             pool_write id i p s) s;
       Ok (Some id, dma, s));
  let cmd := ppa_command NVM_OP_RDRAW (u32 ns_id) (u64 dma_meta) (u64 addr)
               (u16 (nr_ppas - 1)) (u16 ctrl) in
  let _ := dev cmd (p_pool s) in
  let trace := [(cmd, p_pool s)] in
  s ← match list with
      | Some id => if decide (1 < nr_ppas) then dma_pool_page_free id s else Ok s
      | None => Ok s
      end;
  Ok (0, trace, s).
End sync.

(** *** Commands submitted directly *)

(** [alloc_ppa_rqd_ctx]: [ppacmd_to_pdu] of a failed allocation is dereferenced by
    every caller, so a failure is a fault there. *)
Definition alloc_ppa_rqd_ctx (h : kheap) : res (Z * kheap) :=
  let id := Z.of_nat (k_calls h) in
  let '(ok, h) := kalloc (alloc_ok E) ("ppacmd", id) h in
  if ok then Ok (id, h) else Fault F_NULL.

(** [__nvme_submit_ppa_cmd]: the return code and the request queued on success.
    The completion function frees the command and the request. *)
Definition nvme_submit_ppa_cmd (cmd : nvme_ppa_command) (cmd_obj : Z) (buffer bufflen : Z)
    (h : kheap) : res (Z * option request * kheap) :=
  let '(e, id, h) := nvme_alloc_request h in
  if decide (e ≠ 0) then Ok (e, None, h) else
  let me := if decide (buffer ≠ 0 ∧ bufflen ≠ 0) then map_err E (k_calls h) else 0 in
  if decide (me ≠ 0) then
    h ← blk_mq_free_request id h;
    Ok (me, None, h)
  else Ok (0, Some (mk_request id cmd cmd_obj 0 bufflen), h).

Section cmd_sync.
Context {A : Type} (dev : nvme_ppa_command → gmap Z (gmap Z Z) → Z * A).

(** [nvme_submit_ppa_cmd_sync]: [req->errors] after the completion, and what the
    device transferred. *)
Definition nvme_submit_ppa_cmd_sync (cmd : nvme_ppa_command) (buffer bufflen : Z)
    (s : pstate) : res (Z * option A * pstate) :=
  let '(e, id, h) := nvme_alloc_request (p_heap s) in
  if decide (e ≠ 0) then Ok (e, None, mk_pstate h (p_pool s)) else
  let me := if decide (buffer ≠ 0 ∧ bufflen ≠ 0) then map_err E (k_calls h) else 0 in
  let '(ret, a) := if decide (me ≠ 0) then (me, None)
                   else let '(st, a) := dev cmd (p_pool s) in (st, Some a) in
  h ← blk_mq_free_request id h;
  Ok (ret, a, mk_pstate h (p_pool s)).
End cmd_sync.
End core.

(** ** Lemmas *)

(** Objects named by the allocation count are fresh. *)
Definition heap_wf (h : kheap) : Prop :=
  ∀ nm id, (nm, id) ∈ k_live h → nm ∈ ["dmapage"; "ppacmd"; "request"] → id < Z.of_nat (k_calls h).

Lemma heap_wf_fresh h nm n :
  heap_wf h → nm ∈ ["dmapage"; "ppacmd"; "request"] → (k_calls h ≤ n)%nat →
  (nm, Z.of_nat n) ∉ k_live h.
Proof. intros Hw Hn Hle Hin. specialize (Hw _ _ Hin Hn). lia. Qed.

Lemma live_add_remove (L : gset obj) o : o ∉ L → ({[o]} ∪ L) ∖ {[o]} = L.
Proof. set_solver. Qed.

Lemma heap_wf_alloc h h' nm id :
  heap_wf h → id = Z.of_nat (k_calls h) →
  k_live h' = {[(nm, id)]} ∪ k_live h → k_calls h' = S (k_calls h) → heap_wf h'.
Proof.
  intros Hw -> Hl Hc nm' id'. rewrite Hl, Hc, elem_of_union, elem_of_singleton.
  intros [[= -> ->]|Hin] Hn; [lia|]. specialize (Hw _ _ Hin Hn). lia.
Qed.

Lemma heap_wf_sub h h' : heap_wf h → k_live h' ⊆ k_live h → (k_calls h ≤ k_calls h')%nat → heap_wf h'.
Proof. intros Hw Hl Hc nm id Hin Hn. apply Hl in Hin. specialize (Hw _ _ Hin Hn). lia. Qed.

(** An object that is not named by the allocation count. *)
Lemma heap_wf_other h nm i :
  heap_wf h → nm ∉ ["dmapage"; "ppacmd"; "request"] →
  heap_wf (mk_kheap (S (k_calls h)) ({[(nm, i)]} ∪ k_live h)).
Proof.
  intros Hw Hnm nm' id. cbn. rewrite elem_of_union, elem_of_singleton. intros [[= -> ->]|Hin] Hn; [done|].
  specialize (Hw _ _ Hin Hn). lia.
Qed.

(** An environment in which nothing runs out. *)
Record env_good (E : kenv) : Prop := {
  eg_alloc : ∀ n, alloc_ok E n = true;
  eg_req : ∀ n, req_err E n = 0;
  eg_map : ∀ n, map_err E n = 0;
}.

Section good.
Context (E : kenv) (HE : env_good E).
#[local] Set Default Proof Using "All".

Lemma alloc_ctx_good h os L :
  heap_wf h → owns h os L →
  ∃ id h', alloc_ppa_rqd_ctx E h = Ok (id, h') ∧ heap_wf h' ∧ owns h' (("ppacmd", id) :: os) L.
Proof.
  intros Hw Ho. unfold alloc_ppa_rqd_ctx, kalloc. rewrite (eg_alloc _ HE).
  do 2 eexists. split; [done|]. split; [by eapply heap_wf_alloc|].
  eapply owns_alloc; [done|apply heap_wf_fresh; [done|set_solver|lia]|done].
Qed.

Lemma page_zalloc_good s os L :
  heap_wf (p_heap s) → owns (p_heap s) os L →
  let k := k_calls (p_heap s) in
  ∃ s', dma_pool_page_zalloc E s = Ok (Z.of_nat k, dma_addr E k, s') ∧ heap_wf (p_heap s') ∧
    owns (p_heap s') (("dmapage", Z.of_nat k) :: os) L ∧ ("dmapage", Z.of_nat k) ∉ k_live (p_heap s) ∧
    p_pool s' = <[Z.of_nat k := ∅]> (p_pool s).
Proof.
  intros Hw Ho k. unfold dma_pool_page_zalloc, kalloc. rewrite (eg_alloc _ HE).
  assert (("dmapage", Z.of_nat k) ∉ k_live (p_heap s)) by (apply heap_wf_fresh; [done|set_solver|lia]).
  eexists. split; [done|]. split; [by eapply heap_wf_alloc|]. split; [by eapply owns_alloc|done].
Qed.

Lemma submit_good cmd cmd_obj buffer len h os L :
  heap_wf h → owns h os L →
  ∃ rq h', nvme_submit_ppa_cmd E cmd cmd_obj buffer len h = Ok (0, Some rq, h') ∧
    req_cmd rq = cmd ∧ req_cmd_obj rq = cmd_obj ∧ req_data_len rq = len ∧ heap_wf h' ∧
    k_calls h' = S (k_calls h) ∧ owns h' (("request", req_id rq) :: os) L.
Proof.
  intros Hw Ho. unfold nvme_submit_ppa_cmd, nvme_alloc_request.
  rewrite (eg_req _ HE), decide_True by done. cbn [negb]. rewrite decide_False by auto.
  rewrite (eg_map _ HE). rewrite decide_False by (case_decide; auto).
  do 2 eexists. split; [done|]. do 3 (split; [done|]). split; [by eapply heap_wf_alloc|].
  split; [done|]. eapply owns_alloc; [done|apply heap_wf_fresh; [done|set_solver|lia]|done].
Qed.

(** A command run to completion. *)
Lemma submit_sync_good {A} (dev : nvme_ppa_command → gmap Z (gmap Z Z) → Z * A) cmd buffer len s os L :
  heap_wf (p_heap s) → owns (p_heap s) os L →
  ∃ s', nvme_submit_ppa_cmd_sync E dev cmd buffer len s =
      Ok ((dev cmd (p_pool s)).1, Some (dev cmd (p_pool s)).2, s') ∧
    p_pool s' = p_pool s ∧ heap_wf (p_heap s') ∧ owns (p_heap s') os L.
Proof.
  intros Hw Ho. unfold nvme_submit_ppa_cmd_sync, nvme_alloc_request.
  rewrite (eg_req _ HE), decide_True by done. cbn [negb]. rewrite decide_False by auto.
  rewrite (eg_map _ HE). rewrite decide_False by (case_decide; auto).
  set (id := Z.of_nat (k_calls (p_heap s))). set (h1 := mk_kheap _ _).
  assert (heap_wf h1) as Hw1 by (by eapply heap_wf_alloc).
  assert (owns h1 (("request", id) :: os) L) as Ho1.
  { eapply owns_alloc; [done|apply heap_wf_fresh; [done|set_solver|lia]|done]. }
  destruct (dev cmd (p_pool s)) as [st a]. unfold blk_mq_free_request.
  destruct (owns_free _ _ _ _ Ho1) as (h2 & Hf & Hc & Ho2). rewrite Hf, bind_Ok_l.
  eexists. split; [done|]. split; [done|]. split; [|done]. cbn [p_heap].
  apply heap_wf_sub with h1; [done| |lia]. rewrite (ow_live _ _ _ Ho1), (ow_live _ _ _ Ho2). set_solver.
Qed.
End good.

Lemma page_free_good id s os L :
  heap_wf (p_heap s) → owns (p_heap s) (("dmapage", id) :: os) L →
  ∃ s', dma_pool_page_free id s = Ok s' ∧ heap_wf (p_heap s') ∧ owns (p_heap s') os L ∧
    p_pool s' = delete id (p_pool s).
Proof.
  intros Hw Ho. destruct (owns_free _ _ _ _ Ho) as (h' & Hf & Hc & Ho').
  unfold dma_pool_page_free. rewrite Hf, bind_Ok_l. eexists. split; [done|]. split; [|done].
  apply heap_wf_sub with (p_heap s); [done| |cbn [p_heap]; lia].
  cbn [p_heap]. rewrite (ow_live _ _ _ Ho), (ow_live _ _ _ Ho'). set_solver.
Qed.

Lemma kfree_good o h os L :
  heap_wf h → owns h (o :: os) L → ∃ h', kfree o h = Ok h' ∧ heap_wf h' ∧ owns h' os L.
Proof.
  intros Hw Ho. destruct (owns_free _ _ _ _ Ho) as (h' & Hf & Hc & Ho').
  exists h'. split; [done|]. split; [|done]. apply heap_wf_sub with h; [done| |lia].
  rewrite (ow_live _ _ _ Ho), (ow_live _ _ _ Ho'). set_solver.
Qed.

(** Filling a pool page with a list of addresses. *)
Lemma pool_fill (id n : Z) (ppas : list Z) (s : pstate) :
  is_Some (p_pool s !! id) → n = Z.of_nat (length ppas) → n ≤ POOL_WORDS →
  ∃ page, mfor (seqZ 0 n) (λ i s,
      p ← match ppas !! Z.to_nat i with Some p => Ok p | None => Fault F_OOB end;
      pool_write id i p s) s
    = Ok (mk_pstate (p_heap s) (<[id := page]> (p_pool s))) ∧
    ∀ i p, ppas !! i = Some p → page !! Z.of_nat i = Some p.
Proof.
  intros [page0 Hpage] -> Hn.
  destruct (mfor_inv (λ dn s', ∃ page, s' = mk_pstate (p_heap s) (<[id := page]> (p_pool s)) ∧
      ∀ i p, (i < length dn)%nat → ppas !! i = Some p → page !! Z.of_nat i = Some p)
      (λ i s, p ← match ppas !! Z.to_nat i with Some p => Ok p | None => Fault F_OOB end;
              pool_write id i p s) (seqZ 0 (Z.of_nat (length ppas))) s)
    as (s' & Hs' & page & -> & Hp).
  - exists page0. split.
    + destruct s. cbn in *. by rewrite insert_id.
    + intros i p Hi. cbn in Hi. lia.
  - intros dn a todo s1 Hl (page & -> & Hp).
    assert (a = Z.of_nat (length dn)) as ->.
    { assert (seqZ 0 (Z.of_nat (length ppas)) !! length dn = Some a) as Ha.
      { rewrite Hl. by rewrite list_lookup_middle. }
      apply lookup_seqZ in Ha as [-> _]. lia. }
    assert (length dn < length ppas)%nat as Hlt.
    { apply (f_equal length) in Hl. rewrite length_seqZ, length_app in Hl. cbn in Hl. lia. }
    rewrite Nat2Z.id. destruct (lookup_lt_is_Some_2 ppas (length dn) Hlt) as [p Hpl].
    rewrite Hpl. cbn. unfold pool_write. cbn. rewrite (aread_Some _ _ _ (lookup_insert_eq _ _ _)).
    cbn. rewrite wwrite_in by lia. cbn. eexists. split; [done|].
    exists (<[Z.of_nat (length dn) := p]> page). split; [by rewrite insert_insert_eq|].
    intros i q Hi Hq. rewrite length_app in Hi. cbn in Hi.
    destruct (decide (i = length dn)) as [->|].
    + rewrite lookup_insert_eq. congruence.
    + rewrite lookup_insert_ne by lia. apply Hp; [lia|done].
  - exists page. split; [done|]. intros i p Hi. apply Hp; [|done].
    rewrite length_seqZ. apply lookup_lt_Some in Hi. lia.
Qed.

(** Submitting and completing a request leaves the heap as it was. *)
Lemma submit_complete_live E instance rqd h :
  heap_wf h →
  (∃ h', nvm_submit_ppa E instance rqd h = Ok (- ENOMEM, None, h') ∧ k_live h' = k_live h) ∨
  (∃ rq h', nvm_submit_ppa E instance rqd h = Ok (0, Some rq, h') ∧
     req_cmd rq = nvm_rqd_to_ppacmd rqd instance ∧
     ∀ result error, ∃ rqd' h'', nvm_ppa_end_io rq rqd result error h' = Ok (rqd', h'') ∧
       rq_ppa_list rqd' = rq_ppa_list rqd ∧ k_live h'' = k_live h).
Proof.
  intros Hw. unfold nvm_submit_ppa, kalloc, nvme_alloc_request. cbn.
  destruct (alloc_ok E (k_calls h)); cbn; [|left; eauto].
  assert (("ppacmd", Z.of_nat (k_calls h)) ∉ k_live h) as Hf.
  { apply heap_wf_fresh; [done|set_solver|lia]. }
  assert (("request", Z.of_nat (S (k_calls h))) ∉ k_live h) as Hr.
  { apply heap_wf_fresh; [done|set_solver|lia]. }
  destruct (decide (req_err E (S (k_calls h)) = 0)); cbn.
  - right. case_decide; [done|].
    destruct (rq_bio rqd) as [[? ?]|]; do 2 eexists; (split; [done|]; split; [done|]);
      intros result error; unfold nvm_ppa_end_io; cbn;
      rewrite kfree_live by set_solver; cbn; unfold blk_mq_free_request;
      rewrite kfree_live by set_solver; cbn; do 2 eexists; (split; [done|]);
      cbn; (split; [done|]); set_solver.
  - left. rewrite decide_True by done.
    rewrite kfree_live by set_solver. cbn. eexists. split; [done|]. cbn. set_solver.
Qed.

(** The part of [nvm_ersppa_sync] after the address list is set. *)
Definition ersppa_finish (E : kenv) (dev : nvme_ppa_command → gmap Z (gmap Z Z) → Z * Z)
    (instance : Z) (rqd : nvm_rq) (s : pstate)
    : res (Z * list (nvme_ppa_command * gmap Z (gmap Z Z)) * pstate) :=
  '(ret, rq, h) ← nvm_submit_ppa E instance rqd (p_heap s);
  let s := mk_pstate h (p_pool s) in
  '(trace, rqd, s) ←
    match rq with
    | None => Ok ([], rqd, s)
    | Some rq =>
        let '(result, error) := dev (req_cmd rq) (p_pool s) in
        '(rqd, h) ← nvm_ppa_end_io rq rqd result error (p_heap s);
        Ok ([(req_cmd rq, p_pool s)], rqd, mk_pstate h (p_pool s))
    end;
  s ← free_rqd_nand_ppalist rqd s;
  Ok (ret, trace, s).

Lemma ersppa_finish_spec E dev instance rqd s L :
  heap_wf (p_heap s) →
  k_live (p_heap s) = (match rq_ppa_list rqd with Some id => {[("dmapage", id)]} | None => ∅ end) ∪ L →
  match rq_ppa_list rqd with Some id => ("dmapage", id) ∉ L | None => True end →
  ∃ ret trace s', ersppa_finish E dev instance rqd s = Ok (ret, trace, s') ∧
    k_live (p_heap s') = L ∧
    ((ret = - ENOMEM ∧ trace = []) ∨
     (ret = 0 ∧ trace = [(nvm_rqd_to_ppacmd rqd instance, p_pool s)])).
Proof.
  intros Hw HL HnL. unfold ersppa_finish.
  assert (∀ h pool, k_live h = k_live (p_heap s) →
    ∃ s', free_rqd_nand_ppalist rqd (mk_pstate h pool) = Ok s' ∧ k_live (p_heap s') = L) as Hfree.
  { intros h pool Hh. unfold free_rqd_nand_ppalist, dma_pool_page_free. rewrite <-Hh in HL.
    destruct (rq_ppa_list rqd); cbn.
    - rewrite kfree_live by set_solver. cbn. eexists. split; [done|]. cbn. rewrite HL.
      by apply live_add_remove.
    - eexists. split; [done|]. cbn. rewrite HL. set_solver. }
  destruct (submit_complete_live E instance rqd (p_heap s) Hw)
    as [(h' & -> & Hl) | (rq & h' & -> & Hc & Hend)]; cbn.
  - destruct (Hfree h' (p_pool s) Hl) as (s' & -> & ?). cbn. do 3 eexists. eauto 6.
  - destruct (dev (req_cmd rq) (p_pool s)) as [result error].
    destruct (Hend result error) as (rqd' & h'' & -> & Hpl & Hl). cbn.
    destruct (Hfree h'' (p_pool s) Hl) as (s' & Hf & ?).
    assert (free_rqd_nand_ppalist rqd' (mk_pstate h'' (p_pool s)) = Ok s') as ->.
    { revert Hf. unfold free_rqd_nand_ppalist. by rewrite Hpl. }
    cbn. do 3 eexists. rewrite Hc. eauto 6.
Qed.

Lemma ersppa_sync_single E dev instance p s :
  nvm_ersppa_sync E dev instance [p] 1 s =
    ersppa_finish E dev instance
      (mk_rq None p None 0 NVM_OP_ERASE (u16 1) NVM_IO_SNGL_ACCESS 0 0) s.
Proof. done. Qed.

Lemma ersppa_sync_many E dev instance ppas n s :
  n ≠ 1 → n = Z.of_nat (length ppas) → n ≤ POOL_WORDS →
  alloc_ok E (k_calls (p_heap s)) = true →
  let k := k_calls (p_heap s) in
  ∃ page, (∀ i p, ppas !! i = Some p → page !! Z.of_nat i = Some p) ∧
    nvm_ersppa_sync E dev instance ppas n s =
    ersppa_finish E dev instance
      (mk_rq None (dma_addr E k) (Some (Z.of_nat k)) 0 NVM_OP_ERASE (u16 n)
         NVM_IO_SNGL_ACCESS 0 0)
      (mk_pstate (mk_kheap (S k) ({[("dmapage", Z.of_nat k)]} ∪ k_live (p_heap s)))
         (<[Z.of_nat k := page]> (p_pool s))).
Proof.
  intros H1 Hn Hle Ha k. unfold nvm_ersppa_sync, set_rqd_nand_ppalist.
  rewrite decide_False by done. unfold dma_pool_page_zalloc, kalloc. rewrite Ha.
  set (s1 := mk_pstate _ _).
  destruct (pool_fill (Z.of_nat k) n ppas s1) as (page & Hf & Hpg); [|done|done|].
  { cbn. rewrite lookup_insert_eq. by eexists. }
  exists page. split; [done|]. unfold k in *. cbn -[seqZ]. rewrite Hf. cbn.
  by rewrite insert_insert_eq.
Qed.

(** ** Properties *)

(** an erase command names exactly the pages asked for and leaks nothing.  With
    [1 <= n <= 512] addresses, and a DMA page available when a list is needed, the
    call returns; either no command was sent and [-ENOMEM] is reported, or one
    command was sent, with [nlb = n - 1], whose address field is the page address
    itself for [n = 1] and otherwise the bus address of a DMA page that holds the
    [n] addresses in order while the device works.  Whatever happened, the live
    objects are the ones before the call. *)
Lemma ersppa_sync_spec E dev instance ppas n s :
  heap_wf (p_heap s) → n = Z.of_nat (length ppas) → 1 ≤ n ≤ 512 →
  (∀ p, p ∈ ppas → 0 ≤ p < 2 ^ 64) → (∀ k, 0 ≤ dma_addr E k < 2 ^ 64) →
  (n ≠ 1 → alloc_ok E (k_calls (p_heap s)) = true) →
  ∃ ret trace s', nvm_ersppa_sync E dev instance ppas n s = Ok (ret, trace, s') ∧
    k_live (p_heap s') = k_live (p_heap s) ∧
    ((ret = - ENOMEM ∧ trace = []) ∨
     (∃ c mem, ret = 0 ∧ trace = [(c, mem)] ∧ c_opcode c = NVM_OP_ERASE ∧ c_nlb c = n - 1 ∧
        if decide (n = 1) then ppas !! 0%nat = Some (c_ppalist c)
        else ∃ k page, c_ppalist c = dma_addr E k ∧ mem !! Z.of_nat k = Some page ∧
               ∀ i p, ppas !! i = Some p → page !! Z.of_nat i = Some p)).
Proof.
  intros Hw Hn Hr Hp Hd Ha. destruct (decide (n = 1)) as [H1|H1].
  - destruct ppas as [|p [|? ?]]; cbn in Hn; try lia. rewrite H1, ersppa_sync_single.
    destruct (ersppa_finish_spec E dev instance
      (mk_rq None p None 0 NVM_OP_ERASE (u16 1) NVM_IO_SNGL_ACCESS 0 0) s (k_live (p_heap s)))
      as (ret & trace & s' & Hrun & Hl & Hres); [done|cbn; set_solver|done|].
    exists ret, trace, s'. split; [done|]. split; [done|].
    destruct Hres as [|[-> ->]]; [by left|right]. do 2 eexists. split_and!; try done.
    cbn. rewrite u64_small; [done|]. apply Hp. by left.
  - destruct (ersppa_sync_many E dev instance ppas n s) as (page & Hpg & ->);
      [done..|change POOL_WORDS with 512; lia|auto|].
    assert (("dmapage", Z.of_nat (k_calls (p_heap s))) ∉ k_live (p_heap s)) as Hfr.
    { apply heap_wf_fresh; [done|set_solver|lia]. }
    set (rqd := mk_rq _ _ _ _ _ _ _ _ _). set (s1 := mk_pstate _ _).
    destruct (ersppa_finish_spec E dev instance rqd s1 (k_live (p_heap s)))
      as (ret & trace & s' & Hrun & Hl & Hres); [|reflexivity|exact Hfr|].
    { intros nm i. cbn. rewrite elem_of_union, elem_of_singleton.
      intros [[= -> ->]|Hin] Hnm; [lia|]. specialize (Hw _ _ Hin Hnm). lia. }
    exists ret, trace, s'. split; [exact Hrun|]. split; [done|].
    destruct Hres as [|[-> ->]]; [by left|right]. do 2 eexists.
    split; [done|]. split; [done|]. cbn. split; [done|]. split.
    { rewrite (u16_small n), u16_small by lia. done. }
    exists (k_calls (p_heap s)), page. rewrite u64_small by auto. split; [done|].
    split; [by rewrite lookup_insert_eq|done].
Qed.

Definition env_ok : kenv :=
  mk_kenv (λ _, true) (λ _, 0) (λ _, 0) (λ n, 0x100000 + 4096 * (Z.of_nat n mod 2 ^ 20))
    (λ n, 0x40000000 + 0x100000 * Z.of_nat n).

Lemma env_ok_good : env_good env_ok.
Proof. by constructor. Qed.

Lemma env_ok_dma k : 0 ≤ dma_addr env_ok k < 2 ^ 64.
Proof.
  cbn. pose proof (Z.mod_pos_bound (Z.of_nat k) (2 ^ 20) ltac:(lia)). lia.
Qed.

Lemma ersppa_sync_spec_witness :
  ∃ ret trace s', nvm_ersppa_sync env_ok (λ _ _, (0, 0)) 1 [7; 1031] 2
      (mk_pstate (mk_kheap 0 ∅) ∅) = Ok (ret, trace, s') ∧ k_live (p_heap s') = ∅ ∧
    length trace = 1%nat.
Proof.
  destruct (ersppa_sync_spec env_ok (λ _ _, (0, 0)) 1 [7; 1031] 2 (mk_pstate (mk_kheap 0 ∅) ∅))
    as (ret & trace & s' & H & Hl & Hr).
  - intros nm id Hin. set_solver.
  - reflexivity.
  - lia.
  - intros p Hp. repeat (apply elem_of_cons in Hp as [->|Hp]; [lia|]). by apply not_elem_of_nil in Hp.
  - exact env_ok_dma.
  - reflexivity.
  - exists ret, trace, s'. split; [exact H|]. split; [exact Hl|].
    revert H. vm_compute. intros [= <- <- <-]. reflexivity.
Defined.

(** the return code of the erase call says nothing about the erase: it is the
    same for every answer the device gives, so a failed erase is reported as 0. *)
Lemma ersppa_sync_ignores_device E dev1 dev2 instance ppas n s :
  nvm_ersppa_sync E dev1 instance ppas n s = nvm_ersppa_sync E dev2 instance ppas n s.
Proof.
  unfold nvm_ersppa_sync. apply bind_ext. intros [[ret rqd] s1].
  case_decide; [reflexivity|]. apply bind_ext. intros [[ret' rq] h].
  destruct rq as [rq|]; [|reflexivity]. destruct (dev1 _ _), (dev2 _ _).
  unfold nvm_ppa_end_io. destruct (kfree _ _) as [h1|]; cbn; [|reflexivity].
  by destruct (blk_mq_free_request _ _).
Qed.

(** running out of DMA memory while an address list is built is a fault, not the
    [-ENOMEM] the callers test for: the page is cleared before the pointer is
    looked at. *)
Lemma ppalist_alloc_failure_faults E rqd ppas n s :
  alloc_ok E (k_calls (p_heap s)) = false → n ≠ 1 →
  set_rqd_nand_ppalist E rqd ppas n s = Fault F_NULL.
Proof.
  intros Ha Hn. unfold set_rqd_nand_ppalist. rewrite decide_False by done.
  unfold dma_pool_page_zalloc, kalloc. by rewrite Ha.
Qed.

Lemma ppalist_alloc_failure_faults_witness :
  set_rqd_nand_ppalist (mk_kenv (λ _, false) (λ _, 0) (λ _, 0) (λ _, 0) (λ _, 0))
    (mk_rq None 0 None 0 NVM_OP_ERASE 0 0 0 0) [1; 2] 2 (mk_pstate (mk_kheap 0 ∅) ∅)
  = Fault F_NULL.
Proof. apply ppalist_alloc_failure_faults; [reflexivity|lia]. Defined.
