(* ===== verification/WriteCache.v ===== *)
(** * The write cache: LUN buffers and their FIFOs

    [writecache/wcb-mngr.c] and [writecache/wcb-mngr.h].  A pointer into
    [lun_entitys] is its index.  Each LUN buffer owns its DMA memory: [dbuf] is the
    content of [data] in 4 KB slots and [ppa] the content of the address list.
    The time stamps, which are only printed, the unused member [newval] and the
    spin locks are left out; the locks reappear as the atomic steps of
    [WriteSystem]. *)

From S2P Require Import Prelude NandCfg Fifo Kernel SysMeta PpaCmd.
From Stdlib Require Import Strings.Byte.

#[local] Open Scope Z_scope.

(** ** Constants *)

Definition READ_CB_UNITS : Z := 0.
Definition WRITE_CB_UNITS : Z := 2.
Definition TOTAL_CB_UNITS : Z := WRITE_CB_UNITS + READ_CB_UNITS.
Definition CB_ENTITYS_CNT : Z := TOTAL_CB_UNITS * CFG_NAND_LUN_NUM.
Definition RAID_LUN_SEC_NUM : Z := CFG_NAND_CHANNEL_NUM * CFG_NAND_EP_NUM * CFG_NAND_PLANE_NUM.
Definition MAX_USED_WCB_ENTITYS : Z := 3.

#[export] Hint Unfold READ_CB_UNITS WRITE_CB_UNITS TOTAL_CB_UNITS CB_ENTITYS_CNT
  RAID_LUN_SEC_NUM MAX_USED_WCB_ENTITYS : cfg.

(** The content of one 4 KB page. *)
Definition page : Type := list Byte.byte.

(** ** Data *)

Record wcb_lun_entity : Type := mk_entity {
  index : Z;
  baddr : geo_ppa;
  data : Z;
  dbuf : gmap Z page;
  meta_dma : Z;
  ppa : gmap Z Z;
  ppa_dma : Z;
  lba : gmap Z Z;
  cqe_flag : Z;
  pos : Z;
  fill_cnt : Z;
  enext : Z;
  eprev : Z;
}.

Definition e_set_index (v : Z) (e : wcb_lun_entity) : wcb_lun_entity :=
  mk_entity v (baddr e) (data e) (dbuf e) (meta_dma e) (ppa e) (ppa_dma e) (lba e)
    (cqe_flag e) (pos e) (fill_cnt e) (enext e) (eprev e).
Definition e_set_baddr (v : geo_ppa) (e : wcb_lun_entity) : wcb_lun_entity :=
  mk_entity (index e) v (data e) (dbuf e) (meta_dma e) (ppa e) (ppa_dma e) (lba e)
    (cqe_flag e) (pos e) (fill_cnt e) (enext e) (eprev e).
Definition e_set_mem (d m p : Z) (e : wcb_lun_entity) : wcb_lun_entity :=
  mk_entity (index e) (baddr e) d (dbuf e) m (ppa e) p (lba e)
    (cqe_flag e) (pos e) (fill_cnt e) (enext e) (eprev e).
Definition e_set_dbuf (v : gmap Z page) (e : wcb_lun_entity) : wcb_lun_entity :=
  mk_entity (index e) (baddr e) (data e) v (meta_dma e) (ppa e) (ppa_dma e) (lba e)
    (cqe_flag e) (pos e) (fill_cnt e) (enext e) (eprev e).
Definition e_set_ppa (v : gmap Z Z) (e : wcb_lun_entity) : wcb_lun_entity :=
  mk_entity (index e) (baddr e) (data e) (dbuf e) (meta_dma e) v (ppa_dma e) (lba e)
    (cqe_flag e) (pos e) (fill_cnt e) (enext e) (eprev e).
Definition e_set_lba (v : gmap Z Z) (e : wcb_lun_entity) : wcb_lun_entity :=
  mk_entity (index e) (baddr e) (data e) (dbuf e) (meta_dma e) (ppa e) (ppa_dma e) v
    (cqe_flag e) (pos e) (fill_cnt e) (enext e) (eprev e).
Definition e_set_cqe_flag (v : Z) (e : wcb_lun_entity) : wcb_lun_entity :=
  mk_entity (index e) (baddr e) (data e) (dbuf e) (meta_dma e) (ppa e) (ppa_dma e) (lba e)
    v (pos e) (fill_cnt e) (enext e) (eprev e).
Definition e_set_pos (v : Z) (e : wcb_lun_entity) : wcb_lun_entity :=
  mk_entity (index e) (baddr e) (data e) (dbuf e) (meta_dma e) (ppa e) (ppa_dma e) (lba e)
    (cqe_flag e) v (fill_cnt e) (enext e) (eprev e).
Definition e_set_fill_cnt (v : Z) (e : wcb_lun_entity) : wcb_lun_entity :=
  mk_entity (index e) (baddr e) (data e) (dbuf e) (meta_dma e) (ppa e) (ppa_dma e) (lba e)
    (cqe_flag e) (pos e) v (enext e) (eprev e).
Definition e_set_next (v : Z) (e : wcb_lun_entity) : wcb_lun_entity :=
  mk_entity (index e) (baddr e) (data e) (dbuf e) (meta_dma e) (ppa e) (ppa_dma e) (lba e)
    (cqe_flag e) (pos e) (fill_cnt e) v (eprev e).
Definition e_set_prev (v : Z) (e : wcb_lun_entity) : wcb_lun_entity :=
  mk_entity (index e) (baddr e) (data e) (dbuf e) (meta_dma e) (ppa e) (ppa_dma e) (lba e)
    (cqe_flag e) (pos e) (fill_cnt e) (enext e) v.

#[global, refine] Instance entity_linked : Linked wcb_lun_entity := {|
  lk_next := enext;
  lk_prev := eprev;
  lk_set := λ n p e, e_set_next n (e_set_prev p e);
|}.
Proof. all: by intros; try match goal with e : wcb_lun_entity |- _ => destruct e end. Defined.

(** [struct wcb_ctx] and [struct wcb_bio_ctx]; absent entries are zeroed. *)
Record wcb_ctx : Type := mk_wcb_ctx {
  entitys : option Z;
  start_pos : Z;
  end_pos : Z;
}.

#[global] Instance wcb_ctx_eq_dec : EqDecision wcb_ctx.
Proof. solve_decision. Defined.

Notation wcb_bio_ctx := (gmap Z wcb_ctx).

(** [struct wcb_lun_gctl]; the list of postponed bios is kept by [WritePath]. *)
Record wcb_lun_gctl : Type := mk_gctl {
  curppa : geo_ppa;
  empty_lun : fsc_fifo;
  full_lun : fsc_fifo;
  read_lun : gmap Z fsc_fifo;
  ongoing_lun : fsc_fifo;
  lun_entitys : gmap Z wcb_lun_entity;
  partial_entity : option Z;
  outstanding_lun : Z;
}.

Definition c_set_empty (f : fsc_fifo) (c : wcb_lun_gctl) : wcb_lun_gctl :=
  mk_gctl (curppa c) f (full_lun c) (read_lun c) (ongoing_lun c) (lun_entitys c)
    (partial_entity c) (outstanding_lun c).
Definition c_set_full (f : fsc_fifo) (c : wcb_lun_gctl) : wcb_lun_gctl :=
  mk_gctl (curppa c) (empty_lun c) f (read_lun c) (ongoing_lun c) (lun_entitys c)
    (partial_entity c) (outstanding_lun c).
Definition c_set_ongoing (f : fsc_fifo) (c : wcb_lun_gctl) : wcb_lun_gctl :=
  mk_gctl (curppa c) (empty_lun c) (full_lun c) (read_lun c) f (lun_entitys c)
    (partial_entity c) (outstanding_lun c).
Definition c_set_entitys (m : gmap Z wcb_lun_entity) (c : wcb_lun_gctl) : wcb_lun_gctl :=
  mk_gctl (curppa c) (empty_lun c) (full_lun c) (read_lun c) (ongoing_lun c) m
    (partial_entity c) (outstanding_lun c).
Definition c_set_partial (p : option Z) (c : wcb_lun_gctl) : wcb_lun_gctl :=
  mk_gctl (curppa c) (empty_lun c) (full_lun c) (read_lun c) (ongoing_lun c) (lun_entitys c)
    p (outstanding_lun c).
Definition c_set_outstanding (n : Z) (c : wcb_lun_gctl) : wcb_lun_gctl :=
  mk_gctl (curppa c) (empty_lun c) (full_lun c) (read_lun c) (ongoing_lun c) (lun_entitys c)
    (partial_entity c) n.

(** The globals of the write path: [g_wcb_lun_ctl], the system tables and the
    [l2ptbl] of the device, whose unwritten entries hold [INVALID_PAGE]. *)
Record ftl : Type := mk_ftl {
  ctl : wcb_lun_gctl;
  sys : sysmeta;
  l2ptbl : gmap Z Z;
}.

Definition set_ctl (c : wcb_lun_gctl) (s : ftl) : ftl := mk_ftl c (sys s) (l2ptbl s).
Definition set_sys (y : sysmeta) (s : ftl) : ftl := mk_ftl (ctl s) y (l2ptbl s).
Definition set_l2ptbl (m : gmap Z Z) (s : ftl) : ftl := mk_ftl (ctl s) (sys s) m.

Definition get_entity (i : Z) (s : ftl) : res wcb_lun_entity := aread (lun_entitys (ctl s)) i.
Definition put_entity (i : Z) (e : wcb_lun_entity) (s : ftl) : ftl :=
  set_ctl (c_set_entitys (<[i := e]> (lun_entitys (ctl s))) (ctl s)) s.

(** ** FIFO operations *)

(** Push to the tail; the record links its own [index]. *)
Definition push_lun_entity_to_fifo (fifo : fsc_fifo) (entry : Z) (m : gmap Z wcb_lun_entity)
    : res (fsc_fifo * gmap Z wcb_lun_entity) :=
  let old_tail := ftail fifo in
  e ← aread m entry;
  '(fifo, m) ←
    (if decide (old_tail = 0xffff) then
       Ok (mk_fifo (index e) (index e) (fsize fifo),
           <[entry := e_set_prev 0xffff (e_set_next 0xffff e)]> m)
     else
       let m := <[entry := e_set_prev 0xffff (e_set_next old_tail e)]> m in
       ot ← aread m old_tail;
       Ok (mk_fifo (fhead fifo) (index e) (fsize fifo),
           <[old_tail := e_set_prev (index e) ot]> m));
  Ok (mk_fifo (fhead fifo) (ftail fifo) (u32 (fsize fifo + 1)), m).

(** Pull from the head. *)
Definition pull_lun_entity_from_fifo (fifo : fsc_fifo) (m : gmap Z wcb_lun_entity)
    : res (option Z * fsc_fifo * gmap Z wcb_lun_entity) :=
  let old_head := fhead fifo in
  if decide (old_head = 0xffff) then Ok (None, fifo, m) else
  e ← aread m old_head;
  '(fifo, m) ←
    (if decide (fhead fifo = ftail fifo) then Ok (mk_fifo 0xffff 0xffff (fsize fifo), m)
     else
       nh ← aread m (eprev e);
       Ok (mk_fifo (eprev e) (ftail fifo) (fsize fifo),
           <[eprev e := e_set_next 0xffff nh]> m));
  e ← aread m old_head;
  let m := <[old_head := e_set_next 0xffff (e_set_prev 0xffff e)]> m in
  Ok (Some old_head, mk_fifo (fhead fifo) (ftail fifo) (u32 (fsize fifo - 1)), m).

(** [print_lun_entitys_fifo] reads the position of the partial buffer. *)
Definition print_lun_entitys_fifo (s : ftl) : res (Z * fsc_fifo * fsc_fifo) :=
  p ← deref (partial_entity (ctl s));
  e ← get_entity p s;
  Ok (pos e, empty_lun (ctl s), full_lun (ctl s)).

(** ** Taking the next LUN buffer *)

Definition get_next_entity_baddr (cur : geo_ppa) (y : sysmeta) : res (geo_ppa * sysmeta) :=
  let bppa := cur in
  let '(ch, sec, pl, lun, pg, blk) := get_ppa_each_region bppa in
  let '(lun, carry) := INCRE_BOUNDED u8 lun LN_BITS in
  let '(pg, carry) := IF_CARRY_THEN_INCRE_BOUNDED u16 carry pg PG_BITS in
  '(blk, y) ← (if (carry : bool) then
                 '(b, y) ← get_blk_from_free_list y; Ok (u16 b, y)
               else Ok (blk, y));
  let bppa := set_nand_ch 0 bppa in
  let bppa := set_nand_sec 0 bppa in
  let bppa := set_nand_pl 0 bppa in
  let bppa := set_nand_lun lun bppa in
  let bppa := set_nand_pg pg bppa in
  Ok (set_nand_blk blk bppa, y).

(** The next buffer and its base address; [NULL] when no buffer is empty, after
    [print_lun_entitys_fifo] has looked at the partial buffer just set to [NULL]. *)
Definition get_next_lun_entity (cur : geo_ppa) (s : ftl) : res (option Z * ftl) :=
  '(o, f, m) ← pull_lun_entity_from_fifo (empty_lun (ctl s)) (lun_entitys (ctl s));
  let s := set_ctl (c_set_entitys m (c_set_empty f (ctl s))) s in
  match o with
  | None =>
      let s := set_ctl (c_set_partial None (ctl s)) s in
      _ ← print_lun_entitys_fifo s;
      Ok (None, s)
  | Some i =>
      '(b, y) ← get_next_entity_baddr cur (sys s);
      let s := set_sys y s in
      e ← get_entity i s;
      let e := e_set_fill_cnt 0 (e_set_cqe_flag 0 (e_set_pos 0 (e_set_baddr b e))) in
      let s := put_entity i e s in
      Ok (Some i, set_ctl (c_set_partial (Some i) (ctl s)) s)
  end.

(** The buffer in which writing starts after power up. *)
Definition get_lun_entity (startppa : geo_ppa) (s : ftl) : res (option Z * ftl) :=
  '(o, f, m) ← pull_lun_entity_from_fifo (empty_lun (ctl s)) (lun_entitys (ctl s));
  let s := set_ctl (c_set_entitys m (c_set_empty f (ctl s))) s in
  match o with
  | None => Ok (None, s)
  | Some i =>
      let ch := nand_ch startppa in
      let ep := nand_sec startppa in
      let pl := nand_pl startppa in
      let p := u16 (Z.lor (Z.lor ch (Z.shiftl ep CH_BITS)) (Z.shiftl pl (CH_BITS + EP_BITS))) in
      let startppa := set_nand_pl 0 (set_nand_sec 0 (set_nand_ch 0 startppa)) in
      e ← get_entity i s;
      let s := put_entity i (e_set_cqe_flag 0 (e_set_pos p (e_set_baddr startppa e))) s in
      Ok (Some i, set_ctl (c_set_partial (Some i) (ctl s)) s)
  end.

(** ** Allocation and release of the cache *)

Definition entity_zero : wcb_lun_entity := mk_entity 0 0 0 ∅ 0 ∅ 0 ∅ 0 0 0 0 0.

Definition gctl_init : wcb_lun_gctl :=
  mk_gctl 0 fsc_fifo_init fsc_fifo_init
    (foldl (λ m i, <[i := fsc_fifo_init]> m) ∅ for_each_lun) fsc_fifo_init
    (foldl (λ m i, <[i := entity_zero]> m) ∅ (seqZ 0 CB_ENTITYS_CNT)) None 0.

Section alloc.
Context (E : kenv).

Definition wcb_lun_ctl_init (h : kheap) : res (Z * option wcb_lun_gctl * kheap) :=
  let '(ok, h) := kalloc (alloc_ok E) ("wcb_lun_ctl", 0) h in
  if negb ok then Ok (- ENOMEM, None, h) else
  let '(ok, h) := kalloc (alloc_ok E) ("lun_entitys", 0) h in
  if negb ok then h ← kfree ("wcb_lun_ctl", 0) h; Ok (- ENOMEM, None, h)
  else Ok (0, Some gctl_init, h).

Definition wcb_lun_ctl_exit (h : kheap) : res kheap :=
  h ← kfree ("lun_entitys", 0) h; kfree ("wcb_lun_ctl", 0) h.

(** The three DMA buffers of one LUN buffer. *)
Definition wcb_single_lun_alloc (i : Z) (e : wcb_lun_entity) (h : kheap)
    : res (Z * wcb_lun_entity * kheap) :=
  let n1 := k_calls h in
  let '(ok, h) := kalloc (alloc_ok E) ("lun_data", i) h in
  if negb ok then Ok (- ENOMEM, e, h) else
  let n2 := k_calls h in
  let '(ok, h) := kalloc (alloc_ok E) ("lun_meta", i) h in
  if negb ok then h ← kfree ("lun_data", i) h; Ok (- ENOMEM, e, h) else
  let n3 := k_calls h in
  let '(ok, h) := kalloc (alloc_ok E) ("lun_ppa", i) h in
  if negb ok then
    h ← kfree ("lun_meta", i) h; h ← kfree ("lun_data", i) h; Ok (- ENOMEM, e, h)
  else
    Ok (0, e_set_ppa ∅ (e_set_mem (virt_addr E n1) (dma_addr E n2) (dma_addr E n3) e), h).

Definition wcb_single_lun_free (i : Z) (h : kheap) : res kheap :=
  h ← kfree ("lun_ppa", i) h;
  h ← kfree ("lun_meta", i) h;
  kfree ("lun_data", i) h.

(** [while (--i)] of the error path; [lun_entitys + i] must be inside the array. *)
Fixpoint free_lun_mem (fuel : nat) (i : Z) (c : wcb_lun_gctl) (h : kheap) : res kheap :=
  match fuel with
  | O => Fault F_FUEL
  | S fuel =>
      let i := i - 1 in
      if decide (i = 0) then Ok h else
      _ ← aread (lun_entitys c) i;
      h ← wcb_single_lun_free i h;
      free_lun_mem fuel i c h
  end.

(** The loop over the buffers still to set up. *)
Fixpoint wcb_lun_mem_loop (todo : list Z) (c : wcb_lun_gctl) (h : kheap)
    : res (Z * wcb_lun_gctl * kheap) :=
  match todo with
  | [] => Ok (0, c, h)
  | i :: todo =>
      e ← aread (lun_entitys c) i;
      let e := e_set_prev 0xffff (e_set_next 0xffff (e_set_index i e)) in
      let c := c_set_entitys (<[i := e]> (lun_entitys c)) c in
      '(f, m) ← push_lun_entity_to_fifo (empty_lun c) i (lun_entitys c);
      let c := c_set_entitys m (c_set_empty f c) in
      e ← aread (lun_entitys c) i;
      '(ret, e, h) ← wcb_single_lun_alloc i (e_set_fill_cnt 0 e) h;
      let c := c_set_entitys (<[i := e]> (lun_entitys c)) c in
      if decide (ret ≠ 0) then
        h ← free_lun_mem (Z.to_nat CB_ENTITYS_CNT) i c h;
        Ok (- ENOMEM, c, h)
      else wcb_lun_mem_loop todo c h
  end.

Definition wcb_lun_mem_alloc (c : wcb_lun_gctl) (h : kheap) : res (Z * wcb_lun_gctl * kheap) :=
  wcb_lun_mem_loop (seqZ 0 CB_ENTITYS_CNT) c h.

Definition wcb_lun_mem_free (h : kheap) : res kheap :=
  mfor (seqZ 0 CB_ENTITYS_CNT) wcb_single_lun_free h.

Definition write_cache_alloc (h : kheap) : res (Z * option wcb_lun_gctl * kheap) :=
  '(ret, c, h) ← wcb_lun_ctl_init h;
  if decide (ret ≠ 0) then Ok (ret, None, h) else
  c ← deref c;
  '(ret, c, h) ← wcb_lun_mem_alloc c h;
  if decide (ret ≠ 0) then h ← wcb_lun_ctl_exit h; Ok (ret, None, h)
  else Ok (0, Some c, h).

Definition write_cache_free (h : kheap) : res kheap :=
  h ← wcb_lun_mem_free h; wcb_lun_ctl_exit h.
End alloc.

#[global] Arguments wcb_single_lun_alloc : simpl never.
#[global] Arguments wcb_single_lun_free : simpl never.
#[global] Arguments push_lun_entity_to_fifo : simpl never.
#[global] Arguments pull_lun_entity_from_fifo : simpl never.
#[global] Arguments get_next_entity_baddr : simpl never.
#[global] Arguments get_next_lun_entity : simpl never.

(** ** The FIFOs are index-linked FIFOs *)

Lemma push_lun_entity_link f i m :
  (∀ e, m !! i = Some e → index e = i) →
  push_lun_entity_to_fifo f i m = link_push f m i.
Proof.
  intros Hi. unfold push_lun_entity_to_fifo, link_push. change 0xffff with NIL.
  destruct (m !! i) as [e|] eqn:He.
  - rewrite (aread_Some _ _ _ He). cbn. rewrite (Hi e eq_refl). case_decide; cbn; [done|].
    by destruct (aread _ (ftail f)).
  - by rewrite (aread_None _ _ He).
Qed.

Lemma pull_lun_entity_link f m : pull_lun_entity_from_fifo f m = link_pull f m.
Proof.
  unfold pull_lun_entity_from_fifo, link_pull. change 0xffff with NIL.
  case_decide; [done|]. destruct (m !! fhead f) as [e|] eqn:He.
  - rewrite !(aread_Some _ _ _ He). cbn. case_decide; cbn.
    + by rewrite (aread_Some _ _ _ He).
    + by destruct (aread m (eprev e)).
  - by rewrite (aread_None _ _ He).
Qed.

(** What changing links preserves of a LUN buffer. *)
Lemma links_only_entity m m' i e' :
  links_only m m' → m' !! i = Some e' →
  ∃ e n p, m !! i = Some e ∧ e' = e_set_next n (e_set_prev p e).
Proof.
  intros Hl Hi. specialize (Hl i). rewrite Hi in Hl. destruct (m !! i) as [e|]; [|done].
  destruct Hl as (n & p & ->). by exists e, n, p.
Qed.

(** ** The sequence of base addresses *)

(** A base address: the first sector of a LUN stripe of an existing block. *)
Definition base_ok (b : geo_ppa) : Prop :=
  0 ≤ b < 2 ^ 31 ∧ nand_ch b = 0 ∧ nand_sec b = 0 ∧ nand_pl b = 0 ∧ blk_ok (nand_blk b).

(** The number of a stripe inside its block. *)
Definition stripe (b : geo_ppa) : Z := nand_lun b + CFG_NAND_LUN_NUM * nand_pg b.

Definition STRIPES : Z := CFG_NAND_LUN_NUM * CFG_NAND_PAGE_NUM.

Lemma nand_lun_range b : 0 ≤ nand_lun b < 8.
Proof. apply (get_bits_range 7 3); lia. Qed.
Lemma nand_pg_range b : 0 ≤ nand_pg b < 512.
Proof. apply (get_bits_range 10 9); lia. Qed.
Lemma nand_blk_range b : 0 ≤ nand_blk b < 4096.
Proof. apply (get_bits_range 19 12); lia. Qed.

Lemma stripe_range b : 0 ≤ stripe b < STRIPES.
Proof.
  pose proof (nand_lun_range b). pose proof (nand_pg_range b).
  unfold stripe, STRIPES. cfg_lia.
Qed.

(** The address rebuilt from a lun, a page and a block. *)
Lemma rebuild_base cur lun pg blk :
  0 ≤ cur < 2 ^ 31 → 0 ≤ lun < 8 → 0 ≤ pg < 512 → blk_ok blk →
  let b := set_nand_blk blk (set_nand_pg pg (set_nand_lun lun
             (set_nand_pl 0 (set_nand_sec 0 (set_nand_ch 0 cur))))) in
  base_ok b ∧ nand_lun b = lun ∧ nand_pg b = pg ∧ nand_blk b = blk.
Proof.
  intros Hc Hl Hp Hb b. assert (0 ≤ blk < 4096) by (unfold blk_ok in Hb; cfg_lia).
  assert (0 ≤ b < 2 ^ 31).
  { unfold b. autounfold with ppa_fields. repeat (apply set_bits_bound; [lia..|]). lia. }
  assert (nand_blk b = blk) as Hbb.
  { unfold b. ppa_field. apply Z.mod_small. lia. }
  unfold base_ok. rewrite Hbb. split_and!; try done; try lia.
  all: unfold b; ppa_field; apply Z.mod_small; lia.
Qed.

(** Inside a block the next stripe follows; after the last one the block comes from
    the free list. *)
Lemma get_next_entity_baddr_spec cur y :
  0 ≤ cur < 2 ^ 31 → blk_ok (nand_blk cur) →
  if decide (stripe cur < STRIPES - 1) then
    ∃ b, get_next_entity_baddr cur y = Ok (b, y) ∧ base_ok b ∧
      stripe b = stripe cur + 1 ∧ nand_blk b = nand_blk cur
  else
    ∀ blk y', get_blk_from_free_list y = Ok (blk, y') → blk_ok blk →
    ∃ b, get_next_entity_baddr cur y = Ok (b, y') ∧ base_ok b ∧
      stripe b = 0 ∧ nand_blk b = blk.
Proof.
  intros Hc Hb. pose proof (nand_lun_range cur) as Hl. pose proof (nand_pg_range cur) as Hp.
  pose proof (nand_blk_range cur) as Hk.
  unfold get_next_entity_baddr, get_ppa_each_region, INCRE_BOUNDED,
    IF_CARRY_THEN_INCRE_BOUNDED, INCRE_BOUNDED.
  rewrite (u8_small (nand_lun cur)), (u8_small (nand_lun cur + 1)) by lia.
  rewrite (u16_small (nand_pg cur)), (u16_small (nand_blk cur)) by lia.
  change (Z.shiftl 1 LN_BITS) with 8. change (Z.shiftl 1 PG_BITS) with 512.
  unfold stripe, STRIPES. destruct (decide (nand_lun cur + 1 = 8)) as [Hl8|Hl8].
  - rewrite (u16_small (nand_pg cur + 1)) by lia.
    destruct (decide (nand_pg cur + 1 = 512)) as [Hp5|Hp5].
    + rewrite decide_False by cfg_lia. intros blk y' Hg Hblk. rewrite Hg. cbn.
      rewrite u16_small by (unfold blk_ok in Hblk; cfg_lia).
      destruct (rebuild_base cur 0 0 blk) as (Hok & Hb1 & Hb2 & Hb3); [lia..|done|].
      eexists. split; [done|]. split; [done|]. rewrite Hb1, Hb2, Hb3. done.
    + rewrite decide_True by cfg_lia. cbn.
      destruct (rebuild_base cur 0 (nand_pg cur + 1) (nand_blk cur)) as (Hok & Hb1 & Hb2 & Hb3);
        [lia..|done|].
      eexists. split; [done|]. split; [done|]. rewrite Hb1, Hb2, Hb3. cfg_lia.
  - rewrite decide_True by cfg_lia. cbn.
    destruct (rebuild_base cur (nand_lun cur + 1) (nand_pg cur) (nand_blk cur))
      as (Hok & Hb1 & Hb2 & Hb3); [lia..|done|].
    eexists. split; [done|]. split; [done|]. rewrite Hb1, Hb2, Hb3. cfg_lia.
Qed.

(** The base addresses of [n] consecutive calls, each from the one before. *)
Fixpoint next_baddrs (n : nat) (cur : geo_ppa) (y : sysmeta) : res (list geo_ppa * sysmeta) :=
  match n with
  | O => Ok ([], y)
  | S n => '(b, y) ← get_next_entity_baddr cur y;
           '(bs, y) ← next_baddrs n b y; Ok (b :: bs, y)
  end.

Lemma base_ok_inj b b' :
  base_ok b → base_ok b' → stripe b = stripe b' → nand_blk b = nand_blk b' → b = b'.
Proof.
  intros (Hb & Hc & Hs & Hp & _) (Hb' & Hc' & Hs' & Hp' & _) Hst Hk.
  rewrite (nand_fields_sum b), (nand_fields_sum b') by done.
  pose proof (nand_lun_range b). pose proof (nand_lun_range b').
  assert (nand_lun b = nand_lun b' ∧ nand_pg b = nand_pg b') as [-> ->].
  { unfold stripe in Hst. cfg_lia. }
  congruence.
Qed.

Lemma next_baddrs_spec n : ∀ cur y bl,
  base_ok cur → sys_inv y bl → (stripe cur + Z.of_nat n) / STRIPES ≤ Z.of_nat (length bl) →
  ∃ bs y', next_baddrs n cur y = Ok (bs, y') ∧ length bs = n ∧
    ∀ k b, bs !! k = Some b → let t := stripe cur + 1 + Z.of_nat k in
      base_ok b ∧ stripe b = t mod STRIPES ∧
      (nand_blk cur :: bl) !! Z.to_nat (t / STRIPES) = Some (nand_blk b).
Proof.
  induction n as [|n IH]; intros cur y bl Hc Hy Hle; cbn [next_baddrs].
  { exists [], y. split; [done|]. split; [done|]. intros k b Hk. done. }
  pose proof (stripe_range cur) as Hr.
  destruct Hc as (Hcr & Hc'). assert (blk_ok (nand_blk cur)) as Hbk by naive_solver.
  pose proof (get_next_entity_baddr_spec cur y Hcr Hbk) as Hg. case_decide as Hd.
  - destruct Hg as (b0 & -> & Hb0 & Hs0 & Hk0). cbn.
    destruct (IH b0 y bl Hb0 Hy) as (bs & y' & -> & Hlen & Hbs).
    { rewrite Hs0. replace (stripe cur + 1 + Z.of_nat n) with (stripe cur + Z.of_nat (S n)) by lia. done. }
    cbn. exists (b0 :: bs), y'. split; [done|]. split; [cbn; lia|].
    intros [|k] b Hk; cbn zeta.
    + injection Hk as <-. split; [done|]. rewrite Z.add_0_r, Z.mod_small, Z.div_small by lia.
      cbn. by rewrite Hk0.
    + destruct (Hbs k b Hk) as (? & ? & ?). rewrite Hs0, Hk0 in *.
      replace (stripe cur + 1 + Z.of_nat (S k)) with (stripe cur + 1 + 1 + Z.of_nat k) by lia. done.
  - assert (stripe cur = STRIPES - 1) as Hlast by lia.
    assert (STRIPES = 4096) as HS by done. rewrite Hlast in *.
    destruct bl as [|blk bl].
    { exfalso. cbn in Hle. assert (1 ≤ (STRIPES - 1 + Z.of_nat (S n)) / STRIPES); [|lia].
      apply Z.div_le_lower_bound; lia. }
    destruct (get_blk_from_free_list_cons y blk bl Hy) as (y1 & Hg1 & Hy1 & _).
    assert (blk_ok blk) as Hblk by (destruct Hy as [[_ Hf] _ _]; by apply Forall_cons in Hf as [? _]).
    destruct (Hg blk y1 Hg1 Hblk) as (b0 & -> & Hb0 & Hs0 & Hk0). cbn.
    assert (∀ t, (STRIPES - 1 + 1 + t) / STRIPES = 1 + t / STRIPES) as Hdv.
    { intros t. replace (STRIPES - 1 + 1 + t) with (t + 1 * STRIPES) by lia.
      rewrite Z.div_add by lia. lia. }
    assert (∀ t, (STRIPES - 1 + 1 + t) mod STRIPES = t mod STRIPES) as Hmd.
    { intros t. replace (STRIPES - 1 + 1 + t) with (t + 1 * STRIPES) by lia.
      apply Z.mod_add. lia. }
    destruct (IH b0 y1 bl Hb0 Hy1) as (bs & y' & -> & Hlen & Hbs).
    { rewrite Hs0. replace (STRIPES - 1 + Z.of_nat (S n)) with (STRIPES - 1 + 1 + (0 + Z.of_nat n)) in Hle by lia.
      rewrite Hdv in Hle. cbn in Hle |- *. lia. }
    cbn. exists (b0 :: bs), y'. split; [done|]. split; [cbn; lia|].
    intros [|k] b Hk; cbn zeta; rewrite Hdv, Hmd.
    + injection Hk as <-. split; [done|]. rewrite Hk0. done.
    + destruct (Hbs k b Hk) as (? & ? & Hlk). rewrite Hs0, Hk0 in *.
      replace (Z.of_nat (S k)) with (0 + 1 + Z.of_nat k) by lia. split; [done|]. split; [done|].
      rewrite Z2Nat.inj_add by (try apply Z.div_pos; lia). cbn. done.
Qed.

Lemma div_mod_eq a b n : 0 < n → a / n = b / n → a mod n = b mod n → a = b.
Proof. intros. rewrite (Z.div_mod a n), (Z.div_mod b n) by lia. congruence. Qed.

(** ** Properties of the address sequence *)

(** C21: the write path walks through flash without programming a stripe twice.
    From a base address in block [b] with free blocks [bl], the next [n] base
    addresses visit the stripes of [b] in order (LUN first, then page), then those
    of each free block in turn, the last page of a block being followed by stripe
    0 of the next free block; as long as the free list lasts they are pairwise
    different and different from the start. *)
Theorem baddr_sequence_no_reuse cur y bl n :
  base_ok cur → sys_inv y bl → nand_blk cur ∉ bl →
  (stripe cur + Z.of_nat n) / STRIPES ≤ Z.of_nat (length bl) →
  ∃ bs y', next_baddrs n cur y = Ok (bs, y') ∧ length bs = n ∧ NoDup (cur :: bs) ∧
    ∀ k b, bs !! k = Some b → base_ok b ∧
      stripe b = (stripe cur + 1 + Z.of_nat k) mod STRIPES ∧
      (nand_blk cur :: bl) !! Z.to_nat ((stripe cur + 1 + Z.of_nat k) / STRIPES) = Some (nand_blk b).
Proof.
  intros Hc Hy Hnin Hle.
  destruct (next_baddrs_spec n cur y bl Hc Hy Hle) as (bs & y' & Hrun & Hlen & Hbs).
  exists bs, y'. split; [done|]. split; [done|]. split; [|exact Hbs].
  assert (NoDup (nand_blk cur :: bl)) as Hnd.
  { apply NoDup_cons. split; [done|]. by apply sys_inv_nodup with y. }
  pose proof (stripe_range cur) as Hr. assert (0 < STRIPES) as HS by done.
  assert (∀ k b, (cur :: bs) !! k = Some b → base_ok b ∧
      stripe b = (stripe cur + Z.of_nat k) mod STRIPES ∧
      (nand_blk cur :: bl) !! Z.to_nat ((stripe cur + Z.of_nat k) / STRIPES) = Some (nand_blk b))
    as Hall.
  { intros [|k] b Hk.
    - injection Hk as <-. rewrite Z.add_0_r, Z.mod_small, Z.div_small by lia. done.
    - replace (stripe cur + Z.of_nat (S k)) with (stripe cur + 1 + Z.of_nat k) by lia.
      by apply (Hbs k b). }
  apply NoDup_alt. intros i j b Hi Hj.
  destruct (Hall i b Hi) as (_ & Hsi & Hki), (Hall j b Hj) as (_ & Hsj & Hkj).
  pose proof (NoDup_lookup _ _ _ _ Hnd Hki Hkj) as Heq.
  assert ((stripe cur + Z.of_nat i) / STRIPES = (stripe cur + Z.of_nat j) / STRIPES) as Hdv.
  { apply Z2Nat.inj; [apply Z.div_pos; lia..|done]. }
  assert (stripe cur + Z.of_nat i = stripe cur + Z.of_nat j); [|lia].
  apply div_mod_eq with STRIPES; [done..|congruence].
Qed.

(** Block 3, last stripe, with block 9 free: the next address is in block 9. *)
Lemma base_3_ok : base_ok (set_ppa_nand_addr 0 0 0 7 511 3).
Proof. split_and!; by vm_compute. Qed.

Lemma baddr_sequence_no_reuse_witness :
  ∃ y b0 b1 y', next_baddrs 2 (set_ppa_nand_addr 0 0 0 7 511 3) y = Ok ([b0; b1], y') ∧
    b0 ≠ b1 ∧ nand_blk b0 = 9 ∧ stripe b0 = 0.
Proof.
  destruct (insert_blk_to_free_list_spec fresh_sysmeta [] 9 fresh_sysmeta_inv)
    as (y & Hrun & Hy & _); [by vm_compute|set_solver|].
  destruct (baddr_sequence_no_reuse (set_ppa_nand_addr 0 0 0 7 511 3) y [9] 2)
    as (bs & y' & H & Hl & Hnd & Hb).
  - exact base_3_ok.
  - exact Hy.
  - change (nand_blk _) with 3. set_solver.
  - vm_compute. discriminate.
  - destruct bs as [|b0 [|b1 [|? ?]]]; [discriminate Hl|discriminate Hl| |discriminate Hl].
    exists y, b0, b1, y'. split; [exact H|].
    destruct (Hb 0%nat b0 eq_refl) as (H0 & Hs0 & Hk0).
    apply NoDup_cons in Hnd as [_ Hnd]. apply NoDup_cons in Hnd as [Hnd _].
    split; [intros ->; apply Hnd; by left|].
    injection Hk0 as <-. split; [reflexivity|]. rewrite Hs0. reflexivity.
Defined.

(** ** Setting the cache up *)

Definition lun_objs (i : Z) : gset obj :=
  {[("lun_data", i); ("lun_meta", i); ("lun_ppa", i)]}.

Definition all_lun_objs (l : list Z) : gset obj := ⋃ (lun_objs <$> l).

Lemma elem_of_all_lun_objs o l : o ∈ all_lun_objs l ↔ ∃ i, i ∈ l ∧ o ∈ lun_objs i.
Proof.
  unfold all_lun_objs. rewrite elem_of_union_list. setoid_rewrite list_elem_of_fmap.
  naive_solver.
Qed.

Lemma all_lun_objs_app l l' : all_lun_objs (l ++ l') = all_lun_objs l ∪ all_lun_objs l'.
Proof. unfold all_lun_objs. by rewrite fmap_app, union_list_app_L. Qed.

Lemma all_lun_objs_one i : all_lun_objs [i] = lun_objs i.
Proof. apply set_eq. intros o. rewrite elem_of_all_lun_objs. set_solver. Qed.

Lemma elem_of_lun_objs o i :
  o ∈ lun_objs i ↔ o.2 = i ∧ o.1 ∈ ["lun_data"; "lun_meta"; "lun_ppa"].
Proof. unfold lun_objs. destruct o as [nm j]. set_solver. Qed.

Lemma not_lun_obj nm i l :
  nm ∉ ["lun_data"; "lun_meta"; "lun_ppa"] → (nm, i) ∉ all_lun_objs l.
Proof. intros Hn (j & _ & [_ Hj]%elem_of_lun_objs)%elem_of_all_lun_objs. done. Qed.

Lemma ctl_not_lun_obj l :
  ("lun_entitys", 0) ∉ all_lun_objs l ∧ ("wcb_lun_ctl", 0) ∉ all_lun_objs l.
Proof. split; apply not_lun_obj; set_solver. Qed.

(** No object of the cache is live yet. *)
Definition wcb_fresh (h : kheap) : Prop :=
  (∀ i, lun_objs i ## k_live h) ∧ ("wcb_lun_ctl", 0) ∉ k_live h ∧ ("lun_entitys", 0) ∉ k_live h.

(** The first [i] buffers are set up and queued as empty, the others are zero. *)
Record cache_upto (c : wcb_lun_gctl) (i : Z) : Prop := {
  cu_empty : fifo_rep (lun_entitys c) (empty_lun c) (seqZ 0 i);
  cu_full : full_lun c = fsc_fifo_init;
  cu_partial : partial_entity c = None;
  cu_done : ∀ j, 0 ≤ j < i → ∃ e, lun_entitys c !! j = Some e ∧ index e = j ∧
              pos e = 0 ∧ fill_cnt e = 0 ∧ cqe_flag e = 0;
  cu_todo : ∀ j, i ≤ j < CB_ENTITYS_CNT → lun_entitys c !! j = Some entity_zero;
  cu_neg : ∀ j, j < 0 → lun_entitys c !! j = None;
}.

Lemma gctl_init_upto : cache_upto gctl_init 0.
Proof.
  constructor; try done.
  - apply fifo_rep_empty.
  - intros j Hj. lia.
  - intros j Hj. unfold gctl_init. cbn [lun_entitys]. rewrite foldl_insert_lookup.
    rewrite decide_True; [done|]. apply elem_of_seqZ. lia.
  - intros j Hj. unfold gctl_init. cbn [lun_entitys]. rewrite foldl_insert_lookup.
    rewrite decide_False; [done|]. rewrite elem_of_seqZ. lia.
Qed.

Lemma single_lun_alloc_ok E i e h :
  (∀ j, (j < 3)%nat → alloc_ok E (k_calls h + j) = true) →
  ∃ d m p h', wcb_single_lun_alloc E i e h = Ok (0, e_set_ppa ∅ (e_set_mem d m p e), h') ∧
    k_calls h' = (k_calls h + 3)%nat ∧ k_live h' = lun_objs i ∪ k_live h.
Proof.
  intros Ha. unfold wcb_single_lun_alloc, kalloc. cbn.
  rewrite <-(Nat.add_0_r (k_calls h)), Ha by lia. cbn.
  rewrite Nat.add_0_r. replace (S (k_calls h)) with (k_calls h + 1)%nat by lia.
  rewrite Ha by lia. cbn.
  replace (S (k_calls h + 1)) with (k_calls h + 2)%nat by lia. rewrite Ha by lia. cbn.
  do 4 eexists. split; [done|]. cbn. split; [lia|]. unfold lun_objs. set_solver.
Qed.

(** A failed allocation releases the buffers of this LUN taken before it. *)
Lemma single_lun_alloc_fail E i e h (j : nat) :
  (j < 3)%nat → (∀ j', (j' < j)%nat → alloc_ok E (k_calls h + j') = true) →
  alloc_ok E (k_calls h + j) = false → lun_objs i ## k_live h →
  ∃ h', wcb_single_lun_alloc E i e h = Ok (- ENOMEM, e, h') ∧ k_live h' = k_live h.
Proof.
  intros Hj Ha Hf Hd. assert (∀ o, o ∈ lun_objs i → o ∉ k_live h) as Hn by set_solver.
  pose proof (Hn ("lun_data", i) ltac:(unfold lun_objs; set_solver)) as Hn1.
  pose proof (Hn ("lun_meta", i) ltac:(unfold lun_objs; set_solver)) as Hn2. clear Hn Hd.
  unfold wcb_single_lun_alloc, kalloc. cbn.
  destruct j as [|[|[|j]]]; [| | |lia].
  - rewrite Nat.add_0_r in Hf. rewrite Hf. cbn. eauto.
  - pose proof (Ha 0%nat ltac:(lia)) as H0. rewrite Nat.add_0_r in H0. rewrite H0. cbn.
    replace (S (k_calls h)) with (k_calls h + 1)%nat by lia. rewrite Hf. cbn.
    rewrite kfree_live by set_solver. cbn. eexists. split; [done|]. cbn. set_solver.
  - pose proof (Ha 0%nat ltac:(lia)) as H0. rewrite Nat.add_0_r in H0. rewrite H0. cbn.
    replace (S (k_calls h)) with (k_calls h + 1)%nat by lia. rewrite Ha by lia. cbn.
    replace (S (k_calls h + 1)) with (k_calls h + 2)%nat by lia. rewrite Hf. cbn.
    rewrite kfree_live by set_solver. cbn. rewrite kfree_live by set_solver. cbn.
    eexists. split; [done|]. cbn. set_solver.
Qed.

Lemma single_lun_free i h :
  lun_objs i ⊆ k_live h →
  wcb_single_lun_free i h = Ok (mk_kheap (k_calls h) (k_live h ∖ lun_objs i)).
Proof.
  intros Hs. unfold wcb_single_lun_free, lun_objs in *.
  rewrite kfree_live by set_solver. cbn. rewrite kfree_live by set_solver. cbn.
  rewrite kfree_live by set_solver. cbn. do 2 f_equal. set_solver.
Qed.

Lemma seqZ_cons_0 i n : 0 < n → seqZ i n = i :: seqZ (i + 1) (n - 1).
Proof. intros. rewrite seqZ_cons by lia. by rewrite <-Z.add_1_r, <-Z.sub_1_r. Qed.

(** Queueing buffer [i]: the part of the loop body before the allocation. *)
Lemma cache_upto_push c i :
  cache_upto c i → 0 ≤ i < CB_ENTITYS_CNT →
  let m0 := <[i := e_set_prev 0xffff (e_set_next 0xffff (e_set_index i entity_zero))]>
              (lun_entitys c) in
  ∃ f m e, push_lun_entity_to_fifo (empty_lun c) i m0 = Ok (f, m) ∧ m !! i = Some e ∧
    ∀ d mm p, cache_upto (c_set_entitys (<[i := e_set_ppa ∅ (e_set_mem d mm p (e_set_fill_cnt 0 e))]> m)
       (c_set_entitys m (c_set_empty f (c_set_entitys m0 c)))) (i + 1).
Proof.
  intros [He Hf Hp Hd Ht Hneg] Hi m0. assert (i < NIL) by (unfold NIL; cfg_lia).
  rewrite push_lun_entity_link.
  2:{ intros e. unfold m0. rewrite lookup_insert_eq. by intros [= <-]. }
  assert (fifo_rep m0 (empty_lun c) (seqZ 0 i)) as Hr0.
  { apply fifo_rep_frame with (lun_entitys c); [|done]. intros j Hj%elem_of_seqZ.
    apply links_insert_ne. lia. }
  destruct (link_push_spec m0 (empty_lun c) (seqZ 0 i) i Hr0) as (f & m & -> & Hr & Hlo & Hj).
  { rewrite elem_of_seqZ. lia. }
  { lia. }
  { unfold m0. rewrite lookup_insert_eq. by eexists. }
  destruct (links_only_Some _ _ i _ Hlo (lookup_insert_eq _ _ _)) as (n & p & Hmi).
  do 3 eexists. split; [done|]. split; [exact Hmi|]. intros d mm q. constructor; cbn; try done.
  - rewrite seqZ_snoc by lia. apply fifo_rep_frame with m; [|done].
    intros j _. destruct (decide (i = j)) as [<-|].
    + unfold links. rewrite lookup_insert_eq, Hmi. done.
    + by apply links_insert_ne.
  - intros j Hj'. destruct (decide (i = j)) as [<-|Hne].
    + rewrite lookup_insert_eq. eexists. split; [done|]. done.
    + rewrite lookup_insert_ne by done. destruct (Hd j ltac:(lia)) as (e & Hje & ?).
      assert (m0 !! j = Some e) as Hm0 by (unfold m0; by rewrite lookup_insert_ne).
      destruct (links_only_Some _ _ _ _ Hlo Hm0) as (? & ? & ->). by eexists.
  - intros j Hj'. rewrite lookup_insert_ne by lia. rewrite Hj.
    + unfold m0. rewrite lookup_insert_ne by lia. apply Ht. lia.
    + rewrite <-seqZ_snoc by lia. rewrite elem_of_seqZ. lia.
  - intros j Hj'. rewrite lookup_insert_ne by lia. rewrite Hj.
    + unfold m0. rewrite lookup_insert_ne by lia. by apply Hneg.
    + rewrite <-seqZ_snoc by lia. rewrite elem_of_seqZ. lia.
Qed.

(** One round of the loop whose allocations succeed. *)
Lemma wcb_lun_mem_step E c h i todo :
  cache_upto c i → 0 ≤ i < CB_ENTITYS_CNT →
  (∀ j, (j < 3)%nat → alloc_ok E (k_calls h + j) = true) →
  ∃ c' h', wcb_lun_mem_loop E (i :: todo) c h = wcb_lun_mem_loop E todo c' h' ∧
    cache_upto c' (i + 1) ∧ k_calls h' = (k_calls h + 3)%nat ∧
    k_live h' = lun_objs i ∪ k_live h.
Proof.
  intros Hc Hi Ha. cbn [wcb_lun_mem_loop].
  rewrite (aread_Some _ i entity_zero) by (apply (cu_todo _ _ Hc); lia). cbn.
  destruct (cache_upto_push c i Hc Hi) as (f & m & e & -> & He & Hup). cbn.
  rewrite (aread_Some _ _ _ He). cbn.
  destruct (single_lun_alloc_ok E i (e_set_fill_cnt 0 e) h Ha) as (d & mm & p & h' & -> & Hcl & Hl).
  cbn. do 2 eexists. split; [done|]. split; [apply Hup|done].
Qed.

Lemma wcb_lun_mem_prefix E (n : nat) : ∀ c h i,
  cache_upto c i → 0 ≤ i → i + Z.of_nat n ≤ CB_ENTITYS_CNT →
  (∀ j, (j < 3 * n)%nat → alloc_ok E (k_calls h + j) = true) →
  ∃ c' h', wcb_lun_mem_loop E (seqZ i (CB_ENTITYS_CNT - i)) c h =
           wcb_lun_mem_loop E (seqZ (i + Z.of_nat n) (CB_ENTITYS_CNT - (i + Z.of_nat n))) c' h' ∧
    cache_upto c' (i + Z.of_nat n) ∧ k_calls h' = (k_calls h + 3 * n)%nat ∧
    k_live h' = all_lun_objs (seqZ i (Z.of_nat n)) ∪ k_live h.
Proof.
  induction n as [|n IH]; intros c h i Hc Hi Hn Ha.
  - exists c, h. rewrite Z.add_0_r. split; [done|]. split; [done|]. split; [lia|].
    symmetry. apply union_empty_l_L.
  - rewrite (seqZ_cons_0 i (CB_ENTITYS_CNT - i)) by lia.
    destruct (wcb_lun_mem_step E c h i (seqZ (i + 1) (CB_ENTITYS_CNT - i - 1)) Hc ltac:(lia))
      as (c1 & h1 & -> & Hc1 & Hk1 & Hl1); [intros j Hj; apply Ha; lia|].
    replace (CB_ENTITYS_CNT - i - 1) with (CB_ENTITYS_CNT - (i + 1)) by lia.
    destruct (IH c1 h1 (i + 1)) as (c2 & h2 & -> & Hc2 & Hk2 & Hl2); [done|lia|lia| |].
    { intros j Hj. rewrite Hk1. replace (k_calls h + 3 + j)%nat with (k_calls h + (3 + j))%nat by lia.
      apply Ha. lia. }
    replace (i + 1 + Z.of_nat n) with (i + Z.of_nat (S n)) in * by lia.
    exists c2, h2. split; [done|]. split; [done|]. split; [lia|].
    rewrite Hl2, Hl1. rewrite (seqZ_cons_0 i (Z.of_nat (S n))) by lia.
    replace (Z.of_nat (S n) - 1) with (Z.of_nat n) by lia.
    change (i :: ?l) with ([i] ++ l). rewrite all_lun_objs_app, all_lun_objs_one.
    by rewrite assoc_L, (union_comm_L (lun_objs i)) by apply _.
Qed.

(** The error loop from buffer [k] releases the buffers [k-1 .. 1]. *)
Lemma free_lun_mem_spec (k fuel : nat) : ∀ c h,
  (k < fuel)%nat → (∀ j, 0 ≤ j ≤ Z.of_nat k → is_Some (lun_entitys c !! j)) →
  all_lun_objs (seqZ 1 (Z.of_nat k)) ⊆ k_live h →
  ∃ h', free_lun_mem fuel (Z.of_nat k + 1) c h = Ok h' ∧
    k_live h' = k_live h ∖ all_lun_objs (seqZ 1 (Z.of_nat k)).
Proof.
  revert fuel. induction k as [|k IH]; intros fuel c h Hf Hs Hl; (destruct fuel as [|fuel]; [lia|]); cbn -[Z.of_nat].
  - exists h. split; [done|]. unfold all_lun_objs. set_solver.
  - rewrite decide_False by lia. replace (Z.of_nat (S k) + 1 - 1) with (Z.of_nat k + 1) by lia.
    destruct (Hs (Z.of_nat k + 1)) as [e He]; [lia|]. rewrite (aread_Some _ _ _ He). cbn.
    assert (all_lun_objs (seqZ 1 (Z.of_nat (S k))) =
            all_lun_objs (seqZ 1 (Z.of_nat k)) ∪ lun_objs (Z.of_nat k + 1)) as Hsp.
    { replace (Z.of_nat (S k)) with (Z.of_nat k + 1) by lia. rewrite seqZ_app by lia.
      rewrite all_lun_objs_app, (Z.add_comm 1). change (seqZ ?x 1) with [x].
      by rewrite all_lun_objs_one. }
    rewrite Hsp in Hl |- *. rewrite single_lun_free by set_solver. cbn.
    destruct (IH fuel c (mk_kheap (k_calls h) (k_live h ∖ lun_objs (Z.of_nat k + 1))))
      as (h' & -> & Hl'); [lia|intros; apply Hs; lia| |].
    { cbn. intros o Ho. apply elem_of_difference. split; [set_solver|].
      apply elem_of_all_lun_objs in Ho as (j & Hj%elem_of_seqZ & Hoj%elem_of_lun_objs).
      rewrite elem_of_lun_objs. lia. }
    exists h'. split; [done|]. rewrite Hl'. cbn. set_solver.
Qed.

Lemma wcb_lun_mem_free_list l : ∀ h,
  NoDup l → all_lun_objs l ⊆ k_live h →
  mfor l wcb_single_lun_free h = Ok (mk_kheap (k_calls h) (k_live h ∖ all_lun_objs l)).
Proof.
  induction l as [|i l IH]; intros h Hnd Hs.
  - cbn. destruct h. cbn. do 2 f_equal. unfold all_lun_objs. set_solver.
  - apply NoDup_cons in Hnd as [Hi Hnd]. change (i :: l) with ([i] ++ l) in Hs |- *.
    rewrite all_lun_objs_app, all_lun_objs_one in Hs |- *.
    cbn [mfor app]. rewrite single_lun_free by set_solver. cbn. rewrite IH; [|done|].
    + cbn. do 2 f_equal. set_solver.
    + cbn. intros o Ho. apply elem_of_difference. split; [set_solver|].
      apply elem_of_all_lun_objs in Ho as (j & Hj & Hoj%elem_of_lun_objs).
      rewrite elem_of_lun_objs. intros [Heq _]. apply Hi. destruct Hoj as [<- _]. by rewrite <-Heq.
Qed.

(** The control block after a successful [wcb_lun_ctl_init]. *)
Lemma wcb_lun_ctl_init_ok E h :
  alloc_ok E (k_calls h) = true → alloc_ok E (S (k_calls h)) = true →
  wcb_lun_ctl_init E h = Ok (0, Some gctl_init, mk_kheap (S (S (k_calls h)))
    ({[("lun_entitys", 0)]} ∪ ({[("wcb_lun_ctl", 0)]} ∪ k_live h))).
Proof. intros H1 H2. unfold wcb_lun_ctl_init, kalloc. cbn. by rewrite H1; cbn; rewrite H2. Qed.

Lemma wcb_lun_mem_alloc_ok E h :
  (∀ n, alloc_ok E n = true) →
  ∃ c h', wcb_lun_mem_alloc E gctl_init h = Ok (0, c, h') ∧ cache_upto c CB_ENTITYS_CNT ∧
    k_live h' = all_lun_objs (seqZ 0 CB_ENTITYS_CNT) ∪ k_live h.
Proof.
  intros Ha.
  destruct (wcb_lun_mem_prefix E (Z.to_nat CB_ENTITYS_CNT) gctl_init h 0 gctl_init_upto)
    as (c & h' & Hr & Hc & _ & Hl); [done|by rewrite Z2Nat.id|by intros; apply Ha|].
  rewrite Z2Nat.id, Z.add_0_l, ?Z.sub_0_r, ?Z.sub_diag in * by done.
  exists c, h'. split; [|done]. unfold wcb_lun_mem_alloc. rewrite Hr. reflexivity.
Qed.

(** Releasing the buffers and the control block. *)
Lemma write_cache_free_spec h L :
  k_live h = all_lun_objs (seqZ 0 CB_ENTITYS_CNT) ∪
             ({[("lun_entitys", 0)]} ∪ ({[("wcb_lun_ctl", 0)]} ∪ L)) →
  all_lun_objs (seqZ 0 CB_ENTITYS_CNT) ## L →
  ("wcb_lun_ctl", 0) ∉ L → ("lun_entitys", 0) ∉ L →
  ∃ h', write_cache_free h = Ok h' ∧ k_live h' = L.
Proof.
  intros Hl Hd H1 H2. unfold write_cache_free, wcb_lun_mem_free.
  rewrite wcb_lun_mem_free_list; [|apply NoDup_seqZ|rewrite Hl; apply union_subseteq_l].
  destruct (ctl_not_lun_obj (seqZ 0 CB_ENTITYS_CNT)) as [Hd1 Hd2].
  set (A := all_lun_objs (seqZ 0 CB_ENTITYS_CNT)) in *. clearbody A.
  unfold wcb_lun_ctl_exit. rewrite Hl. rewrite bind_Ok_l.
  rewrite kfree_live by (cbn; set_solver). rewrite bind_Ok_l.
  rewrite kfree_live by (cbn; set_solver). eexists. split; [done|]. cbn. set_solver.
Qed.

(** when every allocation succeeds, the write cache comes up with all its LUN
    buffers in the empty FIFO in index order, unused and none partial; releasing it
    returns exactly the memory it took. *)
Lemma write_cache_alloc_ok E h :
  (∀ n, alloc_ok E n = true) → wcb_fresh h →
  ∃ c h', write_cache_alloc E h = Ok (0, Some c, h') ∧ cache_upto c CB_ENTITYS_CNT ∧
    ∃ h'', write_cache_free h' = Ok h'' ∧ k_live h'' = k_live h.
Proof.
  intros Ha (Hf & Hf1 & Hf2). unfold write_cache_alloc.
  rewrite wcb_lun_ctl_init_ok by done. rewrite bind_Ok_l. rewrite decide_False by lia.
  change (deref (Some gctl_init)) with (Ok gctl_init). rewrite bind_Ok_l. set (h1 := mk_kheap _ _).
  destruct (wcb_lun_mem_alloc_ok E h1 Ha) as (c & h2 & -> & Hc & Hl).
  rewrite bind_Ok_l. rewrite decide_False by lia. exists c, h2. split; [done|]. split; [done|].
  apply write_cache_free_spec; [done| |done|done].
  intros o (j & _ & Hj)%elem_of_all_lun_objs. by apply (Hf j).
Qed.

Lemma wcb_lun_mem_alloc_fail E h (k j : nat) :
  (∀ i, lun_objs i ## k_live h) → Z.of_nat k < CB_ENTITYS_CNT → (j < 3)%nat →
  (∀ n, (n < 3 * k + j)%nat → alloc_ok E (k_calls h + n) = true) →
  alloc_ok E (k_calls h + (3 * k + j)) = false →
  if decide (k = 0%nat) then wcb_lun_mem_alloc E gctl_init h = Fault F_OOB
  else ∃ c h', wcb_lun_mem_alloc E gctl_init h = Ok (- ENOMEM, c, h') ∧
         k_live h' = lun_objs 0 ∪ k_live h.
Proof.
  intros Hf Hk Hj Ha Hbad. unfold wcb_lun_mem_alloc.
  destruct (wcb_lun_mem_prefix E k gctl_init h 0 gctl_init_upto) as (c & h2 & Hr & Hc & Hcl & Hl);
    [lia|lia|intros; apply Ha; lia|].
  rewrite Z.sub_0_r, Z.add_0_l in Hr. rewrite Hr. rewrite Z.add_0_l in Hc.
  rewrite seqZ_cons_0 by lia. cbn [wcb_lun_mem_loop].
  rewrite (aread_Some _ _ entity_zero), bind_Ok_l by (apply (cu_todo _ _ Hc); lia).
  destruct (cache_upto_push c (Z.of_nat k) Hc ltac:(lia)) as (f & m & e & Hpush & He & Hup).
  cbn [lun_entitys c_set_entitys empty_lun c_set_empty]. rewrite Hpush, bind_Ok_l.
  rewrite (aread_Some _ _ _ He), bind_Ok_l.
  destruct (single_lun_alloc_fail E (Z.of_nat k) (e_set_fill_cnt 0 e) h2 j Hj) as (h3 & -> & Hl3).
  { intros j' Hj'. rewrite Hcl, <-Nat.add_assoc. apply Ha. lia. }
  { by rewrite Hcl, <-Nat.add_assoc. }
  { rewrite Hl. intros o Ho. rewrite elem_of_union. specialize (Hf _ o Ho).
    apply elem_of_lun_objs in Ho as Ho'.
    intros [(i & Hi%elem_of_seqZ & Ho2%elem_of_lun_objs)%elem_of_all_lun_objs|?]; [lia|done]. }
  rewrite bind_Ok_l. rewrite (decide_True (P := - ENOMEM ≠ 0)) by done.
  destruct k as [|k].
  { rewrite decide_True by done. change (Z.to_nat CB_ENTITYS_CNT) with 16%nat.
    cbn [free_lun_mem]. rewrite decide_False by lia. rewrite (aread_None _ (Z.of_nat 0 - 1)); [reflexivity|].
    pose proof (cu_neg _ _ (Hup 0 0 0) (-1) ltac:(lia)) as Hn. cbn in Hn |- *.
    rewrite lookup_insert_ne in Hn |- * by lia. done. }
  rewrite decide_False by done.
  replace (Z.of_nat (S k)) with (Z.of_nat k + 1) in * by lia.
  destruct (free_lun_mem_spec k (Z.to_nat CB_ENTITYS_CNT)
     (c_set_entitys (<[Z.of_nat k + 1 := e_set_fill_cnt 0 e]> m)
       (c_set_entitys m (c_set_empty f (c_set_entitys
         (<[Z.of_nat k + 1 := e_set_prev 65535 (e_set_next 65535
            (e_set_index (Z.of_nat k + 1) entity_zero))]> (lun_entitys c)) c)))) h3)
    as (h4 & Hfree & Hl4).
  { lia. }
  { intros i Hi. cbn. apply lookup_insert_is_Some'. destruct (decide (Z.of_nat k + 1 = i)); [by left|right].
    destruct (cu_done _ _ (Hup 0 0 0) i) as (e' & He' & _); [lia|]. cbn in He'.
    rewrite lookup_insert_ne in He' by done. by eexists. }
  { rewrite Hl3, Hl. etransitivity; [|apply union_subseteq_l].
    rewrite (seqZ_cons_0 0) by lia. change (0 :: ?l) with ([0] ++ l). rewrite all_lun_objs_app.
    rewrite Z.add_0_l. replace (Z.of_nat k + 1 - 1) with (Z.of_nat k) by lia. apply union_subseteq_r. }
  rewrite Hfree, bind_Ok_l. do 2 eexists. split; [done|]. rewrite Hl4, Hl3, Hl.
  rewrite (seqZ_cons_0 0) by lia. change (0 :: ?l) with ([0] ++ l).
  rewrite all_lun_objs_app, all_lun_objs_one, Z.add_0_l.
  replace (Z.of_nat k + 1 - 1) with (Z.of_nat k) by lia.
  assert (all_lun_objs (seqZ 1 (Z.of_nat k)) ## lun_objs 0 ∪ k_live h) as Hdis.
  { intros o (i & Hi%elem_of_seqZ & Ho)%elem_of_all_lun_objs. rewrite elem_of_union.
    pose proof (Hf i o Ho). rewrite elem_of_lun_objs in *. intros [?|?]; [lia|done]. }
  set (A := all_lun_objs _) in *. set (B := lun_objs 0) in *. clearbody A B. clear -Hdis. set_solver.
Qed.

Lemma write_cache_alloc_fail E h (k j : nat) :
  wcb_fresh h → Z.of_nat k < CB_ENTITYS_CNT → (j < 3)%nat →
  (∀ n, (n < 2 + 3 * k + j)%nat → alloc_ok E (k_calls h + n) = true) →
  alloc_ok E (k_calls h + (2 + 3 * k + j)) = false →
  if decide (k = 0%nat) then write_cache_alloc E h = Fault F_OOB
  else ∃ h', write_cache_alloc E h = Ok (- ENOMEM, None, h') ∧
         k_live h' = lun_objs 0 ∪ k_live h.
Proof.
  intros (Hf & Hf1 & Hf2) Hk Hj Ha Hbad. unfold write_cache_alloc.
  rewrite wcb_lun_ctl_init_ok.
  2:{ rewrite <-(Nat.add_0_r (k_calls h)). apply Ha. lia. }
  2:{ replace (S (k_calls h)) with (k_calls h + 1)%nat by lia. apply Ha. lia. }
  rewrite bind_Ok_l. rewrite (decide_False (P := 0 ≠ 0)) by lia.
  change (deref (Some gctl_init)) with (Ok gctl_init). rewrite bind_Ok_l.
  set (h1 := mk_kheap _ _).
  opose proof (wcb_lun_mem_alloc_fail E h1 k j _ _ _ _ _) as Hfail.
  { intros i o Ho. destruct (ctl_not_lun_obj [i]) as [Hd1 Hd2]. rewrite all_lun_objs_one in Hd1, Hd2.
    unfold h1. cbn [k_live]. rewrite !elem_of_union, !elem_of_singleton.
    intros [->|[->|?]]; [done|done|]. by apply (Hf i o). }
  { done. }
  { done. }
  { intros n Hn. unfold h1. cbn [k_calls].
    replace (S (S (k_calls h)) + n)%nat with (k_calls h + (2 + n))%nat by lia. apply Ha. lia. }
  { unfold h1. cbn [k_calls].
    replace (S (S (k_calls h)) + (3 * k + j))%nat with (k_calls h + (2 + 3 * k + j))%nat by lia. done. }
  destruct (decide (k = 0%nat)); [by rewrite Hfail|].
  destruct Hfail as (c & h2 & -> & Hl). rewrite bind_Ok_l.
  rewrite (decide_True (P := - ENOMEM ≠ 0)) by done. unfold wcb_lun_ctl_exit.
  destruct (ctl_not_lun_obj [0]) as [Hd1 Hd2]. rewrite all_lun_objs_one in Hd1, Hd2.
  unfold h1 in Hl. cbn [k_live] in Hl. set (B := lun_objs 0) in *. clearbody B. clear Hf.
  rewrite kfree_live by (rewrite Hl; set_solver). rewrite bind_Ok_l.
  rewrite kfree_live by (cbn; rewrite Hl; set_solver). rewrite bind_Ok_l.
  eexists. split; [done|]. cbn [k_live]. rewrite Hl. set_solver.
Qed.

(** when an allocation for LUN buffer [k] fails, the three DMA buffers of LUN
    buffer 0 are never released although the call reports [-ENOMEM] and drops the
    control block; for [k = 0] the clean-up loop runs off the front of the array. *)
Lemma write_cache_alloc_failure_leaks E h (k j : nat) :
  wcb_fresh h → Z.of_nat k < CB_ENTITYS_CNT → (j < 3)%nat →
  (∀ n, (n < 2 + 3 * k + j)%nat → alloc_ok E (k_calls h + n) = true) →
  alloc_ok E (k_calls h + (2 + 3 * k + j)) = false →
  if decide (k = 0%nat) then write_cache_alloc E h = Fault F_OOB
  else ∃ h', write_cache_alloc E h = Ok (- ENOMEM, None, h') ∧
         k_live h' = lun_objs 0 ∪ k_live h.
Proof. apply write_cache_alloc_fail. Qed.

Lemma heap0_fresh : wcb_fresh (mk_kheap 0 ∅).
Proof. split_and!; set_solver. Qed.

Lemma write_cache_alloc_ok_witness :
  ∃ c h', write_cache_alloc env_ok (mk_kheap 0 ∅) = Ok (0, Some c, h') ∧
    cache_upto c CB_ENTITYS_CNT ∧ ∃ h'', write_cache_free h' = Ok h'' ∧ k_live h'' = ∅.
Proof. apply (write_cache_alloc_ok env_ok (mk_kheap 0 ∅)); [reflexivity|exact heap0_fresh]. Defined.

(** The tenth allocation fails: it belongs to LUN buffer 2. *)
Definition env_fail9 : kenv :=
  mk_kenv (λ n, negb (n =? 9)%nat) (λ _, 0) (λ _, 0) (λ _, 0) (λ _, 0).

Lemma write_cache_alloc_failure_leaks_witness :
  ∃ h', write_cache_alloc env_fail9 (mk_kheap 0 ∅) = Ok (- ENOMEM, None, h') ∧
    k_live h' = lun_objs 0 ∪ ∅.
Proof.
  apply (write_cache_alloc_failure_leaks env_fail9 (mk_kheap 0 ∅) 2 1).
  - exact heap0_fresh.
  - reflexivity.
  - lia.
  - intros n Hn. cbn in *. destruct (Nat.eqb_spec n 9); [lia|reflexivity].
  - reflexivity.
Defined.
