(* ===== verification/WritePath.v ===== *)
(** * The write path

    [datapath/bio-wr.c], [fscftl_make_rq] of [namespace.c] and the bio helpers of
    [fscftl.h].  A bio carries its data as a list of 4 KB pages; [bio_data] is the
    first one left and [bio_advance] drops it.  Code that runs under one spin lock,
    and every atomic access to shared data outside the locks, is one definition
    here, so that [WriteSystem] can interleave them. *)

From S2P Require Import Prelude NandCfg Fifo Kernel SysMeta PpaCmd WriteCache.

#[local] Open Scope Z_scope.

(** ** Bios *)

Record bio : Type := mk_bio {
  bi_sector : Z;
  bi_size : Z;
  bi_write : bool;
  bi_pages : list page;
}.

Definition get_bio_slba (b : bio) : Z := bi_sector b / SEC_PER_PPA.
Definition get_bio_nppa (b : bio) : Z := bi_size b / EXP_PPA_SIZE.

Definition bio_data (b : bio) : res page :=
  match bi_pages b with p :: _ => Ok p | [] => Fault F_NULL end.

(** [bio_advance(bio, EXP_PPA_SIZE)] *)
Definition bio_advance (b : bio) : bio :=
  mk_bio (bi_sector b + SEC_PER_PPA) (bi_size b - EXP_PPA_SIZE) (bi_write b)
    (drop 1 (bi_pages b)).

Inductive bio_result : Type := FSCFTL_BIO_COMPLETE | FSCFTL_BIO_RESUBMIT.

#[global] Instance bio_result_eq_dec : EqDecision bio_result.
Proof. solve_decision. Defined.

(** ** Space in the write cache *)

Definition wcb_available (nr_ppas : Z) (s : ftl) : res bool :=
  let emptysize := fsize (empty_lun (ctl s)) in
  let extra := u16 (Z.shiftr nr_ppas 2 + 2) in
  p ← deref (partial_entity (ctl s));
  e ← get_entity p s;
  let left := u16 (RAID_LUN_SEC_NUM - pos e) in
  if decide (left ≤ nr_ppas + extra ∧ emptysize = 0) then Ok false else Ok true.

Definition wctx_get (w : wcb_bio_ctx) (i : Z) : wcb_ctx := default (mk_wcb_ctx None 0 0) (w !! i).

(** A write to [bio_wcb[i]]. *)
Definition wctx_set (w : wcb_bio_ctx) (i : Z) (c : wcb_ctx) : res wcb_bio_ctx :=
  if decide (0 ≤ i < MAX_USED_WCB_ENTITYS) then Ok (<[i := c]> w) else Fault F_OOB.

Fixpoint wcb_context_restore_loop (idxs : list Z) (w : wcb_bio_ctx) (s : ftl) : res ftl :=
  match idxs with
  | [] => Ok s
  | i :: idxs =>
      match entitys (wctx_get w i) with
      | None => Ok s
      | Some en =>
          s ← (if decide (i = 0) then
                 e ← get_entity en s;
                 let s := put_entity en (e_set_pos (start_pos (wctx_get w i)) e) s in
                 Ok (set_ctl (c_set_partial (Some en) (ctl s)) s)
               else
                 '(f, m) ← push_lun_entity_to_fifo (empty_lun (ctl s)) en (lun_entitys (ctl s));
                 Ok (set_ctl (c_set_entitys m (c_set_empty f (ctl s))) s));
          wcb_context_restore_loop idxs w s
      end
  end.

Definition wcb_entity_context_restore (w : wcb_bio_ctx) (s : ftl) : res ftl :=
  wcb_context_restore_loop (seqZ 0 MAX_USED_WCB_ENTITYS) w s.

(** The [while (loop)] of [alloc_wcb_core]; its locals are the parameters. *)
Fixpoint alloc_wcb_loop (fuel : nat) (num cur left_len slba entity : Z) (w : wcb_bio_ctx)
    (s : ftl) : res (Z * wcb_bio_ctx * ftl) :=
  match fuel with
  | O => Fault F_FUEL
  | S fuel =>
      match sys_get_ppa_type cur with
      | USR_DATA =>
          let left_len := u32 (left_len - 1) in
          e ← get_entity entity s;
          l ← wwrite RAID_LUN_SEC_NUM (lba e) (pos e) (u32 slba);
          q ← wwrite RAID_LUN_SEC_NUM (ppa e) (pos e) cur;
          w ← wctx_set w num (mk_wcb_ctx (entitys (wctx_get w num))
                                (start_pos (wctx_get w num)) (pos e));
          let e := e_set_pos (u16 (pos e + 1)) (e_set_ppa q (e_set_lba l e)) in
          let s := put_entity entity e s in
          let slba := slba + 1 in
          if decide (pos e = RAID_LUN_SEC_NUM) then
            '(o, s) ← get_next_lun_entity cur s;
            match o with
            | None => s ← wcb_entity_context_restore w s; Ok (1, w, s)
            | Some entity =>
                if decide (left_len = 0) then Ok (0, w, s) else
                let num := num + 1 in
                e ← get_entity entity s;
                w ← wctx_set w num (mk_wcb_ctx (Some entity) (pos e) (pos e));
                alloc_wcb_loop fuel num (baddr e) left_len slba entity w s
            end
          else
            let cur := u32 (cur + 1) in
            if decide (left_len = 0) then Ok (0, w, s)
            else alloc_wcb_loop fuel num cur left_len slba entity w s
      | _ => alloc_wcb_loop fuel num cur left_len slba entity w s
      end
  end.

(** Three LUN buffers bound the number of iterations. *)
Definition ALLOC_FUEL : nat := Z.to_nat (MAX_USED_WCB_ENTITYS * RAID_LUN_SEC_NUM + 1).

Definition alloc_wcb_core (slba nr_ppas : Z) (w : wcb_bio_ctx) (s : ftl)
    : res (Z * wcb_bio_ctx * ftl) :=
  entity ← match partial_entity (ctl s) with Some e => Ok e | None => Fault F_BUG end;
  e ← get_entity entity s;
  w ← wctx_set w 0 (mk_wcb_ctx (Some entity) (pos e) (pos e));
  alloc_wcb_loop ALLOC_FUEL 0 (u32 (baddr e + pos e)) (u32 nr_ppas) slba entity w s.

(** ** Copying the data in *)

(** The slots of one context, in order. *)
Definition ctx_slots (c : wcb_ctx) : list Z :=
  seqZ (start_pos c) (end_pos c - start_pos c + 1).

(** The slots of a [wcb_bio_ctx] up to the first [NULL] entry: what the loops over
    [bio_wcb] visit. *)
Fixpoint wcb_slots_from (idxs : list Z) (w : wcb_bio_ctx) : list (Z * Z) :=
  match idxs with
  | [] => []
  | i :: idxs =>
      match entitys (wctx_get w i) with
      | None => []
      | Some en => ((λ p, (en, p)) <$> ctx_slots (wctx_get w i)) ++ wcb_slots_from idxs w
      end
  end.

Definition wcb_slots (w : wcb_bio_ctx) : list (Z * Z) :=
  wcb_slots_from (seqZ 0 MAX_USED_WCB_ENTITYS) w.

(** [atomic_inc_return(&entity->fill_cnt)]; a full buffer joins the full FIFO. *)
Definition fill_cnt_inc (en : Z) (s : ftl) : res ftl :=
  e ← get_entity en s;
  let n := s32 (fill_cnt e + 1) in
  let s := put_entity en (e_set_fill_cnt n e) s in
  if decide (n = RAID_LUN_SEC_NUM) then
    let s := put_entity en (e_set_fill_cnt 0 e) s in
    '(f, m) ← push_lun_entity_to_fifo (full_lun (ctl s)) en (lun_entitys (ctl s));
    Ok (set_ctl (c_set_entitys m (c_set_full f (ctl s))) s)
  else Ok s.

(** [memcpy] of a page into the slot [wcb_entity_offt_data(entity->index, pos)]. *)
Definition copy_to_slot (en p : Z) (pg : page) (s : ftl) : res ftl :=
  e ← get_entity en s;
  d ← get_entity (index e) s;
  if decide (0 ≤ p < RAID_LUN_SEC_NUM) then
    Ok (put_entity (index e) (e_set_dbuf (<[p := pg]> (dbuf d)) d) s)
  else Fault F_OOB.

(** One round of the inner loop of [flush_data_to_wcb]. *)
Definition flush_slot (x : Z * Z) (st : ftl * bio) : res (ftl * bio) :=
  let '(en, p) := x in
  let '(s, b) := st in
  e ← get_entity en s;
  l ← wread RAID_LUN_SEC_NUM 0 (lba e) p;
  '(s, b) ← (if decide (l ≤ MAX_USER_LBA) then
               pg ← bio_data b;
               s ← copy_to_slot en p pg s;
               Ok (s, bio_advance b)
             else Ok (s, b));
  s ← fill_cnt_inc en s;
  Ok (s, b).

Definition flush_data_to_wcb (w : wcb_bio_ctx) (b : bio) (s : ftl) : res (ftl * bio) :=
  mfor (wcb_slots w) flush_slot (s, b).

(** [bio_memcpy_wcb]: one context, data only, and the last user address excluded. *)
Definition bio_memcpy_slot (en p : Z) (st : ftl * bio) : res (ftl * bio) :=
  let '(s, b) := st in
  e ← get_entity en s;
  l ← wread RAID_LUN_SEC_NUM 0 (lba e) p;
  if decide (l < MAX_USER_LBA) then
    pg ← bio_data b;
    s ← copy_to_slot en p pg s;
    Ok (s, bio_advance b)
  else Ok (s, b).

Definition bio_memcpy_wcb (c : wcb_ctx) (b : bio) (s : ftl) : res (ftl * bio) :=
  en ← deref (entitys c);
  mfor (ctx_slots c) (bio_memcpy_slot en) (s, b).

(** ** The mapping table *)

Definition L2P_WORDS : Z := USR_FTLTBL_SIZE / 4.

Definition get_l2ptbl_mapping (l : Z) (s : ftl) : res geo_ppa :=
  wread L2P_WORDS INVALID_PAGE (l2ptbl s) l.

Definition set_l2ptbl_incache (l p : Z) (s : ftl) : res ftl :=
  let update := set_cache_in_cache 1 p in
  if decide (l ≤ MAX_USER_LBA) then
    prev ← get_l2ptbl_mapping l s;
    y ← (if decide (nand_blk prev < CFG_NAND_BLOCK_NUM) then vpc_dec prev (sys s) else Ok (sys s));
    let s := set_sys y s in
    m ← wwrite L2P_WORDS (l2ptbl s) l update;
    let s := set_l2ptbl m s in
    y ← vpc_inc update (sys s);
    Ok (set_sys y s)
  else Ok s.

Definition set_l2p_slot (x : Z * Z) (s : ftl) : res ftl :=
  let '(en, p) := x in
  e ← get_entity en s;
  l ← wread RAID_LUN_SEC_NUM 0 (lba e) p;
  q ← wread RAID_LUN_SEC_NUM 0 (ppa e) p;
  set_l2ptbl_incache l (u32 q) s.

Definition set_l2ptbl_write_path (w : wcb_bio_ctx) (s : ftl) : res ftl :=
  mfor (wcb_slots w) set_l2p_slot s.

(** ** A write bio *)

(** Under [wcb_lock]: the slots for a bio, or [None] when it has to wait.  The
    return code of [alloc_wcb_core] is not looked at. *)
Definition reserve_wcb (slba nr_ppas : Z) (s : ftl) : res (option wcb_bio_ctx * ftl) :=
  a ← wcb_available nr_ppas s;
  if (a : bool) then
    '(_, w, s) ← alloc_wcb_core slba nr_ppas ∅ s;
    Ok (Some w, s)
  else
    _ ← print_lun_entitys_fifo s;
    Ok (None, s).

Definition process_write_bio (b : bio) (s : ftl) : res (bio_result * ftl) :=
  let nr_ppas := s32 (get_bio_nppa b) in
  '(o, s) ← reserve_wcb (get_bio_slba b) nr_ppas s;
  match o with
  | None => Ok (FSCFTL_BIO_RESUBMIT, s)
  | Some w =>
      '(s, b) ← flush_data_to_wcb w b s;
      s ← set_l2ptbl_write_path w s;
      Ok (FSCFTL_BIO_COMPLETE, s)
  end.

(** ** Submission of full LUN buffers *)

Section backend.
Context (E : kenv) (ns_id : Z).

(** The command and context of one line of a LUN buffer. *)
Definition wrppa_line_cmd (e : wcb_lun_entity) (line : Z) : nvme_ppa_command :=
  ppa_command NVM_OP_WRPPA (u32 ns_id)
    (u64 (meta_dma e + line * CFG_NAND_CHANNEL_NUM * NAND_META_SIZE))
    (u64 (ppa_dma e + line * CFG_NAND_CHANNEL_NUM * 8))
    (u16 (CFG_NAND_CHANNEL_NUM - 1))
    (u16 (Z.lor NVM_IO_DUAL_ACCESS NVM_IO_SCRAMBLE_ENABLE)).

Definition wrppa_line_iod (en line : Z) : nvme_ppa_iod :=
  mk_ppa_iod (Some en) 0 None (Some (line * CFG_NAND_CHANNEL_NUM)) line None.

(** Submit one line.  The return code of [nvme_submit_ppa_cmd] is dropped: a line
    that was not accepted is just missing from the requests in flight. *)
Definition submit_line (en : Z) (e : wcb_lun_entity) (line : Z)
    (st : kheap * list (request * nvme_ppa_iod))
    : res (kheap * list (request * nvme_ppa_iod)) :=
  let '(h, fl) := st in
  '(obj, h) ← alloc_ppa_rqd_ctx E h;
  let databuf := data e + line * CFG_NAND_CHANNEL_NUM * EXP_PPA_SIZE in
  '(_, rq, h) ← nvme_submit_ppa_cmd E (wrppa_line_cmd e line) obj databuf
                  (CFG_NAND_CHANNEL_NUM * EXP_PPA_SIZE) h;
  Ok (h, match rq with
         | Some rq => fl ++ [(rq, wrppa_line_iod en line)]
         | None => fl
         end).

(** The bookkeeping of [nvme_wrppa_lun] before the loop over the lines. *)
Definition lun_start (en : Z) (s : ftl) : res (wcb_lun_entity * ftl) :=
  let s := set_ctl (c_set_outstanding (s32 (outstanding_lun (ctl s) + 1)) (ctl s)) s in
  e ← get_entity en s;
  let e := e_set_cqe_flag 0 e in
  Ok (e, put_entity en e s).

Definition nvme_wrppa_lun (en : Z) (s : ftl) (h : kheap)
    : res (ftl * kheap * list (request * nvme_ppa_iod)) :=
  '(e, s) ← lun_start en s;
  '(h, fl) ← mfor (seqZ 0 CFG_DRIVE_LINE_NUM) (submit_line en e) (h, []);
  Ok (s, h, fl).

(** [submit_write_backend]: 1 and the requests started, or 0 when nothing is full. *)
Definition pull_full (s : ftl) : res (option Z * ftl) :=
  '(o, f, m) ← pull_lun_entity_from_fifo (full_lun (ctl s)) (lun_entitys (ctl s));
  Ok (o, set_ctl (c_set_entitys m (c_set_full f (ctl s))) s).

Definition submit_write_backend (s : ftl) (h : kheap)
    : res (Z * ftl * kheap * list (request * nvme_ppa_iod)) :=
  '(o, s) ← pull_full s;
  match o with
  | None => Ok (0, s, h, [])
  | Some en => '(s, h, fl) ← nvme_wrppa_lun en s h; Ok (1, s, h, fl)
  end.

(** A round of [fscftl_write_kthread] up to the point where it sleeps. *)
Fixpoint fscftl_write_round (fuel : nat) (s : ftl) (h : kheap)
    (acc : list (request * nvme_ppa_iod)) : res (ftl * kheap * list (request * nvme_ppa_iod)) :=
  match fuel with
  | O => Fault F_FUEL
  | S fuel =>
      '(r, s, h, fl) ← submit_write_backend s h;
      if decide (r = 0) then Ok (s, h, acc) else fscftl_write_round fuel s h (acc ++ fl)
  end.
End backend.

(** [wrppa_lun_completion]: line [idx] of LUN buffer [ctx] is on flash; the buffer is
    empty again when all its lines are.  The result says whether the LUN is done. *)
Definition lun_line_done (en idx : Z) (s : ftl) : res (bool * ftl) :=
  e ← get_entity en s;
  let flag := if BIT_TEST (cqe_flag e) idx then cqe_flag e else u16 (BIT_SET (cqe_flag e) idx) in
  let s := put_entity en (e_set_cqe_flag flag e) s in
  if decide (flag = u16 (BIT2MASK CFG_DRIVE_LINE_NUM)) then
    '(f, m) ← push_lun_entity_to_fifo (empty_lun (ctl s)) en (lun_entitys (ctl s));
    let s := set_ctl (c_set_entitys m (c_set_empty f (ctl s))) s in
    Ok (true, set_ctl (c_set_outstanding (s32 (outstanding_lun (ctl s) - 1)) (ctl s)) s)
  else Ok (false, s).

Definition wrppa_lun_completion (rq : request) (iod : nvme_ppa_iod) (s : ftl) (h : kheap)
    : res (bool * ftl * kheap) :=
  en ← deref (iod_ctx iod);
  '(dn, s) ← lun_line_done en (iod_idx iod) s;
  h ← kfree ("ppacmd", req_cmd_obj rq) h;
  h ← blk_mq_free_request (req_id rq) h;
  Ok (dn, s, h).

(** [fscftl_yirq_workfn], the simulated interrupt: every ongoing LUN completes. *)
Fixpoint fscftl_yirq_workfn (fuel : nat) (s : ftl) : res ftl :=
  match fuel with
  | O => Fault F_FUEL
  | S fuel =>
      '(o, f, m) ← pull_lun_entity_from_fifo (ongoing_lun (ctl s)) (lun_entitys (ctl s));
      let s := set_ctl (c_set_entitys m (c_set_ongoing f (ctl s))) s in
      match o with
      | None => Ok s
      | Some en =>
          '(f, m) ← push_lun_entity_to_fifo (empty_lun (ctl s)) en (lun_entitys (ctl s));
          fscftl_yirq_workfn fuel (set_ctl (c_set_entitys m (c_set_empty f (ctl s))) s)
      end
  end.

(** ** Bios that have to wait *)

Section requeue.
Context {BL : Type} `{BioList bio BL}.

(** The tables, [requeue_wr_bios], and the bios ended so far. *)
Record wq : Type := mk_wq {
  q_ftl : ftl;
  q_wait : BL;
  q_ended : list bio;
}.

Fixpoint resubmit_wr_bios_list (fuel : nat) (q : wq) : res wq :=
  match fuel with
  | O => Fault F_FUEL
  | S fuel =>
      if bio_list_empty (q_wait q) then Ok q else
      let '(o, l) := bio_list_pop (q_wait q) in
      match o with
      | None => Ok (mk_wq (q_ftl q) l (q_ended q))
      | Some b =>
          '(r, s) ← process_write_bio b (q_ftl q);
          match r with
          | FSCFTL_BIO_COMPLETE => resubmit_wr_bios_list fuel (mk_wq s l (q_ended q ++ [b]))
          | FSCFTL_BIO_RESUBMIT => Ok (mk_wq s (bio_list_add_head l b) (q_ended q))
          end
      end
  end.

Definition fscftl_make_rq (b : bio) (q : wq) : res wq :=
  if negb (bi_write b) then Ok (mk_wq (q_ftl q) (q_wait q) (q_ended q ++ [b])) else
  if negb (bio_list_empty (q_wait q)) then
    Ok (mk_wq (q_ftl q) (bio_list_add (q_wait q) b) (q_ended q))
  else
    '(r, s) ← process_write_bio b (q_ftl q);
    match r with
    | FSCFTL_BIO_COMPLETE => Ok (mk_wq s (q_wait q) (q_ended q ++ [b]))
    | FSCFTL_BIO_RESUBMIT => Ok (mk_wq s (bio_list_add_head (q_wait q) b) (q_ended q))
    end.
End requeue.

#[global] Arguments wq : clear implicits.

#[global] Arguments alloc_wcb_loop : simpl never.
#[global] Arguments alloc_wcb_core : simpl never.
#[global] Arguments wcb_available : simpl never.
#[global] Arguments fill_cnt_inc : simpl never.
#[global] Arguments copy_to_slot : simpl never.
#[global] Arguments flush_slot : simpl never.
#[global] Arguments set_l2ptbl_incache : simpl never.
#[global] Arguments set_l2p_slot : simpl never.
