(* ===== verification/WriteAlloc.v ===== *)
(** * The slot allocator in closed form

    The loop of [alloc_wcb_core] as a function of the number of pages: within one
    LUN buffer it writes consecutive slots, and when a buffer is used up it goes on
    in the next one.  Termination: for every request the fuel of the loop is enough. *)

From S2P Require Import Prelude NandCfg Fifo Kernel SysMeta PpaCmd WriteCache WritePath.

#[local] Open Scope Z_scope.

(** ** Filling slots *)

Definition fill_slot (slba cur : Z) (e : wcb_lun_entity) : wcb_lun_entity :=
  e_set_pos (u16 (pos e + 1))
    (e_set_ppa (<[pos e := cur]> (ppa e)) (e_set_lba (<[pos e := u32 slba]> (lba e)) e)).

Fixpoint fill_slots (m : nat) (slba cur : Z) (e : wcb_lun_entity) : wcb_lun_entity :=
  match m with
  | O => e
  | S m => fill_slots m (slba + 1) (u32 (cur + 1)) (fill_slot slba cur e)
  end.

(** What filling slots leaves alone. *)
Lemma fill_slots_frame m : ∀ slba cur e,
  let e' := fill_slots m slba cur e in
  index e' = index e ∧ baddr e' = baddr e ∧ dbuf e' = dbuf e ∧ fill_cnt e' = fill_cnt e ∧
  cqe_flag e' = cqe_flag e ∧ enext e' = enext e ∧ eprev e' = eprev e.
Proof.
  induction m as [|m IH]; intros slba cur e; cbn zeta; [done|]. cbn [fill_slots].
  destruct (IH (slba + 1) (u32 (cur + 1)) (fill_slot slba cur e)) as (-> & -> & -> & -> & -> & -> & ->).
  done.
Qed.

Lemma fill_slots_pos m : ∀ slba cur e,
  0 ≤ pos e → pos e + Z.of_nat m ≤ RAID_LUN_SEC_NUM →
  pos (fill_slots m slba cur e) = pos e + Z.of_nat m.
Proof.
  induction m as [|m IH]; intros slba cur e Hp Hm; cbn [fill_slots]; [lia|].
  assert (pos (fill_slot slba cur e) = pos e + 1) as Hs.
  { cbn. apply u16_small. change RAID_LUN_SEC_NUM with 128 in Hm. lia. }
  rewrite IH; rewrite Hs; lia.
Qed.

Lemma fill_slots_lookup m : ∀ slba cur e k,
  0 ≤ pos e → pos e + Z.of_nat m ≤ RAID_LUN_SEC_NUM → 0 ≤ cur → cur + Z.of_nat m < 2 ^ 32 →
  let e' := fill_slots m slba cur e in
  (lba e' !! k, ppa e' !! k) =
    if decide (pos e ≤ k < pos e + Z.of_nat m)
    then (Some (u32 (slba + (k - pos e))), Some (cur + (k - pos e)))
    else (lba e !! k, ppa e !! k).
Proof.
  induction m as [|m IH]; intros slba cur e k Hp Hm Hc1 Hc2; cbn zeta.
  - cbn [fill_slots]. rewrite decide_False by lia. done.
  - cbn [fill_slots].
    assert (pos (fill_slot slba cur e) = pos e + 1) as Hs.
    { cbn. apply u16_small. change RAID_LUN_SEC_NUM with 128 in Hm. lia. }
    rewrite (u32_small (cur + 1)) by lia.
    rewrite IH; [rewrite Hs|rewrite Hs; lia..|lia|lia].
    destruct (decide (pos e + 1 ≤ k < pos e + 1 + Z.of_nat m)).
    + rewrite decide_True by lia.
      replace (slba + 1 + (k - (pos e + 1))) with (slba + (k - pos e)) by lia.
      by replace (cur + 1 + (k - (pos e + 1))) with (cur + (k - pos e)) by lia.
    + cbn. destruct (decide (pos e = k)) as [<-|].
      * rewrite !lookup_insert_eq, decide_True by lia. by rewrite Z.sub_diag, !Z.add_0_r.
      * rewrite !lookup_insert_ne, decide_False by lia. done.
Qed.

Lemma fill_slots_snoc m : ∀ slba cur e,
  0 ≤ cur → cur + Z.of_nat m < 2 ^ 32 →
  fill_slots (S m) slba cur e =
    fill_slot (slba + Z.of_nat m) (cur + Z.of_nat m) (fill_slots m slba cur e).
Proof.
  induction m as [|m IH]; intros slba cur e H1 H2.
  - cbn [fill_slots]. by rewrite !Z.add_0_r.
  - cbn [fill_slots] in *. rewrite (u32_small (cur + 1)) by lia.
    rewrite (IH (slba + 1) (cur + 1)) by lia.
    f_equal; lia.
Qed.

(** ** One iteration *)

Definition w_end (w : wcb_bio_ctx) (num p : Z) : wcb_bio_ctx :=
  <[num := mk_wcb_ctx (entitys (wctx_get w num)) (start_pos (wctx_get w num)) p]> w.

Lemma wctx_set_in w i c : 0 ≤ i < MAX_USED_WCB_ENTITYS → wctx_set w i c = Ok (<[i := c]> w).
Proof. intros. unfold wctx_set. by rewrite decide_True. Qed.

Lemma get_put_entity_eq i e s : get_entity i (put_entity i e s) = Ok e.
Proof. unfold get_entity, put_entity. cbn. apply aread_Some, lookup_insert_eq. Qed.

(** The iteration up to the advance of [pos], when the buffer is not used up. *)
Lemma alloc_step fuel num cur left slba en e w s :
  get_entity en s = Ok e → 0 ≤ num < MAX_USED_WCB_ENTITYS →
  0 ≤ pos e → pos e + 1 < RAID_LUN_SEC_NUM → 1 ≤ left < 2 ^ 32 →
  alloc_wcb_loop (S fuel) num cur left slba en w s =
    let s' := put_entity en (fill_slot slba cur e) s in
    let w' := w_end w num (pos e) in
    if decide (left = 1) then Ok (0, w', s')
    else alloc_wcb_loop fuel num (u32 (cur + 1)) (left - 1) (slba + 1) en w' s'.
Proof.
  intros He Hn Hp Hp1 Hl. assert (RAID_LUN_SEC_NUM < 2 ^ 16) as HR by done.
  unfold alloc_wcb_loop; fold alloc_wcb_loop. cbn [sys_get_ppa_type].
  rewrite He, bind_Ok_l. rewrite !wwrite_in, !bind_Ok_l by lia.
  rewrite wctx_set_in, bind_Ok_l by done.
  rewrite (u32_small (left - 1)) by lia.
  rewrite (decide_False (P := pos _ = RAID_LUN_SEC_NUM)).
  2:{ cbn. rewrite u16_small by lia. lia. }
  cbn zeta. destruct (decide (left = 1)) as [->|].
  - rewrite decide_True by lia. done.
  - rewrite decide_False by lia. done.
Qed.

(** The iteration that uses the buffer up. *)
Lemma alloc_cross fuel num cur left slba en e w s q s2 e2 :
  get_entity en s = Ok e → 0 ≤ num < MAX_USED_WCB_ENTITYS →
  pos e + 1 = RAID_LUN_SEC_NUM → 1 ≤ left < 2 ^ 32 →
  get_next_lun_entity cur (put_entity en (fill_slot slba cur e) s) = Ok (Some q, s2) →
  get_entity q s2 = Ok e2 → (left ≠ 1 → num + 1 < MAX_USED_WCB_ENTITYS) →
  alloc_wcb_loop (S fuel) num cur left slba en w s =
    let w' := w_end w num (pos e) in
    if decide (left = 1) then Ok (0, w', s2)
    else alloc_wcb_loop fuel (num + 1) (baddr e2) (left - 1) (slba + 1) q
           (<[num + 1 := mk_wcb_ctx (Some q) (pos e2) (pos e2)]> w') s2.
Proof.
  intros He Hn Hp1 Hl Hnext He2 Hn1. assert (0 < RAID_LUN_SEC_NUM < 2 ^ 16) as HR by done.
  unfold alloc_wcb_loop; fold alloc_wcb_loop. cbn [sys_get_ppa_type].
  rewrite He, bind_Ok_l. rewrite !wwrite_in, !bind_Ok_l by lia.
  rewrite wctx_set_in, bind_Ok_l by done.
  rewrite (u32_small (left - 1)) by lia.
  rewrite (decide_True (P := pos _ = RAID_LUN_SEC_NUM)).
  2:{ cbn. rewrite u16_small by lia. lia. }
  fold (fill_slot slba cur e). rewrite Hnext, bind_Ok_l.
  cbn zeta. destruct (decide (left = 1)) as [->|].
  - rewrite decide_True by lia. done.
  - rewrite decide_False by lia. rewrite He2, bind_Ok_l.
    rewrite wctx_set_in, bind_Ok_l by lia. done.
Qed.

(** ** Runs of iterations *)

Lemma put_put_entity i e e' s : put_entity i e (put_entity i e' s) = put_entity i e s.
Proof. unfold put_entity, set_ctl, c_set_entitys. cbn. by rewrite insert_insert_eq. Qed.

Lemma put_entity_id i e s : get_entity i s = Ok e → put_entity i e s = s.
Proof.
  unfold get_entity, put_entity. intros He%aread_Ok. rewrite insert_id by done.
  by destruct s as [[] ? ?].
Qed.

Lemma wctx_get_end w num p :
  wctx_get (w_end w num p) num =
    mk_wcb_ctx (entitys (wctx_get w num)) (start_pos (wctx_get w num)) p.
Proof. unfold w_end, wctx_get. by rewrite lookup_insert_eq. Qed.

Lemma w_end_end w num p q : w_end (w_end w num p) num q = w_end w num q.
Proof. unfold w_end at 1. rewrite wctx_get_end. cbn. unfold w_end. by rewrite insert_insert_eq. Qed.

(** [m] iterations inside one buffer, with more to come. *)
Lemma alloc_run (m : nat) : ∀ fuel num cur left slba en e w s,
  get_entity en s = Ok e → 0 ≤ num < MAX_USED_WCB_ENTITYS →
  0 ≤ pos e → pos e + Z.of_nat m < RAID_LUN_SEC_NUM →
  Z.of_nat m < left < 2 ^ 32 → 0 ≤ cur → cur + Z.of_nat m < 2 ^ 32 →
  alloc_wcb_loop (m + fuel) num cur left slba en w s =
    alloc_wcb_loop fuel num (cur + Z.of_nat m) (left - Z.of_nat m) (slba + Z.of_nat m) en
      (if decide (m = 0%nat) then w else w_end w num (pos e + Z.of_nat m - 1))
      (put_entity en (fill_slots m slba cur e) s).
Proof.
  induction m as [|m IH]; intros fuel num cur left slba en e w s He Hn Hp Hpm Hl Hc1 Hc2.
  - rewrite !Z.add_0_r, Z.sub_0_r. cbn. by rewrite put_entity_id.
  - change (S m + fuel)%nat with (S (m + fuel)).
    rewrite (alloc_step _ _ _ _ _ _ e) by (done || lia). cbn zeta. rewrite decide_False by lia.
    assert (pos (fill_slot slba cur e) = pos e + 1) as Hs.
    { cbn. apply u16_small. change RAID_LUN_SEC_NUM with 128 in Hpm. lia. }
    rewrite (u32_small (cur + 1)) by lia.
    rewrite (IH _ _ _ _ _ _ (fill_slot slba cur e)); try (rewrite ?Hs; lia).
    2:{ apply get_put_entity_eq. }
    rewrite Hs, put_put_entity. cbn [fill_slots]. rewrite (u32_small (cur + 1)) by lia.
    replace (cur + 1 + Z.of_nat m) with (cur + Z.of_nat (S m)) by lia.
    replace (left - 1 - Z.of_nat m) with (left - Z.of_nat (S m)) by lia.
    replace (slba + 1 + Z.of_nat m) with (slba + Z.of_nat (S m)) by lia.
    f_equal. rewrite (decide_False (P := S m = 0%nat)) by lia.
    destruct (decide (m = 0%nat)) as [->|].
    + f_equal. lia.
    + rewrite w_end_end. f_equal. lia.
Qed.

(** A request that ends inside the buffer. *)
Lemma alloc_finish (n : nat) fuel num cur slba en e w s :
  (0 < n ≤ fuel)%nat → get_entity en s = Ok e → 0 ≤ num < MAX_USED_WCB_ENTITYS →
  0 ≤ pos e → pos e + Z.of_nat n < RAID_LUN_SEC_NUM → 0 ≤ cur → cur + Z.of_nat n < 2 ^ 32 →
  alloc_wcb_loop fuel num cur (Z.of_nat n) slba en w s =
    Ok (0, w_end w num (pos e + Z.of_nat n - 1), put_entity en (fill_slots n slba cur e) s).
Proof.
  intros Hn He Hnum Hp Hpn Hc1 Hc2. assert (RAID_LUN_SEC_NUM = 128) as HR by done.
  destruct n as [|m]; [lia|]. replace fuel with (m + S (fuel - S m))%nat by lia.
  rewrite (alloc_run m _ _ _ _ _ _ e) by (done || lia).
  replace (Z.of_nat (S m) - Z.of_nat m) with 1 by lia.
  rewrite (alloc_step _ _ _ _ _ _ (fill_slots m slba cur e)).
  - cbn zeta. rewrite decide_True by done. rewrite put_put_entity.
    rewrite fill_slots_pos by lia. rewrite <-fill_slots_snoc by lia.
    replace (pos e + Z.of_nat (S m) - 1) with (pos e + Z.of_nat m) by lia.
    case_decide; [done|]. by rewrite w_end_end.
  - apply get_put_entity_eq.
  - done.
  - rewrite fill_slots_pos; lia.
  - rewrite fill_slots_pos; lia.
  - lia.
Qed.

(** ** [alloc_wcb_core] in closed form *)

(** The request fits into the partial buffer. *)
Lemma alloc_core_within slba (n : nat) s p e :
  partial_entity (ctl s) = Some p → get_entity p s = Ok e → base_ok (baddr e) →
  0 ≤ pos e → (0 < n)%nat → pos e + Z.of_nat n < RAID_LUN_SEC_NUM →
  alloc_wcb_core slba (Z.of_nat n) ∅ s =
    Ok (0, {[0 := mk_wcb_ctx (Some p) (pos e) (pos e + Z.of_nat n - 1)]},
        put_entity p (fill_slots n slba (baddr e + pos e) e) s).
Proof.
  intros Hpart He (Hb & _) Hp Hn Hpn. assert (RAID_LUN_SEC_NUM = 128) as HR by done.
  unfold alloc_wcb_core. rewrite Hpart, bind_Ok_l, He, bind_Ok_l.
  rewrite wctx_set_in, bind_Ok_l by done. rewrite !u32_small by lia.
  rewrite (alloc_finish n _ _ _ _ _ e); try (done || lia).
  change ALLOC_FUEL with 385%nat. lia.
Qed.

(** The request reaches the end of the partial buffer. *)
Lemma alloc_core_cross slba (n : nat) s p e q s2 e2 :
  partial_entity (ctl s) = Some p → get_entity p s = Ok e → base_ok (baddr e) →
  0 ≤ pos e < RAID_LUN_SEC_NUM → RAID_LUN_SEC_NUM ≤ pos e + Z.of_nat n →
  (n ≤ 128)%nat →
  let m := Z.to_nat (RAID_LUN_SEC_NUM - pos e) in
  get_next_lun_entity (baddr e + (RAID_LUN_SEC_NUM - 1))
    (put_entity p (fill_slots m slba (baddr e + pos e) e) s) = Ok (Some q, s2) →
  get_entity q s2 = Ok e2 → base_ok (baddr e2) → pos e2 = 0 →
  let r := (n - m)%nat in
  let w0 : wcb_bio_ctx := {[0 := mk_wcb_ctx (Some p) (pos e) (RAID_LUN_SEC_NUM - 1)]} in
  alloc_wcb_core slba (Z.of_nat n) ∅ s =
    if decide (r = 0%nat) then Ok (0, w0, s2)
    else Ok (0, <[1 := mk_wcb_ctx (Some q) 0 (Z.of_nat r - 1)]> w0,
             put_entity q (fill_slots r (slba + Z.of_nat m) (baddr e2) e2) s2).
Proof.
  intros Hpart He (Hb & _) Hp Hpn Hn m Hnext He2 (Hb2 & _) Hp2 r w0.
  assert (RAID_LUN_SEC_NUM = 128) as HR by done. rewrite HR in *.
  assert (Z.of_nat m = 128 - pos e) as Hm by lia.
  unfold alloc_wcb_core. rewrite Hpart, bind_Ok_l, He, bind_Ok_l.
  rewrite wctx_set_in, bind_Ok_l by done. rewrite !u32_small by lia.
  destruct m as [|m']; [lia|].
  change ALLOC_FUEL with 385%nat. replace 385%nat with (m' + S (384 - m'))%nat by lia.
  rewrite (alloc_run m' _ _ _ _ _ _ e) by (done || lia).
  set (w1 := if decide _ then _ else _).
  assert (∀ x, w_end w1 0 x = {[0 := mk_wcb_ctx (Some p) (pos e) x]}) as Hw1.
  { intros x. unfold w1. case_decide; [done|]. by rewrite w_end_end. }
  replace (baddr e + pos e + Z.of_nat m') with (baddr e + (128 - 1)) by lia.
  rewrite (alloc_cross _ _ _ _ _ _ (fill_slots m' slba (baddr e + pos e) e) _ _ q s2 e2);
    try (done || lia).
  - cbn zeta. rewrite fill_slots_pos by lia. rewrite Hw1.
    replace (pos e + Z.of_nat m') with (128 - 1) by lia. fold w0.
    destruct (decide (r = 0%nat)); [by rewrite decide_True by lia|].
    rewrite decide_False by lia.
    replace (Z.of_nat n - Z.of_nat m' - 1) with (Z.of_nat r) by lia.
    rewrite (alloc_finish r _ _ _ _ _ e2); try (done || lia). rewrite Hp2.
    replace (slba + Z.of_nat m' + 1) with (slba + Z.of_nat (S m')) by lia.
    unfold w_end, wctx_get. rewrite lookup_insert_eq. cbn.
    by rewrite insert_insert_eq.
  - apply get_put_entity_eq.
  - rewrite fill_slots_pos; lia.
  - rewrite put_put_entity. rewrite <-Hnext. f_equal. f_equal.
    rewrite fill_slots_snoc by lia. f_equal; lia.
Qed.

(** ** Termination *)

(** Runs that do not stop for lack of fuel. *)
Definition no_fuel_out {A} (m : res A) : Prop := m ≠ Fault F_FUEL.

Create HintDb nofuel.

Lemma nofuel_Ok {A} (a : A) : no_fuel_out (Ok a).
Proof. done. Qed.

Lemma nofuel_bind {A B} (m : res A) (f : A → res B) :
  no_fuel_out m → (∀ a, no_fuel_out (f a)) → no_fuel_out (m ≫= f).
Proof. intros Hm Hf. destruct m as [a|x]; [apply Hf|]. cbn. unfold no_fuel_out in *. congruence. Qed.

Lemma nofuel_aread {A} (m : gmap Z A) i : no_fuel_out (aread m i).
Proof. unfold aread. by destruct (m !! i). Qed.
Lemma nofuel_deref {A} (o : option A) : no_fuel_out (deref o).
Proof. by destruct o. Qed.
Lemma nofuel_BUG_ON (P : Prop) `{Decision P} : no_fuel_out (BUG_ON P).
Proof. unfold BUG_ON. by case_decide. Qed.
Lemma nofuel_wwrite n m i v : no_fuel_out (wwrite n m i v).
Proof. unfold wwrite. by case_decide. Qed.
Lemma nofuel_wctx w i c : no_fuel_out (wctx_set w i c).
Proof. unfold wctx_set. by case_decide. Qed.
Lemma nofuel_get i s : no_fuel_out (get_entity i s).
Proof. apply nofuel_aread. Qed.

#[export] Hint Resolve nofuel_Ok nofuel_aread nofuel_deref nofuel_BUG_ON nofuel_wwrite
  nofuel_wctx nofuel_get : nofuel.

(** Follow the structure of a definition without recursion. *)
Ltac nofuel :=
  repeat first
    [ progress eauto with nofuel
    | apply nofuel_bind; [|intros]
    | case_decide
    | match goal with
      | |- no_fuel_out (let '(_, _) := ?x in _) => destruct x
      | |- no_fuel_out (match ?x with _ => _ end) => destruct x
      end ].

Lemma nofuel_get_bmi_item b : no_fuel_out (get_bmi_item b).
Proof. unfold get_bmi_item. nofuel. Qed.
#[export] Hint Resolve nofuel_get_bmi_item : nofuel.

Lemma nofuel_pull_blk f t : no_fuel_out (pull_blk_from_pool f t).
Proof. unfold pull_blk_from_pool. nofuel. Qed.
#[export] Hint Resolve nofuel_pull_blk : nofuel.

Lemma nofuel_get_blk y : no_fuel_out (get_blk_from_free_list y).
Proof. unfold get_blk_from_free_list. nofuel. Qed.
#[export] Hint Resolve nofuel_get_blk : nofuel.

Lemma nofuel_pull f m : no_fuel_out (pull_lun_entity_from_fifo f m).
Proof. unfold pull_lun_entity_from_fifo. nofuel. Qed.
Lemma nofuel_push f i m : no_fuel_out (push_lun_entity_to_fifo f i m).
Proof. unfold push_lun_entity_to_fifo. nofuel. Qed.
Lemma nofuel_print s : no_fuel_out (print_lun_entitys_fifo s).
Proof. unfold print_lun_entitys_fifo. nofuel. Qed.
#[export] Hint Resolve nofuel_pull nofuel_push nofuel_print : nofuel.

Lemma nofuel_next_baddr c y : no_fuel_out (get_next_entity_baddr c y).
Proof.
  unfold get_next_entity_baddr. destruct (get_ppa_each_region c) as [[[[[? ?] ?] ?] ?] ?].
  destruct (INCRE_BOUNDED _ _ _). destruct (IF_CARRY_THEN_INCRE_BOUNDED _ _ _ _). nofuel.
Qed.
#[export] Hint Resolve nofuel_next_baddr : nofuel.

Lemma nofuel_next_lun c s : no_fuel_out (get_next_lun_entity c s).
Proof. unfold get_next_lun_entity. nofuel. Qed.

(** A buffer taken for writing starts at slot 0; when there is none, the call does
    not return. *)
Lemma get_next_lun_entity_result c s o s' :
  get_next_lun_entity c s = Ok (o, s') → ∃ q e, o = Some q ∧ get_entity q s' = Ok e ∧ pos e = 0.
Proof.
  unfold get_next_lun_entity. intros H. apply bind_Ok in H as ([[o' f] m] & _ & H).
  destruct o' as [q|].
  - apply bind_Ok in H as ([b y] & _ & H). apply bind_Ok in H as (e & _ & H).
    injection H as <- <-. exists q. eexists. split; [done|].
    unfold get_entity. cbn. split; [apply aread_Some, lookup_insert_eq|done].
  - apply bind_Ok in H as (x & H & _). unfold print_lun_entitys_fifo in H. cbn in H. done.
Qed.

(** Slots left in the three buffers a request may use. *)
Definition slots_left (num : Z) (e : wcb_lun_entity) : Z :=
  (MAX_USED_WCB_ENTITYS - num) * RAID_LUN_SEC_NUM - pos e.

(** The shape of one iteration from any position, in terms of what follows. *)
Lemma alloc_iter (P : res (Z * wcb_bio_ctx * ftl) → Prop) fuel num cur left slba en e w s :
  get_entity en s = Ok e → 0 ≤ num < MAX_USED_WCB_ENTITYS → 0 ≤ pos e < RAID_LUN_SEC_NUM →
  (∀ f, f ≠ F_FUEL → P (Fault f)) →
  (u32 (left - 1) = 0 → ∀ w' s', P (Ok (0, w', s'))) →
  (∀ num' cur' en' e' w' s', u32 (left - 1) ≠ 0 → get_entity en' s' = Ok e' →
     0 ≤ num' < MAX_USED_WCB_ENTITYS → 0 ≤ pos e' < RAID_LUN_SEC_NUM →
     slots_left num' e' < slots_left num e →
     P (alloc_wcb_loop fuel num' cur' (u32 (left - 1)) (slba + 1) en' w' s')) →
  P (alloc_wcb_loop (S fuel) num cur left slba en w s).
Proof.
  intros He Hn Hp Hf Hok Hrec. assert (RAID_LUN_SEC_NUM = 128) as HR by done.
  assert (MAX_USED_WCB_ENTITYS = 3) as HM by done.
  unfold alloc_wcb_loop; fold alloc_wcb_loop. cbn [sys_get_ppa_type].
  rewrite He, bind_Ok_l. rewrite !wwrite_in, !bind_Ok_l by lia.
  rewrite wctx_set_in, bind_Ok_l by done. fold (fill_slot slba cur e).
  assert (pos (fill_slot slba cur e) = pos e + 1) as Hs by (apply u16_small; lia).
  case_decide as Hfull.
  - pose proof (nofuel_next_lun cur (put_entity en (fill_slot slba cur e) s)) as Hnf.
    destruct (get_next_lun_entity _ _) as [[o s2]|x] eqn:Hnext.
    2:{ cbn. apply Hf. unfold no_fuel_out in Hnf. congruence. }
    rewrite bind_Ok_l. apply get_next_lun_entity_result in Hnext as (q & e2 & -> & He2 & Hp2).
    destruct (decide (u32 (left - 1) = 0)); [by apply Hok|].
    rewrite He2, bind_Ok_l. unfold wctx_set. case_decide as Hr; [|by apply Hf].
    rewrite bind_Ok_l. apply Hrec with e2; try done; [lia|]. unfold slots_left. lia.
  - cbn zeta. destruct (decide (u32 (left - 1) = 0)); [by apply Hok|].
    apply Hrec with (fill_slot slba cur e); try done; [apply get_put_entity_eq|lia|].
    unfold slots_left. lia.
Qed.

Lemma alloc_loop_no_fuel fuel : ∀ num cur left slba en e w s,
  get_entity en s = Ok e → 0 ≤ num < MAX_USED_WCB_ENTITYS → 0 ≤ pos e < RAID_LUN_SEC_NUM →
  slots_left num e < Z.of_nat fuel →
  no_fuel_out (alloc_wcb_loop fuel num cur left slba en w s).
Proof.
  induction fuel as [|fuel IH]; intros num cur left slba en e w s He Hn Hp Hl.
  - exfalso. unfold slots_left in Hl. change RAID_LUN_SEC_NUM with 128 in *.
    change MAX_USED_WCB_ENTITYS with 3 in *. lia.
  - apply alloc_iter with e; try done.
    + unfold no_fuel_out. congruence.
    + intros. by apply IH with e'; try lia.
Qed.

Lemma alloc_loop_overrun fuel : ∀ num cur left slba en e w s,
  get_entity en s = Ok e → 0 ≤ num < MAX_USED_WCB_ENTITYS → 0 ≤ pos e < RAID_LUN_SEC_NUM →
  slots_left num e ≤ u32 (left - 1) →
  ∃ f, alloc_wcb_loop fuel num cur left slba en w s = Fault f.
Proof.
  induction fuel as [|fuel IH]; intros num cur left slba en e w s He Hn Hp Hl; [by eexists|].
  assert (RAID_LUN_SEC_NUM = 128) as HR by done. assert (MAX_USED_WCB_ENTITYS = 3) as HM by done.
  assert (0 < slots_left num e) by (unfold slots_left; lia).
  assert (0 ≤ u32 (left - 1) < 2 ^ 32) by (apply Z.mod_pos_bound; lia).
  apply (alloc_iter (λ r, ∃ f, r = Fault f)) with e; try done; [by eexists|lia|].
  intros num' cur' en' e' w' s' _ He' Hn' Hp' Hlt. apply IH with e'; try done.
  rewrite (u32_small (u32 (left - 1) - 1)) by lia. lia.
Qed.


(** a write bio of less than one page (an empty flush bio, or a sector smaller
    than a page) that finds room in the cache never completes: the counter of
    remaining pages wraps below zero and the allocation runs into the end of
    [bio_wcb] or out of LUN buffers. *)
Lemma zero_page_bio_faults b s p e :
  0 ≤ bi_size b < EXP_PPA_SIZE → partial_entity (ctl s) = Some p → get_entity p s = Ok e →
  0 ≤ pos e < RAID_LUN_SEC_NUM → wcb_available 0 s = Ok true →
  ∃ f, process_write_bio b s = Fault f.
Proof.
  intros Hb Hpart He Hp Hav. unfold process_write_bio, get_bio_nppa.
  rewrite Z.div_small by lia. change (s32 0) with 0. unfold reserve_wcb.
  rewrite Hav, bind_Ok_l.
  assert (∃ f, alloc_wcb_core (get_bio_slba b) 0 ∅ s = Fault f) as [f ->]; [|by eexists].
  unfold alloc_wcb_core. rewrite Hpart, bind_Ok_l, He, bind_Ok_l.
  rewrite wctx_set_in, bind_Ok_l by done.
  apply alloc_loop_overrun with e; try done. unfold slots_left.
  change (u32 (u32 0 - 1)) with 4294967295.
  change ((MAX_USED_WCB_ENTITYS - 0) * RAID_LUN_SEC_NUM) with 384. lia.
Qed.
