(* ===== verification/WriteInv.v ===== *)
(** * The invariant of the write cache and what the write path does to it

    Each LUN buffer is in exactly one place: partial, empty, full, filling (used up
    but with data still being copied in) or on the device.  A slot that is reserved
    for a bio and not copied yet is pending; the counters of a buffer add up with
    its pending slots.  Each piece of the write path preserves this. *)

From S2P Require Import Prelude NandCfg Fifo Kernel SysMeta PpaCmd WriteCache WritePath WriteAlloc.

#[local] Open Scope Z_scope.

Notation ents s := (lun_entitys (ctl s)).

(** Pending slots of buffer [i]. *)
Definition npend (i : Z) (pend : list (Z * Z)) : Z :=
  Z.of_nat (length (filter (λ x, x.1 = i) pend)).

(** The addresses written so far are those of the slots. *)
Definition ppas_ok (e : wcb_lun_entity) : Prop :=
  ∀ k, 0 ≤ k < pos e → ppa e !! k = Some (baddr e + k).

(** [p] is the partial buffer, [es] and [fs] the empty and full FIFOs, [gs] the
    filling buffers, [os] those on the device. *)
Record wcb_pre (s : ftl) (p : Z) (es fs gs os : list Z) (pend : list (Z * Z)) : Prop := {
  wi_partial : partial_entity (ctl s) = Some p;
  wi_empty : fifo_rep (ents s) (empty_lun (ctl s)) es;
  wi_full : fifo_rep (ents s) (full_lun (ctl s)) fs;
  wi_perm : p :: es ++ fs ++ gs ++ os ≡ₚ seqZ 0 CB_ENTITYS_CNT;
  wi_index : ∀ i, 0 ≤ i < CB_ENTITYS_CNT → ∃ e, ents s !! i = Some e ∧ index e = i;
  wi_part : ∀ e, ents s !! p = Some e → 0 ≤ pos e ≤ RAID_LUN_SEC_NUM;
  wi_act : ∀ i e, i ∈ p :: gs ++ fs ++ os → ents s !! i = Some e → base_ok (baddr e) ∧ ppas_ok e;
  wi_fill : ∀ i e, i ∈ p :: gs → ents s !! i = Some e →
      0 ≤ fill_cnt e ∧ fill_cnt e + npend i pend = pos e;
  wi_done : ∀ i e, i ∈ gs ++ fs ++ os → ents s !! i = Some e → pos e = RAID_LUN_SEC_NUM;
  wi_gs : ∀ i, i ∈ gs → 0 < npend i pend;
  wi_pend : ∀ x, x ∈ pend → x.1 ∈ p :: gs ∧ ∀ e, ents s !! x.1 = Some e → 0 ≤ x.2 < pos e;
  wi_sys : ∃ bl, sys_inv (sys s) bl;
}.

(** Between operations the partial buffer has room. *)
Definition wcb_inv (s : ftl) (p : Z) (es fs gs os : list Z) (pend : list (Z * Z)) : Prop :=
  wcb_pre s p es fs gs os pend ∧
  ∀ e, ents s !! p = Some e → pos e < RAID_LUN_SEC_NUM.

(** ** Consequences *)

Lemma get_entity_Some i e s : ents s !! i = Some e → get_entity i s = Ok e.
Proof. apply aread_Some. Qed.

Lemma npend_nil i : npend i [] = 0.
Proof. done. Qed.

Lemma npend_app i l l' : npend i (l ++ l') = npend i l + npend i l'.
Proof. unfold npend. rewrite filter_app, length_app. lia. Qed.

Lemma npend_cons i x l : npend i (x :: l) = (if decide (x.1 = i) then 1 else 0) + npend i l.
Proof. unfold npend. rewrite filter_cons. case_decide; cbn; lia. Qed.

Lemma npend_nonneg i l : 0 ≤ npend i l.
Proof. unfold npend. lia. Qed.

Lemma npend_perm i l l' : l ≡ₚ l' → npend i l = npend i l'.
Proof. intros H. unfold npend. by rewrite H. Qed.

Lemma npend_slots_eq i (l : list Z) : npend i ((λ k, (i, k)) <$> l) = Z.of_nat (length l).
Proof. induction l as [|k l IH]; [done|]. rewrite fmap_cons, npend_cons, IH, decide_True by done. cbn. lia. Qed.

Lemma npend_slots_ne i j (l : list Z) : i ≠ j → npend i ((λ k, (j, k)) <$> l) = 0.
Proof. intros. induction l as [|k l IH]; [done|]. rewrite fmap_cons, npend_cons, IH, decide_False by (cbn; congruence). lia. Qed.

Section consequences.
#[local] Set Default Proof Using "All".
Context {s p es fs gs os pend} (Hinv : wcb_pre s p es fs gs os pend).

Lemma pre_nodup : NoDup (p :: es ++ fs ++ gs ++ os).
Proof. rewrite (wi_perm _ _ _ _ _ _ _ Hinv). apply NoDup_seqZ. Qed.

Lemma pre_range i : i ∈ p :: es ++ fs ++ gs ++ os → 0 ≤ i < CB_ENTITYS_CNT.
Proof. rewrite (wi_perm _ _ _ _ _ _ _ Hinv). intros Hi%elem_of_seqZ. lia. Qed.

Lemma pre_lookup i : i ∈ p :: es ++ fs ++ gs ++ os → ∃ e, ents s !! i = Some e ∧ index e = i.
Proof. intros Hi. apply (wi_index _ _ _ _ _ _ _ Hinv). by apply pre_range. Qed.

Lemma pre_partial : ∃ e, ents s !! p = Some e ∧ index e = p.
Proof. apply pre_lookup. by left. Qed.

Lemma pre_index i e : ents s !! i = Some e → 0 ≤ i < CB_ENTITYS_CNT → index e = i.
Proof. intros He Hi. destruct (wi_index _ _ _ _ _ _ _ Hinv i Hi) as (e' & He' & ?). congruence. Qed.
End consequences.

(** A state whose buffers differ only in their links. *)
Definition ents_links (m m' : gmap Z wcb_lun_entity) : Prop := links_only m m'.

(** ** Reserving slots in the partial buffer *)

(** Filling [m] slots of the partial buffer makes them pending. *)
Lemma pre_fill s p es fs gs os pend e slba (m : nat) :
  wcb_pre s p es fs gs os pend → ents s !! p = Some e →
  pos e + Z.of_nat m ≤ RAID_LUN_SEC_NUM →
  wcb_pre (put_entity p (fill_slots m slba (baddr e + pos e) e) s) p es fs gs os
    (pend ++ ((λ k, (p, k)) <$> seqZ (pos e) (Z.of_nat m))).
Proof.
  intros Hpre He Hm. pose proof (pre_nodup Hpre) as [Hnin Hnd]%NoDup_cons.
  pose proof (wi_part _ _ _ _ _ _ _ Hpre e He) as Hpos.
  destruct (wi_act _ _ _ _ _ _ _ Hpre p e ltac:(by left) He) as [Hbok Hppa].
  pose proof (proj1 Hbok) as Hb.
  destruct (fill_slots_frame m slba (baddr e + pos e) e) as (Fi & Fb & Fd & Ff & Fc & Fn & Fp).
  pose proof (fill_slots_pos m slba (baddr e + pos e) e ltac:(lia) Hm) as Hpos'.
  assert (RAID_LUN_SEC_NUM = 128) as HR by done.
  set (e' := fill_slots m slba (baddr e + pos e) e) in *.
  assert (∀ j, links (<[p := e']> (ents s)) j = links (ents s) j) as Hlk.
  { intros j. unfold links. destruct (decide (p = j)) as [<-|].
    - rewrite lookup_insert_eq, He. cbn. by rewrite Fn, Fp.
    - by rewrite lookup_insert_ne. }
  destruct Hpre as [H1 H2 H3 H4 H5 H6 H7 H8 H9 H10 H11 H12].
  constructor; cbn; try done.
  - by apply fifo_rep_frame with (ents s).
  - by apply fifo_rep_frame with (ents s).
  - intros i Hi. destruct (decide (p = i)) as [<-|].
    + rewrite lookup_insert_eq. eexists. split; [done|]. rewrite Fi. destruct (H5 p Hi) as (? & ? & ?). congruence.
    + rewrite lookup_insert_ne by done. auto.
  - intros e0. rewrite lookup_insert_eq. intros [= <-]. rewrite Hpos'. lia.
  - intros i e0 Hi. destruct (decide (p = i)) as [<-|].
    + rewrite lookup_insert_eq. intros [= <-]. unfold ppas_ok. rewrite Fb. split; [exact Hbok|].
      intros k Hk. pose proof (fill_slots_lookup m slba (baddr e + pos e) e k ltac:(lia) Hm ltac:(lia) ltac:(lia)) as Hl.
      cbn zeta in Hl. fold e' in Hl. apply (f_equal snd) in Hl. cbn [snd] in Hl. rewrite Hl.
      rewrite Hpos' in Hk.
      case_decide; cbn; [f_equal; lia|]. apply Hppa. lia.
    + rewrite lookup_insert_ne by done. by apply H7.
  - intros i e0 Hi. rewrite npend_app. destruct (decide (p = i)) as [<-|].
    + rewrite lookup_insert_eq. intros [= <-]. rewrite npend_slots_eq, length_seqZ, Ff, Hpos'.
      destruct (H8 p e Hi He). lia.
    + rewrite lookup_insert_ne by done. rewrite npend_slots_ne by congruence. rewrite Z.add_0_r. by apply H8.
  - intros i e0 Hi. rewrite lookup_insert_ne; [by apply H9|]. intros <-. apply Hnin. list_mem Hi.
  - intros i Hi. rewrite npend_app. specialize (H10 i Hi). pose proof (npend_nonneg i ((λ k, (p, k)) <$> seqZ (pos e) (Z.of_nat m))). lia.
  - intros x [Hx|Hx]%elem_of_app.
    + destruct (H11 x Hx) as [Hx1 Hx2]. split; [done|]. intros e0.
      destruct (decide (p = x.1)) as [Hpx|].
      * rewrite <-Hpx, lookup_insert_eq. intros [= <-]. rewrite Hpos'. rewrite <-Hpx in Hx2.
        specialize (Hx2 e He). lia.
      * rewrite lookup_insert_ne by done. apply Hx2.
    + apply list_elem_of_fmap in Hx as (k & -> & Hk%elem_of_seqZ). cbn. split; [by left|].
      intros e0. rewrite lookup_insert_eq. intros [= <-]. rewrite Hpos'. lia.
Qed.

(** ** Moving on to the next buffer *)

Lemma base_offset_range b k : base_ok b → 0 ≤ k < RAID_LUN_SEC_NUM → 0 ≤ b + k < 2 ^ 31.
Proof.
  intros (Hb & Hc & Hs & Hp & _) Hk. change RAID_LUN_SEC_NUM with 128 in Hk.
  rewrite (nand_fields_sum b Hb), Hc, Hs, Hp.
  pose proof (nand_lun_range b). pose proof (nand_pg_range b). pose proof (nand_blk_range b). lia.
Qed.

Lemma next_baddr_total b k y bl :
  base_ok b → 0 ≤ k < RAID_LUN_SEC_NUM → sys_inv y bl →
  ∃ b' y' bl', get_next_entity_baddr (b + k) y = Ok (b', y') ∧ base_ok b' ∧
    sys_inv y' bl' ∧ vpctbl y' = vpctbl y.
Proof.
  intros Hb Hk Hy. pose proof (base_offset_range b k Hb Hk) as Hr.
  destruct Hb as (Hb & Hc & Hs & Hp & Hbk).
  destruct (stripe_offset_fields b k Hb Hc Hs Hp Hk) as (_ & _ & _ & _ & _ & Hblk).
  pose proof (get_next_entity_baddr_spec (b + k) y Hr) as Hg. rewrite Hblk in Hg.
  specialize (Hg Hbk). case_decide.
  - destruct Hg as (b' & -> & Hb' & _). by exists b', y, bl.
  - destruct bl as [|blk bl].
    + destruct (Hg 0 y) as (b' & -> & Hb' & _); [by apply get_blk_from_free_list_nil|by split|].
      by exists b', y, [].
    + destruct (get_blk_from_free_list_cons y blk bl Hy) as (y' & Hrun & Hy' & Hv & _).
      destruct (Hg blk y' Hrun) as (b' & -> & Hb' & _).
      { destruct Hy as [[_ Hf] _ _]. by apply Forall_cons in Hf as [? _]. }
      by exists b', y', bl.
Qed.

Lemma npend_zero i pend : (∀ x, x ∈ pend → x.1 ≠ i) → npend i pend = 0.
Proof.
  induction pend as [|x pend IH]; intros Hn; [done|].
  rewrite npend_cons, IH by set_solver. rewrite decide_False by (apply Hn; by left). done.
Qed.

(** Buffers other than [q] keep everything but their links. *)
Definition kept_except (q : Z) (m m' : gmap Z wcb_lun_entity) : Prop :=
  ∀ j, j ≠ q → match m !! j, m' !! j with
               | Some e, Some e' => ∃ n p, e' = e_set_next n (e_set_prev p e)
               | None, None => True
               | _, _ => False
               end.

Lemma kept_except_Some q m m' j e :
  kept_except q m m' → j ≠ q → m !! j = Some e →
  ∃ n p, m' !! j = Some (e_set_next n (e_set_prev p e)).
Proof.
  intros Hk Hj He. specialize (Hk j Hj). rewrite He in Hk. destruct (m' !! j); [|done].
  destruct Hk as (n & p & ->). by exists n, p.
Qed.

Lemma kept_except_data q s s' x :
  kept_except q (ents s) (ents s') → x.1 ≠ q →
  (e ← ents s' !! x.1; dbuf e !! x.2) = e ← ents s !! x.1; dbuf e !! x.2.
Proof.
  intros Hk Hx. specialize (Hk _ Hx). destruct (ents s !! x.1), (ents s' !! x.1); try done.
  by destruct Hk as (? & ? & ->).
Qed.

Lemma next_perm (p q : Z) es fs gs os :
  p :: (q :: es) ++ fs ++ gs ++ os ≡ₚ q :: es ++ fs ++ (p :: gs) ++ os.
Proof. solve_Permutation. Qed.

(** What the caller of [get_next_lun_entity] gets. *)
Lemma get_next_lun_entity_spec s p q es fs gs os pend e :
  wcb_pre s p (q :: es) fs gs os pend → ents s !! p = Some e → pos e = RAID_LUN_SEC_NUM →
  ∃ m f b y eq bl, get_next_lun_entity (baddr e + (RAID_LUN_SEC_NUM - 1)) s =
      Ok (Some q, mk_ftl (mk_gctl (curppa (ctl s)) f (full_lun (ctl s)) (read_lun (ctl s))
            (ongoing_lun (ctl s)) (<[q := e_set_fill_cnt 0 (e_set_cqe_flag 0 (e_set_pos 0 (e_set_baddr b eq)))]> m)
            (Some q) (outstanding_lun (ctl s))) y (l2ptbl s)) ∧
    m !! q = Some eq ∧ fifo_rep m f es ∧ links_only (ents s) m ∧
    (∀ j, j ∉ q :: es → m !! j = ents s !! j) ∧
    base_ok b ∧ sys_inv y bl ∧ vpctbl y = vpctbl (sys s).
Proof.
  intros Hpre He Hpos. destruct (wi_act _ _ _ _ _ _ _ Hpre p e ltac:(by left) He) as [Hb _].
  destruct (wi_sys _ _ _ _ _ _ _ Hpre) as [bl Hy].
  destruct (next_baddr_total (baddr e) (RAID_LUN_SEC_NUM - 1) (sys s) bl Hb) as (b' & y' & bl' & Hg & Hb' & Hy' & Hv);
    [done|done|].
  unfold get_next_lun_entity. rewrite pull_lun_entity_link.
  destruct (link_pull_spec _ _ _ _ (wi_empty _ _ _ _ _ _ _ Hpre)) as (f & m & -> & Hr & Hlo & Hj).
  rewrite bind_Ok_l. cbn [sys set_ctl]. rewrite Hg, bind_Ok_l.
  destruct (pre_lookup Hpre q) as (eq0 & Heq & _); [by right; left|].
  destruct (links_only_Some _ _ _ _ Hlo Heq) as (n & pp & Hq).
  unfold get_entity. cbn. rewrite (aread_Some _ _ _ Hq). cbn.
  exists m, f, b', y'. do 2 eexists. split; [done|]. done.
Qed.

(** The entities that a change of links and of one entity leaves as they are. *)
Lemma next_back m m' q e2 i e' :
  links_only m m' → q ≠ i → <[q := e2]> m' !! i = Some e' →
  ∃ e1 n pp, m !! i = Some e1 ∧ e' = e_set_next n (e_set_prev pp e1).
Proof.
  intros Hlo Hi. rewrite lookup_insert_ne by done. by apply links_only_entity.
Qed.

Lemma links_insert (m : gmap Z wcb_lun_entity) q e e2 j :
  m !! q = Some e → enext e2 = enext e → eprev e2 = eprev e → links (<[q := e2]> m) j = links m j.
Proof.
  intros Hq Hn Hp. unfold links. destruct (decide (q = j)) as [<-|].
  - rewrite lookup_insert_eq, Hq. cbn. by rewrite Hn, Hp.
  - by rewrite lookup_insert_ne.
Qed.

Lemma pre_next s p q es fs gs os pend e :
  wcb_pre s p (q :: es) fs gs os pend → ents s !! p = Some e → pos e = RAID_LUN_SEC_NUM →
  0 < npend p pend →
  ∃ s' eq e2, get_next_lun_entity (baddr e + (RAID_LUN_SEC_NUM - 1)) s = Ok (Some q, s') ∧
    wcb_inv s' q es fs (p :: gs) os pend ∧ get_entity q s' = Ok e2 ∧ pos e2 = 0 ∧
    base_ok (baddr e2) ∧ ents s !! q = Some eq ∧ dbuf e2 = dbuf eq ∧
    l2ptbl s' = l2ptbl s ∧ vpctbl (sys s') = vpctbl (sys s) ∧ kept_except q (ents s) (ents s').
Proof.
  intros Hpre He Hpos Hnp.
  destruct (get_next_lun_entity_spec _ _ _ _ _ _ _ _ _ Hpre He Hpos)
    as (m & f & b & y & eq & bl & Hrun & Hq & Hr & Hlo & Hj & Hb & Hy & Hv).
  pose proof (pre_nodup Hpre) as Hnd. rewrite next_perm in Hnd.
  apply NoDup_cons in Hnd as [Hqn Hnd].
  destruct (links_only_entity _ _ _ _ Hlo Hq) as (eq0 & n0 & p0 & Heq0 & Heq).
  set (e2 := e_set_fill_cnt 0 (e_set_cqe_flag 0 (e_set_pos 0 (e_set_baddr b eq)))) in *.
  assert (∀ j, links (<[q := e2]> m) j = links m j) as Hlk by (intros j; by apply links_insert with eq).
  eexists _, eq0, e2. split; [exact Hrun|]. split; [|split_and!; try done].
  - destruct Hpre as [H1 H2 H3 H4 H5 H6 H7 H8 H9 H10 H11 H12]. split; [constructor|]; cbn; try done.
    + by apply fifo_rep_frame with m.
    + apply fifo_rep_frame with (ents s); [|done]. intros j Hjf. rewrite Hlk. unfold links.
      rewrite Hj; [done|]. intros Hjq. apply NoDup_app in Hnd as (Hnd1 & Hnd2 & _).
      apply elem_of_cons in Hjq as [->|Hjq].
      { apply Hqn. list_mem Hjf. }
      apply (Hnd2 j Hjq). list_mem Hjf.
    + etransitivity; [symmetry; exact (next_perm p q es fs gs os)|done].
    + intros i Hi. destruct (decide (q = i)) as [<-|].
      * rewrite lookup_insert_eq. eexists. split; [done|]. destruct (H5 q Hi) as (e0 & He0 & Hi0).
        cbn. rewrite Heq. cbn. congruence.
      * rewrite lookup_insert_ne by done. destruct (H5 i Hi) as (e0 & He0 & Hi0).
        destruct (links_only_Some _ _ _ _ Hlo He0) as (? & ? & ->). by eexists.
    + intros e0. rewrite lookup_insert_eq. intros [= <-]. done.
    + intros i e0 Hi. destruct (decide (q = i)) as [<-|].
      * rewrite lookup_insert_eq. intros [= <-]. split; [done|]. intros k Hk. cbn in Hk. lia.
      * intros Hie. destruct (next_back _ _ _ _ _ _ Hlo ltac:(done) Hie) as (e1 & ? & ? & He1 & ->).
        apply elem_of_cons in Hi as [->|Hi]; [done|]. exact (H7 i e1 Hi He1).
    + intros i e0 Hi. destruct (decide (q = i)) as [<-|].
      * rewrite lookup_insert_eq. intros [= <-]. cbn. rewrite npend_zero; [lia|].
        intros x Hx. destruct (H11 x Hx) as [Hx1 _]. intros Hxq. rewrite Hxq in Hx1. apply Hqn. list_mem Hx1.
      * intros Hie. destruct (next_back _ _ _ _ _ _ Hlo ltac:(done) Hie) as (e1 & ? & ? & He1 & ->).
        apply elem_of_cons in Hi as [->|Hi]; [done|]. exact (H8 i e1 Hi He1).
    + intros i e0 Hi. assert (q ≠ i) as Hqi by (intros <-; apply Hqn; list_mem Hi).
      intros Hie. destruct (next_back _ _ _ _ _ _ Hlo ltac:(done) Hie) as (e1 & ? & ? & He1 & ->). cbn.
      apply elem_of_cons in Hi as [->|Hi]; [congruence|]. by apply (H9 i).
    + intros i [->|Hi]%elem_of_cons; [done|auto].
    + intros x Hx. destruct (H11 x Hx) as [Hx1 Hx2]. split; [by right|]. intros e0.
      assert (q ≠ x.1) as Hqx by (intros ->; apply Hqn; list_mem Hx1).
      intros Hie. destruct (next_back _ _ _ _ _ _ Hlo ltac:(done) Hie) as (e1 & ? & ? & He1 & ->).
      cbn. by apply Hx2.
    + by exists bl.
    + intros e0. rewrite lookup_insert_eq. intros [= <-]. done.
  - unfold get_entity. cbn. apply aread_Some, lookup_insert_eq.
  - unfold e2. cbn. by rewrite Heq.
  - intros j Hjq. cbn. rewrite lookup_insert_ne by done. apply Hlo.
Qed.

(** ** Reserving the slots of a bio *)

(** Slot [x] is reserved for logical page [l]. *)
Definition slot_at (s : ftl) (x : Z * Z) (l : Z) : Prop :=
  ∃ e, ents s !! x.1 = Some e ∧ lba e !! x.2 = Some l ∧ ppa e !! x.2 = Some (baddr e + x.2) ∧
    base_ok (baddr e) ∧ 0 ≤ x.2 < RAID_LUN_SEC_NUM.

(** The data in the cache. *)
Definition slot_data (s : ftl) (x : Z * Z) : option page :=
  e ← ents s !! x.1; dbuf e !! x.2.

Lemma fill_slots_slot_at s p e slba (m : nat) k :
  base_ok (baddr e) → 0 ≤ pos e → pos e + Z.of_nat m ≤ RAID_LUN_SEC_NUM →
  pos e ≤ k < pos e + Z.of_nat m →
  slot_at (put_entity p (fill_slots m slba (baddr e + pos e) e) s) (p, k) (u32 (slba + (k - pos e))).
Proof.
  intros Hb Hp Hm Hk. pose proof (base_offset_range (baddr e) (RAID_LUN_SEC_NUM - 1) Hb ltac:(done)) as Hr.
  change RAID_LUN_SEC_NUM with 128 in *. pose proof (proj1 Hb) as Hb0.
  destruct (fill_slots_frame m slba (baddr e + pos e) e) as (_ & Fb & _).
  pose proof (fill_slots_lookup m slba (baddr e + pos e) e k ltac:(lia) Hm ltac:(lia) ltac:(lia)) as Hl.
  cbn zeta in Hl. rewrite decide_True in Hl by lia. injection Hl as Hl1 Hl2.
  eexists. cbn. split; [apply lookup_insert_eq|]. rewrite Hl1, Hl2, Fb.
  split; [done|]. split; [f_equal; lia|]. split; [done|]. change RAID_LUN_SEC_NUM with 128. lia.
Qed.

(** A slot below the fill position is not touched by further filling. *)
Lemma fill_slots_keeps s p e slba (m : nat) x l :
  base_ok (baddr e) → ents s !! p = Some e → 0 ≤ pos e → pos e + Z.of_nat m ≤ RAID_LUN_SEC_NUM →
  (x.1 = p → 0 ≤ x.2 < pos e) → slot_at s x l →
  slot_at (put_entity p (fill_slots m slba (baddr e + pos e) e) s) x l.
Proof.
  intros Hb He Hp Hm Hx (e0 & He0 & Hl0 & Hq0 & Hb0 & Hr0). pose proof (proj1 Hb) as Hb1.
  destruct (decide (p = x.1)) as [Hpx|].
  - rewrite <-Hpx in He0. assert (e0 = e) as -> by congruence. specialize (Hx (eq_sym Hpx)).
    destruct (fill_slots_frame m slba (baddr e + pos e) e) as (_ & Fb & _).
    change RAID_LUN_SEC_NUM with 128 in *.
    pose proof (fill_slots_lookup m slba (baddr e + pos e) e x.2 ltac:(lia) Hm ltac:(lia) ltac:(lia)) as Hl.
    cbn zeta in Hl. rewrite decide_False in Hl by lia. injection Hl as Hl1 Hl2.
    eexists. cbn. rewrite <-Hpx. split; [apply lookup_insert_eq|]. rewrite Hl1, Hl2, Fb. done.
  - exists e0. cbn. rewrite lookup_insert_ne by done. done.
Qed.

Lemma kept_slot_at q s s' x l :
  kept_except q (ents s) (ents s') → x.1 ≠ q → slot_at s x l → slot_at s' x l.
Proof.
  intros Hk Hne (e & He & Hr). destruct (kept_except_Some _ _ _ _ _ Hk Hne He) as (n & p & He').
  eexists. split; [exact He'|]. exact Hr.
Qed.

Lemma put_fill_data s p e slba (m : nat) cur x :
  ents s !! p = Some e → slot_data (put_entity p (fill_slots m slba cur e) s) x = slot_data s x.
Proof.
  intros He. unfold slot_data. cbn. destruct (decide (p = x.1)) as [<-|].
  - rewrite lookup_insert_eq, He. cbn.
    destruct (fill_slots_frame m slba cur e) as (_ & _ & -> & _). done.
  - by rewrite lookup_insert_ne.
Qed.

(** ** The slots of the contexts [alloc_wcb_core] builds *)

Lemma wcb_slots_one p a b :
  wcb_slots {[0 := mk_wcb_ctx (Some p) a b]} = (λ k, (p, k)) <$> seqZ a (b - a + 1).
Proof.
  unfold wcb_slots. change (seqZ 0 MAX_USED_WCB_ENTITYS) with [0; 1; 2]. cbn [wcb_slots_from].
  unfold wctx_get. rewrite lookup_singleton_eq, lookup_singleton_ne by lia. cbn.
  apply app_nil_r.
Qed.

Lemma wcb_slots_two p a b q c d :
  wcb_slots (<[1 := mk_wcb_ctx (Some q) c d]> {[0 := mk_wcb_ctx (Some p) a b]}) =
    ((λ k, (p, k)) <$> seqZ a (b - a + 1)) ++ ((λ k, (q, k)) <$> seqZ c (d - c + 1)).
Proof.
  unfold wcb_slots. change (seqZ 0 MAX_USED_WCB_ENTITYS) with [0; 1; 2]. cbn [wcb_slots_from].
  unfold wctx_get. rewrite lookup_insert_eq, (lookup_insert_ne _ 1 2), (lookup_insert_ne _ 1 0) by lia.
  rewrite lookup_singleton_eq, lookup_singleton_ne by lia. cbn. by rewrite app_nil_r.
Qed.

(** What a reservation of [n] slots from logical page [slba] on gives; [es] are the
    buffers that were empty. *)
Record reserved (es : list Z) (s s' : ftl) (slba : Z) (n : nat) (pend new : list (Z * Z)) : Prop := {
  rs_len : length new = n;
  rs_slot : ∀ k x, new !! k = Some x → slot_at s' x (u32 (slba + Z.of_nat k));
  rs_nodup : NoDup new;
  rs_keep : ∀ x l, x ∈ pend → slot_at s x l → slot_at s' x l;
  rs_data : ∀ x, slot_data s' x = slot_data s x;
  rs_l2p : l2ptbl s' = l2ptbl s;
  rs_vpc : vpctbl (sys s') = vpctbl (sys s);
  rs_flag : ∀ i e', i ∉ es → ents s' !! i = Some e' →
      ∃ e, ents s !! i = Some e ∧ cqe_flag e' = cqe_flag e;
}.

(** Consecutive slots of one buffer hold consecutive logical pages. *)
Lemma fill_reserved s p es fs gs os pend e slba (n : nat) :
  wcb_pre s p es fs gs os pend → ents s !! p = Some e → pos e + Z.of_nat n ≤ RAID_LUN_SEC_NUM →
  reserved es s (put_entity p (fill_slots n slba (baddr e + pos e) e) s) slba n pend
    ((λ k, (p, k)) <$> seqZ (pos e) (Z.of_nat n)).
Proof.
  intros Hpre He Hn. pose proof (wi_part _ _ _ _ _ _ _ Hpre e He) as Hp.
  destruct (wi_act _ _ _ _ _ _ _ Hpre p e ltac:(by left) He) as [Hb _].
  constructor; try done.
  - rewrite length_fmap, length_seqZ. lia.
  - intros k x Hk. rewrite list_lookup_fmap in Hk.
    destruct (seqZ (pos e) (Z.of_nat n) !! k) as [y|] eqn:Hy; [|done]. injection Hk as <-.
    apply lookup_seqZ in Hy as [-> Hy].
    replace (slba + Z.of_nat k) with (slba + (pos e + Z.of_nat k - pos e)) by lia.
    apply fill_slots_slot_at; [done|lia|done|lia].
  - apply NoDup_fmap_2; [|apply NoDup_seqZ]. intros a b. by intros [= ->].
  - intros x l Hx Hsl. apply fill_slots_keeps; try done; [lia|]. intros Hxp.
    destruct (wi_pend _ _ _ _ _ _ _ Hpre x Hx) as [_ Hx2]. apply Hx2. by rewrite Hxp.
  - intros x. by apply put_fill_data.
  - intros i e' _. cbn. destruct (decide (p = i)) as [<-|].
    + rewrite lookup_insert_eq. intros [= <-]. exists e. split; [done|].
      by destruct (fill_slots_frame n slba (baddr e + pos e) e) as (_ & _ & _ & _ & -> & _).
    + rewrite lookup_insert_ne by done. intros. by exists e'.
Qed.

(** The request is served by the partial buffer alone. *)
Lemma alloc_within_spec s p es fs gs os pend e slba (n : nat) :
  wcb_inv s p es fs gs os pend → ents s !! p = Some e → (0 < n)%nat →
  pos e + Z.of_nat n < RAID_LUN_SEC_NUM →
  ∃ w s', alloc_wcb_core slba (Z.of_nat n) ∅ s = Ok (0, w, s') ∧
    wcb_inv s' p es fs gs os (pend ++ wcb_slots w) ∧
    reserved es s s' slba n pend (wcb_slots w) ∧
    (∃ e', ents s' !! p = Some e' ∧ pos e' = pos e + Z.of_nat n).
Proof.
  intros [Hpre Hlt] He Hn Hpn. pose proof (wi_part _ _ _ _ _ _ _ Hpre e He) as Hp.
  destruct (wi_act _ _ _ _ _ _ _ Hpre p e ltac:(by left) He) as [Hb _].
  rewrite (alloc_core_within slba n s p e); try done;
    [|by apply (wi_partial _ _ _ _ _ _ _ Hpre)|by apply aread_Some|lia].
  do 2 eexists. split; [done|]. rewrite wcb_slots_one.
  replace (pos e + Z.of_nat n - 1 - pos e + 1) with (Z.of_nat n) by lia. split; [split|].
  - apply pre_fill; [done..|lia].
  - intros e0. cbn. rewrite lookup_insert_eq. intros [= <-]. by rewrite fill_slots_pos by lia.
  - split; [apply fill_reserved with fs gs os; [done..|lia]|].
    eexists. split; [cbn; apply lookup_insert_eq|]. by rewrite fill_slots_pos by lia.
Qed.

Lemma reserved_app es s s1 s2 s3 slba n1 n2 pend new1 new2 q :
  reserved es s s1 slba n1 pend new1 → q ∈ es →
  (∀ x, x ∈ pend ++ new1 → x.1 ≠ q) → kept_except q (ents s1) (ents s2) →
  (∀ x, slot_data s2 x = slot_data s1 x) → l2ptbl s2 = l2ptbl s1 → vpctbl (sys s2) = vpctbl (sys s1) →
  reserved es s2 s3 (slba + Z.of_nat n1) n2 (pend ++ new1) new2 → (∀ x, x ∈ new2 → x.1 = q) →
  reserved es s s3 slba (n1 + n2) pend (new1 ++ new2).
Proof.
  intros [A1 A2 A3 A4 A5 A6 A7 A8] Hqe Hq Hk Hd Hl Hv [B1 B2 B3 B4 B5 B6 B7 B8] Hnq. constructor.
  - rewrite length_app. lia.
  - intros k x Hx. apply lookup_app_Some in Hx as [Hx|[Hge Hx]].
    + apply B4; [apply elem_of_app; right; by eapply list_elem_of_lookup_2|].
      apply (kept_slot_at q s1); [done| |by apply A2].
      apply Hq, elem_of_app. right. by eapply list_elem_of_lookup_2.
    + replace (slba + Z.of_nat k) with (slba + Z.of_nat n1 + Z.of_nat (k - length new1)) by lia.
      by apply B2.
  - apply NoDup_app. split; [done|]. split; [|done]. intros x Hx1 Hx2.
    apply (Hq x); [apply elem_of_app; by right|]. by apply Hnq.
  - intros x l Hx Hsl. apply B4; [apply elem_of_app; by left|].
    apply (kept_slot_at q s1); [done| |by apply A4]. apply Hq, elem_of_app. by left.
  - intros x. by rewrite B5, Hd, A5.
  - congruence.
  - congruence.
  - intros i e3 Hi He3. destruct (B8 i e3 Hi He3) as (e2 & He2 & ->).
    specialize (Hk i ltac:(intros ->; done)). rewrite He2 in Hk.
    destruct (ents s1 !! i) as [e1|] eqn:He1; [|done]. destruct Hk as (? & ? & ->). cbn. by apply A8.
Qed.

Lemma reserved_nil es s slba pend : reserved es s s slba 0 pend [].
Proof. constructor; try done; [constructor|]. intros i e' _ He. by exists e'. Qed.

Lemma reserved_weaken es es' s s' slba n pend new :
  (∀ i, i ∈ es → i ∈ es') → reserved es s s' slba n pend new → reserved es' s s' slba n pend new.
Proof. intros Hs []. constructor; try done. intros i e' Hi. apply rs_flag0. auto. Qed.

(** The request uses up the partial buffer, and what it reserves then belongs to the next
    one: any reservation there extends the first. *)
Lemma cross_next s p q es fs gs os pend e slba (m : nat) :
  wcb_pre s p (q :: es) fs gs os pend → ents s !! p = Some e → (0 < m)%nat →
  pos e + Z.of_nat m = RAID_LUN_SEC_NUM →
  let new1 := (λ k, (p, k)) <$> seqZ (pos e) (Z.of_nat m) in
  ∃ s2 e2,
    get_next_lun_entity (baddr e + (RAID_LUN_SEC_NUM - 1))
      (put_entity p (fill_slots m slba (baddr e + pos e) e) s) = Ok (Some q, s2) ∧
    wcb_inv s2 q es fs (p :: gs) os (pend ++ new1) ∧ ents s2 !! q = Some e2 ∧ pos e2 = 0 ∧
    base_ok (baddr e2) ∧
    ∀ s3 n2 new2, reserved (q :: es) s2 s3 (slba + Z.of_nat m) n2 (pend ++ new1) new2 →
      (∀ x, x ∈ new2 → x.1 = q) → reserved (q :: es) s s3 slba (m + n2) pend (new1 ++ new2).
Proof.
  intros Hpre He Hm Hpm new1. pose proof (wi_part _ _ _ _ _ _ _ Hpre e He) as Hp.
  pose proof (pre_fill s p _ fs gs os pend e slba m Hpre He ltac:(lia)) as Hpre1.
  pose proof (fill_reserved s p _ fs gs os pend e slba m Hpre He ltac:(lia)) as Hres1.
  destruct (fill_slots_frame m slba (baddr e + pos e) e) as (_ & Fb & _).
  set (e1 := fill_slots m slba (baddr e + pos e) e) in *. set (s1 := put_entity p e1 s) in *.
  fold new1 in Hpre1, Hres1.
  assert (pos e1 = RAID_LUN_SEC_NUM) as Hpos1 by (unfold e1; rewrite fill_slots_pos; lia).
  assert (ents s1 !! p = Some e1) as He1 by apply lookup_insert_eq.
  destruct (pre_next s1 p q es fs gs os (pend ++ new1) e1 Hpre1 He1 Hpos1)
    as (s2 & eq & e2 & Hnext & Hinv2 & He2 & Hp2 & Hb2 & Heq & Hdq & Hl2 & Hv2 & Hk).
  { rewrite npend_app. unfold new1. rewrite npend_slots_eq, length_seqZ.
    pose proof (npend_nonneg p pend). lia. }
  rewrite Fb in Hnext. apply aread_Ok in He2. exists s2, e2. split_and!; try done.
  intros s3 n2 new2 Hres2 Hn2.
  apply (reserved_app (q :: es) s s1 s2 s3 slba m n2 pend new1 new2 q); try done; [by left| |].
  - intros x Hx. pose proof (pre_nodup Hpre1) as Hnd. rewrite next_perm in Hnd.
    apply NoDup_cons in Hnd as [Hqn _]. destruct (wi_pend _ _ _ _ _ _ _ Hpre1 x Hx) as [Hx1 _].
    intros Hxq. rewrite Hxq in Hx1. apply Hqn. list_mem Hx1.
  - intros x. unfold slot_data. destruct (decide (x.1 = q)) as [->|Hne].
    + rewrite He2, Heq. cbn. by rewrite Hdq.
    + by apply kept_except_data with q.
Qed.

(** The request uses up the partial buffer and goes on in the next one. *)
Lemma alloc_cross_spec s p q es fs gs os pend e slba (n : nat) :
  wcb_inv s p (q :: es) fs gs os pend → ents s !! p = Some e → (n ≤ 128)%nat →
  RAID_LUN_SEC_NUM ≤ pos e + Z.of_nat n →
  ∃ w s', alloc_wcb_core slba (Z.of_nat n) ∅ s = Ok (0, w, s') ∧
    wcb_inv s' q es fs (p :: gs) os (pend ++ wcb_slots w) ∧
    reserved (q :: es) s s' slba n pend (wcb_slots w) ∧
    (∃ e', ents s' !! q = Some e' ∧ pos e' = pos e + Z.of_nat n - RAID_LUN_SEC_NUM).
Proof.
  intros [Hpre Hlt] He Hn Hpn. pose proof (wi_part _ _ _ _ _ _ _ Hpre e He) as Hp.
  specialize (Hlt e He). destruct (wi_act _ _ _ _ _ _ _ Hpre p e ltac:(by left) He) as [Hb _].
  set (m := Z.to_nat (RAID_LUN_SEC_NUM - pos e)).
  assert (Z.of_nat m = RAID_LUN_SEC_NUM - pos e) as Hm by lia.
  destruct (cross_next s p q es fs gs os pend e slba m Hpre He ltac:(lia) ltac:(lia))
    as (s2 & e2 & Hnext & Hinv2 & He2 & Hp2 & Hb2 & Hext).
  set (new1 := (λ k, (p, k)) <$> seqZ (pos e) (Z.of_nat m)) in *.
  rewrite (alloc_core_cross slba n s p e q s2 e2);
    [|by apply (wi_partial _ _ _ _ _ _ _ Hpre)|by apply aread_Some|done|lia|done|done|done
     |by apply aread_Some|done..].
  fold m. destruct (decide (n - m = 0)%nat) as [Hz|Hz].
  - do 2 eexists. split; [done|]. rewrite wcb_slots_one.
    replace (RAID_LUN_SEC_NUM - 1 - pos e + 1) with (Z.of_nat m) by lia. fold new1. split; [done|].
    pose proof (Hext s2 0%nat [] (reserved_nil _ s2 _ _) ltac:(clear; set_solver)) as Hr.
    rewrite app_nil_r in Hr. split; [by replace n with (m + 0)%nat by lia|]. exists e2. split; [done|]. lia.
  - destruct Hinv2 as [Hpre2 _]. assert (Z.of_nat (n - m) < RAID_LUN_SEC_NUM) as Hr.
    { change RAID_LUN_SEC_NUM with 128 in *. lia. }
    pose proof (fill_reserved s2 q es fs (p :: gs) os (pend ++ new1) e2 (slba + Z.of_nat m) (n - m)
                  Hpre2 He2 ltac:(lia)) as Hres2.
    pose proof (pre_fill s2 q es fs (p :: gs) os (pend ++ new1) e2 (slba + Z.of_nat m) (n - m)
                  Hpre2 He2 ltac:(lia)) as Hpre3.
    rewrite Hp2, Z.add_0_r in Hres2, Hpre3.
    do 2 eexists. split; [done|]. rewrite wcb_slots_two.
    replace (RAID_LUN_SEC_NUM - 1 - pos e + 1) with (Z.of_nat m) by lia. fold new1.
    replace (Z.of_nat (n - m) - 1 - 0 + 1) with (Z.of_nat (n - m)) by lia.
    split; [split|split].
    + by rewrite app_assoc.
    + intros e0. cbn. rewrite lookup_insert_eq. intros [= <-]. rewrite fill_slots_pos by lia. lia.
    + eapply (reserved_weaken _ (q :: es)) in Hres2; [|by right]. apply Hext in Hres2.
      * by replace (m + (n - m))%nat with n in Hres2 by lia.
      * intros x Hx. by apply list_elem_of_fmap in Hx as (k & -> & _).
    + eexists. split; [cbn; apply lookup_insert_eq|]. rewrite fill_slots_pos by lia. lia.
Qed.

(** ** [reserve_wcb] *)

(** The test that guards the reservation. *)
Definition has_room (n : Z) (pos_p : Z) (es : list Z) : Prop :=
  n + (n / 4 + 2) < RAID_LUN_SEC_NUM - pos_p ∨ es ≠ [].

#[global] Instance has_room_dec n q es : Decision (has_room n q es) := _.

Lemma wcb_available_spec s p es fs gs os pend e n :
  wcb_inv s p es fs gs os pend → ents s !! p = Some e → 0 ≤ n < 2 ^ 17 →
  wcb_available n s = Ok (bool_decide (has_room n (pos e) es)).
Proof.
  intros [Hpre Hlt] He Hn. pose proof (wi_part _ _ _ _ _ _ _ Hpre e He) as Hp.
  specialize (Hlt e He). unfold wcb_available.
  rewrite (wi_partial _ _ _ _ _ _ _ Hpre). cbn [deref]. rewrite bind_Ok_l.
  unfold get_entity. rewrite (aread_Some _ _ _ He), bind_Ok_l.
  assert (0 ≤ n / 4 < 2 ^ 15) by (split; [apply Z.div_pos; lia|apply Z.div_lt_upper_bound; lia]).
  rewrite Z.shiftr_div_pow2 by lia. change (2 ^ 2) with 4.
  rewrite (u16_small (n / 4 + 2)) by lia.
  rewrite (u16_small (RAID_LUN_SEC_NUM - pos e)) by (change RAID_LUN_SEC_NUM with 128 in *; lia).
  rewrite (rep_size _ _ _ (wi_empty _ _ _ _ _ _ _ Hpre)).
  unfold has_room. case_decide as Hd.
  - rewrite bool_decide_eq_false_2; [done|]. destruct Hd as [Hd1 Hd2].
    assert (es = []) as -> by (destruct es; [done|cbn in Hd2; lia]). intros [?|?]; [lia|done].
  - rewrite bool_decide_eq_true_2; [done|].
    destruct (decide (es = [])) as [->|]; [|by right]. left.
    destruct (decide (RAID_LUN_SEC_NUM - pos e ≤ n + (n / 4 + 2))); [|lia].
    exfalso. by apply Hd.
Qed.

Lemma reserve_wcb_spec s p es fs gs os pend e slba (n : nat) :
  wcb_inv s p es fs gs os pend → ents s !! p = Some e → (0 < n ≤ 128)%nat →
  if decide (has_room (Z.of_nat n) (pos e) es) then
    ∃ w s' p' es' gs', reserve_wcb slba (Z.of_nat n) s = Ok (Some w, s') ∧
      wcb_inv s' p' es' fs gs' os (pend ++ wcb_slots w) ∧
      reserved es s s' slba n pend (wcb_slots w)
  else reserve_wcb slba (Z.of_nat n) s = Ok (None, s).
Proof.
  intros Hinv He Hn. unfold reserve_wcb. rewrite (wcb_available_spec _ _ _ _ _ _ _ _ _ Hinv He) by lia.
  rewrite bind_Ok_l. case_decide as Hroom.
  - rewrite bool_decide_eq_true_2 by done.
    destruct (decide (pos e + Z.of_nat n < RAID_LUN_SEC_NUM)) as [Hw|Hw].
    + destruct (alloc_within_spec _ _ _ _ _ _ _ _ slba n Hinv He) as (w & s' & -> & Hi & Hr & _); [lia|done|].
      rewrite bind_Ok_l. by exists w, s', p, es, gs.
    + destruct es as [|q es].
      { exfalso. destruct Hroom as [Hroom|]; [|done].
        assert (0 ≤ Z.of_nat n / 4) by (apply Z.div_pos; lia). lia. }
      destruct (alloc_cross_spec _ _ _ _ _ _ _ _ _ slba n Hinv He) as (w & s' & -> & Hi & Hr & _); [lia|lia|].
      rewrite bind_Ok_l. by exists w, s', q, es, (p :: gs).
  - rewrite bool_decide_eq_false_2 by done. unfold print_lun_entitys_fifo.
    rewrite (wi_partial _ _ _ _ _ _ _ (proj1 Hinv)). cbn [deref]. rewrite bind_Ok_l.
    unfold get_entity. by rewrite (aread_Some _ _ _ He).
Qed.

(** ** Copying one slot *)

(** The addressing of the slots is the same in both states. *)
Definition same_slots (s s' : ftl) : Prop :=
  ∀ i, (λ e, (lba e, ppa e, baddr e)) <$> ents s' !! i = (λ e, (lba e, ppa e, baddr e)) <$> ents s !! i.

Lemma same_slots_at s s' x l : same_slots s s' → slot_at s x l → slot_at s' x l.
Proof.
  intros Hs (e & He & Hl & Hq & Hb & Hr). specialize (Hs x.1). rewrite He in Hs.
  destruct (ents s' !! x.1) as [e'|] eqn:He'; [|done]. injection Hs as H1 H2 H3.
  exists e'. rewrite H1, H2, H3. done.
Qed.

Lemma same_slots_trans s1 s2 s3 : same_slots s1 s2 → same_slots s2 s3 → same_slots s1 s3.
Proof. intros H12 H23 i. by rewrite H23, H12. Qed.

(** So are the completion masks. *)
Definition same_flags (s s' : ftl) : Prop :=
  ∀ i, cqe_flag <$> ents s' !! i = cqe_flag <$> ents s !! i.

Lemma same_flags_links s s' en e e' :
  ents s !! en = Some e → cqe_flag e' = cqe_flag e →
  links_only (<[en := e']> (ents s)) (ents s') → same_flags s s'.
Proof.
  intros He Hc Hlo i. specialize (Hlo i). destruct (decide (en = i)) as [<-|].
  - rewrite lookup_insert_eq in Hlo. rewrite He. destruct (ents s' !! en); [|done].
    destruct Hlo as (n & q & ->). cbn. by rewrite Hc.
  - rewrite lookup_insert_ne in Hlo by done.
    destruct (ents s !! i), (ents s' !! i); try done. by destruct Hlo as (n' & q & ->).
Qed.

(** An update of one buffer that keeps its index, position, addresses and links. *)
Definition data_update (e e' : wcb_lun_entity) : Prop :=
  index e' = index e ∧ pos e' = pos e ∧ baddr e' = baddr e ∧ ppa e' = ppa e ∧ lba e' = lba e ∧
  enext e' = enext e ∧ eprev e' = eprev e.

Lemma links_data_update (m : gmap Z wcb_lun_entity) i e e' j :
  m !! i = Some e → data_update e e' → links (<[i := e']> m) j = links m j.
Proof.
  intros He (_ & _ & _ & _ & _ & Hn & Hp). unfold links. destruct (decide (i = j)) as [<-|].
  - rewrite lookup_insert_eq, He. cbn. by rewrite Hn, Hp.
  - by rewrite lookup_insert_ne.
Qed.

(** Counting one more copied slot, when the buffer is not complete by it. *)
Lemma pre_count s p es fs gs os pend pend' en k e e' :
  wcb_pre s p es fs gs os pend → pend ≡ₚ (en, k) :: pend' → ents s !! en = Some e →
  data_update e e' → fill_cnt e' = fill_cnt e + 1 → (en ∈ gs → 0 < npend en pend') →
  wcb_pre (put_entity en e' s) p es fs gs os pend'.
Proof.
  intros Hpre Hperm He Hu Hfc Hgs. pose proof Hu as (Fi & Fp & Fb & Fq & Fl & _).
  destruct Hpre as [H1 H2 H3 H4 H5 H6 H7 H8 H9 H10 H11 H12]. constructor; cbn; try done.
  - apply fifo_rep_frame with (ents s); [|done]. intros. by apply links_data_update with e.
  - apply fifo_rep_frame with (ents s); [|done]. intros. by apply links_data_update with e.
  - intros i Hi. destruct (decide (en = i)) as [<-|].
    + rewrite lookup_insert_eq. eexists. split; [done|]. rewrite Fi. destruct (H5 en Hi) as (? & ? & ?). congruence.
    + rewrite lookup_insert_ne by done. auto.
  - intros e0. destruct (decide (en = p)) as [->|].
    + rewrite lookup_insert_eq. intros [= <-]. rewrite Fp. by apply H6.
    + rewrite lookup_insert_ne by done. auto.
  - intros i e0 Hi. destruct (decide (en = i)) as [<-|].
    + rewrite lookup_insert_eq. intros [= <-]. unfold ppas_ok. rewrite Fb, Fp, Fq. by apply (H7 en).
    + rewrite lookup_insert_ne by done. by apply H7.
  - intros i e0 Hi. destruct (decide (en = i)) as [<-|].
    + rewrite lookup_insert_eq. intros [= <-]. rewrite Fp, Hfc.
      destruct (H8 en e Hi He) as [Hn Hs]. rewrite (npend_perm _ _ _ Hperm), npend_cons, decide_True in Hs by done. lia.
    + rewrite lookup_insert_ne by done. intros Hie. specialize (H8 i e0 Hi Hie).
      rewrite (npend_perm _ _ _ Hperm), npend_cons, decide_False in H8 by done. done.
  - intros i e0 Hi. destruct (decide (en = i)) as [<-|].
    + rewrite lookup_insert_eq. intros [= <-]. rewrite Fp. by apply (H9 en).
    + rewrite lookup_insert_ne by done. by apply H9.
  - intros i Hi. destruct (decide (en = i)) as [<-|]; [auto|]. specialize (H10 i Hi).
    rewrite (npend_perm _ _ _ Hperm), npend_cons, decide_False in H10 by done. done.
  - intros x Hx. destruct (H11 x) as [Hx1 Hx2]; [rewrite Hperm; by right|]. split; [done|].
    intros e0. destruct (decide (en = x.1)) as [Hex|].
    + rewrite <-Hex, lookup_insert_eq. intros [= <-]. rewrite Fp. apply Hx2. by rewrite <-Hex.
    + rewrite lookup_insert_ne by done. apply Hx2.
Qed.

Lemma npend_pos x pend : x ∈ pend → 0 < npend x.1 pend.
Proof.
  induction 1 as [x l|x y l Hx IH]; rewrite npend_cons.
  - rewrite decide_True by done. pose proof (npend_nonneg x.1 l). lia.
  - case_decide; lia.
Qed.

(** After a data update and a change of links, an entity keeps all the invariant speaks of. *)
Lemma links_only_data_update (m m' : gmap Z wcb_lun_entity) en e e' i e0 :
  m !! en = Some e → data_update e e' → links_only (<[en := e']> m) m' → m' !! i = Some e0 →
  ∃ e1, m !! i = Some e1 ∧ index e0 = index e1 ∧ pos e0 = pos e1 ∧ baddr e0 = baddr e1 ∧
    ppa e0 = ppa e1 ∧ (i ≠ en → fill_cnt e0 = fill_cnt e1).
Proof.
  intros He (Fi & Fp & Fb & Fq & _) Hlo Hi.
  destruct (links_only_entity _ _ _ _ Hlo Hi) as (e1 & ? & ? & He1 & ->).
  destruct (decide (en = i)) as [<-|Hne].
  - rewrite lookup_insert_eq in He1. injection He1 as <-. exists e. cbn. split_and!; done.
  - rewrite lookup_insert_ne in He1 by done. by exists e1.
Qed.

(** The copy that completes a buffer: it leaves the filling buffers and joins the
    full FIFO. *)
Lemma pre_push_full s p es fs gs gs' os pend pend' en k e e' :
  wcb_pre s p es fs gs os pend → pend ≡ₚ (en, k) :: pend' → gs ≡ₚ en :: gs' →
  ents s !! en = Some e → data_update e e' → npend en pend' = 0 →
  ∃ f m, push_lun_entity_to_fifo (full_lun (ctl s)) en (<[en := e']> (ents s)) = Ok (f, m) ∧
    wcb_pre (set_ctl (c_set_entitys m (c_set_full f (ctl (put_entity en e' s)))) (put_entity en e' s))
      p es (fs ++ [en]) gs' os pend' ∧
    links_only (<[en := e']> (ents s)) m.
Proof.
  intros Hpre Hperm Hgs He Hu Hnp. pose proof Hu as (Fi & _).
  pose proof (pre_nodup Hpre) as Hnd. rewrite Hgs in Hnd.
  assert (0 ≤ en < CB_ENTITYS_CNT) as Hr.
  { apply (pre_range Hpre). rewrite Hgs. clear. set_solver. }
  assert (index e' = en) as Hidx by (rewrite Fi; by apply (pre_index Hpre)).
  assert (en ≠ p ∧ en ∉ es ∧ en ∉ fs ∧ en ∉ gs' ∧ en ∉ os) as (Np & Ne & Nf & Ng & No).
  { clear -Hnd. rewrite NoDup_cons, !NoDup_app, NoDup_cons in Hnd. set_solver. }
  rewrite push_lun_entity_link.
  2:{ intros e0. rewrite lookup_insert_eq. by intros [= <-]. }
  destruct Hpre as [H1 H2 H3 H4 H5 H6 H7 H8 H9 H10 H11 H12].
  assert (fifo_rep (<[en := e']> (ents s)) (full_lun (ctl s)) fs) as Hff.
  { apply fifo_rep_frame with (ents s); [|done]. intros. by apply links_data_update with e. }
  destruct (link_push_spec _ _ _ en Hff) as (f & m & -> & Hrep & Hlo & Hj); [done| | |].
  { unfold NIL. change CB_ENTITYS_CNT with 16 in Hr. lia. }
  { rewrite lookup_insert_eq. by eexists. }
  exists f, m. split; [done|]. split; [|done].
  pose proof (λ i e0, links_only_data_update _ _ _ _ _ i e0 He Hu Hlo) as Hback.
  constructor; cbn; try done.
  - apply fifo_rep_frame with (ents s); [|done]. intros j Hjes. unfold links.
    rewrite Hj; [apply (links_data_update _ _ e); done|]. rewrite elem_of_app, list_elem_of_singleton.
    intros [Hjf| ->]; [|done]. clear -Hnd Hjes Hjf. rewrite NoDup_cons, !NoDup_app in Hnd. set_solver.
  - rewrite <-H4, Hgs. clear. solve_Permutation.
  - intros i Hi. destruct (H5 i Hi) as (e0 & He0 & Hi0).
    assert (is_Some (<[en := e']> (ents s) !! i)) as [e1 He1] by (apply lookup_insert_is_Some'; right; by eexists).
    destruct (links_only_Some _ _ _ _ Hlo He1) as (? & ? & Hm). rewrite Hm. eexists. split; [done|].
    destruct (Hback i _ Hm) as (e2 & He2 & -> & _). congruence.
  - intros e0 Hp0. destruct (Hback p e0 Hp0) as (e1 & He1 & _ & -> & _). auto.
  - intros i e0 Hi Hie. destruct (Hback i e0 Hie) as (e1 & He1 & _ & Hp1 & Hb1 & Hq1 & _).
    unfold ppas_ok. rewrite Hp1, Hb1, Hq1. apply (H7 i e1); [|done].
    rewrite Hgs. list_mem Hi.
  - intros i e0 Hi Hie. destruct (Hback i e0 Hie) as (e1 & He1 & _ & Hp1 & _ & _ & Hf1).
    assert (i ≠ en) as Hne.
    { intros ->. apply elem_of_cons in Hi as [->|Hi]; done. }
    rewrite Hp1, Hf1 by done. specialize (H8 i e1). rewrite (npend_perm _ _ _ Hperm), npend_cons in H8.
    rewrite decide_False in H8 by (cbn; congruence). apply H8; [|done]. rewrite Hgs. list_mem Hi.
  - intros i e0 Hi Hie. destruct (Hback i e0 Hie) as (e1 & He1 & _ & Hp1 & _). rewrite Hp1.
    apply (H9 i); [|done]. rewrite Hgs. list_mem Hi.
  - intros i Hi. specialize (H10 i). rewrite (npend_perm _ _ _ Hperm), npend_cons in H10.
    rewrite decide_False in H10 by (cbn; intros ->; done). apply H10. rewrite Hgs. by right.
  - intros x Hx. destruct (H11 x) as [Hx1 Hx2]; [rewrite Hperm; by right|].
    assert (x.1 ≠ en) as Hne.
    { intros Hxe. pose proof (npend_pos _ _ Hx) as Hx0. rewrite Hxe in Hx0. lia. }
    split; [rewrite Hgs in Hx1; clear -Hx1 Hne; set_solver|]. intros e0 Hie.
    destruct (Hback _ e0 Hie) as (e1 & He1 & _ & -> & _). by apply Hx2.
Qed.

Lemma npend_in x pend pend' : pend ≡ₚ x :: pend' → npend x.1 pend = 1 + npend x.1 pend'.
Proof. intros Hp. by rewrite (npend_perm _ _ _ Hp), npend_cons, decide_True. Qed.

Lemma slot_data_put s en e e' y :
  ents s !! en = Some e → (dbuf e' !! y.2 = dbuf e !! y.2 ∨ y.1 ≠ en) →
  slot_data (put_entity en e' s) y = slot_data s y.
Proof.
  intros He Hd. unfold slot_data. cbn. destruct (decide (en = y.1)) as [Heq|].
  - rewrite <-Heq, lookup_insert_eq, He. cbn. destruct Hd as [Hd|Hd]; [done|]. congruence.
  - by rewrite lookup_insert_ne.
Qed.

Lemma same_slots_links s s' en e e' :
  ents s !! en = Some e → data_update e e' → links_only (<[en := e']> (ents s)) (ents s') →
  same_slots s s'.
Proof.
  intros He (_ & _ & Fb & Fq & Fl & _) Hlo i. specialize (Hlo i).
  destruct (decide (en = i)) as [<-|].
  - rewrite lookup_insert_eq in Hlo. rewrite He. destruct (ents s' !! en); [|done].
    destruct Hlo as (n & q & ->). cbn. by rewrite Fl, Fq, Fb.
  - rewrite lookup_insert_ne in Hlo by done.
    destruct (ents s !! i), (ents s' !! i); try done. by destruct Hlo as (n' & q & ->).
Qed.

(** The counter step on its own: [e'] is the buffer with the data copied in. *)
Lemma fill_cnt_inc_spec s p es fs gs os pend pend' en k e e1 :
  wcb_inv s p es fs gs os pend → pend ≡ₚ (en, k) :: pend' → ents s !! en = Some e →
  data_update e e1 → fill_cnt e1 = fill_cnt e →
  ∃ s' fs' gs' m c, fill_cnt_inc en (put_entity en e1 s) = Ok s' ∧
    wcb_inv s' p es fs' gs' os pend' ∧
    links_only (<[en := e_set_fill_cnt c e1]> (ents s)) m ∧ ents s' = m ∧
    l2ptbl s' = l2ptbl s ∧ sys s' = sys s.
Proof.
  intros [Hpre Hlt] Hperm He Hu Hf. assert (RAID_LUN_SEC_NUM = 128) as HR by done.
  assert (en ∈ p :: gs) as Hin.
  { apply (wi_pend _ _ _ _ _ _ _ Hpre (en, k)). rewrite Hperm. by left. }
  destruct (wi_fill _ _ _ _ _ _ _ Hpre en e Hin He) as [Hf0 Hfs].
  pose proof (npend_in (en, k) pend pend' Hperm) as Hnp. cbn [fst] in Hnp.
  pose proof (npend_nonneg en pend') as Hnn.
  assert (pos e ≤ 128) as Hpos.
  { apply elem_of_cons in Hin as [->|Hin].
    - pose proof (wi_part _ _ _ _ _ _ _ Hpre e He). lia.
    - rewrite (wi_done _ _ _ _ _ _ _ Hpre en e); [lia| |done]. list_mem Hin. }
  unfold fill_cnt_inc. rewrite get_put_entity_eq, bind_Ok_l.
  rewrite Hf, s32_small by lia. rewrite !put_put_entity.
  assert (∀ c, data_update e (e_set_fill_cnt c e1)) as Hu' by (intros c; exact Hu).
  case_decide as Hfull.
  - assert (en ∈ gs) as Hg.
    { apply elem_of_cons in Hin as [->|]; [|done]. specialize (Hlt e He). lia. }
    destruct (proj1 (elem_of_Permutation _ _) Hg) as [gs' Hgs].
    destruct (pre_push_full s p es fs gs gs' os pend pend' en k e (e_set_fill_cnt 0 e1) Hpre Hperm Hgs He)
      as (f & m & Hpush & Hpre' & Hlo); [apply Hu'|lia|].
    cbn [full_lun ctl put_entity set_ctl c_set_entitys lun_entitys]. rewrite Hpush, bind_Ok_l.
    eexists _, (fs ++ [en]), gs', m, 0. split; [done|]. split; [split; [done|]|done].
    intros e0 Hp0. cbn in Hp0. destruct (links_only_entity _ _ _ _ Hlo Hp0) as (e2 & ? & ? & He2 & ->).
    cbn. assert (en ≠ p) as Hne.
    { pose proof (pre_nodup Hpre) as [Hnd _]%NoDup_cons. intros ->. apply Hnd. list_mem Hg. }
    rewrite lookup_insert_ne in He2 by done. by apply Hlt.
  - eexists _, fs, gs, _, (fill_cnt e + 1). split; [done|]. split; [split|].
    + apply pre_count with pend k e; try done. intros Hg.
      pose proof (wi_done _ _ _ _ _ _ _ Hpre en e ltac:(list_mem Hg) He). lia.
    + intros e0. cbn. destruct (decide (en = p)) as [->|].
      * rewrite lookup_insert_eq. intros [= <-]. cbn. destruct Hu as (_ & -> & _). by apply Hlt.
      * rewrite lookup_insert_ne by done. apply Hlt.
    + split; [apply links_only_refl|done].
Qed.

(** The fill positions stay. *)
Definition same_pos (s s' : ftl) : Prop := ∀ i, pos <$> ents s' !! i = pos <$> ents s !! i.

Lemma same_pos_links s s' en e e' :
  ents s !! en = Some e → data_update e e' → links_only (<[en := e']> (ents s)) (ents s') →
  same_pos s s'.
Proof.
  intros He (_ & Fp & _) Hlo i. specialize (Hlo i).
  destruct (decide (en = i)) as [<-|].
  - rewrite lookup_insert_eq in Hlo. rewrite He. destruct (ents s' !! en); [|done].
    destruct Hlo as (n & q & ->). cbn. by rewrite Fp.
  - rewrite lookup_insert_ne in Hlo by done.
    destruct (ents s !! i), (ents s' !! i); try done. by destruct Hlo as (n' & q & ->).
Qed.

(** A page is copied into a pending slot and counted. *)
Lemma copy_count_spec s p es fs gs os pend pend' en k l pg :
  wcb_inv s p es fs gs os pend → pend ≡ₚ (en, k) :: pend' → slot_at s (en, k) l →
  ∃ s1 s' fs' gs', copy_to_slot en k pg s = Ok s1 ∧ fill_cnt_inc en s1 = Ok s' ∧
    wcb_inv s' p es fs' gs' os pend' ∧ same_slots s s' ∧ same_flags s s' ∧ same_pos s s' ∧
    slot_data s' (en, k) = Some pg ∧ (∀ y, y ≠ (en, k) → slot_data s' y = slot_data s y) ∧
    l2ptbl s' = l2ptbl s ∧ sys s' = sys s.
Proof.
  intros Hinv Hperm (e & He & _ & _ & _ & Hk). cbn [fst snd] in *.
  assert (index e = en) as Hidx.
  { apply (pre_index (proj1 Hinv)); [done|]. apply (pre_range (proj1 Hinv)).
    destruct (wi_pend _ _ _ _ _ _ _ (proj1 Hinv) (en, k)) as [Hx _]; [rewrite Hperm; by left|].
    cbn in Hx. list_mem Hx. }
  unfold copy_to_slot. rewrite (get_entity_Some _ _ _ He), bind_Ok_l. rewrite Hidx, (get_entity_Some _ _ _ He), bind_Ok_l.
  rewrite (decide_True (P := 0 ≤ k < _)) by done. eexists. set (e1 := e_set_dbuf (<[k := pg]> (dbuf e)) e).
  destruct (fill_cnt_inc_spec s p es fs gs os pend pend' en k e e1 Hinv Hperm He)
    as (s' & fs' & gs' & m & c & Hrun & Hinv' & Hlo & Hm & Hl2 & Hy); [done|done|].
  exists s', fs', gs'. split; [done|]. split; [exact Hrun|]. split; [done|].
  assert (∀ y, slot_data s' y = e0 ← <[en := e_set_fill_cnt c e1]> (ents s) !! y.1; dbuf e0 !! y.2) as Hsd.
  { intros y. unfold slot_data. rewrite Hm. specialize (Hlo y.1).
    destruct (<[en:=e_set_fill_cnt c e1]> (ents s) !! y.1), (m !! y.1); try done.
    by destruct Hlo as (? & ? & ->). }
  split; [|split; [|split; [|split; [|split]]]].
  - apply same_slots_links with en e (e_set_fill_cnt c e1); [done|done|by rewrite Hm].
  - apply same_flags_links with en e (e_set_fill_cnt c e1); [done|done|by rewrite Hm].
  - apply same_pos_links with en e (e_set_fill_cnt c e1); [done|done|by rewrite Hm].
  - rewrite Hsd. cbn. rewrite lookup_insert_eq. cbn. by rewrite lookup_insert_eq.
  - intros y Hne. rewrite Hsd. change (slot_data (put_entity en (e_set_fill_cnt c e1) s) y = slot_data s y).
    apply slot_data_put with e; [done|]. destruct (decide (y.1 = en)) as [Hye|]; [left|by right].
    cbn. rewrite lookup_insert_ne; [done|]. intros ->. apply Hne. destruct y. cbn in *. congruence.
  - done.
Qed.

Lemma flush_slot_spec s p es fs gs os pend pend' x l b pg pgs :
  wcb_inv s p es fs gs os pend → pend ≡ₚ x :: pend' → slot_at s x l → l ≤ MAX_USER_LBA →
  bi_pages b = pg :: pgs →
  ∃ s' fs' gs', flush_slot x (s, b) = Ok (s', bio_advance b) ∧
    wcb_inv s' p es fs' gs' os pend' ∧ same_slots s s' ∧ same_flags s s' ∧
    slot_data s' x = Some pg ∧ (∀ y, y ≠ x → slot_data s' y = slot_data s y) ∧
    l2ptbl s' = l2ptbl s ∧ sys s' = sys s.
Proof.
  intros Hinv Hperm Hat Hlb Hpg. destruct x as [en k].
  destruct (copy_count_spec s p es fs gs os pend pend' en k l pg Hinv Hperm Hat)
    as (s1 & s' & fs' & gs' & Hcopy & Hcnt & Hinv' & Hss & Hsf & _ & Hd).
  destruct Hat as (e & He & Hl & _ & _ & Hk). cbn [fst snd] in *.
  unfold flush_slot. rewrite (get_entity_Some _ _ _ He), bind_Ok_l.
  rewrite wread_in, bind_Ok_l by done. rewrite Hl. cbn [default from_option id]. rewrite decide_True by done.
  unfold bio_data. rewrite Hpg, bind_Ok_l, Hcopy, !bind_Ok_l, Hcnt, bind_Ok_l. by exists s', fs', gs'.
Qed.
