(* ===== verification/WriteBio.v ===== *)
(** * A write bio, end to end

    The data of a bio reaches the slots reserved for it, the mapping table points
    to them, and the valid page counts of the blocks stay exact. *)

From S2P Require Import Prelude NandCfg Fifo Kernel SysMeta PpaCmd WriteCache WritePath WriteAlloc WriteInv.
From Stdlib Require Import Strings.Byte.

#[local] Open Scope Z_scope.

(** ** Copying a whole bio *)

(** Slots [xs] hold logical pages [slba], [slba + 1], ... *)
Definition slots_at (s : ftl) (slba : Z) (xs : list (Z * Z)) : Prop :=
  ∀ k x, xs !! k = Some x → slot_at s x (u32 (slba + Z.of_nat k)).

Lemma slots_at_cons s slba x xs :
  slots_at s slba (x :: xs) ↔ slot_at s x (u32 slba) ∧ slots_at s (slba + 1) xs.
Proof.
  split.
  - intros H. split.
    + specialize (H 0%nat x eq_refl). by rewrite Z.add_0_r in H.
    + intros k y Hk. replace (slba + 1 + Z.of_nat k) with (slba + Z.of_nat (S k)) by lia.
      by apply H.
  - intros [Hx Hxs] [|k] y Hk.
    + injection Hk as <-. by rewrite Z.add_0_r.
    + replace (slba + Z.of_nat (S k)) with (slba + 1 + Z.of_nat k) by lia. by apply Hxs.
Qed.

Lemma slots_at_same s s' slba xs : same_slots s s' → slots_at s slba xs → slots_at s' slba xs.
Proof. intros Hs Hx k x Hk. apply same_slots_at with s; auto. Qed.

(** Every user page of a bio fits in 32 bits. *)
Lemma user_lba_small l : 0 ≤ l ≤ MAX_USER_LBA → u32 l = l ∧ l < 2 ^ 32.
Proof.
  intros Hl. assert (MAX_USER_LBA = 390451571) as HM by reflexivity.
  split; [apply u32_small|]; lia.
Qed.

Lemma flush_slots_spec xs : ∀ s p es fs gs os pend slba b,
  wcb_inv s p es fs gs os (xs ++ pend) → slots_at s slba xs → NoDup xs →
  0 ≤ slba → slba + Z.of_nat (length xs) ≤ MAX_USER_LBA + 1 →
  (length xs ≤ length (bi_pages b))%nat →
  ∃ s' b' fs' gs', mfor xs flush_slot (s, b) = Ok (s', b') ∧
    wcb_inv s' p es fs' gs' os pend ∧ same_slots s s' ∧
    (∀ k x, xs !! k = Some x → slot_data s' x = bi_pages b !! k) ∧
    (∀ y, y ∉ xs → slot_data s' y = slot_data s y) ∧
    l2ptbl s' = l2ptbl s ∧ sys s' = sys s.
Proof.
  induction xs as [|x xs IH]; intros s p es fs gs os pend slba b Hinv Hat Hnd H0 Hmax Hlen.
  { exists s, b, fs, gs. split; [done|]. split; [done|]. split; [by intros i|]. done. }
  apply slots_at_cons in Hat as [Hx Hxs]. apply NoDup_cons in Hnd as [Hnx Hnd]. cbn [length] in Hmax, Hlen.
  destruct (bi_pages b) as [|pg pgs] eqn:Hpg; [cbn in Hlen; lia|].
  destruct (user_lba_small slba ltac:(lia)) as [Hu _]. rewrite Hu in Hx.
  destruct (flush_slot_spec s p es fs gs os ((x :: xs) ++ pend) (xs ++ pend) x slba b pg pgs)
    as (s1 & fs1 & gs1 & Hrun1 & Hinv1 & Hss1 & _ & Hd1 & Hk1 & Hl1 & Hy1); [done..|lia|done|].
  cbn [mfor]. rewrite Hrun1, bind_Ok_l.
  destruct (IH s1 p es fs1 gs1 os pend (slba + 1) (bio_advance b))
    as (s2 & b2 & fs2 & gs2 & Hrun & Hinv2 & Hss2 & Hd2 & Hk2 & Hl2 & Hy2);
    [done|by apply slots_at_same with s|done|lia|lia| |].
  { unfold bio_advance. cbn [bi_pages]. rewrite Hpg. exact (le_S_n _ _ Hlen). }
  exists s2, b2, fs2, gs2. split; [done|]. split; [done|].
  split; [by apply same_slots_trans with s1|]. split; [|split; [|split; congruence]].
  - intros [|k] y Hy; cbn in Hy.
    + injection Hy as <-. rewrite Hk2 by done. done.
    + rewrite (Hd2 k y Hy). cbn. by rewrite Hpg.
  - intros y Hy. rewrite not_elem_of_cons in Hy. destruct Hy as [Hy1' Hy2'].
    rewrite Hk2 by done. by apply Hk1.
Qed.

(** ** Valid page counts *)

(** The number of logical pages mapped into block [b]. *)
Definition mapped_in (b : Z) (m : gmap Z Z) : Z :=
  Z.of_nat (size (filter (λ kv : Z * Z, nand_blk kv.2 = b) m)).

Lemma mapped_in_fresh b m l v :
  m !! l = None →
  mapped_in b (<[l := v]> m) = (if decide (nand_blk v = b) then 1 else 0) + mapped_in b m.
Proof.
  intros Hn. unfold mapped_in. case_decide as Hv.
  - rewrite map_filter_insert_True by done. rewrite map_size_insert_None; [lia|].
    apply map_lookup_filter_None. by left.
  - rewrite map_filter_insert_False by done. by rewrite delete_id by done.
Qed.

Lemma mapped_in_insert b m l v :
  mapped_in b (<[l := v]> m) =
    mapped_in b m
    - match m !! l with Some u => if decide (nand_blk u = b) then 1 else 0 | None => 0 end
    + (if decide (nand_blk v = b) then 1 else 0).
Proof.
  destruct (m !! l) as [u|] eqn:Hl.
  - rewrite <-(insert_delete_id m l u) at 2 by done. rewrite <-insert_delete_eq.
    rewrite !mapped_in_fresh by apply lookup_delete_eq. lia.
  - rewrite mapped_in_fresh by done. lia.
Qed.

Lemma mapped_in_bound b m : 0 ≤ mapped_in b m ≤ Z.of_nat (size m).
Proof.
  unfold mapped_in. split; [lia|]. apply Nat2Z.inj_le, map_size_filter.
Qed.

(** The mapping table and the counters agree. *)
Record vpc_inv (s : ftl) : Prop := {
  vi_map : ∀ l q, l2ptbl s !! l = Some q → 0 ≤ l ≤ MAX_USER_LBA ∧ blk_ok (nand_blk q);
  vi_count : ∀ b, blk_ok b → default 0 (vpctbl (sys s) !! b) = mapped_in b (l2ptbl s);
}.

Lemma vpc_bound s : vpc_inv s → Z.of_nat (size (l2ptbl s)) ≤ MAX_USER_LBA + 1.
Proof.
  intros [Hm _]. rewrite <-size_dom.
  pose proof (NoDup_range_length (elements (dom (l2ptbl s))) (MAX_USER_LBA + 1) (NoDup_elements _)) as Hle.
  unfold size, set_size in *. cbn in *.
  assert (0 ≤ MAX_USER_LBA + 1) by (vm_compute; discriminate).
  rewrite Z.max_r in Hle by done. apply Hle. intros l Hl%elem_of_elements%elem_of_dom.
  destruct Hl as [q Hl]. destruct (Hm l q Hl). lia.
Qed.

Lemma in_cache_blk q : nand_blk (set_cache_in_cache 1 q) = nand_blk q.
Proof. by destruct (in_cache_fields q) as (_ & _ & _ & _ & _ & -> & _). Qed.

(** Only the counters of the system tables change. *)
Definition only_vpc (y y' : sysmeta) : Prop := statetbl y' = statetbl y ∧ bmitbl y' = bmitbl y.

Lemma only_vpc_inv y y' l : only_vpc y y' → sys_inv y l → sys_inv y' l.
Proof. intros [Hs Hb] [H1 H2 H3]. constructor; rewrite ?Hs, ?Hb; done. Qed.

Lemma VPC_WORDS_ok b : blk_ok b → 0 ≤ b < VPCTBL_SIZE / 4.
Proof.
  intros Hb. unfold blk_ok in Hb. assert (CFG_NAND_BLOCK_NUM ≤ VPCTBL_SIZE / 4) by (vm_compute; discriminate). lia.
Qed.

Lemma L2P_WORDS_ok l : 0 ≤ l ≤ MAX_USER_LBA → 0 ≤ l < L2P_WORDS.
Proof. intros Hl. assert (MAX_USER_LBA < L2P_WORDS) by (vm_compute; reflexivity). lia. Qed.

Lemma vpc_dec_run q y :
  blk_ok (nand_blk q) →
  vpc_dec q y = Ok (set_vpctbl (<[nand_blk q := u32 (default 0 (vpctbl y !! nand_blk q) - 1)]> (vpctbl y)) y).
Proof.
  intros Hb. unfold vpc_dec. rewrite BUG_ON_pass, bind_Ok_l by (unfold blk_ok in Hb; lia).
  rewrite wread_in, bind_Ok_l by (by apply VPC_WORDS_ok).
  by rewrite wwrite_in, bind_Ok_l by (by apply VPC_WORDS_ok).
Qed.

Lemma vpc_inc_run q y :
  blk_ok (nand_blk q) →
  vpc_inc q y = Ok (set_vpctbl (<[nand_blk q := u32 (default 0 (vpctbl y !! nand_blk q) + 1)]> (vpctbl y)) y).
Proof.
  intros Hb. unfold vpc_inc. rewrite BUG_ON_pass, bind_Ok_l by (unfold blk_ok in Hb; lia).
  rewrite wread_in, bind_Ok_l by (by apply VPC_WORDS_ok).
  by rewrite wwrite_in, bind_Ok_l by (by apply VPC_WORDS_ok).
Qed.

Lemma default_insert (m : gmap Z Z) i v j :
  default 0 (<[i := v]> m !! j) = if decide (i = j) then v else default 0 (m !! j).
Proof. case_decide as Hd; [subst; by rewrite lookup_insert_eq|by rewrite lookup_insert_ne]. Qed.

Lemma mapped_in_pos m l u : m !! l = Some u → 1 ≤ mapped_in (nand_blk u) m.
Proof.
  intros Hl. rewrite <-(insert_delete_id m l u) by done.
  rewrite mapped_in_fresh by apply lookup_delete_eq. rewrite decide_True by done.
  pose proof (mapped_in_bound (nand_blk u) (delete l m)). lia.
Qed.

Lemma set_l2ptbl_incache_spec s l q :
  vpc_inv s → 0 ≤ l ≤ MAX_USER_LBA → blk_ok (nand_blk q) →
  ∃ s', set_l2ptbl_incache l q s = Ok s' ∧ vpc_inv s' ∧ ctl s' = ctl s ∧
    only_vpc (sys s) (sys s') ∧ l2ptbl s' = <[l := set_cache_in_cache 1 q]> (l2ptbl s).
Proof.
  intros Hv Hl Hq. pose proof (vpc_bound s Hv) as Hbd. destruct Hv as [Hm Hc].
  assert (MAX_USER_LBA + 1 < 2 ^ 31) as HM by (vm_compute; reflexivity).
  unfold set_l2ptbl_incache, get_l2ptbl_mapping. rewrite decide_True by lia.
  rewrite wread_in, bind_Ok_l by (by apply L2P_WORDS_ok).
  assert (∃ y1, (if decide (nand_blk (default INVALID_PAGE (l2ptbl s !! l)) < CFG_NAND_BLOCK_NUM)
                 then vpc_dec (default INVALID_PAGE (l2ptbl s !! l)) (sys s) else Ok (sys s)) = Ok y1 ∧
     only_vpc (sys s) y1 ∧ ∀ b, blk_ok b → default 0 (vpctbl y1 !! b) = mapped_in b (l2ptbl s)
        - match l2ptbl s !! l with Some u => if decide (nand_blk u = b) then 1 else 0 | None => 0 end)
    as (y1 & -> & Hy1 & Hc1).
  { destruct (l2ptbl s !! l) as [u|] eqn:Hu; cbn [default from_option id].
    - destruct (Hm l u Hu) as [_ Hub]. rewrite decide_True by apply Hub.
      rewrite vpc_dec_run by done. eexists. split; [done|]. split; [done|]. intros b Hb. cbn [vpctbl set_vpctbl].
      rewrite default_insert. rewrite !Hc by done. cbn iota.
      case_decide as Hd; [|by rewrite Z.sub_0_r].
      subst b. pose proof (mapped_in_pos _ _ _ Hu).
      pose proof (mapped_in_bound (nand_blk u) (l2ptbl s)). apply u32_small. lia.
    - rewrite decide_False by (vm_compute; done). eexists. split; [done|]. split; [done|].
      intros b Hb. rewrite Hc by done. lia. }
  rewrite bind_Ok_l. rewrite wwrite_in, bind_Ok_l by (by apply L2P_WORDS_ok).
  assert (blk_ok (nand_blk (set_cache_in_cache 1 q))) as Hq' by (by rewrite in_cache_blk).
  rewrite vpc_inc_run, bind_Ok_l by done. eexists. split; [done|].
  split; [constructor; cbn [l2ptbl set_l2ptbl set_sys sys vpctbl set_vpctbl]|done].
  - intros l0 q0. destruct (decide (l = l0)) as [<-|].
    + rewrite lookup_insert_eq. intros [= <-]. done.
    + rewrite lookup_insert_ne by done. apply Hm.
  - intros b Hb. rewrite default_insert, mapped_in_insert, Hc1, in_cache_blk by done.
    destruct (decide (nand_blk q = b)) as [<-|]; [|rewrite Hc1 by done; lia].
    pose proof (mapped_in_bound (nand_blk q) (l2ptbl s)). apply u32_small.
    destruct (l2ptbl s !! l) as [u|] eqn:Hu; [|lia]. case_decide as Hd; [|lia].
    pose proof (mapped_in_pos _ _ _ Hu) as Hp. rewrite Hd in Hp. lia.
Qed.

Lemma set_l2p_slot_run s x e l q :
  ents s !! x.1 = Some e → lba e !! x.2 = Some l → ppa e !! x.2 = Some q →
  0 ≤ x.2 < RAID_LUN_SEC_NUM → set_l2p_slot x s = set_l2ptbl_incache l (u32 q) s.
Proof.
  intros He Hl Hq Hr. destruct x as [en k]. cbn [fst snd] in *. unfold set_l2p_slot.
  rewrite (get_entity_Some _ _ _ He), bind_Ok_l.
  rewrite (wread_in RAID_LUN_SEC_NUM 0 (lba e) k) by done.
  rewrite bind_Ok_l, Hl. by rewrite (wread_in RAID_LUN_SEC_NUM 0 (ppa e) k), bind_Ok_l, Hq by done.
Qed.

(** The mapping of a list of slots. *)
Lemma set_l2p_slots_spec xs : ∀ s slba,
  vpc_inv s → slots_at s slba xs → 0 ≤ slba → slba + Z.of_nat (length xs) ≤ MAX_USER_LBA + 1 →
  ∃ s', mfor xs set_l2p_slot s = Ok s' ∧ vpc_inv s' ∧ ctl s' = ctl s ∧ only_vpc (sys s) (sys s') ∧
    (∀ k x e, xs !! k = Some x → ents s !! x.1 = Some e →
       l2ptbl s' !! (slba + Z.of_nat k) = Some (set_cache_in_cache 1 (baddr e + x.2))) ∧
    (∀ l, ¬ (slba ≤ l < slba + Z.of_nat (length xs)) → l2ptbl s' !! l = l2ptbl s !! l).
Proof.
  induction xs as [|x xs IH]; intros s slba Hv Hat H0 Hmax.
  { exists s. split; [done|]. split; [done|]. split; [done|]. split; [done|]. split; [|done].
    intros k x e Hk. done. }
  apply slots_at_cons in Hat as [(e & He & Hl & Hq & Hb & Hr) Hxs]. cbn [length] in Hmax.
  destruct (user_lba_small slba ltac:(lia)) as [Hu _]. rewrite Hu in Hl.
  pose proof (base_offset_range _ _ Hb Hr) as Hoff.
  assert (blk_ok (nand_blk (baddr e + x.2))) as Hblk.
  { destruct Hb as (Hb & Hc & Hs & Hp & Hbk).
    destruct (stripe_offset_fields _ _ Hb Hc Hs Hp Hr) as (_ & _ & _ & _ & _ & ->). done. }
  cbn [mfor]. rewrite (set_l2p_slot_run s x e slba (baddr e + x.2)) by done.
  rewrite u32_small by lia.
  destruct (set_l2ptbl_incache_spec s slba (baddr e + x.2) Hv) as (s1 & -> & Hv1 & Hc1 & Ho1 & Hl1);
    [lia|done|]. rewrite bind_Ok_l.
  destruct (IH s1 (slba + 1) Hv1) as (s2 & Hrun & Hv2 & Hc2 & Ho2 & Hm2 & Hk2); [|lia|lia|].
  { intros k y Hk. destruct (Hxs k y Hk) as (e0 & He0 & Hrest). exists e0. by rewrite Hc1. }
  exists s2. split; [done|]. split; [done|]. split; [congruence|]. split; [|split].
  - destruct Ho1, Ho2. split; congruence.
  - intros [|k] y e0 Hk He0.
    + injection Hk as <-. rewrite Hk2 by lia.
      rewrite Hl1, Z.add_0_r, lookup_insert_eq. congruence.
    + replace (slba + Z.of_nat (S k)) with (slba + 1 + Z.of_nat k) by lia.
      apply Hm2 with (1 := Hk). by rewrite Hc1.
  - intros l Hnl. cbn [length] in Hnl. rewrite Hk2 by lia. rewrite Hl1, lookup_insert_ne by lia. done.
Qed.

(** ** A whole bio *)

(** A write of [n] pages from logical page [slba] on. *)
Record bio_wf (b : bio) (slba : Z) (n : nat) : Prop := {
  bw_sector : bi_sector b = slba * SEC_PER_PPA;
  bw_size : bi_size b = Z.of_nat n * EXP_PPA_SIZE;
  bw_pages : length (bi_pages b) = n;
  bw_n : (0 < n ≤ 128)%nat;
  bw_slba : 0 ≤ slba;
  bw_max : slba + Z.of_nat n ≤ MAX_USER_LBA + 1;
}.

Lemma bio_wf_geometry b slba n :
  bio_wf b slba n → get_bio_slba b = slba ∧ s32 (get_bio_nppa b) = Z.of_nat n.
Proof.
  intros []. unfold get_bio_slba, get_bio_nppa. rewrite bw_sector0, bw_size0.
  rewrite !Z.div_mul by done. split; [done|]. apply s32_small. lia.
Qed.

Lemma wcb_pre_cong s s' p es fs gs os pend :
  ctl s' = ctl s → only_vpc (sys s) (sys s') →
  wcb_inv s p es fs gs os pend → wcb_inv s' p es fs gs os pend.
Proof.
  intros Hc Hy [[H1 H2 H3 H4 H5 H6 H7 H8 H9 H10 H11 [bl H12]] Hlt].
  split; [constructor|]; rewrite ?Hc; try done.
  exists bl. by apply only_vpc_inv with (sys s).
Qed.

Lemma wcb_inv_perm s p es fs gs os pend pend' :
  pend ≡ₚ pend' → wcb_inv s p es fs gs os pend → wcb_inv s p es fs gs os pend'.
Proof.
  intros Hp [[H1 H2 H3 H4 H5 H6 H7 H8 H9 H10 H11 H12] Hlt].
  split; [constructor|]; try done.
  - intros i e Hi He. rewrite <-(npend_perm i _ _ Hp). by apply H8.
  - intros i Hi. rewrite <-(npend_perm i _ _ Hp). by apply H10.
  - intros x Hx. apply H11. by rewrite Hp.
Qed.

Lemma process_write_bio_ok s p es fs gs os pend e b slba n :
  wcb_inv s p es fs gs os pend → vpc_inv s → ents s !! p = Some e → bio_wf b slba n →
  if decide (has_room (Z.of_nat n) (pos e) es) then
    ∃ s' p' es' fs' gs' xs, process_write_bio b s = Ok (FSCFTL_BIO_COMPLETE, s') ∧
      wcb_inv s' p' es' fs' gs' os pend ∧ vpc_inv s' ∧
      length xs = n ∧ NoDup xs ∧
      (∀ k x, xs !! k = Some x → slot_data s' x = bi_pages b !! k ∧
         ∃ e', ents s' !! x.1 = Some e' ∧
           l2ptbl s' !! (slba + Z.of_nat k) = Some (set_cache_in_cache 1 (baddr e' + x.2))) ∧
      (∀ l, ¬ (slba ≤ l < slba + Z.of_nat n) → l2ptbl s' !! l = l2ptbl s !! l) ∧
      (∀ y, y ∉ xs → slot_data s' y = slot_data s y)
  else process_write_bio b s = Ok (FSCFTL_BIO_RESUBMIT, s).
Proof.
  intros Hinv Hv He Hb. destruct (bio_wf_geometry b slba n Hb) as [Hs Hn].
  pose proof (reserve_wcb_spec s p es fs gs os pend e slba n Hinv He (bw_n _ _ _ Hb)) as Hres.
  unfold process_write_bio. rewrite Hs, Hn. case_decide as Hroom; [|by rewrite Hres].
  destruct Hres as (w & s1 & p' & es' & gs' & -> & Hinv1 & Hr). rewrite bind_Ok_l.
  destruct (flush_slots_spec (wcb_slots w) s1 p' es' fs gs' os pend slba b)
    as (s2 & b2 & fs2 & gs2 & Hfl & Hinv2 & Hss & Hd & Hdk & Hl2 & Hy2).
  - apply wcb_inv_perm with (pend ++ wcb_slots w); [apply Permutation_app_comm|done].
  - exact (rs_slot _ _ _ _ _ _ _ Hr).
  - exact (rs_nodup _ _ _ _ _ _ _ Hr).
  - exact (bw_slba _ _ _ Hb).
  - rewrite (rs_len _ _ _ _ _ _ _ Hr). exact (bw_max _ _ _ Hb).
  - rewrite (rs_len _ _ _ _ _ _ _ Hr), (bw_pages _ _ _ Hb). done.
  - unfold flush_data_to_wcb. rewrite Hfl, bind_Ok_l.
    destruct (set_l2p_slots_spec (wcb_slots w) s2 slba) as (s3 & Hl3 & Hv3 & Hc3 & Ho3 & Hm3 & Hk3).
    + destruct Hv as [Hv1 Hv2]. split; rewrite Hl2, (rs_l2p _ _ _ _ _ _ _ Hr); [done|].
      by rewrite Hy2, (rs_vpc _ _ _ _ _ _ _ Hr).
    + apply slots_at_same with s1; [done|exact (rs_slot _ _ _ _ _ _ _ Hr)].
    + exact (bw_slba _ _ _ Hb).
    + rewrite (rs_len _ _ _ _ _ _ _ Hr). exact (bw_max _ _ _ Hb).
    + unfold set_l2ptbl_write_path. rewrite Hl3, bind_Ok_l.
      exists s3, p', es', fs2, gs2, (wcb_slots w). split; [done|].
      split; [by apply wcb_pre_cong with s2|]. split; [done|].
      split; [exact (rs_len _ _ _ _ _ _ _ Hr)|]. split; [exact (rs_nodup _ _ _ _ _ _ _ Hr)|].
      rewrite (rs_len _ _ _ _ _ _ _ Hr) in Hk3. unfold slot_data. rewrite Hc3. split; [|split].
      * intros k x Hk. split; [by apply Hd|].
        destruct (slots_at_same s1 s2 slba _ Hss (rs_slot _ _ _ _ _ _ _ Hr) k x Hk) as (e' & He' & _).
        exists e'. split; [done|]. by apply Hm3.
      * intros l Hl. rewrite Hk3, Hl2, (rs_l2p _ _ _ _ _ _ _ Hr) by done. done.
      * intros y Hy. etransitivity; [exact (Hdk y Hy)|exact (rs_data _ _ _ _ _ _ _ Hr y)].
Qed.

(** C5: a write bio of 1 to 128 pages inside the user area.  If the cache has room
    for it, it completes: there are [n] slots, one per page, that hold the data of
    the bio in order, the mapping of each logical page is marked cached and is the
    flash address of its slot, no other mapping and no other slot changes, and the
    invariants of the cache, of the free list and of the valid page counts hold
    again, with the slots pending for other bios still pending.  If there is no
    room, nothing changes and the bio is to be resubmitted. *)
Theorem process_write_bio_spec s p es fs gs os pend e b slba n :
  wcb_inv s p es fs gs os pend → vpc_inv s → ents s !! p = Some e → bio_wf b slba n →
  if decide (has_room (Z.of_nat n) (pos e) es) then
    ∃ s' p' es' fs' gs' xs, process_write_bio b s = Ok (FSCFTL_BIO_COMPLETE, s') ∧
      wcb_inv s' p' es' fs' gs' os pend ∧ vpc_inv s' ∧
      length xs = n ∧ NoDup xs ∧
      (∀ k x, xs !! k = Some x → slot_data s' x = bi_pages b !! k ∧
         ∃ e', ents s' !! x.1 = Some e' ∧
           l2ptbl s' !! (slba + Z.of_nat k) = Some (set_cache_in_cache 1 (baddr e' + x.2))) ∧
      (∀ l, ¬ (slba ≤ l < slba + Z.of_nat n) → l2ptbl s' !! l = l2ptbl s !! l) ∧
      (∀ y, y ∉ xs → slot_data s' y = slot_data s y)
  else process_write_bio b s = Ok (FSCFTL_BIO_RESUBMIT, s).
Proof. apply process_write_bio_ok. Qed.

(** ** Starting to write *)

(** [prepare_write_context]: the first buffer and the first block. *)
Definition prepare_write_context (s : ftl) : res ftl :=
  '(blk, y) ← get_blk_from_free_list (sys s);
  let s := set_sys y s in
  let startppa := set_nand_blk blk 0 in
  '(o, s) ← get_lun_entity startppa s;
  let s := set_ctl (c_set_partial o (ctl s)) s in
  _ ← print_lun_entitys_fifo s;
  Ok s.

Lemma start_base blk : blk_ok blk → base_ok (set_nand_blk blk 0) ∧ nand_blk (set_nand_blk blk 0) = blk.
Proof.
  intros Hb. assert (0 ≤ blk < 4096) by (unfold blk_ok in Hb; cfg_lia).
  assert (nand_blk (set_nand_blk blk 0) = blk) as Hk by (ppa_field; apply Z.mod_small; lia).
  unfold base_ok. rewrite Hk. split; [|done]. split_and!; try done; try (ppa_field; done).
  - apply (set_bits_bound 19 12 blk 0 31); lia.
  - apply (set_bits_bound 19 12 blk 0 31); lia.
Qed.

(** The first block handed out, and what is left: block 0 when the list is empty. *)
Lemma first_blk y bl :
  sys_inv y bl → ∃ y', get_blk_from_free_list y = Ok (hd 0 bl, y') ∧ blk_ok (hd 0 bl) ∧
    sys_inv y' (tl bl) ∧ vpctbl y' = vpctbl y.
Proof.
  intros Hy. destruct bl as [|blk bl].
  - exists y. split; [by apply get_blk_from_free_list_nil|]. done.
  - destruct (get_blk_from_free_list_cons y blk bl Hy) as (y' & Hrun & Hy' & Hv & _).
    exists y'. split; [done|]. split; [|done].
    destruct Hy as [[_ Hf] _ _]. by apply Forall_cons in Hf as [? _].
Qed.

Lemma get_lun_entity_spec c y m b bl :
  cache_upto c CB_ENTITYS_CNT → sys_inv y bl → base_ok b →
  ∃ s', get_lun_entity b (mk_ftl c y m) = Ok (Some 0, s') ∧
    wcb_inv s' 0 (seqZ 1 (CB_ENTITYS_CNT - 1)) [] [] [] [] ∧ sys s' = y ∧ l2ptbl s' = m ∧
    partial_entity (ctl s') = Some 0 ∧
    ∃ e, ents s' !! 0 = Some e ∧ pos e = 0 ∧ nand_blk (baddr e) = nand_blk b.
Proof.
  intros [Hemp Hfull _ Hdn _ _] Hy Hb.
  rewrite (seqZ_cons_0 0) in Hemp by done. rewrite Z.add_0_l in Hemp.
  unfold get_lun_entity. cbn [ctl]. rewrite pull_lun_entity_link.
  destruct (link_pull_spec _ _ _ _ Hemp) as (f & mm & -> & Hrep & Hlo & Hj). rewrite bind_Ok_l.
  destruct (Hdn 0) as (e0 & He0 & Hi0 & Hp0 & Hf0 & Hc0); [done|].
  destruct (links_only_Some _ _ _ _ Hlo He0) as (n & q & Hm0).
  rewrite (get_entity_Some 0 (e_set_next n (e_set_prev q e0))) by done. rewrite bind_Ok_l.
  destruct Hb as (Hbr & Hch & Hsec & Hpl & Hbk). rewrite Hch, Hsec, Hpl.
  change (u16 _) with 0.
  set (b' := set_nand_pl 0 (set_nand_sec 0 (set_nand_ch 0 b))).
  assert (base_ok b') as Hb'.
  { assert (nand_blk b' = nand_blk b) as Hk by (unfold b'; ppa_field; done).
    unfold base_ok. rewrite Hk. split; [|split_and!; try done; unfold b'; ppa_field; done].
    unfold b'. autounfold with ppa_fields. repeat (apply set_bits_bound; [lia..|]). lia. }
  eexists. split; [done|]. split; [|split; [done|split; [done|split; [done|]]]].
  2:{ eexists. split; [apply lookup_insert_eq|]. split; [done|]. cbn [baddr e_set_cqe_flag e_set_pos e_set_baddr].
      unfold b'. ppa_field. done. }
  assert (∀ j e1, mm !! j = Some e1 → ∃ e2 n2 p2, lun_entitys c !! j = Some e2 ∧
     e1 = e_set_next n2 (e_set_prev p2 e2)) as Hback by (intros; by apply links_only_entity with mm).
  set (e1 := e_set_cqe_flag 0 (e_set_pos 0 (e_set_baddr b' (e_set_next n (e_set_prev q e0))))).
  assert (∀ j, links (<[0 := e1]> mm) j = links mm j) as Hlk.
  { intros j. unfold links. destruct (decide (0 = j)) as [<-|].
    - rewrite lookup_insert_eq, Hm0. done.
    - by rewrite lookup_insert_ne. }
  split; [constructor|]; cbn; try done.
  - by apply fifo_rep_frame with mm.
  - rewrite Hfull. apply fifo_rep_empty.
  - intros i Hi. destruct (decide (0 = i)) as [<-|].
    + rewrite lookup_insert_eq. by eexists.
    + rewrite lookup_insert_ne by done. destruct (Hdn i) as (e2 & He2 & Hi2 & _); [done|].
      destruct (links_only_Some _ _ _ _ Hlo He2) as (? & ? & ->). by eexists.
  - intros e2. rewrite lookup_insert_eq. by intros [= <-].
  - intros i e2 ->%list_elem_of_singleton. rewrite lookup_insert_eq. intros [= <-].
    split; [done|]. intros k Hk. cbn in Hk. lia.
  - intros i e2 ->%list_elem_of_singleton. rewrite lookup_insert_eq. intros [= <-]. rewrite npend_nil. cbn. rewrite Hf0. lia.
  - intros i e2 Hi. by apply not_elem_of_nil in Hi.
  - intros i Hi. by apply not_elem_of_nil in Hi.
  - intros x Hx. by apply not_elem_of_nil in Hx.
  - by exists bl.
  - intros e2. rewrite lookup_insert_eq. by intros [= <-].
Qed.

Lemma prepare_write_context_ok c y bl :
  cache_upto c CB_ENTITYS_CNT → sys_inv y bl → vpctbl y = ∅ →
  ∃ s, prepare_write_context (mk_ftl c y ∅) = Ok s ∧
    wcb_inv s 0 (seqZ 1 (CB_ENTITYS_CNT - 1)) [] [] [] [] ∧ vpc_inv s ∧
    sys_inv (sys s) (tl bl) ∧ ∃ e, ents s !! 0 = Some e ∧ nand_blk (baddr e) = hd 0 bl.
Proof.
  intros Hc Hy Hv. unfold prepare_write_context. cbn [sys].
  destruct (first_blk y bl Hy) as (y' & -> & Hblk & Hy' & Hv'). rewrite bind_Ok_l.
  destruct (start_base _ Hblk) as [Hb Hbk].
  destruct (get_lun_entity_spec c y' ∅ (set_nand_blk (hd 0 bl) 0) (tl bl) Hc Hy' Hb)
    as (s & Hrun & Hinv & Hsys & Hl2p & Hp & e & He & _ & Hbase). cbv zeta.
  change (set_sys y' (mk_ftl c y ∅)) with (mk_ftl c y' ∅). rewrite Hrun, bind_Ok_l.
  assert (set_ctl (c_set_partial (Some 0) (ctl s)) s = s) as ->.
  { destruct s as [[] ? ?]. cbn in *. by subst. }
  unfold print_lun_entitys_fifo. rewrite Hp. cbn [deref]. rewrite bind_Ok_l.
  rewrite (get_entity_Some _ _ _ He), !bind_Ok_l. exists s. split; [done|]. split; [done|]. split.
  - constructor; rewrite Hl2p; [done|]. intros b _. rewrite Hsys, Hv', Hv. done.
  - split; [by rewrite Hsys|]. exists e. split; [done|congruence].
Qed.

(* the driver starts in a good state: with a freshly allocated cache, an empty
    mapping table and any free list, [prepare_write_context] makes buffer 0 the
    partial buffer, at the start of the first free block (of block 0 when there is none),
    and leaves the other buffers empty; all the invariants of the write path hold. *)
Lemma prepare_write_context_inv c y bl :
  cache_upto c CB_ENTITYS_CNT → sys_inv y bl → vpctbl y = ∅ →
  ∃ s, prepare_write_context (mk_ftl c y ∅) = Ok s ∧
    wcb_inv s 0 (seqZ 1 (CB_ENTITYS_CNT - 1)) [] [] [] [] ∧ vpc_inv s ∧
    sys_inv (sys s) (tl bl) ∧ ∃ e, ents s !! 0 = Some e ∧ nand_blk (baddr e) = hd 0 bl.
Proof. apply prepare_write_context_ok. Qed.

(** ** Concrete states *)

(** A fresh cache writing into block 0 of fresh tables. *)
Lemma demo_start :
  ∃ s, wcb_inv s 0 (seqZ 1 (CB_ENTITYS_CNT - 1)) [] [] [] [] ∧ vpc_inv s ∧
    ∃ e, ents s !! 0 = Some e ∧ pos e = 0.
Proof.
  destruct (wcb_lun_mem_alloc_ok env_ok (mk_kheap 0 ∅) (λ _, eq_refl)) as (c & h & _ & Hc & _).
  destruct (start_base 0) as [Hb _]; [done|].
  destruct (get_lun_entity_spec c fresh_sysmeta ∅ (set_nand_blk 0 0) [] Hc fresh_sysmeta_inv Hb)
    as (s & _ & Hinv & Hsys & Hl & _ & e & He & He0 & _).
  exists s. split; [done|]. split; [|by exists e]. constructor; rewrite Hl; [done|].
  intros b _. by rewrite Hsys.
Qed.

Lemma prepare_write_context_inv_witness :
  ∃ c s, prepare_write_context (mk_ftl c fresh_sysmeta ∅) = Ok s ∧
    wcb_inv s 0 (seqZ 1 (CB_ENTITYS_CNT - 1)) [] [] [] [] ∧ vpc_inv s.
Proof.
  destruct (wcb_lun_mem_alloc_ok env_ok (mk_kheap 0 ∅) (λ _, eq_refl)) as (c & h & _ & Hc & _).
  destruct (prepare_write_context_inv c fresh_sysmeta []) as (s & Hrun & Hinv & Hv & _);
    [exact Hc|exact fresh_sysmeta_inv|reflexivity|].
  exists c, s. split; [exact Hrun|]. split; [exact Hinv|exact Hv].
Defined.

Definition demo_bio : bio := mk_bio 56 8192 true [[Byte.x01]; [Byte.x02]].

Lemma demo_bio_wf : bio_wf demo_bio 7 2.
Proof. constructor; try done; lia. Qed.

Lemma process_write_bio_spec_witness :
  ∃ s s' x, process_write_bio demo_bio s = Ok (FSCFTL_BIO_COMPLETE, s') ∧
    slot_data s' x = Some [Byte.x02].
Proof.
  destruct demo_start as (s & Hinv & Hv & e & He & Hp).
  pose proof (process_write_bio_spec s 0 (seqZ 1 15) [] [] [] [] e demo_bio 7 2 Hinv Hv He demo_bio_wf) as H.
  rewrite decide_True in H by (right; discriminate).
  destruct H as (s' & p' & es' & fs' & gs' & xs & Hrun & _ & _ & Hlen & _ & Hd & _).
  destruct (lookup_lt_is_Some_2 xs 1) as [x Hx]; [lia|].
  exists s, s', x. split; [exact Hrun|]. destruct (Hd _ _ Hx) as [-> _]. reflexivity.
Defined.


(** An empty flush bio. *)
Lemma zero_page_bio_faults_witness : ∃ s f, process_write_bio (mk_bio 0 0 true []) s = Fault f.
Proof.
  destruct demo_start as (s & Hinv & _ & e & He & Hp). exists s.
  apply (zero_page_bio_faults (mk_bio 0 0 true []) s 0 e).
  - cbn. unfold EXP_PPA_SIZE. lia.
  - exact (wi_partial _ _ _ _ _ _ _ (proj1 Hinv)).
  - exact (get_entity_Some _ _ _ He).
  - rewrite Hp. split; [lia|reflexivity].
  - rewrite (wcb_available_spec _ _ _ _ _ _ _ _ 0 Hinv He) by lia. f_equal.
    apply bool_decide_eq_true_2. right. discriminate.
Defined.
