(* ===== verification/WriteSystem.v ===== *)
(** * The write cache under concurrency

    Writers, the submitting thread and the completion interrupt share the cache.
    Each step below is what one of them does inside one critical section of
    [wcb_lock] or [l2ptbl_lock], or one slot copy with its atomic counter; a state
    adds to the tables the bios in progress and the lines the device has not
    completed.  Reachable states satisfy the invariant of [WriteInv] with the
    slots the bios still have to copy as the pending ones. *)

From S2P Require Import Prelude NandCfg Fifo Kernel SysMeta PpaCmd WriteCache WritePath WriteAlloc WriteInv WriteBio.

#[local] Open Scope Z_scope.

(** ** Moves between the places of a buffer *)

(** An update of the data of a buffer that keeps its counter. *)
Lemma inv_update s p es fs gs os pend en e e' :
  wcb_inv s p es fs gs os pend → ents s !! en = Some e → data_update e e' →
  fill_cnt e' = fill_cnt e → wcb_inv (put_entity en e' s) p es fs gs os pend.
Proof.
  intros [[H1 H2 H3 H4 H5 H6 H7 H8 H9 H10 H11 H12] Hlt] He Hu Hf.
  pose proof Hu as (Fi & Fp & Fb & Fq & Fl & _).
  assert (∀ i e0, ents (put_entity en e' s) !! i = Some e0 → ∃ e1, ents s !! i = Some e1 ∧
    index e0 = index e1 ∧ pos e0 = pos e1 ∧ baddr e0 = baddr e1 ∧ ppa e0 = ppa e1 ∧
    fill_cnt e0 = fill_cnt e1) as Hback.
  { intros i e0. cbn. destruct (decide (en = i)) as [<-|].
    - rewrite lookup_insert_eq. intros [= <-]. by exists e.
    - rewrite lookup_insert_ne by done. intros. by exists e0. }
  split; [constructor|]; cbn [put_entity set_ctl c_set_entitys ctl partial_entity empty_lun full_lun sys]; try done.
  - apply fifo_rep_frame with (ents s); [|done]. intros. by apply links_data_update with e.
  - apply fifo_rep_frame with (ents s); [|done]. intros. by apply links_data_update with e.
  - intros i Hi. destruct (H5 i Hi) as (e0 & He0 & Hi0). cbn. destruct (decide (en = i)) as [<-|].
    + rewrite lookup_insert_eq. eexists. split; [done|]. congruence.
    + rewrite lookup_insert_ne by done. by eexists.
  - intros e0 Hp0. destruct (Hback p e0 Hp0) as (e1 & He1 & _ & -> & _). auto.
  - intros i e0 Hi Hie. destruct (Hback i e0 Hie) as (e1 & He1 & _ & Hp1 & Hb1 & Hq1 & _).
    unfold ppas_ok. rewrite Hp1, Hb1, Hq1. by apply (H7 i).
  - intros i e0 Hi Hie. destruct (Hback i e0 Hie) as (e1 & He1 & _ & Hp1 & _ & _ & Hf1).
    rewrite Hp1, Hf1. by apply H8.
  - intros i e0 Hi Hie. destruct (Hback i e0 Hie) as (e1 & He1 & _ & -> & _). by apply (H9 i).
  - intros x Hx. destruct (H11 x Hx) as [Hx1 Hx2]. split; [done|]. intros e0 Hie.
    destruct (Hback _ e0 Hie) as (e1 & He1 & _ & -> & _). by apply Hx2.
  - intros e0 Hp0. destruct (Hback p e0 Hp0) as (e1 & He1 & _ & -> & _). auto.
Qed.

(** Changing links only, with the FIFOs moved along. *)
Lemma inv_relink s p es fs gs os pend f1 f2 m es' fs' os' :
  wcb_inv s p es fs gs os pend → links_only (ents s) m →
  fifo_rep m f1 es' → fifo_rep m f2 fs' →
  p :: es' ++ fs' ++ gs ++ os' ≡ₚ p :: es ++ fs ++ gs ++ os →
  (∀ i, i ∈ fs' ++ os' → i ∈ fs ++ os) →
  wcb_inv (set_ctl (c_set_entitys m (c_set_full f2 (c_set_empty f1 (ctl s)))) s)
    p es' fs' gs os' pend.
Proof.
  intros [[H1 H2 H3 H4 H5 H6 H7 H8 H9 H10 H11 H12] Hlt] Hlo Hr1 Hr2 Hperm Hsub.
  assert (∀ i e0, m !! i = Some e0 → ∃ e1 n q, ents s !! i = Some e1 ∧
    e0 = e_set_next n (e_set_prev q e1)) as Hback by (intros; by apply links_only_entity with m).
  split; [constructor|]; cbn; try done.
  - by rewrite Hperm.
  - intros i Hi. destruct (H5 i Hi) as (e0 & He0 & Hi0).
    destruct (links_only_Some _ _ _ _ Hlo He0) as (? & ? & ->). by eexists.
  - intros e0 Hp0. destruct (Hback p e0 Hp0) as (e1 & ? & ? & He1 & ->). cbn. auto.
  - intros i e0 Hi Hie. destruct (Hback i e0 Hie) as (e1 & ? & ? & He1 & ->). apply (H7 i e1); [|done].
    rewrite elem_of_cons, elem_of_app in Hi |- *. destruct Hi as [Hi|[Hi|Hi%Hsub]]; auto.
  - intros i e0 Hi Hie. destruct (Hback i e0 Hie) as (e1 & ? & ? & He1 & ->). by apply (H8 i e1).
  - intros i e0 Hi Hie. destruct (Hback i e0 Hie) as (e1 & ? & ? & He1 & ->). cbn. apply (H9 i e1); [|done].
    rewrite elem_of_app in Hi |- *. destruct Hi as [Hi|Hi%Hsub]; auto.
  - intros x Hx. destruct (H11 x Hx) as [Hx1 Hx2]. split; [done|]. intros e0 Hie.
    destruct (Hback _ e0 Hie) as (e1 & ? & ? & He1 & ->). cbn. by apply Hx2.
  - intros e0 Hp0. destruct (Hback p e0 Hp0) as (e1 & ? & ? & He1 & ->). cbn. auto.
Qed.

Lemma same_slots_relink s s' : links_only (ents s) (ents s') → same_slots s s'.
Proof.
  intros Hlo i. specialize (Hlo i). destruct (ents s !! i), (ents s' !! i); try done.
  by destruct Hlo as (? & ? & ->).
Qed.

(** Disjointness of the places. *)
Lemma inv_disjoint s p es fs gs os pend :
  wcb_inv s p es fs gs os pend →
  (∀ i, i ∈ es → i ∉ fs ∧ i ∉ gs ∧ i ∉ os ∧ i ≠ p) ∧ (∀ i, i ∈ fs → i ∉ gs ∧ i ∉ os ∧ i ≠ p) ∧
  (∀ i, i ∈ gs → i ∉ os ∧ i ≠ p) ∧ (∀ i, i ∈ os → i ≠ p) ∧ NoDup fs ∧ NoDup os.
Proof.
  intros [Hpre _]. pose proof (pre_nodup Hpre) as Hnd. clear Hpre.
  rewrite NoDup_cons, !NoDup_app in Hnd. set_solver.
Qed.

(** The submitting thread takes the head of the full FIFO. *)
Lemma pull_full_spec s p es en fs gs os pend :
  wcb_inv s p es (en :: fs) gs os pend →
  ∃ s', pull_full s = Ok (Some en, s') ∧ wcb_inv s' p es fs gs (en :: os) pend ∧
    links_only (ents s) (ents s') ∧ l2ptbl s' = l2ptbl s ∧ sys s' = sys s.
Proof.
  intros Hinv. pose proof (inv_disjoint _ _ _ _ _ _ _ Hinv) as (Hes & _).
  unfold pull_full. rewrite pull_lun_entity_link.
  destruct (link_pull_spec _ _ _ _ (wi_full _ _ _ _ _ _ _ (proj1 Hinv))) as (f & m & -> & Hr & Hlo & Hj).
  rewrite bind_Ok_l. eexists. split; [done|]. split; [|done].
  pose proof (inv_relink s p es (en :: fs) gs os pend (empty_lun (ctl s)) f m es fs (en :: os) Hinv Hlo) as H.
  apply H; [|done| |].
  - apply fifo_rep_frame with (ents s); [|exact (wi_empty _ _ _ _ _ _ _ (proj1 Hinv))].
    intros j Hje. unfold links. rewrite Hj; [done|]. by apply Hes.
  - clear. solve_Permutation.
  - intros i Hi. list_mem Hi.
Qed.

Lemma pull_full_empty s p es gs os pend :
  wcb_inv s p es [] gs os pend → ∃ s', pull_full s = Ok (None, s') ∧ s' = s.
Proof.
  intros Hinv. unfold pull_full. rewrite pull_lun_entity_link.
  rewrite (link_pull_empty _ _ (wi_full _ _ _ _ _ _ _ (proj1 Hinv))), bind_Ok_l.
  eexists. split; [done|]. by destruct s as [[] ? ?].
Qed.

(** A buffer whose lines are all on flash joins the empty FIFO. *)
Lemma push_empty_spec s p es fs gs os os' pend en :
  wcb_inv s p es fs gs os pend → os ≡ₚ en :: os' →
  ∃ f m, push_lun_entity_to_fifo (empty_lun (ctl s)) en (ents s) = Ok (f, m) ∧
    wcb_inv (set_ctl (c_set_entitys m (c_set_empty f (ctl s))) s) p (es ++ [en]) fs gs os' pend ∧
    links_only (ents s) m.
Proof.
  intros Hinv Hos. pose proof (inv_disjoint _ _ _ _ _ _ _ Hinv) as (Hes & Hfs & _).
  assert (en ∈ os) as Hin by (rewrite Hos; by left).
  assert (0 ≤ en < CB_ENTITYS_CNT) as Hr by (apply (pre_range (proj1 Hinv)); list_mem Hin).
  destruct (wi_index _ _ _ _ _ _ _ (proj1 Hinv) en Hr) as (e & He & Hix).
  rewrite push_lun_entity_link by (intros e0 He0; congruence).
  destruct (link_push_spec _ _ _ en (wi_empty _ _ _ _ _ _ _ (proj1 Hinv))) as (f & m & -> & Hrep & Hlo & Hj).
  { intros Hin'. by apply Hes in Hin' as (_ & _ & ? & _). }
  { unfold NIL. change CB_ENTITYS_CNT with 16 in Hr. lia. }
  { by exists e. }
  exists f, m. split; [done|]. split; [|done].
  pose proof (inv_relink s p es fs gs os pend f (full_lun (ctl s)) m (es ++ [en]) fs os' Hinv Hlo Hrep) as H.
  apply H.
  - apply fifo_rep_frame with (ents s); [|exact (wi_full _ _ _ _ _ _ _ (proj1 Hinv))].
    intros j Hjf. unfold links. rewrite Hj; [done|]. rewrite elem_of_app, list_elem_of_singleton.
    intros [Hje| ->].
    + by apply Hes in Hje as [? _].
    + by apply Hfs in Hjf as (_ & ? & _).
  - rewrite Hos. clear. solve_Permutation.
  - intros i Hi. rewrite elem_of_app in Hi |- *. rewrite Hos, elem_of_cons. tauto.
Qed.

Lemma inv_outstanding s p es fs gs os pend n :
  wcb_inv s p es fs gs os pend →
  wcb_inv (set_ctl (c_set_outstanding n (ctl s)) s) p es fs gs os pend.
Proof.
  intros [[H1 H2 H3 H4 H5 H6 H7 H8 H9 H10 H11 H12] Hlt]. split; [constructor|]; done.
Qed.

(** ** The lines of a LUN buffer on the device *)

(** The completion mask is full when every line is marked. *)
Lemma line_mask_full f :
  0 ≤ f < 2 ^ 8 →
  f = u16 (BIT2MASK CFG_DRIVE_LINE_NUM) ↔ ∀ i, 0 ≤ i < CFG_DRIVE_LINE_NUM → Z.testbit f i = true.
Proof.
  intros Hf. change (u16 (BIT2MASK CFG_DRIVE_LINE_NUM)) with (Z.ones 8).
  change CFG_DRIVE_LINE_NUM with 8. split.
  - intros -> i Hi. apply Z.ones_spec_low. lia.
  - intros Hall. apply Z.bits_inj'. intros i Hi. destruct (decide (i < 8)).
    + rewrite Hall by lia. symmetry. apply Z.ones_spec_low. lia.
    + rewrite (testbit_high f 8 i) by lia. symmetry. apply Z.ones_spec_high. lia.
Qed.

(** [dev] lists the lines in flight: those not yet marked in [cqe_flag]. *)
Record dev_ok (s : ftl) (os : list Z) (dev : list (Z * Z)) : Prop := {
  do_in : ∀ x, x ∈ dev → x.1 ∈ os ∧ 0 ≤ x.2 < CFG_DRIVE_LINE_NUM;
  do_nodup : NoDup dev;
  do_flag : ∀ en e, en ∈ os → ents s !! en = Some e → 0 ≤ cqe_flag e < 2 ^ 8 ∧
      (∀ i, 0 ≤ i < CFG_DRIVE_LINE_NUM → Z.testbit (cqe_flag e) i = true ↔ (en, i) ∉ dev);
  do_some : ∀ en, en ∈ os → ∃ i, (en, i) ∈ dev;
}.

Lemma lun_start_spec s p es fs gs os pend en :
  wcb_inv s p es fs gs os pend → en ∈ os →
  ∃ e s', lun_start en s = Ok (e_set_cqe_flag 0 e, s') ∧ ents s !! en = Some e ∧
    wcb_inv s' p es fs gs os pend ∧ ents s' = <[en := e_set_cqe_flag 0 e]> (ents s).
Proof.
  intros Hinv Hin.
  destruct (pre_lookup (proj1 Hinv) en) as (e & He & _); [list_mem Hin|].
  unfold lun_start. pose proof (inv_outstanding _ _ _ _ _ _ _ (s32 (outstanding_lun (ctl s) + 1)) Hinv) as Hinv1.
  set (s1 := set_ctl _ s) in *. rewrite (get_entity_Some en e s1) by done. rewrite bind_Ok_l.
  exists e. eexists. split; [done|]. split; [done|]. split; [|done].
  by apply inv_update with e.
Qed.

(** Marking a line that was in flight. *)
Lemma mark_line_spec s os dev dev' en line e :
  dev_ok s os dev → dev ≡ₚ (en, line) :: dev' → ents s !! en = Some e →
  let flag := u16 (BIT_SET (cqe_flag e) line) in
  BIT_TEST (cqe_flag e) line = false ∧ 0 ≤ flag < 2 ^ 8 ∧
  (∀ i, 0 ≤ i < CFG_DRIVE_LINE_NUM → Z.testbit flag i = true ↔ (en, i) ∉ dev').
Proof.
  intros [H1 H2 H3 H4] Hp He flag. destruct (H1 (en, line)) as [Hos Hline]; [rewrite Hp; by left|].
  cbn [fst snd] in *. destruct (H3 en e Hos He) as [Hr Hf]. change CFG_DRIVE_LINE_NUM with 8 in *.
  rewrite Hp in H2. apply NoDup_cons in H2 as [Hnin _].
  assert (0 ≤ BIT_SET (cqe_flag e) line < 2 ^ 8) as Hb by (apply BIT_SET_bound; lia).
  assert (flag = BIT_SET (cqe_flag e) line) as Hflag by (apply u16_small; lia).
  split; [|split].
  - rewrite BIT_TEST_testbit by lia. destruct (Z.testbit (cqe_flag e) line) eqn:Hbit; [|done].
    exfalso. apply Hf in Hbit; [|lia]. apply Hbit. rewrite Hp. by left.
  - by rewrite Hflag.
  - intros i Hi. rewrite Hflag, BIT_SET_testbit by lia. specialize (Hf i Hi). rewrite Hp in Hf.
    rewrite not_elem_of_cons in Hf. destruct (decide (line = i)) as [->|Hne].
    + rewrite bool_decide_eq_true_2 by done. done.
    + rewrite bool_decide_eq_false_2 by done. cbn. rewrite Hf. split; [by intros [_ ?]|].
      intros ?. split; [congruence|done].
Qed.

(** The lines of the other buffers are not affected. *)
Lemma dev_ok_mark s s' os dev dev' en line e flag :
  dev_ok s os dev → dev ≡ₚ (en, line) :: dev' → ents s !! en = Some e →
  links_only (<[en := e_set_cqe_flag flag e]> (ents s)) (ents s') →
  0 ≤ flag < 2 ^ 8 → (∀ i, 0 ≤ i < CFG_DRIVE_LINE_NUM → Z.testbit flag i = true ↔ (en, i) ∉ dev') →
  ∀ os', (∀ i, i ∈ os' → i ∈ os) → (∀ x, x ∈ dev' → x.1 ∈ os') →
  (∀ i, i ∈ os' → i ≠ en ∨ en ∈ dev'.*1) → dev_ok s' os' dev'.
Proof.
  intros [H1 H2 H3 H4] Hp He Hlo Hr Hf os' Hsub Hdev Hen. constructor.
  - intros x Hx. split; [by apply Hdev|]. apply H1. rewrite Hp. by right.
  - rewrite Hp in H2. by apply NoDup_cons in H2 as [_ ?].
  - intros i e0 Hi Hie. destruct (links_only_entity _ _ _ _ Hlo Hie) as (e1 & ? & ? & He1 & ->). cbn.
    destruct (decide (en = i)) as [<-|Hne].
    + rewrite lookup_insert_eq in He1. by injection He1 as <-.
    + rewrite lookup_insert_ne in He1 by done. destruct (H3 i e1 (Hsub _ Hi) He1) as [Hr1 Hf1].
      split; [done|]. intros k Hk. rewrite (Hf1 k Hk), Hp, not_elem_of_cons. split; [by intros [_ ?]|].
      intros ?. split; [congruence|done].
  - intros i Hi. destruct (decide (i = en)) as [->|Hne].
    + destruct (Hen en Hi) as [?|Hin]; [done|]. apply list_elem_of_fmap in Hin as ([? k] & -> & Hk).
      by exists k.
    + destruct (H4 i (Hsub _ Hi)) as [k Hk]. exists k. rewrite Hp in Hk.
      apply elem_of_cons in Hk as [[= ? ?]|?]; [congruence|done].
Qed.

(** A completed line.  The buffer is released by the last one. *)
Lemma lun_line_done_spec s p es fs gs os pend dev dev' en line :
  wcb_inv s p es fs gs os pend → dev_ok s os dev → dev ≡ₚ (en, line) :: dev' →
  ∃ b s', lun_line_done en line s = Ok (b, s') ∧ same_slots s s' ∧
    if decide (en ∈ dev'.*1) then
      b = false ∧ wcb_inv s' p es fs gs os pend ∧ dev_ok s' os dev'
    else ∃ os', os ≡ₚ en :: os' ∧ b = true ∧ wcb_inv s' p (es ++ [en]) fs gs os' pend ∧
           dev_ok s' os' dev'.
Proof.
  intros Hinv Hdev Hp. destruct (do_in _ _ _ Hdev (en, line)) as [Hos _]; [rewrite Hp; by left|].
  cbn [fst] in Hos. destruct (pre_lookup (proj1 Hinv) en) as (e & He & _); [list_mem Hos|].
  destruct (mark_line_spec s os dev dev' en line e Hdev Hp He) as (Hbt & Hr & Hf).
  unfold lun_line_done. rewrite (get_entity_Some _ _ _ He), bind_Ok_l. rewrite Hbt.
  set (flag := u16 (BIT_SET (cqe_flag e) line)) in *. set (s1 := put_entity en (e_set_cqe_flag flag e) s).
  assert (wcb_inv s1 p es fs gs os pend) as Hinv1 by (by apply inv_update with e).
  assert (data_update e (e_set_cqe_flag flag e)) as Hu by done.
  assert (flag = u16 (BIT2MASK CFG_DRIVE_LINE_NUM) ↔ en ∉ dev'.*1) as Hfull.
  { rewrite line_mask_full by done. split.
    - intros Hall Hin. apply list_elem_of_fmap in Hin as ([? k] & -> & Hk). cbn in *.
      destruct (do_in _ _ _ Hdev (z, k)) as [_ Hkr]; [rewrite Hp; by right|]. cbn in Hkr.
      by apply (Hf k Hkr); [apply Hall|].
    - intros Hn i Hi. apply Hf; [done|]. intros Hin. apply Hn. apply list_elem_of_fmap. by exists (en, i). }
  case_decide as Hd.
  - destruct (proj1 (elem_of_Permutation _ _) Hos) as [os' Hos'].
    destruct (push_empty_spec s1 p es fs gs os os' pend en Hinv1 Hos') as (f & m & -> & Hinv2 & Hlo).
    rewrite bind_Ok_l. do 2 eexists. split; [done|]. split.
    { apply same_slots_links with en e (e_set_cqe_flag flag e); done. }
    rewrite (decide_False (P := en ∈ _)) by (by apply Hfull).
    exists os'. split; [done|]. split; [done|]. split; [by apply inv_outstanding|].
    apply (dev_ok_mark s _ os dev dev' en line e flag); try done.
    + intros i Hi. rewrite Hos'. by right.
    + intros x Hx. destruct (do_in _ _ _ Hdev x) as [Hxo _]; [rewrite Hp; by right|].
      rewrite Hos' in Hxo. apply elem_of_cons in Hxo as [Hxe|]; [|done]. exfalso.
      apply Hfull in Hd. apply Hd. apply list_elem_of_fmap. by exists x.
    + intros i Hi. left. intros ->. pose proof (inv_disjoint _ _ _ _ _ _ _ Hinv) as (_ & _ & _ & _ & _ & Hnd).
      rewrite Hos' in Hnd. by apply NoDup_cons in Hnd as [? _].
  - assert (en ∈ dev'.*1) as Hin by (destruct (decide (en ∈ dev'.*1)); [done|]; exfalso; by apply Hd, Hfull).
    do 2 eexists. split; [done|]. split.
    { apply same_slots_links with en e (e_set_cqe_flag flag e); [done..|apply links_only_refl]. }
    rewrite (decide_True (P := en ∈ _)) by done. split; [done|]. split; [done|].
    apply (dev_ok_mark s _ os dev dev' en line e flag); try done; [apply links_only_refl| |auto].
    intros x Hx. apply (do_in _ _ _ Hdev). rewrite Hp. by right.
Qed.

(** ** The system *)

(** A bio whose slots are reserved: what is left of it, the slots still to copy, and
    its [wcb_resource]. *)
Record job : Type := mk_job {
  jb_bio : bio;
  jb_todo : list (Z * Z);
  jb_ctx : wcb_bio_ctx;
}.

Record wsys : Type := mk_wsys {
  ws_ftl : ftl;
  ws_jobs : list job;
  ws_dev : list (Z * Z);   (** LUN buffer and line of the writes in flight *)
}.

Definition pending (jobs : list job) : list (Z * Z) := mjoin (jb_todo <$> jobs).

Inductive wstep : wsys → wsys → Prop :=
  | W_reserve b slba n w s s' jobs dev :
      bio_wf b slba n → reserve_wcb slba (Z.of_nat n) s = Ok (Some w, s') →
      wstep (mk_wsys s jobs dev) (mk_wsys s' (jobs ++ [mk_job b (wcb_slots w) w]) dev)
  | W_wait slba n s s' jobs dev :
      reserve_wcb slba n s = Ok (None, s') →
      wstep (mk_wsys s jobs dev) (mk_wsys s' jobs dev)
  | W_copy x b b' todo w s s' j1 j2 dev :
      flush_slot x (s, b) = Ok (s', b') →
      wstep (mk_wsys s (j1 ++ mk_job b (x :: todo) w :: j2) dev)
            (mk_wsys s' (j1 ++ mk_job b' todo w :: j2) dev)
  | W_map b w s s' j1 j2 dev :
      set_l2ptbl_write_path w s = Ok s' →
      wstep (mk_wsys s (j1 ++ mk_job b [] w :: j2) dev) (mk_wsys s' (j1 ++ j2) dev)
  | W_submit en e s s1 s2 jobs dev :
      pull_full s = Ok (Some en, s1) → lun_start en s1 = Ok (e, s2) →
      wstep (mk_wsys s jobs dev)
            (mk_wsys s2 jobs (dev ++ ((λ line, (en, line)) <$> seqZ 0 CFG_DRIVE_LINE_NUM)))
  | W_done en line b s s' jobs d1 d2 :
      lun_line_done en line s = Ok (b, s') →
      wstep (mk_wsys s jobs (d1 ++ (en, line) :: d2)) (mk_wsys s' jobs (d1 ++ d2)).

(** A bio in progress has the data for its remaining slots. *)
Definition job_ok (s : ftl) (j : job) : Prop :=
  ∃ slba, slots_at s slba (jb_todo j) ∧ 0 ≤ slba ∧
    slba + Z.of_nat (length (jb_todo j)) ≤ MAX_USER_LBA + 1 ∧
    (length (jb_todo j) ≤ length (bi_pages (jb_bio j)))%nat.

Record sys_at (y : wsys) (p : Z) (es fs gs os : list Z) : Prop := {
  sa_inv : wcb_inv (ws_ftl y) p es fs gs os (pending (ws_jobs y));
  sa_dev : dev_ok (ws_ftl y) os (ws_dev y);
  sa_jobs : Forall (job_ok (ws_ftl y)) (ws_jobs y);
}.

Definition sys_ok (y : wsys) : Prop := ∃ p es fs gs os, sys_at y p es fs gs os.

(** *** Preservation *)

Lemma pending_mid j1 j j2 : pending (j1 ++ j :: j2) ≡ₚ jb_todo j ++ pending (j1 ++ j2).
Proof.
  unfold pending. rewrite !fmap_app, !join_app. cbn. apply Permutation_app_swap_app.
Qed.

Lemma jobs_same s s' jobs : same_slots s s' → Forall (job_ok s) jobs → Forall (job_ok s') jobs.
Proof.
  intros Hs Hj. apply (Forall_impl _ _ _ Hj). intros j (slba & Hat & Hr).
  exists slba. split; [by apply slots_at_same with s|done].
Qed.

Lemma dev_same s s' os dev : same_flags s s' → dev_ok s os dev → dev_ok s' os dev.
Proof.
  intros Hs [H1 H2 H3 H4]. constructor; try done. intros en e' Hen He'.
  specialize (Hs en). rewrite He' in Hs. destruct (ents s !! en) as [e|] eqn:He; [|done].
  injection Hs as ->. by apply H3.
Qed.

Lemma job_in_pending j jobs x : j ∈ jobs → x ∈ jb_todo j → x ∈ pending jobs.
Proof.
  intros Hj Hx. unfold pending. apply list_elem_of_join. exists (jb_todo j). split; [done|].
  by apply list_elem_of_fmap_2.
Qed.

Lemma ws_reserve_ok b slba n w s s' jobs dev :
  bio_wf b slba n → reserve_wcb slba (Z.of_nat n) s = Ok (Some w, s') →
  sys_ok (mk_wsys s jobs dev) → sys_ok (mk_wsys s' (jobs ++ [mk_job b (wcb_slots w) w]) dev).
Proof.
  intros Hb Hrun (p & es & fs & gs & os & [Hinv Hdev Hjobs]).
  cbn [ws_ftl ws_jobs ws_dev] in *.
  destruct (pre_partial (proj1 Hinv)) as (e & He & _).
  pose proof (reserve_wcb_spec s p es fs gs os _ e slba n Hinv He (bw_n _ _ _ Hb)) as Hres.
  case_decide; [|congruence]. destruct Hres as (w' & s1 & p' & es' & gs' & Hrun' & Hinv1 & Hr).
  rewrite Hrun in Hrun'. injection Hrun' as <- <-. exists p', es', fs, gs', os. constructor; cbn.
  - unfold pending. rewrite fmap_app, join_app. cbn. by rewrite app_nil_r.
  - destruct Hdev as [H1 H2 H3 H4]. constructor; try done. intros en e' Hen He'.
    destruct (rs_flag _ _ _ _ _ _ _ Hr en e') as (e0 & He0 & ->); [|done|by apply H3].
    intros Hes. by apply (inv_disjoint _ _ _ _ _ _ _ Hinv) in Hes as (_ & _ & ? & _).
  - apply Forall_app. split.
    + rewrite Forall_forall in Hjobs |- *. intros j Hj. destruct (Hjobs j Hj) as (sl & Hat & Hrest).
      exists sl. split; [|done]. intros k x Hk. apply (rs_keep _ _ _ _ _ _ _ Hr); [|by apply Hat].
      apply job_in_pending with j; [done|]. by eapply list_elem_of_lookup_2.
    + apply Forall_singleton. exists slba. cbn. rewrite (rs_len _ _ _ _ _ _ _ Hr).
      destruct Hb. split; [exact (rs_slot _ _ _ _ _ _ _ Hr)|]. split; [done|]. split; [done|lia].
Qed.

Lemma ws_copy_ok x b b' todo w s s' j1 j2 dev :
  flush_slot x (s, b) = Ok (s', b') →
  sys_ok (mk_wsys s (j1 ++ mk_job b (x :: todo) w :: j2) dev) →
  sys_ok (mk_wsys s' (j1 ++ mk_job b' todo w :: j2) dev).
Proof.
  intros Hrun (p & es & fs & gs & os & [Hinv Hdev Hjobs]).
  cbn [ws_ftl ws_jobs ws_dev] in *.
  apply Forall_app in Hjobs as [Hj1 [Hj Hj2]%Forall_cons].
  destruct Hj as (slba & Hat & H0 & Hmax & Hlen). cbn in Hat, Hmax, Hlen.
  apply slots_at_cons in Hat as [Hx Hat]. destruct (user_lba_small slba) as [Hu _]; [cbn [length] in Hmax; lia|].
  rewrite Hu in Hx. destruct (bi_pages b) as [|pg pgs] eqn:Hpg; [cbn in Hlen; lia|].
  destruct (flush_slot_spec s p es fs gs os _ (todo ++ pending (j1 ++ j2)) x slba b pg pgs Hinv)
    as (s1 & fs1 & gs1 & Hrun1 & Hinv1 & Hss & Hfl & _); [exact (pending_mid j1 (mk_job b (x :: todo) w) j2)|done|lia|done|].
  rewrite Hrun in Hrun1. injection Hrun1 as -> ->.
  exists p, es, fs1, gs1, os. constructor; cbn [ws_ftl ws_jobs ws_dev].
  - apply wcb_inv_perm with (todo ++ pending (j1 ++ j2)); [|done].
    symmetry. exact (pending_mid j1 (mk_job _ todo w) j2).
  - by apply dev_same with s.
  - apply Forall_app. split; [by apply jobs_same with s|]. apply Forall_cons.
    split; [|by apply jobs_same with s]. exists (slba + 1). cbn [jb_todo jb_bio].
    split; [by apply slots_at_same with s|]. split; [lia|]. split; [cbn [length] in Hmax; lia|].
    unfold bio_advance. cbn [bi_pages]. rewrite Hpg. exact (le_S_n _ _ Hlen).
Qed.

Lemma reserve_none slba n s s' : reserve_wcb slba n s = Ok (None, s') → s' = s.
Proof.
  unfold reserve_wcb. intros H. apply bind_Ok in H as ([] & _ & H).
  - apply bind_Ok in H as ([[? ?] ?] & _ & H). done.
  - apply bind_Ok in H as (? & _ & H). by injection H as <-.
Qed.

(** The mapping step does not touch the cache. *)
Lemma set_l2p_slot_ctl x s s' : set_l2p_slot x s = Ok s' → ctl s' = ctl s ∧ only_vpc (sys s) (sys s').
Proof.
  unfold set_l2p_slot. destruct x as [en k]. intros H. apply bind_Ok in H as (e & _ & H).
  apply bind_Ok in H as (l & _ & H). apply bind_Ok in H as (q & _ & H).
  unfold set_l2ptbl_incache in H. case_decide; [|by injection H as <-].
  apply bind_Ok in H as (prev & _ & H). apply bind_Ok in H as (y1 & H1 & H).
  apply bind_Ok in H as (m & _ & H). apply bind_Ok in H as (y2 & H2 & H). injection H as <-.
  assert (only_vpc (sys s) y1) as [A1 A2].
  { case_decide; [|by injection H1 as <-]. unfold vpc_dec in H1.
    apply bind_Ok in H1 as (? & _ & H1). apply bind_Ok in H1 as (? & _ & H1).
    apply bind_Ok in H1 as (? & _ & H1). by injection H1 as <-. }
  unfold vpc_inc in H2. apply bind_Ok in H2 as (? & _ & H2). apply bind_Ok in H2 as (? & _ & H2).
  apply bind_Ok in H2 as (? & _ & H2). injection H2 as <-. done.
Qed.

Lemma set_l2p_slots_ctl xs : ∀ s s', mfor xs set_l2p_slot s = Ok s' →
  ctl s' = ctl s ∧ only_vpc (sys s) (sys s').
Proof.
  induction xs as [|x xs IH]; intros s s' H; cbn [mfor] in H; [by injection H as <-|].
  apply bind_Ok in H as (s1 & H1 & H). apply set_l2p_slot_ctl in H1 as [Hc1 [Ha Hb]].
  destruct (IH _ _ H) as [Hc2 [Ha2 Hb2]]. split; [congruence|]. split; congruence.
Qed.

Lemma ws_map_ok b w s s' j1 j2 dev :
  set_l2ptbl_write_path w s = Ok s' →
  sys_ok (mk_wsys s (j1 ++ mk_job b [] w :: j2) dev) → sys_ok (mk_wsys s' (j1 ++ j2) dev).
Proof.
  intros Hrun (p & es & fs & gs & os & [Hinv Hdev Hjobs]). cbn [ws_ftl ws_jobs ws_dev] in *.
  apply set_l2p_slots_ctl in Hrun as [Hc Hy]. exists p, es, fs, gs, os. constructor; cbn [ws_ftl ws_jobs ws_dev].
  - apply wcb_pre_cong with s; [done..|]. apply (wcb_inv_perm _ _ _ _ _ _ _ _ (pending_mid j1 (mk_job b [] w) j2) Hinv).
  - apply dev_same with s; [|done]. intros i. by rewrite Hc.
  - apply jobs_same with s; [intros i; by rewrite Hc|].
    apply Forall_app in Hjobs as [? [_ ?]%Forall_cons]. by apply Forall_app.
Qed.

(** The lines of a LUN buffer that starts. *)
Lemma dev_ok_start s s' os dev en e :
  dev_ok s os dev → en ∉ os → links_only (ents s) (ents s') → ents s' !! en = Some e →
  ∀ s2, ents s2 = <[en := e_set_cqe_flag 0 e]> (ents s') →
  dev_ok s2 (en :: os) (dev ++ ((λ line, (en, line)) <$> seqZ 0 CFG_DRIVE_LINE_NUM)).
Proof.
  intros [H1 H2 H3 H4] Hnin Hlo He s2 Hs2. constructor.
  - intros x [Hx|Hx]%elem_of_app.
    + destruct (H1 x Hx). split; [by right|done].
    + apply list_elem_of_fmap in Hx as (k & -> & Hk%elem_of_seqZ). cbn. split; [by left|lia].
  - apply NoDup_app. split; [done|]. split.
    + intros x Hx Hx2. destruct (H1 x Hx) as [Hxo _].
      apply list_elem_of_fmap in Hx2 as (k & -> & _). done.
    + apply NoDup_fmap_2; [|apply NoDup_seqZ]. intros a b. by intros [= ->].
  - intros i e0 Hi. rewrite Hs2. destruct (decide (en = i)) as [<-|Hne].
    + rewrite lookup_insert_eq. intros [= <-]. split; [cbn; lia|]. intros k Hk. cbn.
      rewrite Z.testbit_0_l. split; [done|]. intros Hn. exfalso. apply Hn, elem_of_app. right.
      apply list_elem_of_fmap. exists k. split; [done|]. apply elem_of_seqZ. lia.
    + rewrite lookup_insert_ne by done. apply elem_of_cons in Hi as [->|Hi]; [done|]. intros He0.
      destruct (links_only_entity _ _ _ _ Hlo He0) as (e1 & ? & ? & He1 & ->).
      destruct (H3 i e1 Hi He1) as [Hr Hf]. split; [done|]. intros k Hk. cbn.
      rewrite (Hf k Hk), not_elem_of_app. split; [|by intros [? _]]. intros Hn. split; [done|].
      intros Hin. apply list_elem_of_fmap in Hin as (? & [= ? ?] & _). congruence.
  - intros i [->|Hi]%elem_of_cons.
    + exists 0. apply elem_of_app. right. apply list_elem_of_fmap. exists 0. split; [done|].
      apply elem_of_seqZ. change CFG_DRIVE_LINE_NUM with 8. lia.
    + destruct (H4 i Hi) as [k Hk]. exists k. apply elem_of_app. by left.
Qed.

Lemma ws_submit_at en e s s1 s2 jobs dev p es fs gs os :
  pull_full s = Ok (Some en, s1) → lun_start en s1 = Ok (e, s2) →
  sys_at (mk_wsys s jobs dev) p es fs gs os →
  ∃ fs', fs = en :: fs' ∧
    sys_at (mk_wsys s2 jobs (dev ++ ((λ line, (en, line)) <$> seqZ 0 CFG_DRIVE_LINE_NUM)))
      p es fs' gs (en :: os).
Proof.
  intros Hpull Hstart [Hinv Hdev Hjobs]. cbn [ws_ftl ws_jobs ws_dev] in *.
  destruct fs as [|en' fs].
  { destruct (pull_full_empty _ _ _ _ _ _ Hinv) as (? & Hp & _). congruence. }
  destruct (pull_full_spec _ _ _ _ _ _ _ _ Hinv) as (s1' & Hp & Hinv1 & Hlo & _).
  rewrite Hpull in Hp. injection Hp as <- <-.
  destruct (lun_start_spec _ _ _ _ _ _ _ en Hinv1) as (e0 & s2' & Hst & He0 & Hinv2 & Hs2); [by left|].
  rewrite Hstart in Hst. injection Hst as -> <-.
  assert (same_slots s s2) as Hss.
  { apply same_slots_trans with s1; [by apply same_slots_relink|].
    apply same_slots_links with en e0 (e_set_cqe_flag 0 e0); [done..|]. rewrite Hs2. apply links_only_refl. }
  exists fs. split; [done|]. constructor; cbn [ws_ftl ws_jobs ws_dev].
  - done.
  - apply dev_ok_start with s s1 e0; try done.
    destruct (inv_disjoint _ _ _ _ _ _ _ Hinv) as (_ & Hfs & _). by apply (Hfs en); left.
  - by apply jobs_same with s.
Qed.

Lemma ws_done_at en line b s s' jobs d1 d2 p es fs gs os :
  lun_line_done en line s = Ok (b, s') →
  sys_at (mk_wsys s jobs (d1 ++ (en, line) :: d2)) p es fs gs os →
  ∃ es' os', sys_at (mk_wsys s' jobs (d1 ++ d2)) p es' fs gs os'.
Proof.
  intros Hrun [Hinv Hdev Hjobs]. cbn [ws_ftl ws_jobs ws_dev] in *.
  destruct (lun_line_done_spec s p es fs gs os _ _ (d1 ++ d2) en line Hinv Hdev)
    as (b' & s1 & Hrun' & Hss & Hres); [by rewrite <-Permutation_middle|].
  rewrite Hrun in Hrun'. injection Hrun' as <- <-.
  assert (Forall (job_ok s') jobs) as Hj by (by apply jobs_same with s).
  case_decide.
  - destruct Hres as (_ & Hinv' & Hdev'). exists es, os. by constructor.
  - destruct Hres as (os' & _ & _ & Hinv' & Hdev'). exists (es ++ [en]), os'. by constructor.
Qed.

Lemma wstep_ok y y' : wstep y y' → sys_ok y → sys_ok y'.
Proof.
  destruct 1.
  - by eapply ws_reserve_ok.
  - apply reserve_none in H as ->. done.
  - by eapply ws_copy_ok.
  - by eapply ws_map_ok.
  - intros (p & es & fs & gs & os & Hat).
    destruct (ws_submit_at _ _ _ _ _ _ _ _ _ _ _ _ H H0 Hat) as (fs' & _ & Hat'). by do 5 eexists.
  - intros (p & es & fs & gs & os & Hat).
    destruct (ws_done_at _ _ _ _ _ _ _ _ _ _ _ _ _ H Hat) as (es' & os' & Hat'). by do 5 eexists.
Qed.

Lemma steps_ok y y' : rtc wstep y y' → sys_ok y → sys_ok y'.
Proof. induction 1; eauto using wstep_ok. Qed.

(** The system at rest with a good cache. *)
Lemma start_ok s p es : wcb_inv s p es [] [] [] [] → sys_ok (mk_wsys s [] []).
Proof.
  intros Hinv. exists p, es, [], [], []. constructor; cbn; [done| |done].
  constructor; try (intros; exfalso; by eapply not_elem_of_nil). by apply NoDup_nil.
Qed.

(** *** What is enabled *)

(** The head of the slots a bio still has to copy. *)
Lemma copy_enabled y j x todo :
  sys_ok y → j ∈ ws_jobs y → jb_todo j = x :: todo →
  ∃ s' b', flush_slot x (ws_ftl y, jb_bio j) = Ok (s', b').
Proof.
  intros (p & es & fs & gs & os & [Hinv _ Hjobs]) Hj Htodo.
  rewrite Forall_forall in Hjobs. destruct (Hjobs j Hj) as (slba & Hat & H0 & Hmax & Hlen).
  rewrite Htodo in Hat, Hmax, Hlen. apply slots_at_cons in Hat as [Hx _].
  destruct (user_lba_small slba) as [Hu _]; [cbn [length] in Hmax; lia|]. rewrite Hu in Hx.
  destruct (bi_pages (jb_bio j)) as [|pg pgs] eqn:Hpg; [cbn in Hlen; lia|].
  apply elem_of_Permutation in Hj as [js Hjs].
  assert (pending (ws_jobs y) ≡ₚ x :: todo ++ pending js) as Hpend.
  { unfold pending. rewrite Hjs. cbn. by rewrite Htodo. }
  destruct (flush_slot_spec (ws_ftl y) p es fs gs os _ _ x slba (jb_bio j) pg pgs Hinv Hpend)
    as (s1 & ? & ? & Hrun & _); [done|cbn [length] in Hmax; lia|done|]. by do 2 eexists.
Qed.

Lemma reserve_enabled y b slba n :
  sys_ok y → bio_wf b slba n → ∃ r, reserve_wcb slba (Z.of_nat n) (ws_ftl y) = Ok r.
Proof.
  intros (p & es & fs & gs & os & [Hinv _ _]) Hb. destruct (pre_partial (proj1 Hinv)) as (e & He & _).
  pose proof (reserve_wcb_spec _ p es fs gs os _ e slba n Hinv He (bw_n _ _ _ Hb)) as Hres.
  case_decide; [|by eexists]. destruct Hres as (? & ? & ? & ? & ? & ? & _). by eexists.
Qed.

Lemma submit_enabled y p es fs gs os :
  sys_at y p es fs gs os →
  match fs with
  | [] => pull_full (ws_ftl y) = Ok (None, ws_ftl y)
  | en :: _ => ∃ e s1 s2, pull_full (ws_ftl y) = Ok (Some en, s1) ∧ lun_start en s1 = Ok (e, s2)
  end.
Proof.
  intros [Hinv _ _]. destruct fs as [|en fs].
  - by destruct (pull_full_empty _ _ _ _ _ _ Hinv) as (s' & ? & ->).
  - destruct (pull_full_spec _ _ _ _ _ _ _ _ Hinv) as (s1 & Hp & Hinv1 & _).
    destruct (lun_start_spec _ _ _ _ _ _ _ en Hinv1) as (e & s2 & Hst & _); [by left|]. by do 3 eexists.
Qed.

Lemma done_enabled y en line :
  sys_ok y → (en, line) ∈ ws_dev y → ∃ b s', lun_line_done en line (ws_ftl y) = Ok (b, s').
Proof.
  intros (p & es & fs & gs & os & [Hinv Hdev _]) Hin. apply elem_of_Permutation in Hin as [dev' Hp].
  destruct (lun_line_done_spec _ _ _ _ _ _ _ _ _ _ _ Hinv Hdev Hp) as (b & s' & ? & _). by do 2 eexists.
Qed.

(** ** Safety *)



(** C4: what goes to flash is complete: a buffer the submitting thread takes in a
    reachable state has all its slots reserved, slot [k] has the flash address [k]
    after the base of the buffer, and no bio has a page of it left to copy. *)
Theorem submitted_lun_complete s p es y en s1 :
  wcb_inv s p es [] [] [] [] → rtc wstep (mk_wsys s [] []) y →
  pull_full (ws_ftl y) = Ok (Some en, s1) →
  ∃ e, ents (ws_ftl y) !! en = Some e ∧ pos e = RAID_LUN_SEC_NUM ∧ base_ok (baddr e) ∧
    (∀ k, 0 ≤ k < RAID_LUN_SEC_NUM → ppa e !! k = Some (baddr e + k)) ∧
    (∀ j k, j ∈ ws_jobs y → (en, k) ∉ jb_todo j).
Proof.
  intros Hinv Hy Hpull. assert (sys_ok y) as (p' & es' & fs & gs & os & Hat)
    by (eapply steps_ok; [done|]; by eapply start_ok).
  pose proof (submit_enabled _ _ _ _ _ _ Hat) as Hen. destruct fs as [|en' fs]; [congruence|].
  destruct Hen as (? & ? & ? & Hp & _). rewrite Hpull in Hp. injection Hp as <- _.
  destruct Hat as [Hinv' _ _]. assert (en ∈ en :: fs) as Hin by (by left).
  destruct (pre_lookup (proj1 Hinv') en) as (e & He & _); [list_mem Hin|].
  destruct (wi_act _ _ _ _ _ _ _ (proj1 Hinv') en e) as [Hb Hq]; [list_mem Hin|done|].
  pose proof (wi_done _ _ _ _ _ _ _ (proj1 Hinv') en e ltac:(list_mem Hin) He) as Hpos.
  exists e. split; [done|]. split; [done|]. split; [done|]. split.
  - intros k Hk. apply Hq. by rewrite Hpos.
  - intros j k Hj Hk. destruct (wi_pend _ _ _ _ _ _ _ (proj1 Hinv') (en, k)) as [Hpg _];
      [by apply job_in_pending with j|]. cbn in Hpg.
    destruct (inv_disjoint _ _ _ _ _ _ _ Hinv') as (_ & Hfs & _). destruct (Hfs en Hin) as (? & _ & ?).
    apply elem_of_cons in Hpg as [?|?]; done.
Qed.


(** ** Progress *)

Lemma todo_or_none jobs :
  pending jobs = [] ∨ ∃ j1 b x todo w j2, jobs = j1 ++ mk_job b (x :: todo) w :: j2.
Proof.
  induction jobs as [|[b todo w] jobs [IH|IH]]; [by left| |].
  - destruct todo as [|x todo]; [by left|]. right. by exists [], b, x, todo, w, jobs.
  - right. destruct IH as (j1 & b' & x & todo' & w' & j2 & ->). by exists (mk_job b todo w :: j1), b', x, todo', w', j2.
Qed.

Lemma full_bound y p es fs gs os : sys_at y p es fs gs os → (length fs ≤ 16)%nat.
Proof.
  intros [[Hpre _] _ _]. pose proof (wi_perm _ _ _ _ _ _ _ Hpre) as Hp.
  apply Permutation_length in Hp. rewrite length_seqZ in Hp. cbn [length] in Hp.
  rewrite !length_app in Hp. change (Z.to_nat CB_ENTITYS_CNT) with 16%nat in Hp. lia.
Qed.

(** The work left in the cache. *)
Definition work (y : wsys) (fs : list Z) : nat :=
  1000 * length (pending (ws_jobs y)) + 9 * length fs + length (ws_dev y).

(** Any work can be finished. *)
Lemma drain n : ∀ y p es fs gs os, sys_at y p es fs gs os → (work y fs < n)%nat →
  ∃ y' p' es', rtc wstep y y' ∧ sys_at y' p' es' [] [] [] ∧
    pending (ws_jobs y') = [] ∧ ws_dev y' = [].
Proof.
  induction n as [|n IH]; intros y p es fs gs os Hat Hn; [lia|].
  destruct y as [s jobs dev]. unfold work in Hn. cbn [ws_jobs ws_dev] in Hn.
  destruct (todo_or_none jobs) as [Hnone|(j1 & b & x & todo & w & j2 & ->)].
  2:{ assert (sys_ok (mk_wsys s (j1 ++ mk_job b (x :: todo) w :: j2) dev)) as Hok by (by do 5 eexists).
      destruct (copy_enabled _ (mk_job b (x :: todo) w) x todo Hok) as (s' & b' & Hrun); [|done|].
      { cbn. apply elem_of_app. right. by left. }
      pose proof (W_copy x b b' todo w s s' j1 j2 dev Hrun) as Hstep.
      destruct (wstep_ok _ _ Hstep Hok) as (p1 & es1 & fs1 & gs1 & os1 & Hat1).
      destruct (IH _ _ _ _ _ _ Hat1) as (y' & p' & es' & Hr & ?).
      { pose proof (full_bound _ _ _ _ _ _ Hat1). unfold work. cbn [ws_jobs ws_dev].
        rewrite pending_mid in Hn |- *. cbn [jb_todo app length] in Hn |- *. lia. }
      exists y', p', es'. split; [|done]. by eapply rtc_l. }
  destruct fs as [|en fs].
  2:{ destruct (submit_enabled _ _ _ _ _ _ Hat) as (e & s1 & s2 & Hpull & Hst).
      destruct (ws_submit_at _ _ _ _ _ _ _ _ _ _ _ _ Hpull Hst Hat) as (fs' & [= <-] & Hat1).
      destruct (IH _ _ _ _ _ _ Hat1) as (y' & p' & es' & Hr & ?).
      { unfold work. cbn [ws_jobs ws_dev length] in Hn |- *. rewrite length_app, length_fmap, length_seqZ.
        change (Z.to_nat CFG_DRIVE_LINE_NUM) with 8%nat. lia. }
      exists y', p', es'. split; [|done]. eapply rtc_l; [by eapply W_submit|done]. }
  destruct dev as [|[en line] dev].
  2:{ destruct (done_enabled (mk_wsys s jobs ((en, line) :: dev)) en line) as (b & s' & Hrun);
        [by do 5 eexists|by left|].
      destruct (ws_done_at en line b s s' jobs [] dev _ _ _ _ _ Hrun Hat) as (es1 & os1 & Hat1).
      destruct (IH _ _ _ _ _ _ Hat1) as (y' & p' & es' & Hr & ?); [unfold work; cbn [ws_jobs ws_dev app length] in *; lia|].
      exists y', p', es'. split; [|done]. eapply rtc_l; [by apply (W_done en line b s s' jobs [] dev)|done]. }
  exists (mk_wsys s jobs []), p, es. split; [done|]. split; [|done].
  pose proof Hat as [Hinv Hdev _]. cbn [ws_ftl ws_jobs ws_dev] in *. rewrite Hnone in Hinv.
  assert (gs = []) as ->.
  { destruct gs as [|g gs]; [done|]. pose proof (wi_gs _ _ _ _ _ _ _ (proj1 Hinv) g ltac:(by left)) as H0.
    rewrite npend_nil in H0. lia. }
  assert (os = []) as ->; [|done].
  destruct os as [|o os]; [done|]. destruct (do_some _ _ _ Hdev o) as [k Hk]; [by left|].
  by apply not_elem_of_nil in Hk.
Qed.

