(* ===== verification/WriteTrace.v ===== *)
(** * Runs of the write cache

    An executable scheduler for the steps of [WriteSystem], a concrete start state,
    and the runs that exercise the theorems there, among them one in which a slow
    writer updates the mapping table after its LUN buffer was reused. *)

From S2P Require Import Prelude NandCfg Fifo Kernel SysMeta PpaCmd WriteCache WritePath WriteAlloc WriteInv WriteBio WriteSystem.

#[local] Open Scope Z_scope.

(** ** A scheduler *)

(** One scheduling decision; bios and lines in flight are named by position. *)
Inductive act : Type :=
  | A_reserve (slba : Z) (n : nat)
  | A_copy (i : nat)
  | A_map (i : nat)
  | A_submit
  | A_done (i : nat).

Definition zero_bio (slba : Z) (n : nat) : bio :=
  mk_bio (slba * SEC_PER_PPA) (Z.of_nat n * EXP_PPA_SIZE) true (replicate n []).

Definition exec (a : act) (y : wsys) : res wsys :=
  let '(mk_wsys s jobs dev) := y in
  match a with
  | A_reserve slba n =>
      if decide ((0 < n ≤ 128)%nat ∧ 0 ≤ slba ∧ slba + Z.of_nat n ≤ MAX_USER_LBA + 1) then
        '(o, s) ← reserve_wcb slba (Z.of_nat n) s;
        match o with
        | Some w => Ok (mk_wsys s (jobs ++ [mk_job (zero_bio slba n) (wcb_slots w) w]) dev)
        | None => Ok (mk_wsys s jobs dev)
        end
      else Fault F_OOB
  | A_copy i =>
      match jobs !! i with
      | Some (mk_job b (x :: todo) w) =>
          '(s, b) ← flush_slot x (s, b);
          Ok (mk_wsys s (take i jobs ++ mk_job b todo w :: drop (S i) jobs) dev)
      | _ => Fault F_OOB
      end
  | A_map i =>
      match jobs !! i with
      | Some (mk_job b [] w) =>
          s ← set_l2ptbl_write_path w s;
          Ok (mk_wsys s (take i jobs ++ drop (S i) jobs) dev)
      | _ => Fault F_OOB
      end
  | A_submit =>
      '(o, s) ← pull_full s;
      en ← deref o;
      '(_, s) ← lun_start en s;
      Ok (mk_wsys s jobs (dev ++ ((λ line, (en, line)) <$> seqZ 0 CFG_DRIVE_LINE_NUM)))
  | A_done i =>
      match dev !! i with
      | Some (en, line) =>
          '(_, s) ← lun_line_done en line s;
          Ok (mk_wsys s jobs (take i dev ++ drop (S i) dev))
      | None => Fault F_OOB
      end
  end.

Lemma zero_bio_wf slba n :
  (0 < n ≤ 128)%nat → 0 ≤ slba → slba + Z.of_nat n ≤ MAX_USER_LBA + 1 → bio_wf (zero_bio slba n) slba n.
Proof. intros. constructor; try done. apply length_replicate. Qed.

(** What the scheduler does is a step. *)
Lemma exec_step a y y' : exec a y = Ok y' → wstep y y'.
Proof.
  destruct y as [s jobs dev]. destruct a as [slba n|i|i| |i]; cbn [exec]; intros H.
  - case_decide as Hw; [|done]. destruct Hw as (Hn & H0 & Hm).
    apply bind_Ok in H as ([[w|] s'] & Hr & H); injection H as <-.
    + apply W_reserve with slba n; [by apply zero_bio_wf|done].
    + by apply W_wait with slba (Z.of_nat n).
  - destruct (jobs !! i) as [[b [|x todo] w]|] eqn:Hi; try done.
    apply bind_Ok in H as ([s' b'] & Hr & H). injection H as <-.
    rewrite <-(take_drop_middle jobs i _ Hi) at 1. by eapply W_copy.
  - destruct (jobs !! i) as [[b [|x todo] w]|] eqn:Hi; try done.
    apply bind_Ok in H as (s' & Hr & H). injection H as <-.
    rewrite <-(take_drop_middle jobs i _ Hi) at 1. by eapply W_map.
  - apply bind_Ok in H as ([[en|] s1] & Hp & H); cbn [deref] in H; [|done]. rewrite bind_Ok_l in H.
    apply bind_Ok in H as ([e s2] & Hs & H). injection H as <-. by eapply W_submit.
  - destruct (dev !! i) as [[en line]|] eqn:Hi; [|done].
    apply bind_Ok in H as ([b s'] & Hr & H). injection H as <-.
    rewrite <-(take_drop_middle dev i _ Hi) at 1. by eapply W_done.
Qed.

Definition run (acts : list act) (y : wsys) : res wsys := mfor acts exec y.

Lemma run_steps acts : ∀ y y', run acts y = Ok y' → rtc wstep y y'.
Proof.
  induction acts as [|a acts IH]; intros y y' H; unfold run in H; cbn [mfor] in H.
  - by injection H as <-.
  - apply bind_Ok in H as (y1 & H1 & H). eapply rtc_l; [by apply exec_step with a|by apply IH].
Qed.

(** ** A start state *)

(** A fresh cache, no free block on the list (so writing starts in block 0), nothing
    mapped. *)
Definition demo_res : res ftl :=
  '(_, c, _) ← wcb_lun_mem_alloc env_ok gctl_init (mk_kheap 0 ∅);
  prepare_write_context (mk_ftl c fresh_sysmeta ∅).

Definition demo_sys : res wsys := s ← demo_res; Ok (mk_wsys s [] []).

Lemma demo_res_ok :
  ∃ s, demo_res = Ok s ∧ wcb_inv s 0 (seqZ 1 (CB_ENTITYS_CNT - 1)) [] [] [] [] ∧ vpc_inv s.
Proof.
  destruct (wcb_lun_mem_alloc_ok env_ok (mk_kheap 0 ∅) (λ _, eq_refl)) as (c & h & Hr & Hc & _).
  unfold demo_res.
  rewrite Hr, bind_Ok_l.
  destruct (prepare_write_context_ok c fresh_sysmeta []) as (s & Hrun & Hinv & Hv & _);
    [exact Hc|exact fresh_sysmeta_inv|reflexivity|].
  exists s. split; [exact Hrun|]. split; [exact Hinv|exact Hv].
Qed.

(** A run from the start state. *)
Definition run_result (acts : list act) : res wsys := y0 ← demo_sys; run acts y0.

(** What a run from the start state reaches satisfies the hypotheses of the
    theorems on reachable states. *)
Lemma demo_run acts y :
  run_result acts = Ok y →
  ∃ s, wcb_inv s 0 (seqZ 1 (CB_ENTITYS_CNT - 1)) [] [] [] [] ∧ rtc wstep (mk_wsys s [] []) y.
Proof.
  destruct demo_res_ok as (s & Hs & Hinv & _). unfold run_result, demo_sys. rewrite Hs, !bind_Ok_l.
  intros H. exists s. split; [done|]. by apply run_steps with acts.
Qed.

(** ** A buffer filled, written and reused *)

Definition full_acts : list act := A_reserve 0 128 :: replicate 128 (A_copy 0).

Definition written_acts : list act := full_acts ++ A_submit :: replicate 7 (A_done 0).

Lemma full_run :
  ∃ y s1, run_result full_acts = Ok y ∧ pull_full (ws_ftl y) = Ok (Some 0, s1).
Proof.
  assert ((y ← run_result full_acts; '(o, _) ← pull_full (ws_ftl y); Ok o) = Ok (Some 0)) as H
    by (vm_compute; reflexivity).
  apply bind_Ok in H as (y & Hy & H). apply bind_Ok in H as ([o s1] & Hp & [= ->]). exists y, s1. split; assumption.
Qed.

Lemma written_run :
  ∃ y, run_result written_acts = Ok y ∧ ws_dev y = [(0, 7)].
Proof.
  assert ((y ← run_result written_acts; Ok (ws_dev y)) = Ok [(0, 7)]) as H
    by (vm_compute; reflexivity).
  apply bind_Ok in H as (y & Hy & H). exists y. split; [exact Hy|]. by injection H.
Qed.



Lemma submitted_lun_complete_witness :
  ∃ y e, run_result full_acts = Ok y ∧ ents (ws_ftl y) !! 0 = Some e ∧ pos e = RAID_LUN_SEC_NUM.
Proof.
  destruct full_run as (y & s1 & Hy & Hp). destruct (demo_run _ _ Hy) as (s & Hinv & Hr).
  destruct (submitted_lun_complete s _ _ y 0 s1 Hinv Hr Hp) as (e & He & Hpos & _).
  exists y, e. split; [exact Hy|]. split; [exact He|exact Hpos].
Defined.



(** ** A late mapping update *)

#[local] Instance wcb_ctx_eq_dec : EqDecision wcb_ctx.
Proof. solve_decision. Defined.

(** After the first writer has its slots: it copies its data, its buffer is written
    and released, other bios take every buffer, and one of them gets its slots. *)
Definition race_acts : list act :=
  replicate 128 (A_copy 0) ++ [A_submit] ++ replicate 8 (A_done 0) ++
  ((λ i, A_reserve (1000 + 128 * i) 128) <$> seqZ 0 15) ++ [A_reserve 5000 2].

Definition race_check (acts : list act) (s : ftl) : bool :=
  match reserve_wcb 0 128 s with
  | Ok (Some w, s1) =>
      match run acts (mk_wsys s1 [mk_job (zero_bio 0 128) (wcb_slots w) w] []) with
      | Ok (mk_wsys s2 (mk_job b [] w' :: jobs) dev) =>
          match set_l2ptbl_write_path w s2 with
          | Ok s3 => bool_decide (w' = w ∧ l2ptbl s3 !! 0 = None ∧ l2ptbl s3 !! 1 = None ∧
                       is_Some (l2ptbl s3 !! 5000))
          | Fault _ => false
          end
      | _ => false
      end
  | _ => false
  end.

Lemma race_check_demo : (s ← demo_res; Ok (race_check race_acts s)) = Ok true.
Proof. vm_compute. reflexivity. Qed.

Lemma race_check_run acts s :
  race_check acts s = true →
  ∃ w s1 b jobs s2 dev s3, reserve_wcb 0 128 s = Ok (Some w, s1) ∧
    rtc wstep (mk_wsys s1 [mk_job (zero_bio 0 128) (wcb_slots w) w] [])
      (mk_wsys s2 (mk_job b [] w :: jobs) dev) ∧
    set_l2ptbl_write_path w s2 = Ok s3 ∧
    l2ptbl s3 !! 0 = None ∧ l2ptbl s3 !! 1 = None ∧ is_Some (l2ptbl s3 !! 5000).
Proof.
  unfold race_check. intros H.
  destruct (reserve_wcb 0 128 s) as [[[w|] s1]|] eqn:Hr; [|done..].
  destruct (run _ _) as [[s2 [|[b [|] w'] jobs] dev]|] eqn:Hrun; [done| |done..].
  destruct (set_l2ptbl_write_path w s2) as [s3|] eqn:Hm; [|done].
  apply bool_decide_eq_true in H as (-> & H).
  exists w, s1, b, jobs, s2, dev, s3. split; [done|]. split; [by eapply run_steps|done].
Qed.

(** C15: the mapping is updated from the buffer after the buffer may have been reused.
    There is a run in which a writer of logical pages 0 to 127 gets its slots and
    copies all of its data, its LUN buffer is written to flash, released and given
    to other bios, and only then the writer updates the mapping: pages 0 and 1 stay
    unmapped (their data is lost though the bio completes), and page 5000 is mapped
    by the wrong writer, before its data is in the cache. *)
Theorem late_mapping_loses_write :
  ∃ s w s1 b jobs s2 dev s3,
    wcb_inv s 0 (seqZ 1 (CB_ENTITYS_CNT - 1)) [] [] [] [] ∧ vpc_inv s ∧
    reserve_wcb 0 128 s = Ok (Some w, s1) ∧
    rtc wstep (mk_wsys s1 [mk_job (zero_bio 0 128) (wcb_slots w) w] [])
      (mk_wsys s2 (mk_job b [] w :: jobs) dev) ∧
    set_l2ptbl_write_path w s2 = Ok s3 ∧
    l2ptbl s3 !! 0 = None ∧ l2ptbl s3 !! 1 = None ∧ is_Some (l2ptbl s3 !! 5000).
Proof.
  pose proof race_check_demo as H. destruct demo_res_ok as (s & Hs & Hinv & Hv).
  rewrite Hs, bind_Ok_l in H. injection H as H.
  destruct (race_check_run _ _ H) as (w & s1 & b & jobs & s2 & dev & s3 & Hrun).
  exists s, w, s1, b, jobs, s2, dev, s3. split; [exact Hinv|]. split; [exact Hv|exact Hrun].
Qed.
