(* ===== verification/Requeue.v ===== *)
(** * Bios that have to wait

    [fscftl_make_rq] (namespace.c), [resubmit_wr_bios_list], [fscftl_rewr_kthread] and the
    wake-up in [wrppa_lun_completion] (bio-wr.c): a bio that finds no room in the write
    cache is put on a list, which a thread of its own takes up again when a LUN buffer is
    released.  First the list is taken up without interference; then the threads are
    interleaved, with every lock section of the code as one step. *)

From S2P Require Import Prelude NandCfg Fifo Kernel SysMeta PpaCmd WriteCache WritePath WriteAlloc WriteInv WriteBio WriteSystem WriteTrace.

#[local] Open Scope Z_scope.

(** ** The list, taken up in order *)

(** A write of a size the block layer may send. *)
Definition write_bio (b : bio) : Prop := ∃ slba n, bio_wf b slba n.

(** The tables are as the write path keeps them. *)
Definition at_rest (s : ftl) : Prop :=
  ∃ p es fs gs, wcb_inv s p es fs gs [] [] ∧ vpc_inv s.

Section order.
Context {BL : Type} `{BioList bio BL}.

(** [b] would be told to wait. *)
Definition must_wait (b : bio) (s : ftl) : Prop := process_write_bio b s = Ok (FSCFTL_BIO_RESUBMIT, s).

Lemma process_at_rest b s :
  at_rest s → write_bio b →
  (∃ s', process_write_bio b s = Ok (FSCFTL_BIO_COMPLETE, s') ∧ at_rest s') ∨ must_wait b s.
Proof.
  intros (p & es & fs & gs & Hinv & Hv) (slba & n & Hb).
  destruct (pre_partial (proj1 Hinv)) as (e & He & _).
  pose proof (process_write_bio_ok s p es fs gs [] [] e b slba n Hinv Hv He Hb) as Hp.
  case_decide; [left|by right].
  destruct Hp as (s' & p' & es' & fs' & gs' & xs & Hrun & Hinv' & Hv' & _).
  exists s'. split; [done|]. by exists p', es', fs', gs'.
Qed.

Lemma resubmit_ok l : ∀ (q : wq BL) fuel,
  bl_to_list (q_wait q) = l → (length l < fuel)%nat → Forall write_bio l → at_rest (q_ftl q) →
  ∃ q' dn, resubmit_wr_bios_list fuel q = Ok q' ∧ l = dn ++ bl_to_list (q_wait q') ∧
    q_ended q' = q_ended q ++ dn ∧ at_rest (q_ftl q') ∧
    ∀ b l', bl_to_list (q_wait q') = b :: l' → must_wait b (q_ftl q').
Proof.
  induction l as [|b l IH]; intros q fuel Hl Hf Hwf Hs; (destruct fuel as [|fuel]; [cbn in Hf; lia|]);
    cbn [resubmit_wr_bios_list].
  - rewrite (proj2 (bl_empty _) Hl). exists q, []. rewrite Hl, !app_nil_r. do 4 (split; [done|]). done.
  - destruct (bio_list_empty (q_wait q)) eqn:He; [by apply bl_empty in He; congruence|].
    destruct (bl_pop_cons _ _ _ Hl) as [Hp1 Hp2].
    destruct (bio_list_pop (q_wait q)) as [o rest]. cbn in Hp1, Hp2. subst o.
    apply Forall_cons in Hwf as [Hb Hwf].
    destruct (process_at_rest b (q_ftl q) Hs Hb) as [(s' & Hrun & Hs')|Hrun]; unfold must_wait in Hrun; rewrite Hrun, bind_Ok_l.
    + destruct (IH (mk_wq s' rest (q_ended q ++ [b])) fuel) as (q' & dn & H1 & H2 & H3 & H4);
        [done|cbn in Hf; lia|done|done|].
      exists q', (b :: dn). split; [done|]. rewrite H3, H2. cbn [q_ended]. by rewrite <-app_assoc.
    + eexists _, []. split; [done|]. cbn [q_wait q_ended q_ftl]. rewrite bl_add_head, Hp2, !app_nil_r.
      do 3 (split; [done|]). intros b0 l' Hbl. injection Hbl as <- _. exact Hrun.
Qed.
End order.

(** C19: waiting bios go on in order.  With no other thread at work,
    [resubmit_wr_bios_list] ends, completes a prefix of the waiting bios in their order,
    leaves the rest waiting in theirs, and stops only when the list is empty or its
    first bio finds no room; no bio is dropped and the invariants hold again. *)
Theorem resubmit_in_order {BL} `{BioList bio BL} (q : wq BL) fuel :
  (length (bl_to_list (q_wait q)) < fuel)%nat → Forall write_bio (bl_to_list (q_wait q)) →
  at_rest (q_ftl q) →
  ∃ q' dn, resubmit_wr_bios_list fuel q = Ok q' ∧
    bl_to_list (q_wait q) = dn ++ bl_to_list (q_wait q') ∧ q_ended q' = q_ended q ++ dn ∧
    at_rest (q_ftl q') ∧
    ∀ b l', bl_to_list (q_wait q') = b :: l' → must_wait b (q_ftl q').
Proof. intros Hf Hwf Hs. by apply resubmit_ok. Qed.

Lemma resubmit_in_order_witness :
  ∃ s q', resubmit_wr_bios_list 3 (mk_wq s [demo_bio; demo_bio] []) = Ok q' ∧ at_rest (q_ftl q').
Proof.
  destruct demo_start as (s & Hinv & Hv & _). exists s.
  destruct (resubmit_in_order (mk_wq s [demo_bio; demo_bio] []) 3) as (q' & dn & Hrun & _ & _ & Hr & _).
  - apply Nat.ltb_lt. reflexivity.
  - repeat constructor; exists 7, 2%nat; exact demo_bio_wf.
  - exists 0, (seqZ 1 (CB_ENTITYS_CNT - 1)), [], []. split; [exact Hinv|exact Hv].
  - exists q'. split; [exact Hrun|exact Hr].
Defined.

(** ** The threads together *)

(** Where the thread [fscftl_rewr_kthread] is: before [reinit_completion], waiting, in the
    loop of [resubmit_wr_bios_list], and there with a bio it has popped, or with one that
    found no room. *)
Inductive rewr_pc : Type :=
  | T_reinit
  | T_wait
  | T_run
  | T_held (b : bio)
  | T_put (b : bio).

(** [rs_limbo]: bios [fscftl_make_rq] found no room for and has not put on the list yet;
    [rs_wait]: the list; [rs_done]: the count of [lun_completion]. *)
Record rsys : Type := mk_rsys {
  rs_ws : wsys;
  rs_limbo : list bio;
  rs_wait : list bio;
  rs_done : nat;
  rs_pc : rewr_pc;
}.

(** [wrppa_lun_completion]: a finished LUN signals when the list is not empty. *)
Definition signal (dn : bool) (wait : list bio) (n : nat) : nat :=
  match dn, wait with true, _ :: _ => S n | _, _ => n end.

(** The steps of the writers, the submitting thread and the device between arrivals and
    completions. *)
Inductive work_step : wsys → wsys → Prop :=
  | K_copy x b b' todo w s s' j1 j2 dev :
      flush_slot x (s, b) = Ok (s', b') →
      work_step (mk_wsys s (j1 ++ mk_job b (x :: todo) w :: j2) dev)
            (mk_wsys s' (j1 ++ mk_job b' todo w :: j2) dev)
  | K_map b w s s' j1 j2 dev :
      set_l2ptbl_write_path w s = Ok s' →
      work_step (mk_wsys s (j1 ++ mk_job b [] w :: j2) dev) (mk_wsys s' (j1 ++ j2) dev)
  | K_submit en e s s1 s2 jobs dev :
      pull_full s = Ok (Some en, s1) → lun_start en s1 = Ok (e, s2) →
      work_step (mk_wsys s jobs dev)
            (mk_wsys s2 jobs (dev ++ ((λ line, (en, line)) <$> seqZ 0 CFG_DRIVE_LINE_NUM))).

Inductive rstep : rsys → rsys → Prop :=
  | R_queue b y lim b1 wait n pc :        (** the list is not empty: to its end *)
      rstep (mk_rsys y lim (b1 :: wait) n pc) (mk_rsys y lim (b1 :: wait ++ [b]) n pc)
  | R_enter b slba k w s s' jobs dev lim n pc :
      bio_wf b slba k → reserve_wcb slba (Z.of_nat k) s = Ok (Some w, s') →
      rstep (mk_rsys (mk_wsys s jobs dev) lim [] n pc)
            (mk_rsys (mk_wsys s' (jobs ++ [mk_job b (wcb_slots w) w]) dev) lim [] n pc)
  | R_noroom b slba k s s' jobs dev lim n pc :
      bio_wf b slba k → reserve_wcb slba (Z.of_nat k) s = Ok (None, s') →
      rstep (mk_rsys (mk_wsys s jobs dev) lim [] n pc)
            (mk_rsys (mk_wsys s' jobs dev) (lim ++ [b]) [] n pc)
  | R_putback b y l1 l2 wait n pc :       (** [bio_list_add_head] of [fscftl_make_rq] *)
      rstep (mk_rsys y (l1 ++ b :: l2) wait n pc) (mk_rsys y (l1 ++ l2) (b :: wait) n pc)
  | R_work y y' lim wait n pc :
      work_step y y' → rstep (mk_rsys y lim wait n pc) (mk_rsys y' lim wait n pc)
  | R_done en line dn s s' jobs d1 d2 lim wait n pc :
      lun_line_done en line s = Ok (dn, s') →
      rstep (mk_rsys (mk_wsys s jobs (d1 ++ (en, line) :: d2)) lim wait n pc)
            (mk_rsys (mk_wsys s' jobs (d1 ++ d2)) lim wait (signal dn wait n) pc)
  | R_reinit y lim wait n :
      rstep (mk_rsys y lim wait n T_reinit) (mk_rsys y lim wait 0 T_wait)
  | R_wake y lim wait n :
      rstep (mk_rsys y lim wait (S n) T_wait) (mk_rsys y lim wait n T_run)
  | R_pop b y lim wait n :
      rstep (mk_rsys y lim (b :: wait) n T_run) (mk_rsys y lim wait n (T_held b))
  | R_empty y lim n :
      rstep (mk_rsys y lim [] n T_run) (mk_rsys y lim [] n T_reinit)
  | R_again b slba k w s s' jobs dev lim wait n :
      bio_wf b slba k → reserve_wcb slba (Z.of_nat k) s = Ok (Some w, s') →
      rstep (mk_rsys (mk_wsys s jobs dev) lim wait n (T_held b))
            (mk_rsys (mk_wsys s' (jobs ++ [mk_job b (wcb_slots w) w]) dev) lim wait n T_run)
  | R_still b slba k s s' jobs dev lim wait n :
      bio_wf b slba k → reserve_wcb slba (Z.of_nat k) s = Ok (None, s') →
      rstep (mk_rsys (mk_wsys s jobs dev) lim wait n (T_held b))
            (mk_rsys (mk_wsys s' jobs dev) lim wait n (T_put b))
  | R_put b y lim wait n :
      rstep (mk_rsys y lim wait n (T_put b)) (mk_rsys y lim (b :: wait) n T_reinit).

(** ** The driver can go to sleep for good *)

(** Nothing is in progress, and the thread waits for a signal. *)
Definition asleep (b : bio) (y : rsys) : Prop :=
  ∃ s wait, y = mk_rsys (mk_wsys s [] []) [] (b :: wait) 0 T_wait ∧
    ∃ s1, pull_full s = Ok (None, s1).

Lemma asleep_step b y y' :
  asleep b y → rstep y y' → asleep b y' ∧ ws_ftl (rs_ws y') = ws_ftl (rs_ws y).
Proof.
  intros (s & wait & -> & s1 & Hp) Hs.
  inversion Hs; subst; try done.
  - split; [|done]. exists s, (wait ++ [b0]). split; [done|by exists s1].
  - by destruct l1.
  - match goal with H : work_step _ _ |- _ => inversion H; subst end; try (by destruct j1). congruence.
  - by destruct d1.
Qed.

Lemma asleep_forever b y y' :
  asleep b y → rtc rstep y y' → asleep b y' ∧ ws_ftl (rs_ws y') = ws_ftl (rs_ws y).
Proof.
  intros Ha Hr. induction Hr as [y|y y1 y2 Hs Hr IH]; [done|].
  destruct (asleep_step _ _ _ Ha Hs) as [Ha1 Hf1]. destruct (IH Ha1) as [Ha2 Hf2].
  split; [done|congruence].
Qed.

(** With an empty list the scheduler of [WriteTrace] makes steps of the whole system. *)
Lemma exec_rsteps a y y' lim n pc :
  exec a y = Ok y' → rtc rstep (mk_rsys y lim [] n pc) (mk_rsys y' lim [] n pc).
Proof.
  destruct y as [s jobs dev]. destruct a as [slba k|i|i| |i]; cbn [exec]; intros H.
  - case_decide as Hw; [|done]. destruct Hw as (Hn & H0 & Hm).
    apply bind_Ok in H as ([[w|] s'] & Hr & H); injection H as <-.
    + apply rtc_once. apply R_enter with slba k; [by apply zero_bio_wf|done].
    + by rewrite (reserve_none _ _ _ _ Hr).
  - destruct (jobs !! i) as [[b [|x todo] w]|] eqn:Hi; try done.
    apply bind_Ok in H as ([s' b'] & Hr & H). injection H as <-. apply rtc_once, R_work.
    rewrite <-(take_drop_middle jobs i _ Hi) at 1. by eapply K_copy.
  - destruct (jobs !! i) as [[b [|x todo] w]|] eqn:Hi; try done.
    apply bind_Ok in H as (s' & Hr & H). injection H as <-. apply rtc_once, R_work.
    rewrite <-(take_drop_middle jobs i _ Hi) at 1. by eapply K_map.
  - apply bind_Ok in H as ([[en|] s1] & Hp & H); cbn [deref] in H; [|done]. rewrite bind_Ok_l in H.
    apply bind_Ok in H as ([e s2] & Hs & H). injection H as <-. apply rtc_once, R_work. by eapply K_submit.
  - destruct (dev !! i) as [[en line]|] eqn:Hi; [|done].
    apply bind_Ok in H as ([b s'] & Hr & H). injection H as <-. apply rtc_once.
    rewrite <-(take_drop_middle dev i _ Hi) at 1.
    replace n with (signal b [] n) at 2 by (by destruct b). by eapply R_done.
Qed.

Lemma run_rsteps acts lim n pc : ∀ y y',
  run acts y = Ok y' → rtc rstep (mk_rsys y lim [] n pc) (mk_rsys y' lim [] n pc).
Proof.
  induction acts as [|a acts IH]; intros y y' H; unfold run in H; cbn [mfor] in H.
  - by injection H as <-.
  - apply bind_Ok in H as (y1 & H1 & H). etransitivity; [by eapply exec_rsteps|by apply IH].
Qed.

(** Fifteen bios take every buffer; they are copied, mapped, submitted and completed while
    the sixteenth is between its refusal and the list. *)
Definition fill_acts : list act := (λ i, A_reserve (128 * i) 128) <$> seqZ 0 15.
Definition drain_acts : list act :=
  mjoin (replicate 15 (replicate 128 (A_copy 0) ++ [A_map 0])) ++
  replicate 15 A_submit ++ replicate 120 (A_done 0).

Definition late_bio : bio := zero_bio 5000 128.

Definition sleep_check (s : ftl) : bool :=
  match run fill_acts (mk_wsys s [] []) with
  | Ok (mk_wsys s1 jobs dev) =>
      match reserve_wcb 5000 128 s1 with
      | Ok (None, s2) =>
          match run drain_acts (mk_wsys s2 jobs dev) with
          | Ok (mk_wsys s3 [] []) =>
              match pull_full s3, reserve_wcb 5000 128 s3 with
              | Ok (None, _), Ok (Some _, _) => true
              | _, _ => false
              end
          | _ => false
          end
      | _ => false
      end
  | _ => false
  end.

Lemma sleep_check_demo : (s ← demo_res; Ok (sleep_check s)) = Ok true.
Proof. vm_compute. reflexivity. Qed.

Lemma sleep_check_run s :
  sleep_check s = true →
  ∃ y, rtc rstep (mk_rsys (mk_wsys s [] []) [] [] 0 T_reinit) y ∧ asleep late_bio y ∧
    ∃ w s', reserve_wcb 5000 128 (ws_ftl (rs_ws y)) = Ok (Some w, s').
Proof.
  unfold sleep_check. intros H.
  destruct (run fill_acts _) as [[s1 jobs dev]|] eqn:Hfill; [|done].
  destruct (reserve_wcb 5000 128 s1) as [[[w|] s2]|] eqn:Hno; [done| |done].
  destruct (run drain_acts _) as [[s3 [|? ?] [|? ?]]|] eqn:Hdrain; [|done..].
  destruct (pull_full s3) as [[[?|] s4]|] eqn:Hp; [done| |done].
  destruct (reserve_wcb 5000 128 s3) as [[[w|] s5]|] eqn:Hr; [|done..]. clear H.
  exists (mk_rsys (mk_wsys s3 [] []) [] [late_bio] 0 T_wait). split; [|split].
  - eapply rtc_l; [apply R_reinit|].
    etransitivity; [by apply (run_rsteps _ [] 0 T_wait _ _ Hfill)|].
    eapply rtc_l; [apply (R_noroom late_bio 5000 128 s1 s2)|].
    + apply zero_bio_wf; [lia|lia|vm_compute; discriminate].
    + exact Hno.
    + etransitivity; [by apply (run_rsteps _ [late_bio] 0 T_wait _ _ Hdrain)|].
      apply rtc_once. apply (R_putback late_bio (mk_wsys s3 [] []) [] [] []).
  - exists s3, []. split; [done|by exists s4].
  - cbn. by do 2 eexists.
Qed.

(** C20: a wake-up can be lost, and then every write hangs.  There is a run in which a bio
    is refused, all the buffers in use are written and completed before it is put on
    the list (so that no completion sees it there), and the cache is empty again; from
    then on, whatever arrives, the bio stays first on the list, the thread that would
    take it up stays asleep, and no other bio gets a slot. *)
Theorem lost_wakeup :
  ∃ s y, wcb_inv s 0 (seqZ 1 (CB_ENTITYS_CNT - 1)) [] [] [] [] ∧
    rtc rstep (mk_rsys (mk_wsys s [] []) [] [] 0 T_reinit) y ∧
    (∃ w s', reserve_wcb 5000 128 (ws_ftl (rs_ws y)) = Ok (Some w, s')) ∧
    ∀ y', rtc rstep y y' →
      ws_ftl (rs_ws y') = ws_ftl (rs_ws y) ∧ ws_jobs (rs_ws y') = [] ∧ ws_dev (rs_ws y') = [] ∧
      rs_pc y' = T_wait ∧ rs_done y' = 0%nat ∧ ∃ wait, rs_wait y' = late_bio :: wait.
Proof.
  pose proof sleep_check_demo as H. destruct demo_res_ok as (s & Hs & Hinv & _).
  rewrite Hs, bind_Ok_l in H. injection H as H.
  destruct (sleep_check_run s H) as (y & Hrun & Ha & Hres). exists s, y.
  split; [exact Hinv|]. split; [exact Hrun|]. split; [exact Hres|]. intros y' Hy.
  destruct (asleep_forever _ _ _ Ha Hy) as [(s' & wait & -> & _) Hf].
  split; [exact Hf|]. do 4 (split; [reflexivity|]). exists wait. reflexivity.
Qed.
