(* ===== verification/SysFlush.v ===== *)
(** * System tables through the write cache

    The first half of [build_recovery/power-cycle.c]: [flush_sysmeta_to_wcb],
    [flush_ftl_internal_systbl], [flush_user_l2ptbl] and [flush_dummy_lun], which put
    table pages, addressed above the user area, into the slots of the write cache. *)

From S2P Require Import Prelude NandCfg Fifo Kernel SysMeta PpaCmd WriteCache WritePath WriteAlloc WriteInv WriteBio.

#[local] Open Scope Z_scope.

(** ** Tables into the write cache *)

(** The inner loop of [flush_sysmeta_to_wcb]: page [idx] of the source goes to slot
    [(en, p)]. *)
Definition flush_sysmeta_slot (src_base : Z → page) (x : Z * Z) (st : ftl * Z) : res (ftl * Z) :=
  let '(en, p) := x in
  let '(s, idx) := st in
  e ← get_entity en s;
  lba ← wread RAID_LUN_SEC_NUM 0 (lba e) p;
  s ← (if decide (EXTEND_LBA_BASE ≤ lba < EXTEND_LBA_RSVD0)
       then copy_to_slot en p (src_base idx) s else Ok s);
  s ← fill_cnt_inc en s;
  Ok (s, idx + 1).

Definition flush_sysmeta_to_wcb (w : wcb_bio_ctx) (src_base : Z → page) (s : ftl) : res ftl :=
  '(s, _) ← mfor (wcb_slots w) (flush_sysmeta_slot src_base) (s, 0);
  Ok s.

(** A page of zero bytes. *)
Definition zero_page : page := replicate (Z.to_nat EXP_PPA_SIZE) Byte.x00.

(** [flush_dummy_lun]: the loop clears slot [pos] again and again. *)
Definition flush_dummy_lun (s : ftl) : res ftl :=
  partial ← deref (partial_entity (ctl s));
  e ← get_entity partial s;
  let p := pos e in
  if decide (p = 0) then Ok s else
  s ← mfor (seqZ p (RAID_LUN_SEC_NUM - p)) (λ _ s, copy_to_slot partial p zero_page s) s;
  '(f, m) ← push_lun_entity_to_fifo (full_lun (ctl s)) partial (lun_entitys (ctl s));
  let s := set_ctl (c_set_entitys m (c_set_full f (ctl s))) s in
  e ← get_entity partial s;
  '(_, s) ← get_next_lun_entity (baddr e) s;
  e ← get_entity partial s;
  Ok (put_entity partial (e_set_fill_cnt 0 e) s).

(** [flush_ftl_internal_systbl]: the pages of [buff], one at a time; [msleep n] is what
    the other threads of the driver do in the [n]-th millisecond of waiting. *)
Fixpoint flush_ftl_internal_systbl (fuel : nat) (msleep : nat → ftl → ftl) (tick : nat)
    (buff : Z → page) (left_ppas slba : Z) (s : ftl) : res ftl :=
  match fuel with
  | O => Fault F_FUEL
  | S fuel =>
      let budget := 1 in
      if decide (left_ppas = 0) then Ok s else
      a ← wcb_available budget s;
      if (a : bool) then
        '(_, w, s) ← alloc_wcb_core slba budget ∅ s;
        s ← flush_sysmeta_to_wcb w buff s;
        flush_ftl_internal_systbl fuel msleep tick (λ i, buff (budget + i))
          (u32 (left_ppas - budget)) (u32 (slba + budget)) s
      else flush_ftl_internal_systbl fuel msleep (S tick) buff left_ppas slba (msleep tick s)
  end.

(** [flush_user_l2ptbl]; [l2p_page i] is page [i] of the mapping table. *)
Definition flush_user_l2ptbl (fuel : nat) (msleep : nat → ftl → ftl) (l2p_page : Z → page)
    (s : ftl) : res ftl :=
  s ← flush_ftl_internal_systbl fuel msleep 0 l2p_page (u32 USR_FTLTBL_SEC_NUM) (u32 EXTEND_LBA_UFTL) s;
  flush_dummy_lun s.

(** ** The dummy LUN *)

Lemma copy_to_slot_run s i e k pg :
  ents s !! i = Some e → index e = i → 0 ≤ k < RAID_LUN_SEC_NUM →
  copy_to_slot i k pg s = Ok (put_entity i (e_set_dbuf (<[k := pg]> (dbuf e)) e) s).
Proof.
  intros He Hi Hk. unfold copy_to_slot.
  rewrite (get_entity_Some _ _ _ He), bind_Ok_l, Hi, (get_entity_Some _ _ _ He), bind_Ok_l.
  by rewrite decide_True.
Qed.

(** Clearing one slot over and over is clearing it once. *)
Lemma clear_slot_loop l : ∀ s i e k pg,
  ents s !! i = Some e → index e = i → 0 ≤ k < RAID_LUN_SEC_NUM →
  mfor l (λ _ : Z, copy_to_slot i k pg) s =
    Ok (match l with [] => s | _ => put_entity i (e_set_dbuf (<[k := pg]> (dbuf e)) e) s end).
Proof.
  induction l as [|a l IH]; intros s i e k pg He Hi Hk; cbn [mfor]; [done|].
  rewrite (copy_to_slot_run s i e k pg He Hi Hk), bind_Ok_l.
  set (e1 := e_set_dbuf (<[k := pg]> (dbuf e)) e).
  rewrite (IH (put_entity i e1 s) i e1 k pg); [|by cbn; apply lookup_insert_eq|done|done].
  destruct l as [|b l]; [done|]. rewrite put_put_entity. subst e1. cbn [dbuf e_set_dbuf].
  unfold e_set_dbuf. cbn. by rewrite insert_insert_eq.
Qed.

(** The buffer as [flush_dummy_lun] leaves it, up to its links. *)
Definition dummy_flushed (e e' : wcb_lun_entity) : Prop :=
  pos e' = pos e ∧ ppa e' = ppa e ∧ lba e' = lba e ∧ baddr e' = baddr e ∧ fill_cnt e' = 0 ∧
  dbuf e' = <[pos e := zero_page]> (dbuf e).

Lemma push_full_rep m f l i :
  fifo_rep m f l → i ∉ l → 0 ≤ i < CB_ENTITYS_CNT → (∃ e, m !! i = Some e ∧ index e = i) →
  ∃ f' m', push_lun_entity_to_fifo f i m = Ok (f', m') ∧ fifo_rep m' f' (l ++ [i]) ∧
    links_only m m' ∧ (∀ j, j ∉ l ++ [i] → m' !! j = m !! j).
Proof.
  intros Hrep Hi Hr (e & He & Hidx). rewrite push_lun_entity_link by (intros e0 He0; congruence).
  apply link_push_spec; [done..| |by eexists]. unfold NIL. change CB_ENTITYS_CNT with 16 in Hr. lia.
Qed.

(** Taking the next buffer, whatever the partial one is. *)
Lemma next_entity_any s q es b bl :
  fifo_rep (ents s) (empty_lun (ctl s)) (q :: es) → base_ok b → sys_inv (sys s) bl →
  ∃ s', get_next_lun_entity b s = Ok (Some q, s') ∧ partial_entity (ctl s') = Some q ∧
    fifo_rep (ents s') (empty_lun (ctl s')) es ∧ full_lun (ctl s') = full_lun (ctl s) ∧
    (∀ j, j ∉ q :: es → ents s' !! j = ents s !! j).
Proof.
  intros Hemp Hb Hy. unfold get_next_lun_entity. rewrite pull_lun_entity_link.
  destruct (link_pull_spec _ _ _ _ Hemp) as (f & m & -> & Hrep & Hlo & Hj). rewrite bind_Ok_l. cbv zeta.
  destruct (next_baddr_total b 0 (sys s) bl Hb) as (b' & y' & bl' & Hg & _); [done|done|].
  rewrite Z.add_0_r in Hg. cbn [sys set_ctl]. rewrite Hg, bind_Ok_l.
  destruct (chain_lookup _ _ _ q (rep_chain _ _ _ Hemp)) as [e He]; [by left|].
  destruct (links_only_Some _ _ q e Hlo He) as (a & b2 & Hm).
  match goal with |- context [get_entity q ?s0] => change (get_entity q s0) with (aread m q) at 1 end.
  rewrite (aread_Some _ _ _ Hm), bind_Ok_l. eexists. split; [done|]. cbn. split; [done|].
  pose proof (rep_nodup _ _ _ Hemp) as [Hqe _]%NoDup_cons. split; [|split; [done|]].
  - apply fifo_rep_frame with m; [|done]. intros j Hje. unfold links.
    by rewrite lookup_insert_ne by (intros ->; done).
  - intros j Hjn. rewrite lookup_insert_ne; [by apply Hj|]. intros ->. apply Hjn. by left.
Qed.

(** Pushing the partial buffer to the full FIFO, its data updated. *)
Lemma push_partial_ok s p es fs gs os e e1 :
  wcb_inv s p es fs gs os [] → ents s !! p = Some e → data_update e e1 →
  ∃ f m e2, push_lun_entity_to_fifo (full_lun (ctl s)) p (<[p := e1]> (ents s)) = Ok (f, m) ∧
    fifo_rep m f (fs ++ [p]) ∧ fifo_rep m (empty_lun (ctl s)) es ∧
    m !! p = Some e2 ∧ (∃ n1 p1, e2 = e_set_next n1 (e_set_prev p1 e1)) ∧
    p ∉ es ∧ (∀ j, j ∈ es → j ∉ fs ++ [p]).
Proof.
  intros [Hpre _] He Hu. pose proof (pre_nodup Hpre) as Hnd.
  assert (0 ≤ p < CB_ENTITYS_CNT) as Hr by (apply (pre_range Hpre); by left).
  apply NoDup_cons in Hnd as [Hnp Hnd]. apply NoDup_app in Hnd as (_ & Hnd & _).
  assert (p ∉ es ∧ p ∉ fs) as [Hpe Hpf] by (clear -Hnp; rewrite !elem_of_app in Hnp; tauto).
  assert (∀ j, j ∈ es → j ∉ fs ++ [p]) as Hdis.
  { intros j Hj. rewrite elem_of_app, list_elem_of_singleton. intros [Hjf| ->]; [|done].
    apply (Hnd j Hj). list_mem Hjf. }
  assert (∀ f l, fifo_rep (ents s) f l → fifo_rep (<[p := e1]> (ents s)) f l) as Hfr.
  { intros f l. apply fifo_rep_frame. intros j _. by apply links_data_update with e. }
  destruct (push_full_rep (<[p := e1]> (ents s)) _ fs p (Hfr _ _ (wi_full _ _ _ _ _ _ _ Hpre)) Hpf Hr)
    as (f & m & Hpush & Hrep & Hlo & Hj).
  { exists e1. rewrite lookup_insert_eq. split; [done|]. rewrite (proj1 Hu). by apply (pre_index Hpre). }
  destruct (links_only_Some _ _ p e1 Hlo) as (n1 & p1 & Hm); [by rewrite lookup_insert_eq|].
  exists f, m. eexists. split; [done|]. split; [done|]. split; [|split; [exact Hm|split; [by exists n1, p1|done]]].
  apply fifo_rep_frame with (<[p := e1]> (ents s)); [|by apply Hfr, (wi_empty _ _ _ _ _ _ _ Hpre)].
  intros j Hje. unfold links. rewrite Hj; [done|]. by apply Hdis.
Qed.

Lemma flush_dummy_lun_ok s p q es fs gs os e :
  wcb_inv s p (q :: es) fs gs os [] → ents s !! p = Some e → 0 < pos e →
  ∃ s' e', flush_dummy_lun s = Ok s' ∧ partial_entity (ctl s') = Some q ∧
    fifo_rep (ents s') (empty_lun (ctl s')) es ∧ fifo_rep (ents s') (full_lun (ctl s')) (fs ++ [p]) ∧
    ents s' !! p = Some e' ∧ dummy_flushed e e'.
Proof.
  intros Hinv He Hp. pose proof Hinv as [Hpre Hlt]. pose proof (wi_part _ _ _ _ _ _ _ Hpre e He) as Hpr.
  specialize (Hlt e He). destruct (pre_partial Hpre) as (e0 & He0 & Hidx). assert (e0 = e) as -> by congruence.
  destruct (wi_act _ _ _ _ _ _ _ Hpre p e ltac:(by left) He) as [Hb _].
  destruct (wi_sys _ _ _ _ _ _ _ Hpre) as [bl Hy].
  unfold flush_dummy_lun. rewrite (wi_partial _ _ _ _ _ _ _ Hpre). cbn [deref]. rewrite bind_Ok_l.
  rewrite (get_entity_Some _ _ _ He), bind_Ok_l. cbv zeta. rewrite decide_False by lia.
  rewrite (clear_slot_loop _ s p e (pos e) zero_page) by (done || lia). rewrite bind_Ok_l.
  rewrite (seqZ_cons (pos e)) by lia. set (e1 := e_set_dbuf (<[pos e := zero_page]> (dbuf e)) e).
  cbn [ctl put_entity set_ctl c_set_entitys full_lun lun_entitys].
  destruct (push_partial_ok s p (q :: es) fs gs os e e1 Hinv He)
    as (f & m & e2 & -> & Hrep & Hemp & Hm & (n1 & p1 & Heq) & Hpe & Hdis); [done|].
  rewrite bind_Ok_l. cbv zeta.
  match goal with |- context [get_entity p ?s0] => change (get_entity p s0) with (aread m p) at 1; set (s1 := s0) end.
  rewrite (aread_Some _ _ _ Hm), bind_Ok_l. replace (baddr e2) with (baddr e) by (by rewrite Heq).
  destruct (next_entity_any s1 q es (baddr e) bl) as (s2 & -> & Hpt & Hemp2 & Hfull & Hout); [done..|].
  rewrite bind_Ok_l. rewrite (get_entity_Some p e2) by (by rewrite Hout). rewrite bind_Ok_l.
  do 2 eexists. split; [done|]. split; [done|].
  assert (∀ j, links (ents (put_entity p (e_set_fill_cnt 0 e2) s2)) j = links (ents s2) j) as Hl.
  { intros j. apply links_data_update with e2; [|done]. by rewrite Hout. }
  split; [|split; [|split; [cbn; apply lookup_insert_eq|by rewrite Heq]]].
  - by apply fifo_rep_frame with (ents s2).
  - apply fifo_rep_frame with (ents s2); [done|]. cbn. rewrite Hfull.
    apply fifo_rep_frame with m; [|done]. intros j Hjf. unfold links. rewrite Hout; [done|].
    intros Hjq. by apply (Hdis j).
Qed.

(** ** Table pages, one slot each *)

(** The slots not reserved yet, in the order they will be. *)
Definition buffer_slots (i from : Z) : list (Z * Z) := (λ k, (i, k)) <$> seqZ from (RAID_LUN_SEC_NUM - from).
Definition free_slots (p from : Z) (es : list Z) : list (Z * Z) :=
  buffer_slots p from ++ (es ≫= λ q, buffer_slots q 0).

Lemma elem_of_buffer_slots x i from :
  x ∈ buffer_slots i from ↔ x.1 = i ∧ from ≤ x.2 < RAID_LUN_SEC_NUM.
Proof.
  unfold buffer_slots. rewrite list_elem_of_fmap. setoid_rewrite elem_of_seqZ. split.
  - intros (k & -> & ?). cbn. lia.
  - destruct x as [j k]. cbn. intros [-> ?]. exists k. split; [done|lia].
Qed.

Lemma elem_of_free_slots x p from es :
  x ∈ free_slots p from es ↔
    (x.1 = p ∧ from ≤ x.2 < RAID_LUN_SEC_NUM) ∨ (x.1 ∈ es ∧ 0 ≤ x.2 < RAID_LUN_SEC_NUM).
Proof.
  unfold free_slots. rewrite elem_of_app, elem_of_buffer_slots, list_elem_of_bind.
  setoid_rewrite elem_of_buffer_slots. split.
  - intros [?|(q & [-> ?] & ?)]; auto.
  - intros [?|[? ?]]; [by left|right]. by exists x.1.
Qed.

Lemma buffer_slots_cons i from :
  from < RAID_LUN_SEC_NUM → buffer_slots i from = (i, from) :: buffer_slots i (from + 1).
Proof.
  intros H. unfold buffer_slots. rewrite (seqZ_cons from) by lia. cbn.
  by replace (Z.pred (RAID_LUN_SEC_NUM - from)) with (RAID_LUN_SEC_NUM - (from + 1)) by lia.
Qed.

Lemma free_slots_cons p from es :
  from < RAID_LUN_SEC_NUM → free_slots p from es = (p, from) :: free_slots p (from + 1) es.
Proof. intros H. unfold free_slots. by rewrite buffer_slots_cons. Qed.

(** A full buffer goes over to the next one. *)
Lemma free_slots_next p q es : free_slots p RAID_LUN_SEC_NUM (q :: es) = free_slots q 0 es.
Proof. unfold free_slots, buffer_slots. by rewrite Z.sub_diag. Qed.

Lemma NoDup_free_slots p from es : NoDup (p :: es) → NoDup (free_slots p from es).
Proof.
  assert (∀ i f, NoDup (buffer_slots i f)) as Hb.
  { intros i f. apply NoDup_fmap_2; [by intros ? ? [= ->]|apply NoDup_seqZ]. }
  intros [Hp Hes]%NoDup_cons. apply NoDup_app. split; [apply Hb|]. split.
  - intros x [Hx _]%elem_of_buffer_slots (q & [Hxq _]%elem_of_buffer_slots & Hq)%list_elem_of_bind. congruence.
  - clear Hp. induction Hes as [|q es Hq Hes IH]; cbn; [constructor|]. apply NoDup_app.
    split; [apply Hb|]. split; [|exact IH].
    intros x [Hx _]%elem_of_buffer_slots (q' & [Hxq _]%elem_of_buffer_slots & Hq')%list_elem_of_bind. congruence.
Qed.

Lemma length_free_slots p from es :
  from ≤ RAID_LUN_SEC_NUM →
  Z.of_nat (length (free_slots p from es)) = RAID_LUN_SEC_NUM - from + RAID_LUN_SEC_NUM * Z.of_nat (length es).
Proof.
  intros H. unfold free_slots. rewrite length_app, Nat2Z.inj_add. unfold buffer_slots at 1.
  rewrite length_fmap, length_seqZ, Z2Nat.id by lia. f_equal.
  induction es as [|q es IH]; [cbn; lia|]. cbn [mbind list_bind]. rewrite length_app, Nat2Z.inj_add, IH.
  unfold buffer_slots. rewrite length_fmap, length_seqZ. cbn [length].
  change (Z.of_nat (Z.to_nat (RAID_LUN_SEC_NUM - 0))) with RAID_LUN_SEC_NUM. lia.
Qed.

(** Reserving one slot takes the first of them. *)
Record one_reserved (s s' : ftl) (slba p from : Z) (es : list Z) (p' : Z) (e' : wcb_lun_entity) (es' : list Z) : Prop := {
  or_next : ents s' !! p' = Some e' ∧ free_slots p from es = (p, from) :: free_slots p' (pos e') es';
  or_slot : slot_at s' (p, from) (u32 slba);
  or_keep : ∀ y l, y ∉ free_slots p from es → slot_at s y l → slot_at s' y l;
  or_data : ∀ y, slot_data s' y = slot_data s y;
}.

Section alloc_one.
#[local] Set Default Proof Using "All".
Context {s : ftl} {p : Z} {es fs gs os : list Z} {e : wcb_lun_entity} (slba : Z).
Context (Hinv : wcb_inv s p es fs gs os []) (He : ents s !! p = Some e).

Lemma one_geometry :
  0 ≤ pos e < RAID_LUN_SEC_NUM ∧ base_ok (baddr e) ∧ get_entity p s = Ok e ∧ partial_entity (ctl s) = Some p.
Proof.
  pose proof Hinv as [Hpre Hlt]. specialize (Hlt e He).
  pose proof (wi_part _ _ _ _ _ _ _ Hpre e He) as Hp.
  destruct (wi_act _ _ _ _ _ _ _ Hpre p e ltac:(by left) He) as [Hb _].
  split; [lia|]. split; [done|]. split; [by apply get_entity_Some|exact (wi_partial _ _ _ _ _ _ _ Hpre)].
Qed.

Lemma one_slot k : k = pos e → (λ k, (p, k)) <$> seqZ (pos e) (k - pos e + 1) = [(p, pos e)].
Proof. intros ->. by replace (pos e - pos e + 1) with 1 by lia. Qed.

Lemma one_keep y l :
  y ∉ free_slots p (pos e) es → slot_at s y l →
  slot_at (put_entity p (fill_slots 1 slba (baddr e + pos e) e) s) y l.
Proof.
  destruct one_geometry as (Hp & Hb & _). intros Hy Hat.
  apply fill_slots_keeps; [done|done|lia|lia| |done]. intros Hyp.
  destruct Hat as (? & _ & _ & _ & _ & Hr). rewrite elem_of_free_slots in Hy. lia.
Qed.

Lemma alloc_one_within :
  pos e + 1 < RAID_LUN_SEC_NUM →
  ∃ w s' p' es' gs' e', alloc_wcb_core slba 1 ∅ s = Ok (0, w, s') ∧ wcb_slots w = [(p, pos e)] ∧
    wcb_inv s' p' es' fs gs' os [(p, pos e)] ∧ one_reserved s s' slba p (pos e) es p' e' es'.
Proof.
  intros Hw. destruct one_geometry as (Hp & Hb & Hge & Hpart).
  pose proof (alloc_core_within slba 1 s p e Hpart Hge Hb ltac:(lia) ltac:(lia) Hw) as Hrun.
  destruct (alloc_within_spec _ _ _ _ _ _ _ _ slba 1 Hinv He ltac:(lia) Hw)
    as (w & s' & Hrun' & Hi & Hr & e' & He' & Hpe').
  rewrite Hrun in Hrun'. injection Hrun' as <- <-. rewrite wcb_slots_one, one_slot in Hi, Hr by lia.
  do 6 eexists. split; [exact Hrun|]. split; [by rewrite wcb_slots_one, one_slot by lia|]. split; [exact Hi|].
  split; [split; [exact He'|]| |exact one_keep|exact (rs_data _ _ _ _ _ _ _ Hr)].
  - rewrite Hpe'. apply free_slots_cons; lia.
  - pose proof (rs_slot _ _ _ _ _ _ _ Hr 0%nat _ eq_refl) as Hs0. rewrite Z.add_0_r in Hs0. exact Hs0.
Qed.

Lemma alloc_one_cross q es1 :
  es = q :: es1 → pos e = RAID_LUN_SEC_NUM - 1 →
  ∃ w s' p' es' gs' e', alloc_wcb_core slba 1 ∅ s = Ok (0, w, s') ∧ wcb_slots w = [(p, pos e)] ∧
    wcb_inv s' p' es' fs gs' os [(p, pos e)] ∧ one_reserved s s' slba p (pos e) es p' e' es'.
Proof.
  intros Hes Hpe. destruct one_geometry as (Hp & Hb & Hge & Hpart). pose proof one_keep as Hkeep.
  pose proof one_slot as Hslot. pose proof Hinv as Hinv'.
  rewrite Hes in Hinv', Hkeep |- *.
  pose proof (pre_fill s p _ fs gs os [] e slba 1 (proj1 Hinv') He ltac:(lia)) as Hpre1.
  destruct (pre_next _ p q es1 fs gs os _ _ Hpre1 (lookup_insert_eq _ _ _))
    as (s2 & eq & e2 & Hnext & _ & He2 & Hp2 & Hb2 & _ & _ & _ & _ & Hk).
  { rewrite fill_slots_pos by lia. lia. }
  { cbn [app]. by rewrite npend_slots_eq, length_seqZ. }
  destruct (fill_slots_frame 1 slba (baddr e + pos e) e) as (_ & Fb & _). rewrite Fb in Hnext.
  pose proof (alloc_core_cross slba 1 s p e q s2 e2 Hpart Hge Hb ltac:(lia) ltac:(lia) ltac:(lia)) as Hrun.
  replace (Z.to_nat (RAID_LUN_SEC_NUM - pos e)) with 1%nat in Hrun by lia.
  specialize (Hrun Hnext He2 Hb2 Hp2). cbn zeta in Hrun. rewrite decide_True in Hrun by done.
  destruct (alloc_cross_spec _ _ _ _ _ _ _ _ _ slba 1 Hinv' He ltac:(lia) ltac:(lia))
    as (w & s' & Hrun' & Hi & Hr & e' & He' & Hpe').
  rewrite Hrun in Hrun'. injection Hrun' as <- <-. rewrite wcb_slots_one, Hslot in Hi, Hr by lia.
  do 6 eexists. split; [exact Hrun|]. split; [by rewrite wcb_slots_one, Hslot by lia|]. split; [exact Hi|].
  split; [split; [exact He'|]| | |exact (rs_data _ _ _ _ _ _ _ Hr)].
  - rewrite free_slots_cons by lia. f_equal. rewrite Hpe'.
    replace (pos e + Z.of_nat 1 - RAID_LUN_SEC_NUM) with 0 by lia.
    replace (pos e + 1) with RAID_LUN_SEC_NUM by lia. apply free_slots_next.
  - pose proof (rs_slot _ _ _ _ _ _ _ Hr 0%nat _ eq_refl) as Hs0. rewrite Z.add_0_r in Hs0. exact Hs0.
  - intros y l Hy Hat. apply (kept_slot_at q (put_entity p (fill_slots 1 slba (baddr e + pos e) e) s) s2); [exact Hk| |by apply Hkeep].
    intros Hyq. apply Hy, elem_of_free_slots. right. destruct Hat as (? & _ & _ & _ & _ & Hr0).
    rewrite Hyq. split; [by left|done].
Qed.

Lemma alloc_one_ok :
  has_room 1 (pos e) es →
  ∃ w s' p' es' gs' e', alloc_wcb_core slba 1 ∅ s = Ok (0, w, s') ∧ wcb_slots w = [(p, pos e)] ∧
    wcb_inv s' p' es' fs gs' os [(p, pos e)] ∧ one_reserved s s' slba p (pos e) es p' e' es'.
Proof.
  intros Hroom. destruct one_geometry as (Hp & _).
  destruct (decide (pos e + 1 < RAID_LUN_SEC_NUM)) as [Hw|Hw]; [by apply alloc_one_within|].
  assert (es = [] ∨ ∃ q es1, es = q :: es1) as [Hes|(q & es1 & Hes)] by (destruct es; eauto);
    [|by apply (alloc_one_cross q es1); [|lia]].
  exfalso. destruct Hroom as [Hroom|]; [|done]. change (1 / 4) with 0 in Hroom. lia.
Qed.
End alloc_one.

(** *** The loop over the pages of a table *)

Definition sys_lba (l : Z) : Prop := EXTEND_LBA_BASE ≤ l < EXTEND_LBA_RSVD0.

Lemma sys_lba_small l : sys_lba l → u32 l = l ∧ 0 ≤ l.
Proof.
  unfold sys_lba. assert (EXTEND_LBA_BASE = 390451572 ∧ EXTEND_LBA_RSVD0 = 390833250) as [-> ->] by done.
  intros. split; [apply u32_small|]; lia.
Qed.

(** One round: the page goes to the first free slot. *)
Lemma flush_one_ok s p es fs gs os e slba src :
  wcb_inv s p es fs gs os [] → ents s !! p = Some e → has_room 1 (pos e) es → sys_lba slba →
  ∃ w s1 s' p' es' fs' gs' e', alloc_wcb_core slba 1 ∅ s = Ok (0, w, s1) ∧
    flush_sysmeta_to_wcb w src s1 = Ok s' ∧ wcb_inv s' p' es' fs' gs' os [] ∧
    ents s' !! p' = Some e' ∧ free_slots p (pos e) es = (p, pos e) :: free_slots p' (pos e') es' ∧
    slot_at s' (p, pos e) slba ∧ slot_data s' (p, pos e) = Some (src 0) ∧
    (∀ y l, y ∉ free_slots p (pos e) es → slot_at s y l → slot_at s' y l) ∧
    (∀ y, y ≠ (p, pos e) → slot_data s' y = slot_data s y).
Proof.
  intros Hinv He Hroom Hl. destruct (sys_lba_small _ Hl) as [Hu _].
  destruct (alloc_one_ok slba Hinv He Hroom) as (w & s1 & p' & es' & gs' & e' & Hrun & Hw & Hinv1 & [[Hn Hfr] Hsl Hk Hd]).
  rewrite Hu in Hsl.
  destruct (copy_count_spec s1 p' es' fs gs' os [(p, pos e)] [] p (pos e) slba (src 0) Hinv1 ltac:(done) Hsl)
    as (s2 & s' & fs' & gs'' & Hcopy & Hcnt & Hinv' & Hss & _ & Hpos & Hdx & Hdy & _).
  assert (∃ e2, ents s' !! p' = Some e2 ∧ pos e2 = pos e') as (e2 & He2 & Hp2).
  { specialize (Hpos p'). rewrite Hn in Hpos. destruct (ents s' !! p') as [e2|]; [|done].
    injection Hpos as Hpos. by exists e2. }
  exists w, s1, s', p', es', fs', gs'', e2. split; [exact Hrun|]. split.
  { unfold flush_sysmeta_to_wcb. rewrite Hw. cbn [mfor flush_sysmeta_slot].
    destruct Hsl as (e0 & He0 & Hl0 & _ & _ & Hr). cbn [fst snd] in *.
    rewrite (get_entity_Some _ _ _ He0), bind_Ok_l, wread_in, bind_Ok_l by done. rewrite Hl0. cbn [default from_option id].
    rewrite decide_True by exact Hl. by rewrite Hcopy, bind_Ok_l, Hcnt. }
  split; [done|]. split; [done|]. split; [by rewrite Hp2|]. split; [by apply same_slots_at with s1|].
  split; [done|]. split.
  - intros y l Hy Hat. apply same_slots_at with s1; auto.
  - intros y Hy. by rewrite Hdy.
Qed.

Lemma flush_table_ok n : ∀ fuel msleep tick s p es fs gs os e buff slba,
  wcb_inv s p es fs gs os [] → ents s !! p = Some e → (n < fuel)%nat →
  (n + 3 ≤ length (free_slots p (pos e) es))%nat →
  EXTEND_LBA_BASE ≤ slba → slba + Z.of_nat n ≤ EXTEND_LBA_RSVD0 →
  ∃ s' p' es' fs' gs', flush_ftl_internal_systbl fuel msleep tick buff (Z.of_nat n) slba s = Ok s' ∧
    wcb_inv s' p' es' fs' gs' os [] ∧
    (∀ k x, take n (free_slots p (pos e) es) !! k = Some x →
       slot_at s' x (slba + Z.of_nat k) ∧ slot_data s' x = Some (buff (Z.of_nat k))) ∧
    (∀ y l, y ∉ free_slots p (pos e) es → slot_at s y l → slot_at s' y l) ∧
    (∀ y, y ∉ take n (free_slots p (pos e) es) → slot_data s' y = slot_data s y).
Proof.
  induction n as [|n IH]; intros fuel msleep tick s p es fs gs os e buff slba Hinv He Hfuel Hroom Hlo Hhi;
    (destruct fuel as [|fuel]; [lia|]); cbn [flush_ftl_internal_systbl].
  { rewrite decide_True by done. exists s, p, es, fs, gs. done. }
  rewrite decide_False by lia.
  pose proof (wi_part _ _ _ _ _ _ _ (proj1 Hinv) e He) as Hp.
  assert (has_room 1 (pos e) es) as Hr1.
  { destruct (decide (es = [])) as [->|]; [left|by right]. apply inj_le in Hroom. rewrite length_free_slots in Hroom by lia.
    change (1 / 4) with 0. cbn [length] in Hroom. lia. }
  rewrite (wcb_available_spec _ _ _ _ _ _ _ _ 1 Hinv He), bind_Ok_l, bool_decide_eq_true_2 by (done || lia).
  destruct (flush_one_ok s p es fs gs os e slba buff Hinv He Hr1)
    as (w & s1 & s' & p' & es' & fs' & gs' & e' & Hrun & Hflush & Hinv' & He' & Hfree & Hat & Hdat & Hk & Hd).
  { split; [done|lia]. }
  rewrite Hrun, bind_Ok_l, Hflush, bind_Ok_l.
  destruct (sys_lba_small slba) as [_ Hs0]; [split; [done|lia]|].
  assert (EXTEND_LBA_RSVD0 = 390833250) as HR by done. 
  replace (u32 (Z.of_nat (S n) - 1)) with (Z.of_nat n).
  2: { rewrite u32_small; [lia|]. assert (EXTEND_LBA_BASE = 390451572) by done. lia. }
  rewrite (u32_small (slba + 1)) by lia. rewrite Hfree in *.
  assert (NoDup ((p, pos e) :: free_slots p' (pos e') es')) as [Hnx Hnd]%NoDup_cons.
  { rewrite <-Hfree. apply NoDup_free_slots.
    pose proof (pre_nodup (proj1 Hinv)) as [Hnp Hnd]%NoDup_cons. apply NoDup_app in Hnd as (Hnd & _).
    apply NoDup_cons. split; [|done]. intros Hin. apply Hnp. list_mem Hin. }
  destruct (IH fuel msleep tick s' p' es' fs' gs' os e' (λ i, buff (1 + i)) (slba + 1) Hinv' He')
    as (s2 & p2 & es2 & fs2 & gs2 & Hrun2 & Hinv2 & Hsl2 & Hk2 & Hd2); [lia|cbn in Hroom; lia|lia|lia|].
  exists s2, p2, es2, fs2, gs2. split; [exact Hrun2|]. split; [done|]. cbn [take]. split; [|split].
  - intros [|k] x Hx; cbn in Hx.
    + injection Hx as <-. rewrite Z.add_0_r. split; [by apply Hk2|]. rewrite Hd2; [done|].
      intros (i & Hi & _)%elem_of_take. apply Hnx. by eapply list_elem_of_lookup_2.
    + destruct (Hsl2 k x Hx) as [H1 H2]. split.
      * by replace (slba + Z.of_nat (S k)) with (slba + 1 + Z.of_nat k) by lia.
      * by replace (Z.of_nat (S k)) with (1 + Z.of_nat k) by lia.
  - intros y l Hy Hyat. apply Hk2; [|by apply Hk]. intros Hin. apply Hy. by right.
  - intros y Hy. rewrite not_elem_of_cons in Hy. destruct Hy as [Hy1 Hy2]. rewrite Hd2 by done. by apply Hd.
Qed.


(** the padding of a partly filled buffer is not there.  [flush_dummy_lun] hands the
    partial buffer to the submitting thread after clearing one slot, the first free one;
    every later slot keeps the data, the logical page and the flash address of the
    previous use of the buffer (or none), to which the write then goes. *)
Lemma flush_dummy_lun_stale s p q es fs gs os e :
  wcb_inv s p (q :: es) fs gs os [] → ents s !! p = Some e → 0 < pos e →
  ∃ s' e', flush_dummy_lun s = Ok s' ∧ partial_entity (ctl s') = Some q ∧
    fifo_rep (ents s') (empty_lun (ctl s')) es ∧ fifo_rep (ents s') (full_lun (ctl s')) (fs ++ [p]) ∧
    ents s' !! p = Some e' ∧ fill_cnt e' = 0 ∧ dbuf e' !! pos e = Some zero_page ∧
    (∀ k, k ≠ pos e → dbuf e' !! k = dbuf e !! k) ∧
    (∀ k, pos e ≤ k < RAID_LUN_SEC_NUM → lba e' !! k = lba e !! k ∧ ppa e' !! k = ppa e !! k).
Proof.
  intros Hinv He Hp.
  destruct (flush_dummy_lun_ok s p q es fs gs os e Hinv He Hp)
    as (s' & e' & Hrun & Hpt & Hemp & Hful & He' & _ & Hppa & Hlba & _ & Hfc & Hdb).
  exists s', e'. split_and!; try done.
  - by rewrite Hdb, lookup_insert_eq.
  - intros k Hk. by rewrite Hdb, lookup_insert_ne.
  - intros k _. by rewrite Hppa, Hlba.
Qed.

(** *** Concrete runs *)

Lemma demo_free_length e :
  pos e = 0 → (258 ≤ length (free_slots 0 (pos e) (seqZ 1 (CB_ENTITYS_CNT - 1))))%nat.
Proof.
  intros ->. apply Nat2Z.inj_le. rewrite length_free_slots by done.
  rewrite length_seqZ. vm_compute. discriminate.
Qed.


(** One table page in the cache, then the dummy LUN. *)
Lemma one_page_start :
  ∃ s q es fs gs e, wcb_inv s 0 (q :: es) fs gs [] [] ∧ ents s !! 0 = Some e ∧ pos e = 1.
Proof.
  destruct demo_start as (s & Hinv & _ & e & He & Hp).
  destruct (flush_one_ok s 0 _ [] [] [] e EXTEND_LBA_UFTL (λ _, zero_page) Hinv He)
    as (w & s1 & s' & p' & es' & fs' & gs' & e' & _ & _ & Hinv' & He' & Hfree & _).
  { rewrite Hp. right. by vm_compute. }
  { split; by vm_compute. }
  pose proof (proj2 Hinv' e' He') as Hlt. rewrite Hp in Hfree.
  rewrite (free_slots_cons 0 0), (free_slots_cons 0 (0 + 1)), (free_slots_cons p') in Hfree by (done || lia).
  injection Hfree as Hp' Hpos Htl. exists s'. apply (f_equal length) in Htl. apply (f_equal Z.of_nat) in Htl.
  rewrite !length_free_slots in Htl by (done || lia). subst p'.
  destruct es' as [|q es'].
  { exfalso. rewrite length_seqZ in Htl. cbn [length] in Htl. rewrite <-Hpos in Htl. vm_compute in Htl. done. }
  exists q, es', fs', gs', e'. done.
Qed.

Lemma flush_dummy_lun_stale_witness :
  ∃ s s', flush_dummy_lun s = Ok s' ∧ slot_data s' (0, 1) = Some zero_page.
Proof.
  destruct one_page_start as (s & q & es & fs & gs & e & Hinv & He & Hp). exists s.
  destruct (flush_dummy_lun_stale s 0 q es fs gs [] e Hinv He)
    as (s' & e' & Hrun & _ & _ & _ & He' & _ & Hz & _).
  - rewrite Hp. lia.
  - exists s'. split; [exact Hrun|]. unfold slot_data. cbn [fst snd]. rewrite He'. rewrite Hp in Hz. exact Hz.
Defined.
