(* ===== verification/BootBlk.v ===== *)
(** * The boot block

    [bootblk/bootblk-mngr.c] and [.h].  The two boot pages are the memory the C
    structs are laid over: 32-bit words, with the struct fields as accessors, so that
    a [memcpy] of whatever was read from flash is just an assignment. *)

From S2P Require Import Prelude NandCfg Kernel SysMeta PpaCmd.

#[local] Open Scope Z_scope.

(** ** The pages *)

Definition BOOTBLK_META_MDW : list Z := [0x6E657875; 0x73707269; 0x6d617279; 0x626F6F74].
Definition BOOTBLK_BBT_MDW : list Z := [0x6261646c; 0x6c6f636b; 0x73626974; 0x6d617073].

Definition BOOTBLK_PORTION_SIZE : Z := CFG_NAND_EP_SIZE * CFG_DRIVE_LINE_NUM.

(** Words never written are zero ([kzalloc], [memset]). *)
Notation portion := (gmap Z Z) (only parsing).

Definition pword (p : portion) (i : Z) : Z := default 0 (p !! i).

(** *** [struct bootblk_bbt_page] *)

(** [magic_dw] of either page. *)
Definition magic_dw (p : portion) : list Z := pword p <$> seqZ 0 4.

Definition set_magic (m : list Z) (p : portion) : portion :=
  foldl (λ p '(i, v), <[i := v]> p) p (zip (seqZ 0 4) m).

Definition bbt_half (blk lun : Z) : Z := blk * CFG_NAND_LUN_NUM + lun.

Definition page_bbt (p : portion) (blk lun : Z) : Z :=
  let k := bbt_half blk lun in get_bits (16 * (k mod 2)) 16 (pword p (4 + k / 2)).

Definition set_page_bbt (blk lun v : Z) (p : portion) : portion :=
  let k := bbt_half blk lun in
  <[4 + k / 2 := set_bits (16 * (k mod 2)) 16 v (pword p (4 + k / 2))]> p.

(** *** [struct bootblk_meta_page] *)

Definition POWER_DOWN_SAFE : Z := 0x8866.
Definition POWER_DOWN_UNSAFE : Z := 0x7755.

Definition meta_pdf (p : portion) : Z := pword p 4.
Definition bbt_page_address (p : portion) : geo_ppa := pword p 5.
Definition meta_page_address (p : portion) : geo_ppa := pword p 6.
Definition bbt_ch_iter (p : portion) (i : Z) : Z := get_bits (8 * i) 8 (pword p 7).
Definition meta_ch_iter (p : portion) (i : Z) : Z := get_bits (8 * i) 8 (pword p 8).

Definition set_meta_pdf (v : Z) (p : portion) : portion := <[4 := v]> p.
Definition set_bbt_page_address (v : geo_ppa) (p : portion) : portion := <[5 := v]> p.
Definition set_meta_page_address (v : geo_ppa) (p : portion) : portion := <[6 := v]> p.
Definition set_bbt_ch_iter (i v : Z) (p : portion) : portion :=
  <[7 := set_bits (8 * i) 8 v (pword p 7)]> p.
Definition set_meta_ch_iter (i v : Z) (p : portion) : portion :=
  <[8 := set_bits (8 * i) 8 v (pword p 8)]> p.

Definition bootblk_get_bbt_pos (m : portion) : geo_ppa := bbt_page_address m.
Definition bootblk_get_meta_pos (m : portion) : geo_ppa := meta_page_address m.

(** The meta page [bootblk_page_init] prepares. *)
Definition init_meta : portion :=
  let m := set_magic BOOTBLK_META_MDW ∅ in
  let m := set_bbt_page_address INVALID_PAGE m in
  let m := set_meta_page_address INVALID_PAGE m in
  foldl (λ m i, set_meta_ch_iter i (u8 (i + 4)) (set_bbt_ch_iter i (u8 i) m)) m (seqZ 0 4).

(** What the two global pointers point to. *)
Record boot : Type := mk_boot {
  boot_bbt_page_info : portion;
  boot_meta_page_info : portion;
}.

Definition bootblk_page_mdw_check (buf : portion) (cmdtype : cmd_type) : bool :=
  match cmdtype with
  | FSCFTL_BBTPG_READ => bool_decide (magic_dw buf = BOOTBLK_BBT_MDW)
  | FSCFTL_METAPG_READ => bool_decide (magic_dw buf = BOOTBLK_META_MDW)
  | _ => false
  end.

(** ** Positions *)

(** The search of a channel in an iteration order; [BUG_ON] when it is not there. *)
Definition next_ch (iter : Z → Z) (last : Z) : res Z :=
  match list_find (λ i, iter i = last) (seqZ 0 4) with
  | Some (_, i) => Ok (iter ((i + 1) mod 4))
  | None => Fault F_BUG
  end.

Definition bootblk_bbt_channel_jmp (m : portion) (last : Z) : res Z := next_ch (bbt_ch_iter m) last.
Definition bootblk_meta_channel_jmp (m : portion) (last : Z) : res Z := next_ch (meta_ch_iter m) last.

(** [INCRE_BOUNDED(curpos.nand.pg, PG_BITS, carry)]: the increment is on the 9-bit
    field. *)
Definition incre_pg (cur : geo_ppa) : geo_ppa * bool :=
  let '(pg, carry) := INCRE_BOUNDED (λ x, x mod 2 ^ 9) (nand_pg cur) PG_BITS in
  (set_nand_pg pg cur, carry).

Definition bootblk_get_next_bbt_pos (m : portion) : res (geo_ppa * portion) :=
  let cur := bootblk_get_bbt_pos m in
  cur ← (if decide (cur = INVALID_PAGE) then
           Ok (set_nand_pg 0 (set_nand_ch (bbt_ch_iter m 0) 0))
         else
           let '(cur, carry) := incre_pg cur in
           if carry : bool then
             channel ← bootblk_bbt_channel_jmp m (nand_ch cur);
             Ok (set_nand_ch channel cur)
           else Ok cur);
  Ok (cur, set_bbt_page_address cur m).

Definition bootblk_get_next_meta_pos (m : portion) : res (geo_ppa * portion) :=
  let cur := bootblk_get_meta_pos m in
  cur ← (if decide (cur = INVALID_PAGE) then
           Ok (set_nand_pg 0 (set_nand_ch (meta_ch_iter m 0) 0))
         else
           let '(cur, carry) := incre_pg cur in
           if carry : bool then
             channel ← bootblk_meta_channel_jmp m (nand_ch cur);
             Ok (set_nand_ch channel cur)
           else Ok cur);
  Ok (cur, set_meta_page_address cur m).

(** Where the search for the newest meta page looks. *)
Definition binary_search_meta_page (m : portion) : geo_ppa :=
  set_nand_pg 1 (set_nand_ch (meta_ch_iter m 0) 0).

(** The addresses of a page of LUN [lun], plane by plane. *)
Definition boot_ppas (ch pg lun : Z) : list Z :=
  for_each_pl ≫= λ pl, (λ sec, set_ppa_nand_addr ch sec pl lun pg 0) <$> for_each_sec.

(** [ppalist[i++] = ppa.ppa] for each of them. *)
Definition fill_boot_ppalist (id ch pg lun : Z) (s : pstate) : res pstate :=
  let ppas := boot_ppas ch pg lun in
  mfor (seqZ 0 (Z.of_nat (length ppas))) (λ i s,
    p ← match ppas !! Z.to_nat i with Some p => Ok p | None => Fault F_OOB end;
    pool_write id i p s) s.

(** The memory a request transfers: a boot page, or [NULL]. *)
Definition bootbbt : obj := ("bootbbt", 0).
Definition bootmeta : obj := ("bootmeta", 0).

Definition buf_ptr (o : option obj) : Z := match o with Some _ => 1 | None => 0 end.

(** A request in flight with its context and data buffer. *)
Record flight : Type := mk_flight {
  fl_rq : request;
  fl_iod : nvme_ppa_iod;
  fl_buf : option obj;
}.

Section bootblk.
Context (E : kenv) (ns_id : Z).

(** ** Allocation *)

Definition bootblk_page_init (h : kheap) : res (Z * option boot * kheap) :=
  let '(ok, h) := kalloc (alloc_ok E) bootbbt h in
  if negb ok then Ok (- ENOMEM, None, h) else
  let '(ok, h) := kalloc (alloc_ok E) bootmeta h in
  if negb ok then h ← kfree bootbbt h; Ok (- ENOMEM, None, h) else
  Ok (0, Some (mk_boot (set_magic BOOTBLK_BBT_MDW ∅) init_meta), h).

Definition bootblk_page_exit (h : kheap) : res kheap :=
  h ← kfree bootmeta h;
  kfree bootbbt h.

(** ** Writing *)

Definition bootblk_flush_completion (fl : flight) (s : pstate) : res pstate :=
  m ← deref (iod_vaddr_meta (fl_iod fl));
  s ← dma_pool_page_free m s;
  l ← deref (iod_vaddr_ppalist (fl_iod fl));
  s ← dma_pool_page_free l s;
  h ← kfree ("ppacmd", req_cmd_obj (fl_rq fl)) (p_heap s);
  h ← blk_mq_free_request (req_id (fl_rq fl)) h;
  Ok (mk_pstate h (p_pool s)).

Definition boot_cmd (opcode meta_dma ppa_dma : Z) : nvme_ppa_command :=
  ppa_command opcode (u32 ns_id) (u64 meta_dma) (u64 ppa_dma) (u16 (CFG_DRIVE_LINE_NUM - 1))
    (u16 (Z.lor NVM_IO_DUAL_ACCESS NVM_IO_SCRAMBLE_ENABLE)).

(** The write of one copy; a request that is not accepted is dropped. *)
Definition flush_copy (cmdtype : cmd_type) (buf : option obj) (bootppa : geo_ppa) (lun : Z)
    (st : pstate * list flight) : res (pstate * list flight) :=
  let '(s, fl) := st in
  '(cmd_obj, h) ← alloc_ppa_rqd_ctx E (p_heap s);
  '(l, ppa_dma, s) ← dma_pool_page_zalloc E (mk_pstate h (p_pool s));
  s ← fill_boot_ppalist l (nand_ch bootppa) (nand_pg bootppa) lun s;
  '(m, meta_dma, s) ← dma_pool_page_zalloc E s;
  let iod := mk_ppa_iod None 0 (Some m) (Some l) lun (Some cmdtype) in
  '(_, rq, h) ← nvme_submit_ppa_cmd E (boot_cmd NVM_OP_WRPPA meta_dma ppa_dma) cmd_obj
                  (buf_ptr buf) BOOTBLK_PORTION_SIZE (p_heap s);
  Ok (mk_pstate h (p_pool s),
      match rq with Some rq => fl ++ [mk_flight rq iod buf] | None => fl end).

(** One copy per LUN.  An unknown type only warns and transfers from [NULL]. *)
Definition bootblk_flush_duplicated (cmdtype : cmd_type) (bootppa : geo_ppa) (s : pstate)
    : res (pstate * list flight) :=
  let buf := if decide (cmdtype = FSCFTL_METAPG_WRITE) then Some bootmeta
             else if decide (cmdtype = FSCFTL_BBTPG_WRITE) then Some bootbbt else None in
  mfor for_each_lun (flush_copy cmdtype buf bootppa) (s, []).

Definition bootblk_flush_meta_page (flag : Z) (b : boot) (s : pstate)
    : res (boot * pstate * list flight) :=
  let m := set_meta_pdf flag (boot_meta_page_info b) in
  '(pos, m) ← bootblk_get_next_meta_pos m;
  '(s, fl) ← bootblk_flush_duplicated FSCFTL_METAPG_WRITE pos s;
  Ok (mk_boot (boot_bbt_page_info b) m, s, fl).

Definition copy_bbt (t : gmap Z bmi_item) (p : portion) : res portion :=
  mfor for_each_blk (λ blk p,
    mfor for_each_lun (λ lun p,
      i ← get_bmi_item blk;
      bmi ← aread t i;
      v ← wread CFG_NAND_LUN_NUM 0 (bbt bmi) lun;
      Ok (set_page_bbt blk lun v p)) p) p.

Definition bootblk_flush_bbt_page (t : gmap Z bmi_item) (b : boot) (s : pstate)
    : res (boot * pstate * list flight) :=
  bbt ← copy_bbt t (boot_bbt_page_info b);
  '(pos, m) ← bootblk_get_next_bbt_pos (boot_meta_page_info b);
  '(s, fl) ← bootblk_flush_duplicated FSCFTL_BBTPG_WRITE pos s;
  Ok (mk_boot bbt m, s, fl).

(** ** Reading *)

Section read.
(** The device: a status and the data it transfers. *)
Context (dev : nvme_ppa_command → gmap Z (gmap Z Z) → Z * portion).

(** The loop over the copies: the LUN it stopped at, and the data buffer. *)
Fixpoint mirror_loop (luns : list Z) (cmdtype : cmd_type) (ch pg l meta_dma ppa_dma : Z)
    (databuf : portion) (s : pstate) : res (option Z * portion * pstate) :=
  match luns with
  | [] => Ok (None, databuf, s)
  | lun :: luns =>
      s ← fill_boot_ppalist l ch pg lun (mk_pstate (p_heap s) (<[l := ∅]> (p_pool s)));
      '(status, a, s) ← nvme_submit_ppa_cmd_sync E dev (boot_cmd NVM_OP_RDPPA meta_dma ppa_dma)
                          1 BOOTBLK_PORTION_SIZE s;
      let databuf := default ∅ a in
      if decide (status = 0) then
        if bootblk_page_mdw_check databuf cmdtype then Ok (Some lun, databuf, s)
        else mirror_loop luns cmdtype ch pg l meta_dma ppa_dma databuf s
      else mirror_loop luns cmdtype ch pg l meta_dma ppa_dma databuf s
  end.

Definition bootblk_get_mirror (cmdtype : cmd_type) (databuf : portion) (bootppa : geo_ppa)
    (s : pstate) : res (Z * portion * pstate) :=
  let cmd := ("ppacmd", Z.of_nat (k_calls (p_heap s))) in
  let '(ok, h) := kalloc (alloc_ok E) cmd (p_heap s) in
  let s := mk_pstate h (p_pool s) in
  if negb ok then Ok (- ENOMEM, databuf, s) else
  '(l, ppa_dma, s) ← dma_pool_page_zalloc E s;
  '(m, meta_dma, s) ← dma_pool_page_zalloc E s;
  '(lun, databuf, s) ← mirror_loop for_each_lun cmdtype (nand_ch bootppa) (nand_pg bootppa)
                         l meta_dma ppa_dma databuf s;
  s ← dma_pool_page_free m s;
  s ← dma_pool_page_free l s;
  h ← kfree cmd (p_heap s);
  Ok (match lun with Some _ => 0 | None => -1 end, databuf, mk_pstate h (p_pool s)).

(** The boot page takes whatever the buffer holds, found or not. *)
Definition bootblk_recovery_bbt_page (b : boot) (s : pstate) : res (Z * boot * pstate) :=
  let o := ("bootbuf", 0) in
  let '(ok, h) := kalloc (alloc_ok E) o (p_heap s) in
  let s := mk_pstate h (p_pool s) in
  if negb ok then Ok (- ENOMEM, b, s) else
  let pos := bootblk_get_bbt_pos (boot_meta_page_info b) in
  '(result, databuf, s) ← bootblk_get_mirror FSCFTL_BBTPG_READ ∅ pos s;
  h ← kfree o (p_heap s);
  Ok (result, mk_boot databuf (boot_meta_page_info b), mk_pstate h (p_pool s)).

Definition bootblk_recovery_meta_page (b : boot) (s : pstate) : res (Z * boot * pstate) :=
  let o := ("bootbuf", 0) in
  let '(ok, h) := kalloc (alloc_ok E) o (p_heap s) in
  let s := mk_pstate h (p_pool s) in
  if negb ok then Ok (- ENOMEM, b, s) else
  let pos := binary_search_meta_page (boot_meta_page_info b) in
  '(result, databuf, s) ← bootblk_get_mirror FSCFTL_METAPG_READ ∅ pos s;
  h ← kfree o (p_heap s);
  Ok (result, mk_boot (boot_bbt_page_info b) databuf, mk_pstate h (p_pool s)).
End read.
End bootblk.

(** ** Lemmas on positions *)

(** The carry of the page counter never comes. *)
Lemma incre_pg_run cur : incre_pg cur = (set_nand_pg ((nand_pg cur + 1) mod 512) cur, false).
Proof.
  unfold incre_pg, INCRE_BOUNDED. change (Z.shiftl 1 PG_BITS) with 512. change (2 ^ 9) with 512.
  pose proof (Z.mod_pos_bound (nand_pg cur + 1) 512 ltac:(lia)). by rewrite decide_False by lia.
Qed.

Definition boot_pos (ch pg : Z) : geo_ppa := set_nand_pg pg (set_nand_ch ch 0).

Lemma boot_pos_next ch pg :
  0 ≤ ch < 16 → 0 ≤ pg < 512 →
  nand_pg (boot_pos ch pg) = pg ∧ nand_ch (boot_pos ch pg) = ch ∧ boot_pos ch pg ≠ INVALID_PAGE ∧
  set_nand_pg ((pg + 1) mod 512) (boot_pos ch pg) = boot_pos ch ((pg + 1) mod 512).
Proof.
  intros Hch Hpg. unfold boot_pos. split_and!.
  - ppa_field. apply Z.mod_small. lia.
  - ppa_field. apply Z.mod_small. lia.
  - assert (0 ≤ set_nand_pg pg (set_nand_ch ch 0) < 2 ^ 19) as Hb.
    { autounfold with ppa_fields. repeat (apply set_bits_bound; [lia..|]). lia. }
    unfold INVALID_PAGE. lia.
  - autounfold with ppa_fields. by rewrite set_set_bits by lia.
Qed.

Definition ch_of (iter : Z → Z) : Prop := 0 ≤ iter 0 < 16.

Lemma next_meta_pos_first m :
  meta_page_address m = INVALID_PAGE →
  bootblk_get_next_meta_pos m =
    Ok (boot_pos (meta_ch_iter m 0) 0, set_meta_page_address (boot_pos (meta_ch_iter m 0) 0) m).
Proof. intros H. unfold bootblk_get_next_meta_pos, bootblk_get_meta_pos. by rewrite H, decide_True. Qed.

Lemma next_bbt_pos_first m :
  bbt_page_address m = INVALID_PAGE →
  bootblk_get_next_bbt_pos m =
    Ok (boot_pos (bbt_ch_iter m 0) 0, set_bbt_page_address (boot_pos (bbt_ch_iter m 0) 0) m).
Proof. intros H. unfold bootblk_get_next_bbt_pos, bootblk_get_bbt_pos. by rewrite H, decide_True. Qed.

Lemma next_meta_pos_later m ch pg :
  0 ≤ ch < 16 → 0 ≤ pg < 512 → meta_page_address m = boot_pos ch pg →
  bootblk_get_next_meta_pos m =
    Ok (boot_pos ch ((pg + 1) mod 512), set_meta_page_address (boot_pos ch ((pg + 1) mod 512)) m).
Proof.
  intros Hch Hpg H. destruct (boot_pos_next ch pg Hch Hpg) as (Hp & _ & Hne & Hs).
  unfold bootblk_get_next_meta_pos, bootblk_get_meta_pos.
  by rewrite H, decide_False, incre_pg_run, Hp, Hs by done.
Qed.

Lemma next_bbt_pos_later m ch pg :
  0 ≤ ch < 16 → 0 ≤ pg < 512 → bbt_page_address m = boot_pos ch pg →
  bootblk_get_next_bbt_pos m =
    Ok (boot_pos ch ((pg + 1) mod 512), set_bbt_page_address (boot_pos ch ((pg + 1) mod 512)) m).
Proof.
  intros Hch Hpg H. destruct (boot_pos_next ch pg Hch Hpg) as (Hp & _ & Hne & Hs).
  unfold bootblk_get_next_bbt_pos, bootblk_get_bbt_pos.
  by rewrite H, decide_False, incre_pg_run, Hp, Hs by done.
Qed.

(** The positions of [n] flushes. *)
Fixpoint positions (step : portion → res (geo_ppa * portion)) (n : nat) (m : portion)
    : res (list geo_ppa * portion) :=
  match n with
  | O => Ok ([], m)
  | S n =>
      '(p, m) ← step m;
      '(ps, m) ← positions step n m;
      Ok (p :: ps, m)
  end.

(** Pages [pg], [pg + 1], ... of a channel, around the block. *)
Definition page_cycle (ch pg : Z) (n : nat) : list geo_ppa :=
  (λ i, boot_pos ch ((pg + i) mod 512)) <$> seqZ 0 (Z.of_nat n).

Lemma page_cycle_S ch pg n :
  page_cycle ch pg (S n) = boot_pos ch (pg mod 512) :: page_cycle ch (pg + 1) n.
Proof.
  unfold page_cycle. rewrite Nat2Z.inj_succ, (seqZ_cons 0) by lia. rewrite fmap_cons, Z.add_0_r. f_equal.
  change (Z.succ 0) with (1 + 0). rewrite <-fmap_add_seqZ, <-list_fmap_compose, Z.pred_succ.
  apply list_fmap_ext. intros _ i _. cbn. do 2 f_equal. lia.
Qed.

Lemma page_cycle_mod ch pg n : page_cycle ch (pg mod 512) n = page_cycle ch pg n.
Proof. unfold page_cycle. apply list_fmap_ext. intros _ i _. by rewrite Zplus_mod_idemp_l. Qed.

Section cycle.
Context (step : portion → res (geo_ppa * portion)) (get : portion → geo_ppa).
Context (Hstep : ∀ m ch pg, 0 ≤ ch < 16 → 0 ≤ pg < 512 → get m = boot_pos ch pg →
  ∃ m', step m = Ok (boot_pos ch ((pg + 1) mod 512), m') ∧ get m' = boot_pos ch ((pg + 1) mod 512)).
#[local] Set Default Proof Using "All".

Lemma positions_later n ch : ∀ m pg,
  0 ≤ ch < 16 → 0 ≤ pg < 512 → get m = boot_pos ch pg →
  ∃ m', positions step n m = Ok (page_cycle ch (pg + 1) n, m').
Proof.
  induction n as [|n IH]; intros m pg Hch Hpg Hm; [by eexists|]. cbn [positions].
  destruct (Hstep m ch pg Hch Hpg Hm) as (m1 & -> & Hm1). rewrite bind_Ok_l.
  destruct (IH m1 ((pg + 1) mod 512)) as [m' ->]; [done|apply Z.mod_pos_bound; lia|done|].
  rewrite bind_Ok_l. exists m'. by rewrite page_cycle_S, <-(page_cycle_mod _ ((pg + 1) mod 512 + 1)),
    Zplus_mod_idemp_l, page_cycle_mod.
Qed.

Lemma positions_first n m ch m1 :
  0 ≤ ch < 16 → step m = Ok (boot_pos ch 0, m1) → get m1 = boot_pos ch 0 →
  ∃ m', positions step n m = Ok (page_cycle ch 0 n, m').
Proof.
  intros Hch H1 Hm1. destruct n as [|n]; [by eexists|]. cbn [positions]. rewrite H1, bind_Ok_l.
  destruct (positions_later n ch m1 0 Hch) as [m' ->]; [lia|done|]. rewrite bind_Ok_l.
  exists m'. by rewrite page_cycle_S.
Qed.
End cycle.

Lemma meta_addr_set p m : meta_page_address (set_meta_page_address p m) = p.
Proof. unfold meta_page_address, set_meta_page_address, pword. by rewrite lookup_insert_eq. Qed.

Lemma bbt_addr_set p m : bbt_page_address (set_bbt_page_address p m) = p.
Proof. unfold bbt_page_address, set_bbt_page_address, pword. by rewrite lookup_insert_eq. Qed.

(** where the boot pages go.  After [bootblk_page_init] the [k]-th meta page is
    written to channel 4 and the [k]-th bbt page to channel 0, both at page [k] modulo
    512: the page counter is a 9-bit field whose increment never reports a carry, so
    the jump to the next channel of the iteration list is never taken and page 0 is
    written again without an erase. *)
Lemma boot_page_positions E h b h' n :
  bootblk_page_init E h = Ok (0, Some b, h') →
  (∃ m, positions bootblk_get_next_meta_pos n (boot_meta_page_info b) = Ok (page_cycle 4 0 n, m)) ∧
  (∃ m, positions bootblk_get_next_bbt_pos n (boot_meta_page_info b) = Ok (page_cycle 0 0 n, m)).
Proof.
  intros Hinit. assert (boot_meta_page_info b = init_meta) as ->.
  { unfold bootblk_page_init in Hinit. destruct (kalloc _ _ _) as [[] h1]; [|done]. cbn [negb] in Hinit.
    destruct (kalloc _ _ _) as [[] h2].
    - injection Hinit as <- _. reflexivity.
    - cbn [negb] in Hinit. by destruct (kfree _ _). }
  split.
  - eapply (positions_first _ meta_page_address); [|done|apply next_meta_pos_first; reflexivity|apply meta_addr_set].
    intros m ch pg Hch Hpg Hm. eexists. rewrite (next_meta_pos_later m ch pg) by done.
    split; [done|apply meta_addr_set].
  - eapply (positions_first _ bbt_page_address); [|done|apply next_bbt_pos_first; reflexivity|apply bbt_addr_set].
    intros m ch pg Hch Hpg Hm. eexists. rewrite (next_bbt_pos_later m ch pg) by done.
    split; [done|apply bbt_addr_set].
Qed.

Lemma boot_page_positions_witness :
  ∃ b h' m, bootblk_page_init env_ok (mk_kheap 0 ∅) = Ok (0, Some b, h') ∧
    positions bootblk_get_next_meta_pos 513 (boot_meta_page_info b) = Ok (page_cycle 4 0 513, m).
Proof.
  eexists _, _.
  destruct (boot_page_positions env_ok (mk_kheap 0 ∅) _ _ 513 eq_refl) as [[m Hm] _].
  exists m. split; [reflexivity|exact Hm].
Defined.

(** ** Writing the copies *)

(** What a request in flight owns. *)
Definition flight_objs (f : flight) : list obj :=
  ("request", req_id (fl_rq f)) :: ("ppacmd", req_cmd_obj (fl_rq f)) ::
  ((λ i, ("dmapage", i)) <$> option_list (iod_vaddr_ppalist (fl_iod f))) ++
  ((λ i, ("dmapage", i)) <$> option_list (iod_vaddr_meta (fl_iod f))).

Definition flights_objs (fl : list flight) : list obj := mjoin (flight_objs <$> fl).

(** The write of page [pg] of channel [ch] in LUN [lun] of the boot block, from [buf]. *)
Record copy_write (E : kenv) (s : pstate) (ch pg lun : Z) (buf : option obj) (f : flight) : Prop := {
  cw_op : c_opcode (req_cmd (fl_rq f)) = NVM_OP_WRPPA;
  cw_nlb : c_nlb (req_cmd (fl_rq f)) = CFG_DRIVE_LINE_NUM - 1;
  cw_len : req_data_len (fl_rq f) = BOOTBLK_PORTION_SIZE;
  cw_buf : fl_buf f = buf;
  cw_lun : iod_idx (fl_iod f) = lun;
  cw_meta : is_Some (iod_vaddr_meta (fl_iod f));
  cw_list : ∃ k page, iod_vaddr_ppalist (fl_iod f) = Some (Z.of_nat k) ∧
      c_ppalist (req_cmd (fl_rq f)) = u64 (dma_addr E k) ∧
      p_pool s !! Z.of_nat k = Some page ∧
      ∀ i p, boot_ppas ch pg lun !! i = Some p → page !! Z.of_nat i = Some p;
}.

Lemma boot_ppas_length ch pg lun : length (boot_ppas ch pg lun) = 8%nat.
Proof. done. Qed.

Lemma fill_boot_ppalist_ok id ch pg lun s page0 :
  p_pool s !! id = Some page0 →
  ∃ page, fill_boot_ppalist id ch pg lun s = Ok (mk_pstate (p_heap s) (<[id := page]> (p_pool s))) ∧
    ∀ i p, boot_ppas ch pg lun !! i = Some p → page !! Z.of_nat i = Some p.
Proof.
  intros Hp. destruct (pool_fill id 8 (boot_ppas ch pg lun) s) as (page & Hf & Hpg); [by eexists|done|done|].
  exists page. split; [|done]. exact Hf.
Qed.

Section flush.
Context (E : kenv) (HE : env_good E) (ns_id : Z).
#[local] Set Default Proof Using "All".

Lemma flush_copy_ok cmdtype buf bootppa lun s fl os L :
  heap_wf (p_heap s) → owns (p_heap s) os L →
  ∃ s' f, flush_copy E ns_id cmdtype buf bootppa lun (s, fl) = Ok (s', fl ++ [f]) ∧
    heap_wf (p_heap s') ∧ owns (p_heap s') (flight_objs f ++ os) L ∧
    copy_write E s' (nand_ch bootppa) (nand_pg bootppa) lun buf f ∧
    (∀ i, ("dmapage", i) ∈ k_live (p_heap s) → p_pool s' !! i = p_pool s !! i).
Proof.
  intros Hw Ho. unfold flush_copy.
  destruct (alloc_ctx_good E HE _ _ _ Hw Ho) as (cmd & h1 & -> & Hw1 & Ho1). rewrite bind_Ok_l.
  destruct (page_zalloc_good E HE (mk_pstate h1 (p_pool s)) _ _ Hw1 Ho1) as (s2 & -> & Hw2 & Ho2 & Hf2 & Hp2).
  cbn [p_heap p_pool] in *. set (k := k_calls h1) in *. rewrite bind_Ok_l.
  destruct (fill_boot_ppalist_ok (Z.of_nat k) (nand_ch bootppa) (nand_pg bootppa) lun s2 ∅)
    as (page & -> & Hpg); [by rewrite Hp2, lookup_insert_eq|].
  rewrite bind_Ok_l.
  destruct (page_zalloc_good E HE (mk_pstate (p_heap s2) (<[Z.of_nat k := page]> (p_pool s2))) _ _ Hw2 Ho2)
    as (s3 & -> & Hw3 & Ho3 & Hf3 & Hp3). cbn [p_heap p_pool] in *. rewrite bind_Ok_l.
  match goal with |- context [nvme_submit_ppa_cmd E ?c cmd ?b ?l ?h] =>
    destruct (submit_good E HE c cmd b l h _ _ Hw3 Ho3) as (rq & h4 & -> & Hcmd & Hobj & Hlen & Hw4 & _ & Ho4) end.
  rewrite bind_Ok_l. eexists _, _. split; [done|]. cbn [p_heap p_pool]. split; [done|].
  split; [|split].
  - eapply owns_perm; [|exact Ho4]. unfold flight_objs. cbn. rewrite Hobj. clear. solve_Permutation.
  - constructor; cbn; rewrite ?Hcmd; try done. exists k, page. split; [done|]. split; [done|].
    split; [|done]. rewrite Hp3, lookup_insert_ne; [by rewrite lookup_insert_eq|]. intros Hk. apply Hf3. rewrite Hk. apply (ow_in _ _ _ Ho2). by left.
  - intros i Hi. apply (owns_grow _ _ _ _ _ Ho Ho1) in Hi.
    assert (i ≠ Z.of_nat k) by (intros ->; done). apply (owns_grow _ _ _ _ _ Ho1 Ho2) in Hi.
    rewrite Hp3, lookup_insert_ne by (intros <-; done).
    rewrite lookup_insert_ne by done. by rewrite Hp2, lookup_insert_ne by done.
Qed.

Lemma copy_write_frame s s' ch pg lun buf f :
  copy_write E s ch pg lun buf f →
  (∀ i, ("dmapage", i) ∈ flight_objs f → p_pool s' !! i = p_pool s !! i) →
  copy_write E s' ch pg lun buf f.
Proof.
  intros [H1 H2 H3 H4 H5 H6 (k & page & Hk & Hd & Hp & Hpg)] Hs. constructor; try done.
  exists k, page. split; [done|]. split; [done|]. split; [|done]. rewrite Hs; [done|].
  unfold flight_objs. rewrite Hk. cbn. do 2 right. by left.
Qed.

Lemma flight_objs_in f fl o : f ∈ fl → o ∈ flight_objs f → o ∈ flights_objs fl.
Proof.
  intros Hf Ho. apply list_elem_of_join. exists (flight_objs f). split; [done|].
  by apply list_elem_of_fmap_2.
Qed.

Lemma flush_loop_ok cmdtype buf bootppa s :
  heap_wf (p_heap s) →
  ∃ s' fl, mfor for_each_lun (flush_copy E ns_id cmdtype buf bootppa) (s, []) = Ok (s', fl) ∧
    heap_wf (p_heap s') ∧ owns (p_heap s') (flights_objs fl) (k_live (p_heap s)) ∧
    Forall2 (λ lun f, copy_write E s' (nand_ch bootppa) (nand_pg bootppa) lun buf f) for_each_lun fl.
Proof.
  intros Hw.
  destruct (mfor_inv (λ dn st, heap_wf (p_heap st.1) ∧
      owns (p_heap st.1) (flights_objs st.2) (k_live (p_heap s)) ∧
      Forall2 (λ lun f, copy_write E st.1 (nand_ch bootppa) (nand_pg bootppa) lun buf f) dn st.2)
      (flush_copy E ns_id cmdtype buf bootppa) for_each_lun (s, []))
    as ([s' fl] & Hrun & Hres).
  - split; [done|]. split; [apply owns_nil|constructor].
  - intros dn lun todo [s1 fl1] _ (Hw1 & Ho1 & Hall). cbn [fst snd] in *.
    destruct (flush_copy_ok cmdtype buf bootppa lun s1 fl1 _ _ Hw1 Ho1) as (s2 & f & Hrun & Hw2 & Ho2 & Hcw & Hkeep).
    exists (s2, fl1 ++ [f]). split; [done|]. cbn [fst snd]. split; [done|]. split.
    + eapply owns_perm; [|exact Ho2]. unfold flights_objs. rewrite fmap_app, join_app.
      change (mjoin (flight_objs <$> [f])) with (flight_objs f ++ []). rewrite app_nil_r. apply Permutation_app_comm.
    + apply Forall2_app; [|by apply Forall2_cons; split; [|apply Forall2_nil]].
      rewrite Forall2_lookup in Hall |- *. intros n. specialize (Hall n).
      destruct (fl1 !! n) as [g|] eqn:Hg; inversion Hall as [? ? Hcg Hx Hy|]; subst; constructor.
      apply copy_write_frame with s1; [done|]. intros i Hi. apply Hkeep. apply (ow_in _ _ _ Ho1).
      apply flight_objs_in with g; [|done]. by eapply list_elem_of_lookup_2.
  - exists s', fl. split; [done|]. exact Hres.
Qed.

Lemma flush_completion_ok f s os L :
  heap_wf (p_heap s) → owns (p_heap s) (flight_objs f ++ os) L →
  is_Some (iod_vaddr_meta (fl_iod f)) → is_Some (iod_vaddr_ppalist (fl_iod f)) →
  ∃ s', bootblk_flush_completion f s = Ok s' ∧ heap_wf (p_heap s') ∧ owns (p_heap s') os L.
Proof.
  intros Hw Ho [m Hm] [l Hl]. unfold bootblk_flush_completion, flight_objs in *.
  rewrite Hm, Hl in *. cbn [deref option_list fmap list_fmap app] in *. rewrite bind_Ok_l.
  apply (owns_perm _ _ (("dmapage", m) :: ("dmapage", l) :: ("ppacmd", req_cmd_obj (fl_rq f)) ::
    ("request", req_id (fl_rq f)) :: os)) in Ho; [|clear; solve_Permutation].
  destruct (page_free_good _ _ _ _ Hw Ho) as (s1 & -> & Hw1 & Ho1 & _). rewrite !bind_Ok_l.
  destruct (page_free_good _ _ _ _ Hw1 Ho1) as (s2 & -> & Hw2 & Ho2 & _). rewrite bind_Ok_l.
  destruct (kfree_good _ _ _ _ Hw2 Ho2) as (h3 & -> & Hw3 & Ho3). rewrite bind_Ok_l.
  unfold blk_mq_free_request.
  destruct (kfree_good _ _ _ _ Hw3 Ho3) as (h4 & -> & Hw4 & Ho4). rewrite bind_Ok_l. by eexists.
Qed.

Lemma flush_completions_ok fl : ∀ s L,
  heap_wf (p_heap s) → owns (p_heap s) (flights_objs fl) L →
  (∀ f, f ∈ fl → is_Some (iod_vaddr_meta (fl_iod f)) ∧ is_Some (iod_vaddr_ppalist (fl_iod f))) →
  ∃ s', mfor fl bootblk_flush_completion s = Ok s' ∧ k_live (p_heap s') = L.
Proof.
  induction fl as [|f fl IH]; intros s L Hw Ho Hf; cbn [mfor].
  - exists s. split; [done|]. by apply owns_done in Ho.
  - destruct (Hf f ltac:(by left)) as [Hm Hl].
    destruct (flush_completion_ok f s _ _ Hw Ho Hm Hl) as (s1 & -> & Hw1 & Ho1). rewrite bind_Ok_l.
    apply (IH s1 L Hw1 Ho1). intros g Hg. apply Hf. by right.
Qed.
End flush.

(** a boot page is written once per LUN and nothing leaks.  With memory and
    requests available, the flush starts exactly one write per LUN [k], of the whole
    boot page, to the eight pages [pl, sec] of page [pg] of channel [ch] in LUN [k]
    of block 0, listed in that order in the DMA page the command points to; and once
    the writes have completed, in any order, what is allocated is what was before. *)
Lemma boot_flush_copies E ns_id cmdtype bootppa s :
  env_good E → heap_wf (p_heap s) →
  cmdtype = FSCFTL_METAPG_WRITE ∨ cmdtype = FSCFTL_BBTPG_WRITE →
  ∃ s' fl, bootblk_flush_duplicated E ns_id cmdtype bootppa s = Ok (s', fl) ∧
    Forall2 (λ lun f, copy_write E s' (nand_ch bootppa) (nand_pg bootppa) lun
        (Some (if decide (cmdtype = FSCFTL_METAPG_WRITE) then bootmeta else bootbbt)) f) for_each_lun fl ∧
    ∀ fl', fl' ≡ₚ fl →
      ∃ s'', mfor fl' bootblk_flush_completion s' = Ok s'' ∧ k_live (p_heap s'') = k_live (p_heap s).
Proof.
  intros HE Hw Hc. unfold bootblk_flush_duplicated.
  set (buf := if decide (cmdtype = FSCFTL_METAPG_WRITE) then _ else _).
  assert (buf = Some (if decide (cmdtype = FSCFTL_METAPG_WRITE) then bootmeta else bootbbt)) as <-.
  { unfold buf. destruct Hc as [-> | ->]; done. }
  destruct (flush_loop_ok E HE ns_id cmdtype buf bootppa s Hw) as (s' & fl & Hrun & Hw' & Ho & Hall).
  exists s', fl. split; [done|]. split; [done|]. intros fl' Hp.
  apply (flush_completions_ok E HE ns_id); [done| |].
  - eapply owns_perm; [|exact Ho]. unfold flights_objs. by rewrite Hp.
  - intros f Hf. rewrite Hp in Hf. apply list_elem_of_lookup_1 in Hf as [k Hk].
    destruct (Forall2_lookup_r _ _ _ _ _ Hall Hk) as (lun & _ & Hcw). split; [exact (cw_meta _ _ _ _ _ _ _ Hcw)|].
    destruct (cw_list _ _ _ _ _ _ _ Hcw) as (? & ? & -> & _). by eexists.
Qed.

Lemma boot_flush_copies_witness :
  ∃ s' fl s'', bootblk_flush_duplicated env_ok 1 FSCFTL_METAPG_WRITE (boot_pos 4 0)
      (mk_pstate (mk_kheap 0 ∅) ∅) = Ok (s', fl) ∧ length fl = 8%nat ∧
    mfor (reverse fl) bootblk_flush_completion s' = Ok s'' ∧ k_live (p_heap s'') = ∅.
Proof.
  destruct (boot_flush_copies env_ok 1 FSCFTL_METAPG_WRITE (boot_pos 4 0) (mk_pstate (mk_kheap 0 ∅) ∅))
    as (s' & fl & Hrun & Hall & Hdone).
  - exact env_ok_good.
  - intros nm id Hin. apply not_elem_of_empty in Hin. contradiction.
  - left. reflexivity.
  - destruct (Hdone (reverse fl)) as (s'' & Hrun' & Hl); [apply reverse_Permutation|].
    exists s', fl, s''. split; [exact Hrun|]. split; [|split; [exact Hrun'|exact Hl]].
    apply Forall2_length in Hall. rewrite <-Hall. reflexivity.
Defined.

(** ** Reading a page back *)

(** The device reads the pages listed in DMA page [k]: its answer to the read of page
    [pg] of channel [ch] in LUN [lun] is [nand lun]. *)
Definition answers (E : kenv) (ns_id : Z) (dev : nvme_ppa_command → gmap Z (gmap Z Z) → Z * portion)
    (ch pg : Z) (nand : Z → Z * portion) (k : nat) : Prop :=
  ∀ lun meta pool page, lun ∈ for_each_lun → pool !! Z.of_nat k = Some page →
    (∀ i p, boot_ppas ch pg lun !! i = Some p → page !! Z.of_nat i = Some p) →
    dev (boot_cmd ns_id NVM_OP_RDPPA meta (dma_addr E k)) pool = nand lun.

Definition good_copy (nand : Z → Z * portion) (cmdtype : cmd_type) (lun : Z) : Prop :=
  (nand lun).1 = 0 ∧ bootblk_page_mdw_check (nand lun).2 cmdtype = true.

#[global] Instance good_copy_dec nand cmdtype lun : Decision (good_copy nand cmdtype lun) := _.

Definition first_good (nand : Z → Z * portion) (cmdtype : cmd_type) (luns : list Z) : option Z :=
  snd <$> list_find (good_copy nand cmdtype) luns.

(** What the data buffer holds after the copies in [luns] were tried. *)
Definition buffer_after (nand : Z → Z * portion) (cmdtype : cmd_type) (luns : list Z)
    (databuf : portion) : portion :=
  match first_good nand cmdtype luns with
  | Some lun => (nand lun).2
  | None => default databuf ((λ l, (nand l).2) <$> last luns)
  end.

Lemma first_good_cons nand c lun luns :
  first_good nand c (lun :: luns) =
    if decide (good_copy nand c lun) then Some lun else first_good nand c luns.
Proof.
  unfold first_good. cbn [list_find]. case_decide; [done|].
  destruct (list_find _ luns) as [[? ?]|]; done.
Qed.

Lemma first_good_spec nand c luns lun :
  first_good nand c luns = Some lun →
  ∃ l1 l2, luns = l1 ++ lun :: l2 ∧ good_copy nand c lun ∧ ∀ i, i ∈ l1 → ¬ good_copy nand c i.
Proof.
  induction luns as [|i luns IH]; [done|]. rewrite first_good_cons. case_decide as Hg.
  - intros [= ->]. exists [], luns. split; [done|]. split; [done|]. intros i Hi. by apply not_elem_of_nil in Hi.
  - intros H. destruct (IH H) as (l1 & l2 & -> & ? & Hl). exists (i :: l1), l2. split; [done|].
    split; [done|]. intros j [->|Hj]%elem_of_cons; [done|by apply Hl].
Qed.

Lemma first_good_None nand c luns :
  first_good nand c luns = None ↔ ∀ i, i ∈ luns → ¬ good_copy nand c i.
Proof.
  induction luns as [|i luns IH].
  - split; [|done]. intros _ i Hi. by apply not_elem_of_nil in Hi.
  - rewrite first_good_cons. case_decide as Hg.
    + split; [done|]. intros H. exfalso. by apply (H i ltac:(by left)).
    + rewrite IH. split; [intros H j [->|Hj]%elem_of_cons; auto|]. intros H j Hj. apply H. by right.
Qed.

Section mirror.
Context (E : kenv) (HE : env_good E) (ns_id : Z).
Context (dev : nvme_ppa_command → gmap Z (gmap Z Z) → Z * portion).
Context (ch pg : Z) (nand : Z → Z * portion).
#[local] Set Default Proof Using "All".

Lemma mirror_loop_ok luns cmdtype k meta : ∀ databuf s os L,
  answers E ns_id dev ch pg nand k → (∀ i, i ∈ luns → i ∈ for_each_lun) →
  heap_wf (p_heap s) → owns (p_heap s) os L →
  ∃ s', mirror_loop E ns_id dev luns cmdtype ch pg (Z.of_nat k) meta (dma_addr E k) databuf s =
      Ok (first_good nand cmdtype luns, buffer_after nand cmdtype luns databuf, s') ∧
    heap_wf (p_heap s') ∧ owns (p_heap s') os L.
Proof.
  induction luns as [|lun luns IH]; intros databuf s os L Hdev Hin Hw Ho; cbn [mirror_loop].
  { by exists s. }
  destruct (fill_boot_ppalist_ok (Z.of_nat k) ch pg lun
    (mk_pstate (p_heap s) (<[Z.of_nat k := ∅]> (p_pool s))) ∅) as (page & -> & Hpg).
  { cbn. by rewrite lookup_insert_eq. }
  cbn [p_heap p_pool]. rewrite insert_insert_eq, bind_Ok_l. set (pool := <[_ := page]> (p_pool s)).
  assert (dev (boot_cmd ns_id NVM_OP_RDPPA meta (dma_addr E k)) pool = nand lun) as Ha.
  { apply Hdev with page; [apply Hin; by left|by apply lookup_insert_eq|done]. }
  destruct (submit_sync_good E HE dev (boot_cmd ns_id NVM_OP_RDPPA meta (dma_addr E k)) 1
    BOOTBLK_PORTION_SIZE (mk_pstate (p_heap s) pool) os L Hw Ho) as (s1 & -> & _ & Hw1 & Ho1).
  cbn [p_pool]. rewrite Ha, bind_Ok_l. cbv zeta.
  assert (∀ i, i ∈ luns → i ∈ for_each_lun) as Hin' by (intros; apply Hin; by right).
  destruct (IH (nand lun).2 s1 os L Hdev Hin' Hw1 Ho1) as (s2 & Hrun & Hw2 & Ho2).
  unfold buffer_after at 1. rewrite first_good_cons.
  assert (∀ b : portion, default b ((λ l, (nand l).2) <$> last (lun :: luns)) =
    default (nand lun).2 ((λ l, (nand l).2) <$> last luns)) as Hlast.
  { intros b. rewrite last_cons. by destruct (last luns). }
  change (default ∅ (Some (nand lun).2)) with (nand lun).2.
  destruct (decide (good_copy nand cmdtype lun)) as [[Hst Hmd]|Hbad].
  - rewrite decide_True by done. rewrite Hmd. by exists s1.
  - exists s2. split; [|done]. rewrite Hlast, Hrun.
    case_decide as Hst; [|done]. destruct (bootblk_page_mdw_check (nand lun).2 cmdtype) eqn:Hmd; [|done].
    exfalso. by apply Hbad.
Qed.

Lemma get_mirror_ok cmdtype databuf bootppa s :
  ch = nand_ch bootppa → pg = nand_pg bootppa →
  answers E ns_id dev ch pg nand (S (k_calls (p_heap s))) → heap_wf (p_heap s) →
  ∃ s', bootblk_get_mirror E ns_id dev cmdtype databuf bootppa s =
      Ok (match first_good nand cmdtype for_each_lun with Some _ => 0 | None => -1 end,
          buffer_after nand cmdtype for_each_lun databuf, s') ∧
    heap_wf (p_heap s') ∧ k_live (p_heap s') = k_live (p_heap s).
Proof.
  intros Hch Hpg Hdev Hw. unfold bootblk_get_mirror, kalloc. rewrite <-Hch, <-Hpg, (eg_alloc _ HE). cbn [negb].
  set (cmd := ("ppacmd", Z.of_nat (k_calls (p_heap s)))). set (h1 := mk_kheap _ _).
  assert (heap_wf h1) as Hw1 by (by eapply heap_wf_alloc).
  assert (owns h1 [cmd] (k_live (p_heap s))) as Ho1.
  { eapply owns_alloc; [apply owns_nil|apply heap_wf_fresh; [done|set_solver|lia]|done]. }
  destruct (page_zalloc_good E HE (mk_pstate h1 (p_pool s)) _ _ Hw1 Ho1) as (s2 & -> & Hw2 & Ho2 & _ & _).
  rewrite bind_Ok_l.
  destruct (page_zalloc_good E HE s2 _ _ Hw2 Ho2) as (s3 & -> & Hw3 & Ho3 & _ & _). rewrite bind_Ok_l.
  cbn [p_heap] in Ho2, Ho3 |- *. change (k_calls h1) with (S (k_calls (p_heap s))) in *.
  destruct (mirror_loop_ok for_each_lun cmdtype (S (k_calls (p_heap s))) (dma_addr E (k_calls (p_heap s2)))
    databuf s3 _ _ Hdev ltac:(done) Hw3 Ho3) as (s4 & -> & Hw4 & Ho4). rewrite bind_Ok_l.
  destruct (page_free_good _ _ _ _ Hw4 Ho4) as (s5 & -> & Hw5 & Ho5 & _). rewrite bind_Ok_l.
  destruct (page_free_good _ _ _ _ Hw5 Ho5) as (s6 & -> & Hw6 & Ho6 & _). rewrite bind_Ok_l.
  destruct (kfree_good _ _ _ _ Hw6 Ho6) as (h7 & -> & Hw7 & Ho7). rewrite bind_Ok_l.
  eexists. split; [done|]. split; [done|]. by apply owns_done in Ho7.
Qed.
End mirror.

Definition mirror_ret (o : option Z) : Z := match o with Some _ => 0 | None => -1 end.

Lemma bootbuf_wf h : heap_wf h → heap_wf (mk_kheap (S (k_calls h)) ({[("bootbuf", 0)]} ∪ k_live h)).
Proof. intros Hw. apply heap_wf_other; [done|]. by apply (bool_decide_unpack _). Qed.

Lemma bootbuf_owns (h : kheap) (L : gset obj) :
  k_live h = {[("bootbuf", 0)]} ∪ L → ("bootbuf", 0) ∉ L → owns h [("bootbuf", 0)] L.
Proof.
  intros Hl Hn. constructor.
  - rewrite Hl. cbn. by rewrite (right_id_L ∅ (∪)).
  - apply NoDup_singleton.
  - by intros o ->%list_elem_of_singleton.
Qed.

Section recovery.
Context (E : kenv) (HE : env_good E) (ns_id : Z).
Context (dev : nvme_ppa_command → gmap Z (gmap Z Z) → Z * portion) (nand : Z → Z * portion).
#[local] Set Default Proof Using "All".

Lemma recovery_meta_ok b s :
  let pos := binary_search_meta_page (boot_meta_page_info b) in
  answers E ns_id dev (nand_ch pos) (nand_pg pos) nand (S (S (k_calls (p_heap s)))) →
  heap_wf (p_heap s) → ("bootbuf", 0) ∉ k_live (p_heap s) →
  ∃ s', bootblk_recovery_meta_page E ns_id dev b s =
      Ok (mirror_ret (first_good nand FSCFTL_METAPG_READ for_each_lun),
          mk_boot (boot_bbt_page_info b) (buffer_after nand FSCFTL_METAPG_READ for_each_lun ∅), s') ∧
    heap_wf (p_heap s') ∧ k_live (p_heap s') = k_live (p_heap s).
Proof.
  intros pos Hdev Hw Hf. unfold bootblk_recovery_meta_page, kalloc. rewrite (eg_alloc _ HE). cbn [negb].
  set (h1 := mk_kheap _ _). fold pos.
  assert (heap_wf h1) as Hw1 by (by apply bootbuf_wf).
  destruct (get_mirror_ok E HE ns_id dev (nand_ch pos) (nand_pg pos) nand FSCFTL_METAPG_READ ∅ pos
    (mk_pstate h1 (p_pool s)) eq_refl eq_refl Hdev Hw1) as (s2 & -> & Hw2 & Hl2).
  rewrite bind_Ok_l.
  assert (owns (p_heap s2) [("bootbuf", 0)] (k_live (p_heap s))) as Ho by (by apply bootbuf_owns).
  destruct (kfree_good _ _ _ _ Hw2 Ho) as (h3 & -> & Hw3 & Ho3). rewrite bind_Ok_l.
  eexists. split; [done|]. split; [done|]. by apply owns_done in Ho3.
Qed.

Lemma recovery_bbt_ok b s :
  let pos := bootblk_get_bbt_pos (boot_meta_page_info b) in
  answers E ns_id dev (nand_ch pos) (nand_pg pos) nand (S (S (k_calls (p_heap s)))) →
  heap_wf (p_heap s) → ("bootbuf", 0) ∉ k_live (p_heap s) →
  ∃ s', bootblk_recovery_bbt_page E ns_id dev b s =
      Ok (mirror_ret (first_good nand FSCFTL_BBTPG_READ for_each_lun),
          mk_boot (buffer_after nand FSCFTL_BBTPG_READ for_each_lun ∅) (boot_meta_page_info b), s') ∧
    heap_wf (p_heap s') ∧ k_live (p_heap s') = k_live (p_heap s).
Proof.
  intros pos Hdev Hw Hf. unfold bootblk_recovery_bbt_page, kalloc. rewrite (eg_alloc _ HE). cbn [negb].
  set (h1 := mk_kheap _ _). fold pos.
  assert (heap_wf h1) as Hw1 by (by apply bootbuf_wf).
  destruct (get_mirror_ok E HE ns_id dev (nand_ch pos) (nand_pg pos) nand FSCFTL_BBTPG_READ ∅ pos
    (mk_pstate h1 (p_pool s)) eq_refl eq_refl Hdev Hw1) as (s2 & -> & Hw2 & Hl2).
  rewrite bind_Ok_l.
  assert (owns (p_heap s2) [("bootbuf", 0)] (k_live (p_heap s))) as Ho by (by apply bootbuf_owns).
  destruct (kfree_good _ _ _ _ Hw2 Ho) as (h3 & -> & Hw3 & Ho3). rewrite bind_Ok_l.
  eexists. split; [done|]. split; [done|]. by apply owns_done in Ho3.
Qed.
End recovery.

Lemma last_luns : last for_each_lun = Some 7.
Proof. done. Qed.

Lemma search_pos m :
  nand_ch (binary_search_meta_page m) = meta_ch_iter m 0 mod 16 ∧ nand_pg (binary_search_meta_page m) = 1.
Proof. unfold binary_search_meta_page. split; ppa_field; done. Qed.

(** How a search over the copies ends. *)
Lemma search_result nand cmdtype buf :
  (mirror_ret (first_good nand cmdtype for_each_lun) = 0 ∧
   ∃ l1 lun l2, for_each_lun = l1 ++ lun :: l2 ∧ good_copy nand cmdtype lun ∧
     (∀ i, i ∈ l1 → ¬ good_copy nand cmdtype i) ∧
     buffer_after nand cmdtype for_each_lun buf = (nand lun).2) ∨
  (mirror_ret (first_good nand cmdtype for_each_lun) = -1 ∧
   (∀ i, i ∈ for_each_lun → ¬ good_copy nand cmdtype i) ∧
   buffer_after nand cmdtype for_each_lun buf = (nand 7).2).
Proof.
  unfold buffer_after. destruct (first_good nand cmdtype for_each_lun) as [lun|] eqn:Hf.
  - left. split; [done|]. destruct (first_good_spec _ _ _ _ Hf) as (l1 & l2 & ? & ? & ?). by exists l1, lun, l2.
  - right. split; [done|]. split; [by apply first_good_None|]. by rewrite last_luns.
Qed.

(** finding the meta page.  Whatever was written before, the search looks at page 1
    of the first meta channel.  It reads the copies LUN by LUN and returns 0 with the
    first copy that reads without error and has the magic words, the earlier ones
    having neither, or it returns -1 when there is none.  Nothing stays allocated.
    The boot page in memory is replaced in both cases, without a good copy by what
    the read of the last LUN left in the buffer. *)
Lemma recovery_meta_page_spec E ns_id dev nand b s :
  env_good E →
  answers E ns_id dev (meta_ch_iter (boot_meta_page_info b) 0 mod 16) 1 nand (S (S (k_calls (p_heap s)))) →
  heap_wf (p_heap s) → ("bootbuf", 0) ∉ k_live (p_heap s) →
  ∃ r m s', bootblk_recovery_meta_page E ns_id dev b s = Ok (r, mk_boot (boot_bbt_page_info b) m, s') ∧
    k_live (p_heap s') = k_live (p_heap s) ∧
    ((r = 0 ∧ ∃ l1 lun l2, for_each_lun = l1 ++ lun :: l2 ∧ good_copy nand FSCFTL_METAPG_READ lun ∧
        (∀ i, i ∈ l1 → ¬ good_copy nand FSCFTL_METAPG_READ i) ∧ m = (nand lun).2) ∨
     (r = -1 ∧ (∀ i, i ∈ for_each_lun → ¬ good_copy nand FSCFTL_METAPG_READ i) ∧ m = (nand 7).2)).
Proof.
  intros HE Hdev Hw Hf. destruct (search_pos (boot_meta_page_info b)) as [Hch Hpg].
  rewrite <-Hch, <-Hpg in Hdev at 1.
  destruct (recovery_meta_ok E HE ns_id dev nand b s Hdev Hw Hf) as (s' & Hrun & _ & Hl).
  do 3 eexists. split; [exact Hrun|]. split; [exact Hl|]. apply search_result.
Qed.

(** *** The bad block table of a page *)

Definition half (p : portion) (k : Z) : Z := get_bits (16 * (k mod 2)) 16 (pword p (4 + k / 2)).

Lemma half_bits k : 0 ≤ 16 * (k mod 2).
Proof. pose proof (Z.mod_pos_bound k 2 ltac:(lia)). lia. Qed.

Lemma half_set p k v k' :
  half (<[4 + k / 2 := set_bits (16 * (k mod 2)) 16 v (pword p (4 + k / 2))]> p) k' =
    if decide (k = k') then v mod 2 ^ 16 else half p k'.
Proof.
  unfold half. pose proof (half_bits k). pose proof (half_bits k'). case_decide as Hk; [subst|].
  - unfold pword at 1. rewrite lookup_insert_eq. cbn [default from_option id].
    by rewrite get_set_bits_eq by lia.
  - unfold pword at 1. destruct (decide (k / 2 = k' / 2)) as [Heq|Hne].
    + rewrite Heq, lookup_insert_eq. cbn [default from_option id]. rewrite get_set_bits_ne; [done|lia..|].
      pose proof (Z.mod_pos_bound k 2 ltac:(lia)). pose proof (Z.mod_pos_bound k' 2 ltac:(lia)).
      pose proof (Z.div_mod k 2 ltac:(lia)). pose proof (Z.div_mod k' 2 ltac:(lia)). lia.
    + rewrite lookup_insert_ne by lia. done.
Qed.

Lemma page_bbt_set blk lun v p blk' lun' :
  0 ≤ lun < CFG_NAND_LUN_NUM → 0 ≤ lun' < CFG_NAND_LUN_NUM →
  page_bbt (set_page_bbt blk lun v p) blk' lun' =
    if decide (blk = blk' ∧ lun = lun') then v mod 2 ^ 16 else page_bbt p blk' lun'.
Proof.
  intros H H'. change CFG_NAND_LUN_NUM with 8 in *.
  change (half (<[4 + bbt_half blk lun / 2 := set_bits (16 * (bbt_half blk lun mod 2)) 16 v
    (pword p (4 + bbt_half blk lun / 2))]> p) (bbt_half blk' lun') =
    if decide (blk = blk' ∧ lun = lun') then v mod 2 ^ 16 else half p (bbt_half blk' lun')).
  rewrite half_set. unfold bbt_half. change CFG_NAND_LUN_NUM with 8.
  case_decide as Ha; case_decide as Hb; [done|exfalso; lia|exfalso; lia|done].
Qed.

Lemma magic_set_bbt blk lun v p :
  0 ≤ blk → 0 ≤ lun → magic_dw (set_page_bbt blk lun v p) = magic_dw p.
Proof.
  intros Hb Hl. unfold magic_dw, set_page_bbt. apply list_fmap_ext. intros _ i Hi%list_elem_of_lookup_2%elem_of_seqZ.
  unfold pword. rewrite lookup_insert_ne; [done|].
  assert (0 ≤ bbt_half blk lun) by (unfold bbt_half; change CFG_NAND_LUN_NUM with 8; lia).
  pose proof (Z.div_pos (bbt_half blk lun) 2 ltac:(lia) ltac:(lia)). lia.
Qed.

(** The [bbt] words of a block, as [u16]. *)
Definition bmi_bbt (t : gmap Z bmi_item) (blk lun : Z) : Z :=
  match t !! blk with Some e => u16 (default 0 (bbt e !! lun)) | None => 0 end.

Lemma copy_bbt_luns t blk e p :
  0 ≤ blk < CFG_NAND_BLOCK_NUM → t !! blk = Some e →
  ∃ p', mfor for_each_lun (λ lun p,
      i ← get_bmi_item blk; bmi ← aread t i; v ← wread CFG_NAND_LUN_NUM 0 (bbt bmi) lun;
      Ok (set_page_bbt blk lun v p)) p = Ok p' ∧
    magic_dw p' = magic_dw p ∧
    (∀ lun, lun ∈ for_each_lun → page_bbt p' blk lun = bmi_bbt t blk lun) ∧
    (∀ blk' lun, blk' ≠ blk → lun ∈ for_each_lun → page_bbt p' blk' lun = page_bbt p blk' lun).
Proof.
  intros Hb He.
  destruct (mfor_inv (λ dn p', magic_dw p' = magic_dw p ∧
      (∀ lun, lun ∈ dn → lun ∈ for_each_lun → page_bbt p' blk lun = bmi_bbt t blk lun) ∧
      (∀ blk' lun, blk' ≠ blk → lun ∈ for_each_lun → page_bbt p' blk' lun = page_bbt p blk' lun))
    (λ lun p, i ← get_bmi_item blk; bmi ← aread t i; v ← wread CFG_NAND_LUN_NUM 0 (bbt bmi) lun;
      Ok (set_page_bbt blk lun v p)) for_each_lun p) as (p' & Hrun & Hm & H1 & H2).
  - split; [done|]. split; [|done]. intros lun Hl. by apply not_elem_of_nil in Hl.
  - intros dn lun todo p1 Hl (Hm & H1 & H2).
    assert (lun ∈ for_each_lun) as Hin by (rewrite Hl, elem_of_app; right; by left).
    pose proof Hin as Hr. apply elem_of_seqZ in Hr. rewrite Z.add_0_l in Hr.
    unfold get_bmi_item, BUG_ON. rewrite (u16_small blk) by cfg_lia.
    rewrite decide_False by lia. rewrite !bind_Ok_l, (aread_Some _ _ _ He), bind_Ok_l, wread_in, bind_Ok_l by done.
    eexists. split; [done|]. split; [by rewrite magic_set_bbt by lia|]. split.
    + intros l Hd Hlin. pose proof Hlin as Hlr. apply elem_of_seqZ in Hlr. rewrite page_bbt_set by lia.
      case_decide as Hc.
      * destruct Hc as [_ <-]. unfold bmi_bbt. by rewrite He.
      * apply elem_of_app in Hd as [Hd|Hd%list_elem_of_singleton]; [by apply H1|]. exfalso. by apply Hc.
    + intros blk' l Hne Hlin. pose proof Hlin as Hlr. apply elem_of_seqZ in Hlr. rewrite page_bbt_set by lia.
      rewrite decide_False by (intros [? _]; congruence). by apply H2.
  - exists p'. split; [done|]. split; [done|]. split; [|done]. intros. by apply H1.
Qed.

Lemma copy_bbt_ok t p :
  (∀ blk, blk_ok blk → is_Some (t !! blk)) →
  ∃ p', copy_bbt t p = Ok p' ∧ magic_dw p' = magic_dw p ∧
    ∀ blk lun, blk ∈ for_each_blk → lun ∈ for_each_lun → page_bbt p' blk lun = bmi_bbt t blk lun.
Proof.
  intros Ht. unfold copy_bbt.
  match goal with |- context [mfor for_each_blk ?f p] =>
    destruct (mfor_inv (λ dn p', magic_dw p' = magic_dw p ∧
      (∀ blk lun, blk ∈ dn → lun ∈ for_each_lun → page_bbt p' blk lun = bmi_bbt t blk lun))
      f for_each_blk p) as (p' & Hrun & Hm & H1) end.
  - split; [done|]. intros blk lun Hb. by apply not_elem_of_nil in Hb.
  - intros dn blk todo p1 Hl (Hm & H1).
    assert (blk ∈ for_each_blk) as Hin by (rewrite Hl, elem_of_app; right; by left).
    apply elem_of_seqZ in Hin. rewrite Z.add_0_l in Hin. destruct (Ht blk Hin) as [e He].
    destruct (copy_bbt_luns t blk e p1 Hin He) as (p2 & -> & Hm2 & Hl2 & Hk2).
    exists p2. split; [done|]. split; [congruence|]. intros b lun Hb Hlin.
    destruct (decide (b = blk)) as [->|Hne]; [by apply Hl2|]. rewrite Hk2 by done.
    apply H1; [|done]. apply elem_of_app in Hb as [?|?%list_elem_of_singleton]; done.
  - exists p'. split; [done|]. split; [done|]. intros. by apply H1.
Qed.

Lemma next_bbt_pos_frame m :
  bbt_page_address m = INVALID_PAGE ∨ (∃ ch pg, 0 ≤ ch < 16 ∧ 0 ≤ pg < 512 ∧ bbt_page_address m = boot_pos ch pg) →
  ∃ pos, bootblk_get_next_bbt_pos m = Ok (pos, set_bbt_page_address pos m).
Proof.
  intros [H|(ch & pg & Hch & Hpg & H)].
  - rewrite next_bbt_pos_first by done. by eexists.
  - rewrite (next_bbt_pos_later m ch pg) by done. by eexists.
Qed.

(** C29: the bad block table survives a power cycle.  [bootblk_flush_bbt_page] writes
    copies of a page that holds, at each block and LUN, the word of the block table;
    if afterwards the read of the position the driver remembers returns that page from
    at least one LUN, an unreadable or foreign page from the others, then the recovery
    succeeds and the page in memory again holds every word of the table. *)
Theorem bbt_flush_recover E ns_id t b s :
  env_good E → (∀ blk, blk_ok blk → is_Some (t !! blk)) → heap_wf (p_heap s) →
  magic_dw (boot_bbt_page_info b) = BOOTBLK_BBT_MDW →
  bbt_page_address (boot_meta_page_info b) = INVALID_PAGE ∨
    (∃ ch pg, 0 ≤ ch < 16 ∧ 0 ≤ pg < 512 ∧ bbt_page_address (boot_meta_page_info b) = boot_pos ch pg) →
  ∃ b' s' fl, bootblk_flush_bbt_page E ns_id t b s = Ok (b', s', fl) ∧
    let pos := bbt_page_address (boot_meta_page_info b') in
    Forall2 (λ lun f, copy_write E s' (nand_ch pos) (nand_pg pos) lun (Some bootbbt) f) for_each_lun fl ∧
    (∀ blk lun, blk ∈ for_each_blk → lun ∈ for_each_lun →
       page_bbt (boot_bbt_page_info b') blk lun = bmi_bbt t blk lun) ∧
    (∀ dev nand s0,
     answers E ns_id dev (nand_ch pos) (nand_pg pos) nand (S (S (k_calls (p_heap s0)))) →
     heap_wf (p_heap s0) → ("bootbuf", 0) ∉ k_live (p_heap s0) →
     (∀ lun, lun ∈ for_each_lun → nand lun = (0, boot_bbt_page_info b') ∨ ¬ good_copy nand FSCFTL_BBTPG_READ lun) →
     (∃ lun, lun ∈ for_each_lun ∧ nand lun = (0, boot_bbt_page_info b')) →
     ∃ b'' s'', bootblk_recovery_bbt_page E ns_id dev b' s0 = Ok (0, b'', s'') ∧
       ∀ blk lun, blk ∈ for_each_blk → lun ∈ for_each_lun →
         page_bbt (boot_bbt_page_info b'') blk lun = bmi_bbt t blk lun).
Proof.
  intros HE Ht Hw Hmg Haddr.
  destruct (copy_bbt_ok t (boot_bbt_page_info b) Ht) as (p & Hcopy & Hmp & Hp).
  destruct (next_bbt_pos_frame _ Haddr) as (pos & Hpos).
  destruct (flush_loop_ok E HE ns_id FSCFTL_BBTPG_WRITE (Some bootbbt) pos s Hw)
    as (s' & fl & Hrun & _ & _ & Hall).
  exists (mk_boot p (set_bbt_page_address pos (boot_meta_page_info b))), s', fl.
  unfold bootblk_flush_bbt_page. rewrite Hcopy, bind_Ok_l, Hpos, bind_Ok_l.
  unfold bootblk_flush_duplicated. rewrite (decide_False (P := _ = FSCFTL_METAPG_WRITE)), decide_True by done.
  rewrite Hrun, bind_Ok_l. split; [done|]. cbn [boot_meta_page_info boot_bbt_page_info].
  rewrite bbt_addr_set. split; [done|]. split; [done|].
  intros dev nand s0 Hans Hw0 Hf0 Hcopies (lun0 & Hlun0 & Hgood0).
  destruct (recovery_bbt_ok E HE ns_id dev nand (mk_boot p (set_bbt_page_address pos (boot_meta_page_info b))) s0)
    as (s'' & Hrec & _).
  { unfold bootblk_get_bbt_pos. cbn [boot_meta_page_info]. by rewrite bbt_addr_set. }
  { done. }
  { done. }
  rewrite Hrec.
  assert (good_copy nand FSCFTL_BBTPG_READ lun0) as Hg.
  { unfold good_copy. rewrite Hgood0. split; [done|]. cbn. apply bool_decide_eq_true_2. congruence. }
  destruct (search_result nand FSCFTL_BBTPG_READ ∅) as [(-> & l1 & lun & l2 & Hl & Hgl & _ & ->)|(_ & Hno & _)].
  - do 2 eexists. split; [done|]. cbn [boot_bbt_page_info]. intros blk l Hb Hlin.
    destruct (Hcopies lun) as [-> |]; [rewrite Hl, elem_of_app; right; by left| |done]. by apply Hp.
  - exfalso. by apply (Hno lun0).
Qed.

(** ** A concrete device *)

(** It finds the LUN in the first address of DMA page [k]. *)
Definition list_dev (k : nat) (nand : Z → Z * portion) : nvme_ppa_command → gmap Z (gmap Z Z) → Z * portion :=
  λ _ pool, nand (nand_lun (pword (default ∅ (pool !! Z.of_nat k)) 0)).

Lemma list_dev_answers E ns_id ch pg nand k :
  0 ≤ ch < 16 → 0 ≤ pg < 512 → answers E ns_id (list_dev k nand) ch pg nand k.
Proof.
  intros Hch Hpg lun meta pool page Hlun Hpool Hlist. unfold list_dev. rewrite Hpool. cbn [default from_option id].
  pose proof (Hlist 0%nat (set_ppa_nand_addr ch 0 0 lun pg 0) eq_refl) as Hp.
  change (Z.of_nat 0) with 0 in Hp. unfold pword. rewrite Hp. cbn [default from_option id].
  apply elem_of_seqZ in Hlun. rewrite Z.add_0_l in Hlun. change CFG_NAND_LUN_NUM with 8 in Hlun.
  destruct (set_ppa_nand_addr_fields ch 0 0 lun pg 0) as (_ & _ & _ & -> & _); [|done].
  unfold geo_fields_ok. lia.
Qed.

Lemma empty_heap_wf n : heap_wf (mk_kheap n ∅).
Proof. intros nm id Hin. by apply not_elem_of_empty in Hin. Qed.

Definition empty_pstate : pstate := mk_pstate (mk_kheap 0 ∅) ∅.

Lemma recovery_meta_page_spec_witness :
  ∃ m s', bootblk_recovery_meta_page env_ok 1
      (list_dev 2 (λ lun, if decide (lun = 3) then (0, init_meta) else (1, ∅)))
      (mk_boot ∅ init_meta) empty_pstate = Ok (0, mk_boot ∅ m, s') ∧ m = init_meta.
Proof.
  destruct (recovery_meta_page_spec env_ok 1
    (list_dev 2 (λ lun, if decide (lun = 3) then (0, init_meta) else (1, ∅)))
    (λ lun, if decide (lun = 3) then (0, init_meta) else (1, ∅)) (mk_boot ∅ init_meta) empty_pstate)
    as (r & m & s' & Hrun & _ & Hres).
  - exact env_ok_good.
  - apply list_dev_answers; [|lia]. split; vm_compute; [discriminate|reflexivity].
  - apply empty_heap_wf.
  - apply not_elem_of_empty.
  - destruct Hres as [(-> & l1 & lun & l2 & _ & [Hst _] & _ & Hm)|(_ & Hno & _)].
    + exists m, s'. split; [exact Hrun|]. rewrite Hm in *. destruct (decide (lun = 3)); [reflexivity|discriminate Hst].
    + exfalso. apply (Hno 3); [do 3 right; left|]. split; [reflexivity|vm_compute; reflexivity].
Defined.

Lemma bbt_flush_recover_witness :
  ∃ b' s' fl dev b'' s'', bootblk_flush_bbt_page env_ok 1 fresh_bmitbl
      (mk_boot (set_magic BOOTBLK_BBT_MDW ∅) init_meta) empty_pstate = Ok (b', s', fl) ∧
    bootblk_recovery_bbt_page env_ok 1 dev b' empty_pstate = Ok (0, b'', s'') ∧
    page_bbt (boot_bbt_page_info b'') 127 7 = bmi_bbt fresh_bmitbl 127 7.
Proof.
  destruct (bbt_flush_recover env_ok 1 fresh_bmitbl (mk_boot (set_magic BOOTBLK_BBT_MDW ∅) init_meta) empty_pstate)
    as (b' & s' & fl & Hrun & _ & _ & Hrec).
  - exact env_ok_good.
  - intros blk Hb. rewrite fresh_bmitbl_lookup by exact Hb. eexists. reflexivity.
  - apply empty_heap_wf.
  - reflexivity.
  - left. reflexivity.
  - set (pos := bbt_page_address (boot_meta_page_info b')) in *.
    destruct (Hrec (list_dev 2 (λ _, (0, boot_bbt_page_info b'))) (λ _, (0, boot_bbt_page_info b')) empty_pstate)
      as (b'' & s'' & Hrun2 & Hbbt).
    + apply list_dev_answers; [apply get_bits_range; lia|apply get_bits_range; lia].
    + apply empty_heap_wf.
    + apply not_elem_of_empty.
    + intros lun _. left. reflexivity.
    + exists 0. split; [left|reflexivity].
    + exists b', s', fl, (list_dev 2 (λ _, (0, boot_bbt_page_info b'))), b'', s''.
      split; [exact Hrun|]. split; [exact Hrun2|]. apply Hbbt; apply elem_of_seqZ; vm_compute; split; [discriminate|reflexivity|discriminate|reflexivity].
Defined.
