(* ===== verification/Mcp.v ===== *)
(** * The first start of a disk

    [build_recovery/mcp.c]: every block is erased, the factory bad block marks are
    read, and the blocks that are good enough go to the free list. *)

From S2P Require Import Prelude NandCfg Fifo Kernel SysMeta PpaCmd BootBlk.

#[local] Open Scope Z_scope.

(** The state the file works on: DMA memory, the system tables, and its counters.
    [mp_done] is the count of the [struct completion]. *)
Record mcp : Type := mk_mcp {
  mp_ps : pstate;
  mp_sys : sysmeta;
  bbt_issu_cnt : Z;
  bbt_cmpl_cnt : Z;
  bbt_completion : Z;
  good_rblk_cnt : Z;
  bad_rblk_cnt : Z;
}.

Definition mp_set_ps (s : pstate) (m : mcp) : mcp :=
  mk_mcp s (mp_sys m) (bbt_issu_cnt m) (bbt_cmpl_cnt m) (bbt_completion m) (good_rblk_cnt m) (bad_rblk_cnt m).
Definition mp_set_sys (y : sysmeta) (m : mcp) : mcp :=
  mk_mcp (mp_ps m) y (bbt_issu_cnt m) (bbt_cmpl_cnt m) (bbt_completion m) (good_rblk_cnt m) (bad_rblk_cnt m).
Definition mp_set_cnt (i c d : Z) (m : mcp) : mcp :=
  mk_mcp (mp_ps m) (mp_sys m) i c d (good_rblk_cnt m) (bad_rblk_cnt m).

(** Offset of the bad block mark in a raw read of sector 3. *)
Definition BBM_OFFT : Z := EXP_PPA_SIZE - 3 * NAND_RAW_SIZE.

(** The loop over the planes stops at the first marked one. *)
Fixpoint bad_plane (planes : list Z) (vaddr_data : Z) (mem : Z → Z) : bool :=
  match planes with
  | [] => false
  | i :: planes =>
      if decide (mem (vaddr_data + i * EXP_PPA_SIZE + BBM_OFFT) ≠ 0xff) then true
      else bad_plane planes vaddr_data mem
  end.

Definition rdpparaw_completion (mem : Z → Z) (f : flight) (m : mcp) : res mcp :=
  l ← deref (iod_vaddr_ppalist (fl_iod f));
  y ← (if bad_plane for_each_pl (iod_vaddr_data (fl_iod f)) mem then
         page ← aread (p_pool (mp_ps m)) l;
         w ← wread POOL_WORDS 0 page 0;
         let ppa := u32 w in
         t ← mark_bbt_tbl (nand_blk ppa) (nand_lun ppa) (nand_ch ppa) BADB (bmitbl (mp_sys m));
         Ok (set_bmitbl t (mp_sys m))
       else Ok (mp_sys m));
  s ← dma_pool_page_free l (mp_ps m);
  h ← kfree ("ppacmd", req_cmd_obj (fl_rq f)) (p_heap s);
  h ← blk_mq_free_request (req_id (fl_rq f)) h;
  let m := mp_set_sys y (mp_set_ps (mk_pstate h (p_pool s)) m) in
  let c := s32 (bbt_cmpl_cnt m + 1) in
  let d := if decide (c = bbt_issu_cnt m) then bbt_completion m + 1 else bbt_completion m in
  Ok (mp_set_cnt (bbt_issu_cnt m) c d m).

(** [rblk_bbt_check_available]: the bad channels of a LUN, counted until there are too
    many. *)
Fixpoint too_many_bad (chs : list Z) (bb bb_ch : Z) : bool :=
  match chs with
  | [] => false
  | ch :: chs =>
      let bb_ch := if BIT_TEST bb ch then u16 (bb_ch + 1) else bb_ch in
      if decide (12 < bb_ch) then true else too_many_bad chs bb bb_ch
  end.

Fixpoint luns_kick_out (luns : list Z) (e : bmi_item) : res bool :=
  match luns with
  | [] => Ok false
  | lun :: luns =>
      bb ← wread CFG_NAND_LUN_NUM 0 (bbt e) lun;
      if too_many_bad for_each_ch bb 0 then Ok true else luns_kick_out luns e
  end.

Definition rblk_bbt_check_available (blk : Z) (m : mcp) : res mcp :=
  i ← get_bmi_item blk;
  e ← aread (bmitbl (mp_sys m)) i;
  k ← luns_kick_out for_each_lun e;
  if (k : bool) then
    Ok (mk_mcp (mp_ps m) (mp_sys m) (bbt_issu_cnt m) (bbt_cmpl_cnt m) (bbt_completion m)
          (good_rblk_cnt m) (s32 (bad_rblk_cnt m + 1)))
  else
    y ← insert_blk_to_free_list blk (mp_sys m);
    Ok (mk_mcp (mp_ps m) y (bbt_issu_cnt m) (bbt_cmpl_cnt m) (bbt_completion m)
          (s32 (good_rblk_cnt m + 1)) (bad_rblk_cnt m)).

Section mcp.
Context (E : kenv) (ns_id : Z).

(** *** Reading the marks *)

(** Up to the point where the request is queued. *)
Definition rdpparaw_submit (ppa databuf metadma : Z) (s : pstate) : res (pstate * list flight) :=
  '(cmd_obj, h) ← alloc_ppa_rqd_ctx E (p_heap s);
  '(l, ppa_dma, s) ← dma_pool_page_zalloc E (mk_pstate h (p_pool s));
  s ← mfor for_each_pl (λ i s, pool_write l i (set_nand_pl i ppa) s) s;
  let iod := mk_ppa_iod None databuf None (Some l) 0 None in
  let cmd := ppa_command NVM_OP_RDRAW (u32 ns_id) (u64 metadma) (u64 ppa_dma)
               (u16 (CFG_NAND_PLANE_NUM - 1)) (u16 NVM_IO_SNGL_ACCESS) in
  '(_, rq, h) ← nvme_submit_ppa_cmd E cmd cmd_obj databuf (EXP_PPA_SIZE * CFG_NAND_PLANE_NUM) (p_heap s);
  Ok (mk_pstate h (p_pool s),
      match rq with Some rq => [mk_flight rq iod None] | None => [] end).

(** The request may complete before its [atomic_inc(&bbt_issu_cnt)]. *)
Definition issu_inc (m : mcp) : mcp :=
  mp_set_cnt (s32 (bbt_issu_cnt m + 1)) (bbt_cmpl_cnt m) (bbt_completion m) m.

Definition discovery_bbt_rdpparaw (ppa databuf metadma : Z) (m : mcp) : res (Z * mcp * list flight) :=
  '(s, fl) ← rdpparaw_submit ppa databuf metadma (mp_ps m);
  Ok (0, issu_inc (mp_set_ps s m), fl).

Definition lun_ch_pairs : list (Z * Z) := for_each_lun ≫= λ lun, (λ ch, (lun, ch)) <$> for_each_ch.

(** Reads of the dies in [pairs], in order. *)
Definition issue_reads (pairs : list (Z * Z)) (blk gdatabuf gmetadma : Z) (m : mcp)
    : res (mcp * list flight) :=
  mfor pairs (λ '(lun, ch) '(m, acc),
    let ppa := set_ppa_nand_addr ch 3 0 lun 0 blk in
    let databuf := gdatabuf + (ch + lun * CFG_NAND_CHANNEL_NUM) * (CFG_NAND_PLANE_NUM * EXP_PPA_SIZE) in
    let metadma := gmetadma + (ch + lun * CFG_NAND_CHANNEL_NUM) * (CFG_NAND_PLANE_NUM * NAND_RAW_SIZE) in
    '(_, m, fl) ← discovery_bbt_rdpparaw ppa databuf metadma m;
    Ok (m, acc ++ fl)) (m, []).

Definition rblk_bbt_discovery (blk gdatabuf gmetadma : Z) (m : mcp) : res (mcp * list flight) :=
  issue_reads lun_ch_pairs blk gdatabuf gmetadma m.

(** *** Erasing *)

Section erase.
Context {A : Type} (dev : nvme_ppa_command → gmap Z (gmap Z Z) → Z * A).

Definition erase_ppas (blk : Z) : list Z :=
  (λ '(lun, ch), set_ppa_nand_addr ch 0 0 lun 0 blk) <$> lun_ch_pairs.

Definition erase_cmd (ppa_dma : Z) : nvme_ppa_command :=
  let plmode := if decide (CFG_NAND_PLANE_NUM = 4) then NVM_IO_QUAD_ACCESS
                else if decide (CFG_NAND_PLANE_NUM = 2) then NVM_IO_DUAL_ACCESS
                else NVM_IO_SNGL_ACCESS in
  ppa_command NVM_OP_ERASE (u32 ns_id) 0 (u64 ppa_dma)
    (u16 (CFG_NAND_CHANNEL_NUM * CFG_NAND_LUN_NUM - 1)) (u16 plmode).

(** The return code, the command run with the memory it saw, and the state.  The
    status of the command is not looked at. *)
Definition erase_rblk_wait (blk : Z) (s : pstate)
    : res (Z * list (nvme_ppa_command * gmap Z (gmap Z Z)) * pstate) :=
  let o := ("ppacmd", Z.of_nat (k_calls (p_heap s))) in
  let '(ok, h) := kalloc (alloc_ok E) o (p_heap s) in
  let s := mk_pstate h (p_pool s) in
  if negb ok then Ok (- ENOMEM, [], s) else
  '(l, ppa_dma, s) ← dma_pool_page_zalloc E s;
  let ppas := erase_ppas blk in
  s ← mfor (seqZ 0 (Z.of_nat (length ppas))) (λ i s,
        p ← match ppas !! Z.to_nat i with Some p => Ok p | None => Fault F_OOB end;
        pool_write l i p s) s;
  let cmd := erase_cmd ppa_dma in
  let mem := p_pool s in
  '(_, a, s) ← nvme_submit_ppa_cmd_sync E dev cmd 0 0 s;
  s ← dma_pool_page_free l s;
  h ← kfree o (p_heap s);
  Ok (0, match a with Some _ => [(cmd, mem)] | None => [] end, mk_pstate h (p_pool s)).

Definition sweepup_disk (s : pstate) : res pstate :=
  mfor for_each_blk_reverse (λ blk s, '(_, _, s) ← erase_rblk_wait blk s; Ok s) s.
End erase.
(** *** All the blocks *)

(** [wait_for_completion] sleeps for ever when nothing signals. *)
Definition wait_for_completion (m : mcp) : res mcp :=
  if decide (0 < bbt_completion m)
  then Ok (mp_set_cnt (bbt_issu_cnt m) (bbt_cmpl_cnt m) (bbt_completion m - 1) m)
  else Fault F_FUEL.

(** The content of the data buffer when the read of [f] is done: [dev] is given the
    command and its address list. *)
Definition read_mem (dev : nvme_ppa_command → gmap Z Z → Z → Z) (f : flight) (s : pstate) : Z → Z :=
  let l := default 0 (iod_vaddr_ppalist (fl_iod f)) in
  λ a, dev (req_cmd (fl_rq f)) (default ∅ (p_pool s !! l)) (a - iod_vaddr_data (fl_iod f)).

(** One round of the loop of [fscftl_bbt_discovery], when the requests complete after
    the last one is issued, in the order given by [order]. *)
Definition discover_blk (dev : nvme_ppa_command → gmap Z Z → Z → Z)
    (order : list flight → list flight) (databuf metadma blk : Z) (m : mcp) : res mcp :=
  if decide (blk = 0) then Ok m else
  let m := mp_set_cnt (bbt_issu_cnt m) (bbt_cmpl_cnt m) 0 m in
  '(m, fl) ← rblk_bbt_discovery blk databuf metadma m;
  m ← mfor (order fl) (λ f m, rdpparaw_completion (read_mem dev f (mp_ps m)) f m) m;
  m ← wait_for_completion m;
  rblk_bbt_check_available blk m.

Definition fscftl_bbt_discovery (dev : nvme_ppa_command → gmap Z Z → Z → Z)
    (order : list flight → list flight) (m : mcp) : res mcp :=
  let n := k_calls (p_heap (mp_ps m)) in
  let '(ok, h) := kalloc (alloc_ok E) ("bbtdata", 0) (p_heap (mp_ps m)) in
  let m := mp_set_ps (mk_pstate h (p_pool (mp_ps m))) m in
  if negb ok then Ok m else
  let '(ok, h) := kalloc (alloc_ok E) ("bbtmeta", 0) (p_heap (mp_ps m)) in
  let m := mp_set_ps (mk_pstate h (p_pool (mp_ps m))) m in
  m ← (if negb ok then Ok m else
         m ← mfor for_each_blk_reverse (discover_blk dev order (virt_addr E n) (dma_addr E (S n))) m;
         h ← kfree ("bbtmeta", 0) (p_heap (mp_ps m));
         Ok (mp_set_ps (mk_pstate h (p_pool (mp_ps m))) m));
  h ← kfree ("bbtdata", 0) (p_heap (mp_ps m));
  Ok (mp_set_ps (mk_pstate h (p_pool (mp_ps m))) m).

Definition do_manufactory_init {A} (edev : nvme_ppa_command → gmap Z (gmap Z Z) → Z * A)
    (dev : nvme_ppa_command → gmap Z Z → Z → Z) (order : list flight → list flight)
    (b : boot) (m : mcp) : res (Z * boot * mcp * list flight) :=
  s ← sweepup_disk edev (mp_ps m);
  m ← fscftl_bbt_discovery dev order (mp_set_ps s m);
  '(b, s, fl1) ← bootblk_flush_bbt_page E ns_id (bmitbl (mp_sys m)) b (mp_ps m);
  '(b, s, fl2) ← bootblk_flush_meta_page E ns_id POWER_DOWN_UNSAFE b s;
  Ok (0, b, mp_set_ps s m, fl1 ++ fl2).
End mcp.

(** ** Counting bad channels *)

Definition bad_chs (bb : Z) (chs : list Z) : list Z := filter (λ ch, Z.testbit bb ch = true) chs.

Lemma too_many_bad_count bb chs : ∀ n,
  (∀ ch, ch ∈ chs → 0 ≤ ch) → 0 ≤ n ≤ 12 →
  too_many_bad chs bb n = bool_decide (12 < n + Z.of_nat (length (bad_chs bb chs))).
Proof.
  induction chs as [|ch chs IH]; intros n Hc Hn; cbn [too_many_bad].
  - cbn. by rewrite bool_decide_eq_false_2 by lia.
  - rewrite BIT_TEST_testbit by (apply Hc; by left).
    assert (∀ c, c ∈ chs → 0 ≤ c) as Hc' by (intros; apply Hc; by right).
    unfold bad_chs. rewrite filter_cons. destruct (Z.testbit bb ch) eqn:Hb.
    + rewrite (decide_True (P := true = true)) by done. rewrite (u16_small (n + 1)) by lia. cbn [length].
      case_decide.
      * by rewrite bool_decide_eq_true_2 by lia.
      * rewrite IH by (done || lia). unfold bad_chs. apply bool_decide_ext. lia.
    + rewrite (decide_False (P := false = true)) by done. rewrite decide_False by lia. by rewrite IH.
Qed.

(** A block is usable when no LUN has more than 12 bad channels. *)
Definition blk_usable (t : gmap Z bmi_item) (blk : Z) : Prop :=
  Forall (λ lun, (length (bad_chs (bmi_bbt t blk lun) for_each_ch) ≤ 12)%nat) for_each_lun.

#[global] Instance blk_usable_dec t blk : Decision (blk_usable t blk) := _.

Lemma bad_chs_ext bb bb' chs :
  (∀ ch, ch ∈ chs → Z.testbit bb ch = Z.testbit bb' ch) → bad_chs bb chs = bad_chs bb' chs.
Proof.
  intros H. induction chs as [|ch chs IH]; [done|]. unfold bad_chs in *. rewrite !filter_cons.
  rewrite (H ch) by (by left). by rewrite IH by (intros; apply H; by right).
Qed.

Lemma bad_chs_u16 z : bad_chs (u16 z) for_each_ch = bad_chs z for_each_ch.
Proof.
  apply bad_chs_ext. intros ch Hch%elem_of_seqZ. apply u16_testbit.
  change CFG_NAND_CHANNEL_NUM with 16 in Hch. lia.
Qed.

Lemma luns_kick_out_run t blk e luns :
  t !! blk = Some e → (∀ lun, lun ∈ luns → lun ∈ for_each_lun) →
  luns_kick_out luns e = Ok (bool_decide (¬ Forall (λ lun,
    (length (bad_chs (bmi_bbt t blk lun) for_each_ch) ≤ 12)%nat) luns)).
Proof.
  intros He. induction luns as [|lun luns IH]; intros Hl; cbn [luns_kick_out].
  - by rewrite bool_decide_eq_false_2 by (intros H; apply H; constructor).
  - assert (lun ∈ for_each_lun) as Hlun%elem_of_seqZ by (apply Hl; by left).
    rewrite wread_in, bind_Ok_l by lia. rewrite too_many_bad_count; [|intros ch Hch%elem_of_seqZ; lia|lia].
    assert (bad_chs (bmi_bbt t blk lun) for_each_ch = bad_chs (default 0 (bbt e !! lun)) for_each_ch) as Hb.
    { unfold bmi_bbt. rewrite He. apply bad_chs_u16. }
    rewrite <-Hb. set (n := length _). destruct (decide (12 < 0 + Z.of_nat n)) as [Hc|Hc];
      [rewrite (bool_decide_eq_true_2 (12 < _)) by done|rewrite (bool_decide_eq_false_2 (12 < _)) by done].
    + f_equal. symmetry. apply bool_decide_eq_true_2. intros [? _]%Forall_cons. lia.
    + rewrite IH by (intros; apply Hl; by right). f_equal. apply bool_decide_ext.
      rewrite Forall_cons. split; [tauto|]. intros H H'. apply H. split; [lia|done].
Qed.

Lemma bmi_bbt_same t t' :
  (∀ j e', t' !! j = Some e' → ∃ e, t !! j = Some e ∧ bbt e' = bbt e) →
  (∀ j, is_Some (t !! j) → is_Some (t' !! j)) → ∀ blk lun, bmi_bbt t' blk lun = bmi_bbt t blk lun.
Proof.
  intros H1 H2 blk lun. unfold bmi_bbt. destruct (t' !! blk) as [e'|] eqn:He'.
  - destruct (H1 _ _ He') as (e & -> & ->). done.
  - destruct (t !! blk) eqn:He; [|done]. destruct (H2 blk ltac:(by eexists)). congruence.
Qed.

Lemma check_available_ok m l blk :
  sys_inv (mp_sys m) l → blk_ok blk → blk ∉ l →
  ∃ m', rblk_bbt_check_available blk m = Ok m' ∧ mp_ps m' = mp_ps m ∧
    bbt_issu_cnt m' = bbt_issu_cnt m ∧ bbt_cmpl_cnt m' = bbt_cmpl_cnt m ∧
    (∀ b lun, blk_ok b → bmi_bbt (bmitbl (mp_sys m')) b lun = bmi_bbt (bmitbl (mp_sys m)) b lun) ∧
    sys_inv (mp_sys m') (if decide (blk_usable (bmitbl (mp_sys m)) blk) then l ++ [blk] else l) ∧
    (¬ blk_usable (bmitbl (mp_sys m)) blk → mp_sys m' = mp_sys m).
Proof.
  intros Hs Hb Hn. destruct (sys_dom _ _ Hs blk Hb) as (e & He & _).
  unfold rblk_bbt_check_available. rewrite get_bmi_item_in, bind_Ok_l, (aread_Some _ _ _ He), bind_Ok_l by done.
  rewrite (luns_kick_out_run (bmitbl (mp_sys m)) blk e for_each_lun He ltac:(done)), bind_Ok_l.
  fold (blk_usable (bmitbl (mp_sys m)) blk). case_bool_decide as Hu.
  - eexists. split; [done|]. do 4 (split; [done|]).
    split; [by rewrite decide_False|done].
  - destruct (insert_blk_to_free_list_spec _ _ _ Hs Hb Hn) as (y & -> & Hy & _ & Hbbt). rewrite bind_Ok_l.
    eexists. split; [done|]. do 3 (split; [done|]). cbn [mp_sys]. split; [|split; [by rewrite decide_True|done]].
    intros b lun Hbb. unfold bmi_bbt. destruct (sys_dom _ _ Hy b Hbb) as (e' & He' & _).
    rewrite He'. destruct (Hbbt b e' He') as (e0 & -> & ->). done.
Qed.

(** ** Marking bad blocks *)

Definition bad_bit (t : gmap Z bmi_item) (blk lun ch : Z) : bool := Z.testbit (bmi_bbt t blk lun) ch.

Lemma mark_bad_ok y l blk lun ch :
  sys_inv y l → blk_ok blk → lun ∈ for_each_lun → ch ∈ for_each_ch →
  ∃ t, mark_bbt_tbl blk lun ch BADB (bmitbl y) = Ok t ∧ sys_inv (set_bmitbl t y) l ∧
    ∀ b u c, c ∈ for_each_ch →
      bad_bit t b u c = bool_decide (b = blk ∧ u = lun ∧ c = ch) || bad_bit (bmitbl y) b u c.
Proof.
  intros Hs Hb Hl%elem_of_seqZ Hc%elem_of_seqZ. destruct (sys_dom _ _ Hs blk Hb) as (e & He & Hbn).
  rewrite (mark_bbt_tbl_run _ e) by (done || lia). eexists. split; [done|]. split.
  - destruct Hs as [Hp Hd Hf]. constructor; cbn.
    + destruct Hp as [Hrep Hok]. split; [|done]. apply fifo_rep_frame with (bmitbl y); [|done].
      intros j _. unfold links. destruct (decide (blk = j)) as [<-|].
      * by rewrite lookup_insert_eq, He.
      * by rewrite lookup_insert_ne.
    + intros i Hi. destruct (decide (blk = i)) as [<-|].
      * rewrite lookup_insert_eq. by eexists.
      * rewrite lookup_insert_ne by done. auto.
    + intros i e0 Hi. destruct (decide (blk = i)) as [<-|].
      * rewrite lookup_insert_eq. intros [= <-]. cbn. by apply (Hf blk).
      * rewrite lookup_insert_ne by done. by apply Hf.
  - intros b u c Hcc%elem_of_seqZ. unfold bad_bit, bmi_bbt. change CFG_NAND_CHANNEL_NUM with 16 in *.
    destruct (decide (blk = b)) as [<-|Hne].
    + rewrite lookup_insert_eq, He. cbn [bbt bmi_set_bbt]. rewrite !u16_testbit by lia.
      destruct (decide (lun = u)) as [<-|Hnu].
      * rewrite lookup_insert_eq. cbn [default from_option id]. rewrite u16_testbit, BIT_SET_testbit by lia.
        f_equal. apply bool_decide_ext. split; [intros ->; done|by intros (_ & _ & ->)].
      * rewrite lookup_insert_ne by done. by rewrite bool_decide_eq_false_2 by (intros (_ & ? & _); congruence).
    + rewrite lookup_insert_ne by done. by rewrite bool_decide_eq_false_2 by (intros (? & _); congruence).
Qed.

(** ** Reading the marks of a block *)

Definition bbm_ppa (blk lun ch : Z) : Z := set_ppa_nand_addr ch 3 0 lun 0 blk.

(** The raw read of sector 3 of both planes of page 0 of a die. *)
Record read_flight (pool : gmap Z (gmap Z Z)) (E : kenv) (blk lun ch : Z) (f : flight) : Prop := {
  rf_op : c_opcode (req_cmd (fl_rq f)) = NVM_OP_RDRAW;
  rf_nlb : c_nlb (req_cmd (fl_rq f)) = CFG_NAND_PLANE_NUM - 1;
  rf_meta : iod_vaddr_meta (fl_iod f) = None;
  rf_list : ∃ k page, iod_vaddr_ppalist (fl_iod f) = Some (Z.of_nat k) ∧
      c_ppalist (req_cmd (fl_rq f)) = u64 (dma_addr E k) ∧ pool !! Z.of_nat k = Some page ∧
      ∀ i, i ∈ for_each_pl → page !! i = Some (set_nand_pl i (bbm_ppa blk lun ch));
}.

Lemma lun_ch_in lun ch : (lun, ch) ∈ lun_ch_pairs ↔ lun ∈ for_each_lun ∧ ch ∈ for_each_ch.
Proof.
  unfold lun_ch_pairs. rewrite list_elem_of_bind. split.
  - intros (l & Hin & Hl). apply list_elem_of_fmap in Hin as (c & [= -> ->] & ?). done.
  - intros [Hl Hc]. exists lun. split; [|done]. apply list_elem_of_fmap. by exists ch.
Qed.

Lemma bbm_fields blk lun ch i :
  blk_ok blk → lun ∈ for_each_lun → ch ∈ for_each_ch → 0 ≤ i < 2 →
  let p := set_nand_pl i (bbm_ppa blk lun ch) in
  nand_blk p = blk ∧ nand_lun p = lun ∧ nand_ch p = ch ∧ 0 ≤ p < 2 ^ 31.
Proof.
  intros Hb Hl%elem_of_seqZ Hc%elem_of_seqZ Hi p. unfold blk_ok in Hb.
  change CFG_NAND_BLOCK_NUM with 128 in Hb. change CFG_NAND_LUN_NUM with 8 in Hl. change CFG_NAND_CHANNEL_NUM with 16 in Hc.
  destruct (set_ppa_nand_addr_fields ch 3 0 lun 0 blk) as (Fc & _ & _ & Fl & _ & Fb); [unfold geo_fields_ok; lia|].
  unfold p, bbm_ppa. split; [|split; [|split]].
  - rewrite <-Fb at 2. by ppa_field.
  - rewrite <-Fl at 2. by ppa_field.
  - rewrite <-Fc at 2. by ppa_field.
  - apply set_bits_bound; [lia..|]. apply set_ppa_nand_addr_bound.
Qed.

Lemma bad_plane_shift planes v (d : Z → Z) :
  bad_plane planes v (λ a, d (a - v)) = bad_plane planes 0 d.
Proof.
  induction planes as [|i planes IH]; cbn [bad_plane]; [done|]. rewrite IH.
  by replace (v + i * EXP_PPA_SIZE + BBM_OFFT - v) with (0 + i * EXP_PPA_SIZE + BBM_OFFT) by lia.
Qed.

Section discovery.
Context (E : kenv) (HE : env_good E) (ns_id : Z).

Lemma fill_planes l ppa s page0 :
  p_pool s !! l = Some page0 →
  ∃ page, mfor for_each_pl (λ i s, pool_write l i (set_nand_pl i ppa) s) s =
      Ok (mk_pstate (p_heap s) (<[l := page]> (p_pool s))) ∧
    ∀ i, i ∈ for_each_pl → page !! i = Some (set_nand_pl i ppa).
Proof using.
  intros Hp. change for_each_pl with [0; 1]. cbn [mfor]. unfold pool_write.
  rewrite (aread_Some _ _ _ Hp). rewrite bind_Ok_l. rewrite wwrite_in by done. rewrite !bind_Ok_l. cbn [p_pool p_heap].
  rewrite (aread_Some _ l _ (lookup_insert_eq _ _ _)), bind_Ok_l, wwrite_in, !bind_Ok_l by done.
  rewrite insert_insert_eq. eexists. split; [done|]. intros i Hi.
  apply elem_of_cons in Hi as [->|Hi%list_elem_of_singleton]; [|subst i].
  - by rewrite lookup_insert_ne, lookup_insert_eq.
  - by rewrite lookup_insert_eq.
Qed.

#[local] Set Default Proof Using "All".

Lemma rdpparaw_submit_ok blk lun ch databuf metadma s os L :
  heap_wf (p_heap s) → owns (p_heap s) os L →
  ∃ s' f, rdpparaw_submit E ns_id (bbm_ppa blk lun ch) databuf metadma s = Ok (s', [f]) ∧
    heap_wf (p_heap s') ∧ owns (p_heap s') (flight_objs f ++ os) L ∧
    read_flight (p_pool s') E blk lun ch f ∧
    (∀ i, ("dmapage", i) ∈ k_live (p_heap s) → p_pool s' !! i = p_pool s !! i).
Proof.
  intros Hw Ho. unfold rdpparaw_submit.
  destruct (alloc_ctx_good E HE _ _ _ Hw Ho) as (cmd & h1 & -> & Hw1 & Ho1). rewrite bind_Ok_l.
  destruct (page_zalloc_good E HE (mk_pstate h1 (p_pool s)) _ _ Hw1 Ho1) as (s2 & -> & Hw2 & Ho2 & Hf2 & Hp2).
  cbn [p_heap p_pool] in *. set (k := k_calls h1) in *. rewrite bind_Ok_l.
  destruct (fill_planes (Z.of_nat k) (bbm_ppa blk lun ch) s2 ∅) as (page & -> & Hpg);
    [by rewrite Hp2, lookup_insert_eq|].
  rewrite bind_Ok_l. cbn [p_heap p_pool].
  match goal with |- context [nvme_submit_ppa_cmd E ?c cmd ?b ?l ?h] =>
    destruct (submit_good E HE c cmd b l h _ _ Hw2 Ho2) as (rq & h4 & -> & Hcmd & Hobj & Hlen & Hw4 & _ & Ho4) end.
  rewrite bind_Ok_l. eexists _, _. split; [done|]. cbn [p_heap p_pool]. split; [done|].
  split; [|split].
  - eapply owns_perm; [|exact Ho4]. unfold flight_objs. cbn. rewrite Hobj. clear. solve_Permutation.
  - constructor; cbn [fl_rq fl_iod]; rewrite ?Hcmd; try done. exists k, page. split; [done|]. split; [done|].
    split; [by rewrite lookup_insert_eq|done].
  - intros i Hi. apply (owns_grow _ _ _ _ _ Ho Ho1) in Hi.
    rewrite lookup_insert_ne by (intros <-; done). by rewrite Hp2, lookup_insert_ne by (intros <-; done).
Qed.

Lemma read_flight_frame pool pool' blk lun ch f :
  read_flight pool E blk lun ch f →
  (∀ i, ("dmapage", i) ∈ flight_objs f → pool' !! i = pool !! i) → read_flight pool' E blk lun ch f.
Proof.
  intros [H1 H2 H3 (k & page & Hk & Hd & Hp & Hpg)] Hs. constructor; try done.
  exists k, page. split; [done|]. split; [done|]. split; [|done]. rewrite Hs; [done|].
  unfold flight_objs. rewrite Hk. cbn. do 2 right. by left.
Qed.

Lemma issue_reads_ok pairs blk databuf metadma m :
  (length pairs ≤ 128)%nat →
  heap_wf (p_heap (mp_ps m)) → 0 ≤ bbt_issu_cnt m < 2 ^ 30 →
  ∃ m' fl, issue_reads E ns_id pairs blk databuf metadma m = Ok (m', fl) ∧
    heap_wf (p_heap (mp_ps m')) ∧
    owns (p_heap (mp_ps m')) (flights_objs fl) (k_live (p_heap (mp_ps m))) ∧
    Forall2 (λ x f, read_flight (p_pool (mp_ps m')) E blk x.1 x.2 f) pairs fl ∧
    mp_sys m' = mp_sys m ∧ bbt_issu_cnt m' = bbt_issu_cnt m + Z.of_nat (length pairs) ∧
    bbt_cmpl_cnt m' = bbt_cmpl_cnt m ∧ bbt_completion m' = bbt_completion m.
Proof.
  intros Hpl Hw Hi. unfold issue_reads.
  match goal with |- context [mfor pairs ?g _] =>
  destruct (mfor_inv (λ dn st, heap_wf (p_heap (mp_ps st.1)) ∧
      owns (p_heap (mp_ps st.1)) (flights_objs st.2) (k_live (p_heap (mp_ps m))) ∧
      Forall2 (λ x f, read_flight (p_pool (mp_ps st.1)) E blk x.1 x.2 f) dn st.2 ∧
      mp_sys st.1 = mp_sys m ∧ bbt_issu_cnt st.1 = bbt_issu_cnt m + Z.of_nat (length dn) ∧
      bbt_cmpl_cnt st.1 = bbt_cmpl_cnt m ∧ bbt_completion st.1 = bbt_completion m)
      g pairs (m, @nil flight)) as ([m' fl] & Hrun & Hres) end.
  - split; [done|]. split; [apply owns_nil|]. split; [constructor|]. cbn. split; [done|]. split; [lia|done].
  - intros dn [lun ch] todo [m1 fl1] Hl (Hw1 & Ho1 & Hall & Hs1 & Hi1 & Hc1 & Hd1). cbn [fst snd] in *.
    assert (length dn < 128)%nat as Hlen.
    { apply (f_equal length) in Hl. rewrite length_app in Hl. cbn [length] in Hl.
      lia. }
    cbv zeta. unfold discovery_bbt_rdpparaw. fold (bbm_ppa blk lun ch).
    match goal with |- context [rdpparaw_submit E ns_id (bbm_ppa blk lun ch) ?db ?md _] =>
      destruct (rdpparaw_submit_ok blk lun ch db md (mp_ps m1) _ _ Hw1 Ho1) as (s2 & f & -> & Hw2 & Ho2 & Hrf & Hkeep) end.
    rewrite !bind_Ok_l. eexists (_, _). split; [done|]. cbn [fst snd issu_inc mp_set_cnt mp_set_ps mp_ps mp_sys bbt_issu_cnt bbt_cmpl_cnt bbt_completion].
    split; [done|]. split; [|split; [|split; [done|split; [|done]]]].
    + eapply owns_perm; [|exact Ho2]. unfold flights_objs. rewrite fmap_app, join_app.
      change (mjoin (flight_objs <$> [f])) with (flight_objs f ++ []). rewrite app_nil_r. apply Permutation_app_comm.
    + apply Forall2_app; [|by apply Forall2_cons; split; [|apply Forall2_nil]].
      rewrite Forall2_lookup in Hall |- *. intros n. specialize (Hall n).
      destruct (fl1 !! n) as [g|] eqn:Hg; inversion Hall as [? ? Hcg Hx Hy|]; subst; constructor.
      apply read_flight_frame with (p_pool (mp_ps m1)); [done|]. intros i Hii. apply Hkeep. apply (ow_in _ _ _ Ho1).
      apply (flight_objs_in E HE ns_id) with g; [|done]. by eapply list_elem_of_lookup_2.
    + rewrite Hi1, length_app. cbn [length]. rewrite s32_small by lia. lia.
  - exists m', fl. split; [done|]. destruct Hres as (? & ? & ? & ? & Hi' & ? & ?). cbn [fst snd] in *.
    do 4 (split; [done|]). split; [|done]. rewrite Hi'. done.
Qed.

(** All the reads of a block are issued. *)
Lemma rblk_bbt_discovery_ok blk databuf metadma m :
  heap_wf (p_heap (mp_ps m)) → 0 ≤ bbt_issu_cnt m < 2 ^ 30 →
  ∃ m' fl, rblk_bbt_discovery E ns_id blk databuf metadma m = Ok (m', fl) ∧
    heap_wf (p_heap (mp_ps m')) ∧
    owns (p_heap (mp_ps m')) (flights_objs fl) (k_live (p_heap (mp_ps m))) ∧
    Forall2 (λ x f, read_flight (p_pool (mp_ps m')) E blk x.1 x.2 f) lun_ch_pairs fl ∧
    mp_sys m' = mp_sys m ∧ bbt_issu_cnt m' = bbt_issu_cnt m + 128 ∧
    bbt_cmpl_cnt m' = bbt_cmpl_cnt m ∧ bbt_completion m' = bbt_completion m.
Proof. intros Hw Hi. by apply (issue_reads_ok lun_ch_pairs blk databuf metadma m). Qed.

(** The device: the bytes a raw read of both planes of a die transfers. *)
Context (dev : nvme_ppa_command → gmap Z Z → Z → Z) (raw : Z → Z → Z).
Context (Hdev : ∀ cmd page p, c_opcode cmd = NVM_OP_RDRAW → c_nlb cmd = CFG_NAND_PLANE_NUM - 1 →
  (∀ i, i ∈ for_each_pl → page !! i = Some (set_nand_pl i p)) → dev cmd page = raw p).

(** A die has the bad block mark in one of its planes. *)
Definition marked (blk lun ch : Z) : bool := bad_plane for_each_pl 0 (raw (bbm_ppa blk lun ch)).

Lemma rdpparaw_completion_ok blk lun ch f m l os L :
  heap_wf (p_heap (mp_ps m)) → owns (p_heap (mp_ps m)) (flight_objs f ++ os) L →
  read_flight (p_pool (mp_ps m)) E blk lun ch f →
  sys_inv (mp_sys m) l → blk_ok blk → lun ∈ for_each_lun → ch ∈ for_each_ch →
  0 ≤ bbt_cmpl_cnt m < 2 ^ 30 →
  ∃ m', rdpparaw_completion (read_mem dev f (mp_ps m)) f m = Ok m' ∧
    heap_wf (p_heap (mp_ps m')) ∧ owns (p_heap (mp_ps m')) os L ∧
    (∀ i, ("dmapage", i) ∉ flight_objs f → p_pool (mp_ps m') !! i = p_pool (mp_ps m) !! i) ∧
    sys_inv (mp_sys m') l ∧ bbt_issu_cnt m' = bbt_issu_cnt m ∧ bbt_cmpl_cnt m' = bbt_cmpl_cnt m + 1 ∧
    bbt_completion m' = bbt_completion m + (if decide (bbt_cmpl_cnt m + 1 = bbt_issu_cnt m) then 1 else 0) ∧
    ∀ b u c, c ∈ for_each_ch → bad_bit (bmitbl (mp_sys m')) b u c =
      bool_decide (b = blk ∧ u = lun ∧ c = ch ∧ marked blk lun ch = true) || bad_bit (bmitbl (mp_sys m)) b u c.
Proof.
  intros Hw Ho [Hop Hnlb Hmeta (k & page & Hk & Hdma & Hpool & Hpage)] Hs Hb Hl Hc Hcnt.
  unfold rdpparaw_completion. rewrite Hk. cbn [deref]. rewrite bind_Ok_l.
  assert (bad_plane for_each_pl (iod_vaddr_data (fl_iod f)) (read_mem dev f (mp_ps m)) = marked blk lun ch) as ->.
  { unfold read_mem. rewrite Hk. cbn [default from_option id]. rewrite Hpool. cbn [default from_option id].
    rewrite bad_plane_shift. by rewrite (Hdev _ _ (bbm_ppa blk lun ch)). }
  assert (∃ y, (if marked blk lun ch then
       page ← aread (p_pool (mp_ps m)) (Z.of_nat k);
       w ← wread POOL_WORDS 0 page 0;
       t ← mark_bbt_tbl (nand_blk (u32 w)) (nand_lun (u32 w)) (nand_ch (u32 w)) BADB (bmitbl (mp_sys m));
       Ok (set_bmitbl t (mp_sys m))
     else Ok (mp_sys m)) = Ok y ∧ sys_inv y l ∧
     ∀ b u c, c ∈ for_each_ch → bad_bit (bmitbl y) b u c =
      bool_decide (b = blk ∧ u = lun ∧ c = ch ∧ marked blk lun ch = true) || bad_bit (bmitbl (mp_sys m)) b u c)
    as (y & Hy & Hys & Hbits).
  { destruct (marked blk lun ch).
    - rewrite (aread_Some _ _ _ Hpool), bind_Ok_l, wread_in, bind_Ok_l by done.
      rewrite (Hpage 0) by (by left). cbn [default from_option id].
      destruct (bbm_fields blk lun ch 0 Hb Hl Hc ltac:(lia)) as (Fb & Fl & Fc & Fr). cbn zeta in *.
      assert (u32 (set_nand_pl 0 (bbm_ppa blk lun ch)) = set_nand_pl 0 (bbm_ppa blk lun ch)) as -> by (apply u32_small; clear -Fr; lia).
      rewrite Fb, Fl, Fc.
      destruct (mark_bad_ok _ l blk lun ch Hs Hb Hl Hc) as (t & -> & Ht & Hbits). rewrite bind_Ok_l.
      eexists. split; [done|]. split; [done|]. intros b u c Hcc. cbn [bmitbl set_bmitbl]. rewrite (Hbits b u c Hcc).
      f_equal. apply bool_decide_ext. tauto.
    - eexists. split; [done|]. split; [done|]. intros b u c _. by rewrite bool_decide_eq_false_2 by (by intros (_ & _ & _ & ?)). }
  rewrite Hy, bind_Ok_l. unfold flight_objs in *. rewrite Hmeta, Hk in *. cbn [option_list fmap list_fmap app] in *.
  apply (owns_perm _ _ (("dmapage", Z.of_nat k) :: ("ppacmd", req_cmd_obj (fl_rq f)) ::
    ("request", req_id (fl_rq f)) :: os)) in Ho; [|clear; solve_Permutation].
  destruct (page_free_good _ _ _ _ Hw Ho) as (s1 & -> & Hw1 & Ho1 & Hp1). rewrite bind_Ok_l.
  destruct (kfree_good _ _ _ _ Hw1 Ho1) as (h2 & -> & Hw2 & Ho2). rewrite bind_Ok_l.
  unfold blk_mq_free_request.
  destruct (kfree_good _ _ _ _ Hw2 Ho2) as (h3 & -> & Hw3 & Ho3). rewrite bind_Ok_l.
  eexists. split; [done|]. cbn [mp_set_cnt mp_set_ps mp_set_sys mp_ps mp_sys p_heap p_pool bbt_issu_cnt bbt_cmpl_cnt bbt_completion].
  split; [done|]. split; [done|]. split; [|split; [done|split; [done|]]].
  { intros i Hi. rewrite Hp1, lookup_delete_ne; [done|]. intros <-. apply Hi. do 2 right. by left. }
  rewrite s32_small by lia. split; [done|]. split; [|done].
  repeat case_decide; lia.
Qed.

Definition is_read (pool : gmap Z (gmap Z Z)) (blk : Z) (f : flight) : Prop :=
  ∃ lun ch, lun ∈ for_each_lun ∧ ch ∈ for_each_ch ∧ read_flight pool E blk lun ch f.

(** Which die a read is for. *)
Lemma read_flight_inj pool blk lun ch lun' ch' f :
  blk_ok blk → lun ∈ for_each_lun → ch ∈ for_each_ch → lun' ∈ for_each_lun → ch' ∈ for_each_ch →
  read_flight pool E blk lun ch f → read_flight pool E blk lun' ch' f → lun = lun' ∧ ch = ch'.
Proof.
  intros Hb Hl Hc Hl' Hc' [_ _ _ (k & page & Hk & _ & Hp & Hpg)] [_ _ _ (k' & page' & Hk' & _ & Hp' & Hpg')].
  assert (page' = page) as -> by congruence.
  specialize (Hpg 0 ltac:(by left)). specialize (Hpg' 0 ltac:(by left)). rewrite Hpg in Hpg'. injection Hpg' as Heq.
  destruct (bbm_fields blk lun ch 0 Hb Hl Hc ltac:(lia)) as (_ & Fl & Fc & _).
  destruct (bbm_fields blk lun' ch' 0 Hb Hl' Hc' ltac:(lia)) as (_ & Fl' & Fc' & _).
  rewrite Heq in Fl, Fc. split; congruence.
Qed.

Lemma completions_ok blk fl : ∀ m l L,
  heap_wf (p_heap (mp_ps m)) → owns (p_heap (mp_ps m)) (flights_objs fl) L →
  Forall (is_read (p_pool (mp_ps m)) blk) fl →
  sys_inv (mp_sys m) l → blk_ok blk → 0 ≤ bbt_cmpl_cnt m →
  bbt_issu_cnt m = bbt_cmpl_cnt m + Z.of_nat (length fl) → bbt_issu_cnt m < 2 ^ 30 →
  ∃ m', mfor fl (λ f m, rdpparaw_completion (read_mem dev f (mp_ps m)) f m) m = Ok m' ∧
    heap_wf (p_heap (mp_ps m')) ∧ k_live (p_heap (mp_ps m')) = L ∧ sys_inv (mp_sys m') l ∧
    bbt_issu_cnt m' = bbt_issu_cnt m ∧ bbt_cmpl_cnt m' = bbt_issu_cnt m ∧
    bbt_completion m' = bbt_completion m + (if decide (fl = []) then 0 else 1) ∧
    ∀ b u c, c ∈ for_each_ch → bad_bit (bmitbl (mp_sys m')) b u c = true ↔
      bad_bit (bmitbl (mp_sys m)) b u c = true ∨
      (b = blk ∧ marked blk u c = true ∧ u ∈ for_each_lun ∧
       ∃ f, f ∈ fl ∧ read_flight (p_pool (mp_ps m)) E blk u c f).
Proof.
  induction fl as [|f fl IH]; intros m l L Hw Ho Hall Hs Hb Hc0 Hcnt Hmax; cbn [mfor].
  - exists m. split; [done|]. split; [done|]. split; [by apply owns_done in Ho|]. split; [done|]. split; [done|].
    cbn in Hcnt. split; [lia|]. split; [by rewrite decide_True by done; lia|].
    intros b u c _. split; [by left|]. intros [?|(_ & _ & _ & f & Hf & _)]; [done|]. by apply not_elem_of_nil in Hf.
  - apply Forall_cons in Hall as [(lun & ch & Hl & Hc & Hrf) Hall]. cbn [length] in Hcnt.
    change (flights_objs (f :: fl)) with (flight_objs f ++ flights_objs fl) in Ho.
    destruct (rdpparaw_completion_ok blk lun ch f m l _ L Hw Ho Hrf Hs Hb Hl Hc ltac:(lia))
      as (m1 & -> & Hw1 & Ho1 & Hp1 & Hs1 & Hi1 & Hc1 & Hd1 & Hbits1). rewrite bind_Ok_l.
    assert (∀ g i, g ∈ fl → ("dmapage", i) ∈ flight_objs g → p_pool (mp_ps m1) !! i = p_pool (mp_ps m) !! i) as Hpg.
    { intros g i Hg Hi. apply Hp1. intros Hi'. pose proof (ow_nodup _ _ _ Ho) as Hnd.
      apply NoDup_app in Hnd as (_ & Hnd & _). apply (Hnd _ Hi'). by apply (flight_objs_in E HE ns_id) with g. }
    assert (∀ g lun ch, g ∈ fl → read_flight (p_pool (mp_ps m)) E blk lun ch g ↔ read_flight (p_pool (mp_ps m1)) E blk lun ch g) as Hrg.
    { intros g u c Hg. split; intros H; eapply read_flight_frame; try exact H; intros i Hi.
      - by apply Hpg with g.
      - symmetry. by apply Hpg with g. }
    destruct (IH m1 l L Hw1 Ho1) as (m2 & -> & Hw2 & Hl2 & Hs2 & Hi2 & Hc2 & Hd2 & Hbits2); [|done|done|lia|lia|lia|].
    { rewrite Forall_forall in Hall |- *. intros g Hg. destruct (Hall g Hg) as (u & c & ? & ? & ?).
      exists u, c. split; [done|]. split; [done|]. by apply Hrg. }
    exists m2. split; [done|]. split; [done|]. split; [done|]. split; [done|]. split; [lia|]. split; [lia|]. split.
    + rewrite Hd2, Hd1. rewrite (decide_False (P := f :: fl = [])) by done.
      destruct fl; cbn [length] in *; repeat case_decide; try done; lia.
    + intros b u c Hcc. rewrite (Hbits2 b u c Hcc), (Hbits1 b u c Hcc), orb_true_iff, bool_decide_eq_true. split.
      * intros [[(-> & -> & -> & Hm)|?]|(-> & Hm & Hu & g & Hg & Hgr)]; [|by left|].
        -- right. split; [done|]. split; [done|]. split; [done|]. exists f. split; [by left|done].
        -- right. split; [done|]. split; [done|]. split; [done|]. exists g. split; [by right|]. by apply Hrg.
      * intros [?|(-> & Hm & Hu & g & Hg & Hgr)]; [by left; right|].
        apply elem_of_cons in Hg as [->|Hg].
        -- left. left. destruct (read_flight_inj _ _ _ _ _ _ _ Hb Hl Hc Hu Hcc Hrf Hgr) as [-> ->]. done.
        -- right. split; [done|]. split; [done|]. split; [done|]. exists g. split; [done|]. by apply Hrg.
Qed.

(** One block. *)
Lemma discover_blk_ok order databuf metadma blk m l :
  (∀ fl, order fl ≡ₚ fl) →
  heap_wf (p_heap (mp_ps m)) → sys_inv (mp_sys m) l → blk_ok blk → blk ≠ 0 → blk ∉ l →
  0 ≤ bbt_issu_cnt m < 2 ^ 29 → bbt_cmpl_cnt m = bbt_issu_cnt m →
  ∃ m', discover_blk E ns_id dev order databuf metadma blk m = Ok m' ∧
    heap_wf (p_heap (mp_ps m')) ∧ k_live (p_heap (mp_ps m')) = k_live (p_heap (mp_ps m)) ∧
    sys_inv (mp_sys m') (if decide (blk_usable (bmitbl (mp_sys m')) blk) then l ++ [blk] else l) ∧
    bbt_issu_cnt m' = bbt_issu_cnt m + 128 ∧ bbt_cmpl_cnt m' = bbt_issu_cnt m' ∧
    ∀ b u c, blk_ok b → u ∈ for_each_lun → c ∈ for_each_ch →
      bad_bit (bmitbl (mp_sys m')) b u c =
        bad_bit (bmitbl (mp_sys m)) b u c || (bool_decide (b = blk) && marked blk u c).
Proof.
  intros Hord Hw Hs Hb Hb0 Hn Hi Hc. unfold discover_blk. rewrite decide_False by done.
  set (m0 := mp_set_cnt (bbt_issu_cnt m) (bbt_cmpl_cnt m) 0 m).
  destruct (rblk_bbt_discovery_ok blk databuf metadma m0) as (m1 & fl & -> & Hw1 & Ho1 & Hall & Hs1 & Hi1 & Hc1 & Hd1);
    [done|cbn; lia|]. rewrite bind_Ok_l. cbn [m0 mp_set_cnt bbt_issu_cnt bbt_cmpl_cnt bbt_completion mp_ps mp_sys] in *.
  assert (length fl = 128%nat) as Hlen by (by rewrite <-(Forall2_length _ _ _ Hall)).
  assert (length (order fl) = 128%nat) as Hlen' by (by rewrite (Hord fl)).
  destruct (completions_ok blk (order fl) m1 l (k_live (p_heap (mp_ps m)))) as
    (m2 & -> & Hw2 & Hl2 & Hs2 & Hi2 & Hc2 & Hd2 & Hbits); [done| | |by rewrite Hs1|done|lia| |lia|].
  { eapply owns_perm; [|exact Ho1]. unfold flights_objs. by rewrite (Hord fl). }
  { rewrite (Hord fl). apply Forall_forall. intros f Hf. apply list_elem_of_lookup_1 in Hf as [n Hf].
    destruct (Forall2_lookup_r _ _ _ _ _ Hall Hf) as ([lun ch] & Hx & Hrf).
    apply list_elem_of_lookup_2, lun_ch_in in Hx as [? ?]. by exists lun, ch. }
  { rewrite Hlen'. lia. }
  rewrite bind_Ok_l. rewrite decide_False in Hd2 by (intros Hnil; by rewrite Hnil in Hlen').
  unfold wait_for_completion. rewrite decide_True by lia. rewrite bind_Ok_l.
  match goal with |- context [rblk_bbt_check_available blk ?m3] =>
    destruct (check_available_ok m3 l blk Hs2 Hb Hn) as (m4 & -> & Hps & Hi4 & Hc4 & Hbits4 & Hs4 & _) end.
  exists m4. split; [done|]. rewrite Hps, Hi4, Hc4. cbn [mp_set_cnt mp_ps mp_sys bbt_issu_cnt bbt_cmpl_cnt] in *.
  split; [done|]. split; [done|]. split; [|split; [lia|split; [lia|]]].
  - assert (blk_usable (bmitbl (mp_sys m4)) blk ↔ blk_usable (bmitbl (mp_sys m2)) blk) as Hu.
    { unfold blk_usable. rewrite !Forall_forall. split; intros H lun Hlun; specialize (H lun Hlun);
        rewrite (Hbits4 blk lun Hb) in *; done. }
    destruct (decide (blk_usable (bmitbl (mp_sys m2)) blk)) as [Hy|Hy];
      [rewrite decide_True by (by apply Hu)|rewrite decide_False by (by rewrite Hu)]; exact Hs4.
  - intros b u c Hbb Hu Hcc. unfold bad_bit at 1. rewrite (Hbits4 b u Hbb). fold (bad_bit (bmitbl (mp_sys m2)) b u c).
    apply eq_bool_prop_intro. rewrite !Is_true_true, (Hbits b u c Hcc), Hs1, orb_true_iff, andb_true_iff, bool_decide_eq_true.
    split.
    + intros [?|(-> & Hm & _)]; [by left|by right].
    + intros [?|[-> Hm]]; [by left|]. right. split; [done|]. split; [done|]. split; [done|].
      assert ((u, c) ∈ lun_ch_pairs) as Hin by (by apply lun_ch_in). apply list_elem_of_lookup_1 in Hin as [n Hx].
      destruct (Forall2_lookup_l _ _ _ _ _ Hall Hx) as (f & Hf & Hrf). exists f. split; [|done].
      rewrite (Hord fl). by eapply list_elem_of_lookup_2.
Qed.

(** A block with at most 12 marked channels in each LUN. *)
Definition good_blk (blk : Z) : Prop :=
  Forall (λ lun, (length (filter (λ ch, marked blk lun ch = true) for_each_ch) ≤ 12)%nat) for_each_lun.

#[export] Instance good_blk_dec blk : Decision (good_blk blk) := _.

Lemma usable_good t blk :
  (∀ u c, u ∈ for_each_lun → c ∈ for_each_ch → bad_bit t blk u c = marked blk u c) →
  blk_usable t blk ↔ good_blk blk.
Proof.
  intros H. unfold blk_usable, good_blk. rewrite !Forall_forall.
  assert (∀ u, u ∈ for_each_lun → bad_chs (bmi_bbt t blk u) for_each_ch =
    filter (λ ch, marked blk u ch = true) for_each_ch) as Heq.
  { intros u Hu. unfold bad_chs.
    assert (∀ chs : list Z, (∀ c, c ∈ chs → c ∈ for_each_ch) → filter (λ ch, Z.testbit (bmi_bbt t blk u) ch = true) chs =
      filter (λ ch, marked blk u ch = true) chs) as Hgen; [|by apply Hgen].
    induction chs as [|c chs IH]; intros Hin; [done|]. rewrite !filter_cons.
    specialize (H u c Hu (Hin c ltac:(by left))). unfold bad_bit in H. rewrite H.
    by rewrite IH by (intros; apply Hin; by right). }
  split; intros Hf u Hu; specialize (Hf u Hu); rewrite Heq in *; done.
Qed.

(** The loop over the blocks, from the last one down. *)
Lemma discovery_loop_ok order databuf metadma m :
  (∀ fl, order fl ≡ₚ fl) → heap_wf (p_heap (mp_ps m)) → sys_inv (mp_sys m) [] →
  bbt_issu_cnt m = 0 → bbt_cmpl_cnt m = 0 →
  (∀ b u c, blk_ok b → u ∈ for_each_lun → c ∈ for_each_ch → bad_bit (bmitbl (mp_sys m)) b u c = false) →
  ∃ m', mfor for_each_blk_reverse (discover_blk E ns_id dev order databuf metadma) m = Ok m' ∧
    heap_wf (p_heap (mp_ps m')) ∧ k_live (p_heap (mp_ps m')) = k_live (p_heap (mp_ps m)) ∧
    sys_inv (mp_sys m') (filter (λ b, b ≠ 0 ∧ good_blk b) for_each_blk_reverse) ∧
    ∀ b u c, blk_ok b → u ∈ for_each_lun → c ∈ for_each_ch →
      bad_bit (bmitbl (mp_sys m')) b u c = bool_decide (b ≠ 0) && marked b u c.
Proof.
  intros Hord Hw Hs Hi Hc H0.
  destruct (mfor_inv (λ dn m', heap_wf (p_heap (mp_ps m')) ∧
      k_live (p_heap (mp_ps m')) = k_live (p_heap (mp_ps m)) ∧
      sys_inv (mp_sys m') (filter (λ b, b ≠ 0 ∧ good_blk b) dn) ∧
      0 ≤ bbt_issu_cnt m' ≤ 128 * Z.of_nat (length dn) ∧ bbt_cmpl_cnt m' = bbt_issu_cnt m' ∧
      ∀ b u c, blk_ok b → u ∈ for_each_lun → c ∈ for_each_ch →
        bad_bit (bmitbl (mp_sys m')) b u c = bool_decide (b ∈ dn ∧ b ≠ 0) && marked b u c)
    (discover_blk E ns_id dev order databuf metadma) for_each_blk_reverse m) as (m' & Hrun & Hw' & Hl' & Hs' & _ & _ & Hb').
  - do 3 (split; [done|]). cbn. split; [lia|]. split; [lia|]. intros b u c Hb Hu Hcc. rewrite H0 by done.
    symmetry. apply andb_false_iff. left. apply bool_decide_eq_false_2. intros [Hin _]. by apply not_elem_of_nil in Hin.
  - intros dn blk todo m1 Hl (Hw1 & Hl1 & Hs1 & Hi1 & Hc1 & Hb1).
    assert (NoDup (dn ++ blk :: todo)) as Hnd by (rewrite <-Hl; unfold for_each_blk_reverse; rewrite reverse_Permutation; apply NoDup_seqZ).
    assert (blk ∉ dn) as Hnin.
    { apply NoDup_app in Hnd as (_ & Hnd & _). intros Hin. apply (Hnd blk Hin). by left. }
    assert (length dn < 128)%nat as Hlen.
    { apply (f_equal length) in Hl. rewrite length_app in Hl. cbn [length] in Hl.
      change (length for_each_blk_reverse) with 128%nat in Hl. lia. }
    assert (blk_ok blk) as Hbok.
    { assert (blk ∈ for_each_blk_reverse) as Hin by (rewrite Hl, elem_of_app; right; by left).
      apply elem_of_reverse, elem_of_seqZ in Hin. unfold blk_ok. lia. }
    destruct (decide (blk = 0)) as [->|Hne].
    + exists m1. unfold discover_blk. rewrite decide_True by done. split; [done|]. split; [done|]. split; [done|].
      rewrite filter_app, filter_cons, decide_False by (by intros [? _]). rewrite filter_nil, app_nil_r.
      split; [done|]. rewrite length_app. cbn [length]. split; [lia|]. split; [done|].
      intros b u c Hbb Hu Hcc. rewrite (Hb1 b u c Hbb Hu Hcc). f_equal. apply bool_decide_ext.
      rewrite elem_of_app, list_elem_of_singleton. intuition congruence.
    + assert (blk ∉ filter (λ b, b ≠ 0 ∧ good_blk b) dn) as Hnf by (rewrite list_elem_of_filter; tauto).
      destruct (discover_blk_ok order databuf metadma blk m1 _ Hord Hw1 Hs1 Hbok Hne Hnf ltac:(lia) Hc1)
        as (m2 & -> & Hw2 & Hl2 & Hs2 & Hi2 & Hc2 & Hb2).
      exists m2. split; [done|]. split; [done|]. split; [congruence|].
      rewrite length_app. cbn [length].
      assert (∀ u c, u ∈ for_each_lun → c ∈ for_each_ch → bad_bit (bmitbl (mp_sys m2)) blk u c = marked blk u c) as Hbm.
      { intros u c Hu Hcc. rewrite (Hb2 blk u c Hbok Hu Hcc), (Hb1 blk u c Hbok Hu Hcc).
        rewrite bool_decide_eq_false_2 by tauto. by rewrite bool_decide_eq_true_2. }
      split; [|split; [lia|split; [done|]]].
      * rewrite filter_app, filter_cons, filter_nil. pose proof (usable_good _ _ Hbm) as Hu.
        case_decide as Hy; [rewrite decide_True by (split; [done|by apply Hu])|
          rewrite decide_False by (rewrite <-Hu; tauto); rewrite app_nil_r]; exact Hs2.
      * intros b u c Hbb Hu Hcc. rewrite (Hb2 b u c Hbb Hu Hcc), (Hb1 b u c Hbb Hu Hcc).
        destruct (decide (b = blk)) as [->|Hbn].
        -- rewrite (bool_decide_eq_true_2 (blk = blk)) by done.
           rewrite (bool_decide_eq_true_2 (blk ∈ dn ++ [blk] ∧ _)) by (split; [apply elem_of_app; right; by left|done]).
           rewrite bool_decide_eq_false_2 by tauto. done.
        -- rewrite (bool_decide_eq_false_2 (b = blk)), andb_false_l, orb_false_r by done. f_equal. apply bool_decide_ext.
           rewrite elem_of_app, list_elem_of_singleton. tauto.
  - exists m'. do 4 (split; [done|]). intros b u c Hb Hu Hcc. rewrite (Hb' b u c Hb Hu Hcc). f_equal.
    apply bool_decide_ext. split; [by intros [_ ?]|]. intros ?. split; [|done].
    apply elem_of_reverse, elem_of_seqZ. unfold blk_ok in Hb. lia.
Qed.
End discovery.

(** ** Erasing a block *)

Section erase.
Context (E : kenv) (HE : env_good E) (ns_id : Z).
Context {A : Type} (edev : nvme_ppa_command → gmap Z (gmap Z Z) → Z * A).
#[local] Set Default Proof Using "All".

Lemma erase_ok blk s :
  heap_wf (p_heap s) →
  ∃ s' k mem page, erase_rblk_wait E ns_id edev blk s = Ok (0, [(erase_cmd ns_id (dma_addr E k), mem)], s') ∧
    mem !! Z.of_nat k = Some page ∧ (∀ i p, erase_ppas blk !! i = Some p → page !! Z.of_nat i = Some p) ∧
    heap_wf (p_heap s') ∧ k_live (p_heap s') = k_live (p_heap s).
Proof.
  intros Hw. unfold erase_rblk_wait, kalloc. rewrite (eg_alloc _ HE). cbn [negb].
  set (cmd := ("ppacmd", Z.of_nat (k_calls (p_heap s)))). set (h1 := mk_kheap _ _).
  assert (heap_wf h1) as Hw1 by (by eapply heap_wf_alloc).
  assert (owns h1 [cmd] (k_live (p_heap s))) as Ho1.
  { eapply owns_alloc; [apply owns_nil|apply heap_wf_fresh; [done|set_solver|lia]|done]. }
  destruct (page_zalloc_good E HE (mk_pstate h1 (p_pool s)) _ _ Hw1 Ho1) as (s2 & -> & Hw2 & Ho2 & _ & Hp2).
  rewrite bind_Ok_l. cbn [p_heap p_pool] in *. set (k := k_calls h1) in *.
  destruct (pool_fill (Z.of_nat k) 128 (erase_ppas blk) s2) as (page & Hfill & Hpage);
    [rewrite Hp2, lookup_insert_eq; by eexists|done|done|].
  change (Z.of_nat (length (erase_ppas blk))) with 128. rewrite Hfill, bind_Ok_l. cbn [p_heap p_pool].
  match goal with |- context [nvme_submit_ppa_cmd_sync E edev ?c 0 0 ?st] =>
    destruct (submit_sync_good E HE edev c 0 0 st _ _ Hw2 Ho2) as (s3 & -> & Hp3 & Hw3 & Ho3) end.
  rewrite bind_Ok_l.
  destruct (page_free_good _ _ _ _ Hw3 Ho3) as (s4 & -> & Hw4 & Ho4 & _). rewrite bind_Ok_l.
  destruct (kfree_good _ _ _ _ Hw4 Ho4) as (h5 & -> & Hw5 & Ho5). rewrite bind_Ok_l.
  eexists _, k, _, page. split; [done|]. split; [by rewrite lookup_insert_eq|]. split; [done|].
  split; [done|]. by apply owns_done in Ho5.
Qed.

Lemma sweepup_ok s :
  heap_wf (p_heap s) →
  ∃ s', sweepup_disk E ns_id edev s = Ok s' ∧ heap_wf (p_heap s') ∧ k_live (p_heap s') = k_live (p_heap s).
Proof.
  intros Hw. unfold sweepup_disk.
  match goal with |- context [mfor for_each_blk_reverse ?f s] =>
  destruct (mfor_inv (λ _ s', heap_wf (p_heap s') ∧ k_live (p_heap s') = k_live (p_heap s)) f for_each_blk_reverse s)
    as (s' & Hrun & Hres) end; [done| |by exists s'].
  intros _ blk _ s1 _ (Hw1 & Hl1). destruct (erase_ok blk s1 Hw1) as (s2 & k & mem & page & -> & _ & _ & Hw2 & Hl2).
  rewrite bind_Ok_l. exists s2. split; [done|]. split; [done|congruence].
Qed.
End erase.

Lemma lun_ch_index : Forall (λ x, lun_ch_pairs !! Z.to_nat (x.1 * 16 + x.2) = Some x) lun_ch_pairs.
Proof. apply (bool_decide_unpack _). vm_compute. exact I. Qed.

Lemma erase_ppas_lookup blk lun ch :
  lun ∈ for_each_lun → ch ∈ for_each_ch →
  erase_ppas blk !! Z.to_nat (lun * 16 + ch) = Some (set_ppa_nand_addr ch 0 0 lun 0 blk).
Proof.
  intros Hl Hc. unfold erase_ppas. rewrite list_lookup_fmap.
  assert ((lun, ch) ∈ lun_ch_pairs) as Hin by (by apply lun_ch_in).
  pose proof lun_ch_index as Hf. rewrite Forall_forall in Hf. specialize (Hf _ Hin). cbn [fst snd] in Hf. by rewrite Hf.
Qed.

(** a block is erased on every die.  With memory and requests available,
    [erase_rblk_wait] runs one erase command for 128 pages, whose address list has, at
    entry [16 lun + ch], block [blk] of that LUN and channel; it returns 0 whatever the
    status of the command, and nothing stays allocated.  (128 pages is twice
    [MAX_PPA_PER_CMD].) *)
Lemma erase_rblk_all_dies E ns_id {A} (edev : nvme_ppa_command → gmap Z (gmap Z Z) → Z * A) blk s :
  env_good E → heap_wf (p_heap s) →
  ∃ s' c mem k page, erase_rblk_wait E ns_id edev blk s = Ok (0, [(c, mem)], s') ∧
    c_opcode c = NVM_OP_ERASE ∧ c_nlb c + 1 = 128 ∧ 128 = 2 * MAX_PPA_PER_CMD ∧
    c_ppalist c = u64 (dma_addr E k) ∧ mem !! Z.of_nat k = Some page ∧
    (∀ lun ch, lun ∈ for_each_lun → ch ∈ for_each_ch →
       page !! (16 * lun + ch) = Some (set_ppa_nand_addr ch 0 0 lun 0 blk)) ∧
    k_live (p_heap s') = k_live (p_heap s).
Proof.
  intros HE Hw. destruct (erase_ok E HE ns_id edev blk s Hw) as (s' & k & mem & page & Hrun & Hm & Hpage & _ & Hl).
  exists s', (erase_cmd ns_id (dma_addr E k)), mem, k, page. do 6 (split; [done|]). split; [|done].
  intros lun ch Hlun Hch. rewrite (Z.mul_comm 16). rewrite <-(Z2Nat.id (lun * 16 + ch)).
  - by apply Hpage, erase_ppas_lookup.
  - apply elem_of_seqZ in Hlun, Hch. lia.
Qed.

Lemma erase_rblk_all_dies_witness :
  ∃ s' c mem, erase_rblk_wait env_ok 1 (λ _ _, (5, tt)) 7 empty_pstate = Ok (0, [(c, mem)], s') ∧
    k_live (p_heap s') = ∅.
Proof.
  destruct (erase_rblk_all_dies env_ok 1 (λ _ _, (5, tt)) 7 empty_pstate) as (s' & c & mem & k & page & Hrun & _ & _ & _ & _ & _ & _ & Hl).
  - exact env_ok_good.
  - apply empty_heap_wf.
  - exists s', c, mem. split; [exact Hrun|exact Hl].
Defined.

(** ** The first start *)

Section manufactory.
Context (E : kenv) (HE : env_good E) (ns_id : Z).
Context (dev : nvme_ppa_command → gmap Z Z → Z → Z) (raw : Z → Z → Z).
Context (Hdev : ∀ cmd page p, c_opcode cmd = NVM_OP_RDRAW → c_nlb cmd = CFG_NAND_PLANE_NUM - 1 →
  (∀ i, i ∈ for_each_pl → page !! i = Some (set_nand_pl i p)) → dev cmd page = raw p).
Context (order : list flight → list flight) (Hord : ∀ fl, order fl ≡ₚ fl).
#[local] Set Default Proof Using "All".

Lemma bbt_discovery_ok m :
  heap_wf (p_heap (mp_ps m)) → sys_inv (mp_sys m) [] → bbt_issu_cnt m = 0 → bbt_cmpl_cnt m = 0 →
  (∀ b u c, blk_ok b → u ∈ for_each_lun → c ∈ for_each_ch → bad_bit (bmitbl (mp_sys m)) b u c = false) →
  ("bbtdata", 0) ∉ k_live (p_heap (mp_ps m)) → ("bbtmeta", 0) ∉ k_live (p_heap (mp_ps m)) →
  ∃ m', fscftl_bbt_discovery E ns_id dev order m = Ok m' ∧ heap_wf (p_heap (mp_ps m')) ∧
    k_live (p_heap (mp_ps m')) = k_live (p_heap (mp_ps m)) ∧
    sys_inv (mp_sys m') (filter (λ b, b ≠ 0 ∧ good_blk raw b) for_each_blk_reverse) ∧
    ∀ b u c, blk_ok b → u ∈ for_each_lun → c ∈ for_each_ch →
      bad_bit (bmitbl (mp_sys m')) b u c = bool_decide (b ≠ 0) && marked raw b u c.
Proof.
  intros Hw Hs Hi Hc H0 Hd Hm. unfold fscftl_bbt_discovery, kalloc. rewrite !(eg_alloc _ HE). cbn [negb].
  set (h1 := mk_kheap (S (k_calls (p_heap (mp_ps m)))) _).
  assert (heap_wf h1) as Hw1 by (apply heap_wf_other; [done|by apply (bool_decide_unpack _)]).
  cbn [mp_set_ps mp_ps p_heap p_pool]. set (h2 := mk_kheap (S (k_calls h1)) _).
  assert (heap_wf h2) as Hw2 by (apply heap_wf_other; [done|by apply (bool_decide_unpack _)]).
  assert (owns h1 [("bbtdata", 0)] (k_live (p_heap (mp_ps m)))) as Ho1.
  { eapply owns_alloc; [apply owns_nil|done|done]. }
  assert (owns h2 [("bbtmeta", 0); ("bbtdata", 0)] (k_live (p_heap (mp_ps m)))) as Ho2.
  { eapply owns_alloc; [exact Ho1| |done]. unfold h1. cbn. rewrite elem_of_union, elem_of_singleton.
    by intros [|]. }
  match goal with |- context [mfor for_each_blk_reverse (discover_blk E ns_id dev order ?a ?b) ?m1] =>
    destruct (discovery_loop_ok E HE ns_id dev raw Hdev order a b m1 Hord) as (m3 & -> & Hw3 & Hl3 & Hs3 & Hb3) end;
    [done..|].
  rewrite bind_Ok_l. cbn [mp_set_ps mp_ps p_heap] in Hl3.
  assert (owns (p_heap (mp_ps m3)) [("bbtmeta", 0); ("bbtdata", 0)] (k_live (p_heap (mp_ps m)))) as Ho3.
  { destruct Ho2. constructor; [congruence|done|done]. }
  destruct (kfree_good _ _ _ _ Hw3 Ho3) as (h4 & -> & Hw4 & Ho4). rewrite !bind_Ok_l. cbn [mp_set_ps mp_ps p_heap].
  destruct (kfree_good _ _ _ _ Hw4 Ho4) as (h5 & -> & Hw5 & Ho5). rewrite !bind_Ok_l.
  eexists. split; [done|]. cbn [mp_set_ps mp_ps mp_sys p_heap]. split; [done|]. split; [by apply owns_done in Ho5|]. done.
Qed.
End manufactory.

Lemma page_bit_bmi t p blk lun ch :
  page_bbt p blk lun = bmi_bbt t blk lun → Z.testbit (page_bbt p blk lun) ch = bad_bit t blk lun ch.
Proof. by intros ->. Qed.

(** C28: the first start of a disk.  With memory and requests available, on empty tables
    and fresh boot pages, whatever the erases report and in whatever order the reads
    of a block complete (after the last was issued), [do_manufactory_init] returns 0
    and: the free list holds the blocks from 127 down to 1 that have at most 12 marked
    channels in every LUN, in that order and without block 0; the bad block page holds
    bit [ch] of word [blk, lun] exactly when [blk] is not 0 and the raw read of sector 3
    of that die has a byte other than 0xff at the mark; the meta page is flagged
    [POWER_DOWN_UNSAFE]; and 16 writes of the boot pages are in flight. *)
Theorem manufactory_init_spec E ns_id {A} (edev : nvme_ppa_command → gmap Z (gmap Z Z) → Z * A)
    dev raw order b m :
  env_good E →
  (∀ cmd page p, c_opcode cmd = NVM_OP_RDRAW → c_nlb cmd = CFG_NAND_PLANE_NUM - 1 →
    (∀ i, i ∈ for_each_pl → page !! i = Some (set_nand_pl i p)) → dev cmd page = raw p) →
  (∀ fl, order fl ≡ₚ fl) →
  heap_wf (p_heap (mp_ps m)) → sys_inv (mp_sys m) [] → bbt_issu_cnt m = 0 → bbt_cmpl_cnt m = 0 →
  (∀ b u c, blk_ok b → u ∈ for_each_lun → c ∈ for_each_ch → bad_bit (bmitbl (mp_sys m)) b u c = false) →
  ("bbtdata", 0) ∉ k_live (p_heap (mp_ps m)) → ("bbtmeta", 0) ∉ k_live (p_heap (mp_ps m)) →
  boot_meta_page_info b = init_meta →
  ∃ b' m' fl, do_manufactory_init E ns_id edev dev order b m = Ok (0, b', m', fl) ∧
    sys_inv (mp_sys m') (filter (λ b, b ≠ 0 ∧ good_blk raw b) for_each_blk_reverse) ∧
    (∀ blk lun ch, blk_ok blk → lun ∈ for_each_lun → ch ∈ for_each_ch →
       Z.testbit (page_bbt (boot_bbt_page_info b') blk lun) ch = bool_decide (blk ≠ 0) && marked raw blk lun ch) ∧
    meta_pdf (boot_meta_page_info b') = POWER_DOWN_UNSAFE ∧ length fl = 16%nat.
Proof.
  intros HE Hdev Hord Hw Hs Hi Hc H0 Hd Hm Hb. unfold do_manufactory_init.
  destruct (sweepup_ok E HE ns_id edev (mp_ps m) Hw) as (s1 & -> & Hw1 & Hl1). rewrite bind_Ok_l.
  destruct (bbt_discovery_ok E HE ns_id dev raw Hdev order Hord (mp_set_ps s1 m)) as (m2 & -> & Hw2 & Hl2 & Hs2 & Hb2);
    [done..|cbn; by rewrite Hl1|cbn; by rewrite Hl1|].
  rewrite bind_Ok_l. unfold bootblk_flush_bbt_page.
  destruct (copy_bbt_ok (bmitbl (mp_sys m2)) (boot_bbt_page_info b)) as (p & -> & _ & Hp).
  { intros blk Hblk. destruct (sys_dom _ _ Hs2 blk Hblk) as (e & He & _). by exists e. }
  rewrite bind_Ok_l, Hb, (next_bbt_pos_first init_meta) by done. rewrite bind_Ok_l. unfold bootblk_flush_duplicated.
  rewrite (decide_False (P := FSCFTL_BBTPG_WRITE = _)), (decide_True (P := FSCFTL_BBTPG_WRITE = _)) by done.
  match goal with |- context [mfor for_each_lun (flush_copy E ns_id ?c ?bf ?ps) (?st, [])] =>
    destruct (flush_loop_ok E HE ns_id c bf ps st Hw2) as (s3 & fl1 & -> & Hw3 & _ & Hall1) end.
  rewrite !bind_Ok_l. unfold bootblk_flush_meta_page. cbn [boot_meta_page_info boot_bbt_page_info].
  rewrite next_meta_pos_first by reflexivity. rewrite bind_Ok_l. unfold bootblk_flush_duplicated.
  rewrite (decide_True (P := FSCFTL_METAPG_WRITE = _)) by done.
  match goal with |- context [mfor for_each_lun (flush_copy E ns_id ?c ?bf ?ps) (s3, [])] =>
    destruct (flush_loop_ok E HE ns_id c bf ps s3 Hw3) as (s4 & fl2 & -> & Hw4 & _ & Hall2) end.
  rewrite !bind_Ok_l. do 3 eexists. split; [done|]. cbn [mp_sys mp_set_ps boot_bbt_page_info boot_meta_page_info].
  split; [done|]. split; [|split; [done|]].
  - intros blk lun ch Hblk Hlun Hch. rewrite (page_bit_bmi (bmitbl (mp_sys m2))); [by apply Hb2|].
    apply Hp; [|done]. apply elem_of_seqZ. unfold blk_ok in Hblk. lia.
  - rewrite length_app, <-(Forall2_length _ _ _ Hall1), <-(Forall2_length _ _ _ Hall2). done.
Qed.

Lemma fresh_bad_bit b u c : blk_ok b → bad_bit fresh_bmitbl b u c = false.
Proof.
  intros Hb. unfold bad_bit, bmi_bbt. rewrite fresh_bmitbl_lookup by done. cbn [bbt bmi_zero].
  rewrite lookup_empty. apply Z.testbit_0_l.
Qed.

Definition fresh_mcp : mcp := mk_mcp empty_pstate fresh_sysmeta 0 0 0 0 0.

(** A disk without marks, its reads completing in reverse order. *)
Lemma manufactory_init_spec_witness :
  ∃ b' m' fl, do_manufactory_init env_ok 1 (λ _ _, (0, tt)) (λ _ _ _, 255) (@reverse flight)
      (mk_boot (set_magic BOOTBLK_BBT_MDW ∅) init_meta) fresh_mcp = Ok (0, b', m', fl) ∧
    sys_inv (mp_sys m') (reverse (seqZ 1 127)).
Proof.
  destruct (manufactory_init_spec env_ok 1 (λ _ _, (0, tt)) (λ _ _ _, 255) (λ _ _, 255) (@reverse flight)
    (mk_boot (set_magic BOOTBLK_BBT_MDW ∅) init_meta) fresh_mcp) as (b' & m' & fl & Hrun & Hs & _).
  - exact env_ok_good.
  - reflexivity.
  - intros fl. apply reverse_Permutation.
  - apply empty_heap_wf.
  - exact fresh_sysmeta_inv.
  - reflexivity.
  - reflexivity.
  - intros b u c Hb _ _. apply fresh_bad_bit. exact Hb.
  - apply not_elem_of_empty.
  - apply not_elem_of_empty.
  - reflexivity.
  - exists b', m', fl. split; [exact Hrun|].
    assert (filter (λ b, b ≠ 0 ∧ good_blk (λ _ _, 255) b) for_each_blk_reverse = reverse (seqZ 1 127)) as Heq
      by (vm_compute; reflexivity).
    rewrite <-Heq. exact Hs.
Defined.

Lemma filter_single (P : Z → Prop) `{∀ x, Decision (P x)} l x :
  NoDup l → (∀ c, c ∈ l → P c → c = x) → (length (filter P l) ≤ 1)%nat.
Proof.
  intros Hnd Hx. change 1%nat with (length [x]). apply submseteq_length, NoDup_submseteq.
  - by apply NoDup_filter.
  - intros c [Hc Hin]%list_elem_of_filter. apply list_elem_of_singleton. by apply Hx.
Qed.

(** the scan of a block can be cut short.  The counter of issued reads is
    incremented per read, after the read is submitted, and the completion that makes the
    two counters equal wakes the scanner.  If the first read completes before the
    second is issued, the scanner is woken although 127 reads are outstanding, and the
    block is put on the free list whatever their dies would have answered. *)
Lemma bbt_scan_early_wakeup E ns_id dev raw blk databuf metadma m l :
  env_good E →
  (∀ cmd page p, c_opcode cmd = NVM_OP_RDRAW → c_nlb cmd = CFG_NAND_PLANE_NUM - 1 →
    (∀ i, i ∈ for_each_pl → page !! i = Some (set_nand_pl i p)) → dev cmd page = raw p) →
  heap_wf (p_heap (mp_ps m)) → sys_inv (mp_sys m) l → blk_ok blk → blk ∉ l →
  0 ≤ bbt_issu_cnt m < 2 ^ 20 → bbt_cmpl_cnt m = bbt_issu_cnt m → bbt_completion m = 0 →
  (∀ u c, u ∈ for_each_lun → c ∈ for_each_ch → bad_bit (bmitbl (mp_sys m)) blk u c = false) →
  ∃ m1 f m2 m3 rest m4 m5,
    issue_reads E ns_id (take 1 lun_ch_pairs) blk databuf metadma m = Ok (m1, [f]) ∧
    rdpparaw_completion (read_mem dev f (mp_ps m1)) f m1 = Ok m2 ∧
    issue_reads E ns_id (drop 1 lun_ch_pairs) blk databuf metadma m2 = Ok (m3, rest) ∧
    length rest = 127%nat ∧ wait_for_completion m3 = Ok m4 ∧
    rblk_bbt_check_available blk m4 = Ok m5 ∧ sys_inv (mp_sys m5) (l ++ [blk]).
Proof.
  intros HE Hdev Hw Hs Hb Hn Hi Hc Hd H0.
  destruct (issue_reads_ok E HE ns_id (take 1 lun_ch_pairs) blk databuf metadma m ltac:(vm_compute; lia) Hw ltac:(lia))
    as (m1 & fl & Hrun1 & Hw1 & Ho1 & Hall1 & Hs1 & Hi1 & Hc1 & Hd1).
  change (take 1 lun_ch_pairs) with [(0, 0)] in *. cbn [length] in Hi1.
  apply Forall2_cons_inv_l in Hall1 as (f & fl' & Hrf & Hnil & ->). apply Forall2_nil_inv_l in Hnil as ->.
  rewrite <-Hs1 in Hs. cbn [fst snd] in Hrf.
  destruct (rdpparaw_completion_ok E HE ns_id dev raw Hdev blk 0 0 f m1 l [] _ Hw1 Ho1 Hrf Hs Hb)
    as (m2 & Hrun2 & Hw2 & _ & _ & Hs2 & Hi2 & Hc2 & Hd2 & Hb2); [by left|by left|lia|].
  rewrite decide_True in Hd2 by lia.
  destruct (issue_reads_ok E HE ns_id (drop 1 lun_ch_pairs) blk databuf metadma m2 ltac:(vm_compute; lia) Hw2 ltac:(lia))
    as (m3 & rest & Hrun3 & _ & _ & Hall3 & Hs3 & _ & _ & Hd3).
  exists m1, f, m2, m3, rest, (mp_set_cnt (bbt_issu_cnt m3) (bbt_cmpl_cnt m3) (bbt_completion m3 - 1) m3).
  rewrite <-Hs3 in Hs2.
  destruct (check_available_ok (mp_set_cnt (bbt_issu_cnt m3) (bbt_cmpl_cnt m3) (bbt_completion m3 - 1) m3) l blk Hs2 Hb Hn)
    as (m5 & Hrun5 & _ & _ & _ & _ & Hs5 & _).
  exists m5. split; [done|]. split; [done|]. split; [done|]. split; [by rewrite <-(Forall2_length _ _ _ Hall3)|].
  split; [unfold wait_for_completion; by rewrite decide_True by lia|]. split; [done|].
  rewrite decide_True in Hs5; [done|]. unfold blk_usable. rewrite Forall_forall. intros u Hu.
  cbn [mp_sys mp_set_cnt]. rewrite Hs3.
  etransitivity; [apply (filter_single _ _ 0); [apply NoDup_seqZ|]|lia]. intros c Hcc Hbit.
  pose proof (Hb2 blk u c Hcc) as Hb2c. fold (bad_bit (bmitbl (mp_sys m2)) blk u c) in Hbit.
  rewrite Hbit, Hs1, H0, orb_false_r in Hb2c by done. symmetry in Hb2c.
  by apply bool_decide_eq_true in Hb2c as (_ & _ & -> & _).
Qed.

(** Every die but the first is bad, and the block is accepted. *)
Lemma bbt_scan_early_wakeup_witness :
  ∃ m1 f m2 m3 rest m4 m5,
    issue_reads env_ok 1 (take 1 lun_ch_pairs) 5 0 0 fresh_mcp = Ok (m1, [f]) ∧
    rdpparaw_completion (read_mem (λ _ _ _, 0) f (mp_ps m1)) f m1 = Ok m2 ∧
    issue_reads env_ok 1 (drop 1 lun_ch_pairs) 5 0 0 m2 = Ok (m3, rest) ∧
    length rest = 127%nat ∧ wait_for_completion m3 = Ok m4 ∧
    rblk_bbt_check_available 5 m4 = Ok m5 ∧ sys_inv (mp_sys m5) ([] ++ [5]).
Proof.
  apply (bbt_scan_early_wakeup env_ok 1 (λ _ _ _, 0) (λ _ _, 0) 5 0 0 fresh_mcp []).
  - exact env_ok_good.
  - reflexivity.
  - apply empty_heap_wf.
  - exact fresh_sysmeta_inv.
  - unfold blk_ok. cfg_lia.
  - apply not_elem_of_nil.
  - split; [cbn; lia|reflexivity].
  - reflexivity.
  - reflexivity.
  - intros u c _ _. apply fresh_bad_bit. unfold blk_ok. cfg_lia.
Defined.
