(* ===== verification/PowerCycle.v ===== *)
(** * Power cycles

    [build_recovery/power-cycle.c], [power.h] and [crash-recovery.c]: the boot pages when
    the driver is stopped and when it starts on a used disk.  (The part of
    [power-cycle.c] that puts tables into the write cache is in [SysFlush].) *)

From S2P Require Import Prelude NandCfg Fifo Kernel SysMeta PpaCmd BootBlk.

#[local] Open Scope Z_scope.

(** ** Boot pages across a power cycle *)

Section power.
Context (E : kenv) (ns_id : Z).

(** Nothing is rebuilt. *)
Definition rebuild_systbl (y : sysmeta) : Z * sysmeta := (0, y).
Definition crash_recovery (y : sysmeta) : Z * sysmeta := (0, y).

Definition flush_down_systbl (y : sysmeta) (b : boot) (s : pstate) : res (boot * pstate * list flight) :=
  '(b, s, fl1) ← bootblk_flush_bbt_page E ns_id (bmitbl y) b s;
  '(b, s, fl2) ← bootblk_flush_meta_page E ns_id POWER_DOWN_SAFE b s;
  Ok (b, s, fl1 ++ fl2).

Context (dev : nvme_ppa_command → gmap Z (gmap Z Z) → Z * portion).

(** [power_flag] is a local constant: the flag on the meta page is not looked at. *)
Definition try_recovery_systbl (y : sysmeta) (b : boot) (s : pstate)
    : res (Z * sysmeta * boot * pstate * list flight) :=
  let power_flag := POWER_DOWN_SAFE in
  '(result, b, s) ← bootblk_recovery_meta_page E ns_id dev b s;
  if decide (result ≠ 0) then Ok (1, y, b, s, []) else
  '(result, b, s) ← bootblk_recovery_bbt_page E ns_id dev b s;
  if decide (result ≠ 0) then Ok (1, y, b, s, []) else
  if decide (power_flag ≠ POWER_DOWN_SAFE ∧ power_flag ≠ POWER_DOWN_UNSAFE) then Ok (1, y, b, s, []) else
  let '(result, y) := if decide (power_flag = POWER_DOWN_SAFE) then rebuild_systbl y else crash_recovery y in
  '(b, s, fl1) ← bootblk_flush_bbt_page E ns_id (bmitbl y) b s;
  '(b, s, fl2) ← bootblk_flush_meta_page E ns_id POWER_DOWN_UNSAFE b s;
  Ok (result, y, b, s, fl1 ++ fl2).
End power.

(** ** The flash behind the boot pages *)

(** [flash ch pg lun] is what reading page [pg] of channel [ch] of LUN [lun] of the boot
    block answers; it holds for reads whose address list is one of the first [K] pages
    ever allocated. *)
Definition reads_flash (E : kenv) (ns_id : Z) (dev : nvme_ppa_command → gmap Z (gmap Z Z) → Z * portion)
    (flash : Z → Z → Z → Z * portion) (K : nat) : Prop :=
  ∀ ch pg k, 0 ≤ ch < 16 → 0 ≤ pg < 512 → (k < K)%nat → answers E ns_id dev ch pg (flash ch pg) k.

(** The first good copy of a boot page. *)
Definition flash_page (flash : Z → Z → Z → Z * portion) (cmdtype : cmd_type) (a : geo_ppa) : option portion :=
  (λ lun, (flash (nand_ch a) (nand_pg a) lun).2) <$>
    first_good (flash (nand_ch a) (nand_pg a)) cmdtype for_each_lun.

(** *** Reading asks for few allocations *)

Lemma kfree_calls o h h' : kfree o h = Ok h' → k_calls h' = k_calls h.
Proof. unfold kfree. case_decide; [|done]. by intros [= <-]. Qed.

Lemma page_free_calls i s s' : dma_pool_page_free i s = Ok s' → k_calls (p_heap s') = k_calls (p_heap s).
Proof.
  unfold dma_pool_page_free. intros (h & Hh & [= <-])%bind_Ok. by apply kfree_calls in Hh.
Qed.

Lemma page_zalloc_calls E s i d s' :
  dma_pool_page_zalloc E s = Ok (i, d, s') → k_calls (p_heap s') = S (k_calls (p_heap s)).
Proof. unfold dma_pool_page_zalloc, kalloc. destruct (alloc_ok E _); [|done]. by intros [= <- <- <-]. Qed.

Lemma submit_sync_calls {A} E (dev : nvme_ppa_command → gmap Z (gmap Z Z) → Z * A) c b l s r a s' :
  nvme_submit_ppa_cmd_sync E dev c b l s = Ok (r, a, s') → k_calls (p_heap s') = S (k_calls (p_heap s)).
Proof.
  unfold nvme_submit_ppa_cmd_sync, nvme_alloc_request.
  repeat case_decide; try done; try (by intros [= <- <- <-]);
    repeat (match goal with |- context [let '(_, _) := ?x in _] => destruct x end);
    intros (h & Hh & [= <- <- <-])%bind_Ok; unfold blk_mq_free_request in Hh;
    by apply kfree_calls in Hh.
Qed.

Lemma pool_write_calls i k v s s' : pool_write i k v s = Ok s' → k_calls (p_heap s') = k_calls (p_heap s).
Proof.
  unfold pool_write. intros (pg & _ & H)%bind_Ok. apply bind_Ok in H as (pg' & _ & H). by injection H as <-.
Qed.

Lemma mfor_calls {A} (f : A → pstate → res pstate) l :
  (∀ a s s', f a s = Ok s' → k_calls (p_heap s') = k_calls (p_heap s)) →
  ∀ s s', mfor l f s = Ok s' → k_calls (p_heap s') = k_calls (p_heap s).
Proof.
  intros Hf. induction l as [|a l IH]; intros s s'; cbn [mfor]; [by intros [= <-]|].
  intros (s1 & H1 & H2)%bind_Ok. by rewrite (IH _ _ H2), (Hf _ _ _ H1).
Qed.

Lemma fill_boot_calls id ch pg lun s s' :
  fill_boot_ppalist id ch pg lun s = Ok s' → k_calls (p_heap s') = k_calls (p_heap s).
Proof.
  apply mfor_calls. intros i s1 s2 (p & _ & H)%bind_Ok. by apply pool_write_calls in H.
Qed.

Lemma mirror_loop_calls E ns_id dev luns c ch pg l md pd : ∀ buf s r buf' s',
  mirror_loop E ns_id dev luns c ch pg l md pd buf s = Ok (r, buf', s') →
  (k_calls (p_heap s') ≤ k_calls (p_heap s) + length luns)%nat.
Proof.
  induction luns as [|lun luns IH]; intros buf s r buf' s'; cbn [mirror_loop length].
  { intros [= <- <- <-]. lia. }
  intros (s1 & H1 & H)%bind_Ok. apply fill_boot_calls in H1. cbn [p_heap] in H1.
  apply bind_Ok in H as ([[st a] s2] & H2 & H). apply submit_sync_calls in H2.
  assert ((k_calls (p_heap s2) ≤ S (k_calls (p_heap s)))%nat) by lia.
  case_decide; [destruct (bootblk_page_mdw_check _ _)|]; [injection H as <- <- <-; lia|apply IH in H; lia..].
Qed.

Lemma get_mirror_calls E ns_id dev c buf a s r buf' s' :
  bootblk_get_mirror E ns_id dev c buf a s = Ok (r, buf', s') →
  (k_calls (p_heap s') ≤ k_calls (p_heap s) + 11)%nat.
Proof.
  unfold bootblk_get_mirror, kalloc. destruct (alloc_ok E _); cbn [negb].
  2: { intros [= <- <- <-]. cbn. lia. }
  intros ([[l pd] s1] & H1%page_zalloc_calls & H)%bind_Ok.
  apply bind_Ok in H as ([[m md] s2] & H2%page_zalloc_calls & H).
  apply bind_Ok in H as ([[lun b] s3] & H3%mirror_loop_calls & H).
  apply bind_Ok in H as (s4 & H4%page_free_calls & H).
  apply bind_Ok in H as (s5 & H5%page_free_calls & H).
  apply bind_Ok in H as (h & H6%kfree_calls & H). injection H as <- <- <-. cbn [p_heap k_calls] in *.
  change (length for_each_lun) with 8%nat in H3. lia.
Qed.

Lemma recovery_meta_calls E ns_id dev b s r b' s' :
  bootblk_recovery_meta_page E ns_id dev b s = Ok (r, b', s') →
  (k_calls (p_heap s') ≤ k_calls (p_heap s) + 12)%nat.
Proof.
  unfold bootblk_recovery_meta_page, kalloc. destruct (alloc_ok E _); cbn [negb].
  2: { intros [= <- <- <-]. cbn. lia. }
  intros ([[r1 d] s1] & H1%get_mirror_calls & H)%bind_Ok.
  apply bind_Ok in H as (h & H2%kfree_calls & H). injection H as <- <- <-. cbn [p_heap k_calls] in *. lia.
Qed.

(** ** Positions, from whatever the page holds *)

Definition next_page (ch0 : Z) (cur : geo_ppa) : geo_ppa :=
  if decide (cur = INVALID_PAGE) then boot_pos ch0 0 else set_nand_pg ((nand_pg cur + 1) mod 512) cur.

Lemma next_meta_pos_any m :
  bootblk_get_next_meta_pos m =
    let pos := next_page (meta_ch_iter m 0) (meta_page_address m) in Ok (pos, set_meta_page_address pos m).
Proof.
  unfold bootblk_get_next_meta_pos, bootblk_get_meta_pos, next_page.
  case_decide; [done|]. by rewrite incre_pg_run.
Qed.

Lemma next_bbt_pos_any m :
  bootblk_get_next_bbt_pos m =
    let pos := next_page (bbt_ch_iter m 0) (bbt_page_address m) in Ok (pos, set_bbt_page_address pos m).
Proof.
  unfold bootblk_get_next_bbt_pos, bootblk_get_bbt_pos, next_page.
  case_decide; [done|]. by rewrite incre_pg_run.
Qed.

Section flushes.
Context (E : kenv) (HE : env_good E) (ns_id : Z).
#[local] Set Default Proof Using "All".

(** The copies of a boot page that a flush starts. *)
Definition copies (s : pstate) (pos : geo_ppa) (buf : obj) (fl : list flight) : Prop :=
  Forall2 (λ lun f, copy_write E s (nand_ch pos) (nand_pg pos) lun (Some buf) f) for_each_lun fl.

Lemma flush_meta_ok flag b s :
  heap_wf (p_heap s) →
  let m := boot_meta_page_info b in
  let pos := next_page (meta_ch_iter m 0) (meta_page_address m) in
  ∃ s' fl, bootblk_flush_meta_page E ns_id flag b s =
      Ok (mk_boot (boot_bbt_page_info b) (set_meta_page_address pos (set_meta_pdf flag m)), s', fl) ∧
    heap_wf (p_heap s') ∧ owns (p_heap s') (flights_objs fl) (k_live (p_heap s)) ∧
    copies s' pos bootmeta fl.
Proof.
  intros Hw m pos. unfold bootblk_flush_meta_page. rewrite next_meta_pos_any. cbv zeta.
  assert (meta_ch_iter (set_meta_pdf flag m) 0 = meta_ch_iter m 0) as Hi.
  { unfold meta_ch_iter, pword, set_meta_pdf. by rewrite lookup_insert_ne by lia. }
  assert (meta_page_address (set_meta_pdf flag m) = meta_page_address m) as Ha.
  { unfold meta_page_address, pword, set_meta_pdf. by rewrite lookup_insert_ne by lia. }
  fold m. rewrite Hi, Ha, bind_Ok_l. fold pos. unfold bootblk_flush_duplicated. rewrite decide_True by done.
  destruct (flush_loop_ok E HE ns_id FSCFTL_METAPG_WRITE (Some bootmeta) pos s Hw) as (s' & fl & -> & ? & ? & ?).
  rewrite bind_Ok_l. by exists s', fl.
Qed.

Lemma flush_bbt_ok t b s :
  heap_wf (p_heap s) → (∀ blk, blk_ok blk → is_Some (t !! blk)) →
  let m := boot_meta_page_info b in
  let pos := next_page (bbt_ch_iter m 0) (bbt_page_address m) in
  ∃ p s' fl, bootblk_flush_bbt_page E ns_id t b s = Ok (mk_boot p (set_bbt_page_address pos m), s', fl) ∧
    heap_wf (p_heap s') ∧ owns (p_heap s') (flights_objs fl) (k_live (p_heap s)) ∧
    copies s' pos bootbbt fl ∧
    (∀ blk lun, blk ∈ for_each_blk → lun ∈ for_each_lun → page_bbt p blk lun = bmi_bbt t blk lun).
Proof.
  intros Hw Ht m pos. unfold bootblk_flush_bbt_page.
  destruct (copy_bbt_ok t (boot_bbt_page_info b) Ht) as (p & -> & _ & Hp). rewrite bind_Ok_l.
  rewrite next_bbt_pos_any. cbv zeta. fold m. fold pos. rewrite bind_Ok_l.
  unfold bootblk_flush_duplicated. rewrite (decide_False (P := _ = FSCFTL_METAPG_WRITE)), decide_True by done.
  destruct (flush_loop_ok E HE ns_id FSCFTL_BBTPG_WRITE (Some bootbbt) pos s Hw) as (s' & fl & -> & ? & ? & ?).
  rewrite bind_Ok_l. by exists p, s', fl.
Qed.

(** Both boot pages, as [flush_down_systbl] and [try_recovery_systbl] write them. *)
Record both_flushed (t : gmap Z bmi_item) (flag : Z) (m : gmap Z Z) (s : pstate)
    (b' : boot) (s' : pstate) (fl1 fl2 : list flight) : Prop := {
  bf_pdf : meta_pdf (boot_meta_page_info b') = flag;
  bf_meta : meta_page_address (boot_meta_page_info b') = next_page (meta_ch_iter m 0) (meta_page_address m);
  bf_bbt : bbt_page_address (boot_meta_page_info b') = next_page (bbt_ch_iter m 0) (bbt_page_address m);
  bf_iter : meta_ch_iter (boot_meta_page_info b') 0 = meta_ch_iter m 0 ∧
            bbt_ch_iter (boot_meta_page_info b') 0 = bbt_ch_iter m 0;
  bf_table : ∀ blk lun, blk ∈ for_each_blk → lun ∈ for_each_lun →
      page_bbt (boot_bbt_page_info b') blk lun = bmi_bbt t blk lun;
  bf_copies1 : ∃ s1, copies s1 (bbt_page_address (boot_meta_page_info b')) bootbbt fl1;
  bf_copies2 : copies s' (meta_page_address (boot_meta_page_info b')) bootmeta fl2;
  bf_heap : heap_wf (p_heap s') ∧ owns (p_heap s') (flights_objs (fl1 ++ fl2)) (k_live (p_heap s));
}.

Lemma flush_both_ok t flag b s :
  heap_wf (p_heap s) → (∀ blk, blk_ok blk → is_Some (t !! blk)) →
  ∃ b1 s1 fl1 b' s' fl2, bootblk_flush_bbt_page E ns_id t b s = Ok (b1, s1, fl1) ∧
    bootblk_flush_meta_page E ns_id flag b1 s1 = Ok (b', s', fl2) ∧
    both_flushed t flag (boot_meta_page_info b) s b' s' fl1 fl2.
Proof.
  intros Hw Ht. destruct (flush_bbt_ok t b s Hw Ht) as (p & s1 & fl1 & H1 & Hw1 & Ho1 & Hc1 & Hp).
  set (m := boot_meta_page_info b) in *. set (pb := next_page (bbt_ch_iter m 0) (bbt_page_address m)) in *.
  destruct (flush_meta_ok flag (mk_boot p (set_bbt_page_address pb m)) s1 Hw1) as (s' & fl2 & H2 & Hw2 & Ho2 & Hc2).
  cbn [boot_meta_page_info boot_bbt_page_info] in *.
  assert (meta_ch_iter (set_bbt_page_address pb m) 0 = meta_ch_iter m 0) as Hi.
  { unfold meta_ch_iter, pword, set_bbt_page_address. by rewrite lookup_insert_ne by lia. }
  assert (meta_page_address (set_bbt_page_address pb m) = meta_page_address m) as Ha.
  { unfold meta_page_address, pword, set_bbt_page_address. by rewrite lookup_insert_ne by lia. }
  rewrite Hi, Ha in *. set (pm := next_page (meta_ch_iter m 0) (meta_page_address m)) in *.
  do 6 eexists. split; [exact H1|]. split; [exact H2|].
  unfold set_meta_page_address, set_meta_pdf, set_bbt_page_address in *.
  constructor; cbn [boot_meta_page_info boot_bbt_page_info];
    unfold meta_pdf, meta_page_address, bbt_page_address, meta_ch_iter, bbt_ch_iter, pword;
    rewrite ?lookup_insert_eq, ?lookup_insert_ne, ?lookup_insert_eq by lia; cbn [default from_option id]; try done.
  - by exists s1.
  - split; [done|]. constructor.
    + rewrite (ow_live _ _ _ Ho2), (ow_live _ _ _ Ho1). unfold flights_objs.
      rewrite fmap_app, join_app, list_to_set_app_L. set_solver.
    + unfold flights_objs. rewrite fmap_app, join_app. apply NoDup_app.
      split; [exact (ow_nodup _ _ _ Ho1)|]. split; [|exact (ow_nodup _ _ _ Ho2)].
      intros o Ho Ho'. apply (ow_fresh _ _ _ Ho2 o Ho'). rewrite (ow_live _ _ _ Ho1), elem_of_union, elem_of_list_to_set. by left.
    + intros o. unfold flights_objs. rewrite fmap_app, join_app, elem_of_app. intros [Ho|Ho].
      * exact (ow_fresh _ _ _ Ho1 o Ho).
      * intros Hl. apply (ow_fresh _ _ _ Ho2 o Ho). rewrite (ow_live _ _ _ Ho1), elem_of_union. by right.
Qed.
End flushes.

(** ** Starting from a used disk *)

Lemma flash_page_good flash c a :
  match flash_page flash c a with
  | Some p => mirror_ret (first_good (flash (nand_ch a) (nand_pg a)) c for_each_lun) = 0 ∧
      buffer_after (flash (nand_ch a) (nand_pg a)) c for_each_lun ∅ = p
  | None => mirror_ret (first_good (flash (nand_ch a) (nand_pg a)) c for_each_lun) = -1
  end.
Proof. unfold flash_page, buffer_after. by destruct (first_good _ _ _) as [lun|]. Qed.

Lemma nand_ch_pg_range a : 0 ≤ nand_ch a < 16 ∧ 0 ≤ nand_pg a < 512.
Proof. split; apply get_bits_range; lia. Qed.

Section recover.
Context (E : kenv) (HE : env_good E) (ns_id : Z).
Context (dev : nvme_ppa_command → gmap Z (gmap Z Z) → Z * portion) (flash : Z → Z → Z → Z * portion).
#[local] Set Default Proof Using "All".

(** The two reads of the recovery. *)
Lemma recovery_reads_ok b s :
  let a := binary_search_meta_page (boot_meta_page_info b) in
  reads_flash E ns_id dev flash (k_calls (p_heap s) + 15) →
  heap_wf (p_heap s) → ("bootbuf", 0) ∉ k_live (p_heap s) →
  match flash_page flash FSCFTL_METAPG_READ a with
  | None => ∃ b1 s1, bootblk_recovery_meta_page E ns_id dev b s = Ok (-1, b1, s1) ∧
      k_live (p_heap s1) = k_live (p_heap s)
  | Some m => ∃ s1, bootblk_recovery_meta_page E ns_id dev b s = Ok (0, mk_boot (boot_bbt_page_info b) m, s1) ∧
      ∃ r p s2, bootblk_recovery_bbt_page E ns_id dev (mk_boot (boot_bbt_page_info b) m) s1 = Ok (r, mk_boot p m, s2) ∧
        heap_wf (p_heap s2) ∧ k_live (p_heap s2) = k_live (p_heap s) ∧
        match flash_page flash FSCFTL_BBTPG_READ (bbt_page_address m) with
        | None => r = -1
        | Some p' => r = 0 ∧ p = p'
        end
  end.
Proof.
  intros a Hdev Hw Hf. destruct (nand_ch_pg_range a) as [Hch Hpg].
  destruct (recovery_meta_ok E HE ns_id dev (flash (nand_ch a) (nand_pg a)) b s) as (s1 & Hrun & Hw1 & Hl1);
    [apply Hdev; [done..|lia]|done|done|].
  pose proof (recovery_meta_calls _ _ _ _ _ _ _ _ Hrun) as Hc. fold a in Hrun.
  pose proof (flash_page_good flash FSCFTL_METAPG_READ a) as Hp.
  destruct (flash_page flash FSCFTL_METAPG_READ a) as [m|].
  - destruct Hp as [Hr Hb]. rewrite Hr, Hb in Hrun. exists s1. split; [exact Hrun|].
    destruct (nand_ch_pg_range (bbt_page_address m)) as [Hch2 Hpg2].
    destruct (recovery_bbt_ok E HE ns_id dev (flash (nand_ch (bbt_page_address m)) (nand_pg (bbt_page_address m)))
      (mk_boot (boot_bbt_page_info b) m) s1) as (s2 & Hrun2 & Hw2 & Hl2);
      [apply Hdev; [done..|lia]|done|by rewrite Hl1|].
    do 3 eexists. split; [exact Hrun2|]. split; [done|]. split; [congruence|].
    pose proof (flash_page_good flash FSCFTL_BBTPG_READ (bbt_page_address m)) as Hp.
    destruct (flash_page flash FSCFTL_BBTPG_READ (bbt_page_address m)); [|exact Hp].
    destruct Hp as [Hr2 Hb2]. by split.
  - rewrite Hp in Hrun. do 2 eexists. split; [exact Hrun|done].
Qed.

Lemma try_recovery_ok y b s :
  let a := binary_search_meta_page (boot_meta_page_info b) in
  reads_flash E ns_id dev flash (k_calls (p_heap s) + 15) →
  heap_wf (p_heap s) → ("bootbuf", 0) ∉ k_live (p_heap s) →
  (∀ blk, blk_ok blk → is_Some (bmitbl y !! blk)) →
  match (m ← flash_page flash FSCFTL_METAPG_READ a;
         p ← flash_page flash FSCFTL_BBTPG_READ (bbt_page_address m); Some m) with
  | None => ∃ b1 s1, try_recovery_systbl E ns_id dev y b s = Ok (1, y, b1, s1, []) ∧
      k_live (p_heap s1) = k_live (p_heap s)
  | Some m => ∃ b1 s1 fl1 fl2, try_recovery_systbl E ns_id dev y b s = Ok (0, y, b1, s1, fl1 ++ fl2) ∧
      both_flushed E (bmitbl y) POWER_DOWN_UNSAFE m s b1 s1 fl1 fl2
  end.
Proof.
  intros a Hdev Hw Hf Ht. pose proof (recovery_reads_ok b s Hdev Hw Hf) as H. fold a in H.
  destruct (flash_page flash FSCFTL_METAPG_READ a) as [m|]; cbn [mbind option_bind].
  - destruct H as (s1 & H1 & r & p & s2 & H2 & Hw2 & Hl2 & Hr).
    unfold try_recovery_systbl. rewrite H1, bind_Ok_l. cbn [decide]. rewrite decide_False, H2, bind_Ok_l by lia.
    destruct (flash_page flash FSCFTL_BBTPG_READ (bbt_page_address m)) as [p'|]; cbn [mbind option_bind].
    + destruct Hr as [-> ->]. rewrite !decide_False by (by vm_compute; intuition). rewrite decide_True by done.
      cbn [rebuild_systbl].
      destruct (flush_both_ok E HE ns_id (bmitbl y) POWER_DOWN_UNSAFE (mk_boot p' m) s2 Hw2 Ht)
        as (b1 & s3 & fl1 & b' & s' & fl2 & -> & Hm & Hbf).
      rewrite bind_Ok_l, Hm, bind_Ok_l. exists b', s', fl1, fl2. split; [done|].
      destruct Hbf. constructor; try done. by rewrite <-Hl2.
    + subst r. rewrite decide_True by done. by do 2 eexists.
  - destruct H as (b1 & s1 & H1 & Hl1). unfold try_recovery_systbl. rewrite H1, bind_Ok_l, decide_True by done.
    by do 2 eexists.
Qed.
End recover.

(** C34: starting from a used disk.  When one LUN has a good copy of page 1 of the meta
    channel, and one of the bad block page it points to, the recovery returns 0: both
    boot pages are written to the page after the one recorded on the meta page read, the
    meta page flagged [POWER_DOWN_UNSAFE] whatever its flag was, and the bad block
    words written are those of the block table in memory, not those read.  Otherwise it
    returns 1 and writes nothing.  In all cases the tables are the ones before. *)
Theorem try_recovery_systbl_spec E ns_id dev flash y b s :
  env_good E → reads_flash E ns_id dev flash (k_calls (p_heap s) + 15) →
  heap_wf (p_heap s) → ("bootbuf", 0) ∉ k_live (p_heap s) →
  (∀ blk, blk_ok blk → is_Some (bmitbl y !! blk)) →
  let found := m ← flash_page flash FSCFTL_METAPG_READ (binary_search_meta_page (boot_meta_page_info b));
               p ← flash_page flash FSCFTL_BBTPG_READ (bbt_page_address m); Some m in
  match found with
  | Some m => ∃ b1 s1 fl1 fl2, try_recovery_systbl E ns_id dev y b s = Ok (0, y, b1, s1, fl1 ++ fl2) ∧
      both_flushed E (bmitbl y) POWER_DOWN_UNSAFE m s b1 s1 fl1 fl2
  | None => ∃ b1 s1, try_recovery_systbl E ns_id dev y b s = Ok (1, y, b1, s1, []) ∧
      k_live (p_heap s1) = k_live (p_heap s)
  end.
Proof. intros HE Hdev Hw Hf Ht. by apply try_recovery_ok. Qed.

(** a later power cycle programs the pages of the one before again.  Once page 1 of
    the meta channel has been written (by the first stop of the driver), every start
    reads that page, writes page 2, and the next stop writes page 3, whatever was
    written to these pages since: nothing is erased and page 1 is never replaced. *)
Lemma power_cycle_rewrites E ns_id dev flash y bbt s m :
  env_good E → reads_flash E ns_id dev flash (k_calls (p_heap s) + 15) →
  heap_wf (p_heap s) → ("bootbuf", 0) ∉ k_live (p_heap s) →
  (∀ blk, blk_ok blk → is_Some (bmitbl y !! blk)) →
  flash_page flash FSCFTL_METAPG_READ (boot_pos 4 1) = Some m →
  is_Some (flash_page flash FSCFTL_BBTPG_READ (bbt_page_address m)) →
  meta_page_address m = boot_pos 4 1 →
  ∃ b1 s1 fl b2 s2 fl', try_recovery_systbl E ns_id dev y (mk_boot bbt init_meta) s = Ok (0, y, b1, s1, fl) ∧
    meta_page_address (boot_meta_page_info b1) = boot_pos 4 2 ∧
    meta_pdf (boot_meta_page_info b1) = POWER_DOWN_UNSAFE ∧
    flush_down_systbl E ns_id y b1 s1 = Ok (b2, s2, fl') ∧
    meta_page_address (boot_meta_page_info b2) = boot_pos 4 3 ∧
    meta_pdf (boot_meta_page_info b2) = POWER_DOWN_SAFE.
Proof.
  intros HE Hdev Hw Hf Ht Hm [p Hp] Ha.
  pose proof (try_recovery_ok E HE ns_id dev flash y (mk_boot bbt init_meta) s Hdev Hw Hf Ht) as H.
  change (binary_search_meta_page _) with (boot_pos 4 1) in H. rewrite Hm in H. cbn [mbind option_bind] in H.
  rewrite Hp in H. cbn [mbind option_bind] in H. destruct H as (b1 & s1 & fl1 & fl2 & Hrun & [Hf1 Hf2 _ _ _ _ _ [Hw1 _]]).
  destruct (flush_both_ok E HE ns_id (bmitbl y) POWER_DOWN_SAFE b1 s1 Hw1 Ht)
    as (b0 & s0 & fl3 & b2 & s2 & fl4 & H1 & H2 & [Hg1 Hg2 _ _ _ _ _ _]).
  rewrite Ha in Hf2. change (next_page _ _) with (boot_pos 4 2) in Hf2.
  rewrite Hf2 in Hg2. change (next_page _ _) with (boot_pos 4 3) in Hg2.
  exists b1, s1, (fl1 ++ fl2), b2, s2, (fl3 ++ fl4). split; [done|]. split; [done|]. split; [done|].
  unfold flush_down_systbl. by rewrite H1, bind_Ok_l, H2, bind_Ok_l.
Qed.

(** *** A concrete disk *)

(** The read device over [flash], for the addresses of [env_ok]. *)
Definition flash_dev (flash : Z → Z → Z → Z * portion) : nvme_ppa_command → gmap Z (gmap Z Z) → Z * portion :=
  λ c pool, let a := pword (default ∅ (pool !! ((c_ppalist c - 0x100000) / 4096))) 0 in
            flash (nand_ch a) (nand_pg a) (nand_lun a).

Lemma flash_dev_reads ns_id flash : reads_flash env_ok ns_id (flash_dev flash) flash 100.
Proof.
  intros ch pg k Hch Hpg Hk lun meta pool page Hlun Hpool Hlist. unfold flash_dev.
  change (c_ppalist _) with (u64 (dma_addr env_ok k)).
  rewrite u64_small by apply env_ok_dma. cbn [dma_addr env_ok]. rewrite Z.mod_small by lia.
  replace ((1048576 + 4096 * Z.of_nat k - 1048576) / 4096) with (Z.of_nat k)
    by (replace (1048576 + 4096 * Z.of_nat k - 1048576) with (Z.of_nat k * 4096) by lia; by rewrite Z.div_mul by lia).
  rewrite Hpool. cbn [default from_option id].
  pose proof (Hlist 0%nat (set_ppa_nand_addr ch 0 0 lun pg 0) eq_refl) as Hp.
  change (Z.of_nat 0) with 0 in Hp. unfold pword. rewrite Hp. cbn [default from_option id].
  apply elem_of_seqZ in Hlun. rewrite Z.add_0_l in Hlun. change CFG_NAND_LUN_NUM with 8 in Hlun.
  destruct (set_ppa_nand_addr_fields ch 0 0 lun pg 0) as (-> & _ & _ & -> & -> & _); [|done].
  unfold geo_fields_ok. lia.
Qed.

(** The pages after the first stop: good in LUN 3 only. *)
Definition demo_meta : portion := set_meta_page_address (boot_pos 4 1) (set_bbt_page_address (boot_pos 0 1) init_meta).
Definition demo_flash (ch pg lun : Z) : Z * portion :=
  if decide (lun ≠ 3) then (1, ∅)
  else if decide (ch = 4 ∧ pg = 1) then (0, demo_meta)
  else if decide (ch = 0 ∧ pg = 1) then (0, set_magic BOOTBLK_BBT_MDW ∅) else (0, ∅).

Lemma fresh_tables_present blk : blk_ok blk → is_Some (bmitbl fresh_sysmeta !! blk).
Proof. intros Hb. change (bmitbl fresh_sysmeta) with fresh_bmitbl. rewrite fresh_bmitbl_lookup by done. by eexists. Qed.

Lemma try_recovery_systbl_spec_witness :
  ∃ b1 s1 fl1 fl2, try_recovery_systbl env_ok 1 (flash_dev demo_flash) fresh_sysmeta (mk_boot ∅ init_meta) empty_pstate
      = Ok (0, fresh_sysmeta, b1, s1, fl1 ++ fl2) ∧
    both_flushed env_ok (bmitbl fresh_sysmeta) POWER_DOWN_UNSAFE demo_meta empty_pstate b1 s1 fl1 fl2.
Proof.
  apply (try_recovery_systbl_spec env_ok 1 (flash_dev demo_flash) demo_flash fresh_sysmeta (mk_boot ∅ init_meta) empty_pstate).
  - exact env_ok_good.
  - intros ch pg k Hch Hpg Hk. apply flash_dev_reads; [exact Hch|exact Hpg|].
    apply Nat.lt_le_trans with (1 := Hk). vm_compute. lia.
  - apply empty_heap_wf.
  - apply not_elem_of_empty.
  - exact fresh_tables_present.
Defined.

Lemma power_cycle_rewrites_witness :
  ∃ b1 s1 fl, try_recovery_systbl env_ok 1 (flash_dev demo_flash) fresh_sysmeta (mk_boot ∅ init_meta) empty_pstate
      = Ok (0, fresh_sysmeta, b1, s1, fl) ∧ meta_page_address (boot_meta_page_info b1) = boot_pos 4 2.
Proof.
  destruct (power_cycle_rewrites env_ok 1 (flash_dev demo_flash) demo_flash fresh_sysmeta ∅ empty_pstate demo_meta)
    as (b1 & s1 & fl & b2 & s2 & fl' & Hrun & Hpos & _).
  - exact env_ok_good.
  - intros ch pg k Hch Hpg Hk. apply flash_dev_reads; [exact Hch|exact Hpg|].
    apply Nat.lt_le_trans with (1 := Hk). vm_compute. lia.
  - apply empty_heap_wf.
  - apply not_elem_of_empty.
  - exact fresh_tables_present.
  - vm_compute. reflexivity.
  - vm_compute. eexists. reflexivity.
  - reflexivity.
  - exists b1, s1, fl. split; [exact Hrun|exact Hpos].
Defined.
