(* ===== verification/Backend.v ===== *)
(** * User commands

    [backend/be-cdev.c]: the character device through which a program in user space sends
    PPA commands.  User memory, the mapping of user buffers, and the block device are the
    kernel's and are parameters. *)

From S2P Require Import Prelude NandCfg Kernel PpaCmd.

#[local] Open Scope Z_scope.

(** ** The interface *)

(** [struct nvme_user_io], as far as the driver reads it. *)
Record nvme_user_io : Type := mk_vio {
  vio_opcode : Z;
  vio_flags : Z;
  vio_control : Z;
  vio_nblocks : Z;
  vio_metadata : Z;
  vio_addr : Z;
  vio_slba : Z;
  vio_dsmgmt : Z;
}.

(** [_IOW('M', nr, struct nvme_user_io)], a structure of 48 bytes. *)
Definition ioctl_iow_vio (nr : Z) : Z :=
  Z.lor (Z.lor (Z.shiftl 1 30) (Z.shiftl 48 16)) (Z.lor (Z.shiftl 0x4d 8) nr).

Definition FSCFTL_IOCTL_SMOKE_TEST : Z := ioctl_iow_vio 0x3d.
Definition FSCFTL_IOCTL_USER_PPA_CMD : Z := ioctl_iow_vio 0x90.

(** The kernel side of user memory. *)
Record uenv : Type := mk_uenv {
  u_words : Z → Z → option (list Z);    (** [copy_from_user] of [n] words of 64 bits *)
  u_vio : Z → option nvme_user_io;      (** [copy_from_user] of a [nvme_user_io] *)
  u_map_err : Z → Z → Z;                (** [blk_rq_map_user] of a buffer: 0 or an error *)
  u_disk : bool;                        (** the namespace has a disk *)
  u_bdget : bool;                       (** [bdget_disk] finds its block device *)
}.

Definition ppa_cmd_set_ppalist (v : Z) (c : nvme_ppa_command) : nvme_ppa_command :=
  mk_ppa_command (c_opcode c) (c_flags c) (c_command_id c) (c_nsid c) (c_rsvd2 c) (c_metadata c)
    (c_prp1 c) (c_prp2 c) v (c_nlb c) (c_control c) (c_dsmgmt c) (c_resv c).
Definition ppa_cmd_set_metadata (v : Z) (c : nvme_ppa_command) : nvme_ppa_command :=
  mk_ppa_command (c_opcode c) (c_flags c) (c_command_id c) (c_nsid c) (c_rsvd2 c) v
    (c_prp1 c) (c_prp2 c) (c_ppalist c) (c_nlb c) (c_control c) (c_dsmgmt c) (c_resv c).

Definition nvme_is_write (c : nvme_ppa_command) : bool := Z.odd (c_opcode c).

(** [copy_from_user] into a page of the DMA pool, which has room for [POOL_WORDS]. *)
Definition store_words (l : Z) (ws : list Z) (s : pstate) : res pstate :=
  mfor (zip (seqZ 0 (Z.of_nat (length ws))) ws) (λ '(i, v), pool_write l i v) s.

(** The commands the device ran, with the memory it saw. *)
Notation trace := (list (nvme_ppa_command * gmap Z (gmap Z Z))).

Section backend.
Context (E : kenv) (U : uenv) (ns_id : Z).
(** The status the device completes a command with. *)
Context (dev : nvme_ppa_command → gmap Z (gmap Z Z) → Z).

(** ** [handle_user_ppa_cmd]

    The labels of its clean-up, from the inside out; each stage returns the local
    [status], which only [submit] sets. *)

(** [submit] up to [err_meta].  [copy_to_user] reads [meta_len] bytes of the page. *)
Definition user_submit (cmd : nvme_ppa_command) (metadata : option Z) (meta_len : Z) (s : pstate)
    : res (Z * trace * pstate) :=
  let status := dev cmd (p_pool s) in
  match metadata with
  | Some _ => if decide (nvme_is_write cmd = false ∧ PAGE_SIZE < meta_len) then Fault F_OOB
              else Ok (status, [(cmd, p_pool s)], s)
  | None => Ok (status, [(cmd, p_pool s)], s)
  end.

(** [bdget_disk] and its release; [k] is what happens in between. *)
Definition with_bdev (ubio : Z) (k : pstate → res (Z * trace * pstate)) (s : pstate)
    : res (Z * trace * pstate) :=
  if negb (u_disk U) then k s
  else if negb (u_bdget U) then Ok (0, [], s)
  else
    let h := mk_kheap (k_calls (p_heap s)) ({[("bdevref", ubio)]} ∪ k_live (p_heap s)) in
    '(st, tr, s) ← k (mk_pstate h (p_pool s));
    h ← kfree ("bdevref", ubio) (p_heap s);
    Ok (st, tr, mk_pstate h (p_pool s)).

(** The metadata page: allocated, filled for a write, and released at [err_meta]. *)
Definition with_metadata (cmd : nvme_ppa_command) (meta_buf meta_len : Z)
    (k : nvme_ppa_command → option Z → pstate → res (Z * trace * pstate)) (s : pstate)
    : res (Z * trace * pstate) :=
  if decide (meta_buf ≠ 0 ∧ meta_len ≠ 0) then
    '(m, mdma, s) ← dma_pool_page_zalloc E s;
    '(st, tr, s) ←
      (if nvme_is_write cmd then
         match u_words U meta_buf (meta_len / 8) with
         | None => Ok (0, [], s)
         | Some ws => s ← store_words m ws s; k (ppa_cmd_set_metadata (u64 mdma) cmd) (Some m) s
         end
       else k (ppa_cmd_set_metadata (u64 mdma) cmd) (Some m) s);
    s ← dma_pool_page_free m s;
    Ok (st, tr, s)
  else k cmd None s.

(** The user buffer, mapped into the request and unmapped at [err_map].  Without one, the
    clean-up at [err_meta] releases a metadata page that was never allocated. *)
Definition with_ubuf (cmd : nvme_ppa_command) (ubuf bufflen meta_buf meta_len rq : Z) (s : pstate)
    : res (Z * trace * pstate) :=
  if decide (ubuf ≠ 0 ∧ bufflen ≠ 0) then
    if decide (u_map_err U ubuf bufflen ≠ 0) then Ok (0, [], s) else
    let h := mk_kheap (k_calls (p_heap s)) ({[("ubio", rq)]} ∪ k_live (p_heap s)) in
    '(st, tr, s) ← with_metadata cmd meta_buf meta_len
        (λ cmd m s, with_bdev rq (user_submit cmd m meta_len) s) (mk_pstate h (p_pool s));
    h ← kfree ("ubio", rq) (p_heap s);
    Ok (st, tr, mk_pstate h (p_pool s))
  else
    '(st, tr, s) ← user_submit cmd None meta_len s;
    if decide (meta_buf ≠ 0 ∧ meta_len ≠ 0) then Fault F_NULL else Ok (st, tr, s).

(** The list of addresses, released at [err_ppa]. *)
Definition with_ppalist (cmd : nvme_ppa_command) (ppa_buf nlb : Z)
    (k : nvme_ppa_command → pstate → res (Z * trace * pstate)) (s : pstate) : res (Z * trace * pstate) :=
  if decide (ppa_buf ≠ 0 ∧ nlb ≠ 0) then
    '(l, dma, s) ← dma_pool_page_zalloc E s;
    '(st, tr, s) ← match u_words U ppa_buf (nlb + 1) with
                   | None => Ok (0, [], s)
                   | Some ws => s ← store_words l ws s; k (ppa_cmd_set_ppalist (u64 dma) cmd) s
                   end;
    s ← dma_pool_page_free l s;
    Ok (st, tr, s)
  else k (ppa_cmd_set_ppalist (u64 ppa_buf) cmd) s.

Definition handle_user_ppa_cmd (cmd : nvme_ppa_command) (ubuf bufflen meta_buf meta_len ppa_buf nlb : Z)
    (s : pstate) : res (Z * trace * pstate) :=
  let '(e, id, h) := nvme_alloc_request E (p_heap s) in
  let s := mk_pstate h (p_pool s) in
  if decide (e ≠ 0) then Ok (0, [], s) else
  '(st, tr, s) ← with_ppalist cmd ppa_buf nlb
      (λ cmd s, with_ubuf cmd ubuf bufflen meta_buf meta_len id s) s;
  h ← blk_mq_free_request id (p_heap s);
  Ok (st, tr, mk_pstate h (p_pool s)).

(** ** The ioctl calls *)

Definition nvme_submit_user_ppa_cmd (uvio : Z) (s : pstate) : res (Z * trace * pstate) :=
  match u_vio U uvio with
  | None => Ok (- EFAULT, [], s)
  | Some vio =>
      if decide (vio_flags vio ≠ 0) then Ok (- EINVAL, [], s) else
      let nlb := u16 (vio_nblocks vio) in
      let metalen := (nlb + 1) * NAND_META_SIZE in
      let datalen := (nlb + 1) * EXP_PPA_SIZE in
      let c := mk_ppa_command (u8 (vio_opcode vio)) 0 0 (u32 ns_id) 0 0 0 0 0 (u16 (vio_nblocks vio))
                 (u16 (vio_control vio)) (u32 (vio_dsmgmt vio)) 0 in
      handle_user_ppa_cmd c (vio_addr vio) datalen (vio_metadata vio) metalen (vio_slba vio) nlb s
  end.

(** [nvme_be_ioctl_test] copies the list onto its stack, into [MAX_PPA_PER_CMD] words, and
    prints it; whether the copy worked does not matter for the result. *)
Definition nvme_be_ioctl_test (uvio : Z) : res Z :=
  match u_vio U uvio with
  | None => Ok (- EFAULT)
  | Some vio =>
      let n := u16 (vio_nblocks vio) + 1 in
      if decide (MAX_PPA_PER_CMD < n) then Fault F_OOB else Ok 0
  end.

Definition backend_dev_ioctl (cmd arg : Z) (s : pstate) : res (Z * trace * pstate) :=
  if decide (cmd = FSCFTL_IOCTL_SMOKE_TEST) then
    r ← nvme_be_ioctl_test arg; Ok (r, [], s)
  else if decide (cmd = FSCFTL_IOCTL_USER_PPA_CMD) then nvme_submit_user_ppa_cmd arg s
  else Ok (- ENOTTY, [], s).

(** ** The device node *)

(** [misc_register] gives [reg]. *)
Definition backend_miscdev_create (reg : Z) (h : kheap) : Z * kheap :=
  if decide (reg ≠ 0) then (- EFAULT, h)
  else (0, mk_kheap (k_calls h) ({[("miscdev", 0)]} ∪ k_live h)).
End backend.

Definition backend_miscdev_delete (h : kheap) : res kheap := kfree ("miscdev", 0) h.

(** ** What a stage guarantees *)

Section stages.
Context (E : kenv) (U : uenv) (dev : nvme_ppa_command → gmap Z (gmap Z Z) → Z).

(** A stage either does not reach the device and reports 0, or runs one command and
    reports its status; in both cases it releases what it took.  [nms] are the kinds of
    objects that must not be live yet. *)
Definition stage_ok (nms : list string) (k : pstate → res (Z * trace * pstate)) : Prop :=
  ∀ s st tr s', heap_wf (p_heap s) → (∀ nm i, nm ∈ nms → (nm, i) ∉ k_live (p_heap s)) →
    k s = Ok (st, tr, s') →
    ((tr = [] ∧ st = 0) ∨ ∃ c mem, tr = [(c, mem)] ∧ st = dev c mem) ∧
    k_live (p_heap s') = k_live (p_heap s) ∧ (k_calls (p_heap s) ≤ k_calls (p_heap s'))%nat.

Lemma stage_nothing nms : stage_ok nms (λ s, Ok (0, [], s)).
Proof. intros s st tr s' _ _ [= <- <- <-]. split; [by left|done]. Qed.

Lemma user_submit_ok nms cmd m len : stage_ok nms (user_submit dev cmd m len).
Proof.
  intros s st tr s' _ _. unfold user_submit. destruct m; [case_decide; [done|]|];
    intros [= <- <- <-]; (split; [right; by do 2 eexists|done]).
Qed.

Lemma kfree_inv o h h' : kfree o h = Ok h' → o ∈ k_live h ∧ h' = mk_kheap (k_calls h) (k_live h ∖ {[o]}).
Proof. unfold kfree. case_decide; [|done]. by intros [= <-]. Qed.

(** An object of a kind that is not live, held around a stage. *)
Lemma bracket_ok nm nms i k :
  nm ∉ ["dmapage"; "ppacmd"; "request"] → nm ∉ nms → stage_ok nms k →
  stage_ok (nm :: nms) (λ s,
    '(st, tr, s) ← k (mk_pstate (mk_kheap (k_calls (p_heap s)) ({[(nm, i)]} ∪ k_live (p_heap s))) (p_pool s));
    h ← kfree (nm, i) (p_heap s);
    Ok (st, tr, mk_pstate h (p_pool s))).
Proof.
  intros Hnm Hnn Hk s st tr s' Hw Hf ([[st1 tr1] s1] & H1 & H)%bind_Ok.
  apply bind_Ok in H as (h & [_ ->]%kfree_inv & [= <- <- <-]).
  apply Hk in H1 as (Htr & Hl & Hc).
  - split; [done|]. cbn [p_heap k_live k_calls] in *. split; [|done]. rewrite Hl.
    apply live_add_remove. apply Hf. by left.
  - intros n0 i0. cbn. rewrite elem_of_union, elem_of_singleton. intros [[= -> ->]|Hin] Hn; [done|]. exact (Hw _ _ Hin Hn).
  - intros n0 i0 Hn0. cbn. rewrite elem_of_union, elem_of_singleton. intros [[= -> ->]|Hin]; [done|].
    apply (Hf n0 i0); [by right|done].
Qed.

Lemma pool_write_heap i k v s s' : pool_write i k v s = Ok s' → p_heap s' = p_heap s.
Proof.
  unfold pool_write. intros (pg & _ & H)%bind_Ok. apply bind_Ok in H as (pg' & _ & H). by injection H as <-.
Qed.

Lemma store_words_heap l ws s s' : store_words l ws s = Ok s' → p_heap s' = p_heap s.
Proof.
  unfold store_words. revert s. induction (zip _ ws) as [|[i v] zs IH]; intros s; cbn [mfor].
  - by intros [= <-].
  - intros (s1 & H1%pool_write_heap & H2)%bind_Ok. by rewrite (IH _ H2), H1.
Qed.

(** A page of the pool held around a stage that may store into it. *)
Lemma page_bracket_ok nms (k : Z → Z → pstate → res (Z * trace * pstate)) :
  "dmapage" ∉ nms → (∀ l d, stage_ok nms (k l d)) →
  stage_ok nms (λ s,
    '(l, d, s) ← dma_pool_page_zalloc E s;
    '(st, tr, s) ← k l d s;
    s ← dma_pool_page_free l s;
    Ok (st, tr, s)).
Proof.
  intros Hnn Hk s st tr s' Hw Hf ([[l d] s1] & H1 & H)%bind_Ok.
  apply bind_Ok in H as ([[st1 tr1] s2] & H2 & H). apply bind_Ok in H as (s3 & H3 & [= <- <- <-]).
  unfold dma_pool_page_zalloc, kalloc in H1. destruct (alloc_ok E _); [|done]. injection H1 as <- <- <-.
  unfold dma_pool_page_free in H3. apply bind_Ok in H3 as (h & [_ ->]%kfree_inv & [= <-]).
  assert (("dmapage", Z.of_nat (k_calls (p_heap s))) ∉ k_live (p_heap s)) as Hn.
  { apply heap_wf_fresh; [done|by left|done]. }
  apply Hk in H2 as (Htr & Hl & Hc); cbn [p_heap k_live k_calls] in *.
  - split; [done|]. rewrite Hl. split; [by apply live_add_remove|lia].
  - by eapply heap_wf_alloc.
  - intros n0 i0 Hn0. rewrite elem_of_union, elem_of_singleton. intros [[= -> ->]|Hin]; [done|].
    by apply (Hf n0 i0).
Qed.

(** Storing user data first. *)
Lemma store_then_ok nms l o k :
  stage_ok nms k →
  stage_ok nms (λ s, match o with None => Ok (0, [], s) | Some ws => s ← store_words l ws s; k s end).
Proof.
  intros Hk. destruct o as [ws|]; [|apply stage_nothing].
  intros s st tr s' Hw Hf (s1 & H1%store_words_heap & H)%bind_Ok. rewrite <-H1 in Hw, Hf |- *. by apply Hk.
Qed.

Lemma with_bdev_ok rq k : stage_ok [] k → stage_ok ["bdevref"] (with_bdev U rq k).
Proof.
  intros Hk. unfold with_bdev. destruct (u_disk U); cbn [negb].
  - destruct (u_bdget U); cbn [negb]; [|apply stage_nothing].
    apply (bracket_ok "bdevref" [] rq k); [by apply (bool_decide_unpack _)|apply not_elem_of_nil|done].
  - intros s st tr s' Hw Hf. apply Hk; [done|]. intros nm i Hn. by apply not_elem_of_nil in Hn.
Qed.

Lemma with_metadata_ok nms cmd mb ml k :
  "dmapage" ∉ nms → (∀ c m, stage_ok nms (k c m)) → stage_ok nms (with_metadata E U cmd mb ml k).
Proof.
  intros Hnn Hk. unfold with_metadata. case_decide; [|apply Hk].
  apply (page_bracket_ok nms (λ m mdma s, if nvme_is_write cmd then _ else _)); [done|].
  intros l d. destruct (nvme_is_write cmd); [|apply Hk].
  apply (store_then_ok nms l (u_words U mb (ml / 8)) (k (ppa_cmd_set_metadata (u64 d) cmd) (Some l))). apply Hk.
Qed.

Lemma with_ubuf_ok cmd ub bl mb ml rq : stage_ok ["ubio"; "bdevref"] (with_ubuf E U dev cmd ub bl mb ml rq).
Proof.
  unfold with_ubuf. case_decide.
  - case_decide; [apply stage_nothing|].
    apply (bracket_ok "ubio" ["bdevref"] rq (with_metadata E U cmd mb ml
      (λ cmd m s, with_bdev U rq (user_submit dev cmd m ml) s)));
      [by apply (bool_decide_unpack _)|by apply (bool_decide_unpack _)|].
    apply with_metadata_ok; [by apply (bool_decide_unpack _)|]. intros c m. apply with_bdev_ok, user_submit_ok.
  - intros s st tr s' Hw Hf ([[st1 tr1] s1] & H1 & H2)%bind_Ok. case_decide; [done|]. injection H2 as <- <- <-.
    revert H1. by apply (user_submit_ok ["ubio"; "bdevref"]).
Qed.

Lemma with_ppalist_ok nms cmd pb nlb k :
  "dmapage" ∉ nms → (∀ c, stage_ok nms (k c)) → stage_ok nms (with_ppalist E U cmd pb nlb k).
Proof.
  intros Hnn Hk. unfold with_ppalist. case_decide; [|apply Hk].
  apply (page_bracket_ok nms (λ l dma s, match u_words U pb (nlb + 1) with
      | None => Ok (0, [], s)
      | Some ws => s ← store_words l ws s; k (ppa_cmd_set_ppalist (u64 dma) cmd) s end)); [done|].
  intros l d. by apply store_then_ok.
Qed.

Lemma handle_user_ok cmd ub bl mb ml pb nlb :
  stage_ok ["ubio"; "bdevref"] (handle_user_ppa_cmd E U dev cmd ub bl mb ml pb nlb).
Proof.
  intros s st tr s' Hw Hf. unfold handle_user_ppa_cmd, nvme_alloc_request.
  destruct (decide (req_err E (k_calls (p_heap s)) = 0)) as [He|He].
  - rewrite decide_False by lia. intros ([[st1 tr1] s1] & H1 & H)%bind_Ok.
    apply bind_Ok in H as (h & [_ ->]%kfree_inv & [= <- <- <-]).
    assert (("request", Z.of_nat (k_calls (p_heap s))) ∉ k_live (p_heap s)) as Hn.
    { apply heap_wf_fresh; [done|by do 2 right; left|done]. }
    apply (with_ppalist_ok ["ubio"; "bdevref"]) in H1 as (Htr & Hl & Hc); cbn [p_heap k_live k_calls] in *.
    + split; [done|]. rewrite Hl. split; [by apply live_add_remove|lia].
    + by apply (bool_decide_unpack _).
    + intros c. apply with_ubuf_ok.
    + by eapply heap_wf_alloc.
    + intros n0 i0 Hn0. rewrite elem_of_union, elem_of_singleton. intros [[= -> ->]|Hin].
      * revert Hn0. by apply (bool_decide_unpack _).
      * by apply (Hf n0 i0).
  - rewrite decide_True by done. intros [= <- <- <-]. split; [by left|]. cbn. split; [done|lia].
Qed.
End stages.

(** ** The list of addresses *)

Lemma pool_write_in l i v s page :
  p_pool s !! l = Some page → 0 ≤ i →
  pool_write l i v s = if decide (i < POOL_WORDS)
    then Ok (mk_pstate (p_heap s) (<[l := <[i := v]> page]> (p_pool s))) else Fault F_OOB.
Proof.
  intros Hp Hi. unfold pool_write. rewrite (aread_Some _ _ _ Hp), bind_Ok_l. unfold wwrite.
  destruct (decide (i < POOL_WORDS)); [by rewrite decide_True by lia|by rewrite decide_False by lia].
Qed.

Lemma mfor_zip_cons {A B S} (f : A * B → S → res S) a l b l' (s : S) :
  mfor (zip (a :: l) (b :: l')) f s = s' ← f (a, b) s; mfor (zip l l') f s'.
Proof. done. Qed.

Lemma store_words_run l ws : ∀ (k : nat) s page,
  p_pool s !! l = Some page → Z.of_nat (k + length ws) ≤ POOL_WORDS →
  ∃ page', mfor (zip (seqZ (Z.of_nat k) (Z.of_nat (length ws))) ws) (λ '(i, v), pool_write l i v) s =
      Ok (mk_pstate (p_heap s) (<[l := page']> (p_pool s))) ∧
    (∀ (i : nat) v, ws !! i = Some v → page' !! Z.of_nat (k + i) = Some v) ∧
    (∀ i, i < Z.of_nat k → page' !! i = page !! i).
Proof.
  induction ws as [|v ws IH]; intros k s page Hp Hk; cbn [length] in *.
  { cbn [Z.of_nat]. rewrite seqZ_nil by lia. cbn [zip zip_with mfor]. exists page.
    split; [by rewrite insert_id; destruct s|done]. }
  rewrite seqZ_cons by lia. rewrite mfor_zip_cons.
  rewrite (pool_write_in l (Z.of_nat k) v s page Hp), decide_True, bind_Ok_l by lia.
  replace (Z.succ (Z.of_nat k)) with (Z.of_nat (S k)) by lia.
  replace (Z.pred (Z.of_nat (S (length ws)))) with (Z.of_nat (length ws)) by lia.
  destruct (IH (S k) (mk_pstate (p_heap s) (<[l := <[Z.of_nat k := v]> page]> (p_pool s))) (<[Z.of_nat k := v]> page))
    as (page' & Hrun & Hw & Hk'); [by cbn; rewrite lookup_insert_eq|lia|].
  exists page'. rewrite Hrun. cbn [p_heap p_pool]. rewrite insert_insert_eq. split; [done|]. split.
  - intros [|i] w Hi; cbn in Hi.
    + injection Hi as <-. rewrite Nat.add_0_r, Hk' by lia. by rewrite lookup_insert_eq.
    + rewrite <-Nat.add_succ_comm. by apply Hw.
  - intros i Hi. rewrite Hk' by lia. by rewrite lookup_insert_ne by lia.
Qed.

(** Storing more than a page runs over its end. *)
Lemma store_words_over l ws : ∀ (k : nat) s page,
  p_pool s !! l = Some page → Z.of_nat k ≤ POOL_WORDS < Z.of_nat (k + length ws) →
  mfor (zip (seqZ (Z.of_nat k) (Z.of_nat (length ws))) ws) (λ '(i, v), pool_write l i v) s = Fault F_OOB.
Proof.
  induction ws as [|v ws IH]; intros k s page Hp Hk; cbn [length] in *; [lia|].
  rewrite seqZ_cons by lia. rewrite mfor_zip_cons. rewrite (pool_write_in l (Z.of_nat k) v s page Hp) by lia.
  destruct (decide (Z.of_nat k < POOL_WORDS)) as [Hlt|Hne]; [|done]. rewrite bind_Ok_l.
  replace (Z.succ (Z.of_nat k)) with (Z.of_nat (S k)) by lia.
  replace (Z.pred (Z.of_nat (S (length ws)))) with (Z.of_nat (length ws)) by lia.
  apply (IH (S k) _ (<[Z.of_nat k := v]> page)); [by cbn; rewrite lookup_insert_eq|lia].
Qed.

(** The command built from a request of the user. *)
Definition user_cmd (ns_id : Z) (vio : nvme_user_io) : nvme_ppa_command :=
  mk_ppa_command (u8 (vio_opcode vio)) 0 0 (u32 ns_id) 0 0 0 0 0 (u16 (vio_nblocks vio))
    (u16 (vio_control vio)) (u32 (vio_dsmgmt vio)) 0.

Definition no_user_objs (s : pstate) : Prop :=
  ∀ nm i, nm ∈ ["ubio"; "bdevref"] → (nm, i) ∉ k_live (p_heap s).

Section user.
Context (E : kenv) (HE : env_good E) (U : uenv) (ns_id : Z) (dev : nvme_ppa_command → gmap Z (gmap Z Z) → Z).
Context (uvio : Z) (vio : nvme_user_io) (Hvio : u_vio U uvio = Some vio) (Hflags : vio_flags vio = 0).
Context (s : pstate) (Hw : heap_wf (p_heap s)).
#[local] Set Default Proof Using "All".

(** Up to the list of addresses. *)
Lemma user_start nlb :
  vio_nblocks vio = nlb → 0 < nlb < 2 ^ 16 → vio_slba vio ≠ 0 →
  let r := Z.of_nat (k_calls (p_heap s)) in
  let k := S (k_calls (p_heap s)) in
  let h := mk_kheap (S k) ({[("dmapage", Z.of_nat k)]} ∪ ({[("request", r)]} ∪ k_live (p_heap s))) in
  nvme_submit_user_ppa_cmd E U ns_id dev uvio s =
    '(st, tr, s) ←
      ('(st, tr, s) ← match u_words U (vio_slba vio) (nlb + 1) with
         | None => Ok (0, [], mk_pstate h (<[Z.of_nat k := ∅]> (p_pool s)))
         | Some ws => s ← store_words (Z.of_nat k) ws (mk_pstate h (<[Z.of_nat k := ∅]> (p_pool s)));
             with_ubuf E U dev (ppa_cmd_set_ppalist (u64 (dma_addr E k)) (user_cmd ns_id vio))
               (vio_addr vio) ((nlb + 1) * EXP_PPA_SIZE) (vio_metadata vio) ((nlb + 1) * NAND_META_SIZE)
               r s
         end;
       s ← dma_pool_page_free (Z.of_nat k) s; Ok (st, tr, s));
    h ← blk_mq_free_request r (p_heap s);
    Ok (st, tr, mk_pstate h (p_pool s)).
Proof.
  intros Hn Hr Hs r k h. unfold nvme_submit_user_ppa_cmd. rewrite Hvio, decide_False by lia. cbv zeta.
  rewrite Hn, (u16_small nlb) by lia. unfold handle_user_ppa_cmd, nvme_alloc_request.
  rewrite (eg_req _ HE), decide_True by done. rewrite decide_False by lia.
  unfold with_ppalist. rewrite decide_True by lia. unfold dma_pool_page_zalloc, kalloc. rewrite (eg_alloc _ HE).
  rewrite bind_Ok_l. unfold user_cmd. rewrite Hn, (u16_small nlb) by lia. reflexivity.
Qed.

(** A stage that returns in that frame. *)
Lemma user_finish {st tr s'} (m : res (Z * trace * pstate)) :
  nvme_submit_user_ppa_cmd E U ns_id dev uvio s = m → m = Ok (st, tr, s') →
  no_user_objs s → k_live (p_heap s') = k_live (p_heap s).
Proof.
  intros Hm Hok Hf. rewrite Hok in Hm. unfold nvme_submit_user_ppa_cmd in Hm.
  rewrite Hvio, decide_False in Hm by lia. cbv zeta in Hm.
  by apply handle_user_ok in Hm as (_ & Hl & _).
Qed.

(** With no metadata and a buffer that can be mapped, the command is run. *)
Lemma with_ubuf_run c len ml rq s0 :
  vio_metadata vio = 0 → vio_addr vio ≠ 0 → len ≠ 0 → u_map_err U (vio_addr vio) len = 0 →
  (u_disk U = true → u_bdget U = true) →
  ∃ h, with_ubuf E U dev c (vio_addr vio) len (vio_metadata vio) ml rq s0 =
    Ok (dev c (p_pool s0), [(c, p_pool s0)], mk_pstate h (p_pool s0)) ∧
    k_calls h = k_calls (p_heap s0) ∧
    ∀ o, o ∈ k_live (p_heap s0) → o.1 ∉ ["ubio"; "bdevref"] → o ∈ k_live h.
Proof.
  intros Hm Ha Hl He Hd. unfold with_ubuf. rewrite decide_True, decide_False by (done || lia).
  unfold with_metadata. rewrite decide_False by lia. unfold with_bdev, user_submit.
  assert (∀ (o o' : obj), o.1 ∉ ["ubio"; "bdevref"] → o'.1 ∈ ["ubio"; "bdevref"] → o ≠ o') as Hne.
  { intros o o' Ho Ho' ->. done. }
  destruct (u_disk U) eqn:Hdk; cbn [negb].
  - rewrite (Hd eq_refl). cbn [negb]. rewrite bind_Ok_l. cbn [p_heap k_live k_calls p_pool].
    rewrite kfree_live by (cbn; apply elem_of_union_l, elem_of_singleton; reflexivity).
    rewrite !bind_Ok_l. cbn [p_heap k_live k_calls p_pool].
    rewrite kfree_live.
    2: { cbn [k_live]. apply elem_of_difference. split; [|by intros [= ?]%elem_of_singleton].
         apply elem_of_union_r, elem_of_union_l, elem_of_singleton. done. }
    rewrite bind_Ok_l. eexists. split; [done|]. cbn [k_live k_calls]. split; [done|]. intros o Ho Hn.
    apply elem_of_difference. split; [apply elem_of_difference; split; [by do 2 apply elem_of_union_r|]|];
      intros Hx%elem_of_singleton; revert Hx; apply Hne; try done; cbn; [right; left|left].
  - rewrite bind_Ok_l. cbn [p_heap k_live k_calls p_pool].
    rewrite kfree_live by (cbn; apply elem_of_union_l, elem_of_singleton; reflexivity).
    rewrite bind_Ok_l. eexists. split; [done|]. cbn [k_live k_calls]. split; [done|]. intros o Ho Hn.
    apply elem_of_difference. split; [by apply elem_of_union_r|]. intros Hx%elem_of_singleton.
    revert Hx. apply Hne; [done|]. left.
Qed.
End user.

(** C36: a command of a user reaches the device as it was asked for.  With memory
    available, a readable list of 2 to 512 addresses, a buffer that can be mapped and no
    metadata, the device runs one command with the opcode, control and page count of
    the request, whose list page holds the addresses of the user in order; its status is
    the result, and what is allocated afterwards is what was before. *)
Theorem user_cmd_runs E U ns_id dev uvio vio ws s :
  env_good E → heap_wf (p_heap s) → no_user_objs s →
  u_vio U uvio = Some vio → vio_flags vio = 0 → vio_metadata vio = 0 →
  0 < vio_nblocks vio < 512 → vio_slba vio ≠ 0 →
  u_words U (vio_slba vio) (vio_nblocks vio + 1) = Some ws → Z.of_nat (length ws) = vio_nblocks vio + 1 →
  vio_addr vio ≠ 0 → u_map_err U (vio_addr vio) ((vio_nblocks vio + 1) * EXP_PPA_SIZE) = 0 →
  (u_disk U = true → u_bdget U = true) →
  ∃ c mem k page s', nvme_submit_user_ppa_cmd E U ns_id dev uvio s = Ok (dev c mem, [(c, mem)], s') ∧
    c = ppa_cmd_set_ppalist (u64 (dma_addr E k)) (user_cmd ns_id vio) ∧
    mem !! Z.of_nat k = Some page ∧ (∀ i v, ws !! i = Some v → page !! Z.of_nat i = Some v) ∧
    k_live (p_heap s') = k_live (p_heap s).
Proof.
  intros HE Hw Hf Hvio Hfl Hm Hn Hs Hws Hlen Ha Hmap Hd.
  pose proof (user_start E HE U ns_id dev uvio vio Hvio Hfl s Hw _ eq_refl ltac:(lia) Hs) as Hrun.
  cbv zeta in Hrun. set (k := S (k_calls (p_heap s))) in *. set (h := mk_kheap _ _) in Hrun.
  rewrite Hws in Hrun. unfold store_words in Hrun.
  destruct (store_words_run (Z.of_nat k) ws 0 (mk_pstate h (<[Z.of_nat k := ∅]> (p_pool s))) ∅)
    as (page & Hst & Hpg & _); [by cbn; rewrite lookup_insert_eq|change POOL_WORDS with 512; lia|].
  change (Z.of_nat 0) with 0 in Hst. rewrite Hst, bind_Ok_l in Hrun.
  destruct (with_ubuf_run E HE U ns_id dev uvio vio Hvio Hfl s Hw
    (ppa_cmd_set_ppalist (u64 (dma_addr E k)) (user_cmd ns_id vio)) ((vio_nblocks vio + 1) * EXP_PPA_SIZE)
    ((vio_nblocks vio + 1) * NAND_META_SIZE) (Z.of_nat (k_calls (p_heap s)))
    (mk_pstate h (<[Z.of_nat k := page]> (<[Z.of_nat k := ∅]> (p_pool s)))) Hm Ha) as (h' & Hub & Hc & Hkeep);
    [unfold EXP_PPA_SIZE; lia|done|done|].
  cbn [p_heap p_pool] in Hub, Hrun, Hkeep. rewrite Hub in Hrun. clear Hub. rewrite bind_Ok_l in Hrun.
  unfold dma_pool_page_free, blk_mq_free_request in Hrun. cbn [p_heap p_pool] in Hrun.
  rewrite kfree_live in Hrun.
  2: { apply Hkeep; [by apply elem_of_union_l, elem_of_singleton|by apply (bool_decide_unpack _)]. }
  rewrite !bind_Ok_l in Hrun. cbn [p_heap p_pool] in Hrun. rewrite kfree_live in Hrun.
  2: { cbn [k_live]. apply elem_of_difference. split; [|by intros [= ?]%elem_of_singleton].
       apply Hkeep; [by apply elem_of_union_r, elem_of_union_l, elem_of_singleton|by apply (bool_decide_unpack _)]. }
  rewrite bind_Ok_l in Hrun. do 5 eexists. split; [exact Hrun|]. split; [done|].
  split; [apply lookup_insert_eq|]. split; [exact Hpg|].
  exact (user_finish E HE U ns_id dev uvio vio Hvio Hfl s Hw _ Hrun eq_refl Hf).
Qed.

(** a failure on the way to the device is reported as a success.  Whenever the call
    for a well-formed request returns and no command was run (no request, no list, no
    mapping, no block device), the result is 0 and what is allocated is unchanged; an
    address list that cannot be read is such a case. *)
Lemma user_cmd_failure_is_success E U ns_id dev uvio vio s :
  heap_wf (p_heap s) → no_user_objs s → u_vio U uvio = Some vio → vio_flags vio = 0 →
  (∀ st s', nvme_submit_user_ppa_cmd E U ns_id dev uvio s = Ok (st, [], s') →
     st = 0 ∧ k_live (p_heap s') = k_live (p_heap s)) ∧
  (env_good E → 0 < vio_nblocks vio < 2 ^ 16 → vio_slba vio ≠ 0 →
   u_words U (vio_slba vio) (vio_nblocks vio + 1) = None →
   ∃ s', nvme_submit_user_ppa_cmd E U ns_id dev uvio s = Ok (0, [], s') ∧ k_live (p_heap s') = k_live (p_heap s)).
Proof.
  intros Hw Hf Hvio Hfl. split.
  - intros st s'. unfold nvme_submit_user_ppa_cmd. rewrite Hvio, decide_False by lia. cbv zeta.
    intros Hrun. apply handle_user_ok in Hrun as ([[_ ->]|(c & mem & Hx & _)] & Hl & _); done.
  - intros HE Hn Hs Hws.
    pose proof (user_start E HE U ns_id dev uvio vio Hvio Hfl s Hw _ eq_refl Hn Hs) as Hrun.
    cbv zeta in Hrun. rewrite Hws, bind_Ok_l in Hrun. set (k := S (k_calls (p_heap s))) in *.
    unfold dma_pool_page_free, blk_mq_free_request in Hrun. cbn [p_heap p_pool] in Hrun.
    rewrite kfree_live in Hrun by (by apply elem_of_union_l, elem_of_singleton).
    rewrite !bind_Ok_l in Hrun. cbn [p_heap p_pool] in Hrun. rewrite kfree_live in Hrun.
    2: { cbn [k_live]. apply elem_of_difference. split; [|by intros [= ?]%elem_of_singleton].
         by apply elem_of_union_r, elem_of_union_l, elem_of_singleton. }
    rewrite bind_Ok_l in Hrun. eexists. split; [exact Hrun|].
    exact (user_finish E HE U ns_id dev uvio vio Hvio Hfl s Hw _ Hrun eq_refl Hf).
Qed.

(** the length of the list is not checked.  A request of more than 512 pages, whose
    list can be read, is copied over the end of the page that holds it; and the test
    call does the same to its stack from 65 pages on. *)
Lemma user_list_overruns E U ns_id dev uvio vio ws s :
  env_good E → heap_wf (p_heap s) → u_vio U uvio = Some vio → vio_flags vio = 0 →
  512 ≤ vio_nblocks vio < 2 ^ 16 → vio_slba vio ≠ 0 →
  u_words U (vio_slba vio) (vio_nblocks vio + 1) = Some ws → Z.of_nat (length ws) = vio_nblocks vio + 1 →
  nvme_submit_user_ppa_cmd E U ns_id dev uvio s = Fault F_OOB ∧ nvme_be_ioctl_test U uvio = Fault F_OOB.
Proof.
  intros HE Hw Hvio Hfl Hn Hs Hws Hlen. split.
  - rewrite (user_start E HE U ns_id dev uvio vio Hvio Hfl s Hw _ eq_refl ltac:(lia) Hs). cbv zeta.
    rewrite Hws. unfold store_words. change 0 with (Z.of_nat 0) at 1.
    rewrite (store_words_over _ ws 0 _ ∅); [done|by cbn; rewrite lookup_insert_eq|].
    change POOL_WORDS with 512. lia.
  - unfold nvme_be_ioctl_test. rewrite Hvio, u16_small by lia. change MAX_PPA_PER_CMD with 64.
    by rewrite decide_True by lia.
Qed.

(** *** Concrete requests *)

(** The request at address 1 reads 3 pages, the one at address 2 names 600 pages, the one
    at address 3 a list that is not mapped. *)
Definition demo_uenv : uenv := mk_uenv
  (λ a n, if decide (a = 8192) then Some (replicate (Z.to_nat n) 77) else None)
  (λ a, if decide (a = 1) then Some (mk_vio NVM_OP_RDPPA 0 0 2 0 4096 8192 0)
        else if decide (a = 2) then Some (mk_vio NVM_OP_RDPPA 0 0 599 0 4096 8192 0)
        else if decide (a = 3) then Some (mk_vio NVM_OP_RDPPA 0 0 2 0 4096 666 0) else None)
  (λ _ _, 0) true true.

Lemma demo_heap n : heap_wf (mk_kheap n ∅).
Proof. intros nm id Hin. by apply not_elem_of_empty in Hin. Qed.

Lemma user_cmd_runs_witness :
  ∃ c mem s', nvme_submit_user_ppa_cmd env_ok demo_uenv 1 (λ _ _, 5) 1 (mk_pstate (mk_kheap 0 ∅) ∅)
    = Ok (5, [(c, mem)], s') ∧ k_live (p_heap s') = ∅.
Proof.
  destruct (user_cmd_runs env_ok demo_uenv 1 (λ _ _, 5) 1 (mk_vio NVM_OP_RDPPA 0 0 2 0 4096 8192 0) [77; 77; 77]
    (mk_pstate (mk_kheap 0 ∅) ∅)) as (c & mem & k & page & s' & Hrun & _ & _ & _ & Hl).
  - exact env_ok_good.
  - apply demo_heap.
  - intros nm i _. apply not_elem_of_empty.
  - reflexivity.
  - reflexivity.
  - reflexivity.
  - split; reflexivity.
  - discriminate.
  - reflexivity.
  - reflexivity.
  - discriminate.
  - reflexivity.
  - intros _. reflexivity.
  - exists c, mem, s'. split; [exact Hrun|exact Hl].
Defined.

Lemma user_cmd_failure_is_success_witness :
  ∃ s', nvme_submit_user_ppa_cmd env_ok demo_uenv 1 (λ _ _, 5) 3 (mk_pstate (mk_kheap 0 ∅) ∅) = Ok (0, [], s').
Proof.
  destruct (user_cmd_failure_is_success env_ok demo_uenv 1 (λ _ _, 5) 3 (mk_vio NVM_OP_RDPPA 0 0 2 0 4096 666 0)
    (mk_pstate (mk_kheap 0 ∅) ∅)) as [_ H].
  - apply demo_heap.
  - intros nm i _. apply not_elem_of_empty.
  - reflexivity.
  - reflexivity.
  - destruct H as (s' & Hrun & _); [exact env_ok_good|split; reflexivity|discriminate|reflexivity|].
    exists s'. exact Hrun.
Defined.

Lemma user_list_overruns_witness :
  nvme_submit_user_ppa_cmd env_ok demo_uenv 1 (λ _ _, 5) 2 (mk_pstate (mk_kheap 0 ∅) ∅) = Fault F_OOB.
Proof.
  apply (user_list_overruns env_ok demo_uenv 1 (λ _ _, 5) 2 (mk_vio NVM_OP_RDPPA 0 0 599 0 4096 8192 0) (replicate 600 77)).
  - exact env_ok_good.
  - apply demo_heap.
  - reflexivity.
  - reflexivity.
  - split; [discriminate|reflexivity].
  - discriminate.
  - reflexivity.
  - reflexivity.
Defined.
