(* ===== verification/Driver.v ===== *)
(** * Starting and stopping the driver

    [fscftl-init.c], [namespace.c] (the disk), [hwcfg/regrw.c], and the threads of
    [bio-wr.c].  The components are brought up one after the other and taken down in
    reverse; [Resource] is what a component promises for that. *)

From S2P Require Import Prelude NandCfg Fifo Kernel SysMeta PpaCmd WriteCache WritePath WriteInv WriteBio BootBlk Mcp PowerCycle Backend.

#[local] Open Scope Z_scope.

(** ** What a component promises *)

(** [init] takes the objects [objs], one per allocation, or fails with an error of [errs]
    and takes nothing; [exit] gives them back; [good] holds of what [init] returns. *)
Class Resource {A} (alloc_ok : nat → bool) (init : kheap → res (Z * option A * kheap))
    (exit : kheap → res kheap) (objs : list obj) (errs : list Z) (good : A → Prop) : Prop := {
  res_init h os L :
    owns h os L → (∀ o, o ∈ objs → o ∉ k_live h) →
    (∀ j, (j < length objs)%nat → alloc_ok (k_calls h + j)%nat = true) →
    ∃ a h', init h = Ok (0, Some a, h') ∧ good a ∧
      k_calls h' = (k_calls h + length objs)%nat ∧ owns h' (objs ++ os) L;
  res_fail h os L j :
    owns h os L → (∀ o, o ∈ objs → o ∉ k_live h) → (j < length objs)%nat →
    (∀ i, (i < j)%nat → alloc_ok (k_calls h + i)%nat = true) → alloc_ok (k_calls h + j)%nat = false →
    ∃ e h', init h = Ok (e, None, h') ∧ e ∈ errs ∧ owns h' os L;
  res_exit h os L :
    owns h (objs ++ os) L → ∃ h', exit h = Ok h' ∧ k_calls h' = k_calls h ∧ owns h' os L;
}.

(** ** Start and stop of the threads

    The pointers [kthread_create] and [alloc_workqueue] return are not checked: waking a
    thread that was not created is an access through [ERR_PTR]. *)

Definition rewr_thread : obj := ("kthread", 0).
Definition writer_thread : obj := ("kthread", 1).
Definition requeue_bios_wq : obj := ("workqueue", 0).

Section driver.
Context (E : kenv) (ns_id : Z).

Definition kthread_run (o : obj) (h : kheap) : res kheap :=
  let '(ok, h) := kalloc (alloc_ok E) o h in
  if ok then Ok h else Fault F_NULL.

Definition fscftl_writer_init (h : kheap) : res (Z * kheap) :=
  let '(_, h) := kalloc (alloc_ok E) requeue_bios_wq h in
  h ← kthread_run rewr_thread h;
  h ← kthread_run writer_thread h;
  Ok (0, h).

(** Destroying a queue that was not created is a fault. *)
Definition fscftl_writer_exit (h : kheap) : res kheap :=
  h ← kfree writer_thread h;
  h ← kfree rewr_thread h;
  kfree requeue_bios_wq h.

(** ** [fscftl_setup]: the labels of its clean-up, and the function *)

Definition out_free_statetbl (ret : Z) (h : kheap) : res (Z * option (ftl * boot) * kheap) :=
  h ← statetbl_exit h; Ok (ret, None, h).
Definition out_free_bootpage (ret : Z) (h : kheap) : res (Z * option (ftl * boot) * kheap) :=
  h ← bootblk_page_exit h; out_free_statetbl ret h.
Definition out_free_bmitbl (ret : Z) (h : kheap) : res (Z * option (ftl * boot) * kheap) :=
  h ← bmitbl_exit h; out_free_bootpage ret h.
Definition out_free_vpctbl (ret : Z) (h : kheap) : res (Z * option (ftl * boot) * kheap) :=
  h ← vpctbl_exit h; out_free_bmitbl ret h.
Definition out_free_l2p (ret : Z) (h : kheap) : res (Z * option (ftl * boot) * kheap) :=
  h ← l2ptbl_exit h; out_free_vpctbl ret h.
Definition out_free_wcb (ret : Z) (h : kheap) : res (Z * option (ftl * boot) * kheap) :=
  h ← write_cache_free h; out_free_l2p ret h.

(** The globals of the driver, once everything is there. *)
Definition fscftl_setup (h : kheap) : res (Z * option (ftl * boot) * kheap) :=
  '(ret, st, h) ← Ok (statetbl_init (alloc_ok E) h);
  if decide (ret ≠ 0) then Ok (ret, None, h) else
  '(ret, b, h) ← bootblk_page_init E h;
  if decide (ret ≠ 0) then out_free_statetbl ret h else
  '(ret, bmi, h) ← Ok (bmitbl_init (alloc_ok E) h);
  if decide (ret ≠ 0) then out_free_bootpage ret h else
  '(ret, vpc, h) ← Ok (vpctbl_init (alloc_ok E) h);
  if decide (ret ≠ 0) then out_free_bmitbl ret h else
  '(ret, l2p, h) ← l2ptbl_init (alloc_ok E) h;
  if decide (ret ≠ 0) then out_free_vpctbl ret h else
  '(ret, c, h) ← write_cache_alloc E h;
  if decide (ret ≠ 0) then out_free_l2p ret h else
  '(ret, h) ← fscftl_writer_init h;
  if decide (ret ≠ 0) then out_free_wcb ret h else
  st ← deref st; b ← deref b; bmi ← deref bmi; vpc ← deref vpc; l2p ← deref l2p; c ← deref c;
  Ok (ret, Some (mk_ftl c (mk_sysmeta st bmi vpc) l2p, b), h).

Definition fscftl_cleanup (h : kheap) : res kheap :=
  h ← fscftl_writer_exit h;
  h ← write_cache_free h;
  h ← l2ptbl_exit h;
  h ← vpctbl_exit h;
  h ← bmitbl_exit h;
  h ← bootblk_page_exit h;
  statetbl_exit h.

(** ** The disk

    The attributes the driver gives to the disk and its queue: sizes in units of 512
    bytes, but the logical block in bytes.  The id is the first of an empty [idr]. *)
Record nvm_exns : Type := mk_exns {
  instance : Z;
  capacity : Z;
  logical_block_size : Z;
  max_hw_sectors : Z;
}.

Definition exns_obj : obj := ("exns", 0).
Definition nsid_obj : obj := ("nsid", 1).
Definition disk_obj : obj := ("gendisk", 0).
Definition queue_obj : obj := ("rqueue", 0).

Definition out_free_ns (h : kheap) : res (Z * option nvm_exns * kheap) :=
  h ← kfree exns_obj h; Ok (- EFAULT, None, h).
Definition out_remove_idr (h : kheap) : res (Z * option nvm_exns * kheap) :=
  h ← kfree nsid_obj h; out_free_ns h.
Definition out_put_disk (h : kheap) : res (Z * option nvm_exns * kheap) :=
  h ← kfree disk_obj h; out_remove_idr h.

Definition nvm_create_exns (h : kheap) : res (Z * option nvm_exns * kheap) :=
  let '(ok, h) := kalloc (alloc_ok E) exns_obj h in
  if negb ok then Ok (- ENOMEM, None, h) else
  let '(ok, h) := kalloc (alloc_ok E) nsid_obj h in
  if negb ok then out_free_ns h else
  let '(ok, h) := kalloc (alloc_ok E) disk_obj h in
  if negb ok then out_remove_idr h else
  let '(ok, h) := kalloc (alloc_ok E) queue_obj h in
  if negb ok then out_put_disk h else
  Ok (0, Some (mk_exns 1 ((MAX_USER_LBA + 1) * 8) (u16 CFG_NAND_EP_NUM) (8 * MAX_PPA_PER_CMD)), h).

(** [del_gendisk], [blk_cleanup_queue], [put_disk], [idr_remove] and [kfree]. *)
Definition nvm_delete_exns (h : kheap) : res kheap :=
  h ← kfree queue_obj h;
  h ← kfree disk_obj h;
  h ← kfree nsid_obj h;
  kfree exns_obj h.

(** ** The registers *)

Definition NVC_SCRAMBLE : Z := 0x02110.
Definition NSC_SET_BIT_COUNT : Z := 0x43008.
Definition ECC_ERR_CNT_REG : Z := 0x40A10.
Definition ENABLE_ECC_ERR_CNT : Z := Z.shiftl 1 1.

Definition reg_read32 (regaddr : Z) (r : Z → Z) : Z := u32 (r regaddr).
Definition reg_write32 (regaddr regval : Z) (r : Z → Z) : Z → Z :=
  λ a, if decide (a = regaddr) then regval else r a.

Definition ctrl_register_config (r : Z → Z) : Z → Z :=
  let regval := reg_read32 NVC_SCRAMBLE r in
  let r := reg_write32 NVC_SCRAMBLE (Z.lor regval 1) r in
  let r := reg_write32 NSC_SET_BIT_COUNT 0xfa0 r in
  let regval := reg_read32 ECC_ERR_CNT_REG r in
  reg_write32 ECC_ERR_CNT_REG (Z.lor regval ENABLE_ECC_ERR_CNT) r.

(** ** Loading and unloading the module *)

(** The driver as it runs, with the writes of boot pages that are still in flight. *)
Record driver : Type := mk_driver {
  d_ps : pstate;
  d_regs : Z → Z;
  d_ftl : ftl;
  d_boot : boot;
  d_exns : nvm_exns;
  d_flights : list flight;
}.

Definition release_pool (s : pstate) (fl : list flight) : res (Z * option driver * pstate * list flight) :=
  h ← nvm_exdev_release_pool (p_heap s); Ok (- EFAULT, None, mk_pstate h (p_pool s), fl).
Definition del_misc_dev (s : pstate) (fl : list flight) : res (Z * option driver * pstate * list flight) :=
  h ← backend_miscdev_delete (p_heap s); release_pool (mk_pstate h (p_pool s)) fl.
Definition err_cleanup (s : pstate) (fl : list flight) : res (Z * option driver * pstate * list flight) :=
  h ← fscftl_cleanup (p_heap s); del_misc_dev (mk_pstate h (p_pool s)) fl.

(** The device, for erases, raw reads, and reads of boot pages; [found]: whether
    [nvm_find_exdev] knows the device; [reg]: what [misc_register] returns. *)
Context {A : Type} (edev : nvme_ppa_command → gmap Z (gmap Z Z) → Z * A).
Context (dev : nvme_ppa_command → gmap Z Z → Z → Z) (order : list flight → list flight).
Context (bdev : nvme_ppa_command → gmap Z (gmap Z Z) → Z * portion).

(** The two ways to get at the system tables. *)
Definition start_tables (mcp : bool) (s : ftl) (b : boot) (ps : pstate)
    : res (Z * ftl * boot * pstate * list flight) :=
  if mcp then
    '(ret, b, m, fl) ← do_manufactory_init E ns_id edev dev order b (mk_mcp ps (sys s) 0 0 0 0 0);
    Ok (ret, set_sys (mp_sys m) s, b, mp_ps m, fl)
  else
    '(ret, y, b, ps, fl) ← try_recovery_systbl E ns_id bdev (sys s) b ps;
    Ok (ret, set_sys y s, b, ps, fl).

Definition fscftl_module_init (found mcp : bool) (reg : Z) (r : Z → Z) (s : pstate)
    : res (Z * option driver * pstate * list flight) :=
  if negb found then Ok (- ENODEV, None, s, []) else
  let r := ctrl_register_config r in
  let '(ret, h) := nvm_exdev_setup_pool E (p_heap s) in
  if decide (ret ≠ 0) then Ok (ret, None, mk_pstate h (p_pool s), []) else
  let '(ret, h) := backend_miscdev_create reg h in
  if decide (ret ≠ 0) then release_pool (mk_pstate h (p_pool s)) [] else
  '(ret, o, h) ← fscftl_setup h;
  if decide (ret ≠ 0) then del_misc_dev (mk_pstate h (p_pool s)) [] else
  '(f, b) ← deref o;
  '(ret, f, b, s, fl) ← start_tables mcp f b (mk_pstate h (p_pool s));
  if decide (ret ≠ 0) then err_cleanup s fl else
  f ← prepare_write_context f;
  '(ret, x, h) ← nvm_create_exns (p_heap s);
  if decide (ret ≠ 0) then err_cleanup (mk_pstate h (p_pool s)) fl else
  x ← deref x;
  let s := mk_pstate h (p_pool s) in
  Ok (0, Some (mk_driver s r f b x fl), s, fl).

(** What is left in flight when the module is gone. *)
Definition fscftl_module_exit (d : driver) : res (pstate * list flight) :=
  let s := d_ps d in
  h ← nvm_delete_exns (p_heap s);
  '(b, s, fl) ← flush_down_systbl E ns_id (sys (d_ftl d)) (d_boot d) (mk_pstate h (p_pool s));
  h ← fscftl_cleanup (p_heap s);
  h ← backend_miscdev_delete h;
  h ← nvm_exdev_release_pool h;
  Ok (mk_pstate h (p_pool s), d_flights d ++ fl).
End driver.

(** One allocation of the heap, for the instances. *)
Lemma kalloc_true alloc_ok o h os L :
  alloc_ok (k_calls h) = true → owns h os L → o ∉ k_live h →
  ∃ h', kalloc alloc_ok o h = (true, h') ∧ k_calls h' = S (k_calls h) ∧ owns h' (o :: os) L ∧
    k_live h' = {[o]} ∪ k_live h.
Proof.
  intros Ha Ho Hn. unfold kalloc. rewrite Ha. eexists. split; [done|]. split; [done|]. split; [|done].
  by eapply owns_alloc.
Qed.

Lemma kalloc_false alloc_ok o h os L :
  alloc_ok (k_calls h) = false → owns h os L →
  ∃ h', kalloc alloc_ok o h = (false, h') ∧ k_calls h' = S (k_calls h) ∧ owns h' os L.
Proof.
  intros Ha [H1 H2 H3]. unfold kalloc. rewrite Ha. eexists. split; [done|]. split; [done|]. by constructor.
Qed.

Lemma owns_app h0 h os1 os2 L : owns h0 os2 L → owns h os1 (k_live h0) → owns h (os1 ++ os2) L.
Proof.
  intros [A1 A2 A3] [B1 B2 B3]. constructor.
  - rewrite B1, A1, list_to_set_app_L. by rewrite (assoc_L (∪)).
  - apply NoDup_app. split; [done|]. split; [|done]. intros o Ho Ho2. apply (B3 o Ho).
    rewrite A1, elem_of_union, elem_of_list_to_set. by left.
  - intros o [Ho|Ho]%elem_of_app; [|by apply A3]. intros Hl. apply (B3 o Ho). rewrite A1, elem_of_union. by right.
Qed.

Lemma owns_split h0 h os1 os2 L : owns h (os1 ++ os2) L → owns h0 os2 L → owns h os1 (k_live h0).
Proof.
  intros [B1 B2 B3] [A1 A2 A3]. apply NoDup_app in B2 as (B2 & Hd & _). constructor; [|done|].
  - rewrite B1, A1, list_to_set_app_L. by rewrite (assoc_L (∪)).
  - intros o Hin. rewrite A1, elem_of_union, elem_of_list_to_set. intros [Hl|Hl]; [by apply (Hd o)|].
    apply (B3 o); [|done]. apply elem_of_app. by left.
Qed.

Lemma owns_leak h h' os L X : owns h os L → X ## k_live h → k_live h' = X ∪ k_live h → owns h' os (X ∪ L).
Proof.
  intros [H1 H2 H3] Hd Hl. rewrite H1 in Hd, Hl. constructor; [rewrite Hl; set_solver|done|].
  intros o Ho [Hx|Hin]%elem_of_union; [|by apply (H3 o)]. apply (Hd o Hx), elem_of_union. left. by apply elem_of_list_to_set.
Qed.

(** Objects not named by the allocation count do not matter for [heap_wf]. *)
Definition static_obj (o : obj) : Prop := o.1 ∉ ["dmapage"; "ppacmd"; "request"].

Lemma owns_heap_wf h0 h os :
  heap_wf h0 → owns h os (k_live h0) → (k_calls h0 ≤ k_calls h)%nat → Forall static_obj os → heap_wf h.
Proof.
  intros Hw Ho Hc Hs nm i Hin Hn. rewrite (ow_live _ _ _ Ho), elem_of_union, elem_of_list_to_set in Hin.
  destruct Hin as [Hin|Hin]; [|specialize (Hw _ _ Hin Hn); lia].
  rewrite Forall_forall in Hs. by destruct (Hs _ Hin).
Qed.

Section instances.
Context (alloc_ok : nat → bool) {A : Type} (err : list obj → Z) (a : A).

(** Allocations one after the other; when one fails, those before it are released, the
    last first. *)
Fixpoint chain (todo held : list obj) (h : kheap) : res (Z * option A * kheap) :=
  match todo with
  | [] => Ok (0, Some a, h)
  | o :: todo =>
      let '(ok, h) := kalloc alloc_ok o h in
      if ok then chain todo (o :: held) h else h ← mfor held kfree h; Ok (err held, None, h)
  end.

Lemma mfor_kfree l : ∀ h os L,
  owns h (l ++ os) L → ∃ h', mfor l kfree h = Ok h' ∧ k_calls h' = k_calls h ∧ owns h' os L.
Proof using.
  induction l as [|o l IH]; intros h os L Ho; cbn [mfor].
  - by exists h.
  - destruct (owns_free _ _ _ _ Ho) as (h1 & -> & Hc & Ho1). rewrite bind_Ok_l.
    destruct (IH _ _ _ Ho1) as (h2 & -> & Hc2 & Ho2). exists h2. split; [done|]. split; [congruence|done].
Qed.

Lemma chain_ok todo : ∀ held h os L,
  owns h (held ++ os) L → NoDup todo → (∀ o, o ∈ todo → o ∉ k_live h) →
  (∀ j, (j < length todo)%nat → alloc_ok (k_calls h + j)%nat = true) →
  ∃ h', chain todo held h = Ok (0, Some a, h') ∧ k_calls h' = (k_calls h + length todo)%nat ∧
    owns h' (reverse todo ++ held ++ os) L.
Proof using.
  induction todo as [|o todo IH]; intros held h os L Ho Hnd Hn Hok; cbn [chain length] in *.
  - exists h. split; [done|]. split; [lia|done].
  - apply NoDup_cons in Hnd as [Hno Hnd].
    destruct (kalloc_true alloc_ok o h (held ++ os) L) as (h1 & -> & Hc & Ho1 & Hl).
    + rewrite <-(Nat.add_0_r (k_calls h)). apply Hok. lia.
    + done.
    + apply Hn. by left.
    + destruct (IH (o :: held) h1 os L) as (h2 & Hrun & Hc2 & Ho2); try done.
      * intros o' Hin. rewrite Hl, elem_of_union, elem_of_singleton.
        intros [->|Hin']; [done|]. revert Hin'. apply Hn. by right.
      * intros j Hj. rewrite Hc, Nat.add_succ_comm. apply Hok. lia.
      * exists h2. split; [done|]. split; [lia|]. rewrite reverse_cons, <-app_assoc. exact Ho2.
Qed.

Lemma chain_fail todo : ∀ held h os L j,
  owns h (held ++ os) L → NoDup todo → (∀ o, o ∈ todo → o ∉ k_live h) → (j < length todo)%nat →
  (∀ i, (i < j)%nat → alloc_ok (k_calls h + i)%nat = true) → alloc_ok (k_calls h + j)%nat = false →
  ∃ h', chain todo held h = Ok (err (reverse (take j todo) ++ held), None, h') ∧ owns h' os L.
Proof using.
  induction todo as [|o todo IH]; intros held h os L j Ho Hnd Hn Hj Hok Hf; cbn [chain length] in *; [lia|].
  apply NoDup_cons in Hnd as [Hno Hnd]. destruct j as [|j].
  - rewrite Nat.add_0_r in Hf. destruct (kalloc_false alloc_ok o h _ L Hf Ho) as (h1 & -> & _ & Ho1).
    destruct (mfor_kfree held h1 os L Ho1) as (h2 & -> & _ & Ho2). rewrite bind_Ok_l. by exists h2.
  - destruct (kalloc_true alloc_ok o h (held ++ os) L) as (h1 & -> & Hc & Ho1 & Hl).
    + rewrite <-(Nat.add_0_r (k_calls h)). apply Hok. lia.
    + done.
    + apply Hn. by left.
    + destruct (IH (o :: held) h1 os L j) as (h2 & Hrun & Ho2); try done; try lia.
      * intros o' Hin. rewrite Hl, elem_of_union, elem_of_singleton.
        intros [->|Hin']; [done|]. revert Hin'. apply Hn. by right.
      * intros i Hi. rewrite Hc, Nat.add_succ_comm. apply Hok. lia.
      * by rewrite Hc, Nat.add_succ_comm.
      * exists h2. split; [|done]. rewrite Hrun. cbn [take]. by rewrite reverse_cons, <-app_assoc.
Qed.

(** A component whose allocations are such a chain. *)
Lemma resource_chain (init : kheap → res (Z * option A * kheap)) exit os12 objs errs :
  (∀ h, init h = chain objs [] h) → (∀ h, exit h = mfor os12 kfree h) →
  NoDup objs → os12 ≡ₚ objs → (∀ held, err held ∈ errs) →
  Resource alloc_ok init exit os12 errs (λ x, x = a).
Proof using.
  intros Hi He Hnd Hp Herr. constructor.
  - intros h os L Ho Hn Hok. rewrite Hi. setoid_rewrite Hp in Hn. setoid_rewrite Hp in Hok.
    destruct (chain_ok objs [] h os L Ho Hnd Hn Hok) as (h' & -> & Hc & Ho').
    exists a, h'. split; [done|]. split; [done|]. split; [by rewrite Hp|].
    eapply owns_perm; [|exact Ho']. by rewrite Hp, reverse_Permutation.
  - intros h os L j Ho Hn Hj Hok Hf. rewrite Hi. setoid_rewrite Hp in Hn. rewrite Hp in Hj.
    destruct (chain_fail objs [] h os L j Ho Hnd Hn Hj Hok Hf) as (h' & -> & Ho'). by do 2 eexists.
  - intros h os L Ho. rewrite He. by apply mfor_kfree.
Qed.
End instances.

(** ** The components *)

Definition state_objs : list obj := [("statetbl", 0)].
Definition boot_objs : list obj := [bootmeta; bootbbt].
Definition bmi_objs : list obj := [("bmitbl", 0)].
Definition vpc_objs : list obj := [("vpctbl", 0)].
Definition l2p_objs : list obj := [("l2ptbl", 0); ("l2pl1tbl", 0)].
Definition exns_objs : list obj := [queue_obj; disk_obj; nsid_obj; exns_obj].

Definition fresh_disk : nvm_exns := mk_exns 1 ((MAX_USER_LBA + 1) * 8) 4 512.

Ltac by_runs := let h := fresh in intros h; cbn [chain mfor state_objs boot_objs bmi_objs vpc_objs l2p_objs exns_objs reverse rev_append];
  repeat (match goal with
          | |- context [kalloc ?a ?o ?h] => destruct (kalloc a o h) as [[|] ?]
          | |- context [kfree ?o ?h] => destruct (kfree o h)
          end; cbn [negb mfor mbind res_bind]; try reflexivity).

Section components.
Context (E : kenv).

#[export] Instance statetbl_resource :
  Resource (alloc_ok E) (λ h, Ok (statetbl_init (alloc_ok E) h)) statetbl_exit state_objs [- ENOMEM]
    (λ x, x = statetbl fresh_sysmeta).
Proof.
  apply (resource_chain (alloc_ok E) (λ _, - ENOMEM) (statetbl fresh_sysmeta) _ _ state_objs state_objs).
  - unfold statetbl_init. by_runs.
  - unfold statetbl_exit. by_runs.
  - by apply (bool_decide_unpack _).
  - done.
  - intros _. by left.
Qed.

#[export] Instance boot_resource :
  Resource (alloc_ok E) (bootblk_page_init E) bootblk_page_exit boot_objs [- ENOMEM]
    (λ x, x = mk_boot (set_magic BOOTBLK_BBT_MDW ∅) init_meta).
Proof.
  apply (resource_chain (alloc_ok E) (λ _, - ENOMEM) _ _ _ boot_objs (reverse boot_objs)).
  - unfold bootblk_page_init. by_runs.
  - unfold bootblk_page_exit. by_runs.
  - by apply (bool_decide_unpack _).
  - by rewrite reverse_Permutation.
  - intros _. by left.
Qed.

#[export] Instance bmitbl_resource :
  Resource (alloc_ok E) (λ h, Ok (bmitbl_init (alloc_ok E) h)) bmitbl_exit bmi_objs [- ENOMEM]
    (λ x, x = fresh_bmitbl).
Proof.
  apply (resource_chain (alloc_ok E) (λ _, - ENOMEM) fresh_bmitbl _ _ bmi_objs bmi_objs).
  - unfold bmitbl_init. by_runs.
  - unfold bmitbl_exit. by_runs.
  - by apply (bool_decide_unpack _).
  - done.
  - intros _. by left.
Qed.

#[export] Instance vpctbl_resource :
  Resource (alloc_ok E) (λ h, Ok (vpctbl_init (alloc_ok E) h)) vpctbl_exit vpc_objs [- ENOMEM] (λ x, x = ∅).
Proof.
  apply (resource_chain (alloc_ok E) (λ _, - ENOMEM) ∅ _ _ vpc_objs vpc_objs).
  - unfold vpctbl_init. by_runs.
  - unfold vpctbl_exit. by_runs.
  - by apply (bool_decide_unpack _).
  - done.
  - intros _. by left.
Qed.

#[export] Instance l2ptbl_resource :
  Resource (alloc_ok E) (l2ptbl_init (alloc_ok E)) l2ptbl_exit l2p_objs [- ENOMEM] (λ x, x = ∅).
Proof.
  apply (resource_chain (alloc_ok E) (λ _, - ENOMEM) ∅ _ _ l2p_objs l2p_objs).
  - unfold l2ptbl_init. by_runs.
  - unfold l2ptbl_exit. by_runs.
  - by apply (bool_decide_unpack _).
  - done.
  - intros _. by left.
Qed.

#[export] Instance exns_resource :
  Resource (alloc_ok E) (nvm_create_exns E) nvm_delete_exns exns_objs [- ENOMEM; - EFAULT] (λ x, x = fresh_disk).
Proof.
  apply (resource_chain (alloc_ok E) (λ held, match held with [] => - ENOMEM | _ => - EFAULT end)
    fresh_disk _ _ exns_objs (reverse exns_objs)).
  - unfold nvm_create_exns, out_put_disk, out_remove_idr, out_free_ns. by_runs.
  - unfold nvm_delete_exns. by_runs.
  - by apply (bool_decide_unpack _).
  - by rewrite reverse_Permutation.
  - intros [|]; [by left|by right; left].
Qed.
End components.

(** *** The write cache *)

Definition wcb_objs : list obj :=
  ("lun_entitys", 0) :: ("wcb_lun_ctl", 0) ::
  (seqZ 0 CB_ENTITYS_CNT ≫= λ i, [("lun_data", i); ("lun_meta", i); ("lun_ppa", i)]).

Lemma wcb_objs_set (L : gset obj) :
  list_to_set wcb_objs ∪ L = all_lun_objs (seqZ 0 CB_ENTITYS_CNT) ∪ ({[("lun_entitys", 0)]} ∪ ({[("wcb_lun_ctl", 0)]} ∪ L)).
Proof.
  assert (list_to_set wcb_objs = all_lun_objs (seqZ 0 CB_ENTITYS_CNT) ∪ ({[("lun_entitys", 0)]} ∪ {[("wcb_lun_ctl", 0)]})) as ->
    by (apply (bool_decide_unpack _); vm_compute; exact I).
  by rewrite <-!(assoc_L (∪)).
Qed.

Lemma wcb_objs_nodup : NoDup wcb_objs.
Proof. apply (bool_decide_unpack _). vm_compute. exact I. Qed.

Lemma write_cache_free_ok h os L :
  owns h (wcb_objs ++ os) L → ∃ h', write_cache_free h = Ok h' ∧ owns h' os L.
Proof.
  intros [H1 H2 H3]. apply NoDup_app in H2 as (_ & Hd & H2).
  assert (∀ o, o ∈ wcb_objs → o ∉ list_to_set os ∪ L) as Hn.
  { intros o Ho. rewrite elem_of_union, elem_of_list_to_set. intros [Hin|Hin]; [by apply (Hd o)|].
    revert Hin. apply H3, elem_of_app. by left. }
  destruct (write_cache_free_spec h (list_to_set os ∪ L)) as (h' & -> & Hl).
  - rewrite H1, list_to_set_app_L, <-(assoc_L (∪)). apply wcb_objs_set.
  - intros o Ho. apply Hn. apply (elem_of_list_to_set (C := gset obj)).
    rewrite <-(union_empty_r_L (list_to_set wcb_objs)), wcb_objs_set. apply elem_of_union. by left.
  - apply Hn. right. by left.
  - apply Hn. by left.
  - exists h'. split; [done|]. constructor; [done|done|]. intros o Ho. apply H3, elem_of_app. by right.
Qed.

Lemma write_cache_ok E h os L :
  owns h os L → (∀ o, o ∈ wcb_objs → o ∉ k_live h) →
  (∀ j, (j < length wcb_objs)%nat → alloc_ok E (k_calls h + j)%nat = true) →
  ∃ c h', write_cache_alloc E h = Ok (0, Some c, h') ∧ cache_upto c CB_ENTITYS_CNT ∧
    k_calls h' = (k_calls h + length wcb_objs)%nat ∧ owns h' (wcb_objs ++ os) L.
Proof.
  intros [H1 H2 H3] Hn Ha. change (length wcb_objs) with 50%nat in *. unfold write_cache_alloc.
  rewrite wcb_lun_ctl_init_ok.
  2:{ rewrite <-(Nat.add_0_r (k_calls h)). apply Ha. lia. }
  2:{ rewrite <-Nat.add_1_r. apply Ha. lia. }
  rewrite bind_Ok_l, decide_False by lia. change (deref (Some gctl_init)) with (Ok gctl_init). rewrite bind_Ok_l.
  set (h1 := mk_kheap _ _).
  destruct (wcb_lun_mem_prefix E 16 gctl_init h1 0 gctl_init_upto) as (c & h' & Hr & Hc & Hk & Hl); [done|done| |].
  { intros j Hj. unfold h1. cbn [k_calls]. replace (S (S (k_calls h)) + j)%nat with (k_calls h + (2 + j))%nat by lia. apply Ha. lia. }
  assert (wcb_lun_mem_alloc E gctl_init h1 = Ok (0, c, h')) as -> by (unfold wcb_lun_mem_alloc; exact Hr).
  rewrite bind_Ok_l, decide_False by lia. exists c, h'. split; [done|]. split; [done|].
  split; [unfold h1 in Hk; cbn [k_calls] in Hk; lia|].
  constructor.
  - rewrite Hl. change (0 + Z.of_nat 16) with CB_ENTITYS_CNT. unfold h1. cbn [k_live].
    change (Z.of_nat 16) with CB_ENTITYS_CNT. rewrite <-wcb_objs_set, H1, list_to_set_app_L. apply (assoc_L (∪)).
  - apply NoDup_app. split; [apply wcb_objs_nodup|]. split; [|done]. intros o Ho Ho2. apply (Hn o Ho).
    rewrite H1, elem_of_union, elem_of_list_to_set. by left.
  - intros o [Ho|Ho]%elem_of_app; [|by apply H3]. intros Hin. apply (Hn o Ho). rewrite H1, elem_of_union. by right.
Qed.

Definition wcb_ctl_objs : list obj := [("lun_entitys", 0); ("wcb_lun_ctl", 0)].

#[export] Instance wcb_ctl_resource E :
  Resource (alloc_ok E) (wcb_lun_ctl_init E) wcb_lun_ctl_exit wcb_ctl_objs [- ENOMEM] (λ x, x = gctl_init).
Proof.
  apply (resource_chain (alloc_ok E) (λ _, - ENOMEM) gctl_init _ _ wcb_ctl_objs (reverse wcb_ctl_objs)).
  - unfold wcb_lun_ctl_init, wcb_ctl_objs. by_runs.
  - unfold wcb_lun_ctl_exit, wcb_ctl_objs. by_runs.
  - by apply (bool_decide_unpack _).
  - by rewrite reverse_Permutation.
  - intros _. by left.
Qed.

(** *** The threads *)

Definition writer_objs : list obj := [writer_thread; rewr_thread; requeue_bios_wq].

Lemma writer_init_ok E h os L :
  owns h os L → (∀ o, o ∈ writer_objs → o ∉ k_live h) →
  (∀ j, (j < length writer_objs)%nat → alloc_ok E (k_calls h + j)%nat = true) →
  ∃ h', fscftl_writer_init E h = Ok (0, h') ∧ k_calls h' = (k_calls h + length writer_objs)%nat ∧
    owns h' (writer_objs ++ os) L.
Proof.
  intros Ho Hn Ha.
  destruct (chain_ok (alloc_ok E) (λ _, 0) tt (reverse writer_objs) [] h os L) as (h' & Hrun & Hc & Ho'); [done| | | |].
  - apply (bool_decide_unpack _). exact I.
  - intros o Hin%elem_of_reverse. by apply Hn.
  - intros j Hj. apply Ha. by rewrite length_reverse in Hj.
  - exists h'. split; [|split; [by rewrite length_reverse in Hc|by rewrite reverse_involutive in Ho']].
    revert Hrun. unfold fscftl_writer_init, kthread_run. change (reverse writer_objs) with [requeue_bios_wq; rewr_thread; writer_thread].
    cbn [chain]. destruct (kalloc _ requeue_bios_wq h) as [[] h1]; [|by intros (? & _ & [=])%bind_Ok].
    destruct (kalloc _ rewr_thread h1) as [[] h2]; [|by intros (? & _ & [=])%bind_Ok].
    rewrite bind_Ok_l. destruct (kalloc _ writer_thread h2) as [[] h3]; [|by intros (? & _ & [=])%bind_Ok].
    rewrite bind_Ok_l. by intros [= ->].
Qed.

Lemma writer_exit_ok h os L :
  owns h (writer_objs ++ os) L → ∃ h', fscftl_writer_exit h = Ok h' ∧ owns h' os L.
Proof.
  intros Ho. destruct (mfor_kfree writer_objs h os L Ho) as (h' & Hrun & _ & Ho'). exists h'. split; [|done].
  rewrite <-Hrun. clear. revert h. unfold fscftl_writer_exit, writer_objs. by_runs.
Qed.

(** ** Setting up *)

Definition setup_objs : list obj :=
  writer_objs ++ wcb_objs ++ l2p_objs ++ vpc_objs ++ bmi_objs ++ boot_objs ++ state_objs.

Lemma fresh_step (objs : list obj) h dn L :
  owns h dn L → (∀ o, o ∈ objs → o ∉ dn ∧ o ∉ L) → ∀ o, o ∈ objs → o ∉ k_live h.
Proof.
  intros Ho Hn o Hin. destruct (Hn o Hin) as [H1 H2]. rewrite (ow_live _ _ _ Ho), elem_of_union, elem_of_list_to_set. tauto.
Qed.

Definition setup_names : list string :=
  ["kthread"; "workqueue"; "lun_entitys"; "wcb_lun_ctl"; "lun_data"; "lun_meta"; "lun_ppa"; "l2ptbl"; "l2pl1tbl";
   "vpctbl"; "bmitbl"; "bootmeta"; "bootbbt"; "statetbl"].

Lemma setup_objs_nodup : NoDup setup_objs.
Proof. apply (bool_decide_unpack _). vm_compute. exact I. Qed.

Lemma setup_objs_names o : o ∈ setup_objs → o.1 ∈ setup_names.
Proof.
  assert (Forall (λ o : obj, o.1 ∈ setup_names) setup_objs) as H by (apply (bool_decide_unpack _); vm_compute; exact I).
  rewrite Forall_forall in H. apply H.
Qed.

Section setup.
Context (E : kenv) (dn : list obj) (L : gset obj).
Context (Hn : ∀ o : obj, o.1 ∈ setup_names → o ∉ dn ∧ o ∉ L).
#[local] Set Default Proof Using "All".

(** When [tk] is taken, [objs] is not. *)
Lemma setup_fresh pre objs tk h :
  setup_objs = pre ++ objs ++ tk → owns h (tk ++ dn) L → ∀ o, o ∈ objs → o ∉ k_live h.
Proof.
  intros Hs Ho. apply (fresh_step objs h (tk ++ dn) L Ho). intros o Hin.
  assert (o ∈ setup_objs) as Hin' by (rewrite Hs, !elem_of_app; tauto).
  destruct (Hn o (setup_objs_names o Hin')) as [H1 H2]. split; [|done].
  rewrite elem_of_app. intros [Ht|?]; [|done]. pose proof setup_objs_nodup as Hnd. rewrite Hs in Hnd.
  apply NoDup_app in Hnd as (_ & _ & Hnd). apply NoDup_app in Hnd as (_ & Hnd & _). by apply (Hnd o).
Qed.

(** The labels. *)
Lemma out_free_statetbl_ok ret h dn' L' :
  owns h (state_objs ++ dn') L' → ∃ h', out_free_statetbl ret h = Ok (ret, None, h') ∧ owns h' dn' L'.
Proof.
  intros Ho. unfold out_free_statetbl.
  destruct (res_exit (Resource := statetbl_resource E) h dn' L' Ho) as (h1 & -> & _ & Ho1). rewrite bind_Ok_l. by exists h1.
Qed.

Lemma out_free_bootpage_ok ret h dn' L' :
  owns h (boot_objs ++ state_objs ++ dn') L' → ∃ h', out_free_bootpage ret h = Ok (ret, None, h') ∧ owns h' dn' L'.
Proof.
  intros Ho. unfold out_free_bootpage.
  destruct (res_exit (Resource := boot_resource E) h _ L' Ho) as (h1 & -> & _ & Ho1). rewrite bind_Ok_l.
  by apply out_free_statetbl_ok.
Qed.

Lemma out_free_bmitbl_ok ret h dn' L' :
  owns h (bmi_objs ++ boot_objs ++ state_objs ++ dn') L' →
  ∃ h', out_free_bmitbl ret h = Ok (ret, None, h') ∧ owns h' dn' L'.
Proof.
  intros Ho. unfold out_free_bmitbl.
  destruct (res_exit (Resource := bmitbl_resource E) h _ L' Ho) as (h1 & -> & _ & Ho1). rewrite bind_Ok_l.
  by apply out_free_bootpage_ok.
Qed.

Lemma out_free_vpctbl_ok ret h dn' L' :
  owns h (vpc_objs ++ bmi_objs ++ boot_objs ++ state_objs ++ dn') L' →
  ∃ h', out_free_vpctbl ret h = Ok (ret, None, h') ∧ owns h' dn' L'.
Proof.
  intros Ho. unfold out_free_vpctbl.
  destruct (res_exit (Resource := vpctbl_resource E) h _ L' Ho) as (h1 & -> & _ & Ho1). rewrite bind_Ok_l.
  by apply out_free_bmitbl_ok.
Qed.

Lemma out_free_l2p_ok ret h dn' L' :
  owns h (l2p_objs ++ vpc_objs ++ bmi_objs ++ boot_objs ++ state_objs ++ dn') L' →
  ∃ h', out_free_l2p ret h = Ok (ret, None, h') ∧ owns h' dn' L'.
Proof.
  intros Ho. unfold out_free_l2p.
  destruct (res_exit (Resource := l2ptbl_resource E) h _ L' Ho) as (h1 & -> & _ & Ho1). rewrite bind_Ok_l.
  by apply out_free_vpctbl_ok.
Qed.

(** The first five components, when the allocations before number [n] succeed. *)
Definition tables_objs : list obj := l2p_objs ++ vpc_objs ++ bmi_objs ++ boot_objs ++ state_objs.

(** [fscftl_setup] from the write cache on. *)
Definition setup_tail (h : kheap) : res (Z * option (ftl * boot) * kheap) :=
  '(ret, c, h) ← write_cache_alloc E h;
  if decide (ret ≠ 0) then out_free_l2p ret h else
  '(ret, h) ← fscftl_writer_init E h;
  if decide (ret ≠ 0) then out_free_wcb ret h else
  c ← deref c;
  Ok (ret, Some (mk_ftl c fresh_sysmeta ∅, mk_boot (set_magic BOOTBLK_BBT_MDW ∅) init_meta), h).

#[local] Ltac fresh_tac pre := eapply (setup_fresh pre); [reflexivity|eassumption].
#[local] Ltac calls_tac Hok := intros j Hj; cbn [length state_objs boot_objs bmi_objs vpc_objs l2p_objs] in Hj;
  match goal with |- alloc_ok E ?x = true =>
    match type of Hok with forall i : nat, _ -> alloc_ok E (k_calls ?h + i)%nat = true =>
      replace x with (k_calls h + (x - k_calls h))%nat by lia; apply Hok; lia end end.
(** A stage of the set up that succeeds: component [R], with [pre] still to come. *)
#[local] Ltac stage_ok R pre h Ho Hok h' Hc Ho' :=
  destruct (res_init (Resource := R) h _ L Ho) as (? & h' & -> & -> & Hc & Ho');
  [fresh_tac pre|calls_tac Hok|cbn [length state_objs boot_objs bmi_objs vpc_objs l2p_objs] in Hc; rewrite bind_Ok_l, decide_False by lia].
(** A stage that fails at its allocation [j]. *)
#[local] Ltac stage_fail R pre h Ho Hok Hf j :=
  let e := fresh "e" in
  destruct (res_fail (Resource := R) h _ L j Ho) as (e & ? & -> & He & ?);
  [fresh_tac pre|cbn [length state_objs boot_objs bmi_objs vpc_objs l2p_objs]; lia|calls_tac Hok
  |match type of Hf with alloc_ok E ?x = false => match goal with |- alloc_ok E ?y = false => by replace y with x by lia end end
  |apply list_elem_of_singleton in He; subst e; rewrite bind_Ok_l, decide_True by done].

Lemma setup_tables h n :
  owns h dn L → (∀ i, (i < n)%nat → alloc_ok E (k_calls h + i)%nat = true) →
  (alloc_ok E (k_calls h + n)%nat = false → (n < 7)%nat →
     ∃ h', fscftl_setup E h = Ok (- ENOMEM, None, h') ∧ owns h' dn L) ∧
  ((7 ≤ n)%nat → ∃ h', fscftl_setup E h = setup_tail h' ∧ k_calls h' = (k_calls h + 7)%nat ∧
     owns h' (tables_objs ++ dn) L).
Proof.
  intros Ho Hok. split; [intros Hf H7|intros H7]; unfold fscftl_setup.
  - destruct (decide (n < 1)%nat).
    { stage_fail (statetbl_resource E) (writer_objs ++ wcb_objs ++ l2p_objs ++ vpc_objs ++ bmi_objs ++ boot_objs) h Ho Hok Hf n. by eexists. }
    stage_ok (statetbl_resource E) (writer_objs ++ wcb_objs ++ l2p_objs ++ vpc_objs ++ bmi_objs ++ boot_objs) h Ho Hok h1 Hc1 Ho1.
    destruct (decide (n < 3)%nat).
    { stage_fail (boot_resource E) (writer_objs ++ wcb_objs ++ l2p_objs ++ vpc_objs ++ bmi_objs) h1 Ho1 Hok Hf (n - 1)%nat.
      by apply out_free_statetbl_ok. }
    stage_ok (boot_resource E) (writer_objs ++ wcb_objs ++ l2p_objs ++ vpc_objs ++ bmi_objs) h1 Ho1 Hok h2 Hc2 Ho2.
    destruct (decide (n < 4)%nat).
    { stage_fail (bmitbl_resource E) (writer_objs ++ wcb_objs ++ l2p_objs ++ vpc_objs) h2 Ho2 Hok Hf (n - 3)%nat.
      by apply out_free_bootpage_ok. }
    stage_ok (bmitbl_resource E) (writer_objs ++ wcb_objs ++ l2p_objs ++ vpc_objs) h2 Ho2 Hok h3 Hc3 Ho3.
    destruct (decide (n < 5)%nat).
    { stage_fail (vpctbl_resource E) (writer_objs ++ wcb_objs ++ l2p_objs) h3 Ho3 Hok Hf (n - 4)%nat.
      by apply out_free_bmitbl_ok. }
    stage_ok (vpctbl_resource E) (writer_objs ++ wcb_objs ++ l2p_objs) h3 Ho3 Hok h4 Hc4 Ho4.
    stage_fail (l2ptbl_resource E) (writer_objs ++ wcb_objs) h4 Ho4 Hok Hf (n - 5)%nat.
    by apply out_free_vpctbl_ok.
  - stage_ok (statetbl_resource E) (writer_objs ++ wcb_objs ++ l2p_objs ++ vpc_objs ++ bmi_objs ++ boot_objs) h Ho Hok h1 Hc1 Ho1.
    stage_ok (boot_resource E) (writer_objs ++ wcb_objs ++ l2p_objs ++ vpc_objs ++ bmi_objs) h1 Ho1 Hok h2 Hc2 Ho2.
    stage_ok (bmitbl_resource E) (writer_objs ++ wcb_objs ++ l2p_objs ++ vpc_objs) h2 Ho2 Hok h3 Hc3 Ho3.
    stage_ok (vpctbl_resource E) (writer_objs ++ wcb_objs ++ l2p_objs) h3 Ho3 Hok h4 Hc4 Ho4.
    stage_ok (l2ptbl_resource E) (writer_objs ++ wcb_objs) h4 Ho4 Hok h5 Hc5 Ho5.
    exists h5. split; [reflexivity|]. split; [lia|exact Ho5].
Qed.
Lemma wcb_fresh_live h : owns h (tables_objs ++ dn) L → wcb_fresh h.
Proof.
  intros Ho. assert (∀ o, o.1 ∈ ["lun_data"; "lun_meta"; "lun_ppa"; "lun_entitys"; "wcb_lun_ctl"] → o ∉ k_live h) as H.
  { intros o Hin. assert (o.1 ∈ setup_names) as Hin' by (revert Hin; generalize o.1; apply Forall_forall, (bool_decide_unpack _); exact I).
    destruct (Hn o Hin') as [H1 H2]. rewrite (ow_live _ _ _ Ho), elem_of_union, elem_of_list_to_set, elem_of_app.
    intros [[Ht|?]|?]; [|done..].
    assert (Forall (λ o : obj, o.1 ∉ ["lun_data"; "lun_meta"; "lun_ppa"; "lun_entitys"; "wcb_lun_ctl"]) tables_objs) as Hnt
      by (apply (bool_decide_unpack _); exact I).
    rewrite Forall_forall in Hnt. by apply (Hnt o). }
  split; [|split]; [|apply H; cbn; set_solver|apply H; cbn; set_solver].
  intros i o [_ Hin]%elem_of_lun_objs Hl. revert Hl. apply H. revert Hin.
  generalize o.1. apply Forall_forall, (bool_decide_unpack _). exact I.
Qed.

(** Everything is taken, and given back. *)
Lemma setup_tail_ok h :
  owns h (tables_objs ++ dn) L → (∀ i, (i < 53)%nat → alloc_ok E (k_calls h + i)%nat = true) →
  ∃ c h', setup_tail h = Ok (0, Some (mk_ftl c fresh_sysmeta ∅, mk_boot (set_magic BOOTBLK_BBT_MDW ∅) init_meta), h') ∧
    cache_upto c CB_ENTITYS_CNT ∧ k_calls h' = (k_calls h + 53)%nat ∧ owns h' (setup_objs ++ dn) L.
Proof.
  intros Ho Hok. unfold setup_tail.
  destruct (write_cache_ok E h _ L Ho) as (c & h1 & -> & Hc & Hk1 & Ho1).
  { fresh_tac writer_objs. }
  { intros j Hj. apply Hok. change (length wcb_objs) with 50%nat in Hj. lia. }
  change (length wcb_objs) with 50%nat in Hk1. rewrite bind_Ok_l, decide_False by lia.
  destruct (writer_init_ok E h1 _ L Ho1) as (h2 & -> & Hk2 & Ho2).
  { apply (setup_fresh [] writer_objs (wcb_objs ++ tables_objs)); [reflexivity|by rewrite <-app_assoc]. }
  { intros j Hj. change (length writer_objs) with 3%nat in Hj. rewrite Hk1, <-Nat.add_assoc. apply Hok. lia. }
  change (length writer_objs) with 3%nat in Hk2. rewrite bind_Ok_l, decide_False by lia.
  cbn [deref]. rewrite bind_Ok_l. exists c, h2. split; [done|]. split; [done|]. split; [lia|].
  unfold setup_objs. fold tables_objs. by rewrite <-!app_assoc.
Qed.

Lemma cleanup_ok h dn' L' : owns h (setup_objs ++ dn') L' → ∃ h', fscftl_cleanup h = Ok h' ∧ owns h' dn' L'.
Proof.
  unfold setup_objs. rewrite <-!app_assoc. intros Ho. unfold fscftl_cleanup.
  destruct (writer_exit_ok h _ L' Ho) as (h1 & -> & Ho1). rewrite bind_Ok_l.
  destruct (write_cache_free_ok h1 _ L' Ho1) as (h2 & -> & Ho2). rewrite bind_Ok_l.
  destruct (res_exit (Resource := l2ptbl_resource E) h2 _ L' Ho2) as (h3 & -> & _ & Ho3). rewrite bind_Ok_l.
  destruct (res_exit (Resource := vpctbl_resource E) h3 _ L' Ho3) as (h4 & -> & _ & Ho4). rewrite bind_Ok_l.
  destruct (res_exit (Resource := bmitbl_resource E) h4 _ L' Ho4) as (h5 & -> & _ & Ho5). rewrite bind_Ok_l.
  destruct (res_exit (Resource := boot_resource E) h5 _ L' Ho5) as (h6 & -> & _ & Ho6). rewrite bind_Ok_l.
  destruct (res_exit (Resource := statetbl_resource E) h6 _ L' Ho6) as (h7 & -> & _ & Ho7). by exists h7.
Qed.

(** The write cache does not come up. *)
Lemma setup_tail_cache_fails h n :
  owns h (tables_objs ++ dn) L → (n < 50)%nat →
  (∀ i, (i < n)%nat → alloc_ok E (k_calls h + i)%nat = true) → alloc_ok E (k_calls h + n)%nat = false →
  if (n <? 2)%nat then ∃ h', setup_tail h = Ok (- ENOMEM, None, h') ∧ owns h' dn L
  else if (n <? 5)%nat then setup_tail h = Fault F_OOB
  else ∃ h', setup_tail h = Ok (- ENOMEM, None, h') ∧ owns h' dn (lun_objs 0 ∪ L).
Proof.
  intros Ho Hlt Hok Hf. unfold setup_tail. assert (∀ o, o ∈ wcb_objs → o ∉ k_live h) as Hfr by fresh_tac writer_objs.
  destruct (Nat.ltb_spec n 2) as [H2|H2].
  - destruct (res_fail (Resource := wcb_ctl_resource E) h _ L n Ho) as (e & h1 & Hrun & He & Ho1); [|done..|].
    { intros o Hin. apply Hfr. apply elem_of_cons in Hin as [->|Hx%list_elem_of_singleton]; [by left|subst o; by right; left]. }
    apply list_elem_of_singleton in He. subst e. unfold write_cache_alloc. rewrite Hrun, !bind_Ok_l.
    rewrite decide_True, bind_Ok_l, decide_True by done. by apply out_free_l2p_ok.
  - assert (lun_objs 0 ## k_live h) as Hd0.
    { intros o Hin. apply Hfr. apply elem_of_lun_objs in Hin as [H0 Hin]. destruct o as [nm j]. cbn in *. subst j.
      revert nm Hin. apply Forall_forall. apply (bool_decide_unpack _). vm_compute. exact I. }
    pose proof (write_cache_alloc_fail E h ((n - 2) / 3) ((n - 2) mod 3)) as Hw.
    pose proof (Nat.div_mod_eq (n - 2) 3) as Hdm. pose proof (Nat.mod_upper_bound (n - 2) 3 ltac:(lia)) as Hm.
    replace (2 + 3 * ((n - 2) / 3) + (n - 2) mod 3)%nat with n in Hw by lia.
    assert (Z.of_nat ((n - 2) / 3) < CB_ENTITYS_CNT) as Hk by (change CB_ENTITYS_CNT with 16; lia).
    specialize (Hw (wcb_fresh_live h Ho) Hk Hm Hok Hf).
    destruct (Nat.ltb_spec n 5) as [H5|H5].
    + rewrite decide_True in Hw by lia. by rewrite Hw.
    + rewrite decide_False in Hw by lia. destruct Hw as (h1 & -> & Hl). rewrite bind_Ok_l, decide_True by done.
      apply out_free_l2p_ok. by eapply owns_leak.
Qed.
(** The cache is there, but not the queue or one of the threads. *)
Lemma setup_tail_threads_fail h n :
  owns h (tables_objs ++ dn) L → (50 ≤ n < 53)%nat →
  (∀ i, alloc_ok E (k_calls h + i)%nat = negb (i =? n)%nat) →
  if (n =? 50)%nat then ∃ o h', setup_tail h = Ok (0, Some o, h') ∧ fscftl_cleanup h' = Fault F_BUG
  else setup_tail h = Fault F_NULL.
Proof.
  intros Ho Hr Hok. unfold setup_tail.
  destruct (write_cache_ok E h _ L Ho) as (c & h1 & -> & _ & Hk1 & Ho1).
  { fresh_tac writer_objs. }
  { intros j Hj. change (length wcb_objs) with 50%nat in Hj. rewrite Hok. destruct (Nat.eqb_spec j n); [lia|done]. }
  change (length wcb_objs) with 50%nat in Hk1. rewrite bind_Ok_l, decide_False by lia.
  assert (∀ o, o ∈ writer_objs → o ∉ k_live h1) as Hf.
  { apply (setup_fresh [] writer_objs (wcb_objs ++ tables_objs)); [reflexivity|by rewrite <-app_assoc]. }
  assert (∀ i, alloc_ok E (k_calls h1 + i)%nat = negb (50 + i =? n)%nat) as Hok1.
  { intros i. rewrite Hk1, <-Nat.add_assoc. apply Hok. }
  clear Hok. pose proof (Hok1 0%nat) as A0. pose proof (Hok1 1%nat) as A1. pose proof (Hok1 2%nat) as A2.
  rewrite Nat.add_0_r in A0. rewrite Nat.add_1_r in A1. replace (k_calls h1 + 2)%nat with (S (S (k_calls h1))) in A2 by lia.
  unfold fscftl_writer_init, kthread_run, kalloc.
  assert (n = 50 ∨ n = 51 ∨ n = 52)%nat as [->|[->| ->]] by lia; cbn [Nat.eqb Nat.add negb] in A0, A1, A2 |- *;
    rewrite A0; cbn [k_calls]; rewrite A1; cbn [k_calls]; [|done|by rewrite bind_Ok_l; cbn [k_calls]; rewrite A2].
  rewrite bind_Ok_l. cbn [k_calls]. rewrite A2. rewrite !bind_Ok_l, decide_False by lia. cbn [deref]. rewrite bind_Ok_l. eexists _, _. split; [done|].
  unfold fscftl_cleanup, fscftl_writer_exit. cbn [k_calls k_live].
  pose proof (Hf requeue_bios_wq ltac:(right; right; by left)) as Hq.
  rewrite kfree_live by (cbn; set_solver). rewrite bind_Ok_l. cbn [k_calls k_live].
  rewrite kfree_live by (cbn [k_live]; apply elem_of_difference; split; [set_solver|by intros [= ?]%elem_of_singleton]).
  rewrite bind_Ok_l. unfold kfree. cbn [k_calls k_live]. rewrite decide_False; [done|].
  rewrite !elem_of_difference, !elem_of_union, !elem_of_singleton.
  intros [[[[=]|[[=]|?]] _] _]; done.
Qed.
End setup.

(** C39: setting up the driver when one allocation fails.  The set up asks for 60 objects.
    Up to the control block of the write cache (numbers 0 to 8) a failure is reported as
    [-ENOMEM] and everything is given back; for a buffer of the write cache it is
    reported but the memory of LUN buffer 0 stays allocated (9 to 11: the clean-up runs
    out of its array); a missing work queue (57) is not noticed, and faults at the
    clean-up; a missing thread (58, 59) faults at once. *)
Theorem setup_failure E h n :
  (∀ o : obj, o.1 ∈ setup_names → o ∉ k_live h) →
  (∀ i, alloc_ok E (k_calls h + i)%nat = negb (i =? n)%nat) → (n < 60)%nat →
  if (n <? 9)%nat then ∃ h', fscftl_setup E h = Ok (- ENOMEM, None, h') ∧ k_live h' = k_live h
  else if (n <? 12)%nat then fscftl_setup E h = Fault F_OOB
  else if (n <? 57)%nat then ∃ h', fscftl_setup E h = Ok (- ENOMEM, None, h') ∧ k_live h' = lun_objs 0 ∪ k_live h
  else if (n =? 57)%nat then ∃ o h', fscftl_setup E h = Ok (0, Some o, h') ∧ fscftl_cleanup h' = Fault F_BUG
  else fscftl_setup E h = Fault F_NULL.
Proof.
  intros Hn Hok Hlt.
  assert (∀ o : obj, o.1 ∈ setup_names → o ∉ ([] : list obj) ∧ o ∉ k_live h) as Hn'.
  { intros o Ho. split; [apply not_elem_of_nil|by apply Hn]. }
  destruct (setup_tables E [] (k_live h) Hn' h n (owns_nil h)) as [Hfail Hgo].
  { intros i Hi. rewrite Hok. destruct (Nat.eqb_spec i n); [lia|done]. }
  assert (alloc_ok E (k_calls h + n)%nat = false) as Hbad by (by rewrite Hok, Nat.eqb_refl).
  destruct (decide (n < 7)%nat) as [H7|H7].
  { destruct (Hfail Hbad H7) as (h' & Hrun & Ho'). rewrite (proj2 (Nat.ltb_lt n 9)) by lia.
    exists h'. split; [done|by apply owns_done]. }
  destruct (Hgo ltac:(lia)) as (h1 & -> & Hk & Ho1). clear Hfail Hgo.
  assert (∀ i, alloc_ok E (k_calls h1 + i)%nat = negb (i =? n - 7)%nat) as Hok1.
  { intros i. rewrite Hk, <-Nat.add_assoc, Hok. f_equal.
    destruct (Nat.eqb_spec (7 + i) n), (Nat.eqb_spec i (n - 7)); lia || done. }
  destruct (decide (n < 57)%nat) as [H57|H57].
  - pose proof (setup_tail_cache_fails E [] (k_live h) Hn' h1 (n - 7) Ho1 ltac:(lia)) as Hr.
    rewrite Hok1, Nat.eqb_refl in Hr. specialize (Hr (λ i Hi, eq_trans (Hok1 i)
      (f_equal negb (proj2 (Nat.eqb_neq i (n - 7)) ltac:(lia)))) eq_refl).
    destruct (Nat.ltb_spec (n - 7) 2), (Nat.ltb_spec n 9); try lia.
    { destruct Hr as (h' & -> & Ho'). exists h'. split; [done|by apply owns_done]. }
    destruct (Nat.ltb_spec (n - 7) 5), (Nat.ltb_spec n 12); try lia; [done|].
    rewrite (proj2 (Nat.ltb_lt n 57)) by lia. destruct Hr as (h' & -> & Ho'). exists h'. split; [done|by apply owns_done].
  - pose proof (setup_tail_threads_fail E [] (k_live h) Hn' h1 (n - 7) Ho1 ltac:(lia) Hok1) as Hr.
    rewrite !(proj2 (Nat.ltb_ge n _)) by lia.
    destruct (Nat.eqb_spec (n - 7) 50), (Nat.eqb_spec n 57); try lia; exact Hr.
Qed.

(** The allocation of the mapping table fails. *)
Definition env_fail5 : kenv := mk_kenv (λ n, negb (n =? 5)%nat) (λ _, 0) (λ _, 0) (λ _, 0) (λ _, 0).

Lemma setup_failure_witness :
  ∃ h', fscftl_setup env_fail5 (mk_kheap 0 ∅) = Ok (- ENOMEM, None, h') ∧ k_live h' = ∅.
Proof.
  apply (setup_failure env_fail5 (mk_kheap 0 ∅) 5).
  - intros o _. apply not_elem_of_empty.
  - intros i. reflexivity.
  - lia.
Defined.

(** ** Loading the module *)

(** The steps of the discovery leave the page counts alone. *)
Lemma mfor_keep {S A} (P : S → S → Prop) (f : A → S → res S) l :
  (∀ s, P s s) → (∀ s1 s2 s3, P s1 s2 → P s2 s3 → P s1 s3) →
  (∀ a s s', f a s = Ok s' → P s s') → ∀ s s', mfor l f s = Ok s' → P s s'.
Proof.
  intros Hr Ht Hf. induction l as [|a l IH]; intros s s'; cbn [mfor].
  - by intros [= <-].
  - intros (s1 & H1 & H2)%bind_Ok. eapply Ht; [by eapply Hf|by apply IH].
Qed.

Definition same_vpc (m m' : mcp) : Prop := vpctbl (mp_sys m') = vpctbl (mp_sys m).

Lemma insert_blk_vpc blk y y' : insert_blk_to_free_list blk y = Ok y' → vpctbl y' = vpctbl y.
Proof.
  unfold insert_blk_to_free_list. intros (i & _ & H)%bind_Ok. apply bind_Ok in H as ([f t] & _ & H).
  apply bind_Ok in H as (e & _ & H). by injection H as <-.
Qed.

Section vpc.
Context (E : kenv) (ns_id : Z) (dev : nvme_ppa_command → gmap Z Z → Z → Z) (order : list flight → list flight).

Lemma completion_vpc mem f m m' : rdpparaw_completion mem f m = Ok m' → same_vpc m m'.
Proof.
  unfold rdpparaw_completion, same_vpc. intros (l & _ & H)%bind_Ok. apply bind_Ok in H as (y & Hy & H).
  apply bind_Ok in H as (s & _ & H). apply bind_Ok in H as (h1 & _ & H). apply bind_Ok in H as (h2 & _ & H).
  injection H as <-. cbn [mp_sys mp_set_cnt mp_set_sys]. destruct (bad_plane _ _ _); [|by injection Hy as <-].
  apply bind_Ok in Hy as (page & _ & Hy). apply bind_Ok in Hy as (w & _ & Hy).
  apply bind_Ok in Hy as (t & _ & Hy). by injection Hy as <-.
Qed.

Lemma issue_vpc pairs blk a b m m' fl : issue_reads E ns_id pairs blk a b m = Ok (m', fl) → same_vpc m m'.
Proof.
  unfold issue_reads. intros H.
  refine (mfor_keep (λ x y : mcp * list flight, same_vpc x.1 y.1) _ _ _ _ _ _ _ H); unfold same_vpc.
  - done.
  - intros. congruence.
  - intros [lun ch] [m1 acc] [m2 acc'] H1. unfold discovery_bbt_rdpparaw in H1.
    apply bind_Ok in H1 as ([[z m3] f] & H1 & H3). injection H3 as <- <-.
    apply bind_Ok in H1 as ([s f'] & _ & H1). by injection H1 as <- <- <-.
Qed.

Lemma discover_vpc a b blk m m' : discover_blk E ns_id dev order a b blk m = Ok m' → same_vpc m m'.
Proof.
  unfold discover_blk. case_decide as Hb; [by intros [= <-]|]. intros H. unfold rblk_bbt_discovery in H.
  apply bind_Ok in H as ([m1 fl] & H1%issue_vpc & H). apply bind_Ok in H as (m2 & H2 & H).
  apply bind_Ok in H as (m3 & H3 & H).
  apply (mfor_keep same_vpc) in H2; unfold same_vpc in *.
  2: done.
  2: { intros. congruence. }
  2: { intros f s s'. apply completion_vpc. }
  assert (vpctbl (mp_sys m3) = vpctbl (mp_sys m2)) as Hv3.
  { unfold wait_for_completion in H3. case_decide; [|done]. by injection H3 as <-. }
  assert (vpctbl (mp_sys m') = vpctbl (mp_sys m3)) as Hv4; [|cbn in H1; congruence].
  unfold rblk_bbt_check_available in H. apply bind_Ok in H as (i & _ & H). apply bind_Ok in H as (e & _ & H).
  apply bind_Ok in H as (k & _ & H). destruct k; [by injection H as <-|].
  apply bind_Ok in H as (y & Hy%insert_blk_vpc & H). by injection H as <-.
Qed.

Lemma discovery_vpc m m' : fscftl_bbt_discovery E ns_id dev order m = Ok m' → same_vpc m m'.
Proof.
  unfold fscftl_bbt_discovery. destruct (kalloc _ _ _) as [[] h1]; cbn [negb]; [|by intros [= <-]].
  intros (m1 & H1 & H)%bind_Ok. apply bind_Ok in H as (h & _ & [= <-]). unfold same_vpc. cbn [mp_sys mp_set_ps].
  unfold kalloc in H1. match type of H1 with (if ?b then _ else _) = _ => destruct b end; [by injection H1 as <-|].
  apply bind_Ok in H1 as (m2 & H2 & H1). apply bind_Ok in H1 as (h' & _ & [= <-]).
  apply (mfor_keep same_vpc) in H2; unfold same_vpc in *; [exact H2|done|intros; congruence|].
  intros blk s s'. apply discover_vpc.
Qed.
End vpc.

(** *** What a loaded driver owns *)

Definition frame_objs : list obj := [("miscdev", 0); ("dmapoll", 0)].
Definition driver_objs : list obj := exns_objs ++ setup_objs ++ frame_objs.

Definition driver_names : list string :=
  ["rqueue"; "gendisk"; "nsid"; "exns"; "miscdev"; "dmapoll"; "bbtdata"; "bbtmeta"; "bootbuf"] ++ setup_names.

(** No other instance of the driver is loaded. *)
Definition no_driver (h : kheap) : Prop := ∀ o : obj, o.1 ∈ driver_names → o ∉ k_live h.

Lemma driver_objs_static : Forall static_obj driver_objs.
Proof. apply (bool_decide_unpack _). vm_compute. exact I. Qed.

Lemma setup_driver_name nm : nm ∈ setup_names → nm ∈ driver_names.
Proof. intros H. apply elem_of_app. by right. Qed.

(** The disk, the registers and the memory of a driver that has just been loaded. *)
Record loaded (d : driver) (r : Z → Z) (L : gset obj) : Prop := {
  ld_exns : d_exns d = fresh_disk;
  ld_regs : d_regs d = ctrl_register_config r;
  ld_heap : heap_wf (p_heap (d_ps d)) ∧ owns (p_heap (d_ps d)) (driver_objs ++ flights_objs (d_flights d)) L;
  ld_cache : wcb_inv (d_ftl d) 0 (seqZ 1 (CB_ENTITYS_CNT - 1)) [] [] [] [] ∧ vpc_inv (d_ftl d);
  ld_flights : length (d_flights d) = 16%nat;
}.

Section load.
Context (E : kenv) (HE : env_good E) (ns_id : Z).
Context {A : Type} (edev : nvme_ppa_command → gmap Z (gmap Z Z) → Z * A).
Context (dev : nvme_ppa_command → gmap Z Z → Z → Z) (order : list flight → list flight).
Context (bdev : nvme_ppa_command → gmap Z (gmap Z Z) → Z * portion).
#[local] Set Default Proof Using "All".

(** Up to the point where the system tables are looked for. *)
Definition after_setup (mcp : bool) (r : Z → Z) (c : wcb_lun_gctl) (s : pstate)
    : res (Z * option driver * pstate * list flight) :=
  '(ret, f, b, s, fl) ← start_tables E ns_id edev dev order bdev mcp (mk_ftl c fresh_sysmeta ∅)
      (mk_boot (set_magic BOOTBLK_BBT_MDW ∅) init_meta) s;
  if decide (ret ≠ 0) then err_cleanup s fl else
  f ← prepare_write_context f;
  '(ret, x, h) ← nvm_create_exns E (p_heap s);
  if decide (ret ≠ 0) then err_cleanup (mk_pstate h (p_pool s)) fl else
  x ← deref x;
  let s := mk_pstate h (p_pool s) in
  Ok (0, Some (mk_driver s (ctrl_register_config r) f b x fl), s, fl).

Lemma init_setup mcp r s :
  heap_wf (p_heap s) → no_driver (p_heap s) →
  ∃ c h, fscftl_module_init E ns_id edev dev order bdev true mcp 0 r s =
      after_setup mcp r c (mk_pstate h (p_pool s)) ∧
    cache_upto c CB_ENTITYS_CNT ∧ heap_wf h ∧ k_calls h = (k_calls (p_heap s) + 61)%nat ∧
    owns h (setup_objs ++ frame_objs) (k_live (p_heap s)).
Proof.
  intros Hw Hn. set (L := k_live (p_heap s)).
  unfold fscftl_module_init. cbn [negb]. unfold nvm_exdev_setup_pool.
  destruct (kalloc_true (alloc_ok E) ("dmapoll", 0) (p_heap s) [] L (eg_alloc _ HE _) (owns_nil _))
    as (h1 & -> & Hc1 & Ho1 & Hl1); [by apply Hn, (bool_decide_unpack _)|].
  rewrite decide_False by lia. unfold backend_miscdev_create. rewrite decide_False by lia. rewrite decide_False by lia.
  set (h2 := mk_kheap _ _).
  assert (owns h2 frame_objs L) as Ho2.
  { eapply owns_alloc; [exact Ho1| |done]. rewrite Hl1, elem_of_union, elem_of_singleton. intros [|Hin]; [done|].
    revert Hin. by apply Hn, (bool_decide_unpack _). }
  assert (∀ o : obj, o.1 ∈ setup_names → o ∉ frame_objs ∧ o ∉ L) as Hn2.
  { intros o Ho. split; [|by apply Hn, setup_driver_name].
    intros Hin. revert Ho. revert o Hin. change (∀ o, o ∈ frame_objs → o.1 ∉ setup_names).
    apply Forall_forall, (bool_decide_unpack _). exact I. }
  destruct (setup_tables E frame_objs L Hn2 h2 60 Ho2) as [_ Hgo]; [intros; apply (eg_alloc _ HE)|].
  destruct (Hgo ltac:(lia)) as (h3 & -> & Hc3 & Ho3).
  destruct (setup_tail_ok E frame_objs L Hn2 h3 Ho3) as (c & h4 & -> & Hc & Hc4 & Ho4); [intros; apply (eg_alloc _ HE)|].
  rewrite bind_Ok_l, decide_False by lia. cbn [deref]. rewrite bind_Ok_l.
  assert (k_calls h4 = (k_calls (p_heap s) + 61)%nat) as Hk by (cbn [h2 k_calls] in Hc3; lia).
  exists c, h4. split; [reflexivity|]. split; [done|]. split; [|done].
  apply (owns_heap_wf (p_heap s) h4 (setup_objs ++ frame_objs) Hw Ho4); [lia|].
  pose proof driver_objs_static as Hst. unfold driver_objs in Hst. by apply Forall_app in Hst as [_ ?].
Qed.
Lemma flights_dynamic fl o : o ∈ flights_objs fl → ¬ static_obj o.
Proof using.
  intros (l & Ho & (f & -> & _)%list_elem_of_fmap)%list_elem_of_join. unfold flight_objs in Ho.
  apply elem_of_cons in Ho as [->|[->|[(i & -> & _)%list_elem_of_fmap|(i & -> & _)%list_elem_of_fmap]%elem_of_app]%elem_of_cons];
    by apply (bool_decide_unpack _).
Qed.

(** The end of the start, when the tables are there. *)
Lemma after_tables mcp r c s L y bl b s1 fl :
  cache_upto c CB_ENTITYS_CNT → heap_wf (p_heap s) → owns (p_heap s) (setup_objs ++ frame_objs) L →
  (∀ o : obj, o.1 ∈ driver_names → o ∉ L) →
  start_tables E ns_id edev dev order bdev mcp (mk_ftl c fresh_sysmeta ∅)
      (mk_boot (set_magic BOOTBLK_BBT_MDW ∅) init_meta) s = Ok (0, mk_ftl c y ∅, b, s1, fl) →
  sys_inv y bl → vpctbl y = ∅ → length fl = 16%nat →
  heap_wf (p_heap s1) → owns (p_heap s1) (flights_objs fl) (k_live (p_heap s)) →
  ∃ d, after_setup mcp r c s = Ok (0, Some d, d_ps d, d_flights d) ∧ loaded d r L ∧ d_boot d = b ∧
    d_flights d = fl ∧ sys_inv (sys (d_ftl d)) (tl bl) ∧
    ∃ e, ents (d_ftl d) !! 0 = Some e ∧ nand_blk (baddr e) = hd 0 bl.
Proof.
  intros Hc Hw Ho Hn Hst Hy Hv Hlen Hw1 Ho1. unfold after_setup. rewrite Hst, bind_Ok_l, decide_False by lia.
  destruct (prepare_write_context_ok c y bl Hc Hy Hv) as (f & -> & Hinv & Hvpc & Hsys & He). rewrite bind_Ok_l.
  pose proof (owns_app _ _ _ _ _ Ho Ho1) as Ho2.
  destruct (res_init (Resource := exns_resource E) (p_heap s1) _ L Ho2) as (? & h & -> & -> & Hk & Ho3).
  { apply (fresh_step exns_objs (p_heap s1) _ L Ho2). intros o Hin.
    assert (static_obj o ∧ o.1 ∈ driver_names ∧ o ∉ setup_objs ++ frame_objs) as (Hs & Hdn & Hnot).
    { revert o Hin. apply Forall_forall, (bool_decide_unpack _). vm_compute. exact I. }
    split; [|by apply Hn]. rewrite elem_of_app. intros [Hf|?]; [|done]. by apply (flights_dynamic fl o). }
  { intros. apply (eg_alloc _ HE). }
  rewrite bind_Ok_l, decide_False by lia. cbn [deref]. rewrite bind_Ok_l.
  exists (mk_driver (mk_pstate h (p_pool s1)) (ctrl_register_config r) f b fresh_disk fl).
  split; [reflexivity|]. cbn [d_boot d_flights d_ftl]. split; [|done].
  constructor; cbn [d_exns d_regs d_ps d_flights d_ftl p_heap]; try done. split.
  - cbn [length exns_objs] in Hk. apply (owns_heap_wf (p_heap s1) h exns_objs Hw1); [|lia|].
    + exact (owns_split (p_heap s1) h exns_objs _ L Ho3 Ho2).
    + apply (bool_decide_unpack _). exact I.
  - eapply owns_perm; [|exact Ho3]. unfold driver_objs. rewrite <-app_assoc.
    apply Permutation_app_head, Permutation_app_comm.
Qed.
(** The tables of a first start. *)
Lemma start_mcp (raw : Z → Z → Z) c s b :
  (∀ cmd page p, c_opcode cmd = NVM_OP_RDRAW → c_nlb cmd = CFG_NAND_PLANE_NUM - 1 →
    (∀ i, i ∈ for_each_pl → page !! i = Some (set_nand_pl i p)) → dev cmd page = raw p) →
  (∀ fl, order fl ≡ₚ fl) → heap_wf (p_heap s) →
  ("bbtdata", 0) ∉ k_live (p_heap s) → ("bbtmeta", 0) ∉ k_live (p_heap s) →
  ∃ y b' s1 fl, start_tables E ns_id edev dev order bdev true (mk_ftl c fresh_sysmeta ∅) b s =
      Ok (0, mk_ftl c y ∅, b', s1, fl) ∧
    sys_inv y (filter (λ b, b ≠ 0 ∧ good_blk raw b) for_each_blk_reverse) ∧ vpctbl y = ∅ ∧ length fl = 16%nat ∧
    heap_wf (p_heap s1) ∧ owns (p_heap s1) (flights_objs fl) (k_live (p_heap s)).
Proof.
  intros Hdev Hord Hw Hbd Hbm. unfold start_tables, do_manufactory_init. cbn [mp_ps sys].
  destruct (sweepup_ok E HE ns_id edev s Hw) as (s1 & -> & Hw1 & Hl1). rewrite bind_Ok_l.
  set (m0 := mp_set_ps s1 _).
  destruct (bbt_discovery_ok E HE ns_id dev raw Hdev order Hord m0) as (m & Hrun & Hw2 & Hl2 & Hs2 & _);
    [exact Hw1|exact fresh_sysmeta_inv|reflexivity|reflexivity|intros; by apply fresh_bad_bit
    |cbn; by rewrite Hl1|cbn; by rewrite Hl1|].
  rewrite Hrun, bind_Ok_l. apply discovery_vpc in Hrun. unfold same_vpc in Hrun.
  destruct (flush_both_ok E HE ns_id (bmitbl (mp_sys m)) POWER_DOWN_UNSAFE b (mp_ps m) Hw2)
    as (b1 & s3 & fl1 & b2 & s4 & fl2 & -> & Hf2 & Hbf).
  { intros blk Hblk. destruct (sys_dom _ _ Hs2 blk Hblk) as (e & He & _). by exists e. }
  rewrite bind_Ok_l, Hf2, !bind_Ok_l. do 4 eexists. split; [reflexivity|]. split; [exact Hs2|]. split; [exact Hrun|].
  destruct Hbf as [_ _ _ _ _ [s5 Hc1] Hc2 [Hw4 Ho4]]. unfold copies in *.
  split; [by rewrite length_app, <-(Forall2_length _ _ _ Hc1), <-(Forall2_length _ _ _ Hc2)|].
  split; [done|]. cbn [mp_set_ps mp_ps]. rewrite Hl2 in Ho4. cbn in Ho4. by rewrite Hl1 in Ho4.
Qed.
End load.

Lemma config_bits r a :
  Z.testbit (ctrl_register_config r NVC_SCRAMBLE) 0 = true ∧ Z.testbit (ctrl_register_config r ECC_ERR_CNT_REG) 1 = true ∧
  ctrl_register_config r NSC_SET_BIT_COUNT = 0xfa0 ∧
  (a ∉ [NVC_SCRAMBLE; NSC_SET_BIT_COUNT; ECC_ERR_CNT_REG] → ctrl_register_config r a = r a).
Proof.
  unfold ctrl_register_config, reg_write32. split; [|split; [|split]].
  - change (Z.testbit (Z.lor (reg_read32 NVC_SCRAMBLE r) 1) 0 = true). rewrite Z.lor_spec. apply orb_true_r.
  - match goal with |- Z.testbit (if decide ?P then ?x else _) _ = _ => change (Z.testbit x 1 = true) end.
    rewrite Z.lor_spec. apply orb_true_r.
  - reflexivity.
  - rewrite !not_elem_of_cons. intros (H1 & H2 & H3 & _). by rewrite !decide_False.
Qed.

(** C16: the driver comes up.  With memory, requests and threads available and no other
    instance loaded, a first start (parameter [mcp]) returns 0, whatever the erases report
    and in whatever order the raw reads complete: the write path is in its start state, its
    first LUN buffer at the start of the first good block (from 127 down), the other
    good blocks are free; the disk has the user capacity; the driver owns its
    objects, and 16 writes of boot pages are in flight.  (The logical block size of the
    queue is set to [CFG_NAND_EP_NUM], 4 bytes.) *)
Theorem module_init_ready E ns_id {A} (edev : nvme_ppa_command → gmap Z (gmap Z Z) → Z * A) dev raw order bdev r s :
  env_good E →
  (∀ cmd page p, c_opcode cmd = NVM_OP_RDRAW → c_nlb cmd = CFG_NAND_PLANE_NUM - 1 →
    (∀ i, i ∈ for_each_pl → page !! i = Some (set_nand_pl i p)) → dev cmd page = raw p) →
  (∀ fl, order fl ≡ₚ fl) → heap_wf (p_heap s) → no_driver (p_heap s) →
  let good := filter (λ b, b ≠ 0 ∧ good_blk raw b) for_each_blk_reverse in
  ∃ d, fscftl_module_init E ns_id edev dev order bdev true true 0 r s = Ok (0, Some d, d_ps d, d_flights d) ∧
    loaded d r (k_live (p_heap s)) ∧ sys_inv (sys (d_ftl d)) (tl good) ∧
    (∃ e, ents (d_ftl d) !! 0 = Some e ∧ nand_blk (baddr e) = hd 0 good) ∧
    capacity (d_exns d) * 512 = (MAX_USER_LBA + 1) * EXP_PPA_SIZE ∧ logical_block_size (d_exns d) = 4.
Proof.
  intros HE Hdev Hord Hw Hn good.
  destruct (init_setup E HE ns_id edev dev order bdev true r s Hw Hn) as (c & h & -> & Hc & Hwh & _ & Ho).
  assert (∀ nm, (nm, 0) ∉ setup_objs ++ frame_objs → nm ∈ driver_names → (nm, 0) ∉ k_live h) as Hfr.
  { intros nm H1 H2. rewrite (ow_live _ _ _ Ho), elem_of_union, elem_of_list_to_set. intros [?|Hin]; [done|].
    revert Hin. by apply Hn. }
  destruct (start_mcp E HE ns_id edev dev order bdev raw c (mk_pstate h (p_pool s))
    (mk_boot (set_magic BOOTBLK_BBT_MDW ∅) init_meta) Hdev Hord Hwh) as (y & b & s1 & fl & Hst & Hy & Hv & Hl & Hw1 & Ho1).
  { apply Hfr; apply (bool_decide_unpack _); vm_compute; exact I. }
  { apply Hfr; apply (bool_decide_unpack _); vm_compute; exact I. }
  destruct (after_tables E HE ns_id edev dev order bdev true r c (mk_pstate h (p_pool s)) _ y _ b s1 fl
    Hc Hwh Ho Hn Hst Hy Hv Hl Hw1 Ho1) as (d & -> & Hld & _ & _ & Hsys & He).
  exists d. split; [done|]. split; [done|]. split; [done|]. split; [done|]. rewrite (ld_exns _ _ _ Hld).
  split; [|reflexivity]. unfold fresh_disk, EXP_PPA_SIZE. cbn [capacity]. lia.
Qed.

(** unloading releases memory the device still uses.  Unloading a driver that owns
    its objects starts the 16 writes of the two boot pages and does not wait for
    them: when the call is over, the page each of them is to transfer is released, and so
    is the DMA pool, of which each of them still has two pages. *)
Lemma module_exit_frees_in_flight E ns_id d os L :
  env_good E → heap_wf (p_heap (d_ps d)) → owns (p_heap (d_ps d)) (driver_objs ++ os) L →
  (∀ blk, blk_ok blk → is_Some (bmitbl (sys (d_ftl d)) !! blk)) →
  ∃ s' fl, fscftl_module_exit E ns_id d = Ok (s', d_flights d ++ fl) ∧ length fl = 16%nat ∧
    ("dmapoll", 0) ∉ k_live (p_heap s') ∧ owns (p_heap s') (flights_objs fl ++ os) L ∧
    ∀ f, f ∈ fl → ∃ buf l m, fl_buf f = Some buf ∧ buf ∉ k_live (p_heap s') ∧
      iod_vaddr_ppalist (fl_iod f) = Some l ∧ iod_vaddr_meta (fl_iod f) = Some m ∧
      ("dmapage", l) ∈ k_live (p_heap s') ∧ ("dmapage", m) ∈ k_live (p_heap s').
Proof.
  intros HE Hw Ho Ht. unfold fscftl_module_exit. unfold driver_objs in Ho. rewrite <-!app_assoc in Ho.
  destruct (res_exit (Resource := exns_resource E) _ _ L Ho) as (h1 & -> & Hc1 & Ho1). rewrite bind_Ok_l.
  assert (heap_wf h1) as Hw1.
  { eapply heap_wf_sub; [exact Hw| |lia]. rewrite (ow_live _ _ _ Ho1), (ow_live _ _ _ Ho), (list_to_set_app_L exns_objs).
    intros o. rewrite !elem_of_union. tauto. }
  unfold flush_down_systbl.
  destruct (flush_both_ok E HE ns_id (bmitbl (sys (d_ftl d))) POWER_DOWN_SAFE (d_boot d) (mk_pstate h1 (p_pool (d_ps d))) Hw1 Ht)
    as (b1 & s2 & fl1 & b2 & s3 & fl2 & -> & Hf2 & Hbf). rewrite bind_Ok_l, Hf2, !bind_Ok_l.
  destruct Hbf as [_ _ _ _ _ [s5 Hcp1] Hcp2 [_ Ho3]]. cbn [p_heap] in Ho3.
  set (fl := fl1 ++ fl2) in *. pose proof (owns_app _ _ _ _ _ Ho1 Ho3) as Ho4.
  apply (owns_perm _ _ (setup_objs ++ frame_objs ++ flights_objs fl ++ os)) in Ho4;
    [|clear; generalize setup_objs, frame_objs, (flights_objs fl); intros; solve_Permutation].
  assert (∀ o, o ∈ setup_objs ++ frame_objs → o ∉ flights_objs fl ++ os ∧ o ∉ L) as Hgone.
  { intros o Hin. destruct Ho4 as [_ B2 B3]. rewrite (assoc_L (++)) in B2, B3. apply NoDup_app in B2 as (_ & Hd & _).
    split; [by apply Hd|]. apply B3, elem_of_app. by left. }
  destruct (cleanup_ok E [] ∅ ltac:(intros; split; [apply not_elem_of_nil|apply not_elem_of_empty]) _ _ _ Ho4) as (h5 & -> & Ho5).
  rewrite bind_Ok_l. unfold backend_miscdev_delete, nvm_exdev_release_pool. cbn [frame_objs app] in Ho5.
  destruct (owns_free _ _ _ _ Ho5) as (h6 & -> & _ & Ho6). rewrite bind_Ok_l.
  destruct (owns_free _ _ _ _ Ho6) as (h7 & -> & _ & Ho7). rewrite bind_Ok_l.
  assert (∀ o, o ∈ setup_objs ++ frame_objs → o ∉ k_live h7) as Hdead.
  { intros o Hin. destruct (Hgone o Hin) as [G1 G2]. rewrite (ow_live _ _ _ Ho7), elem_of_union, elem_of_list_to_set. tauto. }
  eexists _, fl. split; [reflexivity|]. cbn [p_heap]. unfold copies in Hcp1, Hcp2.
  split; [by unfold fl; rewrite length_app, <-(Forall2_length _ _ _ Hcp1), <-(Forall2_length _ _ _ Hcp2)|].
  split; [apply Hdead; apply (bool_decide_unpack _); vm_compute; exact I|]. split; [exact Ho7|].
  assert (∀ s0 pos buf g f, Forall2 (λ lun f, copy_write E s0 (nand_ch pos) (nand_pg pos) lun (Some buf) f) for_each_lun g →
    f ∈ g → (∀ f', f' ∈ g → f' ∈ fl) → buf ∈ setup_objs ++ frame_objs →
    ∃ buf l m, fl_buf f = Some buf ∧ buf ∉ k_live h7 ∧ iod_vaddr_ppalist (fl_iod f) = Some l ∧
      iod_vaddr_meta (fl_iod f) = Some m ∧ ("dmapage", l) ∈ k_live h7 ∧ ("dmapage", m) ∈ k_live h7) as Hf.
  { intros s0 pos buf g f Hall Hin Hsub Hb.
    apply list_elem_of_lookup_1 in Hin as [i Hi]. destruct (Forall2_lookup_r _ _ _ _ _ Hall Hi) as (lun & _ & [_ _ _ Hbuf _ [m Hm] (k & page & Hl & _)]).
    apply list_elem_of_lookup_2 in Hi as Hin.
    exists buf, (Z.of_nat k), m. do 4 (split; [by try apply Hdead|]).
    assert (∀ o, o ∈ flight_objs f → o ∈ k_live h7) as Hlive.
    { intros o Hof. apply (ow_in _ _ _ Ho7), elem_of_app. left. apply (flight_objs_in E HE ns_id f fl o); [by apply Hsub|done]. }
    split; apply Hlive; unfold flight_objs; rewrite Hl, Hm; cbn; [do 2 right; by left|do 3 right; by left]. }
  intros f [Hin|Hin]%elem_of_app; eapply Hf.
  - exact Hcp1.
  - exact Hin.
  - intros f' Hf'. apply elem_of_app. by left.
  - apply (bool_decide_unpack _); vm_compute; exact I.
  - exact Hcp2.
  - exact Hin.
  - intros f' Hf'. apply elem_of_app. by right.
  - apply (bool_decide_unpack _); vm_compute; exact I.
Qed.

Lemma fresh_word blk lun : blk_ok blk → bmi_bbt fresh_bmitbl blk lun = 0.
Proof.
  intros Hb. unfold bmi_bbt. rewrite fresh_bmitbl_lookup by done. cbn [bbt bmi_zero]. by rewrite lookup_empty.
Qed.

(** C35: a start that is not the first writes over the boot block.  With everything
    available and both boot pages readable, it returns 0 and the driver is ready to take
    writes, but no block is free, the LUN buffer being filled is at the start of block 0,
    and the bad block table written back says that every die is good.  When the pages
    are not found it returns [-EFAULT] and what is allocated is what was before. *)
Theorem recovered_start_writes_boot_block E ns_id {A} (edev : nvme_ppa_command → gmap Z (gmap Z Z) → Z * A)
    dev order bdev flash r s :
  env_good E → reads_flash E ns_id bdev flash (k_calls (p_heap s) + 76) →
  heap_wf (p_heap s) → no_driver (p_heap s) →
  let found := m ← flash_page flash FSCFTL_METAPG_READ (boot_pos 4 1);
               p ← flash_page flash FSCFTL_BBTPG_READ (bbt_page_address m); Some m in
  match found with
  | Some m =>
      ∃ d, fscftl_module_init E ns_id edev dev order bdev true false 0 r s = Ok (0, Some d, d_ps d, d_flights d) ∧
        loaded d r (k_live (p_heap s)) ∧ sys_inv (sys (d_ftl d)) [] ∧
        (∃ e, ents (d_ftl d) !! 0 = Some e ∧ nand_blk (baddr e) = 0) ∧
        ∀ blk lun, blk ∈ for_each_blk → lun ∈ for_each_lun → page_bbt (boot_bbt_page_info (d_boot d)) blk lun = 0
  | None => ∃ s', fscftl_module_init E ns_id edev dev order bdev true false 0 r s = Ok (- EFAULT, None, s', []) ∧
      k_live (p_heap s') = k_live (p_heap s)
  end.
Proof.
  intros HE Hdev Hw Hn found.
  destruct (init_setup E HE ns_id edev dev order bdev false r s Hw Hn) as (c & h & -> & Hc & Hwh & Hk & Ho).
  assert (("bootbuf", 0) ∉ k_live h) as Hbuf.
  { rewrite (ow_live _ _ _ Ho), elem_of_union, elem_of_list_to_set. intros [Hin|Hin]; revert Hin;
      [apply (bool_decide_unpack _); vm_compute; exact I|by apply Hn, (bool_decide_unpack _)]. }
  pose proof (try_recovery_ok E HE ns_id bdev flash fresh_sysmeta (mk_boot (set_magic BOOTBLK_BBT_MDW ∅) init_meta)
    (mk_pstate h (p_pool s))) as Hr. cbv zeta in Hr. cbn [p_heap boot_meta_page_info] in Hr. rewrite Hk in Hr.
  change (binary_search_meta_page init_meta) with (boot_pos 4 1) in Hr. fold found in Hr.
  assert (∀ blk, blk_ok blk → is_Some (bmitbl fresh_sysmeta !! blk)) as Hpres by apply fresh_tables_present.
  specialize (Hr ltac:(by replace (k_calls (p_heap s) + 61 + 15)%nat with (k_calls (p_heap s) + 76)%nat by lia) Hwh Hbuf Hpres).
  destruct found as [m|].
  - destruct Hr as (b1 & s1 & fl1 & fl2 & Hrun & [_ _ _ _ Htab [s5 Hcp1] Hcp2 [Hw1 Ho1]]). unfold copies in *.
    destruct (after_tables E HE ns_id edev dev order bdev false r c (mk_pstate h (p_pool s)) _ fresh_sysmeta [] b1 s1 (fl1 ++ fl2)
      Hc Hwh Ho Hn) as (d & -> & Hld & Hb & _ & Hsys & He); [|exact fresh_sysmeta_inv|reflexivity| |exact Hw1|exact Ho1|].
    + unfold start_tables. cbn [sys]. rewrite Hrun, bind_Ok_l. reflexivity.
    + by rewrite length_app, <-(Forall2_length _ _ _ Hcp1), <-(Forall2_length _ _ _ Hcp2).
    + exists d. split; [done|]. split; [done|]. split; [done|]. split; [done|]. intros blk lun Hblk Hlun.
      rewrite Hb, Htab by done. apply fresh_word. apply elem_of_seqZ in Hblk. unfold blk_ok. lia.
  - destruct Hr as (b1 & s1 & Hrun & Hl). unfold after_setup, start_tables. cbn [sys]. rewrite Hrun, !bind_Ok_l.
    rewrite decide_True by lia. unfold err_cleanup.
    assert (owns (p_heap s1) (setup_objs ++ frame_objs) (k_live (p_heap s))) as Ho1.
    { destruct Ho as [B1 B2 B3]. constructor; [by rewrite Hl|done|done]. }
    destruct (cleanup_ok E [] ∅ ltac:(intros; split; [apply not_elem_of_nil|apply not_elem_of_empty]) _ _ _ Ho1) as (h2 & -> & Ho2).
    rewrite bind_Ok_l. unfold del_misc_dev, release_pool, backend_miscdev_delete, nvm_exdev_release_pool. cbn [p_heap p_pool].
    destruct (owns_free _ _ _ _ Ho2) as (h3 & -> & _ & Ho3). rewrite bind_Ok_l. cbn [p_heap p_pool].
    destruct (owns_free _ _ _ _ Ho3) as (h4 & -> & _ & Ho4). rewrite bind_Ok_l.
    eexists. split; [reflexivity|]. by apply owns_done in Ho4.
Qed.

(** *** Concrete starts and stops *)

Lemma empty_no_driver : no_driver (p_heap empty_pstate).
Proof. intros o _. apply not_elem_of_empty. Qed.

Lemma module_init_ready_witness :
  ∃ d, fscftl_module_init env_ok 1 (λ _ _, (0, tt)) (λ _ _ _, 255) (@reverse flight) (flash_dev demo_flash) true true 0 (λ _, 0)
      empty_pstate = Ok (0, Some d, d_ps d, d_flights d) ∧ logical_block_size (d_exns d) = 4.
Proof.
  destruct (module_init_ready env_ok 1 (λ _ _, (0, tt)) (λ _ _ _, 255) (λ _ _, 255) (@reverse flight) (flash_dev demo_flash)
    (λ _, 0) empty_pstate) as (d & Hrun & _ & _ & _ & _ & Hb).
  - exact env_ok_good.
  - reflexivity.
  - intros fl. apply reverse_Permutation.
  - apply empty_heap_wf.
  - exact empty_no_driver.
  - exists d. split; [exact Hrun|exact Hb].
Defined.

Lemma recovered_start_writes_boot_block_witness :
  ∃ d, fscftl_module_init env_ok 1 (λ _ _, (0, tt)) (λ _ _ _, 255) (@reverse flight) (flash_dev demo_flash) true false 0 (λ _, 0)
      empty_pstate = Ok (0, Some d, d_ps d, d_flights d) ∧
    ∃ e, ents (d_ftl d) !! 0 = Some e ∧ nand_blk (baddr e) = 0.
Proof.
  pose proof (recovered_start_writes_boot_block env_ok 1 (λ _ _, (0, tt)) (λ _ _ _, 255) (@reverse flight) (flash_dev demo_flash)
    demo_flash (λ _, 0) empty_pstate) as H. cbv zeta in H.
  match type of H with _ → _ → _ → _ → match ?x with _ => _ end =>
    assert (x = Some demo_meta) as Hx by (vm_compute; reflexivity); rewrite Hx in H end.
  destruct H as (d & Hrun & _ & _ & He & _).
  - exact env_ok_good.
  - intros ch pg k Hch Hpg Hk. apply flash_dev_reads; [exact Hch|exact Hpg|].
    apply Nat.lt_le_trans with (1 := Hk). vm_compute. lia.
  - apply empty_heap_wf.
  - exact empty_no_driver.
  - exists d. split; [exact Hrun|exact He].
Defined.

(** A driver with fresh tables and all its objects. *)
Definition demo_driver : driver :=
  mk_driver (mk_pstate (mk_kheap 0 (list_to_set driver_objs)) ∅) (λ _, 0) (mk_ftl gctl_init fresh_sysmeta ∅)
    (mk_boot ∅ init_meta) fresh_disk [].

Lemma module_exit_frees_in_flight_witness :
  ∃ s' fl, fscftl_module_exit env_ok 1 demo_driver = Ok (s', fl) ∧ length fl = 16%nat ∧ ("dmapoll", 0) ∉ k_live (p_heap s').
Proof.
  destruct (module_exit_frees_in_flight env_ok 1 demo_driver [] ∅) as (s' & fl & Hrun & Hlen & Hp & _).
  - exact env_ok_good.
  - intros nm i Hin Hn. apply elem_of_list_to_set in Hin. pose proof driver_objs_static as Hs.
    rewrite Forall_forall in Hs. destruct (Hs _ Hin Hn).
  - constructor.
    + rewrite app_nil_r, union_empty_r_L. reflexivity.
    + rewrite app_nil_r. apply (bool_decide_unpack _). vm_compute. exact I.
    + intros o _. apply not_elem_of_empty.
  - exact fresh_tables_present.
  - exists s', fl. split; [exact Hrun|]. split; [exact Hlen|exact Hp].
Defined.
