(* ===== verification/FwCfg.v ===== *)
(** * Firmware: geometry, physical addresses, bit macros

    [FW-Base/config/cfg.h], [include/utils.h], the address predicates of
    [main/legacy.c] and the RAIF constants of [error-handle/raif.h].  The firmware
    has its own geometry (12 channels, 16 LUNs, 2304 pages) and its own layout of the
    32-bit [ppa_t]; nothing here is shared with the driver's [NandCfg]. *)

From S2P Require Import Prelude.

#[local] Open Scope Z_scope.

(** ** Constants of [cfg.h] *)

Definition CH_BITS : Z := 4.
Definition CP_BITS : Z := 2.
Definition PL_BITS : Z := 2.
Definition LUN_BITS : Z := 2.
Definition PG_BITS : Z := 8.
Definition BLK_BITS : Z := 10.
Definition RSVD_BITS : Z := 32 - CH_BITS - CP_BITS - PL_BITS - LUN_BITS - PG_BITS - BLK_BITS.

Definition CFG_NAND_CH_NUM : Z := 12.
Definition CFG_NAND_CP_NUM : Z := 4.
Definition CFG_NAND_PL_NUM : Z := 4.
Definition CFG_NAND_LUN_NUM : Z := 16.
Definition CFG_NAND_PG_NUM : Z := 2304.
Definition CFG_NAND_BLK_NUM : Z := 504.

Definition CPL_BITS : Z := CP_BITS + PL_BITS.
Definition PPA_PER_DIE : Z := CFG_NAND_CP_NUM * CFG_NAND_PL_NUM.
Definition PPA_PER_RPAGE : Z :=
  CFG_NAND_CP_NUM * CFG_NAND_PL_NUM * CFG_NAND_LUN_NUM * CFG_NAND_CH_NUM.
Definition CFG_NAND_DIE_NUM : Z := CFG_NAND_CH_NUM * CFG_NAND_LUN_NUM.
Definition CP_SIZE : Z := 0x1000.

(** [raif.h]; the stray [;] of [RPU_DIES_NUM_CFG] is left out. *)
Definition RAIF_DISABLE : Z := 0.
Definition RAIF1_ENABLE : Z := 1.
Definition RAIF2_ENABLE : Z := 2.
Definition RAIF_MODE : Z := RAIF1_ENABLE.
Definition RPU_DIES_NUM_CFG : Z := 48.

(** ** Macros of [utils.h] *)

Definition bit_test (f bitnum : Z) : bool :=
  negb (bool_decide (Z.land f (Z.shiftl 1 bitnum) = 0)).
Definition bit_set (f bitnum : Z) : Z := Z.lor f (Z.shiftl 1 bitnum).
Definition bit_clear (f bitnum : Z) : Z := Z.ldiff f (Z.shiftl 1 bitnum).
Definition bit_mask (width : Z) : Z := Z.shiftl 1 width - 1.
Definition upper_16_bits (n : Z) : Z := u16 (Z.shiftr n 16).
Definition lower_16_bits (n : Z) : Z := u16 n.
Definition roundup (x y : Z) : Z := (x + (y - 1)) / y * y.
Definition rounddown (x y : Z) : Z := x - x mod y.
Definition DIV_ROUND_UP (n d : Z) : Z := (n + d - 1) / d.
Definition page_offset (v : Z) : Z := Z.land (u64 v) (0x1000 - 1).

Definition CPL_MASK : Z := bit_mask CPL_BITS.

(** The loop headers. [for_each_pg] has the number of LUNs as its bound. *)
Definition for_each_ch : list Z := seqZ 0 CFG_NAND_CH_NUM.
Definition for_each_lun : list Z := seqZ 0 CFG_NAND_LUN_NUM.
Definition for_each_pg : list Z := seqZ 0 CFG_NAND_LUN_NUM.
Definition for_each_blk : list Z := seqZ 0 CFG_NAND_BLK_NUM.

(** ** [ppa_t] *)

Notation ppa_t := Z (only parsing).

Definition ppa_cp (p : ppa_t) : Z := get_bits 0 CP_BITS p.
Definition ppa_pl (p : ppa_t) : Z := get_bits 2 PL_BITS p.
Definition ppa_ch (p : ppa_t) : Z := get_bits 4 CH_BITS p.
Definition ppa_lun (p : ppa_t) : Z := get_bits 8 LUN_BITS p.
Definition ppa_pg (p : ppa_t) : Z := get_bits 10 PG_BITS p.
Definition ppa_blk (p : ppa_t) : Z := get_bits 18 BLK_BITS p.

Definition set_ppa_cp (v : Z) (p : ppa_t) : ppa_t := set_bits 0 CP_BITS v p.
Definition set_ppa_pl (v : Z) (p : ppa_t) : ppa_t := set_bits 2 PL_BITS v p.
Definition set_ppa_ch (v : Z) (p : ppa_t) : ppa_t := set_bits 4 CH_BITS v p.
Definition set_ppa_lun (v : Z) (p : ppa_t) : ppa_t := set_bits 8 LUN_BITS v p.
Definition set_ppa_pg (v : Z) (p : ppa_t) : ppa_t := set_bits 10 PG_BITS v p.
Definition set_ppa_blk (v : Z) (p : ppa_t) : ppa_t := set_bits 18 BLK_BITS v p.

(** Dies are numbered LUN by LUN, with [u8] results. *)
Definition LUNCH_TO_DIE (lun ch : Z) : Z := u8 (ch + lun * CFG_NAND_CH_NUM).
Definition PPA_TO_DIE (x : ppa_t) : Z := u8 (ppa_ch x + ppa_lun x * CFG_NAND_CH_NUM).
Definition DIE_TO_CH (x : Z) : Z := u8 (x mod CFG_NAND_CH_NUM).
Definition DIE_TO_LUN (x : Z) : Z := u8 (x / CFG_NAND_CH_NUM).

(** [legacy.c] *)
Definition is_ppa_in_the_same_page (p1 p2 : ppa_t) : bool :=
  bool_decide (Z.shiftr p1 CP_BITS = Z.shiftr p2 CP_BITS).
Definition is_ppa_in_this_die (ppa : ppa_t) (die : Z) : bool :=
  bool_decide (PPA_TO_DIE ppa = die).
Definition is_ppa_in_the_same_die (p1 p2 : ppa_t) : bool :=
  bool_decide (PPA_TO_DIE p1 = PPA_TO_DIE p2) && bool_decide (ppa_blk p1 = ppa_blk p2).

(** [is_first_ppa] of [ftl/write_insertion.c] *)
Definition is_first_ppa (ppa : ppa_t) : bool :=
  bool_decide (ppa_pg ppa = 0) && bool_decide (ppa_lun ppa = 0) &&
  bool_decide (ppa_pl ppa = 0) && bool_decide (ppa_cp ppa = 0).

Create HintDb fwcfg.
#[export] Hint Unfold CH_BITS CP_BITS PL_BITS LUN_BITS PG_BITS BLK_BITS CFG_NAND_CH_NUM
  CFG_NAND_CP_NUM CFG_NAND_PL_NUM CFG_NAND_LUN_NUM CFG_NAND_PG_NUM CFG_NAND_BLK_NUM
  CFG_NAND_DIE_NUM RAIF_DISABLE RAIF1_ENABLE RAIF2_ENABLE RAIF_MODE RPU_DIES_NUM_CFG
  CPL_BITS PPA_PER_DIE : fwcfg.

(** Unfold the geometry, then linear arithmetic. *)
Ltac fw_lia := autounfold with fwcfg in *; lia.

(** ** Dies *)

(** A die of the geometry. *)
Definition lunch_ok (lun ch : Z) : Prop :=
  0 ≤ lun < CFG_NAND_LUN_NUM ∧ 0 ≤ ch < CFG_NAND_CH_NUM.

Lemma lunch_to_die_eq lun ch :
  lunch_ok lun ch → LUNCH_TO_DIE lun ch = ch + lun * CFG_NAND_CH_NUM.
Proof. intros [??]. unfold LUNCH_TO_DIE. apply u8_small. fw_lia. Qed.

Lemma die_of_lunch lun ch :
  lunch_ok lun ch →
  0 ≤ LUNCH_TO_DIE lun ch < CFG_NAND_DIE_NUM ∧
  DIE_TO_LUN (LUNCH_TO_DIE lun ch) = lun ∧ DIE_TO_CH (LUNCH_TO_DIE lun ch) = ch.
Proof.
  intros Hok. rewrite lunch_to_die_eq by done. destruct Hok.
  unfold DIE_TO_LUN, DIE_TO_CH. rewrite !u8_small.
  all: autounfold with fwcfg in *; rewrite ?Z.div_add, ?Z.mod_add by lia.
  all: rewrite ?(Z.div_small ch), ?(Z.mod_small ch) by lia; lia.
Qed.

Lemma lunch_of_die die :
  0 ≤ die < CFG_NAND_DIE_NUM →
  lunch_ok (DIE_TO_LUN die) (DIE_TO_CH die) ∧
  LUNCH_TO_DIE (DIE_TO_LUN die) (DIE_TO_CH die) = die.
Proof.
  intros Hd. unfold DIE_TO_LUN, DIE_TO_CH. autounfold with fwcfg in *.
  assert (0 ≤ die mod 12 < 12) by (apply Z.mod_pos_bound; lia).
  assert (0 ≤ die / 12 < 16).
  { split; [apply Z.div_pos; lia|apply Z.div_lt_upper_bound; lia]. }
  rewrite !u8_small by lia.
  assert (lunch_ok (die / 12) (die mod 12)) by (split; fw_lia).
  split; [done|]. rewrite lunch_to_die_eq by done. autounfold with fwcfg.
  pose proof (Z.div_mod die 12). lia.
Qed.

(** The numbering of dies is a bijection between the pairs of a LUN and a channel of
    the geometry and the numbers below the number of dies, and the macros that take it
    apart are its inverse, at the width of [u8]. *)
Lemma die_numbering_bijective :
  (∀ lun ch, lunch_ok lun ch →
     0 ≤ LUNCH_TO_DIE lun ch < CFG_NAND_DIE_NUM ∧
     DIE_TO_LUN (LUNCH_TO_DIE lun ch) = lun ∧ DIE_TO_CH (LUNCH_TO_DIE lun ch) = ch) ∧
  (∀ die, 0 ≤ die < CFG_NAND_DIE_NUM →
     lunch_ok (DIE_TO_LUN die) (DIE_TO_CH die) ∧
     LUNCH_TO_DIE (DIE_TO_LUN die) (DIE_TO_CH die) = die).
Proof. split; [apply die_of_lunch | apply lunch_of_die]. Qed.

(** The LUN field of an address is two bits wide for sixteen LUNs: the die of an
    address that was given LUN [lun] and channel [ch] is the die of LUN [lun mod 4], so
    no address names a die of LUN 4 to 15; and an address given page [pg] holds
    [pg mod 256] of the 2304 pages. *)
Lemma ppa_die_collapses (p lun ch pg : Z) :
  lunch_ok lun ch →
  let q := set_ppa_pg pg (set_ppa_lun lun (set_ppa_ch ch p)) in
  PPA_TO_DIE q = LUNCH_TO_DIE (lun mod 4) ch ∧
  PPA_TO_DIE q < RPU_DIES_NUM_CFG ∧ ppa_pg q = pg mod 256.
Proof.
  intros [Hl Hc] q. subst q.
  assert (0 ≤ lun mod 4 < 4) by (apply Z.mod_pos_bound; lia).
  assert (lunch_ok (lun mod 4) ch) by (split; fw_lia).
  assert (PPA_TO_DIE (set_ppa_pg pg (set_ppa_lun lun (set_ppa_ch ch p)))
          = LUNCH_TO_DIE (lun mod 4) ch) as ->.
  { unfold PPA_TO_DIE, LUNCH_TO_DIE, ppa_ch, ppa_lun, set_ppa_pg, set_ppa_lun, set_ppa_ch.
    rewrite !(get_set_bits_ne _ _ 10) by fw_lia. rewrite (get_set_bits_ne 4 _ 8) by fw_lia.
    rewrite !get_set_bits_eq by fw_lia. autounfold with fwcfg in *.
    by rewrite (Z.mod_small ch) by lia. }
  split; [done|]. split.
  - rewrite lunch_to_die_eq by done. fw_lia.
  - unfold ppa_pg, set_ppa_pg. by rewrite get_set_bits_eq by fw_lia.
Qed.

Lemma ppa_die_collapses_witness :
  PPA_TO_DIE (set_ppa_pg 300 (set_ppa_lun 15 (set_ppa_ch 11 0))) = 47.
Proof.
  destruct (ppa_die_collapses 0 15 11 300) as [-> _]; [split; fw_lia|]. reflexivity.
Defined.
