(* ===== verification/FwQueue.v ===== *)
(** * Firmware: pointer-linked queues

    [FW-Base/lib/queue.h].  A [struct qnode *] is an address, [NULL] is [None]; the
    heap maps the address of a node to its [next] field, and an access to an address
    without a node is a fault.  The abstract queue is the list of the addresses from
    front to rear. *)

From S2P Require Import Prelude.

#[local] Open Scope Z_scope.

Notation qptr := (option Z) (only parsing).
Notation qheap := (gmap Z (option Z)) (only parsing).

(** [struct Queue] *)
Record Queue : Type := mk_queue { qsize : Z; qfront : qptr; qrear : qptr }.

#[global] Instance Queue_eq_dec : EqDecision Queue.
Proof. solve_decision. Defined.

(** [node->next = v] *)
Definition set_next (h : qheap) (node : qptr) (v : qptr) : res qheap :=
  a ← deref node;
  _ ← aread h a;
  Ok (<[a := v]> h).

(** [node->next] *)
Definition get_next (h : qheap) (node : qptr) : res qptr :=
  a ← deref node;
  aread h a.

Definition queue_init : Queue := mk_queue 0 None None.
Definition queue_empty (q : Queue) : bool := bool_decide (qsize q = 0).
Definition queue_size (q : Queue) : Z := qsize q.
Definition peek_queue (q : Queue) : qptr := qfront q.

Definition enqueue (q : Queue) (node : Z) (h : qheap) : res (Queue * qheap) :=
  h ← set_next h (Some node) None;
  h ← (match qfront q with
       | Some _ => set_next h (qrear q) (Some node)
       | None => Ok h
       end);
  let front := match qfront q with Some f => Some f | None => Some node end in
  Ok (mk_queue (u32 (qsize q + 1)) front (Some node), h).

(** [next] of the node is cleared before [front->next] is read. *)
Definition dequeue (q : Queue) (h : qheap) : res (qptr * Queue * qheap) :=
  if queue_empty q then Ok (None, q, h) else
  let node := qfront q in
  h ← set_next h node None;
  let rear := if decide (qfront q = qrear q) then None else qrear q in
  front ← get_next h (qfront q);
  Ok (node, mk_queue (u32 (qsize q - 1)) front rear, h).

Definition enqueue_front (q : Queue) (node : Z) (h : qheap) : res (Queue * qheap) :=
  h ← set_next h (Some node) (qfront q);
  let rear := match qrear q with None => Some node | Some r => Some r end in
  Ok (mk_queue (u32 (qsize q + 1)) (Some node) rear, h).

(** The new [queue2] and [queue1]. *)
Definition merge_queue (q2 q1 : Queue) (h : qheap) : res (Queue * Queue * qheap) :=
  match qfront q1 with
  | None => Ok (q2, q1, h)
  | Some _ =>
      h ← set_next h (qrear q2) (qfront q1);
      Ok (mk_queue (u32 (qsize q2 + qsize q1)) (qfront q2) (qrear q1), queue_init, h)
  end.

(** ** The abstract queue *)

(** The nodes of [l] are linked in this order, and the last one leads to [e]. *)
Fixpoint qchain (h : qheap) (l : list Z) (e : qptr) : Prop :=
  match l with
  | [] => True
  | a :: l' => h !! a = Some (match l' with [] => e | b :: _ => Some b end) ∧ qchain h l' e
  end.

Record queue_rep (h : qheap) (q : Queue) (l : list Z) : Prop := {
  qr_front : qfront q = head l;
  qr_rear : qrear q = last l;
  qr_size : qsize q = Z.of_nat (length l);
  qr_small : Z.of_nat (length l) < 2 ^ 32;
  qr_nodup : NoDup l;
  qr_chain : qchain h l None;
}.

Lemma qchain_lookup h l e a : qchain h l e → a ∈ l → is_Some (h !! a).
Proof.
  induction l as [|b l IH]; cbn; [set_solver|].
  intros [Hb Hc] [->|Ha]%elem_of_cons; eauto.
Qed.

Lemma qchain_frame h h' l e :
  (∀ a, a ∈ l → h' !! a = h !! a) → qchain h l e → qchain h' l e.
Proof.
  induction l as [|b l IH]; cbn; [done|].
  intros Hf [Hb Hc]. split; [rewrite Hf; set_solver|apply IH; set_solver].
Qed.

Lemma qchain_frame_ne h l e a v : a ∉ l → qchain h l e → qchain (<[a := v]> h) l e.
Proof. intros Ha. apply qchain_frame. intros b Hb. rewrite lookup_insert_ne; set_solver. Qed.

(** Linking the last node of a chain to the first node of another. *)
Lemma qchain_link h l t l2 e :
  NoDup ((l ++ [t]) ++ l2) → l2 ≠ [] →
  qchain h (l ++ [t]) None → qchain h l2 e →
  qchain (<[t := head l2]> h) ((l ++ [t]) ++ l2) e.
Proof.
  induction l as [|a l IH]; cbn; intros Hnd Hne.
  - intros [Ht _] Hc. apply NoDup_cons in Hnd as [Htl2 _]. rewrite lookup_insert_eq.
    split; [by destruct l2|]. by apply qchain_frame_ne.
  - intros [Ha Hc] Hc2. apply NoDup_cons in Hnd as [Hal Hnd]. split; [|by apply IH].
    rewrite lookup_insert_ne by set_solver. rewrite Ha. by destruct l.
Qed.

Lemma queue_rep_empty h : queue_rep h queue_init [].
Proof. constructor; cbn; try done; constructor. Qed.

Lemma queue_empty_rep h q l : queue_rep h q l → queue_empty q = bool_decide (l = []).
Proof.
  intros []. unfold queue_empty. rewrite qr_size0. apply bool_decide_ext.
  destruct l; cbn; split; try done; lia.
Qed.

Lemma set_next_ok h a v : is_Some (h !! a) → set_next h (Some a) v = Ok (<[a := v]> h).
Proof. intros [x Hx]. unfold set_next. cbn. by rewrite (aread_Some _ _ _ Hx). Qed.

Lemma set_next_null h v : set_next h None v = Fault F_NULL.
Proof. done. Qed.

#[export] Hint Resolve queue_rep_empty qchain_frame_ne : ftl.

(** ** The operations *)

Lemma enqueue_ok h q l n :
  queue_rep h q l → n ∉ l → is_Some (h !! n) → Z.of_nat (length l) + 1 < 2 ^ 32 →
  ∃ q' h', enqueue q n h = Ok (q', h') ∧ queue_rep h' q' (l ++ [n]) ∧
    (∀ a, a ∉ l ++ [n] → h' !! a = h !! a) ∧ dom h' = dom h.
Proof.
  intros Hrep Hn Hin Hlen. destruct Hrep. unfold enqueue.
  rewrite set_next_ok by done. cbn.
  assert (u32 (qsize q + 1) = Z.of_nat (length (l ++ [n]))) as Hsz.
  { rewrite u32_small by lia. rewrite length_app. cbn. lia. }
  destruct l as [|t l _] using rev_ind.
  - cbn in *. rewrite qr_front0. cbn. do 2 eexists. split; [done|]. split; [|split].
    + constructor; cbn; try done; [apply NoDup_singleton|]. by rewrite lookup_insert_eq.
    + intros a Ha. rewrite lookup_insert_ne; set_solver.
    + apply dom_insert_lookup_L. done.
  - assert (is_Some (h !! t)) by (apply (qchain_lookup _ _ _ _ qr_chain0); set_solver).
    rewrite qr_rear0, last_snoc. destruct (qfront q) as [f|] eqn:Hf.
    2:{ by destruct l. }
    rewrite set_next_ok by (rewrite lookup_insert_ne by set_solver; done). cbn.
    assert (NoDup ((l ++ [t]) ++ [n])).
    { apply NoDup_app; split; [done|]. split; [set_solver|apply NoDup_singleton]. }
    do 2 eexists. split; [done|]. split; [|split].
    + constructor; cbn; try done.
      * rewrite qr_front0. by destruct l.
      * by rewrite last_snoc.
      * rewrite length_app. cbn. lia.
      * apply (qchain_link _ l t [n] None); [done|done|by apply qchain_frame_ne|].
        cbn. by rewrite lookup_insert_eq.
    + intros a Ha. rewrite !lookup_insert_ne; set_solver.
    + rewrite !dom_insert_lookup_L; [done|done|]. by rewrite lookup_insert_ne by set_solver.
Qed.

Lemma enqueue_front_ok h q l n :
  queue_rep h q l → n ∉ l → is_Some (h !! n) → Z.of_nat (length l) + 1 < 2 ^ 32 →
  ∃ q' h', enqueue_front q n h = Ok (q', h') ∧ queue_rep h' q' (n :: l) ∧
    (∀ a, a ≠ n → h' !! a = h !! a) ∧ dom h' = dom h.
Proof.
  intros Hrep Hn Hin Hlen. destruct Hrep. unfold enqueue_front.
  rewrite set_next_ok by done. cbn.
  do 2 eexists. split; [done|]. split; [|split].
  - constructor; cbn [qfront qrear qsize].
    + done.
    + rewrite qr_rear0. destruct l as [|b l]; [done|]. change (n :: b :: l) with ([n] ++ b :: l).
      rewrite last_app_cons. destruct (last (b :: l)) eqn:E; [done|]. by apply last_None in E.
    + rewrite u32_small by lia. cbn. lia.
    + cbn. lia.
    + by constructor.
    + cbn. rewrite lookup_insert_eq, qr_front0. split; [by destruct l|].
      by apply qchain_frame_ne.
  - intros a Ha. by rewrite lookup_insert_ne.
  - by apply dom_insert_lookup_L.
Qed.

Lemma dequeue_empty h q : queue_rep h q [] → dequeue q h = Ok (None, q, h).
Proof. intros Hrep. unfold dequeue. by rewrite (queue_empty_rep _ _ _ Hrep). Qed.

(** [dequeue] of a represented queue: the node in front, but [front] becomes [NULL]. *)
Lemma dequeue_cons h q n l :
  queue_rep h q (n :: l) →
  dequeue q h = Ok (Some n,
    mk_queue (Z.of_nat (length l)) None (if decide (l = []) then None else last (n :: l)),
    <[n := None]> h).
Proof.
  intros Hrep. unfold dequeue. rewrite (queue_empty_rep _ _ _ Hrep). destruct Hrep.
  cbn [bool_decide decide_rel] in *. rewrite bool_decide_false by done.
  rewrite qr_front0, qr_rear0. cbn [head].
  rewrite set_next_ok by (apply (qchain_lookup _ _ _ _ qr_chain0); set_solver).
  cbn -[decide last]. unfold aread. rewrite lookup_insert_eq. cbn -[decide last].
  rewrite qr_size0. cbn [length] in *. rewrite u32_small by lia.
  replace (Z.of_nat (S (length l)) - 1) with (Z.of_nat (length l)) by lia.
  do 4 f_equal. destruct l as [|b l]; [by rewrite !decide_True by done|].
  rewrite (decide_False (P := b :: l = [])) by done. rewrite decide_False; [done|].
  change (n :: b :: l) with ([n] ++ b :: l). rewrite last_app_cons. intros E.
  apply NoDup_cons in qr_nodup0 as [Hn _]. apply Hn. by apply last_Some_elem_of.
Qed.

(** Every node of a list, one after the other. *)
Definition enqueue_all (ns : list Z) : Queue * qheap → res (Queue * qheap) :=
  mfor ns (λ n '(q, h), enqueue q n h).

Lemma enqueue_all_ok ns : ∀ h q l,
  queue_rep h q l → NoDup (l ++ ns) → (∀ n, n ∈ ns → is_Some (h !! n)) →
  Z.of_nat (length (l ++ ns)) < 2 ^ 32 →
  ∃ q' h', enqueue_all ns (q, h) = Ok (q', h') ∧ queue_rep h' q' (l ++ ns).
Proof.
  induction ns as [|n ns IH]; intros h q l Hrep Hnd Hin Hlen.
  - rewrite app_nil_r in *. eexists _, _. by split.
  - rewrite length_app in Hlen. cbn in Hlen.
    destruct (enqueue_ok h q l n) as (q1 & h1 & Heq & Hrep1 & _ & Hdom); try done.
    + apply NoDup_app in Hnd as (_ & Hd & _). intros ?. by apply (Hd n); set_solver.
    + apply Hin. set_solver.
    + lia.
    + unfold enqueue_all in *. cbn [mfor]. rewrite Heq. cbn [mbind res_bind].
      replace (l ++ n :: ns) with ((l ++ [n]) ++ ns) in * by (by rewrite <-app_assoc).
      apply (IH h1 q1 (l ++ [n])); try done.
      * intros m Hm. apply elem_of_dom. rewrite Hdom. apply elem_of_dom. apply Hin. set_solver.
      * rewrite !length_app. cbn. lia.
Qed.

(** Draining: the nodes [dequeue] gives out until it returns [NULL]. *)
Fixpoint dequeue_all (fuel : nat) (q : Queue) (h : qheap) : res (list Z) :=
  match fuel with
  | O => Fault F_FUEL
  | S fuel' =>
      r ← dequeue q h;
      match r with
      | (None, _, _) => Ok []
      | (Some n, q', h') => ns ← dequeue_all fuel' q' h'; Ok (n :: ns)
      end
  end.

(** ** Properties *)

(** [enqueue] and [enqueue_front] refine the two ways to extend a list, and
    [merge_queue] of two non-empty queues refines concatenation and empties the second;
    merging an empty queue changes nothing. *)
Lemma queue_extend_refines (h : qheap) (q : Queue) (l : list Z) (n : Z) :
  queue_rep h q l → n ∉ l → is_Some (h !! n) → Z.of_nat (length l) + 1 < 2 ^ 32 →
  (∃ q' h', enqueue q n h = Ok (q', h') ∧ queue_rep h' q' (l ++ [n])) ∧
  (∃ q' h', enqueue_front q n h = Ok (q', h') ∧ queue_rep h' q' (n :: l)) ∧
  (∀ q1 l1, queue_rep h q1 l1 → NoDup (l ++ l1) → Z.of_nat (length (l ++ l1)) < 2 ^ 32 →
     l ≠ [] ∨ l1 = [] →
     ∃ q' q1' h', merge_queue q q1 h = Ok (q', q1', h') ∧
       queue_rep h' q' (l ++ l1) ∧ queue_rep h' q1' []).
Proof.
  intros Hrep Hn Hin Hlen. split; [|split].
  - destruct (enqueue_ok h q l n) as (q' & h' & ? & ? & _); eauto.
  - destruct (enqueue_front_ok h q l n) as (q' & h' & ? & ? & _); eauto.
  - intros q1 l1 Hrep1 Hnd Hsz Hne. unfold merge_queue.
    destruct l1 as [|b l1].
    { rewrite (qr_front _ _ _ Hrep1), app_nil_r. by eauto 6. }
    destruct l as [|t l _] using rev_ind; [by destruct Hne|].
    destruct Hrep, Hrep1. rewrite qr_front1, qr_rear0, last_snoc. cbn [head].
    rewrite set_next_ok by (apply (qchain_lookup _ _ _ _ qr_chain0); set_solver).
    cbn [mbind res_bind]. do 3 eexists. split; [done|]. split; [|apply queue_rep_empty].
    constructor; cbn [qfront qrear qsize]; try done.
    + rewrite qr_front0. by destruct l.
    + rewrite qr_rear1, last_app_cons. done.
    + rewrite length_app in Hsz |- *. rewrite qr_size0, qr_size1, <-Nat2Z.inj_add. by rewrite u32_small by lia.
    + apply (qchain_link h l t (b :: l1) None); done.
Qed.

Lemma queue_extend_refines_witness :
  ∃ q' h', enqueue queue_init 7 {[7 := None]} = Ok (q', h') ∧ queue_rep h' q' [7].
Proof.
  destruct (queue_extend_refines {[7 := None]} queue_init [] 7) as (H & _).
  - apply queue_rep_empty.
  - apply not_elem_of_nil.
  - by exists None.
  - done.
  - exact H.
Defined.

(** [dequeue] gives out the node in front, but on a queue of two nodes or more it
    loses the others: the queue has no front any more while its size and its rear stay,
    so the next [dequeue] dereferences [NULL], and after the next [enqueue] the new node
    is the front and the nodes in between are no longer reached. *)
Lemma dequeue_loses_rest (h : qheap) (q : Queue) (n m : Z) (l : list Z) :
  queue_rep h q (n :: m :: l) →
  ∃ q' h', dequeue q h = Ok (Some n, q', h') ∧
    peek_queue q' = None ∧ queue_size q' = Z.of_nat (length (m :: l)) ∧
    dequeue q' h' = Fault F_NULL ∧
    (∀ x, x ∉ n :: m :: l → is_Some (h !! x) → Z.of_nat (length (n :: m :: l)) < 2 ^ 32 - 1 →
       ∃ q'' h'', enqueue q' x h' = Ok (q'', h'') ∧ peek_queue q'' = Some x ∧
         get_next h'' (Some x) = Ok None ∧ queue_size q'' = Z.of_nat (length (x :: m :: l))).
Proof.
  intros Hrep. rewrite (dequeue_cons h q n (m :: l) Hrep).
  rewrite decide_False by done. do 2 eexists. split; [done|].
  split; [done|]. split; [done|]. split.
  - unfold dequeue, queue_empty. cbn [qsize]. rewrite bool_decide_false; [done|].
    cbn [length]. lia.
  - intros x Hx Hin Hlen. unfold enqueue. cbn [qfront qsize].
    rewrite set_next_ok by (rewrite lookup_insert_ne by set_solver; done). cbn [mbind res_bind].
    do 2 eexists. split; [done|]. cbn [qfront peek_queue qsize queue_size]. split; [done|].
    unfold get_next. cbn. unfold aread. rewrite lookup_insert_eq. split; [done|].
    cbn [length] in *. rewrite u32_small; lia.
Qed.

Lemma dequeue_loses_rest_witness :
  ∃ q h, enqueue_all [3; 5] (queue_init, {[3 := None; 5 := None]}) = Ok (q, h) ∧
    ∃ q' h', dequeue q h = Ok (Some 3, q', h') ∧ dequeue q' h' = Fault F_NULL.
Proof.
  destruct (enqueue_all_ok [3; 5] {[3 := None; 5 := None]} queue_init []) as (q & h & Hq & Hrep).
  - apply queue_rep_empty.
  - apply (bool_decide_unpack _). vm_compute. exact I.
  - intros n Hn. cbn in Hn. apply elem_of_cons in Hn as [->|Hn]; [by exists None|].
    apply list_elem_of_singleton in Hn as ->. by exists None.
  - done.
  - exists q, h. split; [exact Hq|].
    destruct (dequeue_loses_rest h q 3 5 [] Hrep) as (q' & h' & H1 & _ & _ & H2 & _).
    exists q', h'. by split.
Defined.

(** A queue that never holds more than one node is served in order and to its end:
    after [enqueue] of a node into an empty queue, draining gives exactly this node. *)
Lemma single_node_drains (h : qheap) (n : Z) (fuel : nat) :
  is_Some (h !! n) → (2 ≤ fuel)%nat →
  ∃ q h', enqueue queue_init n h = Ok (q, h') ∧ dequeue_all fuel q h' = Ok [n].
Proof.
  intros Hin Hf.
  destruct (enqueue_ok h queue_init [] n) as (q & h' & He & Hrep & _).
  - apply queue_rep_empty.
  - apply not_elem_of_nil.
  - done.
  - done.
  - exists q, h'. split; [done|]. destruct fuel as [|[|fuel]]; [lia|lia|].
    cbn [dequeue_all]. by rewrite (dequeue_cons _ _ _ _ Hrep).
Qed.

Lemma single_node_drains_witness :
  ∃ q h', enqueue queue_init 9 {[9 := Some 4]} = Ok (q, h') ∧ dequeue_all 2 q h' = Ok [9].
Proof. apply (single_node_drains {[9 := Some 4]} 9 2); [by eexists|lia]. Defined.

(** [merge_queue] into an empty queue dereferences its [NULL] rear. *)
Lemma merge_into_empty_faults (h : qheap) (q1 q2 : Queue) (l : list Z) :
  queue_rep h q2 [] → queue_rep h q1 l → l ≠ [] → merge_queue q2 q1 h = Fault F_NULL.
Proof.
  intros [] [] Hne. unfold merge_queue. rewrite qr_front1, qr_rear0.
  by destruct l.
Qed.

Lemma merge_into_empty_faults_witness :
  merge_queue queue_init (mk_queue 1 (Some 2) (Some 2)) {[2 := None]} = Fault F_NULL.
Proof.
  apply (merge_into_empty_faults {[2 := None]} _ _ [2]).
  - apply queue_rep_empty.
  - constructor; try done. apply NoDup_singleton.
  - done.
Defined.
