(* ===== verification/FwRbTree.v ===== *)
(** * Firmware: the red-black tree

    [FW-Base/include/rb-tree.h] and [lib/rb-tree.c].  A [rb_node_t *] is an address or
    [NULL] ([None]); the heap maps addresses to nodes.  The [Key] that [rb-tree.c] uses
    is a field of the node, as in its commented-out constructor [RBTree_NewNode]; where
    the memory of a new node comes from is a parameter of [rb_insert_node]. *)

From S2P Require Import Prelude.
From Stdlib Require Import Sorting.Sorted.

#[local] Open Scope Z_scope.

Notation rptr := (option Z) (only parsing).

Definition RB_NODE_NULL : Z := 0xffff.
Definition RB_RED : Z := 0.
Definition RB_BLACK : Z := 1.

(** [struct rb_node] *)
Record rb_node : Type := mk_rb_node {
  Key : Z;
  rb_color : Z;
  rb_parent : rptr;
  rb_right : rptr;
  rb_left : rptr;
}.

#[global] Instance rb_node_eq_dec : EqDecision rb_node.
Proof. solve_decision. Defined.

Notation rheap := (gmap Z rb_node) (only parsing).

(** [struct rb_root] *)
Record rb_root : Type := mk_rb_root { root_node : rptr; root_count : Z }.

(** ** Field access *)

Definition with_color (c : Z) (n : rb_node) : rb_node :=
  mk_rb_node (Key n) c (rb_parent n) (rb_right n) (rb_left n).
Definition with_parent (p : rptr) (n : rb_node) : rb_node :=
  mk_rb_node (Key n) (rb_color n) p (rb_right n) (rb_left n).
Definition with_right (p : rptr) (n : rb_node) : rb_node :=
  mk_rb_node (Key n) (rb_color n) (rb_parent n) p (rb_left n).
Definition with_left (p : rptr) (n : rb_node) : rb_node :=
  mk_rb_node (Key n) (rb_color n) (rb_parent n) (rb_right n) p.

Definition rb_get (h : rheap) (p : rptr) : res rb_node :=
  a ← deref p;
  aread h a.

Definition rb_upd (f : rb_node → rb_node) (p : rptr) (h : rheap) : res rheap :=
  a ← deref p;
  n ← aread h a;
  Ok (<[a := f n]> h).

(** The node is red when its colour [& RB_RED] is not zero; [RB_RED] is zero. *)
Definition rb_is_red (n : rb_node) : bool := negb (bool_decide (Z.land (rb_color n) RB_RED = 0)).
Definition rb_is_black (n : rb_node) : bool :=
  negb (bool_decide (Z.land (rb_color n) RB_BLACK = 0)).
Definition rb_set_red (p : rptr) (h : rheap) : res rheap := rb_upd (with_color RB_RED) p h.
Definition rb_set_black (p : rptr) (h : rheap) : res rheap := rb_upd (with_color RB_BLACK) p h.

(** [RB_NODE_INIT] stores the mark [0xffff], not [NULL], in the pointers. *)
Definition RB_NODE_INIT (p : rptr) (h : rheap) : res rheap :=
  rb_upd (λ n, mk_rb_node (Key n) (rb_color n)
                 (Some RB_NODE_NULL) (Some RB_NODE_NULL) (Some RB_NODE_NULL)) p h.
Definition RB_ROOT_INIT : rb_root := mk_rb_root (Some RB_NODE_NULL) 0.

Definition rb_set_parent (node p : rptr) (h : rheap) : res rheap := rb_upd (with_parent p) node h.

Definition rb_set_left (node child : rptr) (h : rheap) : res rheap :=
  h ← rb_upd (with_left child) node h;
  rb_set_parent child node h.

Definition rb_set_right (node child : rptr) (h : rheap) : res rheap :=
  h ← rb_upd (with_right child) node h;
  rb_set_parent child node h.

Definition rb_is_left (node p : rptr) (h : rheap) : res bool :=
  n ← rb_get h p; Ok (bool_decide (rb_left n = node)).
Definition rb_is_right (node p : rptr) (h : rheap) : res bool :=
  n ← rb_get h p; Ok (bool_decide (rb_right n = node)).

(** ** Rotations *)

Definition _left_rotate (root : rb_root) (node : rptr) (h : rheap) : res (rb_root * rheap) :=
  n ← rb_get h node;
  let right := rb_right n in
  let parent := rb_parent n in
  r ← rb_get h right;
  h ← rb_set_right node (rb_left r) h;
  h ← rb_set_left right node h;
  match parent with
  | Some _ =>
      isl ← rb_is_left node parent h;
      h ← (if isl : bool then rb_set_left right parent h else rb_set_right right parent h);
      Ok (root, h)
  | None => Ok (mk_rb_root right (root_count root), h)
  end.

Definition _right_rotate (root : rb_root) (node : rptr) (h : rheap) : res (rb_root * rheap) :=
  n ← rb_get h node;
  let left := rb_left n in
  let parent := rb_parent n in
  l ← rb_get h left;
  h ← rb_set_left node (rb_right l) h;
  h ← rb_set_right left node h;
  match parent with
  | Some _ =>
      isl ← rb_is_left node parent h;
      h ← (if isl : bool then rb_set_left parent left h else rb_set_right parent left h);
      Ok (root, h)
  | None => Ok (root, h)
  end.

(** One side of the body of [rb_rebalance]: [uncle] is the other child of the
    grandparent, [far] tells whether [node] is the inner grandchild, [rot1] rotates the
    parent and [rot2] the grandparent.  Returns the next [node]. *)
Definition rebalance_side
    (rot1 rot2 : rb_root → rptr → rheap → res (rb_root * rheap))
    (uncle_of : rb_node → rptr) (inner : rptr → rptr → rheap → res bool)
    (root : rb_root) (node parent g_parent : rptr) (h : rheap)
    : res (rb_root * rptr * rheap) :=
  g ← rb_get h g_parent;
  red ← (match uncle_of g with
         | None => Ok false
         | Some u => un ← rb_get h (Some u); Ok (rb_is_red un)
         end);
  if red : bool then
    h ← rb_set_black parent h;
    h ← rb_set_black (uncle_of g) h;
    h ← rb_set_red g_parent h;
    Ok (root, g_parent, h)
  else
    far ← inner node parent h;
    st ← (if far : bool then
            rh ← rot1 root parent h;
            let '(root, h) := rh in Ok (root, h, node, parent)
          else Ok (root, h, parent, node));
    let '(root, h, parent, node) := st in
    h ← rb_set_black parent h;
    h ← rb_set_red g_parent h;
    rh ← rot2 root g_parent h;
    let '(root, h) := rh in
    Ok (root, node, h).

Fixpoint rb_rebalance (fuel : nat) (root : rb_root) (node : rptr) (h : rheap)
    : res (rb_root * rheap) :=
  match fuel with
  | O => Fault F_FUEL
  | S fuel' =>
      n ← rb_get h node;
      let parent := rb_parent n in
      red ← (match parent with
             | None => Ok false
             | Some _ => pn ← rb_get h parent; Ok (rb_is_red pn)
             end);
      if red : bool then
        pn ← rb_get h parent;
        let g_parent := rb_parent pn in
        isl ← rb_is_left parent g_parent h;
        st ← (if isl : bool then
                rebalance_side _left_rotate _right_rotate rb_right rb_is_right
                  root node parent g_parent h
              else
                rebalance_side _right_rotate _left_rotate rb_left rb_is_left
                  root node parent g_parent h);
        let '(root, node, h) := st in
        rb_rebalance fuel' root node h
      else Ok (root, h)
  end.

(** ** Insertion *)

(** The search loop of [rb_add_node]: the last node visited. *)
Fixpoint rb_descend (fuel : nat) (node : rptr) (h : rheap) (temp temp_parent : rptr) : res rptr :=
  match temp with
  | None => Ok temp_parent
  | Some _ =>
      match fuel with
      | O => Fault F_FUEL
      | S fuel' =>
          n ← rb_get h node;
          t ← rb_get h temp;
          rb_descend fuel' node h (if decide (Key n < Key t) then rb_left t else rb_right t) temp
      end
  end.

(** A path of the tree has no more nodes than the heap. *)
Definition rb_fuel (h : rheap) : nat := S (size h).

Definition rb_add_node (root : rb_root) (node : rptr) (h : rheap) : res (rb_root * rheap) :=
  tp ← rb_descend (rb_fuel h) node h (root_node root) None;
  match tp with
  | Some _ =>
      n ← rb_get h node;
      t ← rb_get h tp;
      h ← (if decide (Key n < Key t) then rb_set_left tp node h else rb_set_right tp node h);
      Ok (root, h)
  | None => Ok (mk_rb_root node (root_count root), h)
  end.

Definition __rb_insert_node (root : rb_root) (node : rptr) (h : rheap) : res (rb_root * rheap) :=
  rh ← rb_add_node root node h;
  let '(root, h) := rh in
  rb_rebalance (rb_fuel h) root node h.

(** [RBTree_NewNode] is in a comment of the source: the allocation is a parameter, the
    contents are those of the comment. *)
Definition new_node (Key : Z) : rb_node := mk_rb_node Key RB_RED None None None.

Definition rb_insert_node (alloc : rheap → Z) (root : rb_root) (Key : Z) (h : rheap)
    : res (rb_root * rheap) :=
  let a := alloc h in
  __rb_insert_node root (Some a) (<[a := new_node Key]> h).

(** ** The tree in the heap *)

Inductive tree : Type :=
  | Leaf
  | Node (l : tree) (a k : Z) (r : tree).

#[global] Instance tree_eq_dec : EqDecision tree.
Proof. solve_decision. Defined.

(** Insertion into the search tree; equal keys go to the right. *)
Fixpoint tinsert (x k : Z) (t : tree) : tree :=
  match t with
  | Leaf => Node Leaf x k Leaf
  | Node l a ka r =>
      if decide (k < ka) then Node (tinsert x k l) a ka r else Node l a ka (tinsert x k r)
  end.

Fixpoint addrs (t : tree) : list Z :=
  match t with Leaf => [] | Node l a _ r => addrs l ++ a :: addrs r end.
Fixpoint keys (t : tree) : list Z :=
  match t with Leaf => [] | Node l _ k r => keys l ++ k :: keys r end.
Fixpoint height (t : tree) : nat :=
  match t with Leaf => O | Node l _ _ r => S (height l `max` height r) end.

Fixpoint tree_rep (h : rheap) (parent p : rptr) (t : tree) : Prop :=
  match t with
  | Leaf => p = None
  | Node l a k r =>
      p = Some a ∧ ∃ n, h !! a = Some n ∧ Key n = k ∧ rb_parent n = parent ∧
        tree_rep h (Some a) (rb_left n) l ∧ tree_rep h (Some a) (rb_right n) r
  end.

(** The node under which [tinsert] puts a key. *)
Fixpoint tpos (k : Z) (t : tree) (tp : rptr) : rptr :=
  match t with
  | Leaf => tp
  | Node l a ka r => tpos k (if decide (k < ka) then l else r) (Some a)
  end.

Lemma tree_rep_frame h h' t : ∀ parent p,
  (∀ a, a ∈ addrs t → h' !! a = h !! a) → tree_rep h parent p t → tree_rep h' parent p t.
Proof.
  induction t as [|l IHl a k r IHr]; intros parent p Hf; cbn; [done|].
  intros (-> & n & Hn & ? & ? & Hl & Hr). cbn in Hf.
  split; [done|]. exists n. rewrite Hf by set_solver. split; [done|].
  split; [done|]. split; [done|]. split; [apply IHl|apply IHr]; set_solver.
Qed.

Lemma tree_rep_frame_ne h t a n parent p :
  a ∉ addrs t → tree_rep h parent p t → tree_rep (<[a := n]> h) parent p t.
Proof.
  intros Ha. apply tree_rep_frame. intros b Hb. rewrite lookup_insert_ne; [done|].
  by intros ->.
Qed.

Lemma tree_rep_in h t : ∀ parent p a,
  tree_rep h parent p t → a ∈ addrs t → is_Some (h !! a).
Proof.
  induction t as [|l IHl b k r IHr]; intros parent p a; cbn; [set_solver|].
  intros (_ & n & Hn & _ & _ & Hl & Hr) [Ha|[->|Ha]%elem_of_cons]%elem_of_app; eauto.
Qed.

(** The parent pointer of a node of the tree. *)
Lemma tree_rep_parent h x n t : ∀ par q,
  h !! x = Some n → tree_rep h par q t → x ∈ addrs t →
  rb_parent n = par ∨ ∃ p, rb_parent n = Some p ∧ p ∈ addrs t.
Proof.
  induction t as [|l IHl a ka r IHr]; intros par q Hn Hrep Hin; cbn in Hin; [set_solver|].
  destruct Hrep as (-> & m & Hm & _ & Hmp & Hl & Hr). cbn.
  apply elem_of_app in Hin as [Hin|[->|Hin]%elem_of_cons].
  - destruct (IHl _ _ Hn Hl Hin) as [->|(p & -> & ?)];
      right; eexists; (split; [done|]); set_solver.
  - left. congruence.
  - destruct (IHr _ _ Hn Hr Hin) as [->|(p & -> & ?)];
      right; eexists; (split; [done|]); set_solver.
Qed.

Lemma height_length t : (height t ≤ length (addrs t))%nat.
Proof. induction t; cbn; [lia|]. rewrite length_app. cbn. lia. Qed.

(** The path to a leaf fits the fuel. *)
Lemma height_fuel h t parent p :
  tree_rep h parent p t → NoDup (addrs t) → (height t < rb_fuel h)%nat.
Proof.
  intros Hrep Hnd. unfold rb_fuel.
  assert (length (addrs t) ≤ size h)%nat as Hle.
  { rewrite <-size_dom. rewrite <-(size_list_to_set (C := gset Z) (addrs t)) by done.
    apply subseteq_size. intros a Ha%elem_of_list_to_set. apply elem_of_dom.
    by apply (tree_rep_in h t parent p). }
  pose proof (height_length t). lia.
Qed.

Lemma rb_get_Some h a n : h !! a = Some n → rb_get h (Some a) = Ok n.
Proof. intros Ha. unfold rb_get. cbn. by apply aread_Some. Qed.

Lemma rb_descend_spec h x nx t : ∀ fuel parent p tp,
  h !! x = Some nx → tree_rep h parent p t → (height t ≤ fuel)%nat →
  rb_descend fuel (Some x) h p tp = Ok (tpos (Key nx) t tp).
Proof.
  induction t as [|l IHl a k r IHr]; intros fuel parent p tp Hx Hrep Hh.
  - cbn in Hrep. rewrite Hrep. by destruct fuel.
  - destruct Hrep as (-> & n & Hn & Hk & _ & Hl & Hr). cbn in Hh.
    destruct fuel as [|fuel]; [lia|]. cbn [rb_descend].
    rewrite (rb_get_Some _ _ _ Hx), (rb_get_Some _ _ _ Hn). cbn [mbind res_bind tpos].
    rewrite Hk. case_decide.
    + apply (IHl _ (Some a)); [done|done|lia].
    + apply (IHr _ (Some a)); [done|done|lia].
Qed.

Lemma tpos_in k t tp : t ≠ Leaf → ∃ b, tpos k t tp = Some b ∧ b ∈ addrs t.
Proof.
  revert tp. induction t as [|l IHl a ka r IHr]; intros tp Hne; [done|]. cbn.
  case_decide.
  - destruct l as [|l1 a1 k1 r1]; [cbn; eexists; split; [done|set_solver]|].
    destruct (IHl (Some a)) as (b & -> & Hb); [done|]. eexists; split; [done|set_solver].
  - destruct r as [|l1 a1 k1 r1]; [cbn; eexists; split; [done|set_solver]|].
    destruct (IHr (Some a)) as (b & -> & Hb); [done|]. eexists; split; [done|set_solver].
Qed.

(** Linking node [x] under [b] as [rb_set_left] and [rb_set_right] do. *)
Definition attach (h : rheap) (b x : Z) (nb nx : rb_node) : rheap :=
  <[x := with_parent (Some b) nx]>
    (<[b := if decide (Key nx < Key nb) then with_left (Some x) nb else with_right (Some x) nb]> h).

Lemma attach_ne h b x nb nx a : a ≠ b → a ≠ x → attach h b x nb nx !! a = h !! a.
Proof. intros. unfold attach. by rewrite !lookup_insert_ne. Qed.

Lemma attach_at h b x nb nx : b ≠ x →
  attach h b x nb nx !! b =
    Some (if decide (Key nx < Key nb) then with_left (Some x) nb else with_right (Some x) nb).
Proof. intros. unfold attach. by rewrite lookup_insert_ne, lookup_insert_eq. Qed.

Lemma attach_new h b x nb nx : attach h b x nb nx !! x = Some (with_parent (Some b) nx).
Proof. unfold attach. by rewrite lookup_insert_eq. Qed.

Lemma attach_leaf h b x nb nx :
  b ≠ x → rb_left nx = None → rb_right nx = None →
  tree_rep (attach h b x nb nx) (Some b) (Some x) (Node Leaf x (Key nx) Leaf).
Proof.
  intros Hbx Hl Hr. split; [done|]. exists (with_parent (Some b) nx).
  rewrite attach_new. by repeat split.
Qed.

Lemma tpos_default k t tp tp' : t ≠ Leaf → tpos k t tp = tpos k t tp'.
Proof. by destruct t. Qed.

Section attach_rep.
#[local] Set Default Proof Using "All".
Context (x : Z) (nx : rb_node) (Hxl : rb_left nx = None) (Hxr : rb_right nx = None).

(** The node itself, when one of its sides takes the new node. *)
Lemma attach_here h parent l a k r n :
  h !! a = Some n → Key n = k → rb_parent n = parent →
  tree_rep h (Some a) (rb_left n) l → tree_rep h (Some a) (rb_right n) r →
  NoDup (addrs l ++ a :: addrs r) → x ∉ addrs l ++ a :: addrs r →
  (if decide (Key nx < k) then l else r) = Leaf →
  tree_rep (attach h a x n nx) parent (Some a) (tinsert x (Key nx) (Node l a k r)).
Proof.
  intros Hn Hk Hp Hl Hr Hnd Hx Hleaf. cbn [tinsert].
  apply NoDup_app in Hnd as (_ & Hd & [Hr' _]%NoDup_cons).
  assert (a ≠ x) as Hax by set_solver.
  assert (a ∉ addrs l) as Hal by (intros ?; eapply Hd; [done|set_solver]).
  assert (∀ t p, x ∉ addrs t → a ∉ addrs t →
            tree_rep h (Some a) p t → tree_rep (attach h a x n nx) (Some a) p t) as Hframe.
  { intros t p Hxt Hat. apply tree_rep_frame. intros c Hc.
    apply attach_ne; intros ->; contradiction. }
  pose proof (attach_leaf h a x n nx Hax Hxl Hxr) as Hnew.
  pose proof (attach_at h a x n nx Hax) as Hat. rewrite Hk in Hat.
  case_decide; subst; cbn [tinsert]; (split; [done|]); (eexists; split; [exact Hat|]).
  - split; [done|]. split; [done|]. split; [exact Hnew|]. apply Hframe; [set_solver|done|done].
  - split; [done|]. split; [done|]. split; [|exact Hnew]. apply Hframe; [set_solver|done|done].
Qed.

(** The node itself, when the new node goes deeper. *)
Lemma attach_above h parent l a k r n b nb t' :
  h !! a = Some n → Key n = k → rb_parent n = parent →
  a ≠ b → a ≠ x → NoDup (addrs l ++ a :: addrs r) → x ∉ addrs l ++ a :: addrs r →
  (Key nx < k → tree_rep (attach h b x nb nx) (Some a) (rb_left n) t' ∧
     b ∈ addrs l ∧ tree_rep h (Some a) (rb_right n) r) →
  (¬ Key nx < k → tree_rep (attach h b x nb nx) (Some a) (rb_right n) t' ∧
     b ∈ addrs r ∧ tree_rep h (Some a) (rb_left n) l) →
  tree_rep (attach h b x nb nx) parent (Some a)
    (if decide (Key nx < k) then Node t' a k r else Node l a k t').
Proof.
  intros Hn Hk Hp Hab Hax Hnd Hx HL HR.
  apply NoDup_app in Hnd as (_ & Hd & [_ _]%NoDup_cons).
  assert (attach h b x nb nx !! a = Some n) as Hat by (by rewrite attach_ne).
  case_decide; (split; [done|]); exists n; (split; [done|]); (split; [done|]); (split; [done|]).
  - destruct HL as (? & Hb & Hr); [done|]. split; [done|].
    apply tree_rep_frame with h; [|done]. intros c Hc.
    apply attach_ne; intros ->; [eapply Hd; [exact Hb|set_solver]|set_solver].
  - destruct HR as (? & Hb & Hl); [done|]. split; [|done].
    apply tree_rep_frame with h; [|done]. intros c Hc.
    apply attach_ne; intros ->; [eapply Hd; [exact Hc|set_solver]|set_solver].
Qed.

Lemma attach_rep h t : ∀ parent p b nb,
  tree_rep h parent p t → NoDup (addrs t) → x ∉ addrs t → t ≠ Leaf →
  tpos (Key nx) t None = Some b → h !! b = Some nb →
  tree_rep (attach h b x nb nx) parent p (tinsert x (Key nx) t).
Proof.
  induction t as [|l IHl a k r IHr]; intros parent p b nb Hrep Hnd Hx Hne Hb Hnb; [done|].
  cbn in Hrep. destruct Hrep as (-> & n & Hn & Hk & Hp & Hl & Hr).
  cbn [addrs] in *. cbn [tpos] in Hb.
  destruct (decide ((if decide (Key nx < k) then l else r) = Leaf)) as [HE|HE].
  { assert (b = a) as ->.
    { revert Hb HE. case_decide; intros Hb ->; cbn in Hb; congruence. }
    assert (nb = n) as -> by congruence. by apply attach_here. }
  rewrite (tpos_default _ _ _ None HE) in Hb.
  destruct (tpos_in (Key nx) _ None HE) as (b' & Hb' & Hin).
  assert (b' = b) as -> by congruence.
  assert (a ≠ b) as Hab.
  { intros ->. apply NoDup_app in Hnd as (_ & Hd & [Ha _]%NoDup_cons).
    revert Hin. case_decide; intros Hin; [apply (Hd b Hin)|]; set_solver. }
  cbn [tinsert].
  replace (if decide (Key nx < k) then Node (tinsert x (Key nx) l) a k r
           else Node l a k (tinsert x (Key nx) r))
    with (if decide (Key nx < k)
          then Node (tinsert x (Key nx) (if decide (Key nx < k) then l else r)) a k r
          else Node l a k (tinsert x (Key nx) (if decide (Key nx < k) then l else r)))
    by (by case_decide).
  pose proof Hnd as (Hndl & _ & [_ Hndr]%NoDup_cons)%NoDup_app.
  apply attach_above with n; try done; [set_solver| |].
  - intros Hlt. rewrite !(decide_True (P := Key nx < k)) in * by done.
    split; [|done]. apply IHl; try done. set_solver.
  - intros Hlt. rewrite !(decide_False (P := Key nx < k)) in * by done.
    split; [|done]. apply IHr; try done. set_solver.
Qed.
End attach_rep.

(** ** Insertion *)

Lemma rb_add_node_ok h root x nx t :
  tree_rep h None (root_node root) t → NoDup (addrs t) → x ∉ addrs t →
  h !! x = Some nx → rb_left nx = None → rb_right nx = None → rb_parent nx = None →
  ∃ root' h', rb_add_node root (Some x) h = Ok (root', h') ∧
    tree_rep h' None (root_node root') (tinsert x (Key nx) t) ∧ dom h' = dom h.
Proof.
  intros Hrep Hnd Hx Hn Hl Hr Hp. unfold rb_add_node.
  rewrite (rb_descend_spec h x nx t) with (parent := None); try done.
  2:{ apply Nat.lt_le_incl. by apply (height_fuel h t None (root_node root)). }
  cbn [mbind res_bind].
  destruct (decide (t = Leaf)) as [->|Hne].
  { cbn. do 2 eexists. split; [done|]. split; [|done]. split; [done|]. by exists nx. }
  destruct (tpos_in (Key nx) t None Hne) as (b & Hb & Hin). rewrite Hb.
  destruct (tree_rep_in _ _ _ _ b Hrep Hin) as [nb Hnb].
  rewrite (rb_get_Some _ _ _ Hn), (rb_get_Some _ _ _ Hnb). cbn [mbind res_bind].
  assert (b ≠ x) as Hbx by set_solver.
  exists root, (attach h b x nb nx). split; [|split].
  - unfold attach, rb_set_left, rb_set_right, rb_set_parent, rb_upd. cbn [deref mbind res_bind].
    rewrite (aread_Some _ _ _ Hnb). cbn [mbind res_bind].
    case_decide; cbn [deref mbind res_bind]; unfold aread;
      rewrite lookup_insert_ne by done; by rewrite Hn.
  - by apply attach_rep.
  - unfold attach. rewrite !dom_insert_lookup_L; [done|by eexists|].
    rewrite lookup_insert_ne by done. by eexists.
Qed.

Lemma rb_is_red_false n : rb_is_red n = false.
Proof. unfold rb_is_red, RB_RED. by rewrite Z.land_0_r. Qed.

(** The loop condition of [rb_rebalance] is never true. *)
Lemma rb_rebalance_never fuel h root a n :
  h !! a = Some n → (∀ p, rb_parent n = Some p → is_Some (h !! p)) →
  rb_rebalance (S fuel) root (Some a) h = Ok (root, h).
Proof.
  intros Hn Hp. cbn [rb_rebalance]. rewrite (rb_get_Some _ _ _ Hn). cbn [mbind res_bind].
  destruct (rb_parent n) as [p|] eqn:E; [|done].
  destruct (Hp p eq_refl) as [pn Hpn]. rewrite (rb_get_Some _ _ _ Hpn). cbn [mbind res_bind].
  by rewrite rb_is_red_false.
Qed.

Lemma tinsert_addrs x k t : addrs (tinsert x k t) ≡ₚ x :: addrs t.
Proof.
  induction t as [|l IHl a ka r IHr]; cbn; [done|]. case_decide; cbn.
  - by rewrite IHl.
  - rewrite IHr. rewrite Permutation_middle. apply Permutation_app_head. constructor.
Qed.

Lemma tinsert_keys x k t : keys (tinsert x k t) ≡ₚ k :: keys t.
Proof.
  induction t as [|l IHl a ka r IHr]; cbn; [done|]. case_decide; cbn.
  - by rewrite IHl.
  - rewrite IHr. rewrite Permutation_middle. apply Permutation_app_head. constructor.
Qed.

(** The length of the path that always goes right. *)
Fixpoint rdepth (t : tree) : nat :=
  match t with Leaf => O | Node _ _ _ r => S (rdepth r) end.

Lemma rdepth_height t : (rdepth t ≤ height t)%nat.
Proof. induction t; cbn; lia. Qed.

Lemma tinsert_rdepth x k t : (∀ k', k' ∈ keys t → k' ≤ k) → rdepth (tinsert x k t) = S (rdepth t).
Proof.
  induction t as [|l _ a ka r IH]; cbn; [done|]. intros Hle.
  rewrite decide_False by (apply Z.le_ngt, Hle; set_solver). cbn.
  rewrite IH; [done|]. intros; apply Hle; set_solver.
Qed.

Lemma sorted_app_iff (l1 l2 : list Z) a :
  StronglySorted Z.le (l1 ++ a :: l2) ↔
  StronglySorted Z.le l1 ∧ StronglySorted Z.le l2 ∧
  (∀ x, x ∈ l1 → x ≤ a) ∧ (∀ y, y ∈ l2 → a ≤ y).
Proof.
  induction l1 as [|b l1 IH]; cbn.
  - split.
    + inversion 1 as [|? ? Hs Hf]; subst. rewrite Forall_forall in Hf.
      repeat split; try done; [constructor|set_solver].
    + intros (_ & Hs & _ & Hf). constructor; [done|]. by apply Forall_forall.
  - split.
    + inversion 1 as [|? ? Hs Hf]; subst. apply IH in Hs as (H1 & H2 & H3 & H4).
      rewrite Forall_forall in Hf. repeat split; try done.
      * constructor; [done|]. apply Forall_forall. set_solver.
      * intros y [->|Hy]%elem_of_cons; [apply Hf|]; set_solver.
    + intros (Hs & H2 & H3 & H4). inversion Hs as [|? ? Hs1 Hf]; subst.
      rewrite Forall_forall in Hf. constructor.
      * apply IH. repeat split; try done. set_solver.
      * apply Forall_forall. intros y [Hy|[->|Hy]%elem_of_cons]%elem_of_app.
        -- by apply Hf.
        -- apply H3. set_solver.
        -- trans a; [apply H3; set_solver|by apply H4].
Qed.

Lemma tinsert_sorted x k t :
  StronglySorted Z.le (keys t) → StronglySorted Z.le (keys (tinsert x k t)).
Proof.
  induction t as [|l IHl a ka r IHr]; cbn; [repeat constructor|].
  intros (Hl & Hr & H1 & H2)%sorted_app_iff. case_decide; cbn; apply sorted_app_iff.
  - repeat split; [by apply IHl|done| |done].
    intros y Hy. rewrite (tinsert_keys x k l) in Hy.
    apply elem_of_cons in Hy as [->|Hy]; [lia|by apply H1].
  - repeat split; [done|by apply IHr|done|].
    intros y Hy. rewrite (tinsert_keys x k r) in Hy.
    apply elem_of_cons in Hy as [->|Hy]; [lia|by apply H2].
Qed.

(** A root whose tree, with no node twice, is [t]. *)
Definition root_rep (h : rheap) (root : rb_root) (t : tree) : Prop :=
  tree_rep h None (root_node root) t ∧ NoDup (addrs t).

Section insertion.
Context (alloc : rheap → Z) (Halloc : ∀ h, h !! alloc h = None).
#[local] Set Default Proof Using "All".

Lemma rb_insert_node_ok h root t k :
  root_rep h root t →
  ∃ root' h', rb_insert_node alloc root k h = Ok (root', h') ∧
    root_rep h' root' (tinsert (alloc h) k t).
Proof.
  intros [Hrep Hnd]. unfold rb_insert_node, __rb_insert_node.
  pose proof (Halloc h) as Ha. set (x := alloc h) in *.
  assert (x ∉ addrs t) as Hx.
  { intros Hin. destruct (tree_rep_in _ _ _ _ x Hrep Hin). congruence. }
  destruct (rb_add_node_ok (<[x := new_node k]> h) root x (new_node k) t)
    as (root' & h' & -> & Hrep' & Hdom); try done.
  - by apply tree_rep_frame_ne.
  - by rewrite lookup_insert_eq.
  - cbn [mbind res_bind]. cbn [Key new_node] in Hrep'.
    assert (NoDup (addrs (tinsert x k t))) as Hnd'.
    { rewrite tinsert_addrs. by constructor. }
    assert (x ∈ dom h') as [n Hn]%elem_of_dom by (rewrite Hdom; set_solver).
    unfold rb_fuel. rewrite (rb_rebalance_never _ h' root' x n Hn).
    + exists root', h'. by split.
    + intros p Hp.
      destruct (tree_rep_parent h' x n _ _ _ Hn Hrep') as [?|(p' & Hp' & Hin)]; [|congruence|].
      { rewrite tinsert_addrs. set_solver. }
      assert (p' = p) as -> by congruence. by apply (tree_rep_in _ _ _ _ _ Hrep').
Qed.

(** [rb_insert_node] for each key in turn. *)
Definition rb_insert_all (ks : list Z) : rb_root * rheap → res (rb_root * rheap) :=
  mfor ks (λ k '(root, h), rb_insert_node alloc root k h).

Lemma rb_insert_all_ok ks : ∀ h root t,
  root_rep h root t → StronglySorted Z.le (keys t) →
  ∃ root' h' t', rb_insert_all ks (root, h) = Ok (root', h') ∧ root_rep h' root' t' ∧
    keys t' ≡ₚ ks ++ keys t ∧ StronglySorted Z.le (keys t').
Proof.
  induction ks as [|k ks IH]; intros h root t Hrep Hs.
  - eexists _, _, _. by repeat split; try apply Hrep.
  - destruct (rb_insert_node_ok h root t k Hrep) as (root1 & h1 & Hi & Hrep1).
    destruct (IH h1 root1 _ Hrep1) as (root2 & h2 & t2 & H2 & Hrep2 & Hk & Hs2).
    { by apply tinsert_sorted. }
    exists root2, h2, t2. unfold rb_insert_all in *. cbn [mfor]. rewrite Hi. cbn [mbind res_bind].
    split; [done|]. split; [done|]. split; [|done].
    rewrite Hk, tinsert_keys. by rewrite <-Permutation_middle.
Qed.

(** Keys that are not below those already inserted. *)
Lemma rb_insert_ascending ks : ∀ h root t,
  root_rep h root t → StronglySorted Z.le ks → (∀ k k', k ∈ ks → k' ∈ keys t → k' ≤ k) →
  ∃ root' h' t', rb_insert_all ks (root, h) = Ok (root', h') ∧ root_rep h' root' t' ∧
    rdepth t' = (rdepth t + length ks)%nat ∧ length (addrs t') = (length (addrs t) + length ks)%nat.
Proof.
  induction ks as [|k ks IH]; intros h root t Hrep Hs Hle.
  - eexists _, _, t. split; [done|]. split; [done|]. cbn. lia.
  - inversion Hs as [|? ? Hs' Hf]; subst. rewrite Forall_forall in Hf.
    destruct (rb_insert_node_ok h root t k Hrep) as (root1 & h1 & Hi & Hrep1).
    destruct (IH h1 root1 _ Hrep1 Hs') as (root2 & h2 & t2 & H2 & Hrep2 & Hd & Hl).
    { intros j k' Hj Hk'. rewrite tinsert_keys in Hk'.
      apply elem_of_cons in Hk' as [->|Hk']; [by apply Hf|]. apply Hle; set_solver. }
    exists root2, h2, t2. unfold rb_insert_all in *. cbn [mfor]. rewrite Hi. cbn [mbind res_bind].
    split; [done|]. split; [done|]. rewrite tinsert_addrs in Hl. cbn in *.
    rewrite tinsert_rdepth in Hd by (intros; apply Hle; set_solver). lia.
Qed.
End insertion.

(** ** Properties *)

Definition RB_EMPTY : rb_root := mk_rb_root None 0.

Lemma root_rep_empty h : root_rep h RB_EMPTY Leaf.
Proof. by repeat constructor. Qed.

(** A memory allocator for concrete runs: the successor of the largest address. *)
Definition next_addr (h : rheap) : Z := fresh (dom h : gset Z).

Lemma next_addr_fresh h : h !! next_addr h = None.
Proof. apply (not_elem_of_dom (D := gset Z)). unfold next_addr. apply is_fresh. Qed.



(** The tree is never balanced: [rb_is_red] tests a bit of a zero mask, so
    [rb_rebalance] returns at once, and keys inserted in ascending order make a tree as
    high as their number. *)
Lemma ascending_keys_degenerate (alloc : rheap → Z) (h : rheap) (ks : list Z) :
  (∀ h, h !! alloc h = None) → StronglySorted Z.le ks →
  ∃ root' h' t', rb_insert_all alloc ks (RB_EMPTY, h) = Ok (root', h') ∧
    root_rep h' root' t' ∧ height t' = length ks.
Proof.
  intros Ha Hs.
  destruct (rb_insert_ascending alloc Ha ks h RB_EMPTY Leaf (root_rep_empty h) Hs)
    as (root' & h' & t' & ? & ? & Hd & Hl).
  { intros ? ? _ Hin. by apply not_elem_of_nil in Hin. }
  exists root', h', t'. split; [done|]. split; [done|].
  pose proof (height_length t'). pose proof (rdepth_height t'). cbn in *. lia.
Qed.

Lemma ascending_keys_degenerate_witness :
  ∃ root' h' t', rb_insert_all next_addr [1; 2; 3] (RB_EMPTY, ∅) = Ok (root', h') ∧
    root_rep h' root' t' ∧ height t' = 3%nat.
Proof.
  apply (ascending_keys_degenerate next_addr ∅ [1; 2; 3] next_addr_fresh).
  repeat constructor; lia.
Defined.

(** A root made by [RB_ROOT_INIT] is not empty: its pointer is [0xffff], not [NULL],
    and the first insertion follows it, out of the nodes. *)
Lemma rb_root_init_wild (h : rheap) (x : Z) (nx : rb_node) :
  h !! RB_NODE_NULL = None → h !! x = Some nx →
  rb_add_node RB_ROOT_INIT (Some x) h = Fault F_OOB.
Proof.
  intros Hnull Hx. unfold rb_add_node, rb_fuel. cbn [rb_descend root_node RB_ROOT_INIT].
  rewrite (rb_get_Some _ _ _ Hx). cbn [mbind res_bind]. unfold rb_get. cbn [deref mbind res_bind].
  by rewrite aread_None.
Qed.

Lemma rb_root_init_wild_witness :
  rb_add_node RB_ROOT_INIT (Some 1) {[1 := new_node 5]} = Fault F_OOB.
Proof. by apply (rb_root_init_wild _ 1 (new_node 5)). Defined.

(** [_left_rotate] dereferences [NULL] when the right child has no left child, as
    [rb_set_right] sets the parent of a child that is not there. *)
Lemma left_rotate_faults (h : rheap) (root : rb_root) (a b : Z) (na nb : rb_node) :
  h !! a = Some na → rb_right na = Some b → h !! b = Some nb → rb_left nb = None →
  _left_rotate root (Some a) h = Fault F_NULL.
Proof.
  intros Ha Hr Hb Hl. unfold _left_rotate.
  rewrite (rb_get_Some _ _ _ Ha). cbn [mbind res_bind]. rewrite Hr.
  rewrite (rb_get_Some _ _ _ Hb). cbn [mbind res_bind]. rewrite Hl.
  unfold rb_set_right, rb_upd. cbn [deref mbind res_bind]. rewrite (aread_Some _ _ _ Ha). done.
Qed.

Lemma left_rotate_faults_witness :
  _left_rotate RB_EMPTY (Some 1)
    {[1 := with_right (Some 2) (new_node 5); 2 := with_parent (Some 1) (new_node 6)]}
  = Fault F_NULL.
Proof. eapply left_rotate_faults; reflexivity. Defined.
