(* ===== verification/FwBlocks.v ===== *)
(** * Firmware: R-blocks and their lists

    [FW-Base/ftl/rblock_mgmt.c], [rblock_mgmt.h] and [include/list.h].  The lists link
    the entries of [g_bmi_tbl] by [u16] indices, as the driver's FIFOs do, so the
    representation and its lemmas come from [Fifo]; the operations here are the
    firmware's own and are proved equal to the algorithm there.  The time is an
    argument. *)

From S2P Require Import Prelude Fifo FwCfg.

#[local] Open Scope Z_scope.

Definition DLIST_EMPTY : Z := 0xffff.
Definition DLIST_START_HEAD : bool := false.
Definition DLIST_START_TAIL : bool := true.

Inductive bmi_block_status : Type :=
  | RBLK_FREE | RBLK_OPEN | RBLK_CLOSED | RBLK_RECYCLING | RBLK_OBSOLETED
  | RBLK_ERASING | RBLK_OFFLINE.

#[global] Instance bmi_block_status_eq_dec : EqDecision bmi_block_status.
Proof. solve_decision. Defined.

(** [struct blk_manage_info]; the read-retry parameters and the tree node, which no code
    here uses, are left out.  [pgtype] is zero where no key is present. *)
Record bmi_t : Type := mk_bmi_t {
  bblk : Z;
  bband : Z;
  bstate : bmi_block_status;
  bsequence : Z;
  btimestamp : Z;
  bcri : Z;
  bb_grown_flag : Z;
  bpecycle : Z;
  bb_cnt : Z;
  pgtype : gmap (Z * Z) Z;
  bmi_prev : Z;
  bmi_next : Z;
}.

Definition bmi_set_links (n p : Z) (e : bmi_t) : bmi_t :=
  mk_bmi_t (bblk e) (bband e) (bstate e) (bsequence e) (btimestamp e) (bcri e)
    (bb_grown_flag e) (bpecycle e) (bb_cnt e) (pgtype e) p n.
Definition bmi_set_prev (p : Z) (e : bmi_t) : bmi_t := bmi_set_links (bmi_next e) p e.
Definition bmi_set_next (n : Z) (e : bmi_t) : bmi_t := bmi_set_links n (bmi_prev e) e.
Definition bmi_set_status (s : bmi_block_status) (time seq : Z) (e : bmi_t) : bmi_t :=
  mk_bmi_t (bblk e) (bband e) s seq time (bcri e) (bb_grown_flag e) (bpecycle e)
    (bb_cnt e) (pgtype e) (bmi_prev e) (bmi_next e).
Definition bmi_set_pgtype (t : gmap (Z * Z) Z) (e : bmi_t) : bmi_t :=
  mk_bmi_t (bblk e) (bband e) (bstate e) (bsequence e) (btimestamp e) (bcri e)
    (bb_grown_flag e) (bpecycle e) (bb_cnt e) t (bmi_prev e) (bmi_next e).

#[global, refine] Instance bmi_t_linked : Linked bmi_t := {|
  lk_next := bmi_next;
  lk_prev := bmi_prev;
  lk_set := bmi_set_links;
|}.
Proof. all: by intros; try match goal with e : bmi_t |- _ => destruct e end. Defined.

Notation bmi_tbl := (gmap Z bmi_t) (only parsing).

(** ** [list.h] *)

(** [dlist]: head, tail and size; [rsvd] is never read. *)
Notation dlist := fsc_fifo (only parsing).

Definition dlink_list_init : dlist := mk_fifo 0xffff 0xffff 0.
(** The return type of [dlist_size] is [bool]. *)
Definition dlist_size (d : dlist) : bool := negb (bool_decide (fsize d = 0)).
Definition dlist_empty (d : dlist) : bool := bool_decide (fsize d = 0).

Record dlist_iter : Type := mk_iter { it_next : Z; it_direction : bool }.

Definition dlist_iter_init (list : dlist) (dir : bool) : dlist_iter :=
  mk_iter (if decide (dir = DLIST_START_HEAD) then fhead list else ftail list) dir.

Definition BMI_NEXT_BLK (t : bmi_tbl) (blk : Z) : res Z := e ← aread t blk; Ok (bmi_next e).
Definition BMI_PREV_BLK (t : bmi_tbl) (blk : Z) : res Z := e ← aread t blk; Ok (bmi_prev e).

Definition rblk_iter (t : bmi_tbl) (iter : dlist_iter) : res (Z * dlist_iter) :=
  let blk := it_next iter in
  if decide (blk = 0xffff) then Ok (blk, iter) else
  n ← (if decide (it_direction iter = DLIST_START_HEAD) then BMI_PREV_BLK t blk
       else BMI_NEXT_BLK t blk);
  Ok (blk, mk_iter n (it_direction iter)).

(** -1 when the list is empty; [pos] false is the head, true the tail. *)
Definition peek_dlink_list (d : dlist) (pos : bool) : Z :=
  if dlist_empty d then -1 else if pos then ftail d else fhead d.

(** The blocks [dlist_for_each_head] and [dlist_for_each_tail] visit. *)
Fixpoint dlist_for_each (fuel : nat) (step : Z → res Z) (blk : Z) : res (list Z) :=
  if decide (blk = 0xffff) then Ok [] else
  match fuel with
  | O => Fault F_FUEL
  | S fuel' => n ← step blk; l ← dlist_for_each fuel' step n; Ok (blk :: l)
  end.
Definition dlist_for_each_head (fuel : nat) (t : bmi_tbl) (d : dlist) : res (list Z) :=
  dlist_for_each fuel (BMI_PREV_BLK t) (fhead d).
Definition dlist_for_each_tail (fuel : nat) (t : bmi_tbl) (d : dlist) : res (list Z) :=
  dlist_for_each fuel (BMI_NEXT_BLK t) (ftail d).

(** Calls of [rblk_iter] until it returns the end mark. *)
Fixpoint rblk_iter_all (fuel : nat) (t : bmi_tbl) (it : dlist_iter) : res (list Z) :=
  match fuel with
  | O => Fault F_FUEL
  | S fuel' =>
      r ← rblk_iter t it;
      if decide (r.1 = 0xffff) then Ok [] else
      l ← rblk_iter_all fuel' t r.2; Ok (r.1 :: l)
  end.

(** ** [rblock_mgmt.c] *)

(** [get_prev_bmi]: the index of the entry, [None] for [NULL]. *)
Definition get_prev_bmi (t : bmi_tbl) (blk : Z) : res (option Z) :=
  p ← BMI_PREV_BLK t blk; Ok (if decide (p = 0xffff) then None else Some p).
Definition get_next_bmi (t : bmi_tbl) (blk : Z) : res (option Z) :=
  n ← BMI_NEXT_BLK t blk; Ok (if decide (n = 0xffff) then None else Some n).

(** Assignment through a [bmi_t *] that is [GET_BMI(i)]. *)
Definition bmi_upd (f : bmi_t → bmi_t) (i : Z) (t : bmi_tbl) : res bmi_tbl :=
  e ← aread t i; Ok (<[i := f e]> t).

Definition push_to_rblk_dlist (d : dlist) (blk : Z) (t : bmi_tbl) : res (dlist * bmi_tbl) :=
  let old_tail := ftail d in
  if decide (old_tail = 0xffff) then
    t ← bmi_upd (bmi_set_next 0xffff) blk t;
    t ← bmi_upd (bmi_set_prev 0xffff) blk t;
    Ok (mk_fifo blk blk (u16 (fsize d + 1)), t)
  else
    t ← bmi_upd (bmi_set_next old_tail) blk t;
    t ← bmi_upd (bmi_set_prev 0xffff) blk t;
    t ← bmi_upd (bmi_set_prev blk) old_tail t;
    Ok (mk_fifo (fhead d) blk (u16 (fsize d + 1)), t).

Definition pull_from_rblk_dlist (d : dlist) (t : bmi_tbl) : res (Z * dlist * bmi_tbl) :=
  let old_head := fhead d in
  if decide (old_head = 0xffff) then Ok (DLIST_EMPTY, d, t) else
  ht ← (if decide (fhead d = ftail d) then Ok (0xffff, 0xffff, t)
        else
          pitem ← get_prev_bmi t old_head;
          p ← deref pitem;
          t ← bmi_upd (bmi_set_next 0xffff) p t;
          item ← aread t old_head;
          Ok (bmi_prev item, ftail d, t));
  let '(head, tail, t) := ht in
  t ← bmi_upd (bmi_set_prev 0xffff) old_head t;
  t ← bmi_upd (bmi_set_next 0xffff) old_head t;
  Ok (old_head, mk_fifo head tail (u16 (fsize d - 1)), t).

(** The block lists of the primary page, [g_bmi_tbl] and [sequence_id]. *)
Record rblks : Type := mk_rblks {
  free_blk_list : dlist;
  g_bmi_tbl : bmi_tbl;
  sequence_id : Z;
}.

Definition get_blk_from_free_list (now : Z) (s : rblks) : res (Z * rblks) :=
  r ← pull_from_rblk_dlist (free_blk_list s) (g_bmi_tbl s);
  let '(blk, d, t) := r in
  t ← bmi_upd (bmi_set_status RBLK_OPEN now (sequence_id s)) blk t;
  Ok (blk, mk_rblks d t (u32 (sequence_id s + 1))).

Definition add_blk_to_free_list (blk : Z) (s : rblks) : res rblks :=
  r ← push_to_rblk_dlist (free_blk_list s) blk (g_bmi_tbl s);
  let '(d, t) := r in
  t ← bmi_upd (bmi_set_status RBLK_FREE 0 0) blk t;
  Ok (mk_rblks d t (sequence_id s)).

(** ** Refinement of the list *)

Lemma bmi_upd_ok f i t e : t !! i = Some e → bmi_upd f i t = Ok (<[i := f e]> t).
Proof. intros He. unfold bmi_upd. by rewrite (aread_Some _ _ _ He). Qed.

Lemma bmi_upd_twice f g i t e :
  t !! i = Some e → (t' ← bmi_upd f i t; bmi_upd g i t') = Ok (<[i := g (f e)]> t).
Proof.
  intros He. rewrite (bmi_upd_ok _ _ _ _ He). cbn [mbind res_bind].
  rewrite (bmi_upd_ok _ _ _ (f e)) by (by rewrite lookup_insert_eq). by rewrite insert_insert_eq.
Qed.

Lemma bind_bmi_upd_twice {A} f g i t e (k : bmi_tbl → res A) :
  t !! i = Some e →
  (t1 ← bmi_upd f i t; t2 ← bmi_upd g i t1; k t2) = k (<[i := g (f e)]> t).
Proof.
  intros He. rewrite (bmi_upd_ok _ _ _ _ He). cbn [mbind res_bind].
  rewrite (bmi_upd_ok _ _ _ (f e)) by (by rewrite lookup_insert_eq).
  cbn [mbind res_bind]. by rewrite insert_insert_eq.
Qed.

(** A represented list that misses an index has room for its counter. *)
Lemma fifo_rep_size_lt (t : bmi_tbl) d l i :
  fifo_rep t d l → i ∉ l → 0 ≤ i < NIL → 0 ≤ fsize d < NIL.
Proof.
  intros [_ _ Hsz Hnd Hr _] Hi Hir. pose proof (NoDup_range_length (i :: l) NIL) as Hlen.
  cbn [length] in Hlen. unfold NIL in *. rewrite Hsz.
  enough (Z.of_nat (S (length l)) ≤ Z.max 0 65535) by lia.
  apply Hlen; [by constructor|]. intros x [->|Hx]%elem_of_cons; [done|by apply Hr].
Qed.

Lemma push_is_link_push t d l i :
  fifo_rep t d l → i ∉ l → 0 ≤ i < NIL → is_Some (t !! i) →
  push_to_rblk_dlist d i t = link_push d t i.
Proof.
  intros Hrep Hi Hir [e He]. pose proof (fifo_rep_size_lt t d l i Hrep Hi Hir) as Hsz.
  unfold push_to_rblk_dlist, link_push. rewrite (aread_Some _ _ _ He). cbn [mbind res_bind].
  unfold NIL in *. rewrite u16_small, u32_small by lia.
  case_decide as Ht.
  - by rewrite (bind_bmi_upd_twice _ _ _ _ e) by done.
  - rewrite (bind_bmi_upd_twice _ _ _ _ e) by done.
    change (bmi_set_prev 65535 (bmi_set_next (ftail d) e)) with (lk_set (ftail d) 65535 e).
    unfold bmi_upd. by destruct (aread _ (ftail d)).
Qed.

Lemma pull_is_link_pull t d l :
  fifo_rep t d l →
  pull_from_rblk_dlist d t =
    (r ← link_pull d t; Ok (default DLIST_EMPTY r.1.1, r.1.2, r.2)).
Proof.
  intros Hrep. unfold pull_from_rblk_dlist, link_pull.
  pose proof (head_NIL t d l Hrep) as Hnil. unfold NIL in *.
  case_decide as Hh; [done|].
  destruct l as [|i l]; [by destruct Hh; apply Hnil|].
  pose proof (fifo_rep_length t d _ Hrep) as Hlen.
  destruct Hrep as [rep_head0 rep_tail0 rep_size0 rep_nodup0 rep_range0 rep_chain0].
  cbn in *. destruct rep_chain0 as [Hli Hc]. unfold NIL in *.
  destruct (t !! i) as [e|] eqn:He; unfold links in Hli; rewrite He in Hli; [|done].
  injection Hli as Hn Hp. rewrite rep_head0 in *. rewrite (aread_Some _ _ _ He).
  cbn [mbind res_bind].
  rewrite u16_small, u32_small by lia. case_decide as Ht.
  - cbn [mbind res_bind]. by rewrite (bind_bmi_upd_twice _ _ _ _ e) by done.
  - destruct l as [|b l]; [by destruct Ht|]. cbn in Hp. rewrite Hp. cbn in Hc.
    destruct Hc as [Hlb _].
    destruct (t !! b) as [eb|] eqn:Hb; unfold links in Hlb; rewrite Hb in Hlb; [|done].
    assert (0 ≤ b < 65535) by (apply rep_range0; set_solver).
    unfold get_prev_bmi, BMI_PREV_BLK. rewrite (aread_Some _ _ _ He). cbn [mbind res_bind].
    rewrite Hp, decide_False by lia. cbn [deref mbind res_bind].
    rewrite (bmi_upd_ok _ _ _ _ Hb). cbn [mbind res_bind].
    assert (b ≠ i) by (apply NoDup_cons in rep_nodup0 as [? _]; set_solver).
    rewrite (aread_Some _ i e) by (by rewrite lookup_insert_ne). cbn [mbind res_bind].
    rewrite Hp. rewrite (bind_bmi_upd_twice _ _ _ _ e) by (by rewrite lookup_insert_ne).
    rewrite (aread_Some _ b eb) by done. cbn [mbind res_bind].
    rewrite (aread_Some _ i e) by (by rewrite lookup_insert_ne). done.
Qed.

(** ** Iteration *)

Lemma chain_links (t : bmi_tbl) n l1 a l2 :
  chain t n (l1 ++ a :: l2) → links t a = Some (List.last l1 n, List.hd NIL l2).
Proof.
  revert n. induction l1 as [|b l1 IH]; intros n; cbn; [by intros [? _]|].
  intros [_ Hc]. rewrite (IH _ Hc). do 2 f_equal.
  destruct l1 as [|c l1 _] using rev_ind; [done|].
  rewrite !List.last_last. by destruct l1.
Qed.

Lemma links_blk (t : bmi_tbl) a n p :
  links t a = Some (n, p) → BMI_NEXT_BLK t a = Ok n ∧ BMI_PREV_BLK t a = Ok p.
Proof.
  unfold links, BMI_NEXT_BLK, BMI_PREV_BLK, aread.
  destruct (t !! a); cbn; [|done]. by intros [= -> ->].
Qed.

Lemma for_each_walk (step : Z → res Z) l : ∀ fuel,
  (∀ i, i ∈ l → i ≠ 0xffff) → (length l ≤ fuel)%nat →
  (∀ l1 a l2, l = l1 ++ a :: l2 → step a = Ok (List.hd NIL l2)) →
  dlist_for_each fuel step (List.hd NIL l) = Ok l.
Proof.
  induction l as [|a l IH]; intros fuel Hne Hf Hs.
  - by destruct fuel.
  - cbn [List.hd]. destruct fuel as [|fuel]; [cbn in Hf; lia|]. cbn [dlist_for_each].
    rewrite decide_False by (apply Hne; set_solver).
    rewrite (Hs [] a l) by done. cbn [mbind res_bind].
    rewrite IH; [done|set_solver|cbn in Hf; lia|].
    intros l1 b l2 ->. by apply (Hs (a :: l1) b l2).
Qed.

Lemma hd_reverse (l : list Z) d : List.hd d (reverse l) = List.last l d.
Proof.
  destruct l as [|a l _] using rev_ind; [done|]. by rewrite reverse_snoc, List.last_last.
Qed.

Lemma head_steps (t : bmi_tbl) d l :
  fifo_rep t d l → ∀ l1 a l2, l = l1 ++ a :: l2 → BMI_PREV_BLK t a = Ok (List.hd NIL l2).
Proof.
  intros [_ _ _ _ _ Hc] l1 a l2 ->.
  by apply (links_blk t a (List.last l1 NIL)), (chain_links t NIL).
Qed.

Lemma tail_steps (t : bmi_tbl) d l :
  fifo_rep t d l →
  ∀ l1 a l2, reverse l = l1 ++ a :: l2 → BMI_NEXT_BLK t a = Ok (List.hd NIL l2).
Proof.
  intros [_ _ _ _ _ rep_chain0] l1 a l2 Hl. assert (l = reverse l2 ++ a :: reverse l1) as Hl'.
  { rewrite <-(reverse_involutive l), Hl, reverse_app, reverse_cons.
    by rewrite <-app_assoc. }
  rewrite Hl' in rep_chain0. apply chain_links in rep_chain0.
  apply links_blk in rep_chain0 as [-> _]. f_equal.
  rewrite <-hd_reverse. by rewrite reverse_involutive.
Qed.

Lemma rep_not_nil (t : bmi_tbl) d l i : fifo_rep t d l → i ∈ l → i ≠ 0xffff.
Proof. intros [_ _ _ _ Hr _] Hi. specialize (Hr i Hi). unfold NIL in *. lia. Qed.

Lemma rblk_iter_all_S fuel t i dir :
  rblk_iter_all (S fuel) t (mk_iter i dir) =
    if decide (i = 0xffff) then Ok [] else
    n ← (if decide (dir = DLIST_START_HEAD) then BMI_PREV_BLK t i else BMI_NEXT_BLK t i);
    l ← rblk_iter_all fuel t (mk_iter n dir); Ok (i :: l).
Proof.
  cbn [rblk_iter_all]. unfold rblk_iter. cbn [it_next it_direction].
  destruct (decide (i = 0xffff)) as [Hi|Hi].
  - cbn [mbind res_bind fst]. by rewrite decide_True.
  - destruct (if decide (dir = DLIST_START_HEAD) then _ else _); [|done].
    cbn [mbind res_bind fst snd]. by rewrite decide_False.
Qed.

Lemma rblk_iter_all_spec t dir : ∀ fuel i l,
  dlist_for_each fuel (if decide (dir = DLIST_START_HEAD) then BMI_PREV_BLK t
                       else BMI_NEXT_BLK t) i = Ok l →
  rblk_iter_all (S fuel) t (mk_iter i dir) = Ok l.
Proof.
  induction fuel as [|fuel IH]; intros i l; rewrite rblk_iter_all_S; cbn [dlist_for_each];
    destruct (decide (i = 0xffff)) as [?|Hne]; try done.
  intros (j & Hn & (l' & Hl' & [= <-])%bind_Ok)%bind_Ok.
  replace (if decide (dir = DLIST_START_HEAD) then BMI_PREV_BLK t i else BMI_NEXT_BLK t i)
    with (Ok j : res Z) by (by destruct (decide (dir = DLIST_START_HEAD))).
  cbn [mbind res_bind]. by rewrite (IH j l').
Qed.

(** ** Properties *)

(** The free list of the primary page holds the blocks [l], head first. *)
Definition free_rep (s : rblks) (l : list Z) : Prop :=
  fifo_rep (g_bmi_tbl s) (free_blk_list s) l.

Lemma status_frame (t : bmi_tbl) i st now q e d l :
  t !! i = Some e → fifo_rep t d l → fifo_rep (<[i := bmi_set_status st now q e]> t) d l.
Proof.
  intros He. apply fifo_rep_frame. intros j _. unfold links.
  destruct (decide (i = j)) as [->|]; [|by rewrite lookup_insert_ne].
  by rewrite lookup_insert_eq, He.
Qed.

Lemma get_blk_ok now s i l :
  free_rep s (i :: l) →
  ∃ s' e, get_blk_from_free_list now s = Ok (i, s') ∧ free_rep s' l ∧
    g_bmi_tbl s' !! i = Some e ∧ bstate e = RBLK_OPEN ∧ btimestamp e = now ∧
    bsequence e = sequence_id s ∧ sequence_id s' = u32 (sequence_id s + 1).
Proof.
  intros Hrep. unfold get_blk_from_free_list. rewrite (pull_is_link_pull _ _ _ Hrep).
  destruct (link_pull_spec _ _ _ _ Hrep) as (d' & t' & -> & Hrep' & Hlo & _).
  cbn [mbind res_bind fst snd default].
  destruct Hrep as [_ _ _ _ _ Hc]. destruct (chain_lookup _ _ _ i Hc) as [e0 He0]; [set_solver|].
  destruct (links_only_Some _ _ _ _ Hlo He0) as (n & p & He).
  rewrite (bmi_upd_ok _ _ _ _ He). cbn [mbind res_bind].
  eexists _, _. split; [done|]. split; [by apply status_frame|].
  cbn [g_bmi_tbl]. rewrite lookup_insert_eq. by repeat split.
Qed.

Lemma add_blk_ok s i l :
  free_rep s l → i ∉ l → 0 ≤ i < NIL → is_Some (g_bmi_tbl s !! i) →
  ∃ s' e, add_blk_to_free_list i s = Ok s' ∧ free_rep s' (l ++ [i]) ∧
    g_bmi_tbl s' !! i = Some e ∧ bstate e = RBLK_FREE ∧ bsequence e = 0 ∧
    sequence_id s' = sequence_id s.
Proof.
  intros Hrep Hi Hir [e0 He0]. unfold add_blk_to_free_list.
  rewrite (push_is_link_push _ _ _ _ Hrep Hi Hir) by eauto.
  destruct (link_push_spec _ _ _ i Hrep Hi Hir) as (d' & t' & -> & Hrep' & Hlo & _); [eauto|].
  cbn [mbind res_bind].
  destruct (links_only_Some _ _ _ _ Hlo He0) as (n & p & He).
  rewrite (bmi_upd_ok _ _ _ _ He). cbn [mbind res_bind].
  eexists _, _. split; [done|]. split; [by apply status_frame|].
  cbn [g_bmi_tbl]. rewrite lookup_insert_eq. by repeat split.
Qed.

(** C37: The free list of the firmware refines a first-in first-out queue of blocks: a
    block taken from it is the oldest one, becomes open with the time and the next
    sequence number; a block given back becomes free at the end of the queue. *)
Theorem fw_free_list_fifo (s : rblks) (l : list Z) :
  free_rep s l →
  (∀ now i l', l = i :: l' → ∃ s' e, get_blk_from_free_list now s = Ok (i, s') ∧
     free_rep s' l' ∧ g_bmi_tbl s' !! i = Some e ∧ bstate e = RBLK_OPEN ∧
     btimestamp e = now ∧ bsequence e = sequence_id s ∧
     sequence_id s' = u32 (sequence_id s + 1)) ∧
  (∀ i, i ∉ l → 0 ≤ i < NIL → is_Some (g_bmi_tbl s !! i) →
     ∃ s' e, add_blk_to_free_list i s = Ok s' ∧ free_rep s' (l ++ [i]) ∧
       g_bmi_tbl s' !! i = Some e ∧ bstate e = RBLK_FREE ∧ bsequence e = 0 ∧
       sequence_id s' = sequence_id s).
Proof.
  intros Hrep. split.
  - intros now i l' ->. by apply get_blk_ok.
  - intros i. by apply add_blk_ok.
Qed.

(** A block as the firmware's memory holds it at first. *)
Definition bmi_blank (i : Z) : bmi_t := mk_bmi_t i 0 RBLK_OFFLINE 0 0 0 0 0 0 ∅ 0 0.

Definition blank_rblks : rblks :=
  mk_rblks dlink_list_init (list_to_map ((λ i, (i, bmi_blank i)) <$> for_each_blk)) 7.

Lemma fw_free_list_fifo_witness :
  ∃ s' e, add_blk_to_free_list 3 blank_rblks = Ok s' ∧ free_rep s' [3] ∧
    g_bmi_tbl s' !! 3 = Some e ∧ bstate e = RBLK_FREE.
Proof.
  destruct (fw_free_list_fifo blank_rblks []) as [_ H].
  - apply fifo_rep_empty.
  - destruct (H 3) as (s' & e & H1 & H2 & H3 & H4 & _).
    + apply not_elem_of_nil.
    + split; reflexivity || discriminate.
    + eexists. vm_compute. reflexivity.
    + exists s', e. exact (conj H1 (conj H2 (conj H3 H4))).
Defined.

(** Walking a list visits each of its blocks once: from the head in the order they
    were added, from the tail in the opposite order, by the loop macros and by
    [rblk_iter] alike, and the walk ends. *)
Lemma dlist_iteration (t : bmi_tbl) (d : dlist) (l : list Z) (fuel : nat) :
  fifo_rep t d l → (length l ≤ fuel)%nat →
  dlist_for_each_head fuel t d = Ok l ∧
  dlist_for_each_tail fuel t d = Ok (reverse l) ∧
  rblk_iter_all (S fuel) t (dlist_iter_init d DLIST_START_HEAD) = Ok l ∧
  rblk_iter_all (S fuel) t (dlist_iter_init d DLIST_START_TAIL) = Ok (reverse l).
Proof.
  intros Hrep Hf.
  assert (dlist_for_each_head fuel t d = Ok l) as Hh.
  { unfold dlist_for_each_head. rewrite (rep_head _ _ _ Hrep). apply for_each_walk; [|done|].
    - intros i. by apply (rep_not_nil t d).
    - by apply (head_steps t d). }
  assert (dlist_for_each_tail fuel t d = Ok (reverse l)) as Ht.
  { unfold dlist_for_each_tail. rewrite (rep_tail _ _ _ Hrep), <-hd_reverse.
    apply for_each_walk; [|by rewrite length_reverse|].
    - intros i Hi. rewrite elem_of_reverse in Hi. by apply (rep_not_nil t d l).
    - by apply (tail_steps t d l). }
  split; [done|]. split; [done|].
  split; unfold dlist_iter_init; apply rblk_iter_all_spec; [exact Hh|exact Ht].
Qed.

Lemma dlist_iteration_witness :
  rblk_iter_all 1 ∅ (dlist_iter_init dlink_list_init DLIST_START_TAIL) = Ok [].
Proof. by apply (dlist_iteration ∅ dlink_list_init [] 0 (fifo_rep_empty _)). Defined.

(** Taking a block from an empty free list writes outside the table: the end mark
    [0xffff] is used as a block number. *)
Lemma get_blk_empty_faults (now : Z) (s : rblks) :
  free_rep s [] → g_bmi_tbl s !! DLIST_EMPTY = None →
  get_blk_from_free_list now s = Fault F_OOB.
Proof.
  intros Hrep Hout. unfold get_blk_from_free_list. rewrite (pull_is_link_pull _ _ _ Hrep).
  rewrite (link_pull_empty _ _ Hrep). cbn [mbind res_bind default fst snd].
  unfold bmi_upd. by rewrite aread_None.
Qed.

Lemma get_blk_empty_faults_witness : get_blk_from_free_list 0 blank_rblks = Fault F_OOB.
Proof. apply get_blk_empty_faults; [apply fifo_rep_empty|vm_compute; reflexivity]. Defined.
