(* ===== verification/FwPages.v ===== *)
(** * Firmware: bad blocks, page types, RAIF

    [FW-Base/ftl/badblock_mgmt.c], [ftl/sys_tbl.c], [error-handle/raif.c], and the
    log page die of [ftl/write_insertion.c].  The state is the bad block table of the
    boot block ([u16] words, one bit per channel) and [g_bmi_tbl] with the page types.
    The contents of an array on the stack before it is written are an argument. *)

From S2P Require Import Prelude Fifo FwCfg FwBlocks.
From Stdlib Require Import Sorting.Sorted.

#[local] Open Scope Z_scope.

(** ** Constants of [sys_tbl.h] *)

(** [cp_log_t] is 12 bytes, as the comment of the source has it. *)
Definition sizeof_cp_log : Z := 12.
Definition LOG_PAGE_SIZE : Z := roundup (PPA_PER_RPAGE * sizeof_cp_log) CP_SIZE.
Definition PPA_PER_LOG_PAGE : Z := DIV_ROUND_UP LOG_PAGE_SIZE CP_SIZE.
Definition LOG_PAGE_START_CPL : Z := PPA_PER_DIE - PPA_PER_LOG_PAGE.

(** [enum pg_type] *)
Definition NORMAL_PAGE : Z := 0.
Definition BADBLK_PAGE : Z := 1.
Definition FIRST_PAGE : Z := 2.
Definition FTL_LOG_PAGE : Z := 3.
Definition RAIF1_PAGE : Z := 4.
Definition RAIF2_PAGE : Z := 5.

(** ** State *)

(** The bad block table is zero where no key is present. *)
Record pages : Type := mk_pages { pg_bbt : gmap (Z * Z) Z; pg_bmi : bmi_tbl }.

Definition set_pg_bbt (b : gmap (Z * Z) Z) (s : pages) : pages := mk_pages b (pg_bmi s).
Definition set_pg_bmi (t : bmi_tbl) (s : pages) : pages := mk_pages (pg_bbt s) t.

(** A two-dimensional array of [n] by [m] words. *)
Definition aread2 (n m : Z) (t : gmap (Z * Z) Z) (i j : Z) : res Z :=
  if decide (0 ≤ i < n ∧ 0 ≤ j < m) then Ok (default 0 (t !! (i, j))) else Fault F_OOB.
Definition awrite2 (n m : Z) (t : gmap (Z * Z) Z) (i j v : Z) : res (gmap (Z * Z) Z) :=
  if decide (0 ≤ i < n ∧ 0 ≤ j < m) then Ok (<[(i, j) := v]> t) else Fault F_OOB.

(** ** [badblock_mgmt.c] *)

Definition bbt_word (s : pages) (blk lun : Z) : res Z :=
  aread2 CFG_NAND_BLK_NUM CFG_NAND_LUN_NUM (pg_bbt s) blk lun.
Definition set_bbt_word (s : pages) (blk lun v : Z) : res pages :=
  b ← awrite2 CFG_NAND_BLK_NUM CFG_NAND_LUN_NUM (pg_bbt s) blk lun v;
  Ok (set_pg_bbt b s).

(** [get_blk_bbt_base]: the row of the block, after the assertion. *)
Definition get_blk_bbt_base (blk : Z) (s : pages) : res (Z → res Z) :=
  _ ← BUG_ON (¬ (blk < CFG_NAND_BLK_NUM));
  Ok (bbt_word s blk).

Definition __get_bbt (blk lun ch : Z) (s : pages) : res bool :=
  b ← bbt_word s blk lun;
  Ok (negb (bool_decide (Z.land (Z.shiftr b ch) 0x0001 = 0))).
Definition get_bbt (ppa : ppa_t) (s : pages) : res bool :=
  __get_bbt (ppa_blk ppa) (ppa_lun ppa) (ppa_ch ppa) s.
Definition is_bad_block (ppa : ppa_t) (s : pages) : res bool := get_bbt ppa s.

Definition __set_bbt (blk lun ch : Z) (s : pages) : res pages :=
  b ← bbt_word s blk lun;
  set_bbt_word s blk lun (u16 (Z.lor b (Z.shiftl 1 ch))).
Definition set_bbt (ppa : ppa_t) (s : pages) : res pages :=
  __set_bbt (ppa_blk ppa) (ppa_lun ppa) (ppa_ch ppa) s.
Definition __clear_bbt (blk lun ch : Z) (s : pages) : res pages :=
  b ← bbt_word s blk lun;
  set_bbt_word s blk lun (u16 (Z.land b (Z.lnot (Z.shiftl 1 ch)))).
Definition clear_bbt (ppa : ppa_t) (s : pages) : res pages :=
  __clear_bbt (ppa_blk ppa) (ppa_lun ppa) (ppa_ch ppa) s.

(** Store in an array on the stack. *)
Definition swrite (dies : list Z) (i : nat) (v : Z) : res (list Z) :=
  if decide (i < length dies)%nat then Ok (<[i := v]> dies) else Fault F_OOB.
Definition sread (dies : list Z) (i : nat) : res Z :=
  match dies !! i with Some v => Ok v | None => Fault F_OOB end.

(** The loop over the channels of a LUN: it ends early when [counter] becomes [n]. *)
Fixpoint lastn_row (b : Z → res Z) (n : Z) (lun : Z) (chs : list Z) (st : Z * list Z)
    : res (Z * list Z) :=
  match chs with
  | [] => Ok st
  | ch :: chs' =>
      let '(counter, dies) := st in
      bitmap ← b lun;
      if bit_test bitmap ch then lastn_row b n lun chs' st
      else
        dies ← swrite dies (Z.to_nat counter) (LUNCH_TO_DIE lun ch);
        if decide (counter + 1 = n) then Ok (counter + 1, dies)
        else lastn_row b n lun chs' (counter + 1, dies)
  end.

(** [for (i = hi; i >= lo; i--)] *)
Definition down_to (hi lo : Z) : list Z := reverse (seqZ lo (hi - lo + 1)).

(** The result and [dies]. *)
Definition get_lastn_good_die_within_range
    (blk start_lun start_ch end_lun end_ch n : Z) (dies : list Z) (s : pages)
    : res (bool * list Z) :=
  b ← get_blk_bbt_base blk s;
  st ← mfor (down_to end_lun start_lun)
         (λ lun st, lastn_row b n lun (down_to end_ch start_ch) st) (0, dies);
  Ok (bool_decide (st.1 = n), st.2).

(** [fwd_die_to_prevn] of [main/legacy.c] *)
Definition fwd_die_to_prevn (blk start_lun start_ch end_lun end_ch n : Z) (dies : list Z)
    (s : pages) : res (Z * list Z) :=
  r ← get_lastn_good_die_within_range blk start_lun start_ch end_lun end_ch n dies s;
  if r.1 : bool then d ← sread r.2 (Z.to_nat (n - 1)); Ok (d, r.2) else Ok (-1, r.2).

(** ** [sys_tbl.c] *)

Definition __set_page_type (blk lun ch type : Z) (s : pages) : res pages :=
  e ← aread (pg_bmi s) blk;
  t ← awrite2 CFG_NAND_LUN_NUM CFG_NAND_CH_NUM (pgtype e) lun ch (u8 type);
  Ok (set_pg_bmi (<[blk := bmi_set_pgtype t e]> (pg_bmi s)) s).
Definition set_page_type (ppa : ppa_t) (type : Z) (s : pages) : res pages :=
  __set_page_type (ppa_blk ppa) (ppa_lun ppa) (ppa_ch ppa) type s.
Definition __get_page_type (blk lun ch : Z) (s : pages) : res Z :=
  e ← aread (pg_bmi s) blk;
  aread2 CFG_NAND_LUN_NUM CFG_NAND_CH_NUM (pgtype e) lun ch.
Definition get_page_type (ppa : ppa_t) (s : pages) : res Z :=
  __get_page_type (ppa_blk ppa) (ppa_lun ppa) (ppa_ch ppa) s.

Definition lookup_page_type_fast (ppa : ppa_t) (s : pages) : res Z :=
  type ← get_page_type ppa s;
  let type := if decide (type = NORMAL_PAGE)
              then if is_first_ppa ppa then FIRST_PAGE else type else type in
  Ok (if decide (type = FTL_LOG_PAGE)
      then if decide (LOG_PAGE_START_CPL ≤ Z.land ppa CPL_MASK) then NORMAL_PAGE else type
      else type).

(** ** [raif.c] *)

Definition rpu_start_die (ppa : ppa_t) : Z := u8 (rounddown (PPA_TO_DIE ppa) RPU_DIES_NUM_CFG).
Definition rpu_end_die (ppa : ppa_t) : Z := u8 (rpu_start_die ppa + RPU_DIES_NUM_CFG - 1).

(** [for_each_rpu] *)
Definition for_each_rpu : list Z :=
  (λ i, i * RPU_DIES_NUM_CFG) <$> seqZ 0 (CFG_NAND_DIE_NUM / RPU_DIES_NUM_CFG).

(** The search in the dies from [start_die] to [start_die + RPU_DIES_NUM_CFG - 1]. *)
Definition lastn_in_rpu (blk start_die n : Z) (dies : list Z) (s : pages) : res (bool * list Z) :=
  let end_die := u8 (start_die + RPU_DIES_NUM_CFG - 1) in
  get_lastn_good_die_within_range blk (DIE_TO_LUN start_die) (DIE_TO_CH start_die)
    (DIE_TO_LUN end_die) (DIE_TO_CH end_die) n dies s.

(** [mode] is [RAIF_MODE]: the preprocessor keeps one of the branches. *)
Definition is_raif_page (mode : Z) (ppa : ppa_t) (last_dies : list Z) (s : pages) : res Z :=
  if decide (mode = RAIF_DISABLE) then Ok 0 else
  r ← lastn_in_rpu (ppa_blk ppa) (rpu_start_die ppa) mode last_dies s;
  raif1_die ← (if decide (mode = 1) then sread r.2 0
               else if decide (mode = 2) then sread r.2 1 else Ok 0xff);
  let current_die := PPA_TO_DIE ppa in
  if decide (current_die = raif1_die) then Ok 1
  else if decide (current_die = raif1_die) then Ok 2
  else Ok 0.

Definition set_die_type (blk die type : Z) (s : pages) : res pages :=
  __set_page_type blk (DIE_TO_LUN die) (DIE_TO_CH die) type s.

Definition raif_die_recalibrate (mode blk : Z) (last_dies : list Z) (s : pages) : res pages :=
  r ← mfor for_each_rpu (λ start_die '(last_dies, s),
        r ← lastn_in_rpu blk start_die mode last_dies s;
        let last_dies := r.2 in
        if decide (mode = 1) then
          d ← sread last_dies 0;
          s ← set_die_type blk d RAIF1_PAGE s;
          Ok (last_dies, s)
        else if decide (mode = 2) then
          d ← sread last_dies 0;
          s ← set_die_type blk d RAIF2_PAGE s;
          d ← sread last_dies 1;
          s ← set_die_type blk d RAIF1_PAGE s;
          Ok (last_dies, s)
        else Ok (last_dies, s)) (last_dies, s);
  Ok r.2.

(** [ftl_log_page_die_recalibrate] of [write_insertion.c] *)
Definition ftl_log_page_die_recalibrate (mode blk : Z) (dies : list Z) (s : pages) : res pages :=
  let start_die := u8 (CFG_NAND_DIE_NUM - RPU_DIES_NUM_CFG) in
  r ← lastn_in_rpu blk start_die (mode + 1) dies s;
  d ← sread r.2 (Z.to_nat mode);
  set_die_type blk d FTL_LOG_PAGE s.

(** The stack arrays have [mode] and [mode + 1] elements; [junk] fills them. *)
Definition block_dist_recalibrate (mode blk : Z) (junk : Z) (s : pages) : res pages :=
  s ← raif_die_recalibrate mode blk (replicate (Z.to_nat mode) junk) s;
  ftl_log_page_die_recalibrate mode blk (replicate (Z.to_nat (mode + 1)) junk) s.

Definition sys_build_page_type (mode junk : Z) (s : pages) : res pages :=
  mfor for_each_blk (λ blk s,
    s ← mfor for_each_lun (λ lun s,
          mfor for_each_ch (λ ch s,
            rc ← __get_bbt blk lun ch s;
            __set_page_type blk lun ch (if rc : bool then BADBLK_PAGE else NORMAL_PAGE) s) s) s;
    block_dist_recalibrate mode blk junk s) s.

(** ** [write_insertion.c] *)

Definition calc_ftl_log_cp_index (ppa : ppa_t) : Z :=
  u16 (ppa_cp ppa + ppa_pl ppa * CFG_NAND_CP_NUM +
       ppa_ch ppa * (CFG_NAND_CP_NUM * CFG_NAND_PL_NUM) +
       ppa_lun ppa * (CFG_NAND_CP_NUM * CFG_NAND_PL_NUM * CFG_NAND_CH_NUM)).

(** ** The search for the last good dies *)

(** The table has a row for the LUN; its word. *)
Definition bbt_at (s : pages) (blk lun : Z) : Z := default 0 (pg_bbt s !! (blk, lun)).

(** The good dies of a LUN, in the order of the loop. *)
Definition good_row (s : pages) (blk : Z) (chs : list Z) (lun : Z) : list Z :=
  LUNCH_TO_DIE lun <$> filter (λ ch, bit_test (bbt_at s blk lun) ch = false) chs.

(** What a row adds when [c] dies are stored already: the loop of the row stops at the
    [n]-th die, but the rows after that one are stored in full. *)
Definition row_stored (n c : nat) (row : list Z) : list Z :=
  if decide (c < n)%nat then take (n - c) row else row.

Fixpoint rows_stored (n c : nat) (rows : list (list Z)) : list Z :=
  match rows with
  | [] => []
  | row :: rows' =>
      let w := row_stored n c row in w ++ rows_stored n (c + length w) rows'
  end.

(** The stores themselves, from index [c] on. *)
Fixpoint store_from (c : nat) (ws dies : list Z) : res (list Z) :=
  match ws with
  | [] => Ok dies
  | w :: ws' => dies ← swrite dies c w; store_from (S c) ws' dies
  end.

Lemma store_from_app ws1 ws2 : ∀ c dies,
  store_from c (ws1 ++ ws2) dies =
    dies ← store_from c ws1 dies; store_from (c + length ws1) ws2 dies.
Proof.
  induction ws1 as [|w ws1 IH]; intros c dies; cbn.
  - by rewrite Nat.add_0_r.
  - destruct (swrite dies c w) as [d|]; cbn; [|done]. rewrite IH. by rewrite Nat.add_succ_r.
Qed.

Lemma store_from_fits ws : ∀ c dies, (c + length ws ≤ length dies)%nat →
  store_from c ws dies = Ok (take c dies ++ ws ++ drop (c + length ws) dies).
Proof.
  induction ws as [|w ws IH]; intros c dies Hf; cbn in *.
  - by rewrite Nat.add_0_r, take_drop.
  - unfold swrite. rewrite decide_True by lia. cbn [mbind res_bind].
    rewrite IH by (rewrite length_insert; lia). f_equal.
    rewrite (take_S_r _ _ w) by (apply list_lookup_insert_eq; lia).
    rewrite take_insert_ge by lia. rewrite drop_insert_lt by lia.
    rewrite <-app_assoc. by rewrite Nat.add_succ_r.
Qed.

Lemma store_from_overflows ws : ∀ c dies, (length dies < c + length ws)%nat →
  (c ≤ length dies)%nat → store_from c ws dies = Fault F_OOB.
Proof.
  induction ws as [|w ws IH]; intros c dies Hf Hc; cbn in *; [lia|].
  unfold swrite. case_decide; [|done]. cbn [mbind res_bind].
  apply IH; rewrite length_insert; lia.
Qed.

Lemma lastn_row_stores b n lun bitmap chs : ∀ c dies,
  b lun = Ok bitmap →
  let w := row_stored n c (LUNCH_TO_DIE lun <$> filter (λ ch, bit_test bitmap ch = false) chs) in
  lastn_row b (Z.of_nat n) lun chs (Z.of_nat c, dies) =
    dies ← store_from c w dies; Ok (Z.of_nat (c + length w), dies).
Proof.
  induction chs as [|ch chs IH]; intros c dies Hb w; subst w.
  - unfold row_stored. rewrite filter_nil. cbn [fmap list_fmap].
    rewrite take_nil. case_decide; cbn; by rewrite Nat.add_0_r.
  - cbn [lastn_row]. rewrite Hb. cbn [mbind res_bind].
    destruct (bit_test bitmap ch) eqn:Ht.
    + rewrite IH by done. by rewrite filter_cons_False by congruence.
    + rewrite filter_cons_True by done. cbn [fmap list_fmap].
      set (row := LUNCH_TO_DIE lun <$> filter _ chs) in *. set (d := LUNCH_TO_DIE lun ch).
      rewrite Nat2Z.id.
      assert (row_stored n c (d :: row) =
                d :: (if decide (S c = n) then [] else row_stored n (S c) row)) as ->.
      { unfold row_stored. repeat case_decide; try lia; try done.
        - subst n. by replace (S c - c)%nat with 1%nat by lia.
        - replace (n - c)%nat with (S (n - S c)) by lia. done. }
      cbn [store_from length]. destruct (swrite dies c d) as [dies'|]; cbn [mbind res_bind]; [|done].
      replace (Z.of_nat c + 1) with (Z.of_nat (S c)) by lia.
      destruct (decide (S c = n)) as [E|E].
      * rewrite decide_True by lia. cbn. do 2 f_equal. lia.
      * rewrite decide_False by lia. rewrite IH by done. by rewrite Nat.add_succ_r.
Qed.

Lemma lastn_rows_store b n rows luns (chs : list Z) (word : Z → Z) : ∀ c dies,
  (∀ lun, lun ∈ luns → b lun = Ok (word lun)) →
  rows = (λ lun, LUNCH_TO_DIE lun <$> filter (λ ch, bit_test (word lun) ch = false) chs) <$> luns →
  mfor luns (λ lun st, lastn_row b (Z.of_nat n) lun chs st) (Z.of_nat c, dies) =
    dies ← store_from c (rows_stored n c rows) dies;
    Ok (Z.of_nat (c + length (rows_stored n c rows)), dies).
Proof.
  revert rows. induction luns as [|lun luns IH]; intros rows c dies Hb ->.
  - cbn. by rewrite Nat.add_0_r.
  - cbn [mfor fmap list_fmap rows_stored].
    rewrite (lastn_row_stores _ _ _ (word lun)) by (apply Hb; set_solver).
    set (w := row_stored n c _). rewrite store_from_app.
    destruct (store_from c w dies) as [d|]; cbn [mbind res_bind]; [|done].
    rewrite (IH _ (c + length w)%nat d) by (done || intros; apply Hb; set_solver).
    rewrite length_app. by rewrite Nat.add_assoc.
Qed.

Lemma rows_stored_all n rows : ∀ c,
  (c + length (concat rows) ≤ n)%nat → rows_stored n c rows = concat rows.
Proof.
  induction rows as [|row rows IH]; intros c Hl; cbn in *; [done|].
  rewrite length_app in Hl.
  assert (row_stored n c row = row) as ->.
  { unfold row_stored. case_decide; [|done]. apply take_ge. lia. }
  rewrite IH; [done|lia].
Qed.

Lemma rows_stored_after n rows : ∀ c, (n ≤ c)%nat → rows_stored n c rows = concat rows.
Proof.
  induction rows as [|row rows IH]; intros c Hl; cbn; [done|].
  unfold row_stored at 1 2. rewrite decide_False by lia. rewrite IH; [done|lia].
Qed.

Lemma rows_stored_reach n r1 row r2 : ∀ c,
  (c + length (concat r1) < n)%nat → (n ≤ c + length (concat r1) + length row)%nat →
  rows_stored n c (r1 ++ row :: r2) = take (n - c) (concat r1 ++ row) ++ concat r2.
Proof.
  induction r1 as [|r r1 IH]; intros c Hlt Hle; cbn in *.
  - rewrite Nat.add_0_r in *. unfold row_stored. rewrite decide_True by lia. f_equal.
    apply rows_stored_after. rewrite length_take. lia.
  - rewrite length_app in Hlt, Hle.
    assert (row_stored n c r = r) as ->.
    { unfold row_stored. rewrite decide_True by lia. apply take_ge. lia. }
    rewrite IH by lia. rewrite app_assoc. f_equal.
    rewrite <-app_assoc. rewrite (take_app_ge r) by lia.
    do 2 f_equal. lia.
Qed.

(** ** Properties of the search *)

Lemma elem_of_down_to hi lo x : x ∈ down_to hi lo ↔ lo ≤ x ≤ hi.
Proof. unfold down_to. rewrite elem_of_reverse, elem_of_seqZ. lia. Qed.

Lemma bbt_word_ok s blk lun :
  0 ≤ blk < CFG_NAND_BLK_NUM → 0 ≤ lun < CFG_NAND_LUN_NUM →
  bbt_word s blk lun = Ok (bbt_at s blk lun).
Proof. intros. unfold bbt_word, aread2. by rewrite decide_True. Qed.

Section search.
Context (s : pages) (blk start_lun start_ch end_lun end_ch : Z).
Context (Hblk : 0 ≤ blk < CFG_NAND_BLK_NUM).
Context (Hlun : 0 ≤ start_lun ∧ end_lun < CFG_NAND_LUN_NUM).
#[local] Set Default Proof Using "All".

(** The good dies of the range, a list for each LUN, the last LUN first. *)
Definition good_rows : list (list Z) :=
  good_row s blk (down_to end_ch start_ch) <$> down_to end_lun start_lun.

Lemma lastn_eq n dies :
  get_lastn_good_die_within_range blk start_lun start_ch end_lun end_ch (Z.of_nat n) dies s =
    dies' ← store_from 0 (rows_stored n 0 good_rows) dies;
    Ok (bool_decide (length (rows_stored n 0 good_rows) = n), dies').
Proof.
  unfold get_lastn_good_die_within_range, get_blk_bbt_base.
  rewrite BUG_ON_pass by lia. cbn [mbind res_bind].
  rewrite (lastn_rows_store _ _ good_rows _ _ (bbt_at s blk) 0).
  - destruct (store_from _ _ _); cbn [mbind res_bind fst snd]; [|done].
    do 2 f_equal. apply bool_decide_ext. lia.
  - intros lun ?%elem_of_down_to. apply bbt_word_ok; [done|lia].
  - done.
Qed.

Lemma lastn_few n dies :
  (length (concat good_rows) < n)%nat → (n ≤ length dies)%nat →
  get_lastn_good_die_within_range blk start_lun start_ch end_lun end_ch (Z.of_nat n) dies s =
    Ok (false, concat good_rows ++ drop (length (concat good_rows)) dies).
Proof.
  intros Hl Hd. rewrite lastn_eq, rows_stored_all by lia.
  rewrite store_from_fits by lia. cbn [mbind res_bind]. by rewrite bool_decide_false by lia.
Qed.

Lemma lastn_reach n dies r1 row r2 :
  good_rows = r1 ++ row :: r2 → (length (concat r1) < n)%nat →
  (n ≤ length (concat r1) + length row)%nat → length dies = n →
  get_lastn_good_die_within_range blk start_lun start_ch end_lun end_ch (Z.of_nat n) dies s =
    if decide (concat r2 = []) then Ok (true, take n (concat good_rows)) else Fault F_OOB.
Proof.
  intros Hr H1 H2 Hd. rewrite lastn_eq, Hr, rows_stored_reach by lia. rewrite Nat.sub_0_r.
  assert (length (take n (concat r1 ++ row)) = n) as Hn.
  { rewrite length_take, length_app. lia. }
  case_decide as E.
  - rewrite E, app_nil_r. rewrite store_from_fits by lia. cbn [mbind res_bind].
    rewrite bool_decide_true by done. do 2 f_equal.
    rewrite drop_ge by lia. rewrite app_nil_r. rewrite concat_app. cbn.
    by rewrite E, app_nil_r.
  - rewrite store_from_overflows; [done| |lia]. rewrite length_app.
    destruct (concat r2); [done|]. cbn. lia.
Qed.
End search.

(** The search for the last [n] good dies of a range, with an array of [n] elements:
    it fails when there are fewer; when the LUN that holds the [n]-th one is the last
    with a good die it finds them, the last die first; and when a lower LUN of the range
    has another good die it goes on and writes behind the array, since the [break] leaves
    only the inner loop. *)
Lemma lastn_good_die_spec (s : pages) (blk sl sc el ec : Z) (n : nat) (dies : list Z) :
  0 ≤ blk < CFG_NAND_BLK_NUM → 0 ≤ sl ∧ el < CFG_NAND_LUN_NUM → length dies = n →
  let rows := good_rows s blk sl sc el ec in
  let run := get_lastn_good_die_within_range blk sl sc el ec (Z.of_nat n) dies s in
  ((length (concat rows) < n)%nat → ∃ dies', run = Ok (false, dies')) ∧
  (∀ r1 row r2, rows = r1 ++ row :: r2 → (length (concat r1) < n)%nat →
     (n ≤ length (concat r1) + length row)%nat →
     (concat r2 = [] → run = Ok (true, take n (concat rows))) ∧
     (concat r2 ≠ [] → run = Fault F_OOB)).
Proof.
  intros Hb Hl Hd rows run. split.
  - intros Hn. eexists. apply lastn_few; [done|done|done|lia].
  - intros r1 row r2 Hr H1 H2. subst run. rewrite (lastn_reach s blk sl sc el ec Hb Hl n dies r1 row r2) by done.
    split; intros ?; [by rewrite decide_True|by rewrite decide_False].
Qed.

(** A table without bad blocks and page types. *)
Definition clean_pages : pages :=
  mk_pages ∅ (list_to_map ((λ i, (i, bmi_blank i)) <$> for_each_blk)).

Lemma lastn_good_die_spec_witness :
  get_lastn_good_die_within_range 5 15 0 15 11 2 [0; 0] clean_pages = Ok (true, [191; 190]) ∧
  get_lastn_good_die_within_range 5 14 0 15 11 2 [0; 0] clean_pages = Fault F_OOB.
Proof.
  destruct (lastn_good_die_spec clean_pages 5 15 0 15 11 2 [0; 0]) as [_ H1].
  { fw_lia. } { fw_lia. } { done. }
  destruct (lastn_good_die_spec clean_pages 5 14 0 15 11 2 [0; 0]) as [_ H2].
  { fw_lia. } { fw_lia. } { done. }
  split.
  - apply (H1 [] (LUNCH_TO_DIE 15 <$> down_to 11 0) []); try (vm_compute; reflexivity).
    + vm_compute. lia.
    + vm_compute. lia.
  - apply (H2 [] (LUNCH_TO_DIE 15 <$> down_to 11 0) [LUNCH_TO_DIE 14 <$> down_to 11 0]).
    + vm_compute. reflexivity.
    + vm_compute. lia.
    + vm_compute. lia.
    + discriminate.
Defined.

(** ** RAIF *)

(** A die of the block that is not marked bad. *)
Definition good_die (s : pages) (blk lun ch : Z) : Prop :=
  bit_test (bbt_at s blk lun) ch = false.

Lemma good_row_nonempty s blk chs lun ch :
  ch ∈ chs → good_die s blk lun ch → good_row s blk chs lun ≠ [].
Proof.
  intros Hin Hg Hnil. assert (LUNCH_TO_DIE lun ch ∈ good_row s blk chs lun) as H.
  { apply list_elem_of_fmap. exists ch. split; [done|]. by apply list_elem_of_filter. }
  rewrite Hnil in H. by apply not_elem_of_nil in H.
Qed.

(** Two rows that are not empty: the first such row, and something after it. *)
Lemma two_rows (f : Z → list Z) luns i j :
  StronglySorted Z.gt luns → i ∈ luns → j ∈ luns → j < i → f i ≠ [] → f j ≠ [] →
  ∃ r1 row r2, f <$> luns = r1 ++ row :: r2 ∧ concat r1 = [] ∧ row ≠ [] ∧ concat r2 ≠ [].
Proof.
  induction luns as [|a luns IH]; intros Hs Hi Hj Hlt Hfi Hfj; [by apply not_elem_of_nil in Hi|].
  inversion Hs as [|? ? Hs' Hall]; subst. rewrite Forall_forall in Hall.
  assert (j ∈ luns) as Hj'.
  { apply elem_of_cons in Hj as [->|?]; [|done]. apply elem_of_cons in Hi as [->|Hi]; [lia|].
    specialize (Hall i Hi). lia. }
  destruct (decide (f a = [])) as [Ha|Ha].
  - apply elem_of_cons in Hi as [->|Hi]; [done|].
    destruct IH as (r1 & row & r2 & Hr & ? & ? & ?); try done.
    exists (f a :: r1), row, r2. cbn. rewrite Hr, Ha. done.
  - exists [], (f a), (f <$> luns). split; [done|]. split; [done|]. split; [done|].
    intros Hc. apply Hfj. clear -Hc Hj'. induction luns as [|b luns IH].
    + by apply not_elem_of_nil in Hj'.
    + cbn in Hc. apply app_eq_nil in Hc as [? ?].
      apply elem_of_cons in Hj' as [->|?]; [done|by apply IH].
Qed.

Lemma raif_recalibrate_faults s blk last_dies lun1 ch1 lun2 ch2 :
  0 ≤ blk < CFG_NAND_BLK_NUM → 0 ≤ lun1 < lun2 → lun2 < 4 →
  0 ≤ ch1 < CFG_NAND_CH_NUM → 0 ≤ ch2 < CFG_NAND_CH_NUM →
  good_die s blk lun1 ch1 → good_die s blk lun2 ch2 → length last_dies = 1%nat →
  raif_die_recalibrate RAIF1_ENABLE blk last_dies s = Fault F_OOB.
Proof.
  intros Hb Hl Hl2 Hc1 Hc2 Hg1 Hg2 Hd. unfold raif_die_recalibrate, for_each_rpu.
  change (seqZ 0 (CFG_NAND_DIE_NUM / RPU_DIES_NUM_CFG)) with [0; 1; 2; 3].
  cbn [fmap list_fmap mfor]. unfold lastn_in_rpu.
  change (DIE_TO_LUN (0 * RPU_DIES_NUM_CFG)) with 0.
  change (DIE_TO_CH (0 * RPU_DIES_NUM_CFG)) with 0.
  change (DIE_TO_LUN (u8 (0 * RPU_DIES_NUM_CFG + RPU_DIES_NUM_CFG - 1))) with 3.
  change (DIE_TO_CH (u8 (0 * RPU_DIES_NUM_CFG + RPU_DIES_NUM_CFG - 1))) with 11.
  destruct (two_rows (good_row s blk (down_to 11 0)) (down_to 3 0) lun2 lun1)
    as (r1 & row & r2 & Hr & H1 & H2 & H3).
  - repeat constructor; lia.
  - apply elem_of_down_to. lia.
  - apply elem_of_down_to. lia.
  - lia.
  - apply (good_row_nonempty _ _ _ _ ch2); [|done]. apply elem_of_down_to. fw_lia.
  - apply (good_row_nonempty _ _ _ _ ch1); [|done]. apply elem_of_down_to. fw_lia.
  - change RAIF1_ENABLE with (Z.of_nat 1).
    rewrite (lastn_reach s blk 0 0 3 11 Hb) with (r1 := r1) (row := row) (r2 := r2).
    + rewrite decide_False by done. done.
    + fw_lia.
    + done.
    + rewrite H1. cbn. lia.
    + destruct row; [done|]. cbn. lia.
    + done.
Qed.

(** With the build's RAIF mode, the recalculation of the parity dies writes behind
    its array of one element for every block whose first protection unit has a good die
    in two LUNs. *)
Lemma raif_recalibrate_overflows (s : pages) (blk junk lun1 ch1 lun2 ch2 : Z) :
  0 ≤ blk < CFG_NAND_BLK_NUM → 0 ≤ lun1 < lun2 → lun2 < 4 →
  0 ≤ ch1 < CFG_NAND_CH_NUM → 0 ≤ ch2 < CFG_NAND_CH_NUM →
  good_die s blk lun1 ch1 → good_die s blk lun2 ch2 →
  block_dist_recalibrate RAIF_MODE blk junk s = Fault F_OOB.
Proof.
  intros. unfold block_dist_recalibrate.
  change (replicate (Z.to_nat RAIF_MODE) junk) with [junk].
  change RAIF_MODE with RAIF1_ENABLE. by rewrite (raif_recalibrate_faults s blk [junk] lun1 ch1 lun2 ch2).
Qed.

Lemma raif_recalibrate_overflows_witness :
  block_dist_recalibrate RAIF_MODE 9 0 clean_pages = Fault F_OOB.
Proof.
  apply (raif_recalibrate_overflows clean_pages 9 0 0 0 3 11); try fw_lia;
    vm_compute; reflexivity.
Defined.

(** ** Page types *)

Lemma set_page_type_ok s blk lun ch type e :
  pg_bmi s !! blk = Some e → lunch_ok lun ch → 0 ≤ type < 256 →
  __set_page_type blk lun ch type s =
    Ok (set_pg_bmi (<[blk := bmi_set_pgtype (<[(lun, ch) := type]> (pgtype e)) e]> (pg_bmi s)) s).
Proof.
  intros He [Hl Hc] Ht. unfold __set_page_type. rewrite (aread_Some _ _ _ He). cbn [mbind res_bind].
  unfold awrite2. rewrite decide_True by done. cbn [mbind res_bind]. by rewrite u8_small.
Qed.

Lemma get_page_type_ok s blk lun ch e :
  pg_bmi s !! blk = Some e → lunch_ok lun ch →
  __get_page_type blk lun ch s = Ok (default 0 (pgtype e !! (lun, ch))).
Proof.
  intros He Hlc. unfold __get_page_type. rewrite (aread_Some _ _ _ He). cbn [mbind res_bind].
  unfold aread2. by rewrite decide_True.
Qed.

(** The type a table without log and parity pages gives a die. *)
Definition base_type (s : pages) (blk lun ch : Z) : Z :=
  if negb (bool_decide (Z.land (Z.shiftr (bbt_at s blk lun) ch) 1 = 0))
  then BADBLK_PAGE else NORMAL_PAGE.

Lemma base_type_range s blk lun ch : 0 ≤ base_type s blk lun ch < 256.
Proof. unfold base_type, BADBLK_PAGE, NORMAL_PAGE. destruct (negb _); lia. Qed.

(** The two inner loops of [sys_build_page_type]. *)
Definition build_blk (blk : Z) (s : pages) : res pages :=
  mfor for_each_lun (λ lun s,
    mfor for_each_ch (λ ch s,
      rc ← __get_bbt blk lun ch s;
      __set_page_type blk lun ch (if rc : bool then BADBLK_PAGE else NORMAL_PAGE) s) s) s.

(** Some dies of the block have their type, nothing else changed. *)
Definition typed (s0 : pages) (blk : Z) (P : Z → Z → Prop) (s : pages) : Prop :=
  pg_bbt s = pg_bbt s0 ∧ (∀ b, b ≠ blk → pg_bmi s !! b = pg_bmi s0 !! b) ∧
  ∃ e, pg_bmi s !! blk = Some e ∧
    ∀ lun ch, P lun ch → pgtype e !! (lun, ch) = Some (base_type s0 blk lun ch).

Lemma build_die s0 blk (P Q : Z → Z → Prop) s lun ch :
  0 ≤ blk < CFG_NAND_BLK_NUM → lunch_ok lun ch → typed s0 blk P s →
  (∀ l c, Q l c → P l c ∨ (l = lun ∧ c = ch)) →
  ∃ s', (rc ← __get_bbt blk lun ch s;
         __set_page_type blk lun ch (if rc : bool then BADBLK_PAGE else NORMAL_PAGE) s) = Ok s' ∧
    typed s0 blk Q s'.
Proof.
  intros Hb Hlc (H1 & H2 & e & He & Ht) HQ. unfold __get_bbt.
  rewrite bbt_word_ok by (done || apply Hlc). cbn [mbind res_bind].
  assert (bbt_at s blk lun = bbt_at s0 blk lun) as -> by (unfold bbt_at; by rewrite H1).
  change (if negb _ then BADBLK_PAGE else NORMAL_PAGE) with (base_type s0 blk lun ch).
  rewrite (set_page_type_ok _ _ _ _ _ e) by (done || apply base_type_range).
  eexists. split; [done|]. split; [done|]. split.
  - intros b Hne. cbn. rewrite lookup_insert_ne by done. by apply H2.
  - cbn. eexists. rewrite lookup_insert_eq. split; [done|]. intros l c Hlc'. cbn.
    destruct (decide ((l, c) = (lun, ch))) as [[= -> ->]|Hne].
    + by rewrite lookup_insert_eq.
    + rewrite lookup_insert_ne by congruence. apply Ht.
      destruct (HQ l c Hlc') as [?|[-> ->]]; [done|by destruct Hne].
Qed.

Lemma build_blk_ok s0 blk :
  0 ≤ blk < CFG_NAND_BLK_NUM → is_Some (pg_bmi s0 !! blk) →
  ∃ s', build_blk blk s0 = Ok s' ∧ typed s0 blk lunch_ok s'.
Proof.
  intros Hb [e0 He0]. unfold build_blk.
  destruct (mfor_inv (λ done s, typed s0 blk (λ l c, l ∈ done ∧ 0 ≤ c < CFG_NAND_CH_NUM) s)
    (λ lun s, mfor for_each_ch (λ ch s,
       rc ← __get_bbt blk lun ch s;
       __set_page_type blk lun ch (if rc : bool then BADBLK_PAGE else NORMAL_PAGE) s) s)
    for_each_lun s0) as (s' & Hrun & H).
  - split; [done|]. split; [done|]. exists e0. split; [done|]. intros l c [Hl _]. by apply not_elem_of_nil in Hl.
  - intros dn lun todo s1 Hall Ht.
    assert (0 ≤ lun < CFG_NAND_LUN_NUM) as Hlun.
    { assert (lun ∈ for_each_lun) as Hin by (rewrite Hall; set_solver).
      unfold for_each_lun in Hin. apply elem_of_seqZ in Hin. lia. }
    destruct (mfor_inv (λ cs s, typed s0 blk (λ l c,
                 (l ∈ dn ∧ 0 ≤ c < CFG_NAND_CH_NUM) ∨ (l = lun ∧ c ∈ cs)) s)
      (λ ch s, rc ← __get_bbt blk lun ch s;
         __set_page_type blk lun ch (if rc : bool then BADBLK_PAGE else NORMAL_PAGE) s)
      for_each_ch s1) as (s2 & Hrun & H2).
    + destruct Ht as (? & ? & e & ? & Ht). split; [done|]. split; [done|]. exists e. split; [done|].
      intros l c [?|[_ Hc]]; [by apply Ht|by apply not_elem_of_nil in Hc].
    + intros cs ch todo' s2 Hch Ht2.
      assert (0 ≤ ch < CFG_NAND_CH_NUM) as Hchr.
      { assert (ch ∈ for_each_ch) as Hin by (rewrite Hch; set_solver).
        unfold for_each_ch in Hin. apply elem_of_seqZ in Hin. lia. }
      apply (build_die s0 blk _ _ s2 lun ch Hb ltac:(by split) Ht2).
      intros l c [?|[-> Hc]]; [by left; left|]. set_solver.
    + exists s2. split; [done|]. destruct H2 as (? & ? & e & ? & H2).
      split; [done|]. split; [done|]. exists e. split; [done|]. intros l c [Hl Hc]. apply H2.
      apply elem_of_app in Hl as [?|Hl]; [by left|right].
      apply list_elem_of_singleton in Hl as ->.
      split; [done|]. unfold for_each_ch. apply elem_of_seqZ. lia.
  - exists s'. split; [done|]. destruct H as (? & ? & e & ? & H).
    split; [done|]. split; [done|]. exists e. split; [done|]. intros l c [Hl Hc]. apply H.
    split; [|done]. unfold for_each_lun. apply elem_of_seqZ. lia.
Qed.

(** The first pass of [sys_build_page_type] over a block copies the bad block table
    into the page types: every die of the block is a bad block page if its bit is set and
    a normal page otherwise; the other blocks and the table are untouched. *)
Lemma build_types_spec (s : pages) (blk : Z) :
  0 ≤ blk < CFG_NAND_BLK_NUM → is_Some (pg_bmi s !! blk) →
  ∃ s', build_blk blk s = Ok s' ∧ pg_bbt s' = pg_bbt s ∧
    (∀ b, b ≠ blk → pg_bmi s' !! b = pg_bmi s !! b) ∧
    (∀ lun ch, lunch_ok lun ch → __get_page_type blk lun ch s' = Ok (base_type s blk lun ch)).
Proof.
  intros Hb Hs. destruct (build_blk_ok s blk Hb Hs) as (s' & Hrun & Hb' & Ho & e & He & Ht).
  exists s'. split; [done|]. split; [done|]. split; [done|]. intros lun ch Hlc.
  rewrite (get_page_type_ok _ _ _ _ e) by done. by rewrite (Ht lun ch Hlc).
Qed.

Lemma clean_pages_blk i : 0 ≤ i < CFG_NAND_BLK_NUM → pg_bmi clean_pages !! i = Some (bmi_blank i).
Proof.
  intros Hi. cbn [clean_pages pg_bmi]. apply elem_of_list_to_map.
  - rewrite <-list_fmap_compose. apply NoDup_fmap; [by intros ??|]. apply NoDup_seqZ.
  - apply list_elem_of_fmap. exists i. split; [done|]. apply elem_of_seqZ. lia.
Qed.

Lemma build_types_spec_witness :
  ∃ s', build_blk 4 clean_pages = Ok s' ∧ __get_page_type 4 15 11 s' = Ok NORMAL_PAGE.
Proof.
  destruct (build_types_spec clean_pages 4) as (s' & H1 & _ & _ & H2).
  - fw_lia.
  - eexists. apply clean_pages_blk. fw_lia.
  - exists s'. split; [exact H1|]. rewrite (H2 15 11); [reflexivity|split; fw_lia].
Defined.

(** Building the page types overflows the array of the parity search at the first
    block, whenever that block has a good die in two LUNs of its first protection unit:
    a device whose first block is good cannot pass this initialisation. *)
Lemma build_page_type_overflows (s : pages) (junk lun1 ch1 lun2 ch2 : Z) :
  is_Some (pg_bmi s !! 0) → 0 ≤ lun1 < lun2 → lun2 < 4 →
  0 ≤ ch1 < CFG_NAND_CH_NUM → 0 ≤ ch2 < CFG_NAND_CH_NUM →
  good_die s 0 lun1 ch1 → good_die s 0 lun2 ch2 →
  sys_build_page_type RAIF_MODE junk s = Fault F_OOB.
Proof.
  intros Hs Hl Hl2 Hc1 Hc2 Hg1 Hg2. unfold sys_build_page_type, for_each_blk.
  change (seqZ 0 CFG_NAND_BLK_NUM) with (0 :: seqZ 1 (CFG_NAND_BLK_NUM - 1)). cbn [mfor].
  fold (build_blk 0 s). assert (0 ≤ 0 < CFG_NAND_BLK_NUM) as Hb by fw_lia.
  destruct (build_blk_ok s 0 Hb Hs) as (s' & -> & Hbbt & _). cbn [mbind res_bind].
  unfold block_dist_recalibrate. change (replicate (Z.to_nat RAIF_MODE) junk) with [junk].
  change RAIF_MODE with RAIF1_ENABLE.
  rewrite (raif_recalibrate_faults s' 0 [junk] lun1 ch1 lun2 ch2); try done.
  all: unfold good_die, bbt_at; by rewrite Hbbt.
Qed.

Lemma build_page_type_overflows_witness : sys_build_page_type RAIF_MODE 0 clean_pages = Fault F_OOB.
Proof.
  apply (build_page_type_overflows clean_pages 0 0 0 1 0).
  - eexists. apply clean_pages_blk. fw_lia.
  - lia.
  - lia.
  - fw_lia.
  - fw_lia.
  - vm_compute. reflexivity.
  - vm_compute. reflexivity.
Defined.

(** A log page needs nine addresses, but in the die that holds it only the seven
    before [LOG_PAGE_START_CPL] have the log type and the other nine are given to host
    data: the comparison is the wrong way round. *)
Lemma log_page_too_small (ppa : ppa_t) (s : pages) :
  get_page_type ppa s = Ok FTL_LOG_PAGE →
  lookup_page_type_fast ppa s =
    Ok (if decide (ppa mod PPA_PER_DIE < 7) then FTL_LOG_PAGE else NORMAL_PAGE) ∧
  PPA_PER_LOG_PAGE = 9.
Proof.
  intros Ht. split; [|reflexivity]. unfold lookup_page_type_fast. rewrite Ht.
  cbn [mbind res_bind].
  rewrite (decide_False (P := FTL_LOG_PAGE = NORMAL_PAGE)) by discriminate.
  rewrite decide_True by done.
  change LOG_PAGE_START_CPL with 7. change CPL_MASK with (Z.ones 4).
  rewrite Z.land_ones by lia. change (2 ^ 4) with PPA_PER_DIE.
  f_equal. repeat case_decide; try done; lia.
Qed.

(** A die of block 0 marked as the log page die. *)
Definition log_pages : pages :=
  mk_pages ∅ {[0 := bmi_set_pgtype {[(0, 0) := FTL_LOG_PAGE]} (bmi_blank 0)]}.

Lemma log_page_too_small_witness : lookup_page_type_fast 8 log_pages = Ok NORMAL_PAGE.
Proof. destruct (log_page_too_small 8 log_pages) as [-> _]; vm_compute; reflexivity. Defined.

(** The index of an address in a log page is below the number of addresses of an
    R-page, and two addresses with channels of the geometry have the same index only if
    they agree in plane, control page, channel and LUN. *)
Lemma log_index_injective (p q : ppa_t) :
  ppa_ch p < CFG_NAND_CH_NUM → ppa_ch q < CFG_NAND_CH_NUM →
  0 ≤ calc_ftl_log_cp_index p < PPA_PER_RPAGE ∧
  (calc_ftl_log_cp_index p = calc_ftl_log_cp_index q →
   ppa_cp p = ppa_cp q ∧ ppa_pl p = ppa_pl q ∧ ppa_ch p = ppa_ch q ∧ ppa_lun p = ppa_lun q).
Proof.
  intros Hp Hq.
  assert (∀ x, 0 ≤ ppa_cp x < 4 ∧ 0 ≤ ppa_pl x < 4 ∧ 0 ≤ ppa_ch x ∧ 0 ≤ ppa_lun x < 4) as Hr.
  { intros x. unfold ppa_cp, ppa_pl, ppa_ch, ppa_lun. autounfold with fwcfg.
    pose proof (get_bits_range 0 2 x). pose proof (get_bits_range 2 2 x).
    pose proof (get_bits_range 4 4 x). pose proof (get_bits_range 8 2 x). lia. }
  pose proof (Hr p). pose proof (Hr q).
  unfold calc_ftl_log_cp_index, PPA_PER_RPAGE in *. autounfold with fwcfg in *.
  rewrite !u16_small by lia. lia.
Qed.

Lemma log_index_injective_witness : 0 ≤ calc_ftl_log_cp_index 0x3bf < PPA_PER_RPAGE.
Proof. apply (log_index_injective 0x3bf 0); vm_compute; reflexivity. Defined.
