(* ===== verification/FwCkpt.v ===== *)
(** * Firmware: checkpoints of the mapping table

    [FW-Base/ckpt/ckpt.c] and [ckpt.h].  The two bitmaps of dirty segments are sets of
    segment numbers; [psgmt_ckpt_lock] and [psgmt_path_mutate] select one each.  The
    number of segments ([MAP_SGMT_NUM], not defined in the source) is a parameter, and
    what [flush_ep_slice] is given is recorded.  [PG_NUM] is read as the geometry's
    [CFG_NAND_PG_NUM]. *)

From S2P Require Import Prelude Fifo FwCfg FwBlocks.

#[local] Open Scope Z_scope.

Definition BAND_NUM : Z := 3.

(** [recov_logs_t] *)
Record recov_logs : Type := mk_recov { log_ppa : ppa_t; log_pos : Z }.

(** [band_info_t] *)
Record band_info_t : Type := mk_band {
  band_type : Z;
  open_blk : Z;
  current_ppa : ppa_t;
  current_seq : Z;
  last_log_page : recov_logs;
  base_log_page : recov_logs;
  anchor_log_page : recov_logs;
}.

Definition band_set_anchor (a : recov_logs) (b : band_info_t) : band_info_t :=
  mk_band (band_type b) (open_blk b) (current_ppa b) (current_seq b) (last_log_page b)
    (base_log_page b) a.
Definition band_set_base (a : recov_logs) (b : band_info_t) : band_info_t :=
  mk_band (band_type b) (open_blk b) (current_ppa b) (current_seq b) (last_log_page b)
    a (anchor_log_page b).
Definition band_set_current (p : ppa_t) (b : band_info_t) : band_info_t :=
  mk_band (band_type b) (open_blk b) p (current_seq b) (last_log_page b)
    (base_log_page b) (anchor_log_page b).

(** Which of the two bitmaps a pointer names. *)
Inductive sgmt : Type := SGMT1 | SGMT2.

(** [ckpt_cb] with the bands of the primary page, the block table the log pages are
    found in, and the map offsets handed to [flush_ep_slice] so far. *)
Record ckpt : Type := mk_ckpt {
  ongoing : bool;
  log_pages_num : Z;
  sgmt_state1 : gset Z;
  sgmt_state2 : gset Z;
  psgmt_ckpt_lock : sgmt;
  psgmt_path_mutate : sgmt;
  bandinfo : gmap Z band_info_t;
  ck_bmi : bmi_tbl;
  flushed : list Z;
}.

Definition sgmt_get (p : sgmt) (c : ckpt) : gset Z :=
  match p with SGMT1 => sgmt_state1 c | SGMT2 => sgmt_state2 c end.
Definition sgmt_set (p : sgmt) (b : gset Z) (c : ckpt) : ckpt :=
  mk_ckpt (ongoing c) (log_pages_num c)
    (match p with SGMT1 => b | SGMT2 => sgmt_state1 c end)
    (match p with SGMT1 => sgmt_state2 c | SGMT2 => b end)
    (psgmt_ckpt_lock c) (psgmt_path_mutate c) (bandinfo c) (ck_bmi c) (flushed c).
Definition set_ongoing (b : bool) (c : ckpt) : ckpt :=
  mk_ckpt b (log_pages_num c) (sgmt_state1 c) (sgmt_state2 c) (psgmt_ckpt_lock c)
    (psgmt_path_mutate c) (bandinfo c) (ck_bmi c) (flushed c).
Definition set_log_pages_num (n : Z) (c : ckpt) : ckpt :=
  mk_ckpt (ongoing c) n (sgmt_state1 c) (sgmt_state2 c) (psgmt_ckpt_lock c)
    (psgmt_path_mutate c) (bandinfo c) (ck_bmi c) (flushed c).
Definition set_pointers (l m : sgmt) (c : ckpt) : ckpt :=
  mk_ckpt (ongoing c) (log_pages_num c) (sgmt_state1 c) (sgmt_state2 c) l m
    (bandinfo c) (ck_bmi c) (flushed c).
Definition set_bandinfo (b : gmap Z band_info_t) (c : ckpt) : ckpt :=
  mk_ckpt (ongoing c) (log_pages_num c) (sgmt_state1 c) (sgmt_state2 c) (psgmt_ckpt_lock c)
    (psgmt_path_mutate c) b (ck_bmi c) (flushed c).
Definition add_flushed (o : Z) (c : ckpt) : ckpt :=
  mk_ckpt (ongoing c) (log_pages_num c) (sgmt_state1 c) (sgmt_state2 c) (psgmt_ckpt_lock c)
    (psgmt_path_mutate c) (bandinfo c) (ck_bmi c) (flushed c ++ [o]).

(** [for (i=0; i < BAND_NUM; i++)] *)
Definition bands : list Z := seqZ 0 BAND_NUM.

(** [get_prev_log_page_ppa]; [band] is not used. *)
Definition get_prev_log_page_ppa (ppa : ppa_t) (t : bmi_tbl) : res ppa_t :=
  if decide (ppa_pg ppa < 2) then
    p ← BMI_PREV_BLK t (ppa_blk ppa);
    Ok (set_ppa_pg (CFG_NAND_PG_NUM - 1) (set_ppa_blk p ppa))
  else Ok (set_ppa_pg (ppa_pg ppa - 2) ppa).

Definition band_upd (i : Z) (f : band_info_t → res band_info_t) (c : ckpt) : res ckpt :=
  b ← aread (bandinfo c) i;
  b' ← f b;
  Ok (set_bandinfo (<[i := b']> (bandinfo c)) c).

(** The loop bodies of the two functions below. *)
Definition anchor_band (i : Z) (c : ckpt) : res ckpt :=
  band_upd i (λ b,
    p ← get_prev_log_page_ppa (current_ppa b) (ck_bmi c);
    Ok (band_set_anchor (mk_recov p 0) b)) c.
Definition fwd_band (i : Z) : ckpt → res ckpt :=
  band_upd i (λ b,
    let b := band_set_base (mk_recov (log_ppa (anchor_log_page b)) 0) b in
    Ok (band_set_anchor (mk_recov 0xffffeeee (log_pos (anchor_log_page b))) b)).

Definition ckpt_start_log_page_anchor : ckpt → res ckpt := mfor bands anchor_band.
Definition ckpt_end_log_page_fwd : ckpt → res ckpt := mfor bands fwd_band.

Section ckpt.
Context (MAP_SGMT_NUM : Z).

(** The loop over the set bits of the locked bitmap. *)
Definition flush_sgmt (i : Z) (c : ckpt) : res ckpt :=
  let lock := psgmt_ckpt_lock c in
  if decide (i ∈ sgmt_get lock c) then
    let c := add_flushed (i * 1024) c in
    Ok (sgmt_set lock (sgmt_get lock c ∖ {[i]}) c)
  else Ok c.

Definition flush_ckpt_data : ckpt → res ckpt := mfor (seqZ 0 MAP_SGMT_NUM) flush_sgmt.

Definition apply_ckpt (c : ckpt) : res ckpt :=
  let temp := psgmt_ckpt_lock c in
  let c := set_pointers (psgmt_path_mutate c) temp c in
  c ← ckpt_start_log_page_anchor c;
  c ← flush_ckpt_data c;
  let c := set_ongoing false c in
  ckpt_end_log_page_fwd c.

Definition ckpt_monitor (c : ckpt) : res (bool * ckpt) :=
  let c := set_log_pages_num (u16 (log_pages_num c + 1)) c in
  if negb (ongoing c) && bool_decide (128 ≤ log_pages_num c) then
    let c := set_ongoing true c in
    let c := set_log_pages_num 0 c in
    c ← apply_ckpt c;
    Ok (true, c)
  else Ok (false, c).

(** [ckpt_monitor] called [n] times: the results. *)
Fixpoint monitor_run (n : nat) (c : ckpt) : res (list bool * ckpt) :=
  match n with
  | O => Ok ([], c)
  | S n' =>
      r ← ckpt_monitor c;
      rs ← monitor_run n' r.2;
      Ok (r.1 :: rs.1, rs.2)
  end.

(** ** The checkpoint *)

(** At each step: the counter is below its limit, the pointers name different bitmaps, the locked one is clean, the other holds segments of the
    map, and the bands and the blocks before their current ones are there. *)
Record ckpt_inv (c : ckpt) : Prop := {
  ck_num : 0 ≤ log_pages_num c < 128;
  ck_ptrs : psgmt_ckpt_lock c ≠ psgmt_path_mutate c;
  ck_clean : sgmt_get (psgmt_ckpt_lock c) c = ∅;
  ck_range : ∀ i, i ∈ sgmt_get (psgmt_path_mutate c) c → 0 ≤ i < MAP_SGMT_NUM;
  ck_bands : ∀ i, 0 ≤ i < BAND_NUM → ∃ b, bandinfo c !! i = Some b ∧
    is_Some (ck_bmi c !! ppa_blk (current_ppa b));
}.

(** Between checkpoints, none is going on. *)
Definition ckpt_ok (c : ckpt) : Prop := ongoing c = false ∧ ckpt_inv c.

(** The address a band's window starts from. *)
Definition prev_log_page (t : bmi_tbl) (ppa : ppa_t) : ppa_t :=
  match get_prev_log_page_ppa ppa t with Ok p => p | Fault _ => ppa end.

Lemma get_prev_ok ppa t :
  is_Some (t !! ppa_blk ppa) → get_prev_log_page_ppa ppa t = Ok (prev_log_page t ppa).
Proof.
  intros [e He]. unfold prev_log_page, get_prev_log_page_ppa, BMI_PREV_BLK.
  case_decide; [|done]. by rewrite (aread_Some _ _ _ He).
Qed.

(** A loop over the bands that changes each with [f]. *)
Lemma bands_loop (g : Z → ckpt → res ckpt) (f : bmi_tbl → band_info_t → band_info_t) c :
  (∀ i c b, bandinfo c !! i = Some b → is_Some (ck_bmi c !! ppa_blk (current_ppa b)) →
     g i c = Ok (set_bandinfo (<[i := f (ck_bmi c) b]> (bandinfo c)) c)) →
  (∀ i, 0 ≤ i < BAND_NUM → ∃ b, bandinfo c !! i = Some b ∧
     is_Some (ck_bmi c !! ppa_blk (current_ppa b))) →
  ∃ m, mfor bands g c = Ok (set_bandinfo m c) ∧
    ∀ i, m !! i = if decide (0 ≤ i < BAND_NUM) then f (ck_bmi c) <$> bandinfo c !! i
                  else bandinfo c !! i.
Proof.
  intros Hg Hb. change bands with [0; 1; 2] in *. unfold BAND_NUM in *. cbn [mfor].
  destruct (Hb 0) as (b0 & E0 & H0); [lia|]. destruct (Hb 1) as (b1 & E1 & H1); [lia|].
  destruct (Hb 2) as (b2 & E2 & H2); [lia|]. clear Hb.
  rewrite (Hg 0 c b0 E0 H0). cbn [mbind res_bind].
  rewrite (Hg 1 _ b1); [|cbn; by rewrite lookup_insert_ne|exact H1]. cbn [mbind res_bind].
  rewrite (Hg 2 _ b2); [|cbn; by rewrite !lookup_insert_ne|exact H2]. cbn [mbind res_bind].
  clear Hg. eexists. split; [reflexivity|]. intros i. cbn [bandinfo set_bandinfo ck_bmi].
  case_decide as Hi.
  - assert (i = 0 ∨ i = 1 ∨ i = 2) as [-> |[-> | ->]] by lia.
    + rewrite !lookup_insert_ne by done. by rewrite lookup_insert_eq, E0.
    + rewrite lookup_insert_ne by done. by rewrite lookup_insert_eq, E1.
    + by rewrite lookup_insert_eq, E2.
  - by rewrite !lookup_insert_ne by lia.
Qed.

(** The offsets of the dirty segments, in the order they are flushed. *)
Definition dirty_offsets (d : gset Z) : list Z :=
  (λ i, i * 1024) <$> filter (λ i, i ∈ d) (seqZ 0 MAP_SGMT_NUM).

(** What a band looks like after a checkpoint: its window starts at the log page before
    its current address. *)
Definition band_after (t : bmi_tbl) (b : band_info_t) : band_info_t :=
  band_set_anchor (mk_recov 0xffffeeee 0)
    (band_set_base (mk_recov (prev_log_page t (current_ppa b)) 0) b).

Lemma sgmt_get_set_eq p b c : sgmt_get p (sgmt_set p b c) = b.
Proof. by destruct p. Qed.

Lemma sgmt_get_set_ne p q b c : p ≠ q → sgmt_get p (sgmt_set q b c) = sgmt_get p c.
Proof. by destruct p, q. Qed.

Lemma sgmt_set_set p b b' c : sgmt_set p b (sgmt_set p b' c) = sgmt_set p b c.
Proof. by destruct p. Qed.

Lemma sgmt_set_id p c : sgmt_set p (sgmt_get p c) c = c.
Proof. by destruct p, c. Qed.

(** Append several offsets. *)
Definition add_flushed_all (os : list Z) (c : ckpt) : ckpt :=
  mk_ckpt (ongoing c) (log_pages_num c) (sgmt_state1 c) (sgmt_state2 c) (psgmt_ckpt_lock c)
    (psgmt_path_mutate c) (bandinfo c) (ck_bmi c) (flushed c ++ os).

Definition flush_state (c : ckpt) (dn : list Z) : ckpt :=
  let lock := psgmt_ckpt_lock c in
  let B := sgmt_get lock c in
  add_flushed_all ((λ i, i * 1024) <$> filter (λ i, i ∈ B) dn)
    (sgmt_set lock (B ∖ list_to_set dn) c).

Lemma flush_state_lock c dn : psgmt_ckpt_lock (flush_state c dn) = psgmt_ckpt_lock c.
Proof. done. Qed.

Lemma flush_state_get c dn :
  sgmt_get (psgmt_ckpt_lock c) (flush_state c dn) =
    sgmt_get (psgmt_ckpt_lock c) c ∖ list_to_set dn.
Proof. unfold flush_state. by destruct c as [o n s1 s2 [] m b t fl]. Qed.

Lemma flush_state_skip c dn a :
  a ∉ sgmt_get (psgmt_ckpt_lock c) c → flush_state c (dn ++ [a]) = flush_state c dn.
Proof.
  intros Ha. unfold flush_state. rewrite filter_app, filter_cons_False, filter_nil, app_nil_r by done.
  do 2 f_equal. set_solver.
Qed.

Lemma flush_state_take c dn a :
  a ∈ sgmt_get (psgmt_ckpt_lock c) c →
  flush_state c (dn ++ [a]) =
    sgmt_set (psgmt_ckpt_lock c)
      (sgmt_get (psgmt_ckpt_lock c) (flush_state c dn) ∖ {[a]})
      (add_flushed (a * 1024) (flush_state c dn)).
Proof.
  intros Ha. rewrite flush_state_get. unfold flush_state.
  rewrite filter_app, filter_cons_True, filter_nil, fmap_app by done.
  assert (∀ B : gset Z, B ∖ list_to_set (dn ++ [a]) = B ∖ list_to_set dn ∖ {[a]}) as ->.
  { intros B. set_solver. }
  destruct c as [o n s1 s2 lk m b t fl]. unfold add_flushed_all, add_flushed.
  destruct lk; cbn; by rewrite app_assoc.
Qed.

Lemma flush_ckpt_data_ok c :
  (∀ i, i ∈ sgmt_get (psgmt_ckpt_lock c) c → 0 ≤ i < MAP_SGMT_NUM) →
  flush_ckpt_data c =
    Ok (add_flushed_all (dirty_offsets (sgmt_get (psgmt_ckpt_lock c) c))
          (sgmt_set (psgmt_ckpt_lock c) ∅ c)).
Proof.
  intros Hr. unfold flush_ckpt_data.
  destruct (mfor_inv (λ dn c', c' = flush_state c dn)
    flush_sgmt (seqZ 0 MAP_SGMT_NUM) c) as (c' & -> & ->).
  - unfold flush_state. destruct c as [o n s1 s2 lk m b t fl]. unfold add_flushed_all. cbn.
    rewrite app_nil_r. destruct lk; cbn; by rewrite difference_empty_L.
  - intros dn a todo c' Hl ->. unfold flush_sgmt.
    assert (a ∉ dn) as Hdn.
    { pose proof (NoDup_seqZ 0 MAP_SGMT_NUM) as Hnd. rewrite Hl in Hnd.
      apply NoDup_app in Hnd as (_ & Hd & _). intros Hin. apply (Hd a Hin). set_solver. }
    rewrite flush_state_lock, flush_state_get.
    case_decide as Hin.
    + eexists. split; [done|]. symmetry. rewrite flush_state_take by set_solver.
      by destruct c as [o n s1 s2 [] m b t fl].
    + eexists. split; [done|]. symmetry. apply flush_state_skip. set_solver.
  - f_equal. unfold flush_state, dirty_offsets. do 2 f_equal.
    apply set_eq. intros x. split; [|set_solver]. intros [Hx Hn]%elem_of_difference.
    destruct Hn. apply elem_of_list_to_set, elem_of_seqZ. specialize (Hr x Hx). lia.
Qed.

Lemma apply_ckpt_ok c :
  ckpt_inv c →
  ∃ m, apply_ckpt c = Ok (mk_ckpt false (log_pages_num c)
      (if psgmt_path_mutate c then ∅ else sgmt_state1 c)
      (if psgmt_path_mutate c then sgmt_state2 c else ∅)
      (psgmt_path_mutate c) (psgmt_ckpt_lock c) m (ck_bmi c)
      (flushed c ++ dirty_offsets (sgmt_get (psgmt_path_mutate c) c))) ∧
    ∀ i, m !! i = if decide (0 ≤ i < BAND_NUM) then band_after (ck_bmi c) <$> bandinfo c !! i
                  else bandinfo c !! i.
Proof.
  intros Hok. unfold apply_ckpt, ckpt_start_log_page_anchor, ckpt_end_log_page_fwd.
  set (c1 := set_pointers _ _ c).
  destruct (bands_loop anchor_band
    (λ t b, band_set_anchor (mk_recov (prev_log_page t (current_ppa b)) 0) b) c1)
    as (m1 & E1 & Hm1).
  { intros i c0 b Hb Hp. unfold anchor_band, band_upd. rewrite (aread_Some _ _ _ Hb). cbn [mbind res_bind].
    by rewrite get_prev_ok. }
  { apply (ck_bands c Hok). }
  rewrite E1. cbn [mbind res_bind].
  rewrite flush_ckpt_data_ok.
  2:{ intros i Hi. apply (ck_range c Hok). subst c1. by destruct c as [o n s1 s2 lk [] b t fl]. }
  cbn [mbind res_bind].
  set (c2 := set_ongoing false _).
  destruct (bands_loop fwd_band
    (λ _ b, band_set_anchor (mk_recov 0xffffeeee (log_pos (anchor_log_page b)))
       (band_set_base (mk_recov (log_ppa (anchor_log_page b)) 0) b)) c2)
    as (m2 & E2 & Hm2).
  { intros i c0 b Hb Hp. unfold fwd_band, band_upd. by rewrite (aread_Some _ _ _ Hb). }
  { intros i Hi. destruct (ck_bands c Hok i Hi) as (b & Hb & Hp).
    assert (bandinfo c2 = m1) as -> by (by destruct c as [o n s1 s2 lk [] bb t fl]).
    assert (ck_bmi c2 = ck_bmi c) as -> by (by destruct c as [o n s1 s2 lk [] bb t fl]).
    rewrite Hm1, decide_True by done. change (bandinfo c1) with (bandinfo c). rewrite Hb.
    eexists. split; [done|]. exact Hp. }
  rewrite E2. exists m2. split.
  - by destruct c as [o n s1 s2 lk [] bb t fl].
  - assert (bandinfo c2 = m1) as HE by (by destruct c as [o n s1 s2 lk [] bb t fl]).
    intros i. rewrite Hm2, HE, Hm1. case_decide; [|done].
    change (bandinfo c1) with (bandinfo c). change (ck_bmi c1) with (ck_bmi c).
    by destruct (bandinfo c !! i).
Qed.

Lemma apply_ckpt_keeps c :
  ckpt_inv c →
  ∃ c', apply_ckpt c = Ok c' ∧ ckpt_ok c' ∧
    flushed c' = flushed c ++ dirty_offsets (sgmt_get (psgmt_path_mutate c) c) ∧
    sgmt_get (psgmt_path_mutate c') c' = ∅ ∧ log_pages_num c' = log_pages_num c ∧
    (∀ i b, 0 ≤ i < BAND_NUM → bandinfo c !! i = Some b →
       bandinfo c' !! i = Some (band_after (ck_bmi c) b)) ∧ ck_bmi c' = ck_bmi c.
Proof.
  intros Hok. destruct (apply_ckpt_ok c Hok) as (m & -> & Hm). eexists. split; [done|].
  assert (∀ i b, 0 ≤ i < BAND_NUM → bandinfo c !! i = Some b →
            m !! i = Some (band_after (ck_bmi c) b)) as Hb.
  { intros i b Hi Hb. by rewrite Hm, decide_True, Hb by done. }
  destruct Hok as [Hn Hp Hcl _ Hbs].
  split; [|split; [done|split; [|split; [done|by split]]]].
  - split; [done|]. constructor; cbn.
    + done.
    + congruence.
    + by destruct (psgmt_path_mutate c).
    + intros i Hin. exfalso.
      destruct c as [o n s1 s2 [] [] bb t fl]; cbn in *; try done;
        rewrite Hcl in Hin; by apply elem_of_empty in Hin.
    + intros i Hi. destruct (Hbs i Hi) as (b & Hbi & Hs). exists (band_after (ck_bmi c) b).
      split; [by apply Hb|done].
  - destruct c as [o n s1 s2 [] [] bb t fl]; cbn in *; try done; by destruct Hp.
Qed.

Lemma elem_of_dirty_offsets d o :
  o ∈ dirty_offsets d ↔ ∃ i, o = i * 1024 ∧ i ∈ d ∧ 0 ≤ i < MAP_SGMT_NUM.
Proof.
  unfold dirty_offsets. rewrite list_elem_of_fmap. split.
  - intros (i & -> & [Hd Hi%elem_of_seqZ]%list_elem_of_filter). exists i. split; [done|]. split; [done|lia].
  - intros (i & -> & Hd & Hi). exists i. split; [done|].
    apply list_elem_of_filter. split; [done|]. apply elem_of_seqZ. lia.
Qed.

Lemma dirty_offsets_nodup d : NoDup (dirty_offsets d).
Proof.
  unfold dirty_offsets. apply NoDup_fmap; [intros x y; lia|].
  apply NoDup_filter, NoDup_seqZ.
Qed.

Lemma ckpt_inv_counted c n b :
  ckpt_inv c → 0 ≤ n < 128 → ckpt_inv (set_log_pages_num n (set_ongoing b c)).
Proof. intros [] Hn. constructor; try done; by destruct c as [? ? ? ? [] [] ? ? ?]. Qed.

Lemma monitor_step c :
  ckpt_ok c →
  ∃ c', ckpt_monitor c = Ok (bool_decide (log_pages_num c = 127), c') ∧ ckpt_ok c' ∧
    log_pages_num c' = (if decide (log_pages_num c = 127) then 0 else log_pages_num c + 1) ∧
    ck_bmi c' = ck_bmi c.
Proof.
  intros [Hi Hinv]. pose proof (ck_num c Hinv) as Hn. unfold ckpt_monitor.
  cbn [ongoing set_log_pages_num log_pages_num]. rewrite Hi. cbn [negb andb].
  rewrite u16_small by lia. destruct (decide (log_pages_num c = 127)) as [E|E].
  - rewrite !bool_decide_true by lia.
    destruct (apply_ckpt_keeps (set_log_pages_num 0 (set_ongoing true c)))
      as (c' & Hc' & Hok & _ & _ & Hnum & _ & Hbmi).
    { by apply ckpt_inv_counted. }
    exists c'. split; [|done].
    change (set_log_pages_num 0 (set_ongoing true (set_log_pages_num (log_pages_num c + 1) c)))
      with (set_log_pages_num 0 (set_ongoing true c)). by rewrite Hc'.
  - rewrite !bool_decide_false by lia. eexists. split; [done|]. split; [|by split].
    split; [done|]. destruct c as [o n s1 s2 l m b t fl]. cbn in Hi. subst o.
    apply (ckpt_inv_counted _ (n + 1) false) in Hinv; [exact Hinv|cbn in *; lia].
Qed.

Lemma monitor_run_ok n : ∀ c,
  ckpt_ok c →
  ∃ c', monitor_run n c =
      Ok ((λ k, bool_decide (k mod 128 = 127)) <$> seqZ (log_pages_num c) (Z.of_nat n), c') ∧
    ckpt_ok c' ∧ log_pages_num c' = (log_pages_num c + Z.of_nat n) mod 128 ∧
    ck_bmi c' = ck_bmi c.
Proof.
  induction n as [|n IH]; intros c Hok; cbn [monitor_run].
  - pose proof (ck_num c (proj2 Hok)). exists c. split; [done|]. split; [done|].
    rewrite Z.add_0_r. by rewrite Z.mod_small by done.
  - pose proof (ck_num c (proj2 Hok)) as Hn.
    destruct (monitor_step c Hok) as (c1 & -> & Hok1 & Hn1 & Hb1). cbn [mbind res_bind fst snd].
    destruct (IH c1 Hok1) as (c2 & -> & Hok2 & Hn2 & Hb2). cbn [mbind res_bind fst snd].
    exists c2. split; [|split; [done|split; [|congruence]]].
    + rewrite Nat2Z.inj_succ, (seqZ_cons (log_pages_num c)) by lia. cbn [fmap list_fmap].
      rewrite (Z.mod_small (log_pages_num c)) by done. do 3 f_equal.
      replace (Z.pred (Z.succ (Z.of_nat n))) with (Z.of_nat n) by lia.
      rewrite Hn1. case_decide as E; [|by rewrite Z.add_1_r].
      rewrite E. change (Z.succ 127) with (128 + 0).
      replace (seqZ (128 + 0) (Z.of_nat n)) with (Z.add 128 <$> seqZ 0 (Z.of_nat n))
        by apply fmap_add_seqZ.
      rewrite <-list_fmap_compose. apply list_fmap_ext. intros i x _. cbn.
      apply bool_decide_ext. replace (128 + x) with (x + 1 * 128) by lia. by rewrite Z.mod_add.
    + rewrite Hn2, Hn1, Nat2Z.inj_succ. case_decide as E.
      * rewrite E. replace (127 + Z.succ (Z.of_nat n)) with (0 + Z.of_nat n + 1 * 128) by lia.
        by rewrite Z.mod_add.
      * f_equal. lia.
Qed.
End ckpt.

(** ** Properties *)

(** C31: A checkpoint flushes each segment that was dirty when it started once and no
    other, leaves both bitmaps clean, exchanges their roles, and moves the recovery
    window of every band to the log page before its current address; the state is again
    one a checkpoint can start from. *)
Theorem apply_ckpt_spec (N : Z) (c : ckpt) :
  ckpt_inv N c →
  ∃ c' os, apply_ckpt N c = Ok c' ∧ ckpt_ok N c' ∧
    flushed c' = flushed c ++ os ∧ NoDup os ∧
    (∀ o, o ∈ os ↔ ∃ i, o = i * 1024 ∧ i ∈ sgmt_get (psgmt_path_mutate c) c) ∧
    sgmt_get (psgmt_path_mutate c') c' = ∅ ∧
    (∀ i b, 0 ≤ i < BAND_NUM → bandinfo c !! i = Some b →
       bandinfo c' !! i = Some (band_after (ck_bmi c) b)).
Proof.
  intros Hinv. destruct (apply_ckpt_keeps N c Hinv) as (c' & Hc' & Hok & Hf & Hm & _ & Hb & _).
  exists c', (dirty_offsets N (sgmt_get (psgmt_path_mutate c) c)).
  split; [done|]. split; [done|]. split; [done|]. split; [apply dirty_offsets_nodup|].
  split; [|done]. intros o. rewrite elem_of_dirty_offsets. split.
  - intros (i & -> & ? & _). eauto.
  - intros (i & -> & Hi). exists i. split; [done|]. split; [done|]. by apply (ck_range N c Hinv).
Qed.

(** Three bands that write block 2 and three dirty segments. *)
Definition ckpt_example : ckpt :=
  let b := mk_band 1 2 (set_ppa_pg 10 (set_ppa_blk 2 0)) 0 (mk_recov 0 0) (mk_recov 0 0) (mk_recov 0 0) in
  mk_ckpt false 127 {[1; 5; 6]} ∅ SGMT2 SGMT1 {[0 := b; 1 := b; 2 := b]}
    {[2 := bmi_blank 2]} [].

Lemma ckpt_example_inv : ckpt_inv 64 ckpt_example.
Proof.
  constructor.
  - split; reflexivity || discriminate.
  - discriminate.
  - reflexivity.
  - intros i Hi. cbn in Hi.
    rewrite !elem_of_union, !elem_of_singleton in Hi. lia.
  - intros i Hi. unfold BAND_NUM in Hi.
    assert (i = 0 ∨ i = 1 ∨ i = 2) as [-> |[-> | ->]] by lia;
      (eexists; split; [reflexivity|]; eexists; vm_compute; reflexivity).
Qed.

Lemma apply_ckpt_spec_witness :
  ∃ c', apply_ckpt 64 ckpt_example = Ok c' ∧ sgmt_get (psgmt_path_mutate c') c' = ∅.
Proof.
  destruct (apply_ckpt_spec 64 ckpt_example ckpt_example_inv) as (c' & os & H & _ & _ & _ & _ & H2 & _).
  exists c'. split; [exact H|exact H2].
Defined.

(** [ckpt_monitor], called once for each log page, starts a checkpoint at every
    128th call and at no other, whatever the number of calls; the counter never reaches
    its limit between calls, so it cannot overflow. *)
Lemma monitor_period (N : Z) (n : nat) (c : ckpt) :
  ckpt_ok N c →
  ∃ c', monitor_run N n c =
      Ok ((λ k, bool_decide (k mod 128 = 127)) <$> seqZ (log_pages_num c) (Z.of_nat n), c') ∧
    ckpt_ok N c' ∧ log_pages_num c' = (log_pages_num c + Z.of_nat n) mod 128.
Proof. intros Hok. destruct (monitor_run_ok N n c Hok) as (c' & ? & ? & ? & _). eauto. Qed.

Lemma monitor_period_witness :
  ∃ c', monitor_run 64 2 ckpt_example = Ok ([true; false], c') ∧ log_pages_num c' = 1.
Proof.
  destruct (monitor_period 64 2 ckpt_example) as (c' & H & _ & H2).
  - split; [reflexivity|exact ckpt_example_inv].
  - exists c'. split; [exact H|exact H2].
Defined.

(** At the first pages of a block the window moves to the block before, but to page
    255 of it: the page number of the last page of a block does not fit its field. *)
Lemma prev_log_page_truncated (t : bmi_tbl) (ppa : ppa_t) (e : bmi_t) :
  ppa_pg ppa < 2 → t !! ppa_blk ppa = Some e → 0 ≤ bmi_prev e < 1024 →
  ∃ p, get_prev_log_page_ppa ppa t = Ok p ∧ ppa_blk p = bmi_prev e ∧ ppa_pg p = 255.
Proof.
  intros Hpg He Hp. unfold get_prev_log_page_ppa, BMI_PREV_BLK. rewrite decide_True by done.
  rewrite (aread_Some _ _ _ He). cbn [mbind res_bind]. eexists. split; [done|].
  unfold ppa_blk, ppa_pg, set_ppa_pg, set_ppa_blk.
  rewrite (get_set_bits_ne 18) by fw_lia. rewrite !get_set_bits_eq by fw_lia.
  autounfold with fwcfg. split; [by apply Z.mod_small|done].
Qed.

Lemma prev_log_page_truncated_witness :
  ∃ p, get_prev_log_page_ppa 0 {[0 := bmi_blank 7]} = Ok p ∧ ppa_pg p = 255.
Proof.
  destruct (prev_log_page_truncated {[0 := bmi_blank 7]} 0 (bmi_blank 7)) as (p & H & _ & H2).
  - vm_compute. reflexivity.
  - reflexivity.
  - split; vm_compute; congruence.
  - exists p. split; [exact H|exact H2].
Defined.
