(* ===== verification/FwWrite.v ===== *)
(** * Firmware: assigning addresses to host writes

    [FW-Base/datapath/host_write.c] ([atc_assign_ppa]) and the first pages and log page
    buffers of [ftl/write_insertion.c].  [increase_ppa], which the source uses and does
    not define, is a parameter, as is the memory allocator.  [update_log_page] and
    [commit_log_page] are only named by the source; the calls of the second are
    counted. *)

From S2P Require Import Prelude Fifo FwCfg FwBlocks FwPages FwCkpt.

#[local] Open Scope Z_scope.

(** ** [atc_assign_ppa] *)

Section assign.
Context (MAP_SGMT_NUM : Z) (increase_ppa : ppa_t → ppa_t) (pg : pages).

(** What the loop changes. *)
Record assign : Type := mk_assign {
  as_idx : Z;
  as_list : list Z;
  as_ppa : ppa_t;
  as_ckpt : ckpt;
  as_commits : nat;
}.

(** The part of the body after the test for the end, for one address. *)
Definition assign_body (pg_type : Z) (st : assign) : res assign :=
  st ← (if decide (pg_type = NORMAL_PAGE) then
          l ← swrite (as_list st) (Z.to_nat (as_idx st)) (as_ppa st);
          Ok (mk_assign (u16 (as_idx st + 1)) l (as_ppa st) (as_ckpt st) (as_commits st))
        else Ok st);
  st ← (if decide (pg_type = FTL_LOG_PAGE) then
          r ← ckpt_monitor MAP_SGMT_NUM (as_ckpt st);
          Ok (mk_assign (as_idx st) (as_list st) (as_ppa st) r.2 (S (as_commits st)))
        else Ok st);
  Ok (mk_assign (as_idx st) (as_list st) (increase_ppa (as_ppa st)) (as_ckpt st) (as_commits st)).

Fixpoint assign_loop (fuel : nat) (nppas : Z) (st : assign) : res assign :=
  match fuel with
  | O => Fault F_FUEL
  | S fuel' =>
      pg_type ← lookup_page_type_fast (as_ppa st) pg;
      if bool_decide (pg_type = NORMAL_PAGE) && bool_decide (nppas ≤ as_idx st) then Ok st
      else st ← assign_body pg_type st; assign_loop fuel' nppas st
  end.

(** The addresses, the checkpoint state with the band's new address, and the number of
    log pages committed.  [scpa] has no effect. *)
Definition atc_assign_ppa (fuel : nat) (band nppas : Z) (ppalist : list Z) (c : ckpt)
    : res (list Z * ckpt * nat) :=
  b ← aread (bandinfo c) band;
  st ← assign_loop fuel nppas (mk_assign 0 ppalist (current_ppa b) c 0);
  c ← band_upd band (λ b, Ok (band_set_current (as_ppa st) b)) (as_ckpt st);
  Ok (as_list st, c, as_commits st).

(** ** What it assigns *)

(** The addresses the loop visits before its [K]-th round. *)
Fixpoint visited (K : nat) (p : ppa_t) : list ppa_t :=
  match K with O => [] | S K' => p :: visited K' (increase_ppa p) end.

Definition nth_ppa (K : nat) (p : ppa_t) : ppa_t := Nat.iter K increase_ppa p.

Lemma nth_ppa_S K p : nth_ppa (S K) p = nth_ppa K (increase_ppa p).
Proof. unfold nth_ppa. apply Nat.iter_succ_r. Qed.

(** The address has the type. *)
Definition has_type (ty : Z) (p : ppa_t) : Prop := lookup_page_type_fast p pg = Ok ty.

#[global] Instance has_type_dec ty p : Decision (has_type ty p).
Proof.
  unfold has_type. destruct (lookup_page_type_fast p pg) as [t|].
  - destruct (decide (t = ty)) as [->|]; [by left|right; congruence].
  - by right.
Defined.

Definition normals (K : nat) (p : ppa_t) : list ppa_t := filter (has_type NORMAL_PAGE) (visited K p).
Definition logs (K : nat) (p : ppa_t) : nat := length (filter (has_type FTL_LOG_PAGE) (visited K p)).

(** All addresses reached have a type. *)
Definition typed_orbit (p : ppa_t) : Prop := ∀ k, ∃ ty, has_type ty (nth_ppa k p).

Lemma typed_orbit_next p : typed_orbit p → typed_orbit (increase_ppa p).
Proof. intros Ht k. destruct (Ht (S k)) as [ty H]. exists ty. by rewrite nth_ppa_S in H. Qed.

Lemma monitor_run_S n c :
  monitor_run MAP_SGMT_NUM (S n) c =
    (r ← ckpt_monitor MAP_SGMT_NUM c; rs ← monitor_run MAP_SGMT_NUM n r.2; Ok (r.1 :: rs.1, rs.2)).
Proof. done. Qed.

Lemma assign_loop_spec nppas K : ∀ fuel idx l p c k,
  ckpt_ok MAP_SGMT_NUM c → typed_orbit p → has_type NORMAL_PAGE (nth_ppa K p) →
  (K < fuel)%nat → (idx + length (normals K p) = nppas)%nat →
  (nppas ≤ length l)%nat → Z.of_nat nppas < 2 ^ 16 →
  ∃ rs c', monitor_run MAP_SGMT_NUM (logs K p) c = Ok (rs, c') ∧
    assign_loop fuel (Z.of_nat nppas) (mk_assign (Z.of_nat idx) l p c k) =
      Ok (mk_assign (Z.of_nat nppas) (take idx l ++ normals K p ++ drop nppas l)
            (nth_ppa K p) c' (k + logs K p)).
Proof.
  induction K as [|K IH]; intros fuel idx l p c k Hok Ht Hn Hf Hlen Hl Hs.
  - destruct fuel as [|fuel]; [lia|]. cbn [assign_loop as_ppa as_idx]. cbn in Hlen, Hn.
    unfold has_type in Hn. rewrite Hn. cbn [mbind res_bind].
    rewrite !bool_decide_true by lia. cbn [andb]. exists [], c. split; [done|]. cbn.
    replace idx with nppas by lia. by rewrite take_drop, Nat.add_0_r.
  - destruct fuel as [|fuel]; [lia|]. cbn [assign_loop as_ppa as_idx].
    destruct (Ht O) as [ty Hty]. cbn in Hty. unfold has_type in Hty. rewrite Hty. cbn [mbind res_bind].
    rewrite nth_ppa_S in Hn |- *. pose proof (typed_orbit_next p Ht) as Ht'.
    unfold normals, logs in *. cbn [visited] in *.
    destruct (decide (ty = NORMAL_PAGE)) as [->|Hne].
    + rewrite (filter_cons_True (has_type NORMAL_PAGE)) in * by done.
      rewrite (filter_cons_False (has_type FTL_LOG_PAGE)) by (unfold has_type; by rewrite Hty).
      cbn [length] in Hlen.
      rewrite (bool_decide_true (NORMAL_PAGE = _)) by done.
      rewrite bool_decide_false by lia. cbn [andb]. unfold assign_body. cbn [as_idx as_list as_ppa].
      rewrite decide_True by done. unfold swrite. rewrite Nat2Z.id, decide_True by lia.
      cbn [mbind res_bind]. rewrite decide_False by done. cbn [mbind res_bind as_idx as_list as_ppa as_ckpt as_commits].
      rewrite u16_small by lia. replace (Z.of_nat idx + 1) with (Z.of_nat (S idx)) by lia.
      destruct (IH fuel (S idx) (<[idx := p]> l) (increase_ppa p) c k) as (rs & c' & Hm & ->); try done.
      { lia. } { lia. } { rewrite length_insert. lia. }
      exists rs, c'. split; [done|]. do 2 f_equal.
      rewrite (take_S_r _ _ p) by (apply list_lookup_insert_eq; lia).
      rewrite take_insert_ge, drop_insert_lt by lia. by rewrite <-app_assoc.
    + rewrite (filter_cons_False (has_type NORMAL_PAGE)) in * by (unfold has_type; rewrite Hty; congruence).
      rewrite (bool_decide_false (ty = NORMAL_PAGE)) by done. cbn [andb]. unfold assign_body.
      rewrite decide_False by done. cbn [mbind res_bind].
      destruct (decide (ty = FTL_LOG_PAGE)) as [->|Hnl].
      * rewrite (filter_cons_True (has_type FTL_LOG_PAGE)) by done. cbn [length as_ckpt].
        rewrite monitor_run_S.
        destruct (monitor_step MAP_SGMT_NUM c Hok) as (c1 & -> & Hok1 & _).
        cbn [mbind res_bind snd as_idx as_list as_ppa as_ckpt as_commits].
        destruct (IH fuel idx l (increase_ppa p) c1 (S k)) as (rs & c' & Hm & ->); try done.
        { lia. }
        rewrite Hm. cbn [mbind res_bind snd]. eexists _, c'. split; [done|].
        do 2 f_equal. by rewrite Nat.add_succ_r.
      * rewrite (filter_cons_False (has_type FTL_LOG_PAGE)) by (unfold has_type; rewrite Hty; congruence).
        cbn [mbind res_bind as_idx as_list as_ppa as_ckpt as_commits].
        apply IH; try done. lia.
Qed.

Lemma visited_app K1 K2 : ∀ p, visited (K1 + K2) p = visited K1 p ++ visited K2 (nth_ppa K1 p).
Proof.
  induction K1 as [|K1 IH]; intros p; [done|]. cbn [Nat.add visited app].
  rewrite IH. by rewrite nth_ppa_S.
Qed.

Lemma nth_ppa_add K1 K2 p : nth_ppa (K1 + K2) p = nth_ppa K2 (nth_ppa K1 p).
Proof.
  revert p. induction K1 as [|K1 IH]; intros p; [done|].
  cbn [Nat.add]. by rewrite !nth_ppa_S.
Qed.

(** Normal addresses never stop coming. *)
Definition recurrent (p : ppa_t) : Prop :=
  ∀ k, ∃ j, (k ≤ j)%nat ∧ has_type NORMAL_PAGE (nth_ppa j p).

Lemma recurrent_nth K p : recurrent p → recurrent (nth_ppa K p).
Proof.
  intros Hr k. destruct (Hr (K + k)%nat) as (j & Hj & Hn).
  exists (j - K)%nat. split; [lia|]. rewrite <-nth_ppa_add.
  by replace (K + (j - K))%nat with j by lia.
Qed.

Lemma first_normal j : ∀ p, has_type NORMAL_PAGE (nth_ppa j p) →
  ∃ K, normals K p = [] ∧ has_type NORMAL_PAGE (nth_ppa K p).
Proof.
  induction j as [|j IH]; intros p Hj.
  - by exists O.
  - destruct (decide (has_type NORMAL_PAGE p)) as [?|Hn]; [by exists O|].
    rewrite nth_ppa_S in Hj. destruct (IH _ Hj) as (K & HK & ?). exists (S K).
    rewrite nth_ppa_S. split; [|done]. unfold normals in *. cbn [visited].
    by rewrite filter_cons_False.
Qed.

Lemma enough_normals n : ∀ p, recurrent p →
  ∃ K, length (normals K p) = n ∧ has_type NORMAL_PAGE (nth_ppa K p).
Proof.
  induction n as [|n IH]; intros p Hr.
  - destruct (Hr O) as (j & _ & Hj). destruct (first_normal j p Hj) as (K & HK & ?).
    exists K. by rewrite HK.
  - destruct (IH p Hr) as (K & HK & Hn).
    destruct (recurrent_nth (S K) p Hr O) as (j & _ & Hj).
    destruct (first_normal j _ Hj) as (K' & HK' & Hn').
    exists (S K + K')%nat. rewrite nth_ppa_add. split; [|done].
    unfold normals in *. rewrite visited_app, filter_app, HK', app_nil_r.
    replace (S K) with (K + 1)%nat by lia. rewrite visited_app, filter_app. cbn [visited].
    rewrite filter_cons_True by done. rewrite length_app, HK. cbn. lia.
Qed.
End assign.


(** A concrete walk: the sixteen addresses of a die's page, again and again. *)
Definition die_walk (p : ppa_t) : ppa_t := if decide (p = 534543) then 534528 else p + 1.
Definition walk_pages : pages := mk_pages ∅ {[2 := bmi_blank 2]}.

Lemma die_walk_range k : 534528 ≤ nth_ppa die_walk k 534528 < 534544.
Proof.
  induction k as [|k IH]; [done|].
  change (nth_ppa die_walk (S k) 534528) with (die_walk (nth_ppa die_walk k 534528)).
  revert IH. generalize (nth_ppa die_walk k 534528). intros r Hr.
  unfold die_walk. case_decide; lia.
Qed.

Lemma die_walk_normal k : has_type walk_pages NORMAL_PAGE (nth_ppa die_walk k 534528).
Proof.
  assert (Forall (has_type walk_pages NORMAL_PAGE) (seqZ 534528 16)) as Hall.
  { apply (bool_decide_unpack _). vm_compute. exact I. }
  rewrite Forall_forall in Hall. apply Hall, elem_of_seqZ. pose proof (die_walk_range k). lia.
Qed.


(** ** First pages and log page buffers *)

(** The band loops of [sys_tbl.h] run over the number of channels, not of bands. *)
Definition for_each_band : list Z := seqZ 0 CFG_NAND_CH_NUM.
Definition LOG_PAGES_PER_BAND : Z := 2.

(** [first_page_t], without the read-retry parameters. *)
Record first_page_t : Type := mk_first_page {
  fp_blk : Z;
  fp_band : Z;
  fp_cri : Z;
  fp_sequence : Z;
  fp_timestamp : Z;
  fp_pecycle : Z;
  fp_bb_cnt : Z;
  fp_bbt : gmap Z Z;
}.

Definition first_page_zero : first_page_t := mk_first_page 0 0 0 0 0 0 0 ∅.

(** Arrays of [BAND_NUM] pointers; [NULL] where no key is present. *)
Definition band_slot {A} (m : gmap Z A) (band : Z) : res (option A) :=
  if decide (0 ≤ band < BAND_NUM) then Ok (m !! band) else Fault F_OOB.
Definition set_band_slot {A} (m : gmap Z A) (band : Z) (v : option A) : res (gmap Z A) :=
  if decide (0 ≤ band < BAND_NUM) then Ok (partial_alter (λ _, v) band m) else Fault F_OOB.

Section buffers.
(** [kmalloc] for the buffer of a band: whether there is memory. *)
Context (kmalloc : Z → bool).

(** The loop bodies. *)
Definition first_page_band (band : Z) (g : gmap Z first_page_t) : res (gmap Z first_page_t) :=
  g ← set_band_slot g band (if kmalloc band then Some first_page_zero else None);
  p ← band_slot g band;
  _ ← deref p;
  set_band_slot g band (Some first_page_zero).
Definition log_page_band (band : Z) (g : gmap Z unit) : res (gmap Z unit) :=
  lp ← deref (if kmalloc band then Some tt else None);
  set_band_slot g band (Some lp).

Definition first_page_buff_init : gmap Z first_page_t → res (gmap Z first_page_t) :=
  mfor for_each_band first_page_band.
(** The two halves of a band's buffer are one piece of memory, stored in both slots. *)
Definition ftl_log_page_buff_init : gmap Z unit → res (gmap Z unit) :=
  mfor for_each_band log_page_band.

Lemma band_loop_faults {S} (body : Z → S → res S) s :
  (∀ b s, 0 ≤ b < BAND_NUM →
     if kmalloc b then ∃ s', body b s = Ok s' else body b s = Fault F_NULL) →
  (∀ s, body 3 s = if kmalloc 3 then Fault F_OOB else body 3 s) →
  (∀ s, ∃ f, body 3 s = Fault f) →
  ∃ f, mfor for_each_band body s = Fault f ∧ ((∀ b, kmalloc b = true) → f = F_OOB).
Proof.
  intros Hin Hout Hf. unfold for_each_band.
  change (seqZ 0 CFG_NAND_CH_NUM) with (0 :: 1 :: 2 :: 3 :: seqZ 4 8). cbn [mfor].
  assert (∀ b s, 0 ≤ b < BAND_NUM → kmalloc b = true → ∃ s', body b s = Ok s') as Hok.
  { intros b s0 Hb Hk. specialize (Hin b s0 Hb). by rewrite Hk in Hin. }
  assert (∀ b s, 0 ≤ b < BAND_NUM → kmalloc b = false → body b s = Fault F_NULL) as Hno.
  { intros b s0 Hb Hk. specialize (Hin b s0 Hb). by rewrite Hk in Hin. }
  unfold BAND_NUM in *.
  destruct (kmalloc 0) eqn:E0; [|rewrite (Hno 0) by (done || lia); eexists; split; [done|]; intros Ha; by rewrite Ha in E0].
  destruct (Hok 0 s) as [s0 ->]; [lia|done|]. cbn [mbind res_bind].
  destruct (kmalloc 1) eqn:E1; [|rewrite (Hno 1) by (done || lia); eexists; split; [done|]; intros Ha; by rewrite Ha in E1].
  destruct (Hok 1 s0) as [s1 ->]; [lia|done|]. cbn [mbind res_bind].
  destruct (kmalloc 2) eqn:E2; [|rewrite (Hno 2) by (done || lia); eexists; split; [done|]; intros Ha; by rewrite Ha in E2].
  destruct (Hok 2 s1) as [s2 ->]; [lia|done|]. cbn [mbind res_bind].
  destruct (Hf s2) as [f Hf']. exists f. rewrite Hf'. split; [done|].
  intros Ha. rewrite Hout, Ha in Hf'. by injection Hf'.
Qed.

Lemma first_page_init_faults g :
  ∃ f, first_page_buff_init g = Fault f ∧ ((∀ b, kmalloc b = true) → f = F_OOB).
Proof.
  apply band_loop_faults.
  - intros b s Hb. unfold first_page_band, set_band_slot, band_slot.
    rewrite !decide_True by done. cbn [mbind res_bind]. rewrite lookup_partial_alter_eq.
    destruct (kmalloc b); rewrite !decide_True by done; cbn [deref mbind res_bind];
      rewrite ?decide_True by done; [by eexists|done].
  - intros s. by destruct (kmalloc 3).
  - intros s. by eexists.
Qed.

Lemma log_page_init_faults g :
  ∃ f, ftl_log_page_buff_init g = Fault f ∧ ((∀ b, kmalloc b = true) → f = F_OOB).
Proof.
  apply band_loop_faults.
  - intros b s Hb. unfold log_page_band, set_band_slot.
    destruct (kmalloc b); cbn [deref mbind res_bind]; [|done].
    rewrite decide_True by done. by eexists.
  - intros s. unfold log_page_band. by destruct (kmalloc 3).
  - intros s. unfold log_page_band. destruct (kmalloc 3); by eexists.
Qed.

(** The initialisation of the first pages and of the log page buffers runs over
    twelve bands where there are three: whatever the allocator answers it ends in a
    fault, and when there is memory it writes behind both arrays of pointers. *)
Lemma buff_init_overflows (g : gmap Z first_page_t) (gl : gmap Z unit) :
  (∃ f, first_page_buff_init g = Fault f) ∧ (∃ f, ftl_log_page_buff_init gl = Fault f) ∧
  ((∀ b, kmalloc b = true) →
   first_page_buff_init g = Fault F_OOB ∧ ftl_log_page_buff_init gl = Fault F_OOB).
Proof.
  destruct (first_page_init_faults g) as (f1 & H1 & Ho1).
  destruct (log_page_init_faults gl) as (f2 & H2 & Ho2).
  split; [by eexists|]. split; [by eexists|]. intros Ha.
  by rewrite H1, H2, Ho1, Ho2 by done.
Qed.
End buffers.

Lemma buff_init_overflows_witness :
  first_page_buff_init (λ _, true) ∅ = Fault F_OOB.
Proof. by apply (buff_init_overflows (λ _, true) ∅ ∅). Defined.

(** [first_page_buff_exit]: the bands whose buffer is released. *)
Definition first_page_buff_exit (g : gmap Z first_page_t) : res (list Z) :=
  mfor for_each_band (λ band freed,
    p ← band_slot g band;
    Ok (match p with Some _ => freed ++ [band] | None => freed end)) [].

(** [update_first_page] works on a copy of the band's information, so its increment of
    [current_seq] is lost. *)
Definition update_first_page (now blk band : Z) (pg : pages) (c : ckpt)
    (g : gmap Z first_page_t) : res (gmap Z first_page_t) :=
  _ ← BUG_ON (¬ (band < BAND_NUM));
  _ ← BUG_ON (¬ (blk < CFG_NAND_BLK_NUM));
  p ← band_slot g band;
  bmi ← aread (pg_bmi pg) blk;
  bandinfo ← aread (bandinfo c) band;
  _ ← deref p;
  bbt ← get_blk_bbt_base blk pg;
  row ← mfor for_each_lun (λ lun row, w ← bbt lun; Ok (<[lun := w]> row)) ∅;
  set_band_slot g band
    (Some (mk_first_page (u16 blk) (u8 band) (bcri bmi) (current_seq bandinfo) now
             (bpecycle bmi) (bb_cnt bmi) row)).

Lemma copy_row pg blk :
  0 ≤ blk < CFG_NAND_BLK_NUM →
  ∃ row : gmap Z Z,
    mfor for_each_lun (λ lun row, w ← bbt_word pg blk lun; Ok (<[lun := w]> row)) ∅ = Ok row ∧
    ∀ lun, 0 ≤ lun < CFG_NAND_LUN_NUM → row !! lun = Some (bbt_at pg blk lun).
Proof.
  intros Hb.
  destruct (mfor_inv (λ dn (row : gmap Z Z), ∀ lun, lun ∈ dn → row !! lun = Some (bbt_at pg blk lun))
    (λ lun row, w ← bbt_word pg blk lun; Ok (<[lun := w]> row)) for_each_lun ∅) as (row & Hr & H).
  - intros lun Hin. by apply not_elem_of_nil in Hin.
  - intros dn lun todo row Hl Hrow.
    assert (lun ∈ for_each_lun) as Hin by (rewrite Hl; set_solver).
    apply elem_of_seqZ in Hin. rewrite bbt_word_ok by (done || lia). cbn [mbind res_bind].
    eexists. split; [done|]. intros l Hin'.
    destruct (decide (l = lun)) as [->|]; [by rewrite lookup_insert_eq|].
    rewrite lookup_insert_ne by done. apply Hrow. set_solver.
  - exists row. split; [done|]. intros lun Hlun. apply H, elem_of_seqZ. lia.
Qed.

Lemma update_first_page_ok now blk band pg c g fp bmi b :
  0 ≤ band < BAND_NUM → 0 ≤ blk < CFG_NAND_BLK_NUM → g !! band = Some fp →
  pg_bmi pg !! blk = Some bmi → bandinfo c !! band = Some b →
  ∃ row, update_first_page now blk band pg c g =
      Ok (<[band := mk_first_page blk band (bcri bmi) (current_seq b) now
                     (bpecycle bmi) (bb_cnt bmi) row]> g) ∧
    ∀ lun, 0 ≤ lun < CFG_NAND_LUN_NUM → row !! lun = Some (bbt_at pg blk lun).
Proof.
  intros Hband Hblk Hg Hbmi Hb. unfold update_first_page.
  rewrite !BUG_ON_pass by lia. cbn [mbind res_bind]. unfold band_slot.
  rewrite decide_True by done. cbn [mbind res_bind]. rewrite Hg.
  rewrite (aread_Some _ _ _ Hbmi). cbn [mbind res_bind].
  rewrite (aread_Some _ _ _ Hb). cbn [mbind res_bind deref].
  unfold get_blk_bbt_base. rewrite BUG_ON_pass by lia. cbn [mbind res_bind].
  destruct (copy_row pg blk Hblk) as (row & -> & Hrow). cbn [mbind res_bind].
  unfold set_band_slot. rewrite decide_True by done.
  exists row. split; [|done]. unfold BAND_NUM in *.
  rewrite u8_small by lia. rewrite u16_small by fw_lia. done.
Qed.

(** The first page of a newly opened block names the block, its band, its wear and its
    row of the bad block table, and carries the band's sequence number; but the number is
    not advanced, so two blocks opened one after the other get the same. *)
Lemma update_first_page_spec (now1 now2 blk1 blk2 band : Z) (pg : pages) (c : ckpt)
    (g : gmap Z first_page_t) (fp : first_page_t) (bmi1 bmi2 : bmi_t) (b : band_info_t) :
  0 ≤ band < BAND_NUM → 0 ≤ blk1 < CFG_NAND_BLK_NUM → 0 ≤ blk2 < CFG_NAND_BLK_NUM →
  g !! band = Some fp → pg_bmi pg !! blk1 = Some bmi1 → pg_bmi pg !! blk2 = Some bmi2 →
  bandinfo c !! band = Some b →
  ∃ g1 fp1 g2 fp2, update_first_page now1 blk1 band pg c g = Ok g1 ∧ g1 !! band = Some fp1 ∧
    update_first_page now2 blk2 band pg c g1 = Ok g2 ∧ g2 !! band = Some fp2 ∧
    fp_blk fp1 = blk1 ∧ fp_blk fp2 = blk2 ∧ fp_band fp2 = band ∧
    fp_pecycle fp2 = bpecycle bmi2 ∧ fp_timestamp fp2 = now2 ∧
    (∀ lun, 0 ≤ lun < CFG_NAND_LUN_NUM → fp_bbt fp2 !! lun = Some (bbt_at pg blk2 lun)) ∧
    fp_sequence fp1 = current_seq b ∧ fp_sequence fp2 = current_seq b.
Proof.
  intros Hband H1 H2 Hg Hb1 Hb2 Hb.
  destruct (update_first_page_ok now1 blk1 band pg c g fp bmi1 b) as (row1 & -> & _); try done.
  set (fp1 := mk_first_page blk1 _ _ _ _ _ _ _).
  destruct (update_first_page_ok now2 blk2 band pg c (<[band := fp1]> g) fp1 bmi2 b)
    as (row2 & E2 & Hrow2); try done.
  { by rewrite lookup_insert_eq. }
  eexists _, fp1, _, _. split; [done|]. split; [by rewrite lookup_insert_eq|].
  split; [exact E2|]. split; [by rewrite lookup_insert_eq|]. by repeat split.
Qed.

Lemma update_first_page_spec_witness :
  ∃ g1 fp1, update_first_page 5 2 1 walk_pages ckpt_example {[1 := first_page_zero]} = Ok g1 ∧
    g1 !! 1 = Some fp1 ∧ fp_sequence fp1 = 0.
Proof.
  destruct (update_first_page_spec 5 6 2 2 1 walk_pages ckpt_example {[1 := first_page_zero]}
    first_page_zero (bmi_blank 2) (bmi_blank 2)
    (mk_band 1 2 534528 0 (mk_recov 0 0) (mk_recov 0 0) (mk_recov 0 0)))
    as (g1 & fp1 & g2 & fp2 & H1 & H2 & _ & _ & _ & _ & _ & _ & _ & _ & H3 & _).
  { split; vm_compute; congruence. } { split; vm_compute; congruence. }
  { split; vm_compute; congruence. }
  { reflexivity. } { reflexivity. } { reflexivity. } { reflexivity. }
  exists g1, fp1. split; [exact H1|]. split; [exact H2|exact H3].
Defined.
