(* ===== verification/FwSched.v ===== *)
(** * Firmware: the task scheduler

    [FW-Base/xos/tsk_sched.c], [tsk_sched.h], and the event handlers of [main/main.c].
    Memory is words of the size of a pointer, in blocks: the four static arrays of task
    pointers are the blocks 0 to 3, a task control block is a block of three words (state
    and priority, function, parameter) whose number is its address.  A [TCB *] is a block
    and a word offset, since the source makes one by adding a priority to the address of
    an array of pointers.  What a task does when it is called is a parameter. *)

From S2P Require Import Prelude.

#[local] Open Scope Z_scope.

Definition CPU_NUM : Z := 4.
Definition HDC : Z := 0.
Definition ATC : Z := 1.
Definition STC : Z := 2.
Definition FDC : Z := 3.
Definition MAX_TASKS_PER_CPU : Z := 64.
Definition TASK_STATE_SLEEP : Z := 0.
Definition TASK_STATE_READY : Z := 1.
Definition TASK_STATE_RUNNING : Z := 2.
Definition REG32_BITS : Z := 32.

Notation tptr := (option (Z * Z)) (only parsing).

(** [gat_tasks_ctl_ctx.task_array] (the block, [None] for [NULL]), the memory, and the
    calls of task functions so far. *)
Record sched : Type := mk_sched {
  task_array : gmap Z (option Z);
  words : gmap (Z * Z) Z;
  calls : list (Z * Z);
}.

#[global] Instance sched_eq_dec : EqDecision sched.
Proof. solve_decision. Defined.

Definition set_words (w : gmap (Z * Z) Z) (s : sched) : sched := mk_sched (task_array s) w (calls s).
Definition set_task_array (a : gmap Z (option Z)) (s : sched) : sched :=
  mk_sched a (words s) (calls s).
Definition log_call (fn para : Z) (s : sched) : sched :=
  mk_sched (task_array s) (words s) (calls s ++ [(fn, para)]).

(** ** Access to a task control block *)

Definition load (p : tptr) (off : Z) (s : sched) : res Z :=
  a ← deref p;
  match words s !! (a.1, a.2 + off) with Some w => Ok w | None => Fault F_OOB end.
Definition store (p : tptr) (off v : Z) (s : sched) : res sched :=
  a ← deref p;
  match words s !! (a.1, a.2 + off) with
  | Some _ => Ok (set_words (<[(a.1, a.2 + off) := v]> (words s)) s)
  | None => Fault F_OOB
  end.

Definition task_state (p : tptr) (s : sched) : res Z := w ← load p 0 s; Ok (get_bits 0 8 w).
Definition set_task_state (p : tptr) (state : Z) (s : sched) : res sched :=
  w ← load p 0 s; store p 0 (set_bits 0 8 state w) s.

(** A word read as a [TCB *]. *)
Definition tcb_of_word (w : Z) : tptr := if decide (w = 0) then None else Some (w, 0).

(** [task_array[cpu] + prio]: [prio] pointers further, not [prio] blocks; from [NULL] the
    sum is [NULL] only for priority 0. *)
Definition this_task (cpu prio : Z) (s : sched) : res tptr :=
  base ← aread (task_array s) cpu;
  Ok (match base with
      | Some b => Some (b, prio)
      | None => if decide (prio = 0) then None else Some (-1, prio)
      end).

(** ** [tsk_sched.c] *)

Section sched.
Context (exec : Z → Z → sched → res sched).
(** [kmalloc]: the address of three words, or nothing. *)
Context (kmalloc : sched → option Z).

Definition create_task (handler para cpu prio : Z) (ready : bool) (s : sched)
    : res (tptr * sched) :=
  if decide (MAX_TASKS_PER_CPU ≤ prio) then Ok (None, s)
  else if decide (CPU_NUM ≤ cpu) then Ok (None, s)
  else
    task ← this_task cpu prio s;
    match task with
    | Some _ => Ok (None, s)
    | None =>
        a ← deref (kmalloc s);
        let head := set_bits 8 8 prio
                      (if ready then TASK_STATE_READY else TASK_STATE_SLEEP) in
        Ok (Some (a, 0),
            set_words (<[(a, 0) := head]> (<[(a, 1) := handler]> (words s))) s)
    end.

(** The release of a pointer that is not a block's address is a fault. *)
Definition __delete_task (task : tptr) (s : sched) : res sched :=
  a ← deref task;
  if decide (4 ≤ a.1 ∧ a.2 = 0) then
    Ok (set_words (delete (a.1, 2) (delete (a.1, 1) (delete (a.1, 0) (words s)))) s)
  else Fault F_BUG.
Definition delete_task (cpu prio : Z) (s : sched) : res sched :=
  task ← this_task cpu prio s; __delete_task task s.

(** The assertions of a task pointer are the dereferences that follow them. *)
Definition __yield_task (task : tptr) (s : sched) : res sched :=
  set_task_state task TASK_STATE_SLEEP s.
Definition yield_task (cpu prio : Z) (s : sched) : res sched :=
  task ← this_task cpu prio s; __yield_task task s.
Definition __resume_task (task : tptr) (s : sched) : res sched :=
  set_task_state task TASK_STATE_READY s.
Definition resume_task (cpu prio : Z) (s : sched) : res sched :=
  task ← this_task cpu prio s; __resume_task task s.

(** A call through a function pointer. *)
Definition call (fn para : Z) (s : sched) : res sched :=
  if decide (fn = 0) then Fault F_NULL else exec fn para s.

Definition __run_task (task : tptr) (s : sched) : res sched :=
  state ← task_state task s;
  _ ← BUG_ON (state ≠ TASK_STATE_READY);
  s ← set_task_state task TASK_STATE_RUNNING s;
  fn ← load task 1 s;
  para ← load task 2 s;
  call fn para s.
Definition run_task (cpu prio : Z) (s : sched) : res sched :=
  task ← this_task cpu prio s; __run_task task s.

(** [handle_hw_event] and [handle_fw_event] of [main.c]; [event] is what the register
    held.  Both look at the first 32 entries of the array. *)
Definition handle_bit (cpu event bit : Z) (s : sched) : res sched :=
  if negb (Z.testbit event bit) then Ok s else
  base ← aread (task_array s) cpu;
  w ← load ((λ b, (b, 0)) <$> base) bit s;
  let task := tcb_of_word w in
  match task with
  | None => Ok s
  | Some _ =>
      state ← task_state task s;
      if decide (state = TASK_STATE_READY) then __run_task task s else Ok s
  end.
Definition handle_hw_event (cpu hw_event : Z) : sched → res sched :=
  mfor (seqZ 0 REG32_BITS) (handle_bit cpu hw_event).
Definition handle_fw_event (cpu fw_event : Z) : sched → res sched :=
  mfor (seqZ 0 REG32_BITS) (handle_bit cpu fw_event).

(** One round of the loop of [lsb_prefer_scheduler]; [loop_cnt] is never changed. *)
Definition sched_round (completion_prio cpu loop_cnt : Z) (ev : Z * Z) (s : sched) : res sched :=
  s ← handle_hw_event cpu ev.1 s;
  s ← handle_fw_event cpu ev.2 s;
  if bool_decide (Z.land loop_cnt 0xf = 0) then Ok s else resume_task cpu completion_prio s.

(** The rounds in which the registers hold the given events; the loop itself never ends. *)
Definition lsb_prefer_scheduler (completion_prio cpu : Z) (evs : list (Z * Z)) : sched → res sched :=
  mfor evs (sched_round completion_prio cpu 0).

Definition scheduler_init (s : sched) : sched :=
  set_task_array (<[FDC := Some FDC]> (<[STC := Some STC]>
    (<[ATC := Some ATC]> (<[HDC := Some HDC]> (task_array s))))) s.
Definition os_init : sched → sched := scheduler_init.

(** The two tasks of the host core; the numbers of their functions are arguments. *)
Definition hdc_tasks_create (hdc_host_cmd_task process_completion_task : Z) (s : sched)
    : res sched :=
  r ← create_task hdc_host_cmd_task 0 HDC 0 true s;
  r ← create_task process_completion_task 0 HDC 32 false r.2;
  Ok r.2.
(** The other cores create no task. *)
Definition os_task_create (f g : Z) (s : sched) : res sched := hdc_tasks_create f g s.

(** Memory at the start: the static arrays, all zero, and no array assigned. *)
Definition sched_boot : sched :=
  mk_sched (list_to_map ((λ c, (c, None)) <$> seqZ 0 CPU_NUM))
    (list_to_map ((λ p, (p, 0)) <$>
       (c ← seqZ 0 CPU_NUM; i ← seqZ 0 MAX_TASKS_PER_CPU; [(c, i)]))) [].

(** [fw_init], up to the loop of the first core, which is the only one that starts. *)
Definition fw_init (f g completion_prio : Z) (evs : list (Z * Z)) (s : sched) : res sched :=
  s ← os_task_create f g (os_init s);
  lsb_prefer_scheduler completion_prio HDC evs s.

(** ** Empty arrays *)

(** The array of the core is assigned and holds only [NULL]. *)
Definition idle (cpu b : Z) (s : sched) : Prop :=
  task_array s !! cpu = Some (Some b) ∧
  ∀ i, 0 ≤ i < MAX_TASKS_PER_CPU → words s !! (b, i) = Some 0.

Lemma handle_bit_idle cpu b event bit s :
  idle cpu b s → 0 ≤ bit < REG32_BITS → handle_bit cpu event bit s = Ok s.
Proof.
  intros [Ha Hw] Hb. unfold handle_bit. destruct (negb _); [done|].
  rewrite (aread_Some _ _ _ Ha). cbn [mbind res_bind fmap option_fmap option_map].
  unfold load. cbn [deref mbind res_bind fst snd]. rewrite Z.add_0_l, Hw; [done|].
  unfold REG32_BITS, MAX_TASKS_PER_CPU in *. lia.
Qed.

Lemma handle_event_idle cpu b event s :
  idle cpu b s → mfor (seqZ 0 REG32_BITS) (handle_bit cpu event) s = Ok s.
Proof.
  intros Hi.
  destruct (mfor_inv (λ _ s', s' = s) (handle_bit cpu event) (seqZ 0 REG32_BITS) s)
    as (s' & -> & ->); [done| |done].
  intros dn bit todo s' Hl ->. exists s. split; [|done]. apply (handle_bit_idle cpu b); [done|].
  assert (bit ∈ seqZ 0 REG32_BITS) as Hin%elem_of_seqZ
    by (rewrite Hl; apply elem_of_app; right; constructor).
  lia.
Qed.

Lemma rounds_idle completion_prio cpu b evs s :
  idle cpu b s → lsb_prefer_scheduler completion_prio cpu evs s = Ok s.
Proof.
  intros Hi. unfold lsb_prefer_scheduler.
  destruct (mfor_inv (λ _ s', s' = s) (sched_round completion_prio cpu 0) evs s)
    as (s' & -> & ->); [done| |done].
  intros dn ev todo s' _ ->. exists s. split; [|done].
  unfold sched_round, handle_hw_event, handle_fw_event.
  rewrite (handle_event_idle cpu b) by done. cbn [mbind res_bind].
  by rewrite (handle_event_idle cpu b).
Qed.

Lemma create_task_assigned handler para cpu prio ready b s :
  task_array s !! cpu = Some (Some b) → create_task handler para cpu prio ready s = Ok (None, s).
Proof using kmalloc.
  intros Ha. unfold create_task. repeat case_decide; try done.
  unfold this_task. by rewrite (aread_Some _ _ _ Ha).
Qed.
End sched.

Lemma os_init_idle cpu : 0 ≤ cpu < CPU_NUM → idle cpu cpu (os_init sched_boot).
Proof.
  intros Hc. unfold CPU_NUM in Hc. assert (cpu = 0 ∨ cpu = 1 ∨ cpu = 2 ∨ cpu = 3) as Hcpu by lia.
  assert (Forall (λ c, Forall (λ i, words sched_boot !! (c, i) = Some 0) (seqZ 0 MAX_TASKS_PER_CPU))
            [0; 1; 2; 3]) as Hall.
  { apply (bool_decide_unpack _). vm_compute. exact I. }
  split.
  - destruct Hcpu as [-> |[-> |[-> | ->]]]; reflexivity.
  - intros i Hi. cbn [os_init scheduler_init set_task_array words].
    rewrite Forall_forall in Hall. specialize (Hall cpu). rewrite Forall_forall in Hall.
    apply Hall; [|apply elem_of_seqZ; lia].
    rewrite !elem_of_cons. tauto.
Qed.

(** ** Events *)

Lemma filter_none (f : Z → bool) (l : list Z) :
  (∀ x, x ∈ l → f x = false) → filter (λ x, f x = true) l = [].
Proof.
  induction l as [|x l IH]; intros Hf; [done|].
  rewrite filter_cons_False by (rewrite Hf; [done|constructor]).
  apply IH. intros y Hy. apply Hf. by constructor.
Qed.

Lemma decide_cons (i j : Z) (l : list Z) (x : bool) :
  (if decide (j ∈ i :: l) then false else x) =
    if decide (j ∈ l) then false else if decide (i = j) then false else x.
Proof.
  destruct (decide (j ∈ i :: l)) as [Hin|Hin]; rewrite elem_of_cons in Hin;
    repeat case_decide; try done; exfalso; intuition congruence.
Qed.

(** A task in an entry of the array: the address of its block, function, parameter. *)
Record entry : Type := mk_entry { e_addr : Z; e_fn : Z; e_para : Z }.

Section events.
Context (exec : Z → Z → sched → res sched).
(** The tasks only compute: no task calls the scheduler. *)
Context (Hexec : ∀ fn para s, exec fn para s = Ok (log_call fn para s)).
Context (T : gmap Z entry) (cpu b : Z).
#[local] Set Default Proof Using "All".

(** Entry [i] of the core's array leads to the task [T !! i]; the blocks of the tasks are
    different, and none is an array. *)
Record tasks_ok (s : sched) : Prop := {
  to_base : task_array s !! cpu = Some (Some b);
  to_slot : ∀ i, 0 ≤ i < REG32_BITS →
    words s !! (b, i) = Some (match T !! i with Some e => e_addr e | None => 0 end);
  to_block : ∀ i e, T !! i = Some e → e_addr e ≠ 0 ∧ e_addr e ≠ b ∧ e_fn e ≠ 0 ∧
    is_Some (words s !! (e_addr e, 0)) ∧ words s !! (e_addr e, 1) = Some (e_fn e) ∧
    words s !! (e_addr e, 2) = Some (e_para e);
  to_inj : ∀ i j e e', T !! i = Some e → T !! j = Some e' → e_addr e = e_addr e' → i = j;
}.

Definition head_word (s : sched) (e : entry) : Z := default 0 (words s !! (e_addr e, 0)).
Definition is_ready (s : sched) (e : entry) : bool :=
  bool_decide (get_bits 0 8 (head_word s e) = TASK_STATE_READY).

(** Whether bit [i] of the event runs a task, and the call it makes. *)
Definition runs (s : sched) (event i : Z) : bool :=
  Z.testbit event i && match T !! i with Some e => is_ready s e | None => false end.
Definition call_of (i : Z) : Z * Z :=
  match T !! i with Some e => (e_fn e, e_para e) | None => (0, 0) end.

(** A task that has been started: its state is running. *)
Definition started (e : entry) (s : sched) : sched :=
  log_call (e_fn e) (e_para e)
    (set_words (<[(e_addr e, 0) := set_bits 0 8 TASK_STATE_RUNNING (head_word s e)]> (words s)) s).

Lemma handle_bit_ok event i s :
  tasks_ok s → 0 ≤ i < REG32_BITS →
  handle_bit exec cpu event i s =
    Ok (match T !! i with Some e => if runs s event i then started e s else s | None => s end).
Proof.
  intros Hok Hi. unfold handle_bit, runs. destruct (Z.testbit event i) eqn:Ht; cbn [negb andb].
  2:{ by destruct (T !! i). }
  rewrite (aread_Some _ _ _ (to_base s Hok)). cbn [mbind res_bind fmap option_fmap option_map].
  unfold load at 1. cbn [deref mbind res_bind fst snd]. rewrite Z.add_0_l, (to_slot s Hok i Hi).
  cbn [mbind res_bind]. unfold tcb_of_word.
  destruct (T !! i) as [e|] eqn:He; [|done].
  destruct (to_block s Hok i e He) as (Hne & _ & Hfn & [w Hw] & H1 & H2).
  rewrite decide_False by done. unfold task_state, load. cbn [deref mbind res_bind fst snd].
  rewrite Z.add_0_l, Hw. cbn [mbind res_bind]. unfold is_ready, head_word. rewrite Hw.
  cbn [default]. change (id w) with w.
  destruct (decide (get_bits 0 8 w = TASK_STATE_READY)) as [Hr|Hr];
    [rewrite bool_decide_true by done|by rewrite bool_decide_false by done].
  unfold __run_task, task_state, set_task_state, load, store. cbn [deref mbind res_bind fst snd].
  change (0 + 0) with 0. change (0 + 1) with 1. change (0 + 2) with 2.
  rewrite Hw. cbn [mbind res_bind]. rewrite BUG_ON_pass by (intros Hn; by apply Hn).
  cbn [mbind res_bind words set_words].
  rewrite !lookup_insert_ne by (intros [=]; lia). rewrite H1. cbn [mbind res_bind].
  rewrite H2. cbn [mbind res_bind].
  unfold call. rewrite decide_False by done. rewrite Hexec. unfold started, head_word.
  by rewrite Hw.
Qed.

Lemma started_ok s i e : tasks_ok s → T !! i = Some e → tasks_ok (started e s).
Proof.
  intros Hok He. destruct (to_block s Hok i e He) as (_ & Hb & _).
  constructor; cbn.
  - apply (to_base s Hok).
  - intros j Hj. rewrite lookup_insert_ne by congruence. by apply (to_slot s Hok).
  - intros j e' He'. destruct (to_block s Hok j e' He') as (? & ? & ? & ? & ? & ?).
    split; [done|]. split; [done|]. split; [done|].
    rewrite !(lookup_insert_ne _ (e_addr e, 0) (_, 1)), !(lookup_insert_ne _ (e_addr e, 0) (_, 2))
      by (intros [=]; lia).
    split; [|done]. destruct (decide (e_addr e = e_addr e')) as [->|].
    + rewrite lookup_insert_eq. by eexists.
    + by rewrite lookup_insert_ne by congruence.
  - apply (to_inj s Hok).
Qed.

Lemma head_word_started e s :
  head_word (started e s) e = set_bits 0 8 TASK_STATE_RUNNING (head_word s e).
Proof. unfold head_word at 1. unfold started. cbn [words set_words log_call].
  by rewrite lookup_insert_eq. Qed.

Lemma head_word_started_ne e e' s :
  e_addr e ≠ e_addr e' → head_word (started e s) e' = head_word s e'.
Proof.
  intros Hne. unfold head_word at 1. unfold started. cbn [words set_words log_call].
  by rewrite lookup_insert_ne by congruence.
Qed.

(** Starting the task of entry [i] changes whether a bit runs a task only for [i]. *)
Lemma runs_started s event i e j :
  tasks_ok s → T !! i = Some e →
  runs (started e s) event j = if decide (i = j) then false else runs s event j.
Proof.
  intros Hok He. unfold runs, is_ready. destruct (decide (i = j)) as [<-|Hne].
  - rewrite He, head_word_started, get_set_bits_eq by lia. by rewrite andb_false_r.
  - destruct (T !! j) as [e'|] eqn:He'; [|done]. rewrite head_word_started_ne; [done|].
    intros Heq. apply Hne. by apply (to_inj s Hok i j e e').
Qed.

Lemma events_ok event l : ∀ s,
  tasks_ok s → NoDup l → (∀ i, i ∈ l → 0 ≤ i < REG32_BITS) →
  ∃ s', mfor l (handle_bit exec cpu event) s = Ok s' ∧ tasks_ok s' ∧
    calls s' = calls s ++ (call_of <$> filter (λ i, runs s event i = true) l) ∧
    (∀ i, runs s' event i = if decide (i ∈ l) then false else runs s event i).
Proof.
  induction l as [|i l IH]; intros s Hok Hnd Hr.
  - exists s. cbn. rewrite app_nil_r. split; [done|]. split; [done|]. split; [done|].
    intros i. by rewrite decide_False by apply not_elem_of_nil.
  - apply NoDup_cons in Hnd as [Hi Hnd]. cbn [mfor].
    rewrite handle_bit_ok by (done || apply Hr; constructor). cbn [mbind res_bind].
    assert (∀ j, j ∈ l → 0 ≤ j < REG32_BITS) as Hr' by (intros j Hj; apply Hr; by constructor).
    destruct (T !! i) as [e|] eqn:He; [destruct (runs s event i) eqn:Hrun|].
    + destruct (IH (started e s)) as (s' & -> & Hok' & Hc & Hrs);
        [by apply (started_ok s i)|done|done|].
      exists s'. split; [done|]. split; [done|]. split.
      * rewrite Hc, filter_cons_True by done. cbn [fmap list_fmap]. unfold call_of at 2. rewrite He.
        cbn [calls started log_call]. rewrite <-app_assoc. cbn [app]. do 3 f_equal.
        apply filter_same_in. intros j Hj. rewrite (runs_started s event i e j) by done.
        by rewrite decide_False by (intros ->; done).
      * intros j. by rewrite Hrs, (runs_started s event i e j), decide_cons by done.
    + destruct (IH s) as (s' & -> & Hok' & Hc & Hrs); [done|done|done|].
      exists s'. split; [done|]. split; [done|]. rewrite filter_cons_False by congruence.
      split; [done|]. intros j. rewrite Hrs, decide_cons.
      repeat case_decide; congruence.
    + destruct (IH s) as (s' & -> & Hok' & Hc & Hrs); [done|done|done|].
      assert (runs s event i = false) as Hrun by (unfold runs; rewrite He; apply andb_false_r).
      exists s'. split; [done|]. split; [done|]. rewrite filter_cons_False by congruence.
      split; [done|]. intros j. rewrite Hrs, decide_cons.
      repeat case_decide; congruence.
Qed.
End events.

(** ** Properties *)

(** If the entries of a core's array led to tasks, an event would run the ready ones
    whose bits are set, in the order of the bits, and leave each of them in the state
    running; nothing sets it back, so the same event a second time runs none. *)
Lemma event_runs_ready_once (exec : Z → Z → sched → res sched) (T : gmap Z entry)
    (cpu b event : Z) (s : sched) :
  (∀ fn para s, exec fn para s = Ok (log_call fn para s)) → tasks_ok T cpu b s →
  ∃ s', handle_hw_event exec cpu event s = Ok s' ∧ tasks_ok T cpu b s' ∧
    calls s' = calls s ++ (call_of T <$> filter (λ i, runs T s event i = true) (seqZ 0 REG32_BITS)) ∧
    (∀ i, 0 ≤ i < REG32_BITS → runs T s' event i = false) ∧
    ∃ s'', handle_hw_event exec cpu event s' = Ok s'' ∧ calls s'' = calls s'.
Proof.
  intros Hexec Hok. unfold handle_hw_event.
  assert (∀ i, i ∈ seqZ 0 REG32_BITS ↔ 0 ≤ i < REG32_BITS) as Hr.
  { intros i. rewrite elem_of_seqZ. lia. }
  destruct (events_ok exec Hexec T cpu b event (seqZ 0 REG32_BITS) s Hok)
    as (s1 & H1 & Hok1 & Hc1 & Hr1); [apply NoDup_seqZ|apply Hr|].
  assert (∀ i, 0 ≤ i < REG32_BITS → runs T s1 event i = false) as Hn.
  { intros i Hi. by rewrite Hr1, decide_True by (by apply Hr). }
  exists s1. split; [done|]. split; [done|]. split; [done|]. split; [exact Hn|].
  destruct (events_ok exec Hexec T cpu b event (seqZ 0 REG32_BITS) s1 Hok1)
    as (s2 & H2 & _ & Hc2 & _); [apply NoDup_seqZ|apply Hr|].
  exists s2. split; [done|]. rewrite Hc2.
  rewrite (filter_none (runs T s1 event)); [by rewrite app_nil_r|].
  intros i Hi. by apply Hn, Hr.
Qed.

(** A core with one task, ready, in entry 3. *)
Definition one_task : sched :=
  let s := os_init sched_boot in
  set_words (<[(0, 3) := 100]> (<[(100, 0) := 1]> (<[(100, 1) := 7]> (<[(100, 2) := 8]> (words s))))) s.
Definition one_entry : gmap Z entry := {[3 := mk_entry 100 7 8]}.

Lemma one_task_ok : tasks_ok one_entry HDC HDC one_task.
Proof.
  assert (Forall (λ i, words one_task !! (HDC, i) =
    Some (match one_entry !! i with Some e => e_addr e | None => 0 end)) (seqZ 0 REG32_BITS)) as Hall.
  { apply (bool_decide_unpack _). vm_compute. exact I. }
  constructor.
  - reflexivity.
  - intros i Hi. rewrite Forall_forall in Hall. apply Hall, elem_of_seqZ. lia.
  - intros i e He. unfold one_entry in He. apply lookup_singleton_Some in He as [<- <-]. split; [discriminate|]. split; [discriminate|].
    split; [discriminate|]. split; [by exists 1|]. split; vm_compute; reflexivity.
  - unfold one_entry. intros i j e e' Hi Hj _. apply lookup_singleton_Some in Hi as [<- _].
    apply lookup_singleton_Some in Hj as [<- _]. reflexivity.
Qed.

Lemma event_runs_ready_once_witness :
  ∃ s', handle_hw_event (λ fn para s, Ok (log_call fn para s)) HDC 0xff one_task = Ok s' ∧
    calls s' = [(7, 8)].
Proof.
  destruct (event_runs_ready_once (λ fn para s, Ok (log_call fn para s)) one_entry HDC HDC 0xff
    one_task) as (s' & H1 & _ & H2 & _).
  - reflexivity.
  - exact one_task_ok.
  - exists s'. split; [exact H1|]. rewrite H2. vm_compute. reflexivity.
Defined.

(** Once the arrays are assigned, [create_task] creates nothing: it takes the address
    of a slot of the static array for an existing task, whatever the slot holds, and the
    tasks of the host core that [os_task_create] asks for are not created. *)
Lemma create_task_never (kmalloc : sched → option Z) (s : sched) :
  (∀ cpu, 0 ≤ cpu < CPU_NUM → ∃ b, task_array s !! cpu = Some (Some b)) →
  (∀ handler para cpu prio ready, 0 ≤ cpu →
     create_task kmalloc handler para cpu prio ready s = Ok (None, s)) ∧
  (∀ f g, os_task_create kmalloc f g s = Ok s).
Proof.
  intros Ha.
  assert (∀ handler para cpu prio ready, 0 ≤ cpu →
            create_task kmalloc handler para cpu prio ready s = Ok (None, s)) as Hc.
  { intros handler para cpu prio ready Hcpu. destruct (decide (CPU_NUM ≤ cpu)) as [Hbig|Hsmall].
    - unfold create_task. repeat case_decide; done || lia.
    - destruct (Ha cpu) as [b Hb]; [lia|]. by apply (create_task_assigned _ _ _ _ _ _ b). }
  split; [exact Hc|]. intros f g. unfold os_task_create, hdc_tasks_create.
  rewrite Hc by done. cbn [mbind res_bind snd]. by rewrite Hc.
Qed.

Lemma create_task_never_witness :
  os_task_create (λ _, Some 100) 5 6 (os_init sched_boot) = Ok (os_init sched_boot).
Proof.
  apply create_task_never. intros cpu Hc. exists cpu. apply os_init_idle. exact Hc.
Defined.

(** The firmware never runs a task: after its initialisation, whatever events the
    registers report in whatever number of rounds, no task function is called, no fault
    occurs, and memory stays as the initialisation left it. *)
Lemma firmware_runs_nothing (exec : Z → Z → sched → res sched) (kmalloc : sched → option Z)
    (f g completion_prio : Z) (evs : list (Z * Z)) :
  fw_init exec kmalloc f g completion_prio evs sched_boot = Ok (os_init sched_boot).
Proof.
  unfold fw_init, os_task_create, hdc_tasks_create.
  assert (task_array (os_init sched_boot) !! HDC = Some (Some HDC)) as Hh by reflexivity.
  rewrite (create_task_assigned _ _ _ _ _ _ HDC) by done. cbn [mbind res_bind snd].
  rewrite (create_task_assigned _ _ _ _ _ _ HDC) by done. cbn [mbind res_bind snd].
  apply (rounds_idle _ _ _ HDC). apply os_init_idle. unfold HDC, CPU_NUM. lia.
Qed.

(** Resuming and then running a task by its priority writes a state into the array of
    pointers and calls through the next element, which is [NULL]. *)
Lemma resume_run_faults (exec : Z → Z → sched → res sched) (s : sched) (cpu b prio : Z) :
  idle cpu b s → 0 ≤ prio ≤ 61 →
  ∃ s', resume_task cpu prio s = Ok s' ∧ run_task exec cpu prio s' = Fault F_NULL.
Proof.
  intros [Ha Hw] Hp. unfold resume_task, this_task. rewrite (aread_Some _ _ _ Ha).
  cbn [mbind res_bind]. unfold __resume_task, set_task_state, load, store.
  unfold MAX_TASKS_PER_CPU in *.
  cbn [deref mbind res_bind fst snd]. rewrite Z.add_0_r, Hw by lia. cbn [mbind res_bind].
  eexists. split; [done|].
  unfold run_task, this_task. cbn [task_array set_words]. rewrite (aread_Some _ _ _ Ha).
  cbn [mbind res_bind]. unfold __run_task, task_state, set_task_state, load, store.
  cbn [deref mbind res_bind fst snd words set_words]. rewrite Z.add_0_r, lookup_insert_eq.
  cbn [mbind res_bind].
  rewrite BUG_ON_pass by (intros Hne; by apply Hne). cbn [mbind res_bind words set_words].
  rewrite !(lookup_insert_ne _ (b, prio) (b, prio + 1)) by (intros [=]; lia).
  rewrite Hw by lia. cbn [mbind res_bind].
  rewrite !(lookup_insert_ne _ (b, prio) (b, prio + 2)) by (intros [=]; lia).
  by rewrite Hw by lia.
Qed.

Lemma resume_run_faults_witness :
  ∃ s', resume_task HDC 32 (os_init sched_boot) = Ok s' ∧
    run_task (λ _ _ s, Ok s) HDC 32 s' = Fault F_NULL.
Proof.
  apply (resume_run_faults _ _ HDC HDC 32).
  - apply os_init_idle. unfold HDC, CPU_NUM. lia.
  - lia.
Defined.
