(* ===== verification/FwNvme.v ===== *)
(** * Firmware: NVMe commands and the admin commands of queues

    [FW-Base/include/nvme_spec.h], [main/nvme_spec.c], [admin/nvme_csq.c], the
    namespaces of [admin/nvme_identify.c], and the command entries of
    [datapath/datapath.h].  A submission queue entry is its sixteen 32-bit words, and
    the structures of the source are views of them.  The limits [max_nvme_queue_id] and
    [max_nvme_queue_size], which the source does not define, are parameters. *)

From S2P Require Import Prelude.

#[local] Open Scope Z_scope.

(** ** Constants *)

Definition NVME_REQUEST_INVALID : Z := -1.
Definition NVME_REQUEST_COMPLETE : Z := 0.
Definition NVME_REQUEST_PROCESSING : Z := 1.

Definition nvme_admin_delete_sq : Z := 0x00.
Definition nvme_admin_create_sq : Z := 0x01.
Definition nvme_admin_delete_cq : Z := 0x04.
Definition nvme_admin_create_cq : Z := 0x05.
Definition nvme_admin_identify : Z := 0x06.
Definition nvme_admin_set_features : Z := 0x09.
Definition nvme_admin_get_features : Z := 0x0a.
Definition nvme_admin_format_nvm : Z := 0x80.
Definition nvme_io_flush : Z := 0x00.
Definition nvme_io_write : Z := 0x01.
Definition nvme_io_read : Z := 0x02.
Definition nvme_io_compare : Z := 0x05.

Definition NVME_CMD_SGL_ALL : Z := Z.lor (Z.shiftl 1 6) (Z.shiftl 1 7).
Definition NVME_QUEUE_PHYS_CONTIG : Z := 1.

Definition NVME_SCT_GENERIC : Z := 0x0.
Definition NVME_SCT_CMD_SPECIFIC : Z := 0x1.
Definition NVME_SC_SUCCESS : Z := 0x0.
Definition NVME_SC_INVALID_OPCODE : Z := 0x1.
Definition NVME_SC_INVALID_FIELD : Z := 0x2.
Definition NVME_SC_INTERNAL : Z := 0x6.
Definition NVME_SC_INVALID_NS : Z := 0xb.
Definition NVME_SC_LBA_RANGE : Z := 0x80.
Definition NVME_SC_CQ_INVALID : Z := 0x100.
Definition NVME_SC_QID_INVALID : Z := 0x101.
Definition NVME_SC_QUEUE_SIZE : Z := 0x102.
Definition NVME_SC_NS_ID_UNAVAILABLE : Z := 0x116.

(** ** Views of a submission queue entry *)

Notation sqe_t := (list Z) (only parsing).

Definition cdw (k : nat) (s : sqe_t) : Z := nth k s 0.
Definition cqw (k : nat) (s : sqe_t) : Z := Z.lor (cdw k s) (Z.shiftl (cdw (S k) s) 32).

Definition sq_opcode (s : sqe_t) : Z := get_bits 0 8 (cdw 0 s).
Definition sq_flags (s : sqe_t) : Z := get_bits 8 8 (cdw 0 s).
Definition sq_nsid (s : sqe_t) : Z := cdw 1 s.
Definition sq_prp1 (s : sqe_t) : Z := cqw 6 s.
Definition sq_prp2 (s : sqe_t) : Z := cqw 8 s.
(** [struct nvme_rw_command] *)
Definition rw_slba (s : sqe_t) : Z := cqw 10 s.
Definition rw_length (s : sqe_t) : Z := get_bits 0 16 (cdw 12 s).
Definition rw_control (s : sqe_t) : Z := get_bits 16 16 (cdw 12 s).
Definition rw_dsmgmt (s : sqe_t) : Z := cdw 13 s.
(** [struct nvme_create_cq], [nvme_create_sq], [nvme_delete_queue] *)
Definition cq_cqid (s : sqe_t) : Z := get_bits 0 16 (cdw 10 s).
Definition cq_qsize (s : sqe_t) : Z := get_bits 16 16 (cdw 10 s).
Definition cq_flags (s : sqe_t) : Z := get_bits 0 16 (cdw 11 s).
Definition csq_sqid (s : sqe_t) : Z := get_bits 0 16 (cdw 10 s).
Definition csq_flags (s : sqe_t) : Z := get_bits 0 16 (cdw 11 s).
Definition csq_cqid (s : sqe_t) : Z := get_bits 16 16 (cdw 11 s).
Definition dq_qid (s : sqe_t) : Z := get_bits 0 16 (cdw 10 s).
(** [struct nvme_identify], [nvme_features], [nvme_format_cmd] *)
Definition idn_cns (s : sqe_t) : Z := get_bits 0 8 (cdw 10 s).
Definition feat_fid (s : sqe_t) : Z := get_bits 0 8 (cdw 10 s).
Definition feat_sel (s : sqe_t) : Z := get_bits 8 3 (cdw 10 s).
Definition feat_dword11 (s : sqe_t) : Z := cdw 11 s.
Definition fmt_cdw10 (s : sqe_t) : Z := cdw 10 s.

(** ** [host_nvme_cmd_entry] *)

Record host_entry : Type := mk_he {
  he_cmd_tag : Z;
  he_state : Z;
  he_sqid : Z;
  he_vfa : Z;
  he_port : Z;
  he_vf : Z;
  he_sqe : sqe_t;
  he_result : Z;
  he_sta_sc : Z;
  he_sta_sct : Z;
  he_ckc : Z;
}.

#[global] Instance host_entry_eq_dec : EqDecision host_entry.
Proof. solve_decision. Defined.

Definition he_set_state (v : Z) (e : host_entry) : host_entry :=
  mk_he (he_cmd_tag e) v (he_sqid e) (he_vfa e) (he_port e) (he_vf e) (he_sqe e)
    (he_result e) (he_sta_sc e) (he_sta_sct e) (he_ckc e).
Definition he_set_result (v : Z) (e : host_entry) : host_entry :=
  mk_he (he_cmd_tag e) (he_state e) (he_sqid e) (he_vfa e) (he_port e) (he_vf e) (he_sqe e)
    v (he_sta_sc e) (he_sta_sct e) (he_ckc e).
Definition he_set_sc (v : Z) (e : host_entry) : host_entry :=
  mk_he (he_cmd_tag e) (he_state e) (he_sqid e) (he_vfa e) (he_port e) (he_vf e) (he_sqe e)
    (he_result e) (v mod 2 ^ 8) (he_sta_sct e) (he_ckc e).
Definition he_set_ckc (v : Z) (e : host_entry) : host_entry :=
  mk_he (he_cmd_tag e) (he_state e) (he_sqid e) (he_vfa e) (he_port e) (he_vf e) (he_sqe e)
    (he_result e) (he_sta_sc e) (he_sta_sct e) (v mod 2 ^ 8).

(** The arguments are [u8], the fields have 8 and 4 bits. *)
Definition set_host_cmd_staus (sct sc : Z) (e : host_entry) : host_entry :=
  mk_he (he_cmd_tag e) (he_state e) (he_sqid e) (he_vfa e) (he_port e) (he_vf e) (he_sqe e)
    (he_result e) (u8 sc) (u8 sct mod 2 ^ 4) (he_ckc e).

(** [save_in_host_cmd_entry]: what comes from the command; the rest stays. *)
Definition save_in_host_cmd_entry (tag sqid vfa port vf : Z) (sqe : sqe_t) (e : host_entry)
    : host_entry :=
  mk_he (u8 tag) (he_state e) (u8 sqid) (vfa mod 2) (port mod 2) (vf mod 2 ^ 4) sqe
    (he_result e) (he_sta_sc e) (he_sta_sct e) (he_ckc e).

(** The status word of a completion ([setup_phif_cmd_cpl]). *)
Definition cqe_status (e : host_entry) : Z :=
  u16 (Z.lor (Z.shiftl (he_sta_sc e) 1) (Z.shiftl (he_sta_sct e) 9)).

(** ** [admin/nvme_csq.c] *)

Section csq.
Context (max_nvme_queue_id max_nvme_queue_size : Z).

Definition handle_admin_create_cq (e : host_entry) : Z * host_entry :=
  let nvme_cmd := he_sqe e in
  if decide (cq_cqid nvme_cmd = 0 ∨ max_nvme_queue_id < cq_cqid nvme_cmd) then
    (NVME_REQUEST_INVALID, set_host_cmd_staus NVME_SCT_CMD_SPECIFIC NVME_SC_QID_INVALID e)
  else if decide (cq_qsize nvme_cmd = 0 ∨ max_nvme_queue_size < cq_qsize nvme_cmd) then
    (NVME_REQUEST_INVALID, set_host_cmd_staus NVME_SCT_CMD_SPECIFIC NVME_SC_QUEUE_SIZE e)
  else if decide (Z.land (cq_flags nvme_cmd) NVME_QUEUE_PHYS_CONTIG = 0) then
    (NVME_REQUEST_INVALID, set_host_cmd_staus NVME_SCT_CMD_SPECIFIC NVME_SC_CQ_INVALID e)
  else (NVME_REQUEST_COMPLETE, e).

(** The source writes [max_queue_id] here; read as the same limit. *)
Definition handle_admin_create_sq (e : host_entry) : Z * host_entry :=
  let nvme_cmd := he_sqe e in
  if decide (csq_sqid nvme_cmd = 0 ∨ max_nvme_queue_id < csq_sqid nvme_cmd) then
    (NVME_REQUEST_INVALID, set_host_cmd_staus NVME_SCT_CMD_SPECIFIC NVME_SC_QID_INVALID e)
  else if decide (csq_cqid nvme_cmd ≠ 0) then
    (NVME_REQUEST_INVALID, set_host_cmd_staus NVME_SCT_CMD_SPECIFIC NVME_SC_QID_INVALID e)
  else if decide (Z.land (csq_flags nvme_cmd) NVME_QUEUE_PHYS_CONTIG = 0) then
    (NVME_REQUEST_INVALID, set_host_cmd_staus NVME_SCT_CMD_SPECIFIC NVME_SC_CQ_INVALID e)
  else (NVME_REQUEST_COMPLETE, set_host_cmd_staus NVME_SCT_GENERIC NVME_SC_SUCCESS e).

Definition handle_admin_delete_sq (e : host_entry) : Z * host_entry :=
  if decide (dq_qid (he_sqe e) = 0 ∨ max_nvme_queue_id < dq_qid (he_sqe e)) then
    (NVME_REQUEST_INVALID, set_host_cmd_staus NVME_SCT_CMD_SPECIFIC NVME_SC_QID_INVALID e)
  else (NVME_REQUEST_COMPLETE, e).

Definition handle_admin_delete_cq (e : host_entry) : Z * host_entry :=
  if decide (dq_qid (he_sqe e) = 0 ∨ max_nvme_queue_id < dq_qid (he_sqe e)) then
    (NVME_REQUEST_INVALID, set_host_cmd_staus NVME_SCT_CMD_SPECIFIC NVME_SC_QID_INVALID e)
  else (NVME_REQUEST_COMPLETE, set_host_cmd_staus NVME_SCT_GENERIC NVME_SC_SUCCESS e).
End csq.

(** ** Namespaces *)

Definition MAX_NSID : Z := 15.

Record nvme_lbaf : Type := mk_lbaf { lf_ms : Z; lf_ds : Z; lf_rp : Z; lf_cphs : Z }.

Record nvme_id_ns : Type := mk_ns {
  ns_nsze : Z;
  ns_ncap : Z;
  ns_nuse : Z;
  ns_flbas : Z;
  ns_dps : Z;
  ns_lbaf : gmap Z nvme_lbaf;
}.

Definition ns_set_format (flbas dps : Z) (n : nvme_id_ns) : nvme_id_ns :=
  mk_ns (ns_nsze n) (ns_ncap n) (ns_nuse n) (u8 flbas) (u8 dps) (ns_lbaf n).

(** [gat_identify_namespaces] and the [nn] of [gat_identify_controller]. *)
Record identify : Type := mk_identify {
  gat_identify_namespaces : gmap Z nvme_id_ns;
  ctrl_nn : Z;
}.

(** The index of the namespace, after the assertion. *)
Definition get_identify_ns (nsid : Z) : res Z :=
  _ ← BUG_ON (nsid = 0);
  Ok (nsid - 1).

Definition nvme_nsid_valid (nsid : Z) (i : identify) : bool :=
  if decide (ctrl_nn i < nsid ∨ nsid = 0) then false else true.

Definition nvme_ctrl_info_init (i : identify) : identify :=
  mk_identify (gat_identify_namespaces i) MAX_NSID.

(** [METADATA_16B] and [MAX_LBA] are not defined in these files: arguments.  The field
    [cphs] has two bits. *)
Definition nvme_ns_info_init (MAX_LBA METADATA_16B nsid : Z) (i : identify) : res identify :=
  k ← get_identify_ns nsid;
  n ← aread (gat_identify_namespaces i) k;
  let lbaf := mk_lbaf (u16 METADATA_16B) 12 2 (16 mod 2 ^ 2) in
  let n := mk_ns (u64 (MAX_LBA + 1)) (u64 (MAX_LBA + 1)) (u64 (MAX_LBA + 1)) (ns_flbas n) (ns_dps n)
             (foldr (λ j m, <[j := lbaf]> m) (ns_lbaf n) (seqZ 0 16)) in
  Ok (mk_identify (<[k := n]> (gat_identify_namespaces i)) (ctrl_nn i)).

(** [handle_admin_format_nvm] of [admin/nvme_format.c]. *)
Definition handle_admin_format_nvm (e : host_entry) (i : identify)
    : res (Z * host_entry * identify) :=
  let nsid := sq_nsid (he_sqe e) in
  k ← get_identify_ns nsid;
  if nvme_nsid_valid nsid i then
    Ok (-1, set_host_cmd_staus NVME_SCT_GENERIC NVME_SC_NS_ID_UNAVAILABLE e, i)
  else
    let w := fmt_cdw10 (he_sqe e) in
    n ← aread (gat_identify_namespaces i) k;
    let flbas := Z.lor (get_bits 0 4 w) (Z.shiftl (get_bits 4 1 w) 4) in
    let dps := Z.lor (get_bits 5 3 w) (Z.shiftl (get_bits 8 1 w) 3) in
    Ok (0, e, mk_identify (<[k := ns_set_format flbas dps n]> (gat_identify_namespaces i)) (ctrl_nn i)).

(** ** Helper lemmas *)

(** The status word without its phase bit is the code of the specification: the code
    type above the eight bits of the code. *)
Lemma cqe_status_code e :
  0 ≤ he_sta_sc e < 2 ^ 8 → 0 ≤ he_sta_sct e < 2 ^ 4 →
  Z.shiftr (cqe_status e) 1 = he_sta_sc e + 2 ^ 8 * he_sta_sct e.
Proof.
  intros Hsc Hsct. unfold cqe_status, u16. rewrite !Z.shiftl_mul_pow2, Z.shiftr_div_pow2 by lia.
  assert (Z.land (he_sta_sc e * 2 ^ 1) (he_sta_sct e * 2 ^ 9) = 0) as Hd.
  { apply Z.bits_inj'. intros i Hi. rewrite Z.land_spec, Z.bits_0, !Z.mul_pow2_bits by lia.
    destruct (decide (i < 9)) as [?|?].
    - rewrite (Z.testbit_neg_r (he_sta_sct e)) by lia. apply andb_false_r.
    - by rewrite (testbit_high (he_sta_sc e) 8) by lia. }
  rewrite <-Z.lxor_lor, <-Z.add_nocarry_lxor by done.
  rewrite Z.mod_small by lia.
  replace (he_sta_sc e * 2 ^ 1 + he_sta_sct e * 2 ^ 9)
    with ((he_sta_sc e + 2 ^ 8 * he_sta_sct e) * 2 ^ 1) by lia.
  by rewrite Z.div_mul by lia.
Qed.

Lemma set_status_code sct sc e :
  0 ≤ sct < 2 ^ 4 →
  Z.shiftr (cqe_status (set_host_cmd_staus sct sc e)) 1 = u8 sc + 2 ^ 8 * sct.
Proof.
  intros H. rewrite cqe_status_code; cbn -[Z.pow Z.mul Z.add].
  - unfold u8. by rewrite (Z.mod_small sct (2 ^ 8)), (Z.mod_small sct (2 ^ 4)) by lia.
  - apply Z.mod_pos_bound. lia.
  - apply Z.mod_pos_bound. lia.
Qed.

(** What a command-specific code of the header becomes: the code itself. *)
Lemma set_status_specific sc e :
  0x100 ≤ sc < 0x200 →
  Z.shiftr (cqe_status (set_host_cmd_staus NVME_SCT_CMD_SPECIFIC sc e)) 1 = sc.
Proof.
  intros H. rewrite set_status_code by done. unfold u8, NVME_SCT_CMD_SPECIFIC.
  rewrite <-(Z.mod_unique sc (2 ^ 8) 1 (sc - 0x100)); lia.
Qed.

(** ** Properties *)

(* What the host reads back: for every handler of queue commands, the command
    completes exactly when all its parameters pass, and otherwise the completion's
    status is the code of the first check that failed (the queue identifier before the
    size before the contiguity); nothing but the status of the entry changes. *)
Lemma queue_commands_status (max_id max_size : Z) (e : host_entry) :
  let bad_id q := q = 0 ∨ max_id < q in
  let reports (r : Z * host_entry) code :=
    r.1 = NVME_REQUEST_INVALID ∧ Z.shiftr (cqe_status r.2) 1 = code ∧
    he_sqe r.2 = he_sqe e ∧ he_cmd_tag r.2 = he_cmd_tag e ∧ he_result r.2 = he_result e in
  let contiguous w := Z.land w NVME_QUEUE_PHYS_CONTIG ≠ 0 in
  let cq := handle_admin_create_cq max_id max_size e in
  let sq := handle_admin_create_sq max_id e in
  (bad_id (cq_cqid (he_sqe e)) → reports cq NVME_SC_QID_INVALID) ∧
  (¬ bad_id (cq_cqid (he_sqe e)) → cq_qsize (he_sqe e) = 0 ∨ max_size < cq_qsize (he_sqe e) →
     reports cq NVME_SC_QUEUE_SIZE) ∧
  (cq.1 = NVME_REQUEST_COMPLETE ↔
     ¬ bad_id (cq_cqid (he_sqe e)) ∧ cq_qsize (he_sqe e) ≠ 0 ∧ cq_qsize (he_sqe e) ≤ max_size ∧
     contiguous (cq_flags (he_sqe e))) ∧
  (csq_cqid (he_sqe e) ≠ 0 → reports sq NVME_SC_QID_INVALID) ∧
  (sq.1 = NVME_REQUEST_COMPLETE ↔
     ¬ bad_id (csq_sqid (he_sqe e)) ∧ csq_cqid (he_sqe e) = 0 ∧ contiguous (csq_flags (he_sqe e))).
Proof.
  intros bad_id reports contiguous cq sq.
  assert (∀ sc, 0x100 ≤ sc < 0x200 →
    reports (NVME_REQUEST_INVALID, set_host_cmd_staus NVME_SCT_CMD_SPECIFIC sc e) sc) as Hrep.
  { intros sc Hsc. unfold reports. cbn [fst snd]. by rewrite (set_status_specific sc). }
  unfold cq, handle_admin_create_cq, sq, handle_admin_create_sq. split_and!.
  - intros Hid. rewrite decide_True by done. by apply Hrep.
  - intros Hid Hsz. rewrite decide_False, decide_True by done. by apply Hrep.
  - unfold contiguous, bad_id. repeat case_decide; cbn [fst]; split; try done; try lia; tauto.
  - intros Hcq. destruct (decide (csq_sqid (he_sqe e) = 0 ∨ max_id < csq_sqid (he_sqe e))); [by apply Hrep|].
    rewrite decide_True by done. by apply Hrep.
  - unfold contiguous, bad_id. repeat case_decide; cbn [fst]; split; try done; try lia; tauto.
Qed.

(** A create CQ command: opcode 5, queue [id], [size], contiguous. *)
Definition create_cq_sqe (id size : Z) : sqe_t :=
  [5; 0; 0; 0; 0; 0; 0; 0; 0; 0; Z.lor id (Z.shiftl size 16); 1; 0; 0; 0; 0].

Definition entry0 : host_entry := mk_he 0 0 0 0 0 0 [] 0 0 0 0.

Lemma queue_commands_status_witness :
  (handle_admin_create_cq 8 256 (save_in_host_cmd_entry 3 0 0 0 0 (create_cq_sqe 9 15) entry0)).1
    = NVME_REQUEST_INVALID.
Proof.
  destruct (queue_commands_status 8 256
    (save_in_host_cmd_entry 3 0 0 0 0 (create_cq_sqe 9 15) entry0)) as (H & _).
  apply H. right. vm_compute. reflexivity.
Defined.

(** A successful Create CQ or Delete SQ completes with the status an earlier command
    left in the entry of its tag: after a rejected Create CQ, the next Create CQ of the
    same tag is accepted and the host still reads an error. *)
Lemma stale_status (max_id max_size : Z) (e : host_entry) (tag sqid vfa port vf : Z)
    (bad good : sqe_t) :
  let r1 := handle_admin_create_cq max_id max_size (save_in_host_cmd_entry tag sqid vfa port vf bad e) in
  let e2 := save_in_host_cmd_entry tag sqid vfa port vf good r1.2 in
  r1.1 = NVME_REQUEST_INVALID →
  cqe_status (handle_admin_create_cq max_id max_size e2).2 ≠ 0 ∧
  cqe_status (handle_admin_delete_sq max_id e2).2 ≠ 0.
Proof.
  intros r1 e2 Hinv.
  assert (∀ sc e0, 0x100 ≤ sc < 0x200 →
    cqe_status (set_host_cmd_staus NVME_SCT_CMD_SPECIFIC sc e0) ≠ 0) as Hne.
  { intros sc e0 Hsc H0. pose proof (set_status_specific sc e0 Hsc) as E.
    rewrite H0, Z.shiftr_0_l in E. lia. }
  assert (cqe_status e2 ≠ 0) as He2.
  { change (cqe_status e2) with (cqe_status r1.2). unfold r1, handle_admin_create_cq in Hinv |- *.
    repeat case_decide; cbn [snd]; try (by apply Hne); done. }
  split; unfold handle_admin_create_cq, handle_admin_delete_sq;
    repeat case_decide; cbn [snd]; try (by apply Hne); done.
Qed.

Lemma stale_status_witness :
  cqe_status (handle_admin_create_cq 8 256 (save_in_host_cmd_entry 3 0 0 0 0 (create_cq_sqe 2 15)
    (handle_admin_create_cq 8 256
       (save_in_host_cmd_entry 3 0 0 0 0 (create_cq_sqe 9 15) entry0)).2)).2 ≠ 0.
Proof.
  destruct (stale_status 8 256 entry0 3 0 0 0 0 (create_cq_sqe 9 15) (create_cq_sqe 2 15)) as (H & _).
  - vm_compute. reflexivity.
  - exact H.
Defined.

(** Format NVM is never carried out: with the controller initialised, every existing
    namespace is refused — and the code sent, a command-specific one under the generic
    type, reads as another one (0x16) — and every other identifier faults. *)
Lemma format_nvm_never_formats (e : host_entry) (i : identify) :
  let i := nvme_ctrl_info_init i in
  let nsid := sq_nsid (he_sqe e) in
  (∀ k, gat_identify_namespaces i !! k ≠ None ↔ 0 ≤ k < MAX_NSID) → 0 ≤ nsid →
  (1 ≤ nsid ≤ MAX_NSID →
     ∃ e', handle_admin_format_nvm e i = Ok (NVME_REQUEST_INVALID, e', i) ∧
       Z.shiftr (cqe_status e') 1 = 0x16) ∧
  (nsid = 0 → handle_admin_format_nvm e i = Fault F_BUG) ∧
  (MAX_NSID < nsid → handle_admin_format_nvm e i = Fault F_OOB).
Proof.
  intros i' nsid Hdom Hns. unfold handle_admin_format_nvm, get_identify_ns, nvme_nsid_valid.
  fold nsid. change (ctrl_nn i') with MAX_NSID. split_and!.
  - intros H. rewrite BUG_ON_pass by lia. cbn [mbind res_bind].
    rewrite decide_False by lia. eexists. split; [done|]. by rewrite set_status_code.
  - intros ->. done.
  - intros H. rewrite BUG_ON_pass by (unfold MAX_NSID in *; lia). cbn [mbind res_bind].
    rewrite decide_True by lia. rewrite aread_None; [done|].
    destruct (_ !! (nsid - 1)) eqn:E; [|done].
    exfalso. assert (0 ≤ nsid - 1 < MAX_NSID); [|lia]. apply Hdom. by rewrite E.
Qed.

(** All namespaces, empty. *)
Definition namespaces0 : gmap Z nvme_id_ns :=
  list_to_map ((λ k, (k, mk_ns 0 0 0 0 0 ∅)) <$> seqZ 0 MAX_NSID).

Lemma namespaces0_dom k : namespaces0 !! k ≠ None ↔ 0 ≤ k < MAX_NSID.
Proof.
  unfold namespaces0. rewrite <-not_elem_of_list_to_map, <-list_fmap_compose.
  rewrite list_fmap_id. rewrite elem_of_seqZ. destruct (decide (0 ≤ k < 0 + MAX_NSID)); cbn in *; tauto.
Qed.

Lemma format_nvm_never_formats_witness :
  ∃ e', handle_admin_format_nvm
      (save_in_host_cmd_entry 3 0 0 0 0 [0x80; 4; 0; 0; 0; 0; 0; 0; 0; 0; 1; 0; 0; 0; 0; 0] entry0)
      (mk_identify namespaces0 MAX_NSID)
    = Ok (NVME_REQUEST_INVALID, e', mk_identify namespaces0 MAX_NSID).
Proof.
  destruct (format_nvm_never_formats
    (save_in_host_cmd_entry 3 0 0 0 0 [0x80; 4; 0; 0; 0; 0; 0; 0; 0; 0; 1; 0; 0; 0; 0; 0] entry0)
    (mk_identify namespaces0 0)) as (H & _).
  - exact namespaces0_dom.
  - vm_compute. discriminate.
  - destruct H as (e' & H & _); [by vm_compute|]. by exists e'.
Defined.
