(* ===== verification/FwFlow.v ===== *)
(** * Firmware: the flow of a host command

    [FW-Base/include/msg_fmt.h], [datapath/datapath.h], the host side of
    [datapath/datapath.c], [write_datapath_hdc] of [host_write.c] and [read_datapath_hdc]
    of [host_read.c].  The state [hdc] holds the command entries and completions of the
    256 tags, the [next] fields of the entries (the node of tag [t] has address [t]), the
    two pending queues and the messages written to the ports, newest last.

    [port_is_available] reads a hardware register: a parameter that gives the answer of
    the k-th call.  [MAX_LBA], the [enabled | key] of the TCG field and what a compiler
    makes of the undefined [nsid << 32] are parameters too.  A field the source leaves
    unset in a message on the stack is [None]; sending a message that was never set up is
    a fault. *)

From S2P Require Import Prelude FwQueue FwNvme.

#[local] Open Scope Z_scope.

(** ** Messages *)

Definition MSG_NID_HDC : Z := 0x1.
Definition MSG_NID_PHIF : Z := 0x3.
Definition MSGID_PHIF_CMD_REQ : Z := 0x20.
Definition MSGID_PHIF_RDMA_REQ : Z := 0x25.
Definition MSGID_PHIF_WDMA_REQ : Z := 0x27.
Definition PHIF_EXTAG : Z := 0.
Definition FQMGR_HOST_READ0 : Z := 0.
Definition FQMGR_HOST_READ1 : Z := 1.
Definition FQMGR_HOST_READ2 : Z := 2.

Record msg_qw0 : Type := mk_qw0 {
  h_cnt : Z;
  h_dstfifo : Z;
  h_dst : Z;
  h_prio : Z;
  h_msgid : Z;
  h_tag : Z;
  h_ext_tag : Z;
  h_src : Z;
  h_vfa : Z;
  h_port : Z;
  h_vf : Z;
  h_sqid : Z;
  h_hxts_mode : Z;
}.

Record phif_cmd_req : Type := mk_req {
  rq_header : msg_qw0;
  rq_cpa : Z;
  rq_hmeta_size : Z;
  rq_cph_size : Z;
  rq_lb_size : option Z;
  rq_crc_en : Z;
  rq_dps : Z;
  rq_flbas : Z;
  rq_cache_en : Z;
  rq_band_rdtype : option Z;
  rq_elba : option Z;
}.

Record phif_cmd_cpl : Type := mk_cpl {
  cp_header : msg_qw0;
  cp_result : Z;
  cp_status : Z;
}.

(** The fields of [phif_wdma_req] that the firmware fills; the rest of the mandatory
    quadwords stays as it is in the array. *)
Record phif_wdma_req : Type := mk_wdma {
  wd_header : msg_qw0;
  wd_blen : Z;
  wd_pld_qwn : Z;
  wd_hdata_addr : Z;
  wd_pi : Z;
  wd_cbuff_addr : Z;
  wd_wdata0 : Z;
  wd_wdata1 : Z;
}.

(** What a port receives: of a DMA request, the mandatory fields and the optional
    quadwords in the order they are copied. *)
Inductive msg : Type :=
  | M_req (m : phif_cmd_req)
  | M_cpl (m : phif_cmd_cpl)
  | M_wdma (hdr : msg_qw0) (blen pld_qwn hdata_addr : Z) (opt : list Z).

(** ** State *)

Definition FLOW_INITIAL : Z := 0.
Definition FLOW_QUEUED : Z := 1.
Definition FLOW_REQ_READY : Z := 2.
Definition FLOW_REQ_SENDOUT : Z := 3.
Definition FLOW_WAIT_RSP : Z := 4.
Definition FLOW_HAS_RSP : Z := 5.
Definition FLOW_CPL_READY : Z := 6.
Definition FLOW_CPL_SENDOUT : Z := 7.
Definition FLOW_COMPLETE : Z := 8.

Record hdc : Type := mk_hdc {
  hd_entries : gmap Z host_entry;
  hd_cpls : gmap Z phif_cmd_cpl;
  hd_next : gmap Z (option Z);
  hd_cmd_q : Queue;
  hd_cpl_q : Queue;
  hd_polls : nat;
  hd_sent : list msg;
}.

Definition hd_set_entries v s := mk_hdc v (hd_cpls s) (hd_next s) (hd_cmd_q s) (hd_cpl_q s) (hd_polls s) (hd_sent s).
Definition hd_set_cpls v s := mk_hdc (hd_entries s) v (hd_next s) (hd_cmd_q s) (hd_cpl_q s) (hd_polls s) (hd_sent s).
Definition hd_set_cmd_q v h s := mk_hdc (hd_entries s) (hd_cpls s) h v (hd_cpl_q s) (hd_polls s) (hd_sent s).
Definition hd_set_cpl_q v h s := mk_hdc (hd_entries s) (hd_cpls s) h (hd_cmd_q s) v (hd_polls s) (hd_sent s).

Definition __get_host_cmd_entry (tag : Z) (s : hdc) : res host_entry := aread (hd_entries s) tag.

Definition put_entry (tag : Z) (e : host_entry) (s : hdc) : hdc :=
  hd_set_entries (<[tag := e]> (hd_entries s)) s.

(** Every entry access goes through the address of the entry: its tag. *)
Definition with_entry (tag : Z) (f : host_entry → host_entry) (s : hdc) : res hdc :=
  e ← __get_host_cmd_entry tag s;
  Ok (put_entry tag (f e) s).

Section flow.
Context (port_is_available : nat → bool) (MAX_LBA hxts HOSTBAND : Z) (shl32 : Z → Z).
Context (ids : identify).

(** One poll of the port; the message is written when it is available.  Returns 1
    when it is not. *)
Definition send_msg (m : msg) (s : hdc) : Z * hdc :=
  if port_is_available (hd_polls s) then
    (0, mk_hdc (hd_entries s) (hd_cpls s) (hd_next s) (hd_cmd_q s) (hd_cpl_q s)
          (S (hd_polls s)) (hd_sent s ++ [m]))
  else
    (1, mk_hdc (hd_entries s) (hd_cpls s) (hd_next s) (hd_cmd_q s) (hd_cpl_q s)
          (S (hd_polls s)) (hd_sent s)).

Definition send_phif_cmd_req (req : phif_cmd_req) : hdc → Z * hdc := send_msg (M_req req).
Definition send_phif_cmd_cpl (cpl : phif_cmd_cpl) : hdc → Z * hdc := send_msg (M_cpl cpl).

(** The queue of a read's latency class; the cases are the constants of the header, which
    are shifted while the field is not. *)
Definition read_band (dsmgmt : Z) : option Z :=
  let access_lat := get_bits 4 2 dsmgmt in
  if decide (access_lat = Z.shiftl 0 4) then Some FQMGR_HOST_READ1
  else if decide (access_lat = Z.shiftl 1 4) then Some FQMGR_HOST_READ2
  else if decide (access_lat = Z.shiftl 2 4) then Some FQMGR_HOST_READ1
  else if decide (access_lat = Z.shiftl 3 4) then Some FQMGR_HOST_READ0
  else None.

(** A read of an invalid latency class returns before [elba] is set. *)
Definition setup_phif_cmd_req (e : host_entry) : res phif_cmd_req :=
  let opcode := sq_opcode (he_sqe e) in
  let start_lba := rw_slba (he_sqe e) in
  let nsid := sq_nsid (he_sqe e) in
  let header := mk_qw0 2 MSG_NID_PHIF MSG_NID_PHIF 0 MSGID_PHIF_CMD_REQ (he_cmd_tag e) PHIF_EXTAG
                  MSG_NID_HDC (he_vfa e) (he_port e) (he_vf e) (he_sqid e) (hxts mod 2 ^ 6) in
  k ← get_identify_ns nsid;
  ns ← aread (gat_identify_namespaces ids) k;
  let lbaf_type := Z.land (ns_flbas ns) 0xf in
  lbaf ← aread (ns_lbaf ns) lbaf_type;
  let lba_size := u16 (Z.shiftl 1 (lf_ds lbaf)) in
  let lb_size := if decide (lba_size = 512) then Some 0
                 else if decide (lba_size = 4096) then Some 1
                 else if decide (lba_size = 16384) then Some 2
                 else None in
  let band := if decide (opcode = nvme_io_read) then read_band (rw_dsmgmt (he_sqe e))
              else if decide (opcode = nvme_io_write) then Some (u8 HOSTBAND)
              else None in
  let returned := bool_decide (opcode = nvme_io_read ∧ band = None) in
  let elba := if returned then None else Some (Z.lor (shl32 nsid) start_lba mod 2 ^ 35) in
  Ok (mk_req header (u32 start_lba) ((lf_ms lbaf / 8) mod 2 ^ 3) (lf_cphs lbaf) lb_size 1
        (ns_dps ns mod 2 ^ 4) (ns_flbas ns mod 2 ^ 5)
        (if decide (get_bits 14 1 (rw_control (he_sqe e)) = 0) then 1 else 0) band elba).

(** [dstfifo] has no value in the source and [hxts_mode] is not set: both stay. *)
Definition setup_phif_cmd_cpl (cpl : phif_cmd_cpl) (e : host_entry) : phif_cmd_cpl :=
  mk_cpl (mk_qw0 2 (h_dstfifo (cp_header cpl)) MSG_NID_PHIF 0 MSGID_PHIF_CMD_REQ (he_cmd_tag e)
            PHIF_EXTAG MSG_NID_HDC (he_vfa e) (he_port e) (he_vf e) (he_sqid e)
            (h_hxts_mode (cp_header cpl)))
    (he_result e) (cqe_status e).

(** [__get_host_cmd_cpl_entry] and [setup_phif_cmd_cpl] of it. *)
Definition prepare_cpl (tag : Z) (e : host_entry) (s : hdc) : res hdc :=
  cpl ← aread (hd_cpls s) tag;
  Ok (hd_set_cpls (<[tag := setup_phif_cmd_cpl cpl e]> (hd_cpls s)) s).

(** The pending queues: a command entry is queued by the address of its node. *)
Definition enqueue_cmd (tag : Z) (s : hdc) : res hdc :=
  r ← enqueue (hd_cmd_q s) tag (hd_next s);
  Ok (hd_set_cmd_q r.1 r.2 s).
Definition enqueue_front_cmd (tag : Z) (s : hdc) : res hdc :=
  r ← enqueue_front (hd_cmd_q s) tag (hd_next s);
  Ok (hd_set_cmd_q r.1 r.2 s).
Definition enqueue_front_cpl (tag : Z) (s : hdc) : res hdc :=
  r ← enqueue_front (hd_cpl_q s) tag (hd_next s);
  Ok (hd_set_cpl_q r.1 r.2 s).

Definition get_next_host_cmd_entry (s : hdc) : res (option Z * hdc) :=
  if queue_empty (hd_cpl_q s) then
    r ← dequeue (hd_cmd_q s) (hd_next s);
    Ok (r.1.1, hd_set_cmd_q r.1.2 r.2 s)
  else
    r ← dequeue (hd_cpl_q s) (hd_next s);
    Ok (r.1.1, hd_set_cpl_q r.1.2 r.2 s).

(** The parts of the [switch].  [flow_req]: from [PHIF_REQ_READY] on, up to the
    [break]; without a request set up the message on the stack is indeterminate. *)
Definition flow_req (tag : Z) (req : option phif_cmd_req) (s : hdc) : res hdc :=
  req ← deref req;
  let '(busy, s) := send_phif_cmd_req req s in
  if decide (busy ≠ 0) then
    s ← enqueue_front_cmd tag s;
    with_entry tag (he_set_state FLOW_QUEUED) s
  else
    s ← with_entry tag (he_set_state FLOW_REQ_SENDOUT) s;
    with_entry tag (he_set_state FLOW_WAIT_RSP) s.

Definition flow_queued (tag : Z) (s : hdc) : res hdc :=
  e ← __get_host_cmd_entry tag s;
  req ← setup_phif_cmd_req e;
  s ← with_entry tag (he_set_state FLOW_REQ_READY) s;
  flow_req tag (Some req) s.

(** From [PHIF_CPL_READY] on; [true] when the flow goes on with the next entry. *)
Definition flow_cpl (tag : Z) (s : hdc) : res (bool * hdc) :=
  e ← __get_host_cmd_entry tag s;
  cpl ← aread (hd_cpls s) (he_cmd_tag e);
  let '(busy, s) := send_phif_cmd_cpl cpl s in
  if decide (busy ≠ 0) then
    s ← enqueue_front_cpl tag s;
    s ← with_entry tag (he_set_state FLOW_CPL_READY) s;
    Ok (false, s)
  else
    s ← with_entry tag (he_set_state FLOW_CPL_SENDOUT) s;
    s ← with_entry tag (he_set_state FLOW_COMPLETE) s;
    Ok (true, s).

Definition flow_has_rsp (tag : Z) (s : hdc) : res (bool * hdc) :=
  e ← __get_host_cmd_entry tag s;
  s ← prepare_cpl (he_cmd_tag e) e s;
  s ← with_entry tag (he_set_state FLOW_CPL_READY) s;
  flow_cpl tag s.

(** One pass through the [switch]. *)
Definition flow_switch (tag : Z) (s : hdc) : res (bool * hdc) :=
  e ← __get_host_cmd_entry tag s;
  let state := he_state e in
  if decide (state = FLOW_QUEUED) then s ← flow_queued tag s; Ok (false, s)
  else if decide (state = FLOW_REQ_READY) then s ← flow_req tag None s; Ok (false, s)
  else if decide (state = FLOW_REQ_SENDOUT) then
    s ← with_entry tag (he_set_state FLOW_WAIT_RSP) s; Ok (false, s)
  else if decide (state = FLOW_WAIT_RSP) then Ok (false, s)
  else if decide (state = FLOW_HAS_RSP) then flow_has_rsp tag s
  else if decide (state = FLOW_CPL_READY) then flow_cpl tag s
  else if decide (state = FLOW_CPL_SENDOUT) then
    s ← with_entry tag (he_set_state FLOW_COMPLETE) s; Ok (true, s)
  else if decide (state = FLOW_COMPLETE) then Ok (true, s)
  else Ok (false, s).

Fixpoint write_datapath_hdc (fuel : nat) (tag : Z) (s : hdc) : res hdc :=
  match fuel with
  | O => Fault F_FUEL
  | S fuel' =>
      r ← flow_switch tag s;
      if r.1 : bool then
        n ← get_next_host_cmd_entry r.2;
        match n.1 with
        | Some next => write_datapath_hdc fuel' next n.2
        | None => Ok n.2
        end
      else Ok r.2
  end.

Fixpoint read_datapath_hdc (fuel : nat) (tag : Z) (s : hdc) : res hdc :=
  match fuel with
  | O => Fault F_FUEL
  | S fuel' =>
      r ← flow_switch tag s;
      if r.1 : bool then
        n ← get_next_host_cmd_entry r.2;
        match n.1 with
        | Some next => read_datapath_hdc fuel' next n.2
        | None => Ok n.2
        end
      else Ok r.2
  end.

(** ** Commands and responses *)

Definition flow_of (opcode : Z) (fuel : nat) (tag : Z) (s : hdc) : res hdc :=
  if decide (opcode = nvme_io_read) then read_datapath_hdc fuel tag s
  else write_datapath_hdc fuel tag s.

(** The response of the hardware: status into the entry, then the flow of its opcode. *)
Definition phif_cmd_response_to_hdc (fuel : nat) (tag sta_sct sta_sc : Z) (s : hdc) : res hdc :=
  s ← with_entry tag (λ e, set_host_cmd_staus sta_sct sta_sc e) s;
  e ← __get_host_cmd_entry tag s;
  let opcode := sq_opcode (he_sqe e) in
  if decide (opcode = nvme_io_write ∨ opcode = nvme_io_read) then
    s ← with_entry tag (he_set_state FLOW_HAS_RSP) s;
    flow_of opcode fuel tag s
  else Ok s.

Definition handle_nvme_io_command (fuel : nat) (tag : Z) (s : hdc) : res (Z * hdc) :=
  e ← __get_host_cmd_entry tag s;
  let opcode := sq_opcode (he_sqe e) in
  let start_lba := rw_slba (he_sqe e) in
  let nlb := rw_length (he_sqe e) in
  if decide (MAX_LBA < u64 (start_lba + nlb)) then
    s ← with_entry tag (set_host_cmd_staus NVME_SCT_GENERIC NVME_SC_LBA_RANGE) s;
    Ok (NVME_REQUEST_INVALID, s)
  else if nvme_nsid_valid (sq_nsid (he_sqe e)) ids then
    s ← with_entry tag (set_host_cmd_staus NVME_SCT_GENERIC NVME_SC_INVALID_NS) s;
    Ok (NVME_REQUEST_INVALID, s)
  else
    s ← enqueue_cmd tag s;
    s ← (if decide (opcode = nvme_io_read ∨ opcode = nvme_io_write)
         then with_entry tag (he_set_state FLOW_QUEUED) s else Ok s);
    n ← get_next_host_cmd_entry s;
    next ← (match n.1 with Some t => Ok t | None => Fault F_BUG end);
    let s := n.2 in
    if decide (opcode = nvme_io_read ∨ opcode = nvme_io_write) then
      s ← flow_of opcode fuel next s;
      Ok (NVME_REQUEST_PROCESSING, s)
    else if decide (opcode = nvme_io_flush ∨ opcode = nvme_io_compare) then
      Ok (NVME_REQUEST_PROCESSING, s)
    else
      s ← with_entry next (set_host_cmd_staus NVME_SCT_GENERIC NVME_SC_INVALID_OPCODE) s;
      Ok (NVME_REQUEST_INVALID, s).

(** The message of a new command: its tag, queue and function, and the entry. *)
Record hdc_nvme_cmd : Type := mk_cmd {
  cm_tag : Z; cm_sqid : Z; cm_vfa : Z; cm_port : Z; cm_vf : Z; cm_sqe : list Z;
}.

Definition save_cmd (cmd : hdc_nvme_cmd) : host_entry → host_entry :=
  save_in_host_cmd_entry (cm_tag cmd) (cm_sqid cmd) (cm_vfa cmd) (cm_port cmd) (cm_vf cmd) (cm_sqe cmd).

(** The direct completion at the end of [hdc_host_cmd_task]. *)
Definition complete_directly (tag : Z) (s : hdc) : res hdc :=
  e ← __get_host_cmd_entry tag s;
  s ← prepare_cpl tag e s;
  cpl ← aread (hd_cpls s) tag;
  let '(busy, s) := send_phif_cmd_cpl cpl s in
  if decide (busy ≠ 0) then enqueue_front_cpl tag s else Ok s.

(** [hdc_host_cmd_task].  The handler of admin commands is an argument, and [X] is the
    part of the firmware's state that only it uses (the file [FwAdmin] has both). *)
Definition hdc_host_cmd_task {X} (admin : Z → hdc * X → res (Z * (hdc * X))) (fuel : nat)
    (cmd : hdc_nvme_cmd) (sx : hdc * X) : res (hdc * X) :=
  let tag := cm_tag cmd in
  s ← with_entry tag (save_cmd cmd) sx.1;
  r ← (if decide (cm_sqid cmd = 0) then admin tag (s, sx.2)
       else r ← handle_nvme_io_command fuel tag s; Ok (r.1, (r.2, sx.2)));
  if decide (r.1 = NVME_REQUEST_PROCESSING) then Ok r.2
  else s ← complete_directly tag r.2.1; Ok (s, r.2.2).
End flow.

(** ** Helper lemmas *)

Lemma with_entry_ok tag f s e :
  hd_entries s !! tag = Some e → with_entry tag f s = Ok (put_entry tag (f e) s).
Proof. intros H. unfold with_entry, __get_host_cmd_entry. by rewrite (aread_Some _ _ _ H). Qed.

Lemma put_entry_lookup tag e s : hd_entries (put_entry tag e s) !! tag = Some e.
Proof. cbn. by rewrite lookup_insert_eq. Qed.

Lemma put_entry_twice tag e e' s : put_entry tag e' (put_entry tag e s) = put_entry tag e' s.
Proof. unfold put_entry, hd_set_entries. cbn. by rewrite insert_insert_eq. Qed.

(** No command outstanding: every tag has its entry, completion and node, and both
    queues are empty. *)
Record idle (s : hdc) : Prop := {
  id_entry : ∀ t, 0 ≤ t < 256 → is_Some (hd_entries s !! t);
  id_cpl : ∀ t, 0 ≤ t < 256 → is_Some (hd_cpls s !! t);
  id_node : ∀ t, 0 ≤ t < 256 → is_Some (hd_next s !! t);
  id_cmd_q : hd_cmd_q s = queue_init;
  id_cpl_q : hd_cpl_q s = queue_init;
}.

(** Computations that do not run out of fuel. *)
Definition no_fuel {A} (m : res A) : Prop := m ≠ Fault F_FUEL.

Lemma no_fuel_Ok {A} (a : A) : no_fuel (Ok a).
Proof. done. Qed.
Lemma no_fuel_bind {A B} (m : res A) (f : A → res B) :
  no_fuel m → (∀ a, m = Ok a → no_fuel (f a)) → no_fuel (m ≫= f).
Proof. unfold no_fuel. intros Hm Hf. destruct m; cbn; [by apply Hf|]. congruence. Qed.
Lemma no_fuel_aread {A} (m : gmap Z A) i : no_fuel (aread m i).
Proof. unfold aread, no_fuel. by destruct (m !! i). Qed.
Lemma no_fuel_deref {A} (o : option A) : no_fuel (deref o).
Proof. by destruct o. Qed.
Lemma no_fuel_BUG_ON (P : Prop) `{Decision P} : no_fuel (BUG_ON P).
Proof. unfold BUG_ON, no_fuel. by case_decide. Qed.

Create HintDb fuel.
#[export] Hint Resolve no_fuel_Ok no_fuel_aread no_fuel_deref no_fuel_BUG_ON : fuel.

(** Walks a computation down to its primitive steps. *)
Ltac no_fuel_step :=
  first
    [ solve [eauto with fuel]
    | done
    | apply no_fuel_bind; [|intros ? ?]
    | case_decide
    | match goal with |- no_fuel (match ?x with _ => _ end) => destruct x end ].
Ltac no_fuel := intros; repeat no_fuel_step.

Lemma no_fuel_set_next h n v : no_fuel (set_next h n v).
Proof. unfold set_next. no_fuel. Qed.
Lemma no_fuel_get_next h n : no_fuel (get_next h n).
Proof. unfold get_next. no_fuel. Qed.
#[export] Hint Resolve no_fuel_set_next no_fuel_get_next : fuel.

Lemma no_fuel_enqueue q n h : no_fuel (enqueue q n h).
Proof. unfold enqueue. no_fuel. Qed.
Lemma no_fuel_enqueue_front q n h : no_fuel (enqueue_front q n h).
Proof. unfold enqueue_front. no_fuel. Qed.
Lemma no_fuel_dequeue q h : no_fuel (dequeue q h).
Proof. unfold dequeue. no_fuel. Qed.
Lemma no_fuel_with_entry tag f s : no_fuel (with_entry tag f s).
Proof. unfold with_entry, __get_host_cmd_entry. no_fuel. Qed.
#[export] Hint Resolve no_fuel_enqueue no_fuel_enqueue_front no_fuel_dequeue
  no_fuel_with_entry : fuel.

(** A successful [dequeue] of a queue that is not empty makes it shorter. *)
Lemma dequeue_size q h r :
  0 ≤ qsize q < 2 ^ 32 → dequeue q h = Ok r →
  (r.1.1 = None ∧ r.1.2 = q) ∨ qsize r.1.2 = qsize q - 1 ∧ 0 ≤ qsize r.1.2.
Proof.
  intros Hs. unfold dequeue, queue_empty. case_bool_decide as He.
  - intros [= <-]. by left.
  - intros Hd. inv_ok. right. cbn. rewrite u32_small; lia.
Qed.

(** [dequeue] of a queue of one node, and of a queue whose front leads to another. *)
Lemma dequeue_one h a b :
  dequeue (mk_queue 1 (Some a) (Some a)) (<[a := b]> h) = Ok (Some a, queue_init, <[a := None]> h).
Proof.
  unfold dequeue, queue_empty. cbn [qsize]. rewrite bool_decide_false by done.
  cbn [qfront qrear]. rewrite set_next_ok by (rewrite lookup_insert_eq; eauto).
  cbn [mbind res_bind]. rewrite insert_insert_eq, decide_True by done.
  unfold get_next, aread. cbn [deref mbind res_bind]. by rewrite lookup_insert_eq.
Qed.

Lemma dequeue_two h a b c :
  a ≠ c →
  dequeue (mk_queue 2 (Some a) (Some c)) (<[a := b]> h) =
    Ok (Some a, mk_queue 1 None (Some c), <[a := None]> h).
Proof.
  intros Hne. unfold dequeue, queue_empty. cbn [qsize]. rewrite bool_decide_false by done.
  cbn [qfront qrear]. rewrite set_next_ok by (rewrite lookup_insert_eq; eauto).
  cbn [mbind res_bind]. rewrite insert_insert_eq, decide_False by congruence.
  unfold get_next, aread. cbn [deref mbind res_bind]. by rewrite lookup_insert_eq.
Qed.

Section flow_lemmas.
Context (avail : nat → bool) (hxts HOSTBAND : Z) (shl32 : Z → Z) (ids : identify).

Notation switch := (flow_switch avail hxts HOSTBAND shl32 ids) (only parsing).
Notation setup_req := (setup_phif_cmd_req hxts HOSTBAND shl32 ids) (only parsing).

Lemma no_fuel_setup_req e : no_fuel (setup_req e).
Proof. unfold setup_phif_cmd_req, get_identify_ns. no_fuel. Qed.
#[local] Hint Resolve no_fuel_setup_req : fuel.

Lemma no_fuel_flow_req tag req s : no_fuel (flow_req avail tag req s).
Proof. unfold flow_req, enqueue_front_cmd. no_fuel. Qed.
#[local] Hint Resolve no_fuel_flow_req : fuel.

Lemma no_fuel_flow_cpl tag s : no_fuel (flow_cpl avail tag s).
Proof. unfold flow_cpl, enqueue_front_cpl, __get_host_cmd_entry. no_fuel. Qed.
#[local] Hint Resolve no_fuel_flow_cpl : fuel.

Lemma no_fuel_switch tag s : no_fuel (switch tag s).
Proof.
  unfold flow_switch, flow_queued, flow_has_rsp, prepare_cpl, __get_host_cmd_entry. no_fuel.
Qed.

(** The queues are the same when the flow goes on. *)
Lemma flow_cpl_true_queues tag s s' :
  flow_cpl avail tag s = Ok (true, s') →
  hd_cmd_q s' = hd_cmd_q s ∧ hd_cpl_q s' = hd_cpl_q s.
Proof.
  unfold flow_cpl, with_entry, send_phif_cmd_cpl, send_msg. intros H. inv_ok.
  destruct (avail _); inv_ok; case_decide; inv_ok; done.
Qed.

Lemma switch_true_queues tag s s' :
  switch tag s = Ok (true, s') →
  hd_cmd_q s' = hd_cmd_q s ∧ hd_cpl_q s' = hd_cpl_q s.
Proof.
  unfold flow_switch. intros H. inv_ok. repeat case_decide; inv_ok; try done.
  - unfold flow_has_rsp, prepare_cpl, with_entry in *. inv_ok.
    match goal with H : flow_cpl _ _ _ = _ |- _ => apply flow_cpl_true_queues in H end. done.
  - by eapply flow_cpl_true_queues.
  - unfold with_entry in *. inv_ok. done.
Qed.

(** Without a queued node of its own, the state between two commands. *)
Lemma get_next_empty s :
  hd_cmd_q s = queue_init → hd_cpl_q s = queue_init → get_next_host_cmd_entry s = Ok (None, s).
Proof.
  intros H1 H2. destruct s. cbn in H1, H2. by subst.
Qed.

(** A lone command passes through the pending queue. *)
Lemma enqueue_get_next tag s :
  hd_cmd_q s = queue_init → hd_cpl_q s = queue_init → is_Some (hd_next s !! tag) →
  enqueue (hd_cmd_q s) tag (hd_next s) =
    Ok (mk_queue 1 (Some tag) (Some tag), <[tag := None]> (hd_next s)) ∧
  ∀ es, get_next_host_cmd_entry
    (hd_set_entries es (hd_set_cmd_q (mk_queue 1 (Some tag) (Some tag)) (<[tag := None]> (hd_next s)) s))
    = Ok (Some tag, hd_set_entries es (hd_set_cmd_q queue_init (<[tag := None]> (hd_next s)) s)).
Proof.
  intros H1 H2 Hn. split.
  - unfold enqueue. rewrite H1, set_next_ok by done. done.
  - intros es. unfold get_next_host_cmd_entry. cbn. rewrite H2.
    change (queue_empty queue_init) with true. cbn. by rewrite dequeue_one.
Qed.

(** The request of a queued entry, with a free and with a busy port. *)
Lemma switch_queued tag s e req :
  hd_entries s !! tag = Some e → he_state e = FLOW_QUEUED → setup_req e = Ok req →
  avail (hd_polls s) = true →
  switch tag s = Ok (false,
    mk_hdc (<[tag := he_set_state FLOW_WAIT_RSP e]> (hd_entries s)) (hd_cpls s) (hd_next s)
      (hd_cmd_q s) (hd_cpl_q s) (S (hd_polls s)) (hd_sent s ++ [M_req req])).
Proof.
  intros He Hst Hreq Hav. unfold flow_switch, flow_queued, __get_host_cmd_entry.
  rewrite (aread_Some _ _ _ He). cbn [mbind res_bind]. rewrite decide_True by done.
  rewrite Hreq. cbn [mbind res_bind]. rewrite (with_entry_ok _ _ _ _ He). cbn [mbind res_bind].
  unfold flow_req, send_phif_cmd_req, send_msg. cbn [deref mbind res_bind].
  cbn [put_entry hd_set_entries hd_polls]. rewrite Hav. cbn [mbind res_bind].
  rewrite decide_False by lia. unfold with_entry, __get_host_cmd_entry, put_entry, aread. cbn.
  rewrite !lookup_insert_eq. cbn. rewrite !lookup_insert_eq. cbn. by rewrite !insert_insert_eq.
Qed.

(** The completion of an entry that has its response, with a free port. *)
Lemma switch_has_rsp tag s e cpl :
  hd_entries s !! tag = Some e → he_state e = FLOW_HAS_RSP → he_cmd_tag e = tag →
  hd_cpls s !! tag = Some cpl → avail (hd_polls s) = true →
  switch tag s = Ok (true,
    mk_hdc (<[tag := he_set_state FLOW_COMPLETE e]> (hd_entries s))
      (<[tag := setup_phif_cmd_cpl cpl e]> (hd_cpls s)) (hd_next s)
      (hd_cmd_q s) (hd_cpl_q s) (S (hd_polls s))
      (hd_sent s ++ [M_cpl (setup_phif_cmd_cpl cpl e)])).
Proof.
  intros He Hst Htag Hc Hav. unfold flow_switch, flow_has_rsp, prepare_cpl, __get_host_cmd_entry.
  rewrite (aread_Some _ _ _ He). cbn [mbind res_bind]. rewrite Hst. cbn [decide decide_rel].
  rewrite !decide_False, decide_True by done. rewrite Htag, (aread_Some _ _ _ Hc). cbn [mbind res_bind].
  unfold with_entry at 1, __get_host_cmd_entry. cbn [hd_set_cpls hd_entries].
  rewrite (aread_Some _ _ _ He). cbn [mbind res_bind].
  unfold flow_cpl, __get_host_cmd_entry. cbn [put_entry hd_set_entries hd_set_cpls hd_entries hd_cpls].
  rewrite (aread_Some _ _ (he_set_state FLOW_CPL_READY e)) by apply lookup_insert_eq.
  cbn [mbind res_bind he_cmd_tag he_set_state]. rewrite Htag.
  rewrite (aread_Some _ _ (setup_phif_cmd_cpl cpl e)) by apply lookup_insert_eq.
  cbn [mbind res_bind]. unfold send_phif_cmd_cpl, send_msg. cbn [put_entry hd_set_entries hd_set_cpls hd_polls]. rewrite Hav.
  rewrite decide_False by lia. unfold with_entry, __get_host_cmd_entry, put_entry, aread. cbn.
  rewrite !lookup_insert_eq. cbn. rewrite !lookup_insert_eq. cbn. by rewrite !insert_insert_eq.
Qed.
End flow_lemmas.

(** Both flows are the same function. *)
Lemma read_flow_write avail hxts HOSTBAND shl32 ids fuel tag s :
  read_datapath_hdc avail hxts HOSTBAND shl32 ids fuel tag s =
  write_datapath_hdc avail hxts HOSTBAND shl32 ids fuel tag s.
Proof.
  revert tag s. induction fuel as [|fuel IH]; intros tag s; [done|]. cbn.
  apply bind_ext. intros [b s1]. destruct b; [|done]. apply bind_ext. by intros [[n|] s2].
Qed.

Lemma flow_of_write avail hxts HOSTBAND shl32 ids op fuel tag s :
  flow_of avail hxts HOSTBAND shl32 ids op fuel tag s =
  write_datapath_hdc avail hxts HOSTBAND shl32 ids fuel tag s.
Proof. unfold flow_of. case_decide; [apply read_flow_write|done]. Qed.

(** What a read or write that passes the checks comes to: the flow of the entry that
    the pending queues give out, which need not be its own. *)
Lemma io_command_flow avail MAX_LBA hxts HOSTBAND shl32 ids fuel tag s e h q n s' :
  hd_entries s !! tag = Some e →
  sq_opcode (he_sqe e) = nvme_io_read ∨ sq_opcode (he_sqe e) = nvme_io_write →
  u64 (rw_slba (he_sqe e) + rw_length (he_sqe e)) ≤ MAX_LBA →
  nvme_nsid_valid (sq_nsid (he_sqe e)) ids = false →
  enqueue (hd_cmd_q s) tag (hd_next s) = Ok (q, h) →
  get_next_host_cmd_entry (put_entry tag (he_set_state FLOW_QUEUED e) (hd_set_cmd_q q h s))
    = Ok (Some n, s') →
  handle_nvme_io_command avail MAX_LBA hxts HOSTBAND shl32 ids fuel tag s =
    s'' ← write_datapath_hdc avail hxts HOSTBAND shl32 ids fuel n s';
    Ok (NVME_REQUEST_PROCESSING, s'').
Proof.
  intros He Hop Hlba Hns Henq Hget. unfold handle_nvme_io_command, __get_host_cmd_entry.
  rewrite (aread_Some _ _ _ He). cbn [mbind res_bind]. rewrite decide_False by lia. rewrite Hns.
  unfold enqueue_cmd. rewrite Henq. cbn [mbind res_bind fst snd].
  rewrite (decide_True (P := _ ∨ _)) by done.
  rewrite (with_entry_ok _ _ _ e) by done. cbn [mbind res_bind]. rewrite Hget.
  cbn [mbind res_bind fst snd]. rewrite (decide_True (P := _ ∨ _)) by done.
  by rewrite flow_of_write.
Qed.

(** On an idle device it is its own flow, from empty queues. *)
Lemma io_command_queued avail MAX_LBA hxts HOSTBAND shl32 ids fuel tag s e :
  hd_entries s !! tag = Some e → is_Some (hd_next s !! tag) →
  hd_cmd_q s = queue_init → hd_cpl_q s = queue_init →
  sq_opcode (he_sqe e) = nvme_io_read ∨ sq_opcode (he_sqe e) = nvme_io_write →
  u64 (rw_slba (he_sqe e) + rw_length (he_sqe e)) ≤ MAX_LBA →
  nvme_nsid_valid (sq_nsid (he_sqe e)) ids = false →
  handle_nvme_io_command avail MAX_LBA hxts HOSTBAND shl32 ids fuel tag s =
    s' ← write_datapath_hdc avail hxts HOSTBAND shl32 ids fuel tag
           (put_entry tag (he_set_state FLOW_QUEUED e)
              (hd_set_cmd_q queue_init (<[tag := None]> (hd_next s)) s));
    Ok (NVME_REQUEST_PROCESSING, s').
Proof.
  intros He Hn Hq1 Hq2 Hop Hlba Hns.
  destruct (enqueue_get_next tag s Hq1 Hq2 Hn) as [Henq Hget].
  eapply io_command_flow; try done. apply Hget.
Qed.

Lemma setup_req_ok hxts HOSTBAND shl32 ids e ns lbaf :
  sq_nsid (he_sqe e) ≠ 0 →
  gat_identify_namespaces ids !! (sq_nsid (he_sqe e) - 1) = Some ns →
  ns_lbaf ns !! Z.land (ns_flbas ns) 0xf = Some lbaf →
  ∃ req, setup_phif_cmd_req hxts HOSTBAND shl32 ids e = Ok req ∧
    h_tag (rq_header req) = he_cmd_tag e ∧ rq_cpa req = u32 (rw_slba (he_sqe e)).
Proof.
  intros H0 Hns Hlb. unfold setup_phif_cmd_req, get_identify_ns.
  rewrite BUG_ON_pass by done. cbn [mbind res_bind]. rewrite (aread_Some _ _ _ Hns).
  cbn [mbind res_bind]. rewrite (aread_Some _ _ _ Hlb). eexists. split; [reflexivity|]. done.
Qed.

(** The response to a command whose request went out, on a device without another
    pending command. *)
Lemma response_completes avail hxts HOSTBAND shl32 ids fuel s tag e c sct sc :
  hd_entries s !! tag = Some e → he_cmd_tag e = tag → hd_cpls s !! tag = Some c →
  hd_cmd_q s = queue_init → hd_cpl_q s = queue_init → avail (hd_polls s) = true →
  sq_opcode (he_sqe e) = nvme_io_read ∨ sq_opcode (he_sqe e) = nvme_io_write →
  let e' := set_host_cmd_staus sct sc e in
  phif_cmd_response_to_hdc avail hxts HOSTBAND shl32 ids (S fuel) tag sct sc s = Ok
    (mk_hdc (<[tag := he_set_state FLOW_COMPLETE e']> (hd_entries s))
       (<[tag := setup_phif_cmd_cpl c e']> (hd_cpls s)) (hd_next s)
       queue_init queue_init (S (hd_polls s)) (hd_sent s ++ [M_cpl (setup_phif_cmd_cpl c e')])).
Proof.
  intros He Htag Hc Hq1 Hq2 Hp Hop e'. unfold phif_cmd_response_to_hdc, __get_host_cmd_entry.
  rewrite (with_entry_ok _ _ _ _ He). cbn [mbind res_bind].
  rewrite (aread_Some _ _ _ (put_entry_lookup _ _ _)). cbn [mbind res_bind].
  rewrite decide_True by (destruct Hop; [by right|by left]).
  erewrite with_entry_ok by apply put_entry_lookup. cbn [mbind res_bind].
  rewrite flow_of_write, put_entry_twice. cbn [write_datapath_hdc].
  erewrite (switch_has_rsp _ _ _ _ _ _ _ (he_set_state FLOW_HAS_RSP e') c) by
    first [done|apply put_entry_lookup].
  cbn [mbind res_bind fst snd]. rewrite get_next_empty by done. cbn. rewrite insert_insert_eq.
  by rewrite Hq1, Hq2.
Qed.

(** An accepted command on an idle device with a free port. *)
Lemma task_sends_request avail MAX_LBA hxts HOSTBAND shl32 ids {X} (admin : Z → hdc * X → res (Z * (hdc * X))) fuel s x cmd e0 n0 req :
  let sqe := cm_sqe cmd in let tag := cm_tag cmd in let e := save_cmd cmd e0 in
  hd_entries s !! tag = Some e0 → hd_next s !! tag = Some n0 →
  hd_cmd_q s = queue_init → hd_cpl_q s = queue_init → avail (hd_polls s) = true →
  cm_sqid cmd ≠ 0 → sq_opcode sqe = nvme_io_read ∨ sq_opcode sqe = nvme_io_write →
  u64 (rw_slba sqe + rw_length sqe) ≤ MAX_LBA → nvme_nsid_valid (sq_nsid sqe) ids = false →
  setup_phif_cmd_req hxts HOSTBAND shl32 ids (he_set_state FLOW_QUEUED e) = Ok req →
  hdc_host_cmd_task avail MAX_LBA hxts HOSTBAND shl32 ids admin (S fuel) cmd (s, x) = Ok
    (mk_hdc (<[tag := he_set_state FLOW_WAIT_RSP e]> (hd_entries s)) (hd_cpls s)
       (<[tag := None]> (hd_next s)) queue_init queue_init (S (hd_polls s))
       (hd_sent s ++ [M_req req]), x).
Proof.
  intros sqe tag e He0 Hn0 Hq1 Hq2 Hp Hsq Hop Hlba Hns Hreq.
  unfold hdc_host_cmd_task. fold tag. rewrite (with_entry_ok _ _ _ _ He0). cbn [mbind res_bind].
  rewrite decide_False by done. fold e.
  rewrite (io_command_queued _ _ _ _ _ _ _ _ _ e (put_entry_lookup _ _ _)) by done.
  cbn [write_datapath_hdc].
  erewrite (switch_queued _ _ _ _ _ _ _ (he_set_state FLOW_QUEUED e) req) by
    first [done|apply put_entry_lookup].
  cbn [mbind res_bind fst snd]. rewrite decide_True by done. cbn. by rewrite !insert_insert_eq, Hq2.
Qed.

(** The completion of a command that is not given to the hardware: sent, or put at the
    front of the completions that wait. *)
Lemma complete_directly_ok avail tag s e c :
  hd_entries s !! tag = Some e → hd_cpls s !! tag = Some c →
  let s' := mk_hdc (hd_entries s) (<[tag := setup_phif_cmd_cpl c e]> (hd_cpls s)) (hd_next s)
              (hd_cmd_q s) (hd_cpl_q s) (S (hd_polls s)) (hd_sent s) in
  complete_directly avail tag s =
    if avail (hd_polls s) then
      Ok (mk_hdc (hd_entries s') (hd_cpls s') (hd_next s') (hd_cmd_q s') (hd_cpl_q s') (hd_polls s')
            (hd_sent s ++ [M_cpl (setup_phif_cmd_cpl c e)]))
    else enqueue_front_cpl tag s'.
Proof.
  intros He Hc s'. unfold complete_directly, prepare_cpl, __get_host_cmd_entry.
  rewrite (aread_Some _ _ _ He). cbn [mbind res_bind]. rewrite (aread_Some _ _ _ Hc).
  cbn [mbind res_bind hd_set_cpls hd_cpls].
  erewrite (aread_Some (<[tag := _]> _)) by apply lookup_insert_eq. cbn [mbind res_bind].
  unfold send_phif_cmd_cpl, send_msg. cbn [hd_polls]. by destruct (avail _).
Qed.

(** A read or write of an I/O queue that passes the checks, as they are written, and
    whose namespace has the block format it names. *)
Record acceptable (ids : identify) (MAX_LBA : Z) (cmd : hdc_nvme_cmd) : Prop := {
  ac_tag : 0 ≤ cm_tag cmd < 256;
  ac_sqid : cm_sqid cmd ≠ 0;
  ac_opcode : sq_opcode (cm_sqe cmd) = nvme_io_read ∨ sq_opcode (cm_sqe cmd) = nvme_io_write;
  ac_lba : u64 (rw_slba (cm_sqe cmd) + rw_length (cm_sqe cmd)) ≤ MAX_LBA;
  ac_nsid : sq_nsid (cm_sqe cmd) ≠ 0;
  ac_nn : ctrl_nn ids < sq_nsid (cm_sqe cmd);
  ac_ns : ∃ ns lbaf, gat_identify_namespaces ids !! (sq_nsid (cm_sqe cmd) - 1) = Some ns ∧
            ns_lbaf ns !! Z.land (ns_flbas ns) 0xf = Some lbaf;
}.

Lemma acceptable_nsid ids MAX_LBA cmd :
  acceptable ids MAX_LBA cmd → nvme_nsid_valid (sq_nsid (cm_sqe cmd)) ids = false.
Proof. intros []. unfold nvme_nsid_valid. by rewrite decide_True by by left. Qed.

Lemma acceptable_req ids MAX_LBA cmd hxts HOSTBAND shl32 e0 :
  acceptable ids MAX_LBA cmd →
  ∃ req, setup_phif_cmd_req hxts HOSTBAND shl32 ids (he_set_state FLOW_QUEUED (save_cmd cmd e0)) = Ok req ∧
    h_tag (rq_header req) = cm_tag cmd ∧ rq_cpa req = u32 (rw_slba (cm_sqe cmd)).
Proof.
  intros [Ht _ _ _ Hns0 _ (ns & lbaf & Hns & Hlb)].
  destruct (setup_req_ok hxts HOSTBAND shl32 ids (he_set_state FLOW_QUEUED (save_cmd cmd e0)) ns lbaf
    Hns0 Hns Hlb) as (req & Hreq & Htag & Hcpa).
  exists req. split; [done|]. split; [|done]. rewrite Htag. apply u8_small. lia.
Qed.

(** A request that meets a busy port: the entry goes back in front. *)
Lemma switch_queued_busy avail hxts HOSTBAND shl32 ids tag s e req q h :
  hd_entries s !! tag = Some e → he_state e = FLOW_QUEUED →
  setup_phif_cmd_req hxts HOSTBAND shl32 ids e = Ok req →
  avail (hd_polls s) = false → enqueue_front (hd_cmd_q s) tag (hd_next s) = Ok (q, h) →
  flow_switch avail hxts HOSTBAND shl32 ids tag s = Ok (false,
    mk_hdc (<[tag := he_set_state FLOW_QUEUED e]> (hd_entries s)) (hd_cpls s) h
      q (hd_cpl_q s) (S (hd_polls s)) (hd_sent s)).
Proof.
  intros He Hst Hreq Hav Henq. unfold flow_switch, flow_queued, __get_host_cmd_entry.
  rewrite (aread_Some _ _ _ He). cbn [mbind res_bind]. rewrite decide_True by done.
  rewrite Hreq. cbn [mbind res_bind]. rewrite (with_entry_ok _ _ _ _ He). cbn [mbind res_bind].
  unfold flow_req, send_phif_cmd_req, send_msg. cbn [deref mbind res_bind].
  cbn [put_entry hd_set_entries hd_polls]. rewrite Hav. rewrite decide_True by done.
  unfold enqueue_front_cmd. cbn [put_entry hd_set_entries hd_cmd_q hd_next]. rewrite Henq. cbn [mbind res_bind fst snd].
  erewrite with_entry_ok by (cbn; apply lookup_insert_eq). unfold put_entry. cbn. by rewrite insert_insert_eq.
Qed.

(** An accepted command whose turn it is, in any state, when the port is busy. *)
Lemma task_busy avail MAX_LBA hxts HOSTBAND shl32 ids {X} (admin : Z → hdc * X → res (Z * (hdc * X)))
    fuel s x cmd e0 q h s' n e req q' h' :
  acceptable ids MAX_LBA cmd → hd_entries s !! cm_tag cmd = Some e0 →
  enqueue (hd_cmd_q s) (cm_tag cmd) (hd_next s) = Ok (q, h) →
  get_next_host_cmd_entry (put_entry (cm_tag cmd) (he_set_state FLOW_QUEUED (save_cmd cmd e0))
    (hd_set_cmd_q q h s)) = Ok (Some n, s') →
  hd_entries s' !! n = Some e → he_state e = FLOW_QUEUED →
  setup_phif_cmd_req hxts HOSTBAND shl32 ids e = Ok req →
  avail (hd_polls s') = false → enqueue_front (hd_cmd_q s') n (hd_next s') = Ok (q', h') →
  hdc_host_cmd_task avail MAX_LBA hxts HOSTBAND shl32 ids admin (S fuel) cmd (s, x) = Ok
    (mk_hdc (<[n := he_set_state FLOW_QUEUED e]> (hd_entries s')) (hd_cpls s') h'
      q' (hd_cpl_q s') (S (hd_polls s')) (hd_sent s'), x).
Proof.
  intros Hac He0 Henq Hget He Hst Hreq Hav Hfront. unfold hdc_host_cmd_task.
  rewrite (with_entry_ok _ _ _ _ He0). cbn [mbind res_bind].
  rewrite decide_False by apply Hac.
  rewrite (io_command_flow _ _ _ _ _ _ _ _ _ _ h q n s' (put_entry_lookup _ _ _));
    [|apply Hac|apply Hac|by eapply acceptable_nsid|done|].
  - cbn [write_datapath_hdc].
    by rewrite (switch_queued_busy _ _ _ _ _ _ _ _ _ _ _ He Hst Hreq Hav Hfront).
  - rewrite <-Hget. f_equal. unfold put_entry, hd_set_cmd_q, hd_set_entries. cbn.
    by rewrite insert_insert_eq.
Qed.

(** The first of them on an idle device. *)
Lemma task_busy_idle avail MAX_LBA hxts HOSTBAND shl32 ids {X} (admin : Z → hdc * X → res (Z * (hdc * X))) fuel s x cmd e0 n0 :
  let t := cm_tag cmd in
  acceptable ids MAX_LBA cmd → hd_entries s !! t = Some e0 → hd_next s !! t = Some n0 →
  hd_cmd_q s = queue_init → hd_cpl_q s = queue_init → avail (hd_polls s) = false →
  hdc_host_cmd_task avail MAX_LBA hxts HOSTBAND shl32 ids admin (S fuel) cmd (s, x) = Ok
    (mk_hdc (<[t := he_set_state FLOW_QUEUED (save_cmd cmd e0)]> (hd_entries s)) (hd_cpls s)
       (<[t := None]> (hd_next s)) (mk_queue 1 (Some t) (Some t)) queue_init
       (S (hd_polls s)) (hd_sent s), x).
Proof.
  intros t Hac He0 Hn0 Hq1 Hq2 Hp.
  destruct (acceptable_req _ _ _ hxts HOSTBAND shl32 e0 Hac) as (req & Hreq & _).
  assert (is_Some (hd_next s !! t)) as Hn by eauto.
  destruct (enqueue_get_next t s Hq1 Hq2 Hn) as [Henq Hget].
  erewrite task_busy; [|done|exact He0|exact Henq|exact (Hget _)|apply lookup_insert_eq|done
    |exact Hreq|exact Hp|].
  2:{ unfold enqueue_front. rewrite set_next_ok by (cbn; rewrite lookup_insert_eq; eauto). reflexivity. }
  cbn. by rewrite !insert_insert_eq, Hq2.
Qed.

(** And a second one behind it: the first is taken again, and put back alone. *)
Lemma task_busy_second avail MAX_LBA hxts HOSTBAND shl32 ids {X} (admin : Z → hdc * X → res (Z * (hdc * X)))
    fuel s x cmd e0 n0 t1 e1 req :
  let t := cm_tag cmd in
  acceptable ids MAX_LBA cmd → hd_entries s !! t = Some e0 → hd_next s !! t = Some n0 → t ≠ t1 →
  hd_cmd_q s = mk_queue 1 (Some t1) (Some t1) → hd_cpl_q s = queue_init →
  hd_next s !! t1 = Some None → hd_entries s !! t1 = Some e1 → he_state e1 = FLOW_QUEUED →
  setup_phif_cmd_req hxts HOSTBAND shl32 ids e1 = Ok req → avail (hd_polls s) = false →
  ∃ es, hdc_host_cmd_task avail MAX_LBA hxts HOSTBAND shl32 ids admin (S fuel) cmd (s, x) = Ok
    (mk_hdc es (hd_cpls s) (<[t1 := None]> (<[t := None]> (hd_next s)))
       (mk_queue 2 (Some t1) (Some t)) queue_init (S (hd_polls s)) (hd_sent s), x).
Proof.
  intros t Hac He0 Hn0 Hne Hq1 Hq2 Hn1 He1 Hst Hreq Hp.
  set (s' := mk_hdc (<[t := he_set_state FLOW_QUEUED (save_cmd cmd e0)]> (hd_entries s)) (hd_cpls s)
    (<[t1 := None]> (<[t := None]> (hd_next s))) (mk_queue 1 None (Some t)) queue_init
    (hd_polls s) (hd_sent s)).
  eexists.
  rewrite (task_busy _ _ _ _ _ _ _ _ _ _ _ _ (mk_queue 2 (Some t1) (Some t))
    (<[t1 := Some t]> (<[t := None]> (hd_next s))) s' t1 e1 req (mk_queue 2 (Some t1) (Some t))
    (<[t1 := None]> (<[t := None]> (hd_next s))) Hac He0); [reflexivity| | | |done..|].
  - unfold enqueue. rewrite set_next_ok by eauto. cbn [mbind res_bind]. rewrite Hq1. cbn [qfront qrear].
    rewrite set_next_ok by (rewrite lookup_insert_ne by done; eauto). done.
  - fold t. unfold get_next_host_cmd_entry. cbn [put_entry hd_set_cmd_q hd_set_entries hd_cpl_q].
    rewrite Hq2. change (queue_empty queue_init) with true. cbv iota.
    cbn [put_entry hd_set_cmd_q hd_set_entries hd_cmd_q hd_next].
    rewrite dequeue_two by done. cbn. unfold s'. by rewrite <-Hq2.
  - unfold s'. cbn. by rewrite lookup_insert_ne by done.
  - unfold enqueue_front. cbn [s' hd_cmd_q hd_next qfront qrear].
    rewrite set_next_ok by (rewrite lookup_insert_eq; eauto). cbn. by rewrite insert_insert_eq.
Qed.

(** ** Properties *)



(** The state at power on: zeroed entries and completions of the 256 tags. *)
Definition cpl0 : phif_cmd_cpl := mk_cpl (mk_qw0 0 0 0 0 0 0 0 0 0 0 0 0 0) 0 0.
Definition all_tags {A} (a : A) : gmap Z A := gset_to_gmap a (list_to_set (seqZ 0 256)).
Definition hdc0 : hdc :=
  mk_hdc (all_tags entry0) (all_tags cpl0) (all_tags None) queue_init queue_init 0 [].

Lemma all_tags_lookup {A} (a : A) t : 0 ≤ t < 256 → all_tags a !! t = Some a.
Proof.
  intros Ht. unfold all_tags. apply lookup_gset_to_gmap_Some. split; [|done].
  apply elem_of_list_to_set, elem_of_seqZ. lia.
Qed.

Lemma idle_hdc0 : idle hdc0.
Proof.
  constructor; [..|reflexivity|reflexivity]; intros t Ht; eexists; by apply all_tags_lookup.
Qed.

Lemma hdc0_entry t : 0 ≤ t < 256 → hd_entries hdc0 !! t = Some entry0.
Proof. apply all_tags_lookup. Qed.

(** A command of one block on namespace [nsid] at [lba], on queue 1. *)
Definition io_cmd (op tag nsid lba : Z) : hdc_nvme_cmd :=
  mk_cmd tag 1 0 0 0 [op; nsid; 0; 0; 0; 0; 0; 0; 0; 0; lba; 0; 1; 0; 0; 0].

Definition ns4k : nvme_id_ns := mk_ns 0 0 0 0 0 {[0 := mk_lbaf 16 12 2 0]}.

Lemma io_cmd_acceptable op tag :
  0 ≤ tag < 256 → op = nvme_io_read ∨ op = nvme_io_write →
  acceptable (mk_identify {[1 := ns4k]} 0) 1000 (io_cmd op tag 2 70).
Proof.
  intros Ht [-> | ->]; (constructor;
    [done|done|vm_compute; auto|vm_compute; congruence|done|done|by exists ns4k, (mk_lbaf 16 12 2 0)]).
Qed.



(* Once the controller has its number of namespaces, the inverted test of the
    identifier leaves no read or write to the hardware: a command to an existing
    namespace is completed at once with Invalid Namespace and no request is sent, and any
    other identifier faults. *)
Lemma io_never_served (avail : nat → bool) (MAX_LBA hxts HOSTBAND : Z) (shl32 : Z → Z)
    (ids0 : identify) {X} (admin : Z → hdc * X → res (Z * (hdc * X))) (fuel : nat) (s : hdc) (x : X) (cmd : hdc_nvme_cmd) :
  let ids := nvme_ctrl_info_init ids0 in
  let sqe := cm_sqe cmd in let tag := cm_tag cmd in
  let run := hdc_host_cmd_task avail MAX_LBA hxts HOSTBAND shl32 ids admin fuel cmd (s, x) in
  idle s → avail (hd_polls s) = true → (1 ≤ fuel)%nat → 0 ≤ tag < 256 → cm_sqid cmd ≠ 0 →
  (∀ k, gat_identify_namespaces ids !! k ≠ None → 0 ≤ k < MAX_NSID) → 0 ≤ sq_nsid sqe →
  sq_opcode sqe = nvme_io_read ∨ sq_opcode sqe = nvme_io_write →
  u64 (rw_slba sqe + rw_length sqe) ≤ MAX_LBA →
  (1 ≤ sq_nsid sqe ≤ MAX_NSID →
     ∃ s' cpl, run = Ok (s', x) ∧ hd_sent s' = hd_sent s ++ [M_cpl cpl] ∧
       Z.shiftr (cp_status cpl) 1 = NVME_SC_INVALID_NS) ∧
  (sq_nsid sqe = 0 → run = Fault F_BUG) ∧
  (MAX_NSID < sq_nsid sqe → run = Fault F_OOB).
Proof.
  intros ids sqe tag run Hidle Hp Hfuel Htag Hsq Hdom Hns Hop Hlba.
  destruct fuel as [|fuel]; [lia|]. destruct Hidle as [He Hc Hn Hq1 Hq2].
  destruct (He tag Htag) as [e0 He0], (Hc tag Htag) as [c0 Hc0].
  assert (∀ f, setup_phif_cmd_req hxts HOSTBAND shl32 ids
      (he_set_state FLOW_QUEUED (save_cmd cmd e0)) = Fault f →
    nvme_nsid_valid (sq_nsid sqe) ids = false → run = Fault f) as Hfault.
  { intros f Hf Hv. unfold run, hdc_host_cmd_task. fold tag.
    rewrite (with_entry_ok _ _ _ _ He0). cbn [mbind res_bind]. rewrite decide_False by done.
    rewrite (io_command_queued _ _ _ _ _ _ _ _ _ _ (put_entry_lookup _ _ _))
      by first [done|by apply Hn].
    cbn [write_datapath_hdc]. unfold flow_switch, __get_host_cmd_entry.
    rewrite (aread_Some _ _ _ (put_entry_lookup _ _ _)). cbn [mbind res_bind].
    rewrite decide_True by done. unfold flow_queued, __get_host_cmd_entry.
    rewrite (aread_Some _ _ _ (put_entry_lookup _ _ _)). cbn [mbind res_bind]. by rewrite Hf. }
  split_and!.
  - intros Hv. unfold run, hdc_host_cmd_task. fold tag.
    rewrite (with_entry_ok _ _ _ _ He0). cbn [mbind res_bind]. rewrite decide_False by done.
    unfold handle_nvme_io_command, __get_host_cmd_entry.
    rewrite (aread_Some _ _ _ (put_entry_lookup _ _ _)). cbn [mbind res_bind].
    change (he_sqe (save_cmd cmd e0)) with sqe. rewrite decide_False by lia.
    assert (nvme_nsid_valid (sq_nsid sqe) ids = true) as ->.
    { unfold nvme_nsid_valid. rewrite decide_False; [done|]. change (ctrl_nn ids) with MAX_NSID. lia. }
    erewrite with_entry_ok by apply put_entry_lookup. cbn [mbind res_bind fst snd].
    rewrite decide_False by done.
    rewrite (complete_directly_ok _ _ _ _ c0 (put_entry_lookup _ _ _)) by done.
    cbn [put_entry hd_set_entries hd_polls]. rewrite Hp.
    eexists _, _. split; [reflexivity|]. split; [reflexivity|].
    cbn [cp_status setup_phif_cmd_cpl]. by rewrite set_status_code.
  - intros H0. apply Hfault; [|by unfold nvme_nsid_valid; rewrite decide_True by (right; done)].
    unfold setup_phif_cmd_req, get_identify_ns.
    change (he_sqe (he_set_state FLOW_QUEUED (save_cmd cmd e0))) with sqe. by rewrite H0.
  - intros H1. apply Hfault; [|by unfold nvme_nsid_valid; rewrite decide_True by (left; done)].
    unfold setup_phif_cmd_req, get_identify_ns.
    change (he_sqe (he_set_state FLOW_QUEUED (save_cmd cmd e0))) with sqe.
    rewrite BUG_ON_pass by (unfold MAX_NSID in *; lia). cbn [mbind res_bind].
    rewrite aread_None; [done|].
    destruct (gat_identify_namespaces ids !! (sq_nsid sqe - 1)) eqn:E; [|done]. exfalso.
    assert (0 ≤ sq_nsid sqe - 1 < MAX_NSID); [|lia]. apply Hdom. by rewrite E.
Qed.

Lemma io_never_served_witness :
  ∃ s' cpl,
    hdc_host_cmd_task (λ _, true) 1000 0 0 (λ _, 0)
      (nvme_ctrl_info_init (mk_identify {[1 := ns4k]} 0)) (λ _ s, Ok (0, s)) 1 (io_cmd 1 3 2 70) (hdc0, tt) = Ok (s', tt) ∧
    hd_sent s' = [M_cpl cpl] ∧ Z.shiftr (cp_status cpl) 1 = NVME_SC_INVALID_NS.
Proof.
  destruct (io_never_served (λ _, true) 1000 0 0 (λ _, 0) (mk_identify {[1 := ns4k]} 0)
    (λ _ s, Ok (0, s)) 1 hdc0 tt (io_cmd 1 3 2 70)) as (H & _);
    [exact idle_hdc0|reflexivity|lia|vm_compute; split; congruence|done| |vm_compute; congruence
    |by right|vm_compute; congruence|].
  - intros k. cbn. destruct (decide (k = 1)) as [->|Hk]; [unfold MAX_NSID; lia|].
    by rewrite lookup_singleton_ne.
  - apply H. vm_compute. split; congruence.
Defined.

(** Two accepted commands that meet a busy port one after the other: the second is
    lost.  The pending queue counts two, but its front is the first command again, whose
    successor was cleared: the second is not reached from it, and after the first has
    been taken the next access to the queue faults. *)
Lemma second_busy_command_lost (avail : nat → bool) (MAX_LBA hxts HOSTBAND : Z) (shl32 : Z → Z)
    (ids : identify) {X} (admin : Z → hdc * X → res (Z * (hdc * X))) (fuel : nat) (s : hdc) (x : X) (c1 c2 : hdc_nvme_cmd) :
  let task := hdc_host_cmd_task avail MAX_LBA hxts HOSTBAND shl32 ids admin fuel in
  idle s → avail (hd_polls s) = false → avail (S (hd_polls s)) = false → (1 ≤ fuel)%nat →
  acceptable ids MAX_LBA c1 → acceptable ids MAX_LBA c2 → cm_tag c1 ≠ cm_tag c2 →
  ∃ s1 s2, task c1 (s, x) = Ok (s1, x) ∧ task c2 (s1, x) = Ok (s2, x) ∧ hd_sent s2 = hd_sent s ∧
    queue_size (hd_cmd_q s2) = 2 ∧ peek_queue (hd_cmd_q s2) = Some (cm_tag c1) ∧
    get_next (hd_next s2) (Some (cm_tag c1)) = Ok None ∧
    ∃ s3, get_next_host_cmd_entry s2 = Ok (Some (cm_tag c1), s3) ∧
      get_next_host_cmd_entry s3 = Fault F_NULL.
Proof.
  intros task [He Hc Hn Hq1 Hq2] Hp1 Hp2 Hf Hac1 Hac2 Hne. unfold task.
  destruct fuel as [|fuel]; [lia|].
  pose proof (ac_tag _ _ _ Hac1) as Ht1. pose proof (ac_tag _ _ _ Hac2) as Ht2.
  set (t1 := cm_tag c1) in *. set (t2 := cm_tag c2) in *.
  destruct (He t1 Ht1) as [e1 He1], (He t2 Ht2) as [e2 He2].
  destruct (Hn t1 Ht1) as [n1 Hn1], (Hn t2 Ht2) as [n2 Hn2].
  destruct (acceptable_req _ _ _ hxts HOSTBAND shl32 e1 Hac1) as (req & Hreq & _).
  pose proof (task_busy_idle _ MAX_LBA hxts HOSTBAND shl32 ids admin fuel s x c1 e1 n1
    Hac1 He1 Hn1 Hq1 Hq2 Hp1) as H1.
  match type of H1 with _ = Ok (?st, _) => set (s1 := st) in H1 end.
  destruct (task_busy_second avail MAX_LBA hxts HOSTBAND shl32 ids admin fuel s1 x c2 e2 n2 t1
    (he_set_state FLOW_QUEUED (save_cmd c1 e1)) req) as [es H2]; [done| | |done..| | |done|done|done|].
  - cbn. by rewrite lookup_insert_ne.
  - cbn. by rewrite lookup_insert_ne.
  - cbn. by rewrite lookup_insert_eq.
  - cbn. by rewrite lookup_insert_eq.
  - eexists s1, _. split; [exact H1|]. split; [exact H2|]. cbn [hd_sent hd_cmd_q hd_next].
    split; [done|]. split; [done|]. split; [done|]. split.
    { unfold get_next, aread. cbn. by rewrite lookup_insert_eq. }
    unfold get_next_host_cmd_entry. cbn [hd_cpl_q]. change (queue_empty queue_init) with true.
    cbv iota. cbn [hd_cmd_q hd_next]. rewrite dequeue_two by done. eexists. by split.
Qed.

Lemma second_busy_command_lost_witness :
  ∃ s1 s2,
    hdc_host_cmd_task (λ _, false) 1000 0 0 (λ _, 0) (mk_identify {[1 := ns4k]} 0)
      (λ _ s, Ok (0, s)) 1 (io_cmd 2 5 2 70) (hdc0, tt) = Ok (s1, tt) ∧
    hdc_host_cmd_task (λ _, false) 1000 0 0 (λ _, 0) (mk_identify {[1 := ns4k]} 0)
      (λ _ s, Ok (0, s)) 1 (io_cmd 1 6 2 70) (s1, tt) = Ok (s2, tt) ∧
    hd_sent s2 = [] ∧ queue_size (hd_cmd_q s2) = 2 ∧ get_next (hd_next s2) (Some 5) = Ok None.
Proof.
  destruct (second_busy_command_lost (λ _, false) 1000 0 0 (λ _, 0) (mk_identify {[1 := ns4k]} 0)
    (λ _ s, Ok (0, s)) 1 hdc0 tt (io_cmd 2 5 2 70) (io_cmd 1 6 2 70))
    as (s1 & s2 & H1 & H2 & H3 & H4 & _ & H5 & _);
    [exact idle_hdc0|reflexivity|reflexivity|lia|apply io_cmd_acceptable; [lia|by left]
    |apply io_cmd_acceptable; [lia|by right]|done|].
  exists s1, s2. split_and!; done.
Defined.

(** A completion that the firmware gives itself is lost when it meets a busy port: a
    command beyond the last block waits among the completions, but when it is taken
    from there its flow is not in a state that sends a completion, so it leaves the
    queue, and nothing is sent. *)
Lemma rejected_completion_lost (avail : nat → bool) (MAX_LBA hxts HOSTBAND : Z) (shl32 : Z → Z)
    (ids : identify) {X} (admin : Z → hdc * X → res (Z * (hdc * X))) (fuel : nat) (s : hdc) (x : X) (cmd : hdc_nvme_cmd)
    (e0 : host_entry) :
  let tag := cm_tag cmd in
  idle s → avail (hd_polls s) = false → 0 ≤ tag < 256 → cm_sqid cmd ≠ 0 →
  MAX_LBA < u64 (rw_slba (cm_sqe cmd) + rw_length (cm_sqe cmd)) →
  hd_entries s !! tag = Some e0 → he_state e0 = FLOW_INITIAL ∨ he_state e0 = FLOW_WAIT_RSP →
  (1 ≤ fuel)%nat →
  ∃ s1 s2, hdc_host_cmd_task avail MAX_LBA hxts HOSTBAND shl32 ids admin fuel cmd (s, x) = Ok (s1, x) ∧
    peek_queue (hd_cpl_q s1) = Some tag ∧
    get_next_host_cmd_entry s1 = Ok (Some tag, s2) ∧
    write_datapath_hdc avail hxts HOSTBAND shl32 ids fuel tag s2 = Ok s2 ∧
    hd_sent s2 = hd_sent s ∧ idle s2.
Proof.
  intros tag [He Hc Hn Hq1 Hq2] Hp Ht Hsq Hlba He0 Hst Hf. destruct fuel as [|fuel]; [lia|].
  destruct (Hc tag Ht) as [c0 Hc0], (Hn tag Ht) as [n0 Hn0].
  unfold hdc_host_cmd_task. fold tag. rewrite (with_entry_ok _ _ _ _ He0). cbn [mbind res_bind].
  rewrite decide_False by done. unfold handle_nvme_io_command, __get_host_cmd_entry.
  rewrite (aread_Some _ _ _ (put_entry_lookup _ _ _)). cbn [mbind res_bind].
  change (he_sqe (save_cmd cmd e0)) with (cm_sqe cmd). rewrite decide_True by done.
  erewrite with_entry_ok by apply put_entry_lookup. cbn [mbind res_bind fst snd].
  rewrite decide_False by done. rewrite put_entry_twice.
  rewrite (complete_directly_ok _ _ _ _ c0 (put_entry_lookup _ _ _)) by done.
  cbn [put_entry hd_set_entries hd_polls]. rewrite Hp. unfold enqueue_front_cpl, enqueue_front.
  cbn [hd_cpl_q hd_next put_entry hd_set_entries]. rewrite Hq2, set_next_ok by eauto.
  change (u32 (qsize queue_init + 1)) with 1. cbn [qfront qrear queue_init].
  eexists _, _. split; [reflexivity|]. split; [reflexivity|]. split.
  { unfold get_next_host_cmd_entry. cbn [hd_set_cpl_q hd_cpl_q hd_next fst snd].
    change (queue_empty (mk_queue 1 (Some tag) (Some tag))) with false. cbv iota.
    rewrite dequeue_one. reflexivity. }
  cbn [write_datapath_hdc]. unfold flow_switch, __get_host_cmd_entry, aread.
  split; [|split; [done|]].
  - cbn. rewrite lookup_insert_eq. cbn. by destruct Hst as [-> | ->].
  - constructor; cbn; try done; intros t Ht'; rewrite ?insert_insert_eq, ?lookup_insert_is_Some'; eauto.
Qed.

Lemma rejected_completion_lost_witness :
  ∃ s1, hdc_host_cmd_task (λ _, false) 60 0 0 (λ _, 0) (mk_identify ∅ 0) (λ _ s, Ok (0, s)) 1
    (io_cmd 1 5 2 70) (hdc0, tt) = Ok (s1, tt) ∧ peek_queue (hd_cpl_q s1) = Some 5.
Proof.
  destruct (rejected_completion_lost (λ _, false) 60 0 0 (λ _, 0) (mk_identify ∅ 0)
    (λ _ s, Ok (0, s)) 1 hdc0 tt (io_cmd 1 5 2 70) entry0) as (s1 & s2 & H1 & H2 & _);
    [exact idle_hdc0|reflexivity|cbn; lia|done|vm_compute; reflexivity|by apply all_tags_lookup|by left|lia|].
  exists s1. by split.
Defined.
