(* ===== verification/FwAdmin.v ===== *)
(** * Firmware: admin commands and the firmware's own DMA

    [FW-Base/admin/admin.c], the features of [admin/nvme_feature.c],
    [handle_admin_identify] of [admin/nvme_identify.c] and the internal commands of
    [datapath/datapath.c] (lines 43-284 and 331-379): a chunk of data between a buffer of
    the controller and the host is one internal command, with a tag, a request message
    and a callback, and the entry of the host command counts its chunks in [ckc].

    Parameters, because the source only calls or names them: [find_first_zero_bit_range];
    [itnl_arg], what [fw_alloc_itnl_tag] finds as its argument, which no caller passes;
    [send_phif_rdma_req]; the handlers [xx1], [xx2], ... of the features; the addresses of
    the identify data and of the feature tables.  An indeterminate value that is used is
    a fault. *)

From S2P Require Import Prelude FwQueue FwNvme FwFlow.

#[local] Open Scope Z_scope.

(** ** State *)

Definition FW_WDMA_REQ_CNT : Z := 32.
Definition FW_RDMA_REQ_CNT : Z := 32.
Definition SZ_4K : Z := 0x1000.
Definition NVME_IDENTIFY_DATA_SIZE : Z := 4096.
Definition NVME_LBART_ENTRY_SIZE : Z := 64.
Definition NVME_LBART_MAX_ENTRYS : Z := 64.
Definition NVME_LBART_TBL_SIZE : Z := NVME_LBART_ENTRY_SIZE * NVME_LBART_MAX_ENTRYS.
Definition NVME_LBART_NUM_MASK : Z := 0x3f.
Definition RWDMA_QW_PI : Z := Z.shiftl 1 0.
Definition RWDMA_QW_ADDR : Z := Z.shiftl 1 1.
Definition RWDMA_QW_DATA0 : Z := Z.shiftl 1 2.
Definition RWDMA_QW_DATA1 : Z := Z.shiftl 1 3.

Inductive fw_cmd_callback : Type :=
  | host_cmd_rwdma_completion
  | setft_lbart_rdma_completion
  | getft_lbart_wdma_completion.

(** [fw_internal_cmd_entry]; the context of every callback is the entry of a tag. *)
Record fw_internal_cmd_entry : Type := mk_fw {
  fw_host_tag : Z;
  fw_fn : option fw_cmd_callback;
  fw_ctx : Z;
}.

(** [gat_fw_itnl_cmd_ctl] (its tag bitmap as one number), the request arrays, the pending
    queues (the node of the internal command [k] has address [k]), the registers of the
    queue numbers, and the namespaces. *)
Record fwc : Type := mk_fwc {
  fc_cmd : gmap Z fw_internal_cmd_entry;
  fc_itnl_tag : Z;
  fc_wdma : gmap Z phif_wdma_req;
  fc_rdma : gmap Z phif_wdma_req;
  fc_next : gmap Z (option Z);
  fc_wdma_q : Queue;
  fc_rdma_q : Queue;
  fc_ncqr : Z;
  fc_nsqr : Z;
  fc_ids : identify;
}.

Definition fc_set_cmd v c := mk_fwc v (fc_itnl_tag c) (fc_wdma c) (fc_rdma c) (fc_next c)
  (fc_wdma_q c) (fc_rdma_q c) (fc_ncqr c) (fc_nsqr c) (fc_ids c).
Definition fc_set_itnl v c := mk_fwc (fc_cmd c) v (fc_wdma c) (fc_rdma c) (fc_next c)
  (fc_wdma_q c) (fc_rdma_q c) (fc_ncqr c) (fc_nsqr c) (fc_ids c).
Definition fc_set_wdma v c := mk_fwc (fc_cmd c) (fc_itnl_tag c) v (fc_rdma c) (fc_next c)
  (fc_wdma_q c) (fc_rdma_q c) (fc_ncqr c) (fc_nsqr c) (fc_ids c).
Definition fc_set_rdma v c := mk_fwc (fc_cmd c) (fc_itnl_tag c) (fc_wdma c) v (fc_next c)
  (fc_wdma_q c) (fc_rdma_q c) (fc_ncqr c) (fc_nsqr c) (fc_ids c).
Definition fc_set_wdma_q q h c := mk_fwc (fc_cmd c) (fc_itnl_tag c) (fc_wdma c) (fc_rdma c) h
  q (fc_rdma_q c) (fc_ncqr c) (fc_nsqr c) (fc_ids c).
Definition fc_set_rdma_q q h c := mk_fwc (fc_cmd c) (fc_itnl_tag c) (fc_wdma c) (fc_rdma c) h
  (fc_wdma_q c) q (fc_ncqr c) (fc_nsqr c) (fc_ids c).
Definition fc_set_queues n m c := mk_fwc (fc_cmd c) (fc_itnl_tag c) (fc_wdma c) (fc_rdma c) (fc_next c)
  (fc_wdma_q c) (fc_rdma_q c) n m (fc_ids c).
Definition fc_set_ids v c := mk_fwc (fc_cmd c) (fc_itnl_tag c) (fc_wdma c) (fc_rdma c) (fc_next c)
  (fc_wdma_q c) (fc_rdma_q c) (fc_ncqr c) (fc_nsqr c) v.

Notation fstate := (hdc * fwc)%type (only parsing).

(** An update of the entry of [tag]. *)
Definition on_entry (tag : Z) (f : host_entry → host_entry) (x : fstate) : res fstate :=
  s ← with_entry tag f x.1;
  Ok (s, x.2).

Definition msg_header_filled (h : msg_qw0) (cnt dstfifo dst msgid tag ext_tag src sriov : Z) : msg_qw0 :=
  mk_qw0 (cnt mod 2 ^ 4) (dstfifo mod 2 ^ 4) (dst mod 2 ^ 5) 0 (u8 msgid) (u8 tag) (ext_tag mod 2 ^ 4)
    (src mod 2 ^ 5) (get_bits 0 1 sriov) (get_bits 1 1 sriov) (get_bits 2 4 sriov)
    (h_sqid h) (h_hxts_mode h).

(** The optional quadwords [send_phif_wdma_req] copies: the cursor in the message moves
    only past a quadword that was copied. *)
Definition wdma_words (r : phif_wdma_req) : list Z :=
  [wd_pi r; wd_cbuff_addr r; wd_wdata0 r; wd_wdata1 r].

Fixpoint copy_words (flags : list Z) (valid : Z) (ws : list Z) : list Z :=
  match flags with
  | [] => []
  | f :: flags' =>
      if decide (Z.land valid f ≠ 0) then
        match ws with
        | w :: ws' => w :: copy_words flags' valid ws'
        | [] => []
        end
      else copy_words flags' valid ws
  end.

Definition wdma_flags : list Z := [RWDMA_QW_PI; RWDMA_QW_ADDR; RWDMA_QW_DATA0; RWDMA_QW_DATA1].

Section admin.
Context (port_is_available : nat → bool).
Context (FW_WDMA_REQ FW_RDMA_REQ itnl_arg HDC_EXT_TAG : Z).
Context (find_first_zero_bit_range : Z → Z → Z → Z).
Context (send_phif_rdma_req : phif_wdma_req → Z → hdc → Z * hdc).
Context (other_feature : Z → Z → fstate → res (Z * fstate)).
Context (identify_ns_addr : Z → Z) (identify_ctrl_addr current_lba_range default_lba_range : Z).
Context (max_nvme_queue_id max_nvme_queue_size : Z).

Definition send_phif_wdma_req (req : phif_wdma_req) (valid : Z) : hdc → Z * hdc :=
  send_msg port_is_available
    (M_wdma (wd_header req) (wd_blen req) (wd_pld_qwn req) (wd_hdata_addr req)
       (copy_words wdma_flags valid (wdma_words req))).

(** ** Internal commands *)

Definition fw_alloc_itnl_tag (cmd_types : Z) (c : fwc) : res Z :=
  range ← deref (if decide (cmd_types = FW_WDMA_REQ) then Some (0, FW_WDMA_REQ_CNT - 1)
                 else if decide (cmd_types = FW_RDMA_REQ) then
                   Some (FW_WDMA_REQ_CNT, FW_WDMA_REQ_CNT + FW_RDMA_REQ_CNT - 1)
                 else None);
  Ok (u16 (find_first_zero_bit_range (fc_itnl_tag c) range.1 range.2)).

Definition fw_free_itnl_tag (itnl_tag : Z) (c : fwc) : fwc :=
  fc_set_itnl (Z.land (fc_itnl_tag c) (Z.lnot (Z.shiftl 1 itnl_tag))) c.

(** [msgptr], [host_tag], [fn] and [ctx] of the internal command. *)
Definition bind_itnl_cmd (itnl_tag host_tag : Z) (handler : fw_cmd_callback) (ctx : Z) (c : fwc)
    : res fwc :=
  _ ← aread (fc_cmd c) itnl_tag;
  Ok (fc_set_cmd (<[itnl_tag := mk_fw host_tag (Some handler) ctx]> (fc_cmd c)) c).

Definition fw_send_wdma_req (host_addr cbuff_addr length host_tag : Z) (handler : fw_cmd_callback)
    (ctx : Z) (x : fstate) : res fstate :=
  itnl_tag ← fw_alloc_itnl_tag itnl_arg x.2;
  req ← aread (fc_wdma x.2) itnl_tag;
  _ ← __get_host_cmd_entry host_tag x.1;
  c ← bind_itnl_cmd itnl_tag host_tag handler ctx x.2;
  let header := msg_header_filled (wd_header req) 6 MSG_NID_PHIF MSG_NID_PHIF MSGID_PHIF_WDMA_REQ
                  itnl_tag HDC_EXT_TAG MSG_NID_HDC 0 in
  let req := mk_wdma header (u16 length mod 2 ^ 15) 1 host_addr (wd_pi req) (cbuff_addr mod 2 ^ 36)
               (wd_wdata0 req) (wd_wdata1 req) in
  let c := fc_set_wdma (<[itnl_tag := req]> (fc_wdma c)) c in
  let '(busy, s) := send_phif_wdma_req req RWDMA_QW_ADDR x.1 in
  c ← (if decide (busy ≠ 0) then
         r ← enqueue (fc_wdma_q c) itnl_tag (fc_next c);
         Ok (fc_set_wdma_q r.1 r.2 c)
       else Ok c);
  on_entry host_tag (λ e, he_set_ckc (he_ckc e + 1) e) (s, c).

(** The request array of the read side starts at the tag [FW_WDMA_REQ_CNT].  [band] and
    [cache_en] are left out: what the port is given is a parameter; [wd_pld_qwn] stands
    for [addr_qwen]. *)
Definition fw_send_rdma_req (host_addr cbuff_addr length host_tag : Z) (handler : fw_cmd_callback)
    (ctx : Z) (x : fstate) : res fstate :=
  itnl_tag ← fw_alloc_itnl_tag itnl_arg x.2;
  req ← aread (fc_rdma x.2) (itnl_tag - FW_WDMA_REQ_CNT);
  _ ← __get_host_cmd_entry host_tag x.1;
  c ← bind_itnl_cmd itnl_tag host_tag handler ctx x.2;
  let header := msg_header_filled (wd_header req) 6 MSG_NID_PHIF MSG_NID_PHIF MSGID_PHIF_RDMA_REQ
                  itnl_tag HDC_EXT_TAG MSG_NID_HDC 0 in
  let req := mk_wdma header (u16 length mod 2 ^ 15) 1 host_addr (wd_pi req) (cbuff_addr mod 2 ^ 36)
               (wd_wdata0 req) (wd_wdata1 req) in
  let c := fc_set_rdma (<[itnl_tag - FW_WDMA_REQ_CNT := req]> (fc_rdma c)) c in
  let '(busy, s) := send_phif_rdma_req req RWDMA_QW_ADDR x.1 in
  c ← (if decide (busy ≠ 0) then
         r ← enqueue (fc_rdma_q c) itnl_tag (fc_next c);
         Ok (fc_set_rdma_q r.1 r.2 c)
       else Ok c);
  on_entry host_tag (λ e, he_set_ckc (he_ckc e + 1) e) (s, c).

Definition page_offset (v : Z) : Z := Z.land (u64 v) (SZ_4K - 1).

Definition wdma_cbuff_to_host_dptr (prp1 prp2 cbuff length host_tag : Z) (handler : fw_cmd_callback)
    (ctx : Z) (x : fstate) : res fstate :=
  let prp1_offset := page_offset prp1 in
  if decide (prp1_offset = 0) then
    fw_send_wdma_req prp1 cbuff SZ_4K host_tag handler ctx x
  else
    x ← fw_send_wdma_req prp1 cbuff length host_tag handler ctx x;
    fw_send_wdma_req prp2 (u64 (cbuff + length)) prp1_offset host_tag handler ctx x.

(** What a callback does to the entry it is given. *)
Definition run_callback (fn : fw_cmd_callback) (ctx : Z) (x : fstate) : res fstate :=
  match fn with
  | getft_lbart_wdma_completion => on_entry ctx (he_set_result NVME_LBART_MAX_ENTRYS) x
  | host_cmd_rwdma_completion | setft_lbart_rdma_completion => Ok x
  end.

(** [phif_rwdma_response_to_hdc] with the tag and status of either response message. *)
Definition phif_rwdma_response_to_hdc (itnl_tag status : Z) (x : fstate) : res fstate :=
  fw ← aread (fc_cmd x.2) itnl_tag;
  let host_tag := fw_host_tag fw in
  x ← (if decide (status ≠ 0) then on_entry host_tag (he_set_sc NVME_SC_INTERNAL) x else Ok x);
  x ← on_entry host_tag (λ e, he_set_ckc (he_ckc e - 1) e) x;
  e ← __get_host_cmd_entry host_tag x.1;
  x ← (if decide (he_ckc e ≠ 0) then
         fn ← deref (fw_fn fw);
         x ← run_callback fn (fw_ctx fw) x;
         e ← __get_host_cmd_entry host_tag x.1;
         s ← prepare_cpl host_tag e x.1;
         cpl ← aread (hd_cpls s) host_tag;
         let '(busy, s) := send_phif_cmd_cpl port_is_available cpl s in
         s ← (if decide (busy ≠ 0) then enqueue_front_cpl host_tag s else Ok s);
         Ok (s, x.2)
       else Ok x);
  Ok (x.1, fw_free_itnl_tag itnl_tag x.2).

(** ** Handlers *)

Definition handle_admin_identify (tag : Z) (x : fstate) : res (Z * fstate) :=
  e ← __get_host_cmd_entry tag x.1;
  let sqe := he_sqe e in
  if decide (idn_cns sqe = 0) then
    k ← get_identify_ns (sq_nsid sqe);
    x ← wdma_cbuff_to_host_dptr (sq_prp1 sqe) (sq_prp2 sqe) (identify_ns_addr k)
          NVME_IDENTIFY_DATA_SIZE (he_cmd_tag e) host_cmd_rwdma_completion tag x;
    Ok (0, x)
  else if decide (idn_cns sqe = 1) then
    x ← wdma_cbuff_to_host_dptr (sq_prp1 sqe) (sq_prp2 sqe) identify_ctrl_addr
          NVME_IDENTIFY_DATA_SIZE (he_cmd_tag e) host_cmd_rwdma_completion tag x;
    Ok (0, x)
  else Ok (0, x).

Definition setft_lba_range_type (tag : Z) (x : fstate) : res (Z * fstate) :=
  e ← __get_host_cmd_entry tag x.1;
  let nlr := Z.land (feat_dword11 (he_sqe e)) NVME_LBART_NUM_MASK in
  x ← fw_send_rdma_req (sq_prp1 (he_sqe e)) current_lba_range ((1 + nlr) * NVME_LBART_ENTRY_SIZE)
        (he_cmd_tag e) setft_lbart_rdma_completion tag x;
  Ok (NVME_REQUEST_PROCESSING, x).

Definition getft_lba_range_type (tag : Z) (x : fstate) : res (Z * fstate) :=
  e ← __get_host_cmd_entry tag x.1;
  let cbuff_addr := if decide (feat_sel (he_sqe e) = 0) then current_lba_range else default_lba_range in
  x ← fw_send_wdma_req (sq_prp1 (he_sqe e)) cbuff_addr NVME_LBART_TBL_SIZE
        (he_cmd_tag e) getft_lbart_wdma_completion tag x;
  Ok (NVME_REQUEST_PROCESSING, x).

Definition setft_queue_number (tag : Z) (x : fstate) : res (Z * fstate) :=
  e ← __get_host_cmd_entry tag x.1;
  let ncqr := get_bits 16 16 (feat_dword11 (he_sqe e)) in
  let nsqr := get_bits 0 16 (feat_dword11 (he_sqe e)) in
  if decide (0xfffe < ncqr ∨ 0xfffe < nsqr) then
    x ← on_entry tag (set_host_cmd_staus NVME_SCT_GENERIC NVME_SC_INVALID_FIELD) x;
    Ok (NVME_REQUEST_INVALID, x)
  else Ok (NVME_REQUEST_COMPLETE, (x.1, fc_set_queues ncqr nsqr x.2)).

(** [getft_queue_number] returns no value, and the caller uses it. *)
Definition getft_queue_number (tag : Z) (x : fstate) : res (Z * fstate) := Fault F_NULL.

Definition gat_set_feature_func (fid : Z) : Z → fstate → res (Z * fstate) :=
  if decide (fid = 7) then setft_queue_number else other_feature fid.

(** The entry of the LBA ranges is the function that sets them. *)
Definition gat_get_feature_func (fid : Z) : Z → fstate → res (Z * fstate) :=
  if decide (fid = 3) then setft_lba_range_type
  else if decide (fid = 7) then getft_queue_number
  else other_feature fid.

Definition handle_admin_set_feature (tag : Z) (x : fstate) : res (Z * fstate) :=
  e ← __get_host_cmd_entry tag x.1;
  let fid := feat_fid (he_sqe e) in
  if decide (1 ≤ fid ≤ 0xf) then gat_set_feature_func fid tag x
  else
    x ← on_entry tag (set_host_cmd_staus NVME_SCT_GENERIC NVME_SC_INVALID_FIELD) x;
    Ok (NVME_REQUEST_INVALID, x).

Definition handle_admin_get_feature (tag : Z) (x : fstate) : res (Z * fstate) :=
  e ← __get_host_cmd_entry tag x.1;
  let fid := feat_fid (he_sqe e) in
  if decide (1 ≤ fid ≤ 0xf) then gat_get_feature_func fid tag x
  else
    x ← on_entry tag (set_host_cmd_staus NVME_SCT_GENERIC NVME_SC_INVALID_FIELD) x;
    Ok (NVME_REQUEST_INVALID, x).

(** A handler of the entry alone. *)
Definition entry_handler (f : host_entry → Z * host_entry) (tag : Z) (x : fstate) : res (Z * fstate) :=
  e ← __get_host_cmd_entry tag x.1;
  let '(r, e') := f e in
  Ok (r, (put_entry tag e' x.1, x.2)).

Definition format_nvm (tag : Z) (x : fstate) : res (Z * fstate) :=
  e ← __get_host_cmd_entry tag x.1;
  r ← handle_admin_format_nvm e (fc_ids x.2);
  Ok (r.1.1, (put_entry tag r.1.2 x.1, fc_set_ids r.2 x.2)).

Definition handle_nvme_admin_command (tag : Z) (x : fstate) : res (Z * fstate) :=
  e ← __get_host_cmd_entry tag x.1;
  let opcode := sq_opcode (he_sqe e) in
  if decide (Z.land (sq_flags (he_sqe e)) NVME_CMD_SGL_ALL ≠ 0) then
    x ← on_entry tag (set_host_cmd_staus NVME_SCT_GENERIC NVME_SC_INVALID_FIELD) x;
    Ok (NVME_REQUEST_INVALID, x)
  else if decide (opcode = nvme_admin_create_cq) then
    entry_handler (handle_admin_create_cq max_nvme_queue_id max_nvme_queue_size) tag x
  else if decide (opcode = nvme_admin_create_sq) then
    entry_handler (handle_admin_create_sq max_nvme_queue_id) tag x
  else if decide (opcode = nvme_admin_delete_cq) then
    entry_handler (handle_admin_delete_cq max_nvme_queue_id) tag x
  else if decide (opcode = nvme_admin_delete_sq) then
    entry_handler (handle_admin_delete_sq max_nvme_queue_id) tag x
  else if decide (opcode = nvme_admin_identify) then handle_admin_identify tag x
  else if decide (opcode = nvme_admin_set_features) then handle_admin_set_feature tag x
  else if decide (opcode = nvme_admin_get_features) then handle_admin_get_feature tag x
  else if decide (opcode = nvme_admin_format_nvm) then format_nvm tag x
  else Ok (0, x).

(** The whole of [hdc_host_cmd_task]. *)
Definition hdc_task (MAX_LBA hxts HOSTBAND : Z) (shl32 : Z → Z) (fuel : nat) (cmd : hdc_nvme_cmd)
    (x : fstate) : res fstate :=
  hdc_host_cmd_task port_is_available MAX_LBA hxts HOSTBAND shl32 (fc_ids x.2)
    handle_nvme_admin_command fuel cmd x.
End admin.

(** ** Helper lemmas *)

(** The tags of the completions, and the internal tags of the DMA requests, among the
    messages. *)
Definition cpl_tags (l : list msg) : list Z :=
  omap (λ m, match m with M_cpl c => Some (h_tag (cp_header c)) | _ => None end) l.
Definition wdma_tags (l : list msg) : list Z :=
  omap (λ m, match m with M_wdma h _ _ _ _ => Some (h_tag h) | _ => None end) l.

(** How many of the flags are set: this many words are copied, from the first on. *)
Definition flag_count (flags : list Z) (valid : Z) : nat :=
  length (filter (λ f, Z.land valid f ≠ 0) flags).

Lemma copy_words_prefix flags valid ws :
  copy_words flags valid ws = take (flag_count flags valid) ws.
Proof.
  revert ws. unfold flag_count. induction flags as [|f flags IH]; intros ws; [by rewrite take_0|].
  cbn [copy_words]. destruct (decide (Z.land valid f ≠ 0)) as [Hf|Hf].
  - rewrite filter_cons_True by done. destruct ws as [|w ws]; [done|]. cbn. by rewrite IH.
  - by rewrite filter_cons_False, IH by done.
Qed.

Lemma on_entry_ok tag f s c e :
  hd_entries s !! tag = Some e → on_entry tag f (s, c) = Ok (put_entry tag (f e) s, c).
Proof. intros H. unfold on_entry. cbn. by rewrite (with_entry_ok _ _ _ _ H). Qed.

Section admin_lemmas.
Context (avail : nat → bool) (W R HDC_EXT_TAG : Z) (find : Z → Z → Z → Z).

(** The messages [fw_send_wdma_req] writes. *)
Lemma send_wdma_sent arg ha ca len t fn ctx x x' :
  fw_send_wdma_req avail W R arg HDC_EXT_TAG find ha ca len t fn ctx x = Ok x' →
  ∃ k req, fw_alloc_itnl_tag W R find arg x.2 = Ok k ∧ fc_wdma x.2 !! k = Some req ∧
    hd_sent x'.1 = (if avail (hd_polls x.1)
      then hd_sent x.1 ++ [M_wdma (msg_header_filled (wd_header req) 6 MSG_NID_PHIF MSG_NID_PHIF
             MSGID_PHIF_WDMA_REQ k HDC_EXT_TAG MSG_NID_HDC 0) (u16 len mod 2 ^ 15) 1 ha [wd_pi req]]
      else hd_sent x.1).
Proof.
  destruct x as [s c], x' as [s' c']. cbn [fst snd].
  unfold fw_send_wdma_req. intros H. apply bind_Ok in H as (k & Hk & H).
  apply bind_Ok in H as (req & Hreq & H). apply aread_Ok in Hreq.
  exists k, req. split; [done|]. split; [done|].
  unfold send_phif_wdma_req, send_msg, bind_itnl_cmd, on_entry, with_entry, __get_host_cmd_entry in H.
  cbn [fst snd] in H. apply bind_Ok in H as (e & _ & H). apply bind_Ok in H as (c1 & _ & H).
  destruct (avail (hd_polls s)); cbn in H; inv_ok; done.
Qed.

(** One response, on a port that is free, for a command that waits for [ckc] chunks. *)
Lemma response_ok k status s c fw e cpl :
  fc_cmd c !! k = Some fw → fw_fn fw = Some host_cmd_rwdma_completion →
  hd_entries s !! fw_host_tag fw = Some e → hd_cpls s !! fw_host_tag fw = Some cpl →
  avail (hd_polls s) = true →
  let t := fw_host_tag fw in
  let e' := he_set_ckc (he_ckc e - 1) (if decide (status ≠ 0) then he_set_sc NVME_SC_INTERNAL e else e) in
  phif_rwdma_response_to_hdc avail k status (s, c) = Ok
    (if decide ((he_ckc e - 1) mod 2 ^ 8 ≠ 0) then
       mk_hdc (<[t := e']> (hd_entries s)) (<[t := setup_phif_cmd_cpl cpl e']> (hd_cpls s)) (hd_next s)
         (hd_cmd_q s) (hd_cpl_q s) (S (hd_polls s)) (hd_sent s ++ [M_cpl (setup_phif_cmd_cpl cpl e')])
     else put_entry t e' s,
     fw_free_itnl_tag k c).
Proof.
  intros Hfw Hfn He Hc Hp t e'. unfold phif_rwdma_response_to_hdc. cbn [fst snd].
  rewrite (aread_Some _ _ _ Hfw). cbn [mbind res_bind]. fold t in He, Hc |- *.
  assert ((if decide (status ≠ 0) then on_entry t (he_set_sc NVME_SC_INTERNAL) (s, c) else Ok (s, c))
    = Ok (put_entry t (if decide (status ≠ 0) then he_set_sc NVME_SC_INTERNAL e else e) s, c)) as ->.
  { case_decide; [by apply on_entry_ok|]. do 2 f_equal. destruct s. unfold put_entry, hd_set_entries.
    cbn in *. by rewrite insert_id. }
  cbn [mbind res_bind]. rewrite (on_entry_ok _ _ _ _ _ (put_entry_lookup _ _ _)). cbn [mbind res_bind].
  rewrite put_entry_twice.
  replace (he_ckc (if decide (status ≠ 0) then he_set_sc NVME_SC_INTERNAL e else e)) with (he_ckc e)
    by by case_decide.
  fold e'. unfold __get_host_cmd_entry. cbn [fst snd].
  rewrite (aread_Some _ _ _ (put_entry_lookup _ _ _)). cbn [mbind res_bind].
  change (he_ckc e') with ((he_ckc e - 1) mod 2 ^ 8). case_decide as Hk; [|done].
  rewrite Hfn. cbn [deref mbind res_bind run_callback fst snd].
  rewrite (aread_Some _ _ _ (put_entry_lookup _ _ _)). cbn [mbind res_bind]. unfold prepare_cpl.
  rewrite (aread_Some (hd_cpls (put_entry t e' s)) _ _ Hc). cbn [mbind res_bind hd_set_cpls hd_cpls].
  erewrite (aread_Some (<[t := _]> _)) by apply lookup_insert_eq. cbn [mbind res_bind].
  unfold send_phif_cmd_cpl, send_msg. cbn [put_entry hd_set_entries hd_set_cpls hd_polls]. rewrite Hp.
  rewrite decide_False by lia. done.
Qed.

(** Identify controller of an address that is not aligned. *)
Lemma identify_unaligned arg rdma other ns_addr ctrl_addr cur max_id max_size s c tag e :
  hd_entries s !! tag = Some e → Z.land (sq_flags (he_sqe e)) NVME_CMD_SGL_ALL = 0 →
  sq_opcode (he_sqe e) = nvme_admin_identify → idn_cns (he_sqe e) = 1 →
  page_offset (sq_prp1 (he_sqe e)) ≠ 0 →
  let send a b l := fw_send_wdma_req avail W R arg HDC_EXT_TAG find a b l (he_cmd_tag e)
                      host_cmd_rwdma_completion tag in
  handle_nvme_admin_command avail W R arg HDC_EXT_TAG find rdma other ns_addr ctrl_addr cur
    max_id max_size tag (s, c) =
    x ← send (sq_prp1 (he_sqe e)) ctrl_addr NVME_IDENTIFY_DATA_SIZE (s, c);
    x ← send (sq_prp2 (he_sqe e)) (u64 (ctrl_addr + NVME_IDENTIFY_DATA_SIZE))
          (page_offset (sq_prp1 (he_sqe e))) x;
    Ok (0, x).
Proof.
  intros He Hfl Hop Hcns Hpo send. unfold handle_nvme_admin_command, __get_host_cmd_entry.
  cbn [fst snd]. rewrite (aread_Some _ _ _ He). cbn [mbind res_bind]. rewrite Hfl, Hop.
  rewrite decide_False by lia. do 4 (rewrite decide_False by done). rewrite decide_True by done.
  unfold handle_admin_identify, __get_host_cmd_entry. cbn [fst snd].
  rewrite (aread_Some _ _ _ He). cbn [mbind res_bind]. rewrite Hcns.
  rewrite decide_False, decide_True by done. unfold wdma_cbuff_to_host_dptr.
  rewrite decide_False by done. fold (send (sq_prp1 (he_sqe e)) ctrl_addr NVME_IDENTIFY_DATA_SIZE).
  destruct (send _ _ _ (s, c)); done.
Qed.

(** A request that finds the port free. *)
Lemma send_wdma_ok arg ha ca len t fn ctx s c k req e :
  fw_alloc_itnl_tag W R find arg c = Ok k → fc_wdma c !! k = Some req → is_Some (fc_cmd c !! k) →
  hd_entries s !! t = Some e → avail (hd_polls s) = true →
  ∃ req' m, wd_header req' = msg_header_filled (wd_header req) 6 MSG_NID_PHIF MSG_NID_PHIF
              MSGID_PHIF_WDMA_REQ k HDC_EXT_TAG MSG_NID_HDC 0 ∧
    m = M_wdma (wd_header req') (wd_blen req') 1 ha [wd_pi req] ∧
    fw_send_wdma_req avail W R arg HDC_EXT_TAG find ha ca len t fn ctx (s, c) = Ok
      (mk_hdc (<[t := he_set_ckc (he_ckc e + 1) e]> (hd_entries s)) (hd_cpls s) (hd_next s)
         (hd_cmd_q s) (hd_cpl_q s) (S (hd_polls s)) (hd_sent s ++ [m]),
       fc_set_wdma (<[k := req']> (fc_wdma c)) (fc_set_cmd (<[k := mk_fw t (Some fn) ctx]> (fc_cmd c)) c)).
Proof.
  intros Hk Hreq [f Hf] He Hp. do 2 eexists. split; [|split; [reflexivity|]];
    [|unfold fw_send_wdma_req; cbn [fst snd]; rewrite Hk; cbn [mbind res_bind];
      rewrite (aread_Some _ _ _ Hreq); cbn [mbind res_bind]; unfold __get_host_cmd_entry;
      rewrite (aread_Some _ _ _ He); cbn [mbind res_bind]; unfold bind_itnl_cmd;
      rewrite (aread_Some _ _ _ Hf); cbn [mbind res_bind]; unfold send_phif_wdma_req, send_msg;
      rewrite Hp, decide_False by lia; cbn [mbind res_bind];
      rewrite (on_entry_ok _ _ _ _ e) by exact He; reflexivity].
  reflexivity.
Qed.
End admin_lemmas.

(** ** Properties *)

(** A write-DMA request never tells the hardware where the data is: the copy to the
    port starts at the first optional quadword whatever the flags say, so with the flag
    of the address alone the words that go out do not depend on the buffer's address. *)
Lemma wdma_address_not_sent (avail : nat → bool) (W R arg HDC_EXT_TAG : Z) (find : Z → Z → Z → Z)
    (ha ca ca' len t ctx : Z) (fn : fw_cmd_callback) (x x1 x2 : hdc * fwc) :
  (∀ valid req, ∃ n, copy_words wdma_flags valid (wdma_words req) = take n (wdma_words req)) ∧
  (fw_send_wdma_req avail W R arg HDC_EXT_TAG find ha ca len t fn ctx x = Ok x1 →
   fw_send_wdma_req avail W R arg HDC_EXT_TAG find ha ca' len t fn ctx x = Ok x2 →
   hd_sent x1.1 = hd_sent x2.1).
Proof.
  split.
  - intros valid req. eexists. apply copy_words_prefix.
  - intros H1 H2. apply send_wdma_sent in H1 as (k1 & r1 & Hk1 & Hr1 & ->).
    apply send_wdma_sent in H2 as (k2 & r2 & Hk2 & Hr2 & ->).
    rewrite Hk1 in Hk2. injection Hk2 as <-. rewrite Hr1 in Hr2. by injection Hr2 as <-.
Qed.

(** The chunks of a command: after all [n] responses of a command that was cut into
    [n] chunks, [n - 1] completions have been sent instead of one: the first before the
    data has moved, and none at all for a command of one chunk. *)
Lemma chunk_completions (avail : nat → bool) (k t : Z) (statuses : list Z) (s : hdc) (c : fwc)
    (ctx : Z) (e : host_entry) :
  (∀ p, avail p = true) → fc_cmd c !! k = Some (mk_fw t (Some host_cmd_rwdma_completion) ctx) →
  hd_entries s !! t = Some e → is_Some (hd_cpls s !! t) →
  statuses ≠ [] → he_ckc e = Z.of_nat (length statuses) → he_ckc e < 2 ^ 8 →
  ∃ s' c', mfor statuses (phif_rwdma_response_to_hdc avail k) (s, c) = Ok (s', c') ∧
    cpl_tags (hd_sent s') = cpl_tags (hd_sent s) ++ repeat (he_cmd_tag e) (length statuses - 1).
Proof.
  intros Hav Hfw. revert s c e Hfw. induction statuses as [|st sts IH]; [done|].
  intros s c e Hfw He [cpl Hc] _ Hn Hlt. cbn [mfor length] in *.
  rewrite (response_ok _ _ _ _ _ _ _ cpl Hfw eq_refl He Hc (Hav _)). cbn [mbind res_bind fw_host_tag].
  rewrite Z.mod_small by lia. set (e' := he_set_ckc _ _).
  assert (he_cmd_tag e' = he_cmd_tag e) as Htag by (unfold e'; cbn; by case_decide).
  assert (he_ckc e' = Z.of_nat (length sts)) as Hck.
  { unfold e'. cbn. rewrite Z.mod_small; lia. }
  destruct sts as [|st' sts].
  - rewrite decide_False by (cbn in *; lia). eexists _, _. split; [reflexivity|]. by rewrite app_nil_r.
  - rewrite decide_True by (cbn in *; lia).
    destruct (IH (mk_hdc (<[t := e']> (hd_entries s)) (<[t := setup_phif_cmd_cpl cpl e']> (hd_cpls s))
      (hd_next s) (hd_cmd_q s) (hd_cpl_q s) (S (hd_polls s))
      (hd_sent s ++ [M_cpl (setup_phif_cmd_cpl cpl e')])) (fw_free_itnl_tag k c) e')
      as (s' & c' & Hrun & Hsent); [done|apply lookup_insert_eq| |done|done|lia|].
    { cbn. rewrite lookup_insert_eq. eauto. }
    exists s', c'. split; [exact Hrun|]. rewrite Hsent, Htag. unfold cpl_tags. cbn [hd_sent].
    rewrite omap_app, <-app_assoc. cbn [omap list_omap app cp_header setup_phif_cmd_cpl h_tag].
    rewrite Htag. cbn [length Nat.sub repeat]. by rewrite Nat.sub_0_r.
Qed.

(** Identify with a data pointer that is not aligned to a page is completed twice for
    one command: at once by the handler's return value, before any data has moved, and
    again by the response to the first of its two chunks — whose requests went out under
    the same internal tag, since no tag is ever marked as used. *)
Lemma identify_completes_twice (avail : nat → bool) (W R HDC_EXT_TAG : Z) (find : Z → Z → Z → Z)
    (rdma : phif_wdma_req → Z → hdc → Z * hdc) (other : Z → Z → hdc * fwc → res (Z * (hdc * fwc)))
    (ns_addr : Z → Z) (ctrl_addr cur max_id max_size MAX_LBA hxts HOSTBAND : Z) (shl32 : Z → Z)
    (fuel : nat) (s : hdc) (c : fwc) (cmd : hdc_nvme_cmd) (e0 : host_entry) (req : phif_wdma_req) :
  let k := u16 (find (fc_itnl_tag c) 0 31) in let tag := cm_tag cmd in
  idle s → (∀ p, avail p = true) → 0 ≤ tag < 256 → cm_sqid cmd = 0 →
  sq_opcode (cm_sqe cmd) = nvme_admin_identify → Z.land (sq_flags (cm_sqe cmd)) NVME_CMD_SGL_ALL = 0 →
  idn_cns (cm_sqe cmd) = 1 → page_offset (sq_prp1 (cm_sqe cmd)) ≠ 0 →
  hd_entries s !! tag = Some e0 → he_ckc e0 = 0 →
  fc_wdma c !! k = Some req → is_Some (fc_cmd c !! k) →
  ∃ x1 x2,
    hdc_task avail W R W HDC_EXT_TAG find rdma other ns_addr ctrl_addr cur max_id max_size
      MAX_LBA hxts HOSTBAND shl32 fuel cmd (s, c) = Ok x1 ∧
    phif_rwdma_response_to_hdc avail k 0 x1 = Ok x2 ∧
    cpl_tags (hd_sent x1.1) = cpl_tags (hd_sent s) ++ [tag] ∧
    cpl_tags (hd_sent x2.1) = cpl_tags (hd_sent s) ++ [tag; tag] ∧
    wdma_tags (hd_sent x1.1) = wdma_tags (hd_sent s) ++ [u8 k; u8 k].
Proof.
  intros k tag [He Hc Hn _ _] Hav Ht Hsq Hop Hfl Hcns Hpo He0 Hck Hreq Hfw.
  destruct (Hc tag Ht) as [c0 Hc0].
  assert (u8 tag = tag) as Hu by (apply u8_small; lia).
  assert (∀ c', fc_itnl_tag c' = fc_itnl_tag c → fw_alloc_itnl_tag W R find W c' = Ok k) as Hk.
  { intros c' E. unfold fw_alloc_itnl_tag. rewrite decide_True by done. cbn. by rewrite E. }
  set (e := save_cmd cmd e0).
  destruct (send_wdma_ok avail W R HDC_EXT_TAG find W (sq_prp1 (cm_sqe cmd)) ctrl_addr 4096 tag
    host_cmd_rwdma_completion tag (put_entry tag e s) c k req e) as (r1 & m1 & Hh1 & Hm1 & Hs1);
    [by apply Hk|done|done|apply put_entry_lookup|apply Hav|].
  set (x1 := mk_hdc _ _ _ _ _ _ _) in Hs1. set (d1 := fc_set_wdma _ _) in Hs1.
  destruct (send_wdma_ok avail W R HDC_EXT_TAG find W (sq_prp2 (cm_sqe cmd))
    (u64 (ctrl_addr + 4096)) (page_offset (sq_prp1 (cm_sqe cmd))) tag
    host_cmd_rwdma_completion tag x1 d1 k r1 (he_set_ckc 1 e)) as (r2 & m2 & Hh2 & Hm2 & Hs2);
    [by apply Hk|apply lookup_insert_eq|cbn; rewrite lookup_insert_eq; eauto| |apply Hav|].
  { unfold x1. cbn -[he_set_ckc]. rewrite lookup_insert_eq. do 2 f_equal. cbn. by rewrite Hck. }
  set (x2 := mk_hdc _ _ _ _ _ _ _) in Hs2. set (d2 := fc_set_wdma _ _) in Hs2.
  assert (hd_entries x2 !! tag = Some (he_set_ckc 2 e)) as He2.
  { unfold x2. cbn -[he_set_ckc]. by rewrite lookup_insert_eq. }
  unfold hdc_task, hdc_host_cmd_task. fold tag. cbn [fst snd].
  rewrite (with_entry_ok _ _ _ _ He0). cbn [mbind res_bind]. rewrite decide_True by done.
  rewrite (identify_unaligned _ _ _ _ _ _ _ _ _ _ _ _ _ _ _ _ e (put_entry_lookup tag e s) Hfl Hop Hcns Hpo).
  change (he_cmd_tag e) with (u8 tag). rewrite Hu.
  change (he_sqe e) with (cm_sqe cmd). unfold NVME_IDENTIFY_DATA_SIZE. rewrite Hs1. cbn [mbind res_bind]. rewrite Hs2.
  cbn [mbind res_bind fst snd]. rewrite decide_False by done.
  rewrite (complete_directly_ok _ _ _ _ c0 He2) by done. rewrite Hav. cbn [mbind res_bind].
  eexists (_, _), _. split; [reflexivity|].
  erewrite response_ok; [|apply lookup_insert_eq|reflexivity|exact He2|apply lookup_insert_eq|apply Hav].
  split; [reflexivity|]. rewrite decide_True by done. unfold x2, x1. cbn [fst hd_sent put_entry hd_set_entries].
  unfold cpl_tags, wdma_tags. rewrite !omap_app, Hm1, Hm2. cbn.
  rewrite (decide_False (P := 0 ≠ 0)) by lia. cbn. change (u8 (cm_tag cmd)) with (u8 tag).
  rewrite Hu, Hh1, Hh2, !app_nil_r, <-!app_assoc. done.
Qed.

(** ** Witnesses *)

Definition wdma0 : phif_wdma_req := mk_wdma (mk_qw0 0 0 0 0 0 0 0 0 0 0 0 0 0) 0 0 0 77 0 0 0.
Definition fwc0 : fwc :=
  mk_fwc {[0 := mk_fw 4 (Some host_cmd_rwdma_completion) 4]} 0 {[0 := wdma0]} {[0 := wdma0]} ∅
    queue_init queue_init 0 0 (mk_identify ∅ 0).

(** The finder of zero bits that gives the first bit of the range, which is right when no
    bit is set. *)
Definition find_first (bitmap first last : Z) : Z := first.

Lemma wdma_address_not_sent_witness :
  ∃ x1 x2,
    fw_send_wdma_req (λ _, true) 1 2 1 0 find_first 0x5000 0x111 64 4 host_cmd_rwdma_completion 4
      (hdc0, fwc0) = Ok x1 ∧
    fw_send_wdma_req (λ _, true) 1 2 1 0 find_first 0x5000 0x222 64 4 host_cmd_rwdma_completion 4
      (hdc0, fwc0) = Ok x2 ∧ hd_sent x1.1 = hd_sent x2.1.
Proof.
  destruct (send_wdma_ok (λ _, true) 1 2 0 find_first 1 0x5000 0x111 64 4 host_cmd_rwdma_completion 4
    hdc0 fwc0 0 wdma0 entry0) as (r1 & m1 & _ & _ & H1);
    [reflexivity|reflexivity|eexists; reflexivity|apply hdc0_entry; lia|reflexivity|].
  destruct (send_wdma_ok (λ _, true) 1 2 0 find_first 1 0x5000 0x222 64 4 host_cmd_rwdma_completion 4
    hdc0 fwc0 0 wdma0 entry0) as (r2 & m2 & _ & _ & H2);
    [reflexivity|reflexivity|eexists; reflexivity|apply hdc0_entry; lia|reflexivity|].
  eexists _, _. split; [exact H1|]. split; [exact H2|].
  exact (proj2 (wdma_address_not_sent _ _ _ _ _ _ _ _ _ _ _ _ _ _ _ _) H1 H2).
Defined.

(** Tag 4 waits for three chunks. *)
Definition hdc_chunks (n : Z) : hdc := put_entry 4 (he_set_ckc n (mk_he 4 0 0 0 0 0 [] 0 0 0 0)) hdc0.

Lemma chunk_completions_witness :
  ∃ s' c', mfor [0; 0; 0] (phif_rwdma_response_to_hdc (λ _, true) 0) (hdc_chunks 3, fwc0) = Ok (s', c') ∧
    cpl_tags (hd_sent s') = [4; 4].
Proof.
  destruct (chunk_completions (λ _, true) 0 4 [0; 0; 0] (hdc_chunks 3) fwc0 4
    (he_set_ckc 3 (mk_he 4 0 0 0 0 0 [] 0 0 0 0))) as (s' & c' & H1 & H2);
    [done|reflexivity|apply put_entry_lookup| |discriminate|reflexivity|reflexivity|].
  - eexists. by apply (all_tags_lookup cpl0).
  - exists s', c'. split; [exact H1|exact H2].
Defined.

(** Identify controller, tag 4, data pointer at offset 64 of a page. *)
Definition identify_cmd : hdc_nvme_cmd :=
  mk_cmd 4 0 0 0 0 [6; 0; 0; 0; 0; 0; 0x8040; 0; 0x9000; 0; 1; 0; 0; 0; 0; 0].

Lemma identify_completes_twice_witness :
  ∃ x1 x2,
    hdc_task (λ _, true) 1 2 1 0 find_first (λ _ _ s, (0, s)) (λ _ _ x, Ok (0, x)) (λ k, k) 0x1000 0
      8 256 1000 0 0 (λ _, 0) 1 identify_cmd (hdc0, fwc0) = Ok x1 ∧
    phif_rwdma_response_to_hdc (λ _, true) 0 0 x1 = Ok x2 ∧
    cpl_tags (hd_sent x2.1) = [4; 4] ∧ wdma_tags (hd_sent x1.1) = [0; 0].
Proof.
  destruct (identify_completes_twice (λ _, true) 1 2 0 find_first (λ _ _ s, (0, s))
    (λ _ _ x, Ok (0, x)) (λ k, k) 0x1000 0 8 256 1000 0 0 (λ _, 0) 1 hdc0 fwc0 identify_cmd entry0 wdma0)
    as (x1 & x2 & H1 & H2 & _ & H3 & H4);
    [exact idle_hdc0|done|cbn; lia|done|done|done|done|vm_compute; discriminate
    |apply hdc0_entry; cbn; lia|done|reflexivity|eexists; reflexivity|].
  exists x1, x2. split_and!; [exact H1|exact H2|exact H3|exact H4].
Defined.
