(* ===== verification/FwTyped.v ===== *)
(** * Firmware: every message fits its bit fields

    The message structures of [FW-Base/include/msg_fmt.h] are bit fields, and the model
    writes their values as numbers.  This file states the widths ([fits]), takes the new
    commands, the hardware's responses and the responses to the firmware's own DMA of
    [FwFlow] and [FwAdmin] as the steps of a transition system, and shows that in every
    reachable state the entries, the completions, the DMA requests and all messages sent
    are within the widths the source declares. *)

From S2P Require Import Prelude FwQueue FwNvme FwFlow FwAdmin.

#[local] Open Scope Z_scope.

(** The value of a field of [w] bits. *)
Definition fits (w v : Z) : Prop := 0 ≤ v < 2 ^ w.
Definition ofits (w : Z) (o : option Z) : Prop := from_option (fits w) True o.

Lemma fits_mod w v : 0 ≤ w → fits w (v mod 2 ^ w).
Proof. intros. apply Z.mod_pos_bound. lia. Qed.
Lemma fits_u8 v : fits 8 (u8 v).
Proof. by apply fits_mod. Qed.
Lemma fits_get_bits lo w v : 0 ≤ lo → 0 ≤ w → fits w (get_bits lo w v).
Proof. apply get_bits_range. Qed.
#[export] Hint Resolve fits_u8 : ftl.

Lemma Ok_inj {A} (a b : A) : Ok a = Ok b → a = b.
Proof. by intros [=]. Qed.

(** ** The declared widths *)

(** [host_nvme_cmd_entry] *)
Record entry_typed (e : host_entry) : Prop := {
  et_tag : fits 8 (he_cmd_tag e);
  et_state : FLOW_INITIAL ≤ he_state e ≤ FLOW_COMPLETE;
  et_sqid : fits 8 (he_sqid e);
  et_vfa : fits 1 (he_vfa e);
  et_port : fits 1 (he_port e);
  et_vf : fits 4 (he_vf e);
  et_sc : fits 8 (he_sta_sc e);
  et_sct : fits 4 (he_sta_sct e);
  et_ckc : fits 8 (he_ckc e);
}.

(** [struct msg_qw0] *)
Record header_typed (h : msg_qw0) : Prop := {
  ht_cnt : fits 4 (h_cnt h);
  ht_dstfifo : fits 4 (h_dstfifo h);
  ht_dst : fits 5 (h_dst h);
  ht_prio : fits 1 (h_prio h);
  ht_msgid : fits 8 (h_msgid h);
  ht_tag : fits 8 (h_tag h);
  ht_ext_tag : fits 4 (h_ext_tag h);
  ht_src : fits 5 (h_src h);
  ht_vfa : fits 1 (h_vfa h);
  ht_port : fits 1 (h_port h);
  ht_vf : fits 4 (h_vf h);
  ht_sqid : fits 8 (h_sqid h);
  ht_hxts : fits 6 (h_hxts_mode h);
}.

(** [phif_cmd_req] *)
Record req_typed (r : phif_cmd_req) : Prop := {
  rt_header : header_typed (rq_header r);
  rt_cpa : fits 32 (rq_cpa r);
  rt_hmeta : fits 3 (rq_hmeta_size r);
  rt_cph : fits 2 (rq_cph_size r);
  rt_lb : ofits 2 (rq_lb_size r);
  rt_crc : fits 1 (rq_crc_en r);
  rt_dps : fits 4 (rq_dps r);
  rt_flbas : fits 5 (rq_flbas r);
  rt_cache : fits 1 (rq_cache_en r);
  rt_band : ofits 8 (rq_band_rdtype r);
  rt_elba : ofits 35 (rq_elba r);
}.

(** A completion: the status has 16 bits, and its lowest, the phase, is the hardware's. *)
Record cpl_typed (c : phif_cmd_cpl) : Prop := {
  ct_header : header_typed (cp_header c);
  ct_status : fits 16 (cp_status c);
  ct_phase : Z.testbit (cp_status c) 0 = false;
}.

(** [phif_wdma_req]; the addresses and the payload words have no field narrower than the
    word. *)
Record wdma_typed (r : phif_wdma_req) : Prop := {
  wt_header : header_typed (wd_header r);
  wt_blen : fits 15 (wd_blen r);
  wt_qwn : fits 4 (wd_pld_qwn r);
  wt_cbuff : fits 36 (wd_cbuff_addr r);
}.

Definition msg_typed (m : msg) : Prop :=
  match m with
  | M_req r => req_typed r
  | M_cpl c => cpl_typed c
  | M_wdma h blen qwn _ _ => header_typed h ∧ fits 15 blen ∧ fits 4 qwn
  end.

Record hdc_typed (s : hdc) : Prop := {
  hy_entries : map_Forall (λ _, entry_typed) (hd_entries s);
  hy_cpls : map_Forall (λ _, cpl_typed) (hd_cpls s);
  hy_sent : Forall msg_typed (hd_sent s);
}.

(** The format of every namespace has a two-bit [cphs]. *)
Definition ids_typed (ids : identify) : Prop :=
  map_Forall (λ _ ns, map_Forall (λ _ l, fits 2 (lf_cphs l)) (ns_lbaf ns)) (gat_identify_namespaces ids).

(** ** Updates of an entry *)

Lemma typed_set_state v e :
  FLOW_INITIAL ≤ v ≤ FLOW_COMPLETE → entry_typed e → entry_typed (he_set_state v e).
Proof. intros Hv []. by constructor. Qed.

Lemma typed_set_status sct sc e : entry_typed e → entry_typed (set_host_cmd_staus sct sc e).
Proof.
  intros He. constructor;
    [apply (et_tag _ He)|apply (et_state _ He)|apply (et_sqid _ He)|apply (et_vfa _ He)
    |apply (et_port _ He)|apply (et_vf _ He)|apply fits_u8|by apply (fits_mod 4)|apply (et_ckc _ He)].
Qed.

Lemma typed_save cmd e : entry_typed e → entry_typed (save_cmd cmd e).
Proof.
  intros He. constructor;
    [apply fits_u8|apply (et_state _ He)|apply fits_u8|by apply (fits_mod 1)|by apply (fits_mod 1)
    |by apply (fits_mod 4)|apply (et_sc _ He)|apply (et_sct _ He)|apply (et_ckc _ He)].
Qed.

#[export] Hint Resolve typed_set_state typed_set_status typed_save : ftl.

(** ** The messages *)

Section typed.
Context (avail : nat → bool) (MAX_LBA hxts HOSTBAND : Z) (shl32 : Z → Z) (ids : identify).
Context (Hids : ids_typed ids).

Lemma setup_req_typed e req :
  entry_typed e → setup_phif_cmd_req hxts HOSTBAND shl32 ids e = Ok req → req_typed req.
Proof using Hids.
  intros He H. unfold setup_phif_cmd_req in H.
  apply bind_Ok in H as (k & _ & H). apply bind_Ok in H as (ns & Hns & H). apply aread_Ok in Hns.
  apply bind_Ok in H as (lbaf & Hlb & H). apply aread_Ok in Hlb. apply Ok_inj in H as <-.
  constructor; cbn [rq_header rq_cpa rq_hmeta_size rq_cph_size rq_lb_size rq_crc_en rq_dps rq_flbas
    rq_cache_en rq_band_rdtype rq_elba].
  - destruct He. constructor; cbn [h_cnt h_dstfifo h_dst h_prio h_msgid h_tag h_ext_tag h_src h_vfa
      h_port h_vf h_sqid h_hxts_mode]; first [assumption|by apply (fits_mod 6)|done].
  - by apply fits_mod.
  - by apply (fits_mod 3).
  - exact (Hids _ _ Hns _ _ Hlb).
  - repeat case_decide; done.
  - done.
  - by apply (fits_mod 4).
  - by apply (fits_mod 5).
  - by case_decide.
  - unfold read_band. repeat case_decide; first [apply fits_u8|done].
  - destruct (bool_decide _); [done|]. by apply (fits_mod 35).
Qed.

Lemma setup_cpl_typed c e : cpl_typed c → entry_typed e → cpl_typed (setup_phif_cmd_cpl c e).
Proof.
  intros [[] _ _] []. constructor; cbn [cp_header cp_status setup_phif_cmd_cpl].
  - by constructor.
  - unfold cqe_status. by apply fits_mod.
  - unfold cqe_status, u16. rewrite Z.mod_pow2_bits_low, Z.lor_spec by lia.
    by rewrite !Z.shiftl_spec_low by lia.
Qed.

(** ** Every operation keeps the types *)

Definition keeps (f : hdc → res hdc) : Prop := ∀ s s', hdc_typed s → f s = Ok s' → hdc_typed s'.

Lemma put_entry_typed tag e s : hdc_typed s → entry_typed e → hdc_typed (put_entry tag e s).
Proof. intros [] He. constructor; [by apply map_Forall_insert_2|done|done]. Qed.

Lemma with_entry_typed tag f :
  (∀ e, entry_typed e → entry_typed (f e)) → keeps (with_entry tag f).
Proof.
  intros Hf s s' Hs H. unfold with_entry, __get_host_cmd_entry in H. inv_ok.
  apply put_entry_typed; [done|]. apply Hf. by eapply hy_entries.
Qed.

Lemma queues_typed es cs h q1 q2 n l h' q1' q2' n' :
  hdc_typed (mk_hdc es cs h q1 q2 n l) → hdc_typed (mk_hdc es cs h' q1' q2' n' l).
Proof. by intros []. Qed.

Lemma enqueue_cmd_typed tag : keeps (enqueue_cmd tag).
Proof. intros [] s' Hs H. unfold enqueue_cmd in H. inv_ok. by eapply queues_typed. Qed.
Lemma enqueue_front_cmd_typed tag : keeps (enqueue_front_cmd tag).
Proof. intros [] s' Hs H. unfold enqueue_front_cmd in H. inv_ok. by eapply queues_typed. Qed.
Lemma enqueue_front_cpl_typed tag : keeps (enqueue_front_cpl tag).
Proof. intros [] s' Hs H. unfold enqueue_front_cpl in H. inv_ok. by eapply queues_typed. Qed.

Lemma get_next_typed s n s' :
  hdc_typed s → get_next_host_cmd_entry s = Ok (n, s') → hdc_typed s'.
Proof.
  destruct s. intros Hs H. unfold get_next_host_cmd_entry in H.
  destruct (queue_empty _); inv_ok; by eapply queues_typed.
Qed.

Lemma send_msg_typed m b s s' :
  hdc_typed s → msg_typed m → send_msg avail m s = (b, s') → hdc_typed s'.
Proof.
  intros [] Hm H. unfold send_msg in H. destruct (avail _); simplify_eq; [|by constructor].
  constructor; [done..|]. apply Forall_app. split; [done|]. by constructor.
Qed.

Lemma prepare_cpl_typed tag e s s' :
  hdc_typed s → entry_typed e → prepare_cpl tag e s = Ok s' → hdc_typed s'.
Proof.
  intros Hs He H. unfold prepare_cpl in H. inv_ok. destruct Hs. constructor; [done| |done].
  apply map_Forall_insert_2; [|done]. apply setup_cpl_typed; [|done]. by eapply hy_cpls0.
Qed.

Lemma typed_entry s tag e : hdc_typed s → hd_entries s !! tag = Some e → entry_typed e.
Proof. intros Hs. apply (hy_entries _ Hs). Qed.
Lemma typed_cpl s tag c : hdc_typed s → hd_cpls s !! tag = Some c → cpl_typed c.
Proof. intros Hs. apply (hy_cpls _ Hs). Qed.

Lemma state_typed tag v :
  FLOW_INITIAL ≤ v ≤ FLOW_COMPLETE → keeps (with_entry tag (he_set_state v)).
Proof. intros Hv. apply with_entry_typed. intros e He. by apply typed_set_state. Qed.

Ltac state_step H := eapply state_typed in H; [|done || (split; done)|eassumption].

Lemma flow_req_typed tag req : (∀ r, req = Some r → req_typed r) → keeps (flow_req avail tag req).
Proof.
  intros Hreq s s' Hs H. unfold flow_req in H. apply bind_Ok in H as (r & Hr & H).
  apply deref_Ok in Hr. destruct (send_phif_cmd_req avail r s) as [b s1] eqn:Hsend.
  eapply send_msg_typed in Hsend; [|done|by apply Hreq].
  case_decide; apply bind_Ok in H as (s2 & H2 & H).
  - eapply enqueue_front_cmd_typed in H2; [|exact Hsend]. by state_step H.
  - state_step H2. by state_step H.
Qed.

Lemma flow_queued_typed tag : keeps (flow_queued avail hxts HOSTBAND shl32 ids tag).
Proof using Hids.
  intros s s' Hs H. unfold flow_queued, __get_host_cmd_entry in H.
  apply bind_Ok in H as (e & He & H). apply aread_Ok in He.
  apply bind_Ok in H as (req & Hreq & H). apply bind_Ok in H as (s1 & H1 & H).
  state_step H1. eapply flow_req_typed; [|exact H1|exact H].
  intros r [= <-]. eapply setup_req_typed; [exact (typed_entry _ _ _ Hs He)|exact Hreq].
Qed.

Lemma flow_cpl_typed tag s b s' : hdc_typed s → flow_cpl avail tag s = Ok (b, s') → hdc_typed s'.
Proof.
  intros Hs H. unfold flow_cpl, __get_host_cmd_entry in H.
  apply bind_Ok in H as (e & He & H). apply bind_Ok in H as (c & Hc & H). apply aread_Ok in Hc.
  destruct (send_phif_cmd_cpl avail c s) as [busy s1] eqn:Hsend.
  eapply send_msg_typed in Hsend; [|done|by eapply typed_cpl].
  case_decide; apply bind_Ok in H as (s2 & H2 & H); apply bind_Ok in H as (s3 & H3 & H);
    apply Ok_inj in H; simplify_eq.
  - eapply enqueue_front_cpl_typed in H2; [|exact Hsend]. by state_step H3.
  - state_step H2. by state_step H3.
Qed.

Lemma flow_has_rsp_typed tag s b s' :
  hdc_typed s → flow_has_rsp avail tag s = Ok (b, s') → hdc_typed s'.
Proof.
  intros Hs H. unfold flow_has_rsp, __get_host_cmd_entry in H.
  apply bind_Ok in H as (e & He & H). apply aread_Ok in He. apply bind_Ok in H as (s1 & H1 & H).
  apply bind_Ok in H as (s2 & H2 & H). eapply flow_cpl_typed; [|exact H].
  eapply prepare_cpl_typed in H1; [|done|exact (typed_entry _ _ _ Hs He)].
  by state_step H2.
Qed.

Lemma flow_switch_typed tag s b s' :
  hdc_typed s → flow_switch avail hxts HOSTBAND shl32 ids tag s = Ok (b, s') → hdc_typed s'.
Proof using Hids.
  intros Hs H. unfold flow_switch in H. apply bind_Ok in H as (e & He & H).
  repeat case_decide; try (apply Ok_inj in H; by simplify_eq);
    lazymatch type of H with
    | flow_has_rsp _ _ _ = _ => by eapply flow_has_rsp_typed
    | flow_cpl _ _ _ = _ => by eapply flow_cpl_typed
    | _ => apply bind_Ok in H as (s1 & Hs1 & H); apply Ok_inj in H; simplify_eq
    end; [by eapply flow_queued_typed|by state_step Hs1..].
Qed.

Lemma write_flow_typed fuel tag : keeps (write_datapath_hdc avail hxts HOSTBAND shl32 ids fuel tag).
Proof using Hids.
  revert tag. induction fuel as [|fuel IH]; intros tag s s' Hs H; [done|]. cbn in H.
  apply bind_Ok in H as ([b s1] & H1 & H). eapply flow_switch_typed in H1; [|done].
  destruct b; [|apply Ok_inj in H; by simplify_eq/=]. cbn in H.
  apply bind_Ok in H as ([n s2] & H2 & H). eapply get_next_typed in H2; [|done].
  destruct n as [next|]; cbn in H; [exact (IH next s2 s' H2 H)|apply Ok_inj in H; by simplify_eq/=].
Qed.

Lemma response_typed fuel tag sct sc :
  keeps (phif_cmd_response_to_hdc avail hxts HOSTBAND shl32 ids fuel tag sct sc).
Proof using Hids.
  intros s s' Hs H. unfold phif_cmd_response_to_hdc in H. apply bind_Ok in H as (s1 & H1 & H).
  eapply with_entry_typed in H1; [|intros e; apply typed_set_status|done].
  apply bind_Ok in H as (e & _ & H). case_decide; [|apply Ok_inj in H; by subst].
  apply bind_Ok in H as (s2 & Hs2 & H). rewrite flow_of_write in H.
  eapply write_flow_typed; [|exact H]. by state_step Hs2.
Qed.

Lemma status_typed tag sct sc : keeps (with_entry tag (set_host_cmd_staus sct sc)).
Proof. apply with_entry_typed. intros e. apply typed_set_status. Qed.

Lemma io_command_typed fuel tag s r s' :
  hdc_typed s →
  handle_nvme_io_command avail MAX_LBA hxts HOSTBAND shl32 ids fuel tag s = Ok (r, s') → hdc_typed s'.
Proof using Hids.
  intros Hs H. unfold handle_nvme_io_command in H. apply bind_Ok in H as (e & _ & H).
  case_decide; [apply bind_Ok in H as (s1 & H1 & H); apply Ok_inj in H; simplify_eq; by eapply status_typed|].
  destruct (nvme_nsid_valid _ _);
    [apply bind_Ok in H as (s1 & H1 & H); apply Ok_inj in H; simplify_eq; by eapply status_typed|].
  apply bind_Ok in H as (s1 & H1 & H). eapply enqueue_cmd_typed in H1; [|done].
  apply bind_Ok in H as (s2 & H2 & H).
  assert (hdc_typed s2) as Hs2.
  { case_decide; [by state_step H2|apply Ok_inj in H2; by subst]. }
  apply bind_Ok in H as ([n s3] & H3 & H). eapply get_next_typed in H3; [|done].
  apply bind_Ok in H as (t & _ & H). cbn [snd] in H.
  case_decide; [|case_decide; [apply Ok_inj in H; by simplify_eq|]];
    apply bind_Ok in H as (s4 & Hs4 & H); apply Ok_inj in H; simplify_eq.
  - rewrite flow_of_write in Hs4. exact (write_flow_typed _ _ _ _ H3 Hs4).
  - exact (status_typed _ _ _ _ _ H3 Hs4).
Qed.

Lemma complete_directly_typed tag : keeps (complete_directly avail tag).
Proof.
  intros s s' Hs H. unfold complete_directly, __get_host_cmd_entry in H.
  apply bind_Ok in H as (e & He & H). apply aread_Ok in He. apply bind_Ok in H as (s1 & H1 & H).
  eapply prepare_cpl_typed in H1; [|done|exact (typed_entry _ _ _ Hs He)].
  apply bind_Ok in H as (c & Hc & H). apply aread_Ok in Hc.
  destruct (send_phif_cmd_cpl avail c s1) as [busy s2] eqn:Hsend.
  eapply send_msg_typed in Hsend; [|done|by eapply typed_cpl].
  case_decide; [by eapply enqueue_front_cpl_typed|apply Ok_inj in H; by subst].
Qed.

(** A new command, with any handler of admin commands that keeps the types. *)
Lemma task_typed {X} (Q : X → Prop) admin fuel cmd s x s' x' :
  (∀ tag s x r s' x', hdc_typed s → Q x → admin tag (s, x) = Ok (r, (s', x')) → hdc_typed s' ∧ Q x') →
  hdc_typed s → Q x →
  hdc_host_cmd_task avail MAX_LBA hxts HOSTBAND shl32 ids admin fuel cmd (s, x) = Ok (s', x') →
  hdc_typed s' ∧ Q x'.
Proof using Hids.
  intros Hadm Hs Hx H. unfold hdc_host_cmd_task in H. apply bind_Ok in H as (s1 & H1 & H).
  eapply with_entry_typed in H1; [|intros e; apply typed_save|done].
  apply bind_Ok in H as ([r [s2 x2]] & H2 & H).
  assert (hdc_typed s2 ∧ Q x2) as [Hs2 Hx2].
  { destruct (decide (cm_sqid cmd = 0)); [exact (Hadm _ _ _ _ _ _ H1 Hx H2)|].
    apply bind_Ok in H2 as ([r' s3] & H3 & H2). eapply io_command_typed in H3; [|exact H1].
    apply Ok_inj in H2. by simplify_eq/=. }
  cbn [fst snd] in H. case_decide; [apply Ok_inj in H; by simplify_eq|].
  apply bind_Ok in H as (s4 & Hs4 & H). apply Ok_inj in H. simplify_eq.
  by eapply complete_directly_typed in Hs4.
Qed.
End typed.

(** ** Admin commands and the firmware's DMA *)

Record fwc_typed (c : fwc) : Prop := {
  ft_wdma : map_Forall (λ _, wdma_typed) (fc_wdma c);
  ft_rdma : map_Forall (λ _, wdma_typed) (fc_rdma c);
  ft_ids : ids_typed (fc_ids c);
}.

Definition fw_typed (x : fstate) : Prop := hdc_typed x.1 ∧ fwc_typed x.2.

Definition fkeeps (f : fstate → res fstate) : Prop := ∀ x x', fw_typed x → f x = Ok x' → fw_typed x'.
Definition hkeeps (f : fstate → res (Z * fstate)) : Prop :=
  ∀ x r x', fw_typed x → f x = Ok (r, x') → fw_typed x'.

Lemma typed_set_ckc v e : entry_typed e → entry_typed (he_set_ckc v e).
Proof. intros []. constructor; [assumption..|]. apply fits_u8. Qed.
Lemma typed_set_sc v e : entry_typed e → entry_typed (he_set_sc v e).
Proof. intros []. constructor; [assumption..|apply fits_u8|assumption|assumption]. Qed.
Lemma typed_set_result v e : entry_typed e → entry_typed (he_set_result v e).
Proof. intros []. by constructor. Qed.

Lemma header_filled_typed h cnt dstfifo dst msgid tag ext_tag src sriov :
  header_typed h → header_typed (msg_header_filled h cnt dstfifo dst msgid tag ext_tag src sriov).
Proof.
  intros []. constructor; cbn [h_cnt h_dstfifo h_dst h_prio h_msgid h_tag h_ext_tag h_src h_vfa
    h_port h_vf h_sqid h_hxts_mode msg_header_filled];
    first [assumption|apply fits_u8|by apply (fits_mod 4)|by apply (fits_mod 5)|by apply fits_get_bits|done].
Qed.

Lemma on_entry_typed tag f : (∀ e, entry_typed e → entry_typed (f e)) → fkeeps (on_entry tag f).
Proof.
  intros Hf x x' [Hs Hc] H. unfold on_entry in H. apply bind_Ok in H as (s & Hs1 & H).
  apply Ok_inj in H as <-. split; [|done]. exact (with_entry_typed _ _ Hf _ _ Hs Hs1).
Qed.

Lemma status_keeps tag sct sc : fkeeps (on_entry tag (set_host_cmd_staus sct sc)).
Proof. apply on_entry_typed. intros e. apply typed_set_status. Qed.

Section admin_typed.
Context (avail : nat → bool) (W R arg EXT : Z) (find : Z → Z → Z → Z).
Context (send_rdma : phif_wdma_req → Z → hdc → Z * hdc).
Context (other : Z → Z → fstate → res (Z * fstate)).
Context (ns_addr : Z → Z) (ctrl_addr cur_lba max_id max_size : Z).
Context (Hrdma : ∀ r v s, wdma_typed r → hdc_typed s → hdc_typed (send_rdma r v s).2).
Context (Hother : ∀ fid tag, hkeeps (other fid tag)).

Lemma bind_itnl_same k t fn ctx c c' :
  bind_itnl_cmd k t fn ctx c = Ok c' →
  fc_wdma c' = fc_wdma c ∧ fc_rdma c' = fc_rdma c ∧ fc_ids c' = fc_ids c.
Proof. unfold bind_itnl_cmd. intros H. inv_ok. done. Qed.

Lemma filled_req_typed r id k len ha ca :
  wdma_typed r →
  wdma_typed (mk_wdma (msg_header_filled (wd_header r) 6 MSG_NID_PHIF MSG_NID_PHIF id k EXT MSG_NID_HDC 0)
    (u16 len mod 2 ^ 15) 1 ha (wd_pi r) (ca mod 2 ^ 36) (wd_wdata0 r) (wd_wdata1 r)).
Proof.
  intros []. constructor; cbn [wd_header wd_blen wd_pld_qwn wd_cbuff_addr];
    [by apply header_filled_typed|by apply (fits_mod 15)|done|by apply (fits_mod 36)].
Qed.

(** The end of both sends: a busy port puts the command in a pending queue. *)
Lemma send_end_typed t (b : Z) (enq : res fwc) c s x' :
  hdc_typed s → fwc_typed c → (∀ c', enq = Ok c' → fwc_typed c') →
  (c ← (if decide (b ≠ 0) then enq else Ok c); on_entry t (λ e, he_set_ckc (he_ckc e + 1) e) (s, c))
    = Ok x' → fw_typed x'.
Proof.
  intros Hs Hc Henq H. apply bind_Ok in H as (c' & Hc' & H).
  apply on_entry_typed in H; [done|intros e; apply typed_set_ckc|]. split; [done|].
  cbn [snd]. case_decide; [by apply Henq|]. by apply Ok_inj in Hc' as <-.
Qed.

Lemma send_wdma_typed ha ca len t fn ctx : fkeeps (fw_send_wdma_req avail W R arg EXT find ha ca len t fn ctx).
Proof.
  intros x x' [Hs [Hw Hr Hi]] H. unfold fw_send_wdma_req in H. apply bind_Ok in H as (k & _ & H).
  apply bind_Ok in H as (r & Hreq & H). apply aread_Ok in Hreq. apply bind_Ok in H as (e & _ & H).
  apply bind_Ok in H as (c & Hc & H). apply bind_itnl_same in Hc as (Hc1 & Hc2 & Hc3). cbv zeta in H.
  pose proof (filled_req_typed r MSGID_PHIF_WDMA_REQ k len ha ca (Hw _ _ Hreq)) as Hq.
  destruct (send_phif_wdma_req _ _ _ _) as [b s] eqn:Hsend.
  apply send_msg_typed in Hsend; [|done|by destruct Hq].
  eapply send_end_typed, H; [done| |].
  - constructor; cbn; [|by rewrite Hc2|by rewrite Hc3]. rewrite Hc1. by apply map_Forall_insert_2.
  - intros c' Hc'. apply bind_Ok in Hc' as (r' & _ & Hc'). apply Ok_inj in Hc' as <-.
    constructor; cbn; [|by rewrite Hc2|by rewrite Hc3]. rewrite Hc1. by apply map_Forall_insert_2.
Qed.

Lemma send_rdma_typed ha ca len t fn ctx :
  fkeeps (fw_send_rdma_req W R arg EXT find send_rdma ha ca len t fn ctx).
Proof using Hrdma.
  intros x x' [Hs [Hw Hr Hi]] H. unfold fw_send_rdma_req in H. apply bind_Ok in H as (k & _ & H).
  apply bind_Ok in H as (r & Hreq & H). apply aread_Ok in Hreq. apply bind_Ok in H as (e & _ & H).
  apply bind_Ok in H as (c & Hc & H). apply bind_itnl_same in Hc as (Hc1 & Hc2 & Hc3). cbv zeta in H.
  pose proof (filled_req_typed r MSGID_PHIF_RDMA_REQ k len ha ca (Hr _ _ Hreq)) as Hq.
  pose proof (Hrdma _ RWDMA_QW_ADDR _ Hq Hs) as Hs'.
  destruct (send_rdma _ _ _) as [b s] eqn:Hsend.
  eapply send_end_typed, H; [done| |].
  - constructor; cbn; [by rewrite Hc1| |by rewrite Hc3]. rewrite Hc2. by apply map_Forall_insert_2.
  - intros c' Hc'. apply bind_Ok in Hc' as (r' & _ & Hc'). apply Ok_inj in Hc' as <-.
    constructor; cbn; [by rewrite Hc1| |by rewrite Hc3]. rewrite Hc2. by apply map_Forall_insert_2.
Qed.

Lemma dptr_typed p1 p2 ca len t fn ctx :
  fkeeps (wdma_cbuff_to_host_dptr avail W R arg EXT find p1 p2 ca len t fn ctx).
Proof.
  intros x x' Hx H. unfold wdma_cbuff_to_host_dptr in H.
  case_decide; [exact (send_wdma_typed _ _ _ _ _ _ _ _ Hx H)|].
  apply bind_Ok in H as (x1 & H1 & H). apply send_wdma_typed in H1; [|done].
  exact (send_wdma_typed _ _ _ _ _ _ _ _ H1 H).
Qed.

(** ** Handlers *)

Lemma entry_handler_typed f tag :
  (∀ e, entry_typed e → entry_typed (f e).2) → hkeeps (entry_handler f tag).
Proof.
  intros Hf x r x' [Hs Hc] H. unfold entry_handler, __get_host_cmd_entry in H.
  apply bind_Ok in H as (e & He & H). apply aread_Ok in He.
  pose proof (Hf e (typed_entry _ _ _ Hs He)) as Hfe. destruct (f e) as [r' e'].
  apply Ok_inj in H. simplify_eq. split; [by apply put_entry_typed|done].
Qed.

(** The handlers of the queues leave the entry as it is or store a status. *)
Lemma queue_handlers_typed e :
  entry_typed e →
  entry_typed (handle_admin_create_cq max_id max_size e).2 ∧
  entry_typed (handle_admin_create_sq max_id e).2 ∧
  entry_typed (handle_admin_delete_cq max_id e).2 ∧ entry_typed (handle_admin_delete_sq max_id e).2.
Proof.
  intros He. unfold handle_admin_create_cq, handle_admin_create_sq, handle_admin_delete_cq,
    handle_admin_delete_sq. split_and!; repeat case_decide; cbn [snd]; auto using typed_set_status.
Qed.

Lemma format_typed tag : hkeeps (format_nvm tag).
Proof.
  intros x r x' [Hs Hc] H. unfold format_nvm, __get_host_cmd_entry in H.
  apply bind_Ok in H as (e & He & H). apply aread_Ok in He. pose proof (typed_entry _ _ _ Hs He) as Hte.
  apply bind_Ok in H as ([[r' e'] i'] & Hf & H). apply Ok_inj in H. simplify_eq/=.
  assert (entry_typed e' ∧ ids_typed i') as [He' Hi'].
  { destruct Hc as [_ _ Hi]. unfold handle_admin_format_nvm in Hf. apply bind_Ok in Hf as (k & _ & Hf).
    destruct (nvme_nsid_valid _ _).
    { apply Ok_inj in Hf. simplify_eq. split; [by apply typed_set_status|done]. }
    apply bind_Ok in Hf as (n & Hn & Hf). apply aread_Ok in Hn. apply Ok_inj in Hf. simplify_eq.
    split; [done|]. apply map_Forall_insert_2; [exact (Hi _ _ Hn)|exact Hi]. }
  split; [by apply put_entry_typed|]. by destruct Hc.
Qed.

Lemma invalid_field_typed tag x r x' :
  fw_typed x →
  (x ← on_entry tag (set_host_cmd_staus NVME_SCT_GENERIC NVME_SC_INVALID_FIELD) x;
   Ok (NVME_REQUEST_INVALID, x)) = Ok (r, x') → fw_typed x'.
Proof.
  intros Hx H. apply bind_Ok in H as (x1 & H1 & H). apply Ok_inj in H. simplify_eq.
  exact (status_keeps _ _ _ _ _ Hx H1).
Qed.

Lemma identify_typed tag :
  hkeeps (handle_admin_identify avail W R arg EXT find ns_addr ctrl_addr tag).
Proof.
  intros x r x' Hx H. unfold handle_admin_identify in H. apply bind_Ok in H as (e & _ & H).
  case_decide; [apply bind_Ok in H as (k & _ & H)|case_decide; [|apply Ok_inj in H; by simplify_eq]];
    apply bind_Ok in H as (x1 & Hx1 & H); apply Ok_inj in H; simplify_eq; exact (dptr_typed _ _ _ _ _ _ _ _ _ Hx Hx1).
Qed.

Lemma set_queues_typed tag : hkeeps (setft_queue_number tag).
Proof.
  intros x r x' Hx H. unfold setft_queue_number in H. apply bind_Ok in H as (e & _ & H).
  case_decide; [exact (invalid_field_typed _ _ _ _ Hx H)|]. apply Ok_inj in H. simplify_eq.
  destruct Hx as [? []]. split; [done|]. by constructor.
Qed.

Lemma set_ranges_typed tag : hkeeps (setft_lba_range_type W R arg EXT find send_rdma cur_lba tag).
Proof using Hrdma.
  intros x r x' Hx H. unfold setft_lba_range_type in H. apply bind_Ok in H as (e & _ & H).
  apply bind_Ok in H as (x1 & Hx1 & H). apply Ok_inj in H. simplify_eq.
  exact (send_rdma_typed _ _ _ _ _ _ _ _ Hx Hx1).
Qed.

Lemma set_feature_typed tag : hkeeps (handle_admin_set_feature other tag).
Proof using Hother.
  intros x r x' Hx H. unfold handle_admin_set_feature, gat_set_feature_func in H.
  apply bind_Ok in H as (e & _ & H). case_decide; [|exact (invalid_field_typed _ _ _ _ Hx H)].
  case_decide; [exact (set_queues_typed _ _ _ _ Hx H)|exact (Hother _ _ _ _ _ Hx H)].
Qed.

Lemma get_feature_typed tag :
  hkeeps (handle_admin_get_feature W R arg EXT find send_rdma other cur_lba tag).
Proof using Hrdma Hother.
  intros x r x' Hx H. unfold handle_admin_get_feature, gat_get_feature_func in H.
  apply bind_Ok in H as (e & _ & H). case_decide; [|exact (invalid_field_typed _ _ _ _ Hx H)].
  case_decide; [exact (set_ranges_typed _ _ _ _ Hx H)|].
  case_decide; [done|exact (Hother _ _ _ _ _ Hx H)].
Qed.

Lemma admin_command_typed tag :
  hkeeps (handle_nvme_admin_command avail W R arg EXT find send_rdma other ns_addr ctrl_addr cur_lba
    max_id max_size tag).
Proof using Hrdma Hother.
  intros x r x' Hx H. unfold handle_nvme_admin_command in H. apply bind_Ok in H as (e & _ & H).
  pose proof queue_handlers_typed as Hq.
  case_decide; [exact (invalid_field_typed _ _ _ _ Hx H)|].
  do 4 (case_decide; [eapply entry_handler_typed; [|exact Hx|exact H]; intros e' He'; by apply (Hq e')|]).
  case_decide; [exact (identify_typed _ _ _ _ Hx H)|].
  case_decide; [exact (set_feature_typed _ _ _ _ Hx H)|].
  case_decide; [exact (get_feature_typed _ _ _ _ Hx H)|].
  case_decide; [exact (format_typed _ _ _ _ Hx H)|]. apply Ok_inj in H. by simplify_eq.
Qed.

(** ** Responses to the firmware's DMA *)

Lemma callback_typed fn ctx : fkeeps (run_callback fn ctx).
Proof.
  intros x x' Hx H. destruct fn; cbn in H; [apply Ok_inj in H; by subst..|].
  eapply on_entry_typed; [|exact Hx|exact H]. intros e. apply typed_set_result.
Qed.

Lemma rwdma_response_typed k status : fkeeps (phif_rwdma_response_to_hdc avail k status).
Proof.
  intros x x' Hx H. unfold phif_rwdma_response_to_hdc in H. apply bind_Ok in H as (fw & _ & H).
  apply bind_Ok in H as (x1 & H1 & H).
  assert (fw_typed x1) as Hx1.
  { case_decide; [|apply Ok_inj in H1; by subst].
    eapply on_entry_typed; [|exact Hx|exact H1]. intros e. apply typed_set_sc. }
  apply bind_Ok in H as (x2 & H2 & H).
  apply on_entry_typed in H2; [|intros e; apply typed_set_ckc|done].
  apply bind_Ok in H as (e & _ & H). apply bind_Ok in H as (x3 & H3 & H). apply Ok_inj in H as <-.
  assert (fw_typed x3) as [Hs3 Hc3]; [|split; [done|by destruct Hc3]].
  case_decide; [|apply Ok_inj in H3; by subst].
  apply bind_Ok in H3 as (fn & _ & H3). apply bind_Ok in H3 as (x4 & H4 & H3).
  destruct (callback_typed _ _ _ _ H2 H4) as [Hs4 Hc4].
  apply bind_Ok in H3 as (e4 & He4 & H3). apply aread_Ok in He4. apply bind_Ok in H3 as (s & Hs & H3).
  eapply prepare_cpl_typed in Hs; [|done|exact (typed_entry _ _ _ Hs4 He4)].
  apply bind_Ok in H3 as (cpl & Hcpl & H3). apply aread_Ok in Hcpl.
  destruct (send_phif_cmd_cpl avail cpl s) as [busy s5] eqn:Hsend.
  eapply send_msg_typed in Hsend; [|done|exact (typed_cpl _ _ _ Hs Hcpl)].
  apply bind_Ok in H3 as (s6 & H6 & H3). apply Ok_inj in H3 as <-. split; [|done].
  case_decide; [by eapply enqueue_front_cpl_typed in H6|apply Ok_inj in H6; by subst].
Qed.
End admin_typed.

(** ** The transition system *)

Section system.
Context (avail : nat → bool) (W R arg EXT : Z) (find : Z → Z → Z → Z).
Context (send_rdma : phif_wdma_req → Z → hdc → Z * hdc).
Context (other : Z → Z → fstate → res (Z * fstate)).
Context (ns_addr : Z → Z) (ctrl_addr cur_lba max_id max_size : Z).
Context (MAX_LBA hxts HOSTBAND : Z) (shl32 : Z → Z).

(** A command arrives, the hardware responds to a command, or to a DMA request of the
    firmware.  Each step reads the port as often as it needs. *)
Inductive fstep : fstate → fstate → Prop :=
  | fstep_command fuel cmd x x' :
      hdc_task avail W R arg EXT find send_rdma other ns_addr ctrl_addr cur_lba max_id max_size
        MAX_LBA hxts HOSTBAND shl32 fuel cmd x = Ok x' → fstep x x'
  | fstep_response fuel tag sct sc s s' c :
      phif_cmd_response_to_hdc avail hxts HOSTBAND shl32 (fc_ids c) fuel tag sct sc s = Ok s' →
      fstep (s, c) (s', c)
  | fstep_rwdma k status x x' : phif_rwdma_response_to_hdc avail k status x = Ok x' → fstep x x'.

Lemma fstep_typed :
  (∀ r v s, wdma_typed r → hdc_typed s → hdc_typed (send_rdma r v s).2) →
  (∀ fid tag, hkeeps (other fid tag)) →
  ∀ x x', fstep x x' → fw_typed x → fw_typed x'.
Proof.
  intros Hrdma Hother x x' [fuel cmd [s c] [s' c'] H|fuel tag sct sc s s' c H|k status y y' H] Hx.
  - destruct Hx as [Hs Hc]. eapply (task_typed avail MAX_LBA hxts HOSTBAND shl32 (fc_ids c) (ft_ids _ Hc) fwc_typed);
      [|exact Hs|exact Hc|exact H].
    intros tag s0 c0 r s1 c1 Hs0 Hc0 H0.
    change (fw_typed (s1, c1)). unshelve eapply (admin_command_typed _ _ _ _ _ _ _ _ _ _ _ _ _ _ _ _ (s0, c0));
      [..|by split|exact H0]; done.
  - destruct Hx as [Hs Hc]. split; [|done]. eapply response_typed; [exact (ft_ids _ Hc)|exact Hs|exact H].
  - by eapply rwdma_response_typed.
Qed.
End system.

Lemma hdc0_typed : hdc_typed hdc0.
Proof.
  constructor; [| |constructor]; intros t x Hx; apply lookup_gset_to_gmap_Some in Hx as [_ <-];
    by repeat constructor.
Qed.


Lemma fwc0_typed : fwc_typed fwc0.
Proof.
  constructor; [apply map_Forall_singleton; by repeat constructor..|apply map_Forall_empty].
Qed.

