(* ===== verification/PbAddr.v ===== *)
(** * pblk: addresses

    The 64-bit [struct ppa_addr] of include/linux/lightnvm.h, its conversions between the
    generic format, the format of a device and linear numbers, and the address helpers of
    drivers/lightnvm/pblk.h: an entry of the translation map is a generic address, a line of
    the write buffer ("cacheline") or [ADDR_EMPTY]; within a line of blocks a sector has a
    number, whose bit fields [pblk_set_ppaf] of pblk-init.c lays out.

    A bit field narrower than [int] is promoted to [int] before it is shifted, so the shifts
    of [pblk_ppa_to_line_addr] and the masks of [__dev_to_generic_addr] are computed in 32
    bits ([s32]).  The geometry is positive where the code divides by it. *)

From S2P Require Import Prelude Kernel.

#[local] Open Scope Z_scope.

(** ** [struct ppa_addr] *)

Definition ADDR_EMPTY : Z := 2 ^ 64 - 1.

Definition NVM_BLK_BITS : Z := 16.
Definition NVM_PG_BITS : Z := 16.
Definition NVM_SEC_BITS : Z := 8.
Definition NVM_PL_BITS : Z := 8.
Definition NVM_LUN_BITS : Z := 8.
Definition NVM_CH_BITS : Z := 7.

Definition g_blk (p : Z) : Z := get_bits 0 NVM_BLK_BITS p.
Definition g_pg (p : Z) : Z := get_bits 16 NVM_PG_BITS p.
Definition g_sec (p : Z) : Z := get_bits 32 NVM_SEC_BITS p.
Definition g_pl (p : Z) : Z := get_bits 40 NVM_PL_BITS p.
Definition g_lun (p : Z) : Z := get_bits 48 NVM_LUN_BITS p.
Definition g_ch (p : Z) : Z := get_bits 56 NVM_CH_BITS p.

Definition set_g_blk (v p : Z) : Z := set_bits 0 NVM_BLK_BITS v p.
Definition set_g_pg (v p : Z) : Z := set_bits 16 NVM_PG_BITS v p.
Definition set_g_sec (v p : Z) : Z := set_bits 32 NVM_SEC_BITS v p.
Definition set_g_pl (v p : Z) : Z := set_bits 40 NVM_PL_BITS v p.
Definition set_g_lun (v p : Z) : Z := set_bits 48 NVM_LUN_BITS v p.
Definition set_g_ch (v p : Z) : Z := set_bits 56 NVM_CH_BITS v p.

Definition c_line (p : Z) : Z := get_bits 0 63 p.
Definition c_is_cached (p : Z) : Z := get_bits 63 1 p.

Definition ppa_empty (p : Z) : bool := bool_decide (p = ADDR_EMPTY).

(** Two addresses in the same block. *)
Definition ppa_cmp_blk (p1 p2 : Z) : bool :=
  if ppa_empty p1 || ppa_empty p2 then false
  else bool_decide (g_ch p1 = g_ch p2 ∧ g_lun p1 = g_lun p2 ∧ g_blk p1 = g_blk p2).

(** ** Geometry *)

Record nvm_addr_format : Type := mk_af {
  ch_offset : Z; ch_len : Z; lun_offset : Z; lun_len : Z; pln_offset : Z; pln_len : Z;
  blk_offset : Z; blk_len : Z; pg_offset : Z; pg_len : Z; sect_offset : Z; sect_len : Z;
}.

Record nvm_geo : Type := mk_geo {
  nr_chnls : Z;
  nr_luns : Z;
  luns_per_chnl : Z;
  nr_planes : Z;
  sec_per_pg : Z;
  pgs_per_blk : Z;
  blks_per_lun : Z;
  sec_size : Z;
  geo_ppaf : nvm_addr_format;
  plane_mode : Z;
  sec_per_pl : Z;
  sec_per_blk : Z;
  sec_per_lun : Z;
}.

Definition linear_to_generic_addr (geo : nvm_geo) (pba : Z) : Z :=
  let p := set_g_sec (pba mod sec_per_pg geo) 0 in
  let ppa := pba / sec_per_pg geo in
  let p := set_g_pg (ppa mod pgs_per_blk geo) p in
  let ppa := ppa / pgs_per_blk geo in
  let p := set_g_blk (ppa mod blks_per_lun geo) p in
  let ppa := ppa / blks_per_lun geo in
  let p := set_g_lun (ppa mod luns_per_chnl geo) p in
  let ppa := ppa / luns_per_chnl geo in
  set_g_ch ppa p.

Definition shl64 (v off : Z) : Z := u64 (Z.shiftl v off).

Definition __generic_to_dev_addr (geo : nvm_geo) (r : Z) : Z :=
  let f := geo_ppaf geo in
  Z.lor (Z.lor (Z.lor (Z.lor (Z.lor (shl64 (g_blk r) (blk_offset f)) (shl64 (g_pg r) (pg_offset f)))
    (shl64 (g_sec r) (sect_offset f))) (shl64 (g_pl r) (pln_offset f)))
    (shl64 (g_lun r) (lun_offset f))) (shl64 (g_ch r) (ch_offset f)).

(** [(r.ppa >> off) & ((1 << len) - 1)]. *)
Definition dev_field (r off len : Z) : Z := Z.land (Z.shiftr r off) (u64 (s32 (s32 (Z.shiftl 1 len) - 1))).

Definition __dev_to_generic_addr (geo : nvm_geo) (r : Z) : Z :=
  let f := geo_ppaf geo in
  let l := set_g_blk (dev_field r (blk_offset f) (blk_len f)) 0 in
  let l := set_g_pg (Z.lor (g_pg l) (dev_field r (pg_offset f) (pg_len f))) l in
  let l := set_g_sec (Z.lor (g_sec l) (dev_field r (sect_offset f) (sect_len f))) l in
  let l := set_g_pl (Z.lor (g_pl l) (dev_field r (pln_offset f) (pln_len f))) l in
  let l := set_g_lun (Z.lor (g_lun l) (dev_field r (lun_offset f) (lun_len f))) l in
  set_g_ch (Z.lor (g_ch l) (dev_field r (ch_offset f) (ch_len f))) l.

(** ** Lines *)

Record pblk_addr_format : Type := mk_paf {
  ch_mask : Z; lun_mask : Z; pln_mask : Z; blk_mask : Z; pg_mask : Z; sec_mask : Z;
  p_ch_offset : Z; p_lun_offset : Z; p_pln_offset : Z; p_blk_offset : Z; p_pg_offset : Z;
  p_sec_offset : Z;
}.

Definition pblk_ppa_to_line (p : Z) : Z := g_blk p.

(** A block within a line corresponds to the LUN. *)
Definition pblk_ppa_to_pos (geo : nvm_geo) (p : Z) : Z := g_lun p * nr_chnls geo + g_ch p.

(** [p.g.x << off], an [int]. *)
Definition shl_int (v off : Z) : Z := u64 (s32 (Z.shiftl v off)).

Definition pblk_ppa_to_line_addr (f : pblk_addr_format) (p : Z) : Z :=
  Z.lor (Z.lor (Z.lor (Z.lor (Z.lor 0 (shl_int (g_pg p) (p_pg_offset f)))
    (shl_int (g_lun p) (p_lun_offset f))) (shl_int (g_ch p) (p_ch_offset f)))
    (shl_int (g_pl p) (p_pln_offset f))) (shl_int (g_sec p) (p_sec_offset f)).

Definition addr_to_gen_ppa (f : pblk_addr_format) (paddr line_id : Z) : Z :=
  let p := set_g_blk line_id 0 in
  let p := set_g_pg (Z.shiftr (Z.land paddr (pg_mask f)) (p_pg_offset f)) p in
  let p := set_g_lun (Z.shiftr (Z.land paddr (lun_mask f)) (p_lun_offset f)) p in
  let p := set_g_ch (Z.shiftr (Z.land paddr (ch_mask f)) (p_ch_offset f)) p in
  let p := set_g_pl (Z.shiftr (Z.land paddr (pln_mask f)) (p_pln_offset f)) p in
  set_g_sec (Z.shiftr (Z.land paddr (sec_mask f)) (p_sec_offset f)) p.

Definition nvm_addr_in_cache (p : Z) : bool := bool_decide (p ≠ ADDR_EMPTY ∧ c_is_cached p ≠ 0).
Definition nvm_addr_to_cacheline (p : Z) : Z := c_line p.

(** Both bit fields are written, so the word does not depend on what [p] held. *)
Definition pblk_cacheline_to_ppa (addr : Z) : Z := set_bits 63 1 1 (set_bits 0 63 addr 0).
Definition pblk_dev_addr_to_ppa (addr : Z) : Z := set_bits 63 1 0 (u64 addr).

(** The page offset of a generic address within its block. *)
Definition pblk_gaddr_to_pg_offset (geo : nvm_geo) (p : Z) : Z :=
  u64 (s32 (s32 (g_pg p * sec_per_pl geo) + s32 (g_pl p * sec_per_pg geo) + g_sec p)).

(** Whether some address of a request lies outside the device. *)
Definition ppa_in_bounds (geo : nvm_geo) (p : Z) : bool :=
  bool_decide (c_is_cached p = 0 ∧ g_ch p < nr_chnls geo ∧ g_lun p < nr_luns geo ∧
    g_pl p < nr_planes geo ∧ g_blk p < blks_per_lun geo ∧ g_pg p < pgs_per_blk geo ∧
    g_sec p < sec_per_pg geo).

Fixpoint pblk_boundary_checks (geo : nvm_geo) (ppas : list Z) : Z :=
  match ppas with
  | [] => 0
  | p :: ppas' => if ppa_in_bounds geo p then pblk_boundary_checks geo ppas' else 1
  end.

(** [get_count_order] is a function of the kernel. *)
Section set_ppaf.
Context (get_count_order : Z → Z).

Definition mask_at (len off : Z) : Z := u64 (Z.shiftl (u64 (u64 (Z.shiftl 1 len) - 1)) off).

(** [pblk_set_ppaf]: the return value, and the format if it was set. *)
Definition pblk_set_ppaf (geo : nvm_geo) : Z * option pblk_addr_format :=
  let f := geo_ppaf geo in
  let ch_power := get_count_order (nr_chnls geo) in
  if decide (s32 (Z.shiftl 1 ch_power) ≠ nr_chnls geo) then (- EINVAL, None)
  else
    let lun_power := get_count_order (luns_per_chnl geo) in
    if decide (s32 (Z.shiftl 1 lun_power) ≠ luns_per_chnl geo) then (- EINVAL, None)
    else
      let ch_len := u8 ch_power in
      let lun_len := u8 lun_power in
      let pln_off := u8 (sect_len f) in
      let ch_off := u8 (pln_off + pln_len f) in
      let lun_off := u8 (ch_off + ch_len) in
      let pg_off := u8 (lun_off + lun_len) in
      let blk_off := u8 (pg_off + pg_len f) in
      (0, Some (mk_paf (mask_at ch_len ch_off) (mask_at lun_len lun_off) (mask_at (pln_len f) pln_off)
                  (mask_at (blk_len f) blk_off) (mask_at (pg_len f) pg_off)
                  (u64 (u64 (Z.shiftl 1 (sect_len f)) - 1))
                  ch_off lun_off pln_off blk_off pg_off 0)).
End set_ppaf.

(** ** Words as unions of fields *)

Lemma testbit_small v len i : 0 ≤ v < 2 ^ len → len ≤ i → Z.testbit v i = false.
Proof. apply testbit_high. Qed.

(** Bit [i] of a value of [len] bits that was shifted to [off]. *)
Lemma testbit_shifted v off len i :
  0 ≤ off → 0 ≤ len → 0 ≤ v < 2 ^ len → 0 ≤ i →
  Z.testbit (Z.shiftl v off) i = bool_decide (off ≤ i < off + len) && Z.testbit v (i - off).
Proof.
  intros Ho Hl Hv Hi. rewrite Z.shiftl_spec by lia. case_bool_decide as Hc; [done|].
  destruct (decide (off ≤ i)).
  - rewrite (testbit_small v len) by lia. done.
  - by rewrite Z.testbit_neg_r by lia.
Qed.

Lemma shiftl_bound v off len :
  0 ≤ off → 0 ≤ len → 0 ≤ v < 2 ^ len → 0 ≤ Z.shiftl v off < 2 ^ (off + len).
Proof.
  intros. rewrite Z.shiftl_mul_pow2, Z.pow_add_r by lia.
  pose proof (Z.pow_pos_nonneg 2 off). nia.
Qed.

Lemma shl_int_small v off len :
  0 ≤ off → 0 ≤ len → off + len ≤ 31 → 0 ≤ v < 2 ^ len → shl_int v off = Z.shiftl v off.
Proof.
  intros ? ? Hs Hv. pose proof (shiftl_bound v off len) as Hb.
  assert (2 ^ (off + len) ≤ 2 ^ 31) by (apply Z.pow_le_mono_r; lia).
  assert (2 ^ 31 < 2 ^ 64) by lia.
  unfold shl_int. rewrite s32_small by lia. apply u64_small. lia.
Qed.

Lemma shl64_small v off len :
  0 ≤ off → 0 ≤ len → off + len ≤ 64 → 0 ≤ v < 2 ^ len → shl64 v off = Z.shiftl v off.
Proof.
  intros ? ? Hs Hv. pose proof (shiftl_bound v off len) as Hb.
  assert (2 ^ (off + len) ≤ 2 ^ 64) by (apply Z.pow_le_mono_r; lia).
  apply u64_small. lia.
Qed.

Lemma mask_at_ones len off :
  0 ≤ off → 0 ≤ len → off + len ≤ 63 → mask_at len off = Z.shiftl (Z.ones len) off.
Proof.
  intros Ho Hl Hs. unfold mask_at.
  assert (2 ^ len ≤ 2 ^ 63) by (apply Z.pow_le_mono_r; lia).
  assert (2 ^ 63 < 2 ^ 64) by lia. pose proof (Z.pow_pos_nonneg 2 len).
  rewrite Z.shiftl_1_l, (u64_small (2 ^ len)) by lia.
  rewrite (u64_small (2 ^ len - 1)) by lia.
  replace (2 ^ len - 1) with (Z.ones len) by (rewrite Z.ones_equiv; lia).
  apply u64_small. pose proof (shiftl_bound (Z.ones len) off len) as Hb.
  rewrite Z.ones_equiv in *.
  assert (2 ^ (off + len) ≤ 2 ^ 63) by (apply Z.pow_le_mono_r; lia). lia.
Qed.

(** The masked and shifted field of an address is the bit field. *)
Lemma masked_field paddr len off :
  0 ≤ off → 0 ≤ len → off + len ≤ 63 →
  Z.shiftr (Z.land paddr (mask_at len off)) off = get_bits off len paddr.
Proof.
  intros. rewrite mask_at_ones by lia. unfold get_bits. rewrite Z.shiftr_land. f_equal.
  rewrite Z.shiftr_shiftl_l, Z.sub_diag by lia. done.
Qed.

Lemma testbit_field_at off len x i :
  0 ≤ off → 0 ≤ len → 0 ≤ i →
  Z.testbit (Z.shiftl (get_bits off len x) off) i = bool_decide (off ≤ i < off + len) && Z.testbit x i.
Proof.
  intros. rewrite (testbit_shifted _ _ len) by (try apply get_bits_range; lia).
  case_bool_decide; [|done]. rewrite get_bits_testbit by lia.
  replace (i - off + off) with i by lia. by rewrite bool_decide_eq_true_2 by lia.
Qed.

Lemma get_bits_mod_small lo w v x :
  0 ≤ lo → 0 ≤ w → 0 ≤ v < 2 ^ w → get_bits lo w (set_bits lo w v x) = v.
Proof. intros. rewrite get_set_bits_eq by lia. by apply Z.mod_small. Qed.

(** Reads of the fields of a word under construction. *)
Ltac fields :=
  unfold g_blk, g_pg, g_sec, g_pl, g_lun, g_ch, set_g_blk, set_g_pg, set_g_sec, set_g_pl,
    set_g_lun, set_g_ch, NVM_BLK_BITS, NVM_PG_BITS, NVM_SEC_BITS, NVM_PL_BITS, NVM_LUN_BITS,
    NVM_CH_BITS in *;
  repeat first [rewrite get_bits_mod_small by lia | rewrite get_set_bits_ne by lia].

(** A word below [2^63] is made of its fields. *)
Lemma ppa_of_fields p :
  0 ≤ p < 2 ^ 63 →
  set_g_ch (g_ch p) (set_g_lun (g_lun p) (set_g_pl (g_pl p) (set_g_sec (g_sec p)
    (set_g_pg (g_pg p) (set_g_blk (g_blk p) 0))))) = p.
Proof.
  intros Hp. unfold set_g_blk, set_g_pg, set_g_sec, set_g_pl, set_g_lun, set_g_ch, g_blk, g_pg,
    g_sec, g_pl, g_lun, g_ch. unfold NVM_BLK_BITS, NVM_PG_BITS, NVM_SEC_BITS, NVM_PL_BITS,
    NVM_LUN_BITS, NVM_CH_BITS.
  apply Z.bits_inj'. intros i Hi. rewrite !set_bits_testbit by lia.
  repeat (case_bool_decide; [rewrite get_bits_testbit by lia; rewrite bool_decide_eq_true_2 by lia;
    cbn [andb]; f_equal; lia|]).
  rewrite Z.testbit_0_l. symmetry. apply testbit_high with 63; lia.
Qed.

(** The order of the fields does not matter. *)
Lemma set_bits_swap lo w v lo' w' v' x :
  0 ≤ lo → 0 ≤ w → 0 ≤ lo' → 0 ≤ w' → lo + w ≤ lo' ∨ lo' + w' ≤ lo →
  set_bits lo w v (set_bits lo' w' v' x) = set_bits lo' w' v' (set_bits lo w v x).
Proof.
  intros. apply Z.bits_inj'. intros i ?. rewrite !set_bits_testbit by lia.
  repeat case_bool_decide; try lia; done.
Qed.

Lemma set_bits_0_bound lo w v n :
  0 ≤ lo → 0 ≤ w → lo + w ≤ n → 0 ≤ set_bits lo w v 0 < 2 ^ n.
Proof. intros. apply set_bits_bound; lia || (split; [lia|apply Z.pow_pos_nonneg; lia]). Qed.

(** ** The numbers of the sectors of a line *)

(** A device whose fields fit: what [pblk_set_ppaf] does not check itself. *)
Record geo_fits (geo : nvm_geo) : Prop := {
  gf_ch : 0 < nr_chnls geo ≤ 128;
  gf_lun : 0 < luns_per_chnl geo ≤ 256;
  gf_sect : 0 ≤ sect_len (geo_ppaf geo) ≤ 8;
  gf_pln : 0 ≤ pln_len (geo_ppaf geo) ≤ 8;
  gf_pg : 0 ≤ pg_len (geo_ppaf geo) ≤ 16;
  gf_blk : 0 ≤ blk_len (geo_ppaf geo) ≤ 16;
}.

(** The bits of a sector number. *)
Definition line_bits (geo : nvm_geo) : Z :=
  sect_len (geo_ppaf geo) + pln_len (geo_ppaf geo) + Z.log2 (nr_chnls geo) +
  Z.log2 (luns_per_chnl geo) + pg_len (geo_ppaf geo).

Definition paf_of (sl pl cl ll gl bl : Z) : pblk_addr_format :=
  mk_paf (mask_at cl (sl + pl)) (mask_at ll (sl + pl + cl)) (mask_at pl sl)
    (mask_at bl (sl + pl + cl + ll + gl)) (mask_at gl (sl + pl + cl + ll)) (mask_at sl 0)
    (sl + pl) (sl + pl + cl) sl (sl + pl + cl + ll + gl) (sl + pl + cl + ll) 0.

Lemma shl1_power k n : s32 (Z.shiftl 1 k) = n → 0 < n ≤ 256 → 0 ≤ k ≤ 8 ∧ n = 2 ^ k ∧ Z.log2 n = k.
Proof.
  intros Hs Hn. destruct (decide (k < 0)) as [Hk|Hk].
  { rewrite Z.shiftl_1_l, Z.pow_neg_r in Hs by lia. rewrite s32_small in Hs by lia. lia. }
  rewrite Z.shiftl_1_l in Hs. destruct (decide (k < 31)) as [Hk2|Hk2].
  - assert (2 ^ k < 2 ^ 31) by (apply Z.pow_lt_mono_r; lia).
    rewrite s32_small in Hs by (split; [apply Z.pow_nonneg|]; lia).
    assert (k ≤ 8). { apply (Z.pow_le_mono_r_iff 2); lia. }
    split; [lia|]. split; [done|]. rewrite <-Hs. apply Z.log2_pow2. lia.
  - exfalso. unfold s32 in Hs. destruct (decide (k = 31)) as [->|].
    + rewrite Z.mod_small in Hs by lia. rewrite decide_False in Hs by lia. lia.
    + replace k with (32 + (k - 32)) in Hs by lia. rewrite Z.pow_add_r in Hs by lia.
      rewrite Z.mul_comm, Z.mod_mul in Hs by lia. rewrite decide_True in Hs by lia. lia.
Qed.

Lemma set_ppaf_ok goc geo paf :
  geo_fits geo → pblk_set_ppaf goc geo = (0, Some paf) →
  ∃ cl ll, 0 ≤ cl ≤ 7 ∧ 0 ≤ ll ≤ 8 ∧ nr_chnls geo = 2 ^ cl ∧ luns_per_chnl geo = 2 ^ ll ∧
    Z.log2 (nr_chnls geo) = cl ∧ Z.log2 (luns_per_chnl geo) = ll ∧
    paf = paf_of (sect_len (geo_ppaf geo)) (pln_len (geo_ppaf geo)) cl ll (pg_len (geo_ppaf geo))
            (blk_len (geo_ppaf geo)).
Proof.
  intros [] H. unfold pblk_set_ppaf in H. repeat case_decide; try done.
  destruct (shl1_power (goc (nr_chnls geo)) (nr_chnls geo)) as (K1 & K2 & K3); [lia..|].
  destruct (shl1_power (goc (luns_per_chnl geo)) (luns_per_chnl geo)) as (K4 & K5 & K6); [lia..|].
  exists (goc (nr_chnls geo)), (goc (luns_per_chnl geo)).
  assert (goc (nr_chnls geo) ≤ 7). { apply (Z.pow_le_mono_r_iff 2); lia. }
  split_and!; try lia; try done. injection H as <-. unfold paf_of.
  rewrite !u8_small by (rewrite ?u8_small; lia). f_equal.
  unfold mask_at. rewrite Z.shiftl_0_r. symmetry. apply u64_small, Z.mod_pos_bound. lia.
Qed.

(** C26: The sectors of a line are numbered without gaps: for every geometry that
    [pblk_set_ppaf] accepts and whose sector numbers have at most 31 bits, the address of
    sector [paddr] of line [id] is a device address of that line, on a channel and LUN of the
    device, from which the same number is read back. *)
Theorem line_addr_roundtrip (goc : Z → Z) (geo : nvm_geo) (paf : pblk_addr_format) (paddr id : Z) :
  geo_fits geo → line_bits geo ≤ 31 → pblk_set_ppaf goc geo = (0, Some paf) →
  0 ≤ paddr < 2 ^ line_bits geo → 0 ≤ id < 2 ^ 16 →
  let p := addr_to_gen_ppa paf paddr id in
  pblk_ppa_to_line_addr paf p = paddr ∧ pblk_ppa_to_line p = id ∧
  nvm_addr_in_cache p = false ∧ ppa_empty p = false ∧ 0 ≤ p < 2 ^ 63 ∧
  g_ch p < nr_chnls geo ∧ g_lun p < luns_per_chnl geo.
Proof.
  intros Hgf Hbits Hset Hpa Hid p.
  destruct (set_ppaf_ok _ _ _ Hgf Hset) as (cl & ll & Hcl & Hll & Hch & Hlun & Hlc & Hlch & ->).
  destruct Hgf. unfold line_bits in *. rewrite Hlc, Hlch in *.
  set (sl := sect_len _) in *. set (pl := pln_len _) in *. set (gl := pg_len _) in *.
  assert (p = set_g_sec (get_bits 0 sl paddr) (set_g_pl (get_bits sl pl paddr)
    (set_g_ch (get_bits (sl + pl) cl paddr) (set_g_lun (get_bits (sl + pl + cl) ll paddr)
    (set_g_pg (get_bits (sl + pl + cl + ll) gl paddr) (set_g_blk id 0)))))) as Hp.
  { unfold p, addr_to_gen_ppa, paf_of. cbn. rewrite !masked_field by lia. done. }
  clearbody p.
  assert (∀ lo w k, 0 ≤ lo → 0 ≤ w ≤ k → 0 ≤ get_bits lo w paddr < 2 ^ k) as Hw.
  { intros lo w k H1 H2. pose proof (get_bits_range lo w paddr H1 ltac:(lia)).
    assert (2 ^ w ≤ 2 ^ k) by (apply Z.pow_le_mono_r; lia). lia. }
  pose proof (Hw 0 sl 8 ltac:(lia) ltac:(lia)). pose proof (Hw sl pl 8 ltac:(lia) ltac:(lia)).
  pose proof (Hw (sl + pl) cl 7 ltac:(lia) ltac:(lia)).
  pose proof (Hw (sl + pl + cl) ll 8 ltac:(lia) ltac:(lia)).
  pose proof (Hw (sl + pl + cl + ll) gl 16 ltac:(lia) ltac:(lia)).
  assert (0 ≤ p < 2 ^ 63) as Hpb.
  { rewrite Hp. fields. repeat (apply set_bits_bound; [lia..|]). lia. }
  assert (g_blk p = id ∧ g_pg p = get_bits (sl + pl + cl + ll) gl paddr ∧
    g_lun p = get_bits (sl + pl + cl) ll paddr ∧ g_ch p = get_bits (sl + pl) cl paddr ∧
    g_pl p = get_bits sl pl paddr ∧ g_sec p = get_bits 0 sl paddr) as (F1 & F2 & F3 & F4 & F5 & F6).
  { rewrite Hp. fields. done. }
  split_and!; try done.
  - unfold pblk_ppa_to_line_addr, paf_of. cbn. rewrite F2, F3, F4, F5, F6.
    rewrite !(shl_int_small _ _ gl), (shl_int_small _ _ ll), (shl_int_small _ _ cl),
      (shl_int_small _ _ pl), (shl_int_small _ _ sl) by (try apply get_bits_range; lia).
    apply Z.bits_inj'. intros i Hi. rewrite !Z.lor_spec, Z.testbit_0_l, !testbit_field_at by lia.
    destruct (decide (i < sl + pl + cl + ll + gl)).
    + repeat case_bool_decide; try lia; by destruct (Z.testbit paddr i).
    + rewrite (testbit_high paddr (sl + pl + cl + ll + gl)) by lia.
      repeat case_bool_decide; lia || done.
  - apply bool_decide_eq_false_2. intros [_ Hc]. apply Hc. unfold c_is_cached.
    rewrite get_bits_div, Z.div_small by lia. done.
  - apply bool_decide_eq_false_2. unfold ADDR_EMPTY. lia.
  - lia.
  - lia.
  - rewrite F4, Hch. apply get_bits_range; lia.
  - rewrite F3, Hlun. apply get_bits_range; lia.
Qed.

(** Beyond 31 bits the shift of the page number reaches the sign of an [int], and the
    number read back is another one. *)
Definition geo_wide : nvm_geo :=
  mk_geo 128 32768 256 2 8 65536 65536 4096 (mk_af 0 0 0 0 0 1 0 16 0 16 0 3) 2 16 1048576 0.

Definition paf_wide : pblk_addr_format := paf_of 3 1 7 8 16 16.

Lemma line_addr_sign_extends :
  pblk_set_ppaf Z.log2_up geo_wide = (0, Some paf_wide) ∧
  pblk_ppa_to_line_addr paf_wide (addr_to_gen_ppa paf_wide (2 ^ 31) 5) = 2 ^ 64 - 2 ^ 31.
Proof. split; vm_compute; reflexivity. Qed.

Definition geo_small : nvm_geo :=
  mk_geo 4 8 2 2 4 256 64 4096 (mk_af 0 0 0 0 2 1 0 0 0 8 0 2) 2 8 2048 131072.

Definition paf_small : pblk_addr_format := paf_of 2 1 2 1 8 0.

Lemma line_addr_roundtrip_witness :
  pblk_ppa_to_line_addr paf_small (addr_to_gen_ppa paf_small 5000 7) = 5000.
Proof.
  apply (line_addr_roundtrip Z.log2_up geo_small paf_small 5000 7).
  - constructor; cbn; lia.
  - by vm_compute.
  - by vm_compute.
  - replace (line_bits geo_small) with 14 by reflexivity. lia.
  - lia.
Defined.

(** ** Generic addresses and device addresses *)

(** A device format: the fields do not overlap, and each fits its generic field. *)
Definition af_fields (f : nvm_addr_format) : list (Z * Z) :=
  [(blk_offset f, blk_len f); (pg_offset f, pg_len f); (sect_offset f, sect_len f);
   (pln_offset f, pln_len f); (lun_offset f, lun_len f); (ch_offset f, ch_len f)].

Definition apart (x y : Z * Z) : Prop := x.1 + x.2 ≤ y.1 ∨ y.1 + y.2 ≤ x.1.

Record af_ok (f : nvm_addr_format) : Prop := {
  af_len : blk_len f ≤ 16 ∧ pg_len f ≤ 16 ∧ sect_len f ≤ 8 ∧ pln_len f ≤ 8 ∧ lun_len f ≤ 8 ∧ ch_len f ≤ 7;
  af_off : Forall (λ x : Z * Z, 0 ≤ x.1 ∧ 0 ≤ x.2 ∧ x.1 + x.2 ≤ 64) (af_fields f);
  af_disj : ForallOrdPairs apart (af_fields f);
}.

(** A generic address of the device. *)
Definition fits_format (f : nvm_addr_format) (p : Z) : Prop :=
  0 ≤ p < 2 ^ 63 ∧ g_blk p < 2 ^ blk_len f ∧ g_pg p < 2 ^ pg_len f ∧ g_sec p < 2 ^ sect_len f ∧
  g_pl p < 2 ^ pln_len f ∧ g_lun p < 2 ^ lun_len f ∧ g_ch p < 2 ^ ch_len f.

Lemma dev_field_bits r off len :
  0 ≤ off → 0 ≤ len ≤ 30 → dev_field r off len = get_bits off len r.
Proof.
  intros Ho Hl. unfold dev_field, get_bits. f_equal. rewrite Z.shiftl_1_l.
  assert (2 ^ len ≤ 2 ^ 30) by (apply Z.pow_le_mono_r; lia). pose proof (Z.pow_pos_nonneg 2 len).
  rewrite (s32_small (2 ^ len)), (s32_small (2 ^ len - 1)), u64_small by lia.
  rewrite Z.ones_equiv. lia.
Qed.

(** A field is read back from a union of shifted fields when the others lie elsewhere. *)
Lemma get_bits_lor lo w x y : get_bits lo w (Z.lor x y) = Z.lor (get_bits lo w x) (get_bits lo w y).
Proof. unfold get_bits. by rewrite Z.shiftr_lor, Z.land_lor_distr_l. Qed.

Lemma get_bits_own v off len :
  0 ≤ off → 0 ≤ len → off + len ≤ 64 → 0 ≤ v < 2 ^ len → get_bits off len (shl64 v off) = v.
Proof.
  intros. rewrite (shl64_small v off len) by lia. unfold get_bits.
  rewrite Z.shiftr_shiftl_l, Z.sub_diag, Z.shiftl_0_r, Z.land_ones by lia. by apply Z.mod_small.
Qed.

Lemma get_bits_other v off len lo w :
  0 ≤ off → 0 ≤ len → off + len ≤ 64 → 0 ≤ v < 2 ^ len → 0 ≤ lo → 0 ≤ w →
  off + len ≤ lo ∨ lo + w ≤ off → get_bits lo w (shl64 v off) = 0.
Proof.
  intros. rewrite (shl64_small v off len) by lia. apply Z.bits_inj'. intros i Hi.
  rewrite get_bits_testbit, Z.testbit_0_l by lia. case_bool_decide; [|done].
  rewrite (testbit_shifted v off len) by lia. by rewrite bool_decide_eq_false_2 by lia.
Qed.

(** The union of the values [vs], each in its field of [fs]. *)
Fixpoint pack (fs : list (Z * Z)) (vs : list Z) : Z :=
  match fs, vs with
  | f :: fs', v :: vs' => Z.lor (shl64 v f.1) (pack fs' vs')
  | _, _ => 0
  end.

Definition holds_in (f : Z * Z) (v : Z) : Prop := 0 ≤ v < 2 ^ f.2.
Definition placed (f : Z * Z) : Prop := 0 ≤ f.1 ∧ 0 ≤ f.2 ∧ f.1 + f.2 ≤ 64.

Lemma pack_apart fs vs lo w :
  0 ≤ lo → 0 ≤ w → Forall placed fs → Forall2 holds_in fs vs → Forall (apart (lo, w)) fs →
  get_bits lo w (pack fs vs) = 0.
Proof.
  intros Hlo Hw Hfs Hvs Hap. induction Hvs as [|f v fs vs Hv _ IH]; [by apply get_bits_0|].
  apply Forall_cons in Hfs as [(? & ? & ?) Hfs]. apply Forall_cons in Hap as [Hf Hap].
  unfold apart, holds_in in *. cbn [fst snd] in *. cbn [pack].
  rewrite get_bits_lor, IH, (get_bits_other v _ f.2) by (done || lia). done.
Qed.

Lemma pack_get fs vs i f v :
  Forall placed fs → ForallOrdPairs apart fs → Forall2 holds_in fs vs →
  fs !! i = Some f → vs !! i = Some v → get_bits f.1 f.2 (pack fs vs) = v.
Proof.
  intros Hfs Hap Hvs. revert i. induction Hvs as [|f' v' fs vs Hv Hvs IH]; intros i; [done|].
  apply Forall_cons in Hfs as [(? & ? & ?) Hfs]. inversion Hap as [|? ? Ha Hap']; subst.
  cbn [pack]. destruct i as [|i]; cbn.
  - intros [= ->] [= ->]. rewrite get_bits_lor, (get_bits_own v) by done.
    rewrite (pack_apart fs vs), Z.lor_0_r; [done..|]. destruct f. exact Ha.
  - intros Hf Hv'. rewrite get_bits_lor, (IH Hfs Hap' i) by done.
    pose proof (proj1 (Forall_lookup _ _) Ha i f Hf) as Hd.
    pose proof (proj1 (Forall_lookup _ _) Hfs i f Hf) as (? & ? & ?).
    unfold apart, holds_in in *. rewrite (get_bits_other v' _ f'.2), Z.lor_0_l by (done || lia). done.
Qed.

Lemma generic_to_dev_pack geo p :
  __generic_to_dev_addr geo p =
  pack (af_fields (geo_ppaf geo)) [g_blk p; g_pg p; g_sec p; g_pl p; g_lun p; g_ch p].
Proof.
  unfold __generic_to_dev_addr. cbn [pack af_fields fst snd]. by rewrite Z.lor_0_r, !Z.lor_assoc.
Qed.

(** C33: An address of the device survives the way to the device's format and back, for
    every format whose fields do not overlap and fit their generic fields. *)
Theorem dev_addr_roundtrip (geo : nvm_geo) (p : Z) :
  af_ok (geo_ppaf geo) → fits_format (geo_ppaf geo) p →
  __dev_to_generic_addr geo (__generic_to_dev_addr geo p) = p.
Proof.
  intros [Hlen Hoff Hdisj] (Hp & F1 & F2 & F3 & F4 & F5 & F6). rewrite generic_to_dev_pack.
  unfold __dev_to_generic_addr. set (f := geo_ppaf geo) in *. clearbody f.
  set (w := pack _ _).
  assert (Forall2 holds_in (af_fields f) [g_blk p; g_pg p; g_sec p; g_pl p; g_lun p; g_ch p]) as Hv.
  { repeat constructor; unfold holds_in; cbn [fst snd]; try done; by apply get_bits_range. }
  assert (∀ i o l v, af_fields f !! i = Some (o, l) →
    [g_blk p; g_pg p; g_sec p; g_pl p; g_lun p; g_ch p] !! i = Some v → dev_field w o l = v) as Hg.
  { intros i o l v Hi Hvi. pose proof (proj1 (Forall_lookup _ _) Hoff i _ Hi) as (? & ? & ?).
    cbn [fst snd] in *. rewrite dev_field_bits; [|done|].
    - exact (pack_get _ _ i (o, l) v Hoff Hdisj Hv Hi Hvi).
    - do 6 (destruct i as [|i]; [injection Hi as <- <-; lia|]). done. }
  rewrite (Hg 0%nat _ _ _ eq_refl eq_refl), (Hg 1%nat _ _ _ eq_refl eq_refl),
    (Hg 2%nat _ _ _ eq_refl eq_refl), (Hg 3%nat _ _ _ eq_refl eq_refl),
    (Hg 4%nat _ _ _ eq_refl eq_refl), (Hg 5%nat _ _ _ eq_refl eq_refl).
  etransitivity; [|exact (ppa_of_fields p Hp)].
  fields. rewrite !get_bits_0, !Z.lor_0_l by lia. done.
Qed.

(** The format of the driver's own device. *)
Definition af_westlake : nvm_addr_format := mk_af 0 4 7 3 6 1 20 10 10 9 4 2.
Definition geo_westlake : nvm_geo :=
  mk_geo 16 128 8 2 4 512 1024 4096 af_westlake 2 8 4096 4194304.

Lemma dev_addr_roundtrip_witness :
  let p := set_g_ch 11 (set_g_lun 5 (set_g_pl 1 (set_g_sec 3 (set_g_pg 300 (set_g_blk 77 0))))) in
  __dev_to_generic_addr geo_westlake (__generic_to_dev_addr geo_westlake p) = p.
Proof.
  intros p. apply dev_addr_roundtrip.
  - constructor; [cbn; lia| |]; unfold af_fields;
      repeat match goal with
      | |- Forall _ [] => apply Forall_nil_2
      | |- Forall _ (_ :: _) => apply Forall_cons; split; [unfold apart; cbn; lia|]
      | |- ForallOrdPairs _ [] => apply FOP_nil
      | |- ForallOrdPairs _ (_ :: _) => apply FOP_cons
      end.
  - unfold fits_format. split_and!; vm_compute; by split || done.
Defined.
