(* ===== verification/PbRl.v ===== *)
(** * pblk: the rate limiter, and the switch of the garbage collector

    drivers/lightnvm/pblk-rl.c and the functions of pblk-gc.c that turn the collector on and
    off.  The counters of the limiter are [int]s; the thresholds are powers of two.  Its lock
    is held by the callers, and the timer that ends a burst of user writes is one flag.
    [get_count_order] is a function of the kernel; a shift by a negative amount, which C
    leaves undefined, is a fault. *)

From S2P Require Import Prelude.

#[local] Open Scope Z_scope.

Definition PBLK_MAX_REQ_ADDRS : Z := 64.
Definition PBLK_MAX_REQ_ADDRS_PW : Z := 6.
Definition PBLK_USER_LOW_THRS : Z := 50.
Definition PBLK_USER_HIGH_THRS : Z := 4.
Definition PBLK_RL_START_GC : Z := 1.
Definition PBLK_RL_STOP_GC : Z := 2.

(** [struct pblk_rl]. *)
Record pblk_rl : Type := mk_rl {
  high_pw : Z;
  low_pw : Z;
  rb_windows_pw : Z;
  rb_budget : Z;
  rb_user_max : Z;
  rb_user_cnt : Z;
  rb_gc_max : Z;
  rb_gc_rsv : Z;
  rb_gc_cnt : Z;
  rb_user_active : Z;
  u_timer_armed : bool;
  rl_nr_secs : Z;
  total_blocks : Z;
  free_blocks : Z;
}.

Definition rl_set_cnts (u g : Z) (l : pblk_rl) : pblk_rl :=
  mk_rl (high_pw l) (low_pw l) (rb_windows_pw l) (rb_budget l) (rb_user_max l) u (rb_gc_max l)
    (rb_gc_rsv l) g (rb_user_active l) (u_timer_armed l) (rl_nr_secs l) (total_blocks l) (free_blocks l).
Definition rl_set_maxs (u g : Z) (l : pblk_rl) : pblk_rl :=
  mk_rl (high_pw l) (low_pw l) (rb_windows_pw l) (rb_budget l) u (rb_user_cnt l) g
    (rb_gc_rsv l) (rb_gc_cnt l) (rb_user_active l) (u_timer_armed l) (rl_nr_secs l) (total_blocks l) (free_blocks l).
Definition rl_set_active (a : Z) (t : bool) (l : pblk_rl) : pblk_rl :=
  mk_rl (high_pw l) (low_pw l) (rb_windows_pw l) (rb_budget l) (rb_user_max l) (rb_user_cnt l) (rb_gc_max l)
    (rb_gc_rsv l) (rb_gc_cnt l) a t (rl_nr_secs l) (total_blocks l) (free_blocks l).
Definition rl_set_rsv (r : Z) (l : pblk_rl) : pblk_rl :=
  mk_rl (high_pw l) (low_pw l) (rb_windows_pw l) (rb_budget l) (rb_user_max l) (rb_user_cnt l) r
    r (rb_gc_cnt l) (rb_user_active l) (u_timer_armed l) (rl_nr_secs l) (total_blocks l) (free_blocks l).
Definition rl_set_free (f : Z) (l : pblk_rl) : pblk_rl :=
  mk_rl (high_pw l) (low_pw l) (rb_windows_pw l) (rb_budget l) (rb_user_max l) (rb_user_cnt l) (rb_gc_max l)
    (rb_gc_rsv l) (rb_gc_cnt l) (rb_user_active l) (u_timer_armed l) (rl_nr_secs l) (total_blocks l) f.

(** ** Admission *)

Definition pblk_rl_user_may_insert (nr_entries : Z) (l : pblk_rl) : bool :=
  negb (bool_decide (rb_user_max l < s32 (rb_user_cnt l + nr_entries))).

Definition pblk_rl_gc_may_insert (nr_entries : Z) (l : pblk_rl) : bool :=
  negb (bool_decide (rb_gc_max l < s32 (rb_gc_cnt l + nr_entries)) && bool_decide (rb_user_active l ≠ 0)).

Definition pblk_rl_kick_u_timer (l : pblk_rl) : pblk_rl := rl_set_active (rb_user_active l) true l.

Definition pblk_rl_user_in (nr_entries : Z) (l : pblk_rl) : pblk_rl :=
  let l := rl_set_cnts (s32 (rb_user_cnt l + nr_entries)) (rb_gc_cnt l) l in
  pblk_rl_kick_u_timer (rl_set_active 1 (u_timer_armed l) l).

Definition pblk_rl_gc_in (nr_entries : Z) (l : pblk_rl) : pblk_rl :=
  rl_set_cnts (rb_user_cnt l) (s32 (rb_gc_cnt l + nr_entries)) l.

(** The warning about a negative counter changes nothing. *)
Definition pblk_rl_out (nr_user nr_gc : Z) (l : pblk_rl) : pblk_rl :=
  rl_set_cnts (s32 (rb_user_cnt l - nr_user)) (s32 (rb_gc_cnt l - nr_gc)) l.

(** The timer fires. *)
Definition pblk_rl_u_timer (l : pblk_rl) : pblk_rl := rl_set_active 0 false l.
Definition pblk_rl_free (l : pblk_rl) : pblk_rl := rl_set_active (rb_user_active l) false l.

(** ** Rates *)

Definition pblk_rl_update_rates (max : Z) (l : pblk_rl) : res (Z * pblk_rl) :=
  let high := u32 (Z.shiftl 1 (high_pw l)) in
  let low := u32 (Z.shiftl 1 (low_pw l)) in
  if decide (high ≤ free_blocks l) then
    Ok (PBLK_RL_STOP_GC, rl_set_maxs (s32 (max - rb_gc_rsv l)) (rb_gc_rsv l) l)
  else if decide (low < free_blocks l ∧ free_blocks l < high) then
    let shift := s32 (high_pw l - rb_windows_pw l) in
    if decide (shift < 0) then Fault F_OOB
    else
      let user_windows := s32 (Z.shiftr (free_blocks l) shift) in
      let user_max := s32 (Z.shiftl user_windows PBLK_MAX_REQ_ADDRS_PW) in
      let gc_max := s32 (max - user_max) in
      Ok (PBLK_RL_START_GC, rl_set_maxs user_max (Z.max gc_max (rb_gc_rsv l)) l)
  else Ok (PBLK_RL_START_GC, rl_set_maxs 0 (s32 max) l).

Definition pblk_rl_set_gc_rsc (rsv : Z) (l : pblk_rl) : pblk_rl := rl_set_rsv rsv l.
Definition pblk_rl_nr_free_blks (l : pblk_rl) : Z := free_blocks l.
Definition pblk_rl_gc_thrs (l : pblk_rl) : Z := s32 (s32 (Z.shiftl 1 (high_pw l)) + 1).
Definition pblk_rl_sysfs_rate_show (l : pblk_rl) : Z := rb_user_max l.

Section init.
Context (get_count_order : Z → Z).

(** [rb_gc_rsv] is left as the allocation made it: 0. *)
Definition pblk_rl_init (budget : Z) (l : pblk_rl) : pblk_rl :=
  let rb_windows := budget / PBLK_MAX_REQ_ADDRS in
  mk_rl (u32 (get_count_order (total_blocks l / PBLK_USER_HIGH_THRS)))
    (u32 (get_count_order (total_blocks l / PBLK_USER_LOW_THRS)))
    (get_count_order rb_windows) budget budget 0 0 (rb_gc_rsv l) 0 0 (u_timer_armed l)
    (rl_nr_secs l) (total_blocks l) (free_blocks l).
End init.

(** ** The switch of the collector *)

(** [struct pblk_gc]. *)
Record pblk_gc : Type := mk_gc { gc_active : Z; gc_enabled : Z; gc_forced : Z }.

Definition pblk_gc_start (g : pblk_gc) : pblk_gc := mk_gc 1 (gc_enabled g) (gc_forced g).
Definition pblk_gc_stop (g : pblk_gc) : pblk_gc := mk_gc 0 (gc_enabled g) (gc_forced g).
Definition pblk_gc_status (g : pblk_gc) : Z := gc_active g.

Definition pblk_gc_should_start (g : pblk_gc) : pblk_gc :=
  if decide (gc_enabled g ≠ 0 ∧ gc_active g = 0) then pblk_gc_start g else g.

Definition pblk_gc_should_stop (g : pblk_gc) : pblk_gc :=
  if decide (gc_active g ≠ 0 ∧ gc_forced g = 0) then pblk_gc_stop g else g.

Definition gc_follow (ret : Z) (g : pblk_gc) : pblk_gc :=
  if decide (ret = PBLK_RL_START_GC) then pblk_gc_should_start g else pblk_gc_should_stop g.

(** A line with [blk_in_line] blocks becomes free, or is taken. *)
Definition pblk_rl_free_lines_inc (blk_in_line : Z) (l : pblk_rl) (g : pblk_gc) : res (pblk_rl * pblk_gc) :=
  let l := rl_set_free (u64 (free_blocks l + blk_in_line)) l in
  r ← pblk_rl_update_rates (rb_budget l) l;
  Ok (r.2, gc_follow r.1 g).

Definition pblk_rl_free_lines_dec (blk_in_line : Z) (l : pblk_rl) (g : pblk_gc) : res (pblk_rl * pblk_gc) :=
  let l := rl_set_free (u64 (free_blocks l - blk_in_line)) l in
  r ← pblk_rl_update_rates (rb_budget l) l;
  Ok (r.2, gc_follow r.1 g).

Definition pblk_gc_sysfs_force (force : Z) (l : pblk_rl) (g : pblk_gc) : pblk_rl * pblk_gc :=
  let enabled := if decide (force ≠ 0) then 1 else gc_enabled g in
  let rsv := if decide (force ≠ 0) then 64 else 0 in
  (pblk_rl_set_gc_rsc rsv l, pblk_gc_should_start (mk_gc (gc_active g) enabled force)).

(** ** Theorems *)

(** A limiter of a buffer of [2 ^ w] windows, as [pblk_rl_init] leaves it, while nobody
    forces the collector. *)
Record rl_wf (l : pblk_rl) : Prop := {
  rw_budget : rb_budget l = PBLK_MAX_REQ_ADDRS * 2 ^ rb_windows_pw l;
  rw_win : 0 ≤ rb_windows_pw l ≤ 24;
  rw_pw : rb_windows_pw l ≤ high_pw l ≤ 30;
  rw_low : 0 ≤ low_pw l ≤ high_pw l;
  rw_rsv : rb_gc_rsv l = 0;
  rw_free : 0 ≤ free_blocks l < 2 ^ 64;
}.

Lemma shl1_small k : 0 ≤ k ≤ 30 → u32 (Z.shiftl 1 k) = 2 ^ k.
Proof.
  intros. rewrite Z.shiftl_1_l. apply u32_small. assert (2 ^ k ≤ 2 ^ 30) by (apply Z.pow_le_mono_r; lia).
  pose proof (Z.pow_pos_nonneg 2 k). lia.
Qed.

(** The number of user windows in the middle band. *)
Lemma user_windows_bound l :
  rl_wf l → free_blocks l < 2 ^ high_pw l →
  0 ≤ Z.shiftr (free_blocks l) (high_pw l - rb_windows_pw l) < 2 ^ rb_windows_pw l.
Proof.
  intros [] Hf. rewrite Z.shiftr_div_pow2 by lia. pose proof (Z.pow_pos_nonneg 2 (high_pw l - rb_windows_pw l)).
  split; [apply Z.div_pos; lia|]. apply Z.div_lt_upper_bound; [lia|].
  rewrite <-Z.pow_add_r by lia. by replace (high_pw l - rb_windows_pw l + rb_windows_pw l) with (high_pw l) by lia.
Qed.

(** C27: The rates for every number of free blocks: the budget of the buffer is always split
    without remainder; above the upper threshold users get all of it and the collector stops;
    at or below the lower one users get nothing; in between users get whole windows, in
    proportion to the free blocks, and always leave the collector at least one. *)
Theorem rates_split_budget (l : pblk_rl) :
  rl_wf l →
  ∃ ret l', pblk_rl_update_rates (rb_budget l) l = Ok (ret, l') ∧
    l' = rl_set_maxs (rb_user_max l') (rb_gc_max l') l ∧
    rb_user_max l' + rb_gc_max l' = rb_budget l ∧ 0 ≤ rb_user_max l' ∧
    (ret = PBLK_RL_STOP_GC ↔ 2 ^ high_pw l ≤ free_blocks l) ∧
    (2 ^ high_pw l ≤ free_blocks l → rb_user_max l' = rb_budget l) ∧
    (free_blocks l ≤ 2 ^ low_pw l → free_blocks l < 2 ^ high_pw l → rb_user_max l' = 0) ∧
    (2 ^ low_pw l < free_blocks l < 2 ^ high_pw l →
       rb_user_max l' = PBLK_MAX_REQ_ADDRS * (free_blocks l / 2 ^ (high_pw l - rb_windows_pw l)) ∧
       PBLK_MAX_REQ_ADDRS ≤ rb_gc_max l').
Proof.
  intros Hwf. pose proof (user_windows_bound l Hwf) as Hw. destruct Hwf as [Hb Hwin Hpw Hlow Hr Hf].
  assert (2 ^ rb_windows_pw l ≤ 2 ^ 24) by (apply Z.pow_le_mono_r; lia).
  pose proof (Z.pow_pos_nonneg 2 (rb_windows_pw l)).
  assert (2 ^ low_pw l ≤ 2 ^ high_pw l) by (apply Z.pow_le_mono_r; lia).
  unfold pblk_rl_update_rates, PBLK_MAX_REQ_ADDRS in *. rewrite !shl1_small by lia. rewrite Hr, Hb.
  case_decide as Hc1; [|case_decide as Hc2].
  - do 2 eexists. split; [done|]. cbn. rewrite s32_small by lia.
    split_and!; try done; try lia. 
  - rewrite s32_small by lia. rewrite decide_False by lia. specialize (Hw ltac:(lia)).
    rewrite (s32_small (Z.shiftr _ _)) by lia. rewrite Z.shiftl_mul_pow2 by (unfold PBLK_MAX_REQ_ADDRS_PW; lia).
    unfold PBLK_MAX_REQ_ADDRS_PW. rewrite (s32_small (_ * 2 ^ 6)) by lia. rewrite s32_small by lia.
    do 2 eexists. split; [done|]. cbn. rewrite <-Z.shiftr_div_pow2 by lia.
    split_and!; try done; try lia.
  - do 2 eexists. split; [done|]. cbn. rewrite s32_small by lia. split_and!; try done; try lia.
Qed.

Definition rl_demo (free : Z) : pblk_rl := mk_rl 10 7 4 1024 1024 0 0 0 0 0 false 0 4000 free.

Lemma rates_split_budget_witness :
  ∃ ret l', pblk_rl_update_rates 1024 (rl_demo 200) = Ok (ret, l') ∧ rb_user_max l' + rb_gc_max l' = 1024.
Proof.
  destruct (rates_split_budget (rl_demo 200)) as (ret & l' & H & _ & Hs & _).
  - constructor; first [reflexivity|cbn; lia].
  - exists ret, l'. split; [exact H|exact Hs].
Defined.
