(* ===== verification/PbState.v ===== *)
(** * pblk: state, translation map and lines

    drivers/lightnvm/pblk.h and the part of pblk-core.c that looks after the translation map
    and the valid sectors of a line: an entry of the map is a device address, a line of the
    write buffer or empty; overwriting a device address invalidates its sector, which may
    move the line of blocks to another list of the garbage collector; a line whose last
    reference is dropped becomes free.

    Locks are not modelled as data: what a function does under a lock is one step.
    CONFIG_NVM_DEBUG is off.  What the kernel is asked for: [circ_buf.h] and the searches in
    bitmaps are the class [Kops] with the laws [KopsLaws], with [kops_ref] as an instance;
    setting and testing a bit, and moving a node between lists, are read as what they name,
    with a bit outside its map, a node of a list it is not in, and a node that is added
    twice as faults.  Every allocation asks [alloc_ok]. *)

From S2P Require Import Prelude Kernel PbAddr PbRl.

#[local] Open Scope Z_scope.

(** ** The kernel *)

Class Kops : Type := {
  CIRC_CNT : Z → Z → Z → Z;
  CIRC_SPACE : Z → Z → Z → Z;
  (** The first zero (set) bit at or after an offset, or the size. *)
  find_next_zero_bit : gset Z → Z → Z → Z;
  find_next_bit : gset Z → Z → Z → Z;
  get_count_order : Z → Z;
}.

(** The first index in [[off, size)] with the property, or [size]. *)
Definition first_from (P : Z → Prop) (size off r : Z) : Prop :=
  off ≤ r ≤ size ∧ (r < size → P r) ∧ ∀ i, off ≤ i < r → ¬ P i.

Class KopsLaws `{Kops} : Prop := {
  circ_cnt_law : ∀ head tail k, 0 ≤ k → CIRC_CNT head tail (2 ^ k) = (head - tail) mod 2 ^ k;
  circ_space_law : ∀ head tail k, 0 ≤ k → CIRC_SPACE head tail (2 ^ k) = (tail - head - 1) mod 2 ^ k;
  find_next_zero_bit_law : ∀ bm size off, 0 ≤ off ≤ size →
    first_from (λ i, i ∉ bm) size off (find_next_zero_bit bm size off);
  find_next_bit_law : ∀ bm size off, 0 ≤ off ≤ size →
    first_from (λ i, i ∈ bm) size off (find_next_bit bm size off);
  get_count_order_law : ∀ n, 0 < n → 2 ^ (get_count_order n - 1) < n ≤ 2 ^ get_count_order n;
}.

Fixpoint scan_bits (P : Z → bool) (n : nat) (off : Z) : Z :=
  match n with
  | O => off
  | S n' => if P off then off else scan_bits P n' (off + 1)
  end.

#[global] Instance kops_ref : Kops := {|
  CIRC_CNT head tail size := Z.land (head - tail) (size - 1);
  CIRC_SPACE head tail size := Z.land (tail - (head + 1)) (size - 1);
  find_next_zero_bit bm size off := scan_bits (λ i, bool_decide (i ∉ bm)) (Z.to_nat (size - off)) off;
  find_next_bit bm size off := scan_bits (λ i, bool_decide (i ∈ bm)) (Z.to_nat (size - off)) off;
  get_count_order := Z.log2_up;
|}.

Lemma scan_bits_spec (P : Z → Prop) `{∀ i, Decision (P i)} n off :
  first_from P (off + Z.of_nat n) off (scan_bits (λ i, bool_decide (P i)) n off).
Proof.
  revert off. induction n as [|n IH]; intros off; cbn [scan_bits].
  - unfold first_from. split_and!; lia || (intros; lia).
  - case_bool_decide as Hp; unfold first_from.
    + split_and!; [lia..|done|intros; lia].
    + destruct (IH (off + 1)) as ((? & ?) & H1 & H2). split_and!; [lia|lia|intros; apply H1; lia|].
      intros i Hi. destruct (decide (i = off)) as [->|]; [done|apply H2; lia].
Qed.

Lemma land_ones_mod a k : 0 ≤ k → Z.land a (2 ^ k - 1) = a mod 2 ^ k.
Proof. intros. rewrite <-Z.land_ones by lia. by rewrite Z.ones_equiv, Z.sub_1_r. Qed.

#[global] Instance kops_ref_laws : KopsLaws.
Proof.
  constructor; cbn [CIRC_CNT CIRC_SPACE find_next_zero_bit find_next_bit get_count_order kops_ref].
  - intros. by rewrite land_ones_mod by lia.
  - intros. rewrite land_ones_mod by lia. f_equal. lia.
  - intros bm size off Ho. replace size with (off + Z.of_nat (Z.to_nat (size - off))) at 1 by lia.
    apply scan_bits_spec.
  - intros bm size off Ho. replace size with (off + Z.of_nat (Z.to_nat (size - off))) at 1 by lia.
    apply scan_bits_spec.
  - intros n Hn. destruct (decide (n = 1)) as [->|]; [done|].
    pose proof (Z.log2_up_spec n ltac:(lia)) as Hs. by rewrite <-Z.sub_1_r in Hs.
Qed.

(** ** Write buffer *)

Definition PBLK_IOTYPE_USER : Z := 1.
Definition PBLK_IOTYPE_GC : Z := 2.
Definition PBLK_FLUSH_ENTRY : Z := Z.shiftl 1 6.
Definition PBLK_WRITTEN_DATA : Z := Z.shiftl 1 7.
Definition PBLK_SUBMITTED_ENTRY : Z := Z.shiftl 1 8.
Definition PBLK_WRITABLE_ENTRY : Z := Z.shiftl 1 9.
Definition EMPTY_ENTRY : Z := 2 ^ 32 - 1.

Definition NVM_IO_OK : Z := 0.
Definition NVM_IO_REQUEUE : Z := 1.
Definition NVM_IO_DONE : Z := 2.
Definition NVM_IO_ERR : Z := 3.

(** [struct pblk_w_ctx]: the bios to complete are named by numbers. *)
Record pblk_w_ctx : Type := mk_wctx {
  w_bios : list Z;
  w_lba : Z;
  w_paddr : Z;
  w_ppa : Z;
  w_flags : Z;
}.

Definition w_set_bios (v : list Z) (x : pblk_w_ctx) : pblk_w_ctx :=
  mk_wctx v (w_lba x) (w_paddr x) (w_ppa x) (w_flags x).
Definition w_set_lba (v : Z) (x : pblk_w_ctx) : pblk_w_ctx :=
  mk_wctx (w_bios x) v (w_paddr x) (w_ppa x) (w_flags x).
Definition w_set_paddr (v : Z) (x : pblk_w_ctx) : pblk_w_ctx :=
  mk_wctx (w_bios x) (w_lba x) v (w_ppa x) (w_flags x).
Definition w_set_ppa (v : Z) (x : pblk_w_ctx) : pblk_w_ctx :=
  mk_wctx (w_bios x) (w_lba x) (w_paddr x) v (w_flags x).
Definition w_set_flags (v : Z) (x : pblk_w_ctx) : pblk_w_ctx :=
  mk_wctx (w_bios x) (w_lba x) (w_paddr x) (w_ppa x) v.

(** [struct pblk_rb_entry]. *)
Record pblk_rb_entry : Type := mk_entry {
  e_cacheline : Z;
  e_data : Z;  (** the contents of the page, as one number *)
  e_w_ctx : pblk_w_ctx;
}.

Definition e_set_cacheline (v : Z) (x : pblk_rb_entry) : pblk_rb_entry :=
  mk_entry v (e_data x) (e_w_ctx x).
Definition e_set_data (v : Z) (x : pblk_rb_entry) : pblk_rb_entry :=
  mk_entry (e_cacheline x) v (e_w_ctx x).
Definition e_set_w_ctx (v : pblk_w_ctx) (x : pblk_rb_entry) : pblk_rb_entry :=
  mk_entry (e_cacheline x) (e_data x) v.

(** [struct pblk_rb]. *)
Record pblk_rb : Type := mk_rb {
  rb_entries : gmap Z pblk_rb_entry;
  rb_mem : Z;
  rb_subm : Z;
  rb_sync : Z;
  rb_sync_point : Z;
  rb_l2p_update : Z;
  rb_nr_entries : Z;
}.

Definition rb_set_entries (v : gmap Z pblk_rb_entry) (x : pblk_rb) : pblk_rb :=
  mk_rb v (rb_mem x) (rb_subm x) (rb_sync x) (rb_sync_point x) (rb_l2p_update x) (rb_nr_entries x).
Definition rb_set_mem (v : Z) (x : pblk_rb) : pblk_rb :=
  mk_rb (rb_entries x) v (rb_subm x) (rb_sync x) (rb_sync_point x) (rb_l2p_update x)
    (rb_nr_entries x).
Definition rb_set_subm (v : Z) (x : pblk_rb) : pblk_rb :=
  mk_rb (rb_entries x) (rb_mem x) v (rb_sync x) (rb_sync_point x) (rb_l2p_update x)
    (rb_nr_entries x).
Definition rb_set_sync (v : Z) (x : pblk_rb) : pblk_rb :=
  mk_rb (rb_entries x) (rb_mem x) (rb_subm x) v (rb_sync_point x) (rb_l2p_update x)
    (rb_nr_entries x).
Definition rb_set_sync_point (v : Z) (x : pblk_rb) : pblk_rb :=
  mk_rb (rb_entries x) (rb_mem x) (rb_subm x) (rb_sync x) v (rb_l2p_update x) (rb_nr_entries x).
Definition rb_set_l2p_update (v : Z) (x : pblk_rb) : pblk_rb :=
  mk_rb (rb_entries x) (rb_mem x) (rb_subm x) (rb_sync x) (rb_sync_point x) v (rb_nr_entries x).
Definition rb_set_nr_entries (v : Z) (x : pblk_rb) : pblk_rb :=
  mk_rb (rb_entries x) (rb_mem x) (rb_subm x) (rb_sync x) (rb_sync_point x) (rb_l2p_update x) v.

(** [struct pblk_c_ctx] and the write request it belongs to: the entries from [c_sentry] on
    and the padding, the addresses, the logical addresses stored with them, the pages, and
    the LUNs whose semaphore it holds. *)
Record w_req : Type := mk_wreq {
  c_sentry : Z;
  c_nr_valid : Z;
  c_nr_padded : Z;
  wr_nr_ppas : Z;
  wr_ppa_list : list Z;
  wr_meta_list : list Z;
  wr_data : list Z;
  wr_lun_bitmap : gset Z;
}.

(** ** Lines *)

Definition PBLK_LINETYPE_FREE : Z := 0.
Definition PBLK_LINETYPE_DATA : Z := 2.
Definition PBLK_LINESTATE_FREE : Z := 10.
Definition PBLK_LINESTATE_OPEN : Z := 11.
Definition PBLK_LINESTATE_CLOSED : Z := 12.
Definition PBLK_LINESTATE_GC : Z := 13.
Definition PBLK_LINESTATE_BAD : Z := 14.
Definition PBLK_LINESTATE_CORRUPT : Z := 15.
Definition PBLK_LINEGC_NONE : Z := 20.
Definition PBLK_LINEGC_EMPTY : Z := 21.
Definition PBLK_LINEGC_LOW : Z := 22.
Definition PBLK_LINEGC_MID : Z := 23.
Definition PBLK_LINEGC_HIGH : Z := 24.
Definition PBLK_LINEGC_FULL : Z := 25.
Definition PBLK_LINE_EMPTY : Z := 2 ^ 32 - 1.
Definition PBLK_DATA_LINES : Z := 2.

(** [struct line_smeta], with the bitmap of LUNs that follows it in memory. *)
Record line_smeta : Type := mk_smeta {
  sm_crc : Z; sm_id : Z; sm_line_type : Z; sm_seq_nr : Z; sm_slun : Z; sm_nr_luns : Z;
  sm_p_id : Z; sm_p_slun : Z; sm_smeta_len : Z; sm_lun_bitmap : gset Z;
}.

(** [struct line_emeta], with the list of logical addresses that follows it. *)
Record line_emeta : Type := mk_emeta {
  em_crc : Z; em_id : Z; em_line_type : Z; em_seq_nr : Z; em_slun : Z; em_nr_luns : Z;
  em_nr_lbas : Z; em_n_id : Z; em_n_slun : Z; em_emeta_len : Z; em_lbas : gmap Z Z;
}.

(** Memory after [memset]. *)
Definition smeta0 : line_smeta := mk_smeta 0 0 0 0 0 0 0 0 0 ∅.
Definition emeta0 : line_emeta := mk_emeta 0 0 0 0 0 0 0 0 0 0 ∅.

(** Where the end metadata of a line is: one of the two buffers of data lines, or the one
    of the garbage collector. *)
Inductive emeta_ptr : Type := EM_data (i : Z) | EM_gc.

(** [struct pblk_line]; its number is its index in the array. *)
Record pblk_line : Type := mk_line {
  ln_seq_nr : Z;
  ln_state : Z;
  ln_type : Z;
  ln_gc_group : Z;
  ln_smeta : option Z;  (** index in [sline_meta] *)
  ln_emeta : option emeta_ptr;
  ln_meta_line : Z;
  ln_smeta_ssec : Z;
  ln_emeta_ssec : Z;
  ln_sec_in_line : Z;
  ln_blk_in_line : Z;
  ln_blk_bitmap : gset Z;
  ln_erase_bitmap : gset Z;
  ln_map_bitmap : option (gset Z);
  ln_invalid_bitmap : option (gset Z);
  ln_left_eblks : Z;
  ln_left_seblks : Z;
  ln_left_msecs : Z;
  ln_left_ssecs : Z;
  ln_cur_sec : Z;
  ln_vsc : Z;
  ln_ref : Z;
}.

Definition ln_set_seq_nr (v : Z) (x : pblk_line) : pblk_line :=
  mk_line v (ln_state x) (ln_type x) (ln_gc_group x) (ln_smeta x) (ln_emeta x) (ln_meta_line x)
    (ln_smeta_ssec x) (ln_emeta_ssec x) (ln_sec_in_line x) (ln_blk_in_line x) (ln_blk_bitmap x)
    (ln_erase_bitmap x) (ln_map_bitmap x) (ln_invalid_bitmap x) (ln_left_eblks x) (ln_left_seblks x)
    (ln_left_msecs x) (ln_left_ssecs x) (ln_cur_sec x) (ln_vsc x) (ln_ref x).
Definition ln_set_state (v : Z) (x : pblk_line) : pblk_line :=
  mk_line (ln_seq_nr x) v (ln_type x) (ln_gc_group x) (ln_smeta x) (ln_emeta x) (ln_meta_line x)
    (ln_smeta_ssec x) (ln_emeta_ssec x) (ln_sec_in_line x) (ln_blk_in_line x) (ln_blk_bitmap x)
    (ln_erase_bitmap x) (ln_map_bitmap x) (ln_invalid_bitmap x) (ln_left_eblks x) (ln_left_seblks x)
    (ln_left_msecs x) (ln_left_ssecs x) (ln_cur_sec x) (ln_vsc x) (ln_ref x).
Definition ln_set_type (v : Z) (x : pblk_line) : pblk_line :=
  mk_line (ln_seq_nr x) (ln_state x) v (ln_gc_group x) (ln_smeta x) (ln_emeta x) (ln_meta_line x)
    (ln_smeta_ssec x) (ln_emeta_ssec x) (ln_sec_in_line x) (ln_blk_in_line x) (ln_blk_bitmap x)
    (ln_erase_bitmap x) (ln_map_bitmap x) (ln_invalid_bitmap x) (ln_left_eblks x) (ln_left_seblks x)
    (ln_left_msecs x) (ln_left_ssecs x) (ln_cur_sec x) (ln_vsc x) (ln_ref x).
Definition ln_set_gc_group (v : Z) (x : pblk_line) : pblk_line :=
  mk_line (ln_seq_nr x) (ln_state x) (ln_type x) v (ln_smeta x) (ln_emeta x) (ln_meta_line x)
    (ln_smeta_ssec x) (ln_emeta_ssec x) (ln_sec_in_line x) (ln_blk_in_line x) (ln_blk_bitmap x)
    (ln_erase_bitmap x) (ln_map_bitmap x) (ln_invalid_bitmap x) (ln_left_eblks x) (ln_left_seblks x)
    (ln_left_msecs x) (ln_left_ssecs x) (ln_cur_sec x) (ln_vsc x) (ln_ref x).
Definition ln_set_smeta (v : option Z) (x : pblk_line) : pblk_line :=
  mk_line (ln_seq_nr x) (ln_state x) (ln_type x) (ln_gc_group x) v (ln_emeta x) (ln_meta_line x)
    (ln_smeta_ssec x) (ln_emeta_ssec x) (ln_sec_in_line x) (ln_blk_in_line x) (ln_blk_bitmap x)
    (ln_erase_bitmap x) (ln_map_bitmap x) (ln_invalid_bitmap x) (ln_left_eblks x) (ln_left_seblks x)
    (ln_left_msecs x) (ln_left_ssecs x) (ln_cur_sec x) (ln_vsc x) (ln_ref x).
Definition ln_set_emeta (v : option emeta_ptr) (x : pblk_line) : pblk_line :=
  mk_line (ln_seq_nr x) (ln_state x) (ln_type x) (ln_gc_group x) (ln_smeta x) v (ln_meta_line x)
    (ln_smeta_ssec x) (ln_emeta_ssec x) (ln_sec_in_line x) (ln_blk_in_line x) (ln_blk_bitmap x)
    (ln_erase_bitmap x) (ln_map_bitmap x) (ln_invalid_bitmap x) (ln_left_eblks x) (ln_left_seblks x)
    (ln_left_msecs x) (ln_left_ssecs x) (ln_cur_sec x) (ln_vsc x) (ln_ref x).
Definition ln_set_meta_line (v : Z) (x : pblk_line) : pblk_line :=
  mk_line (ln_seq_nr x) (ln_state x) (ln_type x) (ln_gc_group x) (ln_smeta x) (ln_emeta x) v
    (ln_smeta_ssec x) (ln_emeta_ssec x) (ln_sec_in_line x) (ln_blk_in_line x) (ln_blk_bitmap x)
    (ln_erase_bitmap x) (ln_map_bitmap x) (ln_invalid_bitmap x) (ln_left_eblks x) (ln_left_seblks x)
    (ln_left_msecs x) (ln_left_ssecs x) (ln_cur_sec x) (ln_vsc x) (ln_ref x).
Definition ln_set_smeta_ssec (v : Z) (x : pblk_line) : pblk_line :=
  mk_line (ln_seq_nr x) (ln_state x) (ln_type x) (ln_gc_group x) (ln_smeta x) (ln_emeta x)
    (ln_meta_line x) v (ln_emeta_ssec x) (ln_sec_in_line x) (ln_blk_in_line x) (ln_blk_bitmap x)
    (ln_erase_bitmap x) (ln_map_bitmap x) (ln_invalid_bitmap x) (ln_left_eblks x) (ln_left_seblks x)
    (ln_left_msecs x) (ln_left_ssecs x) (ln_cur_sec x) (ln_vsc x) (ln_ref x).
Definition ln_set_emeta_ssec (v : Z) (x : pblk_line) : pblk_line :=
  mk_line (ln_seq_nr x) (ln_state x) (ln_type x) (ln_gc_group x) (ln_smeta x) (ln_emeta x)
    (ln_meta_line x) (ln_smeta_ssec x) v (ln_sec_in_line x) (ln_blk_in_line x) (ln_blk_bitmap x)
    (ln_erase_bitmap x) (ln_map_bitmap x) (ln_invalid_bitmap x) (ln_left_eblks x) (ln_left_seblks x)
    (ln_left_msecs x) (ln_left_ssecs x) (ln_cur_sec x) (ln_vsc x) (ln_ref x).
Definition ln_set_sec_in_line (v : Z) (x : pblk_line) : pblk_line :=
  mk_line (ln_seq_nr x) (ln_state x) (ln_type x) (ln_gc_group x) (ln_smeta x) (ln_emeta x)
    (ln_meta_line x) (ln_smeta_ssec x) (ln_emeta_ssec x) v (ln_blk_in_line x) (ln_blk_bitmap x)
    (ln_erase_bitmap x) (ln_map_bitmap x) (ln_invalid_bitmap x) (ln_left_eblks x) (ln_left_seblks x)
    (ln_left_msecs x) (ln_left_ssecs x) (ln_cur_sec x) (ln_vsc x) (ln_ref x).
Definition ln_set_blk_in_line (v : Z) (x : pblk_line) : pblk_line :=
  mk_line (ln_seq_nr x) (ln_state x) (ln_type x) (ln_gc_group x) (ln_smeta x) (ln_emeta x)
    (ln_meta_line x) (ln_smeta_ssec x) (ln_emeta_ssec x) (ln_sec_in_line x) v (ln_blk_bitmap x)
    (ln_erase_bitmap x) (ln_map_bitmap x) (ln_invalid_bitmap x) (ln_left_eblks x) (ln_left_seblks x)
    (ln_left_msecs x) (ln_left_ssecs x) (ln_cur_sec x) (ln_vsc x) (ln_ref x).
Definition ln_set_blk_bitmap (v : gset Z) (x : pblk_line) : pblk_line :=
  mk_line (ln_seq_nr x) (ln_state x) (ln_type x) (ln_gc_group x) (ln_smeta x) (ln_emeta x)
    (ln_meta_line x) (ln_smeta_ssec x) (ln_emeta_ssec x) (ln_sec_in_line x) (ln_blk_in_line x) v
    (ln_erase_bitmap x) (ln_map_bitmap x) (ln_invalid_bitmap x) (ln_left_eblks x) (ln_left_seblks x)
    (ln_left_msecs x) (ln_left_ssecs x) (ln_cur_sec x) (ln_vsc x) (ln_ref x).
Definition ln_set_erase_bitmap (v : gset Z) (x : pblk_line) : pblk_line :=
  mk_line (ln_seq_nr x) (ln_state x) (ln_type x) (ln_gc_group x) (ln_smeta x) (ln_emeta x)
    (ln_meta_line x) (ln_smeta_ssec x) (ln_emeta_ssec x) (ln_sec_in_line x) (ln_blk_in_line x)
    (ln_blk_bitmap x) v (ln_map_bitmap x) (ln_invalid_bitmap x) (ln_left_eblks x) (ln_left_seblks x)
    (ln_left_msecs x) (ln_left_ssecs x) (ln_cur_sec x) (ln_vsc x) (ln_ref x).
Definition ln_set_map_bitmap (v : option (gset Z)) (x : pblk_line) : pblk_line :=
  mk_line (ln_seq_nr x) (ln_state x) (ln_type x) (ln_gc_group x) (ln_smeta x) (ln_emeta x)
    (ln_meta_line x) (ln_smeta_ssec x) (ln_emeta_ssec x) (ln_sec_in_line x) (ln_blk_in_line x)
    (ln_blk_bitmap x) (ln_erase_bitmap x) v (ln_invalid_bitmap x) (ln_left_eblks x)
    (ln_left_seblks x) (ln_left_msecs x) (ln_left_ssecs x) (ln_cur_sec x) (ln_vsc x) (ln_ref x).
Definition ln_set_invalid_bitmap (v : option (gset Z)) (x : pblk_line) : pblk_line :=
  mk_line (ln_seq_nr x) (ln_state x) (ln_type x) (ln_gc_group x) (ln_smeta x) (ln_emeta x)
    (ln_meta_line x) (ln_smeta_ssec x) (ln_emeta_ssec x) (ln_sec_in_line x) (ln_blk_in_line x)
    (ln_blk_bitmap x) (ln_erase_bitmap x) (ln_map_bitmap x) v (ln_left_eblks x) (ln_left_seblks x)
    (ln_left_msecs x) (ln_left_ssecs x) (ln_cur_sec x) (ln_vsc x) (ln_ref x).
Definition ln_set_left_eblks (v : Z) (x : pblk_line) : pblk_line :=
  mk_line (ln_seq_nr x) (ln_state x) (ln_type x) (ln_gc_group x) (ln_smeta x) (ln_emeta x)
    (ln_meta_line x) (ln_smeta_ssec x) (ln_emeta_ssec x) (ln_sec_in_line x) (ln_blk_in_line x)
    (ln_blk_bitmap x) (ln_erase_bitmap x) (ln_map_bitmap x) (ln_invalid_bitmap x) v
    (ln_left_seblks x) (ln_left_msecs x) (ln_left_ssecs x) (ln_cur_sec x) (ln_vsc x) (ln_ref x).
Definition ln_set_left_seblks (v : Z) (x : pblk_line) : pblk_line :=
  mk_line (ln_seq_nr x) (ln_state x) (ln_type x) (ln_gc_group x) (ln_smeta x) (ln_emeta x)
    (ln_meta_line x) (ln_smeta_ssec x) (ln_emeta_ssec x) (ln_sec_in_line x) (ln_blk_in_line x)
    (ln_blk_bitmap x) (ln_erase_bitmap x) (ln_map_bitmap x) (ln_invalid_bitmap x) (ln_left_eblks x)
    v (ln_left_msecs x) (ln_left_ssecs x) (ln_cur_sec x) (ln_vsc x) (ln_ref x).
Definition ln_set_left_msecs (v : Z) (x : pblk_line) : pblk_line :=
  mk_line (ln_seq_nr x) (ln_state x) (ln_type x) (ln_gc_group x) (ln_smeta x) (ln_emeta x)
    (ln_meta_line x) (ln_smeta_ssec x) (ln_emeta_ssec x) (ln_sec_in_line x) (ln_blk_in_line x)
    (ln_blk_bitmap x) (ln_erase_bitmap x) (ln_map_bitmap x) (ln_invalid_bitmap x) (ln_left_eblks x)
    (ln_left_seblks x) v (ln_left_ssecs x) (ln_cur_sec x) (ln_vsc x) (ln_ref x).
Definition ln_set_left_ssecs (v : Z) (x : pblk_line) : pblk_line :=
  mk_line (ln_seq_nr x) (ln_state x) (ln_type x) (ln_gc_group x) (ln_smeta x) (ln_emeta x)
    (ln_meta_line x) (ln_smeta_ssec x) (ln_emeta_ssec x) (ln_sec_in_line x) (ln_blk_in_line x)
    (ln_blk_bitmap x) (ln_erase_bitmap x) (ln_map_bitmap x) (ln_invalid_bitmap x) (ln_left_eblks x)
    (ln_left_seblks x) (ln_left_msecs x) v (ln_cur_sec x) (ln_vsc x) (ln_ref x).
Definition ln_set_cur_sec (v : Z) (x : pblk_line) : pblk_line :=
  mk_line (ln_seq_nr x) (ln_state x) (ln_type x) (ln_gc_group x) (ln_smeta x) (ln_emeta x)
    (ln_meta_line x) (ln_smeta_ssec x) (ln_emeta_ssec x) (ln_sec_in_line x) (ln_blk_in_line x)
    (ln_blk_bitmap x) (ln_erase_bitmap x) (ln_map_bitmap x) (ln_invalid_bitmap x) (ln_left_eblks x)
    (ln_left_seblks x) (ln_left_msecs x) (ln_left_ssecs x) v (ln_vsc x) (ln_ref x).
Definition ln_set_vsc (v : Z) (x : pblk_line) : pblk_line :=
  mk_line (ln_seq_nr x) (ln_state x) (ln_type x) (ln_gc_group x) (ln_smeta x) (ln_emeta x)
    (ln_meta_line x) (ln_smeta_ssec x) (ln_emeta_ssec x) (ln_sec_in_line x) (ln_blk_in_line x)
    (ln_blk_bitmap x) (ln_erase_bitmap x) (ln_map_bitmap x) (ln_invalid_bitmap x) (ln_left_eblks x)
    (ln_left_seblks x) (ln_left_msecs x) (ln_left_ssecs x) (ln_cur_sec x) v (ln_ref x).
Definition ln_set_ref (v : Z) (x : pblk_line) : pblk_line :=
  mk_line (ln_seq_nr x) (ln_state x) (ln_type x) (ln_gc_group x) (ln_smeta x) (ln_emeta x)
    (ln_meta_line x) (ln_smeta_ssec x) (ln_emeta_ssec x) (ln_sec_in_line x) (ln_blk_in_line x)
    (ln_blk_bitmap x) (ln_erase_bitmap x) (ln_map_bitmap x) (ln_invalid_bitmap x) (ln_left_eblks x)
    (ln_left_seblks x) (ln_left_msecs x) (ln_left_ssecs x) (ln_cur_sec x) (ln_vsc x) v.

(** The lists a line can be on. *)
Inductive lname : Type :=
  | L_free | L_corrupt | L_bad | L_gc_high | L_gc_mid | L_gc_low | L_gc_full | L_gc_empty.

#[global] Instance lname_eq_dec : EqDecision lname.
Proof. solve_decision. Defined.

Definition all_lists : list lname :=
  [L_free; L_corrupt; L_bad; L_gc_high; L_gc_mid; L_gc_low; L_gc_full; L_gc_empty].

(** [struct pblk_line_mgmt]. *)
Record pblk_line_mgmt : Type := mk_mgmt {
  mg_nr_lines : Z;
  mg_nr_free_lines : Z;
  mg_lists : lname → list Z;
  mg_data_line : option Z;
  mg_data_next : option Z;
  mg_sline_meta : gmap Z line_smeta;
  mg_eline_meta : gmap Z line_emeta;
  mg_gc_meta : line_emeta;
  mg_meta_bitmap : gset Z;
  mg_bb_template : gset Z;
  mg_d_seq_nr : Z;
}.

Definition mg_set_nr_lines (v : Z) (x : pblk_line_mgmt) : pblk_line_mgmt :=
  mk_mgmt v (mg_nr_free_lines x) (mg_lists x) (mg_data_line x) (mg_data_next x) (mg_sline_meta x)
    (mg_eline_meta x) (mg_gc_meta x) (mg_meta_bitmap x) (mg_bb_template x) (mg_d_seq_nr x).
Definition mg_set_nr_free_lines (v : Z) (x : pblk_line_mgmt) : pblk_line_mgmt :=
  mk_mgmt (mg_nr_lines x) v (mg_lists x) (mg_data_line x) (mg_data_next x) (mg_sline_meta x)
    (mg_eline_meta x) (mg_gc_meta x) (mg_meta_bitmap x) (mg_bb_template x) (mg_d_seq_nr x).
Definition mg_set_lists (v : lname → list Z) (x : pblk_line_mgmt) : pblk_line_mgmt :=
  mk_mgmt (mg_nr_lines x) (mg_nr_free_lines x) v (mg_data_line x) (mg_data_next x) (mg_sline_meta x)
    (mg_eline_meta x) (mg_gc_meta x) (mg_meta_bitmap x) (mg_bb_template x) (mg_d_seq_nr x).
Definition mg_set_data_line (v : option Z) (x : pblk_line_mgmt) : pblk_line_mgmt :=
  mk_mgmt (mg_nr_lines x) (mg_nr_free_lines x) (mg_lists x) v (mg_data_next x) (mg_sline_meta x)
    (mg_eline_meta x) (mg_gc_meta x) (mg_meta_bitmap x) (mg_bb_template x) (mg_d_seq_nr x).
Definition mg_set_data_next (v : option Z) (x : pblk_line_mgmt) : pblk_line_mgmt :=
  mk_mgmt (mg_nr_lines x) (mg_nr_free_lines x) (mg_lists x) (mg_data_line x) v (mg_sline_meta x)
    (mg_eline_meta x) (mg_gc_meta x) (mg_meta_bitmap x) (mg_bb_template x) (mg_d_seq_nr x).
Definition mg_set_sline_meta (v : gmap Z line_smeta) (x : pblk_line_mgmt) : pblk_line_mgmt :=
  mk_mgmt (mg_nr_lines x) (mg_nr_free_lines x) (mg_lists x) (mg_data_line x) (mg_data_next x) v
    (mg_eline_meta x) (mg_gc_meta x) (mg_meta_bitmap x) (mg_bb_template x) (mg_d_seq_nr x).
Definition mg_set_eline_meta (v : gmap Z line_emeta) (x : pblk_line_mgmt) : pblk_line_mgmt :=
  mk_mgmt (mg_nr_lines x) (mg_nr_free_lines x) (mg_lists x) (mg_data_line x) (mg_data_next x)
    (mg_sline_meta x) v (mg_gc_meta x) (mg_meta_bitmap x) (mg_bb_template x) (mg_d_seq_nr x).
Definition mg_set_gc_meta (v : line_emeta) (x : pblk_line_mgmt) : pblk_line_mgmt :=
  mk_mgmt (mg_nr_lines x) (mg_nr_free_lines x) (mg_lists x) (mg_data_line x) (mg_data_next x)
    (mg_sline_meta x) (mg_eline_meta x) v (mg_meta_bitmap x) (mg_bb_template x) (mg_d_seq_nr x).
Definition mg_set_meta_bitmap (v : gset Z) (x : pblk_line_mgmt) : pblk_line_mgmt :=
  mk_mgmt (mg_nr_lines x) (mg_nr_free_lines x) (mg_lists x) (mg_data_line x) (mg_data_next x)
    (mg_sline_meta x) (mg_eline_meta x) (mg_gc_meta x) v (mg_bb_template x) (mg_d_seq_nr x).
Definition mg_set_bb_template (v : gset Z) (x : pblk_line_mgmt) : pblk_line_mgmt :=
  mk_mgmt (mg_nr_lines x) (mg_nr_free_lines x) (mg_lists x) (mg_data_line x) (mg_data_next x)
    (mg_sline_meta x) (mg_eline_meta x) (mg_gc_meta x) (mg_meta_bitmap x) v (mg_d_seq_nr x).
Definition mg_set_d_seq_nr (v : Z) (x : pblk_line_mgmt) : pblk_line_mgmt :=
  mk_mgmt (mg_nr_lines x) (mg_nr_free_lines x) (mg_lists x) (mg_data_line x) (mg_data_next x)
    (mg_sline_meta x) (mg_eline_meta x) (mg_gc_meta x) (mg_meta_bitmap x) (mg_bb_template x) v.

(** [struct pblk_line_meta]. *)
Record pblk_line_meta : Type := mk_lm {
  lm_smeta_len : Z; lm_smeta_sec : Z; lm_emeta_len : Z; lm_emeta_sec : Z; lm_emeta_bb : Z;
  lm_sec_bitmap_len : Z; lm_blk_bitmap_len : Z; lm_lun_bitmap_len : Z;
  lm_blk_per_line : Z; lm_sec_per_line : Z; lm_mid_thrs : Z; lm_high_thrs : Z;
}.

(** What does not change once an instance runs; [luns] holds the base address of each
    LUN. *)
Record pblk_cfg : Type := mk_cfg {
  cf_geo : nvm_geo;
  cf_ppaf : pblk_addr_format;
  cf_lm : pblk_line_meta;
  cf_luns : gmap Z Z;
  cf_min_write_pgs : Z;
  cf_max_write_pgs : Z;
}.

(** Work items, and the commands the device receives. *)
Inductive work : Type :=
  | W_line_close (line : Z)
  | W_mark_bb (ppa : Z)
  | W_submit_rec (r : w_req) (failed : list Z) (ppa_status : gset Z)
  | W_gc_line (line : Z).

Inductive io : Type :=
  | IO_write (r : w_req)
  | IO_erase (ppa : Z)
  | IO_smeta (line : Z) (ppas : list Z) (m : line_smeta)
  | IO_emeta (line : Z) (ppas : list Z) (m : line_emeta)
  | IO_read (ppas : list Z).

(** [struct pblk], and what the outside has seen of it. *)
Record pblk : Type := mk_pblk {
  pb_rwb : pblk_rb;
  pb_rl : pblk_rl;
  pb_gc : pblk_gc;
  pb_lines : gmap Z pblk_line;
  pb_trans_map : gmap Z Z;
  pb_mg : pblk_line_mgmt;
  pb_compl_list : list w_req;  (** completed out of order *)
  pb_work : list work;  (** queued on [kw_wq] *)
  pb_done : list Z;  (** bios that were ended, in order *)
  pb_sems : gmap Z Z;  (** the semaphores of the LUNs *)
  pb_io : list io;  (** commands given to the device, in order *)
  pb_allocs : nat;  (** allocations asked for *)
}.

Definition pb_set_rwb (v : pblk_rb) (x : pblk) : pblk :=
  mk_pblk v (pb_rl x) (pb_gc x) (pb_lines x) (pb_trans_map x) (pb_mg x) (pb_compl_list x)
    (pb_work x) (pb_done x) (pb_sems x) (pb_io x) (pb_allocs x).
Definition pb_set_rl (v : pblk_rl) (x : pblk) : pblk :=
  mk_pblk (pb_rwb x) v (pb_gc x) (pb_lines x) (pb_trans_map x) (pb_mg x) (pb_compl_list x)
    (pb_work x) (pb_done x) (pb_sems x) (pb_io x) (pb_allocs x).
Definition pb_set_gc (v : pblk_gc) (x : pblk) : pblk :=
  mk_pblk (pb_rwb x) (pb_rl x) v (pb_lines x) (pb_trans_map x) (pb_mg x) (pb_compl_list x)
    (pb_work x) (pb_done x) (pb_sems x) (pb_io x) (pb_allocs x).
Definition pb_set_lines (v : gmap Z pblk_line) (x : pblk) : pblk :=
  mk_pblk (pb_rwb x) (pb_rl x) (pb_gc x) v (pb_trans_map x) (pb_mg x) (pb_compl_list x) (pb_work x)
    (pb_done x) (pb_sems x) (pb_io x) (pb_allocs x).
Definition pb_set_trans_map (v : gmap Z Z) (x : pblk) : pblk :=
  mk_pblk (pb_rwb x) (pb_rl x) (pb_gc x) (pb_lines x) v (pb_mg x) (pb_compl_list x) (pb_work x)
    (pb_done x) (pb_sems x) (pb_io x) (pb_allocs x).
Definition pb_set_mg (v : pblk_line_mgmt) (x : pblk) : pblk :=
  mk_pblk (pb_rwb x) (pb_rl x) (pb_gc x) (pb_lines x) (pb_trans_map x) v (pb_compl_list x)
    (pb_work x) (pb_done x) (pb_sems x) (pb_io x) (pb_allocs x).
Definition pb_set_compl_list (v : list w_req) (x : pblk) : pblk :=
  mk_pblk (pb_rwb x) (pb_rl x) (pb_gc x) (pb_lines x) (pb_trans_map x) (pb_mg x) v (pb_work x)
    (pb_done x) (pb_sems x) (pb_io x) (pb_allocs x).
Definition pb_set_work (v : list work) (x : pblk) : pblk :=
  mk_pblk (pb_rwb x) (pb_rl x) (pb_gc x) (pb_lines x) (pb_trans_map x) (pb_mg x) (pb_compl_list x) v
    (pb_done x) (pb_sems x) (pb_io x) (pb_allocs x).
Definition pb_set_done (v : list Z) (x : pblk) : pblk :=
  mk_pblk (pb_rwb x) (pb_rl x) (pb_gc x) (pb_lines x) (pb_trans_map x) (pb_mg x) (pb_compl_list x)
    (pb_work x) v (pb_sems x) (pb_io x) (pb_allocs x).
Definition pb_set_sems (v : gmap Z Z) (x : pblk) : pblk :=
  mk_pblk (pb_rwb x) (pb_rl x) (pb_gc x) (pb_lines x) (pb_trans_map x) (pb_mg x) (pb_compl_list x)
    (pb_work x) (pb_done x) v (pb_io x) (pb_allocs x).
Definition pb_set_io (v : list io) (x : pblk) : pblk :=
  mk_pblk (pb_rwb x) (pb_rl x) (pb_gc x) (pb_lines x) (pb_trans_map x) (pb_mg x) (pb_compl_list x)
    (pb_work x) (pb_done x) (pb_sems x) v (pb_allocs x).
Definition pb_set_allocs (v : nat) (x : pblk) : pblk :=
  mk_pblk (pb_rwb x) (pb_rl x) (pb_gc x) (pb_lines x) (pb_trans_map x) (pb_mg x) (pb_compl_list x)
    (pb_work x) (pb_done x) (pb_sems x) (pb_io x) v.
