(* ===== verification/PbMap.v ===== *)
(** * pblk: the translation map and the valid sectors of lines

    The part of drivers/lightnvm/pblk-core.c that looks after the translation map: an entry
    of the map is a device address, a line of the write buffer or empty; overwriting a
    device address invalidates its sector, which may move the line to another list of the
    garbage collector; a line whose last reference is dropped becomes free.

    [acct_inv] is the invariant: every device address that the map or the write buffer
    holds is that of a sector of its own, which is valid, and the count of valid sectors of
    a line, its list and its references agree with its bitmap and with the buffer. *)

From S2P Require Import Prelude Kernel PbAddr PbRl PbState.

#[local] Open Scope Z_scope.

(** ** The kernel: bits and lists *)

(** [nbits] is the size of the map in memory. *)
Definition test_and_set_bit (nbits i : Z) (bm : gset Z) : res (bool * gset Z) :=
  if decide (0 ≤ i < nbits) then Ok (bool_decide (i ∈ bm), {[i]} ∪ bm) else Fault F_OOB.

Definition on_list (m : pblk_line_mgmt) (id : Z) : Prop := Exists (λ L, id ∈ mg_lists m L) all_lists.

#[global] Instance on_list_dec m id : Decision (on_list m id).
Proof. unfold on_list. apply _. Defined.

Definition put_list (L : lname) (l : list Z) (m : pblk_line_mgmt) : pblk_line_mgmt :=
  mg_set_lists (λ L', if decide (L' = L) then l else mg_lists m L') m.

Definition unlink (id : Z) (m : pblk_line_mgmt) : pblk_line_mgmt :=
  mg_set_lists (λ L, filter (λ x, x ≠ id) (mg_lists m L)) m.

Definition list_add_tail (id : Z) (L : lname) (m : pblk_line_mgmt) : res pblk_line_mgmt :=
  if decide (on_list m id) then Fault F_OOB else Ok (put_list L (mg_lists m L ++ [id]) m).

Definition list_del (id : Z) (m : pblk_line_mgmt) : res pblk_line_mgmt :=
  if decide (on_list m id) then Ok (unlink id m) else Fault F_OOB.

Definition list_move_tail (id : Z) (L : lname) (m : pblk_line_mgmt) : res pblk_line_mgmt :=
  m' ← list_del id m; list_add_tail id L m'.

Definition upd_line (id : Z) (l : pblk_line) (pb : pblk) : pblk :=
  pb_set_lines (<[id:=l]> (pb_lines pb)) pb.

Definition dev_addr (p : Z) : Prop := nvm_addr_in_cache p = false ∧ ppa_empty p = false.
#[global] Instance dev_addr_dec p : Decision (dev_addr p).
Proof. unfold dev_addr. apply _. Defined.

Section core.
Context (c : pblk_cfg).

(** ** Lists of the garbage collector *)

(** The list to move the line to, if it is in another group than before, and the line. *)
Definition pblk_line_gc_list (l : pblk_line) : option lname * pblk_line :=
  let lm := cf_lm c in
  let into (g : Z) (L : lname) := if decide (ln_gc_group l ≠ g) then (Some L, ln_set_gc_group g l) else (None, l) in
  if decide (ln_vsc l = 0) then into PBLK_LINEGC_FULL L_gc_full
  else if decide (ln_vsc l < lm_mid_thrs lm) then into PBLK_LINEGC_HIGH L_gc_high
  else if decide (ln_vsc l < lm_high_thrs lm) then into PBLK_LINEGC_MID L_gc_mid
  else if decide (ln_vsc l < ln_sec_in_line l) then into PBLK_LINEGC_LOW L_gc_low
  else if decide (ln_vsc l = ln_sec_in_line l) then into PBLK_LINEGC_EMPTY L_gc_empty
  else (Some L_corrupt, ln_set_gc_group PBLK_LINEGC_NONE (ln_set_state PBLK_LINESTATE_CORRUPT l)).

Definition move_line (id : Z) (mv : option lname) (pb : pblk) : res pblk :=
  match mv with
  | None => Ok pb
  | Some L => m ← list_move_tail id L (pb_mg pb); Ok (pb_set_mg m pb)
  end.

(** ** Invalidation *)

Definition sec_bits : Z := 8 * lm_sec_bitmap_len (cf_lm c).

Definition pblk_page_invalidate (ppa : Z) (pb : pblk) : res pblk :=
  let id := pblk_ppa_to_line ppa in
  l ← aread (pb_lines pb) id;
  if decide (ln_state l = PBLK_LINESTATE_GC ∨ ln_state l = PBLK_LINESTATE_FREE) then Ok pb
  else
    let paddr := pblk_ppa_to_line_addr (cf_ppaf c) ppa in
    bm ← deref (ln_invalid_bitmap l);
    '(was, bm) ← test_and_set_bit sec_bits paddr bm;
    if decide (was = true) then Ok pb
    else
      let l := ln_set_vsc (u32 (ln_vsc l - 1)) (ln_set_invalid_bitmap (Some bm) l) in
      if decide (ln_state l = PBLK_LINESTATE_CLOSED) then
        let '(mv, l) := pblk_line_gc_list l in
        move_line id mv (upd_line id l pb)
      else Ok (upd_line id l pb).

(** An entry of the map is about to be overwritten. *)
Definition drop_mapping (p : Z) (pb : pblk) : res pblk :=
  if decide (dev_addr p) then pblk_page_invalidate p pb else Ok pb.

Definition l2p_set (lba ppa : Z) (pb : pblk) : pblk := pb_set_trans_map (<[lba:=ppa]> (pb_trans_map pb)) pb.

Definition invalidate_lba (lba : Z) (pb : pblk) : res pblk :=
  p ← aread (pb_trans_map pb) lba;
  pb' ← drop_mapping p pb;
  Ok (l2p_set lba ADDR_EMPTY pb').

Definition pblk_invalidate_range (slba nr_secs : Z) (pb : pblk) : res pblk :=
  mfor (seqZ slba nr_secs) invalidate_lba pb.

Definition NR_PHY_IN_LOG : Z := 8.
Definition PBLK_EXPOSED_PAGE_SIZE : Z := 4096.

(** A bio gives its first sector of 512 bytes and its size. *)
Definition pblk_get_lba (bi_sector : Z) : Z := bi_sector / NR_PHY_IN_LOG.
Definition pblk_get_secs (bi_size : Z) : Z := bi_size / PBLK_EXPOSED_PAGE_SIZE.

Definition pblk_discard (bi_sector bi_size : Z) (pb : pblk) : res pblk :=
  pblk_invalidate_range (pblk_get_lba bi_sector) (pblk_get_secs bi_size) pb.

(** ** References of lines *)

Definition pblk_line_free (l : pblk_line) : pblk_line := ln_set_map_bitmap None (ln_set_invalid_bitmap None l).

Definition pblk_line_put (id : Z) (pb : pblk) : res pblk :=
  l ← aread (pb_lines pb) id;
  _ ← BUG_ON (ln_state l ≠ PBLK_LINESTATE_GC);
  let l := pblk_line_free (ln_set_gc_group PBLK_LINEGC_NONE (ln_set_state PBLK_LINESTATE_FREE l)) in
  m ← list_add_tail id L_free (pb_mg pb);
  let m := mg_set_nr_free_lines (s32 (mg_nr_free_lines m + 1)) m in
  r ← pblk_rl_free_lines_inc (ln_blk_in_line l) (pb_rl pb) (pb_gc pb);
  Ok (pb_set_gc r.2 (pb_set_rl r.1 (pb_set_mg m (upd_line id l pb)))).

Definition kref_get (id : Z) (pb : pblk) : res pblk :=
  l ← aread (pb_lines pb) id;
  Ok (upd_line id (ln_set_ref (u32 (ln_ref l + 1)) l) pb).

(** [kref_put(&line->ref, pblk_line_put)]. *)
Definition line_kref_put (id : Z) (pb : pblk) : res pblk :=
  l ← aread (pb_lines pb) id;
  let r := u32 (ln_ref l - 1) in
  let pb := upd_line id (ln_set_ref r l) pb in
  if decide (r = 0) then pblk_line_put id pb else Ok pb.

(** A victim of the collector: it leaves its list. *)
Definition gc_take (id : Z) (pb : pblk) : res pblk :=
  l ← aread (pb_lines pb) id;
  _ ← BUG_ON (ln_state l ≠ PBLK_LINESTATE_CLOSED);
  m ← list_del id (pb_mg pb);
  Ok (pb_set_mg m (upd_line id (ln_set_state PBLK_LINESTATE_GC l) pb)).

(** ** The translation map *)

Definition pblk_get_lba_map (pb : pblk) (lba : Z) : res Z := aread (pb_trans_map pb) lba.

Definition pblk_update_map_cache (lba ppa : Z) (pb : pblk) : res pblk :=
  _ ← BUG_ON (rl_nr_secs (pb_rl pb) ≤ lba);
  old ← aread (pb_trans_map pb) lba;
  pb' ← drop_mapping old pb;
  Ok (l2p_set lba ppa pb').

Definition pblk_update_map_gc (lba ppa gc_line : Z) (pb : pblk) : res pblk :=
  old ← aread (pb_trans_map pb) lba;
  if decide (¬ dev_addr old ∨ pblk_ppa_to_line old ≠ gc_line) then Ok pb
  else Ok (l2p_set lba ppa pb).

Definition pblk_update_map_dev (lba ppa entry_line : Z) (pb : pblk) : res pblk :=
  _ ← BUG_ON (rl_nr_secs (pb_rl pb) ≤ lba);
  old ← aread (pb_trans_map pb) lba;
  if decide (old ≠ entry_line ∧ ppa_empty ppa = false) then pblk_page_invalidate ppa pb
  else Ok (l2p_set lba ppa pb).

Definition pblk_lookup_l2p_seq (pb : pblk) (blba nr_secs : Z) : res (list Z) :=
  mapM (aread (pb_trans_map pb)) (seqZ blba nr_secs).

Definition lookup_lba (pb : pblk) (lba : Z) : res Z :=
  if decide (lba = ADDR_EMPTY) then Ok ADDR_EMPTY
  else
    _ ← BUG_ON (¬ (0 ≤ lba < rl_nr_secs (pb_rl pb)));
    aread (pb_trans_map pb) lba.

Definition pblk_lookup_l2p_rand (pb : pblk) (lba_list : list Z) : res (list Z) :=
  mapM (lookup_lba pb) lba_list.

End core.

(** ** Accounts *)

(** The group a count of valid sectors belongs to, and its list. *)
Definition gc_class (c : pblk_cfg) (l : pblk_line) : Z :=
  if decide (ln_vsc l = 0) then PBLK_LINEGC_FULL
  else if decide (ln_vsc l < lm_mid_thrs (cf_lm c)) then PBLK_LINEGC_HIGH
  else if decide (ln_vsc l < lm_high_thrs (cf_lm c)) then PBLK_LINEGC_MID
  else if decide (ln_vsc l < ln_sec_in_line l) then PBLK_LINEGC_LOW
  else PBLK_LINEGC_EMPTY.

Definition class_list (g : Z) : lname :=
  if decide (g = PBLK_LINEGC_FULL) then L_gc_full
  else if decide (g = PBLK_LINEGC_HIGH) then L_gc_high
  else if decide (g = PBLK_LINEGC_MID) then L_gc_mid
  else if decide (g = PBLK_LINEGC_LOW) then L_gc_low
  else L_gc_empty.

(** A sector of a line. *)
Definition sec_of (c : pblk_cfg) (p : Z) : Z * Z := (pblk_ppa_to_line p, pblk_ppa_to_line_addr (cf_ppaf c) p).

(** The bitmap and the count of a line agree. *)
Record line_acct (c : pblk_cfg) (l : pblk_line) (bm : gset Z) : Prop := {
  la_bm : ln_invalid_bitmap l = Some bm;
  la_sub : ∀ i, i ∈ bm → 0 ≤ i < lm_sec_per_line (cf_lm c);
  la_vsc : ln_vsc l + Z.of_nat (size bm) = lm_sec_per_line (cf_lm c);
  la_le : ln_vsc l ≤ ln_sec_in_line l;
}.

(** The address of a valid sector, or of a line whose sectors are no longer counted. *)
Definition addr_ok (c : pblk_cfg) (pb : pblk) (p : Z) : Prop :=
  dev_addr p ∧ ∃ l, pb_lines pb !! (sec_of c p).1 = Some l ∧
    (ln_state l = PBLK_LINESTATE_GC ∨ ln_state l = PBLK_LINESTATE_FREE ∨
     ((ln_state l = PBLK_LINESTATE_OPEN ∨ ln_state l = PBLK_LINESTATE_CLOSED) ∧
      ∃ bm, line_acct c l bm ∧ 0 ≤ (sec_of c p).2 < lm_sec_per_line (cf_lm c) ∧ (sec_of c p).2 ∉ bm)).

(** The references to line [id] in a list of references. *)
Definition nrefs (rf : list Z) (id : Z) : Z := Z.of_nat (length (filter (λ x, x = id) rf)).

Definition on_only (m : pblk_line_mgmt) (id : Z) (L : lname) : Prop := ∀ L', id ∈ mg_lists m L' ↔ L' = L.

Record line_ok (c : pblk_cfg) (m : pblk_line_mgmt) (rf : list Z) (id : Z) (l : pblk_line) : Prop := {
  lo_closed : ln_state l = PBLK_LINESTATE_CLOSED →
    ln_gc_group l = gc_class c l ∧ on_only m id (class_list (gc_class c l));
  lo_unlisted : ln_state l = PBLK_LINESTATE_GC ∨ ln_state l = PBLK_LINESTATE_OPEN → ¬ on_list m id;
  lo_ref : ln_state l ≠ PBLK_LINESTATE_FREE → ln_state l ≠ PBLK_LINESTATE_BAD → ln_state l ≠ PBLK_LINESTATE_GC →
    nrefs rf id < ln_ref l < 2 ^ 32;
  lo_gc : ln_state l = PBLK_LINESTATE_GC → nrefs rf id ≤ ln_ref l < 2 ^ 32 ∧ 0 < ln_ref l;
  lo_free : ln_state l = PBLK_LINESTATE_FREE ∨ ln_state l = PBLK_LINESTATE_BAD → nrefs rf id = 0;
}.

(** [pend] are the addresses the write buffer holds and [rf] the references it has. *)
Record acct_inv (c : pblk_cfg) (pb : pblk) (pend rf : list Z) : Prop := {
  ai_lines : ∀ id l, pb_lines pb !! id = Some l → line_ok c (pb_mg pb) rf id l;
  ai_map : ∀ a p, pb_trans_map pb !! a = Some p → dev_addr p → addr_ok c pb p;
  ai_pend : ∀ p, p ∈ pend → addr_ok c pb p;
  ai_inj : ∀ a b p q, pb_trans_map pb !! a = Some p → pb_trans_map pb !! b = Some q →
    dev_addr p → dev_addr q → sec_of c p = sec_of c q → a = b;
  ai_nodup : NoDup (sec_of c <$> pend);
  ai_apart : ∀ a p q, pb_trans_map pb !! a = Some p → dev_addr p → q ∈ pend → sec_of c p ≠ sec_of c q;
  ai_lba : ∀ a, 0 ≤ a < rl_nr_secs (pb_rl pb) → is_Some (pb_trans_map pb !! a);
  ai_refs : ∀ id, id ∈ rf → is_Some (pb_lines pb !! id);
  ai_rl : 0 ≤ s32 (high_pw (pb_rl pb) - rb_windows_pw (pb_rl pb));
}.

Record cfg_ok (c : pblk_cfg) : Prop := {
  co_spl : 0 < lm_sec_per_line (cf_lm c) < 2 ^ 31;
  co_bits : lm_sec_per_line (cf_lm c) ≤ sec_bits c;
}.

(** ** Lists *)

Lemma all_lists_complete L : L ∈ all_lists.
Proof. destruct L; unfold all_lists; rewrite !elem_of_cons; tauto. Qed.

Lemma on_list_iff m id : on_list m id ↔ ∃ L, id ∈ mg_lists m L.
Proof.
  unfold on_list. rewrite Exists_exists. split; [naive_solver|].
  intros (L & HL). exists L. split; [apply all_lists_complete|done].
Qed.

Lemma not_on_unlink m id : ¬ on_list (unlink id m) id.
Proof. rewrite on_list_iff. intros (L & HL). cbn in HL. apply list_elem_of_filter in HL. tauto. Qed.

Lemma unlink_other m id id' L : id' ≠ id → id' ∈ mg_lists (unlink id m) L ↔ id' ∈ mg_lists m L.
Proof. intros. cbn. rewrite list_elem_of_filter. tauto. Qed.

Lemma put_list_in m L l L' id : id ∈ mg_lists (put_list L l m) L' ↔ if decide (L' = L) then id ∈ l else id ∈ mg_lists m L'.
Proof. cbn. by case_decide. Qed.

Lemma list_add_tail_ok m id L :
  ¬ on_list m id → list_add_tail id L m = Ok (put_list L (mg_lists m L ++ [id]) m).
Proof. intros. unfold list_add_tail. by rewrite decide_False. Qed.

Lemma added_only m id L : ¬ on_list m id → on_only (put_list L (mg_lists m L ++ [id]) m) id L.
Proof.
  intros Hn L'. rewrite put_list_in. case_decide as H.
  - rewrite elem_of_app, list_elem_of_singleton. tauto.
  - split; [|done]. intros Hi. destruct Hn. apply on_list_iff. eauto.
Qed.

Lemma added_other m id id' L L' :
  id' ≠ id → id' ∈ mg_lists (put_list L (mg_lists m L ++ [id]) m) L' ↔ id' ∈ mg_lists m L'.
Proof.
  intros. rewrite put_list_in. case_decide; [|done]. subst. rewrite elem_of_app, list_elem_of_singleton. tauto.
Qed.

(** Two management records with the same lists for the line. *)
Lemma line_ok_lists c m m' rf id l :
  (∀ L, id ∈ mg_lists m' L ↔ id ∈ mg_lists m L) → line_ok c m rf id l → line_ok c m' rf id l.
Proof.
  intros Hm []. assert (on_list m' id ↔ on_list m id) as Ho by (rewrite !on_list_iff; naive_solver).
  constructor; try done.
  - intros Hc. destruct (lo_closed0 Hc) as [? Hl]. split; [done|]. intros L'. by rewrite Hm.
  - rewrite Ho. done.
Qed.

Lemma move_tail_ok m id L :
  on_list m id → ∃ m', list_move_tail id L m = Ok m' ∧ on_only m' id L ∧
    (∀ id' L', id' ≠ id → id' ∈ mg_lists m' L' ↔ id' ∈ mg_lists m L').
Proof.
  intros Hon. unfold list_move_tail, list_del. rewrite decide_True by done. cbn.
  pose proof (not_on_unlink m id) as Hn. rewrite list_add_tail_ok by done. eexists. split; [done|].
  split; [by apply added_only|]. intros. rewrite added_other by done. by apply unlink_other.
Qed.

(** ** The group of a line *)

Lemma set_gc_group_same l : ln_set_gc_group (ln_gc_group l) l = l.
Proof. by destruct l. Qed.

Lemma gc_list_spec c l :
  ln_vsc l ≤ ln_sec_in_line l →
  pblk_line_gc_list c l =
    (if decide (ln_gc_group l = gc_class c l) then None else Some (class_list (gc_class c l)),
     ln_set_gc_group (gc_class c l) l).
Proof.
  intros Hle. unfold pblk_line_gc_list, gc_class.
  assert (∀ g L, class_list g = L →
    (if decide (ln_gc_group l ≠ g) then (Some L, ln_set_gc_group g l) else (None, l)) =
    (if decide (ln_gc_group l = g) then None else Some (class_list g), ln_set_gc_group g l)) as Hin.
  { intros g L <-. destruct (decide (ln_gc_group l = g)) as [<-|].
    - rewrite decide_False by tauto. by rewrite set_gc_group_same.
    - by rewrite decide_True. }
  repeat match goal with
  | |- context [decide (?P : Prop)] =>
      match P with context [ln_vsc] => destruct (decide P); [first [by apply Hin | lia]|] end
  end; first [by apply Hin | lia].
Qed.

(** ** Invalidating a sector *)

Lemma line_acct_bound c l bm : line_acct c l bm → 0 ≤ ln_vsc l → Z.of_nat (size bm) ≤ lm_sec_per_line (cf_lm c).
Proof. intros [] ?. lia. Qed.

(** A set of numbers below [n] that misses one of them has fewer than [n]. *)
Lemma size_below (n : Z) (bm : gset Z) i :
  (∀ j, j ∈ bm → 0 ≤ j < n) → 0 ≤ i < n → i ∉ bm → Z.of_nat (size bm) < n.
Proof.
  intros Hb Hi Hni. assert (size ({[i]} ∪ bm) ≤ Z.to_nat n)%nat as Hs.
  { rewrite <-(length_seqZ 0 n), <-(size_list_to_set (C:=gset Z) (seqZ 0 n)) by apply NoDup_seqZ.
    apply subseteq_size. intros j Hj. apply elem_of_list_to_set, elem_of_seqZ.
    apply elem_of_union in Hj as [->%elem_of_singleton|Hj]; [lia|]. specialize (Hb j Hj). lia. }
  rewrite size_union, size_singleton in Hs by set_solver. lia.
Qed.

Lemma line_acct_invalidate c l bm i :
  cfg_ok c → line_acct c l bm → 0 ≤ i < lm_sec_per_line (cf_lm c) → i ∉ bm →
  let l' := ln_set_vsc (u32 (ln_vsc l - 1)) (ln_set_invalid_bitmap (Some ({[i]} ∪ bm)) l) in
  line_acct c l' ({[i]} ∪ bm) ∧ ln_vsc l' = ln_vsc l - 1 ∧ 0 < ln_vsc l.
Proof.
  intros [Hs _] [H1 H2 H3 H4] Hi Hni l'. pose proof (size_below _ bm i H2 Hi Hni) as Hlt.
  assert (ln_vsc l' = ln_vsc l - 1) as Hv by (cbn; apply u32_small; lia).
  split_and!; [|done|lia]. constructor.
  - done.
  - set_solver.
  - rewrite Hv, size_union, size_singleton by set_solver. lia.
  - rewrite Hv. cbn. lia.
Qed.

(** What an invalidation leaves: the line has one valid sector less, unless its sectors
    are no longer counted. *)
Record invalidated (c : pblk_cfg) (pb pb' : pblk) (p : Z) : Prop := {
  iv_frame : pb' = pb_set_mg (pb_mg pb') (pb_set_lines (pb_lines pb') pb);
  iv_line : ∃ l l', pb_lines pb !! (sec_of c p).1 = Some l ∧
    pb_lines pb' = <[(sec_of c p).1:=l']> (pb_lines pb) ∧ ln_ref l' = ln_ref l ∧ ln_state l' = ln_state l ∧
    ((ln_state l = PBLK_LINESTATE_GC ∨ ln_state l = PBLK_LINESTATE_FREE) ∧ l' = l ∨
     ∃ bm, line_acct c l bm ∧ (sec_of c p).2 ∉ bm ∧ line_acct c l' ({[(sec_of c p).2]} ∪ bm) ∧
       ln_vsc l' = ln_vsc l - 1);
  iv_other : ∀ id L, id ≠ (sec_of c p).1 → id ∈ mg_lists (pb_mg pb') L ↔ id ∈ mg_lists (pb_mg pb) L;
}.

Lemma moved_line_ok c m rf id l l' mv :
  line_ok c m rf id l → ln_state l = PBLK_LINESTATE_CLOSED → ln_state l' = ln_state l →
  ln_gc_group l' = ln_gc_group l → ln_ref l' = ln_ref l →
  mv = (if decide (ln_gc_group l' = gc_class c l') then None else Some (class_list (gc_class c l'))) →
  ∃ m', match mv with None => Ok m | Some L => list_move_tail id L m end = Ok m' ∧
    line_ok c m' rf id (ln_set_gc_group (gc_class c l') l') ∧
    (∀ id' L, id' ≠ id → id' ∈ mg_lists m' L ↔ id' ∈ mg_lists m L).
Proof.
  intros [] Hc Hst Hg Hr ->. destruct (lo_closed0 Hc) as [Hgl Hon].
  assert (ln_gc_group l' = gc_class c l) as Hg' by congruence.
  assert (∀ m', on_only m' id (class_list (gc_class c l')) →
    line_ok c m' rf id (ln_set_gc_group (gc_class c l') l')) as Hok.
  { intros m' Ho. constructor; cbn; rewrite ?Hst, ?Hr.
    - intros _. split; [done|exact Ho].
    - rewrite Hc. by intros [|].
    - exact lo_ref0.
    - exact lo_gc0.
    - exact lo_free0. }
  case_decide as Hd.
  - exists m. split; [done|]. split; [|done]. apply Hok. rewrite <-Hd, Hg'. exact Hon.
  - assert (on_list m id) as Hl. { apply on_list_iff. eexists. by apply Hon. }
    destruct (move_tail_ok m id (class_list (gc_class c l')) Hl) as (m' & E & Ho & Hoth).
    exists m'. split; [exact E|]. split; [by apply Hok|exact Hoth].
Qed.

Lemma page_invalidate_ok c pb rf p :
  cfg_ok c → (∀ id l, pb_lines pb !! id = Some l → line_ok c (pb_mg pb) rf id l) → addr_ok c pb p →
  ∃ pb', pblk_page_invalidate c p pb = Ok pb' ∧ invalidated c pb pb' p ∧
    (∀ id l, pb_lines pb' !! id = Some l → line_ok c (pb_mg pb') rf id l).
Proof.
  intros Hcfg Hlines (_ & l & Hl & Hst). unfold pblk_page_invalidate. cbn [sec_of fst] in Hl.
  rewrite (aread_Some _ _ _ Hl), bind_Ok_l.
  destruct (decide (ln_state l = PBLK_LINESTATE_GC ∨ ln_state l = PBLK_LINESTATE_FREE)) as [Hgc|Hngc].
  { exists pb. split; [done|]. split; [|done]. constructor; [by destruct pb| |done].
    exists l, l. split; [done|]. rewrite insert_id by done. split_and!; auto. }
  destruct Hst as [?|[?|(Hs & bm & Hacct & Hpa & Hni)]]; [tauto..|].
  rewrite (la_bm _ _ _ Hacct). cbn [deref]. rewrite bind_Ok_l. unfold test_and_set_bit.
  cbn [sec_of snd] in Hpa, Hni. pose proof (co_bits c Hcfg).
  rewrite decide_True, bind_Ok_l by lia. rewrite bool_decide_eq_false_2 by done. rewrite decide_False by done.
  destruct (line_acct_invalidate c l bm _ Hcfg Hacct Hpa Hni) as (Hacct' & Hv & Hpos).
  set (l1 := ln_set_vsc _ _) in *. change (ln_state l1) with (ln_state l).
  set (id := pblk_ppa_to_line p) in *. set (i := pblk_ppa_to_line_addr (cf_ppaf c) p) in *.
  pose proof (Hlines id l Hl) as Hlok.
  assert (∀ m' l2, line_ok c m' rf id l2 →
    (∀ id' L, id' ≠ id → id' ∈ mg_lists m' L ↔ id' ∈ mg_lists (pb_mg pb) L) →
    ∀ id' l', (<[id:=l2]> (pb_lines pb)) !! id' = Some l' → line_ok c m' rf id' l') as Hall.
  { intros m' l2 H2 Hoth id' l' Hl'. destruct (decide (id' = id)) as [->|Hne].
    - rewrite lookup_insert_eq in Hl'. by injection Hl' as <-.
    - rewrite lookup_insert_ne in Hl' by done. eapply line_ok_lists; [|by apply Hlines].
      intros L. by apply Hoth. }
  destruct (decide (ln_state l = PBLK_LINESTATE_CLOSED)) as [Hc|Hnc].
  - rewrite (gc_list_spec c l1) by apply Hacct'.
    destruct (moved_line_ok c (pb_mg pb) rf id l l1 _ Hlok Hc eq_refl eq_refl eq_refl eq_refl) as (m' & E & Hok & Hoth).
    set (l2 := ln_set_gc_group _ _) in *.
    assert (move_line id (if decide (ln_gc_group l1 = gc_class c l1) then None else Some (class_list (gc_class c l1)))
      (upd_line id l2 pb) = Ok (pb_set_mg m' (upd_line id l2 pb))) as ->.
    { unfold move_line. case_decide; [injection E as <-; by destruct pb|].
      change (pb_mg (upd_line id l2 pb)) with (pb_mg pb). by rewrite E. }
    exists (pb_set_mg m' (upd_line id l2 pb)). split; [done|]. split; [|by apply Hall].
    constructor; [by destruct pb| |exact Hoth]. exists l, l2. cbn. split; [done|]. split; [done|].
    split; [done|]. split; [done|]. right. exists bm. split; [done|]. split; [done|].
    split; [|done]. destruct Hacct' as [A1 A2 A3 A4]. constructor; done.
  - exists (upd_line id l1 pb). split; [done|]. split.
    + constructor; [by destruct pb| |done]. exists l, l1. cbn. eauto 10.
    + apply Hall; [|done]. destruct Hlok. constructor; try done.
Qed.

(** Other addresses stay what they are. *)
Lemma invalidated_other c pb pb' p q :
  invalidated c pb pb' p → addr_ok c pb q → sec_of c q ≠ sec_of c p → addr_ok c pb' q.
Proof.
  intros [Hf (l & l' & Hl & Hls & Hr & Hst & Hb) _] (Hd & lq & Hlq & Hq) Hne. split; [done|].
  rewrite Hls. destruct (decide ((sec_of c q).1 = (sec_of c p).1)) as [He|].
  - rewrite He in *. rewrite lookup_insert_eq. rewrite Hl in Hlq. injection Hlq as <-. exists l'. split; [done|].
    rewrite Hst. destruct Hb as [(_ & ->)|(bm & Ha & Hni & Ha' & _)]; [done|].
    destruct Hq as [?|[?|(Hs & bm' & Ha2 & Hr2 & Hn2)]]; [tauto..|]. right. right. split; [done|].
    assert (bm' = bm) as -> by (pose proof (la_bm _ _ _ Ha); pose proof (la_bm _ _ _ Ha2); congruence).
    eexists. split; [done|]. split; [done|]. rewrite not_elem_of_union, not_elem_of_singleton. split; [|done].
    intros He2. apply Hne. destruct (sec_of c q), (sec_of c p). cbn in *. congruence.
  - rewrite lookup_insert_ne by done. eauto.
Qed.

(** ** The operations keep the accounts *)

Lemma addr_ok_lines c pb pb' p : pb_lines pb' = pb_lines pb → addr_ok c pb p → addr_ok c pb' p.
Proof. unfold addr_ok. by intros ->. Qed.

(** The map alone changes: an entry becomes a line of the buffer or empty. *)
Lemma acct_set_plain c pb pend rf a v : acct_inv c pb pend rf → ¬ dev_addr v → acct_inv c (l2p_set a v pb) pend rf.
Proof.
  intros [] Hv. constructor; try done.
  - intros a' p. cbn. rewrite lookup_insert_Some. intros [[_ <-]|[_ ?]] ?; [done|]. by eapply ai_map0.
  - intros a' b p q. cbn. rewrite !lookup_insert_Some. intros [[_ <-]|[? ?]] [[_ <-]|[? ?]] ? ?; [done..|]. eauto.
  - intros a' p q. cbn. rewrite lookup_insert_Some. intros [[_ <-]|[_ ?]] ?; [done|]. by eapply ai_apart0.
  - intros a' Ha. cbn. rewrite lookup_insert_is_Some. destruct (decide (a = a')); [by left|right]. split; [done|]. by apply ai_lba0.
Qed.

(** An address of the buffer goes to the map. *)
Lemma acct_set_dev c pb pend rf a p : acct_inv c pb (p :: pend) rf → acct_inv c (l2p_set a p pb) pend rf.
Proof.
  intros []. cbn in ai_nodup0. apply NoDup_cons in ai_nodup0 as [Hnp Hnd].
  assert (addr_ok c pb p) as Hp by (apply ai_pend0; by left).
  constructor; try done.
  - intros a' q. cbn. rewrite lookup_insert_Some. intros [[_ <-]|[_ ?]] ?; [done|]. by eapply ai_map0.
  - intros q Hq. apply ai_pend0. by right.
  - intros a' b q r. cbn. rewrite !lookup_insert_Some. intros [[<- <-]|[? H1]] [[<- <-]|[? H2]] ? ? Hs; [done| | |eauto].
    + destruct (ai_apart0 b r p H2); [done|by left|done].
    + destruct (ai_apart0 a' q p H1); [done|by left|done].
  - intros a' q r. cbn. rewrite lookup_insert_Some. intros [[_ <-]|[_ ?]] ? Hr.
    + intros He. apply Hnp. rewrite He. by apply list_elem_of_fmap_2.
    + eapply ai_apart0; [done..|by right].
  - intros a' Ha. cbn. rewrite lookup_insert_is_Some. destruct (decide (a = a')); [by left|right]. split; [done|]. by apply ai_lba0.
Qed.

Lemma invalidated_frame c pb pb' p :
  invalidated c pb pb' p →
  pb_trans_map pb' = pb_trans_map pb ∧ pb_rl pb' = pb_rl pb ∧ pb_rwb pb' = pb_rwb pb ∧
  ∀ id, is_Some (pb_lines pb !! id) → is_Some (pb_lines pb' !! id).
Proof.
  intros [Hf (l & l' & _ & Hl & _) _]. rewrite Hf. cbn. split_and!; try done. intros id ?. rewrite Hl.
  rewrite lookup_insert_is_Some. destruct (decide ((sec_of c p).1 = id)); auto.
Qed.

(** The buffer drops an address: its sector is no longer valid. *)
Lemma acct_invalidate_pend c pb pend rf p :
  cfg_ok c → acct_inv c pb (p :: pend) rf →
  ∃ pb', pblk_page_invalidate c p pb = Ok pb' ∧ invalidated c pb pb' p ∧ acct_inv c pb' pend rf.
Proof.
  intros Hcfg [].
  destruct (page_invalidate_ok c pb rf p Hcfg ai_lines0) as (pb' & E & Hi & Hl'); [apply ai_pend0; by left|].
  exists pb'. split; [done|]. split; [done|]. destruct (invalidated_frame _ _ _ _ Hi) as (Ht & Hr & Hw & Hs).
  cbn in ai_nodup0. apply NoDup_cons in ai_nodup0 as [Hnp Hnd].
  constructor; rewrite ?Ht, ?Hr; try done.
  - intros a q Hq Hd. eapply invalidated_other; [done|by eapply ai_map0|].
    apply (ai_apart0 a q p); [done..|by left].
  - intros q Hq. eapply invalidated_other; [done|apply ai_pend0; by right|]. intros He. apply Hnp. rewrite <-He.
    by apply list_elem_of_fmap_2.
  - intros a q r ? ? ?. eapply ai_apart0; [done..|by right].
  - eauto.
Qed.

(** An entry of the map is overwritten. *)
Lemma acct_overwrite c pb pend rf a p v :
  cfg_ok c → acct_inv c pb pend rf → pb_trans_map pb !! a = Some p → ¬ dev_addr v →
  ∃ pb', drop_mapping c p pb = Ok pb' ∧ acct_inv c (l2p_set a v pb') pend rf.
Proof.
  intros Hcfg Hinv Ha Hv. unfold drop_mapping. case_decide as Hd; [|exists pb; split; [done|by apply acct_set_plain]].
  destruct Hinv. destruct (page_invalidate_ok c pb rf p Hcfg ai_lines0) as (pb' & E & Hi & Hl'); [by eapply ai_map0|].
  exists pb'. split; [done|]. destruct (invalidated_frame _ _ _ _ Hi) as (Ht & Hr & Hw & Hs).
  constructor; cbn; rewrite ?Ht, ?Hr; try done.
  - intros a' q. rewrite lookup_insert_Some. intros [[_ <-]|[Hne Hq]] Hdq; [done|].
    apply (addr_ok_lines c pb'); [done|]. eapply (invalidated_other c pb); [done|by eapply ai_map0|].
    intros He. apply Hne. symmetry. by apply (ai_inj0 _ _ _ _ Hq Ha).
  - intros q Hq. apply (addr_ok_lines c pb'); [done|]. eapply (invalidated_other c pb); [done|by apply ai_pend0|].
    intros He. by apply (ai_apart0 a p q Ha Hd Hq).
  - intros a' b q r. rewrite !lookup_insert_Some. intros [[_ <-]|[? ?]] [[_ <-]|[? ?]] ? ?; [done..|]. eauto.
  - intros a' q r. rewrite lookup_insert_Some. intros [[_ <-]|[_ ?]] ?; [done|]. by eapply ai_apart0.
  - intros a' Ha'. rewrite lookup_insert_is_Some. destruct (decide (a = a')); [by left|right]. split; [done|]. by apply ai_lba0.
  - eauto.
Qed.

Lemma nrefs_perm rf rf' id : rf ≡ₚ rf' → nrefs rf id = nrefs rf' id.
Proof. unfold nrefs. by intros ->. Qed.

Lemma nrefs_cons i rf id : nrefs (i :: rf) id = nrefs rf id + (if decide (i = id) then 1 else 0).
Proof. unfold nrefs. rewrite filter_cons. case_decide; cbn [length]; lia. Qed.

Lemma nrefs_nonneg rf id : 0 ≤ nrefs rf id.
Proof. unfold nrefs. lia. Qed.

Lemma acct_perm c pb pend pend' rf rf' : pend ≡ₚ pend' → rf ≡ₚ rf' → acct_inv c pb pend rf → acct_inv c pb pend' rf'.
Proof.
  intros Hp Hr []. constructor; try done.
  - intros id l Hl. destruct (ai_lines0 id l Hl). constructor; rewrite <-?(nrefs_perm _ _ _ Hr); done.
  - intros p Hin. apply ai_pend0. by rewrite Hp.
  - by rewrite <-Hp.
  - intros a p q ? ? Hq. apply (ai_apart0 a p q); [done..|by rewrite Hp].
  - intros id. rewrite <-Hr. apply ai_refs0.
Qed.

(** The lines change, and with them the lists. *)
Lemma acct_lines c pb pb' pend rf rf' id l l' :
  acct_inv c pb pend rf → pb_lines pb !! id = Some l → pb_lines pb' = <[id:=l']> (pb_lines pb) →
  pb_trans_map pb' = pb_trans_map pb → 0 ≤ s32 (high_pw (pb_rl pb') - rb_windows_pw (pb_rl pb')) →
  rl_nr_secs (pb_rl pb') = rl_nr_secs (pb_rl pb) →
  (∀ id' L, id' ≠ id → id' ∈ mg_lists (pb_mg pb') L ↔ id' ∈ mg_lists (pb_mg pb) L) →
  (∀ id', id' ≠ id → nrefs rf' id' = nrefs rf id') → (∀ i, i ∈ rf' → is_Some (pb_lines pb' !! i)) →
  line_ok c (pb_mg pb') rf' id l' →
  ((ln_state l' = PBLK_LINESTATE_GC ∨ ln_state l' = PBLK_LINESTATE_FREE) ∨
   (ln_state l' = ln_state l ∧ ln_invalid_bitmap l' = ln_invalid_bitmap l ∧ ln_vsc l' = ln_vsc l ∧
    ln_sec_in_line l' = ln_sec_in_line l)) →
  acct_inv c pb' pend rf'.
Proof.
  intros [] Hl Hls Ht Hrl Hsecs Hlists Hn Hrefs Hok Hst.
  assert (∀ p, addr_ok c pb p → addr_ok c pb' p) as Haddr.
  { intros p (Hd & lp & Hlp & Hp). split; [done|]. rewrite Hls.
    destruct (decide (id = (sec_of c p).1)) as [He|]; [|rewrite lookup_insert_ne by done; eauto].
    rewrite <-He in *. rewrite lookup_insert_eq. exists l'. split; [done|]. rewrite Hl in Hlp. injection Hlp as <-.
    destruct Hst as [[?|?]|(-> & Hb & Hv & Hsl)]; [tauto..|]. destruct Hp as [?|[?|(Hs & bm & [] & Hr)]]; [tauto..|].
    right. right. split; [done|]. exists bm. split; [|done]. constructor; rewrite ?Hb, ?Hv, ?Hsl; done. }
  constructor; rewrite ?Ht, ?Hsecs; eauto.
  intros id' l1. rewrite Hls. destruct (decide (id' = id)) as [->|Hne].
  - rewrite lookup_insert_eq. by intros [= <-].
  - rewrite lookup_insert_ne by done. intros Hl1. eapply line_ok_lists; [intros L; by apply Hlists|].
    destruct (ai_lines0 id' l1 Hl1). constructor; rewrite ?Hn by done; done.
Qed.

Lemma free_lines_inc_ok n rl g :
  0 ≤ s32 (high_pw rl - rb_windows_pw rl) →
  ∃ rl' g', pblk_rl_free_lines_inc n rl g = Ok (rl', g') ∧ high_pw rl' = high_pw rl ∧
    rb_windows_pw rl' = rb_windows_pw rl ∧ rl_nr_secs rl' = rl_nr_secs rl.
Proof.
  intros Hs. unfold pblk_rl_free_lines_inc, pblk_rl_update_rates. cbn [rl_set_free high_pw rb_windows_pw].
  repeat (case_decide; [cbn; eauto 10|]); cbn; eauto 10. lia.
Qed.

(** A reference is dropped; with the last one the line, which the collector has, is
    free. *)
Lemma kref_put_ok c pb pend rf id :
  acct_inv c pb pend (id :: rf) →
  ∃ pb', line_kref_put id pb = Ok pb' ∧ acct_inv c pb' pend rf ∧ pb_trans_map pb' = pb_trans_map pb ∧
    pb_rwb pb' = pb_rwb pb ∧ rl_nr_secs (pb_rl pb') = rl_nr_secs (pb_rl pb).
Proof.
  intros Hinv. destruct (ai_refs _ _ _ _ Hinv id) as [l Hl]; [by left|].
  pose proof (ai_lines _ _ _ _ Hinv id l Hl) as Hok. pose proof (ai_rl _ _ _ _ Hinv) as Hrl.
  assert (nrefs (id :: rf) id = nrefs rf id + 1) as Hn by (rewrite nrefs_cons, decide_True; done).
  assert (∀ id', id' ≠ id → nrefs rf id' = nrefs (id :: rf) id') as Hn' by (intros; rewrite nrefs_cons, decide_False; lia).
  assert (∀ l' i, i ∈ rf → is_Some (<[id:=l']> (pb_lines pb) !! i)) as Href.
  { intros l' i Hi. rewrite lookup_insert_is_Some. destruct (decide (id = i)); [by left|right]. split; [done|].
    apply (ai_refs _ _ _ _ Hinv). by right. }
  pose proof (nrefs_nonneg rf id) as Hnn.
  assert (ln_state l ≠ PBLK_LINESTATE_FREE) as Hnf by (intros H; pose proof (lo_free _ _ _ _ _ Hok (or_introl H)); lia).
  assert (ln_state l ≠ PBLK_LINESTATE_BAD) as Hnb by (intros H; pose proof (lo_free _ _ _ _ _ Hok (or_intror H)); lia).
  assert (0 < ln_ref l < 2 ^ 32) as Href0.
  { destruct (decide (ln_state l = PBLK_LINESTATE_GC)) as [Hg|Hg];
      [pose proof (lo_gc _ _ _ _ _ Hok Hg)|pose proof (lo_ref _ _ _ _ _ Hok Hnf Hnb Hg)]; lia. }
  unfold line_kref_put. rewrite (aread_Some _ _ _ Hl), bind_Ok_l, u32_small by lia. cbv zeta.
  set (l1 := ln_set_ref (ln_ref l - 1) l).
  destruct (decide (ln_ref l - 1 = 0)) as [Hz|Hnz].
  - assert (ln_state l = PBLK_LINESTATE_GC) as Hg.
    { destruct (decide (ln_state l = PBLK_LINESTATE_GC)) as [|Hng]; [done|].
      pose proof (lo_ref _ _ _ _ _ Hok Hnf Hnb Hng). lia. }
    pose proof (lo_gc _ _ _ _ _ Hok Hg) as Hr. pose proof (lo_unlisted _ _ _ _ _ Hok (or_introl Hg)) as Hun.
    unfold pblk_line_put. cbn [upd_line pb_lines pb_set_lines].
    rewrite (aread_Some _ _ l1) by (apply lookup_insert_eq). rewrite bind_Ok_l.
    rewrite BUG_ON_pass, bind_Ok_l by (intros H; apply H; done).
    cbn [pb_mg pb_set_lines upd_line]. rewrite list_add_tail_ok, bind_Ok_l by done.
    cbn [pb_rl pb_gc pb_set_lines upd_line].
    destruct (free_lines_inc_ok (ln_blk_in_line (pblk_line_free (ln_set_gc_group PBLK_LINEGC_NONE
      (ln_set_state PBLK_LINESTATE_FREE l1)))) (pb_rl pb) (pb_gc pb) Hrl) as (rl' & g' & -> & E1 & E2 & E3).
    rewrite bind_Ok_l. eexists. split; [done|]. split; [|cbn; auto].
    eapply acct_lines; [exact Hinv|exact Hl| | | | | | | | |]; cbn.
    + rewrite insert_insert_eq. done.
    + done.
    + by rewrite E1, E2.
    + done.
    + intros id' L Hne. by apply added_other.
    + done.
    + intros i Hi. rewrite insert_insert_eq. by apply Href.
    + constructor; cbn; try done. 1: by intros [|]. intros _. lia.
    + left. by right.
  - eexists. split; [done|]. split; [|cbn; auto].
    eapply acct_lines; [exact Hinv|exact Hl| | | | | | | | |]; cbn; try done.
    + by apply Href.
    + destruct Hok. constructor; cbn; try done; rewrite Hn in *.
      * intros A B C. pose proof (lo_ref0 A B C). lia.
      * intros A. pose proof (lo_gc0 A). lia.
      * intros [A|A]; contradiction.
    + by right.
Qed.

Lemma gc_take_ok c pb pend rf id l :
  acct_inv c pb pend rf → pb_lines pb !! id = Some l → ln_state l = PBLK_LINESTATE_CLOSED →
  ∃ pb', gc_take id pb = Ok pb' ∧ acct_inv c pb' pend (id :: rf) ∧ pb_trans_map pb' = pb_trans_map pb ∧
    pb_rwb pb' = pb_rwb pb.
Proof.
  intros Hinv Hl Hc. pose proof (ai_lines _ _ _ _ Hinv id l Hl) as Hok.
  destruct (lo_closed _ _ _ _ _ Hok Hc) as [_ Hon]. unfold gc_take.
  rewrite (aread_Some _ _ _ Hl), bind_Ok_l. rewrite BUG_ON_pass, bind_Ok_l by (intros H; by apply H).
  assert (on_list (pb_mg pb) id) as Hol by (apply on_list_iff; eexists; by apply Hon).
  unfold list_del. rewrite decide_True, bind_Ok_l by done. eexists. split; [done|]. split; [|done].
  pose proof (lo_ref _ _ _ _ _ Hok ltac:(by rewrite Hc) ltac:(by rewrite Hc) ltac:(by rewrite Hc)) as Hr.
  pose proof (nrefs_nonneg rf id).
  assert (nrefs (id :: rf) id = nrefs rf id + 1) as Hn by (rewrite nrefs_cons, decide_True; done).
  eapply acct_lines; [exact Hinv|exact Hl| | | | | | | | |]; cbn.
  - done.
  - done.
  - by apply ai_rl in Hinv.
  - done.
  - intros. by apply unlink_other.
  - intros. rewrite nrefs_cons, decide_False; [lia|congruence].
  - intros i. rewrite elem_of_cons, lookup_insert_is_Some. destruct (decide (id = i)); [by left|].
    intros [->|Hi]; [done|right]. split; [done|]. by apply (ai_refs _ _ _ _ Hinv).
  - constructor; cbn; try done.
    + intros _. apply not_on_unlink.
    + intros _. lia.
    + by intros [|].
  - left. by left.
Qed.

Lemma update_map_cache_ok c pb pend rf lba line :
  cfg_ok c → acct_inv c pb pend rf → 0 ≤ lba < rl_nr_secs (pb_rl pb) → ¬ dev_addr line →
  ∃ pb' pb0, pblk_update_map_cache c lba line pb = Ok pb' ∧ pb' = l2p_set lba line pb0 ∧
    (∃ old, drop_mapping c old pb = Ok pb0) ∧ acct_inv c pb' pend rf.
Proof.
  intros Hcfg Hinv Hlba Hline. unfold pblk_update_map_cache.
  rewrite BUG_ON_pass, bind_Ok_l by lia. destruct (ai_lba _ _ _ _ Hinv lba Hlba) as [old Hold].
  rewrite (aread_Some _ _ _ Hold), bind_Ok_l.
  destruct (acct_overwrite c pb pend rf lba old line Hcfg Hinv Hold Hline) as (pb0 & E & Hi).
  rewrite E, bind_Ok_l. eauto 10.
Qed.

Lemma invalidate_lba_ok c pb pend rf lba :
  cfg_ok c → acct_inv c pb pend rf → 0 ≤ lba < rl_nr_secs (pb_rl pb) →
  ∃ pb', invalidate_lba c lba pb = Ok pb' ∧ acct_inv c pb' pend rf ∧ pb_rl pb' = pb_rl pb.
Proof.
  intros Hcfg Hinv Hlba. unfold invalidate_lba. destruct (ai_lba _ _ _ _ Hinv lba Hlba) as [old Hold].
  rewrite (aread_Some _ _ _ Hold), bind_Ok_l.
  destruct (acct_overwrite c pb pend rf lba old ADDR_EMPTY Hcfg Hinv Hold) as (pb0 & E & Hi); [by intros [_ ?]|].
  rewrite E, bind_Ok_l. eexists. split; [done|]. split; [done|]. cbn. unfold drop_mapping in E.
  case_decide as Hd; [|injection E as <-; done]. destruct Hinv.
  destruct (page_invalidate_ok c pb rf old Hcfg ai_lines0) as (pb1 & E1 & Hv & _); [by eapply ai_map0|].
  rewrite E1 in E. injection E as <-. by destruct (invalidated_frame _ _ _ _ Hv) as (_ & ? & _).
Qed.

Lemma invalidate_range_ok c pb pend rf slba n :
  cfg_ok c → acct_inv c pb pend rf → 0 ≤ slba → slba + n ≤ rl_nr_secs (pb_rl pb) →
  ∃ pb', pblk_invalidate_range c slba n pb = Ok pb' ∧ acct_inv c pb' pend rf ∧ pb_rl pb' = pb_rl pb.
Proof.
  intros Hcfg Hinv Hs Hn. unfold pblk_invalidate_range.
  apply (mfor_inv (λ _ pb', acct_inv c pb' pend rf ∧ pb_rl pb' = pb_rl pb)); [done|].
  intros dn a todo pb1 Hsplit [Hi Hr].
  assert (a ∈ seqZ slba n) as Ha%elem_of_seqZ by (rewrite Hsplit, elem_of_app, elem_of_cons; tauto).
  destruct (invalidate_lba_ok c pb1 pend rf a Hcfg Hi) as (pb2 & E & Hi2 & Hr2); [rewrite Hr; lia|].
  exists pb2. split; [done|]. split; [done|]. congruence.
Qed.

Lemma update_map_gc_ok c pb pend rf lba line id :
  acct_inv c pb pend rf → 0 ≤ lba < rl_nr_secs (pb_rl pb) → ¬ dev_addr line →
  ∃ pb', pblk_update_map_gc lba line id pb = Ok pb' ∧ acct_inv c pb' pend rf.
Proof.
  intros Hinv Hlba Hline. unfold pblk_update_map_gc. destruct (ai_lba _ _ _ _ Hinv lba Hlba) as [old Hold].
  rewrite (aread_Some _ _ _ Hold), bind_Ok_l. case_decide; eexists; (split; [done|]); [done|].
  by apply acct_set_plain.
Qed.

Lemma update_map_dev_ok c pb pend rf lba p line :
  cfg_ok c → acct_inv c pb (p :: pend) rf → 0 ≤ lba < rl_nr_secs (pb_rl pb) →
  ∃ pb', pblk_update_map_dev c lba p line pb = Ok pb' ∧ acct_inv c pb' pend rf ∧ pb_rwb pb' = pb_rwb pb ∧
    pb_rl pb' = pb_rl pb ∧ pb_trans_map pb' = (if decide (pb_trans_map pb !! lba = Some line) then <[lba:=p]> (pb_trans_map pb)
                        else pb_trans_map pb).
Proof.
  intros Hcfg Hinv Hlba. unfold pblk_update_map_dev. rewrite BUG_ON_pass, bind_Ok_l by lia.
  destruct (ai_lba _ _ _ _ Hinv lba Hlba) as [old Hold]. rewrite (aread_Some _ _ _ Hold), bind_Ok_l.
  assert (dev_addr p) as [_ Hpe] by (apply (ai_pend _ _ _ _ Hinv); by left).
  destruct (decide (old = line)) as [<-|Hne].
  - rewrite decide_False by tauto. rewrite decide_True by done. eexists. split; [done|]. split; [|done].
    by apply acct_set_dev.
  - rewrite decide_True by done. rewrite decide_False by congruence.
    destruct (acct_invalidate_pend c pb pend rf p Hcfg Hinv) as (pb' & E & Hi & Ha). exists pb'.
    destruct (invalidated_frame _ _ _ _ Hi) as (? & ? & ? & _). done.
Qed.

(** ** Operations on the map, in any order *)

Inductive map_op : Type :=
  | Op_user (lba line : Z)           (** a write by the host reaches the buffer *)
  | Op_gc (lba line gc_line : Z)     (** a sector of a victim reaches the buffer *)
  | Op_discard (slba nr_secs : Z)
  | Op_persist (lba ppa line : Z)    (** a line of the buffer is about to be reused *)
  | Op_victim (id : Z)
  | Op_reclaim (id : Z).             (** the collector has read the victim *)

Definition run_op (c : pblk_cfg) (o : map_op) (pb : pblk) : res pblk :=
  match o with
  | Op_user lba line => pblk_update_map_cache c lba line pb
  | Op_gc lba line gc_line => pblk_update_map_gc lba line gc_line pb
  | Op_discard slba nr_secs => pblk_invalidate_range c slba nr_secs pb
  | Op_persist lba ppa line => pb' ← pblk_update_map_dev c lba ppa line pb; line_kref_put (pblk_ppa_to_line ppa) pb'
  | Op_victim id => gc_take id pb
  | Op_reclaim id => line_kref_put id pb
  end.

(** What the callers see to: logical addresses in range, lines of the buffer as new
    entries, an address the buffer holds with its reference, a closed victim, a reference
    the collector has. *)
Inductive op_ok (pb : pblk) : map_op → list Z → list Z → list Z → list Z → Prop :=
  | ok_user lba line pend rf :
      0 ≤ lba < rl_nr_secs (pb_rl pb) → ¬ dev_addr line → op_ok pb (Op_user lba line) pend rf pend rf
  | ok_gc lba line id pend rf :
      0 ≤ lba < rl_nr_secs (pb_rl pb) → ¬ dev_addr line → op_ok pb (Op_gc lba line id) pend rf pend rf
  | ok_discard slba n pend rf :
      0 ≤ slba → slba + n ≤ rl_nr_secs (pb_rl pb) → op_ok pb (Op_discard slba n) pend rf pend rf
  | ok_persist lba p line pend pend' rf rf' :
      0 ≤ lba < rl_nr_secs (pb_rl pb) → pend ≡ₚ p :: pend' → rf ≡ₚ pblk_ppa_to_line p :: rf' →
      op_ok pb (Op_persist lba p line) pend rf pend' rf'
  | ok_victim id l pend rf :
      pb_lines pb !! id = Some l → ln_state l = PBLK_LINESTATE_CLOSED →
      op_ok pb (Op_victim id) pend rf pend (id :: rf)
  | ok_reclaim id pend rf rf' : rf ≡ₚ id :: rf' → op_ok pb (Op_reclaim id) pend rf pend rf'.

Inductive map_reach (c : pblk_cfg) (pb0 : pblk) (pend0 rf0 : list Z) : pblk → list Z → list Z → Prop :=
  | mr_start : map_reach c pb0 pend0 rf0 pb0 pend0 rf0
  | mr_step pb pend rf o pb' pend' rf' :
      map_reach c pb0 pend0 rf0 pb pend rf → op_ok pb o pend rf pend' rf' → run_op c o pb = Ok pb' →
      map_reach c pb0 pend0 rf0 pb' pend' rf'.

Lemma run_op_ok c pb o pend rf pend' rf' :
  cfg_ok c → acct_inv c pb pend rf → op_ok pb o pend rf pend' rf' →
  ∃ pb', run_op c o pb = Ok pb' ∧ acct_inv c pb' pend' rf'.
Proof.
  intros Hcfg Hinv Hok. destruct Hok as [lba line pend rf H1 H2|lba line id pend rf H1 H2|slba n pend rf H1 H2|
    lba p line pend pend' rf rf' H1 H2 H3|id l pend rf H1 H2|id pend rf rf' H1]; cbn [run_op].
  - destruct (update_map_cache_ok c pb pend rf lba line) as (pb' & _ & E & _ & _ & Hi); eauto.
  - eauto using update_map_gc_ok.
  - destruct (invalidate_range_ok c pb pend rf slba n) as (pb' & E & Hi & _); eauto.
  - apply (acct_perm _ _ _ _ _ _ H2 H3) in Hinv.
    destruct (update_map_dev_ok c pb pend' _ lba p line Hcfg Hinv H1) as (pb1 & -> & Hi & _).
    rewrite bind_Ok_l. destruct (kref_put_ok _ _ _ _ _ Hi) as (pb2 & E & Hi2 & _). eauto.
  - destruct (gc_take_ok _ _ _ _ _ _ Hinv H1 H2) as (pb' & E & Hi & _). eauto.
  - eapply acct_perm in Hinv; [|reflexivity|exact H1].
    destruct (kref_put_ok _ _ _ _ _ Hinv) as (pb2 & E & Hi2 & _). eauto.
Qed.

Lemma map_reach_inv c pb0 pend0 rf0 pb pend rf :
  cfg_ok c → acct_inv c pb0 pend0 rf0 → map_reach c pb0 pend0 rf0 pb pend rf → acct_inv c pb pend rf.
Proof.
  intros Hcfg H0 Hr. induction Hr as [|pb pend rf o pb' pend' rf' _ IH Hok Hrun]; [done|].
  destruct (run_op_ok c pb o pend rf pend' rf' Hcfg IH Hok) as (pb2 & E & Hi). congruence.
Qed.


(** A small device: two channels and LUNs, four blocks of eight sectors to a line. *)
Definition geo_tiny : nvm_geo := mk_geo 2 4 2 1 2 4 4 4096 (mk_af 0 0 0 0 0 0 0 2 0 2 0 1) 1 2 8 32.
Definition paf_tiny : pblk_addr_format := paf_of 1 0 1 1 2 2.
Definition lm_tiny : pblk_line_meta := mk_lm 4096 1 4096 1 3 8 8 8 4 32 10 20.
Definition cfg_tiny : pblk_cfg :=
  mk_cfg geo_tiny paf_tiny lm_tiny (list_to_map (zip (seqZ 0 4) [0; 2 ^ 48; 2 ^ 56; 2 ^ 48 + 2 ^ 56])) 2 4.

Definition line_demo (state group : Z) : pblk_line :=
  mk_line 0 state PBLK_LINETYPE_DATA group None None 0 0 31 30 4 ∅ ∅ None (Some {[0; 31]}) 0 0 0 0 0 30 1.

Definition mg_demo (L : lname → list Z) : pblk_line_mgmt := mk_mgmt 2 0 L (Some 1) None ∅ ∅ emeta0 ∅ ∅ 2.

Definition rb_demo : pblk_rb := mk_rb ∅ 0 0 0 EMPTY_ENTRY 0 128.

Definition rl_tiny : pblk_rl := mk_rl 10 7 4 1024 1024 0 0 0 0 0 false 4 4000 200.

Definition pb_demo : pblk :=
  mk_pblk rb_demo rl_tiny (mk_gc 0 1 0)
    {[0 := line_demo PBLK_LINESTATE_CLOSED PBLK_LINEGC_EMPTY; 1 := line_demo PBLK_LINESTATE_OPEN PBLK_LINEGC_NONE]}
    {[0 := addr_to_gen_ppa paf_tiny 1 0; 1 := addr_to_gen_ppa paf_tiny 2 0; 2 := ADDR_EMPTY; 3 := ADDR_EMPTY]}
    (mg_demo (λ L, if decide (L = L_gc_empty) then [0] else [])) [] [] [] ∅ [] 0.

Lemma cfg_tiny_ok : cfg_ok cfg_tiny.
Proof. constructor; vm_compute; done. Qed.

(** The entries of an explicit map. *)
Ltac map_cases :=
  repeat match goal with
  | H : (<[_:=_]> _) !! _ = Some _ |- _ => apply lookup_insert_Some in H as [[<- <-]|[? H]]
  | H : {[_ := _]} !! _ = Some _ |- _ => apply lookup_singleton_Some in H as [<- <-]
  end.

Lemma demo_sectors a p :
  pb_trans_map pb_demo !! a = Some p → dev_addr p →
  (a = 0 ∧ sec_of cfg_tiny p = (0, 1)) ∨ (a = 1 ∧ sec_of cfg_tiny p = (0, 2)).
Proof.
  cbn [pb_trans_map pb_demo]. intros Hl Hd. map_cases.
  - left. split; [done|by vm_compute].
  - right. split; [done|by vm_compute].
  - by destruct Hd.
  - by destruct Hd.
Qed.

Lemma demo_addr_ok p : dev_addr p → sec_of cfg_tiny p = (0, 1) ∨ sec_of cfg_tiny p = (0, 2) → addr_ok cfg_tiny pb_demo p.
Proof.
  intros Hd Hs. split; [done|]. exists (line_demo PBLK_LINESTATE_CLOSED PBLK_LINEGC_EMPTY).
  split; [by destruct Hs as [-> | ->]|]. right. right. split; [by right|]. exists {[0; 31]}. split.
  - constructor; [done| |by vm_compute|by vm_compute]. intros i. rewrite elem_of_union, !elem_of_singleton.
    cbn. lia.
  - destruct Hs as [-> | ->]; cbn; (split; [lia|]); rewrite elem_of_union, !elem_of_singleton; lia.
Qed.

Lemma demo_acct : acct_inv cfg_tiny pb_demo [] [].
Proof.
  constructor.
  - intros id l Hl. cbn [pb_lines pb_demo] in Hl. map_cases.
    + constructor; try done; [|by intros [|]]. intros _. split; [by vm_compute|].
      intros L. replace (class_list _) with L_gc_empty by by vm_compute. cbn. case_decide; [by rewrite list_elem_of_singleton|].
      by rewrite elem_of_nil.
    + constructor; try done. intros _. rewrite on_list_iff. intros (L & HL). cbn in HL.
      case_decide; [by apply list_elem_of_singleton in HL|by apply elem_of_nil in HL].
  - intros a p Hl Hd. apply demo_addr_ok; [done|]. destruct (demo_sectors a p Hl Hd) as [[_ ?]|[_ ?]]; auto.
  - by intros p ?%elem_of_nil.
  - intros a b p q Ha Hb Hdp Hdq. destruct (demo_sectors a p Ha Hdp) as [[-> ->]|[-> ->]],
      (demo_sectors b q Hb Hdq) as [[-> ->]|[-> ->]]; done.
  - apply NoDup_nil_2.
  - by intros a p q _ _ ?%elem_of_nil.
  - intros a Ha. cbn in Ha. assert (a = 0 ∨ a = 1 ∨ a = 2 ∨ a = 3) as [->|[->|[->| ->]]] by lia; apply not_eq_None_Some; by vm_compute.
  - by intros id ?%elem_of_nil.
  - by vm_compute.
Qed.

Definition demo_op : map_op := Op_user 0 (pblk_cacheline_to_ppa 5).
Definition demo_after : pblk := match run_op cfg_tiny demo_op pb_demo with Ok pb => pb | Fault _ => pb_demo end.

