(* ===== verification/PbRb.v ===== *)
(** * pblk: the write buffer

    drivers/lightnvm/pblk-rb.c: a ring of [nr_entries] (a power of two) entries with four
    pointers.  Writers take room at [mem] and copy their data later; the write thread
    commits entries at [subm] and takes them to a request; completions advance [sync]; an
    entry is reused only after [l2p_update] passed it, when the translation map no longer
    refers to it.  What is done under a lock is one step; a busy wait is the fault
    [F_FUEL]: the step is enabled when the wait is over.  [CIRC_CNT], [CIRC_SPACE] and
    [get_count_order] are the kernel's ([Kops]); whether a page can be added to a bio is a
    parameter. *)

From S2P Require Import Prelude Kernel PbAddr PbRl PbState PbMap.

#[local] Open Scope Z_scope.

(** [flags & f]. *)
Definition has (flags f : Z) : Prop := Z.land flags f ≠ 0.
#[global] Instance has_dec flags f : Decision (has flags f).
Proof. unfold has. apply _. Defined.

(** [flags & ~f], for flags of 32 bits. *)
Definition drop_flag (flags f : Z) : Z := Z.ldiff flags f.

Section rb.
Context `{Kops} (c : pblk_cfg).

Definition rb_wrap (rb : pblk_rb) (pos : Z) : Z := Z.land (u32 pos) (u32 (rb_nr_entries rb - 1)).

Definition set_w_ctx (pos : Z) (w : pblk_w_ctx) (rb : pblk_rb) : res pblk_rb :=
  e ← aread (rb_entries rb) pos;
  Ok (rb_set_entries (<[pos:=e_set_w_ctx w e]> (rb_entries rb)) rb).

(** ** Counts *)

Definition pblk_rb_calculate_size (nr_entries : Z) : Z := u32 (s32 (Z.shiftl 1 (Z.max (get_count_order nr_entries) 7))).

Definition pblk_rb_ring_count (head tail size : Z) : Z := CIRC_CNT head tail size.
Definition pblk_rb_ring_space (head tail size : Z) : Z := CIRC_SPACE head tail size.

Definition pblk_rb_space (rb : pblk_rb) : Z := pblk_rb_ring_space (rb_mem rb) (rb_sync rb) (rb_nr_entries rb).
Definition pblk_rb_read_count (rb : pblk_rb) : Z := pblk_rb_ring_count (rb_mem rb) (rb_subm rb) (rb_nr_entries rb).

Definition pblk_rb_read_commit (nr_entries : Z) (rb : pblk_rb) : Z * pblk_rb :=
  (rb_subm rb, rb_set_subm (rb_wrap rb (rb_subm rb + nr_entries)) rb).

Definition pblk_rb_wrap_pos (rb : pblk_rb) (pos : Z) : Z := rb_wrap rb pos.
Definition pblk_rb_pos_oob (rb : pblk_rb) (pos : Z) : bool := bool_decide (rb_nr_entries rb ≤ pos).

Definition pblk_rb_w_ctx (rb : pblk_rb) (pos : Z) : res pblk_w_ctx :=
  e ← aread (rb_entries rb) (rb_wrap rb pos); Ok (e_w_ctx e).

(** The last entry to flush counts as a sector to sync. *)
Definition pblk_rb_sync_point_count (rb : pblk_rb) : Z :=
  if decide (rb_sync_point rb = EMPTY_ENTRY) then 0
  else u32 (pblk_rb_ring_count (rb_sync_point rb) (rb_subm rb) (rb_nr_entries rb) + 1).

(** ** The translation map follows *)

(** Waits until the entry has been submitted. *)
Definition clean_wctx (w : pblk_w_ctx) : res pblk_w_ctx :=
  if decide (has (w_flags w) PBLK_SUBMITTED_ENTRY)
  then Ok (w_set_ppa ADDR_EMPTY (w_set_flags PBLK_WRITABLE_ENTRY w))
  else Fault F_FUEL.

Definition update_l2p_entry (pb : pblk) : res pblk :=
  let pos := rb_l2p_update (pb_rwb pb) in
  e ← aread (rb_entries (pb_rwb pb)) pos;
  let w := e_w_ctx e in
  pb ← pblk_update_map_dev c (w_lba w) (w_ppa w) (e_cacheline e) pb;
  pb ← line_kref_put (pblk_ppa_to_line (w_ppa w)) pb;
  w ← clean_wctx w;
  rb ← set_w_ctx pos w (pb_rwb pb);
  Ok (pb_set_rwb (rb_set_l2p_update (rb_wrap rb (pos + 1)) rb) pb).

Definition __pblk_rb_update_l2p (to_update : Z) (pb : pblk) : res pblk :=
  mfor (seqZ 0 to_update) (λ _, update_l2p_entry) pb.

Definition pblk_rb_update_l2p (nr_entries mem sync : Z) (pb : pblk) : res pblk :=
  let rb := pb_rwb pb in
  let space := pblk_rb_ring_space mem (rb_l2p_update rb) (rb_nr_entries rb) in
  if decide (nr_entries < space) then Ok pb
  else __pblk_rb_update_l2p (u32 (nr_entries - space)) pb.

Definition pblk_rb_sync_l2p (pb : pblk) : res pblk :=
  let rb := pb_rwb pb in
  __pblk_rb_update_l2p (pblk_rb_ring_count (rb_sync rb) (rb_l2p_update rb) (rb_nr_entries rb)) pb.

(** ** Writers *)

Definition pblk_rb_write_entry (data : Z) (w : pblk_w_ctx) (ring_pos : Z) (rb : pblk_rb) : res (Z * pblk_rb) :=
  e ← aread (rb_entries rb) ring_pos;
  _ ← BUG_ON (¬ has (w_flags (e_w_ctx e)) PBLK_WRITABLE_ENTRY);
  let w' := mk_wctx (w_bios (e_w_ctx e)) (w_lba w) (w_paddr w) (w_ppa w) (Z.lor (w_flags w) PBLK_WRITTEN_DATA) in
  let e' := e_set_w_ctx w' (e_set_data data e) in
  Ok (e_cacheline e, rb_set_entries (<[ring_pos:=e']> (rb_entries rb)) rb).

(** Whether the bio waits for the entry before [pos]. *)
Definition pblk_rb_sync_point_set (bio pos : Z) (rb : pblk_rb) : res (bool * pblk_rb) :=
  if decide (pos = rb_subm rb) then Ok (false, rb)
  else
    let sync_point := if decide (pos = 0) then u32 (rb_nr_entries rb - 1) else u32 (pos - 1) in
    e ← aread (rb_entries rb) sync_point;
    let w := e_w_ctx e in
    let w := w_set_bios (w_bios w ++ [bio]) (w_set_flags (Z.lor (w_flags w) PBLK_FLUSH_ENTRY) w) in
    rb ← set_w_ctx sync_point w rb;
    Ok (true, rb_set_sync_point sync_point rb).

Definition __pblk_rb_may_write (nr_entries : Z) (pb : pblk) : res (option Z * pblk) :=
  let rb := pb_rwb pb in
  if decide (pblk_rb_ring_space (rb_mem rb) (rb_sync rb) (rb_nr_entries rb) < nr_entries) then Ok (None, pb)
  else
    pb ← pblk_rb_update_l2p nr_entries (rb_mem rb) (rb_sync rb) pb;
    Ok (Some (rb_mem rb), pb).

Definition pblk_rb_may_write (nr_entries : Z) (pb : pblk) : res (option Z * pblk) :=
  r ← __pblk_rb_may_write nr_entries pb;
  match r with
  | (None, pb) => Ok (None, pb)
  | (Some pos, pb) =>
      let rb := pb_rwb pb in Ok (Some pos, pb_set_rwb (rb_set_mem (rb_wrap rb (pos + nr_entries)) rb) pb)
  end.

(** The position, and what the caller tells the block layer. *)
Definition pblk_rb_may_write_flush (nr_entries bio : Z) (preflush : bool) (pb : pblk) :
    res (option (Z * Z) * pblk) :=
  r ← __pblk_rb_may_write nr_entries pb;
  match r with
  | (None, pb) => Ok (None, pb)
  | (Some pos, pb) =>
      let mem := rb_wrap (pb_rwb pb) (pos + nr_entries) in
      r ← (if preflush then pblk_rb_sync_point_set bio mem (pb_rwb pb) else Ok (false, pb_rwb pb));
      match r with
      | (waits, rb) =>
          Ok (Some (pos, if waits : bool then NVM_IO_OK else NVM_IO_DONE), pb_set_rwb (rb_set_mem mem rb) pb)
      end
  end.

(** [None] is [NVM_IO_REQUEUE]. *)
Definition pblk_rb_may_write_user (bio : Z) (preflush : bool) (nr_entries : Z) (pb : pblk) :
    res (option (Z * Z) * pblk) :=
  if decide (pblk_rl_user_may_insert nr_entries (pb_rl pb) = false) then Ok (None, pb)
  else
    r ← pblk_rb_may_write_flush nr_entries bio preflush pb;
    match r with
    | (None, pb) => Ok (None, pb)
    | (Some r, pb) => Ok (Some r, pb_set_rl (pblk_rl_user_in nr_entries (pb_rl pb)) pb)
    end.

Definition pblk_rb_may_write_gc (nr_entries : Z) (pb : pblk) : res (option Z * pblk) :=
  if decide (pblk_rl_gc_may_insert nr_entries (pb_rl pb) = false) then Ok (None, pb)
  else
    r ← pblk_rb_may_write nr_entries pb;
    match r with
    | (None, pb) => Ok (None, pb)
    | (Some pos, pb) => Ok (Some pos, pb_set_rl (pblk_rl_gc_in nr_entries (pb_rl pb)) pb)
    end.

(** ** The write thread *)

(** What is read from the entries: how many are the user's and the collector's, and the
    pages. *)
Record read_acc : Type := mk_acc { ra_user : Z; ra_gc : Z; ra_data : list Z }.

(** One entry; [false] when its page could not be added to the bio. *)
Definition read_entry (page_ok : bool) (pos : Z) (a : read_acc) (rb : pblk_rb) : res (bool * read_acc * pblk_rb) :=
  e ← aread (rb_entries rb) pos;
  let w := e_w_ctx e in
  let flags := w_flags w in
  if decide (¬ has flags PBLK_WRITTEN_DATA) then Fault F_FUEL
  else
    let user := if decide (has flags PBLK_IOTYPE_USER) then 1 else 0 in
    let gc := if decide (¬ has flags PBLK_IOTYPE_USER ∧ has flags PBLK_IOTYPE_GC) then 1 else 0 in
    let a := mk_acc (ra_user a + user) (ra_gc a + gc) (ra_data a) in
    let done f := Z.lor (drop_flag f PBLK_WRITTEN_DATA) PBLK_SUBMITTED_ENTRY in
    if page_ok then
      let flush := bool_decide (has flags PBLK_FLUSH_ENTRY) in
      let sp := if decide (flush = true ∧ rb_sync_point rb = pos) then EMPTY_ENTRY else rb_sync_point rb in
      let flags := if flush then drop_flag flags PBLK_FLUSH_ENTRY else flags in
      rb ← set_w_ctx pos (w_set_flags (done flags) w) (rb_set_sync_point sp rb);
      Ok (true, mk_acc (ra_user a) (ra_gc a) (ra_data a ++ [e_data e]), rb)
    else
      rb ← set_w_ctx pos (w_set_flags (done flags) w) rb;
      Ok (false, a, rb).

Fixpoint read_entries (page_ok : nat → bool) (n : nat) (i : nat) (pos : Z) (a : read_acc) (rb : pblk_rb) :
    res (bool * read_acc * pblk_rb) :=
  match n with
  | O => Ok (true, a, rb)
  | S n' =>
      r ← read_entry (page_ok i) pos a rb;
      match r with
      | (true, a, rb) => read_entries page_ok n' (S i) (rb_wrap rb (pos + 1)) a rb
      | (false, a, rb) => Ok (false, a, rb)
      end
  end.

(** The number of entries read (0 when a page could not be added), and the context: start,
    valid entries, padding. *)
Definition pblk_rb_read_to_bio (page_ok : nat → bool) (pos nr_entries count : Z) (pb : pblk) :
    res (Z * (Z * Z * Z) * list Z * pblk) :=
  let pad := if decide (count < nr_entries) then u32 (nr_entries - count) else 0 in
  let to_read := if decide (count < nr_entries) then count else nr_entries in
  r ← read_entries page_ok (Z.to_nat to_read) 0 pos (mk_acc 0 0 []) (pb_rwb pb);
  match r with
  | (ok, a, rb) =>
      let pb := pb_set_rwb rb pb in
      if ok : bool then
        Ok (to_read, (pos, to_read, pad), ra_data a, pb_set_rl (pblk_rl_out (ra_user a) (ra_gc a) (pb_rl pb)) pb)
      else Ok (0, (pos, to_read, pad), ra_data a, pb)
  end.

(** For recovery: the pages of the entries of a list, and the entries left over. *)
Fixpoint read_list (page_ok : nat → bool) (max read : nat) (entries : list pblk_rb_entry) : nat * list Z * list pblk_rb_entry :=
  match entries with
  | [] => (read, [], [])
  | e :: es =>
      if decide (max < read)%nat then (read, [], e :: es)
      else if page_ok read then let '(n, ds, rest) := read_list page_ok max (S read) es in (n, e_data e :: ds, rest)
      else (read, [], e :: es)
  end.

Definition pblk_rb_read_to_bio_list (page_ok : nat → bool) (entries : list pblk_rb_entry) (max : nat) :
    nat * list Z * list pblk_rb_entry := read_list page_ok max 0 entries.

(** ** Completions *)

Definition pblk_rb_sync_init (rb : pblk_rb) : Z := rb_sync rb.

Fixpoint advance (n : nat) (rb : pblk_rb) (pos : Z) : Z :=
  match n with O => pos | S n' => advance n' rb (rb_wrap rb (pos + 1)) end.

Definition pblk_rb_sync_advance (nr_entries : Z) (rb : pblk_rb) : Z * pblk_rb :=
  let sync := advance (Z.to_nat nr_entries) rb (rb_sync rb) in (sync, rb_set_sync sync rb).

(** The search compares nothing: no entry is ever found. *)
Definition pblk_rb_sync_scan_entry (rb : pblk_rb) (ppa : Z) : option Z := None.

(** ** Readers *)

(** The data of the entry, unless it is another sector's by now. *)
Definition pblk_rb_copy_to_bio (rb : pblk_rb) (lba pos : Z) : res (option Z) :=
  e ← aread (rb_entries rb) pos;
  let w := e_w_ctx e in
  if decide (w_lba w ≠ lba ∨ has (w_flags w) PBLK_WRITABLE_ENTRY) then Ok None else Ok (Some (e_data e)).

(** ** Start and end *)

Definition MAX_ORDER : Z := 11.

(** [n] entries from [i] on, in pages the buffer has. *)
Definition fresh_entry (i : Z) : pblk_rb_entry :=
  mk_entry (pblk_cacheline_to_ppa i) 0 (mk_wctx [] 0 0 0 PBLK_WRITABLE_ENTRY).

Definition init_set (order init_entry : Z) (es : gmap Z pblk_rb_entry) : gmap Z pblk_rb_entry :=
  foldl (λ m i, <[i:=fresh_entry i]> m) es (seqZ init_entry (2 ^ order)).

Section init.
Context (alloc_ok : nat → bool).

(** The sets of pages: the return value, the entries, the sets the buffer holds and the
    allocations asked for.  When the pages of a set cannot be had, the sets there are would
    be freed under the lock that is held: the function never returns. *)
Fixpoint init_sets (iter : nat) (order init_entry : Z) (es : gmap Z pblk_rb_entry) (sets allocs : nat) :
    res (Z * gmap Z pblk_rb_entry * nat * nat) :=
  match iter with
  | O => Ok (0, es, sets, allocs)
  | S iter' =>
      if alloc_ok allocs then
        if alloc_ok (S allocs) then
          init_sets iter' order (init_entry + 2 ^ order) (init_set order init_entry es) (S sets) (S (S allocs))
        else Fault F_FUEL
      else Ok (- ENOMEM, es, sets, S allocs)
  end.

Definition pblk_rb_init (power_size power_seg_sz : Z) (pb : pblk) : res (Z * nat * pblk) :=
  let max_order := MAX_ORDER - 1 in
  let order := if decide (max_order ≤ power_size) then max_order else power_size in
  let iter := if decide (max_order ≤ power_size) then Z.shiftl 1 (power_size - max_order) else 1 in
  r ← init_sets (Z.to_nat iter) order 0 (rb_entries (pb_rwb pb)) 0 (pb_allocs pb);
  match r with
  | (ret, es, sets, allocs) =>
      let rb := mk_rb es 0 0 0 EMPTY_ENTRY 0 (u32 (Z.shiftl 1 power_size)) in
      let pb := pb_set_allocs allocs (pb_set_rwb rb pb) in
      if decide (ret = 0) then
        Ok (0, sets, pb_set_rl (pblk_rl_init get_count_order (rb_nr_entries rb) (pb_rl pb)) pb)
      else Ok (ret, sets, pb)
  end.
End init.

(** 1 when something is left: but a buffer that has entries is always fine. *)
Definition pblk_rb_tear_down_check (has_entries : bool) (rb : pblk_rb) : Z :=
  if decide (rb_mem rb = rb_subm rb ∧ rb_subm rb = rb_sync rb ∧ rb_sync rb = rb_l2p_update rb ∧
             rb_sync_point rb = EMPTY_ENTRY) then 0
  else if has_entries then 0 else 1.

End rb.
