(* ===== verification/PbRing.v ===== *)
(** * pblk: the protocol of the write buffer

    The pointers of the ring are unbounded counters read modulo its size
    ([counters]): [l2p_update ≤ sync ≤ mapped ≤ read ≤ subm ≤ mem ≤ l2p_update + N - 1].
    [ring_inv] says what every entry is in between: free or being written ([WRITABLE]),
    written ([WRITTEN]), or taken by the write thread ([SUBMITTED]), and that the map and
    the lines agree with the addresses the buffer holds ([acct_inv]).  Every operation of
    pblk-rb.c keeps the invariant whatever the other parties do in between. *)

From S2P Require Import Prelude Kernel PbAddr PbRl PbState PbMap PbRb.

#[local] Open Scope Z_scope.

(** ** Flags *)

Lemma has_bit k f : 0 ≤ k → has f (2 ^ k) ↔ Z.testbit f k = true.
Proof.
  intros Hk. unfold has. split.
  - intros Hn. destruct (Z.testbit f k) eqn:E; [done|]. destruct Hn. apply Z.bits_inj'. intros i Hi.
    rewrite Z.land_spec, Z.testbit_0_l, Z.pow2_bits_eqb by lia. destruct (Z.eqb_spec k i); [subst; by rewrite E|apply andb_false_r].
  - intros E H. apply (f_equal (λ z, Z.testbit z k)) in H.
    by rewrite Z.land_spec, Z.testbit_0_l, Z.pow2_bits_true, E in H by lia.
Qed.

Lemma has_lor f k i : 0 ≤ k → 0 ≤ i → has (Z.lor f (2 ^ k)) (2 ^ i) ↔ has f (2 ^ i) ∨ k = i.
Proof.
  intros. rewrite !has_bit, Z.lor_spec, Z.pow2_bits_eqb, orb_true_iff, Z.eqb_eq by lia. done.
Qed.

Lemma has_ldiff f k i : 0 ≤ k → 0 ≤ i → has (drop_flag f (2 ^ k)) (2 ^ i) ↔ has f (2 ^ i) ∧ k ≠ i.
Proof.
  intros. unfold drop_flag. rewrite !has_bit, Z.ldiff_spec, Z.pow2_bits_eqb, andb_true_iff, negb_true_iff, Z.eqb_neq by lia. done.
Qed.

Lemma flag_pows :
  PBLK_IOTYPE_USER = 2 ^ 0 ∧ PBLK_IOTYPE_GC = 2 ^ 1 ∧ PBLK_FLUSH_ENTRY = 2 ^ 6 ∧ PBLK_WRITTEN_DATA = 2 ^ 7 ∧
  PBLK_SUBMITTED_ENTRY = 2 ^ 8 ∧ PBLK_WRITABLE_ENTRY = 2 ^ 9.
Proof. done. Qed.

(** Questions about flags after others were set or dropped. *)
Ltac flags :=
  let F1 := fresh in let F2 := fresh in let F3 := fresh in let F4 := fresh in let F5 := fresh in let F6 := fresh in
  destruct flag_pows as (F1 & F2 & F3 & F4 & F5 & F6);
  rewrite ?F1, ?F2, ?F3, ?F4, ?F5, ?F6 in *; clear F1 F2 F3 F4 F5 F6;
  repeat first [rewrite has_lor by lia | rewrite has_ldiff by lia].

(** ** Counters *)

Record counters : Type := mk_cnt {
  g_l2p : Z; g_sync : Z; g_map : Z; g_read : Z; g_subm : Z; g_mem : Z;
  g_writing : gset Z;  (** room that was given out and is not yet written *)
}.

Record ordered (N : Z) (g : counters) : Prop := {
  od_ls : g_l2p g ≤ g_sync g;
  od_sm : g_sync g ≤ g_map g;
  od_mr : g_map g ≤ g_read g;
  od_rs : g_read g ≤ g_subm g;
  od_sm2 : g_subm g ≤ g_mem g;
  od_full : g_mem g ≤ g_l2p g + N - 1;
  od_writing : ∀ x, x ∈ g_writing g → g_read g ≤ x < g_mem g;
}.

(** The entry at a counter. *)
Definition ent (rb : pblk_rb) (x : Z) : option pblk_rb_entry := rb_entries rb !! (x mod rb_nr_entries rb).

Definition ppa_at (rb : pblk_rb) (x : Z) : Z := match ent rb x with Some e => w_ppa (e_w_ctx e) | None => 0 end.

(** The addresses of the entries that are mapped and still in the translation map's way. *)
Definition pend_of (rb : pblk_rb) (g : counters) : list Z := ppa_at rb <$> seqZ (g_l2p g) (g_map g - g_l2p g).

Definition entry_ok (nr_secs : Z) (g : counters) (x : Z) (e : pblk_rb_entry) : Prop :=
  let w := e_w_ctx e in
  (g_mem g ≤ x ∨ x ∈ g_writing g → has (w_flags w) PBLK_WRITABLE_ENTRY) ∧
  (x < g_mem g → x ∉ g_writing g → 0 ≤ w_lba w < nr_secs ∧ ¬ has (w_flags w) PBLK_WRITABLE_ENTRY) ∧
  (x < g_read g → has (w_flags w) PBLK_SUBMITTED_ENTRY ∧ ¬ has (w_flags w) PBLK_WRITTEN_DATA) ∧
  (g_read g ≤ x < g_mem g → x ∉ g_writing g → has (w_flags w) PBLK_WRITTEN_DATA).

Record ring_inv (c : pblk_cfg) (k : Z) (pb : pblk) (g : counters) (rf : list Z) : Prop := {
  ri_size : rb_nr_entries (pb_rwb pb) = 2 ^ k;
  ri_k : 0 ≤ k ≤ 30;
  ri_ord : ordered (2 ^ k) g;
  ri_mem : rb_mem (pb_rwb pb) = g_mem g mod 2 ^ k;
  ri_subm : rb_subm (pb_rwb pb) = g_subm g mod 2 ^ k;
  ri_sync : rb_sync (pb_rwb pb) = g_sync g mod 2 ^ k;
  ri_l2p : rb_l2p_update (pb_rwb pb) = g_l2p g mod 2 ^ k;
  ri_ent : ∀ x, g_l2p g ≤ x < g_l2p g + 2 ^ k → ∃ e, ent (pb_rwb pb) x = Some e ∧
    e_cacheline e = pblk_cacheline_to_ppa (x mod 2 ^ k) ∧ entry_ok (rl_nr_secs (pb_rl pb)) g x e;
  ri_acct : acct_inv c pb (pend_of (pb_rwb pb) g) rf;
  ri_refs : ∃ extra, rf ≡ₚ (pblk_ppa_to_line <$> pend_of (pb_rwb pb) g) ++ extra;
}.

Lemma acct_rwb c pb rb pend rf : acct_inv c pb pend rf → acct_inv c (pb_set_rwb rb pb) pend rf.
Proof. intros []. by constructor. Qed.

Lemma pow2_bound k : 0 ≤ k ≤ 30 → 1 ≤ 2 ^ k ≤ 2 ^ 30.
Proof. intros. pose proof (Z.pow_pos_nonneg 2 k). assert (2 ^ k ≤ 2 ^ 30) by (apply Z.pow_le_mono_r; lia). lia. Qed.

(** Positions wrap. *)
Lemma rb_wrap_mod rb k x : rb_nr_entries rb = 2 ^ k → 0 ≤ k ≤ 30 → rb_wrap rb x = x mod 2 ^ k.
Proof.
  intros Hn Hk. unfold rb_wrap. rewrite Hn. pose proof (pow2_bound k Hk).
  rewrite (u32_small (2 ^ k - 1)), land_ones_mod by lia. unfold u32.
  rewrite <-Znumtheory.Zmod_div_mod; [done|lia..|]. exists (2 ^ (32 - k)). rewrite <-Z.pow_add_r by lia. f_equal. lia.
Qed.

(** Within one round of the ring a position has one counter. *)
Lemma mod_inj_window n a x y : 0 < n → a ≤ x < a + n → a ≤ y < a + n → x mod n = y mod n → x = y.
Proof.
  intros Hn Hx Hy He. assert ((x - y) mod n = 0) as H by (rewrite Zminus_mod, He, Z.sub_diag; apply Z.mod_0_l; lia).
  apply Z.mod_divide in H as [q Hq]; [|lia]. assert (q = 0) by nia. lia.
Qed.

Lemma mod_add_shift n a x : 0 < n → (a mod n + x) mod n = (a + x) mod n.
Proof. intros. rewrite Z.add_mod_idemp_l; lia. Qed.

Lemma sub_mod_window n a b : 0 < n → 0 ≤ a - b < n → (a mod n - b mod n) mod n = a - b.
Proof. intros. rewrite <-Zminus_mod. by apply Z.mod_small. Qed.

Lemma ent_insert_eq rb pos e x : x mod rb_nr_entries rb = pos → ent (rb_set_entries (<[pos:=e]> (rb_entries rb)) rb) x = Some e.
Proof. intros <-. unfold ent. cbn. by rewrite lookup_insert_eq. Qed.

Lemma ent_insert_ne rb pos e x :
  x mod rb_nr_entries rb ≠ pos → ent (rb_set_entries (<[pos:=e]> (rb_entries rb)) rb) x = ent rb x.
Proof. intros. unfold ent. cbn. by rewrite lookup_insert_ne. Qed.

Section ring.
Context {K0 : Kops} {KL : KopsLaws} (c : pblk_cfg) (k : Z).

Lemma ring_space_eq pb g rf :
  ring_inv c k pb g rf → pblk_rb_space (pb_rwb pb) = 2 ^ k - 1 - (g_mem g - g_sync g).
Proof using KL.
  intros [Hn Hk [] Hm _ Hs _ _ _ _]. pose proof (pow2_bound k Hk). unfold pblk_rb_space, pblk_rb_ring_space.
  rewrite Hn, circ_space_law, Hm, Hs by lia.
  replace (g_sync g mod 2 ^ k - g_mem g mod 2 ^ k - 1) with (g_sync g mod 2 ^ k - g_mem g mod 2 ^ k + -1) by lia.
  rewrite <-Z.add_mod_idemp_l, <-Zminus_mod, Z.add_mod_idemp_l by lia.
  replace (g_sync g - g_mem g + -1) with (2 ^ k - 1 - (g_mem g - g_sync g) + (-1) * 2 ^ k) by lia.
  rewrite Z.mod_add by lia. apply Z.mod_small. lia.
Qed.

Lemma ring_count_eq pb g rf : ring_inv c k pb g rf → pblk_rb_read_count (pb_rwb pb) = g_mem g - g_subm g.
Proof using KL.
  intros [Hn Hk [] Hm Hs _ _ _ _ _]. pose proof (pow2_bound k Hk). unfold pblk_rb_read_count, pblk_rb_ring_count.
  rewrite Hn, circ_cnt_law, Hm, Hs by lia. apply sub_mod_window; lia.
Qed.
Lemma ri_pos : ∀ pb g rf, ring_inv c k pb g rf → 1 ≤ 2 ^ k ≤ 2 ^ 30.
Proof. intros pb g rf []. by apply pow2_bound. Qed.

(** The addresses of the buffer only depend on the entries. *)
Lemma pend_ext rb rb' g g' :
  g_l2p g' = g_l2p g → g_map g' = g_map g →
  (∀ x, g_l2p g ≤ x < g_map g → ppa_at rb' x = ppa_at rb x) → pend_of rb' g' = pend_of rb g.
Proof.
  intros Hl Hm He. unfold pend_of. rewrite Hl, Hm. apply list_fmap_ext. intros i x Hx.
  apply lookup_seqZ in Hx. apply He. lia.
Qed.

Lemma pend_cons rb g : g_l2p g < g_map g →
  pend_of rb g = ppa_at rb (g_l2p g) ::
    pend_of rb (mk_cnt (g_l2p g + 1) (g_sync g) (g_map g) (g_read g) (g_subm g) (g_mem g) (g_writing g)).
Proof.
  intros Hlt. unfold pend_of. cbn [g_l2p g_map]. rewrite seqZ_cons by lia. rewrite fmap_cons. f_equal. f_equal. f_equal; lia.
Qed.

Definition step_l2p (g : counters) (n : Z) : counters :=
  mk_cnt (g_l2p g + n) (g_sync g) (g_map g) (g_read g) (g_subm g) (g_mem g) (g_writing g).

(** What moving [l2p_update] leaves alone. *)
Record l2p_frame (pb pb' : pblk) : Prop := {
  lf_mem : rb_mem (pb_rwb pb') = rb_mem (pb_rwb pb);
  lf_subm : rb_subm (pb_rwb pb') = rb_subm (pb_rwb pb);
  lf_sync : rb_sync (pb_rwb pb') = rb_sync (pb_rwb pb);
  lf_secs : rl_nr_secs (pb_rl pb') = rl_nr_secs (pb_rl pb);
}.

Lemma update_l2p_entry_ok pb g rf :
  cfg_ok c → ring_inv c k pb g rf → g_l2p g < g_sync g →
  ∃ pb' rf', update_l2p_entry c pb = Ok pb' ∧ ring_inv c k pb' (step_l2p g 1) rf' ∧ l2p_frame pb pb'.
Proof.
  intros Hcfg Hinv Hlt. pose proof (ri_pos _ _ _ Hinv) as Hp2.
  destruct Hinv as [Hn Hk [O1 O2 O3 O4 O5 O6 O7] Hm Hs Hy Hl He Ha (ex & Hex)].
  destruct (He (g_l2p g) ltac:(lia)) as (e & Hent & Hcl & Hok). unfold entry_ok in Hok.
  set (w := e_w_ctx e) in *. destruct Hok as (_ & Hlba & Hsub & _).
  destruct Hlba as [Hlba Hnw]; [lia|intros Hw; specialize (O7 _ Hw); lia|]. destruct Hsub as [Hsub Hnwr]; [lia|].
  unfold ent in Hent. rewrite Hn in Hent.
  rewrite pend_cons in Ha, Hex by lia. rewrite fmap_cons in Hex. assert (ppa_at (pb_rwb pb) (g_l2p g) = w_ppa w) as Hpp.
  { unfold ppa_at, ent. by rewrite Hn, Hent. }
  rewrite Hpp in Ha, Hex. set (pend' := pend_of (pb_rwb pb) _) in *.
  unfold update_l2p_entry. rewrite Hl, (aread_Some _ _ _ Hent), bind_Ok_l. cbv zeta. fold w.
  destruct (update_map_dev_ok c pb pend' rf (w_lba w) (w_ppa w) (e_cacheline e) Hcfg Ha Hlba) as (pb1 & -> & Ha1 & Hw1 & Hr1 & _).
  rewrite bind_Ok_l. rewrite <-app_comm_cons in Hex.
  eapply acct_perm in Ha1; [|reflexivity|exact Hex].
  destruct (kref_put_ok _ _ _ _ _ Ha1) as (pb2 & -> & Ha2 & _ & Hw2 & Hr2). rewrite bind_Ok_l.
  unfold clean_wctx. rewrite decide_True, bind_Ok_l by done. unfold set_w_ctx.
  rewrite Hw2, Hw1, (aread_Some _ _ _ Hent), bind_Ok_l. rewrite bind_Ok_l.
  set (e' := e_set_w_ctx _ e). set (rb1 := rb_set_entries _ _).
  do 2 eexists. split; [reflexivity|].
  assert (∀ x, g_l2p g < x < g_l2p g + 2 ^ k → x mod 2 ^ k ≠ g_l2p g mod 2 ^ k) as Hne.
  { intros x Hx Hxe. apply (mod_inj_window _ (g_l2p g)) in Hxe; lia. }
  assert (∀ x, g_l2p g < x < g_l2p g + 2 ^ k → ent rb1 x = ent (pb_rwb pb) x) as Hother.
  { intros x Hx. apply ent_insert_ne. rewrite Hn. by apply Hne. }
  assert (pend_of (rb_set_l2p_update (rb_wrap rb1 (g_l2p g mod 2 ^ k + 1)) rb1) (step_l2p g 1) = pend') as Hpe.
  { apply pend_ext; [done..|]. intros x Hx. cbn in Hx. unfold ppa_at.
    change (ent (rb_set_l2p_update _ rb1) x) with (ent rb1 x). rewrite Hother by lia. done. }
  split; [|constructor; cbn; congruence]. constructor; cbn [pb_rwb pb_set_rwb rb_set_l2p_update rb_nr_entries rb_mem rb_subm rb_sync
    rb_l2p_update rb_set_entries rb1 step_l2p g_mem g_subm g_sync g_l2p]; try done.
  - constructor; cbn; try lia. done.
  - rewrite (rb_wrap_mod _ k) by done. by rewrite Z.add_mod_idemp_l by lia.
  - intros x Hx. change (pb_rl (pb_set_rwb _ pb2)) with (pb_rl pb2). rewrite Hr2, Hr1.
    destruct (decide (x = g_l2p g + 2 ^ k)) as [->|].
    + exists e'. split; [apply ent_insert_eq; rewrite Hn; rewrite <-(Z.mul_1_l (2 ^ k)) at 1; by rewrite Z.mod_add by lia|].
      split.
      * cbn. rewrite Hcl. f_equal. rewrite <-(Z.mul_1_l (2 ^ k)) at 2. by rewrite Z.mod_add by lia.
      * split_and!; [by intros _|..]; cbn; lia.
    + destruct (He x) as (ex' & Hex' & Hclx & Hokx); [lia|]. exists ex'. split; [|split; [done|]].
      * change (ent (rb_set_l2p_update _ rb1) x) with (ent rb1 x). by rewrite Hother by lia.
      * exact Hokx.
  - apply acct_rwb. rewrite <-Hpe in Ha2. exact Ha2.
  - exists ex. reflexivity.
Qed.
Lemma step_l2p_add g a b : step_l2p (step_l2p g a) b = step_l2p g (a + b).
Proof. unfold step_l2p. cbn. f_equal. lia. Qed.

Lemma step_l2p_0 g : step_l2p g 0 = g.
Proof. destruct g. unfold step_l2p. cbn. f_equal. lia. Qed.

Lemma l2p_frame_refl pb : l2p_frame pb pb.
Proof. by constructor. Qed.

Lemma l2p_frame_trans pb1 pb2 pb3 : l2p_frame pb1 pb2 → l2p_frame pb2 pb3 → l2p_frame pb1 pb3.
Proof. intros [] []. constructor; congruence. Qed.

Lemma update_l2p_ok pb g rf n :
  cfg_ok c → ring_inv c k pb g rf → 0 ≤ n ≤ g_sync g - g_l2p g →
  ∃ pb' rf', __pblk_rb_update_l2p c n pb = Ok pb' ∧ ring_inv c k pb' (step_l2p g n) rf' ∧ l2p_frame pb pb'.
Proof.
  intros Hcfg Hinv Hn. unfold __pblk_rb_update_l2p.
  destruct (mfor_inv (λ dn pb', ∃ rf', ring_inv c k pb' (step_l2p g (Z.of_nat (length dn))) rf' ∧ l2p_frame pb pb')
    (λ _, update_l2p_entry c) (seqZ 0 n) pb) as (pb' & E & rf' & Hi & Hf).
  - exists rf. rewrite step_l2p_0. split; [done|apply l2p_frame_refl].
  - intros dn a todo pb1 Hs (rf1 & Hi & Hf).
    apply (f_equal length) in Hs. rewrite length_seqZ, length_app in Hs. cbn in Hs.
    destruct (update_l2p_entry_ok pb1 _ rf1 Hcfg Hi) as (pb2 & rf2 & E & Hi2 & Hf2); [cbn; lia|].
    exists pb2. split; [done|]. exists rf2. rewrite step_l2p_add in Hi2. rewrite length_app. cbn [length].
    rewrite Nat2Z.inj_add. split; [done|]. by eapply l2p_frame_trans.
  - exists pb', rf'. rewrite length_seqZ, Z2Nat.id in Hi by lia. done.
Qed.

(** One entry changes, and some counters. *)
Lemma ring_entry_update pb g g' rf x e e' rb' :
  ring_inv c k pb g rf → ordered (2 ^ k) g' → g_l2p g' = g_l2p g → g_map g' = g_map g →
  g_l2p g ≤ x < g_l2p g + 2 ^ k → ent (pb_rwb pb) x = Some e → e_cacheline e' = e_cacheline e →
  rb' = mk_rb (<[x mod 2 ^ k:=e']> (rb_entries (pb_rwb pb))) (g_mem g' mod 2 ^ k) (g_subm g' mod 2 ^ k)
          (g_sync g' mod 2 ^ k) (rb_sync_point rb') (rb_l2p_update (pb_rwb pb)) (2 ^ k) →
  (x < g_map g → w_ppa (e_w_ctx e') = w_ppa (e_w_ctx e)) →
  (∀ y e, g_l2p g ≤ y < g_l2p g + 2 ^ k → y ≠ x → entry_ok (rl_nr_secs (pb_rl pb)) g y e →
     entry_ok (rl_nr_secs (pb_rl pb)) g' y e) →
  entry_ok (rl_nr_secs (pb_rl pb)) g' x e' →
  ring_inv c k (pb_set_rwb rb' pb) g' rf.
Proof.
  intros Hinv Ho Hl Hm Hx He Hcl Hrb Hppa Hoth Hok. pose proof (ri_pos _ _ _ Hinv) as Hp2.
  destruct Hinv as [Rn Rk Ro Rm Rs Ry Rl Re Ra (ex & Hex)].
  assert (∀ y, g_l2p g ≤ y < g_l2p g + 2 ^ k → ent rb' y = if decide (y = x) then Some e' else ent (pb_rwb pb) y) as Hent.
  { intros y Hy. rewrite Hrb. unfold ent. cbn [rb_nr_entries rb_entries]. rewrite Rn. case_decide as Hyx.
    - subst. by rewrite lookup_insert_eq.
    - rewrite lookup_insert_ne; [done|]. intros He2. apply Hyx. symmetry. by apply (mod_inj_window _ (g_l2p g)) in He2; lia. }
  assert (pend_of rb' g' = pend_of (pb_rwb pb) g) as Hpe.
  { apply pend_ext; [done..|]. intros y Hy. unfold ppa_at. rewrite Hent by (destruct Ro; lia).
    case_decide; [|done]. subst y. rewrite He. apply Hppa. lia. }
  constructor; cbn [pb_rwb pb_set_rwb]; try (rewrite Hrb; cbn; congruence); try done.
  - intros y Hy. rewrite Hl in Hy. rewrite Hent by done. destruct (Re y Hy) as (ey & Hey & Hcy & Hoy).
    case_decide as Hyx; [|exists ey; split; [done|]; split; [done|]; by apply Hoth].
    subst y. exists e'. split; [done|]. rewrite Hey in He. injection He as ->. split; [congruence|done].
  - rewrite Hpe. by apply acct_rwb.
  - exists ex. by rewrite Hpe.
Qed.

(** ** Writers *)

Definition give_room (g : counters) (n : Z) : counters :=
  mk_cnt (g_l2p g) (g_sync g) (g_map g) (g_read g) (g_subm g) (g_mem g + n)
    (g_writing g ∪ list_to_set (seqZ (g_mem g) n)).

Lemma give_room_ordered g n :
  ordered (2 ^ k) g → 0 ≤ n → g_mem g + n ≤ g_l2p g + 2 ^ k - 1 → ordered (2 ^ k) (give_room g n).
Proof.
  intros [] Hn Hf. constructor; cbn; try lia. intros x. rewrite elem_of_union, elem_of_list_to_set, elem_of_seqZ.
  intros [Hx|Hx]; [specialize (od_writing0 x Hx)|]; lia.
Qed.

Lemma give_room_entry nr g n x e :
  ordered (2 ^ k) g → 0 ≤ n → entry_ok nr g x e → entry_ok nr (give_room g n) x e.
Proof.
  intros Ho Hn (H1 & H2 & H3 & H4). split_and!; cbn [give_room g_mem g_writing g_read].
  - rewrite elem_of_union, elem_of_list_to_set, elem_of_seqZ. intros [?|[?|?]]; apply H1; [left; lia|by right|left; lia].
  - rewrite not_elem_of_union, elem_of_list_to_set, elem_of_seqZ. intros Hx [Hw Hr]. apply H2; [|done]. lia.
  - exact H3.
  - rewrite not_elem_of_union, elem_of_list_to_set, elem_of_seqZ. intros Hx [Hw Hr]. apply H4; [|done]. lia.
Qed.

(** The room left when the map has followed. *)
Lemma __may_write_ok pb g rf n :
  cfg_ok c → ring_inv c k pb g rf → 0 ≤ n < 2 ^ 31 →
  if decide (n ≤ 2 ^ k - 1 - (g_mem g - g_sync g))
  then ∃ pb' m rf', __pblk_rb_may_write c n pb = Ok (Some (g_mem g mod 2 ^ k), pb') ∧ 0 ≤ m ≤ g_sync g - g_l2p g ∧
         ring_inv c k pb' (step_l2p g m) rf' ∧ l2p_frame pb pb' ∧ g_mem g + n ≤ g_l2p g + m + 2 ^ k - 1
  else __pblk_rb_may_write c n pb = Ok (None, pb).
Proof using KL.
  intros Hcfg Hinv Hn. unfold __pblk_rb_may_write. pose proof (ring_space_eq _ _ _ Hinv) as Hsp.
  unfold pblk_rb_space in Hsp. rewrite Hsp. pose proof (ri_pos _ _ _ Hinv) as Hp2.
  destruct (decide (n ≤ _)) as [Hfit|]; [|by rewrite decide_True by lia]. rewrite decide_False by lia.
  unfold pblk_rb_update_l2p. pose proof Hinv as [Rn Rk [O1 O2 O3 O4 O5 O6 O7] Rm Rs Ry Rl Re Ra Rr].
  assert (pblk_rb_ring_space (rb_mem (pb_rwb pb)) (rb_l2p_update (pb_rwb pb)) (rb_nr_entries (pb_rwb pb)) =
    2 ^ k - 1 - (g_mem g - g_l2p g)) as ->.
  { unfold pblk_rb_ring_space. rewrite Rn, circ_space_law, Rm, Rl by lia.
    replace (g_l2p g mod 2 ^ k - g_mem g mod 2 ^ k - 1) with (g_l2p g mod 2 ^ k - g_mem g mod 2 ^ k + -1) by lia.
    rewrite <-Z.add_mod_idemp_l, <-Zminus_mod, Z.add_mod_idemp_l by lia.
    replace (g_l2p g - g_mem g + -1) with (2 ^ k - 1 - (g_mem g - g_l2p g) + (-1) * 2 ^ k) by lia.
    rewrite Z.mod_add by lia. apply Z.mod_small. lia. }
  case_decide as Hc.
  - rewrite bind_Ok_l. exists pb, 0, rf. rewrite step_l2p_0, Rm. split; [done|]. split; [lia|]. split; [done|].
    split; [apply l2p_frame_refl|lia].
  - rewrite u32_small by lia.
    destruct (update_l2p_ok pb g rf (n - (2 ^ k - 1 - (g_mem g - g_l2p g))) Hcfg Hinv ltac:(lia)) as (pb' & rf' & -> & Hi & Hf).
    rewrite bind_Ok_l. eexists pb', _, rf'. rewrite Rm. split; [done|]. split; [|split; [exact Hi|split; [done|lia]]]. lia.
Qed.
(** Only the counters change. *)
Lemma ring_counters pb g g' rf rb' :
  ring_inv c k pb g rf → ordered (2 ^ k) g' → g_l2p g' = g_l2p g → g_map g' = g_map g →
  rb' = mk_rb (rb_entries (pb_rwb pb)) (g_mem g' mod 2 ^ k) (g_subm g' mod 2 ^ k)
          (g_sync g' mod 2 ^ k) (rb_sync_point rb') (rb_l2p_update (pb_rwb pb)) (2 ^ k) →
  (∀ y e, g_l2p g ≤ y < g_l2p g + 2 ^ k → entry_ok (rl_nr_secs (pb_rl pb)) g y e →
     entry_ok (rl_nr_secs (pb_rl pb)) g' y e) →
  ring_inv c k (pb_set_rwb rb' pb) g' rf.
Proof.
  intros Hinv Ho Hl Hm Hrb Hoth. pose proof (ri_pos _ _ _ Hinv) as Hp2.
  pose proof Hinv as [Rn Rk Ro Rm Rs Ry Rl Re Ra Rr].
  destruct (Re (g_l2p g)) as (e & He & Hc & Hok); [lia|].
  apply (ring_entry_update pb g g' rf (g_l2p g) e e rb'); try done; [lia| |naive_solver|apply Hoth; [lia|done]].
  rewrite Hrb. cbn. f_equal. unfold ent in He. rewrite Rn in He. by rewrite insert_id.
Qed.

Lemma ring_same pb pb' g rf :
  ring_inv c k pb g rf → pb_rwb pb' = pb_rwb pb → pb_lines pb' = pb_lines pb → pb_mg pb' = pb_mg pb →
  pb_trans_map pb' = pb_trans_map pb → rl_nr_secs (pb_rl pb') = rl_nr_secs (pb_rl pb) →
  high_pw (pb_rl pb') = high_pw (pb_rl pb) → rb_windows_pw (pb_rl pb') = rb_windows_pw (pb_rl pb) →
  ring_inv c k pb' g rf.
Proof.
  intros [] Hw Hl Hm Ht H1 H2 H3. constructor; rewrite ?Hw, ?H1; try done.
  destruct ri_acct0. constructor; unfold addr_ok in *; rewrite ?Hl, ?Hm, ?Ht, ?H1, ?H2, ?H3; done.
Qed.

Lemma give_room_inv pb g rf n sp :
  ring_inv c k pb g rf → 0 ≤ n → g_mem g + n ≤ g_l2p g + 2 ^ k - 1 →
  ring_inv c k (pb_set_rwb (rb_set_sync_point sp (rb_set_mem (rb_wrap (pb_rwb pb) (g_mem g mod 2 ^ k + n)) (pb_rwb pb))) pb)
    (give_room g n) rf.
Proof.
  intros Hinv Hn Hf. pose proof (ri_pos _ _ _ Hinv) as Hp2.
  eapply ring_counters; [done|apply give_room_ordered; [apply Hinv|done..]|done|done| |].
  - destruct Hinv as [Rn Rk Ro Rm Rs Ry Rl Re Ra Rr]. cbn. rewrite (rb_wrap_mod _ k), Z.add_mod_idemp_l by (done || lia).
    unfold rb_set_sync_point, rb_set_mem. cbn. by rewrite Rn, Rs, Ry.
  - intros y e _. apply give_room_entry; [apply Hinv|done].
Qed.

Lemma may_write_gc_ok pb g rf n :
  cfg_ok c → ring_inv c k pb g rf → 0 ≤ n < 2 ^ 31 →
  (pblk_rb_may_write_gc c n pb = Ok (None, pb)) ∨
  ∃ pb' m rf', pblk_rb_may_write_gc c n pb = Ok (Some (g_mem g mod 2 ^ k), pb') ∧ 0 ≤ m ≤ g_sync g - g_l2p g ∧
    ring_inv c k pb' (give_room (step_l2p g m) n) rf'.
Proof using KL.
  intros Hcfg Hinv Hn. unfold pblk_rb_may_write_gc. case_decide; [by left|].
  unfold pblk_rb_may_write. pose proof (__may_write_ok pb g rf n Hcfg Hinv Hn) as Hm. case_decide; [|left; by rewrite Hm].
  right. destruct Hm as (pb' & m & rf' & -> & Hm & Hi & Hf & Hroom). rewrite !bind_Ok_l.
  do 3 eexists. split; [reflexivity|]. split; [exact Hm|].
  eapply ring_same; [apply (give_room_inv pb' _ rf' n (rb_sync_point (pb_rwb pb')) Hi)|..]; try done; try lia.
Qed.

(** A flag that marks the last entry to flush changes nothing else. *)
Lemma flush_entry_ok nr g x e bios :
  entry_ok nr g x e →
  entry_ok nr g x (e_set_w_ctx (w_set_bios bios (w_set_flags (Z.lor (w_flags (e_w_ctx e)) PBLK_FLUSH_ENTRY) (e_w_ctx e))) e).
Proof.
  unfold entry_ok. cbn [e_w_ctx e_set_w_ctx w_flags w_set_bios w_set_flags w_lba]. flags. intuition lia.
Qed.

Lemma sync_point_set_ok pb g rf bio x :
  ring_inv c k pb g rf → g_subm g ≤ x < g_l2p g + 2 ^ k →
  ∃ waits rb', pblk_rb_sync_point_set bio (x mod 2 ^ k) (pb_rwb pb) = Ok (waits, rb') ∧
    ring_inv c k (pb_set_rwb rb' pb) g rf ∧ waits = bool_decide (x ≠ g_subm g).
Proof.
  intros Hinv Hx. pose proof (ri_pos _ _ _ Hinv) as Hp2. pose proof Hinv as [Rn Rk [O1 O2 O3 O4 O5 O6 O7] Rm Rs Ry Rl Re Ra Rr].
  unfold pblk_rb_sync_point_set. case_decide as Hd.
  { exists false, (pb_rwb pb). split; [done|]. split; [by destruct pb|]. symmetry. apply bool_decide_eq_false_2.
    rewrite Rs in Hd. apply (mod_inj_window _ (g_subm g)) in Hd; lia. }
  assert (x ≠ g_subm g) as Hne by (intros ->; done).
  set (sp := if decide _ then _ else _).
  assert (sp = (x - 1) mod 2 ^ k) as Hsp.
  { unfold sp. case_decide as Hz.
    - rewrite Rn, u32_small by lia. symmetry. rewrite <-Zminus_mod_idemp_l, Hz.
      rewrite <-(Z.mod_add _ 1), Z.mod_small by lia. lia.
    - pose proof (Z.mod_pos_bound x (2 ^ k) ltac:(lia)). rewrite u32_small by lia. rewrite <-Zminus_mod_idemp_l.
      symmetry. apply Z.mod_small. lia. }
  destruct (Re (x - 1)) as (e & He & Hc & Hok); [lia|]. pose proof He as He'. unfold ent in He'. rewrite Rn, <-Hsp in He'.
  rewrite (aread_Some _ _ _ He'), bind_Ok_l. unfold set_w_ctx. rewrite (aread_Some _ _ _ He'), bind_Ok_l, bind_Ok_l.
  set (e' := e_set_w_ctx _ e). set (rb' := rb_set_sync_point sp _).
  exists true, rb'. split; [done|]. split; [|by rewrite bool_decide_eq_true_2].
  eapply (ring_entry_update pb g g rf (x - 1) e e'); try done.
  - lia.
  - unfold rb', rb_set_sync_point, rb_set_entries. cbn. rewrite <-Hsp. by rewrite Rn, Rm, Rs, Ry.
  - by apply flush_entry_ok.
Qed.
Lemma may_write_user_ok pb g rf bio preflush n :
  cfg_ok c → ring_inv c k pb g rf → 0 ≤ n < 2 ^ 31 →
  (pblk_rb_may_write_user c bio preflush n pb = Ok (None, pb)) ∨
  ∃ pb' m rf' ret, pblk_rb_may_write_user c bio preflush n pb = Ok (Some (g_mem g mod 2 ^ k, ret), pb') ∧
    0 ≤ m ≤ g_sync g - g_l2p g ∧ ring_inv c k pb' (give_room (step_l2p g m) n) rf' ∧
    ret = (if decide (preflush = true ∧ g_mem g + n ≠ g_subm g) then NVM_IO_OK else NVM_IO_DONE).
Proof using KL.
  intros Hcfg Hinv Hn. unfold pblk_rb_may_write_user. case_decide; [by left|].
  unfold pblk_rb_may_write_flush. pose proof (__may_write_ok pb g rf n Hcfg Hinv Hn) as Hm. case_decide; [|left; by rewrite Hm].
  right. destruct Hm as (pb' & m & rf' & -> & Hm & Hi & Hf & Hroom). rewrite bind_Ok_l.
  pose proof (ri_pos _ _ _ Hi) as Hp2.
  assert (rb_wrap (pb_rwb pb') (g_mem g mod 2 ^ k + n) = (g_mem g + n) mod 2 ^ k) as Hw.
  { rewrite (rb_wrap_mod _ k), Z.add_mod_idemp_l by (lia || apply Hi). done. }
  assert (∃ waits rb1, (if preflush then pblk_rb_sync_point_set bio ((g_mem g + n) mod 2 ^ k) (pb_rwb pb')
      else Ok (false, pb_rwb pb')) = Ok (waits, rb1) ∧ ring_inv c k (pb_set_rwb rb1 pb') (step_l2p g m) rf' ∧
      waits = preflush && bool_decide (g_mem g + n ≠ g_subm g)) as (waits & rb1 & E & Hi1 & Hwt).
  { destruct preflush; [|exists false, (pb_rwb pb'); split; [done|]; split; [by destruct pb'|done]].
    destruct (sync_point_set_ok pb' _ rf' bio (g_mem g + n) Hi) as (w & rb1 & ? & ? & ?); [|eauto 10].
    cbn. pose proof (ri_ord _ _ _ _ _ Hinv) as []. lia. }
  rewrite Hw, E, !bind_Ok_l. eexists _, m, rf', _. split; [reflexivity|]. split; [exact Hm|]. split.
  - pose proof (give_room_inv _ _ rf' n (rb_sync_point rb1) Hi1 ltac:(lia) ltac:(cbn; lia)) as Hg.
    cbn [step_l2p g_mem pb_rwb pb_set_rwb] in Hg. rewrite (rb_wrap_mod rb1 k), Z.add_mod_idemp_l in Hg by (lia || apply Hi1).
    eapply ring_same; [exact Hg|..]; done.
  - rewrite Hwt. destruct preflush; cbn; repeat case_bool_decide; repeat case_decide; naive_solver.
Qed.

Definition wrote (g : counters) (x : Z) : counters :=
  mk_cnt (g_l2p g) (g_sync g) (g_map g) (g_read g) (g_subm g) (g_mem g) (g_writing g ∖ {[x]}).

(** The data and the context a writer leaves in an entry. *)
Definition written_entry (e : pblk_rb_entry) (data : Z) (w : pblk_w_ctx) : pblk_rb_entry :=
  mk_entry (e_cacheline e) data
    (mk_wctx (w_bios (e_w_ctx e)) (w_lba w) (w_paddr w) (w_ppa w) (Z.lor (w_flags w) PBLK_WRITTEN_DATA)).

Lemma write_entry_ok pb g rf x data w :
  ring_inv c k pb g rf → x ∈ g_writing g → 0 ≤ w_lba w < rl_nr_secs (pb_rl pb) →
  ¬ has (w_flags w) PBLK_WRITABLE_ENTRY →
  ∃ e rb', ent (pb_rwb pb) x = Some e ∧
    pblk_rb_write_entry data w (x mod 2 ^ k) (pb_rwb pb) = Ok (pblk_cacheline_to_ppa (x mod 2 ^ k), rb') ∧
    rb' = rb_set_entries (<[x mod 2 ^ k:=written_entry e data w]> (rb_entries (pb_rwb pb))) (pb_rwb pb) ∧
    ring_inv c k (pb_set_rwb rb' pb) (wrote g x) rf.
Proof.
  intros Hinv Hx Hlba Hfl. pose proof (ri_pos _ _ _ Hinv) as Hp2.
  pose proof Hinv as [Rn Rk Ro Rm Rs Ry Rl Re Ra Rr]. pose proof Ro as [O1 O2 O3 O4 O5 O6 O7].
  pose proof (O7 x Hx) as Hxr. destruct (Re x) as (e & He & Hc & Hok); [lia|]. exists e.
  pose proof He as He'. unfold ent in He'. rewrite Rn in He'. unfold pblk_rb_write_entry.
  rewrite (aread_Some _ _ _ He'), bind_Ok_l. pose proof Hok as (Hwr & _).
  rewrite BUG_ON_pass, bind_Ok_l by (intros Hn; apply Hn, Hwr; by right). rewrite Hc. cbv zeta.
  eexists. split; [done|]. split; [reflexivity|]. split; [reflexivity|].
  eapply (ring_entry_update pb g (wrote g x) rf x e (written_entry e data w)); try done.
  - constructor; cbn; try done. intros y. rewrite elem_of_difference. intros [? _]. by apply O7.
  - lia.
  - unfold rb_set_entries. cbn. by rewrite Rn, Rm, Rs, Ry.
  - lia.
  - intros y ey Hy Hne (E1 & E2 & E3 & E4). split_and!; cbn [wrote g_mem g_writing g_read].
    + intros [?|Hy2]; apply E1; [by left|right]. apply elem_of_difference in Hy2. tauto.
    + intros ? Hy2. apply E2; [done|]. intros ?. apply Hy2, elem_of_difference. split; [done|]. by rewrite elem_of_singleton.
    + done.
    + intros ? Hy2. apply E4; [done|]. intros ?. apply Hy2, elem_of_difference. split; [done|]. by rewrite elem_of_singleton.
  - split_and!; cbn [wrote g_mem g_writing g_read written_entry e_w_ctx w_flags w_lba]; flags.
    + intros [?|Hy2]; [lia|]. apply elem_of_difference in Hy2 as [_ Hy2]. by rewrite elem_of_singleton in Hy2.
    + intros _ _. split; [done|]. intros [?|?]; [done|lia].
    + lia.
    + intros _ _. by right.
Qed.

(** ** The write thread *)

Definition commit (g : counters) (n : Z) : counters :=
  mk_cnt (g_l2p g) (g_sync g) (g_map g) (g_read g) (g_subm g + n) (g_mem g) (g_writing g).

Lemma read_commit_ok pb g rf n :
  ring_inv c k pb g rf → 0 ≤ n ≤ g_mem g - g_subm g →
  pblk_rb_read_commit n (pb_rwb pb) = (g_subm g mod 2 ^ k, rb_set_subm ((g_subm g + n) mod 2 ^ k) (pb_rwb pb)) ∧
  ring_inv c k (pb_set_rwb (rb_set_subm ((g_subm g + n) mod 2 ^ k) (pb_rwb pb)) pb) (commit g n) rf.
Proof.
  intros Hinv Hn. pose proof (ri_pos _ _ _ Hinv) as Hp2. pose proof Hinv as [Rn Rk Ro Rm Rs Ry Rl Re Ra Rr].
  split.
  - unfold pblk_rb_read_commit. rewrite Rs, (rb_wrap_mod _ k), Z.add_mod_idemp_l by (done || lia). done.
  - eapply ring_counters; try done.
    + destruct Ro. constructor; cbn; try done; lia.
    + unfold rb_set_subm. cbn. by rewrite Rn, Rm, Ry.
Qed.

Definition took (g : counters) : counters :=
  mk_cnt (g_l2p g) (g_sync g) (g_map g) (g_read g + 1) (g_subm g) (g_mem g) (g_writing g).

Definition taken_entry (e : pblk_rb_entry) : pblk_rb_entry :=
  let f := w_flags (e_w_ctx e) in
  let f := if decide (has f PBLK_FLUSH_ENTRY) then drop_flag f PBLK_FLUSH_ENTRY else f in
  e_set_w_ctx (w_set_flags (Z.lor (drop_flag f PBLK_WRITTEN_DATA) PBLK_SUBMITTED_ENTRY) (e_w_ctx e)) e.

Lemma taken_entry_ok nr g e :
  ordered (2 ^ k) g → g_read g < g_subm g → g_read g ∉ g_writing g → entry_ok nr g (g_read g) e →
  entry_ok nr (took g) (g_read g) (taken_entry e).
Proof.
  intros [O1 O2 O3 O4 O5 O6 O7] Hlt Hnw (_ & E2 & _ & _). destruct (E2 ltac:(lia) Hnw) as [Hl Hw].
  split_and!; cbn [took g_mem g_writing g_read]; unfold taken_entry; cbn [e_w_ctx e_set_w_ctx w_flags w_set_flags w_lba].
  - intros [?|?]; [lia|done].
  - intros _ _. split; [done|]. case_decide; flags; intros [[]|?]; tauto || lia.
  - intros _. case_decide; flags; (split; [by right|]); intros [[]|?]; tauto || lia.
  - lia.
Qed.

(** One entry is taken: when its data is there the thread does not wait. *)
Lemma read_entry_ok pb g rf a :
  ring_inv c k pb g rf → g_read g < g_subm g → g_read g ∉ g_writing g →
  ∃ e a' rb', ent (pb_rwb pb) (g_read g) = Some e ∧
    read_entry true (g_read g mod 2 ^ k) a (pb_rwb pb) = Ok (true, a', rb') ∧ ra_data a' = ra_data a ++ [e_data e] ∧
    rb' = mk_rb (<[g_read g mod 2 ^ k:=taken_entry e]> (rb_entries (pb_rwb pb))) (g_mem g mod 2 ^ k)
            (g_subm g mod 2 ^ k) (g_sync g mod 2 ^ k) (rb_sync_point rb') (rb_l2p_update (pb_rwb pb)) (2 ^ k) ∧
    ring_inv c k (pb_set_rwb rb' pb) (took g) rf.
Proof.
  intros Hinv Hlt Hnw. pose proof (ri_pos _ _ _ Hinv) as Hp2.
  pose proof Hinv as [Rn Rk Ro Rm Rs Ry Rl Re Ra Rr]. pose proof Ro as [O1 O2 O3 O4 O5 O6 O7].
  destruct (Re (g_read g)) as (e & He & Hc & Hok); [lia|]. pose proof He as He'. unfold ent in He'. rewrite Rn in He'.
  pose proof Hok as (_ & _ & _ & Hwr). unfold read_entry. rewrite (aread_Some _ _ _ He'), bind_Ok_l. cbv zeta.
  rewrite decide_False by (intros Hn; apply Hn, Hwr; [lia|done]).
  unfold set_w_ctx. cbn [rb_entries rb_set_sync_point]. rewrite (aread_Some _ _ _ He'), bind_Ok_l, bind_Ok_l.
  exists e. do 2 eexists. split; [done|]. split; [reflexivity|]. split; [done|].
  assert ((if bool_decide (has (w_flags (e_w_ctx e)) PBLK_FLUSH_ENTRY)
    then drop_flag (w_flags (e_w_ctx e)) PBLK_FLUSH_ENTRY else w_flags (e_w_ctx e)) =
    (if decide (has (w_flags (e_w_ctx e)) PBLK_FLUSH_ENTRY)
    then drop_flag (w_flags (e_w_ctx e)) PBLK_FLUSH_ENTRY else w_flags (e_w_ctx e))) as ->.
  { case_bool_decide; case_decide; tauto. }
  split.
  - unfold rb_set_entries, rb_set_sync_point. cbn. by rewrite Rn, Rm, Rs, Ry.
  - eapply (ring_entry_update pb g (took g) rf (g_read g) e (taken_entry e)); try done.
    + constructor; cbn; try lia. intros y Hy. pose proof (O7 y Hy). destruct (decide (y = g_read g)); [congruence|lia].
    + lia.
    + unfold rb_set_entries, rb_set_sync_point. cbn. by rewrite Rn, Rm, Rs, Ry.
    + intros y ey Hy Hne (E1 & E2 & E3 & E4). split_and!; cbn [took g_mem g_writing g_read]; try done.
      * intros ?. apply E3. lia.
      * intros ?. apply E4. lia.
    + by apply taken_entry_ok.
Qed.
Definition took_n (g : counters) (n : Z) : counters :=
  mk_cnt (g_l2p g) (g_sync g) (g_map g) (g_read g + n) (g_subm g) (g_mem g) (g_writing g).

Definition data_at (rb : pblk_rb) (x : Z) : Z := match ent rb x with Some e => e_data e | None => 0 end.

Lemma read_entries_ok n i pb g rf a :
  ring_inv c k pb g rf → Z.of_nat n ≤ g_subm g - g_read g →
  (∀ x, g_read g ≤ x < g_read g + Z.of_nat n → x ∉ g_writing g) →
  ∃ a' rb', read_entries (λ _, true) n i (g_read g mod 2 ^ k) a (pb_rwb pb) = Ok (true, a', rb') ∧
    ra_data a' = ra_data a ++ (data_at (pb_rwb pb) <$> seqZ (g_read g) (Z.of_nat n)) ∧
    ring_inv c k (pb_set_rwb rb' pb) (took_n g (Z.of_nat n)) rf.
Proof.
  revert i pb g a. induction n as [|n IH]; intros i pb g a Hinv Hn Hw.
  - exists a, (pb_rwb pb). split; [done|]. split; [cbn; by rewrite app_nil_r|].
    replace (took_n g (Z.of_nat 0)) with g by (destruct g; unfold took_n; cbn; f_equal; lia). by destruct pb.
  - destruct (read_entry_ok pb g rf a Hinv) as (e & a1 & rb1 & He & E & Hd & Hrb & Hi1); [lia|apply Hw; lia|].
    cbn [read_entries]. rewrite E, bind_Ok_l.
    pose proof (ri_pos _ _ _ Hinv) as Hp2. pose proof Hinv as [Rn Rk Ro Rm Rs Ry Rl Re Ra Rr]. pose proof Ro as [O1 O2 O3 O4 O5 O6 O7].
    assert (rb_wrap rb1 (g_read g mod 2 ^ k + 1) = g_read (took g) mod 2 ^ k) as ->.
    { rewrite (rb_wrap_mod rb1 k), Z.add_mod_idemp_l by (lia || apply Hi1). done. }
    destruct (IH (S i) (pb_set_rwb rb1 pb) (took g) a1 Hi1) as (a2 & rb2 & E2 & Hd2 & Hi2);
      [cbn; lia|intros x Hx; cbn in Hx |- *; apply Hw; lia|].
    exists a2, rb2. split; [exact E2|]. split.
    + rewrite Hd2, Hd, <-app_assoc. f_equal. cbn [pb_rwb pb_set_rwb]. rewrite (seqZ_cons (g_read g) (Z.of_nat (S n))) by lia.
      rewrite fmap_cons. cbn [app]. f_equal; [unfold data_at; by rewrite He|].
      replace (Z.pred (Z.of_nat (S n))) with (Z.of_nat n) by lia. apply list_fmap_ext. intros j x Hx.
      apply lookup_seqZ in Hx. cbn [took g_read] in Hx. unfold data_at, ent. rewrite Hrb. cbn [rb_entries rb_nr_entries]. rewrite Rn.
      rewrite lookup_insert_ne; [done|]. intros Hc. apply (mod_inj_window _ (g_read g)) in Hc; lia.
    + unfold took_n in *. cbn [took g_l2p g_sync g_map g_read g_subm g_mem g_writing] in Hi2.
      replace (g_read g + Z.of_nat (S n)) with (g_read g + 1 + Z.of_nat n) by lia. exact Hi2.
Qed.

(** The write thread takes what it has committed, once it is written. *)
Lemma read_to_bio_ok pb g rf nr_entries count :
  ring_inv c k pb g rf → 0 ≤ count < 2 ^ 31 → 0 ≤ nr_entries < 2 ^ 31 → Z.min nr_entries count = g_subm g - g_read g →
  (∀ x, g_read g ≤ x < g_subm g → x ∉ g_writing g) →
  ∃ pb', pblk_rb_read_to_bio (λ _, true) (g_read g mod 2 ^ k) nr_entries count pb =
      Ok (g_subm g - g_read g, (g_read g mod 2 ^ k, g_subm g - g_read g, Z.max 0 (nr_entries - count)),
          data_at (pb_rwb pb) <$> seqZ (g_read g) (g_subm g - g_read g), pb') ∧
    ring_inv c k pb' (took_n g (g_subm g - g_read g)) rf.
Proof.
  intros Hinv Hc Hn Hmin Hw. unfold pblk_rb_read_to_bio.
  assert ((if decide (count < nr_entries) then count else nr_entries) = g_subm g - g_read g) as -> by (case_decide; lia).
  assert ((if decide (count < nr_entries) then u32 (nr_entries - count) else 0) = Z.max 0 (nr_entries - count)) as ->.
  { case_decide; [rewrite u32_small by lia|]; lia. }
  destruct (read_entries_ok (Z.to_nat (g_subm g - g_read g)) 0 pb g rf (mk_acc 0 0 []) Hinv) as (a & rb & -> & Hd & Hi).
  - lia.
  - intros x Hx. apply Hw. lia.
  - rewrite bind_Ok_l. rewrite Z2Nat.id in Hd, Hi by lia. rewrite Hd. eexists. split; [reflexivity|].
    eapply ring_same; [exact Hi|..]; done.
Qed.

(** ** Addresses *)

Definition mapped (g : counters) : counters :=
  mk_cnt (g_l2p g) (g_sync g) (g_map g + 1) (g_read g) (g_subm g) (g_mem g) (g_writing g).

Definition mapped_entry (e : pblk_rb_entry) (paddr p : Z) : pblk_rb_entry :=
  e_set_w_ctx (w_set_ppa p (w_set_paddr paddr (e_w_ctx e))) e.

Lemma ring_pend_app pb g rf e paddr p :
  ring_inv c k pb g rf → g_map g < g_read g →
  pend_of (rb_set_entries (<[g_map g mod 2 ^ k:=mapped_entry e paddr p]> (rb_entries (pb_rwb pb))) (pb_rwb pb)) (mapped g) =
  pend_of (pb_rwb pb) g ++ [p].
Proof.
  intros Hinv Hlt. pose proof (ri_pos _ _ _ Hinv) as Hp2. pose proof Hinv as [Rn Rk Ro Rm Rs Ry Rl Re Ra Rr].
  pose proof Ro as [O1 O2 O3 O4 O5 O6 O7].
  unfold pend_of. cbn [mapped g_l2p g_map]. replace (g_map g + 1 - g_l2p g) with ((g_map g - g_l2p g) + 1) by lia.
  rewrite seqZ_app, fmap_app by lia. f_equal.
  - apply list_fmap_ext. intros i x Hx. apply lookup_seqZ in Hx. unfold ppa_at. rewrite ent_insert_ne; [done|].
    rewrite Rn. intros Hc. apply (mod_inj_window _ (g_l2p g)) in Hc; lia.
  - replace (g_l2p g + (g_map g - g_l2p g)) with (g_map g) by lia. rewrite (seqZ_cons (g_map g) 1), fmap_cons by lia.
    unfold ppa_at. rewrite ent_insert_eq by (by rewrite Rn). done.
Qed.

Lemma map_entry_ok pb pb1 g rf e paddr p :
  ring_inv c k pb g rf → g_map g < g_read g → ent (pb_rwb pb) (g_map g) = Some e →
  pb_rwb pb1 = pb_rwb pb → rl_nr_secs (pb_rl pb1) = rl_nr_secs (pb_rl pb) →
  acct_inv c pb1 (p :: pend_of (pb_rwb pb) g) (pblk_ppa_to_line p :: rf) →
  ring_inv c k (pb_set_rwb (rb_set_entries (<[g_map g mod 2 ^ k:=mapped_entry e paddr p]> (rb_entries (pb_rwb pb))) (pb_rwb pb)) pb1)
    (mapped g) (pblk_ppa_to_line p :: rf).
Proof.
  intros Hinv Hlt He Hw Hsec Ha. pose proof (ri_pos _ _ _ Hinv) as Hp2.
  pose proof Hinv as [Rn Rk Ro Rm Rs Ry Rl Re Ra (ex & Rr)]. pose proof Ro as [O1 O2 O3 O4 O5 O6 O7].
  set (rb' := rb_set_entries _ _).
  assert (∀ y, g_l2p g ≤ y < g_l2p g + 2 ^ k →
    ent rb' y = if decide (y = g_map g) then Some (mapped_entry e paddr p) else ent (pb_rwb pb) y) as Hent.
  { intros y Hy. unfold rb'. case_decide as Hyx.
    - apply ent_insert_eq. by rewrite Rn, Hyx.
    - apply ent_insert_ne. rewrite Rn. intros Hc. apply Hyx. apply (mod_inj_window _ (g_l2p g)) in Hc; lia. }
  pose proof (ring_pend_app pb g rf e paddr p Hinv Hlt) as Hpe. fold rb' in Hpe.
  constructor; cbn [pb_rwb pb_set_rwb pb_rl]; try done.
  - constructor; cbn; try done; lia.
  - intros y Hy. cbn [mapped g_l2p] in Hy. rewrite Hent, Hsec by done. destruct (Re y Hy) as (ey & Hey & Hcy & Hoy).
    case_decide; [|eauto]. subst y. rewrite He in Hey. injection Hey as <-. eexists. split; [done|]. split; [done|]. exact Hoy.
  - apply acct_rwb. rewrite Hpe. eapply acct_perm; [|reflexivity|exact Ha]. by rewrite Permutation_app_comm.
  - exists ex. rewrite Hpe, fmap_app, Rr. cbn. solve_Permutation.
Qed.

(** ** Completions, and the other operations *)

Definition synced (g : counters) (n : Z) : counters :=
  mk_cnt (g_l2p g) (g_sync g + n) (g_map g) (g_read g) (g_subm g) (g_mem g) (g_writing g).

Lemma advance_eq n rb y : rb_nr_entries rb = 2 ^ k → 0 ≤ k ≤ 30 → advance n rb (y mod 2 ^ k) = (y + Z.of_nat n) mod 2 ^ k.
Proof.
  intros Hn Hk. pose proof (pow2_bound k Hk). revert y. induction n as [|n IH]; intros y; [cbn; f_equal; lia|].
  cbn [advance]. rewrite (rb_wrap_mod rb k), Z.add_mod_idemp_l, IH by (done || lia). f_equal. lia.
Qed.

Lemma sync_advance_ok pb g rf n :
  ring_inv c k pb g rf → 0 ≤ n ≤ g_map g - g_sync g →
  pblk_rb_sync_advance n (pb_rwb pb) = ((g_sync g + n) mod 2 ^ k, rb_set_sync ((g_sync g + n) mod 2 ^ k) (pb_rwb pb)) ∧
  ring_inv c k (pb_set_rwb (rb_set_sync ((g_sync g + n) mod 2 ^ k) (pb_rwb pb)) pb) (synced g n) rf.
Proof.
  intros Hinv Hn. pose proof (ri_pos _ _ _ Hinv) as Hp2. pose proof Hinv as [Rn Rk Ro Rm Rs Ry Rl Re Ra Rr]. split.
  - unfold pblk_rb_sync_advance. rewrite Ry, advance_eq by done. by rewrite Z2Nat.id by lia.
  - eapply ring_counters; try done.
    + destruct Ro. constructor; cbn; try done; lia.
    + unfold rb_set_sync. cbn. by rewrite Rn, Rm, Rs.
Qed.

Lemma sync_l2p_ok pb g rf :
  cfg_ok c → ring_inv c k pb g rf →
  ∃ pb' rf', pblk_rb_sync_l2p c pb = Ok pb' ∧ ring_inv c k pb' (step_l2p g (g_sync g - g_l2p g)) rf'.
Proof using KL.
  intros Hcfg Hinv. pose proof (ri_pos _ _ _ Hinv) as Hp2. pose proof Hinv as [Rn Rk Ro Rm Rs Ry Rl Re Ra Rr].
  destruct Ro as [O1 O2 O3 O4 O5 O6 O7]. unfold pblk_rb_sync_l2p, pblk_rb_ring_count.
  rewrite Rn, circ_cnt_law, Ry, Rl, sub_mod_window by lia.
  destruct (update_l2p_ok pb g rf (g_sync g - g_l2p g) Hcfg Hinv ltac:(lia)) as (pb' & rf' & E & Hi & _). eauto.
Qed.

(** Whatever keeps the accounts and leaves the buffer alone. *)
Lemma ring_acct pb pb' g rf rf' :
  ring_inv c k pb g rf → pb_rwb pb' = pb_rwb pb → rl_nr_secs (pb_rl pb') = rl_nr_secs (pb_rl pb) →
  acct_inv c pb' (pend_of (pb_rwb pb) g) (rf' ++ rf) → ring_inv c k pb' g (rf' ++ rf).
Proof.
  intros [] Hw Hs Ha. constructor; rewrite ?Hw, ?Hs; try done. destruct ri_refs0 as [ex Hex]. exists (rf' ++ ex).
  rewrite Hex, !app_assoc. f_equiv. apply Permutation_app_comm.
Qed.
End ring.
