(* ===== verification/PbCache.v ===== *)
(** * pblk: writes to the buffer and reads

    drivers/lightnvm/pblk-cache.c and pblk-read.c.  A writer waits for room, then copies
    one sector after the other to the ring and points the translation map at it.  A read
    takes what the map says is in the buffer from there, and asks the device for the rest;
    the data of the device, and whether it takes a request, are parameters.  The pages of a
    bio are a map from their index; a bio of [n] sectors from page [bi_idx] on has the
    pages [bi_idx .. bi_idx + n - 1].  A retry that nobody could end is [F_FUEL]. *)

From S2P Require Import Prelude Kernel PbAddr PbRl PbState PbMap PbRb.

#[local] Open Scope Z_scope.

(** ** Writes *)

Record wbio : Type := mk_wbio { b_id : Z; b_sector : Z; b_preflush : bool; b_data : list Z }.

Section cache.
Context `{Kops} (c : pblk_cfg).

Definition cache_w_ctx (lba flags : Z) : pblk_w_ctx := mk_wctx [] lba 0 ADDR_EMPTY flags.

(** One sector: the entry, then the map. *)
Definition write_sector (lba bpos flags i data : Z) (pb : pblk) : res pblk :=
  let pos := pblk_rb_wrap_pos (pb_rwb pb) (bpos + i) in
  r ← pblk_rb_write_entry data (cache_w_ctx (lba + i) flags) pos (pb_rwb pb);
  pblk_update_map_cache c (lba + i) r.1 (pb_set_rwb r.2 pb).

Fixpoint write_sectors (lba bpos flags i : Z) (data : list Z) (pb : pblk) : res pblk :=
  match data with
  | [] => Ok pb
  | d :: data' => pb' ← write_sector lba bpos flags i d pb; write_sectors lba bpos flags (i + 1) data' pb'
  end.

(** The write thread is woken in any case, which changes no state here. *)
Definition pblk_write_to_cache (b : wbio) (flags : Z) (pb : pblk) : res (Z * pblk) :=
  let lba := pblk_get_lba (b_sector b) in
  let nr_entries := Z.of_nat (length (b_data b)) in
  r ← pblk_rb_may_write_user c (b_id b) (b_preflush b) nr_entries pb;
  match r with
  | (None, _) => Fault F_FUEL
  | (Some (bpos, ret), pb) => pb' ← write_sectors lba bpos flags 0 (b_data b) pb; Ok (ret, pb')
  end.

(** An empty flush; [true] when the caller then waits for its end. *)
Definition pblk_flush_writer (bio : Z) (pb : pblk) : res (bool * pblk) :=
  r ← pblk_write_to_cache (mk_wbio bio 0 true []) 0 pb;
  Ok (bool_decide (r.1 = NVM_IO_OK), r.2).

(** The sectors of a victim: only those whose address is not empty have data. *)
Fixpoint write_gc_sectors (bpos flags gc_line : Z) (valid : Z) (lbas data : list Z) (pb : pblk) : res pblk :=
  match lbas with
  | [] => Ok pb
  | lba :: lbas' =>
      if decide (lba = ADDR_EMPTY) then write_gc_sectors bpos flags gc_line valid lbas' data pb
      else
        d ← deref (head data);
        let pos := pblk_rb_wrap_pos (pb_rwb pb) (bpos + valid) in
        r ← pblk_rb_write_entry d (cache_w_ctx lba flags) pos (pb_rwb pb);
        pb' ← pblk_update_map_gc lba r.1 gc_line (pb_set_rwb r.2 pb);
        write_gc_sectors bpos flags gc_line (valid + 1) lbas' (tail data) pb'
  end.

Definition pblk_write_gc_to_cache (data lba_list : list Z) (nr_rec_entries gc_line flags : Z) (pb : pblk) : res (Z * pblk) :=
  r ← pblk_rb_may_write_gc c nr_rec_entries pb;
  match r with
  | (None, _) => Fault F_FUEL
  | (Some bpos, pb) => pb' ← write_gc_sectors bpos flags gc_line 0 lba_list data pb; Ok (NVM_IO_OK, pb')
  end.

(** ** Reads *)

Definition pblk_read_from_cache (pb : pblk) (lba ppa : Z) : res (option Z) :=
  pblk_rb_copy_to_bio (pb_rwb pb) lba (nvm_addr_to_cacheline ppa).

(** The state of the loop over the sectors: where the bio stands, whether it was moved,
    the sectors that need no read, the addresses to read, the pages that were filled. *)
Record rd_acc : Type := mk_rd {
  rd_idx : Z; rd_advanced : bool; rd_bitmap : gset Z; rd_ppas : list Z; rd_pages : gmap Z Z;
}.

(** A bio is only moved to the sector when it stands at page 0. *)
Definition copy_page (i d : Z) (a : rd_acc) : rd_acc :=
  let idx := if decide (rd_idx a = 0) then i else rd_idx a in
  mk_rd idx (rd_advanced a) (rd_bitmap a) (rd_ppas a) (<[idx:=d]> (rd_pages a)).

Definition rd_step (a : rd_acc) : rd_acc :=
  if rd_advanced a then mk_rd (rd_idx a + 1) true (rd_bitmap a) (rd_ppas a) (rd_pages a) else a.

(** Sector [i]; an entry that was reused meanwhile is looked up again. *)
Fixpoint read_sector (fuel : nat) (pb : pblk) (blba i p : Z) (a : rd_acc) : res rd_acc :=
  match fuel with
  | O => Fault F_FUEL
  | S fuel' =>
      if ppa_empty p then Ok (mk_rd (rd_idx a) (rd_advanced a) ({[i]} ∪ rd_bitmap a) (rd_ppas a) (rd_pages a))
      else if nvm_addr_in_cache p then
        r ← pblk_read_from_cache pb (blba + i) p;
        match r with
        | None => p' ← aread (pb_trans_map pb) (blba + i); read_sector fuel' pb blba i p' a
        | Some d =>
            let a := copy_page i d a in
            Ok (rd_step (mk_rd (rd_idx a) true ({[i]} ∪ rd_bitmap a) (rd_ppas a) (rd_pages a)))
        end
      else Ok (rd_step (mk_rd (rd_idx a) (rd_advanced a) (rd_bitmap a) (rd_ppas a ++ [p]) (rd_pages a)))
  end.

Fixpoint read_sectors (fuel : nat) (pb : pblk) (blba i : Z) (ppas : list Z) (a : rd_acc) : res rd_acc :=
  match ppas with
  | [] => Ok a
  | p :: ppas' => a' ← read_sector fuel pb blba i p a; read_sectors fuel pb blba (i + 1) ppas' a'
  end.

Definition pblk_read_ppalist_rq (fuel : nat) (pb : pblk) (blba nr_secs idx : Z) : res rd_acc :=
  _ ← BUG_ON (¬ (0 ≤ blba ∧ blba + nr_secs < rl_nr_secs (pb_rl pb)));
  ppas ← pblk_lookup_l2p_seq pb blba nr_secs;
  read_sectors fuel pb blba 0 ppas (mk_rd idx false ∅ [] ∅).

(** A single sector: the bio is not moved after the copy. *)
Fixpoint read_one (fuel : nat) (pb : pblk) (lba p : Z) (a : rd_acc) : res rd_acc :=
  match fuel with
  | O => Fault F_FUEL
  | S fuel' =>
      if ppa_empty p then Ok (mk_rd (rd_idx a) false {[0]} [] ∅)
      else if nvm_addr_in_cache p then
        r ← pblk_read_from_cache pb lba p;
        match r with
        | None => p' ← aread (pb_trans_map pb) lba; read_one fuel' pb lba p' a
        | Some d => let a := copy_page 0 d a in Ok (mk_rd (rd_idx a) false {[0]} [] (rd_pages a))
        end
      else Ok (mk_rd (rd_idx a) false ∅ [p] ∅)
  end.

Definition pblk_read_rq (fuel : nat) (pb : pblk) (lba idx : Z) : res rd_acc :=
  _ ← BUG_ON (¬ (0 ≤ lba < rl_nr_secs (pb_rl pb)));
  p ← aread (pb_trans_map pb) lba;
  read_one fuel pb lba p (mk_rd idx false ∅ [] ∅).

Context (dev_read : Z → Z) (submit_ok : bool).

(** Pages from [idx] on take the data of the addresses, in order. *)
Fixpoint fill_pages (idx : Z) (ppas : list Z) (m : gmap Z Z) : gmap Z Z :=
  match ppas with [] => m | p :: ppas' => fill_pages (idx + 1) ppas' (<[idx:=dev_read p]> m) end.

(** The holes between the sectors that were found, in order, take the data of the
    addresses. *)
Fixpoint fill_holes (fuel : nat) (bm : gset Z) (nr_secs init_idx hole : Z) (ppas : list Z) (m : gmap Z Z) : res (gmap Z Z) :=
  match fuel with
  | O => Fault F_FUEL
  | S fuel' =>
      p ← deref (head ppas);
      let m := <[init_idx + hole:=dev_read p]> m in
      let hole := find_next_zero_bit bm nr_secs (hole + 1) in
      if decide (hole < nr_secs) then fill_holes fuel' bm nr_secs init_idx hole (tail ppas) m else Ok m
  end.

(** The result: the return value, whether the bio was ended, the pages that were filled. *)
Record read_res : Type := mk_rres { rr_ret : Z; rr_ended : bool; rr_pages : gmap Z Z }.

Definition pblk_fill_partial_read_bio (alloc : bool) (nr_secs init_idx : Z) (a : rd_acc) : res read_res :=
  if negb alloc then Ok (mk_rres NVM_IO_ERR false (rd_pages a))
  else if negb submit_ok then Ok (mk_rres NVM_IO_ERR false (rd_pages a))
  else
    m ← fill_holes (S (Z.to_nat nr_secs)) (rd_bitmap a) nr_secs init_idx (find_next_zero_bit (rd_bitmap a) nr_secs 0)
          (rd_ppas a) (rd_pages a);
    Ok (mk_rres NVM_IO_OK true m).

(** [alloc_rqd], [alloc_list], [alloc_bio]: whether the request, its list of addresses, and
    the bio for a part of it can be had. *)
Definition pblk_submit_read (fuel : nat) (alloc_rqd alloc_list alloc_bio : bool) (pb : pblk) (bi_sector nr_secs idx : Z) :
    res read_res :=
  if decide (PBLK_MAX_REQ_ADDRS < nr_secs) then Ok (mk_rres NVM_IO_ERR false ∅)
  else if negb alloc_rqd then Ok (mk_rres NVM_IO_ERR true ∅)
  else if decide (1 < nr_secs ∧ alloc_list = false) then Ok (mk_rres NVM_IO_ERR false ∅)
  else
    let lba := pblk_get_lba bi_sector in
    a ← (if decide (1 < nr_secs) then pblk_read_ppalist_rq fuel pb lba nr_secs idx else pblk_read_rq fuel pb lba idx);
    if decide (Forall (λ i, i ∈ rd_bitmap a) (seqZ 0 nr_secs)) then Ok (mk_rres NVM_IO_OK true (rd_pages a))
    else if decide (Forall (λ i, i ∉ rd_bitmap a) (seqZ 0 nr_secs)) then
      if negb alloc_bio then Ok (mk_rres NVM_IO_ERR false ∅)
      else if negb submit_ok then Ok (mk_rres NVM_IO_ERR true ∅)
      else Ok (mk_rres NVM_IO_OK true (fill_pages idx (rd_ppas a) ∅))
    else pblk_fill_partial_read_bio alloc_bio nr_secs idx a.

(** What the block layer sees of a read: how often its bio is ended. *)
Definition pblk_make_rq_read (fuel : nat) (alloc_rqd alloc_list alloc_bio : bool) (pb : pblk) (bi_sector nr_secs idx : Z) :
    res (nat * gmap Z Z) :=
  r ← pblk_submit_read fuel alloc_rqd alloc_list alloc_bio pb bi_sector nr_secs idx;
  Ok (((if rr_ended r then 1 else 0) + (if decide (rr_ret r = NVM_IO_ERR ∨ rr_ret r = NVM_IO_DONE) then 1 else 0))%nat,
      rr_pages r).

(** ** Reads of the collector *)

(** A sector of the victim that the map no longer refers to is taken off the list. *)
Fixpoint gc_valid (line : Z) (lbas ppas : list Z) : list Z * list Z :=
  match lbas, ppas with
  | lba :: lbas', p :: ppas' =>
      let r := gc_valid line lbas' ppas' in
      if decide (nvm_addr_in_cache p = true ∨ g_blk p ≠ line ∨ ppa_empty p = true) then (ADDR_EMPTY :: r.1, r.2)
      else (lba :: r.1, p :: r.2)
  | _, _ => ([], [])
  end.

Definition read_ppalist_rq_gc (pb : pblk) (line : Z) (lba_list : list Z) : res (list Z * list Z) :=
  ppas ← pblk_lookup_l2p_rand pb lba_list; Ok (gc_valid line lba_list ppas).

(** The count of sectors to move, and the address: the count is always 0, since the code
    returns [NVM_IO_OK] where it has a sector. *)
Definition read_rq_gc (pb : pblk) (line lba : Z) : res (Z * option Z) :=
  if decide (lba = ADDR_EMPTY) then Ok (0, None)
  else
    _ ← BUG_ON (¬ (0 ≤ lba < rl_nr_secs (pb_rl pb)));
    p ← aread (pb_trans_map pb) lba;
    if decide (nvm_addr_in_cache p = true ∨ g_blk p ≠ line ∨ ppa_empty p = true) then Ok (0, None)
    else Ok (NVM_IO_OK, Some p).

(** The return value, the list with the entries that are gone taken off, the number of
    sectors to move, and their data. *)
Definition pblk_submit_read_gc (alloc_list alloc_bio : bool) (pb : pblk) (line : Z) (lba_list : list Z) :
    res (Z * list Z * Z * list Z) :=
  let nr_secs := Z.of_nat (length lba_list) in
  if decide (1 < nr_secs ∧ alloc_list = false) then Ok (NVM_IO_ERR, lba_list, 0, [])
  else
    r ← (if decide (1 < nr_secs) then
           r ← read_ppalist_rq_gc pb line lba_list; Ok (r.1, Z.of_nat (length r.2), r.2)
         else
           lba ← deref (head lba_list);
           r ← read_rq_gc pb line lba;
           Ok (lba_list, r.1, match r.2 with Some p => [p] | None => [] end));
    match r with
    | (lbas, secs_to_gc, ppas) =>
        if decide (secs_to_gc = 0) then Ok (NVM_IO_OK, lbas, 0, [])
        else if negb alloc_bio then Ok (NVM_IO_ERR, lbas, secs_to_gc, [])
        else if negb submit_ok then Ok (NVM_IO_ERR, lbas, secs_to_gc, [])
        else Ok (NVM_IO_OK, lbas, secs_to_gc, map dev_read ppas)
    end.

End cache.

(** ** What a read returns *)

(** What a logical address holds. *)
Definition content (dev_read : Z → Z) (pb : pblk) (lba : Z) : option Z :=
  p ← pb_trans_map pb !! lba;
  if ppa_empty p then None
  else if nvm_addr_in_cache p then e_data <$> rb_entries (pb_rwb pb) !! nvm_addr_to_cacheline p
  else Some (dev_read p).

(** A line of the buffer that the map names holds that sector. *)
Definition coherent (pb : pblk) : Prop :=
  ∀ lba p, pb_trans_map pb !! lba = Some p → nvm_addr_in_cache p = true →
    ∃ e, rb_entries (pb_rwb pb) !! nvm_addr_to_cacheline p = Some e ∧ w_lba (e_w_ctx e) = lba ∧
      ¬ has (w_flags (e_w_ctx e)) PBLK_WRITABLE_ENTRY.

Lemma read_from_cache_ok pb lba p :
  coherent pb → pb_trans_map pb !! lba = Some p → nvm_addr_in_cache p = true →
  ∃ e, pblk_read_from_cache pb lba p = Ok (Some (e_data e)) ∧ rb_entries (pb_rwb pb) !! nvm_addr_to_cacheline p = Some e.
Proof.
  intros Hco Hm Hc. destruct (Hco lba p Hm Hc) as (e & He & Hl & Hf). exists e. split; [|done].
  unfold pblk_read_from_cache, pblk_rb_copy_to_bio. rewrite (aread_Some _ _ _ He), bind_Ok_l. cbv zeta.
  rewrite decide_False; [done|]. intros [?|?]; done.
Qed.

Section reads.
Context {K0 : Kops} {KL : KopsLaws} (pb : pblk) (blba : Z).

Definition cached (i : Z) : Prop := ∃ p, pb_trans_map pb !! (blba + i) = Some p ∧ nvm_addr_in_cache p = true.
#[local] Instance cached_dec i : Decision (cached i).
Proof.
  unfold cached. destruct (pb_trans_map pb !! (blba + i)) as [p|] eqn:E.
  - destruct (nvm_addr_in_cache p) eqn:Ec; [left; eauto|right]. intros (q & [= ->] & ?). congruence.
  - right. by intros (q & ? & _).
Defined.

(** The sectors below [n] that are on the device, in order. *)
Definition holes (n : Z) : list Z := filter (λ i, ¬ cached i) (seqZ 0 n).

Lemma holes_S i : 0 ≤ i → holes (i + 1) = holes i ++ (if decide (cached i) then [] else [i]).
Proof.
  intros. unfold holes. rewrite seqZ_app by lia. rewrite filter_app. f_equal. rewrite (seqZ_cons (0 + i) 1) by lia.
  rewrite filter_cons. replace (0 + i) with i by lia. repeat case_decide; tauto || done.
Qed.

Context (dev_read : Z → Z).

Definition page_of (i : Z) : option Z := content dev_read pb (blba + i).

(** The state after [i] sectors of a bio that starts at page 0, none of them empty. *)
Record rd_inv (i : Z) (a : rd_acc) : Prop := {
  ri_idx : rd_idx a = if rd_advanced a then i else 0;
  ri_bm : ∀ j, j ∈ rd_bitmap a ↔ 0 ≤ j < i ∧ cached j;
  ri_ppas : Some <$> map dev_read (rd_ppas a) = page_of <$> holes i;
  ri_pages : ∀ j, rd_pages a !! j = if decide (0 ≤ j < i ∧ cached j) then page_of j else None;
}.
Lemma read_sector_inv fuel i p a :
  coherent pb → 0 ≤ i → rd_inv i a → pb_trans_map pb !! (blba + i) = Some p → ppa_empty p = false →
  ∃ a', read_sector (S fuel) pb blba i p a = Ok a' ∧ rd_inv (i + 1) a'.
Proof.
  intros Hco Hi [I1 I2 I3 I4] Hm He. cbn [read_sector]. rewrite He.
  destruct (nvm_addr_in_cache p) eqn:Hc.
  - destruct (read_from_cache_ok pb _ p Hco Hm Hc) as (e & -> & Hent). rewrite bind_Ok_l.
    eexists. split; [done|]. assert (cached i) as Hca by (exists p; done).
    assert (rd_idx (copy_page i (e_data e) a) = i) as Hidx.
    { unfold copy_page. cbn. rewrite I1. destruct (rd_advanced a); case_decide; done. }
    constructor; unfold rd_step; cbn [rd_advanced rd_idx rd_bitmap rd_ppas rd_pages].
    + by rewrite Hidx.
    + intros j. rewrite elem_of_union, elem_of_singleton. change (rd_bitmap (copy_page i (e_data e) a)) with (rd_bitmap a). rewrite I2.
      split; [intros [->|[? ?]]; split; done || lia|]. intros [? ?]. destruct (decide (j = i)); [by left|right]. split; [lia|done].
    + rewrite holes_S, decide_True, app_nil_r by done. exact I3.
    + intros j. assert (rd_pages (copy_page i (e_data e) a) = <[i:=e_data e]> (rd_pages a)) as ->.
      { unfold copy_page in *. cbn in *. by rewrite Hidx. }
      destruct (decide (j = i)) as [->|].
      * rewrite lookup_insert_eq, decide_True by (split; [lia|done]). unfold page_of, content. rewrite Hm. cbn. rewrite He, Hc, Hent. done.
      * rewrite lookup_insert_ne, I4 by done. apply decide_ext. split; intros [? ?]; (split; [lia|done]).
  - eexists. split; [done|].
    assert (¬ cached i) as Hca by (intros (q & Hq & ?); congruence).
    assert (∀ b, rd_advanced b = rd_advanced a → rd_idx b = rd_idx a → rd_idx (rd_step b) = if rd_advanced a then i + 1 else 0) as Hst.
    { intros b Hb Hb2. unfold rd_step. rewrite Hb. rewrite I1 in Hb2. by destruct (rd_advanced a); cbn; rewrite Hb2. }
    assert (∀ b, rd_advanced (rd_step b) = rd_advanced b ∧ rd_bitmap (rd_step b) = rd_bitmap b ∧ rd_ppas (rd_step b) = rd_ppas b ∧
      rd_pages (rd_step b) = rd_pages b) as Hfr by (intros b; unfold rd_step; by destruct (rd_advanced b) eqn:?).
    constructor; rewrite ?(proj1 (Hfr _)), ?(proj1 (proj2 (Hfr _))), ?(proj1 (proj2 (proj2 (Hfr _)))), ?(proj2 (proj2 (proj2 (Hfr _))));
      cbn [rd_advanced rd_idx rd_bitmap rd_ppas rd_pages].
    + by apply Hst.
    + intros j. rewrite I2. split; [intros [? ?]; split; [lia|done]|]. intros [? ?]. destruct (decide (j = i)); [by subst|]. split; [lia|done].
    + rewrite holes_S, decide_False by done. rewrite map_app, !fmap_app, I3. f_equal. cbn. unfold page_of, content. rewrite Hm. cbn. by rewrite He, Hc.
    + intros j. rewrite I4. apply decide_ext. split; intros [? Hcj]; (split; [|done]); [lia|].
      destruct (decide (j = i)) as [->|]; [done|lia].
Qed.

Lemma read_sectors_inv fuel n i a :
  coherent pb → 0 ≤ i → rd_inv i a →
  (∀ j, i ≤ j < i + Z.of_nat n → ∃ p, pb_trans_map pb !! (blba + j) = Some p ∧ ppa_empty p = false) →
  ∃ ppas a', mapM (aread (pb_trans_map pb)) (seqZ (blba + i) (Z.of_nat n)) = Ok ppas ∧
    read_sectors (S fuel) pb blba i ppas a = Ok a' ∧ rd_inv (i + Z.of_nat n) a'.
Proof.
  intros Hco. revert i a. induction n as [|n IH]; intros i a Hi Hinv Hp.
  - exists [], a. split; [done|]. split; [done|]. by rewrite Z.add_0_r.
  - destruct (Hp i ltac:(lia)) as (p & Hm & He).
    destruct (read_sector_inv fuel i p a Hco Hi Hinv Hm He) as (a1 & E1 & Hi1).
    destruct (IH (i + 1) a1) as (ppas & a2 & E2 & E3 & Hi2); [lia|done|intros; apply Hp; lia|].
    exists (p :: ppas), a2. rewrite seqZ_cons by lia. cbn [mapM]. rewrite (aread_Some _ _ _ Hm), bind_Ok_l.
    replace (Z.succ (blba + i)) with (blba + (i + 1)) by lia. replace (Z.pred (Z.of_nat (S n))) with (Z.of_nat n) by lia.
    rewrite E2, bind_Ok_l. split; [done|]. split.
    + cbn [read_sectors]. rewrite E1. exact E3.
    + replace (i + Z.of_nat (S n)) with (i + 1 + Z.of_nat n) by lia. done.
Qed.
Lemma read_one_inv fuel p idx bm ppas pages :
  coherent pb → pb_trans_map pb !! blba = Some p → ppa_empty p = false →
  ∃ a', read_one (S fuel) pb blba p (mk_rd 0 idx bm ppas pages) = Ok a' ∧ (pages = ∅ → rd_inv 1 a').
Proof.
  intros Hco Hm He. cbn [read_one]. rewrite He. assert (blba + 0 = blba) as Hb by lia.
  assert (holes 1 = if decide (cached 0) then [] else [0]) as Hh by (apply (holes_S 0); lia).
  destruct (nvm_addr_in_cache p) eqn:Hc.
  - destruct (read_from_cache_ok pb _ p Hco Hm Hc) as (e & -> & Hent). rewrite bind_Ok_l. eexists. split; [done|]. intros ->.
    assert (cached 0) as Hca by (exists p; by rewrite Hb). rewrite decide_True in Hh by done. constructor; cbn.
    + done.
    + intros j. rewrite elem_of_singleton. split; [intros ->; split; [lia|done]|lia].
    + by rewrite Hh.
    + intros j. destruct (decide (j = 0)) as [->|].
      * rewrite lookup_insert_eq, decide_True by (split; [lia|done]). unfold page_of, content. rewrite Hb, Hm. cbn. by rewrite He, Hc, Hent.
      * rewrite lookup_insert_ne, lookup_empty, decide_False; [done|intros [? _]; lia|done].
  - eexists. split; [done|]. intros ->. assert (¬ cached 0) as Hca by (intros (q & Hq & ?); rewrite Hb in Hq; congruence).
    rewrite decide_False in Hh by done. constructor; cbn.
    + done.
    + intros j. split; [by intros ?%elem_of_empty|]. intros [? ?]. by replace j with 0 in * by lia.
    + rewrite Hh. cbn. unfold page_of, content. rewrite Hb, Hm. cbn. by rewrite He, Hc.
    + intros j. rewrite lookup_empty, decide_False; [done|]. intros [? ?]. by replace j with 0 in * by lia.
Qed.

Definition page_pair (h p : Z) : Prop := page_of h = Some (dev_read p).

Lemma fill_pages_spec n idx ppas m :
  Forall2 page_pair (seqZ idx n) ppas → ∀ j,
  fill_pages dev_read idx ppas m !! j = if decide (idx ≤ j < idx + n) then page_of j else m !! j.
Proof.
  revert idx n m. induction ppas as [|p ppas IH]; intros idx n m Hf j.
  - apply Forall2_nil_inv_r in Hf. apply (f_equal length) in Hf. rewrite length_seqZ in Hf. cbn in Hf. by rewrite decide_False by lia.
  - destruct (decide (0 < n)); [|apply Forall2_length in Hf; rewrite length_seqZ in Hf; cbn in Hf; lia].
    rewrite seqZ_cons in Hf by lia. apply Forall2_cons in Hf as [Hp Hf]. cbn [fill_pages]. rewrite (IH _ (Z.pred n)) by done.
    destruct (decide (j = idx)) as [->|].
    + rewrite decide_False, lookup_insert_eq, decide_True by lia. done.
    + rewrite lookup_insert_ne by done. apply decide_ext. lia.
Qed.

(** The zero bits from [off] on, found one after the other. *)
Lemma zeros_step (bm : gset Z) n off :
  0 ≤ off ≤ n →
  let r := find_next_zero_bit bm n off in
  off ≤ r ≤ n ∧ filter (λ i, i ∉ bm) (seqZ off (n - off)) =
    if decide (r < n) then r :: filter (λ i, i ∉ bm) (seqZ (r + 1) (n - (r + 1))) else [].
Proof using KL.
  intros Ho r. destruct (find_next_zero_bit_law bm n off Ho) as (Hr & Hz & Hb). fold r in Hr, Hz, Hb. split; [done|].
  assert (filter (λ i, i ∉ bm) (seqZ off (r - off)) = []) as Hno.
  { apply elem_of_nil_inv. intros x Hx. apply list_elem_of_filter in Hx as [Hx1 Hx2]. apply elem_of_seqZ in Hx2.
    apply (Hb x); [lia|done]. }
  case_decide as Hrn.
  - replace (n - off) with ((r - off) + (n - r)) by lia. rewrite seqZ_app, filter_app, Hno by lia. cbn [app].
    replace (off + (r - off)) with r by lia. rewrite (seqZ_cons r) by lia. rewrite filter_cons, decide_True by auto.
    f_equal. f_equal. f_equal; lia.
  - by replace n with r at 1 by lia.
Qed.

Lemma fill_holes_spec fuel (bm : gset Z) n hole ppas m :
  0 ≤ hole < n → hole ∉ bm → (length ppas ≤ fuel)%nat →
  Forall2 page_pair (hole :: filter (λ i, i ∉ bm) (seqZ (hole + 1) (n - (hole + 1)))) ppas →
  ∃ m', fill_holes dev_read fuel bm n 0 hole ppas m = Ok m' ∧
    ∀ j, m' !! j = if decide (hole ≤ j < n ∧ j ∉ bm) then page_of j else m !! j.
Proof using KL.
  revert hole ppas m. induction fuel as [|fuel IH]; intros hole ppas m Hh Hnb Hl Hf.
  { apply Forall2_length in Hf. cbn in Hf. lia. }
  apply Forall2_cons_inv_l in Hf as (p & ppas' & Hp & Hf & ->). cbn [fill_holes head deref]. rewrite bind_Ok_l. cbn [tail]. rewrite Z.add_0_l.
  destruct (find_next_zero_bit_law bm n (hole + 1) ltac:(lia)) as (Hr & Hz & Hb).
  destruct (zeros_step bm n (hole + 1) ltac:(lia)) as [_ Hzs]. rewrite Hzs in Hf.
  set (r := find_next_zero_bit bm n (hole + 1)) in *. case_decide as Hrn.
  - destruct (IH r ppas' (<[hole:=dev_read p]> m)) as (m' & E & Hm'); [lia|by apply Hz|cbn in Hl; lia|done|].
    exists m'. split; [exact E|]. intros j. rewrite Hm'. destruct (decide (j = hole)) as [->|].
    + rewrite decide_False, lookup_insert_eq, decide_True by (lia || (split; [lia|done])). done.
    + rewrite lookup_insert_ne by done. apply decide_ext. split; intros [? ?]; (split; [|done]); [lia|].
      destruct (decide (r ≤ j)); [lia|]. destruct (Hb j); [lia|done].
  - apply Forall2_nil_inv_l in Hf. subst. eexists. split; [done|]. intros j. destruct (decide (j = hole)) as [->|].
    + rewrite lookup_insert_eq, decide_True by (split; [lia|done]). done.
    + rewrite lookup_insert_ne, decide_False; [done| |done]. intros [? Hjb]. destruct (Hb j); [lia|done].
Qed.

Lemma holes_pairs n a : rd_inv n a → Forall2 page_pair (holes n) (rd_ppas a).
Proof.
  intros [_ _ Hp _]. revert Hp. generalize (holes n) as hs, (rd_ppas a) as ps. induction hs as [|h hs IH]; intros [|p ps] Hp; try done.
  cbn in Hp. injection Hp as Hp1 Hp2. constructor; [done|]. by apply IH.
Qed.
End reads.

(** The loop over the sectors, for one sector or many. *)
Lemma read_scan {K0 : Kops} {KL : KopsLaws} dev_read pb lba n fuel :
  coherent pb → 1 ≤ n → 0 ≤ lba → (if decide (n = 1) then lba < rl_nr_secs (pb_rl pb) else lba + n < rl_nr_secs (pb_rl pb)) →
  (∀ i, 0 ≤ i < n → ∃ p, pb_trans_map pb !! (lba + i) = Some p ∧ ppa_empty p = false) →
  ∃ a, (if decide (1 < n) then pblk_read_ppalist_rq (S fuel) pb lba n 0 else pblk_read_rq (S fuel) pb lba 0) = Ok a ∧
    rd_inv pb lba dev_read n a.
Proof.
  intros Hco Hn Hl Hsec Hm. destruct (decide (1 < n)).
  - rewrite decide_False in Hsec by lia. unfold pblk_read_ppalist_rq. rewrite BUG_ON_pass, bind_Ok_l by (intros Hx; apply Hx; lia).
    destruct (read_sectors_inv pb lba dev_read fuel (Z.to_nat n) 0 (mk_rd 0 false ∅ [] ∅)) as (ppas & a & E1 & E2 & Hi).
    + done.
    + done.
    + constructor; cbn; [done| |done|].
      * intros j. split; [by intros ?%elem_of_empty|lia].
      * intros j. rewrite lookup_empty, decide_False; [done|lia].
    + intros j Hj. apply Hm. lia.
    + unfold pblk_lookup_l2p_seq. rewrite Z.add_0_r, Z2Nat.id in E1 by lia. rewrite E1, bind_Ok_l. rewrite Z2Nat.id in Hi by lia. eauto.
  - replace n with 1 in * by lia. rewrite decide_True in Hsec by done. destruct (Hm 0 ltac:(lia)) as (p & Hp & He).
    rewrite Z.add_0_r in Hp. unfold pblk_read_rq. rewrite BUG_ON_pass, bind_Ok_l by (intros Hx; apply Hx; lia).
    rewrite (aread_Some _ _ _ Hp), bind_Ok_l.
    destruct (read_one_inv pb lba dev_read fuel p false ∅ [] ∅ Hco Hp He) as (a & E & Hi). eauto.
Qed.


(** ** What goes wrong at the edges *)

(** The assertion also stops a read of several sectors that ends with the last one. *)
Lemma read_last_sectors_bug {K0 : Kops} dev_read pb bi_sector n fuel :
  let lba := pblk_get_lba bi_sector in
  1 < n ≤ PBLK_MAX_REQ_ADDRS → lba + n = rl_nr_secs (pb_rl pb) →
  pblk_submit_read dev_read true fuel true true true pb bi_sector n 0 = Fault F_BUG.
Proof.
  intros lba Hn Hl. unfold pblk_submit_read. fold lba. rewrite decide_False by lia. cbn [negb].
  rewrite decide_False by (intros [_ ?]; done). cbv zeta. rewrite decide_True by lia. unfold pblk_read_ppalist_rq, BUG_ON.
  by rewrite decide_True by lia.
Qed.

(** A buffer with sectors 0 and 2; sector 1 was never written. *)
Definition pb_hole : pblk :=
  pb_set_rwb
    (rb_set_entries {[0 := mk_entry (pblk_cacheline_to_ppa 0) 700 (mk_wctx [] 0 0 ADDR_EMPTY PBLK_WRITTEN_DATA);
                      1 := mk_entry (pblk_cacheline_to_ppa 1) 702 (mk_wctx [] 2 0 ADDR_EMPTY PBLK_WRITTEN_DATA)]} rb_demo)
    (pb_set_trans_map {[0 := pblk_cacheline_to_ppa 0; 1 := ADDR_EMPTY; 2 := pblk_cacheline_to_ppa 1; 3 := ADDR_EMPTY]} pb_demo).

(** After an empty sector the bio stands one page too early: the data of sector 2 goes to
    page 1, and page 2 is not filled at all. *)
Lemma read_hole_misplaced :
  pblk_submit_read (λ _, 0) true 5 true true true pb_hole 0 3 0 = Ok (mk_rres NVM_IO_OK true {[0 := 700; 1 := 702]}).
Proof. vm_compute. reflexivity. Qed.

(** When the device refuses a read of sectors that are all on it, the bio is ended with
    success, and again by the caller. *)
Lemma read_refused_ends_twice :
  pblk_make_rq_read (λ _, 0) false 5 true true true pb_demo 0 2 0 = Ok (2%nat, ∅).
Proof. vm_compute. reflexivity. Qed.

(** The collector finds a single valid sector and reports none. *)
Lemma gc_single_sector_ignored {K0 : Kops} dev_read pb line lba p :
  0 ≤ lba < rl_nr_secs (pb_rl pb) → lba ≠ ADDR_EMPTY → pb_trans_map pb !! lba = Some p → dev_addr p → g_blk p = line →
  pblk_submit_read_gc dev_read true true true pb line [lba] = Ok (NVM_IO_OK, [lba], 0, []).
Proof.
  intros Hl Hne Hp [Hc He] Hg. unfold pblk_submit_read_gc. cbn [length].
  rewrite decide_False by (intros [? _]; lia). rewrite decide_False by lia. cbn [head deref]. rewrite bind_Ok_l.
  unfold read_rq_gc. rewrite decide_False by done. rewrite BUG_ON_pass, bind_Ok_l by (intros Hx; by apply Hx).
  rewrite (aread_Some _ _ _ Hp), bind_Ok_l, Hc, He.
  rewrite decide_False by (intros [?|[?|?]]; done). done.
Qed.

Definition pb_read : pblk :=
  pb_set_rwb (rb_set_entries {[5 := mk_entry (pblk_cacheline_to_ppa 5) 900 (mk_wctx [] 0 0 ADDR_EMPTY PBLK_WRITTEN_DATA)]} rb_demo)
    (pb_set_trans_map (<[0:=pblk_cacheline_to_ppa 5]> (pb_trans_map pb_demo)) pb_demo).

