(* ===== verification/PbLine.v ===== *)
(** * pblk: lines

    The rest of drivers/lightnvm/pblk-core.c: how a line is taken from the free list, erased,
    set up with its metadata, filled page by page and closed, and the semaphores of the
    LUNs.  A command to the device is recorded in [pb_io]; whether the device takes the
    [n]th command and how it ends are parameters, as are the checksums.  A wait for the
    device is over at once; a wait for another thread is [F_FUEL].  Allocations that can
    fail ask [alloc_ok]. *)

From S2P Require Import Prelude Kernel PbAddr PbRl PbState PbMap.

#[local] Open Scope Z_scope.

(** ** Bits and records *)

Definition bits (off len : Z) : gset Z := list_to_set (seqZ off len).

Definition bitmap_set (nbits off len : Z) (bm : gset Z) : res (gset Z) :=
  if decide (0 ≤ off ∧ off + len ≤ nbits) then Ok (bits off len ∪ bm) else Fault F_OOB.

(** [bitmap_shift_left] within [nbits]. *)
Definition bitmap_shift_left (nbits n : Z) (bm : gset Z) : gset Z :=
  filter (λ i, i < nbits) (set_map (λ i, i + n) bm : gset Z).

Definition mod_line (id : Z) (f : pblk_line → pblk_line) (pb : pblk) : res pblk :=
  l ← aread (pb_lines pb) id; Ok (upd_line id (f l) pb).

Definition add_io (i : io) (pb : pblk) : pblk := pb_set_io (pb_io pb ++ [i]) pb.

Section line.
Context `{Kops} (c : pblk_cfg) (alloc_ok : nat → bool).
(** The device: what submitting the [n]th command returns, and the error it ends with. *)
Context (dev_submit dev_error : nat → Z).
Context (crc_smeta : line_smeta → Z) (crc_emeta : line_emeta → Z).

Definition ask (pb : pblk) : bool * pblk := (alloc_ok (pb_allocs pb), pb_set_allocs (S (pb_allocs pb)) pb).

(** A command: 0 and its error, or what the submission returned. *)
Definition pblk_submit_io (i : io) (pb : pblk) : Z * Z * pblk :=
  (dev_submit (length (pb_io pb)), dev_error (length (pb_io pb)), add_io i pb).

Definition blk_bits : Z := 8 * lm_blk_bitmap_len (cf_lm c).

(** ** Work items *)

Definition pblk_line_run_ws (w : work) (pb : pblk) : pblk :=
  let '(ok, pb) := ask pb in if ok : bool then pb_set_work (pb_work pb ++ [w]) pb else pb.

(** ** Erasing *)

Definition pblk_mark_bb (ppa : Z) (pb : pblk) : res pblk :=
  let id := pblk_ppa_to_line ppa in
  l ← aread (pb_lines pb) id;
  r ← test_and_set_bit blk_bits (pblk_ppa_to_pos (cf_geo c) ppa) (ln_blk_bitmap l);
  Ok (pblk_line_run_ws (W_mark_bb ppa) (upd_line id (ln_set_blk_bitmap (snd r) l) pb)).

Definition __pblk_end_io_erase (ppa error : Z) (pb : pblk) : res pblk :=
  pb ← mod_line (pblk_ppa_to_line ppa) (λ l, ln_set_left_seblks (s32 (ln_left_seblks l - 1)) l) pb;
  if decide (error = 0) then Ok pb
  else let '(ok, pb) := ask pb in if ok : bool then pblk_mark_bb ppa pb else Ok pb.

Definition pblk_blk_erase_sync (ppa : Z) (pb : pblk) : res pblk :=
  let '(ret, err, pb) := pblk_submit_io (IO_erase ppa) pb in
  __pblk_end_io_erase ppa (if decide (ret ≠ 0) then ret else err) pb.

(** An asynchronous erase ends later, with [__pblk_end_io_erase]; when the request cannot
    be had the caller learns of it. *)
Definition pblk_blk_erase_async (ppa : Z) (pb : pblk) : Z * pblk :=
  let '(ok, pb) := ask pb in
  if ok : bool then (0, snd (pblk_submit_io (IO_erase ppa) pb)) else (- ENOMEM, pb).

(** One good block after the other. *)
Fixpoint erase_from (fuel : nat) (id bit : Z) (pb : pblk) : res pblk :=
  match fuel with
  | O => Fault F_FUEL
  | S fuel' =>
      l ← aread (pb_lines pb) id;
      let bit := find_next_zero_bit (ln_erase_bitmap l) (lm_blk_per_line (cf_lm c)) bit in
      if decide (bit < lm_blk_per_line (cf_lm c)) then
        b ← aread (cf_luns c) bit;
        let ppa := set_g_blk id b in
        r ← test_and_set_bit blk_bits bit (ln_erase_bitmap l);
        let l := ln_set_erase_bitmap (snd r) (ln_set_left_eblks (s32 (ln_left_eblks l - 1)) l) in
        pb ← pblk_blk_erase_sync ppa (upd_line id l pb);
        erase_from fuel' id (bit + 1) pb
      else Ok pb
  end.

Definition pblk_line_erase (id : Z) (pb : pblk) : res pblk :=
  erase_from (S (Z.to_nat (lm_blk_per_line (cf_lm c)))) id 0 pb.

(** ** Sectors *)

Definition pblk_calc_secs (secs_avail secs_to_flush : Z) : Z :=
  let max := cf_max_write_pgs c in
  let min := cf_min_write_pgs c in
  if decide (max ≤ secs_avail) then max
  else if decide (min ≤ secs_avail) then s32 (min * (secs_avail / min))
  else if decide (secs_to_flush ≠ 0) then min
  else 0.

Fixpoint set_secs (n : nat) (l : pblk_line) : res pblk_line :=
  match n with
  | O => Ok l
  | S n' =>
      m ← deref (ln_map_bitmap l);
      r ← test_and_set_bit (sec_bits c) (ln_cur_sec l) m;
      set_secs n' (ln_set_cur_sec (u32 (ln_cur_sec l + 1)) (ln_set_map_bitmap (Some (snd r)) l))
  end.

Definition __pblk_alloc_page (nr_secs : Z) (l : pblk_line) : res (Z * pblk_line) :=
  _ ← BUG_ON (lm_sec_per_line (cf_lm c) < u32 (ln_cur_sec l + nr_secs));
  m ← deref (ln_map_bitmap l);
  let addr := find_next_zero_bit m (lm_sec_per_line (cf_lm c)) (ln_cur_sec l) in
  l ← set_secs (Z.to_nat nr_secs) (ln_set_cur_sec (u32 addr) l);
  Ok (addr, l).

Definition pblk_alloc_page (id nr_secs : Z) (pb : pblk) : res (Z * pblk) :=
  l ← aread (pb_lines pb) id;
  r ← __pblk_alloc_page nr_secs l;
  Ok (fst r, upd_line id (ln_set_left_msecs (s32 (ln_left_msecs (snd r) - nr_secs)) (snd r)) pb).

(** ** Metadata *)

Definition read_emeta (p : emeta_ptr) (m : pblk_line_mgmt) : res line_emeta :=
  match p with EM_data i => aread (mg_eline_meta m) i | EM_gc => Ok (mg_gc_meta m) end.

Definition write_emeta (p : emeta_ptr) (e : line_emeta) (m : pblk_line_mgmt) : pblk_line_mgmt :=
  match p with EM_data i => mg_set_eline_meta (<[i:=e]> (mg_eline_meta m)) m | EM_gc => mg_set_gc_meta e m end.

Definition em_set_lbas (v : gmap Z Z) (e : line_emeta) : line_emeta :=
  mk_emeta (em_crc e) (em_id e) (em_line_type e) (em_seq_nr e) (em_slun e) (em_nr_luns e)
    (em_nr_lbas e) (em_n_id e) (em_n_slun e) (em_emeta_len e) v.

Definition em_set_next (id slun : Z) (e : line_emeta) : line_emeta :=
  mk_emeta (em_crc e) (em_id e) (em_line_type e) (em_seq_nr e) (em_slun e) (em_nr_luns e)
    (em_nr_lbas e) id slun (em_emeta_len e) (em_lbas e).

Definition em_set_crc (v : Z) (e : line_emeta) : line_emeta :=
  mk_emeta v (em_id e) (em_line_type e) (em_seq_nr e) (em_slun e) (em_nr_luns e)
    (em_nr_lbas e) (em_n_id e) (em_n_slun e) (em_emeta_len e) (em_lbas e).

(** [lba_list[paddr] = lba] in the end metadata of a line. *)
Definition set_lba (id paddr lba : Z) (pb : pblk) : res pblk :=
  l ← aread (pb_lines pb) id;
  p ← deref (ln_emeta l);
  e ← read_emeta p (pb_mg pb);
  if decide (0 ≤ paddr < lm_sec_per_line (cf_lm c)) then
    Ok (pb_set_mg (write_emeta p (em_set_lbas (<[paddr:=lba]> (em_lbas e)) e) (pb_mg pb)) pb)
  else Fault F_OOB.

(** Start metadata: the return value; the sectors are marked as not being data. *)
Definition pblk_line_submit_smeta_write (id paddr : Z) (pb : pblk) : res (Z * pblk) :=
  let '(ok1, pb) := ask pb in
  if negb ok1 then Ok (- ENOMEM, pb)
  else
    let '(ok2, pb) := ask pb in
    if negb ok2 then Ok (- ENOMEM, pb)
    else
      let secs := seqZ paddr (lm_smeta_sec (cf_lm c)) in
      pb ← mfor secs (λ a, set_lba id a ADDR_EMPTY) pb;
      l ← aread (pb_lines pb) id;
      i ← deref (ln_smeta l);
      m ← aread (mg_sline_meta (pb_mg pb)) i;
      let '(ret, _, pb) := pblk_submit_io (IO_smeta id (map (λ a, addr_to_gen_ppa (cf_ppaf c) a id) secs) m) pb in
      Ok (ret, pb).

(** Sectors for a request of end metadata, a page at a time. *)
Fixpoint emeta_write_secs (n : nat) (id : Z) (l : pblk_line) : res (list Z * pblk_line) :=
  match n with
  | O => Ok ([], l)
  | S n' =>
      r ← __pblk_alloc_page (cf_min_write_pgs c) l;
      let ppas := map (λ a, addr_to_gen_ppa (cf_ppaf c) a id) (seqZ (fst r) (cf_min_write_pgs c)) in
      r2 ← emeta_write_secs n' id (snd r);
      Ok (ppas ++ fst r2, snd r2)
  end.

(** How many pages make up [rq_ppas] sectors. *)
Definition nr_pages (rq_ppas : Z) : nat := Z.to_nat ((rq_ppas + cf_min_write_pgs c - 1) / cf_min_write_pgs c).

Fixpoint emeta_write (fuel : nat) (id left_ppas : Z) (pb : pblk) : res (Z * pblk) :=
  match fuel with
  | O => Fault F_FUEL
  | S fuel' =>
      let rq_ppas := pblk_calc_secs left_ppas 0 in
      let '(ok, pb) := ask pb in
      if negb ok then Ok (- ENOMEM, pb)
      else
        l ← aread (pb_lines pb) id;
        r ← emeta_write_secs (nr_pages rq_ppas) id l;
        p ← deref (ln_emeta l);
        e ← read_emeta p (pb_mg pb);
        let '(ret, _, pb) := pblk_submit_io (IO_emeta id (fst r) e) (upd_line id (snd r) pb) in
        if decide (ret ≠ 0) then Ok (ret, pb)
        else
          let left := s32 (left_ppas - rq_ppas) in
          if decide (left ≠ 0) then emeta_write fuel' id left pb else Ok (0, pb)
  end.

Definition pblk_line_submit_emeta_write (id : Z) (pb : pblk) : res (Z * pblk) :=
  let '(ok, pb) := ask pb in
  if negb ok then Ok (- ENOMEM, pb)
  else emeta_write (S (Z.to_nat (lm_emeta_sec (cf_lm c)))) id (lm_emeta_sec (cf_lm c)) pb.

(** ** Setting a line up *)

(** The sectors of the bad blocks of a line are no room for data. *)
Fixpoint map_bad_blocks (fuel : nat) (bit nr_bb : Z) (m : pblk_line_mgmt) (l : pblk_line) : res (Z * pblk_line) :=
  match fuel with
  | O => Fault F_FUEL
  | S fuel' =>
      let lm := cf_lm c in
      let bit := find_next_bit (ln_blk_bitmap l) (lm_blk_per_line lm) bit in
      if decide (bit < lm_blk_per_line lm) then
        mb ← deref (ln_map_bitmap l);
        let aux := bitmap_shift_left (lm_sec_per_line lm) (bit * sec_per_pl (cf_geo c)) (mg_bb_template m) in
        let l := ln_set_sec_in_line (u32 (ln_sec_in_line l - sec_per_blk (cf_geo c))) (ln_set_map_bitmap (Some (mb ∪ aux)) l) in
        map_bad_blocks fuel' (bit + 1) (if decide (lm_emeta_bb lm ≤ bit) then nr_bb + 1 else nr_bb) m l
      else Ok (nr_bb, l)
  end.

(** The start metadata goes to the first good page; after an error to the next one. *)
Fixpoint write_smeta (fuel : nat) (id off : Z) (pb : pblk) : res pblk :=
  match fuel with
  | O => Fault F_FUEL
  | S fuel' =>
      let lm := cf_lm c in
      l ← aread (pb_lines pb) id;
      m ← deref (ln_map_bitmap l);
      m ← bitmap_set (sec_bits c) off (lm_smeta_sec lm) m;
      let l := ln_set_cur_sec (u32 (off + lm_smeta_sec lm)) (ln_set_smeta_ssec off
                 (ln_set_sec_in_line (u32 (ln_sec_in_line l - lm_smeta_sec lm)) (ln_set_map_bitmap (Some m) l))) in
      let inv := filter (λ i, i < lm_sec_per_line lm) m in
      r ← pblk_line_submit_smeta_write id off (upd_line id (ln_set_invalid_bitmap (Some inv) l) pb);
      if decide (fst r ≠ 0) then write_smeta fuel' id (off + sec_per_pl (cf_geo c)) (snd r) else Ok (snd r)
  end.

(** Room for the end metadata when some of the last blocks are bad. *)
Fixpoint emeta_room (fuel : nat) (nr_bb off : Z) (inv : gset Z) : res (Z * gset Z) :=
  match fuel with
  | O => Fault F_FUEL
  | S fuel' =>
      if decide (nr_bb = 0) then Ok (off, inv)
      else
        let off := off - sec_per_pl (cf_geo c) in
        if decide (off < 0) then Fault F_OOB
        else if decide (off ∈ inv) then emeta_room fuel' nr_bb off inv
        else inv ← bitmap_set (sec_bits c) off (sec_per_pl (cf_geo c)) inv; emeta_room fuel' (nr_bb - 1) off inv
  end.

(** Both metadata of the new line; a line before it is told of it. *)
Definition setup_metadata (id line_type : Z) (cur : option Z) (l : pblk_line) (pb : pblk) : res pblk :=
  let lm := cf_lm c in
  let geo := cf_geo c in
  i ← deref (ln_smeta l);
  s ← aread (mg_sline_meta (pb_mg pb)) i;
  let luns := bits 0 (lm_lun_bitmap_len lm) ∪ sm_lun_bitmap s in
  let slun := find_next_bit luns (lm_lun_bitmap_len lm) 0 in
  r ← match cur with
      | Some cid =>
          lc ← aread (pb_lines pb) cid;
          sc ← aread (mg_sline_meta (pb_mg pb)) (ln_meta_line lc);
          let luns' := filter (λ i, i < 8 * lm_lun_bitmap_len lm) (sm_lun_bitmap sc) ∪ filter (λ i, 8 * lm_lun_bitmap_len lm ≤ i) luns in
          p ← deref (ln_emeta lc);
          e ← read_emeta p (pb_mg pb);
          Ok (luns', cid, find_next_bit (sm_lun_bitmap sc) (lm_lun_bitmap_len lm) 0,
              write_emeta p (em_set_next id (find_next_bit luns' (lm_lun_bitmap_len lm) 0) e) (pb_mg pb))
      | None => Ok (luns, PBLK_LINE_EMPTY, PBLK_LINE_EMPTY, pb_mg pb)
      end;
  match r with
  | (luns, p_id, p_slun, m) =>
      let s := mk_smeta 0 id line_type (ln_seq_nr l) slun (nr_luns geo) p_id p_slun (lm_smeta_len lm) luns in
      let s := mk_smeta (crc_smeta s) id line_type (ln_seq_nr l) slun (nr_luns geo) p_id p_slun (lm_smeta_len lm) luns in
      p ← deref (ln_emeta l);
      e ← read_emeta p m;
      let e := mk_emeta 0 id line_type (ln_seq_nr l) slun (nr_luns geo)
                 (u32 (lm_sec_per_line lm - lm_emeta_sec lm - lm_smeta_sec lm)) PBLK_LINE_EMPTY PBLK_LINE_EMPTY (lm_emeta_len lm) (em_lbas e) in
      Ok (pb_set_mg (write_emeta p e (mg_set_sline_meta (<[i:=s]> (mg_sline_meta m)) m)) pb)
  end.

(** [false] when the line has no good block left. *)
Definition pblk_line_setup (fuel : nat) (id : Z) (cur : option Z) (line_type : Z) (pb : pblk) : res (bool * pblk) :=
  let lm := cf_lm c in
  let geo := cf_geo c in
  l ← aread (pb_lines pb) id;
  let bit := find_next_zero_bit (ln_blk_bitmap l) (lm_blk_per_line lm) 0 in
  if decide (lm_blk_per_line lm ≤ bit) then
    m ← list_add_tail id L_bad (pb_mg pb);
    Ok (false, pb_set_mg m (upd_line id (ln_set_state PBLK_LINESTATE_BAD l) pb))
  else
    let l := ln_set_sec_in_line (lm_sec_per_line lm) (ln_set_type line_type l) in
    pb ← setup_metadata id line_type cur l (upd_line id l pb);
    r ← map_bad_blocks (S (Z.to_nat (lm_blk_per_line lm))) 0 0 (pb_mg pb) l;
    pb ← write_smeta fuel id (bit * sec_per_pl geo) (upd_line id (snd r) pb);
    l ← aread (pb_lines pb) id;
    inv ← deref (ln_invalid_bitmap l);
    let off := lm_sec_per_line lm - lm_emeta_sec lm in
    inv ← bitmap_set (sec_bits c) off (lm_emeta_sec lm) inv;
    r ← emeta_room (S (Z.to_nat (lm_sec_per_line lm))) (fst r) off inv;
    let secs := u32 (ln_sec_in_line l - lm_emeta_sec lm) in
    let l := ln_set_emeta_ssec (fst r) (ln_set_sec_in_line secs (ln_set_invalid_bitmap (Some (snd r)) l)) in
    let l := ln_set_vsc secs (ln_set_left_ssecs (s32 secs) (ln_set_left_msecs (s32 secs) l)) in
    Ok (true, upd_line id l pb).

(** ** Taking a line *)

(** The first free line with a good block is opened.  When the list runs out after bad
    lines, the last of them is returned. *)
Fixpoint line_get (fuel : nat) (last : option Z) (pb : pblk) : res (option Z * pblk) :=
  match fuel with
  | O => Fault F_FUEL
  | S fuel' =>
      match mg_lists (pb_mg pb) L_free with
      | [] => Ok (last, pb)
      | id :: _ =>
          m ← list_del id (pb_mg pb);
          let pb := pb_set_mg m pb in
          l ← aread (pb_lines pb) id;
          let l := ln_set_left_seblks (ln_blk_in_line l) (ln_set_left_eblks (ln_blk_in_line l)
                     (ln_set_erase_bitmap (ln_blk_bitmap l) l)) in
          let bit := find_next_zero_bit (ln_blk_bitmap l) (lm_blk_per_line (cf_lm c)) 0 in
          if decide (lm_blk_per_line (cf_lm c) ≤ bit) then
            m ← list_add_tail id L_bad (pb_mg pb);
            line_get fuel' (Some id) (pb_set_mg m (upd_line id (ln_set_state PBLK_LINESTATE_BAD l) pb))
          else
            _ ← BUG_ON (ln_state l ≠ PBLK_LINESTATE_FREE);
            Ok (Some id, upd_line id (ln_set_ref 1 (ln_set_state PBLK_LINESTATE_OPEN l)) pb)
      end
  end.

Definition pblk_line_get (pb : pblk) : res (option Z * pblk) :=
  line_get (S (length (mg_lists (pb_mg pb) L_free))) None pb.

(** [b] is zeroed, [p] is not: its contents do not matter before the line is set up. *)
Definition __pblk_line_get_next_data (pb : pblk) : res (option Z * pblk) :=
  r ← pblk_line_get pb;
  match r with
  | (None, pb) => Ok (None, pb_set_mg (mg_set_data_next None (pb_mg pb)) pb)
  | (Some id, pb) =>
      pb ← mod_line id (λ l, ln_set_seq_nr (u32 (mg_d_seq_nr (pb_mg pb)))
                               (ln_set_invalid_bitmap (Some ∅) (ln_set_map_bitmap (Some ∅) l))) pb;
      let m := mg_set_nr_free_lines (s32 (mg_nr_free_lines (pb_mg pb) - 1))
                 (mg_set_data_next (Some id) (mg_set_d_seq_nr (mg_d_seq_nr (pb_mg pb) + 1) (pb_mg pb))) in
      Ok (Some id, pb_set_mg m pb)
  end.

Definition pblk_line_get_next_data (pb : pblk) : res (option Z * pblk) :=
  let '(ok1, pb) := ask pb in
  if negb ok1 then Ok (None, pb)
  else let '(ok2, pb) := ask pb in if negb ok2 then Ok (None, pb) else __pblk_line_get_next_data pb.

Definition rl_dec (id : Z) (pb : pblk) : res pblk :=
  l ← aread (pb_lines pb) id;
  r ← pblk_rl_free_lines_dec (ln_blk_in_line l) (pb_rl pb) (pb_gc pb);
  Ok (pb_set_gc (snd r) (pb_set_rl (fst r) pb)).

(** The metadata buffers and bitmaps of a line that turned out bad go to another one. *)
Definition hand_over (old new : Z) (pb : pblk) : res pblk :=
  lo ← aread (pb_lines pb) old;
  pb ← mod_line new (λ l, ln_set_invalid_bitmap (ln_invalid_bitmap lo) (ln_set_map_bitmap (ln_map_bitmap lo)
         (ln_set_meta_line (ln_meta_line lo) (ln_set_emeta (ln_emeta lo) (ln_set_smeta (ln_smeta lo) l))))) pb;
  mod_line old (λ l, ln_set_emeta None (ln_set_smeta None (ln_set_invalid_bitmap None (ln_set_map_bitmap None l)))) pb.

(** [erase_first]: the first line erases before it counts the blocks, a replacement after. *)
Fixpoint setup_retry (fuel : nat) (erase_first : bool) (id : Z) (cur : option Z) (pb : pblk) : res (Z * pblk) :=
  match fuel with
  | O => Fault F_FUEL
  | S fuel' =>
      r ← pblk_line_setup fuel id cur PBLK_LINETYPE_DATA pb;
      match r with
      | (true, pb) => Ok (id, pb)
      | (false, pb) =>
          r ← pblk_line_get pb;
          new ← deref (fst r);
          pb ← hand_over id new (snd r);
          pb ← (if erase_first then pb ← pblk_line_erase new pb; rl_dec new pb
                else pb ← rl_dec new pb; pblk_line_erase new pb);
          setup_retry fuel' erase_first new cur (pb_set_mg (mg_set_data_line (Some new) (pb_mg pb)) pb)
      end
  end.

(** One of the two metadata buffers. *)
Definition meta_take (id : Z) (pb : pblk) : res (Z * pblk) :=
  let mi := find_next_zero_bit (mg_meta_bitmap (pb_mg pb)) PBLK_DATA_LINES 0 in
  pb ← mod_line id (λ l, ln_set_meta_line mi (ln_set_emeta (Some (EM_data mi)) (ln_set_smeta (Some mi) l))) pb;
  Ok (mi, pb_set_mg (mg_set_meta_bitmap ({[mi]} ∪ mg_meta_bitmap (pb_mg pb)) (pb_mg pb)) pb).

Definition pblk_line_get_first_data (fuel : nat) (pb : pblk) : res (option Z * pblk) :=
  let '(ok1, pb) := ask pb in
  if negb ok1 then Ok (None, pb)
  else
    let '(ok2, pb) := ask pb in
    if negb ok2 then Ok (None, pb)
    else
      r ← pblk_line_get pb;
      match r with
      | (None, pb) => Ok (None, pb)
      | (Some id, pb) =>
          pb ← mod_line id (λ l, ln_set_seq_nr (u32 (mg_d_seq_nr (pb_mg pb)))
                                   (ln_set_invalid_bitmap (Some ∅) (ln_set_map_bitmap (Some ∅) l))) pb;
          let m := mg_set_nr_free_lines (s32 (mg_nr_free_lines (pb_mg pb) - 1))
                     (mg_set_data_line (Some id) (mg_set_d_seq_nr (mg_d_seq_nr (pb_mg pb) + 1) (pb_mg pb))) in
          r ← meta_take id (pb_set_mg m pb);
          pb ← pblk_line_erase id (snd r);
          pb ← rl_dec id pb;
          r ← setup_retry fuel true id None pb;
          Ok (Some (fst r), snd r)
      end.

(** The next line becomes the current one.  Its erases must have ended, and one of the two
    metadata buffers must be free: both are waits for other threads. *)
Definition pblk_line_replace_data (fuel : nat) (pb : pblk) : res (option Z * pblk) :=
  let '(ok1, pb) := ask pb in
  if negb ok1 then Ok (None, pb)
  else
    let '(ok2, pb) := ask pb in
    if negb ok2 then Ok (None, pb)
    else
      match mg_data_next (pb_mg pb) with
      | None => Ok (None, pb)
      | Some new =>
          cur ← deref (mg_data_line (pb_mg pb));
          let pb := pb_set_mg (mg_set_data_line (Some new) (pb_mg pb)) pb in
          l ← aread (pb_lines pb) new;
          pb ← (if decide (ln_left_seblks l ≠ 0 ∧ ln_left_eblks l ≠ 0) then pblk_line_erase new pb else Ok pb);
          l ← aread (pb_lines pb) new;
          if decide (ln_left_seblks l ≠ 0) then Fault F_FUEL
          else
            r ← __pblk_line_get_next_data pb;
            let pb := snd r in
            let pb := pb_set_mg (mg_set_data_next (fst r) (pb_mg pb)) pb in
            if decide (find_next_zero_bit (mg_meta_bitmap (pb_mg pb)) PBLK_DATA_LINES 0 = PBLK_DATA_LINES) then Fault F_FUEL
            else
              r ← meta_take new pb;
              let pb := snd r in
              let m := mg_set_eline_meta (<[fst r:=emeta0]> (mg_eline_meta (pb_mg pb)))
                         (mg_set_sline_meta (<[fst r:=smeta0]> (mg_sline_meta (pb_mg pb))) (pb_mg pb)) in
              pb ← rl_dec new (pb_set_mg m pb);
              r ← setup_retry fuel false new (Some cur) pb;
              Ok (Some (fst r), snd r)
      end.

Definition pblk_line_get_data (pb : pblk) : option Z := mg_data_line (pb_mg pb).
Definition pblk_line_get_data_next (pb : pblk) : option Z := mg_data_next (pb_mg pb).
Definition pblk_line_is_full (l : pblk_line) : bool := bool_decide (ln_left_msecs l = 0).

(** ** Closing a line *)

Definition pblk_line_close (id : Z) (pb : pblk) : res pblk :=
  l ← aread (pb_lines pb) id;
  p ← deref (ln_emeta l);
  e ← read_emeta p (pb_mg pb);
  let pb := pb_set_mg (write_emeta p (em_set_crc (crc_emeta e) e) (pb_mg pb)) pb in
  r ← pblk_line_submit_emeta_write id pb;
  let pb := snd r in
  let pb := pb_set_mg (mg_set_meta_bitmap (mg_meta_bitmap (pb_mg pb) ∖ {[ln_meta_line l]}) (pb_mg pb)) pb in
  l ← aread (pb_lines pb) id;
  let '(mv, l) := pblk_line_gc_list c (ln_set_state PBLK_LINESTATE_CLOSED l) in
  match mv with
  | None => Fault F_BUG
  | Some L =>
      m ← list_add_tail id L (pb_mg pb);
      Ok (pb_set_mg m (upd_line id (ln_set_emeta None (ln_set_smeta None (ln_set_map_bitmap None l))) pb))
  end.

(** ** LUNs *)

(** The LUN of the first address; a LUN the request already has is not taken again, and a
    wait of five seconds for it just ends. *)
Definition pblk_down_rq (ppa_list : list Z) (lun_bitmap : gset Z) (pb : pblk) : res (gset Z * pblk) :=
  p ← deref (head ppa_list);
  let lun := g_ch p * luns_per_chnl (cf_geo c) + g_lun p in
  r ← test_and_set_bit (8 * lm_lun_bitmap_len (cf_lm c)) lun lun_bitmap;
  if decide (fst r = true) then Ok (lun_bitmap, pb)
  else
    s ← aread (pb_sems pb) lun;
    Ok (snd r, if decide (0 < s) then pb_set_sems (<[lun:=s - 1]> (pb_sems pb)) pb else pb).

Definition pblk_up_rq (lun_bitmap : gset Z) (pb : pblk) : res pblk :=
  mfor (filter (λ i, i ∈ lun_bitmap) (seqZ 0 (nr_luns (cf_geo c))))
    (λ i pb, s ← aread (pb_sems pb) i; Ok (pb_set_sems (<[i:=s + 1]> (pb_sems pb)) pb)) pb.

End line.
