(* ===== verification/PbWrite.v ===== *)
(** * pblk: the write thread

    drivers/lightnvm/pblk-map.c, pblk-write.c and pblk-recovery.c: sectors of the open line
    for the entries of a request and its padding, the request itself, and its completion.
    Requests may complete in any order; those that come too early wait in [pb_compl_list],
    and [sync] only moves over entries whose request has completed.  A request carries the
    two copies of its context apart: the one of the driver is the request. *)

From S2P Require Import Prelude Kernel PbAddr PbRl PbState PbMap PbRb PbRing PbLine.

#[local] Open Scope Z_scope.

Section write.
Context `{Kops} (c : pblk_cfg) (alloc_ok : nat → bool) (dev_submit dev_error : nat → Z).
Context (crc_smeta : line_smeta → Z) (fuel : nat).

(** ** pblk-map.c *)

Definition sync_sector (id : Z) (pb : pblk) : res pblk :=
  l ← aread (pb_lines pb) id;
  let left := s32 (ln_left_ssecs l - 1) in
  let pb := upd_line id (ln_set_left_ssecs left l) pb in
  Ok (if decide (left = 0) then pblk_line_run_ws alloc_ok (W_line_close id) pb else pb).

Definition pblk_page_pad_invalidate (id paddr : Z) (pb : pblk) : res pblk :=
  l ← aread (pb_lines pb) id;
  bm ← deref (ln_invalid_bitmap l);
  r ← test_and_set_bit (sec_bits c) paddr bm;
  sync_sector id (upd_line id (ln_set_vsc (u32 (ln_vsc l - 1)) (ln_set_invalid_bitmap (Some (snd r)) l)) pb).

(** The [i]th sector of a page: the device address, and the logical address stored with
    it. *)
Definition map_sector (id sentry valid_secs i paddr : Z) (pb : pblk) : res (Z * Z * pblk) :=
  let ppa := addr_to_gen_ppa (cf_ppaf c) paddr id in
  pb ← kref_get id pb;
  if decide (i < valid_secs) then
    let rb := pb_rwb pb in
    let pos := rb_wrap rb (sentry + i) in
    w ← pblk_rb_w_ctx rb (sentry + i);
    let w := w_set_ppa ppa (w_set_paddr paddr w) in
    rb ← set_w_ctx pos w rb;
    pb ← set_lba c id paddr (w_lba w) (pb_set_rwb rb pb);
    Ok (ppa, w_lba w, pb)
  else
    pb ← set_lba c id paddr ADDR_EMPTY pb;
    pb ← pblk_page_pad_invalidate id paddr pb;
    Ok (ppa, ADDR_EMPTY, pb).

Fixpoint map_sectors (n : nat) (id sentry valid_secs i paddr : Z) (pb : pblk) : res (list Z * list Z * pblk) :=
  match n with
  | O => Ok ([], [], pb)
  | S n' =>
      r ← map_sector id sentry valid_secs i paddr pb;
      match r with
      | (ppa, lba, pb) =>
          r ← map_sectors n' id sentry valid_secs (i + 1) (paddr + 1) pb;
          match r with (ppas, lbas, pb) => Ok (ppa :: ppas, lba :: lbas, pb) end
      end
  end.

(** A page of [min_write_pgs] sectors of the line. *)
Definition map_page (id sentry valid_secs : Z) (pb : pblk) : res (list Z * list Z * pblk) :=
  r ← pblk_alloc_page c id (cf_min_write_pgs c) pb;
  map_sectors (Z.to_nat (cf_min_write_pgs c)) id sentry valid_secs 0 (fst r) (snd r).

(** A full line is replaced.  The addresses and logical
    addresses, and the LUNs the request has. *)
Definition pblk_map_page_data (sentry : Z) (lun_bitmap : gset Z) (valid_secs : Z) (pb : pblk) :
    res (list Z * list Z * gset Z * pblk) :=
  id ← deref (pblk_line_get_data pb);
  r ← map_page id sentry valid_secs pb;
  match r with
  | (ppas, lbas, pb) =>
      l ← aread (pb_lines pb) id;
      r ← (if pblk_line_is_full l then pblk_line_replace_data c alloc_ok dev_submit dev_error crc_smeta fuel pb
           else Ok (Some id, pb));
      match r with
      | (None, pb) => Ok (ppas, lbas, lun_bitmap, pb)
      | (Some _, pb) => r ← pblk_down_rq c ppas lun_bitmap pb; Ok (ppas, lbas, fst r, snd r)
      end
  end.

Definition map_secs_of (i valid_secs : Z) : Z :=
  let min := cf_min_write_pgs c in if decide (valid_secs < i + min) then valid_secs mod min else min.

(** Pages from sector [off] of the request on. *)
Fixpoint map_rq (n : nat) (i nr_ppas sentry : Z) (lun_bitmap : gset Z) (valid_secs : Z) (pb : pblk) :
    res (list Z * list Z * gset Z * pblk) :=
  match n with
  | O => Ok ([], [], lun_bitmap, pb)
  | S n' =>
      if decide (nr_ppas ≤ i) then Ok ([], [], lun_bitmap, pb)
      else
        r ← pblk_map_page_data (sentry + i) lun_bitmap (map_secs_of i valid_secs) pb;
        match r with
        | (ppas, lbas, luns, pb) =>
            r ← map_rq n' (i + cf_min_write_pgs c) nr_ppas sentry luns valid_secs pb;
            match r with (ppas', lbas', luns, pb) => Ok (ppas ++ ppas', lbas ++ lbas', luns, pb) end
        end
  end.

Definition pblk_map_rq (nr_ppas sentry : Z) (lun_bitmap : gset Z) (valid_secs off : Z) (pb : pblk) :=
  map_rq (Z.to_nat nr_ppas) off nr_ppas sentry lun_bitmap valid_secs pb.

(** The position of a block in a line, from its address. *)
Definition erase_lun_of (p : Z) : Z := g_lun p * nr_chnls (cf_geo c) + g_ch p.

(** As above, until a page goes to a LUN whose block of the next line is not yet erased:
    that block is the one to erase. *)
Fixpoint map_erase_rq (n : nat) (i nr_ppas sentry e_line : Z) (lun_bitmap : gset Z) (valid_secs : Z) (pb : pblk) :
    res (list Z * list Z * gset Z * option Z * pblk) :=
  match n with
  | O => Ok ([], [], lun_bitmap, None, pb)
  | S n' =>
      if decide (nr_ppas ≤ i) then Ok ([], [], lun_bitmap, None, pb)
      else
        r ← pblk_map_page_data (sentry + i) lun_bitmap (map_secs_of i valid_secs) pb;
        match r with
        | (ppas, lbas, luns, pb) =>
            p ← deref (head ppas);
            l ← aread (pb_lines pb) e_line;
            r ← test_and_set_bit (blk_bits c) (erase_lun_of p) (ln_erase_bitmap l);
            if decide (fst r = false) then
              let pb := upd_line e_line (ln_set_left_eblks (s32 (ln_left_eblks l - 1)) (ln_set_erase_bitmap (snd r) l)) pb in
              r ← pblk_map_rq nr_ppas sentry luns valid_secs (i + cf_min_write_pgs c) pb;
              match r with
              | (ppas', lbas', luns, pb) => Ok (ppas ++ ppas', lbas ++ lbas', luns, Some (set_g_blk e_line p), pb)
              end
            else
              r ← map_erase_rq n' (i + cf_min_write_pgs c) nr_ppas sentry e_line luns valid_secs pb;
              match r with
              | (ppas', lbas', luns, e, pb) => Ok (ppas ++ ppas', lbas ++ lbas', luns, e, pb)
              end
        end
  end.

(** Blocks that are bad in this line but not in the next are erased here. *)
Definition pblk_map_erase_rq (nr_ppas sentry e_line : Z) (lun_bitmap : gset Z) (valid_secs : Z) (pb : pblk) :
    res (list Z * list Z * gset Z * option Z * pblk) :=
  r ← map_erase_rq (Z.to_nat nr_ppas) 0 nr_ppas sentry e_line lun_bitmap valid_secs pb;
  match r with
  | (ppas, lbas, luns, e, pb) =>
      l ← aread (pb_lines pb) e_line;
      if decide (ln_left_eblks l ≠ 0 ∧ e = None) then
        let i := find_next_zero_bit (ln_erase_bitmap l) (lm_blk_per_line (cf_lm c)) 0 in
        r ← test_and_set_bit (blk_bits c) i (ln_erase_bitmap l);
        b ← aread (cf_luns c) i;
        let pb := upd_line e_line (ln_set_left_eblks (s32 (ln_left_eblks l - 1)) (ln_set_erase_bitmap (snd r) l)) pb in
        Ok (ppas, lbas, luns, Some (set_g_blk e_line b), pb)
      else Ok (ppas, lbas, luns, e, pb)
  end.

(** ** Completion *)

(** The bios that waited for an entry are ended. *)
Definition end_entry (sentry : Z) (i : Z) (ppa : Z) (pb : pblk) : res pblk :=
  w ← pblk_rb_w_ctx (pb_rwb pb) (sentry + i);
  pb ← sync_sector (pblk_ppa_to_line ppa) pb;
  rb ← set_w_ctx (rb_wrap (pb_rwb pb) (sentry + i)) (w_set_bios [] w) (pb_rwb pb);
  Ok (pb_set_done (pb_done pb ++ w_bios w) (pb_set_rwb rb pb)).

Fixpoint end_entries (n : nat) (sentry i : Z) (ppas : list Z) (pb : pblk) : res pblk :=
  match n with
  | O => Ok pb
  | S n' => p ← deref (head ppas); pb ← end_entry sentry i p pb; end_entries n' sentry (i + 1) (tail ppas) pb
  end.

Definition pblk_end_w_bio (r : w_req) (pb : pblk) : res (Z * pblk) :=
  pb ← end_entries (Z.to_nat (c_nr_valid r)) (c_sentry r) 0 (wr_ppa_list r) pb;
  let '(pos, rb) := pblk_rb_sync_advance (c_nr_valid r) (pb_rwb pb) in
  Ok (pos, pb_set_rwb rb pb).

(** The first request of the list that starts at [pos], and the others. *)
Fixpoint take_compl (pos : Z) (rs : list w_req) : option (w_req * list w_req) :=
  match rs with
  | [] => None
  | r :: rs' =>
      if decide (c_sentry r = pos) then Some (r, rs')
      else match take_compl pos rs' with Some (x, l) => Some (x, r :: l) | None => None end
  end.

(** Each request that is taken off the list makes it shorter. *)
Fixpoint drain (n : nat) (pos : Z) (pb : pblk) : res pblk :=
  match take_compl pos (pb_compl_list pb) with
  | None => Ok pb
  | Some (r, rs) =>
      match n with
      | O => Fault F_FUEL
      | S n' => x ← pblk_end_w_bio r (pb_set_compl_list rs pb); drain n' (fst x) (snd x)
      end
  end.

Definition pblk_complete_write (r : w_req) (pb : pblk) : res pblk :=
  pb ← pblk_up_rq c (wr_lun_bitmap r) pb;
  if decide (pblk_rb_sync_init (pb_rwb pb) = c_sentry r) then
    x ← pblk_end_w_bio r pb;
    drain (length (pb_compl_list (snd x))) (fst x) (snd x)
  else Ok (pb_set_compl_list (pb_compl_list pb ++ [r]) pb).

(** ** Write failures *)

(** The new request and the old one without its failed part. *)
Definition pblk_recov_setup_rq (r : w_req) (ppa_status : gset Z) (comp max_secs : Z) (pb : pblk) :
    option (w_req * gset Z * w_req) * pblk :=
  let '(ok, pb) := ask alloc_ok pb in
  if negb ok then (None, pb)
  else
    let nr_entries := u32 (c_nr_valid r + c_nr_padded r) in
    let status := list_to_set (filter (λ i, i + comp ∈ ppa_status ∧ i + comp < max_secs) (seqZ 0 max_secs)) in
    let sentry := rb_wrap (pb_rwb pb) (c_sentry r + comp) in
    let mk s v p := mk_wreq s v p (wr_nr_ppas r) (wr_ppa_list r) (wr_meta_list r) (wr_data r) (wr_lun_bitmap r) in
    if decide (c_nr_valid r ≤ comp) then
      (Some (mk_wreq sentry 0 (u32 (nr_entries - comp)) 0 [] [] [] ∅, status,
             mk (c_sentry r) (c_nr_valid r) (u32 (comp - c_nr_valid r))), pb)
    else
      (Some (mk_wreq sentry (c_nr_valid r - comp) (c_nr_padded r) 0 [] [] [] ∅, status, mk (c_sentry r) comp 0), pb).

(** The entries of the failed sectors: the search finds none, so the first failed sector
    ends the attempt. *)
Fixpoint find_failed (bits : list Z) (r : w_req) (pb : pblk) : res bool :=
  match bits with
  | [] => Ok true
  | bit :: bits' =>
      _ ← BUG_ON (c_nr_valid r < bit);
      p ← deref (wr_ppa_list r !! Z.to_nat bit);
      match pblk_rb_sync_scan_entry (pb_rwb pb) p with
      | None => Ok false
      | Some _ => find_failed bits' r pb
      end
  end.

Definition pblk_end_w_fail (r : w_req) (ppa_status : gset Z) (max_secs : Z) (pb : pblk) : res pblk :=
  let '(ok, pb) := ask alloc_ok pb in
  if negb ok then Ok pb
  else
    found ← find_failed (filter (λ i, i ∈ ppa_status) (seqZ 0 (wr_nr_ppas r))) r pb;
    if negb found then pblk_complete_write r pb
    else
      let comp := find_next_bit ppa_status (wr_nr_ppas r) 0 in
      let '(x, pb) := pblk_recov_setup_rq r ppa_status comp max_secs pb in
      match x with
      | None => pblk_complete_write r pb
      | Some (rec, status, r) => pblk_complete_write r (pb_set_work (pb_work pb ++ [W_submit_rec rec [] status]) pb)
      end.

Definition pblk_end_io_write (r : w_req) (error : Z) (ppa_status : gset Z) (max_secs : Z) (pb : pblk) : res pblk :=
  if decide (error ≠ 0) then pblk_end_w_fail r ppa_status max_secs pb else pblk_complete_write r pb.

(** ** Submission *)

(** The addresses, the logical addresses and the LUNs of a request, and a block to erase.
    When an allocation fails, the address of that block is read before it was set; a
    request of one sector has no list of addresses to fill. *)
Definition pblk_setup_w_rq (sentry valid padded : Z) (pb : pblk) : res (list Z * list Z * gset Z * pblk) :=
  let e_line := pblk_line_get_data_next pb in
  let nr_secs := u32 (valid + padded) in
  let '(ok1, pb) := ask alloc_ok pb in
  if negb ok1 then Fault F_OOB
  else
    let '(ok2, pb) := ask alloc_ok pb in
    if negb ok2 then Fault F_OOB
    else if decide (nr_secs = 1) then Fault F_NULL
    else
      el ← match e_line with None => Ok None | Some e => l ← aread (pb_lines pb) e; Ok (Some (e, ln_left_eblks l)) end;
      r ← match el with
          | Some (e, lft) =>
              if decide (lft = 0) then
                r ← pblk_map_rq nr_secs sentry ∅ valid 0 pb; match r with (ppas, lbas, luns, pb) => Ok (ppas, lbas, luns, None, pb) end
              else pblk_map_erase_rq nr_secs sentry e ∅ valid pb
          | None => r ← pblk_map_rq nr_secs sentry ∅ valid 0 pb; match r with (ppas, lbas, luns, pb) => Ok (ppas, lbas, luns, None, pb) end
          end;
      match r with
      | (ppas, lbas, luns, None, pb) => Ok (ppas, lbas, luns, pb)
      | (ppas, lbas, luns, Some ppa, pb) =>
          let '(ret, pb) := pblk_blk_erase_async alloc_ok dev_submit dev_error ppa pb in
          if decide (ret = 0) then Ok (ppas, lbas, luns, pb)
          else
            e ← deref e_line;
            pb ← mod_line e (λ l, ln_set_erase_bitmap (ln_erase_bitmap l ∖ {[erase_lun_of ppa]})
                                    (ln_set_left_eblks (s32 (ln_left_eblks l + 1)) l)) pb;
            Ok (ppas, lbas, luns, pb)
      end.

(** The write thread looks for work: the entries to take with the padding, or [None]. *)
Definition secs_to_write (rb : pblk_rb) : option (Z * Z) :=
  let avail := pblk_rb_read_count rb in
  let flush := pblk_rb_sync_point_count rb in
  if decide (avail = 0) then None
  else if decide (flush = 0 ∧ avail < cf_max_write_pgs c) then None
  else Some (avail, pblk_calc_secs c avail flush).

(** 0 when a request was submitted.  [page_ok]: whether the pages can be added to the
    bio. *)
Definition pblk_submit_write (page_ok : nat → bool) (pb : pblk) : res (Z * pblk) :=
  match secs_to_write (pb_rwb pb) with
  | None => Ok (1, pb)
  | Some (secs_avail, secs_to_sync) =>
      let '(ok1, pb) := ask alloc_ok pb in
      if negb ok1 then Ok (1, pb)
      else
        let '(ok2, pb) := ask alloc_ok pb in
        if negb ok2 then Ok (1, pb)
        else
          let secs_to_com := Z.min secs_to_sync secs_avail in
          let '(pos, rb) := pblk_rb_read_commit secs_to_com (pb_rwb pb) in
          r ← pblk_rb_read_to_bio page_ok pos secs_to_sync secs_avail (pb_set_rwb rb pb);
          match r with
          | (pgs_read, (sentry, valid, padded), data, pb) =>
              if decide (pgs_read = 0) then Ok (1, pb)
              else
                let '(ok3, pb) := if decide (padded ≠ 0) then ask alloc_ok pb else (true, pb) in
                if negb ok3 then Ok (1, pb)
                else
                  r ← pblk_setup_w_rq sentry valid padded pb;
                  match r with
                  | (ppas, lbas, luns, pb) =>
                      let rq := mk_wreq sentry valid padded (u32 (valid + padded)) ppas lbas data luns in
                      let '(err, _, pb) := pblk_submit_io dev_submit dev_error (IO_write rq) pb in
                      Ok (if decide (err ≠ 0) then 1 else 0, pb)
                  end
          end
  end.

End write.

(** ** Completions in any order *)

(** The requests that have been submitted and not yet ended, in the order of the ring; the
    flag says whether the device has completed the request. *)
Notation outst := (list (w_req * bool)).

(** The entries from [start] on, request after request. *)
Fixpoint chain (k start : Z) (rqs : outst) : Prop :=
  match rqs with
  | [] => True
  | (r, _) :: rqs' => c_sentry r = start mod 2 ^ k ∧ 1 ≤ c_nr_valid r ∧ chain k (start + c_nr_valid r) rqs'
  end.

Fixpoint chain_end (start : Z) (rqs : outst) : Z :=
  match rqs with [] => start | (r, _) :: rqs' => chain_end (start + c_nr_valid r) rqs' end.

(** Completed requests at the front are ended; the others wait. *)
Fixpoint drop_done (rqs : outst) : outst :=
  match rqs with (r, true) :: rqs' => drop_done rqs' | _ => rqs end.

Fixpoint sync_after (start : Z) (rqs : outst) : Z :=
  match rqs with (r, true) :: rqs' => sync_after (start + c_nr_valid r) rqs' | _ => start end.

Definition waiting (rqs : outst) : list w_req := fst <$> filter (λ x, x.2 = true) rqs.

Definition bios_at (rb : pblk_rb) (x : Z) : list Z :=
  match rb_entries rb !! (x mod rb_nr_entries rb) with Some e => w_bios (e_w_ctx e) | None => [] end.

Definition bios_in (rb : pblk_rb) (start stop : Z) : list Z := mjoin (bios_at rb <$> seqZ start (stop - start)).

Definition rq_ok (pb : pblk) (r : w_req) : Prop :=
  c_nr_valid r ≤ Z.of_nat (length (wr_ppa_list r)) ∧
  ∀ p, p ∈ wr_ppa_list r → is_Some (pb_lines pb !! pblk_ppa_to_line p).

Record compl_base (c : pblk_cfg) (k : Z) (pb : pblk) (start : Z) (rqs : outst) : Prop := {
  ci_size : rb_nr_entries (pb_rwb pb) = 2 ^ k;
  ci_k : 0 ≤ k ≤ 30;
  ci_sync : rb_sync (pb_rwb pb) = start mod 2 ^ k;
  ci_chain : chain k start rqs;
  ci_room : chain_end start rqs - start < 2 ^ k;
  ci_ents : ∀ i, 0 ≤ i < 2 ^ k → is_Some (rb_entries (pb_rwb pb) !! i);
  ci_rqs : ∀ r d, (r, d) ∈ rqs → rq_ok pb r;
  ci_sems : ∀ i, 0 ≤ i < nr_luns (cf_geo c) → is_Some (pb_sems pb !! i);
}.

Lemma chain_end_mono k start rqs : chain k start rqs → start ≤ chain_end start rqs.
Proof. revert start. induction rqs as [|[r d] rqs IH]; intros start; cbn; [lia|]. intros (_ & ? & ?%IH). lia. Qed.

(** Where the requests of the list start. *)
Lemma chain_start k start rqs r d :
  chain k start rqs → (r, d) ∈ rqs → ∃ x, c_sentry r = x mod 2 ^ k ∧ start ≤ x < chain_end start rqs.
Proof.
  revert start. induction rqs as [|[r' d'] rqs IH]; intros start; [by intros _ ?%elem_of_nil|].
  cbn. intros (Hs & Hv & Hc) Hin. pose proof (chain_end_mono _ _ _ Hc).
  apply elem_of_cons in Hin as [[= -> ->]|Hin]; [exists start; split; [done|lia]|].
  destruct (IH _ Hc Hin) as (x & ? & ?). exists x. split; [done|lia].
Qed.

Lemma waiting_cons r d rqs : waiting ((r, d) :: rqs) = (if d then [r] else []) ++ waiting rqs.
Proof. unfold waiting. rewrite filter_cons. cbn. by destruct d. Qed.

Lemma in_waiting r rqs : r ∈ waiting rqs ↔ (r, true) ∈ rqs.
Proof.
  unfold waiting. rewrite list_elem_of_fmap. split.
  - intros ([r' d] & -> & Hin). apply list_elem_of_filter in Hin as [Hd Hin]. cbn in *. by subst.
  - intros Hin. exists (r, true). split; [done|]. by apply list_elem_of_filter.
Qed.

Lemma take_compl_perm pos rs r rs' : take_compl pos rs = Some (r, rs') → c_sentry r = pos ∧ rs ≡ₚ r :: rs'.
Proof.
  revert rs'. induction rs as [|x rs IH]; intros rs'; cbn; [done|]. case_decide; [by intros [= -> ->]|].
  destruct (take_compl pos rs) as [[y l]|]; [|done]. intros [= -> <-]. destruct (IH l eq_refl) as [? ->].
  split; [done|]. apply perm_swap.
Qed.

Lemma take_compl_none pos rs : take_compl pos rs = None → ∀ r, r ∈ rs → c_sentry r ≠ pos.
Proof.
  induction rs as [|x rs IH]; cbn; [by intros _ r ?%elem_of_nil|]. case_decide; [done|].
  destruct (take_compl pos rs) as [[y l]|]; [done|]. intros _ r [->|?]%elem_of_cons; [done|]. by apply IH.
Qed.

(** Equal sentries are equal starts. *)
Lemma head_unique k start r d rqs r' :
  0 ≤ k → chain k start ((r, d) :: rqs) → chain_end start ((r, d) :: rqs) - start < 2 ^ k →
  (r', true) ∈ rqs → c_sentry r' ≠ start mod 2 ^ k.
Proof.
  intros Hk (Hs & Hv & Hc) Hroom Hin He. cbn in Hroom. destruct (chain_start _ _ _ _ _ Hc Hin) as (x & Hx & Hr).
  pose proof (Z.pow_pos_nonneg 2 k ltac:(lia) Hk). rewrite Hx in He. apply (mod_inj_window _ start) in He; lia.
Qed.

(** Completed requests that are not at the front are on the list. *)
Definition compl_inv (c : pblk_cfg) (k : Z) (pb : pblk) (start : Z) (rqs : outst) : Prop :=
  compl_base c k pb start rqs ∧ pb_compl_list pb ≡ₚ waiting rqs.

(** What ending entries leaves alone. *)
Record end_frame (pb pb' : pblk) : Prop := {
  ef_size : rb_nr_entries (pb_rwb pb') = rb_nr_entries (pb_rwb pb);
  ef_sync : rb_sync (pb_rwb pb') = rb_sync (pb_rwb pb);
  ef_list : pb_compl_list pb' = pb_compl_list pb;
  ef_sems : pb_sems pb' = pb_sems pb;
  ef_ents : ∀ i, is_Some (rb_entries (pb_rwb pb) !! i) → is_Some (rb_entries (pb_rwb pb') !! i);
  ef_lines : ∀ i, is_Some (pb_lines pb !! i) → is_Some (pb_lines pb' !! i);
}.

Lemma sync_sector_ok alloc_ok id pb :
  is_Some (pb_lines pb !! id) →
  ∃ pb', sync_sector alloc_ok id pb = Ok pb' ∧ end_frame pb pb' ∧ pb_rwb pb' = pb_rwb pb ∧ pb_done pb' = pb_done pb.
Proof.
  intros [l Hl]. unfold sync_sector. rewrite (aread_Some _ _ _ Hl), bind_Ok_l. cbv zeta.
  assert (∀ l', ∀ i, is_Some (pb_lines pb !! i) → is_Some (<[id:=l']> (pb_lines pb) !! i)) as Hls.
  { intros l' i Hi. rewrite lookup_insert_is_Some. destruct (decide (id = i)); auto. }
  case_decide; [|eexists; split; [done|]; split; [|done]; by constructor; cbn; auto].
  unfold pblk_line_run_ws, ask. cbn. destruct (alloc_ok _); (eexists; split; [done|]; split; [|done]; by constructor; cbn; auto).
Qed.

Section completion.
Context {K0 : Kops} (c : pblk_cfg) (alloc_ok : nat → bool) (k : Z).

Lemma end_entries_ok n sentry start i ppas pb :
  rb_nr_entries (pb_rwb pb) = 2 ^ k → 0 ≤ k ≤ 30 → sentry = start mod 2 ^ k → (n ≤ length ppas)%nat → Z.of_nat n < 2 ^ k →
  (∀ j, 0 ≤ j < 2 ^ k → is_Some (rb_entries (pb_rwb pb) !! j)) →
  (∀ p, p ∈ ppas → is_Some (pb_lines pb !! pblk_ppa_to_line p)) →
  ∃ pb', end_entries alloc_ok n sentry i ppas pb = Ok pb' ∧ end_frame pb pb' ∧
    pb_done pb' = pb_done pb ++ bios_in (pb_rwb pb) (start + i) (start + i + Z.of_nat n) ∧
    (∀ x, start + i + Z.of_nat n ≤ x < start + i + 2 ^ k → bios_at (pb_rwb pb') x = bios_at (pb_rwb pb) x).
Proof.
  intros Hn Hk Hs. revert i ppas pb Hn. induction n as [|n IH]; intros i ppas pb Hn Hlen Hroom Hents Hlines.
  - exists pb. split; [done|]. split; [by constructor|]. split; [|done]. unfold bios_in.
    replace (start + i + Z.of_nat 0 - (start + i)) with 0 by lia. by rewrite app_nil_r.
  - destruct ppas as [|p ppas]; [cbn in Hlen; lia|]. cbn [end_entries head deref tail]. rewrite bind_Ok_l.
    pose proof (pow2_bound k Hk) as Hp2.
    assert (∀ rb, rb_nr_entries rb = 2 ^ k → rb_wrap rb (sentry + i) = (start + i) mod 2 ^ k) as Hw.
    { intros rb Hrb. rewrite (rb_wrap_mod rb k), Hs, Z.add_mod_idemp_l by (done || lia). done. }
    destruct (Hents ((start + i) mod 2 ^ k)) as [e He]; [apply Z.mod_pos_bound; lia|].
    unfold end_entry, pblk_rb_w_ctx. rewrite Hw, (aread_Some _ _ _ He), !bind_Ok_l by done.
    destruct (sync_sector_ok alloc_ok (pblk_ppa_to_line p) pb) as (pb1 & -> & Hf1 & Hr1 & Hd1); [apply Hlines; by left|].
    rewrite bind_Ok_l, Hr1, Hw by done. unfold set_w_ctx. rewrite (aread_Some _ _ _ He), !bind_Ok_l.
    set (rb1 := rb_set_entries _ _). set (pb2 := pb_set_done _ _).
    assert (∀ x, x mod 2 ^ k ≠ (start + i) mod 2 ^ k → bios_at rb1 x = bios_at (pb_rwb pb) x) as Hbo.
    { intros x Hx. unfold bios_at, rb1. cbn. rewrite Hn, lookup_insert_ne by done. done. }
    destruct (IH (i + 1) ppas pb2) as (pb3 & E & Hf3 & Hd3 & Hb3).
    + cbn. done.
    + cbn in Hlen. lia.
    + lia.
    + intros j Hj. cbn. rewrite lookup_insert_is_Some. destruct (decide ((start + i) mod 2 ^ k = j)); [by left|right; auto].
    + intros q Hq. cbn. apply (ef_lines _ _ Hf1), Hlines. by right.
    + exists pb3. split; [exact E|]. split; [|split].
      * destruct Hf1, Hf3. constructor; cbn in *; try congruence; [|by auto].
        intros j Hj. apply ef_ents1. rewrite lookup_insert_is_Some. destruct (decide ((start + i) mod 2 ^ k = j)); [by left|right; auto].
      * rewrite Hd3. cbn [pb_done pb_set_done pb2]. rewrite Hd1, <-app_assoc. f_equal. unfold bios_in.
        replace (start + i + Z.of_nat (S n) - (start + i)) with (Z.of_nat (S n)) by lia.
        replace (start + (i + 1) + Z.of_nat n - (start + (i + 1))) with (Z.of_nat n) by lia.
        rewrite (seqZ_cons (start + i)) by lia. cbn. f_equal; [unfold bios_at; by rewrite Hn, He|].
        replace (Z.pred (Z.of_nat (S n))) with (Z.of_nat n) by lia. replace (start + (i + 1)) with (Z.succ (start + i)) by lia.
        f_equal. apply list_fmap_ext. intros j x Hx. apply lookup_seqZ in Hx. apply Hbo. intros Hc.
        apply (mod_inj_window _ (start + i)) in Hc; lia.
      * intros x Hx. rewrite Hb3 by lia. apply Hbo. intros Hc. apply (mod_inj_window _ (start + i)) in Hc; lia.
Qed.

(** The request at [start] is ended. *)
Lemma end_w_bio_ok r d rqs start pb :
  compl_base c k pb start ((r, d) :: rqs) →
  ∃ pb', pblk_end_w_bio alloc_ok r pb = Ok ((start + c_nr_valid r) mod 2 ^ k, pb') ∧
    pb_compl_list pb' = pb_compl_list pb ∧ compl_base c k pb' (start + c_nr_valid r) rqs ∧
    pb_done pb' = pb_done pb ++ bios_in (pb_rwb pb) start (start + c_nr_valid r) ∧
    (∀ x, start + c_nr_valid r ≤ x < start + 2 ^ k → bios_at (pb_rwb pb') x = bios_at (pb_rwb pb) x).
Proof.
  intros [C1 C2 C3 C4 C5 C7 C8 C9]. cbn in C4, C5. destruct C4 as (Hs & Hv & Hc). pose proof (chain_end_mono _ _ _ Hc).
  destruct (C8 r d) as [Hl Hp]; [by left|]. unfold pblk_end_w_bio.
  destruct (end_entries_ok (Z.to_nat (c_nr_valid r)) (c_sentry r) start 0 (wr_ppa_list r) pb) as (pb1 & -> & [] & Hd & Hb); try done; try lia.
  rewrite bind_Ok_l. rewrite Z.add_0_r, Z2Nat.id in * by lia.
  unfold pblk_rb_sync_advance. rewrite ef_sync0, C3, (advance_eq k), Z2Nat.id by (congruence || lia).
  eexists. split; [reflexivity|]. split; [done|]. split; [|split; [exact Hd|exact Hb]].
  constructor; cbn; try congruence; try done.
  - lia.
  - auto.
  - intros r' d' Hin. destruct (C8 r' d') as [? Hq]; [by right|]. split; [done|]. cbn. auto.
  - by rewrite ef_sems0.
Qed.

Lemma compl_base_list pb start rqs l : compl_base c k pb start rqs → compl_base c k (pb_set_compl_list l pb) start rqs.
Proof. intros []. by constructor. Qed.

Lemma bios_in_app rb a b d : a ≤ b → b ≤ d → bios_in rb a d = bios_in rb a b ++ bios_in rb b d.
Proof.
  intros. unfold bios_in. replace (d - a) with ((b - a) + (d - b)) by lia. rewrite seqZ_app by lia.
  rewrite fmap_app, join_app. by replace (a + (b - a)) with b by lia.
Qed.

Lemma bios_in_ext rb rb' a b : (∀ x, a ≤ x < b → bios_at rb' x = bios_at rb x) → bios_in rb' a b = bios_in rb a b.
Proof. intros He. unfold bios_in. f_equal. apply list_fmap_ext. intros i x Hx. apply lookup_seqZ in Hx. apply He. lia. Qed.

Lemma sync_after_bounds start rqs : chain k start rqs → start ≤ sync_after start rqs ≤ chain_end start rqs.
Proof.
  revert start. induction rqs as [|[r [|]] rqs IH]; intros start Hc; cbn; [lia| |].
  - destruct Hc as (_ & ? & Hc). specialize (IH _ Hc). lia.
  - pose proof (chain_end_mono _ _ _ Hc) as Hm. cbn in Hm. lia.
Qed.

(** The completed requests at the front are ended, in the order of the ring. *)
Lemma drain_ok n start rqs pb :
  compl_inv c k pb start rqs → (length (pb_compl_list pb) ≤ n)%nat →
  ∃ pb', drain alloc_ok n (start mod 2 ^ k) pb = Ok pb' ∧ compl_inv c k pb' (sync_after start rqs) (drop_done rqs) ∧
    pb_done pb' = pb_done pb ++ bios_in (pb_rwb pb) start (sync_after start rqs).
Proof.
  assert (∀ pb start, pb_done pb = pb_done pb ++ bios_in (pb_rwb pb) start start) as Hnil.
  { intros. unfold bios_in. by rewrite Z.sub_diag, app_nil_r. }
  revert start rqs pb. induction n as [|n IH]; intros start rqs pb [Hinv Hl] Hn.
  - destruct (pb_compl_list pb) as [|] eqn:El; [|cbn in Hn; lia]. exists pb. cbn [drain]. rewrite El. split; [done|].
    apply Permutation_nil_l in Hl. destruct rqs as [|[r [|]] rqs]; [|by rewrite waiting_cons in Hl|]; cbn; (split; [|done]); (split; [done|]); by rewrite El, Hl.
  - cbn [drain]. destruct rqs as [|[r d] rqs].
    { exists pb. assert (pb_compl_list pb = []) as -> by (by apply Permutation_nil_r in Hl). cbn. done. }
    pose proof Hinv as [C1 C2 C3 C4 C5 C7 C8 C9].
    destruct (take_compl (start mod 2 ^ k) (pb_compl_list pb)) as [[r' rs]|] eqn:Et.
    + destruct (take_compl_perm _ _ _ _ Et) as [Hs Hp].
      assert (r' ∈ waiting ((r, d) :: rqs)) as Hin by (rewrite <-Hl, Hp; by left). apply in_waiting in Hin.
      apply elem_of_cons in Hin as [[= -> <-]|Hin].
      2: { destruct (head_unique k start r d rqs r'); [lia|done|done|done|done]. }
      rewrite waiting_cons, Hp in Hl. cbn [app] in Hl. apply Permutation_cons_inv in Hl.
      destruct (end_w_bio_ok r true rqs start (pb_set_compl_list rs pb)) as (pb1 & -> & Hcl & Hb & Hd & Hx); [by apply compl_base_list|].
      rewrite bind_Ok_l. cbn [fst snd]. destruct (IH (start + c_nr_valid r) rqs pb1) as (pb2 & E & Hi2 & Hd2).
      { split; [done|]. by rewrite Hcl. }
      { rewrite Hcl. cbn. rewrite Hp in Hn. cbn in Hn. lia. }
      exists pb2. split; [exact E|]. split; [exact Hi2|]. rewrite Hd2, Hd. cbn [sync_after pb_done pb_set_compl_list pb_rwb].
      destruct C4 as (_ & Hv & Hc). pose proof (sync_after_bounds _ _ Hc). cbn in C5.
      rewrite <-app_assoc, (bios_in_app (pb_rwb pb) start (start + c_nr_valid r) (sync_after (start + c_nr_valid r) rqs)) by lia. f_equal. f_equal. apply bios_in_ext. intros x Hxr. apply Hx. lia.
    + destruct d; cbn.
      * exfalso. rewrite waiting_cons in Hl. apply (take_compl_none _ _ Et r); [rewrite Hl; by left|]. by destruct C4.
      * exists pb. split; [done|]. split; [|done]. done.
Qed.
End completion.

(** Whether a request has completed matters to the list only. *)
Lemma chain_flags k start pre r d d' post : chain k start (pre ++ (r, d) :: post) → chain k start (pre ++ (r, d') :: post).
Proof. revert start. induction pre as [|[x e] pre IH]; intros start; cbn; [done|]. intros (? & ? & ?). auto. Qed.

Lemma chain_end_flags start pre r d d' post : chain_end start (pre ++ (r, d) :: post) = chain_end start (pre ++ (r, d') :: post).
Proof. revert start. induction pre as [|[x e] pre IH]; intros start; cbn; auto. Qed.

Lemma compl_base_flags c k pb start pre r d d' post :
  compl_base c k pb start (pre ++ (r, d) :: post) → compl_base c k pb start (pre ++ (r, d') :: post).
Proof.
  intros []. constructor; try done; [by eapply chain_flags|by erewrite chain_end_flags|].
  intros x e Hin. rewrite elem_of_app, elem_of_cons in Hin. destruct Hin as [?|[[= -> ->]|?]].
  - apply (ci_rqs0 x e). rewrite elem_of_app. by left.
  - apply (ci_rqs0 r d). rewrite elem_of_app, elem_of_cons. tauto.
  - apply (ci_rqs0 x e). rewrite elem_of_app, elem_of_cons. tauto.
Qed.

Lemma waiting_mark pre r post : waiting (pre ++ (r, true) :: post) ≡ₚ waiting (pre ++ (r, false) :: post) ++ [r].
Proof.
  unfold waiting. rewrite !filter_app, !fmap_app, !filter_cons. cbn. rewrite <-!app_assoc. f_equiv.
  by rewrite Permutation_app_comm.
Qed.

Lemma up_rq_ok c luns pb :
  (∀ i, 0 ≤ i < nr_luns (cf_geo c) → is_Some (pb_sems pb !! i)) →
  ∃ pb', pblk_up_rq c luns pb = Ok pb' ∧ pb' = pb_set_sems (pb_sems pb') pb ∧
    ∀ i, 0 ≤ i < nr_luns (cf_geo c) → is_Some (pb_sems pb' !! i).
Proof.
  intros Hs. unfold pblk_up_rq.
  apply (mfor_inv (λ _ pb', pb' = pb_set_sems (pb_sems pb') pb ∧ ∀ i, 0 ≤ i < nr_luns (cf_geo c) → is_Some (pb_sems pb' !! i))).
  - split; [by destruct pb|done].
  - intros dn a todo pb1 Hsplit [Hf Hs1].
    assert (a ∈ filter (λ i, i ∈ luns) (seqZ 0 (nr_luns (cf_geo c)))) as Ha by (rewrite Hsplit, elem_of_app, elem_of_cons; tauto).
    apply list_elem_of_filter in Ha as [_ Ha%elem_of_seqZ]. destruct (Hs1 a) as [v Hv]; [lia|].
    rewrite (aread_Some _ _ _ Hv), bind_Ok_l. eexists. split; [done|]. cbn. split; [by rewrite Hf|].
    intros i Hi. rewrite lookup_insert_is_Some. destruct (decide (a = i)); [by left|right; auto].
Qed.

(** C7: Requests complete in any order.  When the device completes one of them, the entries
    that are ended, with the bios that wait for a flush, are those of the completed requests
    at the front of the ring, in the order of the ring and each once; [sync] moves exactly
    over them, up to the first request that is still out; all other completed requests
    wait; and no entry is lost: the state afterwards again accounts for every request. *)
Theorem complete_write_in_order {K0 : Kops} (c : pblk_cfg) (alloc_ok : nat → bool) (k start : Z) (pb : pblk)
    (pre post : outst) (r : w_req) :
  let rqs := pre ++ (r, false) :: post in
  let rqs' := pre ++ (r, true) :: post in
  compl_inv c k pb start rqs → drop_done rqs = rqs →
  ∃ pb', pblk_complete_write c alloc_ok r pb = Ok pb' ∧
    compl_inv c k pb' (sync_after start rqs') (drop_done rqs') ∧
    rb_sync (pb_rwb pb') = sync_after start rqs' mod 2 ^ k ∧
    pb_done pb' = pb_done pb ++ bios_in (pb_rwb pb) start (sync_after start rqs').
Proof.
  intros rqs rqs' [Hb Hl] Hfront. destruct (up_rq_ok c (wr_lun_bitmap r) pb) as (pb0 & Eup & Hpb0 & Hsems); [apply Hb|].
  unfold pblk_complete_write. rewrite Eup, bind_Ok_l.
  assert (pb_rwb pb0 = pb_rwb pb ∧ pb_lines pb0 = pb_lines pb ∧ pb_compl_list pb0 = pb_compl_list pb ∧ pb_done pb0 = pb_done pb)
    as (E1 & E2 & E3 & E4) by (rewrite Hpb0; done).
  assert (compl_base c k pb0 start rqs) as Hb0.
  { destruct Hb. constructor; rewrite ?E1; try done. intros x d Hx. destruct (ci_rqs0 x d Hx) as [? Hq]. split; [done|]. by rewrite E2. }
  clear Hb Hpb0 Eup. pose proof Hb0 as [C1 C2 C3 C4 C5 C7 C8 C9]. unfold pblk_rb_sync_init. rewrite C3.
  destruct pre as [|[r0 d0] pre]; subst rqs rqs'; cbn [app] in *.
  - rewrite decide_True by (symmetry; apply C4).
    destruct (end_w_bio_ok c alloc_ok k r false post start pb0 Hb0) as (pb1 & -> & Hcl & Hb1 & Hd & Hx). rewrite bind_Ok_l. cbn [fst snd].
    assert (compl_inv c k pb1 (start + c_nr_valid r) post) as Hi1.
    { split; [done|]. rewrite Hcl, E3, Hl, waiting_cons. done. }
    destruct (drain_ok c alloc_ok k (length (pb_compl_list pb1)) _ _ _ Hi1) as (pb2 & -> & Hi2 & Hd2); [done|].
    exists pb2. split; [done|]. cbn [sync_after drop_done]. split; [done|]. split; [apply Hi2|].
    destruct C4 as (_ & Hv & Hc). pose proof (sync_after_bounds _ _ _ Hc). cbn in C5.
    rewrite Hd2, Hd, E4, E1, <-app_assoc. f_equal.
    rewrite (bios_in_app (pb_rwb pb) start (start + c_nr_valid r) (sync_after (start + c_nr_valid r) post)) by lia.
    f_equal. apply bios_in_ext. intros x Hxr. rewrite Hx, E1; [done|lia].
  - assert (d0 = false) as ->.
    { destruct d0; [|done]. exfalso. cbn in Hfront. assert (∀ l, (length (drop_done l) ≤ length l)%nat) as Hlen.
      { induction l as [|[? [|]] l IH]; cbn; lia. }
      pose proof (Hlen (pre ++ (r, false) :: post)) as Hle. rewrite Hfront in Hle. cbn in Hle. lia. }
    assert (c_sentry r ≠ start mod 2 ^ k) as Hne.
    { apply (compl_base_flags c k pb0 start ((r0, false) :: pre) r false true) in Hb0 as [_ _ _ D4 D5 _ _ _]. cbn [app] in D4, D5.
      eapply head_unique; [|exact D4|exact D5|]; [lia|]. rewrite elem_of_app, elem_of_cons. tauto. }
    rewrite decide_False by congruence. eexists. split; [done|]. cbn [sync_after drop_done].
    split; [|split; [exact C3|cbn; unfold bios_in; by rewrite Z.sub_diag, app_nil_r, E4]]. split.
    + apply compl_base_list. by apply (compl_base_flags c k pb0 start ((r0, false) :: pre) r false true).
    + cbn [pb_compl_list pb_set_compl_list]. rewrite E3, Hl. symmetry. exact (waiting_mark ((r0, false) :: pre) r post).
Qed.

(** Two requests of one entry each; the second has completed already. *)
Definition rq_demo (sentry : Z) : w_req := mk_wreq sentry 1 0 1 [addr_to_gen_ppa paf_tiny 4 1] [0] [0] ∅.

Definition entry_demo (i : Z) (bios : list Z) : pblk_rb_entry :=
  mk_entry (pblk_cacheline_to_ppa i) 0 (mk_wctx bios i 0 ADDR_EMPTY PBLK_SUBMITTED_ENTRY).

Definition pb_compl : pblk :=
  pb_set_compl_list [rq_demo 0] (pb_set_sems (list_to_map (zip (seqZ 0 4) [0; 1; 1; 1]))
    (pb_set_rwb (mk_rb {[0 := entry_demo 0 [7; 8]; 1 := entry_demo 1 []; 2 := entry_demo 2 []; 3 := entry_demo 3 [9]]}
                  1 1 3 EMPTY_ENTRY 3 4) pb_demo)).

Lemma complete_write_in_order_witness :
  ∃ pb', pblk_complete_write cfg_tiny (λ _, true) (rq_demo 3) pb_compl = Ok pb' ∧ rb_sync (pb_rwb pb') = 1 ∧ pb_done pb' = [9; 7; 8].
Proof.
  destruct (complete_write_in_order cfg_tiny (λ _, true) 2 3 pb_compl [] [(rq_demo 0, true)] (rq_demo 3)) as (pb' & E & _ & Hs & Hd).
  - split; [|done]. constructor; cbn; try done.
    + intros i Hi. assert (i = 0 ∨ i = 1 ∨ i = 2 ∨ i = 3) as [->|[->|[->| ->]]] by lia; by apply not_eq_None_Some.
    + intros r d Hin. rewrite !elem_of_cons, elem_of_nil in Hin. destruct Hin as [[= -> ->]|[[= -> ->]|[]]];
        (split; [done|]); intros p ->%list_elem_of_singleton; apply not_eq_None_Some; by vm_compute.
    + intros i Hi. assert (i = 0 ∨ i = 1 ∨ i = 2 ∨ i = 3) as [->|[->|[->| ->]]] by lia; apply not_eq_None_Some; by vm_compute.
  - done.
  - exists pb'. split; [exact E|]. split; [exact Hs|exact Hd].
Defined.
