(* ===== verification/PbAlloc.v ===== *)
(** * pblk: sectors for the entries of a request

    The theorems about pblk_alloc_page and pblk_map_page_data: the open line gives out whole
    pages, in order, that nothing refers to yet; mapping a page keeps the invariant of the
    write buffer ([ring_inv]) and with it the accounts of the lines. *)

From S2P Require Import Prelude Kernel PbAddr PbRl PbState PbMap PbRb PbRing PbLine PbWrite.

#[local] Open Scope Z_scope.

(** ** Room in a line *)

(** The free sectors below [E]. *)
Definition nfree (mb : gset Z) (cur E : Z) : Z := Z.of_nat (length (filter (λ i, i ∉ mb) (seqZ cur (E - cur)))).

(** A line whose free sectors from [cur_sec] on come in whole pages, with at least
    [left_msecs] of them before its end metadata. *)
Record room (c : pblk_cfg) (l : pblk_line) (mb : gset Z) : Prop := {
  rm_mb : ln_map_bitmap l = Some mb;
  rm_min : 0 < cf_min_write_pgs c;
  rm_range : 0 ≤ ln_cur_sec l ≤ ln_emeta_ssec l ∧ ln_emeta_ssec l ≤ lm_sec_per_line (cf_lm c);
  rm_cur : (cf_min_write_pgs c | ln_cur_sec l);
  rm_end : (cf_min_write_pgs c | ln_emeta_ssec l);
  rm_pages : ∀ i, ln_cur_sec l ≤ i < ln_emeta_ssec l → i ∈ mb ↔ cf_min_write_pgs c * (i / cf_min_write_pgs c) ∈ mb;
  rm_left : 0 ≤ ln_left_msecs l ≤ nfree mb (ln_cur_sec l) (ln_emeta_ssec l);
}.

Lemma nfree_pos mb cur E : 0 < nfree mb cur E → ∃ i, cur ≤ i < E ∧ i ∉ mb.
Proof.
  unfold nfree. destruct (filter (λ i, i ∉ mb) (seqZ cur (E - cur))) as [|i l] eqn:Ef; [cbn; lia|]. intros _. exists i.
  assert (i ∈ filter (λ i, i ∉ mb) (seqZ cur (E - cur))) as Hi by (rewrite Ef; by left).
  apply list_elem_of_filter in Hi as [? Hi%elem_of_seqZ]. split; [lia|done].
Qed.

Lemma nfree_split mb a b E : a ≤ b → b ≤ E → nfree mb a E = nfree mb a b + nfree mb b E.
Proof.
  intros. unfold nfree. replace (E - a) with ((b - a) + (E - b)) by lia. rewrite seqZ_app, filter_app, length_app by lia.
  replace (a + (b - a)) with b by lia. lia.
Qed.

Lemma nfree_none mb a b : (∀ i, a ≤ i < b → i ∈ mb) → nfree mb a b = 0.
Proof.
  intros Hi. unfold nfree. destruct (filter _ _) as [|i l] eqn:Ef; [done|].
  assert (i ∈ filter (λ i, i ∉ mb) (seqZ a (b - a))) as Hin by (rewrite Ef; by left).
  apply list_elem_of_filter in Hin as [Hn Hin%elem_of_seqZ]. destruct Hn. apply Hi. lia.
Qed.

Lemma nfree_all mb a b : a ≤ b → (∀ i, a ≤ i < b → i ∉ mb) → nfree mb a b = b - a.
Proof.
  intros Hab Hi. unfold nfree. rewrite (filter_all_in (λ i, i ∉ mb)), length_seqZ; [lia|].
  apply Forall_forall. intros i Hin%elem_of_seqZ. apply Hi. lia.
Qed.

Lemma nfree_ext mb mb' a b : (∀ i, a ≤ i < b → i ∈ mb ↔ i ∈ mb') → nfree mb a b = nfree mb' a b.
Proof.
  intros Hi. unfold nfree. do 2 f_equal. apply filter_same_in. intros i Hin%elem_of_seqZ. rewrite Hi by lia. done.
Qed.

(** ** A page *)

Section alloc.
Context {K0 : Kops} {KL : KopsLaws} (c : pblk_cfg).

(** The line after [n] sectors from [a] on were given out. *)
Definition given (n a : Z) (mb : gset Z) (l : pblk_line) : pblk_line :=
  ln_set_cur_sec (a + n) (ln_set_map_bitmap (Some (list_to_set (seqZ a n) ∪ mb)) l).

Lemma set_secs_ok n l mb a :
  cfg_ok c → ln_map_bitmap l = Some mb → ln_cur_sec l = a → 0 ≤ a → a + Z.of_nat n ≤ lm_sec_per_line (cf_lm c) →
  set_secs c n l = Ok (given (Z.of_nat n) a mb l).
Proof using KL.
  intros [[] ?]. revert l mb a. induction n as [|n IH]; intros l mb a Hm Hc Ha Hn.
  - unfold given. rewrite Z.add_0_r. change (list_to_set (seqZ a (Z.of_nat 0))) with (∅ : gset Z).
    rewrite (left_id_L ∅ (∪) mb). cbn. destruct l; cbn in *. by subst.
  - cbn [set_secs]. rewrite Hm, Hc. cbn [deref]. rewrite bind_Ok_l. unfold test_and_set_bit. rewrite decide_True, bind_Ok_l by lia.
    rewrite u32_small by lia. cbn [snd].
    erewrite (IH _ ({[a]} ∪ mb) (a + 1)); [|done|done|lia|lia]. f_equal. unfold given.
    rewrite (seqZ_cons a (Z.of_nat (S n))) by lia. replace (Z.pred (Z.of_nat (S n))) with (Z.of_nat n) by lia.
    rewrite list_to_set_cons. replace (a + 1 + Z.of_nat n) with (a + Z.of_nat (S n)) by lia. unfold ln_set_cur_sec, ln_set_map_bitmap. cbn.
    f_equal. f_equal. set_solver.
Qed.

(** The first free sector of a line with room starts a free page. *)
Lemma first_page l mb :
  cfg_ok c → room c l mb → cf_min_write_pgs c ≤ ln_left_msecs l →
  let m := cf_min_write_pgs c in let a := find_next_zero_bit mb (lm_sec_per_line (cf_lm c)) (ln_cur_sec l) in
  (m | a) ∧ ln_cur_sec l ≤ a ∧ a + m ≤ ln_emeta_ssec l ∧ (∀ i, ln_cur_sec l ≤ i < a → i ∈ mb) ∧ ∀ i, a ≤ i < a + m → i ∉ mb.
Proof using KL.
  intros Hcfg [Hb Hm Hr [qc Hc] [qe He] Hp Hl] Hle m a. destruct (nfree_pos mb (ln_cur_sec l) (ln_emeta_ssec l)) as (i & Hi & Hni); [lia|].
  destruct (find_next_zero_bit_law mb (lm_sec_per_line (cf_lm c)) (ln_cur_sec l)) as ([H1 H2] & H3 & H4); [lia|]. fold a in H1, H2, H3, H4.
  assert (a ≤ i) as Hai. { destruct (decide (a ≤ i)); [done|]. destruct (H4 i); [lia|done]. }
  specialize (H3 ltac:(lia)). assert (∀ j, ln_cur_sec l ≤ j < a → j ∈ mb) as Hbelow.
  { intros j Hj. destruct (decide (j ∈ mb)); [done|]. by destruct (H4 j Hj). }
  pose proof (Z.div_mod a m ltac:(lia)) as Hdm. pose proof (Z.mod_pos_bound a m ltac:(lia)) as Hmb.
  assert (ln_cur_sec l ≤ m * (a / m)) as Hbase.
  { rewrite Hc in *. fold m in H1 |- *. assert (qc ≤ a / m) by (apply Z.div_le_lower_bound; nia). nia. }
  assert (m * (a / m) ∉ mb) as Hnb by (intros Hin; apply H3, Hp; [lia|done]).
  assert (a = m * (a / m)) as Haq. { destruct (decide (m * (a / m) < a)); [|lia]. by destruct Hnb; apply Hbelow; lia. }
  set (q := a / m) in *. assert (a + m ≤ ln_emeta_ssec l) as Hend.
  { rewrite He in *. fold m in Hi |- *. assert (q < qe) by nia. nia. }
  split_and!; [exists q; lia|done|done|done|]. intros j Hj Hin. apply H3. rewrite Haq. apply Hp in Hin; [|lia].
  fold m in Hin. replace (j / m) with q in Hin by (apply (Z.div_unique j m q (j - a)); lia). done.
Qed.

(** The open line gives out whole pages in order: while it has room for one, allocating
    [min_write_pgs] sectors passes the assertion, returns the first page that is still free —
    aligned, behind the sectors given out before and before the end metadata — marks
    exactly its sectors, touches nothing else of the device's state, and leaves the line
    with room for [min_write_pgs] sectors less. *)
Lemma alloc_page_ok (id : Z) (pb : pblk) (l : pblk_line) (mb : gset Z) :
  cfg_ok c → pb_lines pb !! id = Some l → room c l mb → cf_min_write_pgs c ≤ ln_left_msecs l < 2 ^ 31 →
  ∃ a l', pblk_alloc_page c id (cf_min_write_pgs c) pb = Ok (a, upd_line id l' pb) ∧
    (cf_min_write_pgs c | a) ∧ ln_cur_sec l ≤ a ∧ a + cf_min_write_pgs c ≤ ln_emeta_ssec l ∧
    (∀ i, ln_cur_sec l ≤ i < a → i ∈ mb) ∧ (∀ i, a ≤ i < a + cf_min_write_pgs c → i ∉ mb) ∧
    l' = ln_set_left_msecs (ln_left_msecs l - cf_min_write_pgs c) (given (cf_min_write_pgs c) a mb l) ∧
    room c l' (list_to_set (seqZ a (cf_min_write_pgs c)) ∪ mb).
Proof using KL.
  intros Hcfg Hl Hroom Hleft. destruct (first_page l mb Hcfg Hroom ltac:(lia)) as (Hd & Hca & Hae & Hin & Hout).
  set (m := cf_min_write_pgs c) in *. set (a := find_next_zero_bit mb _ _) in *.
  destruct Hroom as [Hb Hm Hr Hc He Hp Hn]. fold m in Hm, Hc, He, Hp. pose proof Hcfg as [[] ?].
  exists a. eexists. split.
  - unfold pblk_alloc_page. rewrite (aread_Some _ _ _ Hl), bind_Ok_l. unfold __pblk_alloc_page. fold m.
    rewrite BUG_ON_pass, bind_Ok_l by (rewrite u32_small by lia; lia). rewrite Hb. cbn [deref]. rewrite bind_Ok_l. fold a. cbv zeta.
    rewrite u32_small by lia.
    rewrite (set_secs_ok _ (ln_set_cur_sec a l) mb a), !bind_Ok_l by (done || (rewrite ?Z2Nat.id; lia)).
    rewrite Z2Nat.id by lia. reflexivity.
  - assert (s32 (ln_left_msecs l - m) = ln_left_msecs l - m) as Hs by (apply s32_small; lia).
    split_and!; try done.
    + cbn. by rewrite Hs.
    + constructor; unfold given; cbn; rewrite ?Hs; fold m; try done; [lia|by apply Z.divide_add_r; [|apply Z.divide_refl]| |].
      * intros i Hi. assert (∀ x, a + m ≤ x → x ∈ list_to_set (seqZ a m) ∪ mb ↔ x ∈ mb) as Hx.
        { intros x Hx. rewrite elem_of_union, elem_of_list_to_set, elem_of_seqZ. lia || (split; [intros [?|?]; [lia|done]|by right]). }
        rewrite !Hx; [apply Hp; lia| |lia]. destruct Hd as [q Hq]. assert (q + 1 ≤ i / m) by (apply Z.div_le_lower_bound; nia). nia.
      * split; [lia|]. rewrite (nfree_split mb (ln_cur_sec l) (a + m)), (nfree_split mb (ln_cur_sec l) a),
          (nfree_none mb (ln_cur_sec l) a), (nfree_all mb a (a + m)) in Hn by (done || lia).
        rewrite (nfree_ext _ mb); [lia|]. intros i Hi. rewrite elem_of_union, elem_of_list_to_set, elem_of_seqZ.
        split; [intros [?|?]; [lia|done]|by right].
Qed.
End alloc.

(** A line of the small device whose first page behind the written part is bad. *)
Definition mb_demo : gset Z := {[0; 1; 2; 3; 4; 5; 30; 31]}.
Definition line_open : pblk_line :=
  mk_line 7 PBLK_LINESTATE_OPEN PBLK_LINETYPE_DATA PBLK_LINEGC_NONE (Some 0) (Some (EM_data 0)) 0 0 30 30 4 ∅ ∅
    (Some mb_demo) (Some {[0; 31]}) 0 0 24 24 4 30 1.

Lemma room_demo : room cfg_tiny line_open mb_demo.
Proof.
  constructor; try done.
  - by exists 2.
  - by exists 15.
  - assert (Forall (λ i, i ∈ mb_demo ↔ 2 * (i / 2) ∈ mb_demo) (seqZ 4 26)) as H.
    { apply (bool_decide_unpack _). by vm_compute. }
    rewrite Forall_forall in H. intros i Hi. apply H, elem_of_seqZ. cbn in Hi. lia.
Qed.

Lemma alloc_page_ok_witness :
  ∃ l', pblk_alloc_page cfg_tiny 1 2 (upd_line 1 line_open pb_demo) = Ok (6, upd_line 1 l' (upd_line 1 line_open pb_demo)) ∧
    ln_left_msecs l' = 22.
Proof.
  destruct (alloc_page_ok cfg_tiny 1 (upd_line 1 line_open pb_demo) line_open mb_demo cfg_tiny_ok) as
    (a & l' & E & _ & H1 & _ & H2 & H3 & Hl & _); [done|apply room_demo|done|].
  assert (a = 6) as ->.
  { vm_compute in E. injection E as E _. by symmetry. }
  exists l'. split; [exact E|by rewrite Hl].
Defined.
