(* ===== verification/PbPage.v ===== *)
(** * pblk: mapping a page

    A page the open line gives out ([PbAlloc]) becomes the addresses of the next entries of
    the write buffer; what is left of it is padding.  The accounts of the lines and the
    invariant of the ring survive as long as nothing referred to the page before
    ([fresh_secs]). *)

From S2P Require Import Prelude Kernel PbAddr PbRl PbState PbMap PbRb PbRing PbLine PbWrite PbAlloc.

#[local] Open Scope Z_scope.

(** ** Accounts *)

Lemma acct_add_pend c pb pend rf p :
  acct_inv c pb pend rf → addr_ok c pb p → sec_of c p ∉ sec_of c <$> pend →
  (∀ a q, pb_trans_map pb !! a = Some q → dev_addr q → sec_of c q ≠ sec_of c p) →
  acct_inv c pb (p :: pend) rf.
Proof.
  intros [] Hp Hn Hm. constructor; try done.
  - intros q [->|Hq]%elem_of_cons; auto.
  - cbn. by apply NoDup_cons.
  - intros a q r ? ? [->|Hr]%elem_of_cons; eauto.
Qed.

Lemma acct_mg c pb pend rf m :
  acct_inv c pb pend rf → (∀ L, mg_lists m L = mg_lists (pb_mg pb) L) → acct_inv c (pb_set_mg m pb) pend rf.
Proof.
  intros [] Hm. constructor; try done. intros id l Hl. eapply line_ok_lists; [|by apply ai_lines].
  intros L. cbn. by rewrite Hm.
Qed.

(** Fields of a line that the accounts do not look at, and one reference more. *)
Lemma acct_open_line c pb pend rf id l l' (more : bool) :
  acct_inv c pb pend rf → pb_lines pb !! id = Some l → ln_state l = PBLK_LINESTATE_OPEN →
  ln_state l' = ln_state l → ln_invalid_bitmap l' = ln_invalid_bitmap l → ln_vsc l' = ln_vsc l →
  ln_sec_in_line l' = ln_sec_in_line l → ln_ref l' = ln_ref l + (if more then 1 else 0) → ln_ref l' < 2 ^ 32 →
  acct_inv c (upd_line id l' pb) pend (if more then id :: rf else rf).
Proof.
  intros Hinv Hl Ho Hs Hb Hv Hi Hr Hlt. pose proof (ai_lines _ _ _ _ Hinv id l Hl) as [_ Hun Href _ _].
  specialize (Href ltac:(by rewrite Ho) ltac:(by rewrite Ho) ltac:(by rewrite Ho)). specialize (Hun (or_intror Ho)).
  assert (nrefs (if more then id :: rf else rf) id = nrefs rf id + (if more then 1 else 0)) as Hn.
  { destruct more; [by rewrite nrefs_cons, decide_True|lia]. }
  eapply acct_lines; [exact Hinv|exact Hl| | | | | | | | |]; cbn.
  - done.
  - done.
  - by apply ai_rl in Hinv.
  - done.
  - done.
  - intros id' Hne. destruct more; [rewrite nrefs_cons, decide_False|]; lia || congruence.
  - intros i Hin. rewrite lookup_insert_is_Some. destruct (decide (id = i)); [by left|right]. split; [done|].
    destruct more; [apply elem_of_cons in Hin as [->|Hin]; [done|]|]; by apply (ai_refs _ _ _ _ Hinv).
  - constructor; rewrite ?Hs, Ho; try done; [intros _ _ _; rewrite Hn; lia|by intros [|]].
  - right. auto.
Qed.

(** Sectors of the open line that nothing refers to. *)
Record fresh_secs (c : pblk_cfg) (pb : pblk) (pend : list Z) (id a n : Z) (l : pblk_line) : Prop := {
  fs_line : pb_lines pb !! id = Some l;
  fs_open : ln_state l = PBLK_LINESTATE_OPEN;
  fs_ref : 0 ≤ ln_ref l ∧ ln_ref l + n < 2 ^ 32;
  fs_range : 0 ≤ a ∧ 0 ≤ n ∧ a + n ≤ lm_sec_per_line (cf_lm c);
  fs_acct : ∃ bm, line_acct c l bm ∧ ∀ x, a ≤ x < a + n → x ∉ bm;
  fs_emeta : ∃ p e, ln_emeta l = Some p ∧ read_emeta p (pb_mg pb) = Ok e;
  fs_addr : ∀ x, a ≤ x < a + n → dev_addr (addr_to_gen_ppa (cf_ppaf c) x id) ∧ sec_of c (addr_to_gen_ppa (cf_ppaf c) x id) = (id, x);
  fs_map : ∀ b q x, pb_trans_map pb !! b = Some q → dev_addr q → a ≤ x < a + n → sec_of c q ≠ (id, x);
  fs_pend : ∀ q x, q ∈ pend → a ≤ x < a + n → sec_of c q ≠ (id, x);
}.

Lemma fresh_addr_ok c pb pend id a n l :
  fresh_secs c pb pend id a n l → 0 < n → addr_ok c pb (addr_to_gen_ppa (cf_ppaf c) a id).
Proof.
  intros [] Hn. destruct (fs_addr0 a) as [Hd Hs]; [lia|]. split; [done|]. rewrite Hs. exists l. split; [done|]. right. right.
  split; [by left|]. destruct fs_acct0 as (bm & Ha & Hb). exists bm. split; [done|]. cbn. split; [lia|]. apply Hb. lia.
Qed.

(** One sector less. *)
Lemma fresh_page_step c pb pb' pend pend' id a n l l' bm bm' :
  fresh_secs c pb pend id a (n + 1) l → 0 ≤ n → pb_lines pb' !! id = Some l' → ln_state l' = PBLK_LINESTATE_OPEN →
  0 ≤ ln_ref l' ≤ ln_ref l + 1 → ln_emeta l' = ln_emeta l → line_acct c l bm → line_acct c l' bm' →
  bm' ⊆ {[a]} ∪ bm → (∀ p e, read_emeta p (pb_mg pb) = Ok e → ∃ e', read_emeta p (pb_mg pb') = Ok e') →
  pb_trans_map pb' = pb_trans_map pb → pend' ⊆ addr_to_gen_ppa (cf_ppaf c) a id :: pend →
  fresh_secs c pb' pend' id (a + 1) n l'.
Proof.
  intros [F1 F2 F3 F4 (bm0 & A0 & B0) (p & e & E1 & E2) F7 F8 F9] Hn Hl Ho Hr He Ha Ha' Hsub Hem Ht Hp.
  constructor; try done; try lia.
  - exists bm'. split; [done|]. intros x Hx Hin. apply Hsub, elem_of_union in Hin as [->%elem_of_singleton|Hin]; [lia|].
    assert (bm0 = bm) as -> by (pose proof (la_bm _ _ _ Ha); pose proof (la_bm _ _ _ A0); congruence).
    by apply (B0 x); [lia|].
  - destruct (Hem p e E2) as [e' ?]. exists p, e'. by rewrite He.
  - intros x Hx. apply F7. lia.
  - intros b q x. rewrite Ht. intros ? ? ?. eapply F8; [done|done|lia].
  - intros q x Hq Hx. apply Hp, elem_of_cons in Hq as [->|Hq]; [|apply F9; [done|lia]].
    destruct (F7 a) as [_ ->]; [lia|]. intros [= ->]. lia.
Qed.

Section page.
Context {K0 : Kops} {KL : KopsLaws} (c : pblk_cfg) (alloc_ok : nat → bool) (k : Z).

(** ** One sector *)

Lemma set_lba_ok id a lba pb pend rf l :
  acct_inv c pb pend rf → pb_lines pb !! id = Some l → (∃ p e, ln_emeta l = Some p ∧ read_emeta p (pb_mg pb) = Ok e) →
  0 ≤ a < lm_sec_per_line (cf_lm c) →
  ∃ m, set_lba c id a lba pb = Ok (pb_set_mg m pb) ∧ acct_inv c (pb_set_mg m pb) pend rf ∧
    ∀ p e, read_emeta p (pb_mg pb) = Ok e → ∃ e', read_emeta p m = Ok e'.
Proof.
  intros Hinv Hl (p & e & Hp & He) Ha. unfold set_lba. rewrite (aread_Some _ _ _ Hl), bind_Ok_l, Hp. cbn [deref].
  rewrite bind_Ok_l, He, bind_Ok_l, decide_True by done. eexists. split; [reflexivity|]. split.
  - apply acct_mg; [done|]. by destruct p.
  - intros q f Hq. destruct p as [i|], q as [j|]; cbn in *; try by eauto.
    destruct (decide (i = j)) as [->|]; [rewrite (aread_Some _ _ _ (lookup_insert_eq _ _ _)); eauto|].
    exists f. rewrite <-Hq. unfold aread. by rewrite lookup_insert_ne.
Qed.

(** The reference and the entry of the map the end metadata holds. *)
Lemma sector_ref pb pend rf id a n l :
  acct_inv c pb pend rf → fresh_secs c pb pend id a (n + 1) l → 0 ≤ n →
  let p := addr_to_gen_ppa (cf_ppaf c) a id in let l1 := ln_set_ref (ln_ref l + 1) l in
  kref_get id pb = Ok (upd_line id l1 pb) ∧ acct_inv c (upd_line id l1 pb) (p :: pend) (id :: rf) ∧
  pblk_ppa_to_line p = id.
Proof.
  intros Hinv Hf Hn p l1. pose proof Hf as [F1 F2 F3 F4 F5 F6 F7 F8 F9]. destruct (F7 a) as [Hd Hs]; [lia|]. fold p in Hd, Hs.
  split; [|split].
  - unfold kref_get. rewrite (aread_Some _ _ _ F1), bind_Ok_l, u32_small by lia. done.
  - apply acct_add_pend.
    + apply (acct_open_line _ _ _ _ _ l l1 true); try done. cbn. lia.
    + pose proof (fresh_addr_ok _ _ _ _ _ _ _ Hf ltac:(lia)) as (_ & l0 & Hl0 & Hst). fold p in Hl0, Hst. split; [done|].
      rewrite Hs in *. cbn [fst] in *. rewrite F1 in Hl0. injection Hl0 as <-. exists l1. split; [cbn; by rewrite lookup_insert_eq|].
      destruct Hst as [Hst|[Hst|(_ & bm & [] & Hr)]]; [by rewrite F2 in Hst..|]. right. right. split; [by left|]. exists bm.
      split; [by constructor|done].
    + rewrite Hs, list_elem_of_fmap. intros (q & Hq & Hin). by apply (F9 q a Hin); [lia|].
    + rewrite Hs. intros b q Hb Hq. apply (F8 b q a Hb Hq). lia.
  - by injection Hs.
Qed.

(** ** What the caller of map_sector gets *)

(** After a sector: the invariant with one reference more, and the other sectors still
    fresh. *)
Record sector_done (pb pb' : pblk) (g g' : counters) (rf : list Z) (id a n : Z) (l' : pblk_line) : Prop := {
  sd_ring : ring_inv c k pb' g' (id :: rf);
  sd_fresh : fresh_secs c pb' (pend_of (pb_rwb pb') g') id (a + 1) n l';
  sd_secs : rl_nr_secs (pb_rl pb') = rl_nr_secs (pb_rl pb);
}.

Lemma map_valid_ok pb g rf id l a n sentry valid i :
  ring_inv c k pb g rf → fresh_secs c pb (pend_of (pb_rwb pb) g) id a (n + 1) l → 0 ≤ n → i < valid →
  g_map g < g_read g → (sentry + i) mod 2 ^ k = g_map g mod 2 ^ k →
  ∃ e pb' l', let p := addr_to_gen_ppa (cf_ppaf c) a id in
    ent (pb_rwb pb) (g_map g) = Some e ∧ map_sector c alloc_ok id sentry valid i a pb = Ok (p, w_lba (e_w_ctx e), pb') ∧
    pb_rwb pb' = rb_set_entries (<[g_map g mod 2 ^ k:=mapped_entry e a p]> (rb_entries (pb_rwb pb))) (pb_rwb pb) ∧
    sector_done pb pb' g (mapped g) rf id a n l'.
Proof using KL.
  intros Hinv Hf Hn Hi Hlt Hpos. pose proof (ri_pos _ _ _ _ _ Hinv) as Hp2.
  pose proof Hinv as [Rn Rk Ro Rm Rs Ry Rl Re Ra Rr]. pose proof Ro as [O1 O2 O3 O4 O5 O6 O7].
  destruct (sector_ref _ _ _ _ _ _ _ Ra Hf Hn) as (Ek & Ha & Hp). set (p := addr_to_gen_ppa _ a id) in *. set (l1 := ln_set_ref _ l) in *.
  destruct (Re (g_map g)) as (e & He & _); [lia|]. pose proof He as He'. unfold ent in He'. rewrite Rn in He'.
  assert (acct_inv c (upd_line id l1 pb) (p :: pend_of (pb_rwb pb) g) (pblk_ppa_to_line p :: rf)) as Ha' by by rewrite Hp.
  pose proof (map_entry_ok c k pb (upd_line id l1 pb) g rf e a p Hinv Hlt He eq_refl eq_refl Ha') as Hr.
  rewrite Hp in Hr. set (rb1 := rb_set_entries _ _) in Hr. set (pb1 := pb_set_rwb rb1 _) in Hr.
  pose proof Hf as [F1 F2 F3 F4 (bm & Fa & Fb) F6 F7 F8 F9].
  destruct (set_lba_ok id a (w_lba (e_w_ctx e)) pb1 _ _ l1 (ri_acct _ _ _ _ _ Hr)) as (m & Em & Hm & Hre).
  { cbn. by rewrite lookup_insert_eq. } { exact F6. } { lia. }
  exists e, (pb_set_mg m pb1), l1. split; [done|]. split; [|split; [done|]].
  - unfold map_sector. rewrite Ek, bind_Ok_l, decide_True by done. cbv zeta. unfold pblk_rb_w_ctx.
    change (pb_rwb (upd_line id l1 pb)) with (pb_rwb pb). rewrite (rb_wrap_mod (pb_rwb pb) k), Hpos by done.
    rewrite (aread_Some _ _ _ He'), !bind_Ok_l. unfold set_w_ctx. rewrite (aread_Some _ _ _ He'), !bind_Ok_l.
    cbn [w_lba w_set_ppa w_set_paddr]. change (pb_set_rwb _ _) with pb1. by rewrite Em, bind_Ok_l.
  - split; [|..|done].
    + apply (ring_acct c k pb1 (pb_set_mg m pb1) (mapped g) (id :: rf) [] Hr); done.
    + eapply (fresh_page_step c pb _ _ _ id a n l l1 bm bm Hf Hn); try done.
      * cbn. by rewrite lookup_insert_eq.
      * cbn. lia.
      * by destruct Fa; constructor.
      * set_solver.
      * cbn [pb_rwb pb_set_mg pb1 pb_set_rwb]. unfold rb1. rewrite (ring_pend_app c k pb g rf) by done. set_solver.
Qed.

(** The count of sectors to sync is not part of the accounts. *)
Lemma map_sector_ok id pb pend rf l :
  acct_inv c pb pend rf → pb_lines pb !! id = Some l → ln_state l = PBLK_LINESTATE_OPEN → ln_ref l < 2 ^ 32 →
  ∃ pb' l', sync_sector alloc_ok id pb = Ok pb' ∧ l' = ln_set_left_ssecs (ln_left_ssecs l') l ∧
    pb_lines pb' !! id = Some l' ∧ acct_inv c pb' pend rf ∧ pb_rwb pb' = pb_rwb pb ∧ pb_rl pb' = pb_rl pb ∧
    pb_mg pb' = pb_mg pb ∧ pb_trans_map pb' = pb_trans_map pb.
Proof.
  intros Hinv Hl Ho Hr. unfold sync_sector. rewrite (aread_Some _ _ _ Hl), bind_Ok_l. cbv zeta.
  set (l' := ln_set_left_ssecs _ l).
  assert (acct_inv c (upd_line id l' pb) pend rf) as Ha.
  { apply (acct_open_line _ _ _ _ _ l l' false Hinv); try done. cbn. lia. }
  eexists _, l'. split; [reflexivity|]. split; [done|]. case_decide.
  - unfold pblk_line_run_ws, ask. destruct (alloc_ok _); cbn; (split; [by rewrite lookup_insert_eq|]);
      (split; [destruct Ha; by constructor|done]).
  - cbn. split; [by rewrite lookup_insert_eq|done].
Qed.

Lemma map_pad_ok pb g rf id l a n sentry valid i :
  cfg_ok c → ring_inv c k pb g rf → fresh_secs c pb (pend_of (pb_rwb pb) g) id a (n + 1) l → 0 ≤ n → valid ≤ i →
  ∃ pb' l', map_sector c alloc_ok id sentry valid i a pb = Ok (addr_to_gen_ppa (cf_ppaf c) a id, ADDR_EMPTY, pb') ∧
    pb_rwb pb' = pb_rwb pb ∧ sector_done pb pb' g g rf id a n l'.
Proof using KL.
  intros Hcfg Hinv Hf Hn Hi. pose proof (ri_acct _ _ _ _ _ Hinv) as Ra.
  destruct (sector_ref _ _ _ _ _ _ _ Ra Hf Hn) as (Ek & Ha & Hp). set (p := addr_to_gen_ppa _ a id) in *. set (l1 := ln_set_ref _ l) in *.
  set (pb1 := upd_line id l1 pb) in *. pose proof Hf as [F1 F2 F3 F4 (bm & Fa & Fb) F6 F7 F8 F9].
  assert (pb_lines pb1 !! id = Some l1) as Hl1 by (cbn; by rewrite lookup_insert_eq).
  destruct (set_lba_ok id a ADDR_EMPTY pb1 _ _ l1 Ha Hl1 F6 ltac:(lia)) as (m & Em & Hm & Hre).
  destruct (F7 a ltac:(lia)) as [_ Hsec]. fold p in Hsec.
  destruct (acct_invalidate_pend c _ _ _ p Hcfg Hm) as (pb2 & E2 & _ & Ha2).
  unfold map_sector. rewrite Ek, bind_Ok_l. fold pb1. rewrite decide_False by lia. rewrite Em, bind_Ok_l.
  assert (line_acct c l1 bm) as Fa1 by (destruct Fa; by constructor).
  pose proof (Fb a ltac:(lia)) as Hna. destruct (line_acct_invalidate c l1 bm a Hcfg Fa1 ltac:(lia) Hna) as (Fa2 & _ & _).
  set (l2 := ln_set_vsc _ _) in Fa2. pose proof (co_bits c Hcfg) as Hcb.
  assert (pb2 = upd_line id l2 (pb_set_mg m pb1)) as Hpb2.
  { unfold pblk_page_invalidate in E2. rewrite Hp in E2. change (pb_lines (pb_set_mg m pb1)) with (pb_lines pb1) in E2.
    rewrite (aread_Some _ _ _ Hl1), bind_Ok_l in E2. rewrite decide_False in E2 by (change (ln_state l1) with (ln_state l); rewrite F2; intros [?|?]; done).
    injection Hsec as _ Hpa. rewrite Hpa, (la_bm _ _ _ Fa1) in E2. cbn [deref] in E2. rewrite bind_Ok_l in E2. unfold test_and_set_bit in E2.
    rewrite decide_True, bind_Ok_l, bool_decide_eq_false_2, decide_False in E2 by (done || lia).
    cbv zeta in E2. fold l2 in E2. change (ln_state l2) with (ln_state l) in E2. rewrite F2, decide_False in E2 by done. by injection E2. }
  unfold pblk_page_pad_invalidate. change (pb_lines (pb_set_mg m pb1)) with (pb_lines pb1).
  rewrite (aread_Some _ _ _ Hl1), bind_Ok_l, (la_bm _ _ _ Fa1). cbn [deref]. rewrite bind_Ok_l. unfold test_and_set_bit.
  rewrite decide_True, bind_Ok_l by lia. cbn [snd]. fold l2. rewrite <-Hpb2.
  assert (pb_lines pb2 !! id = Some l2) as Hl2 by (rewrite Hpb2; cbn; by rewrite lookup_insert_eq).
  destruct (map_sector_ok id pb2 _ _ l2 Ha2 Hl2 F2) as (pb3 & l3 & E3 & Hl3e & Hl3 & Ha3 & Hw & Hr & Hmg & Ht); [cbn; lia|].
  rewrite E3, bind_Ok_l. exists pb3, l3. split; [done|]. rewrite Hpb2 in Hw, Hr, Hmg, Ht. cbn in Hw, Hr, Hmg, Ht.
  split; [done|]. split.
  - by apply (ring_acct c k pb pb3 g rf [id] Hinv Hw); [rewrite Hr|].
  - rewrite Hw. eapply (fresh_page_step c pb _ _ _ id a n l l3 bm ({[a]} ∪ bm) Hf Hn); try done.
    + by rewrite Hl3e.
    + rewrite Hl3e. cbn. lia.
    + by rewrite Hl3e.
    + rewrite Hl3e. destruct Fa2. by constructor.
    + intros q e He. rewrite Hmg. by apply (Hre q e).
    + set_solver.
  - by rewrite Hr.
Qed.

(** ** A page *)

Definition mapped_n (g : counters) (v : Z) : counters :=
  mk_cnt (g_l2p g) (g_sync g) (g_map g + v) (g_read g) (g_subm g) (g_mem g) (g_writing g).

Definition lba_at (rb : pblk_rb) (x : Z) : Z := match ent rb x with Some e => w_lba (e_w_ctx e) | None => 0 end.

Definition gens (id a n : Z) : list Z := (λ x, addr_to_gen_ppa (cf_ppaf c) x id) <$> seqZ a n.

Lemma gens_cons id a n : 0 ≤ n → gens id a (n + 1) = addr_to_gen_ppa (cf_ppaf c) a id :: gens id (a + 1) n.
Proof.
  intros. unfold gens. rewrite (seqZ_cons a (n + 1)) by lia. rewrite fmap_cons. replace (Z.pred (n + 1)) with n by lia. done.
Qed.

(** Mapping does not change which sectors the buffer holds. *)
Lemma lba_at_mapped rb y e paddr p x :
  ent rb y = Some e → lba_at (rb_set_entries (<[y mod rb_nr_entries rb:=mapped_entry e paddr p]> (rb_entries rb)) rb) x = lba_at rb x.
Proof.
  intros He. unfold lba_at. destruct (decide (x mod rb_nr_entries rb = y mod rb_nr_entries rb)) as [Heq|].
  - rewrite ent_insert_eq by done. unfold ent in *. by rewrite Heq, He.
  - by rewrite ent_insert_ne.
Qed.

Lemma map_sectors_ok n pb g rf id l a sentry valid i v :
  cfg_ok c → ring_inv c k pb g rf → fresh_secs c pb (pend_of (pb_rwb pb) g) id a (Z.of_nat n) l →
  v = Z.max 0 (Z.min (valid - i) (Z.of_nat n)) → g_map g + v ≤ g_read g →
  (i < valid → (sentry + i) mod 2 ^ k = g_map g mod 2 ^ k) →
  ∃ pb' l', map_sectors c alloc_ok n id sentry valid i a pb =
      Ok (gens id a (Z.of_nat n), (lba_at (pb_rwb pb) <$> seqZ (g_map g) v) ++ replicate (n - Z.to_nat v) ADDR_EMPTY, pb') ∧
    ring_inv c k pb' (mapped_n g v) (replicate n id ++ rf) ∧ rl_nr_secs (pb_rl pb') = rl_nr_secs (pb_rl pb) ∧
    pend_of (pb_rwb pb') (mapped_n g v) = pend_of (pb_rwb pb) g ++ gens id a v ∧
    fresh_secs c pb' (pend_of (pb_rwb pb') (mapped_n g v)) id (a + Z.of_nat n) 0 l'.
Proof using KL.
  intros Hcfg. revert pb g rf l a i v. induction n as [|n IH]; intros pb g rf l a i v Hinv Hf Hv Hle Hpos.
  - assert (v = 0) as -> by lia. assert (mapped_n g 0 = g) as -> by (destruct g; unfold mapped_n; cbn; f_equal; lia).
    exists pb, l. rewrite Z.add_0_r. change (gens id a 0) with (@nil Z). split_and!; try done. by rewrite app_nil_r.
  - replace (Z.of_nat (S n)) with (Z.of_nat n + 1) in * by lia. cbn [map_sectors].
    destruct (decide (i < valid)) as [Hiv|Hiv].
    + destruct (map_valid_ok pb g rf id l a (Z.of_nat n) sentry valid i Hinv Hf) as (e & pb1 & l1 & He & E & Hw & [Hr Hf1 Hs]);
        [lia|lia|lia|by apply Hpos|].
      rewrite E, bind_Ok_l. destruct (IH pb1 (mapped g) (id :: rf) l1 (a + 1) (i + 1) (v - 1) Hr Hf1) as (pb2 & l2 & E2 & Hr2 & Hs2 & Hp2 & Hf2).
      { lia. } { cbn. lia. } { intros _. replace (sentry + (i + 1)) with (sentry + i + 1) by lia. cbn.
        pose proof (ri_pos _ _ _ _ _ Hinv). by rewrite <-Z.add_mod_idemp_l, (Hpos Hiv), Z.add_mod_idemp_l by lia. }
      assert (mapped_n (mapped g) (v - 1) = mapped_n g v) as Hg by (unfold mapped_n; cbn; f_equal; lia). rewrite Hg in *.
      rewrite E2, bind_Ok_l. exists pb2, l2. split; [|split; [|split; [congruence|split]]].
      * rewrite gens_cons by lia. do 2 f_equal. f_equal.
        rewrite (seqZ_cons (g_map g) v) by lia. rewrite fmap_cons. cbn [app]. f_equal; [unfold lba_at; by rewrite He|].
        f_equal; [|f_equal; lia]. cbn [mapped g_map]. replace (Z.pred v) with (v - 1) by lia. apply list_fmap_ext. intros j x _.
        rewrite Hw, <-(ri_size _ _ _ _ _ Hinv). by apply lba_at_mapped.
      * change (replicate (S n) id ++ rf) with (id :: replicate n id ++ rf).
        replace (id :: replicate n id ++ rf) with (replicate n id ++ id :: rf); [done|].
        rewrite (app_assoc _ [id] rf), <-replicate_cons_app. done.
      * rewrite Hp2, Hw, (ring_pend_app c k pb g rf), <-app_assoc by (done || lia). f_equal.
        replace v with ((v - 1) + 1) at 2 by lia. by rewrite gens_cons by lia.
      * replace (a + (Z.of_nat n + 1)) with (a + 1 + Z.of_nat n) by lia. exact Hf2.
    + assert (v = 0) as -> by lia.
      destruct (map_pad_ok pb g rf id l a (Z.of_nat n) sentry valid i Hcfg Hinv Hf) as (pb1 & l1 & E & Hw & [Hr Hf1 Hs]); [lia..|].
      rewrite E, bind_Ok_l. destruct (IH pb1 g (id :: rf) l1 (a + 1) (i + 1) 0 Hr Hf1) as (pb2 & l2 & E2 & Hr2 & Hs2 & Hp2 & Hf2); [lia..|].
      rewrite E2, bind_Ok_l. exists pb2, l2. split; [|split; [|split; [congruence|split]]].
      * rewrite gens_cons by lia. cbn. by rewrite Nat.sub_0_r.
      * change (replicate (S n) id ++ rf) with (id :: replicate n id ++ rf).
        replace (id :: replicate n id ++ rf) with (replicate n id ++ id :: rf); [done|].
        rewrite (app_assoc _ [id] rf), <-replicate_cons_app. done.
      * by rewrite Hp2, Hw.
      * replace (a + (Z.of_nat n + 1)) with (a + 1 + Z.of_nat n) by lia. exact Hf2.
Qed.

(** The open line: room for a page, and nothing refers to the sectors it has left. *)
Record open_line (pb : pblk) (pend : list Z) (id : Z) (l : pblk_line) (mb : gset Z) : Prop := {
  ol_line : pb_lines pb !! id = Some l;
  ol_open : ln_state l = PBLK_LINESTATE_OPEN;
  ol_room : room c l mb;
  ol_left : cf_min_write_pgs c ≤ ln_left_msecs l < 2 ^ 31;
  ol_ref : 0 ≤ ln_ref l ∧ ln_ref l + cf_min_write_pgs c < 2 ^ 32;
  ol_emeta : ∃ p e, ln_emeta l = Some p ∧ read_emeta p (pb_mg pb) = Ok e;
  ol_acct : ∃ bm, line_acct c l bm ∧ ∀ x, ln_cur_sec l ≤ x → x < ln_emeta_ssec l → x ∉ mb → x ∉ bm;
  ol_addr : ∀ x, 0 ≤ x < ln_emeta_ssec l →
    dev_addr (addr_to_gen_ppa (cf_ppaf c) x id) ∧ sec_of c (addr_to_gen_ppa (cf_ppaf c) x id) = (id, x);
  ol_map : ∀ b q x, pb_trans_map pb !! b = Some q → dev_addr q → ln_cur_sec l ≤ x < ln_emeta_ssec l → x ∉ mb → sec_of c q ≠ (id, x);
  ol_pend : ∀ q x, q ∈ pend → ln_cur_sec l ≤ x < ln_emeta_ssec l → x ∉ mb → sec_of c q ≠ (id, x);
}.

Lemma map_page_ok pb g rf id l mb sentry v :
  let m := cf_min_write_pgs c in
  cfg_ok c → ring_inv c k pb g rf → open_line pb (pend_of (pb_rwb pb) g) id l mb →
  0 ≤ v ≤ m → g_map g + v ≤ g_read g → sentry mod 2 ^ k = g_map g mod 2 ^ k →
  ∃ a pb', map_page c alloc_ok id sentry v pb =
      Ok (gens id a m, (lba_at (pb_rwb pb) <$> seqZ (g_map g) v) ++ replicate (Z.to_nat m - Z.to_nat v) ADDR_EMPTY, pb') ∧
    (m | a) ∧ ln_cur_sec l ≤ a ∧ a + m ≤ ln_emeta_ssec l ∧ (∀ x, a ≤ x < a + m → x ∉ mb) ∧
    pend_of (pb_rwb pb') (mapped_n g v) = pend_of (pb_rwb pb) g ++ gens id a v ∧
    rl_nr_secs (pb_rl pb') = rl_nr_secs (pb_rl pb) ∧
    ring_inv c k pb' (mapped_n g v) (replicate (Z.to_nat m) id ++ rf).
Proof using KL.
  intros m Hcfg Hinv [L1 L2 L3 L4 L5 L6 (bm & L7 & L8) L9 L10 L11] Hv Hle Hpos.
  destruct (alloc_page_ok c id pb l mb Hcfg L1 L3 L4) as (a & l1 & E & Hd & Hca & Hae & _ & Hfree & Hl1 & _). fold m in E, Hd, Hae, Hfree, Hl1, L4, L5.
  pose proof (rm_range _ _ _ L3) as [? ?]. pose proof (rm_min _ _ _ L3) as Hm. fold m in Hm.
  assert (acct_inv c (upd_line id l1 pb) (pend_of (pb_rwb pb) g) rf) as Ha.
  { apply (acct_open_line _ _ _ _ _ l l1 false (ri_acct _ _ _ _ _ Hinv)); rewrite ?Hl1; try done; cbn; lia. }
  pose proof (ring_acct c k pb (upd_line id l1 pb) g rf [] Hinv eq_refl eq_refl Ha) as Hr. cbn [app] in Hr.
  destruct (map_sectors_ok (Z.to_nat m) (upd_line id l1 pb) g rf id l1 a sentry v 0 v Hcfg Hr) as (pb' & l2 & E2 & Hr2 & Hs & Hp & _).
  - rewrite Z2Nat.id by lia. constructor; rewrite ?Hl1; try done; cbn; try lia.
    + by rewrite lookup_insert_eq.
    + exists bm. split; [by destruct L7; constructor|]. intros x Hx. apply L8; [lia..|by apply Hfree].
    + intros x Hx. apply L9. lia.
    + intros b q x Hb Hq Hx. apply (L10 b); [done..|lia|by apply Hfree].
    + intros q x Hq Hx. apply L11; [done|lia|by apply Hfree].
  - rewrite Z2Nat.id by lia. lia.
  - done.
  - intros _. by rewrite Z.add_0_r.
  - exists a, pb'. unfold map_page. fold m. rewrite E, bind_Ok_l. cbn [fst snd]. rewrite Z2Nat.id in E2 by lia. rewrite E2. done.
Qed.

End page.

(** The small device with one sector taken by the write thread. *)
Definition rb_page : pblk_rb :=
  mk_rb {[0 := mk_entry (pblk_cacheline_to_ppa 0) 77 (mk_wctx [] 2 0 0 (Z.lor PBLK_IOTYPE_USER PBLK_SUBMITTED_ENTRY));
          1 := fresh_entry 1; 2 := fresh_entry 2; 3 := fresh_entry 3]} 1 1 0 EMPTY_ENTRY 0 4.

Definition mg_page : pblk_line_mgmt := mg_set_eline_meta {[0 := emeta0]} (pb_mg pb_demo).

Definition pb_page : pblk := upd_line 1 line_open (pb_set_mg mg_page (pb_set_rwb rb_page pb_demo)).

Definition cnt_page : counters := mk_cnt 0 0 0 1 1 1 ∅.

Lemma acct_page : acct_inv cfg_tiny pb_page [] [].
Proof.
  apply (acct_open_line cfg_tiny (pb_set_mg mg_page (pb_set_rwb rb_page pb_demo)) [] [] 1
    (line_demo PBLK_LINESTATE_OPEN PBLK_LINEGC_NONE) line_open false); try done.
  apply acct_mg; [|done]. apply acct_rwb, demo_acct.
Qed.

Lemma ring_page : ring_inv cfg_tiny 2 pb_page cnt_page [].
Proof.
  constructor; try done; try lia.
  - intros x Hx. cbn in Hx. assert (∀ nr i, 1 ≤ i → entry_ok nr cnt_page i (fresh_entry i)) as Hf.
    { intros nr i Hi. split_and!; cbn; [by intros _|..]; rewrite ?elem_of_empty; intros; lia. }
    assert (x = 0 ∨ x = 1 ∨ x = 2 ∨ x = 3) as [->|[->|[->| ->]]] by lia; eexists; (split; [by vm_compute|]); (split; [done|]);
      try (apply Hf; lia).
    split_and!; cbn; rewrite ?elem_of_empty; try lia; by vm_compute.
  - apply acct_page.
  - by exists [].
Qed.

Lemma open_page : open_line cfg_tiny pb_page (pend_of rb_page cnt_page) 1 line_open mb_demo.
Proof.
  assert (Forall (λ x, dev_addr (addr_to_gen_ppa paf_tiny x 1) ∧ sec_of cfg_tiny (addr_to_gen_ppa paf_tiny x 1) = (1, x)) (seqZ 0 30)) as Ha.
  { apply (bool_decide_unpack _). by vm_compute. }
  rewrite Forall_forall in Ha. constructor; try done.
  - apply room_demo.
  - by exists (EM_data 0), emeta0.
  - exists {[0; 31]}. split.
    + constructor; [done| |by vm_compute|by vm_compute]. intros i. rewrite elem_of_union, !elem_of_singleton. cbn. lia.
    + intros x Hx1 Hx2 _. rewrite elem_of_union, !elem_of_singleton. cbn in *. lia.
  - intros x Hx. apply Ha, elem_of_seqZ. cbn in Hx. lia.
  - intros b q x Hb Hd _ _. change (pb_trans_map pb_page) with (pb_trans_map pb_demo) in Hb.
    by destruct (demo_sectors b q Hb Hd) as [[_ ->]|[_ ->]].
  - by intros q x Hq%elem_of_nil.
Qed.

