(* ===== verification/PbProto.v ===== *)
(** * pblk: the write buffer as a queue

    The operations of the writers, the write thread and the completions on the ring, in any
    order ([ring_reach]): each of them, where it is allowed to run, returns, keeps the
    pointers in order and the accounts right; and the write thread takes the sectors in the
    order in which room was given out for them, each with the data that was written. *)

From S2P Require Import Prelude Kernel PbAddr PbRl PbState PbMap PbRb PbRing PbLine PbWrite PbAlloc PbPage.

#[local] Open Scope Z_scope.

(** ** What the entries hold *)

(** The data and the sector of each entry. *)
Definition payload (e : pblk_rb_entry) : Z * Z := (e_data e, w_lba (e_w_ctx e)).
Definition payloads (rb : pblk_rb) : gmap Z (Z * Z) := payload <$> rb_entries rb.

Lemma set_w_ctx_payloads pos w rb rb' e :
  set_w_ctx pos w rb = Ok rb' → rb_entries rb !! pos = Some e → w_lba w = w_lba (e_w_ctx e) → payloads rb' = payloads rb.
Proof.
  unfold set_w_ctx. intros Hs He Hw. rewrite (aread_Some _ _ _ He), bind_Ok_l in Hs. injection Hs as <-.
  unfold payloads. cbn. rewrite fmap_insert, insert_id; [done|]. rewrite lookup_fmap, He. cbn. unfold payload. cbn. by rewrite Hw.
Qed.

(** The accounts do not touch the buffer. *)
Lemma page_invalidate_rwb c p pb pb' : pblk_page_invalidate c p pb = Ok pb' → pb_rwb pb' = pb_rwb pb.
Proof.
  unfold pblk_page_invalidate. intros H. inv_ok. case_decide; [by inv_ok|]. inv_ok. case_decide; [by inv_ok|].
  case_decide; [|by inv_ok]. destruct (pblk_line_gc_list _ _) as [[L|] l']; cbn in H; inv_ok; done.
Qed.

Lemma kref_put_rwb id pb pb' : line_kref_put id pb = Ok pb' → pb_rwb pb' = pb_rwb pb.
Proof. unfold line_kref_put, pblk_line_put. intros H. inv_ok. case_decide; [|by inv_ok]. inv_ok. done. Qed.

Lemma update_map_dev_rwb c lba p line pb pb' : pblk_update_map_dev c lba p line pb = Ok pb' → pb_rwb pb' = pb_rwb pb.
Proof.
  unfold pblk_update_map_dev. intros H. inv_ok. case_decide; [|by inv_ok]. by eapply page_invalidate_rwb.
Qed.

Lemma update_l2p_entry_payloads c pb pb' : update_l2p_entry c pb = Ok pb' → payloads (pb_rwb pb') = payloads (pb_rwb pb).
Proof.
  unfold update_l2p_entry. intros H. inv_ok. apply update_map_dev_rwb in Er0. apply kref_put_rwb in Er1.
  unfold clean_wctx in Er2. case_decide; [|done]. inv_ok. rewrite Er1, Er0 in Er3.
  rewrite <-(set_w_ctx_payloads _ _ _ _ _ Er3 Er); done.
Qed.

Lemma update_l2p_payloads c n pb pb' : __pblk_rb_update_l2p c n pb = Ok pb' → payloads (pb_rwb pb') = payloads (pb_rwb pb).
Proof.
  unfold __pblk_rb_update_l2p. generalize (seqZ 0 n). intros l. revert pb. induction l as [|x l IH]; intros pb H; cbn in H; inv_ok; [done|].
  rewrite (IH _ H). by eapply update_l2p_entry_payloads.
Qed.

Section proto.
Context {K0 : Kops} {KL : KopsLaws} (c : pblk_cfg) (alloc_ok : nat → bool) (k : Z).

Lemma may_write_payloads n pb r pb' : __pblk_rb_may_write c n pb = Ok (r, pb') → payloads (pb_rwb pb') = payloads (pb_rwb pb).
Proof.
  unfold __pblk_rb_may_write, pblk_rb_update_l2p. intros H. case_decide; [by inv_ok|]. inv_ok. case_decide; [by inv_ok|].
  by eapply update_l2p_payloads.
Qed.

Lemma sync_point_set_payloads bio pos rb w rb' : pblk_rb_sync_point_set bio pos rb = Ok (w, rb') → payloads rb' = payloads rb.
Proof.
  unfold pblk_rb_sync_point_set. intros H. case_decide; [by inv_ok|]. inv_ok.
  rewrite <-(set_w_ctx_payloads _ _ _ _ _ Er0 Er); done.
Qed.

Lemma may_write_user_payloads bio pf n pb r pb' :
  pblk_rb_may_write_user c bio pf n pb = Ok (r, pb') → payloads (pb_rwb pb') = payloads (pb_rwb pb).
Proof.
  unfold pblk_rb_may_write_user, pblk_rb_may_write_flush. intros H. case_decide; [by inv_ok|]. inv_ok.
  apply may_write_payloads in Er0. rewrite <-Er0. destruct o as [pos|]; inv_ok; [|done].
  change (payloads p1 = payloads (pb_rwb p)). destruct pf; [by eapply sync_point_set_payloads|by inv_ok].
Qed.

Lemma may_write_gc_payloads n pb r pb' :
  pblk_rb_may_write_gc c n pb = Ok (r, pb') → payloads (pb_rwb pb') = payloads (pb_rwb pb).
Proof.
  unfold pblk_rb_may_write_gc, pblk_rb_may_write. intros H. case_decide; [by inv_ok|]. inv_ok.
  apply may_write_payloads in Er0. rewrite <-Er0. destruct o as [pos|]; by inv_ok.
Qed.

Lemma read_entry_payloads ok pos a rb ok' a' rb' : read_entry ok pos a rb = Ok (ok', a', rb') → payloads rb' = payloads rb.
Proof.
  unfold read_entry. intros H. inv_ok. case_decide; [done|]. destruct ok; inv_ok.
  - rewrite (set_w_ctx_payloads _ _ _ _ _ Er0 Er); done.
  - rewrite (set_w_ctx_payloads _ _ _ _ _ Er0 Er); done.
Qed.

Lemma read_entries_payloads page_ok n i pos a rb ok a' rb' :
  read_entries page_ok n i pos a rb = Ok (ok, a', rb') → payloads rb' = payloads rb.
Proof.
  revert i pos a rb. induction n as [|n IH]; intros i pos a rb H; cbn [read_entries] in H; [by inv_ok|].
  apply bind_Ok in H as ([[o a1] rb1] & E & H). apply read_entry_payloads in E. destruct o; [|by inv_ok].
  rewrite <-E. by eapply IH.
Qed.

Lemma read_to_bio_payloads page_ok pos n count pb x y pb' :
  pblk_rb_read_to_bio page_ok pos n count pb = Ok (x, y, pb') → payloads (pb_rwb pb') = payloads (pb_rwb pb).
Proof.
  unfold pblk_rb_read_to_bio. intros H. apply bind_Ok in H as ([[o a1] rb1] & E & H). apply read_entries_payloads in E.
  destruct o; inv_ok; done.
Qed.

Lemma set_lba_rwb id a lba pb pb' : set_lba c id a lba pb = Ok pb' → pb_rwb pb' = pb_rwb pb.
Proof. unfold set_lba. intros H. inv_ok. case_decide; by inv_ok. Qed.

Lemma pad_invalidate_rwb id a pb pb' : pblk_page_pad_invalidate c alloc_ok id a pb = Ok pb' → pb_rwb pb' = pb_rwb pb.
Proof.
  unfold pblk_page_pad_invalidate, sync_sector. intros H. inv_ok. case_decide; [|done].
  unfold pblk_line_run_ws, ask. by destruct (alloc_ok _).
Qed.

Lemma map_sector_payloads id s v i a pb p lba pb' :
  map_sector c alloc_ok id s v i a pb = Ok (p, lba, pb') → payloads (pb_rwb pb') = payloads (pb_rwb pb).
Proof.
  unfold map_sector. intros H. apply bind_Ok in H as (pb1 & E & H).
  assert (pb_rwb pb1 = pb_rwb pb) as <- by (unfold kref_get in E; by inv_ok). cbv zeta in H. case_decide.
  - unfold pblk_rb_w_ctx in H. apply bind_Ok in H as (w & Ew & H). apply bind_Ok in H as (rb & Er & H).
    apply bind_Ok in H as (pb2 & Es & H). apply set_lba_rwb in Es. injection H as <- <- <-. rewrite Es.
    apply bind_Ok in Ew as (e & Ee%aread_Ok & [= <-]).
    change (payloads rb = payloads (pb_rwb pb1)). by rewrite (set_w_ctx_payloads _ _ _ _ _ Er Ee).
  - apply bind_Ok in H as (pb2 & Es & H). apply bind_Ok in H as (pb3 & Ei & H). apply set_lba_rwb in Es.
    apply pad_invalidate_rwb in Ei. injection H as <- <- <-. congruence.
Qed.

Lemma map_sectors_payloads n id s v i a pb ps lbas pb' :
  map_sectors c alloc_ok n id s v i a pb = Ok (ps, lbas, pb') → payloads (pb_rwb pb') = payloads (pb_rwb pb).
Proof.
  revert i a pb ps lbas pb'. induction n as [|n IH]; intros i a pb ps lbas pb' H; cbn [map_sectors] in H; [by inv_ok|].
  apply bind_Ok in H as ([[p lba] pb1] & E & H). apply map_sector_payloads in E. apply bind_Ok in H as ([[ps1 l1] pb2] & E2 & H).
  apply IH in E2. inv_ok. congruence.
Qed.

Lemma map_page_payloads id s v pb r pb' :
  map_page c alloc_ok id s v pb = Ok (r, pb') → payloads (pb_rwb pb') = payloads (pb_rwb pb).
Proof.
  unfold map_page. intros H. apply bind_Ok in H as ([a pb1] & E & H). destruct r as [ps lbas]. apply map_sectors_payloads in H.
  rewrite H. unfold pblk_alloc_page in E. by inv_ok.
Qed.

(** ** Operations *)

Inductive ring_op : Type :=
  | Op_room_user (bio : Z) (preflush : bool) (n : Z)   (** a writer asks for room *)
  | Op_room_gc (n : Z)
  | Op_write (x data : Z) (w : pblk_w_ctx)             (** a writer fills the entry of counter [x] *)
  | Op_commit (n : Z)                                  (** the write thread: *)
  | Op_take (pos nr_entries count : Z)
  | Op_map_page (id sentry v : Z)
  | Op_complete (n : Z)                                (** a completion *)
  | Op_flush_l2p.

Definition run_ring (o : ring_op) (pb : pblk) : res pblk :=
  match o with
  | Op_room_user bio preflush n => r ← pblk_rb_may_write_user c bio preflush n pb; Ok (snd r)
  | Op_room_gc n => r ← pblk_rb_may_write_gc c n pb; Ok (snd r)
  | Op_write x data w => r ← pblk_rb_write_entry data w (x mod 2 ^ k) (pb_rwb pb); Ok (pb_set_rwb (snd r) pb)
  | Op_commit n => Ok (pb_set_rwb (snd (pblk_rb_read_commit n (pb_rwb pb))) pb)
  | Op_take pos nr_entries count => r ← pblk_rb_read_to_bio (λ _, true) pos nr_entries count pb; Ok (snd r)
  | Op_map_page id sentry v => r ← map_page c alloc_ok id sentry v pb; Ok (snd r)
  | Op_complete n => Ok (pb_set_rwb (snd (pblk_rb_sync_advance n (pb_rwb pb))) pb)
  | Op_flush_l2p => pblk_rb_sync_l2p c pb
  end.

(** What the callers see to: requests smaller than the buffer; room is filled by the one it
    was given to; the thread takes what it committed, once it is written, and maps and
    completes what it took. *)
Definition allowed (pb : pblk) (g : counters) (o : ring_op) : Prop :=
  match o with
  | Op_room_user _ _ n | Op_room_gc n => 0 ≤ n < 2 ^ k
  | Op_write x data w => x ∈ g_writing g ∧ 0 ≤ w_lba w < rl_nr_secs (pb_rl pb) ∧ ¬ has (w_flags w) PBLK_WRITABLE_ENTRY
  | Op_commit n => 0 ≤ n ≤ g_mem g - g_subm g
  | Op_take pos nr_entries count =>
      pos = g_read g mod 2 ^ k ∧ 0 ≤ count < 2 ^ 31 ∧ 0 ≤ nr_entries < 2 ^ 31 ∧
      Z.min nr_entries count = g_subm g - g_read g ∧ ∀ x, g_read g ≤ x < g_subm g → x ∉ g_writing g
  | Op_map_page id sentry v =>
      (∃ l mb, open_line c pb (pend_of (pb_rwb pb) g) id l mb) ∧ 0 ≤ v ≤ cf_min_write_pgs c ∧
      g_map g + v ≤ g_read g ∧ sentry mod 2 ^ k = g_map g mod 2 ^ k
  | Op_complete n => 0 ≤ n ≤ g_map g - g_sync g
  | Op_flush_l2p => True
  end.

(** The queue: what an operation does to the counters.  Room may be refused; before it is
    given out, the map may follow for up to all completed entries. *)
Inductive next (g : counters) : ring_op → counters → Prop :=
  | nx_refused bio preflush n : next g (Op_room_user bio preflush n) g
  | nx_user bio preflush n m : 0 ≤ m ≤ g_sync g - g_l2p g → next g (Op_room_user bio preflush n) (give_room (step_l2p g m) n)
  | nx_refused_gc n : next g (Op_room_gc n) g
  | nx_gc n m : 0 ≤ m ≤ g_sync g - g_l2p g → next g (Op_room_gc n) (give_room (step_l2p g m) n)
  | nx_write x data w : next g (Op_write x data w) (wrote g x)
  | nx_commit n : next g (Op_commit n) (commit g n)
  | nx_take pos nr count : next g (Op_take pos nr count) (took_n g (g_subm g - g_read g))
  | nx_map id sentry v : next g (Op_map_page id sentry v) (mapped_n g v)
  | nx_complete n : next g (Op_complete n) (synced g n)
  | nx_flush : next g Op_flush_l2p (step_l2p g (g_sync g - g_l2p g)).

(** The pointers of the ring are these counters. *)
Definition points (pb : pblk) (g : counters) : Prop :=
  let rb := pb_rwb pb in
  rb_mem rb = g_mem g mod 2 ^ k ∧ rb_subm rb = g_subm g mod 2 ^ k ∧ rb_sync rb = g_sync g mod 2 ^ k ∧
  rb_l2p_update rb = g_l2p g mod 2 ^ k.

(** What was written for a counter. *)
Definition logged (o : ring_op) (log : gmap Z (Z * Z)) : gmap Z (Z * Z) :=
  match o with Op_write x data w => <[x:=(data, w_lba w)]> log | _ => log end.

Inductive ring_reach (pb0 : pblk) (g0 : counters) (log0 : gmap Z (Z * Z)) : pblk → counters → gmap Z (Z * Z) → Prop :=
  | rr_start : ring_reach pb0 g0 log0 pb0 g0 log0
  | rr_step pb g log o pb' g' :
      ring_reach pb0 g0 log0 pb g log → allowed pb g o → run_ring o pb = Ok pb' → next g o g' → points pb' g' →
      ring_reach pb0 g0 log0 pb' g' (logged o log).

(** The entries in use hold what was written. *)
Definition holds (pb : pblk) (g : counters) (log : gmap Z (Z * Z)) : Prop :=
  ∀ x, g_l2p g ≤ x < g_mem g → x ∉ g_writing g → ∃ e, ent (pb_rwb pb) x = Some e ∧ log !! x = Some (payload e).

Lemma ring_points pb g rf : ring_inv c k pb g rf → points pb g.
Proof. by intros []. Qed.

Lemma run_ring_ok pb g rf o :
  cfg_ok c → ring_inv c k pb g rf → allowed pb g o →
  ∃ pb' g' rf', run_ring o pb = Ok pb' ∧ next g o g' ∧ ring_inv c k pb' g' rf'.
Proof using KL.
  intros Hcfg Hinv Ha. pose proof (ri_pos _ _ _ _ _ Hinv) as Hp2.
  destruct o as [bio pf n|n|x data w|n|pos nr count|id sentry v|n|]; cbn [run_ring]; cbn [allowed] in Ha.
  - destruct (may_write_user_ok c k pb g rf bio pf n Hcfg Hinv ltac:(lia)) as [->|(pb' & m & rf' & ret & -> & Hm & Hi & _)];
      rewrite bind_Ok_l.
    + exists pb, g, rf. split; [done|]. split; [constructor|done].
    + exists pb', (give_room (step_l2p g m) n), rf'. split; [done|]. split; [by constructor|done].
  - destruct (may_write_gc_ok c k pb g rf n Hcfg Hinv ltac:(lia)) as [->|(pb' & m & rf' & -> & Hm & Hi)];
      rewrite bind_Ok_l.
    + exists pb, g, rf. split; [done|]. split; [constructor|done].
    + exists pb', (give_room (step_l2p g m) n), rf'. split; [done|]. split; [by constructor|done].
  - destruct Ha as (Hx & Hl & Hf). destruct (write_entry_ok c k pb g rf x data w Hinv Hx Hl Hf) as (e & rb' & _ & -> & _ & Hi). rewrite bind_Ok_l.
    do 3 eexists. split; [done|]. split; [constructor|done].
  - destruct (read_commit_ok c k pb g rf n Hinv Ha) as [-> Hi]. do 3 eexists. split; [done|]. split; [constructor|done].
  - destruct Ha as (-> & Hc & Hn & Hmin & Hw). destruct (read_to_bio_ok c k pb g rf nr count Hinv Hc Hn Hmin Hw) as (pb' & -> & Hi). rewrite bind_Ok_l.
    do 3 eexists. split; [done|]. split; [constructor|done].
  - destruct Ha as ((l & mb & Ho) & Hv & Hle & Hs).
    destruct (map_page_ok c alloc_ok k pb g rf id l mb sentry v Hcfg Hinv Ho Hv Hle Hs) as (a & pb' & -> & _ & _ & _ & _ & _ & _ & Hi).
    rewrite bind_Ok_l. do 3 eexists. split; [done|]. split; [constructor|exact Hi].
  - destruct (sync_advance_ok c k pb g rf n Hinv Ha) as [-> Hi]. do 3 eexists. split; [done|]. split; [constructor|done].
  - destruct (sync_l2p_ok c k pb g rf Hcfg Hinv) as (pb' & rf' & -> & Hi). do 3 eexists. split; [done|]. split; [constructor|done].
Qed.

Lemma run_ring_payloads o pb pb' :
  run_ring o pb = Ok pb' →
  payloads (pb_rwb pb') = match o with Op_write x data w => <[x mod 2 ^ k:=(data, w_lba w)]> (payloads (pb_rwb pb)) | _ => payloads (pb_rwb pb) end.
Proof.
  destruct o; cbn [run_ring]; intros H; try (apply bind_Ok in H as ([r pb1] & E & [= <-])).
  - by eapply may_write_user_payloads.
  - by eapply may_write_gc_payloads.
  - unfold pblk_rb_write_entry in E. inv_ok. unfold payloads. cbn. by rewrite fmap_insert.
  - by injection H as <-.
  - destruct r as [x y]. by eapply read_to_bio_payloads.
  - by eapply map_page_payloads.
  - by injection H as <-.
  - by eapply update_l2p_payloads.
Qed.

(** The pointers say which of the possible steps the ring made. *)
Lemma mod_add_inj N x a b : 0 < N → 0 ≤ a < N → 0 ≤ b < N → (x + a) mod N = (x + b) mod N → a = b.
Proof. intros HN Ha Hb He. apply (mod_inj_window N x) in He; lia. Qed.

Lemma give_room_0 g : give_room (step_l2p g 0) 0 = g.
Proof.
  rewrite step_l2p_0. destruct g. unfold give_room. cbn. f_equal; [lia|]. change (list_to_set (seqZ g_mem 0)) with (∅ : gset Z).
  by rewrite (right_id_L ∅ (∪)).
Qed.

(** Room that was refused or given, after the map followed for [m] entries. *)
Lemma room_unique pb' g m1 n1 m2 n2 :
  1 ≤ 2 ^ k → ordered (2 ^ k) g → 0 ≤ n1 < 2 ^ k → 0 ≤ n2 < 2 ^ k → 0 ≤ m1 ≤ g_sync g - g_l2p g → 0 ≤ m2 ≤ g_sync g - g_l2p g →
  points pb' (give_room (step_l2p g m1) n1) → points pb' (give_room (step_l2p g m2) n2) → m1 = m2 ∧ n1 = n2.
Proof.
  intros Hk [] Hn1 Hn2 Hm1 Hm2 (P1 & _ & _ & L1) (P2 & _ & _ & L2). rewrite P1 in P2. rewrite L1 in L2. cbn in P2, L2.
  split; [apply (mod_add_inj (2 ^ k)) in L2|apply (mod_add_inj (2 ^ k)) in P2]; lia.
Qed.

(** A step that asks for room gives it out or not. *)
Lemma next_room g n g' :
  (∃ bio pf, next g (Op_room_user bio pf n) g') ∨ next g (Op_room_gc n) g' →
  0 ≤ g_sync g - g_l2p g → ∃ m n', 0 ≤ m ≤ g_sync g - g_l2p g ∧ (n' = 0 ∨ n' = n) ∧ g' = give_room (step_l2p g m) n'.
Proof.
  intros [(bio & pf & H)|H] Hls; inversion H; subst; try (exists 0, 0; rewrite give_room_0; split; [lia|split; [by left|done]]);
    eexists _, n; (split; [eassumption|]); (split; [by right|done]).
Qed.

Lemma next_unique pb g o pb' g1 g2 :
  1 ≤ 2 ^ k → ordered (2 ^ k) g → allowed pb g o → next g o g1 → next g o g2 → points pb' g1 → points pb' g2 → g1 = g2.
Proof.
  intros Hk Ho Ha H1 H2 P1 P2. assert (0 ≤ g_sync g - g_l2p g) as Hls by (destruct Ho; lia).
  assert (∀ n, 0 ≤ n < 2 ^ k → (∃ m n', 0 ≤ m ≤ g_sync g - g_l2p g ∧ (n' = 0 ∨ n' = n) ∧ g1 = give_room (step_l2p g m) n') →
    (∃ m n', 0 ≤ m ≤ g_sync g - g_l2p g ∧ (n' = 0 ∨ n' = n) ∧ g2 = give_room (step_l2p g m) n') → g1 = g2) as Hroom.
  { intros n Hn (m1 & n1 & Hm1 & Hn1 & ->) (m2 & n2 & Hm2 & Hn2 & ->).
    destruct (room_unique pb' g m1 n1 m2 n2) as [-> ->]; done || lia. }
  destruct o; cbn [allowed] in Ha; try (apply (Hroom n Ha); apply next_room; eauto); inversion H1; inversion H2; congruence.
Qed.

Lemma ent_payload rb rb' x :
  payloads rb' = payloads rb → rb_nr_entries rb' = rb_nr_entries rb → payload <$> ent rb' x = payload <$> ent rb x.
Proof. intros Hp Hn. unfold ent. rewrite Hn, <-!lookup_fmap. unfold payloads in Hp. by rewrite Hp. Qed.

Lemma holds_alt pb g log :
  holds pb g log ↔ ∀ x, g_l2p g ≤ x < g_mem g → x ∉ g_writing g → ∃ y, payload <$> ent (pb_rwb pb) x = Some y ∧ log !! x = Some y.
Proof.
  split; intros H x Hx Hw; destruct (H x Hx Hw) as (e & E & L).
  - exists (payload e). by rewrite E.
  - apply fmap_Some in E as (e' & E & ->). eauto.
Qed.

Lemma holds_step pb g rf o pb' g' rf' log :
  ring_inv c k pb g rf → ring_inv c k pb' g' rf' → allowed pb g o → run_ring o pb = Ok pb' → next g o g' →
  holds pb g log → holds pb' g' (logged o log).
Proof.
  intros Hinv Hinv' Ha Hrun Hn. rewrite !holds_alt. intros H. pose proof (ri_pos _ _ _ _ _ Hinv) as Hp2.
  pose proof (ri_size _ _ _ _ _ Hinv) as Rn. pose proof (ri_size _ _ _ _ _ Hinv') as Rn'.
  pose proof (ri_ord _ _ _ _ _ Hinv) as [O1 O2 O3 O4 O5 O6 O7]. pose proof (run_ring_payloads _ _ _ Hrun) as Hpl.
  assert ((∀ x, g_l2p g' ≤ x < g_mem g' → x ∉ g_writing g' → g_l2p g ≤ x < g_mem g ∧ x ∉ g_writing g) →
    payloads (pb_rwb pb') = payloads (pb_rwb pb) → logged o log = log →
    ∀ x, g_l2p g' ≤ x < g_mem g' → x ∉ g_writing g' → ∃ y, payload <$> ent (pb_rwb pb') x = Some y ∧ logged o log !! x = Some y) as Hsame.
  { intros Hx Hp Hl x H1 H2. destruct (Hx x H1 H2) as [H3 H4]. rewrite (ent_payload (pb_rwb pb)), Hl by congruence. by apply H. }
  destruct Hn as [| bio pf n m Hm | | n m Hm | x data w | n | pos nr count | id sentry v | n |]; try (apply Hsame; [|exact Hpl|done]; cbn).
  - done.
  - intros x Hx. rewrite not_elem_of_union, elem_of_list_to_set, elem_of_seqZ. intros [Hw Hr]. split; [lia|done].
  - done.
  - intros x Hx. rewrite not_elem_of_union, elem_of_list_to_set, elem_of_seqZ. intros [Hw Hr]. split; [lia|done].
  - destruct Ha as (Hx & _). pose proof (O7 x Hx) as Hxr. cbn. intros y Hy Hyw.
    assert (payload <$> ent (pb_rwb pb') y = (<[x mod 2 ^ k:=(data, w_lba w)]> (payloads (pb_rwb pb))) !! (y mod 2 ^ k)) as Hent.
    { unfold ent. rewrite Rn', <-lookup_fmap. unfold payloads in Hpl. by rewrite Hpl. }
    rewrite Hent. destruct (decide (x = y)) as [->|Hne].
    + rewrite !lookup_insert_eq. eauto.
    + rewrite !lookup_insert_ne; [|done|]. 2: { intros He. apply Hne. by apply (mod_inj_window _ (g_l2p g)) in He; lia. }
      destruct (H y) as (z & E & L); [done| |].
      { intros Hin. apply Hyw, elem_of_difference. split; [done|]. rewrite elem_of_singleton. congruence. }
      exists z. split; [|done]. rewrite <-E. unfold ent. rewrite Rn. unfold payloads. by rewrite lookup_fmap.
  - done.
  - done.
  - done.
  - done.
  - intros x Hx Hw. split; [lia|done].
Qed.

Lemma ring_reach_inv pb0 g0 rf0 log0 pb g log :
  cfg_ok c → ring_inv c k pb0 g0 rf0 → holds pb0 g0 log0 → ring_reach pb0 g0 log0 pb g log →
  (∃ rf, ring_inv c k pb g rf) ∧ holds pb g log.
Proof using KL.
  intros Hcfg H0 Hh0 Hr. induction Hr as [|pb g log o pb' g' _ [[rf IH] IHh] Ha Hrun Hn Hp]; [eauto|].
  destruct (run_ring_ok pb g rf o Hcfg IH Ha) as (pb1 & g1 & rf1 & E & Hn1 & Hi1). rewrite Hrun in E. injection E as <-.
  pose proof (ri_pos _ _ _ _ _ IH) as Hp2.
  assert (g' = g1) as ->.
  { apply (next_unique pb g o pb'); [lia|apply IH|done..|]. by apply (ring_points pb' g1 rf1). }
  split; [eauto|]. by apply (holds_step pb g rf o pb' g1 rf1 log).
Qed.

End proto.

(** A sector is written behind the one the write thread has, and is the next it takes. *)
Definition go (o : ring_op) (pb : pblk) : pblk := match run_ring cfg_tiny (λ _, true) 2 o pb with Ok pb' => pb' | Fault _ => pb end.

Definition demo_room : ring_op := Op_room_user 5 false 1.
Definition demo_write : ring_op := Op_write 1 88 (mk_wctx [] 3 0 0 PBLK_IOTYPE_USER).
Definition demo_commit : ring_op := Op_commit 1.

Definition pb_written : pblk := go demo_commit (go demo_write (go demo_room pb_page)).
Definition cnt_written : counters := commit (wrote (give_room (step_l2p cnt_page 0) 1) 1) 1.

Definition log_page : gmap Z (Z * Z) := {[0 := (77, 2)]}.

Lemma reach_written :
  ring_reach cfg_tiny (λ _, true) 2 pb_page cnt_page log_page pb_written cnt_written
    (logged demo_commit (logged demo_write (logged demo_room log_page))).
Proof.
  apply (rr_step _ _ _ _ _ _ (go demo_write (go demo_room pb_page)) (wrote (give_room (step_l2p cnt_page 0) 1) 1));
    [| |by vm_compute|constructor|by vm_compute].
  - apply (rr_step _ _ _ _ _ _ (go demo_room pb_page) (give_room (step_l2p cnt_page 0) 1)); [| |by vm_compute|constructor|by vm_compute].
    + apply (rr_step _ _ _ _ _ _ pb_page cnt_page); [constructor| |by vm_compute|constructor|by vm_compute]; cbn; lia.
    + split; [|split; [vm_compute; split; congruence|by vm_compute]]. cbn. set_solver.
  - cbn. lia.
Qed.

