(* ===== verification/PbGc.v ===== *)
(** * pblk: the garbage collector

    drivers/lightnvm/pblk-gc.c, with the part of pblk-core.c that reads the end metadata of
    a line back and pblk_recov_get_lba_list.  A victim is moved in requests of at most
    [max_write_pgs] sectors; which sectors it holds comes from its end metadata, which are
    valid from its bitmap.  The allocators and what submitting a read returns are one
    oracle ([ask]); what the device holds are parameters. *)

From S2P Require Import Prelude Kernel PbAddr PbRl PbState PbMap PbRb PbRing PbCache PbLine PbWrite PbAlloc PbPage.

#[local] Open Scope Z_scope.

Section gc.
Context `{Kops} (c : pblk_cfg) (alloc_ok : nat → bool) (dev_submit dev_error : nat → Z).
(** The device: the data of a sector, the metadata a list of sectors holds, the logical
    address stored next to a sector. *)
Context (dev_read : Z → Z) (dev_emeta : list Z → line_emeta) (dev_lba : Z → Z) (crc_emeta : line_emeta → Z).
Context (fuel : nat).

Notation ask := (ask alloc_ok).

(** ** End metadata *)

(** Pages of bad blocks are skipped. *)
Fixpoint skip_bad (n : nat) (id : Z) (l : pblk_line) (paddr : Z) : res Z :=
  match n with
  | O => Fault F_FUEL
  | S n' =>
      if decide (pblk_ppa_to_pos (cf_geo c) (addr_to_gen_ppa (cf_ppaf c) paddr id) ∈ ln_blk_bitmap l)
      then skip_bad n' id l (paddr + cf_min_write_pgs c) else Ok paddr
  end.

(** The addresses of [n] pages, and where the next one is looked for. *)
Fixpoint emeta_read_secs (n : nat) (id : Z) (l : pblk_line) (paddr : Z) : res (list Z * Z) :=
  match n with
  | O => Ok ([], paddr)
  | S n' =>
      p ← skip_bad fuel id l paddr;
      r ← emeta_read_secs n' id l (p + cf_min_write_pgs c);
      Ok (map (λ a, addr_to_gen_ppa (cf_ppaf c) a id) (seqZ p (cf_min_write_pgs c)) ++ fst r, snd r)
  end.

(** An error of the device is not looked at. *)
Fixpoint emeta_read (n : nat) (id left_ppas paddr : Z) (pb : pblk) : res (Z * list Z * pblk) :=
  match n with
  | O => Fault F_FUEL
  | S n' =>
      let rq_ppas := pblk_calc_secs c left_ppas 0 in
      let '(ok, pb) := ask pb in
      if negb ok then Ok (- ENOMEM, [], pb)
      else
        l ← aread (pb_lines pb) id;
        r ← emeta_read_secs (nr_pages c rq_ppas) id l paddr;
        let '(ret, _, pb) := pblk_submit_io dev_submit dev_error (IO_read (fst r)) pb in
        if decide (ret ≠ 0) then Ok (ret, [], pb)
        else
          let left := s32 (left_ppas - rq_ppas) in
          if decide (left ≠ 0) then
            x ← emeta_read n' id left (snd r) pb;
            match x with (ret, ppas, pb) => Ok (ret, fst r ++ ppas, pb) end
          else Ok (0, fst r, pb)
  end.

(** The metadata goes to the buffer of the collector. *)
Definition pblk_line_read_emeta (id : Z) (pb : pblk) : res (Z * pblk) :=
  l ← aread (pb_lines pb) id;
  let '(ok, pb) := ask pb in
  if negb ok then Ok (- ENOMEM, pb)
  else
    r ← emeta_read (S (Z.to_nat (lm_emeta_sec (cf_lm c)))) id (lm_emeta_sec (cf_lm c)) (ln_emeta_ssec l) pb;
    match r with (ret, ppas, pb) => Ok (ret, pb_set_mg (write_emeta EM_gc (dev_emeta ppas) (pb_mg pb)) pb) end.

Definition pblk_recov_get_lba_list (e : line_emeta) : option (gmap Z Z) :=
  if decide (em_crc e ≠ crc_emeta e) then None else Some (em_lbas e).

(** ** Moving sectors *)

(** How many of the sectors of the list were looked at. *)
Fixpoint gc_move (n : nat) (id : Z) (lba_list : list Z) (off : Z) (pb : pblk) : res (Z * pblk) :=
  match n with
  | O => Fault F_FUEL
  | S n' =>
      let max := Z.to_nat (cf_max_write_pgs c) in
      let lbas := take max lba_list in
      let nr_secs := Z.of_nat (length lbas) in
      let '(list_ok, pb) := ask pb in
      let '(bio_ok, pb) := ask pb in
      let '(submit_ok, pb) := ask pb in
      r ← pblk_submit_read_gc dev_read submit_ok list_ok bio_ok pb id lbas;
      match r with
      | (ret, lbas', secs_to_gc, data) =>
          if decide (ret ≠ NVM_IO_OK) then Ok (off, pb)
          else
            pb ← (if decide (secs_to_gc = 0) then Ok pb
                  else r ← pblk_write_gc_to_cache c data lbas' secs_to_gc id PBLK_IOTYPE_GC pb; Ok (snd r));
            match drop max lba_list with
            | [] => Ok (off + nr_secs, pb)
            | rest => gc_move n' id rest (off + nr_secs) pb
            end
      end
  end.

Definition pblk_gc_move_valid_secs (id : Z) (lba_list : list Z) (pb : pblk) : res (Z * pblk) :=
  match lba_list with
  | [] => Ok (0, pb)
  | _ => let '(ok, pb) := ask pb in if negb ok then Ok (0, pb) else gc_move (S (length lba_list)) id lba_list 0 pb
  end.

(** ** A victim *)

Definition pblk_put_line_back (id : Z) (pb : pblk) : res pblk :=
  l ← aread (pb_lines pb) id;
  let '(mv, l) := pblk_line_gc_list c (ln_set_state PBLK_LINESTATE_CLOSED l) in
  let pb := upd_line id l pb in
  match mv with
  | None => Ok pb
  | Some L => m ← list_add_tail id L (pb_mg pb); Ok (pb_set_mg m pb)
  end.

(** Up to [n] valid sectors behind [bit]. *)
Fixpoint gc_batch (n : nat) (inv : gset Z) (emeta_ssec : Z) (lbas : gmap Z Z) (bit : Z) : res (list Z * Z) :=
  match n with
  | O => Ok ([], bit)
  | S n' =>
      let bit := find_next_zero_bit inv (lm_sec_per_line (cf_lm c)) (bit + 1) in
      if decide (emeta_ssec < bit) then Ok ([], bit)
      else
        lba ← aread lbas bit;
        r ← gc_batch n' inv emeta_ssec lbas bit;
        Ok (lba :: fst r, snd r)
  end.

(** The requests for a victim with [sec_left] valid sectors; [false] when one of them could
    not be moved as a whole. *)
Fixpoint gc_rounds (n : nat) (move : list Z → pblk → res (Z * pblk)) (inv : gset Z) (emeta_ssec : Z) (lbas : gmap Z Z)
    (bit sec_left : Z) (pb : pblk) : res (bool * pblk) :=
  match n with
  | O => Fault F_FUEL
  | S n' =>
      r ← gc_batch (Z.to_nat (cf_max_write_pgs c)) inv emeta_ssec lbas bit;
      m ← move (fst r) pb;
      if decide (fst m ≠ Z.of_nat (length (fst r))) then Ok (false, snd m)
      else
        let sec_left := s32 (sec_left - fst m) in
        if decide (0 < sec_left) then gc_rounds n' move inv emeta_ssec lbas (snd r) sec_left (snd m)
        else _ ← BUG_ON (sec_left ≠ 0); Ok (true, snd m)
  end.

Definition pblk_gc_line_ws (id : Z) (pb : pblk) : res pblk :=
  l ← aread (pb_lines pb) id;
  let sec_left := s32 (ln_vsc l) in
  if decide (sec_left = 0) then line_kref_put id pb
  else
    _ ← BUG_ON (sec_left < 0);
    let '(ok, pb) := ask pb in
    if negb ok then Ok pb
    else
      r ← pblk_line_read_emeta id (upd_line id (ln_set_emeta (Some EM_gc) l) pb);
      let '(ret, pb) := r in
      let no_emeta := mod_line id (ln_set_emeta None) in
      if decide (ret ≠ 0) then no_emeta pb
      else
        match pblk_recov_get_lba_list (mg_gc_meta (pb_mg pb)) with
        | None => pb ← line_kref_put id pb; no_emeta pb
        | Some lbas =>
            inv ← deref (ln_invalid_bitmap l);
            r ← gc_rounds (S (Z.to_nat sec_left)) (pblk_gc_move_valid_secs id) inv (ln_emeta_ssec l) lbas (-1) sec_left pb;
            pb ← (if decide (fst r = true) then line_kref_put id (snd r) else pblk_put_line_back id (snd r));
            no_emeta pb
        end.

(** ** Choosing victims *)

(** The work item, unless it cannot be had. *)
Definition pblk_gc_line (id : Z) (pb : pblk) : bool * pblk :=
  let '(ok, pb) := ask pb in if ok : bool then (true, pb_set_work (pb_work pb ++ [W_gc_line id]) pb) else (false, pb).

Definition gc_lists : list lname := [L_gc_high; L_gc_mid; L_gc_low].

(** Lines without valid sectors are freed. *)
Definition gc_full (id : Z) (pb : pblk) : res pblk := pb ← gc_take id pb; line_kref_put id pb.

(** The lines of a list, from its head, while more blocks are needed; [false] when a work
    item could not be had. *)
Fixpoint gc_group (ids : list Z) (forced : bool) (need free : Z) (pb : pblk) : res (bool * Z * pblk) :=
  match ids with
  | [] => Ok (true, free, pb)
  | id :: ids' =>
      if decide (free < need ∨ forced = true) then
        l ← aread (pb_lines pb) id;
        let free := u32 (free + ln_blk_in_line l) in
        pb ← gc_take id pb;
        let '(ok, pb) := pblk_gc_line id pb in
        if ok : bool then gc_group ids' forced need free pb else Ok (false, free, pb)
      else Ok (true, free, pb)
  end.

Fixpoint gc_groups (Ls : list lname) (forced : bool) (need free : Z) (pb : pblk) : res pblk :=
  match Ls with
  | [] => Ok pb
  | L :: Ls' =>
      r ← gc_group (mg_lists (pb_mg pb) L) forced need free pb;
      match r with (ok, free, pb) => if ok : bool then gc_groups Ls' forced need free pb else Ok pb end
  end.

(** [gc_active] plays no part. *)
Definition pblk_gc_run (pb : pblk) : res pblk :=
  pb ← mfor (mg_lists (pb_mg pb) L_gc_full) gc_full pb;
  gc_groups gc_lists (bool_decide (gc_forced (pb_gc pb) ≠ 0)) (u32 (pblk_rl_gc_thrs (pb_rl pb)))
    (u32 (pblk_rl_nr_free_blks (pb_rl pb))) pb.

(** ** Log pages *)

(** A sector the device reports is written again.  [submit]: what submitting the read
    returned; [error]: how it ended. *)
Definition pblk_gc_log_page_sector (submit error : Z) (ppa : Z) (pb : pblk) : res pblk :=
  let '(ok1, pb) := ask pb in
  if negb ok1 then Ok pb
  else
    let '(ok2, pb) := ask pb in
    if negb ok2 then Ok pb
    else
      let '(ok3, pb) := ask pb in
      if negb ok3 then Ok pb
      else if decide (submit ≠ 0 ∨ error ≠ 0) then Ok pb
      else
        let lba := dev_lba ppa in
        if decide (rl_nr_secs (pb_rl pb) < lba) then Ok pb
        else
          r ← pblk_write_gc_to_cache c [dev_read ppa] [lba] 1 (pblk_ppa_to_line ppa) PBLK_IOTYPE_GC pb;
          Ok (snd r).

(** The sectors of page [pg] of the block of [bppa]. *)
Definition block_page (bppa pg : Z) : list Z :=
  flat_map (λ pl, map (λ sec, set_g_sec sec (set_g_pl pl (set_g_pg pg bppa))) (seqZ 0 (sec_per_pg (cf_geo c))))
    (seqZ 0 (nr_planes (cf_geo c))).

(** The request that starts at page [recov_pgs], and the page after it. *)
Fixpoint block_rq (n : nat) (bppa i recov_pgs : Z) : res (list Z * Z) :=
  if decide (i < cf_max_write_pgs c) then
    match n with
    | O => Fault F_FUEL
    | S n' =>
        let secs := block_page bppa recov_pgs in
        r ← block_rq n' bppa (i + Z.of_nat (length secs)) (recov_pgs + 1);
        Ok (secs ++ fst r, snd r)
    end
  else Ok ([], recov_pgs).

(** One request after the other: one that fails, or that has a sector without a logical
    address, is left out as a whole. *)
Fixpoint log_page_block (n : nat) (submit error : Z → Z) (bppa recov_pgs : Z) (pb : pblk) : res pblk :=
  match n with
  | O => Fault F_FUEL
  | S n' =>
      let '(bio_ok, pb) := ask pb in
      if negb bio_ok then Ok pb
      else
        r ← block_rq (Z.to_nat (cf_max_write_pgs c)) bppa 0 recov_pgs;
        let ppas := take (Z.to_nat (cf_max_write_pgs c)) (fst r) in
        if decide (submit recov_pgs ≠ 0) then Ok pb
        else
          pb ← (if decide (error recov_pgs ≠ 0 ∨ Exists (λ p, rl_nr_secs (pb_rl pb) < dev_lba p) ppas) then Ok pb
                else
                  r ← pblk_write_gc_to_cache c (map dev_read ppas) (map dev_lba ppas) (Z.of_nat (length ppas))
                        (pblk_ppa_to_line bppa) PBLK_IOTYPE_GC pb;
                  Ok (snd r));
          if decide (snd r < pgs_per_blk (cf_geo c)) then log_page_block n' submit error bppa (snd r) pb else Ok pb
  end.

Definition pblk_gc_log_page_block (submit error : Z → Z) (bppa : Z) (pb : pblk) : res pblk :=
  let '(ok1, pb) := ask pb in
  if negb ok1 then Ok pb
  else
    let '(ok2, pb) := ask pb in
    if negb ok2 then Ok pb
    else
      let '(ok3, pb) := ask pb in
      if negb ok3 then Ok pb
      else
        let '(ok4, pb) := ask pb in
        if negb ok4 then Ok pb
        else log_page_block (S (Z.to_nat (pgs_per_blk (cf_geo c)))) submit error bppa 0 pb.

Definition NVM_LOGPAGE_SCOPE_SECTOR : Z := 1.
Definition NVM_LOGPAGE_SCOPE_CHUNK : Z := 2.

Definition pblk_gc_log_page (scope : Z) (submit error : Z → Z) (ppa : Z) (pb : pblk) : res pblk :=
  if decide (Z.land scope NVM_LOGPAGE_SCOPE_SECTOR ≠ 0) then pblk_gc_log_page_sector (submit 0) (error 0) ppa pb
  else if decide (Z.land scope NVM_LOGPAGE_SCOPE_CHUNK ≠ 0) then pblk_gc_log_page_block submit error ppa pb
  else Ok pb.

End gc.

(** ** The requests for a victim *)

(** The reference: the valid sectors in order, in requests of at most [max]. *)
Fixpoint chunks {A} (n max : nat) (l : list A) : list (list A) :=
  match n, l with
  | O, _ | _, [] => []
  | S n', _ => take max l :: chunks n' max (drop max l)
  end.

Fixpoint run_chunks {S A} (move : list A → S → res (Z * S)) (rqs : list (list A)) (s : S) : res (bool * S) :=
  match rqs with
  | [] => Ok (true, s)
  | rq :: rqs' =>
      m ← move rq s;
      if decide (fst m ≠ Z.of_nat (length rq)) then Ok (false, snd m) else run_chunks move rqs' (snd m)
  end.

Definition valid_secs (inv : gset Z) (from emeta_ssec : Z) : list Z := filter (λ i, i ∉ inv) (seqZ from (emeta_ssec - from)).

Lemma concat_chunks {A} n max (l : list A) : (0 < max)%nat → (length l ≤ n)%nat → concat (chunks n max l) = l.
Proof.
  intros Hm. revert l. induction n as [|n IH]; intros l Hl; [destruct l; [done|cbn in Hl; lia]|].
  destruct l as [|x l]; [done|]. cbn [chunks concat]. rewrite IH; [apply take_drop|]. rewrite length_drop. cbn in *. lia.
Qed.

Section victim.
Context {K0 : Kops} {KL : KopsLaws} (c : pblk_cfg) (inv : gset Z) (ssec : Z) (lbas : gmap Z Z).
Context (Hssec : 0 ≤ ssec < lm_sec_per_line (cf_lm c)) (Hmeta : ∀ i, ssec ≤ i < lm_sec_per_line (cf_lm c) → i ∈ inv).
Context (Hlbas : ∀ i, 0 ≤ i < ssec → i ∉ inv → is_Some (lbas !! i)).

Definition lba_of (i : Z) : Z := default 0 (lbas !! i).

Lemma valid_step from :
  0 ≤ from ≤ ssec →
  let b := find_next_zero_bit inv (lm_sec_per_line (cf_lm c)) from in
  if decide (ssec < b) then valid_secs inv from ssec = [] else
    0 ≤ from ≤ b ∧ b < ssec ∧ b ∉ inv ∧ valid_secs inv from ssec = b :: valid_secs inv (b + 1) ssec.
Proof using KL Hssec Hmeta.
  intros Hf b. destruct (find_next_zero_bit_law inv (lm_sec_per_line (cf_lm c)) from) as ([H1 H2] & H3 & H4); [lia|]. fold b in H1, H2, H3, H4.
  assert (∀ e, from ≤ e ≤ b → filter (λ i, i ∉ inv) (seqZ from (e - from)) = []) as Hnone.
  { intros e He. destruct (filter _ _) as [|i l] eqn:Ef; [done|].
    assert (i ∈ filter (λ i, i ∉ inv) (seqZ from (e - from))) as Hin by (rewrite Ef; by left).
    apply list_elem_of_filter in Hin as [Hn Hin%elem_of_seqZ]. destruct (H4 i); [lia|done]. }
  case_decide as Hb; [apply Hnone; lia|]. assert (b ≠ ssec) by (intros He; apply H3; [lia|apply Hmeta; lia]).
  specialize (H3 ltac:(lia)). split_and!; [lia..|done|]. unfold valid_secs.
  replace (ssec - from) with ((b - from) + (ssec - b)) by lia. rewrite seqZ_app, filter_app, Hnone by lia.
  replace (from + (b - from)) with b by lia. rewrite seqZ_cons by lia. rewrite filter_cons, decide_True by done.
  cbn [app]. do 3 f_equal; lia.
Qed.

Lemma gc_batch_ok n bit :
  -1 ≤ bit < ssec →
  ∃ bit', gc_batch c n inv ssec lbas bit = Ok (lba_of <$> take n (valid_secs inv (bit + 1) ssec), bit') ∧
    ((n < length (valid_secs inv (bit + 1) ssec))%nat →
     bit ≤ bit' < ssec ∧ valid_secs inv (bit' + 1) ssec = drop n (valid_secs inv (bit + 1) ssec)).
Proof using KL Hssec Hmeta Hlbas.
  revert bit. induction n as [|n IH]; intros bit Hb.
  - exists bit. split; [done|]. intros _. split; [lia|]. by rewrite drop_0.
  - cbn [gc_batch]. pose proof (valid_step (bit + 1) ltac:(lia)) as Hs. set (b := find_next_zero_bit _ _ _) in *. cbv zeta in *.
    case_decide as Hd; [rewrite Hs; exists b; split; [done|]; cbn; lia|]. destruct Hs as (H1 & H2 & H3 & Hs).
    destruct (Hlbas b ltac:(lia) H3) as [lba Hl]. rewrite (aread_Some _ _ _ Hl), bind_Ok_l.
    destruct (IH b ltac:(lia)) as (bit' & -> & Hrest). rewrite bind_Ok_l. exists bit'. rewrite Hs. cbn. split.
    + unfold lba_of. by rewrite Hl.
    + intros Hlt. destruct Hrest as [Hr ->]; [lia|]. split; [lia|done].
Qed.

Lemma gc_rounds_ok n move bit left pb :
  0 < cf_max_write_pgs c < 2 ^ 31 → -1 ≤ bit < ssec → left = Z.of_nat (length (valid_secs inv (bit + 1) ssec)) →
  0 < left < 2 ^ 31 → (length (valid_secs inv (bit + 1) ssec) ≤ n)%nat →
  gc_rounds c n move inv ssec lbas bit left pb =
    run_chunks move (chunks n (Z.to_nat (cf_max_write_pgs c)) (lba_of <$> valid_secs inv (bit + 1) ssec)) pb.
Proof using KL Hssec Hmeta Hlbas.
  intros Hmax. revert bit left pb. induction n as [|n IH]; intros bit left pb Hb Hl Hpos Hn; [lia|].
  cbn [gc_rounds]. set (max := Z.to_nat (cf_max_write_pgs c)) in *. destruct (gc_batch_ok max bit Hb) as (bit' & -> & Hrest).
  rewrite bind_Ok_l. cbn [fst snd]. set (v := valid_secs inv (bit + 1) ssec) in *.
  destruct (lba_of <$> v) as [|x y] eqn:Ev; [apply (f_equal length) in Ev; rewrite length_fmap in Ev; cbn in Ev; lia|].
  cbn [chunks run_chunks]. rewrite <-Ev, <-fmap_take. destruct (move (lba_of <$> take max v) pb) as [[mv pb']|f]; [|done].
  rewrite !bind_Ok_l. cbn [fst snd]. case_decide as Hmv; [done|]. rewrite <-fmap_drop.
  assert (mv = Z.of_nat (min max (length v))) as Hmve by (rewrite length_fmap, length_take in Hmv; lia).
  rewrite s32_small by lia. destruct (decide (max < length v)%nat) as [Hlt|Hge].
  - destruct (Hrest Hlt) as [Hb' Hv']. rewrite decide_True by lia. rewrite <-Hv'. apply IH; [lia| |lia|].
    + rewrite Hv', length_drop. lia.
    + rewrite Hv', length_drop. lia.
  - rewrite decide_False by lia. rewrite BUG_ON_pass, bind_Ok_l by (intros Hne; apply Hne; lia).
    rewrite drop_ge by lia. cbn. by destruct n.
Qed.
End victim.

Lemma chunks_bounds {A} n max (l : list A) : (0 < max)%nat → Forall (λ r, 0 < length r ≤ max)%nat (chunks n max l).
Proof.
  intros Hm. revert l. induction n as [|n IH]; intros l; [by destruct l; constructor|]. destruct l as [|x l]; [constructor|].
  cbn [chunks]. constructor; [|apply IH]. rewrite length_take. cbn [length]. lia.
Qed.

(** The sectors that are not in the bitmap are what the count says. *)
Lemma count_valid n (bm : gset Z) :
  0 ≤ n → (∀ i, i ∈ bm → 0 ≤ i < n) → Z.of_nat (length (valid_secs bm 0 n)) + Z.of_nat (size bm) = n.
Proof.
  intros Hn Hb. assert (elements bm ++ valid_secs bm 0 n ≡ₚ seqZ 0 n) as Hp.
  { apply NoDup_Permutation; [|apply NoDup_seqZ|].
    - apply NoDup_app. split; [apply NoDup_elements|]. split; [|apply NoDup_filter, NoDup_seqZ].
      intros x Hx%elem_of_elements Hv%list_elem_of_filter. tauto.
    - intros x. rewrite elem_of_app, elem_of_elements. unfold valid_secs. rewrite list_elem_of_filter, !elem_of_seqZ.
      destruct (decide (x ∈ bm)) as [Hx|Hx]; [specialize (Hb x Hx)|]; split; intros; intuition lia. }
  apply (f_equal length) in Hp || apply Permutation_length in Hp. rewrite length_app, length_seqZ in Hp.
  change (length (elements bm)) with (size bm) in Hp. lia.
Qed.

Lemma valid_below (bm : gset Z) ssec n :
  0 ≤ ssec ≤ n → (∀ i, ssec ≤ i < n → i ∈ bm) → valid_secs bm 0 n = valid_secs bm 0 ssec.
Proof.
  intros Hs Hm. unfold valid_secs. rewrite !Z.sub_0_r. replace n with (ssec + (n - ssec)) at 1 by lia. rewrite seqZ_app, filter_app by lia.
  destruct (filter _ (seqZ (0 + ssec) _)) as [|i l] eqn:Ef; [by rewrite app_nil_r|].
  assert (i ∈ filter (λ i, i ∉ bm) (seqZ (0 + ssec) (n - ssec))) as Hin by (rewrite Ef; by left).
  apply list_elem_of_filter in Hin as [Hn Hin%elem_of_seqZ]. destruct Hn. apply Hm. lia.
Qed.



(** ** Choosing victims *)

Definition is_closed (pb : pblk) (id : Z) : Prop := ∃ l, pb_lines pb !! id = Some l ∧ ln_state l = PBLK_LINESTATE_CLOSED.

(** The lines on the lists of the collector are closed, and on one list once. *)
Definition gc_lists_ok (pb : pblk) : Prop :=
  ∀ L, L ∈ L_gc_full :: gc_lists → NoDup (mg_lists (pb_mg pb) L) ∧ ∀ id, id ∈ mg_lists (pb_mg pb) L → is_closed pb id.

(** What taking lines leaves alone. *)
Record taken_frame (ids : list Z) (pb pb' : pblk) : Prop := {
  tf_lists : ∀ L, L ≠ L_free → mg_lists (pb_mg pb') L = filter (λ i, i ∉ ids) (mg_lists (pb_mg pb) L);
  tf_lines : ∀ id, id ∉ ids → pb_lines pb' !! id = pb_lines pb !! id;
  tf_map : pb_trans_map pb' = pb_trans_map pb;
  tf_rwb : pb_rwb pb' = pb_rwb pb;
}.

Lemma taken_frame_nil pb : taken_frame [] pb pb.
Proof.
  constructor; try done. intros L _. rewrite filter_all_in; [done|]. apply Forall_forall. intros x _. apply not_elem_of_nil.
Qed.

Lemma taken_frame_app ids1 ids2 pb1 pb2 pb3 :
  taken_frame ids1 pb1 pb2 → taken_frame ids2 pb2 pb3 → taken_frame (ids1 ++ ids2) pb1 pb3.
Proof.
  intros [A1 A2 A3 A4] [B1 B2 B3 B4]. constructor; try congruence.
  - intros L HL. rewrite B1, A1, list_filter_filter by done. apply filter_same_in. intros x _. rewrite elem_of_app. tauto.
  - intros id. rewrite elem_of_app. intros Hn. rewrite B2, A2 by tauto. done.
Qed.

Section run.
Context (c : pblk_cfg) (alloc_ok : nat → bool).

Lemma gc_take_frame pb pend rf id :
  acct_inv c pb pend rf → is_closed pb id →
  ∃ pb', gc_take id pb = Ok pb' ∧ acct_inv c pb' pend (id :: rf) ∧ taken_frame [id] pb pb' ∧
    (∃ l, pb_lines pb' !! id = Some l ∧ ln_state l = PBLK_LINESTATE_GC) ∧ pb_work pb' = pb_work pb.
Proof.
  intros Hinv (l & Hl & Hc). destruct (gc_take_ok c pb pend rf id l Hinv Hl Hc) as (pb' & E & Hi & Hm & Hw).
  exists pb'. split; [done|]. split; [done|]. unfold gc_take in E. rewrite (aread_Some _ _ _ Hl), bind_Ok_l in E.
  apply bind_Ok in E as (_ & _ & E). apply bind_Ok in E as (m & Ed & [= <-]). unfold list_del in Ed. case_decide; [|done].
  injection Ed as <-. split; [constructor; try done|split; [|done]].
  - intros L _. cbn. apply filter_same_in. intros x _. by rewrite list_elem_of_singleton.
  - intros i. rewrite list_elem_of_singleton. intros Hn. cbn. by rewrite lookup_insert_ne.
  - cbn. rewrite lookup_insert_eq. eauto.
Qed.

Lemma kref_put_frame pb id pb' :
  line_kref_put id pb = Ok pb' → (∀ L, L ≠ L_free → mg_lists (pb_mg pb') L = mg_lists (pb_mg pb) L) ∧
    (∀ i, i ≠ id → pb_lines pb' !! i = pb_lines pb !! i) ∧ pb_trans_map pb' = pb_trans_map pb ∧ pb_rwb pb' = pb_rwb pb ∧
    pb_work pb' = pb_work pb.
Proof.
  unfold line_kref_put, pblk_line_put, list_add_tail. intros H. inv_ok. case_decide; inv_ok.
  - case_decide; [done|]. inv_ok. split_and!; try done.
    + intros L HL. by rewrite decide_False.
    + intros i Hi. by rewrite !lookup_insert_ne.
  - split_and!; try done. intros i Hi. by rewrite lookup_insert_ne.
Qed.

Lemma gc_full_ok ids pb pend rf :
  acct_inv c pb pend rf → NoDup ids → (∀ id, id ∈ ids → is_closed pb id) →
  ∃ pb', mfor ids gc_full pb = Ok pb' ∧ acct_inv c pb' pend rf ∧ taken_frame ids pb pb' ∧ pb_work pb' = pb_work pb.
Proof.
  revert pb. induction ids as [|id ids IH]; intros pb Hinv Hnd Hc; [exists pb; split; [done|]; auto using taken_frame_nil|].
  apply NoDup_cons in Hnd as [Hni Hnd]. destruct (gc_take_frame pb pend rf id Hinv) as (pb1 & E1 & Hi1 & Hf1 & _ & Hw1); [apply Hc; by left|].
  destruct (kref_put_ok c pb1 pend rf id Hi1) as (pb2 & E2 & Hi2 & _).
  destruct (kref_put_frame _ _ _ E2) as (K1 & K2 & K3 & K4 & K5).
  assert (taken_frame [id] pb pb2) as Hf2.
  { destruct Hf1 as [A1 A2 A3 A4]. constructor; try congruence; [intros L HL; by rewrite K1, A1|].
    intros i Hi. rewrite K2, A2; [done..|]. intros ->. by apply Hi, list_elem_of_singleton. }
  destruct (IH pb2 Hi2 Hnd) as (pb3 & E3 & Hi3 & Hf3 & Hw3).
  { intros i Hi. destruct (Hc i) as (l & Hl & Hst); [by right|]. exists l. split; [|done]. rewrite (tf_lines _ _ _ Hf2), Hl; [done|].
    rewrite list_elem_of_singleton. congruence. }
  assert (gc_full id pb = Ok pb2) as Eg by (unfold gc_full; by rewrite E1, bind_Ok_l).
  exists pb3. cbn [mfor]. rewrite Eg, bind_Ok_l. split; [done|]. split; [done|].
  split; [by apply (taken_frame_app [id] ids pb pb2 pb3)|congruence].
Qed.

(** After lines were taken: the accounts, with a reference for each of them, and their work
    items. *)
Record victims (taken queued : list Z) (pb pb' : pblk) (pend rf : list Z) : Prop := {
  vi_acct : acct_inv c pb' pend (taken ++ rf);
  vi_frame : taken_frame taken pb pb';
  vi_gc : ∀ id, id ∈ taken → ∃ l, pb_lines pb' !! id = Some l ∧ ln_state l = PBLK_LINESTATE_GC;
  vi_work : pb_work pb' = pb_work pb ++ map W_gc_line queued;
  vi_queued : queued `prefix_of` taken;
}.

Lemma victims_nil pb pend rf : acct_inv c pb pend rf → victims [] [] pb pb pend rf.
Proof. intros. constructor; try done; [apply taken_frame_nil|by intros id ?%elem_of_nil|by rewrite app_nil_r]. Qed.

Lemma victims_app t1 t2 q2 pb1 pb2 pb3 pend rf :
  NoDup (t1 ++ t2) → victims t1 t1 pb1 pb2 pend rf → victims t2 q2 pb2 pb3 pend (t1 ++ rf) → victims (t1 ++ t2) (t1 ++ q2) pb1 pb3 pend rf.
Proof.
  intros Hnd [A1 A2 A3 A4 A5] [B1 B2 B3 B4 B5]. constructor.
  - eapply acct_perm; [reflexivity| |exact B1]. rewrite !app_assoc. f_equiv. apply Permutation_app_comm.
  - by eapply taken_frame_app.
  - intros id [H|H]%elem_of_app; [|by apply B3]. destruct (A3 id H) as (l & Hl & Hg). exists l. split; [|done].
    rewrite (tf_lines _ _ _ B2); [done|]. apply NoDup_app in Hnd as (_ & Hnd & _). by apply Hnd.
  - rewrite B4, A4, map_app. by rewrite app_assoc.
  - by apply prefix_app.
Qed.

Lemma gc_group_ok ids forced need free pb pend rf :
  acct_inv c pb pend rf → NoDup ids → (∀ id, id ∈ ids → is_closed pb id) →
  ∃ ok free' pb' n queued, gc_group alloc_ok ids forced need free pb = Ok (ok, free', pb') ∧
    victims (take n ids) queued pb pb' pend rf ∧
    (ok = true → queued = take n ids ∧ (take n ids = ids ∨ ¬ (free' < need ∨ forced = true))).
Proof.
  revert free pb rf. induction ids as [|id ids IH]; intros free pb rf Hinv Hnd Hc.
  { exists true, free, pb, 0%nat, []. split; [done|]. split; [by apply victims_nil|]. intros _. split; [done|by left]. }
  cbn [gc_group]. destruct (decide (free < need ∨ forced = true)) as [Hneed|Hno].
  2: { exists true, free, pb, 0%nat, []. split; [done|]. split; [by apply victims_nil|]. intros _. split; [done|by right]. }
  pose proof Hnd as [Hni Hnd']%NoDup_cons. destruct (Hc id) as (l & Hl & Hst); [by left|]. rewrite (aread_Some _ _ _ Hl), bind_Ok_l.
  destruct (gc_take_frame pb pend rf id Hinv) as (pb1 & -> & Hi1 & Hf1 & Hg1 & Hw1); [by exists l|]. rewrite bind_Ok_l.
  unfold pblk_gc_line, ask. destruct (alloc_ok (pb_allocs pb1)).
  - set (pb2 := pb_set_work _ _). assert (victims [id] [id] pb pb2 pend rf) as Hv.
    { constructor; cbn; try done.
      - destruct Hi1. by constructor.
      - destruct Hf1. by constructor.
      - intros i ->%list_elem_of_singleton. exact Hg1.
      - by rewrite Hw1. }
    destruct (IH (u32 (free + ln_blk_in_line l)) pb2 (id :: rf) (vi_acct _ _ _ _ _ _ Hv) Hnd') as (ok & free' & pb3 & n & q & E & Hv3 & Hok).
    { intros i Hi. destruct (Hc i) as (li & Hli & Hsi); [by right|]. exists li. split; [|done].
      rewrite (tf_lines _ _ _ (vi_frame _ _ _ _ _ _ Hv)), Hli; [done|]. rewrite list_elem_of_singleton. congruence. }
    exists ok, free', pb3, (S n), (id :: q). split; [exact E|]. split.
    + apply (victims_app [id] (take n ids) q pb pb2 pb3 pend rf); try done.
      apply (sublist_NoDup _ (id :: ids)); [done|]. apply sublist_skip, sublist_take.
    + intros Hok'. destruct (Hok Hok') as [-> Hn]. split; [done|]. cbn. destruct Hn as [->|Hn]; [by left|by right].
  - exists false, (u32 (free + ln_blk_in_line l)), (pb_set_allocs (S (pb_allocs pb1)) pb1), 1%nat, []. split; [done|]. split; [|done].
    cbn [take]. rewrite take_0. constructor; cbn; try done.
    + destruct Hi1. by constructor.
    + destruct Hf1. by constructor.
    + intros i ->%list_elem_of_singleton. exact Hg1.
    + by rewrite app_nil_r.
    + apply prefix_nil.
Qed.

Lemma gc_groups_stop Ls forced need free pb :
  ¬ (free < need ∨ forced = true) → gc_groups alloc_ok Ls forced need free pb = Ok pb.
Proof.
  intros Hno. induction Ls as [|L Ls IH]; [done|]. cbn [gc_groups]. destruct (mg_lists (pb_mg pb) L) as [|id ids]; cbn [gc_group].
  - by rewrite bind_Ok_l.
  - by rewrite decide_False, bind_Ok_l.
Qed.

(** The lines of a few lists, one after the other. *)
Definition lines_of (pb : pblk) (Ls : list lname) : list Z := flat_map (mg_lists (pb_mg pb)) Ls.

Lemma gc_groups_ok Ls forced need free pb pend rf :
  acct_inv c pb pend rf → L_free ∉ Ls → NoDup (lines_of pb Ls) → (∀ id, id ∈ lines_of pb Ls → is_closed pb id) →
  ∃ pb' n queued, gc_groups alloc_ok Ls forced need free pb = Ok pb' ∧ victims (take n (lines_of pb Ls)) queued pb pb' pend rf.
Proof.
  revert free pb rf. induction Ls as [|L Ls IH]; intros free pb rf Hinv HL Hnd Hc.
  { exists pb, 0%nat, []. split; [done|]. by apply victims_nil. }
  cbn [gc_groups lines_of flat_map] in *. fold (lines_of pb Ls) in *. set (ids := mg_lists (pb_mg pb) L) in *.
  apply not_elem_of_cons in HL as [HL1 HL2]. pose proof Hnd as (Hnd1 & Hdis & Hnd2)%NoDup_app.
  destruct (gc_group_ok ids forced need free pb pend rf Hinv Hnd1) as (ok & free' & pb1 & n & q & E & Hv & Hok).
  { intros i Hi. apply Hc, elem_of_app. by left. }
  rewrite E, bind_Ok_l. destruct ok.
  - destruct (Hok eq_refl) as [-> [Hall|Hno]].
    + assert (lines_of pb1 Ls = lines_of pb Ls) as Hl.
      { unfold lines_of. rewrite !flat_map_concat_map. f_equal. apply map_ext_in. intros L' HL'%list_elem_of_In.
        rewrite (tf_lists _ _ _ (vi_frame _ _ _ _ _ _ Hv)) by congruence. apply filter_all_in, Forall_forall. intros x Hx Hin.
        rewrite Hall in Hin. apply (Hdis x Hin). unfold lines_of. apply list_elem_of_In, in_flat_map. exists L'.
        split; by apply list_elem_of_In. }
      destruct (IH free' pb1 (take n ids ++ rf) (vi_acct _ _ _ _ _ _ Hv) HL2) as (pb2 & m & q & E2 & Hv2).
      * by rewrite Hl.
      * intros i. rewrite Hl. intros Hi. destruct (Hc i) as (l & Hil & Hs); [apply elem_of_app; by right|]. exists l. split; [|done].
        rewrite (tf_lines _ _ _ (vi_frame _ _ _ _ _ _ Hv)); [done|]. rewrite Hall. intros Hin. by apply (Hdis i).
      * exists pb2, (length ids + m)%nat, (ids ++ q). split; [exact E2|]. rewrite take_app_add. rewrite Hl in Hv2. rewrite Hall in *.
        apply (victims_app ids (take m (lines_of pb Ls)) q pb pb1 pb2); [|done..].
        apply (sublist_NoDup _ (ids ++ lines_of pb Ls)); [done|]. apply sublist_app; [done|apply sublist_take].
    + exists pb1, (min n (length ids)), (take n ids). rewrite gc_groups_stop by done. split; [done|].
      rewrite take_app_le by lia. destruct (decide (n ≤ length ids)%nat); [by rewrite Nat.min_l by lia|].
      rewrite Nat.min_r, firstn_all by lia. by rewrite (take_ge ids n) in Hv |- * by lia.
  - exists pb1, (min n (length ids)), q. split; [done|]. rewrite take_app_le by lia.
    destruct (decide (n ≤ length ids)%nat); [by rewrite Nat.min_l by lia|].
    rewrite Nat.min_r, firstn_all by lia. by rewrite (take_ge ids n) in Hv by lia.
Qed.
End run.

(** Closed lines are on one list only. *)
Lemma lists_disjoint c pb pend rf L1 L2 id :
  acct_inv c pb pend rf → is_closed pb id → id ∈ mg_lists (pb_mg pb) L1 → id ∈ mg_lists (pb_mg pb) L2 → L1 = L2.
Proof.
  intros Hinv (l & Hl & Hc) H1 H2. destruct (lo_closed _ _ _ _ _ (ai_lines _ _ _ _ Hinv id l Hl) Hc) as [_ Hon].
  apply Hon in H1 as ->. by apply Hon in H2 as ->.
Qed.

Lemma lines_of_nodup c pb pend rf Ls :
  acct_inv c pb pend rf → NoDup Ls → (∀ L, L ∈ Ls → NoDup (mg_lists (pb_mg pb) L) ∧ ∀ id, id ∈ mg_lists (pb_mg pb) L → is_closed pb id) →
  NoDup (lines_of pb Ls) ∧ ∀ id, id ∈ lines_of pb Ls → is_closed pb id ∧ ∃ L, L ∈ Ls ∧ id ∈ mg_lists (pb_mg pb) L.
Proof.
  intros Hinv. induction Ls as [|L Ls IH]; intros Hnd Hok; [split; [constructor|by intros id ?%elem_of_nil]|].
  apply NoDup_cons in Hnd as [Hni Hnd]. destruct (Hok L) as [H1 H2]; [by left|].
  destruct IH as [I1 I2]; [done|intros L' ?; apply Hok; by right|]. cbn. fold (lines_of pb Ls). split.
  - apply NoDup_app. split; [done|]. split; [|done]. intros x Hx Hy. destruct (I2 x Hy) as (Hc & L' & HL' & Hx').
    apply Hni. by rewrite (lists_disjoint c pb pend rf L L' x Hinv Hc Hx Hx').
  - intros id [Hi|Hi]%elem_of_app; [split; [by apply H2|exists L; split; [by left|done]]|].
    destruct (I2 id Hi) as (Hc & L' & HL' & ?). split; [done|]. exists L'. split; [by right|done].
Qed.


(** The small device with a line that holds two valid sectors. *)
Definition bm_few : gset Z := list_to_set (0 :: seqZ 3 29).
Definition line_few : pblk_line :=
  ln_set_vsc 2 (ln_set_invalid_bitmap (Some bm_few) (line_demo PBLK_LINESTATE_CLOSED PBLK_LINEGC_HIGH)).
Definition pb_few : pblk :=
  pb_set_mg (mg_demo (λ L, if decide (L = L_gc_high) then [0] else [])) (upd_line 0 line_few pb_demo).

Lemma few_addr_ok a p : pb_trans_map pb_few !! a = Some p → dev_addr p → addr_ok cfg_tiny pb_few p.
Proof.
  intros Hl Hd. split; [done|]. exists line_few. destruct (demo_sectors a p Hl Hd) as [[_ ->]|[_ ->]]; (split; [done|]); right; right;
    (split; [by right|]); exists bm_few; (split; [|split; [cbn; lia|by vm_compute]]); constructor; try done; try (by vm_compute);
    intros i; unfold bm_few; rewrite elem_of_list_to_set, elem_of_cons, elem_of_seqZ; cbn; lia.
Qed.

Lemma few_acct : acct_inv cfg_tiny pb_few [] [].
Proof.
  destruct demo_acct as [A1 A2 A3 A4 A5 A6 A7 A8 A9]. constructor; try done.
  - intros id l. cbn. destruct (decide (id = 0)) as [->|Hne].
    + rewrite lookup_insert_eq. intros [= <-]. constructor; try done; [|by intros [|]]. intros _. split; [by vm_compute|].
      intros L. replace (class_list _) with L_gc_high by by vm_compute. cbn.
      case_decide; [by rewrite list_elem_of_singleton|by rewrite elem_of_nil].
    + rewrite lookup_insert_ne by done. rewrite lookup_singleton_Some || idtac. intros Hl. map_cases; [done|].
      constructor; try done. intros _. rewrite on_list_iff. intros (L & HL). cbn in HL.
      case_decide; [by apply list_elem_of_singleton in HL|by apply elem_of_nil in HL].
  - apply few_addr_ok.
  - by intros p ?%elem_of_nil.
  - by intros id ?%elem_of_nil.
Qed.


(** ** What goes wrong *)

(** A victim that is put back goes on no list: its group has not changed since it was taken.
    It is never collected again. *)
Lemma put_line_back_unlists c pb pend rf id :
  acct_inv c pb pend rf → is_closed pb id → (∀ l, pb_lines pb !! id = Some l → ln_vsc l ≤ ln_sec_in_line l) →
  ∃ pb1 pb2, gc_take id pb = Ok pb1 ∧ pblk_put_line_back c id pb1 = Ok pb2 ∧ is_closed pb2 id ∧ ¬ on_list (pb_mg pb2) id.
Proof.
  intros Hinv (l & Hl & Hc) Hle. destruct (lo_closed _ _ _ _ _ (ai_lines _ _ _ _ Hinv id l Hl) Hc) as [Hg Hon].
  assert (on_list (pb_mg pb) id) as Hol by (apply on_list_iff; eexists; by apply Hon).
  exists (pb_set_mg (unlink id (pb_mg pb)) (upd_line id (ln_set_state PBLK_LINESTATE_GC l) pb)). eexists. split; [|split; [|split]].
  - unfold gc_take. rewrite (aread_Some _ _ _ Hl), bind_Ok_l, BUG_ON_pass, bind_Ok_l by (intros Hx; by apply Hx).
    unfold list_del. by rewrite decide_True, bind_Ok_l.
  - unfold pblk_put_line_back. cbn [pb_lines pb_set_mg upd_line pb_set_lines]. rewrite (aread_Some _ _ _ (lookup_insert_eq _ _ _)), bind_Ok_l.
    rewrite gc_list_spec by (cbn; by apply Hle). cbn [ln_gc_group ln_set_state]. rewrite Hg.
    change (gc_class c (ln_set_state PBLK_LINESTATE_CLOSED (ln_set_state PBLK_LINESTATE_GC l))) with (gc_class c l).
    rewrite decide_True by done. reflexivity.
  - eexists. cbn. by rewrite lookup_insert_eq.
  - apply not_on_unlink.
Qed.

(** End metadata that does not have its checksum: the line is freed with its valid sectors,
    where the comment says that it is left untouched. *)
Definition cfg_even : pblk_cfg := mk_cfg geo_tiny paf_tiny (mk_lm 4096 1 8192 2 3 8 8 8 4 32 10 20) (cf_luns cfg_tiny) 2 4.
Definition run_gc_bad_emeta : res pblk :=
  pblk_gc_line_ws cfg_even (λ _, true) (λ _, 0) (λ _, 1) id (λ _, emeta0) (λ _, 1) 8 0
    (upd_line 0 (ln_set_state PBLK_LINESTATE_GC line_few) (pb_set_mg (mg_demo (λ _, [])) pb_few)).

Lemma bad_emeta_frees_line :
  ∃ pb l, run_gc_bad_emeta = Ok pb ∧ pb_lines pb !! 0 = Some l ∧ ln_state l = PBLK_LINESTATE_FREE ∧ ln_vsc l = 2 ∧
    pb_trans_map pb !! 0 = Some (addr_to_gen_ppa paf_tiny 1 0).
Proof.
  destruct run_gc_bad_emeta as [pb|] eqn:E; [|by vm_compute in E]. exists pb, (default line_few (pb_lines pb !! 0)).
  vm_compute in E. injection E as <-. by vm_compute.
Qed.

(** One valid sector in a request: it counts as moved, but nothing is written. *)
Lemma single_sector_not_moved :
  ∃ pb, pblk_gc_move_valid_secs cfg_tiny (λ _, true) id 0 [0] pb_few = Ok (1, pb) ∧
    pb_trans_map pb !! 0 = Some (addr_to_gen_ppa paf_tiny 1 0) ∧ pb_rwb pb = pb_rwb pb_few.
Proof. eexists. split; [by vm_compute|]. by split; vm_compute. Qed.

(** The logical address of a log page is compared with [nr_secs] itself: the one behind the
    last passes and is looked up. *)
Lemma log_page_lba_unchecked :
  rl_nr_secs (pb_rl pb_page) = 4 ∧
  pblk_gc_log_page_sector cfg_tiny (λ _, true) id (λ _, 4) 0 0 (addr_to_gen_ppa paf_tiny 1 0) pb_page = Fault F_OOB ∧
  ∃ pb, pblk_gc_log_page_sector cfg_tiny (λ _, true) id (λ _, 3) 0 0 (addr_to_gen_ppa paf_tiny 1 0) pb_page = Ok pb.
Proof. split; [done|]. split; [by vm_compute|]. eexists. by vm_compute. Qed.
