(* ===== verification/LnArea.v ===== *)
(** * LightNVM: areas of the logical address space

    nvm_get_area and nvm_put_area of drivers/lightnvm/core.c: a target takes a range of
    sectors of the device, at the lowest place where it fits, and gives it back by its
    start.  [area_list] is the list of the taken ranges; an area is an object of the heap,
    named by the allocation that made it. *)

From S2P Require Import Prelude Kernel.

#[local] Open Scope Z_scope.

(** [struct nvm_area]; [ar_end] is excluded. *)
Record nvm_area : Type := mk_area { ar_begin : Z; ar_end : Z; ar_ptr : obj }.

(** The search of [nvm_get_area]: where the area begins, the areas before it and those
    after it. *)
Fixpoint find_gap (len begin : Z) (prev next : list nvm_area) : Z * list nvm_area * list nvm_area :=
  match next with
  | [] => (begin, prev, [])
  | a :: next' =>
      if decide (ar_begin a < u64 (begin + len)) then find_gap len (ar_end a) (prev ++ [a]) next'
      else (begin, prev, next)
  end.

Section area.
Context (alloc_ok : nat → bool).
(** [geo->sec_size] and [dev->total_secs]. *)
Context (sec_size total_secs : Z).

Definition max_sectors : Z := Z.shiftr (u64 (sec_size * total_secs)) 9.

(** The return value, [*lba] when it is 0, and the list. *)
Definition nvm_get_area (len : Z) (areas : list nvm_area) (h : kheap) :
    res (Z * option Z * list nvm_area * kheap) :=
  if decide (max_sectors < len) then Ok (- EINVAL, None, areas, h)
  else
    match kmalloc alloc_ok "area" h with
    | (None, h) => Ok (- ENOMEM, None, areas, h)
    | (Some o, h) =>
        let '(begin, before, after) := find_gap len 0 [] areas in
        if decide (max_sectors < u64 (begin + len)) then
          h ← kfree o h; Ok (- EINVAL, None, areas, h)
        else Ok (0, Some begin, before ++ mk_area begin (u64 (begin + len)) o :: after, h)
    end.

(** The first area that begins there is taken off and freed. *)
Fixpoint put_area (begin : Z) (before after : list nvm_area) (h : kheap) : res (list nvm_area * kheap) :=
  match after with
  | [] => Ok (before, h)
  | a :: after' =>
      if decide (ar_begin a ≠ begin) then put_area begin (before ++ [a]) after' h
      else h ← kfree (ar_ptr a) h; Ok (before ++ after', h)
  end.

Definition nvm_put_area (begin : Z) (areas : list nvm_area) (h : kheap) : res (list nvm_area * kheap) :=
  put_area begin [] areas h.

(** ** What a list of areas is *)

(** In order, apart, not empty, inside [[lo, hi]]. *)
Fixpoint areas_from (lo hi : Z) (l : list nvm_area) : Prop :=
  match l with
  | [] => lo ≤ hi
  | a :: l' => lo ≤ ar_begin a < ar_end a ∧ areas_from (ar_end a) hi l'
  end.

(** [[b, b + len)] lies between the areas. *)
Definition fits (len b : Z) (l : list nvm_area) : Prop :=
  ∀ a, a ∈ l → b + len ≤ ar_begin a ∨ ar_end a ≤ b.

(** The state of the list: its areas are all that is live besides [L]. *)
Record area_inv (L : gset obj) (areas : list nvm_area) (h : kheap) : Prop := {
  av_sorted : areas_from 0 max_sectors areas;
  av_owns : owns h (ar_ptr <$> areas) L;
  av_named : named h;
}.

(** Requests, and what the caller learns. *)
Inductive area_op : Type := Get (len : Z) | Put (begin : Z).

Definition run_area (op : area_op) (areas : list nvm_area) (h : kheap) : res (Z * option Z * list nvm_area * kheap) :=
  match op with
  | Get len => nvm_get_area len areas h
  | Put begin => r ← nvm_put_area begin areas h; Ok (0, None, fst r, snd r)
  end.

Fixpoint run_areas (ops : list area_op) (areas : list nvm_area) (h : kheap) : res (list nvm_area * kheap) :=
  match ops with
  | [] => Ok (areas, h)
  | op :: ops' => r ← run_area op areas h; run_areas ops' (snd (fst r)) (snd r)
  end.

End area.

(** ** Theorems *)

Lemma areas_from_le lo hi l : areas_from lo hi l → lo ≤ hi.
Proof. revert lo. induction l as [|a l IH]; intros lo; cbn; [done|]. intros [? H%IH]. lia. Qed.

Lemma areas_from_app lo hi l1 l2 :
  areas_from lo hi (l1 ++ l2) ↔ ∃ m, areas_from lo m l1 ∧ areas_from m hi l2.
Proof.
  revert lo. induction l1 as [|a l1 IH]; intros lo; cbn.
  - split; [intros H; exists lo; split; [lia|done]|].
    intros (m & ? & H). destruct l2 as [|b l2]; cbn in *; [lia|]. destruct H. split; [lia|done].
  - rewrite IH. naive_solver.
Qed.

Lemma areas_from_in lo hi l a : areas_from lo hi l → a ∈ l → lo ≤ ar_begin a < ar_end a ∧ ar_end a ≤ hi.
Proof.
  revert lo. induction l as [|b l IH]; intros lo; cbn; [intros _ []%elem_of_nil|].
  intros [? H] [->|Hin]%elem_of_cons.
  - apply areas_from_le in H. lia.
  - destruct (IH _ H Hin). lia.
Qed.

(** The search passes the areas that leave no room, and stops at the lowest place. *)
Lemma find_gap_spec hi len begin prev next :
  0 < len ≤ hi → hi < 2 ^ 63 → 0 ≤ begin → areas_from begin hi next →
  ∃ b mid after, find_gap len begin prev next = (b, prev ++ mid, after) ∧ next = mid ++ after ∧
    begin ≤ b ≤ hi ∧ areas_from begin b mid ∧ areas_from b hi after ∧ (∀ a, a ∈ after → b + len ≤ ar_begin a) ∧
    ∀ x, begin ≤ x < b → ¬ fits len x next.
Proof.
  intros Hl Hh. revert begin prev. induction next as [|a next IH]; intros begin prev Hb Hs; cbn [find_gap].
  - exists begin, [], []. rewrite app_nil_r. cbn in *. split_and!; try done; try lia.
    intros a []%elem_of_nil.
  - destruct Hs as [Ha Hs]. pose proof (areas_from_le _ _ _ Hs). rewrite u64_small by lia. case_decide as Hd.
    + destruct (IH (ar_end a) (prev ++ [a])) as (b & mid & after & -> & -> & Hr & Hm & Haf & Hfit & Hmin); [lia|done|].
      exists b, (a :: mid), after. split_and!; try done; try lia.
      * by rewrite <-app_assoc.
      * intros x Hx Hf. destruct (Hf a); [by left|lia|]. apply (Hmin x); [lia|].
        intros a' Ha'. apply Hf. by right.
    + exists begin, [], (a :: next). rewrite app_nil_r. split_and!; try done; try lia.
      * cbn. lia.
      * intros a' [->|Ha']%elem_of_cons; [lia|]. destruct (areas_from_in _ _ _ _ Hs Ha'). lia.
Qed.

Section proofs.
Context (alloc_ok : nat → bool) (sec_size total_secs : Z).
Notation max := (max_sectors sec_size total_secs).

Lemma max_small : 0 ≤ max < 2 ^ 55.
Proof.
  unfold max_sectors, u64. rewrite Z.shiftr_div_pow2 by lia.
  pose proof (Z.mod_pos_bound (sec_size * total_secs) (2 ^ 64) ltac:(lia)).
  split; [apply Z.div_pos; lia|]. apply Z.div_lt_upper_bound; lia.
Qed.

(* one request; see [get_area_first_fit] *)
Lemma get_area_ok L len areas h :
  0 < len → area_inv sec_size total_secs L areas h →
  ∃ r lba areas' h', nvm_get_area alloc_ok sec_size total_secs len areas h = Ok (r, lba, areas', h') ∧
  area_inv sec_size total_secs L areas' h' ∧
  match lba with
  | Some b => r = 0 ∧ 0 ≤ b ∧ b + len ≤ max ∧ fits len b areas ∧ (∀ x, 0 ≤ x < b → ¬ fits len x areas) ∧
      ∃ o, areas' ≡ₚ mk_area b (b + len) o :: areas
  | None => areas' = areas ∧
      (r = - ENOMEM ∧ alloc_ok (k_calls h) = false ∨
       r = - EINVAL ∧ ∀ x, 0 ≤ x → x + len ≤ max → ¬ fits len x areas)
  end.
Proof.
  intros Hlen [Hs Ho Hn]. unfold nvm_get_area. case_decide as Hd.
  { do 4 eexists. split; [done|]. split; [done|]. split; [done|]. right. split; [done|]. intros. lia. }
  destruct (kmalloc alloc_ok "area" h) as [[o|] h1] eqn:E;
    destruct (kmalloc_spec _ _ _ _ _ _ _ E Hn Ho) as (Hn1 & Ho1 & Hw).
  2: { do 4 eexists. split; [done|]. split; [by constructor|]. split; [done|]. by left. }
  pose proof max_small as Hm.
  destruct (find_gap_spec max len 0 [] areas) as (b & mid & after & -> & Heq & Hb & Hmid & Haft & Hfit & Hmin); [lia..|done|].
  cbn [app]. rewrite u64_small by lia. case_decide as Hx.
  - destruct (owns_free _ _ _ _ Ho1) as (h2 & E2 & Hc & Ho2). rewrite E2. do 4 eexists. split; [done|].
    split; [constructor; [done..|by eapply kfree_named]|]. split; [done|]. right. split; [done|].
    intros x Hx0 Hx1 Hf. apply (Hmin x); [lia|done].
  - do 4 eexists. split; [done|]. split; [constructor; [|eapply owns_perm; [|done]|done]|].
    + apply areas_from_app. exists b. split; [done|]. cbn. split; [lia|].
      destruct after as [|a after]; cbn in *; [lia|]. specialize (Hfit a ltac:(by left)). destruct Haft. split; [lia|done].
    + rewrite Heq, !fmap_app. cbn. by rewrite Permutation_middle.
    + split_and!; try done; try lia.
      * intros a Ha. rewrite Heq in Ha. apply elem_of_app in Ha as [Ha|Ha]; [right|left; auto].
        by destruct (areas_from_in _ _ _ _ Hmid Ha).
      * exists o. rewrite Heq. by rewrite Permutation_middle.
Qed.

(* what begins elsewhere stays *)
Lemma put_area_ok L begin before areas h :
  area_inv sec_size total_secs L (before ++ areas) h →
  ∃ areas' h', put_area begin before areas h = Ok (areas', h') ∧ area_inv sec_size total_secs L areas' h' ∧
  k_calls h' = k_calls h ∧ areas' = before ++ filter (λ a, ar_begin a ≠ begin) areas.
Proof.
  revert before. induction areas as [|a areas IH]; intros before Hi; cbn [put_area].
  - exists before, h. by rewrite app_nil_r in *.
  - rewrite filter_cons. case_decide as Hd.
    + destruct (IH (before ++ [a])) as (areas' & h' & E & Hi' & Hc & ->); [by rewrite <-app_assoc|].
      rewrite <-app_assoc in *. by do 2 eexists.
    + subst begin. destruct Hi as [Hs Ho Hn].
      apply (owns_perm _ _ (ar_ptr a :: (ar_ptr <$> before ++ areas))) in Ho; [|by rewrite <-fmap_cons, Permutation_middle].
      destruct (owns_free _ _ _ _ Ho) as (h' & E & Hc & Ho'). rewrite E. cbn.
      apply areas_from_app in Hs as (m & Hs1 & Ha & Hs2).
      rewrite filter_all_in.
      2: { apply Forall_forall. intros a' Ha'. destruct (areas_from_in _ _ _ _ Hs2 Ha'). lia. }
      exists (before ++ areas), h'. split; [done|]. split; [|done]. constructor; [|done|by eapply kfree_named].
      apply areas_from_app. exists m. split; [done|]. destruct areas as [|b areas]; cbn in *; [lia|]. destruct Hs2. split; [lia|done].
Qed.

Definition op_ok (op : area_op) : Prop := match op with Get len => 0 < len | Put _ => True end.

(* any sequence of requests *)
Lemma areas_run_ok L ops areas h :
  Forall op_ok ops → area_inv sec_size total_secs L areas h →
  ∃ areas' h', run_areas alloc_ok sec_size total_secs ops areas h = Ok (areas', h') ∧
    area_inv sec_size total_secs L areas' h'.
Proof.
  intros Hops. revert areas h. induction Hops as [|[len|b] ops Hop _ IH]; intros areas h Hi; cbn; [eauto| |].
  - destruct (get_area_ok L len areas h) as (r & lba & a' & h' & -> & Hi' & _); [done..|]. cbn. auto.
  - unfold nvm_put_area. destruct (put_area_ok L b [] areas h Hi) as (a' & h' & -> & Hi' & _). cbn. auto.
Qed.

End proofs.

(** C25: whatever areas were taken and given back before, nvm_get_area returns; it takes the
    lowest place where the area fits, apart from all areas that are taken, and fails only for
    want of memory or when there is no such place. *)
Theorem get_area_first_fit alloc_ok sec_size total_secs ops len h :
  Forall op_ok ops → 0 < len → named h →
  ∃ areas h1, run_areas alloc_ok sec_size total_secs ops [] h = Ok (areas, h1) ∧
  ∃ r lba areas' h2, nvm_get_area alloc_ok sec_size total_secs len areas h1 = Ok (r, lba, areas', h2) ∧
  area_inv sec_size total_secs (k_live h) areas' h2 ∧
  match lba with
  | Some b => r = 0 ∧ 0 ≤ b ∧ b + len ≤ max_sectors sec_size total_secs ∧ fits len b areas ∧
      (∀ x, 0 ≤ x < b → ¬ fits len x areas) ∧ ∃ o, areas' ≡ₚ mk_area b (b + len) o :: areas
  | None => areas' = areas ∧
      (r = - ENOMEM ∧ alloc_ok (k_calls h1) = false ∨
       r = - EINVAL ∧ ∀ x, 0 ≤ x → x + len ≤ max_sectors sec_size total_secs → ¬ fits len x areas)
  end.
Proof.
  intros Hops Hlen Hn. pose proof (max_small sec_size total_secs).
  destruct (areas_run_ok alloc_ok sec_size total_secs (k_live h) ops [] h) as (areas & h1 & -> & Hi); [done| |].
  { constructor; [cbn; lia|apply owns_nil|done]. }
  exists areas, h1. split; [done|]. by apply get_area_ok.
Qed.

(** Witnesses. *)

Definition demo_ops : list area_op := [Get 10; Get 5; Get 7; Put 10].

Lemma get_area_first_fit_witness :
  Forall op_ok demo_ops ∧ named (mk_kheap 0 ∅) ∧
  ∃ areas h1, run_areas (λ _, true) 4096 16 demo_ops [] (mk_kheap 0 ∅) = Ok (areas, h1) ∧
  ∃ r lba areas' h2, nvm_get_area (λ _, true) 4096 16 4 areas h1 = Ok (r, lba, areas', h2) ∧ lba = Some 10.
Proof.
  assert (Forall op_ok demo_ops) as Ho by (repeat constructor; cbn; lia).
  assert (named (mk_kheap 0 ∅)) as Hn by (intros o Hin; cbn in Hin; set_solver).
  split; [done|]. split; [done|].
  destruct (get_area_first_fit (λ _, true) 4096 16 demo_ops 4 (mk_kheap 0 ∅) Ho ltac:(lia) Hn)
    as (areas & h1 & E & r & lba & areas' & h2 & E2 & _).
  exists areas, h1. split; [done|]. exists r, lba, areas', h2. split; [done|].
  vm_compute in E. injection E as <- <-. vm_compute in E2. by injection E2 as <- <- <- <-.
Defined.
