(* ===== verification/LnMap.v ===== *)
(** * LightNVM: devices, sub-devices and their addresses

    The part of drivers/lightnvm/core.c that gives a target some of the LUNs of a device: a
    sub-device ([nvm_tgt_dev]) numbers its channels and LUNs from 0; its map
    ([nvm_dev_map]) leads to the channels and LUNs of the device, and the map of the device
    ([rmap]) leads back.  Then the address lists of requests (nvm_set_rqd_ppalist), and the
    folding of bad block tables.

    Arrays are finite maps whose keys are checked; allocations ask [alloc_ok], objects are
    named by the call that made them, and freeing what is not live is a fault.  Numbers of
    channels and LUNs are not negative, so [/] and [%] are those of [Z]. *)

From S2P Require Import Prelude Kernel PbAddr.

#[local] Open Scope Z_scope.

Definition NVM_PLANE_SINGLE : Z := 1.
Definition NVM_BLK_T_BAD : Z := 1.
Definition NVM_BLK_T_GRWN_BAD : Z := 2.

(** ** Data *)

(** [struct nvm_ch_map]. *)
Record nvm_ch_map : Type := mk_chmap {
  cm_ch_off : Z;
  cm_nr_luns : Z;
  cm_lun_offs : gmap Z Z;
  cm_ptr : obj;  (** the array [lun_offs] *)
}.

(** [struct nvm_dev_map], and the objects it is made of. *)
Record nvm_dev_map : Type := mk_devmap {
  dm_chnls : gmap Z nvm_ch_map;
  dm_nr_chnls : Z;
  dm_chnls_ptr : obj;
  dm_ptr : obj;
}.

(** [struct nvm_tgt_dev]. *)
Record nvm_tgt_dev : Type := mk_tgt_dev {
  td_geo : nvm_geo;
  td_luns : gmap Z Z;
  td_total_secs : Z;
  td_map : nvm_dev_map;
  td_luns_ptr : obj;
  td_ptr : obj;
}.

(** The geometry of a sub-device. *)
Definition geo_set_luns (chnls luns per_chnl : Z) (g : nvm_geo) : nvm_geo :=
  mk_geo chnls luns per_chnl (nr_planes g) (sec_per_pg g) (pgs_per_blk g) (blks_per_lun g) (sec_size g)
    (geo_ppaf g) (plane_mode g) (sec_per_pl g) (sec_per_blk g) (sec_per_lun g).

(** An array of [n] ints. *)
Definition int_array (n v : Z) : gmap Z Z := list_to_map (map (λ i, (i, v)) (seqZ 0 n)).

(** A store to an array: its keys are the valid indices. *)
Definition awrite (m : gmap Z Z) (i v : Z) : res (gmap Z Z) :=
  _ ← aread m i; Ok (<[i:=v]> m).

(** ** Creating and removing a sub-device *)

(** The locals of the loop of [nvm_create_tgt_dev]; [rmap] is the one of the device. *)
Record mk_state : Type := mk_mstate {
  ms_rmap : gmap Z nvm_ch_map;
  ms_chnls : gmap Z nvm_ch_map;
  ms_luns : gmap Z Z;
  ms_lunid : Z;
  ms_blun : Z;
  ms_left : Z;
  ms_balanced : bool;
  ms_heap : kheap;
}.

(** The LUNs of a channel: [(luns, lunid, lun_offs, lun_roffs)]. *)
Definition map_lun (i blun j : Z) (s : gmap Z Z * Z * gmap Z Z * gmap Z Z) : res (gmap Z Z * Z * gmap Z Z * gmap Z Z) :=
  match s with
  | (luns, lunid, offs, roffs) =>
      luns ← awrite luns lunid (set_g_lun j (set_g_ch i 0));
      offs ← awrite offs j blun;
      roffs ← awrite roffs (j + blun) blun;
      Ok (luns, lunid + 1, offs, roffs)
  end.

(** What is freed on the way. *)
Definition free_all (os : list obj) (h : kheap) : res kheap := mfor os kfree h.

Section tgt_dev.
Context (alloc_ok : nat → bool).
Context (geo : nvm_geo).

(** One channel; [None] when its array cannot be had. *)
Definition map_channel (bch prev_nr_luns i : Z) (s : mk_state) : res (bool * mk_state) :=
  r ← aread (ms_rmap s) (i + bch);
  let luns_in_chnl := if decide (luns_per_chnl geo < ms_left s) then luns_per_chnl geo else ms_left s in
  let balanced := ms_balanced s && bool_decide (prev_nr_luns = luns_in_chnl) in
  let rmap := <[i + bch := mk_chmap bch (cm_nr_luns r) (cm_lun_offs r) (cm_ptr r)]> (ms_rmap s) in
  let '(o, h) := kmalloc alloc_ok "lun_offs" (ms_heap s) in
  match o with
  | None => Ok (false, mk_mstate rmap (ms_chnls s) (ms_luns s) (ms_lunid s) (ms_blun s) (ms_left s) balanced h)
  | Some o =>
      t ← mfor (seqZ 0 luns_in_chnl) (map_lun i (ms_blun s)) (ms_luns s, ms_lunid s, int_array luns_in_chnl 0, cm_lun_offs r);
      match t with
      | (luns, lunid, offs, roffs) =>
          Ok (true, mk_mstate (<[i + bch := mk_chmap bch (cm_nr_luns r) roffs (cm_ptr r)]> rmap)
            (<[i := mk_chmap bch luns_in_chnl offs o]> (ms_chnls s)) luns lunid 0 (ms_left s - luns_in_chnl) balanced h)
      end
  end.

(** The loop over the channels, from [i] on: whether it ended, and at which channel. *)
Fixpoint map_channels (n : nat) (bch prev_nr_luns i : Z) (s : mk_state) : res (bool * Z * mk_state) :=
  match n with
  | O => Ok (true, i, s)
  | S n' =>
      r ← map_channel bch prev_nr_luns i s;
      if fst r : bool then map_channels n' bch prev_nr_luns (i + 1) (snd r) else Ok (false, i, snd r)
  end.

(** [err_ch]: [while (--i > 0) kfree(dev_map->chnls[i].lun_offs)]. *)
Definition free_lun_offs (chnls : gmap Z nvm_ch_map) (i : Z) (h : kheap) : res kheap :=
  mfor (rev (seqZ 1 (i - 1))) (λ k h, c ← aread chnls k; kfree (cm_ptr c) h) h.

(** [None] when memory runs out; the map of the device may have changed all the same. *)
Definition nvm_create_tgt_dev (rmap : gmap Z nvm_ch_map) (lun_begin lun_end : Z) (h : kheap) :
    res (option nvm_tgt_dev * gmap Z nvm_ch_map * kheap) :=
  let lpc := luns_per_chnl geo in
  let nr_luns := lun_end - lun_begin + 1 in
  let nr_chnls_mod := nr_luns mod lpc in
  let bch := lun_begin / lpc in
  let blun := lun_begin mod lpc in
  let nr_chnls := if decide (nr_chnls_mod = 0) then nr_luns / lpc else nr_luns / lpc + 1 in
  let '(dmp, h) := kmalloc alloc_ok "dev_map" h in
  match dmp with
  | None => Ok (None, rmap, h)
  | Some dmp =>
      let '(cp, h) := kmalloc alloc_ok "chnls" h in
      match cp with
      | None => h ← free_all [dmp] h; Ok (None, rmap, h)
      | Some cp =>
          let '(lp, h) := kmalloc alloc_ok "luns" h in
          match lp with
          | None => h ← free_all [cp; dmp] h; Ok (None, rmap, h)
          | Some lp =>
              let prev_nr_luns := if decide (lpc < nr_luns) then lpc else nr_luns in
              r ← map_channels (Z.to_nat nr_chnls) bch prev_nr_luns 0
                    (mk_mstate rmap ∅ (int_array nr_luns 0) 0 blun nr_luns true h);
              match r with
              | (false, i, s) =>
                  h ← free_lun_offs (ms_chnls s) i (ms_heap s);
                  h ← free_all [lp; cp; dmp] h; Ok (None, ms_rmap s, h)
              | (true, i, s) =>
                  let '(tp, h) := kmalloc alloc_ok "tgt_dev" (ms_heap s) in
                  match tp with
                  | None =>
                      h ← free_lun_offs (ms_chnls s) i h;
                      h ← free_all [lp; cp; dmp] h; Ok (None, ms_rmap s, h)
                  | Some tp =>
                      let g := geo_set_luns nr_chnls nr_luns (if ms_balanced s then prev_nr_luns else -1) geo in
                      Ok (Some (mk_tgt_dev g (ms_luns s) (u64 (s32 (nr_luns * sec_per_lun g)))
                            (mk_devmap (ms_chnls s) nr_chnls cp dmp) lp tp), ms_rmap s, h)
                  end
              end
          end
      end
  end.

(** The LUNs of a sub-device are free again, and so is its memory. *)
Definition clear_lun (i : Z) (c : nvm_ch_map) (j : Z) (lm : gmap Z (option Z)) : res (gmap Z (option Z)) :=
  off ← aread (cm_lun_offs c) j;
  let lunid := (i + cm_ch_off c) * luns_per_chnl geo + (j + off) in
  _ ← aread lm lunid; Ok (<[lunid := None]> lm).

Definition remove_channel (dm : nvm_dev_map) (i : Z) (s : gmap Z (option Z) * kheap) : res (gmap Z (option Z) * kheap) :=
  c ← aread (dm_chnls dm) i;
  lm ← mfor (seqZ 0 (cm_nr_luns c)) (clear_lun i c) (fst s);
  h ← kfree (cm_ptr c) (snd s); Ok (lm, h).

Definition nvm_remove_tgt_dev (td : nvm_tgt_dev) (lun_map : gmap Z (option Z)) (h : kheap) :
    res (gmap Z (option Z) * kheap) :=
  let dm := td_map td in
  r ← mfor (seqZ 0 (dm_nr_chnls dm)) (remove_channel dm) (lun_map, h);
  h ← free_all [dm_chnls_ptr dm; dm_ptr dm; td_luns_ptr td; td_ptr td] (snd r);
  Ok (fst r, h).

(** ** The map of the device *)

Fixpoint register_channels (n : nat) (i : Z) (chnls : gmap Z nvm_ch_map) (h : kheap) : bool * Z * gmap Z nvm_ch_map * kheap :=
  match n with
  | O => (true, i, chnls, h)
  | S n' =>
      let '(o, h) := kmalloc alloc_ok "lun_roffs" h in
      match o with
      | None => (false, i, chnls, h)
      | Some o => register_channels n' (i + 1) (<[i := mk_chmap (-1) (luns_per_chnl geo) (int_array (luns_per_chnl geo) (-1)) o]> chnls) h
      end
  end.

(** The map, and its two objects; on an error the array of channels is not freed. *)
Definition nvm_register_map (h : kheap) : res (option nvm_dev_map * kheap) :=
  let '(rp, h) := kmalloc alloc_ok "rmap" h in
  match rp with
  | None => Ok (None, h)
  | Some rp =>
      let '(cp, h) := kmalloc alloc_ok "rmap_chnls" h in
      match cp with
      | None => h ← kfree rp h; Ok (None, h)
      | Some cp =>
          match register_channels (Z.to_nat (nr_chnls geo)) 0 ∅ h with
          | (true, _, chnls, h) => Ok (Some (mk_devmap chnls 0 cp rp), h)
          | (false, i, chnls, h) =>
              h ← mfor (rev (seqZ 0 i)) (λ k h, c ← aread chnls k; kfree (cm_ptr c) h) h;
              h ← kfree rp h; Ok (None, h)
          end
      end
  end.

Definition nvm_unregister_map (rmap : nvm_dev_map) (h : kheap) : res kheap :=
  h ← mfor (seqZ 0 (nr_chnls geo)) (λ i h, c ← aread (dm_chnls rmap) i; kfree (cm_ptr c) h) h;
  free_all [dm_chnls_ptr rmap; dm_ptr rmap] h.

End tgt_dev.

(** ** Addresses *)

Definition nvm_map_to_dev (dm : nvm_dev_map) (p : Z) : res Z :=
  c ← aread (dm_chnls dm) (g_ch p);
  off ← aread (cm_lun_offs c) (g_lun p);
  let p := set_g_ch (g_ch p + cm_ch_off c) p in
  Ok (set_g_lun (g_lun p + off) p).

Definition nvm_map_to_tgt (rmap : gmap Z nvm_ch_map) (p : Z) : res Z :=
  c ← aread rmap (g_ch p);
  off ← aread (cm_lun_offs c) (g_lun p);
  let p := set_g_ch (g_ch p - cm_ch_off c) p in
  Ok (set_g_lun (g_lun p - off) p).

Fixpoint nvm_ppa_tgt_to_dev (td : nvm_tgt_dev) (ppas : list Z) : res (list Z) :=
  match ppas with
  | [] => Ok []
  | p :: ppas' =>
      q ← nvm_map_to_dev (td_map td) p;
      qs ← nvm_ppa_tgt_to_dev td ppas';
      Ok (__generic_to_dev_addr (td_geo td) q :: qs)
  end.

Fixpoint nvm_ppa_dev_to_tgt (td : nvm_tgt_dev) (rmap : gmap Z nvm_ch_map) (ppas : list Z) : res (list Z) :=
  match ppas with
  | [] => Ok []
  | p :: ppas' =>
      q ← nvm_map_to_tgt rmap (__dev_to_generic_addr (td_geo td) p);
      qs ← nvm_ppa_dev_to_tgt td rmap ppas';
      Ok (q :: qs)
  end.

(** The first LUN of a sub-device, and the last one. *)
Definition nvm_tgt_lun_scope (geo : nvm_geo) (td : nvm_tgt_dev) : res (Z * Z) :=
  c ← aread (dm_chnls (td_map td)) 0;
  off ← aread (cm_lun_offs c) 0;
  let blun := cm_ch_off c * luns_per_chnl geo + off in
  Ok (blun, blun + nr_luns (td_geo td) - 1).

(** Entries of a translation table of the device, as sectors of the sub-device. *)
Fixpoint nvm_part_to_tgt (geo : nvm_geo) (rmap : gmap Z nvm_ch_map) (entries : list Z) : res (list Z) :=
  match entries with
  | [] => Ok []
  | pba :: entries' =>
      e ← (if decide (pba = 0) then Ok 0
           else
             let g := linear_to_generic_addr geo pba in
             c ← aread rmap (g_ch g);
             off ← aread (cm_lun_offs c) (g_lun g);
             let diff := u64 (s32 ((cm_ch_off c * luns_per_chnl geo + off) * sec_per_lun geo)) in
             Ok (u64 (pba - diff)));
      es ← nvm_part_to_tgt geo rmap entries';
      Ok (e :: es)
  end.

(** ** Requests *)

(** What [nvm_rq] says of the addresses: one address, or a list in DMA memory. *)
Inductive rq_addr : Type := RQ_one (p : Z) | RQ_list (ppas : list Z).

(** The list of a request: with [vblk], one address for every plane. *)
Definition plane_list (geo : nvm_geo) (ppas : list Z) : list Z :=
  concat (map (λ pl, map (set_g_pl pl) ppas) (seqZ 0 (plane_mode geo))).

(** The return value, the addresses ([None]: the list could not be had), and how many. *)
Definition nvm_set_rqd_ppalist (dma_ok : bool) (geo : nvm_geo) (ppas : list Z) (vblk : bool) : Z * option rq_addr * Z :=
  let n := Z.of_nat (length ppas) in
  match ppas with
  | [p] => if decide (vblk = false ∨ plane_mode geo = NVM_PLANE_SINGLE) then (0, Some (RQ_one p), 1)
           else if dma_ok then (0, Some (RQ_list (plane_list geo ppas)), u16 (n * plane_mode geo))
           else (- ENOMEM, None, n)
  | _ => if dma_ok then
           if vblk then (0, Some (RQ_list (plane_list geo ppas)), u16 (u16 n * plane_mode geo))
           else (0, Some (RQ_list ppas), u16 n)
         else (- ENOMEM, None, u16 n)
  end.

(** ** Bad block tables *)

Definition is_bad (t : Z) : bool := bool_decide (Z.land t (Z.lor NVM_BLK_T_BAD NVM_BLK_T_GRWN_BAD) ≠ 0).

(** The first bad plane of a block, or the state of its first plane. *)
Fixpoint bad_plane (blks : gmap Z Z) (offset : Z) (planes : list Z) : res (option Z) :=
  match planes with
  | [] => Ok None
  | pl :: planes' =>
      t ← aread blks (offset + pl);
      if is_bad t then Ok (Some t) else bad_plane blks offset planes'
  end.

Definition fold_block (geo : nvm_geo) (blk : Z) (blks : gmap Z Z) : res (gmap Z Z) :=
  let offset := blk * plane_mode geo in
  t ← aread blks offset;
  b ← bad_plane blks offset (seqZ 0 (plane_mode geo));
  awrite blks blk (default t b).

(** The number of blocks, and the table, folded in place. *)
Definition nvm_bb_tbl_fold (geo : nvm_geo) (blks : gmap Z Z) (nr_blks : Z) : res (Z * gmap Z Z) :=
  if decide (nr_blks ≠ blks_per_lun geo * plane_mode geo) then Ok (- EINVAL, blks)
  else
    blks ← mfor (seqZ 0 (blks_per_lun geo)) (fold_block geo) blks;
    Ok (blks_per_lun geo, blks).

(** The device fills the table: [get_bb_tbl] of an address of the device returns a value
    and the table. *)
Definition nvm_get_tgt_bb_tbl (get_bb_tbl : Z → Z * gmap Z Z) (td : nvm_tgt_dev) (ppa : Z) : res (Z * gmap Z Z) :=
  q ← nvm_ppa_tgt_to_dev td [ppa];
  p ← deref (head q);
  Ok (get_bb_tbl p).

(** ** Theorems *)

(** *** Arrays and addresses *)

Lemma int_array_lookup n v i : int_array n v !! i = if decide (0 ≤ i < n) then Some v else None.
Proof.
  unfold int_array. case_decide as Hi.
  - apply elem_of_list_to_map_1.
    + rewrite map_map. cbn. rewrite map_id. apply NoDup_seqZ.
    + apply list_elem_of_In, in_map_iff. exists i. split; [done|]. apply list_elem_of_In, elem_of_seqZ. lia.
  - apply not_elem_of_list_to_map_1. intros Hin. apply list_elem_of_fmap in Hin as ([? ?] & -> & Hin).
    apply list_elem_of_In, in_map_iff in Hin as (j & [= <- <-] & Hj). apply list_elem_of_In, elem_of_seqZ in Hj. cbn in Hi. lia.
Qed.

Lemma awrite_in m i v : is_Some (m !! i) → awrite m i v = Ok (<[i:=v]> m).
Proof. intros [x Hx]. unfold awrite. by rewrite (aread_Some _ _ _ Hx). Qed.

(** Other fields of the address keep their value, and a field that gets its own stays. *)
Lemma set_lun_ch_back p ch lun : set_g_lun (g_lun p) (set_g_ch (g_ch p) (set_g_lun lun (set_g_ch ch p))) = p.
Proof.
  unfold set_g_lun, set_g_ch, g_lun, g_ch, NVM_LUN_BITS, NVM_CH_BITS. apply Z.bits_inj'. intros i Hi.
  rewrite !set_bits_testbit by lia. repeat case_bool_decide; try lia; rewrite ?get_bits_testbit by lia.
  - rewrite bool_decide_true by lia. cbn. f_equal. lia.
  - rewrite bool_decide_true by lia. cbn. f_equal. lia.
  - done.
Qed.

Lemma g_lun_set p ch lun : 0 ≤ lun < 256 → g_lun (set_g_lun lun (set_g_ch ch p)) = lun.
Proof. intros. unfold g_lun, set_g_lun, NVM_LUN_BITS. rewrite get_set_bits_eq by lia. by apply Z.mod_small. Qed.

Lemma g_ch_set p ch lun : 0 ≤ ch < 128 → g_ch (set_g_lun lun (set_g_ch ch p)) = ch.
Proof.
  intros. unfold g_ch, set_g_lun, set_g_ch, NVM_LUN_BITS, NVM_CH_BITS. rewrite get_set_bits_ne by lia.
  rewrite get_set_bits_eq by lia. by apply Z.mod_small.
Qed.

Lemma g_lun_set_ch p ch : g_lun (set_g_ch ch p) = g_lun p.
Proof. unfold g_lun, set_g_ch, NVM_LUN_BITS, NVM_CH_BITS. by rewrite get_set_bits_ne by lia. Qed.

(** *** The shape of a sub-device *)

(** [n] LUNs from LUN [b] on: inside one channel, or some whole channels.  It has [chans]
    channels of [width] LUNs each. *)
Definition aligned (lpc b n : Z) : Prop :=
  0 ≤ b ∧ 0 < n ∧ (b mod lpc + n ≤ lpc ∨ b mod lpc = 0 ∧ n mod lpc = 0).

Definition width (lpc n : Z) : Z := Z.min lpc n.
Definition chans (lpc n : Z) : Z := n / width lpc n.

Record shape (lpc b n : Z) : Prop := {
  sh_width : 0 < width lpc n ≤ lpc;
  sh_all : chans lpc n * width lpc n = n;
  sh_fit : 0 ≤ b mod lpc ∧ b mod lpc + width lpc n ≤ lpc;
  sh_one : chans lpc n = 1 ∨ width lpc n = lpc ∧ b mod lpc = 0;
  sh_pos : 0 < chans lpc n;
  sh_begin : 0 ≤ b / lpc ∧ b = b / lpc * lpc + b mod lpc;
  sh_count : (if decide (n mod lpc = 0) then n / lpc else n / lpc + 1) = chans lpc n;
}.

Lemma aligned_shape lpc b n : 0 < lpc → aligned lpc b n → shape lpc b n.
Proof.
  intros Hl (Hb & Hn & Ha). pose proof (Z.mod_pos_bound b lpc Hl) as Hm. pose proof (Z.div_mod b lpc ltac:(lia)) as Hd.
  pose proof (Z.div_pos b lpc Hb Hl). pose proof (Z.div_mod n lpc ltac:(lia)) as Hdn.
  destruct (decide (n ≤ lpc)) as [Hle|Hgt].
  - constructor; unfold chans, width; rewrite ?Z.min_r, ?Z.div_same by lia; try lia.
    case_decide as E.
    + assert (n = lpc) as -> by (destruct (decide (n = lpc)); [done|]; rewrite Z.mod_small in E by lia; lia). by apply Z.div_same; lia.
    + destruct (decide (n = lpc)) as [->|]; [by rewrite Z.mod_same in E by lia|]. by rewrite Z.div_small by lia.
  - assert (b mod lpc = 0 ∧ n mod lpc = 0) as [E1 E2] by lia.
    constructor; unfold chans, width; rewrite ?Z.min_l by lia; rewrite ?E2; try lia.
    done.
Qed.

(** The [k]th LUN of a sub-device, as the target sees it. *)
Definition lun_addr (lpc n k : Z) : Z := set_g_lun (k mod width lpc n) (set_g_ch (k / width lpc n) 0).

(** *** The maps of a sub-device *)

Section sub.
Context (geo : nvm_geo) (b n : Z).
Notation lpc := (luns_per_chnl geo).
Notation w := (width lpc n).
Notation m := (chans lpc n).
Notation bch := (b / lpc).
Notation blun := (b mod lpc).

(** The first [i] channels lead to the device. *)
Definition to_dev (chnls : gmap Z nvm_ch_map) (i : Z) : Prop :=
  ∀ i', 0 ≤ i' < i → ∃ c, chnls !! i' = Some c ∧ cm_ch_off c = bch ∧ cm_nr_luns c = w ∧ cm_lun_offs c = int_array w blun.

(** The channels of the device that the first [i] ones are lead back. *)
Definition to_tgt (rmap : gmap Z nvm_ch_map) (i : Z) : Prop :=
  ∀ i' j, 0 ≤ i' < i → 0 ≤ j < w →
    ∃ c, rmap !! (bch + i') = Some c ∧ cm_ch_off c = bch ∧ cm_lun_offs c !! (blun + j) = Some blun.

(** The map of the device changes only for the LUNs of the sub-device. *)
Definition chan_kept (ch : Z) (c0 c : nvm_ch_map) : Prop :=
  cm_nr_luns c = cm_nr_luns c0 ∧ cm_ptr c = cm_ptr c0 ∧
  (c = c0 ∨ bch ≤ ch < bch + m ∧ cm_ch_off c = bch ∧
   ∀ k, cm_lun_offs c !! k = cm_lun_offs c0 !! k ∨
        blun ≤ k < blun + w ∧ cm_lun_offs c !! k = Some blun ∧ is_Some (cm_lun_offs c0 !! k)).

Definition rmap_kept (rmap0 rmap : gmap Z nvm_ch_map) : Prop := map_Forall2 chan_kept rmap0 rmap.

Record sub_dev (td : nvm_tgt_dev) : Prop := {
  sd_geo : td_geo td = geo_set_luns m n w geo;
  sd_luns : ∀ k, 0 ≤ k < n → td_luns td !! k = Some (lun_addr lpc n k);
  sd_nr : dm_nr_chnls (td_map td) = m;
  sd_map : to_dev (dm_chnls (td_map td)) m;
}.

(** The map of a device that has LUNs for [nr_chnls] channels. *)
Definition rmap_wf (rmap : gmap Z nvm_ch_map) : Prop :=
  ∀ ch, 0 ≤ ch < nr_chnls geo → ∃ c, rmap !! ch = Some c ∧ ∀ j, 0 ≤ j < lpc → is_Some (cm_lun_offs c !! j).

Definition ptr_of (chnls : gmap Z nvm_ch_map) (i : Z) : obj :=
  match chnls !! i with Some c => cm_ptr c | None => ("", 0) end.

Definition ptrs (chnls : gmap Z nvm_ch_map) (i : Z) : list obj := map (ptr_of chnls) (rev (seqZ 0 i)).

(** An address of the target, there and back. *)
Lemma sub_roundtrip td rmap p :
  0 < lpc → lpc ≤ 256 → bch + m ≤ 128 → aligned lpc b n → sub_dev td → to_tgt rmap m →
  g_ch p < m → g_lun p < w →
  ∃ q, nvm_map_to_dev (td_map td) p = Ok q ∧ g_ch q * lpc + g_lun q = b + g_ch p * w + g_lun p ∧
    g_lun q < lpc ∧ nvm_map_to_tgt rmap q = Ok p.
Proof.
  intros Hl Hl2 Hc Ha [_ _ _ Hd] Ht Hch Hlun. destruct (aligned_shape _ _ _ Hl Ha) as [Hw Hn [Hf0 Hf] Ho Hp [Hb0 Hb] _].
  assert (0 ≤ g_ch p ∧ 0 ≤ g_lun p) as [Hch0 Hlun0] by (split; apply get_bits_range; done).
  unfold nvm_map_to_dev. destruct (Hd (g_ch p)) as (c & E & Eo & _ & Ef); [lia|].
  rewrite (aread_Some _ _ _ E), bind_Ok_l, Ef.
  rewrite (aread_Some _ _ blun) by (rewrite int_array_lookup, decide_True by lia; done). rewrite bind_Ok_l, Eo, g_lun_set_ch.
  eexists. split; [done|]. rewrite g_ch_set, g_lun_set by lia. split; [|split; [lia|]].
  { destruct Ho as [Ho|[Ho Ho']]; [replace (g_ch p) with 0 by lia; lia|]. rewrite Ho. lia. }
  unfold nvm_map_to_tgt. rewrite g_ch_set, g_lun_set by lia.
  destruct (Ht (g_ch p) (g_lun p)) as (c' & E' & Eo' & Ef'); [lia..|].
  rewrite (Z.add_comm (g_ch p)), (aread_Some _ _ _ E'), bind_Ok_l, (Z.add_comm (g_lun p)), (aread_Some _ _ _ Ef'), bind_Ok_l, Eo'.
  rewrite g_lun_set_ch, g_lun_set by lia. do 2 f_equal.
  replace (bch + g_ch p - bch) with (g_ch p) by lia. replace (blun + g_lun p - blun) with (g_lun p) by lia. apply set_lun_ch_back.
Qed.

End sub.

(** *** Creation *)

(** What the inner loop does to an array: [f] at the first [k] indices from [a] on. *)
Definition stored (a k : Z) (f : Z → Z) (m0 m : gmap Z Z) : Prop :=
  ∀ x, m !! x = if decide (a ≤ x < a + k) then Some (f (x - a)) else m0 !! x.

Lemma stored_step a k f m0 m v :
  0 ≤ k → stored a k f m0 m → f k = v → stored a (k + 1) f m0 (<[a + k:=v]> m).
Proof.
  intros Hk Hs <- x. destruct (decide (x = a + k)) as [->|Hne].
  - rewrite lookup_insert_eq, decide_True by lia. do 2 f_equal. lia.
  - rewrite lookup_insert_ne, Hs by done. repeat case_decide; try lia; done.
Qed.

Lemma map_luns_ok i blun w luns lunid offs roffs :
  0 ≤ w → (∀ k, 0 ≤ k < w → is_Some (luns !! (lunid + k)) ∧ is_Some (offs !! k) ∧ is_Some (roffs !! (blun + k))) →
  ∃ luns' offs' roffs', mfor (seqZ 0 w) (map_lun i blun) (luns, lunid, offs, roffs) = Ok (luns', lunid + w, offs', roffs') ∧
    stored lunid w (λ k, set_g_lun k (set_g_ch i 0)) luns luns' ∧
    stored 0 w (λ _, blun) offs offs' ∧ stored blun w (λ _, blun) roffs roffs'.
Proof.
  intros Hw Hin.
  destruct (mfor_inv (λ dn s, ∃ l o r, s = (l, lunid + Z.of_nat (length dn), o, r) ∧
      stored lunid (Z.of_nat (length dn)) (λ k, set_g_lun k (set_g_ch i 0)) luns l ∧
      stored 0 (Z.of_nat (length dn)) (λ _, blun) offs o ∧ stored blun (Z.of_nat (length dn)) (λ _, blun) roffs r)
    (map_lun i blun) (seqZ 0 w) (luns, lunid, offs, roffs)) as (s & E & l & o & r & -> & Hl & Ho & Hr).
  - exists luns, offs, roffs. cbn. rewrite Z.add_0_r. split; [done|].
    split_and!; intros x; rewrite decide_False by lia; done.
  - intros dn j todo s Heq (l & o & r & -> & Hl & Ho & Hr).
    assert (j = Z.of_nat (length dn) ∧ j < w) as [-> Hj].
    { assert (seqZ 0 w !! length dn = Some j) as Hj by (rewrite Heq; by apply list_lookup_middle).
      apply lookup_seqZ in Hj. lia. }
    destruct (Hin (Z.of_nat (length dn))) as (H1 & H2 & H3); [lia|].
    unfold map_lun. rewrite (awrite_in l), bind_Ok_l by (rewrite Hl, decide_False by lia; done).
    rewrite (awrite_in o), bind_Ok_l by (rewrite Ho, decide_False by lia; done).
    rewrite (awrite_in r), bind_Ok_l by (rewrite Hr, decide_False, (Z.add_comm _ blun) by lia; done).
    eexists. split; [done|]. rewrite length_app. cbn [length]. replace (Z.of_nat (length dn + 1)) with (Z.of_nat (length dn) + 1) by lia.
    do 3 eexists. split; [by rewrite Z.add_assoc|].
    split_and!; [by apply stored_step; try lia| |].
    + rewrite <-(Z.add_0_l (Z.of_nat (length dn))) at 2. by apply stored_step; try lia.
    + rewrite (Z.add_comm _ blun). by apply stored_step; try lia.
  - rewrite length_seqZ, Z2Nat.id in * by lia. eauto 10.
Qed.

Section create.
Context (alloc_ok : nat → bool) (geo : nvm_geo) (b n : Z).
Notation lpc := (luns_per_chnl geo).
Notation w := (width lpc n).
Notation m := (chans lpc n).
Notation bch := (b / lpc).
Notation blun := (b mod lpc).

(** The loop of [nvm_create_tgt_dev] before channel [i]; [os] is what it has besides the
    arrays of the channels. *)
Record loop_inv (rmap0 : gmap Z nvm_ch_map) (os : list obj) (L : gset obj) (i : Z) (s : mk_state) : Prop := {
  li_left : ms_left s = n - i * w;
  li_lunid : ms_lunid s = i * w;
  li_balanced : ms_balanced s = true;
  li_blun : i < m → ms_blun s = blun;
  li_luns : ∀ k, ms_luns s !! k = if decide (0 ≤ k < i * w) then Some (lun_addr lpc n k)
                                  else if decide (0 ≤ k < n) then Some 0 else None;
  li_chnls : to_dev geo b n (ms_chnls s) i;
  li_rmap : rmap_kept geo b n rmap0 (ms_rmap s);
  li_tgt : to_tgt geo b n (ms_rmap s) i;
  li_owns : owns (ms_heap s) (ptrs (ms_chnls s) i ++ os) L;
  li_named : named (ms_heap s);
}.

Lemma ptrs_insert chnls i c : 0 ≤ i → ptrs (<[i:=c]> chnls) (i + 1) = cm_ptr c :: ptrs chnls i.
Proof.
  intros Hi. unfold ptrs. rewrite seqZ_snoc by done. rewrite rev_app_distr. cbn. f_equal.
  - unfold ptr_of. by rewrite lookup_insert_eq.
  - apply map_ext_in. intros k Hk. apply in_rev, list_elem_of_In, elem_of_seqZ in Hk.
    unfold ptr_of. rewrite lookup_insert_ne; [done|lia].
Qed.

(** Replacing a channel of the device's map. *)
Lemma rmap_kept_set rmap0 rmap ch c c' :
  rmap_kept geo b n rmap0 rmap → rmap !! ch = Some c → bch ≤ ch < bch + m →
  cm_nr_luns c' = cm_nr_luns c → cm_ptr c' = cm_ptr c → cm_ch_off c' = bch →
  (∀ k, cm_lun_offs c' !! k = cm_lun_offs c !! k ∨
        blun ≤ k < blun + w ∧ cm_lun_offs c' !! k = Some blun ∧ is_Some (cm_lun_offs c !! k)) →
  rmap_kept geo b n rmap0 (<[ch:=c']> rmap).
Proof.
  intros Hk Hc Hr H1 H2 H3 H4 ch'. specialize (Hk ch'). destruct (decide (ch' = ch)) as [->|].
  - rewrite lookup_insert_eq. rewrite Hc in Hk. inversion Hk as [c0 ? (K1 & K2 & K3)|]; subst. constructor.
    split_and!; [congruence..|]. right. split_and!; [lia|lia|done|]. intros k.
    destruct (H4 k) as [->|(? & -> & ?)].
    + destruct K3 as [->|(_ & _ & K3)]; auto.
    + right. split_and!; [lia|lia|done|]. destruct K3 as [->|(_ & _ & K3)]; [done|].
      destruct (K3 k) as [<-|(_ & _ & ?)]; done.
  - by rewrite lookup_insert_ne.
Qed.

Lemma chan_kept_dom ch c0 c k : chan_kept geo b n ch c0 c → is_Some (cm_lun_offs c !! k) ↔ is_Some (cm_lun_offs c0 !! k).
Proof.
  intros (_ & _ & [->|(_ & _ & Hk)]); [done|]. destruct (Hk k) as [->|(_ & -> & ?)]; [done|]. split; [done|by eauto].
Qed.

Lemma kept_wf rmap0 rmap : rmap_wf geo rmap0 → rmap_kept geo b n rmap0 rmap → rmap_wf geo rmap.
Proof.
  intros Hwf Hk ch Hch. destruct (Hwf ch Hch) as (c0 & E0 & Hd). specialize (Hk ch). rewrite E0 in Hk.
  inversion Hk as [? c Hc E|]; subst. exists c. split; [done|]. intros j Hj. by eapply chan_kept_dom, Hd.
Qed.

Lemma map_channel_ok rmap0 os L i s :
  shape lpc b n → rmap_wf geo rmap0 → bch + m ≤ nr_chnls geo → 0 ≤ i < m → loop_inv rmap0 os L i s →
  ∃ ok s', map_channel alloc_ok geo bch w i s = Ok (ok, s') ∧
  if ok : bool then loop_inv rmap0 os L (i + 1) s'
  else ms_chnls s' = ms_chnls s ∧ owns (ms_heap s') (ptrs (ms_chnls s) i ++ os) L ∧ named (ms_heap s') ∧
       rmap_kept geo b n rmap0 (ms_rmap s').
Proof.
  intros [Hw Hn [Hf0 Hf] Ho Hp [Hb0 Hb] _] Hwf Hm Hi Hinv. pose proof Hinv as [].
  destruct (kept_wf _ _ Hwf li_rmap0 (bch + i)) as (r & Er & Hr); [lia|].
  unfold map_channel. rewrite (Z.add_comm i bch), (aread_Some _ _ _ Er), bind_Ok_l.
  assert ((if decide (lpc < ms_left s) then lpc else ms_left s) = w) as ->.
  { rewrite li_left0. destruct Ho as [Ho|[Ho _]]; case_decide; try lia; nia. }
  rewrite li_balanced0, bool_decide_true by done. cbn [andb].
  destruct (kmalloc alloc_ok "lun_offs" (ms_heap s)) as [[o|] h'] eqn:E;
    destruct (kmalloc_spec _ _ _ _ _ _ _ E li_named0 li_owns0) as (Hn1 & Ho1 & _).
  - rewrite li_blun0 by lia. rewrite li_lunid0.
    destruct (map_luns_ok i blun w (ms_luns s) (i * w) (int_array w 0) (cm_lun_offs r))
      as (luns & offs & roffs & -> & Sl & So & Sr); [lia| |].
    { intros k Hk. rewrite li_luns0, int_array_lookup, (decide_True _ _ Hk), decide_False, decide_True by nia.
      split_and!; [done..|apply Hr; lia]. }
    cbn. eexists true, _. split; [done|]. cbn. constructor; cbn; try done.
    + lia.
    + lia.
    + intros Hi1. destruct Ho as [Ho|[_ Ho]]; lia.
    + intros k. rewrite Sl, li_luns0. destruct (decide (i * w ≤ k < i * w + w)) as [Hk|Hk].
      * rewrite decide_True by nia. f_equal. unfold lun_addr.
        rewrite <-(Z.div_unique k w i (k - i * w)), <-(Z.mod_unique k w i (k - i * w)) by lia. done.
      * repeat case_decide; try nia; done.
    + intros i' Hi'. destruct (decide (i' = i)) as [->|].
      * rewrite lookup_insert_eq. eexists. split; [done|]. cbn. split_and!; [done..|].
        apply map_eq. intros k. rewrite So, !int_array_lookup. repeat case_decide; try lia; done.
      * rewrite lookup_insert_ne by done. apply li_chnls0. lia.
    + rewrite insert_insert_eq. eapply rmap_kept_set; [done|done|lia|done..|]. cbn. intros k. rewrite Sr.
      case_decide as Hk; [|by left]. right. split_and!; [lia|lia|done|]. apply Hr. lia.
    + intros i' j Hi' Hj. rewrite insert_insert_eq. destruct (decide (i' = i)) as [->|].
      * rewrite lookup_insert_eq. eexists. split; [done|]. cbn. split; [done|]. by rewrite Sr, decide_True by lia.
      * rewrite lookup_insert_ne by lia. apply li_tgt0; lia.
    + by rewrite ptrs_insert by lia.
  - eexists false, _. split; [done|]. cbn. split_and!; [done..|].
    eapply rmap_kept_set; [done|done|lia|done..|]. cbn. auto.
Qed.

Lemma map_channels_ok rmap0 os L k i s :
  shape lpc b n → rmap_wf geo rmap0 → bch + m ≤ nr_chnls geo → 0 ≤ i → i + Z.of_nat k = m → loop_inv rmap0 os L i s →
  ∃ ok i' s', map_channels alloc_ok geo k bch w i s = Ok (ok, i', s') ∧
  if ok : bool then i' = m ∧ loop_inv rmap0 os L m s'
  else 0 ≤ i' < m ∧ to_dev geo b n (ms_chnls s') i' ∧ owns (ms_heap s') (ptrs (ms_chnls s') i' ++ os) L ∧
       named (ms_heap s') ∧ rmap_kept geo b n rmap0 (ms_rmap s').
Proof.
  intros Hsh Hwf Hm. revert i s. induction k as [|k IH]; intros i s Hi Hk Hinv; cbn [map_channels].
  - exists true, i, s. assert (i = m) as -> by lia. done.
  - destruct (map_channel_ok rmap0 os L i s) as (ok & s' & -> & Hs'); [done..|lia|done|]. cbn. destruct ok.
    + apply IH; [lia|lia|done].
    + destruct Hs' as (Hc & ? & ? & ?). exists false, i, s'. rewrite Hc. split; [done|].
      split_and!; [lia|lia|apply Hinv|done..].
Qed.

Lemma free_ptrs_ok chnls l os L h :
  (∀ k, k ∈ l → is_Some (chnls !! k)) → owns h (map (ptr_of chnls) l ++ os) L → named h →
  ∃ h', mfor l (λ k h, c ← aread chnls k; kfree (cm_ptr c) h) h = Ok h' ∧ owns h' os L ∧ named h'.
Proof.
  revert h. induction l as [|k l IH]; intros h Hl Ho Hn; cbn; [eauto|].
  destruct (Hl k) as [c Hc]; [by left|]. cbn in Ho. unfold ptr_of in Ho at 1. rewrite Hc in Ho.
  destruct (owns_free _ _ _ _ Ho) as (h1 & E & _ & Ho1). rewrite (aread_Some _ _ _ Hc), bind_Ok_l, E. cbn.
  apply IH; [|done|by eapply kfree_named]. intros. apply Hl. by right.
Qed.

Lemma free_all_ok l os L h : owns h (l ++ os) L → named h → ∃ h', free_all l h = Ok h' ∧ owns h' os L ∧ named h'.
Proof.
  unfold free_all. revert h. induction l as [|o l IH]; intros h Ho Hn; cbn; [eauto|].
  destruct (owns_free _ _ _ _ Ho) as (h1 & E & _ & Ho1). rewrite E. cbn. apply IH; [done|by eapply kfree_named].
Qed.

Lemma free_lun_offs_ok chnls i os L h :
  0 ≤ i → to_dev geo b n chnls i → owns h (ptrs chnls i ++ os) L → named h →
  ∃ h', free_lun_offs chnls i h = Ok h' ∧ owns h' ((if decide (0 < i) then [ptr_of chnls 0] else []) ++ os) L ∧ named h'.
Proof.
  intros Hi Hd Ho Hn. unfold free_lun_offs. case_decide as H0.
  - apply free_ptrs_ok; [|eapply owns_perm; [|done]|done].
    + intros k Hk%list_elem_of_In%in_rev%list_elem_of_In%elem_of_seqZ. destruct (Hd k) as (c & -> & _); [lia|done].
    + unfold ptrs. rewrite (seqZ_cons 0) by lia. cbn. rewrite map_app, <-app_assoc. done.
  - assert (i = 0) as -> by lia. exists h. done.
Qed.

(** What a sub-device is made of. *)
Definition td_objs (td : nvm_tgt_dev) : list obj :=
  td_ptr td :: ptrs (dm_chnls (td_map td)) (dm_nr_chnls (td_map td)) ++
  [td_luns_ptr td; dm_chnls_ptr (td_map td); dm_ptr (td_map td)].

Lemma create_tgt_dev_ok rmap h L :
  0 < lpc → aligned lpc b n → rmap_wf geo rmap → bch + m ≤ nr_chnls geo → owns h [] L → named h →
  ∃ otd rmap' h', nvm_create_tgt_dev alloc_ok geo rmap b (b + n - 1) h = Ok (otd, rmap', h') ∧ named h' ∧
  rmap_kept geo b n rmap rmap' ∧
  match otd with
  | Some td => sub_dev geo b n td ∧ to_tgt geo b n rmap' m ∧ owns h' (td_objs td) L
  | None => owns h' [] L ∨ ∃ o, owns h' [o] L
  end.
Proof.
  intros Hl Ha Hwf Hm Ho Hn. pose proof (aligned_shape _ _ _ Hl Ha) as Hsh. pose proof Hsh as [Hw Hnw [Hf0 Hf] Hone Hp [Hb0 Hb] Hcnt].
  assert (rmap_kept geo b n rmap rmap) as Hrefl.
  { intros ch. destruct (rmap !! ch); constructor. split_and!; auto. }
  unfold nvm_create_tgt_dev. replace (b + n - 1 - b + 1) with n by lia. cbn zeta. rewrite Hcnt.
  destruct (kmalloc alloc_ok "dev_map" h) as [[dmp|] h1] eqn:E1; destruct (kmalloc_spec _ _ _ _ _ _ _ E1 Hn Ho) as (Hn1 & Ho1 & _).
  2: { do 3 eexists. split; [done|]. auto. }
  destruct (kmalloc alloc_ok "chnls" h1) as [[cp|] h2] eqn:E2; destruct (kmalloc_spec _ _ _ _ _ _ _ E2 Hn1 Ho1) as (Hn2 & Ho2 & _).
  2: { destruct (free_all_ok [dmp] [] L h2 Ho2 Hn2) as (h3 & -> & ? & ?). do 3 eexists. split; [done|]. auto. }
  destruct (kmalloc alloc_ok "luns" h2) as [[lp|] h3] eqn:E3; destruct (kmalloc_spec _ _ _ _ _ _ _ E3 Hn2 Ho2) as (Hn3 & Ho3 & _).
  2: { destruct (free_all_ok [cp; dmp] [] L h3 Ho3 Hn3) as (h4 & -> & ? & ?). do 3 eexists. split; [done|]. auto. }
  assert ((if decide (lpc < n) then lpc else n) = w) as ->.
  { unfold width. destruct (decide (lpc < n)); lia. }
  destruct (map_channels_ok rmap [lp; cp; dmp] L (Z.to_nat m) 0
              (mk_mstate rmap ∅ (int_array n 0) 0 blun n true h3)) as (ok & i & s & -> & Hs); [done|done|done|lia|lia| |].
  { constructor; cbn; try done; try lia.
    - intros k. rewrite int_array_lookup. repeat case_decide; try lia; done.
    - intros i' Hi'. lia.
    - intros i' j Hi'. lia. }
  cbn -[kmalloc free_lun_offs free_all]. destruct ok.
  - destruct Hs as [-> [_ _ Hbal _ Hluns Hc Hr Ht Hos Hns]]. rewrite Hbal.
    destruct (kmalloc alloc_ok "tgt_dev" (ms_heap s)) as [[tp|] h4] eqn:E4; destruct (kmalloc_spec _ _ _ _ _ _ _ E4 Hns Hos) as (Hn4 & Ho4 & _).
    + do 3 eexists. split; [done|]. split; [done|]. split; [done|]. split; [|done]. constructor; cbn; try done.
      intros k Hk. rewrite Hluns, decide_True by lia. done.
    + destruct (free_lun_offs_ok (ms_chnls s) m [lp; cp; dmp] L h4) as (h5 & -> & Ho5 & Hn5); [lia|done..|]. rewrite bind_Ok_l.
      rewrite decide_True in Ho5 by lia.
      destruct (free_all_ok [lp; cp; dmp] [ptr_of (ms_chnls s) 0] L h5) as (h6 & -> & Ho6 & Hn6); [by eapply owns_perm; [apply (Permutation_app_comm [_])|]|done|].
      do 3 eexists. split; [done|]. eauto.
  - destruct Hs as (Hi & Hc & Hos & Hns & Hr).
    destruct (free_lun_offs_ok (ms_chnls s) i [lp; cp; dmp] L (ms_heap s)) as (h5 & -> & Ho5 & Hn5); [lia|done..|]. rewrite bind_Ok_l.
    destruct (free_all_ok [lp; cp; dmp] (if decide (0 < i) then [ptr_of (ms_chnls s) 0] else []) L h5) as (h6 & -> & Ho6 & Hn6).
    { eapply owns_perm; [|done]. by rewrite Permutation_app_comm. }
    { done. }
    do 3 eexists. split; [done|]. split; [done|]. split; [done|]. case_decide; eauto.
Qed.

(** *** Removal *)

Definition cleared (lo hi : Z) (lm0 lm : gmap Z (option Z)) : Prop :=
  ∀ x, lm !! x = if decide (lo ≤ x < hi) then Some None else lm0 !! x.

Lemma cleared_refl lo hi lm : hi ≤ lo → cleared lo hi lm lm.
Proof. intros H x. by rewrite decide_False by lia. Qed.

Lemma cleared_step lo hi lm0 lm : lo ≤ hi → cleared lo hi lm0 lm → cleared lo (hi + 1) lm0 (<[hi:=None]> lm).
Proof.
  intros Hl Hc x. destruct (decide (x = hi)) as [->|]; [by rewrite lookup_insert_eq, decide_True by lia|].
  rewrite lookup_insert_ne, Hc by done. repeat case_decide; try lia; done.
Qed.

(** A counted loop, by the number of rounds done. *)
Lemma mfor_seqZ {S} (I : Z → S → Prop) (f : Z → S → res S) a k s :
  0 ≤ k → I a s → (∀ i s, a ≤ i < a + k → I i s → ∃ s', f i s = Ok s' ∧ I (i + 1) s') →
  ∃ s', mfor (seqZ a k) f s = Ok s' ∧ I (a + k) s'.
Proof.
  intros Hk H0 Hstep. destruct (mfor_inv (λ dn s, I (a + Z.of_nat (length dn)) s) f (seqZ a k) s) as (s' & E & HI).
  - cbn. by rewrite Z.add_0_r.
  - intros dn i todo s1 Heq HI. assert (seqZ a k !! length dn = Some i) as Hi by (rewrite Heq; by apply list_lookup_middle).
    apply lookup_seqZ in Hi. destruct (Hstep i s1) as (s2 & E & HI2); [lia|by replace i with (a + Z.of_nat (length dn)) by lia|].
    exists s2. split; [done|]. rewrite length_app. cbn [length]. by replace (a + Z.of_nat (length dn + 1)) with (i + 1) by lia.
  - rewrite length_seqZ, Z2Nat.id in HI by lia. eauto.
Qed.

Lemma remove_tgt_dev_ok td lm h L :
  0 < lpc → aligned lpc b n → sub_dev geo b n td → (∀ x, b ≤ x < b + n → is_Some (lm !! x)) →
  owns h (td_objs td) L → named h →
  ∃ lm' h', nvm_remove_tgt_dev geo td lm h = Ok (lm', h') ∧ owns h' [] L ∧ named h' ∧ cleared b (b + n) lm lm'.
Proof.
  intros Hl Ha [_ _ Hnr Hd] Hlm Ho Hn. destruct (aligned_shape _ _ _ Hl Ha) as [Hw Hnw [Hf0 Hf] Hone Hp [Hb0 Hb] _].
  unfold nvm_remove_tgt_dev. cbn zeta. rewrite Hnr.
  set (rest := [dm_chnls_ptr (td_map td); dm_ptr (td_map td); td_luns_ptr td; td_ptr td]).
  destruct (mfor_seqZ (λ i s, cleared b (b + i * w) lm (fst s) ∧
      owns (snd s) (map (ptr_of (dm_chnls (td_map td))) (seqZ i (m - i)) ++ rest) L ∧ named (snd s))
    (remove_channel geo (td_map td)) 0 m (lm, h)) as ((lm1 & h1) & -> & Hc & Ho1 & Hn1).
  - lia.
  - cbn. split; [by apply cleared_refl; lia|]. split; [|done]. eapply owns_perm; [|done]. unfold td_objs, ptrs, rest. rewrite Hnr, Z.sub_0_r.
    assert (rev (seqZ 0 m) ≡ₚ seqZ 0 m) as -> by (symmetry; apply Permutation_rev).
    rewrite app_comm_cons, (Permutation_app_comm (_ :: _)). cbn. rewrite (Permutation_app_comm (map _ _)). cbn.
    rewrite (perm_swap (td_luns_ptr td)), (perm_swap (td_luns_ptr td)). by rewrite (Permutation_cons_append _ (td_ptr td)), <-?app_assoc.
  - intros i [lm1 h1] Hi (Hc & Ho1 & Hn1). cbn in *.
    destruct (Hd i) as (c & Ec & Eo & Ew & Ef); [lia|]. unfold remove_channel. rewrite (aread_Some _ _ _ Ec), bind_Ok_l, Ew. cbn [fst snd].
    destruct (mfor_seqZ (λ j lm1, cleared b (b + i * w + j) lm lm1)
      (clear_lun geo i c) 0 w lm1) as (lm2 & -> & Hc2).
    + lia.
    + by rewrite Z.add_0_r.
    + intros j lm2 Hj Hc2. unfold clear_lun. rewrite Eo, Ef, (aread_Some _ _ blun) by (rewrite int_array_lookup, decide_True by lia; done). cbn.
      assert ((i + bch) * lpc + (j + blun) = b + i * w + j) as -> by (destruct Hone as [Hone|[-> ?]]; [replace i with 0 by lia|]; lia).
      destruct (Hlm (b + i * w + j)) as [x Hx]; [nia|].
      rewrite (aread_Some _ _ x) by (rewrite Hc2, decide_False by lia; done). cbn. eexists. split; [done|].
      rewrite Z.add_assoc. apply cleared_step; [nia|done].
    + cbn. rewrite (seqZ_cons i) in Ho1 by lia. cbn in Ho1. unfold ptr_of in Ho1 at 1. rewrite Ec in Ho1.
      destruct (owns_free _ _ _ _ Ho1) as (h2 & E & _ & Ho2). rewrite E. cbn. eexists. split; [done|]. cbn.
      split; [by replace (b + (i + 1) * w) with (b + i * w + (0 + w)) by lia|]. split; [|by eapply kfree_named].
      by replace (m - (i + 1)) with (Z.pred (m - i)) by lia.
  - rewrite bind_Ok_l. cbn [fst snd] in *. rewrite Z.sub_diag in Ho1. cbn in Ho1.
    destruct (free_all_ok rest [] L h1) as (h2 & -> & ? & ?); [by rewrite app_nil_r|done|]. rewrite bind_Ok_l.
    do 2 eexists. split; [done|]. split; [done|]. split; [done|]. by rewrite Z.add_0_l, Hnw in Hc.
Qed.

End create.

(** *** Folding *)

(** The state of a block: that of its first bad plane, or of its first plane. *)
Definition block_type (geo : nvm_geo) (blks : gmap Z Z) (blk : Z) : option Z :=
  let planes := map (λ pl, blks !!! (blk * plane_mode geo + pl)) (seqZ 0 (plane_mode geo)) in
  match filter (λ t, is_bad t = true) planes with t :: _ => Some t | [] => head planes end.

Lemma bad_plane_ok blks offset planes :
  (∀ pl, pl ∈ planes → is_Some (blks !! (offset + pl))) →
  bad_plane blks offset planes = Ok (head (filter (λ t, is_bad t = true) (map (λ pl, blks !!! (offset + pl)) planes))).
Proof.
  induction planes as [|pl planes IH]; intros Hin; [done|]. cbn [bad_plane map].
  destruct (Hin pl) as [t Ht]; [by left|]. rewrite (aread_Some _ _ _ Ht), bind_Ok_l, filter_cons.
  rewrite (lookup_total_correct _ _ _ Ht). destruct (is_bad t) eqn:E; [by rewrite decide_True|].
  rewrite decide_False by done. apply IH. intros. apply Hin. by right.
Qed.

(** The table is folded in place: what is overwritten is not needed any more. *)
Lemma bb_fold_ok geo blks :
  0 ≤ blks_per_lun geo → 0 < plane_mode geo →
  (∀ i, 0 ≤ i < blks_per_lun geo * plane_mode geo → is_Some (blks !! i)) →
  ∃ blks', nvm_bb_tbl_fold geo blks (blks_per_lun geo * plane_mode geo) = Ok (blks_per_lun geo, blks') ∧
    ∀ i, blks' !! i = if decide (0 ≤ i < blks_per_lun geo) then block_type geo blks i else blks !! i.
Proof.
  intros Hn Hp Hin. unfold nvm_bb_tbl_fold. rewrite decide_False by lia.
  destruct (mfor_seqZ (λ k b, ∀ i, b !! i = if decide (0 ≤ i < k) then block_type geo blks i else blks !! i)
    (fold_block geo) 0 (blks_per_lun geo) blks) as (b & -> & Hb); [done| | |by eauto].
  { intros i. by rewrite decide_False by lia. }
  intros k b Hk Hb. unfold fold_block. cbn zeta.
  assert (∀ pl, 0 ≤ pl < plane_mode geo → b !! (k * plane_mode geo + pl) = blks !! (k * plane_mode geo + pl)) as Hold.
  { intros pl Hpl. by rewrite Hb, decide_False by nia. }
  assert (∀ pl, 0 ≤ pl < plane_mode geo → is_Some (blks !! (k * plane_mode geo + pl))) as Hs by (intros; apply Hin; nia).
  destruct (Hs 0) as [t Ht]; [lia|]. rewrite Z.add_0_r in Ht.
  assert (b !! (k * plane_mode geo) = Some t) as Hbt by (rewrite <-Ht, <-(Z.add_0_r (k * plane_mode geo)); apply Hold; lia).
  rewrite (aread_Some _ _ _ Hbt), bind_Ok_l, bad_plane_ok, bind_Ok_l.
  2: { intros pl Hpl%elem_of_seqZ. rewrite Hold by lia. apply Hs. lia. }
  rewrite awrite_in by (rewrite Hb, decide_False by lia; apply Hin; nia). eexists. split; [done|].
  assert (map (λ pl, b !!! (k * plane_mode geo + pl)) (seqZ 0 (plane_mode geo)) =
          map (λ pl, blks !!! (k * plane_mode geo + pl)) (seqZ 0 (plane_mode geo))) as ->.
  { apply map_ext_in. intros pl Hpl%list_elem_of_In%elem_of_seqZ. unfold lookup_total, map_lookup_total. by rewrite Hold by lia. }
  intros i. destruct (decide (i = k)) as [->|].
  - rewrite lookup_insert_eq, decide_True by lia. unfold block_type. cbn zeta.
    destruct (filter _ _); [|done]. rewrite (seqZ_cons 0) by lia. cbn. rewrite Z.add_0_r.
    by rewrite (lookup_total_correct _ _ _ Ht).
  - rewrite lookup_insert_ne, Hb by done. repeat case_decide; try lia; done.
Qed.

(** *** Properties *)

(** C24: a sub-device of some LUNs of a device - inside one channel, or whole channels - gets
    its own numbering: every address that its target uses goes to a LUN of its range, each to
    a different one, and comes back as it was; the map of the device changes for these LUNs
    only.  Creation always returns; when memory runs out at most one object is not given
    back, and after removal all memory is free again and exactly these LUNs are released. *)
Theorem sub_device_addresses alloc_ok geo b n rmap h L lm :
  0 < luns_per_chnl geo ≤ 256 → nr_chnls geo ≤ 128 → aligned (luns_per_chnl geo) b n →
  b + n ≤ nr_chnls geo * luns_per_chnl geo → rmap_wf geo rmap →
  (∀ x, b ≤ x < b + n → is_Some (lm !! x)) → owns h [] L → named h →
  ∃ otd rmap' h', nvm_create_tgt_dev alloc_ok geo rmap b (b + n - 1) h = Ok (otd, rmap', h') ∧
  rmap_kept geo b n rmap rmap' ∧
  match otd with
  | None => owns h' [] L ∨ ∃ o, owns h' [o] L
  | Some td =>
      (∀ p, g_ch p < nr_chnls (td_geo td) → g_lun p < luns_per_chnl (td_geo td) →
         ∃ q, nvm_map_to_dev (td_map td) p = Ok q ∧ nvm_map_to_tgt rmap' q = Ok p ∧
           g_lun q < luns_per_chnl geo ∧
           g_ch q * luns_per_chnl geo + g_lun q = b + (g_ch p * luns_per_chnl (td_geo td) + g_lun p) ∧
           b ≤ g_ch q * luns_per_chnl geo + g_lun q < b + n) ∧
      ∃ lm' h2, nvm_remove_tgt_dev geo td lm h' = Ok (lm', h2) ∧ owns h2 [] L ∧ cleared b (b + n) lm lm'
  end.
Proof.
  intros Hl Hc Ha Hr Hwf Hlm Ho Hn. destruct (aligned_shape (luns_per_chnl geo) b n) as [Hw Hnw [Hf0 Hf] Hone Hp [Hb0 Hb] _]; [lia|done|].
  set (lpc := luns_per_chnl geo) in *. set (w := width lpc n) in *. set (m := chans lpc n) in *.
  assert (b / lpc + m ≤ nr_chnls geo) as Hm.
  { destruct Hone as [Hone|[Hone Hz]]; nia. }
  destruct (create_tgt_dev_ok alloc_ok geo b n rmap h L) as (otd & rmap' & h' & E & Hn' & Hk & Hr'); [lia|done..|].
  exists otd, rmap', h'. split; [done|]. split; [done|]. destruct otd as [td|]; [|done].
  destruct Hr' as (Hs & Ht & Ho'). pose proof Hs as [Hg _ _ _]. rewrite Hg. cbn [geo_set_luns nr_chnls luns_per_chnl]. split.
  - intros p H1 H2. destruct (sub_roundtrip geo b n td rmap' p) as (q & E1 & E2 & E3 & E4); [lia|lia|fold lpc m; lia|done..|].
    assert (0 ≤ g_ch p ∧ 0 ≤ g_lun p) as [? ?] by (split; apply get_bits_range; done).
    exists q. fold lpc w m in E2, E3, H1, H2 |- *. split_and!; [done|done|done|lia|nia|nia].
  - destruct (remove_tgt_dev_ok geo b n td lm h' L) as (lm' & h2 & ? & ? & _ & ?); [lia|done..|]. eauto.
Qed.

(** A small device: two channels of four LUNs. *)
Definition geo_demo : nvm_geo := mk_geo 2 8 4 2 2 4 3 4096 (mk_af 0 0 0 0 0 0 0 0 0 0 0 0) 2 4 16 48.

Definition rmap_demo : gmap Z nvm_ch_map :=
  {[0 := mk_chmap (-1) 4 (int_array 4 (-1)) ("lun_roffs", 2); 1 := mk_chmap (-1) 4 (int_array 4 (-1)) ("lun_roffs", 3)]}.

Lemma register_demo :
  nvm_register_map (λ _, true) geo_demo (mk_kheap 0 ∅) =
  Ok (Some (mk_devmap rmap_demo 0 ("rmap_chnls", 1) ("rmap", 0)),
      mk_kheap 4 {[("lun_roffs", 3); ("lun_roffs", 2); ("rmap_chnls", 1); ("rmap", 0)]}).
Proof. vm_compute. reflexivity. Qed.

(* LUNs 2 to 5: the range begins inside a channel and leaves it, and the map of the device
   is written behind the end of an array *)
Lemma straddling_range_overflows :
  nvm_create_tgt_dev (λ _, true) geo_demo rmap_demo 2 5 (mk_kheap 4 ∅) = Fault F_OOB.
Proof. vm_compute. reflexivity. Qed.

(* the array of the first channel is not freed *)
Lemma create_failure_leaks :
  ∃ rmap', nvm_create_tgt_dev (λ n, negb (Nat.eqb n 4)) geo_demo rmap_demo 0 7 (mk_kheap 0 ∅) =
    Ok (None, rmap', mk_kheap 5 {[("lun_offs", 3)]}).
Proof. eexists. vm_compute. reflexivity. Qed.

(* nor is the array of channels when the map of a device cannot be completed *)
Lemma register_failure_leaks :
  nvm_register_map (λ n, negb (Nat.eqb n 3)) geo_demo (mk_kheap 0 ∅) = Ok (None, mk_kheap 4 {[("rmap_chnls", 1)]}).
Proof. vm_compute. reflexivity. Qed.

(** Witnesses. *)

Lemma rmap_demo_wf : rmap_wf geo_demo rmap_demo.
Proof.
  intros ch Hch. change (nr_chnls geo_demo) with 2 in Hch. change (luns_per_chnl geo_demo) with 4.
  assert (ch = 0 ∨ ch = 1) as [-> | ->] by lia; eexists; (split; [reflexivity|]); intros j Hj; cbn [cm_lun_offs];
    rewrite int_array_lookup, decide_True by lia; done.
Qed.

Lemma sub_device_addresses_witness :
  rmap_wf geo_demo rmap_demo ∧ aligned 4 4 4 ∧
  ∃ td rmap' h', nvm_create_tgt_dev (λ _, true) geo_demo rmap_demo 4 7 (mk_kheap 4 ∅) = Ok (Some td, rmap', h') ∧
    ∃ q, nvm_map_to_dev (td_map td) (set_g_lun 2 0) = Ok q ∧ nvm_map_to_tgt rmap' q = Ok (set_g_lun 2 0) ∧ g_ch q * 4 + g_lun q = 6.
Proof.
  assert (aligned 4 4 4) as Ha by (split; [lia|]; split; [lia|]; right; done).
  split; [apply rmap_demo_wf|]. split; [done|].
  destruct (sub_device_addresses (λ _, true) geo_demo 4 4 rmap_demo (mk_kheap 4 ∅) ∅ (list_to_map (map (λ i, (i, None)) (seqZ 0 8))))
    as (otd & rmap' & h' & E & _ & Hr).
  { cbn. lia. }
  { cbn. lia. }
  { exact Ha. }
  { cbn. lia. }
  { apply rmap_demo_wf. }
  { intros x Hx. assert (x = 4 ∨ x = 5 ∨ x = 6 ∨ x = 7) as [->|[->|[->| ->]]] by lia; by eexists. }
  { constructor; [done|by apply NoDup_nil|by intros o Ho%elem_of_nil]. }
  { intros o Ho. cbn in Ho. set_solver. }
  vm_compute in E. injection E as <- <- <-.
  do 3 eexists. split; [vm_compute; reflexivity|]. destruct Hr as [Hr _].
  destruct (Hr (set_g_lun 2 0)) as (q & E1 & E2 & _ & E3 & _); [vm_compute; reflexivity..|].
  exists q. split; [exact E1|]. split; [exact E2|]. etrans; [exact E3|vm_compute; reflexivity].
Defined.
