(* ===== verification/PbInit.v ===== *)
(** * pblk: creating an instance

    drivers/lightnvm/pblk-init.c: the LUNs of the target and their bad blocks, the sizes of
    the metadata of a line, the lines themselves, the write buffer, the translation map, and
    the order in which they are set up and torn down when something fails.

    An instance under construction ([inst]) is the [pblk] of the other files, what becomes
    its constants ([pblk_cfg]), and the heap.  A pointer that was never set, or whose
    allocation failed, is [NULL] and may be freed; [it_ptrs] are the pointers that are not
    [NULL], and freeing one whose object is gone is a fault.  The objects of an instance have
    fixed names.  The kernel's page size and limit of [kmalloc] are parameters, as are the
    device's bad block tables; threads and timers that are only started have no effect
    here. *)

From S2P Require Import Prelude Kernel PbAddr PbRl PbState PbMap PbRb PbRing PbLine PbGc LnMap.

#[local] Open Scope Z_scope.

Definition NVM_BLK_T_FREE : Z := 0.
Definition NVM_RSP_L2P : Z := 1.
Definition NVM_MEM_PAGE_WRITE : Z := 8.
Definition PBLK_LINE_NR_LUN_BITMAP : Z := 2.
Definition PBLK_KMALLOC_META : Z := 1.
Definition PBLK_VMALLOC_META : Z := 2.

(** [sizeof], on 64-bit machines. *)
Definition sizeof_line_smeta : Z := 48.
Definition sizeof_line_emeta : Z := 48.
Definition BITS_TO_LONGS (n : Z) : Z := (n + 63) / 64.

Record inst : Type := mk_inst {
  it_pb : pblk;
  it_lm : pblk_line_meta;
  it_ppaf : option pblk_addr_format;
  it_luns : gmap Z Z;
  it_bb : gmap Z (gmap Z Z);  (** [bb_list] of a LUN *)
  it_min_write_pgs : Z;
  it_max_write_pgs : Z;
  it_pgs_in_buffer : Z;
  it_capacity : Z;
  it_emeta_alloc_type : Z;
  it_rb_sets : nat;  (** page sets of the write buffer *)
  it_lists : bool;  (** the heads of the lists are initialised *)
  it_heap : kheap;
  it_ptrs : gset obj;
}.

Definition it_set_pb (v : pblk) (x : inst) : inst :=
  mk_inst v (it_lm x) (it_ppaf x) (it_luns x) (it_bb x) (it_min_write_pgs x) (it_max_write_pgs x)
    (it_pgs_in_buffer x) (it_capacity x) (it_emeta_alloc_type x) (it_rb_sets x) (it_lists x) (it_heap x) (it_ptrs x).
Definition it_set_lm (v : pblk_line_meta) (x : inst) : inst :=
  mk_inst (it_pb x) v (it_ppaf x) (it_luns x) (it_bb x) (it_min_write_pgs x) (it_max_write_pgs x)
    (it_pgs_in_buffer x) (it_capacity x) (it_emeta_alloc_type x) (it_rb_sets x) (it_lists x) (it_heap x) (it_ptrs x).
Definition it_set_ppaf (v : option pblk_addr_format) (x : inst) : inst :=
  mk_inst (it_pb x) (it_lm x) v (it_luns x) (it_bb x) (it_min_write_pgs x) (it_max_write_pgs x)
    (it_pgs_in_buffer x) (it_capacity x) (it_emeta_alloc_type x) (it_rb_sets x) (it_lists x) (it_heap x) (it_ptrs x).
Definition it_set_luns (v : gmap Z Z) (x : inst) : inst :=
  mk_inst (it_pb x) (it_lm x) (it_ppaf x) v (it_bb x) (it_min_write_pgs x) (it_max_write_pgs x)
    (it_pgs_in_buffer x) (it_capacity x) (it_emeta_alloc_type x) (it_rb_sets x) (it_lists x) (it_heap x) (it_ptrs x).
Definition it_set_bb (v : gmap Z (gmap Z Z)) (x : inst) : inst :=
  mk_inst (it_pb x) (it_lm x) (it_ppaf x) (it_luns x) v (it_min_write_pgs x) (it_max_write_pgs x)
    (it_pgs_in_buffer x) (it_capacity x) (it_emeta_alloc_type x) (it_rb_sets x) (it_lists x) (it_heap x) (it_ptrs x).
Definition it_set_pgs (mn mx buf : Z) (x : inst) : inst :=
  mk_inst (it_pb x) (it_lm x) (it_ppaf x) (it_luns x) (it_bb x) mn mx buf (it_capacity x)
    (it_emeta_alloc_type x) (it_rb_sets x) (it_lists x) (it_heap x) (it_ptrs x).
Definition it_set_capacity (v : Z) (x : inst) : inst :=
  mk_inst (it_pb x) (it_lm x) (it_ppaf x) (it_luns x) (it_bb x) (it_min_write_pgs x) (it_max_write_pgs x)
    (it_pgs_in_buffer x) v (it_emeta_alloc_type x) (it_rb_sets x) (it_lists x) (it_heap x) (it_ptrs x).
Definition it_set_emeta_type (v : Z) (x : inst) : inst :=
  mk_inst (it_pb x) (it_lm x) (it_ppaf x) (it_luns x) (it_bb x) (it_min_write_pgs x) (it_max_write_pgs x)
    (it_pgs_in_buffer x) (it_capacity x) v (it_rb_sets x) (it_lists x) (it_heap x) (it_ptrs x).
Definition it_set_sets (v : nat) (x : inst) : inst :=
  mk_inst (it_pb x) (it_lm x) (it_ppaf x) (it_luns x) (it_bb x) (it_min_write_pgs x) (it_max_write_pgs x)
    (it_pgs_in_buffer x) (it_capacity x) (it_emeta_alloc_type x) v (it_lists x) (it_heap x) (it_ptrs x).
Definition it_set_lists (v : bool) (x : inst) : inst :=
  mk_inst (it_pb x) (it_lm x) (it_ppaf x) (it_luns x) (it_bb x) (it_min_write_pgs x) (it_max_write_pgs x)
    (it_pgs_in_buffer x) (it_capacity x) (it_emeta_alloc_type x) (it_rb_sets x) v (it_heap x) (it_ptrs x).
Definition it_set_heap (h : kheap) (ps : gset obj) (x : inst) : inst :=
  mk_inst (it_pb x) (it_lm x) (it_ppaf x) (it_luns x) (it_bb x) (it_min_write_pgs x) (it_max_write_pgs x)
    (it_pgs_in_buffer x) (it_capacity x) (it_emeta_alloc_type x) (it_rb_sets x) (it_lists x) h ps.

Definition on_pb (f : pblk → pblk) (s : inst) : inst := it_set_pb (f (it_pb s)) s.
Definition on_mg (f : pblk_line_mgmt → pblk_line_mgmt) : inst → inst := on_pb (λ pb, pb_set_mg (f (pb_mg pb)) pb).

(** [l_mg->nr_lines = ...] and what follows it; the lists are initialised later. *)
Definition init_mgmt (nr_lines : Z) (m : pblk_line_mgmt) : pblk_line_mgmt :=
  mk_mgmt nr_lines 0 (mg_lists m) None (mg_data_next m) (mg_sline_meta m) (mg_eline_meta m) (mg_gc_meta m) ∅
    (mg_bb_template m) 0.

(** Memory of [kcalloc]. *)
Definition line0 : pblk_line :=
  mk_line 0 0 0 0 None None 0 0 0 0 0 ∅ ∅ None None 0 0 0 0 0 0 0.

Section init.
Context `{Kops} (alloc_ok : nat → bool).
(** The target's part of the device, and the geometry of the whole. *)
Context (dev : nvm_tgt_dev) (parent_geo : nvm_geo).
Context (get_bb_tbl : Z → Z * gmap Z Z).
Context (PAGE_SIZE KMALLOC_MAX_CACHE_SIZE max_phys_sects : Z).
(** What memory of [kmalloc] holds. *)
Context (smeta_junk : line_smeta) (emeta_junk : line_emeta).

Notation geo := (td_geo dev).

(** ** Memory *)

(** An allocation whose result goes to a pointer of the instance. *)
Definition alloc (o : obj) (s : inst) : bool * inst :=
  let '(ok, h) := kalloc alloc_ok o (it_heap s) in
  (ok, it_set_heap h (if ok : bool then {[o]} ∪ it_ptrs s else it_ptrs s ∖ {[o]}) s).

Definition free (o : obj) (s : inst) : res inst :=
  if decide (o ∈ it_ptrs s) then h ← kfree o (it_heap s); Ok (it_set_heap h (it_ptrs s) s) else Ok s.

Definition frees (os : list obj) (s : inst) : res inst := mfor os free s.

Definition bb_lists (n : Z) : list obj := map (λ i, ("bb_list", i)) (seqZ 0 n).
Definition metas : list obj := concat (map (λ i, [("sline_meta", i); ("eline_meta", i)]) (seqZ 0 PBLK_DATA_LINES)).

(** ** LUNs *)

(** The table of a LUN, folded; an error of the device leaves the memory to nobody. *)
Definition pblk_bb_discovery (i : Z) (s : inst) : res (Z * inst) :=
  let nr_blks := blks_per_lun geo * plane_mode geo in
  let '(ok, h) := kalloc alloc_ok ("bb_list", i) (it_heap s) in
  let s := it_set_heap h (it_ptrs s) s in
  if negb ok then Ok (- ENOMEM, s)
  else
    bppa ← aread (it_luns s) i;
    r ← nvm_get_tgt_bb_tbl get_bb_tbl dev (set_g_lun (g_lun bppa) (set_g_ch (g_ch bppa) 0));
    if decide (fst r ≠ 0) then Ok (fst r, s)
    else
      f ← nvm_bb_tbl_fold parent_geo (snd r) nr_blks;
      h ← (if decide (fst f < 0) then kfree ("bb_list", i) (it_heap s) else Ok (it_heap s));
      let s := it_set_bb (<[i := snd f]> (it_bb s)) (it_set_heap h ({[("bb_list", i)]} ∪ it_ptrs s) s) in
      Ok (if decide (fst f < 0) then fst f else 0, s).

(** One LUN after the other; on an error the tables there are get freed. *)
Fixpoint luns_init (n : nat) (i : Z) (s : inst) : res (Z * inst) :=
  match n with
  | O => Ok (0, s)
  | S n' =>
      let ch := i mod nr_chnls geo in
      let lunid := i / nr_chnls geo + ch * luns_per_chnl geo in
      bppa ← aread (td_luns dev) lunid;
      let s := it_set_luns (<[i := bppa]> (it_luns s)) (on_pb (λ pb, pb_set_sems (<[i := 1]> (pb_sems pb)) pb) s) in
      r ← pblk_bb_discovery i s;
      if decide (fst r ≠ 0) then s ← frees (rev (bb_lists i)) (snd r); Ok (fst r, s)
      else luns_init n' (i + 1) (snd r)
  end.

Definition pblk_luns_init (s : inst) : res (Z * inst) :=
  if decide (luns_per_chnl geo < 0) then Ok (- EINVAL, s)
  else
    let '(ok, s) := alloc ("luns", 0) s in
    if ok : bool then luns_init (Z.to_nat (nr_luns geo)) 0 s else Ok (- ENOMEM, s).

(** ** Lines *)

(** The bad blocks of a line: the bitmap and how many. *)
Fixpoint bb_line (luns : list Z) (id nbits : Z) (bb : gmap Z (gmap Z Z)) (bm : gset Z) (cnt : Z) : res (gset Z * Z) :=
  match luns with
  | [] => Ok (bm, cnt)
  | i :: luns' =>
      tbl ← aread bb i;
      t ← aread tbl id;
      if decide (t = NVM_BLK_T_FREE) then bb_line luns' id nbits bb bm cnt
      else r ← test_and_set_bit nbits i bm; bb_line luns' id nbits bb (snd r) (cnt + 1)
  end.

Definition pblk_bb_line (id : Z) (s : inst) : res (Z * inst) :=
  let '(ok, s) := alloc ("blk_bitmap", id) s in
  if negb ok then Ok (- ENOMEM, s)
  else
    let '(ok, s) := alloc ("erase_bitmap", id) s in
    if negb ok then s ← free ("blk_bitmap", id) s; Ok (- ENOMEM, s)
    else
      r ← bb_line (seqZ 0 (lm_blk_per_line (it_lm s))) id (8 * lm_blk_bitmap_len (it_lm s)) (it_bb s) ∅ 0;
      pb ← mod_line id (ln_set_blk_bitmap (fst r)) (it_pb s);
      Ok (snd r, it_set_pb pb s).

(** The pages of start metadata: [PBLK_LINE_NR_LUN_BITMAP] bitmaps follow the structure. *)
Fixpoint smeta_pages (fuel : nat) (i need : Z) : res Z :=
  match fuel with
  | O => Fault F_FUEL
  | S fuel' =>
      if decide (u32 (u32 (i * sec_per_pl geo) * sec_size geo) < need) then smeta_pages fuel' (i + 1) need else Ok i
  end.

Definition calc_emeta_len (nr_lines sec_per_line emeta_sec blk_bitmap_len : Z) : Z :=
  u32 (sizeof_line_emeta + u32 (sec_per_line - emeta_sec) * 8 + nr_lines * 4 + blk_bitmap_len).

Fixpoint emeta_pages (fuel : nat) (i nr_lines sec_per_line blk_bitmap_len : Z) : res Z :=
  match fuel with
  | O => Fault F_FUEL
  | S fuel' =>
      let sec := u32 (i * sec_per_pl geo) in
      if decide (u32 (sec * sec_size geo) < calc_emeta_len nr_lines sec_per_line sec blk_bitmap_len) then
        emeta_pages fuel' (i + 1) nr_lines sec_per_line blk_bitmap_len
      else Ok i
  end.

(** The first part of [pblk_lines_init]; [nr_lines] is what [l_mg] holds so far. *)
Definition line_meta (fuel : nat) (nr_lines : Z) : res pblk_line_meta :=
  let spl := u32 (sec_per_blk geo * nr_luns geo) in
  let map_len := u32 (BITS_TO_LONGS (nr_luns geo) * 8) in
  i ← smeta_pages fuel 1 (u32 (sizeof_line_smeta + PBLK_LINE_NR_LUN_BITMAP * map_len));
  j ← emeta_pages fuel 1 nr_lines spl map_len;
  let ssec := u32 (i * sec_per_pl geo) in
  let esec := u32 (j * sec_per_pl geo) in
  Ok (mk_lm (u32 (ssec * sec_size geo)) ssec (u32 (esec * sec_size geo)) esec (u32 (nr_luns geo - j))
        (u32 (BITS_TO_LONGS spl * 8)) map_len map_len (nr_luns geo) spl (spl / 4) (spl / 2)).

(** The buffers of a kind.  When the first one cannot be had, the loop that should free and
    leave runs no round, and the allocation is tried again. *)
Fixpoint alloc_metas (fuel : nat) (what : string) (i : Z) (s : inst) : res (bool * inst) :=
  match fuel with
  | O => Fault F_FUEL
  | S fuel' =>
      if decide (i < PBLK_DATA_LINES) then
        let '(ok, s) := alloc (what, i) s in
        if ok : bool then alloc_metas fuel' what (i + 1) s
        else if decide (0 ≤ i - 1) then s ← free (what, i - 1) s; Ok (false, s)
        else alloc_metas fuel' what i s
      else Ok (true, s)
  end.

(** [fail]: the tables of the LUNs are freed. *)
Definition lines_fail (ret : Z) (s : inst) : res (Z * inst) :=
  s ← frees (bb_lists (nr_luns geo)) s; Ok (ret, s).

(** [fail_free_meta] and below: the return value is still 0. *)
Definition lines_fail_meta (s : inst) : res (Z * inst) :=
  s ← frees (("gc_meta", 0) :: metas) s; lines_fail 0 s.

(** The sectors of one block in a line: a page of every round of the LUNs. *)
Definition bb_template (lm : pblk_line_meta) : res (gset Z) :=
  let dist := nr_luns geo * sec_per_pl geo in
  mfor (map (λ k, k * dist) (seqZ 0 ((lm_sec_per_line lm + dist - 1) / dist)))
    (λ i bm, bitmap_set (8 * lm_sec_bitmap_len lm) i (sec_per_pl geo) bm) ∅.

(** One line; [false] when its bitmaps cannot be had. *)
Definition init_line (i : Z) (s : inst) : res (bool * inst) :=
  let lm := it_lm s in
  l ← aread (pb_lines (it_pb s)) i;
  let l := ln_set_gc_group PBLK_LINEGC_NONE (ln_set_state PBLK_LINESTATE_FREE (ln_set_type PBLK_LINETYPE_FREE l)) in
  r ← pblk_bb_line i (on_pb (upd_line i l) s);
  let nr_bad := fst r in
  let s := snd r in
  if decide (nr_bad < 0 ∨ lm_blk_per_line lm < nr_bad) then Ok (false, s)
  else
    let rl := pb_rl (it_pb s) in
    let s := it_set_capacity (u64 (it_capacity s - s32 (nr_bad * sec_per_blk geo))) s in
    let in_line := u32 (lm_blk_per_line lm - nr_bad) in
    pb ← mod_line i (ln_set_blk_in_line in_line) (it_pb s);
    let free := u64 (free_blocks rl - nr_bad) in
    let set_rl nr_secs total pb := pb_set_rl (mk_rl (high_pw rl) (low_pw rl) (rb_windows_pw rl) (rb_budget rl) (rb_user_max rl)
          (rb_user_cnt rl) (rb_gc_max rl) (rb_gc_rsv rl) (rb_gc_cnt rl) (rb_user_active rl) (u_timer_armed rl) nr_secs total free) pb in
    if decide (in_line = 0) then
      pb ← mod_line i (ln_set_state PBLK_LINESTATE_BAD) pb;
      Ok (true, it_set_pb (set_rl (rl_nr_secs rl) (total_blocks rl) pb) s)
    else
      let pb := set_rl (u64 (rl_nr_secs rl + u32 (in_line * sec_per_blk geo))) (u64 (total_blocks rl + in_line)) pb in
      m ← list_add_tail i L_free (mg_set_nr_free_lines (s32 (mg_nr_free_lines (pb_mg pb) + 1)) (pb_mg pb));
      Ok (true, it_set_pb (pb_set_mg m pb) s).

Fixpoint init_lines (n : nat) (i : Z) (s : inst) : res (bool * inst) :=
  match n with
  | O => Ok (true, s)
  | S n' =>
      r ← init_line i s;
      if fst r : bool then init_lines n' (i + 1) (snd r) else Ok r
  end.

(** The three buffers of end metadata, by [kmalloc] or [vmalloc]. *)
Definition alloc_emetas (fuel : nat) (s : inst) : res (option Z * inst) :=
  let big := bool_decide (KMALLOC_MAX_CACHE_SIZE < lm_emeta_len (it_lm s)) in
  let s := it_set_emeta_type (if big then PBLK_VMALLOC_META else PBLK_KMALLOC_META) s in
  r ← alloc_metas fuel "eline_meta" 0 s;
  if negb (fst r) then Ok (Some (- ENOMEM), snd r)
  else
    let '(ok, s) := alloc ("gc_meta", 0) (snd r) in
    if ok : bool then Ok (None, s)
    else
      s ← frees (if big then metas else [("sline_meta", 0); ("eline_meta", 0)]) s;
      Ok (Some (- ENOMEM), s).

(** The counters before the lines are counted. *)
Definition rl_reset (free : Z) (l : pblk_rl) : pblk_rl :=
  mk_rl (high_pw l) (low_pw l) (rb_windows_pw l) (rb_budget l) (rb_user_max l) (rb_user_cnt l) (rb_gc_max l)
    (rb_gc_rsv l) (rb_gc_cnt l) (rb_user_active l) (u_timer_armed l) 0 0 free.

(** The lists are initialised, the lines are zero; from here on only the bitmaps can fail. *)
Definition lines_setup (s : inst) : res (Z * inst) :=
  let n := blks_per_lun geo in
  let s := it_set_lists true (on_mg (mg_set_lists (λ _, [])) s) in
  let s := on_pb (λ pb, pb_set_rl (rl_reset (u64 (s32 (n * nr_luns geo))) (pb_rl pb)) pb) s in
  let s := it_set_capacity (u64 (s32 (sec_per_lun geo * nr_luns geo))) s in
  let '(ok, s) := alloc ("lines", 0) s in
  if negb ok then s ← frees [("bb_aux", 0); ("bb_template", 0)] s; lines_fail_meta s
  else
    let s := on_pb (pb_set_lines (list_to_map (map (λ i, (i, line0)) (seqZ 0 n)))) s in
    r ← init_lines (Z.to_nat n) 0 s;
    if fst r : bool then lines_fail 0 (snd r)
    else
      s ← frees [("lines", 0); ("bb_aux", 0); ("bb_template", 0)] (on_pb (pb_set_lines ∅) (snd r));
      lines_fail_meta s.

Definition pblk_lines_init (fuel : nat) (s : inst) : res (Z * inst) :=
  lm ← line_meta fuel (mg_nr_lines (pb_mg (it_pb s)));
  let s := on_mg (init_mgmt (blks_per_lun geo)) (it_set_lm lm s) in
  r ← alloc_metas fuel "sline_meta" 0 s;
  if negb (fst r) then lines_fail (- ENOMEM) (snd r)
  else
    let s := on_mg (mg_set_sline_meta (list_to_map [(0, smeta_junk); (1, smeta_junk)])) (snd r) in
    r ← alloc_emetas fuel s;
    match r with
    | (Some ret, s) => lines_fail ret s
    | (None, s) =>
        let s := on_mg (λ m, mg_set_gc_meta emeta_junk (mg_set_eline_meta (list_to_map [(0, emeta_junk); (1, emeta_junk)]) m)) s in
        let '(ok, s) := alloc ("bb_template", 0) s in
        if negb ok then lines_fail_meta s
        else
          let '(ok, s) := alloc ("bb_aux", 0) s in
          if negb ok then s ← free ("bb_template", 0) s; lines_fail_meta s
          else t ← bb_template lm; lines_setup (on_mg (mg_set_bb_template t) s)
    end.

(** ** Write buffer, pools, translation map *)

Definition sets_of (n : nat) : list obj := concat (map (λ j, [("page_set", Z.of_nat j); ("pages", Z.of_nat j)]) (seq 0 n)).

Definition pblk_rwb_init (s : inst) : res (Z * inst) :=
  let nr_entries := pblk_rb_calculate_size (it_pgs_in_buffer s) in
  let '(ok, s) := alloc ("entries", 0) s in
  if negb ok then Ok (- ENOMEM, s)
  else
    let pb := pb_set_allocs (k_calls (it_heap s)) (pb_set_rwb (rb_set_entries ∅ (pb_rwb (it_pb s))) (it_pb s)) in
    r ← pblk_rb_init alloc_ok (u32 (get_count_order nr_entries)) (u32 (get_count_order (sec_size geo))) pb;
    match r with
    | (ret, sets, pb) =>
        let os := list_to_set (sets_of sets) in
        let h := mk_kheap (pb_allocs pb) (os ∪ k_live (it_heap s)) in
        Ok (ret, it_set_sets sets (it_set_heap h (os ∪ it_ptrs s) (it_set_pb pb s)))
    end.

Definition caches : list obj := map (λ i, ("cache", i)) (seqZ 0 5).
Definition pools : list obj :=
  [("page_pool", 0); ("line_ws_pool", 0); ("rec_pool", 0); ("r_rq_pool", 0); ("w_rq_pool", 0); ("line_meta_pool", 0); ("kw_wq", 0)].

(** Objects one after the other; when one cannot be had, those before it are released. *)
Fixpoint alloc_chain (os got : list obj) (s : inst) : res (bool * inst) :=
  match os with
  | [] => Ok (true, s)
  | o :: os' =>
      let '(ok, s) := alloc o s in
      if ok : bool then alloc_chain os' (o :: got) s else s ← frees got s; Ok (false, s)
  end.

Definition pblk_init_global_caches (s : inst) : res (Z * inst) :=
  r ← alloc_chain caches [] s; Ok (if fst r : bool then 0 else - ENOMEM, snd r).

Definition pblk_core_init (s : inst) : res (Z * inst) :=
  let min := s32 (sec_per_pl geo * (sec_size geo / PAGE_SIZE)) in
  let max_ppas := s32 (min * nr_luns geo) in
  let max := if decide (max_ppas < max_phys_sects) then max_ppas else max_phys_sects in
  let s := it_set_pgs min max (s32 (NVM_MEM_PAGE_WRITE * sec_per_pg geo * nr_planes geo * nr_luns geo)) s in
  if decide (PBLK_MAX_REQ_ADDRS < max) then Ok (- EINVAL, s)
  else
    _ ← BUG_ON (min = 0);
    if decide (sec_per_blk geo mod min ≠ 0) then Ok (- EINVAL, s)
    else
      r ← pblk_init_global_caches s;
      if decide (fst r ≠ 0) then Ok (- ENOMEM, snd r)
      else
        r ← alloc_chain pools [] (snd r);
        if negb (fst r) then Ok (- ENOMEM, snd r)
        else
          match pblk_set_ppaf get_count_order geo with
          | (_, None) => s ← frees (rev pools) (snd r); Ok (- ENOMEM, s)
          | (_, Some f) =>
              r ← pblk_rwb_init (it_set_ppaf (Some f) (snd r));
              if decide (fst r ≠ 0) then s ← frees (rev pools) (snd r); Ok (- ENOMEM, s)
              else Ok (0, on_pb (pb_set_compl_list []) (snd r))
          end.

Definition pblk_l2p_init (s : inst) : Z * inst :=
  let '(ok, s) := alloc ("trans_map", 0) s in
  if ok : bool then (0, on_pb (λ pb, pb_set_trans_map (int_array (rl_nr_secs (pb_rl pb)) ADDR_EMPTY) pb) s)
  else (- ENOMEM, s).

Definition pblk_gc_init (s : inst) : Z * inst :=
  let '(ok, s) := alloc ("gc_wq", 0) s in
  if ok : bool then (0, on_pb (pb_set_gc (mk_gc 0 1 0)) s) else (- ENOMEM, s).

(** ** Release *)

Definition pblk_rwb_free (s : inst) : res inst :=
  s ← frees (sets_of (it_rb_sets s) ++ [("entries", 0)]) s;
  Ok (on_pb (λ pb, pb_set_rl (pblk_rl_free (pb_rl pb)) pb) s).

Definition pblk_core_free (s : inst) : res inst :=
  s ← frees [("kw_wq", 0)] s;
  s ← pblk_rwb_free s;
  frees (take 6 pools ++ caches) s.

Definition pblk_luns_free (s : inst) : res inst := free ("luns", 0) s.
Definition pblk_l2p_free (s : inst) : res inst := free ("trans_map", 0) s.

Definition pblk_lines_free (s : inst) : res inst :=
  mfor (seqZ 0 (mg_nr_lines (pb_mg (it_pb s)))) (λ i s,
    pb ← mod_line i pblk_line_free (it_pb s);
    frees [("blk_bitmap", i); ("erase_bitmap", i)] (it_set_pb pb s)) s.

Definition pblk_line_meta_free (s : inst) : res inst :=
  frees ([("bb_template", 0); ("bb_aux", 0); ("gc_meta", 0)] ++ metas ++ [("lines", 0)]) s.

(** The thread and its timer are stopped before. *)
Definition pblk_free (s : inst) : res inst :=
  s ← pblk_luns_free s;
  s ← pblk_lines_free s;
  s ← pblk_line_meta_free s;
  s ← pblk_core_free s;
  s ← pblk_l2p_free s;
  free ("pblk", 0) s.

(** ** The whole *)

(** Nine tenths of what is left of the device, in sectors of 512 bytes. *)
Definition pblk_capacity (s : inst) : Z := u64 (u64 (it_capacity s / 10 * 9) * NR_PHY_IN_LOG).

Definition cfg_of (s : inst) (f : pblk_addr_format) : pblk_cfg :=
  mk_cfg geo f (it_lm s) (it_luns s) (it_min_write_pgs s) (it_max_write_pgs s).

Context (dev_submit dev_error : nat → Z) (crc_smeta : line_smeta → Z).

(** The first line and the one after it; [fuel] bounds the bad lines that are passed.  A list
    whose head is zero does not look empty: its first entry is read through [NULL]. *)
Definition pblk_lines_configure (fuel : nat) (s : inst) : res (Z * inst) :=
  f ← deref (it_ppaf s);
  let c := cfg_of s f in
  _ ← (if it_lists s then Ok tt
       else if alloc_ok (k_calls (it_heap s)) && alloc_ok (S (k_calls (it_heap s))) then Fault F_NULL else Ok tt);
  let back pb s := it_set_pb pb (it_set_heap (mk_kheap (pb_allocs pb) (k_live (it_heap s))) (it_ptrs s) s) in
  r ← pblk_line_get_first_data c alloc_ok dev_submit dev_error crc_smeta fuel (pb_set_allocs (k_calls (it_heap s)) (it_pb s));
  match r with
  | (None, pb) => Ok (- EFAULT, back pb s)
  | (Some _, pb) =>
      r ← pblk_line_get_next_data c alloc_ok pb;
      match r with
      | (Some _, pb) => Ok (0, back pb s)
      | (None, pb) => id ← deref (mg_data_line (pb_mg pb)); pb ← line_kref_put id pb; Ok (0, back pb s)
      end
  end.

(** The return value and, when it is 0, the instance. *)
Definition pblk_init (fuel : nat) (dom : Z) (s : inst) : res (Z * inst) :=
  let fail_luns ret s := s ← pblk_luns_free s; s ← free ("pblk", 0) s; Ok (ret, s) in
  let fail_line_meta ret s := s ← pblk_line_meta_free s; fail_luns ret s in
  let fail_core ret s := s ← pblk_core_free s; fail_line_meta ret s in
  let fail_lines ret s := s ← pblk_lines_free s; fail_core ret s in
  if decide (Z.land dom NVM_RSP_L2P ≠ 0) then Ok (- EINVAL, s)
  else
    let '(ok, s) := alloc ("pblk", 0) s in
    if negb ok then Ok (- ENOMEM, s)
    else
      r ← pblk_luns_init s;
      if decide (fst r ≠ 0) then s ← free ("pblk", 0) (snd r); Ok (fst r, s)
      else
        r ← pblk_lines_init fuel (snd r);
        if decide (fst r ≠ 0) then fail_luns (fst r) (snd r)
        else
          r ← pblk_core_init (snd r);
          if decide (fst r ≠ 0) then fail_line_meta (fst r) (snd r)
          else
            r ← pblk_lines_configure fuel (snd r);
            if decide (fst r ≠ 0) then fail_core (fst r) (snd r)
            else
              let r := pblk_l2p_init (snd r) in
              if decide (fst r ≠ 0) then fail_lines (fst r) (snd r)
              else
                let r := pblk_gc_init (snd r) in
                if decide (fst r ≠ 0) then s ← pblk_l2p_free (snd r); fail_lines (fst r) s
                else Ok (0, snd r).

End init.

(** Memory of [kzalloc]. *)
Definition mgmt0 : pblk_line_mgmt := mk_mgmt 0 0 (λ _, []) None None ∅ ∅ emeta0 ∅ ∅ 0.
Definition pblk0 : pblk :=
  mk_pblk (mk_rb ∅ 0 0 0 0 0 0) (mk_rl 0 0 0 0 0 0 0 0 0 0 false 0 0 0) (mk_gc 0 0 0) ∅ ∅ mgmt0 [] [] [] ∅ [] 0.
Definition inst0 : inst :=
  mk_inst pblk0 (mk_lm 0 0 0 0 0 0 0 0 0 0 0 0) None ∅ ∅ 0 0 0 0 0 0 false (mk_kheap 0 ∅) ∅.

(** A small target: two channels of one LUN, four blocks of 16 sectors each. *)
Definition geo_small : nvm_geo := mk_geo 2 2 1 1 4 4 4 4096 (mk_af 8 1 7 0 0 0 4 2 2 2 0 2) 1 4 16 64.

Definition td_small : nvm_tgt_dev :=
  mk_tgt_dev geo_small {[0 := 0; 1 := set_g_ch 1 0]} 128
    (mk_devmap {[0 := mk_chmap 0 1 {[0 := 0]} ("lun_offs", 0); 1 := mk_chmap 0 1 {[0 := 0]} ("lun_offs", 1)]} 2
       ("chnls", 0) ("dev_map", 0)) ("luns", 0) ("tgt_dev", 0).

(** Block 2 of the LUN on channel 1 is bad. *)
Definition bb_small (p : Z) : Z * gmap Z Z :=
  (0, list_to_map (map (λ i, (i, if decide (p = 2 ^ 8 ∧ i = 2) then 1 else 0)) (seqZ 0 4))).

Definition init_small (ok : nat → bool) : res (Z * inst) :=
  pblk_init ok td_small geo_small bb_small 4096 4194304 64 smeta0 emeta0 (λ _, 0) (λ _, 0) (λ _, 0) 20 0 inst0.

(** ** Theorems *)

(** *** Loops of allocations *)

(** What an allocation that succeeds does. *)
Definition with_obj (o : obj) (s : inst) : inst :=
  it_set_heap (mk_kheap (S (k_calls (it_heap s))) ({[o]} ∪ k_live (it_heap s))) ({[o]} ∪ it_ptrs s) s.

(** Pointers lead to live objects. *)
Definition ptrs_live (s : inst) : Prop := it_ptrs s ⊆ k_live (it_heap s).

Lemma with_obj_live o s : ptrs_live s → ptrs_live (with_obj o s).
Proof. unfold ptrs_live. cbn. set_solver. Qed.

Lemma free_in o s :
  o ∈ it_ptrs s → o ∈ k_live (it_heap s) →
  free o s = Ok (it_set_heap (mk_kheap (k_calls (it_heap s)) (k_live (it_heap s) ∖ {[o]})) (it_ptrs s) s).
Proof. intros Hp Hl. unfold free. by rewrite decide_True, kfree_live. Qed.

Lemma free_out o s : o ∉ it_ptrs s → free o s = Ok s.
Proof. intros Hp. unfold free. by rewrite decide_False. Qed.

Lemma frees_ok os s :
  NoDup os → ptrs_live s → ∃ h, frees os s = Ok (it_set_heap h (it_ptrs s) s) ∧
    ∀ x, x ∈ k_live h ↔ x ∈ k_live (it_heap s) ∧ ¬ (x ∈ os ∧ x ∈ it_ptrs s).
Proof.
  intros Hnd Hl. unfold frees.
  assert (∀ h, (∀ o, o ∈ os → o ∈ it_ptrs s → o ∈ k_live h) →
    ∃ h', mfor os free (it_set_heap h (it_ptrs s) s) = Ok (it_set_heap h' (it_ptrs s) s) ∧
      ∀ x, x ∈ k_live h' ↔ x ∈ k_live h ∧ ¬ (x ∈ os ∧ x ∈ it_ptrs s)) as Haux.
  { clear Hl. induction Hnd as [|o os Hno Hnd IH]; intros h Hin; cbn [mfor].
    - exists h. split; [done|]. intros x. rewrite elem_of_nil. tauto.
    - destruct (decide (o ∈ it_ptrs s)) as [Ho|Ho].
      + rewrite (free_in _ (it_set_heap h (it_ptrs s) s)), bind_Ok_l by (done || (apply Hin; [by left|done])).
        destruct (IH (mk_kheap (k_calls h) (k_live h ∖ {[o]}))) as (h' & E & Hl').
        * intros o' Ho' Hp. cbn. apply elem_of_difference. split; [apply Hin; [by right|done]|].
          rewrite elem_of_singleton. by intros ->.
        * exists h'. split; [exact E|]. intros x. rewrite Hl'. cbn [k_live].
          rewrite elem_of_difference, elem_of_singleton, elem_of_cons. destruct (decide (x = o)) as [->|]; tauto.
      + rewrite (free_out _ (it_set_heap h (it_ptrs s) s)), bind_Ok_l by done. destruct (IH h) as (h' & E & Hl'); [intros; apply Hin; [by right|done]|].
        exists h'. split; [exact E|]. intros x. rewrite Hl', elem_of_cons. destruct (decide (x = o)) as [->|]; tauto. }
  destruct (Haux (it_heap s)) as (h & E & Hh); [intros o _ Ho; by apply Hl|]. exists h. split; [|done]. by destruct s.
Qed.

Lemma lookup_array {A} (v : A) n i :
  (list_to_map (map (λ i, (i, v)) (seqZ 0 n)) : gmap Z A) !! i = if decide (0 ≤ i < n) then Some v else None.
Proof.
  case_decide as Hi.
  - apply elem_of_list_to_map_1.
    + rewrite <-list_fmap_compose. apply NoDup_fmap_2; [intros ? ? ?; done|apply NoDup_seqZ].
    + apply list_elem_of_fmap. exists i. split; [done|]. by apply elem_of_seqZ.
  - apply not_elem_of_list_to_map_1. rewrite <-list_fmap_compose, list_elem_of_fmap. intros (j & -> & Hj). cbn in Hi.
    apply elem_of_seqZ in Hj. lia.
Qed.

Section geometry.
Context (dev : nvm_tgt_dev).

Notation geo := (td_geo dev).
Notation nl := (nr_luns (td_geo dev)).
Notation spp := (sec_per_pl (td_geo dev)).
Notation spb := (sec_per_blk (td_geo dev)).
Notation blks := (blks_per_lun (td_geo dev)).

(** *** Sizes *)

(** The geometry: blocks of whole pages, lines and devices that the code's [int]s can count. *)
Record geo_ok : Prop := {
  go_luns : 0 < nl;
  go_pages : 0 < pgs_per_blk geo;
  go_spp : 0 < spp;
  go_blks : 0 < blks;
  go_spb : spb = spp * pgs_per_blk geo;
  go_spl : sec_per_lun geo = spb * blks;
  go_secs : sec_per_lun geo * nl < 2 ^ 31;
  go_size : 512 ≤ sec_size geo;
  go_page : spp * sec_size geo < 2 ^ 20;
  go_line : spb * nl < 2 ^ 28;
}.

Lemma smeta_pages_ok fuel i need :
  0 < spp * sec_size geo < 2 ^ 20 → 0 < spp → 0 < sec_size geo → 0 < need < 2 ^ 30 → 1 ≤ i →
  (i - 1) * (spp * sec_size geo) < need ∨ i = 1 → need < Z.of_nat fuel + i →
  ∃ j, smeta_pages dev fuel i need = Ok j ∧ i ≤ j ∧ need ≤ j * (spp * sec_size geo) < 2 ^ 31.
Proof.
  intros Hp Hs1 Hs2 Hn. revert i. induction fuel as [|fuel IH]; intros i Hi Hm Hf; cbn [smeta_pages].
  - exfalso. nia.
  - assert (i * (spp * sec_size geo) < 2 ^ 31) as Hb by lia.
    assert (0 ≤ i * spp < 2 ^ 31) as Hb2 by nia.
    rewrite (u32_small (i * spp)), u32_small, <-Z.mul_assoc by nia. case_decide as Hd.
    + destruct (IH (i + 1)) as (j & E & ? & ?); [lia|left; lia|lia|]. exists j. split; [done|]. lia.
    + exists i. split; [done|]. lia.
Qed.

Definition map_len : Z := BITS_TO_LONGS nl * 8.

Lemma map_len_bounds : 0 < nl → nl ≤ 8 * map_len ∧ 8 * map_len < nl + 64.
Proof.
  intros Hn. unfold map_len, BITS_TO_LONGS. pose proof (Z.div_mod (nl + 63) 64 ltac:(lia)).
  pose proof (Z.mod_pos_bound (nl + 63) 64 ltac:(lia)). lia.
Qed.

(** The end metadata fits at the latest when it takes the whole line. *)
Lemma emeta_pages_ok fuel i last :
  0 < spp * sec_size geo < 2 ^ 20 → 0 < spp → 512 ≤ sec_size geo → last * spp < 2 ^ 28 → 0 < nl ≤ last * spp →
  1 ≤ i ≤ last → (i - 1) * (spp * sec_size geo) < 2 ^ 32 - 2 ^ 20 → last < Z.of_nat fuel + i →
  ∃ j, emeta_pages dev fuel i 0 (last * spp) map_len = Ok j ∧ i ≤ j ≤ last ∧
    sizeof_line_emeta + (last * spp - j * spp) * 8 + map_len ≤ j * (spp * sec_size geo) < 2 ^ 32.
Proof.
  intros Hp Hs1 Hs2 Hl Hn. pose proof (map_len_bounds ltac:(lia)) as Hm. unfold sizeof_line_emeta.
  revert i. induction fuel as [|fuel IH]; intros i Hi Hsm Hf; cbn [emeta_pages].
  - exfalso. lia.
  - assert (0 ≤ i * spp ≤ last * spp) as Hb2 by nia.
    assert (calc_emeta_len 0 (last * spp) (i * spp) map_len = 48 + (last * spp - i * spp) * 8 + map_len) as Hc.
    { unfold calc_emeta_len, sizeof_line_emeta. rewrite (u32_small (last * spp - i * spp)), u32_small by lia. lia. }
    rewrite (u32_small (i * spp)), Hc, u32_small, <-Z.mul_assoc by nia. case_decide as Hd.
    + destruct (decide (i = last)) as [->|Hne]; [exfalso; nia|].
      destruct (IH (i + 1)) as (j & E & ? & ?); [lia| |lia|].
      { replace (i + 1 - 1) with i by lia. lia. }
      exists j. split; [done|]. lia.
    + exists i. split; [done|]. lia.
Qed.

(** What the metadata sizes promise. *)
Record lm_ok (lm : pblk_line_meta) : Prop := {
  lk_spl : lm_sec_per_line lm = spb * nl;
  lk_blk : lm_blk_per_line lm = nl;
  lk_blk_bits : nl ≤ 8 * lm_blk_bitmap_len lm;
  lk_sec_bits : spb * nl ≤ 8 * lm_sec_bitmap_len lm;
  lk_smeta : sizeof_line_smeta + PBLK_LINE_NR_LUN_BITMAP * lm_lun_bitmap_len lm ≤ lm_smeta_len lm;
  lk_emeta : sizeof_line_emeta + (lm_sec_per_line lm - lm_emeta_sec lm) * 8 + lm_blk_bitmap_len lm ≤ lm_emeta_len lm;
  lk_emeta_sec : 0 < lm_emeta_sec lm ≤ lm_sec_per_line lm;
  lk_lens : lm_smeta_len lm = lm_smeta_sec lm * sec_size geo ∧ lm_emeta_len lm = lm_emeta_sec lm * sec_size geo;
}.

Lemma line_meta_ok fuel :
  geo_ok → spb * nl + 1000 < Z.of_nat fuel → ∃ lm, line_meta dev fuel 0 = Ok lm ∧ lm_ok lm.
Proof.
  intros [H1 H2 H3 H4 H5 H6 H7 H8 H9 H10] Hf. pose proof (map_len_bounds H1) as Hm. unfold line_meta.
  assert (0 < spb * nl) as Hs by nia. assert (nl ≤ spb * nl) as Hnl by nia.
  rewrite (u32_small (spb * nl)) by lia. change (BITS_TO_LONGS nl * 8) with map_len. rewrite (u32_small map_len) by lia.
  unfold sizeof_line_smeta, PBLK_LINE_NR_LUN_BITMAP. rewrite (u32_small (48 + 2 * map_len)) by lia.
  destruct (smeta_pages_ok fuel 1 (48 + 2 * map_len)) as (i & -> & Hi & Hi2); [nia|lia|lia|lia|lia|by right|lia|].
  rewrite bind_Ok_l. assert (spb * nl = (pgs_per_blk geo * nl) * spp) as Hlast by (rewrite H5; lia).
  rewrite Hlast. destruct (emeta_pages_ok fuel 1 (pgs_per_blk geo * nl)) as (j & -> & Hj & Hj2); [nia|lia|lia|lia|nia|nia|lia|nia|].
  rewrite bind_Ok_l. rewrite <-Hlast. eexists. split; [done|].
  assert (0 ≤ i * spp < 2 ^ 32) as Hi3 by nia. assert (0 < j * spp ≤ spb * nl) as Hj3 by nia.
  pose proof (Z.div_mod (spb * nl + 63) 64 ltac:(lia)). pose proof (Z.mod_pos_bound (spb * nl + 63) 64 ltac:(lia)).
  assert (BITS_TO_LONGS (spb * nl) * 8 = (spb * nl + 63) / 64 * 8) as Hb by done.
  rewrite (u32_small (i * spp)), (u32_small (j * spp)), (u32_small (BITS_TO_LONGS (spb * nl) * 8)) by lia.
  rewrite (u32_small (i * spp * sec_size geo)), (u32_small (j * spp * sec_size geo)) by nia.
  constructor; cbn; try lia.
  unfold sizeof_line_smeta, PBLK_LINE_NR_LUN_BITMAP. lia.
Qed.

Lemma bb_template_ok lm : geo_ok → lm_ok lm → ∃ t, bb_template dev lm = Ok t.
Proof.
  intros [H1 H2 H3 H4 H5 H6 H7 H8 H9 H10] [K1 K2 K3 K4 _ _ _ _]. unfold bb_template.
  destruct (mfor_inv (λ _ (_ : gset Z), True) (λ i bm, bitmap_set (8 * lm_sec_bitmap_len lm) i spp bm)
    (map (λ k, k * (nl * spp)) (seqZ 0 ((lm_sec_per_line lm + nl * spp - 1) / (nl * spp)))) ∅) as (t & E & _); [done| |by eauto].
  intros dn x todo bm Heq _.
  assert (x ∈ map (λ k, k * (nl * spp)) (seqZ 0 ((lm_sec_per_line lm + nl * spp - 1) / (nl * spp)))) as Hx.
  { rewrite Heq. apply elem_of_app. right. by left. }
  apply list_elem_of_In, in_map_iff in Hx as (k & <- & Hk). apply list_elem_of_In, elem_of_seqZ in Hk.
  assert (0 < nl * spp) as Hd by nia.
  assert ((lm_sec_per_line lm + nl * spp - 1) / (nl * spp) = pgs_per_blk geo) as Hq.
  { rewrite K1, H5. symmetry. apply (Z.div_unique _ _ _ (nl * spp - 1)); [lia|]. nia. }
  rewrite Hq in Hk. unfold bitmap_set. rewrite decide_True; [by eauto|]. split; [nia|].
  assert (k * (nl * spp) + nl * spp ≤ pgs_per_blk geo * (nl * spp)) by nia. nia.
Qed.

(** *** Lines *)

(** What the table of LUN [i] says of the block of line [id]. *)
Definition bad (bb : gmap Z (gmap Z Z)) (id i : Z) : Prop := default ∅ (bb !! i) !!! id ≠ NVM_BLK_T_FREE.

#[local] Instance bad_dec bb id i : Decision (bad bb id i).
Proof. unfold bad. apply _. Defined.

Definition bad_blocks (bb : gmap Z (gmap Z Z)) (id : Z) : list Z := filter (bad bb id) (seqZ 0 nl).
Definition good (bb : gmap Z (gmap Z Z)) (id : Z) : Z := nl - Z.of_nat (length (bad_blocks bb id)).

(** The good blocks of the first [i] lines. *)
Fixpoint goods (bb : gmap Z (gmap Z Z)) (n : nat) : Z :=
  match n with O => 0 | S n' => goods bb n' + good bb (Z.of_nat n') end.

Definition tables_ok (bb : gmap Z (gmap Z Z)) : Prop :=
  ∀ i, 0 ≤ i < nl → ∃ t, bb !! i = Some t ∧ ∀ id, 0 ≤ id < blks → is_Some (t !! id).

Lemma bb_line_ok bb l id nbits bm cnt :
  tables_ok bb → 0 ≤ id < blks → (∀ i, i ∈ l → 0 ≤ i < nl) → nl ≤ nbits →
  ∃ bm', bb_line l id nbits bb bm cnt = Ok (bm', cnt + Z.of_nat (length (filter (bad bb id) l))) ∧
    ∀ x, x ∈ bm' ↔ x ∈ bm ∨ x ∈ filter (bad bb id) l.
Proof.
  intros Ht Hid Hl Hn. revert bm cnt. induction l as [|i l IH]; intros bm cnt; cbn [bb_line].
  - exists bm. split; [by rewrite Z.add_0_r|]. intros x. rewrite elem_of_nil. tauto.
  - destruct (Ht i) as (t & Et & Hd); [apply Hl; by left|]. destruct (Hd id Hid) as [v Ev].
    rewrite (aread_Some _ _ _ Et), bind_Ok_l, (aread_Some _ _ _ Ev), bind_Ok_l, filter_cons.
    assert (bad bb id i ↔ v ≠ NVM_BLK_T_FREE) as Hb.
    { unfold bad. rewrite Et. cbn. by rewrite (lookup_total_correct _ _ _ Ev). }
    case_decide as Hv.
    + rewrite decide_False by tauto. apply IH. intros. apply Hl. by right.
    + rewrite decide_True by tauto. unfold test_and_set_bit. specialize (Hl i ltac:(by left)) as Hi.
      rewrite decide_True, bind_Ok_l by lia. cbn [snd].
      destruct (IH ltac:(intros; apply Hl; by right) ({[i]} ∪ bm) (cnt + 1)) as (bm' & -> & Hx).
      exists bm'. split; [do 2 f_equal; cbn [length]; lia|]. intros x. rewrite Hx, elem_of_union, elem_of_singleton, elem_of_cons. tauto.
Qed.

Lemma good_range bb id : 0 < nl → 0 ≤ good bb id ≤ nl.
Proof.
  intros Hn. unfold good, bad_blocks. pose proof (length_filter (bad bb id) (seqZ 0 nl)) as Hl.
  rewrite length_seqZ in Hl. lia.
Qed.

Lemma goods_range bb n : 0 < nl → 0 ≤ goods bb n ≤ Z.of_nat n * nl.
Proof. intros Hn. induction n as [|n IH]; cbn [goods]; [lia|]. pose proof (good_range bb (Z.of_nat n) Hn). lia. Qed.

End geometry.

Section lines.
Context (alloc_ok : nat → bool) (Hall : ∀ n, alloc_ok n = true) (dev : nvm_tgt_dev).
Context (kmax : Z) (sj : line_smeta) (ej : line_emeta).

Notation geo := (td_geo dev).
Notation nl := (nr_luns (td_geo dev)).
Notation spp := (sec_per_pl (td_geo dev)).
Notation spb := (sec_per_blk (td_geo dev)).
Notation blks := (blks_per_lun (td_geo dev)).


Lemma alloc_with o s : alloc alloc_ok o s = (true, with_obj o s).
Proof using Hall. unfold alloc, kalloc. by rewrite Hall. Qed.

Lemma alloc_metas_step fuel what i s :
  i < PBLK_DATA_LINES → alloc_metas alloc_ok (S fuel) what i s = alloc_metas alloc_ok fuel what (i + 1) (with_obj (what, i) s).
Proof using Hall. intros Hi. cbn [alloc_metas]. by rewrite decide_True, alloc_with. Qed.

Lemma alloc_metas_ok what fuel s :
  (2 < fuel)%nat → alloc_metas alloc_ok fuel what 0 s = Ok (true, with_obj (what, 1) (with_obj (what, 0) s)).
Proof using Hall. intros Hf. do 3 (destruct fuel as [|fuel]; [lia|]). do 2 rewrite alloc_metas_step by done. done. Qed.

(** A line that nobody has used. *)
Record fresh_line (bb : gmap Z (gmap Z Z)) (id : Z) (l : pblk_line) : Prop := {
  fl_state : ln_state l = if decide (0 < good dev bb id) then PBLK_LINESTATE_FREE else PBLK_LINESTATE_BAD;
  fl_group : ln_gc_group l = PBLK_LINEGC_NONE;
  fl_bits : ∀ x, x ∈ ln_blk_bitmap l ↔ x ∈ bad_blocks dev bb id;
  fl_blks : ln_blk_in_line l = good dev bb id;
}.

Definition free_ids (bb : gmap Z (gmap Z Z)) (i : Z) : list Z := filter (λ id, 0 < good dev bb id) (seqZ 0 i).

(** After [i] lines; [done] is the number of their good blocks. *)
Record lines_inv (bb : gmap Z (gmap Z Z)) (i : Z) (s : inst) : Prop := {
  vi_lm : lm_ok dev (it_lm s);
  vi_bb : it_bb s = bb;
  vi_live : ptrs_live s;
  vi_lines : ∀ id, 0 ≤ id < blks → ∃ l, pb_lines (it_pb s) !! id = Some l ∧ if decide (id < i) then fresh_line bb id l else l = line0;
  vi_dom : ∀ id, is_Some (pb_lines (it_pb s) !! id) → 0 ≤ id < blks;
  vi_lists : ∀ L, mg_lists (pb_mg (it_pb s)) L = if decide (L = L_free) then free_ids bb i else [];
  vi_nfree : mg_nr_free_lines (pb_mg (it_pb s)) = Z.of_nat (length (free_ids bb i));
  vi_total : total_blocks (pb_rl (it_pb s)) = goods dev bb (Z.to_nat i);
  vi_secs : rl_nr_secs (pb_rl (it_pb s)) = goods dev bb (Z.to_nat i) * spb;
  vi_free : free_blocks (pb_rl (it_pb s)) = blks * nl - (i * nl - goods dev bb (Z.to_nat i));
  vi_cap : it_capacity s = sec_per_lun geo * nl - (i * nl - goods dev bb (Z.to_nat i)) * spb;
}.

Lemma pblk_bb_line_ok bb id l s :
  geo_ok dev → tables_ok dev bb → it_bb s = bb → lm_ok dev (it_lm s) → 0 ≤ id < blks → pb_lines (it_pb s) !! id = Some l →
  ∃ bm, (∀ x, x ∈ bm ↔ x ∈ bad_blocks dev bb id) ∧
    pblk_bb_line alloc_ok id s = Ok (Z.of_nat (length (bad_blocks dev bb id)),
      it_set_pb (upd_line id (ln_set_blk_bitmap bm l) (it_pb s)) (with_obj ("erase_bitmap", id) (with_obj ("blk_bitmap", id) s))).
Proof using Hall.
  intros Hg Ht Hbb [_ K2 K3 _ _ _ _ _] Hid Hl. unfold pblk_bb_line. rewrite alloc_with. cbn [negb]. rewrite alloc_with. cbn [negb it_lm it_bb it_pb with_obj it_set_heap].
  rewrite K2, Hbb. destruct (bb_line_ok dev bb (seqZ 0 nl) id (8 * lm_blk_bitmap_len (it_lm s)) ∅ 0) as (bm & -> & Hx); [done|done| |done|].
  { intros i Hi%elem_of_seqZ. lia. }
  exists bm. split; [intros x; rewrite Hx; unfold bad_blocks; set_solver|]. rewrite bind_Ok_l. cbn [fst snd].
  unfold mod_line. rewrite (aread_Some _ _ _ Hl). done.
Qed.

Lemma free_ids_step bb i : 0 ≤ i → free_ids bb (i + 1) = free_ids bb i ++ (if decide (0 < good dev bb i) then [i] else []).
Proof. intros Hi. unfold free_ids. rewrite seqZ_snoc, filter_app by done. by f_equal. Qed.

Lemma free_ids_below bb i x : x ∈ free_ids bb i → 0 ≤ x < i.
Proof. unfold free_ids. rewrite list_elem_of_filter, elem_of_seqZ. lia. Qed.

(** What a step that only allocates adds. *)
Record grown (os : list obj) (s s' : inst) : Prop := {
  gr_ptrs : ∀ o, o ∈ it_ptrs s' ↔ o ∈ os ∨ o ∈ it_ptrs s;
  gr_live : ∀ o, o ∈ k_live (it_heap s') ↔ o ∈ os ∨ o ∈ k_live (it_heap s);
  gr_rsv : rb_gc_rsv (pb_rl (it_pb s')) = rb_gc_rsv (pb_rl (it_pb s));
}.

Lemma grown_live os s s' : grown os s s' → ptrs_live s → ptrs_live s'.
Proof. intros [P L _] Hl o. rewrite P, L. intros [?|?]; [by left|right; by apply Hl]. Qed.

(** The bitmaps of the lines from [i] on. *)
Definition line_maps (i : Z) (n : nat) : list obj :=
  concat (map (λ j, [("blk_bitmap", j); ("erase_bitmap", j)]) (seqZ i (Z.of_nat n))).

Lemma grown_app os1 os2 s1 s2 s3 : grown os1 s1 s2 → grown os2 s2 s3 → grown (os1 ++ os2) s1 s3.
Proof.
  intros [P1 L1 R1] [P2 L2 R2]. constructor; [| |by rewrite R2]; intros o;
    [rewrite P2, P1|rewrite L2, L1]; rewrite elem_of_app; tauto.
Qed.

Lemma line_maps_cons i n : line_maps i (S n) = [("blk_bitmap", i); ("erase_bitmap", i)] ++ line_maps (i + 1) n.
Proof. unfold line_maps. rewrite seqZ_cons by lia. cbn. repeat f_equal; lia. Qed.

Lemma init_line_ok bb i s :
  geo_ok dev → tables_ok dev bb → 0 ≤ i < blks → lines_inv bb i s →
  ∃ s', init_line alloc_ok dev i s = Ok (true, s') ∧ lines_inv bb (i + 1) s' ∧ grown [("blk_bitmap", i); ("erase_bitmap", i)] s s'.
Proof using Hall.
  intros Hg Ht Hi [H1 H2 H3 H4 H5 H6 H7 H8 H9 H10 H11]. pose proof Hg as [G1 G2 G3 G4 G5 G6 G7 G8 G9 G10].
  destruct (H4 i Hi) as (l & El & Hl). rewrite decide_False in Hl by lia. subst l.
  unfold init_line. rewrite (aread_Some _ _ _ El), bind_Ok_l. set (l1 := ln_set_gc_group _ _).
  destruct (pblk_bb_line_ok bb i l1 (on_pb (upd_line i l1) s)) as (bm & Hbm & ->); [done|done|done|done|done|cbn; apply lookup_insert_eq|].
  rewrite bind_Ok_l. cbn [fst snd]. set (nbad := Z.of_nat (length (bad_blocks dev bb i))).
  pose proof (good_range dev bb i G1) as Hgr. assert (good dev bb i = nl - nbad) as Hgd by done.
  rewrite (lk_blk _ _ H1), decide_False by lia.
  pose proof (goods_range dev bb (Z.to_nat i) G1) as Hgs.
  assert (goods dev bb (Z.to_nat (i + 1)) = goods dev bb (Z.to_nat i) + good dev bb i) as Hstep.
  { replace (Z.to_nat (i + 1)) with (S (Z.to_nat i)) by lia. cbn [goods]. by rewrite Z2Nat.id by lia. }
  assert (0 < spb) as Hspb by nia. assert (i * nl + nl ≤ blks * nl) as Hin by nia. assert (sec_per_lun geo * nl = blks * nl * spb) as Hsec by lia.
  assert (blks * nl < 2 ^ 31) as Hbn by nia.
  assert (0 ≤ nbad * spb < 2 ^ 31) as Hbs by nia.
  cbn [it_pb it_set_pb it_set_capacity it_capacity upd_line pb_lines pb_set_lines on_pb with_obj it_set_heap pb_rl pb_mg].
  rewrite <-Hgd, (u32_small (good dev bb i)), (s32_small (nbad * spb)), H11, H10, H9, H8 by lia.
  set (gs := goods dev bb (Z.to_nat i)) in *. set (g := good dev bb i) in *.
  rewrite Z2Nat.id in Hgs by lia.
  assert (sec_per_lun geo * nl - (i * nl - gs) * spb = (blks * nl - (i * nl - gs)) * spb) as Hcap by lia.
  assert (∀ a, 0 ≤ a ≤ blks * nl → 0 ≤ a * spb < 2 ^ 31) as Hc.
  { intros a Ha. assert (a * spb ≤ blks * nl * spb) by (apply Z.mul_le_mono_nonneg_r; lia). split; [|lia]. apply Z.mul_nonneg_nonneg; lia. }
  assert (0 ≤ (blks * nl - (i * nl - gs)) * spb - nbad * spb < 2 ^ 31) as Hc1.
  { rewrite <-Z.mul_sub_distr_r. apply Hc. lia. }
  assert (0 ≤ gs * spb + g * spb < 2 ^ 31) as Hc2 by (rewrite <-Z.mul_add_distr_r; apply Hc; lia).
  pose proof (Hc g ltac:(lia)) as Hc3.
  rewrite Hcap, (u64_small (_ * spb - nbad * spb)), (u64_small (_ - nbad)) by lia.
  unfold mod_line. rewrite (aread_Some _ _ (ln_set_blk_bitmap bm l1)) by apply lookup_insert_eq. rewrite bind_Ok_l.
  assert (∀ l, fresh_line bb i l → ∀ id, 0 ≤ id < blks →
    ∃ l', <[i:=l]> (pb_lines (it_pb s)) !! id = Some l' ∧ if decide (id < i + 1) then fresh_line bb id l' else l' = line0) as Hlines.
  { intros l Hl id Hid. destruct (decide (id = i)) as [->|Hne].
    - exists l. rewrite lookup_insert_eq, decide_True by lia. done.
    - rewrite lookup_insert_ne by done. destruct (H4 id Hid) as (l' & E & Hl'). exists l'. split; [done|].
      repeat case_decide; try lia; done. }
  assert (∀ (l : pblk_line) id, is_Some (<[i:=l]> (pb_lines (it_pb s)) !! id) → 0 ≤ id < blks) as Hdom.
  { intros l id. rewrite lookup_insert_is_Some. intros [<-|[_ ?]]; [done|by apply H5]. }
  rewrite bind_Ok_l. pose proof (free_ids_step bb i ltac:(lia)) as Hfs. fold g in Hfs.
  assert (ptrs_live (with_obj ("erase_bitmap", i) (with_obj ("blk_bitmap", i) s))) as Hlive by by do 2 apply with_obj_live.
  destruct (decide (g = 0)) as [Hz|Hz].
  - rewrite decide_False, app_nil_r in Hfs by lia.
    rewrite (aread_Some _ _ (ln_set_blk_in_line g (ln_set_blk_bitmap bm l1))) by (cbn; apply lookup_insert_eq).
    rewrite !bind_Ok_l. eexists. split; [done|]. split; [|by split; cbn; first [set_solver+|done]].
    constructor; cbn [it_pb it_set_pb it_set_capacity it_capacity it_lm it_bb it_heap it_ptrs upd_line pb_lines pb_set_lines
      pb_set_rl on_pb with_obj it_set_heap pb_rl pb_mg total_blocks rl_nr_secs free_blocks]; rewrite ?insert_insert_eq, ?Hstep, ?Hfs; try done; try lia.
    + apply Hlines. constructor; cbn; fold g; [by rewrite decide_False by lia|done|done|done].
    + intros id. apply Hdom.
  - rewrite decide_True in Hfs by lia.
    rewrite list_add_tail_ok.
    2:{ rewrite on_list_iff. intros (L & HL). cbn in HL. rewrite H6 in HL. case_decide; [|by apply elem_of_nil in HL].
        apply free_ids_below in HL. lia. }
    rewrite bind_Ok_l. eexists. split; [done|]. split; [|by split; cbn; first [set_solver+|done]].
    assert (length (free_ids bb i) ≤ Z.to_nat i)%nat as Hlen.
    { unfold free_ids. rewrite length_filter, length_seqZ. lia. }
    assert (i + 1 < 2 ^ 31) as Hi31 by (assert (i + 1 ≤ (i + 1) * nl) by (apply Z.le_mul_diag_r; lia); lia).
    constructor; cbn [it_pb it_set_pb it_set_capacity it_capacity it_lm it_bb it_heap it_ptrs upd_line pb_lines pb_set_lines
      pb_set_rl pb_set_mg on_pb with_obj it_set_heap pb_rl pb_mg total_blocks rl_nr_secs free_blocks];
      rewrite ?insert_insert_eq, ?Hstep; try done; try lia.
    + apply Hlines. constructor; cbn; fold g; [by rewrite decide_True by lia|done|done|done].
    + intros id. apply Hdom.
    + intros L. cbn. rewrite Hfs, !H6. by case_decide; destruct L.
    + cbn. rewrite H7, Hfs, length_app. cbn. rewrite s32_small; lia.
    + rewrite (u64_small (gs + g)); lia.
    + rewrite (u32_small (g * spb)), u64_small by lia. lia.
Qed.

Lemma init_lines_ok bb n i s :
  geo_ok dev → tables_ok dev bb → 0 ≤ i → i + Z.of_nat n = blks → lines_inv bb i s →
  ∃ s', init_lines alloc_ok dev n i s = Ok (true, s') ∧ lines_inv bb blks s' ∧ grown (line_maps i n) s s'.
Proof using Hall.
  intros Hg Ht. revert i s. induction n as [|n IH]; intros i s Hi Hn Hinv; cbn [init_lines].
  - exists s. split; [done|]. replace blks with i by lia. split; [done|].
    split; [| |done]; intros o; rewrite elem_of_nil; tauto.
  - destruct (init_line_ok bb i s Hg Ht ltac:(lia) Hinv) as (s1 & -> & H1 & G1). rewrite bind_Ok_l. cbn [fst snd].
    destruct (IH (i + 1) s1) as (s2 & -> & H2 & G2); [lia|lia|done|]. exists s2. split; [done|]. split; [done|].
    rewrite line_maps_cons. by eapply grown_app.
Qed.

(** The instance when the lines are set up: the good lines wait in the order of their
    numbers, and the three counts of what can be used agree. *)
Record lines_ready (bb : gmap Z (gmap Z Z)) (s : inst) : Prop := {
  rd_lm : lm_ok dev (it_lm s);
  rd_lines : ∀ id, 0 ≤ id < blks → ∃ l, pb_lines (it_pb s) !! id = Some l ∧ fresh_line bb id l;
  rd_dom : ∀ id, is_Some (pb_lines (it_pb s) !! id) → 0 ≤ id < blks;
  rd_lists : ∀ L, mg_lists (pb_mg (it_pb s)) L = if decide (L = L_free) then free_ids bb blks else [];
  rd_nfree : mg_nr_free_lines (pb_mg (it_pb s)) = Z.of_nat (length (free_ids bb blks));
  rd_total : total_blocks (pb_rl (it_pb s)) = goods dev bb (Z.to_nat blks);
  rd_free : free_blocks (pb_rl (it_pb s)) = goods dev bb (Z.to_nat blks);
  rd_secs : rl_nr_secs (pb_rl (it_pb s)) = goods dev bb (Z.to_nat blks) * spb;
  rd_cap : it_capacity s = goods dev bb (Z.to_nat blks) * spb;
}.

(** [s'] has the objects [os] more than [s], and no longer the tables of the LUNs. *)
Record settled (os : list obj) (s s' : inst) : Prop := {
  st_ptrs : ∀ o, o ∈ it_ptrs s' ↔ o ∈ os ∨ o ∈ it_ptrs s;
  st_live : ∀ o, o ∈ k_live (it_heap s') ↔ (o ∈ os ∨ o ∈ k_live (it_heap s)) ∧ o ∉ bb_lists nl;
  st_rsv : rb_gc_rsv (pb_rl (it_pb s')) = rb_gc_rsv (pb_rl (it_pb s));
}.

Lemma settled_app os1 os2 s1 s2 s3 : grown os1 s1 s2 → settled os2 s2 s3 → settled (os1 ++ os2) s1 s3.
Proof.
  intros [P1 L1 R1] [P2 L2 R2]. constructor; [| |by rewrite R2]; intros o;
    [rewrite P2, P1|rewrite L2, L1]; rewrite elem_of_app; tauto.
Qed.

Lemma NoDup_bb_lists n : NoDup (bb_lists n).
Proof. unfold bb_lists. apply NoDup_fmap_2; [|apply NoDup_seqZ]. intros a b [= ->]. done. Qed.

(** The tables of the LUNs go. *)
Lemma lines_fail_ok ret s :
  ptrs_live s → (∀ o, o ∈ bb_lists nl → o ∈ it_ptrs s) →
  ∃ h, lines_fail dev ret s = Ok (ret, it_set_heap h (it_ptrs s) s) ∧ settled [] s (it_set_heap h (it_ptrs s) s).
Proof.
  intros Hl Hb. unfold lines_fail. destruct (frees_ok (bb_lists nl) s) as (h & -> & Hh); [apply NoDup_bb_lists|done|].
  rewrite bind_Ok_l. exists h. split; [done|]. constructor; cbn; [set_solver+|intros o; rewrite Hh, elem_of_nil; specialize (Hb o); tauto|done].
Qed.

Lemma lines_setup_ok bb s :
  geo_ok dev → tables_ok dev bb → it_bb s = bb → lm_ok dev (it_lm s) → ptrs_live s → (∀ o, o ∈ bb_lists nl → o ∈ it_ptrs s) →
  mg_nr_free_lines (pb_mg (it_pb s)) = 0 →
  ∃ s', lines_setup alloc_ok dev s = Ok (0, s') ∧ lines_ready bb s' ∧ settled (("lines", 0) :: line_maps 0 (Z.to_nat blks)) s s'.
Proof using Hall.
  intros Hg Ht Hbb Hlm Hl Hb Hn. pose proof Hg as [G1 G2 G3 G4 G5 G6 G7 G8 G9 G10]. unfold lines_setup. rewrite alloc_with. cbn [negb].
  assert (0 < spb) as Hspb by (rewrite G5; by apply Z.mul_pos_pos).
  assert (0 < blks * nl) as Hbn by by apply Z.mul_pos_pos.
  assert (sec_per_lun geo * nl = blks * nl * spb) as Hsec by (rewrite G6; ring).
  assert (blks * nl ≤ blks * nl * spb) as Hle by (apply Z.le_mul_diag_r; lia).
  rewrite (s32_small (blks * nl)), (u64_small (blks * nl)), (s32_small (sec_per_lun geo * nl)), (u64_small (sec_per_lun geo * nl)) by lia.
  match goal with |- ∃ s', (r ← init_lines _ _ _ _ ?x; _) = _ ∧ _ => set (s0 := x) end.
  assert (lines_inv bb 0 s0) as Hinv.
  { constructor; try done.
    - by apply with_obj_live.
    - intros id Hid. exists line0. split; [cbn; rewrite lookup_array, decide_True by lia; done|]. by rewrite decide_False by lia.
    - intros id [l Hid]. cbn in Hid. rewrite lookup_array in Hid. by case_decide.
    - intros L. cbn. by case_decide.
    - change (blks * nl = blks * nl - (0 * nl - 0)). ring.
    - change (sec_per_lun geo * nl = sec_per_lun geo * nl - (0 * nl - 0) * spb). ring. }
  assert (grown [("lines", 0)] s s0) as Hgr by (split; cbn; first [set_solver+|done]).
  destruct (init_lines_ok bb (Z.to_nat blks) 0 s0) as (s1 & -> & Hinv1 & Hg1); [done|done|lia|lia|done|].
  rewrite bind_Ok_l. cbn [fst snd]. destruct (lines_fail_ok 0 s1) as (h & -> & Hs).
  { apply Hinv1. }
  { intros o Ho. apply (gr_ptrs _ _ _ Hg1). right. apply (gr_ptrs _ _ _ Hgr). right. by apply Hb. }
  eexists. split; [done|]. split.
  - destruct Hinv1. constructor; try done.
    + intros id Hid. destruct (vi_lines0 id Hid) as (l & E & Hfl). exists l. rewrite decide_True in Hfl by lia. done.
    + cbn. rewrite vi_free0. lia.
    + cbn. rewrite vi_cap0, Hsec. lia.
  - replace (("lines", 0) :: line_maps 0 (Z.to_nat blks)) with (([("lines", 0)] ++ line_maps 0 (Z.to_nat blks)) ++ []) by by rewrite app_nil_r.
    eapply settled_app; [by eapply grown_app|done].
Qed.

(** The objects of [pblk_lines_init] beside the lines. *)
Definition meta_objs : list obj :=
  [("sline_meta", 0); ("sline_meta", 1); ("eline_meta", 0); ("eline_meta", 1); ("gc_meta", 0); ("bb_template", 0); ("bb_aux", 0)].

Lemma lines_init_ok fuel bb s :
  geo_ok dev → tables_ok dev bb → it_bb s = bb → ptrs_live s → (∀ o, o ∈ bb_lists nl → o ∈ it_ptrs s) →
  mg_nr_lines (pb_mg (it_pb s)) = 0 → spb * nl + 1000 < Z.of_nat fuel →
  ∃ s', pblk_lines_init alloc_ok dev kmax sj ej fuel s = Ok (0, s') ∧ lines_ready bb s' ∧
    settled (meta_objs ++ ("lines", 0) :: line_maps 0 (Z.to_nat blks)) s s'.
Proof using Hall.
  intros Hg Ht Hbb Hl Hb Hn Hf. unfold pblk_lines_init. rewrite Hn.
  destruct (line_meta_ok dev fuel Hg Hf) as (lm & -> & Hlm). rewrite bind_Ok_l.
  assert (2 < fuel)%nat as Hf2. { destruct Hg. assert (0 < spb * nl) by (rewrite go_spb0; nia). lia. }
  rewrite alloc_metas_ok, bind_Ok_l by done. cbn [negb fst snd]. unfold alloc_emetas.
  rewrite alloc_metas_ok, bind_Ok_l by done. cbn [negb fst snd].
  rewrite alloc_with, bind_Ok_l, alloc_with. cbn [negb]. rewrite alloc_with. cbn [negb].
  destruct (bb_template_ok dev lm Hg Hlm) as (t & ->). rewrite bind_Ok_l.
  match goal with |- ∃ s', lines_setup _ _ ?x = _ ∧ _ => set (s0 := x) end.
  assert (grown meta_objs s s0) as Hgr.
  { split; [intros o; unfold meta_objs; cbn; rewrite !elem_of_union, !elem_of_singleton, !elem_of_cons, elem_of_nil; tauto..|done]. }
  destruct (lines_setup_ok bb s0) as (s1 & -> & Hr & Hs); [done|done|done|done| | |done|].
  { by eapply grown_live. }
  { intros o Ho. apply (gr_ptrs _ _ _ Hgr). right. by apply Hb. }
  exists s1. split; [done|]. split; [done|]. by eapply settled_app.
Qed.
End lines.

(** *** Write buffer and pools *)

Lemma foldl_fresh l (es : gmap Z pblk_rb_entry) x :
  foldl (λ m i, <[i := fresh_entry i]> m) es l !! x = if decide (x ∈ l) then Some (fresh_entry x) else es !! x.
Proof.
  revert es. induction l as [|i l IH]; intros es; cbn [foldl].
  - by rewrite decide_False by apply not_elem_of_nil.
  - rewrite IH. destruct (decide (x ∈ l)) as [Hx|Hx].
    + by rewrite decide_True by (by right).
    + destruct (decide (x = i)) as [->|Hne].
      * rewrite decide_True by (by left). by rewrite lookup_insert_eq.
      * rewrite decide_False by (rewrite elem_of_cons; tauto). by rewrite lookup_insert_ne.
Qed.

Lemma init_set_lookup order i es x :
  0 ≤ order → init_set order i es !! x = if decide (i ≤ x < i + 2 ^ order) then Some (fresh_entry x) else es !! x.
Proof.
  intros Ho. unfold init_set. rewrite foldl_fresh. pose proof (elem_of_seqZ i (2 ^ order) x). repeat case_decide; tauto || (exfalso; tauto).
Qed.

Section ready.
Context {K0 : Kops} {KL : KopsLaws} (alloc_ok : nat → bool) (Hall : ∀ n, alloc_ok n = true) (dev : nvm_tgt_dev).
Context (page mps : Z) (f : pblk_addr_format).

Notation geo := (td_geo dev).
Notation buf_pages := (NVM_MEM_PAGE_WRITE * sec_per_pg (td_geo dev) * nr_planes (td_geo dev) * nr_luns (td_geo dev)).
Notation nl := (nr_luns (td_geo dev)).
Notation spp := (sec_per_pl (td_geo dev)).
Notation spb := (sec_per_blk (td_geo dev)).
Notation blks := (blks_per_lun (td_geo dev)).

Lemma init_sets_ok iter order init es sets allocs :
  0 ≤ order → ∃ es' n, init_sets alloc_ok iter order init es sets allocs = Ok (0, es', (sets + iter)%nat, n) ∧
    ∀ x, es' !! x = if decide (init ≤ x < init + Z.of_nat iter * 2 ^ order) then Some (fresh_entry x) else es !! x.
Proof using Hall.
  intros Ho. pose proof (Z.pow_pos_nonneg 2 order ltac:(lia) Ho) as Hp.
  revert init es sets allocs. induction iter as [|iter IH]; intros init es sets allocs; cbn [init_sets].
  - exists es, allocs. rewrite Nat.add_0_r. split; [done|]. intros x. by rewrite decide_False by lia.
  - rewrite !Hall. destruct (IH (init + 2 ^ order) (init_set order init es) (S sets) (S (S allocs))) as (es' & n & -> & Hx).
    exists es', n. split; [do 3 f_equal; lia|]. intros x. rewrite Hx, init_set_lookup by done.
    assert (Z.of_nat (S iter) * 2 ^ order = 2 ^ order + Z.of_nat iter * 2 ^ order) as -> by lia.
    repeat case_decide; done || (exfalso; lia).
Qed.

Lemma order_nonneg n : 0 < n → 0 ≤ get_count_order n.
Proof using KL.
  intros Hn. destruct (get_count_order_law n Hn) as [_ H2]. destruct (decide (get_count_order n < 0)); [|lia].
  rewrite (Z.pow_neg_r 2 (get_count_order n)) in H2 by done. lia.
Qed.

(** The order of a power of two is its exponent. *)
Lemma order_pow2 k : 0 ≤ k → get_count_order (2 ^ k) = k.
Proof using KL.
  intros Hk. pose proof (Z.pow_pos_nonneg 2 k ltac:(lia) Hk) as Hp. destruct (get_count_order_law (2 ^ k) Hp) as [H1 H2].
  pose proof (order_nonneg _ Hp) as Hn.
  apply Z.pow_le_mono_r_iff in H2; [|lia..]. destruct (decide (get_count_order (2 ^ k) = 0)); [lia|].
  apply Z.pow_lt_mono_r_iff in H1; lia.
Qed.

Lemma order_bounds n b : 0 < n ≤ 2 ^ b → 0 ≤ b → 0 ≤ get_count_order n ≤ b.
Proof using KL.
  intros Hn Hb. destruct (get_count_order_law n) as [H1 H2]; [lia|]. set (o := get_count_order n) in *.
  assert (0 ≤ o) as Ho by (apply order_nonneg; lia).
  split; [done|]. destruct (decide (o = 0)); [lia|]. assert (o - 1 < b); [|lia]. apply (Z.pow_lt_mono_r_iff 2); lia.
Qed.

Lemma order_mono n m : 0 < n ≤ m → get_count_order n ≤ get_count_order m.
Proof using KL.
  intros Hn. destruct (get_count_order_law m) as [_ H2]; [lia|].
  apply order_bounds; [lia|]. apply order_nonneg. lia.
Qed.

(** What the set up of the buffer and the pools leaves alone. *)
Record same_lines (s s' : inst) : Prop := {
  sl_lm : it_lm s' = it_lm s;
  sl_lines : pb_lines (it_pb s') = pb_lines (it_pb s);
  sl_mg : pb_mg (it_pb s') = pb_mg (it_pb s);
  sl_cap : it_capacity s' = it_capacity s;
}.

Lemma calculate_size_ok n :
  0 < n ≤ 2 ^ 24 → ∃ k, 7 ≤ k ≤ 24 ∧ n ≤ 2 ^ k ∧ (k = 7 ∨ 2 ^ k < 2 * n) ∧ pblk_rb_calculate_size n = 2 ^ k.
Proof using KL.
  intros Hn. destruct (get_count_order_law n) as [H1 H2]; [lia|]. pose proof (order_bounds n 24 ltac:(lia) ltac:(lia)) as Ho.
  exists (Z.max (get_count_order n) 7). split; [lia|]. set (k := Z.max _ _).
  assert (2 ^ get_count_order n ≤ 2 ^ k) by (apply Z.pow_le_mono_r; lia). split; [lia|]. split.
  - destruct (decide (k = 7)) as [|Hk]; [by left|right]. assert (7 < get_count_order n) by lia. assert (k = get_count_order n - 1 + 1) as -> by lia.
    rewrite Z.pow_add_r by lia. lia.
  - unfold pblk_rb_calculate_size. fold k. rewrite Z.shiftl_1_l.
    assert (0 < 2 ^ k ≤ 2 ^ 24) by (split; [apply Z.pow_pos_nonneg|apply Z.pow_le_mono_r]; lia).
    rewrite s32_small, u32_small by lia. done.
Qed.

Lemma rwb_init_ok s :
  0 < it_pgs_in_buffer s ≤ 2 ^ 24 →
  ∃ k sets s', 7 ≤ k ≤ 24 ∧ it_pgs_in_buffer s ≤ 2 ^ k ∧ (k = 7 ∨ 2 ^ k < 2 * it_pgs_in_buffer s) ∧
    pblk_rwb_init alloc_ok dev s = Ok (0, s') ∧ grown (("entries", 0) :: sets_of sets) s s' ∧ same_lines s s' ∧
    pb_rl (it_pb s') = pblk_rl_init get_count_order (2 ^ k) (pb_rl (it_pb s)) ∧
    ∃ es, pb_rwb (it_pb s') = mk_rb es 0 0 0 EMPTY_ENTRY 0 (2 ^ k) ∧ ∀ x, 0 ≤ x < 2 ^ k → es !! x = Some (fresh_entry x).
Proof using Hall KL.
  intros Hb. destruct (calculate_size_ok _ Hb) as (k & Hk & Hbk & Hkb & Hsz). exists k. unfold pblk_rwb_init.
  rewrite Hsz, alloc_with, order_pow2 by (done || lia). cbn [negb]. rewrite (u32_small k) by lia. unfold pblk_rb_init.
  set (order := if decide _ then MAX_ORDER - 1 else k). set (iter := if decide _ then Z.shiftl 1 _ else 1).
  assert (0 ≤ order ∧ 0 ≤ iter ∧ iter * 2 ^ order = 2 ^ k) as (Ho & Hi & Hio).
  { unfold order, iter, MAX_ORDER. case_decide as Hd; [|lia]. rewrite Z.shiftl_1_l, <-Z.pow_add_r by lia.
    split; [lia|]. split; [apply Z.pow_nonneg; lia|]. f_equal. lia. }
  destruct (init_sets_ok (Z.to_nat iter) order 0 ∅ 0 (k_calls (it_heap (with_obj ("entries", 0) s))) Ho) as (es & n & E & Hes).
  cbn [pb_rwb rb_entries rb_set_entries pb_set_allocs pb_set_rwb pb_allocs]. rewrite E, bind_Ok_l. rewrite decide_True by done.
  rewrite bind_Ok_l. exists (0 + Z.to_nat iter)%nat. eexists. split; [done|]. split; [done|]. split; [done|]. split; [done|].
  assert (0 < 2 ^ k ≤ 2 ^ 24) as Hp by (split; [apply Z.pow_pos_nonneg|apply Z.pow_le_mono_r]; lia).
  assert (u32 (Z.shiftl 1 k) = 2 ^ k) as Hu by (rewrite Z.shiftl_1_l; apply u32_small; lia).
  split; [|split; [done|]]; [|split; [cbn; by rewrite Hu|]].
  - split; [intros o; cbn; rewrite !elem_of_union, ?elem_of_list_to_set, !elem_of_cons, ?elem_of_singleton; tauto..|done].
  - exists es. split; [cbn; by rewrite Hu|]. intros x Hx. rewrite Hes, decide_True by (rewrite Z2Nat.id by done; lia). done.
Qed.

Lemma alloc_chain_ok os got s : ∃ s', alloc_chain alloc_ok os got s = Ok (true, s') ∧ grown os s s' ∧ it_pb s' = it_pb s ∧
  same_lines s s' ∧ it_pgs_in_buffer s' = it_pgs_in_buffer s.
Proof using Hall.
  revert got s. induction os as [|o os IH]; intros got s; cbn [alloc_chain].
  - exists s. split; [done|]. split; [|done]. split; [intros x; rewrite elem_of_nil; tauto..|done].
  - rewrite alloc_with by done. destruct (IH (o :: got) (with_obj o s)) as (s' & -> & Hg & Hpb & [S1 S2 S3 S4] & Hb).
    exists s'. split; [done|]. split; [|split; [done|split; [by constructor|done]]].
    apply (grown_app [o] os s (with_obj o s)); [|done]. split; cbn; first [set_solver+|done].
Qed.

(** What the core checks of the device, and what it does not: there is a page in a sector of
    the device, and the buffer has at most [2 ^ 24] entries. *)
Record core_ok : Prop := {
  ck_min : 0 < spp * (sec_size geo / page);
  ck_small : spp * (sec_size geo / page) * nl < 2 ^ 31;
  ck_max : Z.min (spp * (sec_size geo / page) * nl) mps ≤ PBLK_MAX_REQ_ADDRS;
  ck_div : spb mod (spp * (sec_size geo / page)) = 0;
  ck_ppaf : pblk_set_ppaf get_count_order geo = (0, Some f);
  ck_buf : 0 < buf_pages ≤ 2 ^ 24;
}.

(** Enough good blocks for the windows of the rate limiter. *)
Definition roomy (bb : gmap Z (gmap Z Z)) : Prop :=
  let good := goods dev bb (Z.to_nat blks) in
  PBLK_USER_LOW_THRS ≤ good ∧ Z.max 128 (2 * buf_pages) ≤ PBLK_MAX_REQ_ADDRS * (good / PBLK_USER_HIGH_THRS).

(** An instance that may take writes: an empty buffer of [2 ^ k] entries, a limiter, and with
    a map that maps nothing all accounts agree. *)
Record instance_ready (bb : gmap Z (gmap Z Z)) (k : Z) (s : inst) : Prop := {
  ir_lines : lines_ready dev bb s;
  ir_buf : buf_pages ≤ 2 ^ k;
  ir_cfg : cfg_ok (cfg_of dev s f);
  ir_rl : rl_wf (pb_rl (it_pb s));
  ir_ring : ring_inv (cfg_of dev s f) k (it_pb (snd (pblk_l2p_init alloc_ok s))) (mk_cnt 0 0 0 0 0 0 ∅) [];
}.

Lemma core_init_ok s :
  geo_ok dev → core_ok → ∃ k sets s', 7 ≤ k ≤ 24 ∧ buf_pages ≤ 2 ^ k ∧ (k = 7 ∨ 2 ^ k < 2 * buf_pages) ∧
    pblk_core_init alloc_ok dev page mps s = Ok (0, s') ∧ grown (caches ++ pools ++ ("entries", 0) :: sets_of sets) s s' ∧
    same_lines s s' ∧ pb_rl (it_pb s') = pblk_rl_init get_count_order (2 ^ k) (pb_rl (it_pb s)) ∧
    ∃ es, pb_rwb (it_pb s') = mk_rb es 0 0 0 EMPTY_ENTRY 0 (2 ^ k) ∧ ∀ x, 0 ≤ x < 2 ^ k → es !! x = Some (fresh_entry x).
Proof using Hall KL.
  intros Hg [C1 C2 C3 C4 C5 C6]. pose proof (go_luns _ Hg) as Hnl. unfold pblk_core_init. set (min := spp * (sec_size geo / page)) in *.
  assert (min ≤ min * nl) as Hmn by (apply Z.le_mul_diag_r; lia).
  rewrite (s32_small min), (s32_small (min * nl)), (s32_small buf_pages) by lia.
  match goal with |- context [it_set_pgs min ?m buf_pages s] => set (max := m); assert (max = Z.min (min * nl) mps) as Hmax by (unfold max; case_decide; lia) end.
  rewrite decide_False by lia. rewrite BUG_ON_pass, bind_Ok_l, C4 by lia. rewrite decide_False by lia.
  set (s1 := it_set_pgs min max buf_pages s). unfold pblk_init_global_caches.
  destruct (alloc_chain_ok caches [] s1) as (s2 & -> & G2 & P2 & [A1 A2 A3 A4] & B2). rewrite !bind_Ok_l. cbn [fst snd].
  rewrite decide_False by lia. destruct (alloc_chain_ok pools [] s2) as (s3 & -> & G3 & P3 & [D1 D2 D3 D4] & B3).
  rewrite bind_Ok_l. cbn [fst snd negb]. rewrite C5.
  destruct (rwb_init_ok (it_set_ppaf (Some f) s3)) as (k & sets & s4 & Hk & Hk2 & Hk3 & -> & G4 & [E1 E2 E3 E4] & Hrl & Hrb).
  { cbn. rewrite B3, B2. exact C6. }
  cbn [it_pgs_in_buffer it_set_ppaf] in Hk2, Hk3. rewrite B3, B2 in Hk2, Hk3.
  rewrite bind_Ok_l. cbn [fst snd]. rewrite decide_False by lia. exists k, sets. eexists.
  do 3 (split; [done|]). split; [done|]. split.
  - assert (grown caches s s2) as G2'. { destruct G2. by constructor. }
    assert (grown pools s2 (it_set_ppaf (Some f) s3)) as G3'. { destruct G3. by constructor. }
    pose proof (grown_app _ _ _ _ _ (grown_app _ _ _ _ _ G2' G3') G4) as G. rewrite <-app_assoc in G.
    destruct G. by constructor.
  - split; [constructor; cbn; etrans; eauto; etrans; eauto|]. cbn. rewrite Hrl. cbn. rewrite P3, P2. done.
Qed.

Lemma lines_ready_same bb s s' :
  lines_ready dev bb s → same_lines s s' → rl_nr_secs (pb_rl (it_pb s')) = rl_nr_secs (pb_rl (it_pb s)) →
  total_blocks (pb_rl (it_pb s')) = total_blocks (pb_rl (it_pb s)) →
  free_blocks (pb_rl (it_pb s')) = free_blocks (pb_rl (it_pb s)) → lines_ready dev bb s'.
Proof. intros [] [E1 E2 E3 E4] H1 H2 H3. constructor; by rewrite ?E1, ?E2, ?E3, ?E4, ?H1, ?H2, ?H3. Qed.

Lemma fresh_line_ok c bb m id l :
  fresh_line dev bb id l → line_ok c m [] id l.
Proof. intros [E _ _ _]. constructor; rewrite E; by case_decide; naive_solver. Qed.

(** The limiter of a new instance. *)
Lemma fresh_limiter bb k l :
  7 ≤ k ≤ 24 → 0 ≤ goods dev bb (Z.to_nat blks) < 2 ^ 31 → total_blocks l = goods dev bb (Z.to_nat blks) →
  free_blocks l = total_blocks l → rb_gc_rsv l = 0 → 2 ^ k ≤ PBLK_MAX_REQ_ADDRS * (total_blocks l / PBLK_USER_HIGH_THRS) →
  PBLK_USER_LOW_THRS ≤ total_blocks l → rl_wf (pblk_rl_init get_count_order (2 ^ k) l).
Proof using KL.
  intros Hk Hg Ht Hf Hr Hw Hl. rewrite <-Ht in Hg. set (t := total_blocks l) in *.
  unfold PBLK_MAX_REQ_ADDRS, PBLK_USER_HIGH_THRS, PBLK_USER_LOW_THRS in *.
  assert (2 ^ k = 64 * 2 ^ (k - 6)) as Hp by (change 64 with (2 ^ 6); rewrite <-Z.pow_add_r by lia; f_equal; lia).
  assert (2 ^ k / 64 = 2 ^ (k - 6)) as Hd by (rewrite Hp, Z.mul_comm; by apply Z.div_mul).
  pose proof (Z.pow_pos_nonneg 2 (k - 6) ltac:(lia) ltac:(lia)) as Hpos.
  assert (0 < t / 50) as H50 by (apply Z.div_str_pos; lia).
  assert (t / 50 ≤ t / 4) as Hle by (apply Z.div_le_compat_l; lia).
  assert (t / 4 ≤ 2 ^ 30) as Hup by (apply Z.div_le_upper_bound; lia).
  pose proof (order_bounds (t / 4) 30 ltac:(lia) ltac:(lia)) as Ho. pose proof (order_bounds (t / 50) 30 ltac:(lia) ltac:(lia)) as Ho'.
  pose proof (order_mono (t / 50) (t / 4) ltac:(lia)) as Hm. pose proof (order_mono (2 ^ (k - 6)) (t / 4) ltac:(lia)) as Hm'.
  rewrite order_pow2 in Hm' by lia.
  constructor; cbn; fold t; unfold PBLK_MAX_REQ_ADDRS, PBLK_USER_HIGH_THRS, PBLK_USER_LOW_THRS; rewrite ?Hd, ?order_pow2 by lia;
    rewrite ?(u32_small (get_count_order (t / 4))), ?(u32_small (get_count_order (t / 50))) by lia; lia.
Qed.

(** Nothing is mapped and nothing is referred to: the accounts agree. *)
Lemma fresh_accounts bb c pb :
  (∀ id l, pb_lines pb !! id = Some l → fresh_line dev bb id l) → rl_wf (pb_rl pb) →
  acct_inv c (pb_set_trans_map (int_array (rl_nr_secs (pb_rl pb)) ADDR_EMPTY) pb) [] [].
Proof.
  intros Hl [_ W2 W3 _ _ _].
  assert (∀ a p, int_array (rl_nr_secs (pb_rl pb)) ADDR_EMPTY !! a = Some p → ¬ dev_addr p) as Hd.
  { intros a p. rewrite int_array_lookup. case_decide; [|done]. intros [= <-] [_ He]. done. }
  constructor; cbn [pb_trans_map pb_lines pb_rl pb_mg pb_set_trans_map].
  - intros id l E. eapply fresh_line_ok. by apply Hl.
  - intros a p E Hp. by apply Hd in E.
  - intros p Hp. by apply elem_of_nil in Hp.
  - intros a b p q E _ Hp. by apply Hd in E.
  - constructor.
  - intros a p q E Hp. by apply Hd in E.
  - intros a Ha. rewrite int_array_lookup, decide_True by done. by eexists.
  - intros id Hid. by apply elem_of_nil in Hid.
  - rewrite s32_small; lia.
Qed.

Lemma fresh_ring bb c k pb es :
  0 ≤ k ≤ 30 → pb_rwb pb = mk_rb es 0 0 0 EMPTY_ENTRY 0 (2 ^ k) → (∀ x, 0 ≤ x < 2 ^ k → es !! x = Some (fresh_entry x)) →
  (∀ id l, pb_lines pb !! id = Some l → fresh_line dev bb id l) → rl_wf (pb_rl pb) →
  ring_inv c k (pb_set_trans_map (int_array (rl_nr_secs (pb_rl pb)) ADDR_EMPTY) pb) (mk_cnt 0 0 0 0 0 0 ∅) [].
Proof.
  intros Hk Hrb Hes Hl Hwf. pose proof (Z.pow_pos_nonneg 2 k ltac:(lia) ltac:(lia)) as Hp.
  constructor; cbn [pb_rwb pb_set_trans_map pb_rl g_l2p g_sync g_map g_read g_subm g_mem g_writing]; rewrite ?Hrb; try done.
  - split; cbn; lia || set_solver+.
  - intros x Hx. exists (fresh_entry x). unfold ent. cbn [rb_entries rb_nr_entries]. rewrite Z.mod_small, Hes by lia.
    split; [done|]. split; [done|]. unfold entry_ok. cbn [g_mem g_read g_writing]. split; [by intros _|]. repeat split; intros; lia.
  - by eapply fresh_accounts.
  - by exists [].
Qed.

Lemma good_total bb : geo_ok dev → 0 ≤ goods dev bb (Z.to_nat blks) < 2 ^ 31.
Proof.
  intros [G1 G2 G3 G4 G5 G6 G7 _ _ _]. pose proof (goods_range dev bb (Z.to_nat blks) G1) as Hr. rewrite Z2Nat.id in Hr by lia.
  assert (1 ≤ spb) by (rewrite G5; nia). assert (blks * nl ≤ blks * nl * spb) by (apply Z.le_mul_diag_r; nia). lia.
Qed.

Lemma core_ready bb s :
  geo_ok dev → core_ok → roomy bb → lines_ready dev bb s → rb_gc_rsv (pb_rl (it_pb s)) = 0 →
  ∃ k sets s', pblk_core_init alloc_ok dev page mps s = Ok (0, s') ∧
    grown (caches ++ pools ++ ("entries", 0) :: sets_of sets) s s' ∧ instance_ready bb k s'.
Proof using Hall KL.
  intros Hg Hc [Hr1 Hr2] Hrd Hrsv.
  destruct (core_init_ok s Hg Hc) as (k & sets & s' & Hk & Hbk & Hkb & E & G & Hsl & Hrl & es & Hrb & Hes).
  exists k, sets, s'. split; [done|]. split; [done|].
  assert (lines_ready dev bb s') as Hrd' by (eapply lines_ready_same; [done|done|by rewrite Hrl..]).
  assert (rl_wf (pb_rl (it_pb s'))) as Hwf.
  { rewrite Hrl. pose proof (rd_total _ _ _ Hrd) as Ht. apply (fresh_limiter bb); rewrite ?Ht; try done.
    - by apply good_total.
    - apply Hrd.
    - destruct Hkb as [->|]; lia. }
  constructor; [done|done| |done|].
  - pose proof (rd_lm _ _ _ Hrd') as [L1 _ _ L4 _ _ _ _]. destruct Hg. constructor; cbn; unfold sec_bits; cbn; rewrite L1; [split; nia|lia].
  - unfold pblk_l2p_init. rewrite alloc_with by done. apply (fresh_ring bb _ _ _ es); [lia|done|done| |done].
    intros id l El. change (pb_lines (it_pb s') !! id = Some l) in El. destruct (rd_lines _ _ _ Hrd' id) as (l' & El' & Hf); [apply Hrd'; by eexists|].
    assert (l' = l) as -> by (rewrite El' in El; by injection El). done.
Qed.

(** Memory is cleared and the tables of the LUNs are there. *)
Record raw (bb : gmap Z (gmap Z Z)) (s : inst) : Prop := {
  rw_bb : it_bb s = bb;
  rw_tables : tables_ok dev bb;
  rw_live : ptrs_live s;
  rw_ptrs : ∀ o, o ∈ bb_lists nl → o ∈ it_ptrs s;
  rw_mg : mg_nr_lines (pb_mg (it_pb s)) = 0;
  rw_rl : rb_gc_rsv (pb_rl (it_pb s)) = 0;
}.

End ready.

(** Two channels of one LUN with 40 blocks; three of the 80 blocks are bad. *)
Definition geo_mid : nvm_geo := mk_geo 2 2 1 1 4 4 40 4096 (mk_af 8 1 7 0 0 0 4 6 2 2 0 2) 1 4 16 640.
Definition td_mid : nvm_tgt_dev :=
  mk_tgt_dev geo_mid (td_luns td_small) 1280 (td_map td_small) ("luns", 0) ("tgt_dev", 0).
Definition bb_mid (p : Z) : Z * gmap Z Z :=
  (0, list_to_map (map (λ i, (i, if decide (i = 5 ∨ p = 2 ^ 8 ∧ i = 2) then 1 else 0)) (seqZ 0 40))).
Definition inst_mid : inst :=
  match pblk_luns_init (λ _, true) td_mid geo_mid bb_mid (snd (alloc (λ _, true) ("pblk", 0) inst0)) with
  | Ok (_, s) => s
  | Fault _ => inst0
  end.
Definition paf_mid : pblk_addr_format := match snd (pblk_set_ppaf Z.log2_up geo_mid) with Some f => f | None => mk_paf 0 0 0 0 0 0 0 0 0 0 0 0 end.


(** ** Runs of [pblk_init] *)

(** One allocation fails. *)
Definition without (n k : nat) : bool := negb (Nat.eqb k n).

(** The run returns [ret] and leaves exactly the objects [os]. *)
Definition leaves (n : nat) (ret : Z) (os : list obj) : bool :=
  match init_small (without n) with
  | Ok (r, s) => bool_decide (r = ret) && bool_decide (k_live (it_heap s) = list_to_set os)
  | Fault _ => false
  end.

(* With all its memory the instance is made, and [pblk_free] releases everything but the
   queue of the collector, which [pblk_gc_exit] destroys. *)
Lemma init_then_free :
  (r ← init_small (λ _, true); s ← pblk_free (snd r); Ok (fst r, elements (k_live (it_heap s)))) = Ok (0, [("gc_wq", 0)]).
Proof. vm_compute. reflexivity. Qed.

(* The failures from the template of the bad blocks to the bitmaps of the lines are not
   reported: the instance goes on without lists, frees its metadata twice, or uses lines
   that are gone. *)
Lemma lines_init_failure_unreported :
  map (λ n, init_small (without n)) (seq 9 11) =
  map Fault [F_NULL; F_NULL; F_BUG; F_BUG; F_BUG; F_OOB; F_OOB; F_OOB; F_OOB; F_OOB; F_OOB].
Proof. vm_compute. reflexivity. Qed.

(* A failure that is reported leaves objects behind: the array of the LUNs, buffers of
   metadata, the bitmaps of the lines, the caches, the entries of the write buffer. *)
Lemma init_failure_leaks :
  leaves 2 (- ENOMEM) [("luns", 0)] = true ∧
  leaves 7 (- ENOMEM) [("sline_meta", 0); ("sline_meta", 1)] = true ∧
  leaves 8 (- ENOMEM) [("sline_meta", 1); ("eline_meta", 1)] = true ∧
  leaves 20 (- ENOMEM) (line_maps 0 4) = true ∧
  leaves 25 (- ENOMEM) (caches ++ line_maps 0 4) = true ∧
  leaves 33 (- ENOMEM) (("entries", 0) :: caches ++ line_maps 0 4) = true.
Proof. vm_compute. done. Qed.

(* The pages of the write buffer cannot be had: the function never returns. *)
Lemma rb_init_failure_deadlocks : init_small (without 34) = Fault F_FUEL.
Proof. vm_compute. reflexivity. Qed.

(* A bitmap of the next line cannot be had: the only reference to the open line is dropped. *)
Lemma next_line_failure_asserts : init_small (without 39) = Fault F_BUG.
Proof. vm_compute. reflexivity. Qed.

(* After the work queue of the collector failed everything is released. *)
Lemma late_failure_releases : leaves 41 (- ENOMEM) [] = true ∧ leaves 42 (- ENOMEM) [] = true.
Proof. vm_compute. done. Qed.
